(* ===== verification/_CoqProject ===== *)
-Q . S2P
Prelude.v
Frames.v
Json.v
JsonText.v
JsonIndent.v
JsonSaved.v
Base64.v
Text.v
Coerce.v
Crypto.v
SecureChannel.v
Messages.v
CanonicalJson.v
ResponderAuth.v
DataHandshake.v
Handshake.v
Effect.v
TunnelClient.v
Files.v
Paseto.v
Ticket.v
Replay.v
Url.v
Dedupe.v
Update.v
SecretStore.v
Secrets.v
Machine.v
Supervise.v
RequestTicket.v
Ssrf.v
Profile.v
ProxyServe.v
ProxyCommand.v
DataPlane.v
Channel.v
ControlClient.v
UnitEnv.v
Routing.v
Connect.v
Eval.v
Join.v
Reports.v
WalletCapture.v
Program.v
Trace.v
Setup.v
SetupFrame.v
Wizard.v
WizardOrder.v
SetupEnv.v
Render.v
Terminal.v
TerminalSafe.v
Release.v
Double.v
Runner.v
Suites.v
Composite.v
CompositeRun.v
Sustained.v
MultiCore.v
CpuBench.v
Page.v
AgreementPage.v
ConnectionPage.v
InstallPage.v
NetworkPage.v
RegistrationPage.v
SuccessPage.v
WalletPage.v
