(* ===== verification/Prelude.v ===== *)
(** * Consensus node: verification library

    A consensus node serves proxy requests for clients that an orchestrator sends to
    it.  It keeps one encrypted control tunnel to the orchestrator
    ([src/clients/control-client.ts]), over which it answers requests, carries
    streams and receives updates; clients reach it on a data plane
    ([src/tunnel/data-plane.ts]) with tickets the orchestrator signs
    ([src/tickets]); what it fetches passes an SSRF guard and a profile
    ([src/runtime]); its keys are sealed on disk ([src/node/secret-store.ts]).
    Source paths below are relative to [src/] of the repository.

    ** Conventions

    - A JavaScript string is its UTF-8 text, a [Buffer] a list of bytes, a number a
      decimal ([Json.num]) or [Z] where the code keeps it an integer; 32-bit
      operators wrap ([Coerce]), frame fields have their width ([Frames]).  Three
      things follow: bytes that are not UTF-8 decode to themselves where the language
      puts U+FFFD ([Prelude.utf8_text]); the length of a string counts bytes, not
      UTF-16 units, and trimming and case are those of ASCII ([Text]); and a JSON number
      keeps the decimal of its text, without rounding to binary64, which [Double] does
      for the benchmarks and for the scroll positions of a page.
    - JSON values keep the enumeration order of object members; [JSON.parse] and
      [JSON.stringify] are defined ([Json], [JsonText]) and inverse to each other.
    - A function that throws returns [result]; a method that changes state and may
      throw is an [Effect.eff].  An event loop is a sequence of events, each one
      stretch of code between two awaits; a continuation that waits is state.
    - What is not code of the repository is a class: hashing, signatures, AEAD, key
      exchange and HKDF ([Crypto]), the URL parser ([Url]); their laws are separate
      classes, satisfied by the [Toy] instances the witnesses compute with.  Hashes
      are not assumed injective: a theorem that needs it ends in [collide a b] for
      two explicit inputs.  Fetch, DNS, clocks, random bytes and sockets are
      arguments or events.
    - A disk is a map from paths to what a read of them gives ([Files]): the bytes of a
      file, those of a file on a disk that is full - a write truncates it and throws -
      or the code of an error that reads and writes throw.  A new file can always be
      made, and a write that fails part of the way leaves the empty file, never a
      proper part of the new text.  The saves of the machine registry fail as a list
      of outcomes says ([Machine]).
    - Recursion on fuel occurs in the JSON parser and in printing integers, whose fuel
      is their logarithm ([JsonText.dec_fuel]).  [JSON_parse] gives the parser twice
      the length of the text, and [JsonText.JSON_parse_stringify] shows that this is
      enough for every printed value.

    ** Files

    Language and libraries:
    - [Prelude]: results, bytes, fixed-width integers, tactics.  [Effect]: methods
      and what they preserve.  [Json], [JsonText], [Coerce], [Text], [Base64],
      [Url], [Files], [JsonIndent]: the values the language gives (paths and files
      with node/state.ts, whose indented JSON is read back).
    - [Crypto]: the cryptographic services.

    The tunnel:
    - [Frames] (tunnel/frames.ts): the codec accepts exactly the well-formed frames
      and is a bijection with them.
    - [SecureChannel] (crypto/secure-channel.ts): both roles derive crossed keys;
      sealing and opening are inverse; what opens is authentic.
    - [Messages] (tunnel/messages.ts): the 21 messages and their round trip.
    - [CanonicalJson], [ResponderAuth], [DataHandshake], [Handshake]
      (crypto/canonical-json.ts, tunnel/responder-auth.ts, tunnel/data-handshake.ts,
      tunnel/handshake.ts): two honest ends agree; an accepted proof comes from the
      pinned key; a relay cannot give two ends different transcripts.
    - [TunnelClient] (tunnel/tunnel-client.ts): frames are delivered in order and
      once; every request is settled once, and in the end.
    - [Connect] (tunnel/connect.ts): the phases of a socket from opening to the
      client; an honest pair gets a working tunnel, no client gets a session that
      the pinned key did not sign for, and an attempt that failed stays failed.

    The data plane:
    - [Paseto], [Ticket], [Replay], [RequestTicket] (tickets/): an accepted ticket was
      signed for this node and this request and is spent once.
    - [DataPlane], [Channel] (tunnel/data-plane.ts, clients/data-plane-stream.ts,
      runtime/data-route.ts): nothing is served without a ticket, a ticket is served
      once, client and node complete a round trip; the transport refines a queue.

    The proxy:
    - [Dedupe], [Ssrf], [Profile], [ProxyServe], [ProxyCommand] (runtime/): the key of
      a request binds it; no fetch goes to a private address (IPv4; the IPv6 gaps
      are stated); headers are stripped, profiles enforced, cache entries isolated.

    The node:
    - [ControlClient] (clients/control-client.ts): [State] holds the variables of
      [startControlClient]; [onMessage], the socket and stream callbacks, the timers
      and [resume] (the code after an await) are its steps.  [stable] and
      [stable_step] carry an invariant through every handler, [calm] and [calm_step]
      through those that do not touch the updates; the counts of requests and the end
      of the tunnel are instances.  [prepared_by] and [still] tie what the installer
      is given to the history: announced, fetched, checked where the manifest has a
      digest, and still in the file.
    - [Routing]: the tables of public tunnels; bytes do not cross streams as long as
      the orchestrator opens fresh ids, and do when it reopens a tunnel.
    - [Update] (update.ts, node/manifest.ts, version.ts), [SecretStore]
      (node/secret-store.ts, crypto/identity.ts), [Machine] (node/machine.ts),
      [Supervise] (supervise.ts, control.ts): artifacts are checked before they are
      written, secrets survive restarts, a registered identity is not replaced unless
      its key file holds the empty text or a key file is missing, one node per machine,
      the unit ends and reconnects within bounds.  [Supervise] compares the unit with
      what its history says ([first_child], [first_signal], [code_of]).  [UnitEnv]
      (supervise.ts): what the children of the unit find in their environment.

    - [Eval] (clients/eval-client.ts, runtime/eval.ts, runtime/network-eval.ts,
      eval.ts), [Join] (registration/join.ts), [WalletCapture]
      (registration/wallet-capture.ts), [Reports] (node/integrity.ts,
      node/headless.ts, verify.ts, runtime/server.ts): a request for a measurement
      gets one answer, within bounds; the authorization it ends with lets the node
      join; a registration that throws has kept the configuration, or is one that the
      server granted and whose write, or whose claim on the machine, failed
      ([Join.half_kept]); only valid addresses are captured.

    The setup:
    - [Program], [Trace]: an [async] function is a tree of atomic actions on shared
      state and of questions to the outside (children, fetches, clocks, prompts).
      Programs run interleaved ([reaches]), or one alone with its history
      ([advance]); an invariant is proved one program at a time ([keeps]), a claim on
      each question from a weakest precondition ([wp]).  [execution] and [Chronicle]
      record what was asked and answered, so that a claim can name what was fetched.  [JsonSaved]: what is read
      back after a parsed value was changed and saved.
    - [Setup], [SetupFrame]: what the wizard and the command share, and what of it
      leaves the progress file alone.
    - [Wizard], [WizardOrder] (setup-wizard.ts): every handler of the wizard; however
      requests interleave, no step is done before its turn.  Requests can lose each
      other's progress.  The theorem is about the real flow; the test flow, which
      simulates steps, is modelled and excluded by its setting.  Children may change
      any file but the progress.
    - [SetupEnv]: what the wizard checked is what [Join.optionsFromEnv] reads.
    - [Render] (setup-wizard/render.ts): no value can add a tag to a page.
    - [Terminal], [TerminalSafe] (setup.ts): the same setup asked at a terminal;
      nothing is installed without a yes, and the registration is of what was saved.
      [requiredQuestion] takes the number of empty answers after which the terminal
      counts as closed ([required_enough]).

    In the browser.  A script is a set of handlers on the elements of its page; each
    one runs to its next [await] and leaves what waits for the answer ([Page]).  The
    theorems hold for every order of clicks and answers:
    - [AgreementPage], [ConnectionPage], [InstallPage], [NetworkPage],
      [RegistrationPage], [SuccessPage] (setup-wizard/templates): what a page sends is
      what the wizard takes, one request at a time, and it leads on only when the step
      is done.  What an answer or a measurement told the page is read off its history
      ([AgreementPage.text_below], exact in 1024ths of a pixel).  [RegistrationPage] can register twice, and loses a port that was typed;
      the examples after each theorem show such sequences.
    - [WalletPage] (the page of registration/wallet-capture.ts): each submission is a
      click with three addresses at hand, and sends those last pasted or given for
      their wallets ([latest]); [WalletCapture] takes exactly these if the extensions
      give well-formed ones.

    Around the node:
    - [Secrets] (secrets-check.ts): after a check that passed, a later process of the
      account opens every secret that is there, though it takes an empty private key
      for a missing one.
    - [Release] (release.ts): what the tool publishes is what nodes download and
      accept, and what they then never count as current.

    The benchmarks (runtime/benchmarks, bench-cpu.ts), which compute with rounding:
    - [Double]: IEEE binary64, from [SpecFloat].  [Runner] (runner.ts): the measuring
      loop and its statistics.  Its fuel counts readings of the clock; [bench_returns]
      and the theorems that end in [_returns] or [_ends] show that some fuel is enough.
    - [Suites]: the suites of one primitive; none of their checks can throw.
    - [Composite], [CompositeRun] (suites/composite-request.ts): the timed copy of the
      data plane does what production does; the totals are those of the measured
      iterations.  [Sustained] (suites/sustained.ts): the windows tile the run.
    - [MultiCore] (suites/multi-core.ts, multi-core.worker.ts): the chain of a worker
      can be checked and loses nothing; no worker is left running.
    - [CpuBench] (bench-cpu.ts): which machines are admissible, and that the tool ends.

    ** Interfaces

    A client is proved against what it calls: [TunnelClient] and [DataPlane] against
    the laws of [Crypto] through [SecureChannel], [DataPlane] against
    [RequestTicket.commit_cases] and the tracking lemmas of [Replay],
    [ControlClient] against [Update.download_inv] and the stream machine of
    [Channel], [SecretStore] against a [KeystoreAdapter] record with the two
    adapters of the code, [Connect] against the lemmas [Handshake.honest_tunnel_run] and
    [TunnelClient.send_cases], [Join] against [SecretStore.identity_keeps] and
    [Machine.claim_allowed].  What a step of the setup may change is stated by two
    classes of [SetupFrame], [Framed] and [Allows]; [Wizard] and [Terminal] are proved
    against them.

    ** Not modelled

    Logging; file modes and directories; two first uses of the data key at once; TypeScript types of message members, which the code does not check
    either ([ControlClient.NoTarget] is the case where that matters).
    Listening on a port, opening a browser, the markup of the pages and the bodies of
    asset files; readline and what commands print.  Of a page: focus, layout and the
    disabling of a control by anything but its script (a click on a control that is off
    is not delivered; hidden ones can be clicked).
    Garbage collection between benchmarks, the printed summary of the CPU bench and the
    HTTP routes that call the suites.  [tar] and [git], which the release tool runs. *)

From stdpp Require Export base tactics option list strings gmap sets pretty.
From Stdlib Require Export ZArith Lia.
From Stdlib Require Import Strings.Byte.
From Stdlib Require Export Ascii.


#[global] Arguments String.append _ _ : simpl nomatch.

(** ** JavaScript exceptions and the error monad *)

(** The three error classes the code throws; the text is the message. *)
Inductive exn :=
| RangeError (msg : string)
| TypeError (msg : string)
| PlainError (msg : string).

#[export] Instance exn_eq_dec : EqDecision exn.
Proof. solve_decision. Defined.

(** [error instanceof Error ? error.message : String(error)]. *)
Definition errorMessage (e : exn) : string :=
  match e with RangeError m | TypeError m | PlainError m => m end.

Inductive result (A : Type) :=
| Ok (a : A)
| Throw (e : exn).
Arguments Ok {A} a.
Arguments Throw {A} e.

#[export] Instance result_ret : MRet result := fun A a => Ok a.
#[export] Instance result_bind : MBind result := fun A B f m =>
  match m with Ok a => f a | Throw e => Throw e end.
#[export] Instance result_fmap : FMap result := fun A B f m =>
  match m with Ok a => Ok (f a) | Throw e => Throw e end.
#[export] Instance result_eq_dec `{EqDecision A} : EqDecision (result A).
Proof. solve_decision. Defined.

(** [if (b) throw e;] *)
Definition throw_if (b : bool) (e : exn) : result unit :=
  if b then Throw e else Ok tt.

(** The success projection, used where only [Ok] matters. *)
Definition is_ok {A} (r : result A) : bool :=
  match r with Ok _ => true | Throw _ => false end.

Definition ok_or {A} (d : A) (r : result A) : A :=
  match r with Ok a => a | Throw _ => d end.

Lemma ok_or_ok {A} (d : A) r : is_ok r = true -> r = Ok (ok_or d r).
Proof. by destruct r. Qed.

Definition of_option {A} (o : option A) (e : exn) : result A :=
  match o with Some a => Ok a | None => Throw e end.

Section ResultLemmas.
Context {A B : Type}.

Lemma Ok_inj (a a' : A) : Ok a = Ok a' -> a = a'.
Proof. by intros [= ->]. Qed.

Lemma bind_ok (m : result A) (f : A -> result B) b :
  m ≫= f = Ok b <-> exists a, m = Ok a /\ f a = Ok b.
Proof.
  destruct m as [a|e]; cbn; naive_solver.
Qed.

Lemma bind_throw (m : result A) (f : A -> result B) e :
  m ≫= f = Throw e <->
  m = Throw e \/ exists a, m = Ok a /\ f a = Throw e.
Proof.
  destruct m as [a|e']; cbn; naive_solver.
Qed.

Lemma fmap_result_ok (f : A -> B) (m : result A) b : f <$> m = Ok b <-> exists a, m = Ok a /\ b = f a.
Proof. destruct m as [a|e]; cbn; naive_solver. Qed.

Lemma of_option_ok (o : option A) e a : of_option o e = Ok a <-> o = Some a.
Proof. destruct o; cbn; split; intros; by simplify_eq. Qed.
End ResultLemmas.

Lemma throw_if_ok b e u : throw_if b e = Ok u <-> b = false.
Proof. destruct b, u; cbn; split; done. Qed.

Lemma throw_if_throw b e e' : throw_if b e = Throw e' <-> b = true /\ e = e'.
Proof. destruct b; cbn; split; intros; destruct_and?; by simplify_eq. Qed.

(** Inversion of monadic successes: turns every [m ≫= f = Ok r] among the
    hypotheses into its components. *)
Ltac inv_ok :=
  repeat match goal with
  | H : Ok _ = Ok _ |- _ => apply Ok_inj in H; subst
  | H : Throw _ = Ok _ |- _ => discriminate H
  | H : Ok _ = Throw _ |- _ => discriminate H
  | H : mret _ = Ok _ |- _ => apply Ok_inj in H; subst
  | H : throw_if _ _ = Ok _ |- _ => apply throw_if_ok in H
  | H : of_option _ _ = Ok _ |- _ => apply of_option_ok in H
  | H : (_ ≫= _) = Ok _ |- _ =>
      let a := fresh "r" in let H1 := fresh "Hm" in let H2 := fresh "Hk" in
      apply bind_ok in H as (a & H1 & H2)
  | u : unit |- _ => destruct u
  end.

(** ** Booleans read as propositions *)

Ltac bool_solve :=
  repeat match goal with
  | H : (_ && _)%bool = true |- _ => apply andb_true_iff in H as [? ?]
  | H : (_ || _)%bool = false |- _ => apply orb_false_iff in H as [? ?]
  | H : negb _ = true |- _ => apply negb_true_iff in H
  | H : negb _ = false |- _ => apply negb_false_iff in H
  | H : (_ =? _)%Z = true |- _ => apply Z.eqb_eq in H
  | H : (_ =? _)%Z = false |- _ => apply Z.eqb_neq in H
  | H : (_ <? _)%Z = true |- _ => apply Z.ltb_lt in H
  | H : (_ <? _)%Z = false |- _ => apply Z.ltb_ge in H
  | H : (_ <=? _)%Z = true |- _ => apply Z.leb_le in H
  | H : (_ <=? _)%Z = false |- _ => apply Z.leb_gt in H
  | H : bool_decide _ = true |- _ => apply bool_decide_eq_true in H
  | H : bool_decide _ = false |- _ => apply bool_decide_eq_false in H
  end.

(** A boolean test on a range of integers, by computation. *)
Lemma forallb_range (f : Z -> bool) n : forallb f (seqZ 0 n) = true -> forall z, (0 <= z < n)%Z -> f z = true.
Proof.
  intros H z Hz. apply (proj1 (forallb_forall _ _) H), list_elem_of_In, elem_of_seqZ. lia.
Qed.

(** What holds of a list holds of its sublists. *)
Lemma Forall_of_sublist {A} (P : A -> Prop) l1 l2 : sublist l1 l2 -> Forall P l2 -> Forall P l1.
Proof. intros Hs Hl. rewrite Forall_forall in *. intros x Hx. by apply Hl, (sublist_subseteq _ _ Hs). Qed.

(** ** Bytes and buffers *)

Notation byte := Byte.byte.
#[export] Instance byte_eq_dec : EqDecision byte := Byte.byte_eq_dec.

(** A Node [Buffer] is the list of its bytes. *)
Notation buffer := (list byte).

Definition Z_of_byte (b : byte) : Z := Z.of_N (Byte.to_N b).
Definition byte_of_Z (z : Z) : byte :=
  match Byte.of_N (Z.to_N (z mod 256)) with Some b => b | None => Byte.x00 end.

Lemma Z_of_byte_range b : (0 <= Z_of_byte b < 256)%Z.
Proof. unfold Z_of_byte. pose proof (Byte.to_N_bounded b). lia. Qed.

Lemma byte_of_Z_of_byte b : byte_of_Z (Z_of_byte b) = b.
Proof. by destruct b. Qed.

Lemma Z_of_byte_of_Z z : Z_of_byte (byte_of_Z z) = (z mod 256)%Z.
Proof.
  unfold byte_of_Z, Z_of_byte.
  destruct (Byte.of_N _) as [b|] eqn:E.
  - apply Byte.to_of_N in E. rewrite E.
    pose proof (Z.mod_pos_bound z 256). lia.
  - apply Byte.of_N_None_iff in E. pose proof (Z.mod_pos_bound z 256). lia.
Qed.

Lemma Z_of_byte_inj b1 b2 : Z_of_byte b1 = Z_of_byte b2 -> b1 = b2.
Proof. intros H. by rewrite <- (byte_of_Z_of_byte b1), H, byte_of_Z_of_byte. Qed.

(** Fixed-width big-endian integers: [writeUInt8], [writeUInt32BE],
    [writeBigUInt64BE] and their readers. *)
Fixpoint be_encode (n : nat) (z : Z) : buffer :=
  match n with
  | O => []
  | S n' => be_encode n' (z / 256) ++ [byte_of_Z z]
  end.

Definition be_decode (l : buffer) : Z :=
  fold_left (fun acc b => acc * 256 + Z_of_byte b)%Z l 0%Z.

Lemma be_encode_length n z : length (be_encode n z) = n.
Proof.
  revert z; induction n as [|n IH]; intros z; cbn; [done|].
  rewrite length_app, IH; cbn; lia.
Qed.

Lemma be_decode_snoc l b : be_decode (l ++ [b]) = (be_decode l * 256 + Z_of_byte b)%Z.
Proof. unfold be_decode. by rewrite fold_left_app. Qed.

Lemma be_decode_encode n z : be_decode (be_encode n z) = (z mod 256 ^ Z.of_nat n)%Z.
Proof.
  revert z; induction n as [|n IH]; intros z.
  - cbn. by rewrite Z.mod_1_r.
  - cbn [be_encode]. rewrite be_decode_snoc, IH, Z_of_byte_of_Z.
    rewrite Nat2Z.inj_succ, Z.pow_succ_r by lia.
    rewrite (Z.mul_comm 256), Z.mul_comm.
    rewrite (Z.mul_comm _ 256).
    rewrite Z.rem_mul_r by lia. lia.
Qed.

Lemma be_decode_encode_small n z :
  (0 <= z < 256 ^ Z.of_nat n)%Z -> be_decode (be_encode n z) = z.
Proof. intros H. by rewrite be_decode_encode, Z.mod_small. Qed.

Lemma be_encode_decode l : be_encode (length l) (be_decode l) = l.
Proof.
  induction l as [|b l IH] using rev_ind; [done|].
  rewrite length_app, Nat.add_1_r. cbn [be_encode].
  rewrite be_decode_snoc.
  pose proof (Z_of_byte_range b).
  replace ((be_decode l * 256 + Z_of_byte b) / 256)%Z with (be_decode l)
    by (symmetry; rewrite Z.div_add_l by lia; rewrite Z.div_small by lia; lia).
  rewrite IH. do 2 f_equal.
  apply Z_of_byte_inj. rewrite Z_of_byte_of_Z.
  rewrite Z.add_comm, Z.mod_add by lia. by apply Z.mod_small.
Qed.

Lemma be_decode_bound l : (0 <= be_decode l < 256 ^ Z.of_nat (length l))%Z.
Proof.
  induction l as [|b l IH] using rev_ind; [cbn; lia|].
  rewrite be_decode_snoc, length_app, Nat.add_1_r, Nat2Z.inj_succ, Z.pow_succ_r by lia.
  pose proof (Z_of_byte_range b). lia.
Qed.

Lemma be_decode_inj l1 l2 :
  length l1 = length l2 -> be_decode l1 = be_decode l2 -> l1 = l2.
Proof.
  intros Hl Hv. by rewrite <- (be_encode_decode l1), <- (be_encode_decode l2), Hl, Hv.
Qed.

Lemma be_encode_inj n z1 z2 :
  (0 <= z1 < 256 ^ Z.of_nat n)%Z -> (0 <= z2 < 256 ^ Z.of_nat n)%Z ->
  be_encode n z1 = be_encode n z2 -> z1 = z2.
Proof.
  intros H1 H2 E. by rewrite <- (be_decode_encode_small n z1), E, be_decode_encode_small.
Qed.

(** [buf.subarray(i, j)] for indices inside the buffer. *)
Definition subarray (i j : nat) (l : buffer) : buffer := take (j - i) (drop i l).

Lemma subarray_length i j l :
  i <= j -> j <= length l -> length (subarray i j l) = j - i.
Proof. intros. unfold subarray. rewrite length_take, length_drop. lia. Qed.

(** A buffer is its consecutive slices. *)
Lemma subarray_split i l : i <= length l -> l = subarray 0 i l ++ drop i l.
Proof.
  intros. unfold subarray. rewrite drop_0, Nat.sub_0_r. by rewrite take_drop.
Qed.

Lemma drop_subarray i j l : i <= j -> drop i l = subarray i j l ++ drop j l.
Proof.
  intros. unfold subarray.
  rewrite <- (take_drop (j - i) (drop i l)) at 1. f_equal.
  rewrite drop_drop. f_equal. lia.
Qed.

Lemma subarray_skip i j a l :
  length a <= i -> subarray i j (a ++ l) = subarray (i - length a) (j - length a) l.
Proof.
  intros H. unfold subarray. rewrite drop_app_ge by done. f_equal.
  lia.
Qed.

Lemma subarray_here j b l : length b = j -> subarray 0 j (b ++ l) = b.
Proof. intros <-. unfold subarray. rewrite drop_0, Nat.sub_0_r. by rewrite take_app_length. Qed.

Lemma subarray_all j b : length b = j -> subarray 0 j b = b.
Proof. intros <-. unfold subarray. rewrite drop_0, Nat.sub_0_r. by rewrite firstn_all. Qed.

(** [buf.readUInt8/16/32/64BE(i)] with [n] bytes at offset [i]. *)
Definition readBE (n i : nat) (l : buffer) : Z := be_decode (subarray i (i + n) l).

#[global] Arguments subarray : simpl never.
#[global] Arguments readBE : simpl never.
#[global] Arguments be_decode : simpl never.

Lemma readBE_encode n i l :
  i + n <= length l -> be_encode n (readBE n i l) = subarray i (i + n) l.
Proof.
  intros H. unfold readBE.
  rewrite <- (be_encode_decode (subarray i (i + n) l)) at 2.
  rewrite subarray_length by lia. f_equal. lia.
Qed.

Lemma readBE_bound n i l : (0 <= readBE n i l < 256 ^ Z.of_nat n)%Z.
Proof.
  pose proof (be_decode_bound (subarray i (i + n) l)) as [H1 H2].
  unfold readBE. split; [done|]. eapply Z.lt_le_trans; [exact H2|].
  apply Z.pow_le_mono_r; [lia|]. unfold subarray. rewrite length_take. lia.
Qed.

(** Hexadecimal text of a non-negative integer ([n.toString(16)]). *)
Definition hex_digit (z : Z) : ascii :=
  default "0"%char (String.get (Z.to_nat z) "0123456789abcdef").

Fixpoint hex_aux (fuel : nat) (z : Z) (acc : string) : string :=
  match fuel with
  | O => acc
  | S f => let acc' := String (hex_digit (z mod 16)) acc in
           if (z <? 16)%Z then acc' else hex_aux f (z / 16) acc'
  end.

Definition toHex (z : Z) : string := hex_aux (S (Z.to_nat (Z.log2 z))) z "".

(** [s.padStart(2, "0")]. *)
Definition padStart2 (s : string) : string :=
  match String.length s with O => "00" | 1 => "0" +:+ s | _ => s end.

(** ** Text and bytes *)

(** A JavaScript string is represented by its UTF-8 bytes, so [Buffer.from(s,
    "utf8")] and [buf.toString("utf8")] are the two conversions below. *)
Definition utf8 (s : string) : buffer := String.list_byte_of_string s.
Definition utf8_text (b : buffer) : string := String.string_of_list_byte b.

Lemma utf8_text_utf8 s : utf8_text (utf8 s) = s.
Proof. apply String.string_of_list_byte_of_string. Qed.

Lemma utf8_utf8_text b : utf8 (utf8_text b) = b.
Proof. apply String.list_byte_of_string_of_list_byte. Qed.

Lemma utf8_inj s1 s2 : utf8 s1 = utf8 s2 -> s1 = s2.
Proof. intros H. by rewrite <- (utf8_text_utf8 s1), H, utf8_text_utf8. Qed.

#[export] Instance utf8_Inj : Inj (=) (=) utf8.
Proof. intros ??; apply utf8_inj. Qed.

(** ** String lemmas *)

Lemma str_app_assoc (a b c : string) : (a +:+ b) +:+ c = a +:+ (b +:+ c).
Proof. induction a as [|x a IH]; cbn; [done|by rewrite IH]. Qed.

Lemma str_app_nil (a : string) : a +:+ "" = a.
Proof. induction a as [|x a IH]; cbn; [done|by rewrite IH]. Qed.

Lemma str_app_length (a b : string) :
  String.length (a +:+ b) = (String.length a + String.length b)%nat.
Proof. induction a as [|x a IH]; cbn; [done|by rewrite IH]. Qed.

Lemma str_app_inj (a b c : string) : a +:+ b = a +:+ c -> b = c.
Proof. induction a as [|x a IH]; cbn; [done|]. by intros [= E%IH]. Qed.

Create HintDb bytes.
#[export] Hint Rewrite utf8_text_utf8 utf8_utf8_text be_encode_length
  byte_of_Z_of_byte Z_of_byte_of_Z : bytes.
#[export] Hint Resolve Z_of_byte_range be_decode_bound : bytes.
