(* ===== verification/Frames.v ===== *)
(** * Encrypted tunnel frames ([src/tunnel/frames.ts])

    The binary layout of a frame: a 26-byte header (version, type, 64-bit
    sequence, 12-byte nonce, 32-bit ciphertext length), the ciphertext and a
    16-byte authentication tag.  Lengths are [nat], integers are [Z]. *)

From S2P Require Import Prelude.
Local Open Scope Z_scope.

Definition FRAME_VERSION : Z := 1.

Module FRAME_TYPE.
Definition HANDSHAKE : Z := 0x01.
Definition DATA : Z := 0x10.
Definition PING : Z := 0x20.
Definition PONG : Z := 0x21.
Definition CLOSE : Z := 0x30.
Definition ERROR : Z := 0x31.
End FRAME_TYPE.

Record FrameParts := {
  fp_version : Z;
  fp_type : Z;
  fp_sequence : Z;
  fp_nonce : buffer;
  fp_ciphertext : buffer;
  fp_tag : buffer;
}.

Definition HEADER_SIZE : nat := 26.
Definition NONCE_SIZE : nat := 12.
Definition TAG_SIZE : nat := 16.
Definition MAX_U64 : Z := 2 ^ 64 - 1.
Definition VALID_TYPES : list Z :=
  [FRAME_TYPE.HANDSHAKE; FRAME_TYPE.DATA; FRAME_TYPE.PING; FRAME_TYPE.PONG;
   FRAME_TYPE.CLOSE; FRAME_TYPE.ERROR].

Definition unknown_type (t : Z) : exn :=
  RangeError ("Unknown frame type: 0x" +:+ padStart2 (toHex t)).

Definition validateParts (p : FrameParts) : result unit :=
  throw_if (negb (fp_version p =? FRAME_VERSION))
    (RangeError ("Unsupported frame version: " +:+ pretty (fp_version p)));;
  throw_if (negb (bool_decide (fp_type p ∈ VALID_TYPES))) (unknown_type (fp_type p));;
  throw_if ((fp_sequence p <? 0) || (MAX_U64 <? fp_sequence p))
    (RangeError "Frame sequence must fit in u64");;
  throw_if (negb (bool_decide (length (fp_nonce p) = NONCE_SIZE)))
    (RangeError "Frame nonce must be 12 bytes");;
  throw_if (negb (bool_decide (length (fp_tag p) = TAG_SIZE)))
    (RangeError "Frame auth tag must be 16 bytes");;
  throw_if (0xffffffff <? Z.of_nat (length (fp_ciphertext p)))
    (RangeError "Frame ciphertext too large").

Definition encodeFrame (p : FrameParts) : result buffer :=
  validateParts p;;
  let header :=
    be_encode 1 (fp_version p) ++ be_encode 1 (fp_type p) ++
    be_encode 8 (fp_sequence p) ++ fp_nonce p ++
    be_encode 4 (Z.of_nat (length (fp_ciphertext p))) in
  mret (header ++ fp_ciphertext p ++ fp_tag p).

Definition frame_too_short (raw : buffer) : result unit :=
  throw_if (bool_decide (length raw < HEADER_SIZE + TAG_SIZE)%nat)
    (RangeError ("Frame too short: " +:+ pretty (Z.of_nat (length raw)) +:+ " bytes")).

Definition decodeFrame (raw : buffer) : result FrameParts :=
  frame_too_short raw;;
  let version := readBE 1 0 raw in
  throw_if (negb (version =? FRAME_VERSION))
    (RangeError ("Unsupported frame version: " +:+ pretty version));;
  let type := readBE 1 1 raw in
  throw_if (negb (bool_decide (type ∈ VALID_TYPES))) (unknown_type type);;
  let sequence := readBE 8 2 raw in
  let nonce := subarray 10 22 raw in
  let ciphertextLength := readBE 4 22 raw in
  let expectedLength := Z.of_nat HEADER_SIZE + ciphertextLength + Z.of_nat TAG_SIZE in
  throw_if (negb (Z.of_nat (length raw) =? expectedLength))
    (RangeError ("Invalid frame length: expected " +:+ pretty expectedLength +:+
                 ", got " +:+ pretty (Z.of_nat (length raw))));;
  let ciphertextEnd := (HEADER_SIZE + Z.to_nat ciphertextLength)%nat in
  mret {| fp_version := FRAME_VERSION; fp_type := type; fp_sequence := sequence;
          fp_nonce := nonce;
          fp_ciphertext := subarray HEADER_SIZE ciphertextEnd raw;
          fp_tag := subarray ciphertextEnd (ciphertextEnd + TAG_SIZE) raw |}.

(** [writeUInt8] throws outside 0..255; the other writers are guarded by the
    checks that precede them. *)
Definition frameAad (version type sequence ciphertextLength : Z) : result buffer :=
  throw_if ((sequence <? 0) || (MAX_U64 <? sequence))
    (RangeError "Frame sequence must fit in u64");;
  throw_if (negb (bool_decide (type ∈ VALID_TYPES))) (unknown_type type);;
  throw_if ((ciphertextLength <? 0) || (0xffffffff <? ciphertextLength))
    (RangeError "Ciphertext length must fit in u32");;
  throw_if ((version <? 0) || (255 <? version)) (RangeError "ERR_OUT_OF_RANGE");;
  mret (be_encode 1 version ++ be_encode 1 type ++ be_encode 8 sequence ++
        be_encode 4 ciphertextLength).

Definition peekFrameSequence (raw : buffer) : result Z :=
  frame_too_short raw;; mret (readBE 8 2 raw).

(** ** Well-formed frames and the exact success conditions *)

Record frame_wf (p : FrameParts) : Prop := {
  wf_version : fp_version p = FRAME_VERSION;
  wf_type : fp_type p ∈ VALID_TYPES;
  wf_sequence : 0 <= fp_sequence p <= MAX_U64;
  wf_nonce : length (fp_nonce p) = NONCE_SIZE;
  wf_tag : length (fp_tag p) = TAG_SIZE;
  wf_ciphertext : Z.of_nat (length (fp_ciphertext p)) <= 0xffffffff;
}.

Lemma valid_type_u8 t : t ∈ VALID_TYPES -> 0 <= t < 256.
Proof.
  unfold VALID_TYPES. rewrite !elem_of_cons, elem_of_nil.
  unfold FRAME_TYPE.HANDSHAKE, FRAME_TYPE.DATA, FRAME_TYPE.PING, FRAME_TYPE.PONG,
    FRAME_TYPE.CLOSE, FRAME_TYPE.ERROR. lia.
Qed.

Lemma validateParts_ok p : validateParts p = Ok tt <-> frame_wf p.
Proof.
  unfold validateParts. split.
  - intros H. inv_ok. bool_solve. split; try done; lia.
  - intros [-> Ht Hs Hn Htag Hc].
    repeat (rewrite (proj2 (throw_if_ok _ _ tt)); [cbn|]).
    all: repeat first [rewrite bool_decide_eq_true_2 by done | done | lia].
    all: repeat (apply negb_false_iff || apply orb_false_iff || split).
    all: try (apply Z.ltb_ge); try lia; by apply bool_decide_eq_true_2.
Qed.

Definition frame_bytes (p : FrameParts) : buffer :=
  be_encode 1 (fp_version p) ++ be_encode 1 (fp_type p) ++
  be_encode 8 (fp_sequence p) ++ fp_nonce p ++
  be_encode 4 (Z.of_nat (length (fp_ciphertext p))) ++ fp_ciphertext p ++ fp_tag p.

Lemma encodeFrame_ok p raw :
  encodeFrame p = Ok raw <-> frame_wf p /\ raw = frame_bytes p.
Proof.
  unfold encodeFrame, frame_bytes. rewrite <- validateParts_ok. split.
  - intros H. inv_ok. by rewrite <- !app_assoc.
  - intros [-> ->]. cbn -[be_encode]. by rewrite <- !app_assoc.
Qed.

(** ** Layout lemmas *)

Lemma frame_bytes_length p :
  frame_wf p -> length (frame_bytes p) = (42 + length (fp_ciphertext p))%nat.
Proof.
  intros [_ _ _ Hn Htag _]. unfold frame_bytes.
  rewrite !length_app, !be_encode_length, Hn, Htag. unfold NONCE_SIZE, TAG_SIZE. lia.
Qed.

(** Reads a slice of a concatenation of pieces of known length. *)
Ltac slice :=
  repeat first
    [ rewrite subarray_here by (autorewrite with bytes; cbn; lia)
    | rewrite subarray_all by (autorewrite with bytes; cbn; lia)
    | rewrite subarray_skip by (autorewrite with bytes; cbn; lia);
      autorewrite with bytes; cbn [Nat.sub Nat.add] ].

Section Layout.
Context (p : FrameParts) (Hwf : frame_wf p).

Lemma frame_read_version : readBE 1 0 (frame_bytes p) = fp_version p.
Proof.
  destruct Hwf. unfold readBE, frame_bytes; slice.
  apply be_decode_encode_small. rewrite wf_version0. by vm_compute.
Qed.

Lemma frame_read_type : readBE 1 1 (frame_bytes p) = fp_type p.
Proof.
  destruct Hwf. unfold readBE, frame_bytes; slice.
  apply be_decode_encode_small. by apply valid_type_u8.
Qed.

Lemma frame_read_sequence : readBE 8 2 (frame_bytes p) = fp_sequence p.
Proof.
  destruct Hwf. unfold readBE, frame_bytes; slice.
  apply be_decode_encode_small. unfold MAX_U64 in *. cbn. lia.
Qed.

Lemma frame_read_nonce : subarray 10 22 (frame_bytes p) = fp_nonce p.
Proof.
  destruct Hwf as [? ? ? Hn Htag ?]. unfold NONCE_SIZE in Hn.
  unfold frame_bytes; slice. done.
Qed.

Lemma frame_read_length :
  readBE 4 22 (frame_bytes p) = Z.of_nat (length (fp_ciphertext p)).
Proof.
  destruct Hwf as [? ? ? Hn Htag ?]. unfold NONCE_SIZE in Hn.
  unfold readBE, frame_bytes; slice.
  rewrite ?Hn; cbn [Nat.sub]; slice.
  apply be_decode_encode_small. cbn. lia.
Qed.

Lemma frame_read_ciphertext :
  subarray 26 (26 + length (fp_ciphertext p)) (frame_bytes p) = fp_ciphertext p.
Proof.
  destruct Hwf as [? ? ? Hn Htag ?]. unfold NONCE_SIZE in Hn.
  unfold frame_bytes; slice.
  rewrite ?Hn; cbn [Nat.sub]; slice. done.
Qed.

Lemma frame_read_tag :
  subarray (26 + length (fp_ciphertext p)) (26 + length (fp_ciphertext p) + 16)
    (frame_bytes p) = fp_tag p.
Proof.
  destruct Hwf as [? ? ? Hn Htag ?]. unfold NONCE_SIZE, TAG_SIZE in *.
  unfold frame_bytes; slice.
  rewrite ?Hn; cbn [Nat.sub]; slice.
  replace (_ - 0 - _)%nat with 0%nat by lia. apply subarray_all. lia.
Qed.
End Layout.

#[local] Hint Rewrite frame_read_version frame_read_type frame_read_sequence
  frame_read_nonce frame_read_length using assumption : frame.

Lemma frame_too_short_ok raw : frame_too_short raw = Ok tt <-> (42 <= length raw)%nat.
Proof.
  unfold frame_too_short. rewrite throw_if_ok, bool_decide_eq_false.
  unfold HEADER_SIZE, TAG_SIZE. lia.
Qed.

Lemma decode_frame_bytes p : frame_wf p -> decodeFrame (frame_bytes p) = Ok p.
Proof.
  intros Hwf. pose proof (frame_bytes_length p Hwf) as Hlen.
  unfold decodeFrame. rewrite (proj2 (frame_too_short_ok _)) by lia.
  cbn [mbind result_bind].
  autorewrite with frame. pose proof Hwf as [Hv Ht ? ? ? ?].
  rewrite Hv, Z.eqb_refl. cbn [negb throw_if mbind result_bind].
  rewrite bool_decide_eq_true_2 by done. cbn [negb throw_if mbind result_bind].
  rewrite Hlen, (proj2 (Z.eqb_eq _ _)) by (unfold HEADER_SIZE, TAG_SIZE; lia).
  cbn [negb throw_if mbind result_bind mret result_ret].
  rewrite Nat2Z.id. unfold HEADER_SIZE, TAG_SIZE.
  rewrite frame_read_ciphertext, frame_read_tag by done.
  rewrite <- Hv. by destruct p.
Qed.

(** A buffer that passes the checks of [decodeFrame] is cut into its parts. *)
Lemma decodeFrame_inv raw p :
  decodeFrame raw = Ok p -> frame_wf p /\ raw = frame_bytes p.
Proof.
  unfold decodeFrame. intros H. inv_ok. apply frame_too_short_ok in Hm. bool_solve.
  rename Hm into Hshort, Hm0 into Hv, Hm1 into Ht, Hm2 into Hlen.
  unfold HEADER_SIZE, TAG_SIZE, NONCE_SIZE in *.
  pose proof (readBE_bound 4 22 raw) as [Hl0 Hl1].
  pose proof (readBE_bound 8 2 raw) as Hs. cbn in Hl1, Hs.
  assert (Hct : length (subarray 26 (26 + Z.to_nat (readBE 4 22 raw)) raw)
                = Z.to_nat (readBE 4 22 raw)) by (rewrite subarray_length; lia).
  split.
  - split; cbn [fp_version fp_type fp_sequence fp_nonce fp_ciphertext fp_tag]; try done.
    + unfold MAX_U64. lia.
    + rewrite subarray_length; unfold NONCE_SIZE; lia.
    + rewrite subarray_length; unfold TAG_SIZE; lia.
    + unfold HEADER_SIZE. rewrite Hct. lia.
  - unfold frame_bytes; cbn [fp_version fp_type fp_sequence fp_nonce fp_ciphertext fp_tag].
    unfold HEADER_SIZE, TAG_SIZE. rewrite Hct, Z2Nat.id by lia. rewrite <- Hv.
    rewrite !readBE_encode by lia.
    rewrite (subarray_split 1 raw) at 1 by lia.
    rewrite (drop_subarray 1 2), (drop_subarray 2 10), (drop_subarray 10 22),
      (drop_subarray 22 26), (drop_subarray 26 (26 + Z.to_nat (readBE 4 22 raw)))
      by lia.
    do 6 f_equal. unfold subarray. rewrite firstn_all2; [done|].
    rewrite length_drop. lia.
Qed.

Lemma peek_decode (raw : buffer) (p : FrameParts) :
  decodeFrame raw = Ok p -> peekFrameSequence raw = Ok (fp_sequence p).
Proof.
  unfold decodeFrame, peekFrameSequence. intros H. inv_ok.
  by rewrite Hm.
Qed.

(** ** Properties *)

(** C18: the frame codec is an exact bijection between well-formed frames and
    accepted buffers: encoding a frame gives [raw] exactly when decoding [raw]
    gives that frame back, so nothing is lost and no two byte strings decode
    to the same frame. *)
Theorem frame_codec_iff (p : FrameParts) (raw : buffer) :
  encodeFrame p = Ok raw <-> decodeFrame raw = Ok p.
Proof.
  rewrite encodeFrame_ok. split.
  - intros [Hwf ->]. by apply decode_frame_bytes.
  - apply decodeFrame_inv.
Qed.

Lemma be_encode_app_inj n z1 z2 l1 l2 :
  0 <= z1 < 256 ^ Z.of_nat n -> 0 <= z2 < 256 ^ Z.of_nat n ->
  be_encode n z1 ++ l1 = be_encode n z2 ++ l2 -> z1 = z2 /\ l1 = l2.
Proof.
  intros H1 H2 E. apply app_inj_1 in E as [E ->]; [|by rewrite !be_encode_length].
  split; [|done]. by apply (be_encode_inj n).
Qed.

(** The additional authenticated data pins the whole header: two headers
    with the same AAD bytes have the same version, type, sequence number and
    ciphertext length. *)
Theorem frameAad_injective (v t s l v' t' s' l' : Z) (aad : buffer) :
  frameAad v t s l = Ok aad -> frameAad v' t' s' l' = Ok aad ->
  (v, t, s, l) = (v', t', s', l').
Proof.
  unfold frameAad. intros H H'. inv_ok. bool_solve.
  unfold MAX_U64 in *.
  repeat match goal with H : negb (bool_decide _) = _ |- _ => bool_solve end.
  repeat match goal with H : _ ∈ VALID_TYPES |- _ => apply valid_type_u8 in H end.
  match goal with E : be_encode 1 _ ++ _ = _ |- _ => rename E into H' end.
  apply be_encode_app_inj in H' as [-> H']; [|cbn; lia..].
  apply be_encode_app_inj in H' as [-> H']; [|cbn; lia..].
  apply be_encode_app_inj in H' as [-> H']; [|cbn; lia..].
  rewrite <- (app_nil_r (be_encode 4 l')), <- (app_nil_r (be_encode 4 l)) in H'.
  apply be_encode_app_inj in H' as [-> H']; [done|cbn; lia..].
Qed.

Lemma frameAad_injective_witness :
  (exists aad, frameAad 1 FRAME_TYPE.DATA 7 3 = Ok aad) /\ (1, 16, 7, 3) = (1, 16, 7, 3).
Proof.
  split; [eexists; vm_compute; reflexivity|].
  exact (frameAad_injective 1 16 7 3 1 16 7 3 _ eq_refl eq_refl).
Defined.

(** The replay check reads the sequence number the decoder will return,
    and never rejects as too short a frame the decoder accepts. *)
Theorem peek_agrees_with_decode (raw : buffer) (p : FrameParts) :
  decodeFrame raw = Ok p -> peekFrameSequence raw = Ok (fp_sequence p).
Proof. apply peek_decode. Qed.

Lemma peek_agrees_with_decode_witness :
  exists raw p, decodeFrame raw = Ok p /\ peekFrameSequence raw = Ok (fp_sequence p).
Proof.
  exists (frame_bytes {| fp_version := 1; fp_type := 16; fp_sequence := 258;
    fp_nonce := be_encode 12 5; fp_ciphertext := be_encode 3 9; fp_tag := be_encode 16 1 |}).
  eexists; split; [vm_compute; reflexivity|].
  apply peek_agrees_with_decode. vm_compute; reflexivity.
Defined.
