(* ===== verification/Json.v ===== *)
(** * JavaScript values: numbers, JSON values, [JSON.stringify], [JSON.parse]

    The part of the language every component relies on.  A finite number is
    the shortest decimal that reads back as it, [Fin m e] standing for
    [m * 10^-e]; a JSON value keeps its object entries in enumeration order;
    a missing property ([undefined]) is [None] in an [option json]. *)

From S2P Require Import Prelude.
Local Open Scope Z_scope.

(** ** Numbers *)

Inductive num :=
| NaN
| Infinite (negative : bool)
| Fin (m : Z) (e : nat).

#[export] Instance num_eq_dec : EqDecision num.
Proof. solve_decision. Defined.

Definition num_of_Z (z : Z) : num := Fin z 0.

Definition pow10 (e : nat) : Z := 10 ^ Z.of_nat e.

(** [a < b]; every comparison with [NaN] is false. *)
Definition num_ltb (a b : num) : bool :=
  match a, b with
  | NaN, _ | _, NaN => false
  | Infinite true, Infinite true => false
  | Infinite true, _ => true
  | _, Infinite true => false
  | Infinite false, _ => false
  | _, Infinite false => true
  | Fin m1 e1, Fin m2 e2 => m1 * pow10 e2 <? m2 * pow10 e1
  end.

(** [a === b] on numbers. *)
Definition num_eqb (a b : num) : bool :=
  match a, b with
  | Infinite n1, Infinite n2 => Bool.eqb n1 n2
  | Fin m1 e1, Fin m2 e2 => m1 * pow10 e2 =? m2 * pow10 e1
  | _, _ => false
  end.

(** [a <= b]. *)
Definition num_leb (a b : num) : bool := num_ltb a b || num_eqb a b.

(** [a + b]; exact, the rounding of sums beyond 2^53 is not modelled. *)
Definition num_add (a b : num) : num :=
  match a, b with
  | NaN, _ | _, NaN => NaN
  | Infinite n1, Infinite n2 => if Bool.eqb n1 n2 then Infinite n1 else NaN
  | Infinite n, Fin _ _ | Fin _ _, Infinite n => Infinite n
  | Fin m1 e1, Fin m2 e2 =>
      if bool_decide (e1 = e2) then Fin (m1 + m2) e1
      else Fin (m1 * pow10 e2 + m2 * pow10 e1) (e1 + e2)
  end.

(** [Number.isFinite]. *)
Definition isFinite (a : num) : bool :=
  match a with Fin _ _ => true | _ => false end.

(** [Number.isInteger]. *)
Definition isInteger (a : num) : bool :=
  match a with Fin m e => m mod pow10 e =? 0 | _ => false end.

Lemma num_ltb_Z a b : num_ltb (num_of_Z a) (num_of_Z b) = (a <? b).
Proof. unfold num_ltb, num_of_Z, pow10; cbn. by rewrite !Z.mul_1_r. Qed.

Lemma num_eqb_Z a b : num_eqb (num_of_Z a) (num_of_Z b) = (a =? b).
Proof. unfold num_eqb, num_of_Z, pow10; cbn. by rewrite !Z.mul_1_r. Qed.

Lemma num_add_Z a b : num_add (num_of_Z a) (num_of_Z b) = num_of_Z (a + b).
Proof. done. Qed.

Lemma pow10_pos e : 0 < pow10 e.
Proof. unfold pow10. apply Z.pow_pos_nonneg; lia. Qed.

(** A comparison with an integer that fails on both sides means not a number. *)
Lemma num_ltb_antisym a b : num_ltb a b = true -> num_ltb b a = false.
Proof. destruct a as [|[]|], b as [|[]|]; cbn; try done. intros; bool_solve. lia. Qed.

(** ** Decimal text *)

Definition digit (z : Z) : ascii :=
  Ascii.ascii_of_nat (48 + Z.to_nat z).

Fixpoint dec_aux (fuel : nat) (z : Z) (acc : string) : string :=
  match fuel with
  | O => acc
  | S f => let acc' := String (digit (z mod 10)) acc in
           if z <? 10 then acc' else dec_aux f (z / 10) acc'
  end.

(** Decimal digits of a non-negative integer. *)
Definition dec (z : Z) : string := dec_aux (S (Z.to_nat (Z.log2 z))) z "".

(** Exactly [e] digits. *)
Fixpoint dec_pad (e : nat) (z : Z) (acc : string) : string :=
  match e with
  | O => acc
  | S e' => dec_pad e' (z / 10) (String (digit (z mod 10)) acc)
  end.

(** [String(n)] for magnitudes written without an exponent. *)
Definition num_to_string (a : num) : string :=
  match a with
  | NaN => "NaN"
  | Infinite n => if n then "-Infinity" else "Infinity"
  | Fin m e =>
      let s := dec (Z.abs m / pow10 e) in
      let frac := match e with O => "" | _ => "." +:+ dec_pad e (Z.abs m mod pow10 e) "" end in
      (if m <? 0 then "-" else "") +:+ s +:+ frac
  end.

(** ** JSON values *)

#[local] Unset Elimination Schemes.
Inductive json :=
| JNull
| JBool (b : bool)
| JNum (n : num)
| JStr (s : string)
| JArr (l : list json)
| JObj (l : list (string * json)).
#[local] Set Elimination Schemes.

Section json_ind.
Context (P : json -> Prop).
Hypothesis HNull : P JNull.
Hypothesis HBool : forall b, P (JBool b).
Hypothesis HNum : forall n, P (JNum n).
Hypothesis HStr : forall s, P (JStr s).
Hypothesis HArr : forall l, Forall P l -> P (JArr l).
Hypothesis HObj : forall l, Forall (fun kv => P kv.2) l -> P (JObj l).

Fixpoint json_ind (j : json) : P j :=
  match j with
  | JNull => HNull
  | JBool b => HBool b
  | JNum n => HNum n
  | JStr s => HStr s
  | JArr l => HArr l ((fix go l := match l return Forall P l with
      | [] => Forall_nil_2 _ | j :: l => Forall_cons_2 _ j l (json_ind j) (go l) end) l)
  | JObj l => HObj l ((fix go l := match l return Forall (fun kv => P kv.2) l with
      | [] => Forall_nil_2 _
      | kv :: l => Forall_cons_2 _ kv l (json_ind kv.2) (go l) end) l)
  end.
End json_ind.

#[export] Instance json_eq_dec : EqDecision json.
Proof.
  unfold EqDecision. fix go 1. intros j1 j2.
  destruct j1 as [|b1|n1|s1|l1|l1], j2 as [|b2|n2|s2|l2|l2]; try (right; congruence).
  - by left.
  - destruct (decide (b1 = b2)); [left|right]; congruence.
  - destruct (decide (n1 = n2)); [left|right]; congruence.
  - destruct (decide (s1 = s2)); [left|right]; congruence.
  - destruct (@list_eq_dec _ go l1 l2); [left|right]; congruence.
  - destruct (@list_eq_dec _ (@prod_eq_dec _ _ _ go) l1 l2); [left|right]; congruence.
Defined.

(** Property access [o[k]]. *)
Fixpoint assoc {A} (k : string) (l : list (string * A)) : option A :=
  match l with
  | [] => None
  | (k', v) :: l => if decide (k = k') then Some v else assoc k l
  end.

Definition get (k : string) (j : json) : option json :=
  match j with JObj l => assoc k l | _ => None end.

(** [Boolean(v)]. *)
Definition truthy (v : option json) : bool :=
  match v with
  | None | Some JNull | Some (JBool false) | Some (JNum NaN) => false
  | Some (JNum (Fin m _)) => negb (m =? 0)
  | Some (JStr s) => negb (bool_decide (s = ""))
  | Some _ => true
  end.

(** [!value || typeof value !== "object"] is false exactly on objects and
    arrays. *)
Definition is_object (v : json) : bool :=
  match v with JArr _ | JObj _ => true | _ => false end.

Definition as_string (v : option json) : option string :=
  match v with Some (JStr s) => Some s | _ => None end.

Definition as_num (v : option json) : option num :=
  match v with Some (JNum n) => Some n | _ => None end.

(** [typeof v === "number" && Number.isFinite(v)]. *)
Definition is_finite_number (v : option json) : bool :=
  match as_num v with Some n => isFinite n | None => false end.

(** An object literal: the entries whose value is not [undefined]. *)
Definition obj (fields : list (string * option json)) : json :=
  JObj (omap (fun kv => pair kv.1 <$> kv.2) fields).

(** [{ ...a, ...b }] and [o[k] = v] keep the position of an existing key. *)
Fixpoint put {A} (k : string) (v : A) (l : list (string * A)) : list (string * A) :=
  match l with
  | [] => [(k, v)]
  | (k', v') :: l => if decide (k = k') then (k, v) :: l else (k', v') :: put k v l
  end.

Definition remove {A} (k : string) (l : list (string * A)) : list (string * A) :=
  filter (fun kv => kv.1 <> k) l.

(** ** Enumeration order of own properties

    Array-index keys come first in ascending order, the others in insertion
    order. *)

Definition digit_val (c : ascii) : option Z :=
  let n := Z.of_nat (Ascii.nat_of_ascii c) in
  if (48 <=? n) && (n <=? 57) then Some (n - 48) else None.

Fixpoint parse_digits (acc : Z) (n : nat) (s : string) : Z * nat * string :=
  match s with
  | String c r =>
      match digit_val c with
      | Some d => parse_digits (acc * 10 + d) (S n) r
      | None => (acc, n, s)
      end
  | EmptyString => (acc, n, s)
  end.

(** The array index a property key denotes, if it denotes one. *)
Definition array_index (k : string) : option Z :=
  match parse_digits 0 0 k with
  | (v, n, EmptyString) =>
      if bool_decide (n <> O) && (v <? 2 ^ 32 - 1) && bool_decide (dec v = k) then Some v else None
  | _ => None
  end.

Fixpoint insert_index {A} (i : Z) (k : string) (v : A) (l : list (string * A)) :=
  match l with
  | [] => [(k, v)]
  | (k', v') :: t =>
      match array_index k' with
      | Some i' => if i' <? i then (k', v') :: insert_index i k v t else (k, v) :: l
      | None => (k, v) :: l
      end
  end.

Definition set_key {A} (k : string) (v : A) (l : list (string * A)) : list (string * A) :=
  match assoc k l, array_index k with
  | Some _, _ => put k v l
  | None, Some i => insert_index i k v l
  | None, None => l ++ [(k, v)]
  end.

(** [Object.fromEntries(entries)]. *)
Definition fromEntries {A} (l : list (string * A)) : list (string * A) :=
  fold_left (fun o kv => set_key kv.1 kv.2 o) l [].

(** ** [JSON.stringify] *)

Definition chr_quote : ascii := "034"%char.
Definition chr_backslash : ascii := "092"%char.
Definition hex2 (n : Z) : string :=
  String (hex_digit (n / 16)) (String (hex_digit (n mod 16)) "").

Definition quote_char (c : ascii) : string :=
  if decide (c = chr_quote) then String chr_backslash (String chr_quote "")
  else if decide (c = chr_backslash) then String chr_backslash (String chr_backslash "")
  else if decide (c = "008"%char) then String chr_backslash "b"
  else if decide (c = "012"%char) then String chr_backslash "f"
  else if decide (c = "010"%char) then String chr_backslash "n"
  else if decide (c = "013"%char) then String chr_backslash "r"
  else if decide (c = "009"%char) then String chr_backslash "t"
  else let n := Z.of_nat (Ascii.nat_of_ascii c) in
       if n <? 32 then String chr_backslash ("u00" +:+ hex2 n) else String c "".

Fixpoint quote_body (s : string) : string :=
  match s with
  | EmptyString => ""
  | String c r => quote_char c +:+ quote_body r
  end.

Definition quote (s : string) : string :=
  String chr_quote (quote_body s +:+ String chr_quote "").

Definition num_text (n : num) : string :=
  match n with Fin _ _ => num_to_string n | _ => "null" end.

Fixpoint stringify (j : json) : string :=
  match j with
  | JNull => "null"
  | JBool b => if b then "true" else "false"
  | JNum n => num_text n
  | JStr s => quote s
  | JArr l => "[" +:+ String.concat "," (map stringify l) +:+ "]"
  | JObj l =>
      "{" +:+ String.concat "," (map (fun kv => quote kv.1 +:+ ":" +:+ stringify kv.2) l) +:+ "}"
  end.

(** ** [JSON.parse] *)

Definition is_ws (c : ascii) : bool :=
  bool_decide (c ∈ [" "; "009"; "010"; "013"]%char).

Fixpoint skip_ws (s : string) : string :=
  match s with
  | String c r => if is_ws c then skip_ws r else s
  | EmptyString => s
  end.

Definition hex_val (c : ascii) : option Z :=
  let n := Z.of_nat (Ascii.nat_of_ascii c) in
  if (48 <=? n) && (n <=? 57) then Some (n - 48)
  else if (97 <=? n) && (n <=? 102) then Some (n - 87)
  else if (65 <=? n) && (n <=? 70) then Some (n - 55)
  else None.

Definition chr (n : Z) : ascii := Ascii.ascii_of_nat (Z.to_nat n).

(** UTF-8 bytes of a code unit. *)
Definition encode_unit (u : Z) : string :=
  if u <? 0x80 then String (chr u) ""
  else if u <? 0x800 then String (chr (0xC0 + u / 64)) (String (chr (0x80 + u mod 64)) "")
  else String (chr (0xE0 + u / 4096))
         (String (chr (0x80 + u / 64 mod 64)) (String (chr (0x80 + u mod 64)) "")).

Definition simple_escape (c : ascii) : option ascii :=
  if decide (c = chr_quote) then Some chr_quote
  else if decide (c = chr_backslash) then Some chr_backslash
  else if decide (c = "/"%char) then Some "/"%char
  else if decide (c = "b"%char) then Some "008"%char
  else if decide (c = "f"%char) then Some "012"%char
  else if decide (c = "n"%char) then Some "010"%char
  else if decide (c = "r"%char) then Some "013"%char
  else if decide (c = "t"%char) then Some "009"%char
  else None.

Fixpoint str_body (s : string) : option (string * string) :=
  match s with
  | EmptyString => None
  | String c r =>
      if decide (c = chr_quote) then Some ("", r)
      else if decide (c = chr_backslash) then
        match r with
        | String "u" (String a (String b (String d (String e r')))) =>
            a ← hex_val a; b ← hex_val b; d ← hex_val d; e ← hex_val e;
            '(t, r'') ← str_body r';
            Some (encode_unit (((a * 16 + b) * 16 + d) * 16 + e) +:+ t, r'')
        | String x r' =>
            x ← simple_escape x; '(t, r'') ← str_body r'; Some (String x t, r'')
        | EmptyString => None
        end
      else if (Ascii.nat_of_ascii c <? 32)%nat then None
      else '(t, r') ← str_body r; Some (String c t, r')
  end.

Fixpoint normalise (e : nat) (m : Z) : num :=
  match e with
  | O => Fin m 0
  | S e' => if m mod 10 =? 0 then normalise e' (m / 10) else Fin m e
  end.

(** The magnitude at which the nearest double is infinite. *)
Definition overflow_threshold : Z := 2 ^ 1024 - 2 ^ 970.

Definition mk_num (neg : bool) (m : Z) (x : Z) : num :=
  let signed := fun v => if neg then - v else v in
  if 0 <=? x then
    let v := m * 10 ^ x in
    if overflow_threshold <=? v then Infinite neg else Fin (signed v) 0
  else
    let e := Z.to_nat (- x) in
    if overflow_threshold * pow10 e <=? m then Infinite neg else normalise e (signed m).

Definition parse_int_part (s : string) : option (Z * string) :=
  match s with
  | String c r =>
      if decide (c = "0"%char) then Some (0, r)
      else match digit_val c with
           | Some _ => let '(v, _, r') := parse_digits 0 0 s in Some (v, r')
           | None => None
           end
  | EmptyString => None
  end.

Definition parse_frac (ip : Z) (s : string) : option (Z * nat * string) :=
  match s with
  | String "." r =>
      let '(v, n, r') := parse_digits ip 0 r in
      if bool_decide (n = O) then None else Some (v, n, r')
  | _ => Some (ip, O, s)
  end.

Definition parse_exp (s : string) : option (Z * string) :=
  match s with
  | String c r =>
      if bool_decide (c = "e"%char) || bool_decide (c = "E"%char) then
        let '(sg, r1) := match r with
          | String "-" r' => (-1, r') | String "+" r' => (1, r') | _ => (1, r) end in
        let '(v, n, r2) := parse_digits 0 0 r1 in
        if bool_decide (n = O) then None else Some (sg * v, r2)
      else Some (0, s)
  | EmptyString => Some (0, s)
  end.

Definition parse_number (s : string) : option (num * string) :=
  let '(neg, s1) := match s with String "-" r => (true, r) | _ => (false, s) end in
  '(ip, s2) ← parse_int_part s1;
  '(m, n, s3) ← parse_frac ip s2;
  '(x, s4) ← parse_exp s3;
  Some (mk_num neg m (x - Z.of_nat n), s4).


Fixpoint parse_value (fuel : nat) (s : string) : option (json * string) :=
  match fuel with
  | O => None
  | S f =>
      match skip_ws s with
      | EmptyString => None
      | String c r =>
          if decide (c = chr_quote) then '(t, r') ← str_body r; Some (JStr t, r')
          else if decide (c = "["%char) then
            match skip_ws r with
            | String "]" r' => Some (JArr [], r')
            | _ => '(l, r') ← parse_elems f r; Some (JArr l, r')
            end
          else if decide (c = "{"%char) then
            match skip_ws r with
            | String "}" r' => Some (JObj [], r')
            | _ => '(l, r') ← parse_members f r; Some (JObj (fromEntries l), r')
            end
          else match c, r with
          | "n"%char, String "u" (String "l" (String "l" r')) => Some (JNull, r')
          | "t"%char, String "r" (String "u" (String "e" r')) => Some (JBool true, r')
          | "f"%char, String "a" (String "l" (String "s" (String "e" r'))) => Some (JBool false, r')
          | _, _ => '(n, r') ← parse_number (String c r); Some (JNum n, r')
          end
      end
  end
with parse_elems (fuel : nat) (s : string) : option (list json * string) :=
  match fuel with
  | O => None
  | S f =>
      '(v, r) ← parse_value f s;
      match skip_ws r with
      | String "," r' => '(vs, r'') ← parse_elems f r'; Some (v :: vs, r'')
      | String "]" r' => Some ([v], r')
      | _ => None
      end
  end
with parse_members (fuel : nat) (s : string) : option (list (string * json) * string) :=
  match fuel with
  | O => None
  | S f =>
      match skip_ws s with
      | String c r0 =>
          if decide (c = chr_quote) then
            '(k, r1) ← str_body r0;
            match skip_ws r1 with
            | String ":" r2 =>
                '(v, r) ← parse_value f r2;
                match skip_ws r with
                | String "," r' => '(vs, r'') ← parse_members f r'; Some ((k, v) :: vs, r'')
                | String "}" r' => Some ([(k, v)], r')
                | _ => None
                end
            | _ => None
            end
          else None
      | EmptyString => None
      end
  end.

Definition SyntaxError : exn := PlainError "JSON Parse error".

(** [JSON.parse(text)]; two units of fuel per character are enough. *)
Definition JSON_parse (s : string) : result json :=
  match parse_value (2 * String.length s + 2) s with
  | Some (v, r) => if bool_decide (skip_ws r = "") then Ok v else Throw SyntaxError
  | None => Throw SyntaxError
  end.

(** ** Objects as finite maps *)

Section Objects.
Context {A : Type}.
Implicit Types (l : list (string * A)) (k : string) (v : A).

Lemma assoc_app k l1 l2 :
  assoc k (l1 ++ l2) = match assoc k l1 with Some v => Some v | None => assoc k l2 end.
Proof. induction l1 as [|[k' v'] l1 IH]; cbn; [done|]. by case_decide. Qed.

Lemma assoc_put k k' v l : assoc k (put k' v l) = if decide (k = k') then Some v else assoc k l.
Proof.
  induction l as [|[k1 v1] l IH]; cbn; [done|].
  destruct (decide (k' = k1)) as [->|Hn]; cbn.
  - by destruct (decide (k = k1)).
  - destruct (decide (k = k1)) as [->|Hk]; [by rewrite decide_False|done].
Qed.

Lemma assoc_insert_index k i k' v l :
  assoc k' l = None -> assoc k (insert_index i k' v l) = if decide (k = k') then Some v else assoc k l.
Proof.
  induction l as [|[k1 v1] l IH]; cbn; [done|]. intros Hn.
  destruct (decide (k' = k1)) as [->|Hn1]; [done|].
  destruct (array_index k1) as [i'|]; [destruct (i' <? i)|]; cbn; try done.
  destruct (decide (k = k1)) as [->|Hk]; [by rewrite decide_False|by apply IH].
Qed.

Lemma assoc_set_key k k' v l :
  assoc k (set_key k' v l) = if decide (k = k') then Some v else assoc k l.
Proof.
  unfold set_key. destruct (assoc k' l) eqn:E; [apply assoc_put|].
  destruct (array_index k'); [by apply assoc_insert_index|].
  rewrite assoc_app. cbn. destruct (decide (k = k')) as [->|]; [by rewrite E|by destruct (assoc k l)].
Qed.

Lemma assoc_elem k v l : assoc k l = Some v -> (k, v) ∈ l.
Proof.
  induction l as [|[k1 v1] l IH]; cbn; [done|]. case_decide; [intros [= ->]; subst; left|].
  intros; right; auto.
Qed.

Lemma elem_assoc k v l : NoDup l.*1 -> (k, v) ∈ l -> assoc k l = Some v.
Proof.
  induction l as [|[k1 v1] l IH]; cbn; [by intros _ ?%elem_of_nil|].
  intros [Hk Hd]%NoDup_cons [[= -> ->]|Hin]%elem_of_cons; [by rewrite decide_True|].
  rewrite decide_False; [by apply IH|]. intros ->. apply Hk. by apply (list_elem_of_fmap_2 fst) in Hin.
Qed.

Lemma assoc_none k l : assoc k l = None <-> k ∉ l.*1.
Proof.
  induction l as [|[k1 v1] l IH]; cbn; [set_solver|].
  rewrite not_elem_of_cons. case_decide; naive_solver.
Qed.

(** Lookup does not depend on the order of distinct keys. *)
Lemma assoc_perm k l1 l2 : NoDup l1.*1 -> l1 ≡ₚ l2 -> assoc k l1 = assoc k l2.
Proof.
  intros Hd HP. destruct (assoc k l1) as [v|] eqn:E.
  - symmetry. apply elem_assoc; [by rewrite <- HP|]. rewrite <- HP. by apply assoc_elem.
  - symmetry. rewrite assoc_none in *. by rewrite <- HP.
Qed.

Lemma remove_assoc k k' l : assoc k (remove k' l) = if decide (k = k') then None else assoc k l.
Proof.
  unfold remove. induction l as [|[k1 v1] l IH]; [cbn; by case_decide|].
  rewrite filter_cons. cbn [fst]. destruct (decide (k1 <> k')) as [Hn|Hn]; cbn [assoc]; rewrite IH.
  - destruct (decide (k = k')), (decide (k = k1)); congruence.
  - apply dec_stable in Hn as ->. destruct (decide (k = k')); done.
Qed.

(** Writing a list of entries into an object. *)
Definition set_all (l o : list (string * A)) : list (string * A) :=
  fold_left (fun o kv => set_key kv.1 kv.2 o) l o.

Lemma assoc_set_all k l o : NoDup l.*1 ->
  assoc k (set_all l o) = match assoc k l with Some v => Some v | None => assoc k o end.
Proof.
  revert o; induction l as [|[k1 v1] l IH]; intros o; [done|].
  intros [Hk Hd]%NoDup_cons. cbn [fst] in Hk. cbn [set_all fold_left fst snd]. change (fold_left _ l ?o') with (set_all l o').
  rewrite IH, assoc_set_key by done. cbn [assoc].
  destruct (decide (k = k1)) as [->|]; [|done]. by rewrite (proj2 (assoc_none _ _) Hk).
Qed.

Lemma assoc_set_all_elem k v l o : assoc k (set_all l o) = Some v -> (k, v) ∈ l \/ assoc k o = Some v.
Proof.
  revert o; induction l as [|[k1 v1] l IH]; intros o; [by right|].
  cbn [set_all fold_left fst snd]. change (fold_left _ l ?o') with (set_all l o').
  intros [H|H]%IH; [left; by right|]. rewrite assoc_set_key in H.
  destruct (decide (k = k1)) as [->|]; [|by right]. injection H as ->. left. left.
Qed.

Lemma assoc_set_all_filter (P : string * A -> Prop) `{!forall kv, Decision (P kv)} k l o1 o2 :
  (forall v, P (k, v)) -> assoc k o1 = assoc k o2 ->
  assoc k (set_all (filter P l) o1) = assoc k (set_all l o2).
Proof.
  intros HP. revert o1 o2; induction l as [|[k1 v1] l IH]; intros o1 o2 Ho; [done|].
  rewrite filter_cons. cbn [set_all fold_left fst snd].
  destruct (decide (P (k1, v1))) as [Hp|Hp]; cbn [fold_left fst snd].
  - apply IH. by rewrite !assoc_set_key, Ho.
  - apply IH. rewrite assoc_set_key. destruct (decide (k = k1)) as [->|]; [by destruct (Hp (HP v1))|done].
Qed.
End Objects.
