(* ===== verification/JsonText.v ===== *)
(** * [JSON.parse] inverts [JSON.stringify]

    Every value the code can hold is recovered from its text, hence
    [JSON.stringify] is injective on such values. *)

From Stdlib Require Import Sorting.Sorted.
From S2P Require Import Prelude Json.
Local Open Scope Z_scope.

(** ** Numbers *)

Definition no_digit (s : string) : Prop :=
  match s with String c _ => digit_val c = None | EmptyString => True end.

(** What may follow a number: neither a digit, a point nor an exponent. *)
Definition num_end (s : string) : Prop :=
  match s with
  | String c _ => digit_val c = None /\ c <> "."%char /\ c <> "e"%char /\ c <> "E"%char
  | EmptyString => True
  end.

Lemma digit_cases d : 0 <= d < 10 ->
  d = 0 \/ d = 1 \/ d = 2 \/ d = 3 \/ d = 4 \/ d = 5 \/ d = 6 \/ d = 7 \/ d = 8 \/ d = 9.
Proof. lia. Qed.

Lemma digit_val_digit d : 0 <= d < 10 -> digit_val (digit d) = Some d.
Proof. intros H. by destruct (digit_cases d H) as [-> | [-> | [-> | [-> | [-> | [-> | [-> | [-> | [-> | ->]]]]]]]]]. Qed.

Lemma digit_zero d : 0 <= d < 10 -> digit d = "0"%char -> d = 0.
Proof.
  intros H. destruct (digit_cases d H) as [-> | [-> | [-> | [-> | [-> | [-> | [-> | [-> | [-> | ->]]]]]]]]]; by vm_compute.
Qed.

Lemma digit_not_sign d : 0 <= d < 10 -> digit d <> "-"%char.
Proof.
  intros H. by destruct (digit_cases d H) as [-> | [-> | [-> | [-> | [-> | [-> | [-> | [-> | [-> | ->]]]]]]]]].
Qed.

Lemma parse_digits_stop a n s : no_digit s -> parse_digits a n s = (a, n, s).
Proof. destruct s as [|c s]; cbn; [done|]. by intros ->. Qed.

Lemma dec_aux_app f z acc : dec_aux f z acc = dec_aux f z "" +:+ acc.
Proof.
  revert z acc; induction f as [|f IH]; intros z acc; cbn; [done|].
  destruct (z <? 10); [done|].
  rewrite IH, (IH _ (String _ "")), str_app_assoc. done.
Qed.

Lemma dec_pad_app e z acc : dec_pad e z acc = dec_pad e z "" +:+ acc.
Proof.
  revert z acc; induction e as [|e IH]; intros z acc; cbn; [done|].
  rewrite IH, (IH _ (String _ "")), str_app_assoc. done.
Qed.

Lemma parse_dec_aux f z a n acc :
  0 <= z < pow10 (S f) ->
  exists k, parse_digits a n (dec_aux (S f) z acc)
            = parse_digits (a * pow10 (S k) + z) (S k + n) acc.
Proof.
  unfold pow10. revert z a n acc; induction f as [|f IH]; intros z a n acc Hz.
  - exists O. cbn [dec_aux]. rewrite (proj2 (Z.ltb_lt z 10)) by (cbn in Hz; lia).
    rewrite Z.mod_small by (cbn in Hz; lia).
    cbn [parse_digits]. rewrite digit_val_digit by (cbn in Hz; lia). cbn. f_equal; lia.
  - remember (S f) as g. cbn [dec_aux]. destruct (z <? 10) eqn:E; bool_solve.
    + exists O. rewrite Z.mod_small by lia.
      cbn [parse_digits]. rewrite digit_val_digit by lia. f_equal; cbn; lia.
    + subst g. rewrite Nat2Z.inj_succ, Z.pow_succ_r in Hz by lia.
      destruct (IH (z / 10) a n (String (digit (z mod 10)) acc)) as [k ->].
      { split; [apply Z.div_pos; lia|]. apply Z.div_lt_upper_bound; lia. }
      exists (S k). cbn [parse_digits].
      rewrite digit_val_digit by (apply Z.mod_pos_bound; lia).
      rewrite (Nat2Z.inj_succ (S k)), (Z.pow_succ_r 10 (Z.of_nat (S k))) by lia.
      f_equal; pose proof (Z.div_mod z 10); lia.
Qed.

Lemma parse_dec_pad e z a n acc :
  0 <= z < pow10 e ->
  parse_digits a n (dec_pad e z acc) = parse_digits (a * pow10 e + z) (e + n) acc.
Proof.
  unfold pow10. revert z a n acc; induction e as [|e IH]; intros z a n acc Hz.
  - cbn in *. f_equal; lia.
  - rewrite Nat2Z.inj_succ, Z.pow_succ_r in * by lia. cbn [dec_pad].
    rewrite IH by (split; [apply Z.div_pos; lia|apply Z.div_lt_upper_bound; lia]).
    cbn [parse_digits]. rewrite digit_val_digit by (apply Z.mod_pos_bound; lia).
    f_equal; pose proof (Z.div_mod z 10); lia.
Qed.

Lemma dec_fuel z : 0 <= z -> 0 <= z < pow10 (S (Z.to_nat (Z.log2 z))).
Proof.
  intros Hz. split; [done|]. unfold pow10.
  pose proof (Z.log2_nonneg z).
  rewrite Nat2Z.inj_succ, Z2Nat.id by done.
  destruct (Z.eq_dec z 0) as [->|]; [by vm_compute|].
  pose proof (Z.log2_spec z ltac:(lia)) as [_ ?].
  eapply Z.lt_le_trans; [eassumption|]. apply Z.pow_le_mono_l. lia.
Qed.

Lemma dec_head_aux f z acc :
  0 <= z < pow10 (S f) ->
  exists d r, dec_aux (S f) z acc = String (digit d) r /\ 0 <= d < 10 /\ (d = 0 -> z = 0).
Proof.
  unfold pow10. revert z acc; induction f as [|f IH]; intros z acc Hz.
  - cbn [dec_aux]. rewrite (proj2 (Z.ltb_lt z 10)) by (cbn in Hz; lia).
    exists z, acc. rewrite Z.mod_small by (cbn in Hz; lia). cbn in Hz. repeat split; lia.
  - remember (S f) as g. cbn [dec_aux]. destruct (z <? 10) eqn:E; bool_solve.
    + exists z, acc. rewrite Z.mod_small by lia. repeat split; lia.
    + subst g. rewrite Nat2Z.inj_succ, Z.pow_succ_r in Hz by lia.
      destruct (IH (z / 10) (String (digit (z mod 10)) acc)) as (d & r & -> & Hd & H0).
      { split; [apply Z.div_pos; lia|]. apply Z.div_lt_upper_bound; lia. }
      exists d, r. repeat split; [lia..|]. intros H. specialize (H0 H).
      pose proof (Z.div_mod z 10). pose proof (Z.mod_pos_bound z 10). lia.
Qed.

Lemma dec_head z : 0 <= z ->
  exists d r, dec z = String (digit d) r /\ 0 <= d < 10 /\ (d = 0 -> z = 0).
Proof. intros. apply dec_head_aux. by apply dec_fuel. Qed.

Lemma parse_dec z s : 0 <= z -> no_digit s ->
  exists n, parse_digits 0 0 (dec z +:+ s) = (z, n, s).
Proof.
  intros Hz Hs. unfold dec. rewrite <- dec_aux_app.
  destruct (parse_dec_aux (Z.to_nat (Z.log2 z)) z 0 0 s) as [k ->]; [by apply dec_fuel|].
  eexists. rewrite parse_digits_stop by done. cbn [Z.mul Z.add]. done.
Qed.

Lemma parse_int_part_dec z s : 0 <= z -> no_digit s ->
  parse_int_part (dec z +:+ s) = Some (z, s).
Proof.
  intros Hz Hs. destruct (parse_dec z s Hz Hs) as [n Hn].
  destruct (dec_head z Hz) as (d & r & E & Hd & H0). rewrite E in *.
  cbn [String.append parse_int_part] in *.
  destruct (decide (digit d = "0"%char)) as [Ed|Ed].
  - apply digit_zero in Ed as ->; [|done]. pose proof (H0 eq_refl); subst z.
    vm_compute in E. injection E as <-. done.
  - rewrite digit_val_digit by done. by rewrite Hn.
Qed.

Lemma parse_frac_none ip s : num_end s -> parse_frac ip s = Some (ip, O, s).
Proof.
  destruct s as [|c s]; cbn; [done|]. intros (_ & Hc & _).
  destruct c as [[] [] [] [] [] [] [] []]; try done.
Qed.

Lemma parse_exp_none s : num_end s -> parse_exp s = Some (0, s).
Proof.
  destruct s as [|c s]; cbn; [done|]. intros (_ & _ & H1 & H2).
  by rewrite !bool_decide_eq_false_2 by done.
Qed.

Definition canonical_num (n : num) : bool :=
  match n with
  | Fin m e => (bool_decide (e = O) || negb (m mod 10 =? 0)) && (Z.abs m <? overflow_threshold * pow10 e)
  | _ => false
  end.

Lemma mk_num_canonical m e :
  canonical_num (Fin m e) = true ->
  mk_num (m <? 0) (Z.abs m) (0 - Z.of_nat e) = Fin m e.
Proof.
  cbn. intros H. bool_solve. rename H0 into Hov. unfold mk_num.
  assert (Hsg : (if m <? 0 then - Z.abs m else Z.abs m) = m).
  { destruct (m <? 0) eqn:Em; bool_solve; lia. }
  destruct e as [|e].
  - rewrite Z.sub_0_r, Z.leb_refl. cbn [Z.pow]. rewrite Z.mul_1_r, Hsg.
    rewrite (proj2 (Z.leb_gt _ _)); [done|]. by rewrite Z.mul_1_r in Hov.
  - rewrite (proj2 (Z.leb_gt _ _)) by lia.
    replace (Z.to_nat (- (0 - Z.of_nat (S e)))) with (S e) by lia.
    rewrite (proj2 (Z.leb_gt _ _)), Hsg.
    + cbn [normalise]. rewrite bool_decide_eq_false_2 in H by done. cbn in H. bool_solve.
      by rewrite (proj2 (Z.eqb_neq _ _)).
    + done.
Qed.

Lemma num_end_no_digit s : num_end s -> no_digit s.
Proof. destruct s; cbn; [done|]. by intros (? & _). Qed.

Lemma parse_number_text n s :
  canonical_num n = true -> num_end s -> parse_number (num_text n +:+ s) = Some (n, s).
Proof.
  intros Hn Hs. destruct n as [| |m e]; [done|done|].
  unfold num_text, num_to_string.
  pose proof (pow10_pos e) as Hp.
  assert (Hq : 0 <= Z.abs m / pow10 e) by (apply Z.div_pos; lia).
  set (frac := match e with O => "" | _ => _ end).
  assert (Hbody : forall s2, s2 = dec (Z.abs m / pow10 e) +:+ frac +:+ s ->
    ('(ip, s3) ← parse_int_part s2; '(m', n', s4) ← parse_frac ip s3;
     '(x, s5) ← parse_exp s4; Some (mk_num (m <? 0) m' (x - Z.of_nat n'), s5))
    = Some (Fin m e, s)).
  { intros s2 ->. destruct e as [|e].
    - subst frac. cbn [String.append]. rewrite parse_int_part_dec; [|done|by apply num_end_no_digit].
      cbn. rewrite parse_frac_none by done. cbn. rewrite parse_exp_none by done. cbn.
      unfold pow10. cbn. rewrite Z.div_1_r. f_equal. f_equal. by apply (mk_num_canonical m 0).
    - subst frac. rewrite str_app_assoc. cbn [String.append].
      rewrite parse_int_part_dec; [|done|done]. cbn [mbind option_bind].
      unfold parse_frac. rewrite <- dec_pad_app, parse_dec_pad by (apply Z.mod_pos_bound; lia).
      rewrite parse_digits_stop by (by apply num_end_no_digit).
      rewrite bool_decide_eq_false_2 by lia. cbn [mbind option_bind].
      rewrite parse_exp_none by done. cbn [mbind option_bind].
      rewrite Nat.add_0_r, Z.mul_comm, <- Z.div_mod by lia.
      by rewrite mk_num_canonical. }
  unfold parse_number. destruct (m <? 0).
  - cbn [String.append]. rewrite !str_app_assoc. by apply Hbody.
  - cbn [String.append]. rewrite !str_app_assoc.
    destruct (dec_head _ Hq) as (d & r & E & Hd & _).
    assert (Hsign : forall t, (match dec (Z.abs m / pow10 e) +:+ t with
      | String "-" r => (true, r) | _ => (false, dec (Z.abs m / pow10 e) +:+ t) end)
      = (false, dec (Z.abs m / pow10 e) +:+ t)).
    { intros t. rewrite E. cbn. pose proof (digit_not_sign d Hd).
      destruct (digit d) as [[] [] [] [] [] [] [] []]; done. }
    rewrite Hsign. by apply Hbody.
Qed.

(** ** Strings *)

Lemma str_body_quote_char c t :
  str_body (quote_char c +:+ t) = ('(t', r) ← str_body t; Some (String c t', r)).
Proof. destruct c as [[] [] [] [] [] [] [] []]; reflexivity. Qed.

Lemma str_body_quote s t :
  str_body (quote_body s +:+ String chr_quote t) = Some (s, t).
Proof.
  induction s as [|c s IH]; [done|]. cbn [quote_body].
  by rewrite str_app_assoc, str_body_quote_char, IH.
Qed.

(** ** Values *)

(** What a JavaScript program can hold and print in plain digits: canonical
    numbers, objects whose entries are in enumeration order. *)
Fixpoint wf_json (j : json) : bool :=
  match j with
  | JNum n => canonical_num n
  | JArr l => forallb wf_json l
  | JObj l => bool_decide (fromEntries l = l) && forallb (fun kv => wf_json kv.2) l
  | _ => true
  end.

Fixpoint jsize (j : json) : nat :=
  match j with
  | JArr l => S (list_sum (map (fun v => S (jsize v)) l))
  | JObj l => S (list_sum (map (fun kv => S (jsize kv.2)) l))
  | _ => 1
  end.

Lemma num_head n : canonical_num n = true ->
  exists c r, num_text n = String c r /\ (c = "-"%char \/ exists d, 0 <= d < 10 /\ c = digit d).
Proof.
  destruct n as [| |m e]; [done|done|]. intros _. unfold num_text, num_to_string.
  destruct (dec_head (Z.abs m / pow10 e)) as (d & r & -> & Hd & _).
  { apply Z.div_pos; [lia|apply pow10_pos]. }
  destruct (m <? 0); cbn; eauto 10.
Qed.

Lemma stringify_head j : wf_json j = true ->
  exists c r, stringify j = String c r /\ is_ws c = false /\ c <> "]"%char.
Proof.
  destruct j as [|[]|n|s|l|l]; cbn; intros H; try (eexists _, _; split; [reflexivity|done]).
  destruct (num_head n H) as (c & r & -> & [->|(d & Hd & ->)]); eexists _, _; (split; [reflexivity|]).
  - done.
  - by destruct (digit_cases d Hd) as [-> | [-> | [-> | [-> | [-> | [-> | [-> | [-> | [-> | ->]]]]]]]]].
Qed.

Lemma skip_ws_head c r : is_ws c = false -> skip_ws (String c r) = String c r.
Proof. cbn. by intros ->. Qed.

Lemma parse_value_num n f s :
  canonical_num n = true -> num_end s ->
  parse_value (S f) (num_text n +:+ s) = Some (JNum n, s).
Proof.
  intros Hn Hs. pose proof (parse_number_text n s Hn Hs) as Hp.
  destruct (num_head n Hn) as (c & r & E & Hc). rewrite E in *. cbn [String.append] in *.
  assert (parse_value (S f) (String c (r +:+ s))
          = ('(n, r') ← parse_number (String c (r +:+ s)); Some (JNum n, r'))) as ->.
  { destruct Hc as [->|(d & Hd & ->)]; [done|].
    by destruct (digit_cases d Hd) as [-> | [-> | [-> | [-> | [-> | [-> | [-> | [-> | [-> | ->]]]]]]]]]. }
  by rewrite Hp.
Qed.

Definition parses (j : json) : Prop := forall f s,
  wf_json j = true -> (jsize j <= f)%nat -> num_end s ->
  parse_value f (stringify j +:+ s) = Some (j, s).

Lemma concat_cons x y l :
  String.concat "," (x :: y :: l) = x +:+ "," +:+ String.concat "," (y :: l).
Proof. done. Qed.

Lemma parse_elems_text l f s :
  l <> [] -> Forall parses l -> forallb wf_json l = true ->
  (list_sum (map (fun v => S (jsize v)) l) <= f)%nat ->
  parse_elems f (String.concat "," (map stringify l) +:+ String "]" s) = Some (l, s).
Proof.
  intros Hne HP. revert f. induction HP as [|v l Hv HP IH]; [done|].
  intros f Hwf Hf. cbn in Hwf, Hf. bool_solve. destruct f as [|f]; [lia|].
  destruct l as [|w l].
  - cbn [map String.concat parse_elems]. by rewrite (Hv f) by (done || cbn in *; lia).
  - cbn [map]. rewrite concat_cons, str_app_assoc. cbn [String.append parse_elems].
    rewrite (Hv f) by (done || cbn in *; lia). cbn [mbind option_bind].
    rewrite skip_ws_head by done.
    change (stringify w :: map stringify l) with (map stringify (w :: l)).
    rewrite IH; [done|done|done|]. cbn in *; lia.
Qed.

Definition member_text (kv : string * json) : string :=
  quote kv.1 +:+ ":" +:+ stringify kv.2.

Lemma parse_member_step k v f t :
  parses v -> wf_json v = true -> (jsize v <= f)%nat -> num_end t ->
  parse_members (S f) (member_text (k, v) +:+ t)
  = match skip_ws t with
    | String "," r' => '(vs, r'') ← parse_members f r'; Some ((k, v) :: vs, r'')
    | String "}" r' => Some ([(k, v)], r')
    | _ => None
    end.
Proof.
  intros Hv Hwf Hf Ht. unfold member_text, quote. cbn [fst snd String.append].
  cbn [parse_members skip_ws]. change (is_ws chr_quote) with false. cbn [decide].
  rewrite decide_True by done.
  rewrite !str_app_assoc. cbn [String.append].
  rewrite str_body_quote. cbn [mbind option_bind].
  rewrite skip_ws_head by done. by rewrite Hv.
Qed.

Lemma parse_members_text l f s :
  l <> [] -> Forall (fun kv => parses kv.2) l -> forallb (fun kv => wf_json kv.2) l = true ->
  (list_sum (map (fun kv => S (jsize kv.2)) l) <= f)%nat ->
  parse_members f (String.concat "," (map member_text l) +:+ String "}" s) = Some (l, s).
Proof.
  intros Hne HP. revert f. induction HP as [|[k v] l Hv HP IH]; [done|].
  intros f Hwf Hf. cbn in Hwf, Hf. bool_solve. destruct f as [|f]; [lia|].
  destruct l as [|[k' w] l].
  - cbn [map String.concat]. by rewrite parse_member_step by (done || cbn in *; lia).
  - cbn [map]. rewrite concat_cons, str_app_assoc. cbn [String.append].
    rewrite parse_member_step by (done || cbn in *; lia).
    rewrite skip_ws_head by done.
    change (member_text (k', w) :: map member_text l) with (map member_text ((k', w) :: l)).
    rewrite IH; [done|done|done|]. cbn in *; lia.
Qed.

Lemma member_text_head kv : exists r, member_text kv = String chr_quote r.
Proof. by eexists. Qed.

Lemma concat_head c r x l :
  x = String c r -> exists r', String.concat "," (x :: l) = String c r'.
Proof. intros ->. destruct l as [|y l]; [by eexists|]. rewrite concat_cons. by eexists. Qed.

(** Parsing the printed form of a value gives the value back, whatever
    follows it. *)
Lemma parse_value_stringify j : parses j.
Proof.
  induction j as [|b|n|s|l IH|l IH] using json_ind; intros f t Hwf Hf Ht;
    destruct f as [|f]; try (cbn in Hf; lia).
  - done.
  - by destruct b.
  - by apply parse_value_num.
  - cbn [stringify]. unfold quote. cbn [String.append parse_value].
    rewrite skip_ws_head by done. rewrite decide_True by done.
    rewrite str_app_assoc. cbn [String.append]. by rewrite str_body_quote.
  - cbn [stringify]. rewrite str_app_assoc. cbn [String.append].
    rewrite str_app_assoc. cbn [String.append].
    destruct l as [|v l]; [done|].
    pose proof Hwf as Hwf'. cbn in Hwf'. bool_solve.
    destruct (stringify_head v) as (c & r & Ev & Hws & Hc); [done|].
    destruct (concat_head c r (stringify v) (map stringify l) Ev) as [r' Er].
    pose proof (parse_elems_text (v :: l) f t) as He. cbn [map] in *. rewrite Er in *.
    cbn [String.append] in *. cbn [parse_value].
    rewrite skip_ws_head by done. rewrite !decide_False, decide_True by done.
    rewrite skip_ws_head by done. rewrite He; [|done..|cbn in *; lia].
    destruct c as [[] [] [] [] [] [] [] []]; done.
  - cbn [stringify]. change (map (fun kv => quote kv.1 +:+ ":" +:+ stringify kv.2) l)
      with (map member_text l).
    rewrite str_app_assoc. cbn [String.append]. rewrite str_app_assoc. cbn [String.append].
    cbn [wf_json] in Hwf. bool_solve. rename select (fromEntries l = l) into Hent.
    destruct l as [|kv l]; [done|].
    destruct (member_text_head kv) as [r Ev].
    destruct (concat_head _ r (member_text kv) (map member_text l) Ev) as [r' Er].
    pose proof (parse_members_text (kv :: l) f t) as He. cbn [map] in *. rewrite Er in *.
    cbn [String.append] in *. cbn [parse_value].
    rewrite skip_ws_head by done. rewrite !decide_False, decide_True by done.
    rewrite skip_ws_head by done. rewrite He; [|done..|cbn in *; lia].
    cbn [mbind option_bind]. by rewrite Hent.
Qed.

Lemma list_sum_cons x l : list_sum (x :: l) = (x + list_sum l)%nat.
Proof. done. Qed.

Lemma concat_length_ge {A} (g : A -> string) (l : list A) :
  (list_sum (map (fun v => S (String.length (g v))) l)
   <= String.length (String.concat "," (map g l)) + 1)%nat.
Proof.
  induction l as [|v [|w l] IH]; cbn [map] in *; rewrite ?list_sum_cons in *; [cbn; lia|cbn; lia|].
  rewrite concat_cons, !str_app_length. cbn [String.length] in *. lia.
Qed.

Lemma list_sum_le {A} (f g : A -> nat) l :
  Forall (fun v => (f v <= g v)%nat) l -> (list_sum (map f l) <= list_sum (map g l))%nat.
Proof. induction 1; cbn [map]; rewrite ?list_sum_cons; lia. Qed.

Lemma list_sum_double {A} (g : A -> nat) l :
  list_sum (map (fun v => (2 * g v)%nat) l) = (2 * list_sum (map g l))%nat.
Proof. induction l as [|v l IH]; cbn [map]; rewrite ?list_sum_cons; [done|lia]. Qed.

Lemma num_text_length n : (1 <= String.length (num_text n))%nat.
Proof.
  destruct n as [| |m e]; [cbn; lia|cbn; lia|]. unfold num_text, num_to_string.
  rewrite !str_app_length.
  destruct (dec_head (Z.abs m / pow10 e)) as (d & r & -> & _).
  { apply Z.div_pos; [lia|apply pow10_pos]. }
  cbn. lia.
Qed.

Lemma jsize_le j : (jsize j <= 2 * String.length (stringify j))%nat.
Proof.
  induction j as [|[]|n|s|l IH|l IH] using json_ind; cbn [jsize stringify]; try (cbn; lia).
  - pose proof (num_text_length n). lia.
  - rewrite !str_app_length. cbn [String.length].
    pose proof (concat_length_ge stringify l).
    pose proof (list_sum_le (fun v => S (jsize v)) (fun v => 2 * S (String.length (stringify v)))%nat l).
    rewrite list_sum_double in H0. specialize (H0 ltac:(eapply Forall_impl; [exact IH|cbn; lia])). lia.
  - change (map (fun kv => quote kv.1 +:+ ":" +:+ stringify kv.2) l) with (map member_text l).
    rewrite !str_app_length. cbn [String.length].
    pose proof (concat_length_ge member_text l).
    pose proof (list_sum_le (fun kv => S (jsize kv.2))
      (fun kv => 2 * S (String.length (member_text kv)))%nat l).
    rewrite list_sum_double in H0.
    assert (Forall (fun kv => S (jsize kv.2) <= 2 * S (String.length (member_text kv)))%nat l).
    { eapply Forall_impl; [exact IH|]. intros [k v] Hv. unfold member_text.
      rewrite !str_app_length. cbn in *. lia. }
    specialize (H0 H1). lia.
Qed.

(** [JSON.parse(JSON.stringify(v))] is [v]. *)
Lemma JSON_parse_stringify j : wf_json j = true -> JSON_parse (stringify j) = Ok j.
Proof.
  intros Hwf. unfold JSON_parse.
  pose proof (parse_value_stringify j (2 * String.length (stringify j) + 2)%nat "" Hwf) as Hp.
  rewrite str_app_nil in Hp. rewrite Hp; [done| |done].
  pose proof (jsize_le j). lia.
Qed.

Lemma stringify_inj j1 j2 :
  wf_json j1 = true -> wf_json j2 = true -> stringify j1 = stringify j2 -> j1 = j2.
Proof.
  intros H1 H2 E. apply (Ok_inj j1 j2). by rewrite <- !JSON_parse_stringify, E.
Qed.

(** ** Objects built by assignment are in enumeration order *)

(** [k1] may come before [k2] in an object. *)
Definition precedes (k1 k2 : string) : Prop :=
  match array_index k1, array_index k2 with
  | Some i, Some j => i < j
  | Some _, None => True
  | None, Some _ => False
  | None, None => k1 <> k2
  end.

Definition enum_ok (ks : list string) : Prop := StronglySorted precedes ks.

Lemma array_index_dec k i : array_index k = Some i -> dec i = k.
Proof.
  unfold array_index. destruct (parse_digits 0 0 k) as [[v n] []]; [|done].
  destruct (_ && _) eqn:E; [|done]. intros [= <-]. by bool_solve.
Qed.

Lemma precedes_ne k1 k2 : precedes k1 k2 -> k1 <> k2.
Proof. unfold precedes. intros H ->. destruct (array_index k2); [lia|done]. Qed.

Lemma enum_ok_NoDup ks : enum_ok ks -> NoDup ks.
Proof.
  induction 1 as [|k ks Hs IH Hk]; constructor; [|done]. intros Hin.
  apply (proj1 (Forall_forall _ _) Hk) in Hin. by apply precedes_ne in Hin.
Qed.

Lemma enum_ok_snoc ks k : enum_ok ks -> Forall (fun x => precedes x k) ks -> enum_ok (ks ++ [k]).
Proof.
  induction 1 as [|x ks Hs IH Hx]; cbn; [by repeat constructor|].
  intros [Hxk Hk]%Forall_cons. constructor; [by apply IH|]. apply Forall_app. split; [done|by repeat constructor].
Qed.

Section Enumeration.
Context {A : Type}.
Implicit Types (l o : list (string * A)).

Lemma insert_index_elem i k (v : A) l x : x ∈ insert_index i k v l <-> x = (k, v) \/ x ∈ l.
Proof.
  induction l as [|[k' v'] l IH]; cbn; [by rewrite list_elem_of_singleton, elem_of_nil; tauto|].
  destruct (array_index k') as [i'|]; [destruct (i' <? i)|]; rewrite !elem_of_cons, ?IH; tauto.
Qed.

Lemma insert_index_keys i k (v : A) l : array_index k = Some i -> k ∉ l.*1 -> enum_ok l.*1 ->
  enum_ok (insert_index i k v l).*1.
Proof.
  intros Hi. induction l as [|[k' v'] l IH]; cbn [insert_index]; intros Hk Hs; [by repeat constructor|].
  apply not_elem_of_cons in Hk as [Hne Hk]. apply StronglySorted_inv in Hs as [Hs Hk'].
  cbn [fst] in Hne, Hk'.
  assert (Hhead : precedes k k' -> enum_ok (k :: k' :: l.*1)).
  { intros Hp. constructor; [by constructor|]. constructor; [done|].
    eapply Forall_impl; [exact Hk'|]. intros x Hx. unfold precedes in Hp, Hx |- *. rewrite Hi in *.
    revert Hp Hx. destruct (array_index k'), (array_index x); try done; intros; lia. }
  destruct (array_index k') as [i'|] eqn:Ei'; [destruct (i' <? i) eqn:E|]; bool_solve.
  - cbn. constructor; [by apply IH|]. apply Forall_forall. intros x (y & -> & Hy)%list_elem_of_fmap.
    apply insert_index_elem in Hy as [->|Hy]; [unfold precedes; cbn; by rewrite Ei', Hi|].
    apply (proj1 (Forall_forall _ _) Hk'). by apply list_elem_of_fmap_2.
  - apply Hhead. unfold precedes. rewrite Hi, Ei'.
    assert (i <> i'); [|lia]. intros ->. apply Hne. apply array_index_dec in Hi, Ei'. congruence.
  - apply Hhead. unfold precedes. by rewrite Hi, Ei'.
Qed.

Lemma put_keys k (v : A) l : k ∈ l.*1 -> (put k v l).*1 = l.*1.
Proof.
  induction l as [|[k' v'] l IH]; cbn; [by intros ?%elem_of_nil|].
  destruct (decide (k = k')) as [->|]; cbn; [done|]. intros [->|H]%elem_of_cons; [done|]. by rewrite IH.
Qed.

Lemma put_elem k (v : A) l x : x ∈ put k v l -> x = (k, v) \/ x ∈ l.
Proof.
  induction l as [|[k' v'] l IH]; cbn; [by intros ->%list_elem_of_singleton; left|].
  case_decide; rewrite !elem_of_cons; naive_solver.
Qed.

Lemma put_fresh k (v : A) l : k ∉ l.*1 -> put k v l = l ++ [(k, v)].
Proof.
  induction l as [|[k' v'] l IH]; cbn; [done|]. intros [H1 H2]%not_elem_of_cons.
  rewrite decide_False by done. by rewrite IH.
Qed.

Lemma put_NoDup k (v : A) l : NoDup l.*1 -> NoDup (put k v l).*1.
Proof.
  intros Hd. destruct (decide (k ∈ l.*1)) as [Hk|Hk]; [by rewrite put_keys|].
  rewrite put_fresh, fmap_app by done. apply NoDup_app. split_and!; [done| |apply NoDup_singleton].
  intros x Hx. cbn. rewrite list_elem_of_singleton. by intros ->.
Qed.

Lemma put_length k (v : A) l : (length (put k v l) <= S (length l))%nat.
Proof. induction l as [|[k' v'] l IH]; cbn; [lia|]. case_decide; cbn; lia. Qed.

Lemma remove_sublist k (l : list (string * A)) : sublist (remove k l) l.
Proof. apply sublist_filter. Qed.

Lemma set_key_ok k (v : A) l : enum_ok l.*1 -> enum_ok (set_key k v l).*1.
Proof.
  intros Hs. unfold set_key. destruct (assoc k l) as [w|] eqn:E.
  - rewrite put_keys; [done|]. apply assoc_elem in E. by apply (list_elem_of_fmap_2 fst) in E.
  - apply assoc_none in E. destruct (array_index k) as [i|] eqn:Ei; [by apply insert_index_keys|].
    rewrite fmap_app. change ([(k, v)].*1) with [k]. apply enum_ok_snoc; [done|]. apply Forall_forall. intros x Hx.
    unfold precedes. rewrite Ei. destruct (array_index x); [done|]. by intros ->.
Qed.

Lemma set_key_elem k (v : A) l x : x ∈ set_key k v l -> x = (k, v) \/ x ∈ l.
Proof.
  unfold set_key. destruct (assoc k l); [apply put_elem|]. destruct (array_index k).
  - apply insert_index_elem.
  - rewrite elem_of_app, list_elem_of_singleton. tauto.
Qed.

Lemma set_all_ok l o : enum_ok o.*1 -> enum_ok (set_all l o).*1.
Proof. revert o; induction l as [|kv l IH]; intros o Ho; [done|]. by apply IH, set_key_ok. Qed.

Lemma set_all_elem l o x : x ∈ set_all l o -> x ∈ l \/ x ∈ o.
Proof.
  revert o; induction l as [|[k v] l IH]; intros o; [by right|]. cbn.
  intros [H|H]%IH; [left; by right|]. apply set_key_elem in H as [->|H]; [left; left|by right].
Qed.

Lemma insert_index_last i k (v : A) l :
  Forall (fun x => exists j, array_index x = Some j /\ j < i) l.*1 -> insert_index i k v l = l ++ [(k, v)].
Proof.
  induction l as [|[k' v'] l IH]; cbn; [done|]. intros [(j & Hj & Hlt) Hl]%Forall_cons.
  rewrite Hj, (proj2 (Z.ltb_lt _ _) Hlt). by rewrite IH.
Qed.

Lemma set_key_last k (v : A) o : Forall (fun x => precedes x k) o.*1 -> set_key k v o = o ++ [(k, v)].
Proof.
  intros Ho. unfold set_key. destruct (assoc k o) as [w|] eqn:E.
  - exfalso. apply assoc_elem, (list_elem_of_fmap_2 fst) in E.
    apply (proj1 (Forall_forall _ _) Ho) in E. by apply precedes_ne in E.
  - destruct (array_index k) as [i|] eqn:Ei; [|done]. apply insert_index_last.
    eapply Forall_impl; [exact Ho|]. unfold precedes. rewrite Ei. intros x.
    destruct (array_index x) as [j|]; [eauto|done].
Qed.

Lemma set_all_append l o : enum_ok (o ++ l).*1 -> set_all l o = o ++ l.
Proof.
  revert o; induction l as [|[k v] l IH]; intros o Ho; [by rewrite app_nil_r|]. cbn.
  rewrite set_key_last.
  - change (fold_left _ l ?o') with (set_all l o'). rewrite IH; by rewrite <- app_assoc.
  - rewrite fmap_app in Ho. cbn in Ho. apply Forall_forall. intros x Hx.
    revert Ho. generalize (o.*1) Hx. clear. intros ks Hx Hs.
    induction ks as [|y ks IH]; [by apply elem_of_nil in Hx|]. cbn in Hs.
    apply StronglySorted_inv in Hs as [Hs Hy]. apply elem_of_cons in Hx as [->|Hx]; [|by apply IH].
    apply (proj1 (Forall_forall _ _) Hy). set_solver.
Qed.

(** An object in enumeration order is rebuilt by its own entries. *)
Lemma fromEntries_ok l : enum_ok l.*1 -> fromEntries l = l.
Proof. intros Hl. change (fromEntries l) with (set_all l []). by apply set_all_append. Qed.

Lemma fromEntries_enum l : enum_ok (fromEntries l).*1.
Proof. change (fromEntries l) with (set_all l []). apply set_all_ok. constructor. Qed.
End Enumeration.

Lemma wf_object l : wf_json (JObj l) = true -> enum_ok l.*1 /\ Forall (fun kv => wf_json kv.2 = true) l.
Proof.
  cbn [wf_json]. intros H. bool_solve. split.
  - rewrite <- H. apply fromEntries_enum.
  - apply Forall_forall. intros x Hx. by apply (proj1 (forallb_forall _ _) H0), list_elem_of_In.
Qed.

Lemma wf_object_intro l : enum_ok l.*1 -> Forall (fun kv => wf_json kv.2 = true) l -> wf_json (JObj l) = true.
Proof.
  intros He Hl. cbn [wf_json]. rewrite bool_decide_true by (by apply fromEntries_ok). cbn [andb].
  apply forallb_forall. intros x Hx%list_elem_of_In. by apply (proj1 (Forall_forall _ _) Hl).
Qed.

(** Integers a double holds exactly: clock readings. *)
Definition small_num (z : Z) : Prop := Z.abs z < 2 ^ 53.

Lemma canonical_small z : small_num z -> canonical_num (num_of_Z z) = true.
Proof.
  unfold small_num, canonical_num, num_of_Z, overflow_threshold. intros H.
  cbn [bool_decide orb andb]. apply Z.ltb_lt. rewrite Z.mul_1_r.
  assert (2 ^ 53 <= 2 ^ 1024 - 2 ^ 970) by (apply Z.leb_le; vm_compute; reflexivity). lia.
Qed.
