(* ===== verification/JsonIndent.v ===== *)
(** * [JSON.stringify(v, null, 2)] (node/state.ts)

    The state files are written indented and read back by [JSON.parse]. *)

From S2P Require Import Prelude Json JsonText.
Local Open Scope Z_scope.

Fixpoint spaces (n : nat) : string :=
  match n with O => "" | S n => String " " (spaces n) end.

(** A line break followed by the indentation. *)
Definition line (n : nat) : string := String "010" (spaces n).

(** [n] is the indentation of the value itself. *)
Fixpoint stringify_indented (n : nat) (j : json) : string :=
  let inner := (2 + n)%nat in
  match j with
  | JArr ((_ :: _) as l) =>
      "[" +:+ line inner +:+ String.concat ("," +:+ line inner) (map (stringify_indented inner) l) +:+ line n +:+ "]"
  | JObj ((_ :: _) as l) =>
      "{" +:+ line inner +:+
      String.concat ("," +:+ line inner) (map (fun kv => quote kv.1 +:+ ": " +:+ stringify_indented inner kv.2) l) +:+
      line n +:+ "}"
  | _ => stringify j
  end.

Definition stringify2 (j : json) : string := stringify_indented O j.

(** ** White space *)

Definition blank (w : string) : Prop := forall t, skip_ws (w +:+ t) = skip_ws t.

Lemma blank_spaces n : blank (spaces n).
Proof. intros t. induction n as [|n IH]; [done|]. cbn. done. Qed.

Lemma blank_line n : blank (line n).
Proof. intros t. unfold line. cbn. apply blank_spaces. Qed.

Lemma line_end n t : num_end (line n +:+ t).
Proof. done. Qed.

Lemma parse_value_blank w f t : blank w -> parse_value f (w +:+ t) = parse_value f t.
Proof. intros Hw. destruct f as [|f]; [done|]. cbn [parse_value]. by rewrite Hw. Qed.

Lemma parse_elems_blank w f t : blank w -> parse_elems f (w +:+ t) = parse_elems f t.
Proof. intros Hw. destruct f as [|f]; [done|]. cbn [parse_elems]. by rewrite parse_value_blank. Qed.

Lemma parse_members_blank w f t : blank w -> parse_members f (w +:+ t) = parse_members f t.
Proof. intros Hw. destruct f as [|f]; [done|]. cbn [parse_members]. by rewrite Hw. Qed.

(** ** Parsing indented text *)

Definition member_indented (n : nat) (kv : string * json) : string :=
  quote kv.1 +:+ ": " +:+ stringify_indented n kv.2.

Definition parses_indented (j : json) : Prop := forall n f s,
  wf_json j = true -> (jsize j <= f)%nat -> num_end s ->
  parse_value f (stringify_indented n j +:+ s) = Some (j, s).

Lemma concat_sep sep x y l :
  String.concat sep (x :: y :: l) = x +:+ sep +:+ String.concat sep (y :: l).
Proof. done. Qed.

Lemma parse_elems_indented n m l f s :
  l <> [] -> Forall parses_indented l -> forallb wf_json l = true ->
  (list_sum (map (fun v => S (jsize v)) l) <= f)%nat ->
  parse_elems f (String.concat ("," +:+ line n) (map (stringify_indented n) l) +:+ line m +:+ String "]" s) = Some (l, s).
Proof.
  intros Hne HP. revert f. induction HP as [|v l Hv HP IH]; [done|].
  intros f Hwf Hf. cbn in Hwf, Hf. bool_solve. destruct f as [|f]; [lia|].
  destruct l as [|x l].
  - cbn [map String.concat parse_elems]. rewrite Hv by (done || cbn in *; lia). cbn [mbind option_bind].
    by rewrite blank_line.
  - cbn [map]. rewrite concat_sep, !str_app_assoc. cbn [parse_elems].
    rewrite Hv by (done || cbn in *; lia). cbn [mbind option_bind String.append].
    rewrite skip_ws_head by done. rewrite parse_elems_blank by apply blank_line.
    change (stringify_indented n x :: map (stringify_indented n) l) with (map (stringify_indented n) (x :: l)).
    rewrite IH; [done|done|done|]. cbn in *; lia.
Qed.

Lemma member_step n k v f t :
  parses_indented v -> wf_json v = true -> (jsize v <= f)%nat -> num_end t ->
  parse_members (S f) (member_indented n (k, v) +:+ t)
  = match skip_ws t with
    | String "," r' => '(vs, r'') ← parse_members f r'; Some ((k, v) :: vs, r'')
    | String "}" r' => Some ([(k, v)], r')
    | _ => None
    end.
Proof.
  intros Hv Hwf Hf Ht. unfold member_indented, quote. cbn [fst snd String.append].
  cbn [parse_members skip_ws]. change (is_ws chr_quote) with false. cbn [decide].
  rewrite decide_True by done. rewrite !str_app_assoc. cbn [String.append].
  rewrite str_body_quote. cbn [mbind option_bind]. rewrite skip_ws_head by done.
  change (String " " (stringify_indented n v +:+ t)) with (" " +:+ (stringify_indented n v +:+ t)).
  rewrite parse_value_blank by done. by rewrite Hv.
Qed.

Lemma parse_members_indented n m l f s :
  l <> [] -> Forall (fun kv => parses_indented kv.2) l -> forallb (fun kv => wf_json kv.2) l = true ->
  (list_sum (map (fun kv => S (jsize kv.2)) l) <= f)%nat ->
  parse_members f (String.concat ("," +:+ line n) (map (member_indented n) l) +:+ line m +:+ String "}" s) = Some (l, s).
Proof.
  intros Hne HP. revert f. induction HP as [|[k v] l Hv HP IH]; [done|].
  intros f Hwf Hf. cbn in Hwf, Hf. bool_solve. destruct f as [|f]; [lia|].
  destruct l as [|[k' x] l].
  - cbn [map String.concat]. rewrite member_step by (done || cbn in *; lia). by rewrite blank_line.
  - cbn [map]. rewrite concat_sep, !str_app_assoc. cbn [String.append].
    rewrite member_step by (done || cbn in *; lia). rewrite skip_ws_head by done.
    rewrite parse_members_blank by apply blank_line.
    change (member_indented n (k', x) :: map (member_indented n) l) with (map (member_indented n) ((k', x) :: l)).
    rewrite IH; [done|done|done|]. cbn in *; lia.
Qed.

Lemma indented_head n j : wf_json j = true ->
  exists c r, stringify_indented n j = String c r /\ is_ws c = false /\ c <> "]"%char.
Proof.
  intros Hwf. destruct (stringify_head j Hwf) as (c & r & Es & Hc).
  destruct j as [| | | |[|v l]|[|kv l]]; cbn [stringify_indented]; eauto; (eexists _, _; split; [reflexivity|done]).
Qed.

Lemma concat_sep_head sep c r x l :
  x = String c r -> exists r', String.concat sep (x :: l) = String c r'.
Proof. intros ->. destruct l as [|y l]; [by eexists|]. rewrite concat_sep. by eexists. Qed.

Lemma parse_indented j : parses_indented j.
Proof.
  induction j as [|b|x|t|l IH|l IH] using json_ind; intros n f s Hwf Hf Ht; try by apply parse_value_stringify.
  - destruct l as [|v l]; [by apply parse_value_stringify|]. destruct f as [|f]; [cbn in Hf; lia|].
    pose proof Hwf as Hwf'. cbn in Hwf'. bool_solve. cbn [stringify_indented].
    destruct (indented_head (2 + n) v) as (c & r & Ev & Hws & Hc); [done|].
    destruct (concat_sep_head ("," +:+ line (2 + n)) c r _ (map (stringify_indented (2 + n)) l) Ev) as [r' Er].
    pose proof (parse_elems_indented (2 + n) n (v :: l) f s) as He. cbn [map] in *. rewrite Er in *.
    rewrite !str_app_assoc. cbn [String.append parse_value] in *.
    rewrite skip_ws_head by done. rewrite !decide_False, decide_True by done.
    rewrite blank_line, skip_ws_head, parse_elems_blank by (done || apply blank_line).
    rewrite He; [|done..|cbn in *; lia]. destruct c as [[] [] [] [] [] [] [] []]; done.
  - destruct l as [|kv l]; [by apply parse_value_stringify|]. destruct f as [|f]; [cbn in Hf; lia|].
    pose proof Hwf as Hwf'. cbn [wf_json] in Hwf'. bool_solve. rename select (fromEntries _ = _) into Hent.
    cbn [stringify_indented].
    change (map (fun kv => quote kv.1 +:+ ": " +:+ stringify_indented (2 + n) kv.2) (kv :: l))
      with (map (member_indented (2 + n)) (kv :: l)).
    assert (Hm : exists r, member_indented (2 + n) kv = String chr_quote r) by (by eexists). destruct Hm as [r Em].
    destruct (concat_sep_head ("," +:+ line (2 + n)) chr_quote r _ (map (member_indented (2 + n)) l) Em) as [r' Er].
    pose proof (parse_members_indented (2 + n) n (kv :: l) f s) as He. cbn [map] in *. rewrite Er in *.
    rewrite !str_app_assoc. cbn [String.append parse_value] in *.
    rewrite skip_ws_head by done. rewrite !decide_False, decide_True by done.
    rewrite blank_line, skip_ws_head, parse_members_blank by (done || apply blank_line).
    rewrite He; [|done..|cbn in *; lia]. cbn [mbind option_bind]. by rewrite Hent.
Qed.

(** ** Length, for the fuel of the parser *)

Lemma concat_length sep (l l' : list string) : (1 <= String.length sep)%nat ->
  Forall2 (fun a b => (String.length a <= String.length b)%nat) l l' ->
  (String.length (String.concat "," l) <= String.length (String.concat sep l'))%nat.
Proof.
  intros Hs. induction 1 as [|a b l l' Hab Hl IH]; [done|].
  destruct Hl as [|a' b' l l' Hab' Hl]; [done|].
  rewrite concat_cons, concat_sep, !str_app_length. cbn [String.length]. lia.
Qed.

Lemma indented_length j n : (String.length (stringify j) <= String.length (stringify_indented n j))%nat.
Proof.
  revert n. induction j as [| | | |l IH|l IH] using json_ind; intros m; try done.
  - destruct l as [|v l]; [done|]. cbn [stringify_indented stringify]. rewrite !str_app_length.
    pose proof (concat_length ("," +:+ line (2 + m)) (map stringify (v :: l)) (map (stringify_indented (2 + m)) (v :: l)) ltac:(cbn; lia)) as Hc.
    assert (Hf : Forall2 (fun a b => (String.length a <= String.length b)%nat) (map stringify (v :: l)) (map (stringify_indented (2 + m)) (v :: l))).
    { apply Forall2_fmap_l, Forall2_fmap_r, Forall_Forall2_diag. eapply Forall_impl; [exact IH|]. intros x Hx. apply Hx. }
    specialize (Hc Hf). cbn [String.length] in *. lia.
  - destruct l as [|kv l]; [done|]. cbn [stringify_indented stringify]. rewrite !str_app_length.
    pose proof (concat_length ("," +:+ line (2 + m)) (map member_text (kv :: l)) (map (member_indented (2 + m)) (kv :: l)) ltac:(cbn; lia)) as Hc.
    assert (Hf : Forall2 (fun a b => (String.length a <= String.length b)%nat) (map member_text (kv :: l)) (map (member_indented (2 + m)) (kv :: l))).
    { apply Forall2_fmap_l, Forall2_fmap_r, Forall_Forall2_diag. eapply Forall_impl; [exact IH|]. intros x Hx.
      unfold compose, member_text, member_indented. cbv beta in *. rewrite !str_app_length. cbn [String.length]. specialize (Hx (2 + m)%nat). lia. }
    specialize (Hc Hf). unfold member_text, member_indented in Hc. cbn [String.length] in *. lia.
Qed.

(** An indented value is read back. *)
Lemma JSON_parse_indented j : wf_json j = true -> JSON_parse (stringify2 j) = Ok j.
Proof.
  intros Hwf. unfold JSON_parse, stringify2.
  pose proof (parse_indented j O (2 * String.length (stringify_indented O j) + 2)%nat "" Hwf) as Hp.
  rewrite str_app_nil in Hp. rewrite Hp; [done| |done].
  pose proof (jsize_le j). pose proof (indented_length j O). lia.
Qed.

Example indented_demo :
  stringify2 (JObj [("a", JArr [JNum (num_of_Z 1); JObj []]); ("b", JStr "x")]) =
  "{" +:+ line 2 +:+ quote "a" +:+ ": [" +:+ line 4 +:+ "1," +:+ line 4 +:+ "{}" +:+ line 2 +:+ "]," +:+ line 2 +:+
  quote "b" +:+ ": " +:+ quote "x" +:+ line 0 +:+ "}".
Proof. reflexivity. Qed.
