(* ===== verification/JsonSaved.v ===== *)
(** * What is saved and read back

    [JSON.parse] returns numbers that are doubles or overflowed to an infinity, and
    objects in enumeration order.  Such a value, saved with [JSON.stringify], is read
    back with its infinities as [null]. *)

From S2P Require Import Prelude Json JsonText JsonIndent.
Local Open Scope Z_scope.

Definition parsed_num (n : num) : bool := canonical_num n || match n with Infinite _ => true | _ => false end.

(** Values [JSON.parse] can return. *)
Fixpoint parsed_json (j : json) : bool :=
  match j with
  | JNum n => parsed_num n
  | JArr l => forallb parsed_json l
  | JObj l => bool_decide (fromEntries l = l) && forallb (fun kv => parsed_json kv.2) l
  | _ => true
  end.

(** What becomes of a value in its text. *)
Fixpoint finite (j : json) : json :=
  match j with
  | JNum n => if isFinite n then j else JNull
  | JArr l => JArr (map finite l)
  | JObj l => JObj (map (fun kv => (kv.1, finite kv.2)) l)
  | _ => j
  end.

(** ** Numbers *)

Lemma normalise_canonical e m : Z.abs m < overflow_threshold * pow10 e -> canonical_num (normalise e m) = true.
Proof.
  revert m. induction e as [|e IH]; intros m Hm; cbn [normalise].
  - cbn. by apply Z.ltb_lt.
  - destruct (m mod 10 =? 0) eqn:E.
    + apply IH. apply Z.eqb_eq in E. pose proof (Z.div_mod m 10 ltac:(lia)) as Hd.
      assert (Hp : pow10 (S e) = 10 * pow10 e) by (unfold pow10; rewrite Nat2Z.inj_succ, Z.pow_succ_r; lia). nia.
    + cbn [canonical_num]. rewrite E. cbn [negb]. rewrite orb_true_r. by apply Z.ltb_lt.
Qed.

Lemma mk_num_parsed neg m x : 0 <= m -> parsed_num (mk_num neg m x) = true.
Proof.
  intros Hm. unfold mk_num. destruct (0 <=? x) eqn:Ex.
  - destruct (overflow_threshold <=? m * 10 ^ x) eqn:E; [done|]. bool_solve. unfold parsed_num, canonical_num. cbn [bool_decide orb andb].
    rewrite bool_decide_true by done. cbn [orb andb]. apply orb_true_iff. left. apply Z.ltb_lt. cbn. rewrite Z.mul_1_r.
    assert (0 <= m * 10 ^ x) by (apply Z.mul_nonneg_nonneg; [done|apply Z.pow_nonneg; lia]). destruct neg; lia.
  - destruct (overflow_threshold * pow10 _ <=? m) eqn:E; [done|]. bool_solve. unfold parsed_num.
    rewrite normalise_canonical; [done|]. destruct neg; lia.
Qed.

Lemma parse_digits_nonneg_acc s : forall acc n, 0 <= acc -> 0 <= (parse_digits acc n s).1.1.
Proof.
  induction s as [|c s IH]; intros acc n H; cbn [parse_digits]; [done|]. unfold digit_val.
  destruct (_ && _) eqn:E; [|done]. bool_solve. apply IH. lia.
Qed.

Lemma parse_number_parsed s n r : parse_number s = Some (n, r) -> parsed_num n = true.
Proof.
  unfold parse_number. destruct (match s with String "-" r => (true, r) | _ => (false, s) end) as [neg s1].
  destruct (parse_int_part s1) as [[ip s2]|] eqn:E1; [|done]. cbn [mbind option_bind].
  destruct (parse_frac ip s2) as [[[m k] s3]|] eqn:E2; [|done]. cbn [mbind option_bind].
  destruct (parse_exp s3) as [[x s4]|]; [|done]. cbn [mbind option_bind]. intros [= <- <-]. apply mk_num_parsed.
  assert (Hip : 0 <= ip).
  { unfold parse_int_part in E1. destruct s1 as [|c s1]; [done|]. destruct (decide _); [by simplify_eq|].
    destruct (digit_val c); [|done]. pose proof (parse_digits_nonneg_acc (String c s1) 0 0 ltac:(lia)) as H.
    destruct (parse_digits 0 0 (String c s1)) as [[v ?] ?]. by simplify_eq. }
  unfold parse_frac in E2. destruct s2 as [|c s2]; [by simplify_eq|].
  pose proof (parse_digits_nonneg_acc s2 ip 0 Hip) as H. destruct (parse_digits ip 0 s2) as [[v k'] r'].
  destruct c as [[] [] [] [] [] [] [] []]; try by simplify_eq. destruct (bool_decide _); by simplify_eq.
Qed.

(** ** Parsing *)

Lemma parsed_object l : enum_ok l.*1 -> Forall (fun kv => parsed_json kv.2 = true) l -> parsed_json (JObj l) = true.
Proof.
  intros He Hl. cbn [parsed_json]. rewrite bool_decide_true by (by apply fromEntries_ok). cbn [andb].
  apply forallb_forall. intros x Hx%list_elem_of_In. by apply (proj1 (Forall_forall _ _) Hl).
Qed.

Lemma parsed_object_inv l : parsed_json (JObj l) = true -> enum_ok l.*1 /\ Forall (fun kv => parsed_json kv.2 = true) l.
Proof.
  cbn [parsed_json]. intros H. bool_solve. split.
  - rewrite <- H. apply fromEntries_enum.
  - apply Forall_forall. intros x Hx. by apply (proj1 (forallb_forall _ _) H0), list_elem_of_In.
Qed.

Lemma fromEntries_parsed l : Forall (fun kv => parsed_json kv.2 = true) l -> parsed_json (JObj (fromEntries l)) = true.
Proof.
  intros Hl. apply parsed_object; [apply fromEntries_enum|]. apply Forall_forall. intros x Hx.
  change (fromEntries l) with (set_all l []) in Hx. apply set_all_elem in Hx as [Hx|Hx]; [|by apply elem_of_nil in Hx].
  by apply (proj1 (Forall_forall _ _) Hl).
Qed.

Lemma parse_parsed f : forall s,
  (forall v r, parse_value f s = Some (v, r) -> parsed_json v = true) /\
  (forall l r, parse_elems f s = Some (l, r) -> forallb parsed_json l = true) /\
  (forall l r, parse_members f s = Some (l, r) -> Forall (fun kv => parsed_json kv.2 = true) l).
Proof.
  induction f as [|f IH]; intros s; [done|]. split_and!.
  - intros v r. cbn [parse_value]. destruct (skip_ws s) as [|c s1]; [done|]. destruct (decide (c = chr_quote)).
    { destruct (str_body s1) as [[t r']|]; [|done]. by intros [= <- <-]. }
    destruct (decide (c = "["%char)).
    { assert (Hk : forall v r, ('(l, r') ← parse_elems f s1; Some (JArr l, r')) = Some (v, r) -> parsed_json v = true).
      { intros v' r'. destruct (parse_elems f s1) as [[l r1]|] eqn:E; [|done]. intros [= <- <-]. by apply (IH s1) in E. }
      destruct (skip_ws s1) as [|d s2]; [apply Hk|]. destruct (decide (d = "]"%char)) as [->|]; [by intros [= <- <-]|].
      destruct d as [[] [] [] [] [] [] [] []]; first [apply Hk|congruence]. }
    destruct (decide (c = "{"%char)).
    { assert (Hk : forall v r, ('(l, r') ← parse_members f s1; Some (JObj (fromEntries l), r')) = Some (v, r) -> parsed_json v = true).
      { intros v' r'. destruct (parse_members f s1) as [[l r1]|] eqn:E; [|done]. intros [= <- <-].
        by apply (IH s1), fromEntries_parsed in E. }
      destruct (skip_ws s1) as [|d s2]; [apply Hk|]. destruct (decide (d = "}"%char)) as [->|]; [by intros [= <- <-]|].
      destruct d as [[] [] [] [] [] [] [] []]; first [apply Hk|congruence]. }
    assert (Hn : forall v r, ('(n, r') ← parse_number (String c s1); Some (JNum n, r')) = Some (v, r) -> parsed_json v = true).
    { intros v' r'. destruct (parse_number (String c s1)) as [[n' r1]|] eqn:E; [|done]. intros [= <- <-]. by apply parse_number_parsed in E. }
    intros H. repeat (match type of H with context [match ?x with _ => _ end] => is_var x; destruct x end; try exact (Hn _ _ H)); by simplify_eq.
  - intros l r. cbn [parse_elems]. destruct (parse_value f s) as [[v r1]|] eqn:E; [|done]. cbn [mbind option_bind].
    apply (IH s) in E. destruct (skip_ws r1) as [|d r2]; [done|]. intros H.
    repeat (match type of H with context [match ?x with _ => _ end] => is_var x; destruct x end; try done);
      (match type of H with context [parse_elems f ?x] => destruct (parse_elems f x) as [[vs r3]|] eqn:E2; [apply (IH x) in E2|done] | _ => idtac end);
      cbn in H; simplify_eq; cbn [forallb]; rewrite E; done.
  - intros l r. cbn [parse_members]. destruct (skip_ws s) as [|c r0]; [done|]. destruct (decide _); [|done].
    destruct (str_body r0) as [[k r1]|]; [|done]. cbn [mbind option_bind]. destruct (skip_ws r1) as [|d r2]; [done|]. intros H.
    repeat (match type of H with context [match ?x with _ => _ end] => is_var x; destruct x end; try done).
    destruct (parse_value f r2) as [[v r3]|] eqn:E; [|done]. cbn [mbind option_bind] in H. apply (IH r2) in E.
    destruct (skip_ws r3) as [|d2 r4]; [done|].
    repeat (match type of H with context [match ?x with _ => _ end] => is_var x; destruct x end; try done);
      (match type of H with context [parse_members f ?x] => destruct (parse_members f x) as [[vs r5]|] eqn:E2; [apply (IH x) in E2|done] | _ => idtac end);
      cbn in H; simplify_eq; by repeat constructor.
Qed.

Lemma JSON_parse_parsed s v : JSON_parse s = Ok v -> parsed_json v = true.
Proof.
  unfold JSON_parse. destruct (parse_value _ s) as [[w r]|] eqn:E; [|done]. destruct (bool_decide _); [|done].
  intros [= <-]. by apply parse_parsed in E.
Qed.

(** ** Saving *)

Lemma stringify_finite j : stringify (finite j) = stringify j.
Proof.
  induction j as [|b|n|s|l IH|l IH] using json_ind; try done.
  - by destruct n.
  - cbn [finite stringify]. do 3 f_equal. rewrite map_map. apply map_ext_Forall. exact IH.
  - cbn [finite stringify]. do 3 f_equal. rewrite map_map. apply map_ext_Forall. eapply Forall_impl; [exact IH|].
    intros [k v] H. cbn in *. by rewrite H.
Qed.

Lemma stringify_indented_finite j : forall n, stringify_indented n (finite j) = stringify_indented n j.
Proof.
  induction j as [|b|m|s|l IH|l IH] using json_ind; intros n; try done.
  - by destruct m.
  - destruct l as [|x l]; [done|]. cbn [finite map stringify_indented]. do 4 f_equal.
    change (finite x :: map finite l) with (map finite (x :: l)).
    change (stringify_indented (2 + n) (finite x) :: map (stringify_indented (2 + n)) (map finite l)) with (map (stringify_indented (2 + n)) (map finite (x :: l))).
    change (stringify_indented (2 + n) x :: map (stringify_indented (2 + n)) l) with (map (stringify_indented (2 + n)) (x :: l)).
    rewrite map_map. apply map_ext_Forall. eapply Forall_impl; [exact IH|]. intros y H. apply H.
  - destruct l as [|x l]; [done|].
    change (finite (JObj (x :: l))) with (JObj (map (fun kv => (kv.1, finite kv.2)) (x :: l))).
    cbn [map]. cbn [stringify_indented].
    match goal with |- context [map ?f ((x.1, finite x.2) :: map ?g l)] =>
      assert (Hm : map f (map g (x :: l)) = map f (x :: l)) end.
    { rewrite map_map. apply map_ext_Forall. eapply Forall_impl; [exact IH|]. intros [k v] H. cbn in *. by rewrite H. }
    cbn [map] in Hm |- *. by rewrite Hm.
Qed.

Lemma finite_keys l : (map (fun kv : string * json => (kv.1, finite kv.2)) l).*1 = l.*1.
Proof. induction l as [|[k v] l IH]; [done|]. cbn. by rewrite <- IH. Qed.

Lemma finite_wf j : parsed_json j = true -> wf_json (finite j) = true.
Proof.
  induction j as [|b|n|s|l IH|l IH] using json_ind; intros Hp; try done.
  - cbn in *. destruct n as [| |m e]; cbn; [done|done|]. unfold parsed_num in Hp. by rewrite orb_false_r in Hp.
  - cbn [finite wf_json]. cbn in Hp. rewrite forallb_forall in Hp. apply forallb_forall. intros y (x & <- & Hx)%in_map_iff.
    apply (proj1 (List.Forall_forall _ _) IH x Hx), Hp, Hx.
  - apply parsed_object_inv in Hp as [He Hl]. cbn [finite]. apply wf_object_intro; [by rewrite finite_keys|].
    apply Forall_fmap. apply Forall_forall. intros x Hx. cbn.
    apply (proj1 (Forall_forall _ _) IH x Hx). by apply (proj1 (Forall_forall _ _) Hl).
Qed.

(** A value that came from [JSON.parse] is read back from what is saved. *)
Lemma JSON_parse_saved j : parsed_json j = true -> JSON_parse (stringify2 j) = Ok (finite j).
Proof.
  intros Hp. unfold stringify2. rewrite <- (stringify_indented_finite j O). by apply (JSON_parse_indented (finite j)), finite_wf.
Qed.

Lemma get_finite k j : get k (finite j) = finite <$> get k j.
Proof.
  destruct j as [|b|n|s|l|l]; try done; [by destruct n|]. cbn. induction l as [|[k' v] l IH]; [done|]. cbn.
  by destruct (decide (k = k')).
Qed.
