(* ===== verification/Base64.v ===== *)
(** * Base64 and base64url text of buffers

    [buf.toString("base64")], [buf.toString("base64url")] and
    [Buffer.from(s, "base64")].  The decoder accepts both alphabets, skips the
    characters outside them and stops at the first padding sign. *)

From S2P Require Import Prelude.
Local Open Scope Z_scope.

Definition b64_alphabet : string :=
  "ABCDEFGHIJKLMNOPQRSTUVWXYZabcdefghijklmnopqrstuvwxyz0123456789+/".
Definition b64url_alphabet : string :=
  "ABCDEFGHIJKLMNOPQRSTUVWXYZabcdefghijklmnopqrstuvwxyz0123456789-_".

Definition b64_char (alphabet : string) (v : Z) : ascii :=
  default "A"%char (String.get (Z.to_nat v) alphabet).

Definition b64_val (c : ascii) : option Z :=
  let n := Z.of_nat (Ascii.nat_of_ascii c) in
  if (65 <=? n) && (n <=? 90) then Some (n - 65)
  else if (97 <=? n) && (n <=? 122) then Some (n - 71)
  else if (48 <=? n) && (n <=? 57) then Some (n + 4)
  else if (n =? 43) || (n =? 45) then Some 62
  else if (n =? 47) || (n =? 95) then Some 63
  else None.

(** The 6-bit groups of a buffer. *)
Fixpoint to_sextets (b : buffer) : list Z :=
  match b with
  | x :: y :: z :: r =>
      let n := Z_of_byte x * 65536 + Z_of_byte y * 256 + Z_of_byte z in
      n / 262144 :: n / 4096 mod 64 :: n / 64 mod 64 :: n mod 64 :: to_sextets r
  | [x; y] =>
      let n := Z_of_byte x * 65536 + Z_of_byte y * 256 in
      [n / 262144; n / 4096 mod 64; n / 64 mod 64]
  | [x] => let n := Z_of_byte x * 65536 in [n / 262144; n / 4096 mod 64]
  | [] => []
  end.

Fixpoint of_sextets (l : list Z) : buffer :=
  match l with
  | a :: b :: c :: d :: r =>
      let n := ((a * 64 + b) * 64 + c) * 64 + d in
      byte_of_Z (n / 65536) :: byte_of_Z (n / 256) :: byte_of_Z n :: of_sextets r
  | [a; b; c] =>
      let n := ((a * 64 + b) * 64 + c) * 64 in
      [byte_of_Z (n / 65536); byte_of_Z (n / 256)]
  | [a; b] => [byte_of_Z ((a * 64 + b) * 4096 / 65536)]
  | _ => []
  end.

Fixpoint sextet_text (alphabet : string) (l : list Z) (pad : string) : string :=
  match l with
  | [] => pad
  | v :: l => String (b64_char alphabet v) (sextet_text alphabet l pad)
  end.

Definition b64_padding (n : nat) : string :=
  match (n mod 3)%nat with 1%nat => "==" | 2%nat => "=" | _ => "" end.

(** [buf.toString("base64")]. *)
Definition toBase64 (b : buffer) : string :=
  sextet_text b64_alphabet (to_sextets b) (b64_padding (length b)).

(** [buf.toString("base64url")], unpadded. *)
Definition toBase64url (b : buffer) : string :=
  sextet_text b64url_alphabet (to_sextets b) "".

Fixpoint text_sextets (s : string) : list Z :=
  match s with
  | EmptyString => []
  | String c r =>
      if decide (c = "="%char) then []
      else match b64_val c with Some v => v :: text_sextets r | None => text_sextets r end
  end.

(** [Buffer.from(s, "base64")] and [Buffer.from(s, "base64url")]. *)
Definition fromBase64 (s : string) : buffer := of_sextets (text_sextets s).

(** ** Round trips *)

Lemma list_ind3 {A} (P : list A -> Prop) :
  P [] -> (forall x, P [x]) -> (forall x y, P [x; y]) ->
  (forall x y z l, P l -> P (x :: y :: z :: l)) -> forall l, P l.
Proof.
  intros H0 H1 H2 H3. fix go 1.
  intros [|x [|y [|z l]]]; [exact H0|apply H1|apply H2|apply H3, go].
Qed.

Ltac div_lia :=
  repeat match goal with b : byte |- _ =>
    lazymatch goal with
    | H : 0 <= Z_of_byte b < 256 |- _ => fail
    | _ => pose proof (Z_of_byte_range b)
    end end;
  Z.to_euclidean_division_equations; lia.

Lemma to_sextets_bound b : Forall (fun v => 0 <= v < 64) (to_sextets b).
Proof.
  induction b as [|x|x y|x y z b IH] using list_ind3; cbn [to_sextets];
    repeat constructor; try done; div_lia.
Qed.

Lemma byte_of_Z_eq b z : z mod 256 = Z_of_byte b -> byte_of_Z z = b.
Proof. intros H. apply Z_of_byte_inj. by rewrite Z_of_byte_of_Z. Qed.

Ltac cons_bytes :=
  repeat (apply (f_equal2 cons); [apply byte_of_Z_eq; div_lia|]).

Lemma of_to_sextets b : of_sextets (to_sextets b) = b.
Proof.
  induction b as [|x|x y|x y z b IH] using list_ind3; cbn [to_sextets of_sextets];
    [| | |rewrite IH]; cons_bytes; done.
Qed.

Definition alphabet_ok (a : string) : Prop :=
  forall v, 0 <= v < 64 -> b64_char a v <> "="%char /\ b64_val (b64_char a v) = Some v.

Lemma sextet_range (P : Z -> Prop) :
  (forall n, (n < 64)%nat -> P (Z.of_nat n)) -> forall v, 0 <= v < 64 -> P v.
Proof. intros H v Hv. rewrite <- (Z2Nat.id v) by lia. apply H. lia. Qed.

Lemma b64_alphabet_ok : alphabet_ok b64_alphabet.
Proof.
  refine (sextet_range (fun v => b64_char b64_alphabet v <> "="%char /\ b64_val (b64_char b64_alphabet v) = Some v) _).
  intros n Hn. do 64 (destruct n; [done|]). lia.
Qed.

Lemma b64url_alphabet_ok : alphabet_ok b64url_alphabet.
Proof.
  refine (sextet_range (fun v => b64_char b64url_alphabet v <> "="%char /\ b64_val (b64_char b64url_alphabet v) = Some v) _).
  intros n Hn. do 64 (destruct n; [done|]). lia.
Qed.

Lemma text_sextets_text a l pad :
  alphabet_ok a -> Forall (fun v => 0 <= v < 64) l -> text_sextets pad = [] ->
  text_sextets (sextet_text a l pad) = l.
Proof.
  intros Ha Hl Hp. induction Hl as [|v l Hv _ IH]; [done|]. cbn [sextet_text text_sextets].
  destruct (Ha v Hv) as [Hne Hval]. rewrite decide_False by done. by rewrite Hval, IH.
Qed.

Lemma b64_padding_sextets n : text_sextets (b64_padding n) = [].
Proof. unfold b64_padding. by destruct (n mod 3)%nat as [|[|[|]]]. Qed.

Lemma fromBase64_toBase64 b : fromBase64 (toBase64 b) = b.
Proof.
  unfold fromBase64, toBase64. rewrite text_sextets_text.
  - apply of_to_sextets.
  - apply b64_alphabet_ok.
  - apply to_sextets_bound.
  - apply b64_padding_sextets.
Qed.

Lemma fromBase64_toBase64url b : fromBase64 (toBase64url b) = b.
Proof.
  unfold fromBase64, toBase64url. rewrite text_sextets_text.
  - apply of_to_sextets.
  - apply b64url_alphabet_ok.
  - apply to_sextets_bound.
  - done.
Qed.

#[export] Instance toBase64_inj : Inj (=) (=) toBase64.
Proof. intros b1 b2 E. by rewrite <- (fromBase64_toBase64 b1), E, fromBase64_toBase64. Qed.

#[export] Hint Rewrite fromBase64_toBase64 fromBase64_toBase64url : bytes.

(** No dot in base64url text: the separator of token parts. *)
Lemma b64url_no_dot b : forall i, String.get i (toBase64url b) <> Some "."%char.
Proof.
  unfold toBase64url. pose proof (to_sextets_bound b) as Hb.
  induction Hb as [|v l Hv _ IH]; intros i; [by destruct i|].
  destruct i as [|i]; cbn; [|apply IH].
  intros [= E]. revert v Hv E.
  refine (sextet_range (fun v => b64_char b64url_alphabet v = "."%char -> False) _).
  intros n Hn. do 64 (destruct n; [done|]). lia.
Qed.

Lemma toBase64_nonempty b : b <> [] -> toBase64 b <> "".
Proof. by destruct b as [|x [|y [|z b]]]. Qed.
