(* ===== verification/Text.v ===== *)
(** * Strings and sorting

    The string methods the components use ([split], [startsWith], [trim],
    [toLowerCase], ...) and a stable sort for [Array.prototype.sort].  Strings
    are their UTF-8 bytes: lengths, order and case are those of JavaScript on
    ASCII text. *)

From Stdlib Require Export Sorting.Sorted.
From S2P Require Import Prelude.
Local Open Scope Z_scope.

(** ** Characters *)

Definition code (c : ascii) : Z := Z.of_nat (Ascii.nat_of_ascii c).
Definition of_code (z : Z) : ascii := Ascii.ascii_of_nat (Z.to_nat z).

Lemma code_range c : 0 <= code c < 256.
Proof. unfold code. pose proof (Ascii.nat_ascii_bounded c). lia. Qed.

Lemma code_inj c d : code c = code d -> c = d.
Proof.
  unfold code. intros H%Nat2Z.inj.
  by rewrite <- (Ascii.ascii_nat_embedding c), H, Ascii.ascii_nat_embedding.
Qed.

Definition between (lo hi : ascii) (c : ascii) : bool := (code lo <=? code c) && (code c <=? code hi).
Definition is_digit (c : ascii) : bool := between "0" "9" c.
Definition is_lower_hex (c : ascii) : bool := is_digit c || between "a" "f" c.
Definition is_space (c : ascii) : bool := (code c =? 32) || ((9 <=? code c) && (code c <=? 13)).
Definition lower_char (c : ascii) : ascii := if between "A" "Z" c then of_code (code c + 32) else c.
Definition upper_char (c : ascii) : ascii := if between "a" "z" c then of_code (code c - 32) else c.

Fixpoint str_map (f : ascii -> ascii) (s : string) : string :=
  match s with EmptyString => EmptyString | String c r => String (f c) (str_map f r) end.
Fixpoint str_forall (f : ascii -> bool) (s : string) : bool :=
  match s with EmptyString => true | String c r => f c && str_forall f r end.

Definition toLowerCase : string -> string := str_map lower_char.
Definition toUpperCase : string -> string := str_map upper_char.

(** [s.includes(c)] for a one-character needle. *)
Definition has_char (c : ascii) (s : string) : bool := negb (str_forall (fun d => negb (bool_decide (d = c))) s).

(** [s.startsWith(p)], [s.endsWith(p)], [s.includes(p)], [s.slice(n)]. *)
Definition startsWith (s p : string) : bool := String.prefix p s.
Fixpoint includes (s p : string) : bool :=
  startsWith s p || match s with EmptyString => false | String _ r => includes r p end.
Fixpoint slice_from (n : nat) (s : string) : string :=
  match n, s with
  | O, _ => s
  | S n', String _ r => slice_from n' r
  | S _, EmptyString => EmptyString
  end.
(** [s.slice(0, n)]. *)
Fixpoint slice_to (n : nat) (s : string) : string :=
  match n, s with
  | S n', String c r => String c (slice_to n' r)
  | _, _ => EmptyString
  end.
Fixpoint str_rev (s acc : string) : string :=
  match s with EmptyString => acc | String c r => str_rev r (String c acc) end.
Definition endsWith (s p : string) : bool := startsWith (str_rev s "") (str_rev p "").

Fixpoint trim_start (s : string) : string :=
  match s with String c r => if is_space c then trim_start r else s | EmptyString => s end.
Definition trim (s : string) : string := str_rev (trim_start (str_rev (trim_start s) "")) "".

(** [s.split(c)] for a one-character separator. *)
Fixpoint split (c : ascii) (s : string) : list string :=
  match s with
  | EmptyString => [""]
  | String d r =>
      if decide (d = c) then "" :: split c r
      else match split c r with
           | p :: ps => String d p :: ps
           | [] => [String d ""]
           end
  end.

(** [l.join(sep)]. *)
Definition join (sep : string) (l : list string) : string := String.concat sep l.

(** ** Order and sorting *)

(** [a < b] on strings. *)
Fixpoint str_ltb (a b : string) : bool :=
  match a, b with
  | _, EmptyString => false
  | EmptyString, String _ _ => true
  | String x a', String y b' => if decide (x = y) then str_ltb a' b' else code x <? code y
  end.

Section Sort.
Context {A : Type} (ltb : A -> A -> bool).

Fixpoint sort_insert (x : A) (l : list A) : list A :=
  match l with
  | [] => [x]
  | y :: l' => if ltb y x then y :: sort_insert x l' else x :: l
  end.

(** [l.sort(cmp)], stable. *)
Fixpoint sort_by (l : list A) : list A :=
  match l with [] => [] | x :: l' => sort_insert x (sort_by l') end.
End Sort.

Section StringLemmas.
Lemma str_ltb_irrefl a : str_ltb a a = false.
Proof. induction a as [|x a IH]; cbn; [done|]. by rewrite decide_True. Qed.

Lemma str_ltb_trans a b c : str_ltb a b = true -> str_ltb b c = true -> str_ltb a c = true.
Proof.
  revert b c; induction a as [|x a IH]; intros [|y b] [|z c]; cbn; try done.
  intros Hxy Hyz. destruct (decide (x = y)) as [->|], (decide (y = z)) as [->|].
  - by apply IH with b.
  - done.
  - by rewrite decide_False.
  - bool_solve. destruct (decide (x = z)) as [->|]; [lia|]. apply Z.ltb_lt. lia.
Qed.

Lemma str_ltb_total a b : a <> b -> str_ltb a b = true \/ str_ltb b a = true.
Proof.
  revert b; induction a as [|x a IH]; intros [|y b] H; cbn; auto.
  destruct (decide (x = y)) as [->|Hn].
  - rewrite decide_True by done. apply IH. congruence.
  - rewrite decide_False by done.
    rewrite !Z.ltb_lt. assert (code x <> code y) by (intros ?%code_inj; done). lia.
Qed.

Lemma str_ltb_antisym a b : str_ltb a b = true -> str_ltb b a = false.
Proof.
  intros H1. destruct (str_ltb b a) eqn:H2; [|done].
  pose proof (str_ltb_trans _ _ _ H1 H2) as H3. by rewrite str_ltb_irrefl in H3.
Qed.
End StringLemmas.

Section SortLemmas.
Context {A : Type} (ltb : A -> A -> bool).
Notation insert := (sort_insert ltb).

Lemma sort_insert_perm x l : insert x l ≡ₚ x :: l.
Proof.
  induction l as [|y l IH]; cbn; [done|]. destruct (ltb y x); [|done].
  rewrite IH. by rewrite Permutation_swap.
Qed.

Lemma sort_by_perm l : sort_by ltb l ≡ₚ l.
Proof. induction l as [|x l IH]; cbn; [done|]. by rewrite sort_insert_perm, IH. Qed.

Definition le_of (a b : A) : Prop := ltb b a = false.

Context (Htrans : forall a b c, ltb b a = false -> ltb c b = false -> ltb c a = false).
Context (Hanti : forall a b, ltb a b = true -> ltb b a = false).

Lemma sort_insert_sorted x l :
  StronglySorted le_of l -> StronglySorted le_of (insert x l).
Proof.
  induction l as [|y l IH]; cbn; [by repeat constructor|].
  intros [Hs Hy]%StronglySorted_inv. destruct (ltb y x) eqn:E.
  - constructor; [by apply IH|].
    rewrite sort_insert_perm. constructor; [|done]. by apply Hanti.
  - constructor; [by constructor|]. constructor; [done|].
    eapply Forall_impl; [exact Hy|]. unfold le_of; intros z Hz. by apply Htrans with y.
Qed.

Lemma sort_by_sorted l : StronglySorted le_of (sort_by ltb l).
Proof. induction l; cbn; [constructor|by apply sort_insert_sorted]. Qed.

Lemma sort_insert_min x l : Forall (le_of x) l -> insert x l = x :: l.
Proof. destruct 1 as [|y l H]; cbn; [done|]. by rewrite H. Qed.

(** Sorting a sorted list changes nothing. *)
Lemma sort_by_id l : StronglySorted le_of l -> sort_by ltb l = l.
Proof.
  induction 1 as [|x l Hs IH Hx]; cbn; [done|]. rewrite IH. by apply sort_insert_min.
Qed.

(** The sorted permutation of a list is unique where equivalent elements are
    equal. *)
Lemma sorted_unique l1 l2 :
  (forall a b, a ∈ l1 -> b ∈ l1 -> ltb a b = false -> ltb b a = false -> a = b) ->
  StronglySorted le_of l1 -> StronglySorted le_of l2 -> l1 ≡ₚ l2 -> l1 = l2.
Proof.
  intros Heq H1. revert l2. induction H1 as [|x l1 Hs1 IH Hx]; intros l2 H2 HP.
  - by apply Permutation_nil_l in HP.
  - destruct H2 as [|y l2 Hs2 Hy]; [by apply Permutation_nil_r in HP|].
    assert (x = y) as <-.
    { assert (x ∈ y :: l2) as [->|Hx2]%elem_of_cons by (rewrite <- HP; left); [done|].
      assert (y ∈ x :: l1) as [->|Hy1]%elem_of_cons by (rewrite HP; left); [done|].
      rewrite Forall_forall in Hx, Hy.
      apply Heq; [left|by right| |]; [by apply Hy|by apply Hx]. }
    f_equal. apply IH; [|done|].
    + intros a b Ha Hb. by apply Heq; right.
    + by apply Permutation_cons_inv in HP.
Qed.

Lemma sort_by_unique l1 l2 :
  (forall a b, a ∈ l1 -> b ∈ l1 -> ltb a b = false -> ltb b a = false -> a = b) ->
  l1 ≡ₚ l2 -> sort_by ltb l1 = sort_by ltb l2.
Proof.
  intros Heq HP. apply sorted_unique.
  - intros a b. rewrite !sort_by_perm. apply Heq.
  - apply sort_by_sorted.
  - apply sort_by_sorted.
  - by rewrite !sort_by_perm.
Qed.

Lemma sort_by_NoDup l : NoDup l -> NoDup (sort_by ltb l).
Proof. by rewrite sort_by_perm. Qed.
End SortLemmas.

Lemma str_le_trans a b c : str_ltb b a = false -> str_ltb c b = false -> str_ltb c a = false.
Proof.
  intros H1 H2. destruct (str_ltb c a) eqn:E; [|done].
  destruct (decide (a = b)) as [->|Hn]; [by rewrite E in H2|].
  destruct (str_ltb_total a b Hn) as [H|H]; [|by rewrite H in H1].
  by rewrite (str_ltb_trans c a b) in H2.
Qed.

Lemma str_le_antisym a b : str_ltb a b = false -> str_ltb b a = false -> a = b.
Proof.
  intros H1 H2. destruct (decide (a = b)) as [|Hn]; [done|].
  destruct (str_ltb_total a b Hn); congruence.
Qed.

(** Comparators on a string key. *)
Definition by_key {A} (f : A -> string) (a b : A) : bool := str_ltb (f a) (f b).

Lemma sort_keys_sorted {A} (f : A -> string) l :
  StronglySorted (le_of (by_key f)) (sort_by (by_key f) l).
Proof.
  apply sort_by_sorted; unfold by_key.
  - intros a b c. apply str_le_trans.
  - intros a b. apply str_ltb_antisym.
Qed.

Lemma sort_strings_id l : StronglySorted (le_of str_ltb) l -> sort_by str_ltb l = l.
Proof. apply sort_by_id. Qed.

(** ** Splitting and joining *)

Definition no_char (c : ascii) (s : string) : Prop := str_forall (fun d => negb (bool_decide (d = c))) s = true.

Lemma no_char_cons c d s : no_char c (String d s) <-> d <> c /\ no_char c s.
Proof. unfold no_char. cbn. rewrite andb_true_iff, negb_true_iff, bool_decide_eq_false. done. Qed.

Lemma split_no_char c s : no_char c s -> split c s = [s].
Proof.
  induction s as [|d s IH]; cbn; [done|]. intros [H1 H2]%no_char_cons.
  by rewrite decide_False, IH.
Qed.

Lemma split_app c s t : no_char c s -> split c (s +:+ String c t) = s :: split c t.
Proof.
  induction s as [|d s IH]; cbn.
  - by rewrite decide_True.
  - intros [H1 H2]%no_char_cons. by rewrite decide_False, IH.
Qed.

Lemma split_join c l :
  l <> [] -> Forall (no_char c) l -> split c (join (String c "") l) = l.
Proof.
  intros Hne Hl. induction Hl as [|x l Hx Hl IH]; [done|].
  destruct l as [|y l]; [by apply split_no_char|].
  change (join (String c "") (x :: y :: l)) with (x +:+ (String c "" +:+ join (String c "") (y :: l))).
  change (String c "" +:+ ?z) with (String c z). rewrite split_app by done. by rewrite IH.
Qed.

Lemma startsWith_app p s : startsWith (p +:+ s) p = true.
Proof. unfold startsWith. induction p as [|c p IH]; cbn; [by destruct s|]. by destruct (Ascii.ascii_dec c c). Qed.

Lemma startsWith_spec s p : startsWith s p = true <-> exists r, s = p +:+ r.
Proof.
  split; [|intros [r ->]; apply startsWith_app].
  revert s; induction p as [|c p IH]; intros s; [by exists s|].
  destruct s as [|d s]; [done|]. unfold startsWith; cbn.
  destruct (Ascii.ascii_dec c d) as [->|]; [|done].
  intros [r ->]%IH. by exists r.
Qed.

Lemma code_of_code z : 0 <= z < 256 -> code (of_code z) = z.
Proof. intros H. unfold code, of_code. rewrite Ascii.nat_ascii_embedding by lia. lia. Qed.

Lemma lower_char_idem c : lower_char (lower_char c) = lower_char c.
Proof.
  unfold lower_char, between. change (code "A") with 65. change (code "Z") with 90.
  destruct ((65 <=? code c) && (code c <=? 90)) eqn:E; [|by rewrite E]. bool_solve.
  rewrite code_of_code by lia. destruct (_ && _) eqn:F; [|done]. bool_solve. lia.
Qed.

Lemma str_forall_app f a b : str_forall f (a +:+ b) = str_forall f a && str_forall f b.
Proof. induction a as [|c a IH]; [done|]. cbn [String.append str_forall]. by rewrite IH, andb_assoc. Qed.

Lemma str_forall_weaken (f g : ascii -> bool) s : (forall c, f c = true -> g c = true) -> str_forall f s = true -> str_forall g s = true.
Proof. intros Hf. induction s as [|c s IH]; [done|]. cbn. intros H. bool_solve. by rewrite Hf, IH. Qed.

Lemma no_char_app c x y : no_char c x -> no_char c y -> no_char c (x +:+ y).
Proof.
  induction x as [|d x IH]; intros Hx Hy; [done|]. apply no_char_cons in Hx as [Hd Hx].
  cbn [String.append]. apply no_char_cons. split; [done|by apply IH].
Qed.

Lemma toLowerCase_idem s : toLowerCase (toLowerCase s) = toLowerCase s.
Proof.
  unfold toLowerCase. induction s as [|c s IH]; cbn; [done|]. by rewrite IH, lower_char_idem.
Qed.

(** [s.replace(/\s+/g, " ")]. *)
Fixpoint collapse_spaces (s : string) : string :=
  match s with
  | EmptyString => EmptyString
  | String c r =>
      if is_space c then
        match r with
        | String d _ => if is_space d then collapse_spaces r else String " " (collapse_spaces r)
        | EmptyString => " "
        end
      else String c (collapse_spaces r)
  end.

Lemma StronglySorted_snoc {A} (R : relation A) l x :
  StronglySorted R l -> Forall (fun y => R y x) l -> StronglySorted R (l ++ [x]).
Proof.
  induction 1 as [|y l Hl IH Hy]; intros Hx; cbn; [by repeat constructor|].
  apply Forall_cons in Hx as [H1 H2]. constructor; [by apply IH|]. apply Forall_app. split; [done|by repeat constructor].
Qed.
