(* ===== verification/Coerce.v ===== *)
(** * Conversions of the language: [String(v)], [Number(v)], 32-bit integers *)

From S2P Require Import Prelude Text Json.
Local Open Scope Z_scope.

(** ** Integers of width 32 *)

Definition ToInt32 (z : Z) : Z := (z + 2 ^ 31) mod 2 ^ 32 - 2 ^ 31.
Definition ToUint32 (z : Z) : Z := z mod 2 ^ 32.
(** [a << k], [a >>> k], [a | b], [a & b]. *)
Definition js_shl (a k : Z) : Z := ToInt32 (Z.shiftl (ToInt32 a) k).
Definition js_ushr (a k : Z) : Z := Z.shiftr (ToUint32 a) k.
Definition js_or (a b : Z) : Z := ToInt32 (Z.lor (ToInt32 a) (ToInt32 b)).
Definition js_and (a b : Z) : Z := ToInt32 (Z.land (ToInt32 a) (ToInt32 b)).

(** ** [Number(s)] on strings *)

Definition digit_of (radix : Z) (c : ascii) : option Z :=
  match hex_val c with
  | Some v => if v <? radix then Some v else None
  | None => None
  end.

Fixpoint radix_digits (radix acc : Z) (s : string) : option Z :=
  match s with
  | EmptyString => Some acc
  | String c r => d ← digit_of radix c; radix_digits radix (acc * radix + d) r
  end.

Definition parse_radix (radix : Z) (s : string) : num :=
  if bool_decide (s = "") then NaN
  else match radix_digits radix 0 s with Some v => mk_num false v 0 | None => NaN end.

(** Digits with an optional fraction and exponent; at least one digit. *)
Definition parse_decimal (neg : bool) (s : string) : num :=
  if bool_decide (s = "Infinity") then Infinite neg
  else
    let '(ip, n1, s1) := parse_digits 0 0 s in
    let '(m, n2, s2) := match s1 with String "." r => parse_digits ip 0 r | _ => (ip, O, s1) end in
    if bool_decide (n1 + n2 = 0)%nat then NaN
    else match parse_exp s2 with
         | Some (x, "") => mk_num neg m (x - Z.of_nat n2)
         | _ => NaN
         end.

Definition string_to_number (s : string) : num :=
  let s := trim s in
  match s with
  | EmptyString => Fin 0 0
  | String "0" (String c r) =>
      if bool_decide (c = "x"%char) || bool_decide (c = "X"%char) then parse_radix 16 r
      else if bool_decide (c = "o"%char) || bool_decide (c = "O"%char) then parse_radix 8 r
      else if bool_decide (c = "b"%char) || bool_decide (c = "B"%char) then parse_radix 2 r
      else parse_decimal false s
  | String "-" r => parse_decimal true r
  | String "+" r => parse_decimal false r
  | _ => parse_decimal false s
  end.

(** [parseInt(s, radix)] on a string of digits of that radix. *)
Definition parse_int (radix : Z) (s : string) : Z := default 0 (radix_digits radix 0 s).

(** ** [String(v)] and [Number(v)] on parsed JSON values *)

Fixpoint js_string (v : json) : string :=
  match v with
  | JNull => "null"
  | JBool b => if b then "true" else "false"
  | JNum n => num_to_string n
  | JStr s => s
  | JArr l => join "," (map (fun x => match x with JNull => "" | _ => js_string x end) l)
  | JObj _ => "[object Object]"
  end.

Definition js_number (v : json) : num :=
  match v with
  | JNull => Fin 0 0
  | JBool b => Fin (if b then 1 else 0) 0
  | JNum n => n
  | JStr s => string_to_number s
  | JArr _ | JObj _ => string_to_number (js_string v)
  end.

Lemma ToInt32_small z : - 2 ^ 31 <= z < 2 ^ 31 -> ToInt32 z = z.
Proof. intros H. unfold ToInt32. rewrite Z.mod_small by lia. lia. Qed.

Lemma ToInt32_cong z : exists k, ToInt32 z = z + k * 2 ^ 32.
Proof.
  unfold ToInt32. exists (- ((z + 2 ^ 31) / 2 ^ 32)).
  pose proof (Z.div_mod (z + 2 ^ 31) (2 ^ 32)). lia.
Qed.

Lemma ToUint32_ToInt32 z : ToUint32 (ToInt32 z) = ToUint32 z.
Proof.
  unfold ToUint32. destruct (ToInt32_cong z) as [k ->]. by rewrite Z.mod_add by lia.
Qed.

(** Disjoint bits: [or] adds. *)
Lemma lor_shift_add a b k : 0 <= k -> 0 <= b < 2 ^ k -> Z.lor (a * 2 ^ k) b = a * 2 ^ k + b.
Proof.
  intros Hk Hb. rewrite <- Z.shiftl_mul_pow2 by done. symmetry. apply Z.add_nocarry_lor.
  apply Z.bits_inj'. intros i Hi. rewrite Z.land_spec, Z.bits_0.
  destruct (Z.lt_ge_cases i k); [by rewrite Z.shiftl_spec_low by lia|].
  destruct (Z.eq_dec b 0) as [->|]; [by rewrite Z.bits_0, andb_false_r|].
  rewrite (Z.bits_above_log2 b i); [by rewrite andb_false_r|lia|]. apply Z.log2_lt_pow2; [lia|].
  eapply Z.lt_le_trans; [apply Hb|]. apply Z.pow_le_mono_r; lia.
Qed.

Lemma lor_mod_pow2 a b n : 0 <= n -> Z.lor a b mod 2 ^ n = Z.lor (a mod 2 ^ n) (b mod 2 ^ n).
Proof. intros Hn. rewrite <- !Z.land_ones by done. apply Z.land_lor_distr_l. Qed.

Lemma ToUint32_or a b : ToUint32 (js_or a b) = Z.lor (ToUint32 a) (ToUint32 b).
Proof.
  unfold js_or. rewrite ToUint32_ToInt32. unfold ToUint32. rewrite lor_mod_pow2 by lia.
  fold (ToUint32 (ToInt32 a)) (ToUint32 (ToInt32 b)). by rewrite !ToUint32_ToInt32.
Qed.

Lemma ToUint32_small z : 0 <= z < 2 ^ 32 -> ToUint32 z = z.
Proof. intros. unfold ToUint32. by apply Z.mod_small. Qed.

Lemma ToUint32_shl a k : 0 <= k -> ToUint32 (js_shl a k) = ToUint32 (a * 2 ^ k).
Proof.
  intros Hk. unfold js_shl. rewrite ToUint32_ToInt32, Z.shiftl_mul_pow2 by done.
  unfold ToUint32. destruct (ToInt32_cong a) as [j ->].
  rewrite Z.mul_add_distr_r, <- Z.mul_assoc, (Z.mul_comm (2 ^ 32)), Z.mul_assoc.
  by rewrite Z.mod_add by lia.
Qed.

(** [(a << k) | b] for operands that do not overlap and fit in 32 bits. *)
Lemma or_shl_value a b k : 0 <= k -> 0 <= ToUint32 b < 2 ^ k -> 0 <= a * 2 ^ k < 2 ^ 32 ->
  ToUint32 (js_or (js_shl a k) b) = a * 2 ^ k + ToUint32 b.
Proof.
  intros Hk Hb Ha. rewrite ToUint32_or, ToUint32_shl, (ToUint32_small (a * 2 ^ k)) by done.
  by apply lor_shift_add.
Qed.

(** [(v >>> k) & 0xff]. *)
Lemma ushr_byte v k : 0 <= k -> js_and (js_ushr v k) 255 = ToUint32 v / 2 ^ k mod 2 ^ 8.
Proof.
  intros Hk. unfold js_and, js_ushr. rewrite Z.shiftr_div_pow2 by done.
  change (ToInt32 255) with (Z.ones 8). rewrite Z.land_ones by lia.
  set (w := ToUint32 v / 2 ^ k). destruct (ToInt32_cong w) as [j ->].
  change (2 ^ 32) with (2 ^ 24 * 2 ^ 8). rewrite Z.mul_assoc, Z.mod_add by lia.
  apply ToInt32_small. pose proof (Z.mod_pos_bound w (2 ^ 8)). lia.
Qed.

Lemma and_byte v : js_and v 255 = ToUint32 v mod 2 ^ 8.
Proof.
  unfold js_and. change (ToInt32 255) with (Z.ones 8). rewrite Z.land_ones by lia.
  destruct (ToInt32_cong v) as [j ->]. change (2 ^ 32) with (2 ^ 24 * 2 ^ 8).
  rewrite Z.mul_assoc, Z.mod_add by lia. unfold ToUint32.
  rewrite ToInt32_small by (pose proof (Z.mod_pos_bound v (2 ^ 8)); lia).
  change (2 ^ 32) with (2 ^ 8 * 2 ^ 24). rewrite Z.rem_mul_r by lia.
  rewrite (Z.mul_comm (2 ^ 8)), Z.mod_add by lia. by rewrite Z.mod_mod by lia.
Qed.
