(* ===== verification/Crypto.v ===== *)
(** * The cryptographic services the code calls

    Node's [crypto] is not part of the repository.  Each primitive is a class
    of operations; a second class states the documented behaviour a theorem
    relies on.  The [Toy] instances at the end satisfy the laws; the witnesses
    of the development are computed with them. *)

From S2P Require Import Prelude Text.
Local Open Scope Z_scope.

(** [crypto.createHash("sha256").update(b).digest()]. *)
Class Hashing := { sha256 : buffer -> buffer }.

Class HashingLaws `{Hashing} : Prop := { sha256_length : forall b, length (sha256 b) = 32%nat }.

(** These two inputs differ and have the same digest.  A theorem that ends with
    [\/ collide a b] names the inputs, so whoever breaks it holds a collision. *)
Definition collide `{Hashing} (a b : buffer) : Prop := a <> b /\ sha256 a = sha256 b.

Lemma sha256_inj `{Hashing} a b : sha256 a = sha256 b -> a = b \/ collide a b.
Proof. intros E. destruct (decide (a = b)); [by left|by right]. Qed.

(** Ed25519 signatures: [crypto.sign(null, m, sk)], [crypto.verify(null, m, pk, s)]. *)
Class Signing := {
  SecretKey : Type;
  PublicKey : Type;
  public_of : SecretKey -> PublicKey;
  sign : SecretKey -> buffer -> buffer;
  verify : PublicKey -> buffer -> buffer -> bool }.

Class SigningLaws `{Signing} : Prop := {
  sign_length : forall sk m, length (sign sk m) = 64%nat;
  verify_sign : forall sk m, verify (public_of sk) m (sign sk m) = true }.

(** ChaCha20-Poly1305: [chacha20poly1305(key, nonce, aad)] with [encrypt]
    (ciphertext followed by the tag) and [decrypt] ([None] when it throws). *)
Class Aead := {
  aead_encrypt : buffer -> buffer -> buffer -> buffer -> buffer;
  aead_decrypt : buffer -> buffer -> buffer -> buffer -> option buffer }.

Class AeadLaws `{Aead} : Prop := {
  aead_length : forall k n a m, length (aead_encrypt k n a m) = (length m + 16)%nat;
  aead_decrypt_encrypt : forall k n a m, aead_decrypt k n a (aead_encrypt k n a m) = Some m }.

(** Elliptic-curve Diffie-Hellman: raw public keys, and the shared bits with a
    raw peer key ([None] when its import throws). *)
Class KeyExchange := {
  DhSecret : Type;
  dh_public : DhSecret -> buffer;
  dh : DhSecret -> buffer -> option buffer }.

Class KeyExchangeLaws `{KeyExchange} : Prop := {
  dh_public_valid : forall a b, dh a (dh_public b) <> None;
  dh_public_nonempty : forall a, dh_public a <> [];
  dh_agree : forall a b, dh a (dh_public b) = dh b (dh_public a) }.

(** [crypto.hkdfSync("sha256", ikm, salt, info, length)]. *)
Class Hkdf := { hkdf : buffer -> buffer -> buffer -> nat -> buffer }.

Class HkdfLaws `{Hkdf} : Prop := {
  hkdf_length : forall ikm salt info n, length (hkdf ikm salt info n) = n }.

(** ** Hexadecimal text of a buffer: [b.toString("hex")] *)

Fixpoint hex_text (b : buffer) : string :=
  match b with
  | [] => ""
  | x :: b' => String (hex_digit (Z_of_byte x / 16)) (String (hex_digit (Z_of_byte x mod 16)) (hex_text b'))
  end.

Lemma hex_digit_inj a b : 0 <= a < 16 -> 0 <= b < 16 -> hex_digit a = hex_digit b -> a = b.
Proof.
  intros Ha Hb.
  assert (Hz : forall z, 0 <= z < 16 -> z = 0 \/ z = 1 \/ z = 2 \/ z = 3 \/ z = 4 \/ z = 5 \/ z = 6 \/
    z = 7 \/ z = 8 \/ z = 9 \/ z = 10 \/ z = 11 \/ z = 12 \/ z = 13 \/ z = 14 \/ z = 15) by lia.
  destruct (Hz a Ha) as [->|[->|[->|[->|[->|[->|[->|[->|[->|[->|[->|[->|[->|[->|[->| ->]]]]]]]]]]]]]]];
  destruct (Hz b Hb) as [->|[->|[->|[->|[->|[->|[->|[->|[->|[->|[->|[->|[->|[->|[->| ->]]]]]]]]]]]]]]];
    done.
Qed.

Lemma hex_text_inj b1 b2 : hex_text b1 = hex_text b2 -> b1 = b2.
Proof.
  revert b2; induction b1 as [|x b1 IH]; intros [|y b2]; cbn [hex_text]; try done.
  intros [= H1 H2 H3]. pose proof (Z_of_byte_range x). pose proof (Z_of_byte_range y).
  apply hex_digit_inj in H1; [|split; [apply Z.div_pos|apply Z.div_lt_upper_bound]; lia..].
  apply hex_digit_inj in H2; [|apply Z.mod_pos_bound; lia..].
  f_equal; [|by apply IH]. apply Z_of_byte_inj.
  rewrite (Z.div_mod (Z_of_byte x) 16), (Z.div_mod (Z_of_byte y) 16) by lia. congruence.
Qed.

(** ** Instances for the witnesses *)

Module Toy.
Definition mix (l : list buffer) : Z := fold_left (fun a b => a * 257 + be_decode b + Z.of_nat (length b)) l 1.

#[export] Instance hashing : Hashing := {| sha256 := fun m => be_encode 32 (mix [m]) |}.

#[export] Instance hashing_laws : HashingLaws.
Proof. split; intros. apply be_encode_length. Qed.

#[export] Instance signing : Signing := {|
  SecretKey := Z; PublicKey := Z; public_of := fun k => k;
  sign := fun k m => be_encode 64 (k * mix [m]);
  verify := fun k m s => bool_decide (s = be_encode 64 (k * mix [m])) |}.

#[export] Instance signing_laws : SigningLaws.
Proof. split; intros; cbn -[be_encode mix]; [apply be_encode_length|by apply bool_decide_eq_true]. Qed.

Definition toy_tag (k n a m : buffer) : buffer := be_encode 16 (mix [k; n; a; m]).

#[export] Instance aead : Aead := {|
  aead_encrypt := fun k n a m => m ++ toy_tag k n a m;
  aead_decrypt := fun k n a c =>
    let m := take (length c - 16) c in
    if decide (drop (length c - 16) c = toy_tag k n a m) then Some m else None |}.

#[export] Instance aead_laws : AeadLaws.
Proof.
  assert (Hl : forall k n a m, length (toy_tag k n a m) = 16%nat) by (intros; apply be_encode_length).
  split; intros; cbn -[toy_tag]; rewrite length_app, Hl; [done|].
  replace (length m + 16 - 16)%nat with (length m) by lia.
  rewrite take_app_length, drop_app_length. by rewrite decide_True.
Qed.

#[export] Instance key_exchange : KeyExchange := {|
  DhSecret := Z; dh_public := fun a => be_encode 32 (a * 9);
  dh := fun a p => Some (be_encode 32 (a * be_decode p)) |}.

(** Byte strings denote integers modulo a power of 256. *)
Lemma be_encode_mod n z z' : z mod 256 ^ Z.of_nat n = z' mod 256 ^ Z.of_nat n -> be_encode n z = be_encode n z'.
Proof.
  intros H. apply be_decode_inj; [by rewrite !be_encode_length|]. by rewrite !be_decode_encode.
Qed.

#[export] Instance key_exchange_laws : KeyExchangeLaws.
Proof.
  split; intros a; [done|done|intros b]. cbn -[be_encode]. f_equal. apply be_encode_mod.
  rewrite !be_decode_encode, !Z.mul_mod_idemp_r by done. f_equal. lia.
Qed.

#[export] Instance hkdf_toy : Hkdf := {| hkdf := fun k s i n => be_encode n (mix [k; s; i]) |}.

#[export] Instance hkdf_laws : HkdfLaws.
Proof. split; intros. apply be_encode_length. Qed.
End Toy.
