(* ===== verification/SecureChannel.v ===== *)
(** * The encrypted channel (crypto/secure-channel.ts)

    Key derivation from the handshake and sealing of frames.  Random nonces are
    arguments. *)

From S2P Require Import Prelude Frames Text Json Base64 Crypto.
Local Open Scope Z_scope.

Inductive TunnelRole := Client | Server.

Record SecureSession := { sessionId : string; sendKey : buffer; receiveKey : buffer }.

Record EncryptedFrame := {
  ef_version : Z; ef_type : Z; ef_sequence : Z;
  ef_nonce : string; ef_ciphertext : string; ef_tag : string }.

Definition CHANNEL_INFO : string := "consensus-node-tunnel-v1".
Definition KEY_BYTES : nat := 32.
Definition NONCE_BYTES : nat := 12.
Definition TAG_BYTES : nat := 16.

Section Sealing.
Context `{Aead}.

Definition encryptDetached (key nonce plaintext aad : buffer) : result (buffer * buffer) :=
  throw_if (negb (length key =? KEY_BYTES)%nat) (RangeError "ChaCha20-Poly1305 key must be 32 bytes");;
  throw_if (negb (length nonce =? NONCE_BYTES)%nat) (RangeError "ChaCha20-Poly1305 nonce must be 12 bytes");;
  let sealed := aead_encrypt key nonce aad plaintext in
  throw_if (length sealed <? TAG_BYTES)%nat
    (PlainError "ChaCha20-Poly1305 output is shorter than the authentication tag");;
  Ok (subarray 0 (length sealed - TAG_BYTES) sealed, drop (length sealed - TAG_BYTES) sealed).

Definition InvalidTag : exn := PlainError "invalid tag".

Definition decryptDetached (key nonce ciphertext tag aad : buffer) : result buffer :=
  throw_if (negb (length key =? KEY_BYTES)%nat) (RangeError "ChaCha20-Poly1305 key must be 32 bytes");;
  throw_if (negb (length nonce =? NONCE_BYTES)%nat) (RangeError "ChaCha20-Poly1305 nonce must be 12 bytes");;
  throw_if (negb (length tag =? TAG_BYTES)%nat) (RangeError "ChaCha20-Poly1305 tag must be 16 bytes");;
  of_option (aead_decrypt key nonce aad (ciphertext ++ tag)) InvalidTag.

Definition encryptFrame (nonce key : buffer) (type sequence : Z) (plaintext aad : buffer) : result EncryptedFrame :=
  sealed ← encryptDetached key nonce plaintext aad;
  Ok {| ef_version := 1; ef_type := type; ef_sequence := sequence; ef_nonce := toBase64 nonce;
        ef_ciphertext := toBase64 sealed.1; ef_tag := toBase64 sealed.2 |}.

Definition decryptFrame (key : buffer) (frame : EncryptedFrame) (aad : buffer) : result buffer :=
  decryptDetached key (fromBase64 (ef_nonce frame)) (fromBase64 (ef_ciphertext frame))
    (fromBase64 (ef_tag frame)) aad.

Definition sealFrame (nonce key : buffer) (type sequence : Z) (plaintext : buffer) : result buffer :=
  aad ← frameAad FRAME_VERSION type sequence (Z.of_nat (length plaintext));
  sealed ← encryptDetached key nonce plaintext aad;
  encodeFrame {| fp_version := FRAME_VERSION; fp_type := type; fp_sequence := sequence;
                 fp_nonce := nonce; fp_ciphertext := sealed.1; fp_tag := sealed.2 |}.

Definition openFrame (key raw : buffer) : result (FrameParts * buffer) :=
  frame ← decodeFrame raw;
  aad ← frameAad (fp_version frame) (fp_type frame) (fp_sequence frame)
          (Z.of_nat (length (fp_ciphertext frame)));
  plaintext ← decryptDetached key (fp_nonce frame) (fp_ciphertext frame) (fp_tag frame) aad;
  Ok (frame, plaintext).
End Sealing.

Section Derivation.
Context `{Hashing} `{Hkdf} `{KeyExchange}.

Record DeriveInput := {
  di_role : TunnelRole; di_privateKey : DhSecret; di_peerPublicKeyRaw : buffer;
  di_clientNonce : buffer; di_serverNonce : buffer; di_transcriptHash : option buffer }.

Definition InvalidKey : exn := PlainError "DataError".

Definition deriveSecureSession (input : DeriveInput) : result SecureSession :=
  throw_if (length (di_clientNonce input) <? 16)%nat (RangeError "clientNonce must be at least 16 bytes");;
  throw_if (length (di_serverNonce input) <? 16)%nat (RangeError "serverNonce must be at least 16 bytes");;
  sharedSecret ← of_option (dh (di_privateKey input) (di_peerPublicKeyRaw input)) InvalidKey;
  let salt := sha256 (di_clientNonce input ++ di_serverNonce input ++ default [] (di_transcriptHash input)) in
  let clientToServer := hkdf sharedSecret salt (utf8 (CHANNEL_INFO +:+ ":client-to-server")) KEY_BYTES in
  let serverToClient := hkdf sharedSecret salt (utf8 (CHANNEL_INFO +:+ ":server-to-client")) KEY_BYTES in
  let sid := hex_text (hkdf sharedSecret salt (utf8 (CHANNEL_INFO +:+ ":session-id")) 16) in
  Ok match di_role input with
     | Client => {| sessionId := sid; sendKey := clientToServer; receiveKey := serverToClient |}
     | Server => {| sessionId := sid; sendKey := serverToClient; receiveKey := clientToServer |}
     end.
End Derivation.

(** ** Lemmas *)

Lemma frameAad_ok v t s l : v = FRAME_VERSION -> t ∈ VALID_TYPES -> 0 <= s <= MAX_U64 -> 0 <= l <= 0xffffffff ->
  exists aad, frameAad v t s l = Ok aad.
Proof.
  intros -> Ht Hs Hl. unfold frameAad.
  rewrite (proj2 (Z.ltb_ge s 0)), (proj2 (Z.ltb_ge MAX_U64 s)) by lia.
  rewrite bool_decide_true by done.
  rewrite (proj2 (Z.ltb_ge l 0)), (proj2 (Z.ltb_ge 0xffffffff l)) by lia. by eexists.
Qed.

Section SealLemmas.
Context `{AeadLaws}.

Lemma encryptDetached_ok key nonce m aad : length key = KEY_BYTES -> length nonce = NONCE_BYTES ->
  exists c t, encryptDetached key nonce m aad = Ok (c, t) /\ length c = length m /\ length t = TAG_BYTES /\
    decryptDetached key nonce c t aad = Ok m.
Proof.
  intros Hk Hn. unfold encryptDetached, decryptDetached. rewrite Hk, Hn.
  set (sealed := aead_encrypt key nonce aad m).
  assert (Hs : length sealed = (length m + 16)%nat) by apply aead_length.
  assert (Hb : (length sealed <? TAG_BYTES)%nat = false) by (apply Nat.ltb_ge; unfold TAG_BYTES; lia).
  cbn [Nat.eqb negb throw_if mbind result_bind]. rewrite Hb. cbn [throw_if mbind result_bind].
  eexists _, _. split; [reflexivity|]. unfold TAG_BYTES.
  assert (Hd : length (drop (length sealed - 16) sealed) = 16%nat) by (rewrite length_drop; lia).
  split_and!; [rewrite subarray_length; lia|done|].
  rewrite Hd. rewrite <- subarray_split by lia.
  unfold sealed. rewrite aead_decrypt_encrypt. done.
Qed.

Lemma seal_open nonce key t s m :
  length key = KEY_BYTES -> length nonce = NONCE_BYTES -> t ∈ VALID_TYPES -> 0 <= s <= MAX_U64 ->
  Z.of_nat (length m) <= 0xffffffff ->
  exists raw c tag, sealFrame nonce key t s m = Ok raw /\
    openFrame key raw = Ok ({| fp_version := FRAME_VERSION; fp_type := t; fp_sequence := s;
                               fp_nonce := nonce; fp_ciphertext := c; fp_tag := tag |}, m).
Proof.
  intros Hk Hn Ht Hs Hm.
  destruct (frameAad_ok FRAME_VERSION t s (Z.of_nat (length m))) as [aad Ha]; [done..|lia|].
  destruct (encryptDetached_ok key nonce m aad Hk Hn) as (c & tag & He & Hc & Htag & Hd).
  set (p := {| fp_version := FRAME_VERSION; fp_type := t; fp_sequence := s; fp_nonce := nonce;
               fp_ciphertext := c; fp_tag := tag |}).
  assert (Hw : frame_wf p) by (split; try done; cbn; rewrite Hc; done).
  exists (frame_bytes p), c, tag. split.
  - unfold sealFrame. rewrite Ha. cbn [mbind result_bind]. rewrite He. cbn [mbind result_bind fst snd].
    by apply encodeFrame_ok.
  - unfold openFrame. rewrite (decode_frame_bytes p Hw). cbn [mbind result_bind fp_version fp_type fp_sequence fp_ciphertext].
    unfold p. cbn [fp_version fp_type fp_sequence fp_ciphertext fp_nonce fp_tag].
    rewrite Hc, Ha. cbn [mbind result_bind].
    rewrite Hd. done.
Qed.
End SealLemmas.

Section DeriveLemmas.
Context `{Hashing} `{Hkdf} `{KeyExchangeLaws}.

Lemma derive_agree role1 role2 a b cn sn th : role1 <> role2 ->
  (16 <= length cn)%nat -> (16 <= length sn)%nat ->
  exists s1 s2,
    deriveSecureSession {| di_role := role1; di_privateKey := a; di_peerPublicKeyRaw := dh_public b;
      di_clientNonce := cn; di_serverNonce := sn; di_transcriptHash := th |} = Ok s1 /\
    deriveSecureSession {| di_role := role2; di_privateKey := b; di_peerPublicKeyRaw := dh_public a;
      di_clientNonce := cn; di_serverNonce := sn; di_transcriptHash := th |} = Ok s2 /\
    sessionId s1 = sessionId s2 /\ sendKey s1 = receiveKey s2 /\ receiveKey s1 = sendKey s2.
Proof.
  intros Hr Hc Hs. unfold deriveSecureSession.
  cbn [di_role di_privateKey di_peerPublicKeyRaw di_clientNonce di_serverNonce di_transcriptHash].
  rewrite (proj2 (Nat.ltb_ge _ _) Hc), (proj2 (Nat.ltb_ge _ _) Hs), <- (dh_agree a b).
  destruct (dh a (dh_public b)) as [k|] eqn:E; [|by destruct (dh_public_valid a b)].
  destruct role1, role2; try done; eexists _, _; cbn; done.
Qed.
Context `{!HkdfLaws}.

Lemma derive_session_id input s : deriveSecureSession input = Ok s -> sessionId s <> "".
Proof.
  unfold deriveSecureSession. intros Hd. inv_ok.
  assert (Hh : forall b, length b = 16%nat -> hex_text b <> "") by (intros [|? ?]; cbn; congruence).
  destruct (di_role input); simplify_eq; cbn [sessionId]; apply Hh, hkdf_length.
Qed.
Lemma derive_key_length input s : deriveSecureSession input = Ok s ->
  length (sendKey s) = KEY_BYTES /\ length (receiveKey s) = KEY_BYTES.
Proof.
  unfold deriveSecureSession. intros Hd. inv_ok.
  destruct (di_role input); simplify_eq; cbn [sendKey receiveKey]; by rewrite !hkdf_length.
Qed.
End DeriveLemmas.

(** ** Properties *)

(** A sealed frame opens: under a 32-byte key, with a 12-byte nonce, a known
    frame type, a 64-bit sequence number and a payload of at most 2^32-1 bytes,
    [sealFrame] succeeds and [openFrame] under the same key returns the payload
    and a frame with exactly that type, sequence and nonce. *)
Theorem seal_open_roundtrip `{AeadLaws} (nonce key m : buffer) (t s : Z) :
  length key = KEY_BYTES -> length nonce = NONCE_BYTES -> t ∈ VALID_TYPES -> 0 <= s <= MAX_U64 ->
  Z.of_nat (length m) <= 0xffffffff ->
  exists raw c tag, sealFrame nonce key t s m = Ok raw /\
    openFrame key raw = Ok ({| fp_version := FRAME_VERSION; fp_type := t; fp_sequence := s;
                               fp_nonce := nonce; fp_ciphertext := c; fp_tag := tag |}, m).
Proof. apply seal_open. Qed.

Lemma seal_open_roundtrip_witness :
  exists raw c tag, @sealFrame Toy.aead (be_encode 12 5) (be_encode 32 7) FRAME_TYPE.DATA 3 (utf8 "hi") = Ok raw /\
    @openFrame Toy.aead (be_encode 32 7) raw =
    Ok ({| fp_version := FRAME_VERSION; fp_type := FRAME_TYPE.DATA; fp_sequence := 3;
           fp_nonce := be_encode 12 5; fp_ciphertext := c; fp_tag := tag |}, utf8 "hi").
Proof.
  apply (@seal_open_roundtrip Toy.aead Toy.aead_laws (be_encode 12 5) (be_encode 32 7) (utf8 "hi") FRAME_TYPE.DATA 3);
    [reflexivity|reflexivity|right; left|split; discriminate|discriminate].
Defined.

(** An opened frame is authentic: the bytes are exactly the encoding of the
    frame returned, and its version, type, sequence number and length are the
    associated data under which the ciphertext and tag were decrypted. *)
Theorem open_frame_authentic `{Aead} (key raw m : buffer) (f : FrameParts) :
  openFrame key raw = Ok (f, m) ->
  raw = frame_bytes f /\ frame_wf f /\ length key = KEY_BYTES /\
  exists aad, frameAad FRAME_VERSION (fp_type f) (fp_sequence f) (Z.of_nat (length (fp_ciphertext f))) = Ok aad /\
    aead_decrypt key (fp_nonce f) aad (fp_ciphertext f ++ fp_tag f) = Some m.
Proof.
  unfold openFrame, decryptDetached. intros Ho. inv_ok. simplify_eq. bool_solve.
  rewrite Nat.eqb_eq in *. apply decodeFrame_inv in Hm as [Hw ->]. pose proof (wf_version _ Hw) as Hv.
  rewrite Hv in *. split_and!; eauto.
Qed.

Lemma open_frame_authentic_witness :
  match @sealFrame Toy.aead (be_encode 12 5) (be_encode 32 7) FRAME_TYPE.DATA 3 (utf8 "hi") with
  | Ok raw =>
      match @openFrame Toy.aead (be_encode 32 7) raw with
      | Ok (f, m) =>
          raw = frame_bytes f /\ frame_wf f /\ length (be_encode 32 7) = KEY_BYTES /\
          exists aad, frameAad FRAME_VERSION (fp_type f) (fp_sequence f) (Z.of_nat (length (fp_ciphertext f))) = Ok aad /\
            @aead_decrypt Toy.aead (be_encode 32 7) (fp_nonce f) aad (fp_ciphertext f ++ fp_tag f) = Some m
      | Throw _ => False
      end
  | Throw _ => False
  end.
Proof.
  destruct (sealFrame _ _ _ _ _) as [raw|e] eqn:E; [|vm_compute in E; discriminate E].
  destruct (openFrame _ raw) as [[f m]|e] eqn:Eo.
  - apply (@open_frame_authentic Toy.aead (be_encode 32 7) raw m f). exact Eo.
  - vm_compute in E. injection E as <-. vm_compute in Eo. discriminate Eo.
Defined.

(** Key agreement: the two ends of a handshake, with each other's public
    keys, the same nonces and the same transcript hash, both derive a session;
    the session ids agree and what one sends with the other receives with. *)
Theorem session_agreement `{Hashing} `{Hkdf} `{KeyExchangeLaws} (a b : DhSecret) (cn sn : buffer) (th : option buffer) :
  (16 <= length cn)%nat -> (16 <= length sn)%nat ->
  exists s1 s2,
    deriveSecureSession {| di_role := Client; di_privateKey := a; di_peerPublicKeyRaw := dh_public b;
      di_clientNonce := cn; di_serverNonce := sn; di_transcriptHash := th |} = Ok s1 /\
    deriveSecureSession {| di_role := Server; di_privateKey := b; di_peerPublicKeyRaw := dh_public a;
      di_clientNonce := cn; di_serverNonce := sn; di_transcriptHash := th |} = Ok s2 /\
    sessionId s1 = sessionId s2 /\ sendKey s1 = receiveKey s2 /\ receiveKey s1 = sendKey s2.
Proof. by apply derive_agree. Qed.

Lemma session_agreement_witness :
  exists s1 s2,
    @deriveSecureSession Toy.hashing Toy.hkdf_toy Toy.key_exchange
      {| di_role := Client; di_privateKey := (5 : @DhSecret Toy.key_exchange); di_peerPublicKeyRaw := @dh_public Toy.key_exchange 11;
         di_clientNonce := be_encode 32 1; di_serverNonce := be_encode 32 2; di_transcriptHash := None |} = Ok s1 /\
    @deriveSecureSession Toy.hashing Toy.hkdf_toy Toy.key_exchange
      {| di_role := Server; di_privateKey := (11 : @DhSecret Toy.key_exchange); di_peerPublicKeyRaw := @dh_public Toy.key_exchange 5;
         di_clientNonce := be_encode 32 1; di_serverNonce := be_encode 32 2; di_transcriptHash := None |} = Ok s2 /\
    sessionId s1 = sessionId s2 /\ sendKey s1 = receiveKey s2 /\ receiveKey s1 = sendKey s2.
Proof.
  apply (@session_agreement Toy.hashing Toy.hkdf_toy Toy.key_exchange Toy.key_exchange_laws
           5 11 (be_encode 32 1) (be_encode 32 2) None); rewrite be_encode_length; lia.
Defined.
