(* ===== verification/Messages.v ===== *)
(** * Tunnel messages (tunnel/messages.ts)

    The messages of the encrypted tunnel, their JSON encoding, and the check a
    decoded message passes. *)

From S2P Require Import Prelude Text Json JsonText.
Local Open Scope Z_scope.

Definition TUNNEL_MODES : list string := ["eval"; "control"].

Module MESSAGE_TYPE.
Definition HELLO : string := "hello".
Definition READY : string := "ready".
Definition PING : string := "ping".
Definition PONG : string := "pong".
Definition HTTP_REQUEST : string := "http_request".
Definition HTTP_RESPONSE : string := "http_response".
Definition EVAL_REQUEST : string := "eval_request".
Definition EVAL_RESPONSE : string := "eval_response".
Definition JOIN_READY : string := "join_ready".
Definition HEARTBEAT : string := "heartbeat".
Definition PROXY_REQUEST : string := "proxy_request".
Definition PROXY_RESPONSE : string := "proxy_response".
Definition STREAM_OPEN : string := "stream_open".
Definition STREAM_DATA : string := "stream_data".
Definition STREAM_CLOSE : string := "stream_close".
Definition UPDATE_PREPARE : string := "update_prepare".
Definition UPDATE_READY : string := "update_ready".
Definition UPDATE_APPLY : string := "update_apply".
Definition UPDATE_FAILED : string := "update_failed".
Definition ACK : string := "ack".
Definition ERROR : string := "error".
End MESSAGE_TYPE.

Definition MESSAGE_TYPES : list string :=
  [MESSAGE_TYPE.HELLO; MESSAGE_TYPE.READY; MESSAGE_TYPE.PING; MESSAGE_TYPE.PONG;
   MESSAGE_TYPE.HTTP_REQUEST; MESSAGE_TYPE.HTTP_RESPONSE; MESSAGE_TYPE.EVAL_REQUEST;
   MESSAGE_TYPE.EVAL_RESPONSE; MESSAGE_TYPE.JOIN_READY; MESSAGE_TYPE.HEARTBEAT;
   MESSAGE_TYPE.PROXY_REQUEST; MESSAGE_TYPE.PROXY_RESPONSE; MESSAGE_TYPE.STREAM_OPEN;
   MESSAGE_TYPE.STREAM_DATA; MESSAGE_TYPE.STREAM_CLOSE; MESSAGE_TYPE.UPDATE_PREPARE;
   MESSAGE_TYPE.UPDATE_READY; MESSAGE_TYPE.UPDATE_APPLY; MESSAGE_TYPE.UPDATE_FAILED;
   MESSAGE_TYPE.ACK; MESSAGE_TYPE.ERROR].

(** [id?] and [timestamp] of every message. *)
Record BaseMessage := { m_id : option string; timestamp : num }.

Inductive TunnelMessage :=
| Hello (b : BaseMessage) (mode : string) (node_id candidate_id public_key_pem version : option string)
| Ready (b : BaseMessage) (session_id mode : string)
| Ping (b : BaseMessage)
| Pong (b : BaseMessage) (reply_to : option string)
| HttpRequest (b : BaseMessage) (method path : string) (headers : option json) (body body_encoding : option string)
| HttpResponse (b : BaseMessage) (reply_to : string) (status : num) (headers : option json) (body body_encoding : option string)
| EvalRequest (b : BaseMessage) (action : string) (params : option json)
| EvalResponse (b : BaseMessage) (reply_to action : string) (ok : bool) (res : option json) (error : option string)
| JoinReady (b : BaseMessage) (join_id alg nonce : string) (expires_at : num)
| Heartbeat (b : BaseMessage) (node_id : string) (uptime_seconds : num) (capabilities : json) (active_requests active_streams : option num)
| ProxyRequest (b : BaseMessage) (target_url method : string) (headers : option json) (body body_encoding : option string) (profile : option json)
| ProxyResponse (b : BaseMessage) (reply_to : string) (status : num) (status_text : option string) (headers : option json)
    (body body_encoding : option string) (cached : option bool) (profile_hash : option string)
| StreamOpen (b : BaseMessage) (stream_id : string) (target : option string)
| StreamData (b : BaseMessage) (stream_id data encoding : string)
| StreamClose (b : BaseMessage) (stream_id : string) (reason : option string)
| UpdatePrepare (b : BaseMessage) (update_id : string) (manifest : json)
| UpdateReady (b : BaseMessage) (reply_to update_id artifact_path sha256 current_version target_version : string)
| UpdateApply (b : BaseMessage) (update_id : string) (restart_after_ms : option num)
| UpdateFailed (b : BaseMessage) (reply_to : option string) (update_id code message : string)
| Ack (b : BaseMessage) (reply_to : string)
| Error (b : BaseMessage) (reply_to : option string) (code message : string).

(** The members of a message besides [type], [id] and [timestamp]. *)
Definition own_fields (m : TunnelMessage) : list (string * option json) :=
  let s k v := (k, Some (JStr v)) in
  let so k v := (k, JStr <$> v) in
  match m with
  | Hello _ mode n c p v => [s "mode" mode; so "node_id" n; so "candidate_id" c; so "public_key_pem" p; so "version" v]
  | Ready _ sid mode => [s "session_id" sid; s "mode" mode]
  | Ping _ => []
  | Pong _ r => [so "reply_to" r]
  | HttpRequest _ me p h bo be => [s "method" me; s "path" p; ("headers", h); so "body" bo; so "body_encoding" be]
  | HttpResponse _ r st h bo be => [s "reply_to" r; ("status", Some (JNum st)); ("headers", h); so "body" bo; so "body_encoding" be]
  | EvalRequest _ a p => [s "action" a; ("params", p)]
  | EvalResponse _ r a ok res e => [s "reply_to" r; s "action" a; ("ok", Some (JBool ok)); ("result", res); so "error" e]
  | JoinReady _ j al n e => [s "join_id" j; s "alg" al; s "nonce" n; ("expires_at", Some (JNum e))]
  | Heartbeat _ n u c ar as_ => [s "node_id" n; ("uptime_seconds", Some (JNum u)); ("capabilities", Some c);
                                 ("active_requests", JNum <$> ar); ("active_streams", JNum <$> as_)]
  | ProxyRequest _ t me h bo be p => [s "target_url" t; s "method" me; ("headers", h); so "body" bo; so "body_encoding" be; ("profile", p)]
  | ProxyResponse _ r st stt h bo be c ph => [s "reply_to" r; ("status", Some (JNum st)); so "status_text" stt; ("headers", h);
                                              so "body" bo; so "body_encoding" be; ("cached", JBool <$> c); so "profile_hash" ph]
  | StreamOpen _ i t => [s "stream_id" i; so "target" t]
  | StreamData _ i d e => [s "stream_id" i; s "data" d; s "encoding" e]
  | StreamClose _ i r => [s "stream_id" i; so "reason" r]
  | UpdatePrepare _ i m => [s "update_id" i; ("manifest", Some m)]
  | UpdateReady _ r i a sh cv tv => [s "reply_to" r; s "update_id" i; s "artifact_path" a; s "sha256" sh;
                                     s "current_version" cv; s "target_version" tv]
  | UpdateApply _ i r => [s "update_id" i; ("restart_after_ms", JNum <$> r)]
  | UpdateFailed _ r i c me => [so "reply_to" r; s "update_id" i; s "code" c; s "message" me]
  | Ack _ r => [s "reply_to" r]
  | Error _ r c me => [so "reply_to" r; s "code" c; s "message" me]
  end.

Definition message_base (m : TunnelMessage) : BaseMessage :=
  match m with
  | Hello b _ _ _ _ _ | Ready b _ _ | Ping b | Pong b _ | HttpRequest b _ _ _ _ _ | HttpResponse b _ _ _ _ _
  | EvalRequest b _ _ | EvalResponse b _ _ _ _ _ | JoinReady b _ _ _ _ | Heartbeat b _ _ _ _ _
  | ProxyRequest b _ _ _ _ _ _ | ProxyResponse b _ _ _ _ _ _ _ _ | StreamOpen b _ _ | StreamData b _ _ _
  | StreamClose b _ _ | UpdatePrepare b _ _ | UpdateReady b _ _ _ _ _ _ | UpdateApply b _ _
  | UpdateFailed b _ _ _ _ | Ack b _ | Error b _ _ _ => b
  end.

Definition message_type (m : TunnelMessage) : string :=
  match m with
  | Hello _ _ _ _ _ _ => MESSAGE_TYPE.HELLO
  | Ready _ _ _ => MESSAGE_TYPE.READY
  | Ping _ => MESSAGE_TYPE.PING
  | Pong _ _ => MESSAGE_TYPE.PONG
  | HttpRequest _ _ _ _ _ _ => MESSAGE_TYPE.HTTP_REQUEST
  | HttpResponse _ _ _ _ _ _ => MESSAGE_TYPE.HTTP_RESPONSE
  | EvalRequest _ _ _ => MESSAGE_TYPE.EVAL_REQUEST
  | EvalResponse _ _ _ _ _ _ => MESSAGE_TYPE.EVAL_RESPONSE
  | JoinReady _ _ _ _ _ => MESSAGE_TYPE.JOIN_READY
  | Heartbeat _ _ _ _ _ _ => MESSAGE_TYPE.HEARTBEAT
  | ProxyRequest _ _ _ _ _ _ _ => MESSAGE_TYPE.PROXY_REQUEST
  | ProxyResponse _ _ _ _ _ _ _ _ _ => MESSAGE_TYPE.PROXY_RESPONSE
  | StreamOpen _ _ _ => MESSAGE_TYPE.STREAM_OPEN
  | StreamData _ _ _ _ => MESSAGE_TYPE.STREAM_DATA
  | StreamClose _ _ _ => MESSAGE_TYPE.STREAM_CLOSE
  | UpdatePrepare _ _ _ => MESSAGE_TYPE.UPDATE_PREPARE
  | UpdateReady _ _ _ _ _ _ _ => MESSAGE_TYPE.UPDATE_READY
  | UpdateApply _ _ _ => MESSAGE_TYPE.UPDATE_APPLY
  | UpdateFailed _ _ _ _ _ => MESSAGE_TYPE.UPDATE_FAILED
  | Ack _ _ => MESSAGE_TYPE.ACK
  | Error _ _ _ _ => MESSAGE_TYPE.ERROR
  end.

(** A message as the object that is encoded: [type], [id], [timestamp], then its
    own members; absent members are dropped by [JSON.stringify]. *)
Definition message_json (m : TunnelMessage) : json :=
  obj (("type", Some (JStr (message_type m))) ::
       ("id", JStr <$> m_id (message_base m)) ::
       ("timestamp", Some (JNum (timestamp (message_base m)))) :: own_fields m).

(** [Math.floor(Date.now() / 1000)]. *)
Definition nowSeconds (clock : Z) : num := num_of_Z (clock / 1000).

Definition encodeMessage (message : json) : buffer := utf8 (stringify message).

Definition assertTunnelMessage (value : json) : result unit :=
  throw_if (negb (is_object value)) (TypeError "Tunnel message must be an object");;
  match as_string (get "type" value) with
  | None => Throw (TypeError "Tunnel message type is required")
  | Some t =>
      throw_if (negb (bool_decide (t ∈ MESSAGE_TYPES))) (TypeError ("Unknown tunnel message type: " +:+ t));;
      throw_if (negb (is_finite_number (get "timestamp" value)))
        (TypeError "Tunnel message timestamp must be a finite number")
  end.

Definition decodeMessage (payload : buffer) : result json :=
  parsed ← JSON_parse (utf8_text payload);
  assertTunnelMessage parsed;;
  Ok parsed.

Definition createErrorMessage (clock : Z) (reply_to : option string) (code message : string) : json :=
  obj [("type", Some (JStr MESSAGE_TYPE.ERROR)); ("timestamp", Some (JNum (nowSeconds clock)));
       ("reply_to", JStr <$> reply_to); ("code", Some (JStr code)); ("message", Some (JStr message))].

(** ** Lemmas *)

(** The checks of [assertTunnelMessage] as a predicate. *)
Definition is_tunnel_message (value : json) : Prop :=
  exists fields t n, value = JObj fields /\ assoc "type" fields = Some (JStr t) /\ t ∈ MESSAGE_TYPES /\
    assoc "timestamp" fields = Some (JNum n) /\ isFinite n = true.

Lemma is_finite_number_spec v : is_finite_number v = true <-> exists n, v = Some (JNum n) /\ isFinite n = true.
Proof. unfold is_finite_number, as_num. destruct v as [[]|]; naive_solver. Qed.

Lemma assertTunnelMessage_spec value : assertTunnelMessage value = Ok tt <-> is_tunnel_message value.
Proof.
  unfold assertTunnelMessage, is_tunnel_message. split.
  - intros Ha. inv_ok. destruct value as [| | | |l|fields]; try done.
    cbn [get] in Hk. destruct (as_string (assoc "type" fields)) as [t|] eqn:Et; [|done]. inv_ok. bool_solve.
    apply is_finite_number_spec in Hk0 as (n & Hn & Hf). unfold as_string in Et.
    destruct (assoc "type" fields) as [[]|] eqn:Ety; try done. injection Et as ->. eauto 10.
  - intros (fields & t & n & -> & Ht & Hin & Hn & Hf). cbn [is_object negb throw_if mbind result_bind get].
    rewrite Ht. cbn [as_string]. rewrite bool_decide_true by done. cbn [negb throw_if mbind result_bind].
    by rewrite Hn, (proj2 (is_finite_number_spec _)) by eauto.
Qed.

Lemma decodeMessage_ok b v : decodeMessage b = Ok v <->
  JSON_parse (utf8_text b) = Ok v /\ is_tunnel_message v.
Proof.
  unfold decodeMessage. rewrite bind_ok. split.
  - intros (p & Hp & Hk). inv_ok. by rewrite assertTunnelMessage_spec in Hm.
  - intros [Hp Hv]. exists v. split; [done|]. apply assertTunnelMessage_spec in Hv. by rewrite Hv.
Qed.

(** The keys of a message. *)
Lemma obj_assoc k fields : NoDup fields.*1 ->
  get k (obj fields) = match assoc k fields with Some v => v | None => None end.
Proof.
  unfold obj. cbn [get]. induction fields as [|[k' o] fields IH]; [done|].
  intros [Hk Hd]%NoDup_cons. cbn [fst] in Hk. cbn [omap list_omap fst snd assoc].
  destruct (decide (k = k')) as [->|Hn].
  - destruct o as [v|]; cbn [fmap option_fmap option_map assoc]; [by rewrite decide_True|].
    rewrite IH by done. by rewrite (proj2 (assoc_none _ _) Hk).
  - destruct o as [v|]; cbn [fmap option_fmap option_map assoc]; [rewrite decide_False by done|]; by apply IH.
Qed.

Lemma message_keys m : NoDup (("type", Some (JStr (message_type m))) ::
  ("id", JStr <$> m_id (message_base m)) ::
  ("timestamp", Some (JNum (timestamp (message_base m)))) :: own_fields m).*1.
Proof. destruct m; apply (bool_decide_unpack _); vm_compute; exact I. Qed.

Lemma message_type_known m : message_type m ∈ MESSAGE_TYPES.
Proof. destruct m; apply (bool_decide_unpack _); vm_compute; exact I. Qed.

Lemma message_json_tunnel m : isFinite (timestamp (message_base m)) = true -> is_tunnel_message (message_json m).
Proof.
  intros Hf. unfold is_tunnel_message, message_json.
  eexists _, (message_type m), (timestamp (message_base m)). split; [reflexivity|].
  pose proof (obj_assoc "type" _ (message_keys m)) as H1.
  pose proof (obj_assoc "timestamp" _ (message_keys m)) as H2.
  unfold obj in H1, H2. cbn [get] in H1, H2. rewrite H1, H2.
  split_and!; try done. apply message_type_known.
Qed.

(** ** Properties *)

(** Every message the code can send is accepted by the peer's decoder and
    recovered field for field. *)
Theorem message_roundtrip (m : TunnelMessage) :
  wf_json (message_json m) = true -> isFinite (timestamp (message_base m)) = true ->
  decodeMessage (encodeMessage (message_json m)) = Ok (message_json m).
Proof.
  intros Hw Hf. apply decodeMessage_ok. unfold encodeMessage. rewrite utf8_text_utf8.
  split; [by apply JSON_parse_stringify|by apply message_json_tunnel].
Qed.

Definition demo_message : TunnelMessage :=
  StreamData {| m_id := Some "m1"; timestamp := num_of_Z 1700000000 |} "s1" "aGk=" "base64".

Lemma message_roundtrip_witness :
  decodeMessage (encodeMessage (message_json demo_message)) = Ok (message_json demo_message).
Proof. apply (message_roundtrip demo_message); vm_compute; reflexivity. Defined.

(** The decoder accepts exactly the JSON objects whose [type] is one of the
    21 message types and whose [timestamp] is a finite number. *)
Theorem decode_message_iff (b : buffer) (v : json) :
  decodeMessage b = Ok v <-> JSON_parse (utf8_text b) = Ok v /\ is_tunnel_message v.
Proof. apply decodeMessage_ok. Qed.
