(* ===== verification/CanonicalJson.v ===== *)
(** * Canonical JSON and text signatures (crypto/canonical-json.ts,
    the signing half of crypto/identity.ts) *)

From S2P Require Import Prelude Text Json JsonText Coerce Base64 Crypto.
Local Open Scope Z_scope.

(** Own keys in sorted order, each value sorted in turn.  The object is built by
    assignment, and assigning [__proto__] adds no own property. *)
Fixpoint sortValue (value : json) : json :=
  match value with
  | JArr l => JArr (map sortValue l)
  | JObj l =>
      JObj (set_all (filter (fun kv => kv.1 <> "__proto__")
                       (sort_by (by_key fst) (map (fun kv => (kv.1, sortValue kv.2)) l))) [])
  | _ => value
  end.

Definition canonicalJson (value : json) : string := stringify (sortValue value).

(** [const { signature, ...rest } = value]. *)
Definition withoutSignature (value : json) : json :=
  match value with JObj l => JObj (remove "signature" l) | _ => value end.

Definition signingPayload (value : json) : string := canonicalJson (withoutSignature value).

(** ** Keys in PEM text, signatures in base64 text *)

(** [crypto.sign] and [crypto.verify] read keys from PEM; [None] when that throws. *)
Class PemKeys `{Signing} := {
  pem_secret : string -> option SecretKey;
  pem_public : string -> option PublicKey }.

Record NodeIdentity := { privateKeyPem : string; publicKeyPem : string }.

Definition InvalidPem : exn := PlainError "error:1E08010C:DECODER routines::unsupported".

Section Signatures.
Context `{PemKeys}.

Definition signBytes (pem : string) (payload : buffer) : result string :=
  sk ← of_option (pem_secret pem) InvalidPem;
  Ok (toBase64 (sign sk payload)).

Definition signUtf8 (pem payload : string) : result string := signBytes pem (utf8 payload).

Definition verifyUtf8 (pem payload signatureBase64 : string) : result bool :=
  pk ← of_option (pem_public pem) InvalidPem;
  Ok (verify pk (utf8 payload) (fromBase64 signatureBase64)).

(** The two halves of an identity belong together. *)
Definition key_pair (private public : string) (sk : SecretKey) : Prop :=
  pem_secret private = Some sk /\ pem_public public = Some (public_of sk).

Lemma sign_verifies `{!SigningLaws} private public sk payload sg :
  key_pair private public sk -> signUtf8 private payload = Ok sg -> verifyUtf8 public payload sg = Ok true.
Proof.
  intros [Hs Hp]. unfold signUtf8, signBytes, verifyUtf8. rewrite Hs, Hp. intros [= <-].
  cbn [of_option mbind result_bind]. by rewrite fromBase64_toBase64, verify_sign.
Qed.

Lemma signUtf8_total private public sk payload : key_pair private public sk ->
  signUtf8 private payload = Ok (toBase64 (sign sk (utf8 payload))).
Proof. intros [Hs _]. unfold signUtf8, signBytes. by rewrite Hs. Qed.

Lemma signature_nonempty `{!SigningLaws} sk m : toBase64 (sign sk m) <> "".
Proof. apply toBase64_nonempty. intros E. pose proof (sign_length sk m) as Hl. by rewrite E in Hl. Qed.
End Signatures.

(** ** Fields of parsed messages *)

(** [typeof v !== "string" || v.length === 0]. *)
Definition nonempty_text (v : option json) (e : exn) : result string :=
  match as_string v with
  | Some s => if bool_decide (s = "") then Throw e else Ok s
  | None => Throw e
  end.

(** A non-empty base64 text field that decodes to at least one byte. *)
Definition b64_field (missing empty_ : exn) (v : option json) : result buffer :=
  s ← nonempty_text v missing;
  let decoded := fromBase64 s in
  throw_if (bool_decide (decoded = [])) empty_;;
  Ok decoded.

(** [v === n] for a number. *)
Definition is_version (v : option json) (n : Z) : bool :=
  match as_num v with Some x => num_eqb x (num_of_Z n) | None => false end.

(** [String(v)] on a property that may be missing, and [v ?? null]. *)
Definition show_value (v : option json) : string :=
  match v with None => "undefined" | Some v => js_string v end.
Definition or_null (v : option json) : json := match v with None => JNull | Some v => v end.

(** [{ ...unsigned, signature }]. *)
Definition with_signature (v : json) (sg : string) : json :=
  match v with JObj l => JObj (set_key "signature" (JStr sg) l) | _ => v end.

Lemma nonempty_text_ok v e s : nonempty_text v e = Ok s <-> v = Some (JStr s) /\ s <> "".
Proof.
  unfold nonempty_text, as_string. destruct v as [[]|]; try naive_solver. case_bool_decide; naive_solver.
Qed.

Lemma b64_field_text e1 e2 b : b <> [] -> b64_field e1 e2 (Some (JStr (toBase64 b))) = Ok b.
Proof.
  intros Hb. unfold b64_field. rewrite (proj2 (nonempty_text_ok (Some (JStr (toBase64 b))) e1 (toBase64 b)))
    by (split; [done|by apply toBase64_nonempty]).
  cbn [mbind result_bind]. by rewrite fromBase64_toBase64, bool_decide_false.
Qed.

Lemma b64_field_inv e1 e2 v b : b64_field e1 e2 v = Ok b ->
  exists s, v = Some (JStr s) /\ b = fromBase64 s /\ b <> [].
Proof.
  unfold b64_field. intros Hd. inv_ok. apply nonempty_text_ok in Hm as [-> _]. bool_solve. eauto.
Qed.

Module ToyPem.
(** A key's PEM text is its decimal number. *)
Definition read (s : string) : option Z :=
  match parse_digits 0 0 s with (v, S _, EmptyString) => Some v | _ => None end.
#[export] Instance pem_keys : @PemKeys Toy.signing := {| pem_secret := read : string -> option (@SecretKey Toy.signing);
                                                         pem_public := read : string -> option (@PublicKey Toy.signing) |}.
End ToyPem.

(** ** What the canonical text determines *)

Section SortLemmas.

Lemma sortValue_entries l x :
  x ∈ filter (fun kv : string * json => kv.1 <> "__proto__")
        (sort_by (by_key fst) (map (fun kv => (kv.1, sortValue kv.2)) l)) <->
  x.1 <> "__proto__" /\ exists v, (x.1, v) ∈ l /\ x.2 = sortValue v.
Proof.
  rewrite list_elem_of_filter, sort_by_perm, list_elem_of_fmap. split.
  - intros [Hn ([k v] & -> & Hin)]. eauto.
  - intros [Hn (v & Hin & E)]. split; [done|]. exists (x.1, v). split; [|done]. destruct x; cbn in *; congruence.
Qed.

Lemma sort_keys l : (map (fun kv : string * json => (kv.1, sortValue kv.2)) l).*1 = l.*1.
Proof. induction l as [|[k v] l IH]; cbn; [done|]. f_equal. apply IH. Qed.

Lemma filter_keys_NoDup (P : string * json -> Prop) `{!forall x, Decision (P x)} l :
  NoDup l.*1 -> NoDup (filter P l).*1.
Proof. intros Hd. eapply sublist_NoDup; [exact Hd|]. apply fmap_sublist, sublist_filter. Qed.

Lemma get_sortValue k l : NoDup l.*1 ->
  get k (sortValue (JObj l)) = if decide (k = "__proto__") then None else sortValue <$> assoc k l.
Proof.
  intros Hd. cbn [sortValue get]. set (es := filter _ _).
  assert (Hes : NoDup es.*1).
  { apply filter_keys_NoDup. rewrite sort_by_perm. by rewrite sort_keys. }
  rewrite assoc_set_all by done. cbn [assoc].
  destruct (decide (k = "__proto__")) as [->|Hn].
  - rewrite (proj2 (assoc_none _ _)); [done|]. intros (x & E & Hx)%list_elem_of_fmap.
    apply sortValue_entries in Hx as [? _]. congruence.
  - destruct (assoc k l) as [v|] eqn:E.
    + rewrite (elem_assoc k (sortValue v)); [done|done|].
      apply sortValue_entries. split; [done|]. exists v. split; [by apply assoc_elem|done].
    + rewrite (proj2 (assoc_none _ _)); [done|]. intros (x & -> & Hx)%list_elem_of_fmap.
      apply sortValue_entries in Hx as (_ & v & Hin & _). apply assoc_none in E. apply E.
      by apply (list_elem_of_fmap_2 fst) in Hin.
Qed.

Lemma wf_sortValue j : wf_json j = true -> wf_json (sortValue j) = true.
Proof.
  induction j as [| | | |l IH|l IH] using json_ind; try done.
  - cbn [sortValue wf_json]. rewrite !forallb_forall. intros Hw x Hx. apply in_map_iff in Hx as (y & <- & Hy).
    apply (proj1 (Forall_forall _ _) IH y); [by apply list_elem_of_In|by apply Hw].
  - intros [_ Hl]%wf_object. cbn [sortValue]. apply wf_object_intro.
    + apply set_all_ok. constructor.
    + apply Forall_forall. intros x [Hx|Hx]%set_all_elem; [|by apply elem_of_nil in Hx].
      apply sortValue_entries in Hx as (_ & v & Hin & ->).
      apply (proj1 (Forall_forall _ _) IH (x.1, v) Hin). by apply (proj1 (Forall_forall _ _) Hl (x.1, v)).
Qed.

Lemma wf_keys l : wf_json (JObj l) = true -> NoDup l.*1.
Proof. intros [He _]%wf_object. by apply enum_ok_NoDup. Qed.

(** Equal canonical text: equal values at every key but [__proto__]. *)
Lemma canonicalJson_fields l1 l2 k : wf_json (JObj l1) = true -> wf_json (JObj l2) = true ->
  canonicalJson (JObj l1) = canonicalJson (JObj l2) -> k <> "__proto__" ->
  sortValue <$> assoc k l1 = sortValue <$> assoc k l2.
Proof.
  intros H1 H2 E Hk. apply stringify_inj in E; [|by apply wf_sortValue..].
  apply (f_equal (get k)) in E. rewrite !get_sortValue in E by (by apply wf_keys).
  by rewrite !decide_False in E by done.
Qed.

Lemma remove_wf k l : wf_json (JObj l) = true -> wf_json (JObj (remove k l)) = true.
Proof.
  intros Hw. apply wf_object in Hw as [He Hl]. apply wf_object_intro.
  - unfold remove. clear Hl. unfold enum_ok in *. induction l as [|[k' v] l IH]; [constructor|].
    apply StronglySorted_inv in He as [Hs Hh]. rewrite filter_cons. case_decide; [|by apply IH].
    constructor; [by apply IH|]. eapply Forall_of_sublist; [|exact Hh]. apply fmap_sublist, sublist_filter.
  - eapply Forall_of_sublist; [|exact Hl]. apply sublist_filter.
Qed.

(** A string member of a signed object is bound by the payload. *)
Lemma payload_fields l1 l2 k : wf_json (JObj l1) = true -> wf_json (JObj l2) = true ->
  signingPayload (JObj l1) = signingPayload (JObj l2) -> k <> "__proto__" -> k <> "signature" ->
  sortValue <$> assoc k l1 = sortValue <$> assoc k l2.
Proof.
  intros H1 H2 E Hk Hs. unfold signingPayload, withoutSignature in E.
  apply canonicalJson_fields with (k := k) in E; [|by apply remove_wf..|done].
  by rewrite !remove_assoc, !decide_False in E by done.
Qed.
End SortLemmas.

(** ** Properties *)

(** Canonical text is canonical and binding: two well-formed objects with
    the same own properties have the same canonical text whatever the order they
    were written in, and equal canonical texts agree on every property other
    than [__proto__]. *)
Theorem canonicalJson_binds (l1 l2 : list (string * json)) :
  wf_json (JObj l1) = true -> wf_json (JObj l2) = true ->
  (l1 ≡ₚ l2 -> canonicalJson (JObj l1) = canonicalJson (JObj l2)) /\
  (canonicalJson (JObj l1) = canonicalJson (JObj l2) ->
   forall k, k <> "__proto__" -> sortValue <$> assoc k l1 = sortValue <$> assoc k l2).
Proof.
  intros H1 H2. split; [|intros E k Hk; by apply canonicalJson_fields].
  intros HP. unfold canonicalJson. cbn [sortValue]. do 3 f_equal.
  pose proof (wf_keys _ H1) as Hd.
  f_equal. apply sort_by_unique.
  - intros a b c. unfold by_key. apply str_le_trans.
  - intros a b. unfold by_key. apply str_ltb_antisym.
  - intros [ka va] [kb vb] Ha Hb Hab Hba. unfold by_key in *. cbn in *.
    assert (ka = kb) as <- by (by apply str_le_antisym). f_equal.
    assert (Hd' : NoDup (map (fun kv : string * json => (kv.1, sortValue kv.2)) l1).*1) by (by rewrite sort_keys).
    pose proof (elem_assoc _ _ _ Hd' Ha). pose proof (elem_assoc _ _ _ Hd' Hb). congruence.
  - by apply Permutation_map.
Qed.

Lemma canonicalJson_binds_witness :
  let l1 := [("b", JNum (num_of_Z 2)); ("a", JStr "x")] in
  let l2 := [("a", JStr "x"); ("b", JNum (num_of_Z 2))] in
  (l1 ≡ₚ l2 -> canonicalJson (JObj l1) = canonicalJson (JObj l2)) /\
  (canonicalJson (JObj l1) = canonicalJson (JObj l2) ->
   forall k, k <> "__proto__" -> sortValue <$> assoc k l1 = sortValue <$> assoc k l2).
Proof. apply canonicalJson_binds; vm_compute; reflexivity. Defined.

(** A property named [__proto__] is not covered by the canonical
    text: two different parsed messages have the same signing payload. *)
Theorem canonicalJson_drops_proto :
  exists v1 v2, JSON_parse (stringify v1) = Ok v1 /\ JSON_parse (stringify v2) = Ok v2 /\ v1 <> v2 /\
    signingPayload v1 = signingPayload v2.
Proof.
  exists (JObj [("a", JBool true); ("__proto__", JNum (num_of_Z 1))]), (JObj [("a", JBool true)]).
  split_and!; [vm_compute; reflexivity..|discriminate|vm_compute; reflexivity].
Qed.
