(* ===== verification/ResponderAuth.v ===== *)
(** * Responder authentication (tunnel/responder-auth.ts)

    A node proves its identity to a client by signing the client's challenge.
    Messages are JSON objects; random nonces and clock readings are arguments. *)

From S2P Require Import Prelude Text Json JsonText Coerce Base64 Crypto CanonicalJson.
Local Open Scope Z_scope.

Definition RESPONDER_AUTH_PROTOCOL : string := "consensus-node-responder-auth".
Definition RESPONDER_AUTH_VERSION : Z := 1.
Definition DEFAULT_CLOCK_TOLERANCE_SEC : Z := 5.
Definition DEFAULT_MAX_AGE_SEC : Z := 30.

Definition decodeBase64 (field : string) (v : option json) : result buffer :=
  b64_field (TypeError ("responder-auth: " +:+ field +:+ " must be a non-empty string"))
    (TypeError ("responder-auth: " +:+ field +:+ " is empty")) v.

Definition assertBase (value : json) : result unit :=
  throw_if (negb (is_object value)) (TypeError "responder-auth: message must be an object");;
  throw_if (negb (bool_decide (get "protocol" value = Some (JStr RESPONDER_AUTH_PROTOCOL))))
    (TypeError ("responder-auth: unsupported protocol " +:+ show_value (get "protocol" value)));;
  throw_if (negb (is_version (get "version" value) RESPONDER_AUTH_VERSION))
    (TypeError ("responder-auth: unsupported version " +:+ show_value (get "version" value)));;
  nonempty_text (get "node_id" value) (TypeError "responder-auth: node_id must be a non-empty string");;
  throw_if (negb (is_finite_number (get "timestamp" value)))
    (TypeError "responder-auth: timestamp must be a finite number");;
  match get "channel_binding" value with
  | None => Ok tt
  | Some b => decodeBase64 "channel_binding" (Some b);; Ok tt
  end.

Definition assertChallenge (value : json) : result unit :=
  assertBase value;; decodeBase64 "client_nonce" (get "client_nonce" value);; Ok tt.

Definition assertProof (value : json) : result unit :=
  assertBase value;;
  decodeBase64 "client_nonce" (get "client_nonce" value);;
  decodeBase64 "node_nonce" (get "node_nonce" value);;
  nonempty_text (get "signature" value) (TypeError "responder-auth: signature must be a non-empty string");;
  Ok tt.

(** [now] is the value of [input.now ?? nowSeconds()]. *)
Definition createChallenge (nodeId : string) (now : json) (nonce : buffer) (channelBinding : option buffer) : json :=
  obj [("protocol", Some (JStr RESPONDER_AUTH_PROTOCOL));
       ("version", Some (JNum (num_of_Z RESPONDER_AUTH_VERSION)));
       ("node_id", Some (JStr nodeId));
       ("client_nonce", Some (JStr (toBase64 nonce)));
       ("timestamp", Some now);
       ("channel_binding", JStr ∘ toBase64 <$> channelBinding)].

(** The proof before it is signed; [client_nonce] and [channel_binding] are
    echoed from the challenge. *)
Definition unsigned_proof (challenge : json) (nodeId : string) (now : Z) (nodeNonce : buffer) : json :=
  obj [("protocol", Some (JStr RESPONDER_AUTH_PROTOCOL));
       ("version", Some (JNum (num_of_Z RESPONDER_AUTH_VERSION)));
       ("node_id", Some (JStr nodeId));
       ("client_nonce", get "client_nonce" challenge);
       ("node_nonce", Some (JStr (toBase64 nodeNonce)));
       ("timestamp", Some (JNum (num_of_Z now)));
       ("channel_binding", get "channel_binding" challenge)].

Record VerifyProofOptions := {
  vp_proof : json; vp_challenge : json; expectedNodeId : string; expectedNodePublicKeyPem : string;
  vp_now : option Z; vp_clockToleranceSec : option Z; vp_maxAgeSec : option Z }.

Section ResponderAuth.
Context `{PemKeys}.

Definition signChallenge (challenge : json) (identity : NodeIdentity) (nodeId : string) (now : Z) (nodeNonce : buffer)
  : result json :=
  assertChallenge challenge;;
  throw_if (negb (bool_decide (get "node_id" challenge = Some (JStr nodeId))))
    (PlainError "responder-auth: challenge targets a different node");;
  let unsigned := unsigned_proof challenge nodeId now nodeNonce in
  sg ← signUtf8 (privateKeyPem identity) (signingPayload unsigned);
  Ok (with_signature unsigned sg).

(** The value of a property that [assertProof] has checked to be a number. *)
Definition timestamp_of (p : json) : num := default NaN (as_num (get "timestamp" p)).

Definition verifyProof (clock : Z) (opts : VerifyProofOptions) : result json :=
  let p := vp_proof opts in
  let challenge := vp_challenge opts in
  assertChallenge challenge;;
  assertProof p;;
  throw_if (negb (bool_decide (get "node_id" p = Some (JStr (expectedNodeId opts)))))
    (PlainError "responder-auth: node_id mismatch");;
  throw_if (negb (bool_decide (get "node_id" challenge = Some (JStr (expectedNodeId opts)))))
    (PlainError "responder-auth: challenge node_id mismatch");;
  throw_if (negb (bool_decide (get "client_nonce" p = get "client_nonce" challenge)))
    (PlainError "responder-auth: client_nonce mismatch");;
  throw_if (negb (bool_decide (or_null (get "channel_binding" p) = or_null (get "channel_binding" challenge))))
    (PlainError "responder-auth: channel_binding mismatch");;
  let now := default (clock / 1000) (vp_now opts) in
  let skew := default DEFAULT_CLOCK_TOLERANCE_SEC (vp_clockToleranceSec opts) in
  let maxAge := default DEFAULT_MAX_AGE_SEC (vp_maxAgeSec opts) in
  throw_if (num_ltb (num_of_Z (now + skew)) (timestamp_of p)) (PlainError "responder-auth: proof issued in the future");;
  throw_if (num_ltb (timestamp_of p) (num_of_Z (now - maxAge - skew))) (PlainError "responder-auth: proof expired");;
  ok ← verifyUtf8 (expectedNodePublicKeyPem opts) (signingPayload p) (default "" (as_string (get "signature" p)));
  throw_if (negb ok) (PlainError "responder-auth: signature verification failed");;
  Ok p.
End ResponderAuth.

(** ** Lemmas *)

(** A challenge as its author writes it. *)
Definition challenge_wf (nodeId : string) (nonce : buffer) (cb : option buffer) : Prop :=
  nodeId <> "" /\ nonce <> [] /\ cb <> Some [].

Section AuthLemmas.

Lemma base_check (v : json) nodeId t (cb : option buffer) :
  is_object v = true -> get "protocol" v = Some (JStr RESPONDER_AUTH_PROTOCOL) ->
  get "version" v = Some (JNum (num_of_Z RESPONDER_AUTH_VERSION)) ->
  get "node_id" v = Some (JStr nodeId) -> nodeId <> "" ->
  get "timestamp" v = Some (JNum (num_of_Z t)) ->
  get "channel_binding" v = (JStr ∘ toBase64 <$> cb) -> cb <> Some [] ->
  assertBase v = Ok tt.
Proof.
  intros Ho Hp Hv Hn Hne Ht Hc Hcb. unfold assertBase. rewrite Ho, Hp, Hv, Hn, Ht, Hc.
  rewrite bool_decide_true by done.
  change (is_version (Some (JNum (num_of_Z RESPONDER_AUTH_VERSION))) RESPONDER_AUTH_VERSION) with true.
  change (is_finite_number (Some (JNum (num_of_Z t)))) with true.
  rewrite (proj2 (nonempty_text_ok (Some (JStr nodeId)) _ nodeId)) by done.
  cbn [negb throw_if mbind result_bind].
  destruct cb as [b|]; cbn [fmap option_fmap option_map compose]; [|done].
  unfold decodeBase64; rewrite b64_field_text; [done|congruence].
Qed.

Lemma createChallenge_ok nodeId t nonce cb : challenge_wf nodeId nonce cb ->
  assertChallenge (createChallenge nodeId (JNum (num_of_Z t)) nonce cb) = Ok tt.
Proof.
  intros (Hn & Hno & Hcb). unfold assertChallenge.
  rewrite (base_check _ nodeId t cb); try (by destruct cb); try done.
  replace (get "client_nonce" (createChallenge nodeId (JNum (num_of_Z t)) nonce cb)) with (Some (JStr (toBase64 nonce))) by (by destruct cb).
  cbn [mbind result_bind]. by unfold decodeBase64; rewrite b64_field_text.
Qed.

(** The proof of an honest node for a challenge. *)
Definition honest_proof (nodeId : string) (clientNonce : buffer) (cb : option buffer) (t : Z) (nodeNonce : buffer) : json :=
  obj [("protocol", Some (JStr RESPONDER_AUTH_PROTOCOL));
       ("version", Some (JNum (num_of_Z RESPONDER_AUTH_VERSION)));
       ("node_id", Some (JStr nodeId));
       ("client_nonce", Some (JStr (toBase64 clientNonce)));
       ("node_nonce", Some (JStr (toBase64 nodeNonce)));
       ("timestamp", Some (JNum (num_of_Z t)));
       ("channel_binding", JStr ∘ toBase64 <$> cb)].

Lemma unsigned_honest nodeId t0 clientNonce cb t nodeNonce :
  unsigned_proof (createChallenge nodeId (JNum (num_of_Z t0)) clientNonce cb) nodeId t nodeNonce =
  honest_proof nodeId clientNonce cb t nodeNonce.
Proof. by destruct cb. Qed.

Lemma payload_signed nodeId cn cb t nn sg :
  signingPayload (with_signature (honest_proof nodeId cn cb t nn) sg) = signingPayload (honest_proof nodeId cn cb t nn).
Proof. unfold signingPayload. f_equal. by destruct cb. Qed.

Context `{PemKeys} `{!SigningLaws}.

Lemma signChallenge_ok nodeId t0 cn cb t nn identity sk :
  challenge_wf nodeId cn cb -> key_pair (privateKeyPem identity) (publicKeyPem identity) sk ->
  signChallenge (createChallenge nodeId (JNum (num_of_Z t0)) cn cb) identity nodeId t nn =
  Ok (with_signature (honest_proof nodeId cn cb t nn)
        (toBase64 (sign sk (utf8 (signingPayload (honest_proof nodeId cn cb t nn)))))).
Proof.
  intros Hw Hk. unfold signChallenge. rewrite createChallenge_ok by done.
  replace (get "node_id" (createChallenge nodeId (JNum (num_of_Z t0)) cn cb)) with (Some (JStr nodeId)) by (by destruct cb).
  rewrite bool_decide_true by done. cbn [mbind result_bind negb throw_if].
  rewrite unsigned_honest, (signUtf8_total _ _ sk) by done. done.
Qed.

Lemma honest_proof_wf nodeId cn cb t nn sg : small_num t ->
  wf_json (with_signature (honest_proof nodeId cn cb t nn) sg) = true.
Proof.
  intros Ht%canonical_small.
  destruct cb; (apply wf_object_intro; [by repeat constructor|]); cbn -[num_of_Z]; repeat constructor; done.
Qed.

(** A signed answer is an object with distinct keys. *)
Lemma signChallenge_wf nodeId t0 cn cb t nn identity proof : small_num t ->
  signChallenge (createChallenge nodeId (JNum (num_of_Z t0)) cn cb) identity nodeId t nn = Ok proof ->
  exists l, proof = JObj l /\ wf_json (JObj l) = true.
Proof.
  intros Ht. unfold signChallenge. rewrite unsigned_honest. intros Hs. inv_ok.
  pose proof (honest_proof_wf nodeId cn cb t nn r1 Ht) as Hw.
  destruct cb; eexists; (split; [reflexivity|exact Hw]).
Qed.

Lemma assertProof_honest nodeId cn cb t nn sg : challenge_wf nodeId cn cb -> nn <> [] -> sg <> "" ->
  assertProof (with_signature (honest_proof nodeId cn cb t nn) sg) = Ok tt.
Proof.
  intros (Hn & Hcn & Hcb) Hnn Hsg. unfold assertProof. set (p := with_signature _ sg).
  rewrite (base_check p nodeId t cb); try (by destruct cb); try done.
  replace (get "client_nonce" p) with (Some (JStr (toBase64 cn))) by (by destruct cb).
  replace (get "node_nonce" p) with (Some (JStr (toBase64 nn))) by (by destruct cb).
  replace (get "signature" p) with (Some (JStr sg)) by (by destruct cb).
  cbn [mbind result_bind]. unfold decodeBase64; rewrite !b64_field_text by done. cbn [mbind result_bind].
  unfold nonempty_text. cbn [as_string]. by rewrite bool_decide_false.
Qed.

Lemma verify_honest clock nodeId t0 cn cb t nn public private sk opts :
  challenge_wf nodeId cn cb -> nn <> [] -> key_pair private public sk ->
  vp_challenge opts = createChallenge nodeId (JNum (num_of_Z t0)) cn cb ->
  vp_proof opts = with_signature (honest_proof nodeId cn cb t nn)
        (toBase64 (sign sk (utf8 (signingPayload (honest_proof nodeId cn cb t nn))))) ->
  expectedNodeId opts = nodeId -> expectedNodePublicKeyPem opts = public ->
  t <= default (clock / 1000) (vp_now opts) + default DEFAULT_CLOCK_TOLERANCE_SEC (vp_clockToleranceSec opts) ->
  default (clock / 1000) (vp_now opts) - default DEFAULT_MAX_AGE_SEC (vp_maxAgeSec opts) -
    default DEFAULT_CLOCK_TOLERANCE_SEC (vp_clockToleranceSec opts) <= t ->
  verifyProof clock opts = Ok (vp_proof opts).
Proof.
  intros Hw Hnn [Hs Hp] Hc Hpr Hn Hpk Hhi Hlo. unfold verifyProof. rewrite Hc, createChallenge_ok by done.
  rewrite Hpr, assertProof_honest by (try done; apply signature_nonempty).
  set (sg := toBase64 _). set (p := with_signature _ sg).
  replace (get "node_id" p) with (Some (JStr nodeId)) by (by destruct cb).
  replace (get "node_id" (createChallenge nodeId (JNum (num_of_Z t0)) cn cb)) with (Some (JStr nodeId)) by (by destruct cb).
  replace (get "client_nonce" p) with (get "client_nonce" (createChallenge nodeId (JNum (num_of_Z t0)) cn cb)) by (by destruct cb).
  replace (get "channel_binding" p) with (get "channel_binding" (createChallenge nodeId (JNum (num_of_Z t0)) cn cb)) by (by destruct cb).
  replace (timestamp_of p) with (num_of_Z t) by (by destruct cb).
  replace (as_string (get "signature" p)) with (Some sg) by (by destruct cb).
  rewrite !bool_decide_true by (by rewrite ?Hn). cbn [mbind result_bind negb throw_if].
  rewrite !num_ltb_Z, (proj2 (Z.ltb_ge _ _) Hhi), (proj2 (Z.ltb_ge _ _) Hlo). cbn [throw_if mbind result_bind default].
  replace (signingPayload p) with (signingPayload (honest_proof nodeId cn cb t nn)) by (symmetry; apply payload_signed).
  unfold verifyUtf8. rewrite Hpk, Hp. cbn [of_option mbind result_bind default from_option id].
  subst sg. by rewrite fromBase64_toBase64, verify_sign.
Qed.
End AuthLemmas.

(** What an accepted proof establishes. *)
Record proof_accepted `{PemKeys} (now skew maxAge : Z) (opts : VerifyProofOptions) (p : json) : Prop := {
  pf_node : get "node_id" p = Some (JStr (expectedNodeId opts)) /\
            get "node_id" (vp_challenge opts) = Some (JStr (expectedNodeId opts));
  pf_nonce : get "client_nonce" p = get "client_nonce" (vp_challenge opts);
  pf_binding : get "channel_binding" p = get "channel_binding" (vp_challenge opts);
  pf_fresh : exists t, get "timestamp" p = Some (JNum t) /\ num_ltb (num_of_Z (now + skew)) t = false /\
             num_ltb t (num_of_Z (now - maxAge - skew)) = false;
  pf_signed : exists pk sg, pem_public (expectedNodePublicKeyPem opts) = Some pk /\
              get "signature" p = Some (JStr sg) /\ verify pk (utf8 (signingPayload p)) (fromBase64 sg) = true }.

Lemma assertBase_inv v : assertBase v = Ok tt ->
  is_object v = true /\ (exists t, get "timestamp" v = Some (JNum t)) /\
  (get "channel_binding" v = None \/ exists s, get "channel_binding" v = Some (JStr s)).
Proof.
  unfold assertBase. intros Hb. inv_ok. bool_solve. split; [done|]. split.
  - unfold is_finite_number, as_num in Hm3. destruct (get "timestamp" v) as [[]|]; try done. eauto.
  - destruct (get "channel_binding" v) as [b|]; [|by left]. right. inv_ok.
    apply b64_field_inv in Hm4 as (s & -> & _). eauto.
Qed.

Lemma assertChallenge_inv v : assertChallenge v = Ok tt -> assertBase v = Ok tt.
Proof. unfold assertChallenge. intros Hc. by inv_ok. Qed.

Lemma assertProof_inv v : assertProof v = Ok tt ->
  assertBase v = Ok tt /\ exists sg, get "signature" v = Some (JStr sg).
Proof.
  unfold assertProof. intros Hc. inv_ok. split; [done|].
  match goal with Hs : nonempty_text (get "signature" v) _ = Ok ?sg |- _ => apply nonempty_text_ok in Hs as [? _]; by exists sg end.
Qed.

Lemma verifyProof_inv `{PemKeys} clock opts p : verifyProof clock opts = Ok p ->
  p = vp_proof opts /\
  proof_accepted (default (clock / 1000) (vp_now opts)) (default DEFAULT_CLOCK_TOLERANCE_SEC (vp_clockToleranceSec opts))
    (default DEFAULT_MAX_AGE_SEC (vp_maxAgeSec opts)) opts p.
Proof.
  unfold verifyProof. intros Hv. inv_ok. split; [done|]. bool_solve.
  apply assertChallenge_inv, assertBase_inv in Hm as (_ & _ & Hcb1).
  apply assertProof_inv in Hm0 as [(_ & [t Ht] & Hcb2)%assertBase_inv [sg Hsg]].
  unfold timestamp_of in *. rewrite Ht in *. rewrite Hsg in *. cbn [as_num as_string default from_option id] in *.
  unfold verifyUtf8 in Hm7. inv_ok. split; [done|done| |eauto|eauto].
  destruct Hcb1 as [E1|[s1 E1]], Hcb2 as [E2|[s2 E2]]; rewrite E1, E2 in *; cbn in *; congruence.
Qed.

(** ** Properties *)

(** A proof is accepted only from the pinned key for this challenge: it
    names the expected node, echoes the challenge's nonce and channel binding, is
    within the freshness window, and its signature over the canonical text of
    all its other properties verifies under the pinned public key. *)
Theorem verifyProof_sound `{PemKeys} (clock : Z) (opts : VerifyProofOptions) (p : json) :
  verifyProof clock opts = Ok p ->
  p = vp_proof opts /\
  proof_accepted (default (clock / 1000) (vp_now opts)) (default DEFAULT_CLOCK_TOLERANCE_SEC (vp_clockToleranceSec opts))
    (default DEFAULT_MAX_AGE_SEC (vp_maxAgeSec opts)) opts p.
Proof. apply verifyProof_inv. Qed.

Module Demo.
Definition identity : NodeIdentity := {| privateKeyPem := "7"; publicKeyPem := "7" |}.
Definition challenge : json := createChallenge "n1" (JNum (num_of_Z 1000)) (utf8 "nonce") (Some (utf8 "channel")).
Definition proof : json :=
  match @signChallenge Toy.signing ToyPem.pem_keys challenge identity "n1" 1001 (utf8 "node") with
  | Ok p => p | Throw _ => JNull end.
Definition opts : VerifyProofOptions :=
  {| vp_proof := proof; vp_challenge := challenge; expectedNodeId := "n1"; expectedNodePublicKeyPem := "7";
     vp_now := Some 1002; vp_clockToleranceSec := None; vp_maxAgeSec := None |}.
End Demo.

Lemma verifyProof_sound_witness :
  Demo.proof = vp_proof Demo.opts /\ @proof_accepted Toy.signing ToyPem.pem_keys 1002 5 30 Demo.opts Demo.proof.
Proof.
  apply (@verifyProof_sound Toy.signing ToyPem.pem_keys 0 Demo.opts Demo.proof). vm_compute. reflexivity.
Defined.

(** An honest node's answer to a challenge is accepted: signing succeeds and
    the proof verifies at every time from [maxAge + skew] after to [skew] before
    it was made. *)
Theorem responder_auth_complete `{PemKeys} `{!SigningLaws} (clock : Z) (nodeId : string) (t0 t : Z) (cn nn : buffer)
    (cb : option buffer) (identity : NodeIdentity) (sk : SecretKey) (nowOpt : option Z) :
  challenge_wf nodeId cn cb -> nn <> [] -> key_pair (privateKeyPem identity) (publicKeyPem identity) sk ->
  let challenge := createChallenge nodeId (JNum (num_of_Z t0)) cn cb in
  t - DEFAULT_CLOCK_TOLERANCE_SEC <= default (clock / 1000) nowOpt <= t + DEFAULT_MAX_AGE_SEC + DEFAULT_CLOCK_TOLERANCE_SEC ->
  exists proof, signChallenge challenge identity nodeId t nn = Ok proof /\
    verifyProof clock {| vp_proof := proof; vp_challenge := challenge; expectedNodeId := nodeId;
      expectedNodePublicKeyPem := publicKeyPem identity; vp_now := nowOpt; vp_clockToleranceSec := None;
      vp_maxAgeSec := None |} = Ok proof.
Proof.
  intros Hw Hnn Hk challenge Ht. eexists. split; [by apply signChallenge_ok|].
  eapply (verify_honest clock nodeId t0 cn cb t nn (publicKeyPem identity)); try done; cbn; unfold DEFAULT_CLOCK_TOLERANCE_SEC, DEFAULT_MAX_AGE_SEC in *; lia.
Qed.

Lemma responder_auth_complete_witness :
  exists proof, @signChallenge Toy.signing ToyPem.pem_keys Demo.challenge Demo.identity "n1" 1001 (utf8 "node") = Ok proof /\
    @verifyProof Toy.signing ToyPem.pem_keys 0 {| vp_proof := proof; vp_challenge := Demo.challenge; expectedNodeId := "n1";
      expectedNodePublicKeyPem := "7"; vp_now := Some 1002; vp_clockToleranceSec := None; vp_maxAgeSec := None |} = Ok proof.
Proof.
  apply (@responder_auth_complete Toy.signing ToyPem.pem_keys Toy.signing_laws 0 "n1" 1000 1001 (utf8 "nonce") (utf8 "node")
           (Some (utf8 "channel")) Demo.identity 7 (Some 1002)).
  - split; [discriminate|]. split; discriminate.
  - discriminate.
  - split; reflexivity.
  - split; discriminate.
Defined.
