(* ===== verification/DataHandshake.v ===== *)
(** * The data-plane handshake (tunnel/data-handshake.ts)

    A client reaches a node directly: an ECDH session whose transcript the node
    signs.  Key pairs, nonces and clocks are arguments. *)

From S2P Require Import Prelude Text Json JsonText Coerce Base64 Crypto CanonicalJson SecureChannel ResponderAuth.
Local Open Scope Z_scope.

Definition DATA_HANDSHAKE_PROTOCOL : string := "consensus-data-plane".
Definition DATA_HANDSHAKE_VERSION : Z := 1.
Definition DATA_INIT : string := "data_init".
Definition DATA_ACCEPT : string := "data_accept".

Definition decode_field (field : string) (v : option json) : result buffer :=
  b64_field (TypeError ("data-handshake: " +:+ field +:+ " must be a non-empty string"))
    (TypeError ("data-handshake: " +:+ field +:+ " is empty")) v.

Definition assert_base (value : json) (type : string) : result unit :=
  throw_if (negb (is_object value)) (TypeError "data-handshake: message must be an object");;
  throw_if (negb (bool_decide (get "type" value = Some (JStr type))))
    (TypeError ("data-handshake: expected type " +:+ type));;
  throw_if (negb (bool_decide (get "protocol" value = Some (JStr DATA_HANDSHAKE_PROTOCOL))))
    (TypeError ("data-handshake: unsupported protocol " +:+ show_value (get "protocol" value)));;
  throw_if (negb (is_version (get "version" value) DATA_HANDSHAKE_VERSION))
    (TypeError ("data-handshake: unsupported version " +:+ show_value (get "version" value))).

Definition assertDataInit (value : json) : result unit :=
  assert_base value DATA_INIT;;
  nonempty_text (get "node_id" value) (TypeError "data-handshake: node_id must be a non-empty string");;
  decode_field "client_public_key" (get "client_public_key" value);;
  decode_field "client_nonce" (get "client_nonce" value);;
  throw_if (negb (is_finite_number (get "timestamp" value)))
    (TypeError "data-handshake: timestamp must be a finite number").

Definition assertDataAccept (value : json) : result unit :=
  assert_base value DATA_ACCEPT;;
  decode_field "node_public_key" (get "node_public_key" value);;
  nonempty_text (get "session_id" value) (TypeError "data-handshake: session_id must be a non-empty string");;
  throw_if (negb (match get "proof" value with Some p => is_object p | None => false end))
    (TypeError "data-handshake: proof must be an object").

(** The transcript of a channel; a missing property is dropped by the canonical
    text. *)
Record Transcript := {
  tr_nodeId : string; tr_clientPublicKey : option json; tr_clientNonce : option json;
  tr_nodePublicKey : option json; tr_nodeNonce : option json }.

Definition transcript_json (i : Transcript) : json :=
  obj [("protocol", Some (JStr DATA_HANDSHAKE_PROTOCOL));
       ("version", Some (JNum (num_of_Z DATA_HANDSHAKE_VERSION)));
       ("node_id", Some (JStr (tr_nodeId i)));
       ("client_public_key", tr_clientPublicKey i);
       ("client_nonce", tr_clientNonce i);
       ("node_public_key", tr_nodePublicKey i);
       ("node_nonce", tr_nodeNonce i)].

Definition channelBinding `{Hashing} (i : Transcript) : buffer := sha256 (utf8 (canonicalJson (transcript_json i))).

Section DataHandshake.
Context `{Hashing} `{Hkdf} `{KeyExchange} `{PemKeys}.

Record ClientDataHandshake := { cd_key : DhSecret; cd_nonce : buffer; cd_message : json }.

Definition createDataInit (key : DhSecret) (nonce : buffer) (nodeId : string) (now : Z) : ClientDataHandshake :=
  {| cd_key := key; cd_nonce := nonce;
     cd_message := obj [("type", Some (JStr DATA_INIT));
       ("protocol", Some (JStr DATA_HANDSHAKE_PROTOCOL));
       ("version", Some (JNum (num_of_Z DATA_HANDSHAKE_VERSION)));
       ("node_id", Some (JStr nodeId));
       ("client_public_key", Some (JStr (toBase64 (dh_public key))));
       ("client_nonce", Some (JStr (toBase64 nonce)));
       ("timestamp", Some (JNum (num_of_Z now)))] |}.

Definition accept_message (nodePublicKey sessionId : string) (proof : json) : json :=
  obj [("type", Some (JStr DATA_ACCEPT));
       ("protocol", Some (JStr DATA_HANDSHAKE_PROTOCOL));
       ("version", Some (JNum (num_of_Z DATA_HANDSHAKE_VERSION)));
       ("node_public_key", Some (JStr nodePublicKey));
       ("session_id", Some (JStr sessionId));
       ("proof", Some proof)].

Definition acceptDataInit (key : DhSecret) (nodeNonce : buffer) (init : json) (identity : NodeIdentity)
  (nodeId : string) (now : Z) : result (json * SecureSession) :=
  assertDataInit init;;
  throw_if (negb (bool_decide (get "node_id" init = Some (JStr nodeId))))
    (PlainError "data-handshake: init targets a different node");;
  let nodePublicKey := toBase64 (dh_public key) in
  let transcript := channelBinding
    {| tr_nodeId := nodeId; tr_clientPublicKey := get "client_public_key" init;
       tr_clientNonce := get "client_nonce" init; tr_nodePublicKey := Some (JStr nodePublicKey);
       tr_nodeNonce := Some (JStr (toBase64 nodeNonce)) |} in
  peer ← decode_field "client_public_key" (get "client_public_key" init);
  clientNonce ← decode_field "client_nonce" (get "client_nonce" init);
  session ← deriveSecureSession
    {| di_role := Server; di_privateKey := key; di_peerPublicKeyRaw := peer; di_clientNonce := clientNonce;
       di_serverNonce := nodeNonce; di_transcriptHash := Some transcript |};
  proof ← signChallenge (createChallenge nodeId (JNum (num_of_Z now)) clientNonce (Some transcript))
            identity nodeId now nodeNonce;
  Ok (accept_message nodePublicKey (sessionId session) proof, session).

(** The transcript as the client sees it. *)
Definition client_transcript (client : ClientDataHandshake) (accept : json) (nodeId : string) : Transcript :=
  {| tr_nodeId := nodeId; tr_clientPublicKey := get "client_public_key" (cd_message client);
     tr_clientNonce := get "client_nonce" (cd_message client); tr_nodePublicKey := get "node_public_key" accept;
     tr_nodeNonce := get "node_nonce" (default JNull (get "proof" accept)) |}.

Definition deriveClientDataSession (clock : Z) (client : ClientDataHandshake) (accept : json)
  (nodeId nodePublicKeyPem : string) (now : option Z) : result SecureSession :=
  assertDataAccept accept;;
  let proof := default JNull (get "proof" accept) in
  let transcript := channelBinding (client_transcript client accept nodeId) in
  verifyProof clock
    {| vp_proof := proof;
       vp_challenge := createChallenge nodeId
         (match get "timestamp" proof with None | Some JNull => JNum (num_of_Z (clock / 1000)) | Some t => t end)
         (cd_nonce client) (Some transcript);
       expectedNodeId := nodeId; expectedNodePublicKeyPem := nodePublicKeyPem; vp_now := now;
       vp_clockToleranceSec := None; vp_maxAgeSec := None |};;
  peer ← decode_field "node_public_key" (get "node_public_key" accept);
  nodeNonce ← decode_field "node_nonce" (get "node_nonce" proof);
  session ← deriveSecureSession
    {| di_role := Client; di_privateKey := cd_key client; di_peerPublicKeyRaw := peer;
       di_clientNonce := cd_nonce client; di_serverNonce := nodeNonce; di_transcriptHash := Some transcript |};
  throw_if (negb (bool_decide (Some (JStr (sessionId session)) = get "session_id" accept)))
    (PlainError "data-handshake: session id mismatch");;
  Ok session.
End DataHandshake.

(** ** The transcript determines the channel *)

Definition text_transcript (nodeId ck cn nk nn : string) : Transcript :=
  {| tr_nodeId := nodeId; tr_clientPublicKey := Some (JStr ck); tr_clientNonce := Some (JStr cn);
     tr_nodePublicKey := Some (JStr nk); tr_nodeNonce := Some (JStr nn) |}.

Lemma wf_transcript nodeId ck cn nk nn : wf_json (transcript_json (text_transcript nodeId ck cn nk nn)) = true.
Proof. apply wf_object_intro; [|by repeat constructor]. cbn. repeat constructor; done. Qed.

(** The text whose digest is the channel binding. *)
Definition transcript_text (i : Transcript) : buffer := utf8 (canonicalJson (transcript_json i)).

Lemma channelBinding_inj `{Hashing} n ck cn nk nn n' ck' cn' nk' nn' :
  channelBinding (text_transcript n ck cn nk nn) = channelBinding (text_transcript n' ck' cn' nk' nn') ->
  (n = n' /\ ck = ck' /\ cn = cn' /\ nk = nk' /\ nn = nn') \/
  collide (transcript_text (text_transcript n ck cn nk nn)) (transcript_text (text_transcript n' ck' cn' nk' nn')).
Proof.
  intros E. apply sha256_inj in E as [E|]; [left|by right]. apply utf8_inj in E.
  assert (Hf : forall k, k <> "__proto__" ->
    sortValue <$> get k (transcript_json (text_transcript n ck cn nk nn)) =
    sortValue <$> get k (transcript_json (text_transcript n' ck' cn' nk' nn'))).
  { intros k Hk. pose proof (wf_transcript n ck cn nk nn) as W1. pose proof (wf_transcript n' ck' cn' nk' nn') as W2.
    by apply (canonicalJson_fields _ _ k W1 W2 E). }
  clear E. pose proof (Hf "node_id" ltac:(done)) as [= ->]. pose proof (Hf "client_public_key" ltac:(done)) as [= ->].
  pose proof (Hf "client_nonce" ltac:(done)) as [= ->]. pose proof (Hf "node_public_key" ltac:(done)) as [= ->].
  by pose proof (Hf "node_nonce" ltac:(done)) as [= ->].
Qed.

Lemma decode_field_inv f v b : decode_field f v = Ok b -> exists s, v = Some (JStr s) /\ b = fromBase64 s /\ b <> [].
Proof. apply b64_field_inv. Qed.

Section Agreement.
Context `{Hashing} `{Hkdf} `{KeyExchangeLaws} `{PemKeys} `{!SigningLaws}.

(** What the client has checked when it returns a session. *)
Lemma derive_client_inv clock client accept nodeId pem now s :
  deriveClientDataSession clock client accept nodeId pem now = Ok s ->
  exists nk nn proof,
    get "node_public_key" accept = Some (JStr nk) /\ get "proof" accept = Some proof /\
    get "node_nonce" proof = Some (JStr nn) /\
    get "channel_binding" proof = Some (JStr (toBase64 (channelBinding (client_transcript client accept nodeId)))) /\
    get "session_id" accept = Some (JStr (sessionId s)) /\
    (exists pk sg, pem_public pem = Some pk /\ get "signature" proof = Some (JStr sg) /\
       verify pk (utf8 (signingPayload proof)) (fromBase64 sg) = true) /\
    deriveSecureSession {| di_role := Client; di_privateKey := cd_key client; di_peerPublicKeyRaw := fromBase64 nk;
      di_clientNonce := cd_nonce client; di_serverNonce := fromBase64 nn;
      di_transcriptHash := Some (channelBinding (client_transcript client accept nodeId)) |} = Ok s.
Proof.
  unfold deriveClientDataSession. intros Hd. inv_ok. bool_solve.
  apply verifyProof_inv in Hm0 as [-> [_ _ Hb _ Hsg]].
  cbn [vp_proof vp_challenge expectedNodePublicKeyPem] in *.
  apply decode_field_inv in Hm1 as (nk & Enk & -> & _). apply decode_field_inv in Hm2 as (nn & Enn & -> & _).
  unfold assertDataAccept in Hm. inv_ok.
  destruct (get "proof" accept) as [proof|] eqn:Ep; [|done]. cbn [default from_option id] in *.
  exists nk, nn, proof. split_and!; auto.
Qed.

(** What the node has signed when it accepts. *)
Lemma accept_init_inv key nn init identity nodeId now m s :
  acceptDataInit key nn init identity nodeId now = Ok (m, s) ->
  exists ck cn proof,
    get "client_public_key" init = Some (JStr ck) /\ get "client_nonce" init = Some (JStr cn) /\
    get "proof" m = Some proof /\ get "node_public_key" m = Some (JStr (toBase64 (dh_public key))) /\
    get "session_id" m = Some (JStr (sessionId s)) /\
    get "node_nonce" proof = Some (JStr (toBase64 nn)) /\
    get "channel_binding" proof = Some (JStr (toBase64 (channelBinding
      (text_transcript nodeId ck cn (toBase64 (dh_public key)) (toBase64 nn))))) /\
    deriveSecureSession {| di_role := Server; di_privateKey := key; di_peerPublicKeyRaw := fromBase64 ck;
      di_clientNonce := fromBase64 cn; di_serverNonce := nn;
      di_transcriptHash := Some (channelBinding (text_transcript nodeId ck cn (toBase64 (dh_public key)) (toBase64 nn))) |} = Ok s.
Proof.
  unfold acceptDataInit. intros Ha. inv_ok. simplify_eq.
  apply decode_field_inv in Hm1 as (ck & Eck & -> & _). apply decode_field_inv in Hm2 as (cn & Ecn & -> & _).
  rewrite Eck, Ecn in *. eexists ck, cn, _. split; [done|]. split; [done|]. split; [done|]. split; [done|].
  split; [done|]. unfold signChallenge in Hm4. inv_ok. split; [done|]. split; [done|]. exact Hm3.
Qed.

Lemma derive_same a b cn nn th s1 s2 :
  deriveSecureSession {| di_role := Client; di_privateKey := a; di_peerPublicKeyRaw := dh_public b;
    di_clientNonce := cn; di_serverNonce := nn; di_transcriptHash := th |} = Ok s1 ->
  deriveSecureSession {| di_role := Server; di_privateKey := b; di_peerPublicKeyRaw := dh_public a;
    di_clientNonce := cn; di_serverNonce := nn; di_transcriptHash := th |} = Ok s2 ->
  sessionId s1 = sessionId s2 /\ sendKey s1 = receiveKey s2 /\ receiveKey s1 = sendKey s2.
Proof.
  unfold deriveSecureSession. cbn [di_role di_privateKey di_peerPublicKeyRaw di_clientNonce di_serverNonce di_transcriptHash].
  intros E1 E2. inv_ok. rewrite (dh_agree a b) in *. simplify_eq. done.
Qed.
End Agreement.

(** ** Properties *)

Section Properties.
Context `{Hashing} `{Hkdf} `{KeyExchangeLaws} `{PemKeys} `{!SigningLaws}.

Lemma client_transcript_text a cn nodeId t0 accept nk nn proof :
  get "node_public_key" accept = Some (JStr nk) -> get "proof" accept = Some proof ->
  get "node_nonce" proof = Some (JStr nn) ->
  client_transcript (createDataInit a cn nodeId t0) accept nodeId =
  text_transcript nodeId (toBase64 (dh_public a)) (toBase64 cn) nk nn.
Proof. intros E1 E2 E3. unfold client_transcript. rewrite E1, E2. cbn [default from_option id]. by rewrite E3. Qed.

(** The proof of an accepted init is an object with distinct keys. *)
Lemma accept_proof_wf key nn init identity nodeId now m s proof : small_num now ->
  acceptDataInit key nn init identity nodeId now = Ok (m, s) -> get "proof" m = Some proof ->
  exists l, proof = JObj l /\ wf_json (JObj l) = true.
Proof.
  unfold acceptDataInit. intros Ht Ha Hp. inv_ok. simplify_eq.
  apply signChallenge_wf in Hm4 as (l & -> & Hw); [|done]. exists l. by apply (inj Some) in Hp as <-.
Qed.

(** The transcript the node signs in a run. *)
Definition node_transcript (key : DhSecret) (nn : buffer) (init : json) (nodeId : string) : Transcript :=
  {| tr_nodeId := nodeId; tr_clientPublicKey := get "client_public_key" init;
     tr_clientNonce := get "client_nonce" init; tr_nodePublicKey := Some (JStr (toBase64 (dh_public key)));
     tr_nodeNonce := Some (JStr (toBase64 nn)) |}.

(** C5: no relay between client and node: if the proof a client accepts carries the
    text some run of an honest node signed, that run was for this client's own
    key and nonce, the node key the client used is that run's, and both ends hold
    the same session with crossed keys - or the two transcripts are a SHA-256
    collision. *)
Theorem data_handshake_no_mitm clock a cn nodeId t0 accept pem now s key nn init' identity nodeId' t m' s' lp proof' :
  deriveClientDataSession clock (createDataInit a cn nodeId t0) accept nodeId pem now = Ok s ->
  acceptDataInit key nn init' identity nodeId' t = Ok (m', s') ->
  get "proof" accept = Some (JObj lp) -> wf_json (JObj lp) = true -> get "proof" m' = Some proof' ->
  signingPayload (JObj lp) = signingPayload proof' -> small_num t ->
  (nodeId' = nodeId /\ get "client_public_key" init' = Some (JStr (toBase64 (dh_public a))) /\
   get "client_nonce" init' = Some (JStr (toBase64 cn)) /\
   get "node_public_key" accept = Some (JStr (toBase64 (dh_public key))) /\
   sessionId s = sessionId s' /\ sendKey s = receiveKey s' /\ receiveKey s = sendKey s') \/
  collide (transcript_text (client_transcript (createDataInit a cn nodeId t0) accept nodeId))
          (transcript_text (node_transcript key nn init' nodeId')).
Proof.
  intros Hc Ha Hpr Hwf Hpr' Hpay Ht.
  destruct (accept_proof_wf _ _ _ _ _ _ _ _ _ Ht Ha Hpr') as (lp' & -> & Hwf').
  apply derive_client_inv in Hc as (nk & nnt & proof & Enk & Epr & Enn & Ecb & _ & _ & Hs).
  rewrite Hpr in Epr. injection Epr as <-.
  apply accept_init_inv in Ha as (ck & cnt & proof & Eck & Ecn & Epr' & _ & _ & _ & Ecb' & Hs').
  rewrite Hpr' in Epr'. injection Epr' as <-.
  pose proof (payload_fields lp lp' "channel_binding" Hwf Hwf' Hpay ltac:(done) ltac:(done)) as Hf.
  rewrite (client_transcript_text a cn nodeId t0 accept nk nnt (JObj lp)) in * by done.
  cbn [get] in Ecb, Ecb'. rewrite Ecb, Ecb' in Hf. injection Hf as Hf%toBase64_inj.
  unfold node_transcript. rewrite Eck, Ecn.
  apply channelBinding_inj in Hf as [(<- & <- & <- & -> & ->)|]; [left|by right].
  rewrite !fromBase64_toBase64 in *. cbn [createDataInit cd_key cd_nonce] in Hs.
  destruct (derive_same _ _ _ _ _ _ _ Hs Hs') as (? & ? & ?). split_and!; done.
Qed.

Context `{!HashingLaws} `{!HkdfLaws}.

Lemma decode_field_text f b : b <> [] -> decode_field f (Some (JStr (toBase64 b))) = Ok b.
Proof. intros Hb. unfold decode_field. by rewrite b64_field_text. Qed.

Lemma createDataInit_ok a cn nodeId t0 : nodeId <> "" -> cn <> [] ->
  assertDataInit (cd_message (createDataInit a cn nodeId t0)) = Ok tt.
Proof.
  intros Hn Hc. unfold assertDataInit. cbn [createDataInit cd_message].
  set (m := obj _).
  replace (get "node_id" m) with (Some (JStr nodeId)) by done.
  replace (get "client_public_key" m) with (Some (JStr (toBase64 (dh_public a)))) by done.
  replace (get "client_nonce" m) with (Some (JStr (toBase64 cn))) by done.
  replace (assert_base m DATA_INIT) with (Ok tt) by reflexivity.
  rewrite (proj2 (nonempty_text_ok (Some (JStr nodeId)) _ nodeId)) by done.
  rewrite !decode_field_text by (done || apply dh_public_nonempty). done.
Qed.

Lemma accept_message_ok nk sid proof : nk <> [] -> sid <> "" -> is_object proof = true ->
  assertDataAccept (accept_message (toBase64 nk) sid proof) = Ok tt.
Proof.
  intros Hk Hs Hp. unfold assertDataAccept. set (m := accept_message _ _ _).
  replace (get "node_public_key" m) with (Some (JStr (toBase64 nk))) by done.
  replace (get "session_id" m) with (Some (JStr sid)) by done.
  replace (get "proof" m) with (Some proof) by done.
  replace (assert_base m DATA_ACCEPT) with (Ok tt) by reflexivity.
  rewrite decode_field_text by done. cbn [mbind result_bind].
  rewrite (proj2 (nonempty_text_ok (Some (JStr sid)) _ sid)) by done. by rewrite Hp.
Qed.

Lemma channelBinding_nonempty tr : Some (channelBinding tr) <> Some [].
Proof. intros [= Eb]. pose proof (sha256_length (utf8 (canonicalJson (transcript_json tr)))) as Hl. unfold channelBinding in Eb. by rewrite Eb in Hl. Qed.

(** The node's side of an honest run: the session and the signed proof. *)
Lemma acceptDataInit_ok a key cn nn nodeId t0 t identity sk :
  nodeId <> "" -> (16 <= length cn)%nat -> (16 <= length nn)%nat ->
  key_pair (privateKeyPem identity) (publicKeyPem identity) sk ->
  let binding := channelBinding (text_transcript nodeId (toBase64 (dh_public a)) (toBase64 cn) (toBase64 (dh_public key)) (toBase64 nn)) in
  let hp := honest_proof nodeId cn (Some binding) t nn in
  exists s1 s2,
    acceptDataInit key nn (cd_message (createDataInit a cn nodeId t0)) identity nodeId t =
      Ok (accept_message (toBase64 (dh_public key)) (sessionId s2)
            (with_signature hp (toBase64 (sign sk (utf8 (signingPayload hp))))), s2) /\
    deriveSecureSession {| di_role := Client; di_privateKey := a; di_peerPublicKeyRaw := dh_public key;
      di_clientNonce := cn; di_serverNonce := nn; di_transcriptHash := Some binding |} = Ok s1 /\
    sessionId s1 = sessionId s2 /\ sendKey s1 = receiveKey s2 /\ receiveKey s1 = sendKey s2.
Proof.
  intros Hn Hcn Hnn Hk binding hp.
  destruct (derive_agree Client Server a key cn nn (Some binding)) as (s1 & s2 & E1 & E2 & Hs); [done..|].
  exists s1, s2. split; [|done]. unfold acceptDataInit.
  assert (cn <> []) by (by destruct cn; cbn in Hcn; [lia|]).
  rewrite createDataInit_ok by done. cbn [mbind result_bind createDataInit cd_message].
  set (m := obj _).
  replace (get "node_id" m) with (Some (JStr nodeId)) by done.
  replace (get "client_public_key" m) with (Some (JStr (toBase64 (dh_public a)))) by done.
  replace (get "client_nonce" m) with (Some (JStr (toBase64 cn))) by done.
  rewrite bool_decide_true by done. cbn [mbind result_bind throw_if negb].
  rewrite !decode_field_text by (done || apply dh_public_nonempty). cbn [mbind result_bind].
  fold (text_transcript nodeId (toBase64 (dh_public a)) (toBase64 cn) (toBase64 (dh_public key)) (toBase64 nn)).
  fold binding. rewrite E2. cbn [mbind result_bind].
  rewrite (signChallenge_ok nodeId t cn (Some binding) t nn identity sk); [done| |done].
  split_and!; [done..|apply channelBinding_nonempty].
Qed.

(** The whole honest run, with the accept message written out. *)
Lemma honest_run clock a key cn nn nodeId t0 t identity sk now :
  nodeId <> "" -> (16 <= length cn)%nat -> (16 <= length nn)%nat ->
  key_pair (privateKeyPem identity) (publicKeyPem identity) sk ->
  t - DEFAULT_CLOCK_TOLERANCE_SEC <= default (clock / 1000) now <= t + DEFAULT_MAX_AGE_SEC + DEFAULT_CLOCK_TOLERANCE_SEC ->
  exists hp sg s s',
    hp = honest_proof nodeId cn (Some (channelBinding (text_transcript nodeId (toBase64 (dh_public a)) (toBase64 cn)
           (toBase64 (dh_public key)) (toBase64 nn)))) t nn /\
    acceptDataInit key nn (cd_message (createDataInit a cn nodeId t0)) identity nodeId t =
      Ok (accept_message (toBase64 (dh_public key)) (sessionId s') (with_signature hp sg), s') /\
    deriveClientDataSession clock (createDataInit a cn nodeId t0)
      (accept_message (toBase64 (dh_public key)) (sessionId s') (with_signature hp sg)) nodeId (publicKeyPem identity) now = Ok s /\
    sessionId s = sessionId s' /\ sendKey s = receiveKey s' /\ receiveKey s = sendKey s'.
Proof.
  intros Hn Hcn Hnn Hk Ht.
  destruct (acceptDataInit_ok a key cn nn nodeId t0 t identity sk Hn Hcn Hnn Hk) as (s1 & s2 & Ha & E1 & Hid & Hsr & Hrs).
  set (binding := channelBinding (text_transcript nodeId (toBase64 (dh_public a)) (toBase64 cn) (toBase64 (dh_public key)) (toBase64 nn))) in *.
  set (hp := honest_proof nodeId cn (Some binding) t nn) in *.
  set (proof := with_signature hp _) in *.
  eexists hp, _, s1, s2. split; [done|]. split; [exact Ha|]. split; [|done]. fold proof.
  set (m := accept_message _ _ proof).
  assert (nn <> []) by (by destruct nn; cbn in Hnn; [lia|]).
  assert (cn <> []) by (by destruct cn; cbn in Hcn; [lia|]).
  unfold deriveClientDataSession. unfold m.
  rewrite accept_message_ok by (try done; (apply dh_public_nonempty || (rewrite <- Hid; by eapply derive_session_id))).
  fold m. cbn [mbind result_bind].
  rewrite (client_transcript_text a cn nodeId t0 m (toBase64 (dh_public key)) (toBase64 nn) proof) by done. fold binding.
  replace (get "proof" m) with (Some proof) by done. cbn [default from_option id].
  replace (get "timestamp" proof) with (Some (JNum (num_of_Z t))) by done.
  rewrite (verify_honest clock nodeId t cn (Some binding) t nn (publicKeyPem identity) (privateKeyPem identity) sk);
    try done; cbn [vp_now vp_clockToleranceSec vp_maxAgeSec default from_option id]; try lia.
  - replace (get "node_public_key" m) with (Some (JStr (toBase64 (dh_public key)))) by done.
    replace (get "node_nonce" proof) with (Some (JStr (toBase64 nn))) by done.
    cbn [mbind result_bind]. rewrite !decode_field_text by (done || apply dh_public_nonempty). cbn [mbind result_bind].
    cbn [createDataInit cd_key cd_nonce]. rewrite E1. cbn [mbind result_bind].
    replace (get "session_id" m) with (Some (JStr (sessionId s2))) by done.
    rewrite bool_decide_true by (by rewrite Hid). done.
  - split_and!; [done..|apply channelBinding_nonempty].
Qed.

(** An honest run establishes one session: with 16-byte nonces and a node key
    pair, the node accepts the client's init, and the client, pinning the node's
    public key and deriving within the freshness window, obtains a session with
    the node's session id and the node's keys crossed. *)
Theorem data_handshake_agreement clock a key cn nn nodeId t0 t identity sk now :
  nodeId <> "" -> (16 <= length cn)%nat -> (16 <= length nn)%nat ->
  key_pair (privateKeyPem identity) (publicKeyPem identity) sk ->
  t - DEFAULT_CLOCK_TOLERANCE_SEC <= default (clock / 1000) now <= t + DEFAULT_MAX_AGE_SEC + DEFAULT_CLOCK_TOLERANCE_SEC ->
  exists m s s',
    acceptDataInit key nn (cd_message (createDataInit a cn nodeId t0)) identity nodeId t = Ok (m, s') /\
    deriveClientDataSession clock (createDataInit a cn nodeId t0) m nodeId (publicKeyPem identity) now = Ok s /\
    sessionId s = sessionId s' /\ sendKey s = receiveKey s' /\ receiveKey s = sendKey s'.
Proof.
  intros Hn Hcn Hnn Hk Ht.
  destruct (honest_run clock a key cn nn nodeId t0 t identity sk now Hn Hcn Hnn Hk Ht) as (hp & sg & s & s' & _ & Ha & Hs & Hx).
  eauto 10.
Qed.
End Properties.

Module Run.
Import Toy ToyPem.
Definition identity : NodeIdentity := {| privateKeyPem := "7"; publicKeyPem := "7" |}.
Definition client : ClientDataHandshake := createDataInit (5 : DhSecret) (be_encode 16 21) "n1" 1000.
Definition accepted : result (json * SecureSession) :=
  acceptDataInit (11 : DhSecret) (be_encode 16 22) (cd_message client) identity "n1" 1001.
Definition accept : json := match accepted with Ok (m, _) => m | Throw _ => JNull end.
Definition no_session : SecureSession := {| sessionId := ""; sendKey := []; receiveKey := [] |}.
Definition server_session : SecureSession := match accepted with Ok (_, s) => s | Throw _ => no_session end.
Definition client_session : SecureSession :=
  match deriveClientDataSession 0 client accept "n1" "7" (Some 1002) with Ok s => s | Throw _ => no_session end.
Definition fields (v : option json) : list (string * json) := match v with Some (JObj l) => l | _ => [] end.
Definition proof_fields : list (string * json) := fields (get "proof" accept).
End Run.

Lemma data_handshake_no_mitm_witness :
  ("n1" = "n1" /\ get "client_public_key" (cd_message Run.client) = Some (JStr (toBase64 (@dh_public Toy.key_exchange 5))) /\
   get "client_nonce" (cd_message Run.client) = Some (JStr (toBase64 (be_encode 16 21))) /\
   get "node_public_key" Run.accept = Some (JStr (toBase64 (@dh_public Toy.key_exchange 11))) /\
   sessionId Run.client_session = sessionId Run.server_session /\
   sendKey Run.client_session = receiveKey Run.server_session /\
   receiveKey Run.client_session = sendKey Run.server_session) \/
  @collide Toy.hashing (transcript_text (@client_transcript Toy.key_exchange Run.client Run.accept "n1"))
    (transcript_text (@node_transcript Toy.key_exchange 11 (be_encode 16 22) (cd_message Run.client) "n1")).
Proof.
  apply (@data_handshake_no_mitm Toy.hashing Toy.hkdf_toy Toy.key_exchange Toy.key_exchange_laws Toy.signing ToyPem.pem_keys
    0 5 (be_encode 16 21) "n1" 1000 Run.accept "7" (Some 1002) Run.client_session 11 (be_encode 16 22)
    (cd_message Run.client) Run.identity "n1" 1001 Run.accept Run.server_session Run.proof_fields (JObj Run.proof_fields));
    vm_compute; reflexivity.
Defined.

Lemma data_handshake_agreement_witness :
  exists m s s',
    @acceptDataInit Toy.hashing Toy.hkdf_toy Toy.key_exchange Toy.signing ToyPem.pem_keys 11 (be_encode 16 22)
      (cd_message Run.client) Run.identity "n1" 1001 = Ok (m, s') /\
    @deriveClientDataSession Toy.hashing Toy.hkdf_toy Toy.key_exchange Toy.signing ToyPem.pem_keys 0
      Run.client m "n1" "7" (Some 1002) = Ok s /\
    sessionId s = sessionId s' /\ sendKey s = receiveKey s' /\ receiveKey s = sendKey s'.
Proof.
  apply (@data_handshake_agreement Toy.hashing Toy.hkdf_toy Toy.key_exchange Toy.key_exchange_laws Toy.signing
    ToyPem.pem_keys Toy.signing_laws Toy.hashing_laws Toy.hkdf_laws 0 5 11 (be_encode 16 21) (be_encode 16 22) "n1" 1000 1001
    Run.identity 7 (Some 1002)).
  - discriminate.
  - rewrite be_encode_length. lia.
  - rewrite be_encode_length. lia.
  - split; reflexivity.
  - cbn. unfold DEFAULT_CLOCK_TOLERANCE_SEC, DEFAULT_MAX_AGE_SEC. lia.
Defined.
