(* ===== verification/Handshake.v ===== *)
(** * The tunnel handshake (tunnel/handshake.ts)

    A node opens an encrypted tunnel to the orchestrator: it signs its ephemeral
    key, the server answers with its own (signed when it has a signing key), and
    both derive the session.  Key pairs, nonces and clock readings are
    arguments. *)

From S2P Require Import Prelude Text Json JsonText Coerce Base64 Crypto CanonicalJson SecureChannel Messages.
Local Open Scope Z_scope.

Definition HANDSHAKE_PROTOCOL : string := "consensus-node-tunnel".
Definition HANDSHAKE_VERSION : Z := 1.
Definition HANDSHAKE_INIT : string := "handshake_init".
Definition HANDSHAKE_ACCEPT : string := "handshake_accept".
Definition HANDSHAKE_REJECT : string := "handshake_reject".

Definition assertString (v : option json) (field : string) : result string :=
  nonempty_text v (TypeError ("Handshake " +:+ field +:+ " must be a non-empty string")).

Definition decodeBase64 (s field : string) : result buffer :=
  let decoded := fromBase64 s in
  throw_if (bool_decide (decoded = [])) (TypeError ("Handshake " +:+ field +:+ " is empty"));;
  Ok decoded.

Definition assertTunnelMode (v : option json) : result unit :=
  throw_if (negb (match as_string v with Some s => bool_decide (s ∈ TUNNEL_MODES) | None => false end))
    (TypeError ("Unsupported tunnel mode: " +:+ show_value v)).

Definition assertHandshakeBase (value : json) (type : string) : result unit :=
  throw_if (negb (is_object value)) (TypeError "Handshake message must be an object");;
  throw_if (negb (bool_decide (get "type" value = Some (JStr type))))
    (TypeError ("Expected handshake type " +:+ type));;
  throw_if (negb (bool_decide (get "protocol" value = Some (JStr HANDSHAKE_PROTOCOL))))
    (TypeError ("Unsupported handshake protocol: " +:+ show_value (get "protocol" value)));;
  throw_if (negb (is_version (get "version" value) HANDSHAKE_VERSION))
    (TypeError ("Unsupported handshake version: " +:+ show_value (get "version" value)));;
  throw_if (negb (is_finite_number (get "timestamp" value)))
    (TypeError "Handshake timestamp must be a finite number").

Definition assertHandshakeInit (value : json) : result unit :=
  assertHandshakeBase value HANDSHAKE_INIT;;
  assertTunnelMode (get "mode" value);;
  ck ← assertString (get "client_public_key" value) "client_public_key";
  cn ← assertString (get "client_nonce" value) "client_nonce";
  assertString (get "node_public_key_pem" value) "node_public_key_pem";;
  assertString (get "signature" value) "signature";;
  decodeBase64 ck "client_public_key";;
  decodeBase64 cn "client_nonce";;
  Ok tt.

Definition assertHandshakeAccept (value : json) : result unit :=
  assertHandshakeBase value HANDSHAKE_ACCEPT;;
  sk ← assertString (get "server_public_key" value) "server_public_key";
  sn ← assertString (get "server_nonce" value) "server_nonce";
  assertString (get "session_id" value) "session_id";;
  decodeBase64 sk "server_public_key";;
  decodeBase64 sn "server_nonce";;
  match get "signature" value with
  | None => Ok tt
  | Some v => assertString (Some v) "signature";; Ok tt
  end.

Definition assertHandshakeReject (value : json) : result unit :=
  assertHandshakeBase value HANDSHAKE_REJECT;;
  assertString (get "code" value) "code";;
  assertString (get "message" value) "message";;
  Ok tt.

Definition assertHandshakeMessage (value : json) : result unit :=
  throw_if (negb (is_object value)) (TypeError "Handshake message must be an object");;
  if decide (get "type" value = Some (JStr HANDSHAKE_INIT)) then assertHandshakeInit value
  else if decide (get "type" value = Some (JStr HANDSHAKE_ACCEPT)) then assertHandshakeAccept value
  else if decide (get "type" value = Some (JStr HANDSHAKE_REJECT)) then assertHandshakeReject value
  else Throw (TypeError ("Unknown handshake message type: " +:+ show_value (get "type" value))).

Definition encodeHandshakeMessage (message : json) : buffer := utf8 (stringify message).

(** The payload is a buffer; a text payload is parsed as it is. *)
Definition decodeHandshakeMessage (payload : buffer + string) : result json :=
  let text := match payload with inl b => utf8_text b | inr s => s end in
  parsed ← JSON_parse text;
  assertHandshakeMessage parsed;;
  Ok parsed.

Definition createHandshakeReject (now : Z) (code message : string) : json :=
  obj [("type", Some (JStr HANDSHAKE_REJECT));
       ("protocol", Some (JStr HANDSHAKE_PROTOCOL));
       ("version", Some (JNum (num_of_Z HANDSHAKE_VERSION)));
       ("timestamp", Some (JNum (num_of_Z now)));
       ("code", Some (JStr code));
       ("message", Some (JStr message))].

Section Handshake.
Context `{Hashing} `{Hkdf} `{KeyExchange} `{PemKeys}.

Definition handshakeTranscriptHash (init : json) : result buffer :=
  assertHandshakeInit init;;
  Ok (sha256 (utf8 (signingPayload init))).

Record ClientHandshake := { ch_key : DhSecret; ch_nonce : buffer; ch_message : json }.

Record ServerHandshake := { sh_key : DhSecret; sh_nonce : buffer; sh_message : json; sh_session : SecureSession }.

Record ClientInput := {
  ci_mode : string; ci_identity : NodeIdentity;
  ci_nodeId : option string; ci_candidateId : option string; ci_releaseVersion : option string }.

Definition unsigned_init (key : DhSecret) (nonce : buffer) (now : Z) (input : ClientInput) : json :=
  obj [("type", Some (JStr HANDSHAKE_INIT));
       ("protocol", Some (JStr HANDSHAKE_PROTOCOL));
       ("version", Some (JNum (num_of_Z HANDSHAKE_VERSION)));
       ("mode", Some (JStr (ci_mode input)));
       ("timestamp", Some (JNum (num_of_Z now)));
       ("client_public_key", Some (JStr (toBase64 (dh_public key))));
       ("client_nonce", Some (JStr (toBase64 nonce)));
       ("node_public_key_pem", Some (JStr (publicKeyPem (ci_identity input))));
       ("node_id", JStr <$> ci_nodeId input);
       ("candidate_id", JStr <$> ci_candidateId input);
       ("release_version", JStr <$> ci_releaseVersion input)].

Definition createClientHandshake (key : DhSecret) (nonce : buffer) (now : Z) (input : ClientInput) : result ClientHandshake :=
  throw_if (negb (bool_decide (ci_mode input ∈ TUNNEL_MODES)))
    (RangeError ("Unsupported tunnel mode: " +:+ ci_mode input));;
  let unsigned := unsigned_init key nonce now input in
  signature ← signUtf8 (privateKeyPem (ci_identity input)) (signingPayload unsigned);
  Ok {| ch_key := key; ch_nonce := nonce; ch_message := with_signature unsigned signature |}.

(** The value of a field that an assertion has checked to be a string. *)
Definition text_of (k : string) (m : json) : string := default "" (as_string (get k m)).

Definition verifyClientHandshake (message : json) : result bool :=
  assertHandshakeInit message;;
  verifyUtf8 (text_of "node_public_key_pem" message) (signingPayload message) (text_of "signature" message).

Definition unsigned_accept (now : Z) (key : DhSecret) (nonce : buffer) (sid : string) : json :=
  obj [("type", Some (JStr HANDSHAKE_ACCEPT));
       ("protocol", Some (JStr HANDSHAKE_PROTOCOL));
       ("version", Some (JNum (num_of_Z HANDSHAKE_VERSION)));
       ("timestamp", Some (JNum (num_of_Z now)));
       ("server_public_key", Some (JStr (toBase64 (dh_public key))));
       ("server_nonce", Some (JStr (toBase64 nonce)));
       ("session_id", Some (JStr sid))].

(** An optional text that is present and not empty. *)
Definition truthy_text (s : option string) : option string :=
  match s with Some "" => None | _ => s end.

Definition acceptClientHandshake (key : DhSecret) (nonce : buffer) (now : Z) (init : json)
  (serverSigningKeyPem : option string) : result ServerHandshake :=
  ok ← verifyClientHandshake init;
  throw_if (negb ok) (PlainError "Client handshake signature verification failed");;
  peer ← decodeBase64 (text_of "client_public_key" init) "client_public_key";
  clientNonce ← decodeBase64 (text_of "client_nonce" init) "client_nonce";
  transcript ← handshakeTranscriptHash init;
  session ← deriveSecureSession
    {| di_role := Server; di_privateKey := key; di_peerPublicKeyRaw := peer; di_clientNonce := clientNonce;
       di_serverNonce := nonce; di_transcriptHash := Some transcript |};
  let unsigned := unsigned_accept now key nonce (sessionId session) in
  message ← match truthy_text serverSigningKeyPem with
            | Some pem => sg ← signUtf8 pem (signingPayload unsigned); Ok (with_signature unsigned sg)
            | None => Ok unsigned
            end;
  Ok {| sh_key := key; sh_nonce := nonce; sh_message := message; sh_session := session |}.

Definition deriveClientSessionFromAccept (client : ClientHandshake) (accept : json) (serverPublicKeyPem : option string)
  : result SecureSession :=
  assertHandshakeAccept accept;;
  match truthy_text serverPublicKeyPem with
  | None => Ok tt
  | Some pem =>
      throw_if (bool_decide (get "signature" accept = None))
        (PlainError "Server handshake signature is required when server public key pinning is configured");;
      verified ← verifyUtf8 pem (signingPayload accept) (text_of "signature" accept);
      throw_if (negb verified) (PlainError "Server handshake signature verification failed")
  end;;
  peer ← decodeBase64 (text_of "server_public_key" accept) "server_public_key";
  serverNonce ← decodeBase64 (text_of "server_nonce" accept) "server_nonce";
  transcript ← handshakeTranscriptHash (ch_message client);
  session ← deriveSecureSession
    {| di_role := Client; di_privateKey := ch_key client; di_peerPublicKeyRaw := peer; di_clientNonce := ch_nonce client;
       di_serverNonce := serverNonce; di_transcriptHash := Some transcript |};
  throw_if (negb (bool_decide (Some (JStr (sessionId session)) = get "session_id" accept)))
    (PlainError "Handshake session id mismatch");;
  Ok session.
End Handshake.

(** ** Lemmas *)

Lemma assertString_inv v f s : assertString v f = Ok s -> v = Some (JStr s) /\ s <> "".
Proof. apply nonempty_text_ok. Qed.

Lemma assertString_ok s f : s <> "" -> assertString (Some (JStr s)) f = Ok s.
Proof. intros Hs. unfold assertString. by rewrite (proj2 (nonempty_text_ok (Some (JStr s)) _ s)). Qed.

Lemma decodeBase64_inv s f b : decodeBase64 s f = Ok b -> b = fromBase64 s.
Proof. unfold decodeBase64. intros Hd. by inv_ok. Qed.

Lemma decodeBase64_ok b f : b <> [] -> decodeBase64 (toBase64 b) f = Ok b.
Proof. intros Hb. unfold decodeBase64. by rewrite fromBase64_toBase64, bool_decide_false. Qed.

(** Reads off the fields that an assertion has checked. *)
Ltac read_fields :=
  repeat match goal with Hs : assertString _ _ = Ok _ |- _ => apply assertString_inv in Hs as [? _] end;
  unfold text_of in *;
  repeat match goal with Hs : get _ _ = Some _ |- _ => rewrite Hs in * end;
  cbn [as_string default from_option id] in *.

Lemma truthy_text_inv o s : truthy_text o = Some s -> o = Some s.
Proof. destruct o as [[]|]; cbn; congruence. Qed.

Lemma truthy_text_some s : s <> "" -> truthy_text (Some s) = Some s.
Proof. by destruct s. Qed.

Lemma assertHandshakeInit_inv m : assertHandshakeInit m = Ok tt ->
  exists ck cn pem sg, get "client_public_key" m = Some (JStr ck) /\ get "client_nonce" m = Some (JStr cn) /\
    get "node_public_key_pem" m = Some (JStr pem) /\ get "signature" m = Some (JStr sg).
Proof. unfold assertHandshakeInit. intros Ha. inv_ok. read_fields. eauto 10. Qed.

(** What the session id of a derivation is the HKDF of. *)
Definition session_secret `{Hashing} `{KeyExchange} (i : DeriveInput) : option (buffer * buffer) :=
  k ← dh (di_privateKey i) (di_peerPublicKeyRaw i);
  Some (k, sha256 (di_clientNonce i ++ di_serverNonce i ++ default [] (di_transcriptHash i))).

(** The derivation of a client that accepted, and of a server that answered. *)
Definition client_derivation `{Hashing} `{PemKeys} `{KeyExchange} (c : ClientHandshake) (accept : json) : DeriveInput :=
  {| di_role := Client; di_privateKey := ch_key c; di_peerPublicKeyRaw := fromBase64 (text_of "server_public_key" accept);
     di_clientNonce := ch_nonce c; di_serverNonce := fromBase64 (text_of "server_nonce" accept);
     di_transcriptHash := Some (sha256 (utf8 (signingPayload (ch_message c)))) |}.
Definition server_derivation `{Hashing} `{PemKeys} `{KeyExchange} (key : DhSecret) (nonce : buffer) (init : json) : DeriveInput :=
  {| di_role := Server; di_privateKey := key; di_peerPublicKeyRaw := fromBase64 (text_of "client_public_key" init);
     di_clientNonce := fromBase64 (text_of "client_nonce" init); di_serverNonce := nonce;
     di_transcriptHash := Some (sha256 (utf8 (signingPayload init))) |}.

(** The two secrets differ and give the same session id. *)
Definition session_id_collision `{Hashing} `{Hkdf} `{KeyExchange} (i j : DeriveInput) : Prop :=
  exists k salt k' salt', session_secret i = Some (k, salt) /\ session_secret j = Some (k', salt') /\
    (k, salt) <> (k', salt') /\
    hkdf k salt (utf8 (CHANNEL_INFO +:+ ":session-id")) 16 = hkdf k' salt' (utf8 (CHANNEL_INFO +:+ ":session-id")) 16.

Lemma same_session_id `{Hashing} `{Hkdf} `{KeyExchange} i j s s' :
  di_role i = Client -> di_role j = Server ->
  deriveSecureSession i = Ok s -> deriveSecureSession j = Ok s' -> sessionId s = sessionId s' ->
  (sendKey s = receiveKey s' /\ receiveKey s = sendKey s') \/ session_id_collision i j.
Proof.
  unfold deriveSecureSession, session_id_collision, session_secret. intros -> -> Hi Hj. inv_ok.
  destruct (dh (di_privateKey i) _) as [k|]; [|done]. destruct (dh (di_privateKey j) _) as [k'|]; [|done].
  cbn [of_option] in *. simplify_eq. cbn [sessionId sendKey receiveKey mbind option_bind].
  intros E%hex_text_inj. set (sa := sha256 (di_clientNonce i ++ _)) in *. set (sb := sha256 (di_clientNonce j ++ _)) in *.
  match type of E with hkdf ?x _ _ _ = hkdf ?y _ _ _ =>
    destruct (decide ((x, sa) = (y, sb))) as [Eq|Hn]; [|right; by exists x, sa, y, sb] end.
  apply pair_equal_spec in Eq as [-> E2]. left. by rewrite E2.
Qed.

Section Lemmas.
Context `{Hashing} `{Hkdf} `{KeyExchange} `{PemKeys}.

(** The messages as objects. *)
Lemma init_wf key nonce now input sg : small_num now ->
  exists l, with_signature (unsigned_init key nonce now input) sg = JObj l /\ wf_json (JObj l) = true.
Proof.
  intros Hnow%canonical_small. destruct input as [mode id [?|] [?|] [?|]];
    (eexists; (split; [reflexivity|]); (apply wf_object_intro; [by repeat constructor|]);
      cbn -[num_of_Z]; repeat constructor; done).
Qed.

Lemma accept_wf now key nonce sid sg : small_num now ->
  exists l, match sg with Some sg => with_signature (unsigned_accept now key nonce sid) sg | None => unsigned_accept now key nonce sid end
    = JObj l /\ wf_json (JObj l) = true.
Proof.
  intros Hnow%canonical_small. destruct sg; (eexists; (split; [reflexivity|]); (apply wf_object_intro; [by repeat constructor|]);
    cbn -[num_of_Z]; repeat constructor; done).
Qed.

(** The properties of a signed init. *)
Lemma init_fields key nonce now input sg :
  let m := with_signature (unsigned_init key nonce now input) sg in
  assertHandshakeBase m HANDSHAKE_INIT = Ok tt /\
  get "mode" m = Some (JStr (ci_mode input)) /\
  get "client_public_key" m = Some (JStr (toBase64 (dh_public key))) /\
  get "client_nonce" m = Some (JStr (toBase64 nonce)) /\
  get "node_public_key_pem" m = Some (JStr (publicKeyPem (ci_identity input))) /\
  get "signature" m = Some (JStr sg) /\
  signingPayload m = signingPayload (unsigned_init key nonce now input).
Proof. unfold signingPayload. destruct input as [mode id [?|] [?|] [?|]]; done. Qed.

(** The properties of an answer, signed or not. *)
Lemma accept_fields now key nonce sid sg :
  let m := match sg with Some sg => with_signature (unsigned_accept now key nonce sid) sg | None => unsigned_accept now key nonce sid end in
  assertHandshakeBase m HANDSHAKE_ACCEPT = Ok tt /\
  get "server_public_key" m = Some (JStr (toBase64 (dh_public key))) /\
  get "server_nonce" m = Some (JStr (toBase64 nonce)) /\
  get "session_id" m = Some (JStr sid) /\
  get "signature" m = JStr <$> sg /\
  signingPayload m = signingPayload (unsigned_accept now key nonce sid).
Proof. unfold signingPayload. destruct sg; done. Qed.

Lemma deriveClient_inv client accept pin s : deriveClientSessionFromAccept client accept pin = Ok s ->
  get "session_id" accept = Some (JStr (sessionId s)) /\
  (exists spk sn, get "server_public_key" accept = Some (JStr spk) /\ get "server_nonce" accept = Some (JStr sn)) /\
  deriveSecureSession (client_derivation client accept) = Ok s /\
  forall pem, truthy_text pin = Some pem -> exists pk sg, pem_public pem = Some pk /\
      get "signature" accept = Some (JStr sg) /\ verify pk (utf8 (signingPayload accept)) (fromBase64 sg) = true.
Proof.
  unfold deriveClientSessionFromAccept, client_derivation. intros Hd. inv_ok. bool_solve.
  apply decodeBase64_inv in Hm1 as ->, Hm2 as ->.
  match goal with Hs : handshakeTranscriptHash _ = Ok _ |- _ => unfold handshakeTranscriptHash in Hs end. inv_ok.
  match goal with Hs : assertHandshakeAccept _ = Ok _ |- _ => unfold assertHandshakeAccept in Hs end. inv_ok.
  assert (Hsg : forall v, get "signature" accept = Some v -> exists sg, v = JStr sg).
  { intros v Ev. rewrite Ev in *. inv_ok. read_fields. simplify_eq. eauto. }
  read_fields. split; [done|]. split; [eauto|]. split; [done|].
  intros pem Hp. rewrite Hp in Hm0. inv_ok. bool_solve. unfold verifyUtf8 in *. inv_ok.
  destruct (get "signature" accept) as [v|] eqn:Esg; [|done]. destruct (Hsg v eq_refl) as [sg ->].
  eexists _, sg. split; [done|]. split; done.
Qed.

Lemma acceptClient_inv key nonce now init srv sh : acceptClientHandshake key nonce now init srv = Ok sh ->
  verifyClientHandshake init = Ok true /\
  deriveSecureSession (server_derivation key nonce init) = Ok (sh_session sh) /\
  exists sg, sh_message sh = match sg with Some sg => with_signature (unsigned_accept now key nonce (sessionId (sh_session sh))) sg
                               | None => unsigned_accept now key nonce (sessionId (sh_session sh)) end.
Proof.
  unfold acceptClientHandshake, server_derivation. intros Ha. inv_ok.
  match goal with Hs : negb ?b = false |- _ => destruct b; [clear Hs|done] end.
  match goal with Hs : handshakeTranscriptHash init = Ok _ |- _ => unfold handshakeTranscriptHash in Hs end. inv_ok.
  repeat match goal with Hs : decodeBase64 _ _ = Ok _ |- _ => apply decodeBase64_inv in Hs as -> end.
  split; [done|]. cbn [sh_session sh_message]. split; [done|].
  destruct (truthy_text srv); inv_ok; [by eexists (Some _)|by exists None].
Qed.
End Lemmas.


(** ** Properties *)

Section Properties.
Context `{Hashing} `{Hkdf} `{KeyExchange} `{PemKeys}.

(** A client that pins the server's key gets a session only from the holder of
    that key: the answer's signature over all its other properties verifies under
    the pinned key, and if the signed text is that of a server's answer to
    some init, the client used that server's public key and nonce, both ends have
    the same session id and crossed keys - or their two secrets are an
    HKDF collision. *)
Theorem handshake_pinned_server c la pem s key nonce now init srv sh :
  pem <> "" -> small_num now -> wf_json (JObj la) = true ->
  deriveClientSessionFromAccept c (JObj la) (Some pem) = Ok s ->
  acceptClientHandshake key nonce now init srv = Ok sh ->
  signingPayload (JObj la) = signingPayload (sh_message sh) ->
  (exists pk sg, pem_public pem = Some pk /\ get "signature" (JObj la) = Some (JStr sg) /\
     verify pk (utf8 (signingPayload (JObj la))) (fromBase64 sg) = true) /\
  get "server_public_key" (JObj la) = Some (JStr (toBase64 (dh_public key))) /\
  get "server_nonce" (JObj la) = Some (JStr (toBase64 nonce)) /\
  sessionId s = sessionId (sh_session sh) /\
  ((sendKey s = receiveKey (sh_session sh) /\ receiveKey s = sendKey (sh_session sh)) \/
   session_id_collision (client_derivation c (JObj la)) (server_derivation key nonce init)).
Proof.
  intros Hpem Hnow Hwf Hc Hs Hpay.
  apply deriveClient_inv in Hc as (Eid & (spk & sn & Esp & Esn) & Hd & Hv).
  apply acceptClient_inv in Hs as (_ & Hd' & sg & Em).
  destruct (accept_fields now key nonce (sessionId (sh_session sh)) sg) as (_ & Fpk & Fn & Fid & _ & _).
  rewrite <- Em in *.
  destruct (accept_wf now key nonce (sessionId (sh_session sh)) sg Hnow) as (lm & Elm & Hwm). rewrite <- Em in Elm. rewrite Elm in *.
  pose proof (payload_fields la lm "server_public_key" Hwf Hwm Hpay ltac:(done) ltac:(done)) as E1.
  pose proof (payload_fields la lm "server_nonce" Hwf Hwm Hpay ltac:(done) ltac:(done)) as E2.
  pose proof (payload_fields la lm "session_id" Hwf Hwm Hpay ltac:(done) ltac:(done)) as E3.
  cbn [get] in *. rewrite Esp, Fpk in E1. rewrite Esn, Fn in E2. rewrite Eid, Fid in E3.
  injection E1 as ->. injection E2 as ->. injection E3 as E3.
  split; [by apply Hv; rewrite truthy_text_some|]. split; [done|]. split; [done|]. split; [done|].
  by eapply same_session_id.
Qed.

Context `{!KeyExchangeLaws} `{!SigningLaws} `{!HkdfLaws}.

(** An honest init passes the server's checks. *)
Lemma init_verifies key nonce now input sk :
  ci_mode input ∈ TUNNEL_MODES -> nonce <> [] -> publicKeyPem (ci_identity input) <> "" ->
  key_pair (privateKeyPem (ci_identity input)) (publicKeyPem (ci_identity input)) sk ->
  exists c, createClientHandshake key nonce now input = Ok c /\ ch_key c = key /\ ch_nonce c = nonce /\
    get "client_public_key" (ch_message c) = Some (JStr (toBase64 (dh_public key))) /\
    get "client_nonce" (ch_message c) = Some (JStr (toBase64 nonce)) /\
    assertHandshakeInit (ch_message c) = Ok tt /\ verifyClientHandshake (ch_message c) = Ok true.
Proof.
  intros Hm Hn Hp [Hsk Hpk]. unfold createClientHandshake. rewrite bool_decide_true by done.
  cbn [throw_if negb mbind result_bind]. rewrite (signUtf8_total _ _ sk) by done. cbn [mbind result_bind].
  eexists. split; [reflexivity|]. cbn [ch_key ch_nonce ch_message].
  set (sg := toBase64 _). destruct (init_fields key nonce now input sg) as (Fb & Fm & Fk & Fn & Fp & Fs & Fpay).
  set (m := with_signature _ sg) in *.
  assert (Ha : assertHandshakeInit m = Ok tt).
  { unfold assertHandshakeInit. rewrite Fb, Fm, Fk, Fn, Fp, Fs. unfold assertTunnelMode. cbn [as_string].
    rewrite bool_decide_true by done. cbn [negb throw_if mbind result_bind].
    rewrite !assertString_ok by (done || apply signature_nonempty || (apply toBase64_nonempty; done || apply dh_public_nonempty)).
    cbn [mbind result_bind]. by rewrite !decodeBase64_ok by (done || apply dh_public_nonempty). }
  split_and!; try done. unfold verifyClientHandshake. rewrite Ha. unfold text_of, verifyUtf8. rewrite Fp, Fs, Fpay.
  cbn [mbind result_bind as_string default from_option id]. rewrite Hpk. cbn [of_option mbind result_bind].
  subst sg. by rewrite fromBase64_toBase64, verify_sign.
Qed.

(** Server keys: none, or a signing key and the public key the client pins. *)
Definition server_keys (srv : option NodeIdentity) : Prop :=
  match srv with
  | None => True
  | Some id => privateKeyPem id <> "" /\ exists sk, key_pair (privateKeyPem id) (publicKeyPem id) sk
  end.

(** The answer of a server passes the client's checks. *)
Lemma answer_accepted now key nonce sid srv :
  nonce <> [] -> sid <> "" -> server_keys srv ->
  exists m, match truthy_text (privateKeyPem <$> srv) with
            | Some pem => sg ← signUtf8 pem (signingPayload (unsigned_accept now key nonce sid));
                          Ok (with_signature (unsigned_accept now key nonce sid) sg)
            | None => Ok (unsigned_accept now key nonce sid)
            end = Ok m /\ assertHandshakeAccept m = Ok tt /\
    text_of "server_public_key" m = toBase64 (dh_public key) /\ text_of "server_nonce" m = toBase64 nonce /\
    get "session_id" m = Some (JStr sid) /\
    forall pem, truthy_text (publicKeyPem <$> srv) = Some pem ->
      get "signature" m <> None /\ verifyUtf8 pem (signingPayload m) (text_of "signature" m) = Ok true.
Proof.
  intros Hn Hs Hk.
  assert (Ha : forall sg, sg <> Some "" ->
    let m := match sg with Some sg => with_signature (unsigned_accept now key nonce sid) sg | None => unsigned_accept now key nonce sid end in
    assertHandshakeAccept m = Ok tt).
  { intros sg Hsg m. destruct (accept_fields now key nonce sid sg) as (Fb & Fk & Fn & Fi & Fs & _). fold m in Fb, Fk, Fn, Fi, Fs.
    unfold assertHandshakeAccept. rewrite Fb, Fk, Fn, Fi, Fs.
    rewrite !assertString_ok by (done || (apply toBase64_nonempty; done || apply dh_public_nonempty)).
    cbn [mbind result_bind]. rewrite !decodeBase64_ok by (done || apply dh_public_nonempty). cbn [mbind result_bind].
    destruct sg as [sg|]; [|done]. cbn [fmap option_fmap option_map]. rewrite assertString_ok by congruence. done. }
  destruct srv as [ident|]; cbn [fmap option_fmap option_map].
  - destruct Hk as [Hp [sk [Hsk Hpk]]]. rewrite truthy_text_some by done. rewrite (signUtf8_total _ _ sk) by done.
    set (sg := toBase64 _). eexists. split; [reflexivity|].
    destruct (accept_fields now key nonce sid (Some sg)) as (_ & Fk & Fn & Fi & Fs & Fp).
    split; [apply (Ha (Some sg)); intros [= E]; by apply (signature_nonempty sk _ E)|].
    unfold text_of. rewrite Fk, Fn, Fi, Fs, Fp. split_and!; [done..|].
    intros pem Ht. apply truthy_text_inv in Ht as [= <-].
    split; [done|]. cbn [fmap option_fmap option_map as_string default from_option id]. unfold verifyUtf8. rewrite Hpk.
    cbn [of_option mbind result_bind]. subst sg. by rewrite fromBase64_toBase64, verify_sign.
  - eexists. split; [reflexivity|]. split; [by apply (Ha None)|]. by split_and!.
Qed.

(** An honest run, with what each end reads of the other's message. *)
Lemma honest_tunnel_run a key cn sn t0 t1 input sk srv :
  ci_mode input ∈ TUNNEL_MODES -> (16 <= length cn)%nat -> (16 <= length sn)%nat ->
  publicKeyPem (ci_identity input) <> "" ->
  key_pair (privateKeyPem (ci_identity input)) (publicKeyPem (ci_identity input)) sk -> server_keys srv ->
  exists c sh s,
    createClientHandshake a cn t0 input = Ok c /\ assertHandshakeInit (ch_message c) = Ok tt /\
    acceptClientHandshake key sn t1 (ch_message c) (privateKeyPem <$> srv) = Ok sh /\
    assertHandshakeAccept (sh_message sh) = Ok tt /\
    deriveClientSessionFromAccept c (sh_message sh) (publicKeyPem <$> srv) = Ok s /\
    length (sendKey s) = KEY_BYTES /\
    sessionId s = sessionId (sh_session sh) /\ sendKey s = receiveKey (sh_session sh) /\
    receiveKey s = sendKey (sh_session sh).
Proof.
  intros Hm Hcn Hsn Hp Hk Hsrv.
  assert (cn <> []) by (by destruct cn; cbn in Hcn; [lia|]).
  assert (sn <> []) by (by destruct sn; cbn in Hsn; [lia|]).
  destruct (init_verifies a cn t0 input sk) as (c & Hc & Eck & Ecn & Fk & Fn & Ha & Hv); [done..|].
  set (th := sha256 (utf8 (signingPayload (ch_message c)))).
  destruct (derive_agree Client Server a key cn sn (Some th)) as (s1 & s2 & E1 & E2 & Hid & Hsr & Hrs); [done..|].
  destruct (answer_accepted t1 key sn (sessionId s2) srv) as (m & Em & Hacc & Gk & Gn & Gi & Gs);
    [done|by eapply derive_session_id|done|].
  exists c, {| sh_key := key; sh_nonce := sn; sh_message := m; sh_session := s2 |}, s1.
  assert (Ht : handshakeTranscriptHash (ch_message c) = Ok th) by (unfold handshakeTranscriptHash; by rewrite Ha).
  split; [done|]. split; [done|]. split; [|split; [done|split; [|split; [by eapply derive_key_length|done]]]].
  - unfold acceptClientHandshake. rewrite Hv. cbn [mbind result_bind negb throw_if]. unfold text_of. rewrite Fk, Fn.
    cbn [as_string default from_option id]. rewrite !decodeBase64_ok by (done || apply dh_public_nonempty).
    cbn [mbind result_bind]. rewrite Ht. cbn [mbind result_bind]. rewrite E2. cbn [mbind result_bind]. by rewrite Em.
  - cbn [sh_message]. unfold deriveClientSessionFromAccept. rewrite Hacc. cbn [mbind result_bind].
    replace (match truthy_text (publicKeyPem <$> srv) with Some _ => _ | None => _ end) with (Ok ()).
    2: { destruct (truthy_text (publicKeyPem <$> srv)) as [pem|]; [|done]. destruct (Gs pem eq_refl) as [G1 G2].
         rewrite bool_decide_false, G2 by done. done. }
    cbn [mbind result_bind]. rewrite Gk, Gn, !decodeBase64_ok by (done || apply dh_public_nonempty).
    cbn [mbind result_bind]. rewrite Ht, Eck, Ecn. cbn [mbind result_bind]. rewrite E1. cbn [mbind result_bind].
    by rewrite Gi, bool_decide_true by (by rewrite Hid).
Qed.

(** An honest run establishes one session: whatever the node's optional ids,
    with nonces of at least 16 bytes and, when the server has a signing key, the
    client pinning the matching public key, the node's init is accepted and the
    client derives a session with the server's session id and crossed keys. *)
Theorem handshake_agreement a key cn sn t0 t1 input sk srv :
  ci_mode input ∈ TUNNEL_MODES -> (16 <= length cn)%nat -> (16 <= length sn)%nat ->
  publicKeyPem (ci_identity input) <> "" ->
  key_pair (privateKeyPem (ci_identity input)) (publicKeyPem (ci_identity input)) sk -> server_keys srv ->
  exists c sh s,
    createClientHandshake a cn t0 input = Ok c /\
    acceptClientHandshake key sn t1 (ch_message c) (privateKeyPem <$> srv) = Ok sh /\
    deriveClientSessionFromAccept c (sh_message sh) (publicKeyPem <$> srv) = Ok s /\
    sessionId s = sessionId (sh_session sh) /\ sendKey s = receiveKey (sh_session sh) /\
    receiveKey s = sendKey (sh_session sh).
Proof.
  intros Hm Hcn Hsn Hp Hk Hsrv.
  destruct (honest_tunnel_run a key cn sn t0 t1 input sk srv) as (c & sh & s & Ec & _ & Es & _ & Ed & _ & Ek); [done..|].
  by exists c, sh, s.
Qed.
End Properties.

Module Run.
Import Toy ToyPem.
Definition node : NodeIdentity := {| privateKeyPem := "7"; publicKeyPem := "7" |}.
Definition server : NodeIdentity := {| privateKeyPem := "9"; publicKeyPem := "9" |}.
Definition input : ClientInput :=
  {| ci_mode := "control"; ci_identity := node; ci_nodeId := Some "n1"; ci_candidateId := None; ci_releaseVersion := None |}.
Definition no_session : SecureSession := {| sessionId := ""; sendKey := []; receiveKey := [] |}.
Definition no_client : @ClientHandshake key_exchange := @Build_ClientHandshake key_exchange 0 [] JNull.
Definition client_result : result (@ClientHandshake key_exchange) :=
  @createClientHandshake key_exchange signing pem_keys 5 (be_encode 16 21) 1000 input.
Definition client : @ClientHandshake key_exchange := ok_or no_client client_result.
Definition no_answer : @ServerHandshake key_exchange := @Build_ServerHandshake key_exchange 0 [] JNull no_session.
Definition answer_result : result (@ServerHandshake key_exchange) :=
  @acceptClientHandshake hashing hkdf_toy key_exchange signing pem_keys 11 (be_encode 16 22) 1001 (ch_message client) (Some "9").
Definition answer : @ServerHandshake key_exchange := ok_or no_answer answer_result.
Definition fields (v : json) : list (string * json) := match v with JObj l => l | _ => [] end.
Definition answer_fields : list (string * json) := fields (sh_message answer).
Definition session_result : result SecureSession :=
  @deriveClientSessionFromAccept hashing hkdf_toy key_exchange signing pem_keys client (JObj answer_fields) (Some "9").
Definition session : SecureSession := ok_or no_session session_result.
Strategy expand [client client_result answer answer_result session session_result].
End Run.

Lemma handshake_pinned_server_witness :
  (exists pk sg, @pem_public Toy.signing ToyPem.pem_keys "9" = Some pk /\
     get "signature" (JObj Run.answer_fields) = Some (JStr sg) /\
     @verify Toy.signing pk (utf8 (signingPayload (JObj Run.answer_fields))) (fromBase64 sg) = true) /\
  get "server_public_key" (JObj Run.answer_fields) = Some (JStr (toBase64 (@dh_public Toy.key_exchange 11))) /\
  get "server_nonce" (JObj Run.answer_fields) = Some (JStr (toBase64 (be_encode 16 22))) /\
  sessionId Run.session = sessionId (sh_session Run.answer) /\
  ((sendKey Run.session = receiveKey (sh_session Run.answer) /\ receiveKey Run.session = sendKey (sh_session Run.answer)) \/
   @session_id_collision Toy.hashing Toy.hkdf_toy Toy.key_exchange
     (@client_derivation Toy.hashing Toy.signing ToyPem.pem_keys Toy.key_exchange Run.client (JObj Run.answer_fields))
     (@server_derivation Toy.hashing Toy.signing ToyPem.pem_keys Toy.key_exchange 11 (be_encode 16 22) (ch_message Run.client))).
Proof.
  assert (Hs : Run.session_result = Ok Run.session) by (unfold Run.session; apply ok_or_ok; vm_compute; reflexivity).
  assert (Ha : Run.answer_result = Ok Run.answer) by (unfold Run.answer; apply ok_or_ok; vm_compute; reflexivity).
  unfold Run.session_result in Hs. unfold Run.answer_result in Ha.
  apply (@handshake_pinned_server Toy.hashing Toy.hkdf_toy Toy.key_exchange Toy.signing ToyPem.pem_keys
    Run.client Run.answer_fields "9" Run.session 11 (be_encode 16 22) 1001 (ch_message Run.client) (Some "9") Run.answer).
  - discriminate.
  - reflexivity.
  - vm_compute. reflexivity.
  - exact Hs.
  - exact Ha.
  - vm_compute. reflexivity.
Defined.

Lemma handshake_agreement_witness :
  exists c sh s,
    @createClientHandshake Toy.key_exchange Toy.signing ToyPem.pem_keys 5 (be_encode 16 21) 1000 Run.input = Ok c /\
    @acceptClientHandshake Toy.hashing Toy.hkdf_toy Toy.key_exchange Toy.signing ToyPem.pem_keys 11 (be_encode 16 22) 1001
      (ch_message c) (Some "9") = Ok sh /\
    @deriveClientSessionFromAccept Toy.hashing Toy.hkdf_toy Toy.key_exchange Toy.signing ToyPem.pem_keys c (sh_message sh) (Some "9") = Ok s /\
    sessionId s = sessionId (sh_session sh) /\ sendKey s = receiveKey (sh_session sh) /\
    receiveKey s = sendKey (sh_session sh).
Proof.
  apply (@handshake_agreement Toy.hashing Toy.hkdf_toy Toy.key_exchange Toy.signing ToyPem.pem_keys Toy.key_exchange_laws
    Toy.signing_laws Toy.hkdf_laws 5 11 (be_encode 16 21) (be_encode 16 22) 1000 1001 Run.input 7 (Some Run.server)).
  - right. left.
  - rewrite be_encode_length. lia.
  - rewrite be_encode_length. lia.
  - discriminate.
  - split; reflexivity.
  - split; [discriminate|]. exists 9. split; reflexivity.
Defined.
