(* ===== verification/Effect.v ===== *)
(** * Stateful code that can throw

    A method of an object is a function from the object's state to its new state
    and a value or an exception: what it changed before it threw stays changed. *)

From S2P Require Import Prelude.

Definition eff (S A : Type) : Type := S -> S * result A.

#[export] Instance eff_ret {S} : MRet (eff S) := fun A a s => (s, Ok a).
#[export] Instance eff_bind {S} : MBind (eff S) := fun A B f m s =>
  match m s with (s', Ok a) => f a s' | (s', Throw e) => (s', Throw e) end.

Section Operations.
Context {S : Type}.

Definition throw {A} (e : exn) : eff S A := fun s => (s, Throw e).
Definition lift {A} (r : result A) : eff S A := fun s => (s, r).
Definition gets {A} (f : S -> A) : eff S A := fun s => (s, Ok (f s)).
Definition modify (f : S -> S) : eff S unit := fun s => (f s, Ok tt).
Definition try_catch {A} (m : eff S A) (h : exn -> eff S A) : eff S A := fun s =>
  match m s with (s', Ok a) => (s', Ok a) | (s', Throw e) => h e s' end.
(** [void m().catch(() => undefined)]: only the state change matters. *)
Definition exec {A} (m : eff S A) (s : S) : S := (m s).1.
End Operations.

(** A predicate on states that an operation keeps, whatever it returns. *)
Definition preserves {S A} (P : S -> Prop) (m : eff S A) : Prop := forall s, P s -> P (m s).1.

Section Preservation.
Context {S : Type} (P : S -> Prop).

Lemma preserves_ret {A} (a : A) : preserves P (mret a).
Proof. by intros s. Qed.
Lemma preserves_lift {A} (r : result A) : preserves P (lift r).
Proof. by intros s. Qed.
Lemma preserves_throw {A} e : preserves P (@throw S A e).
Proof. by intros s. Qed.
Lemma preserves_gets {A} (f : S -> A) : preserves P (gets f).
Proof. by intros s. Qed.
Lemma preserves_modify f : (forall s, P s -> P (f s)) -> preserves P (modify f).
Proof. intros Hf s. apply Hf. Qed.

Lemma preserves_bind {A B} (m : eff S A) (k : A -> eff S B) :
  preserves P m -> (forall a, preserves P (k a)) -> preserves P (m ≫= k).
Proof.
  intros Hm Hk s Hs. unfold mbind, eff_bind. specialize (Hm s Hs). destruct (m s) as [s' [a|e]]; [by apply Hk|done].
Qed.

Lemma preserves_catch {A} (m : eff S A) h : preserves P m -> (forall e, preserves P (h e)) -> preserves P (try_catch m h).
Proof.
  intros Hm Hh s Hs. unfold try_catch. specialize (Hm s Hs). destruct (m s) as [s' [a|e]]; [done|by apply Hh].
Qed.

Lemma preserves_fold {E} (step : E -> S -> S) (l : list E) s :
  (forall e s, P s -> P (step e s)) -> P s -> P (fold_left (fun s e => step e s) l s).
Proof. intros Hs. revert s. induction l as [|e l IH]; intros s H; [done|]. cbn. by apply IH, Hs. Qed.
End Preservation.

(** Walks down a method body; leaves its state changes and its calls as goals. *)
Ltac preserve :=
  repeat lazymatch goal with
  | |- preserves _ (mret _) => apply preserves_ret
  | |- preserves _ (lift _) => apply preserves_lift
  | |- preserves _ (throw _) => apply preserves_throw
  | |- preserves _ (gets _) => apply preserves_gets
  | |- preserves _ (modify _) => apply preserves_modify; intros ? ?
  | |- preserves _ (mbind _ _) => apply preserves_bind; [|intros ?]
  | |- preserves _ (try_catch _ _) => apply preserves_catch; [|intros ?]
  | |- preserves _ (match ?x with _ => _ end) => destruct x eqn:?
  end.

(** What a stretch that returns leads to. *)
Lemma bind_run {S A B} (m : eff S A) (k : A -> eff S B) s s' a : m s = (s', Ok a) -> (m ≫= k) s = k a s'.
Proof. intros E. unfold mbind, eff_bind. by rewrite E. Qed.
