(* ===== verification/TunnelClient.v ===== *)
(** * The tunnel client (tunnel/tunnel-client.ts)

    A client of an encrypted tunnel: it numbers and seals what it sends, checks
    the order of what it receives, and matches replies with pending requests.
    The event loop is a sequence of [event]s; each runs one stretch of code
    between two awaits.  Sockets, random nonces and clocks are in the events.
    Promises and timers are numbered; every [resolve] or [reject] is logged. *)

From S2P Require Import Prelude Effect Text Json JsonText Coerce Base64 Frames Crypto SecureChannel Messages.
Local Open Scope Z_scope.

(** One call of [resolve] or [reject]. *)
Inductive outcome :=
| Resolved (message : json)
| Rejected (error : exn).

(** The promise that [request] creates; [consumed] once it is returned to the
    caller, [settled] is the list of settlements in order. *)
Record RequestPromise := { rp_id : string; rp_consumed : bool; rp_settled : list outcome }.

Inductive SocketData :=
| Bytes (b : buffer)
| TextData (s : string)
| OtherData (type : string).

(** [sendSequence] and [lastReceiveSequence], and what has been sealed and accepted. *)
Record Wire := { sendSequence : Z; lastReceiveSequence : Z; sent : list (Z * buffer); accepted : list (Z * buffer) }.

(** [pending], the timers that are set, and every promise created. *)
Record Requests := { pending : list (string * nat); timers : list nat; promises : list RequestPromise }.

(** Handlers carry the position at which they were added, as an iteration over a
    [Set] sees them; [deliveries] are the [for ... await] loops in progress, with
    the position reached. *)
Record Listeners := {
  handlers : list (nat * nat); nextPosition : nat; closeHandlers : list nat;
  deliveries : list (json * nat); delivered : list (nat * json); closeCalls : list (nat * exn) }.

(** [ws]: [None], or whether [readyState] is [OPEN]. *)
Record Client := { ws : option bool; wire : Wire; requests : Requests; listeners : Listeners }.

Definition new_client : Client := {|
  ws := None;
  wire := {| sendSequence := 0; lastReceiveSequence := -1; sent := []; accepted := [] |};
  requests := {| pending := []; timers := []; promises := [] |};
  listeners := {| handlers := []; nextPosition := 1; closeHandlers := []; deliveries := []; delivered := []; closeCalls := [] |} |}.

Definition set_ws (w : option bool) (c : Client) : Client :=
  {| ws := w; wire := wire c; requests := requests c; listeners := listeners c |}.
Definition on_wire (f : Wire -> Wire) (c : Client) : Client :=
  {| ws := ws c; wire := f (wire c); requests := requests c; listeners := listeners c |}.
Definition on_requests (f : Requests -> Requests) (c : Client) : Client :=
  {| ws := ws c; wire := wire c; requests := f (requests c); listeners := listeners c |}.
Definition on_listeners (f : Listeners -> Listeners) (c : Client) : Client :=
  {| ws := ws c; wire := wire c; requests := requests c; listeners := f (listeners c) |}.

(** ** Pending requests *)

(** A call of a promise's [resolve] or [reject]. *)
Definition settle (n : nat) (o : outcome) (l : list RequestPromise) : list RequestPromise :=
  alter (fun p => {| rp_id := rp_id p; rp_consumed := rp_consumed p; rp_settled := rp_settled p ++ [o] |}) n l.

(** [new Promise(...)] of [request]: the timer is set and the entry stored. *)
Definition open_request (id : string) (r : Requests) : Requests :=
  let n := length (promises r) in
  {| pending := put id n (pending r); timers := n :: timers r;
     promises := promises r ++ [{| rp_id := id; rp_consumed := false; rp_settled := [] |}] |}.

Definition consume_request (n : nat) (r : Requests) : Requests :=
  {| pending := pending r; timers := timers r;
     promises := alter (fun p => {| rp_id := rp_id p; rp_consumed := true; rp_settled := rp_settled p |}) n (promises r) |}.

Definition timeout_error (id : string) : exn := PlainError ("Tunnel request timed out: " +:+ id).

(** The timer of the n-th request fires. *)
Definition fire_timer (n : nat) (r : Requests) : Requests :=
  if decide (n ∈ timers r) then
    match promises r !! n with
    | Some p => {| pending := remove (rp_id p) (pending r); timers := filter (fun m => m <> n) (timers r);
                   promises := settle n (Rejected (timeout_error (rp_id p))) (promises r) |}
    | None => r
    end
  else r.

(** An entry leaves [pending]: its timer is cleared and its promise settled. *)
Definition close_request (id : string) (n : nat) (o : outcome) (r : Requests) : Requests :=
  {| pending := remove id (pending r); timers := filter (fun m => m <> n) (timers r);
     promises := settle n o (promises r) |}.

Definition rejectAll (error : exn) (r : Requests) : Requests :=
  fold_left (fun r e => close_request e.1 e.2 (Rejected error) r) (pending r) r.

(** [new Error(message.message)]. *)
Definition error_of_message (message : json) : exn :=
  PlainError (match get "message" message with None => "" | Some v => js_string v end).

Definition resolvePending (message : json) (r : Requests) : Requests :=
  match as_string (get "reply_to" message) with
  | None | Some "" => r
  | Some replyTo =>
      match assoc replyTo (pending r) with
      | None => r
      | Some n =>
          close_request replyTo n
            (if decide (get "type" message = Some (JStr MESSAGE_TYPE.ERROR))
             then Rejected (error_of_message message) else Resolved message) r
      end
  end.

(** ** Sending *)

Section Client.
Context `{Aead}.
Context (sendKey receiveKey : buffer).

Definition requireOpenSocket : eff Client unit :=
  w ← gets ws;
  lift (throw_if (negb (bool_decide (w = Some true))) (PlainError "Tunnel is not connected")).

Definition nextSequence : eff Client Z :=
  n ← gets (fun c => sendSequence (wire c));
  modify (on_wire (fun w => {| sendSequence := sendSequence w + 1; lastReceiveSequence := lastReceiveSequence w;
                               sent := sent w; accepted := accepted w |}));;
  mret n.

(** [ws.send(raw)]. *)
Definition transmit (n : Z) (raw : buffer) : eff Client unit :=
  modify (on_wire (fun w => {| sendSequence := sendSequence w; lastReceiveSequence := lastReceiveSequence w;
                               sent := sent w ++ [(n, raw)]; accepted := accepted w |})).

Definition send (nonce : buffer) (message : json) (frameType : Z) : eff Client unit :=
  requireOpenSocket;;
  let payload := encodeMessage message in
  n ← nextSequence;
  raw ← lift (sealFrame nonce sendKey frameType n payload);
  transmit n raw.

(** [request]: the number of the promise is returned when [send] did not throw.
    [uuid] is the random id of a message that has none. *)
Definition request (nonce : buffer) (uuid : string) (message : json) : eff Client nat :=
  let id := default uuid (as_string (get "id" message)) in
  n ← gets (fun c => length (promises (requests c)));
  modify (on_requests (open_request id));;
  send nonce (match message with JObj l => JObj (set_key "id" (JStr id) l) | v => v end) FRAME_TYPE.DATA;;
  modify (on_requests (consume_request n));;
  mret n.

(** ** Closing *)

Definition close (reason : string) : eff Client unit :=
  modify (on_requests (rejectAll (PlainError ("Tunnel closed: " +:+ reason))));;
  modify (set_ws None).

Definition handleClose (reason : string) : eff Client unit :=
  let error := PlainError ("Tunnel connection closed: " +:+ reason) in
  modify (on_requests (rejectAll error));;
  modify (set_ws None);;
  modify (on_listeners (fun l => {| handlers := handlers l; nextPosition := nextPosition l; closeHandlers := closeHandlers l;
    deliveries := deliveries l; delivered := delivered l;
    closeCalls := closeCalls l ++ map (fun h => (h, error)) (closeHandlers l) |})).

(** ** Connecting *)

Record TunnelClientOptions := {
  op_mode : string; op_nodeId : option string; op_candidateId : option string;
  op_version : option string; op_publicKeyPem : option string }.

Definition hello_message (clock : Z) (o : TunnelClientOptions) : TunnelMessage :=
  Hello {| m_id := None; timestamp := nowSeconds clock |} (op_mode o) (op_nodeId o) (op_candidateId o)
    (op_publicKeyPem o) (op_version o).

(** The rest of [connect] once the socket has opened. *)
Definition opened (nonce : buffer) (clock : Z) (o : TunnelClientOptions) : eff Client unit :=
  send nonce (message_json (hello_message clock o)) FRAME_TYPE.DATA.

(** [connect] up to [waitForOpen]; [socket_open] is the state of the socket that
    the options carry or that is created. *)
Definition connect (socket_open : bool) (nonce : buffer) (clock : Z) (o : TunnelClientOptions) : eff Client unit :=
  w ← gets ws;
  if bool_decide (w = Some true) then mret tt
  else
    modify (set_ws (Some socket_open));;
    if socket_open then opened nonce clock o else mret tt.

(** ** Receiving *)

Definition toBuffer (data : SocketData) : result buffer :=
  match data with
  | Bytes b => Ok b
  | TextData s => Ok (fromBase64 s)
  | OtherData type => Throw (TypeError ("Unsupported WebSocket message payload: " +:+ type))
  end.

Definition pongMessage (clock : Z) : json :=
  message_json (Pong {| m_id := None; timestamp := nowSeconds clock |} None).

Definition pingMessage (clock : Z) (uuid : string) : json :=
  message_json (Ping {| m_id := Some uuid; timestamp := nowSeconds clock |}).

Definition ReplayError : exn := PlainError "Replay or out-of-order tunnel frame rejected".

Definition accept_sequence (n : Z) (raw : buffer) : eff Client unit :=
  modify (on_wire (fun w => {| sendSequence := sendSequence w; lastReceiveSequence := n; sent := sent w;
                               accepted := accepted w ++ [(n, raw)] |})).

(** The [for] loop over the handlers starts. *)
Definition start_delivery (message : json) : eff Client unit :=
  modify (on_listeners (fun l => {| handlers := handlers l; nextPosition := nextPosition l; closeHandlers := closeHandlers l;
    deliveries := deliveries l ++ [(message, O)]; delivered := delivered l; closeCalls := closeCalls l |})).

Definition handleRawMessage (nonce : buffer) (clock : Z) (data : SocketData) : eff Client unit :=
  raw ← lift (toBuffer data);
  sequence ← lift (peekFrameSequence raw);
  last ← gets (fun c => lastReceiveSequence (wire c));
  lift (throw_if (sequence <=? last) ReplayError);;
  opened ← lift (openFrame receiveKey raw);
  let '(frame, plaintext) := opened in
  accept_sequence (fp_sequence frame) raw;;
  if fp_type frame =? FRAME_TYPE.PING then send nonce (pongMessage clock) FRAME_TYPE.PONG
  else if fp_type frame =? FRAME_TYPE.PONG then mret tt
  else if fp_type frame =? FRAME_TYPE.CLOSE then close "remote close"
  else
    message ← lift (decodeMessage plaintext);
    modify (on_requests (resolvePending message));;
    start_delivery message.

(** The [catch] of the message listener. *)
Definition report_error (nonce : buffer) (clock : Z) (e : exn) : eff Client unit :=
  try_catch (send nonce (createErrorMessage clock None "decode_failed" (errorMessage e)) FRAME_TYPE.DATA) (fun _ => mret tt).

Definition onMessageEvent (nonce1 nonce2 : buffer) (clock : Z) (data : SocketData) : eff Client unit :=
  try_catch (handleRawMessage nonce1 clock data) (report_error nonce2 clock).

(** One iteration of the i-th handler loop: the next handler is called; [outcome]
    is what its call throws or its promise is rejected with. *)
Definition next_handler (cursor : nat) (l : list (nat * nat)) : option (nat * nat) :=
  head (filter (fun h => (cursor < h.1)%nat) l).

Definition deliver (i : nat) (outcome : result unit) (nonce : buffer) (clock : Z) : eff Client unit :=
  ls ← gets listeners;
  match deliveries ls !! i with
  | None => mret tt
  | Some (message, cursor) =>
      match next_handler cursor (handlers ls) with
      | None =>
          modify (on_listeners (fun l => {| handlers := handlers l; nextPosition := nextPosition l;
            closeHandlers := closeHandlers l; deliveries := delete i (deliveries l); delivered := delivered l;
            closeCalls := closeCalls l |}))
      | Some (position, h) =>
          modify (on_listeners (fun l => {| handlers := handlers l; nextPosition := nextPosition l;
            closeHandlers := closeHandlers l;
            deliveries := match outcome with Ok _ => <[i := (message, position)]> (deliveries l) | Throw _ => delete i (deliveries l) end;
            delivered := delivered l ++ [(h, message)]; closeCalls := closeCalls l |}));;
          match outcome with Ok _ => mret tt | Throw e => report_error nonce clock e end
      end
  end.

(** ** Handlers *)

Definition onMessage (h : nat) : eff Client unit :=
  modify (on_listeners (fun l =>
    if decide (h ∈ (handlers l).*2) then l
    else {| handlers := handlers l ++ [(nextPosition l, h)]; nextPosition := S (nextPosition l);
            closeHandlers := closeHandlers l; deliveries := deliveries l; delivered := delivered l; closeCalls := closeCalls l |})).

Definition offMessage (h : nat) : eff Client unit :=
  modify (on_listeners (fun l => {| handlers := filter (fun e => e.2 <> h) (handlers l); nextPosition := nextPosition l;
    closeHandlers := closeHandlers l; deliveries := deliveries l; delivered := delivered l; closeCalls := closeCalls l |})).

Definition onClose (h : nat) : eff Client unit :=
  modify (on_listeners (fun l => {| handlers := handlers l; nextPosition := nextPosition l;
    closeHandlers := if decide (h ∈ closeHandlers l) then closeHandlers l else closeHandlers l ++ [h];
    deliveries := deliveries l; delivered := delivered l; closeCalls := closeCalls l |})).

Definition offClose (h : nat) : eff Client unit :=
  modify (on_listeners (fun l => {| handlers := handlers l; nextPosition := nextPosition l;
    closeHandlers := filter (fun e => e <> h) (closeHandlers l); deliveries := deliveries l; delivered := delivered l;
    closeCalls := closeCalls l |})).

(** ** The event loop *)

Inductive event :=
| Connect (socket_open : bool) (nonce : buffer) (clock : Z) (o : TunnelClientOptions)
| Opened (nonce : buffer) (clock : Z) (o : TunnelClientOptions)
| SocketState (open : bool)
| MessageEvent (nonce1 nonce2 : buffer) (clock : Z) (data : SocketData)
| Deliver (i : nat) (res : result unit) (nonce : buffer) (clock : Z)
| CloseEvent (reason : string)
| Close (reason : string)
| SendCall (nonce : buffer) (message : json) (frameType : Z)
| RequestCall (nonce : buffer) (uuid : string) (message : json)
| Timeout (n : nat)
| OnMessage (h : nat) | OffMessage (h : nat) | OnClose (h : nat) | OffClose (h : nat).

Definition step (e : event) (c : Client) : Client :=
  match e with
  | Connect s nonce clock o => exec (connect s nonce clock o) c
  | Opened nonce clock o => exec (opened nonce clock o) c
  | SocketState s => set_ws (match ws c with Some _ => Some s | None => None end) c
  | MessageEvent n1 n2 clock data => exec (onMessageEvent n1 n2 clock data) c
  | Deliver i res nonce clock => exec (deliver i res nonce clock) c
  | CloseEvent reason => exec (handleClose reason) c
  | Close reason => exec (close reason) c
  | SendCall nonce message t => exec (send nonce message t) c
  | RequestCall nonce uuid message => exec (request nonce uuid message) c
  | Timeout n => on_requests (fire_timer n) c
  | OnMessage h => exec (onMessage h) c
  | OffMessage h => exec (offMessage h) c
  | OnClose h => exec (onClose h) c
  | OffClose h => exec (offClose h) c
  end.

Definition run (l : list event) : Client := fold_left (fun c e => step e c) l new_client.
End Client.

(** ** Frame order *)

Record wire_ok (sendKey receiveKey : buffer) `{Aead} (w : Wire) : Prop := {
  wk_next : 0 <= sendSequence w;
  wk_sent : StronglySorted Z.lt (sent w).*1;
  wk_below : Forall (fun s => 0 <= s < sendSequence w) (sent w).*1;
  wk_accepted : StronglySorted Z.lt (accepted w).*1;
  wk_last : Forall (fun s => 0 <= s <= lastReceiveSequence w) (accepted w).*1;
  wk_floor : -1 <= lastReceiveSequence w;
  wk_sealed : Forall (fun a => exists nonce t m, sealFrame nonce sendKey t a.1 m = Ok a.2) (sent w);
  wk_opened : Forall (fun a => exists f m, openFrame receiveKey a.2 = Ok (f, m) /\ fp_sequence f = a.1) (accepted w) }.

Section Wire.
Context `{Aead}.
Context (sendKey receiveKey : buffer).

Definition bump (w : Wire) : Wire :=
  {| sendSequence := sendSequence w + 1; lastReceiveSequence := lastReceiveSequence w; sent := sent w; accepted := accepted w |}.
Definition push (n : Z) (raw : buffer) (w : Wire) : Wire :=
  {| sendSequence := sendSequence w; lastReceiveSequence := lastReceiveSequence w; sent := sent w ++ [(n, raw)];
     accepted := accepted w |}.
Definition receive (n : Z) (raw : buffer) (w : Wire) : Wire :=
  {| sendSequence := sendSequence w; lastReceiveSequence := n; sent := sent w; accepted := accepted w ++ [(n, raw)] |}.

(** The three outcomes of [send]. *)
Lemma send_cases nonce message t c :
  send sendKey nonce message t c =
  if decide (ws c = Some true) then
    match sealFrame nonce sendKey t (sendSequence (wire c)) (encodeMessage message) with
    | Throw e => (on_wire bump c, Throw e)
    | Ok raw => (on_wire (push (sendSequence (wire c)) raw ∘ bump) c, Ok tt)
    end
  else (c, Throw (PlainError "Tunnel is not connected")).
Proof.
  unfold send, requireOpenSocket, gets, lift, modify, mbind, eff_bind.
  destruct (decide (ws c = Some true)) as [Hw|Hw]; [rewrite bool_decide_true by done|by rewrite bool_decide_false].
  cbn [negb throw_if]. unfold nextSequence, transmit, gets, modify, mbind, eff_bind, mret, eff_ret. 
  cbn [wire on_wire sendSequence]. by destruct (sealFrame _ _ _ _ _).
Qed.

(** [handleRawMessage] up to the check of the frame type. *)
Lemma raw_cases nonce clock data c :
  let r := handleRawMessage sendKey receiveKey nonce clock data c in
  (r.1 = c /\ exists e, r.2 = Throw e) \/
  exists raw f m, toBuffer data = Ok raw /\ openFrame receiveKey raw = Ok (f, m) /\
    lastReceiveSequence (wire c) < fp_sequence f /\
    r = (if fp_type f =? FRAME_TYPE.PING then send sendKey nonce (pongMessage clock) FRAME_TYPE.PONG
         else if fp_type f =? FRAME_TYPE.PONG then mret tt
         else if fp_type f =? FRAME_TYPE.CLOSE then close "remote close"
         else message ← lift (decodeMessage m);
              modify (on_requests (resolvePending message));;
              start_delivery message) (on_wire (receive (fp_sequence f) raw) c).
Proof.
  cbn zeta. unfold handleRawMessage, mbind, eff_bind, lift, gets.
  destruct (toBuffer data) as [raw|e]; [|left; split; [done|by exists e]].
  destruct (peekFrameSequence raw) as [n|e] eqn:Ep; [|left; split; [done|by exists e]].
  destruct (n <=? lastReceiveSequence (wire c)) eqn:En; cbn [throw_if]; [left; split; [done|by eexists]|].
  destruct (openFrame receiveKey raw) as [[f m]|e] eqn:Eo; [|left; split; [done|by exists e]].
  right. exists raw, f, m. split; [done|]. split; [done|]. split; [|done].
  unfold openFrame in Eo. inv_ok. simplify_eq. apply peek_decode in Hm. assert (n = fp_sequence f) as -> by congruence.
  by apply Z.leb_gt in En.
Qed.

Lemma wire_bump w : wire_ok sendKey receiveKey w -> wire_ok sendKey receiveKey (bump w).
Proof. intros [H1 H2 H3 H4 H5 H6 H7 H8]. split; cbn; try done; [lia|]. eapply Forall_impl; [exact H3|]. cbn; lia. Qed.

Lemma wire_push w raw nonce t m : sealFrame nonce sendKey t (sendSequence w) m = Ok raw ->
  wire_ok sendKey receiveKey w -> wire_ok sendKey receiveKey (push (sendSequence w) raw (bump w)).
Proof.
  intros Hs [H1 H2 H3 H4 H5 H6 H7 H8]. split; cbn; try done; [lia| | |]; rewrite ?fmap_app.
  - apply StronglySorted_snoc; [done|]. eapply Forall_impl; [exact H3|]. cbn; lia.
  - apply Forall_app. split; [|repeat constructor; cbn; lia]. eapply Forall_impl; [exact H3|]. cbn; lia.
  - apply Forall_app. split; [done|]. repeat constructor. cbn. eauto.
Qed.

Lemma wire_receive w raw f m : wire_ok sendKey receiveKey w -> openFrame receiveKey raw = Ok (f, m) ->
  lastReceiveSequence w < fp_sequence f -> wire_ok sendKey receiveKey (receive (fp_sequence f) raw w).
Proof.
  intros [H1 H2 H3 H4 H5 H6 H7 H8] Ho Hl. split; cbn; try done; rewrite ?fmap_app; [| |lia|].
  - apply StronglySorted_snoc; [done|]. eapply Forall_impl; [exact H5|]. cbn; lia.
  - apply Forall_app. split; [|repeat constructor; cbn; lia]. eapply Forall_impl; [exact H5|]. cbn; lia.
  - apply Forall_app. split; [done|]. repeat constructor. cbn. eauto.
Qed.

Lemma send_wire nonce message t :
  preserves (fun c => wire_ok sendKey receiveKey (wire c)) (send sendKey nonce message t).
Proof.
  intros c Hc. rewrite send_cases. destruct (decide _); [|done].
  destruct (sealFrame _ _ _ _ _) eqn:Es; [by eapply wire_push|by apply wire_bump].
Qed.

Lemma report_wire nonce clock e :
  preserves (fun c => wire_ok sendKey receiveKey (wire c)) (report_error sendKey nonce clock e).
Proof. apply preserves_catch; [apply send_wire|]. intros ?. apply preserves_ret. Qed.

Lemma raw_wire nonce clock data :
  preserves (fun c => wire_ok sendKey receiveKey (wire c)) (handleRawMessage sendKey receiveKey nonce clock data).
Proof.
  intros c Hc. destruct (raw_cases nonce clock data c) as [[-> _]|(raw & f & m & _ & Ho & Hl & ->)]; [done|].
  pose proof (wire_receive _ raw f m Hc Ho Hl) as Hw. revert Hw.
  change (receive (fp_sequence f) raw (wire c)) with (wire (on_wire (receive (fp_sequence f) raw) c)).
  generalize (on_wire (receive (fp_sequence f) raw) c). intros c' Hc'. revert c' Hc'.
  change (preserves (fun c => wire_ok sendKey receiveKey (wire c)) (if fp_type f =? FRAME_TYPE.PING then
      send sendKey nonce (pongMessage clock) FRAME_TYPE.PONG else if fp_type f =? FRAME_TYPE.PONG then mret tt
         else if fp_type f =? FRAME_TYPE.CLOSE then close "remote close"
         else message ← lift (decodeMessage m);
              modify (on_requests (resolvePending message));;
              start_delivery message)).
  repeat case_match; [apply send_wire|..]; unfold close, start_delivery; preserve; done.
Qed.

Lemma step_wire e c : wire_ok sendKey receiveKey (wire c) -> wire_ok sendKey receiveKey (wire (step sendKey receiveKey e c)).
Proof.
  revert c. destruct e; intros c Hc; cbn [step];
    try match goal with |- wire_ok _ _ (wire (exec ?m c)) =>
      revert c Hc; change (preserves (fun c => wire_ok sendKey receiveKey (wire c)) m) end; try done.
  - unfold connect, opened. preserve; try done. apply send_wire.
  - apply send_wire.
  - unfold onMessageEvent. apply preserves_catch; [apply raw_wire|]. intros ?. apply report_wire.
  - unfold deliver. preserve; try done. apply report_wire.
  - unfold handleClose. preserve; done.
  - unfold close. preserve; done.
  - apply send_wire.
  - unfold request. preserve; try done. apply send_wire.
  - unfold onMessage. preserve; done.
  - unfold offMessage. preserve; done.
  - unfold onClose. preserve; done.
  - unfold offClose. preserve; done.
Qed.

Lemma run_wire l : wire_ok sendKey receiveKey (wire (run sendKey receiveKey l)).
Proof.
  unfold run. apply (preserves_fold (fun c => wire_ok sendKey receiveKey (wire c))); [by intros; apply step_wire|].
  split; cbn; try constructor; lia.
Qed.
End Wire.

(** ** Requests *)

(** What a settlement says about the request it settles. *)
Definition outcome_ok (p : RequestPromise) (o : outcome) : Prop :=
  match o with
  | Resolved m => get "reply_to" m = Some (JStr (rp_id p)) /\ get "type" m <> Some (JStr MESSAGE_TYPE.ERROR)
  | Rejected _ => True
  end.

(** A promise waits with its timer set, or is settled once and its timer is gone. *)
Definition promise_ok (timers : list nat) (n : nat) (p : RequestPromise) : Prop :=
  (n ∈ timers /\ rp_settled p = []) \/ (n ∉ timers /\ exists o, rp_settled p = [o] /\ outcome_ok p o).

Record requests_ok (r : Requests) : Prop := {
  rq_keys : NoDup (pending r).*1;
  rq_pending : forall id n, (id, n) ∈ pending r -> n ∈ timers r /\ exists p, promises r !! n = Some p /\ rp_id p = id;
  rq_promises : forall n p, promises r !! n = Some p -> promise_ok (timers r) n p;
  rq_timers : forall n, n ∈ timers r -> (n < length (promises r))%nat;
  rq_distinct : NoDup (rp_id <$> promises r) ->
    forall n p, n ∈ timers r -> promises r !! n = Some p -> (rp_id p, n) ∈ pending r }.

Lemma outcome_ok_same p p' o : rp_id p = rp_id p' -> outcome_ok p o -> outcome_ok p' o.
Proof. destruct o as [m|e]; [|done]. cbn. by intros ->. Qed.

Lemma fmap_alter_id (f : RequestPromise -> RequestPromise) (n : nat) (l : list RequestPromise) :
  (forall p, rp_id (f p) = rp_id p) -> rp_id <$> alter f n l = rp_id <$> l.
Proof.
  intros Hf. apply list_eq. intros i. rewrite !list_lookup_fmap.
  destruct (decide (n = i)) as [->|Hn]; [rewrite list_lookup_alter_eq|by rewrite list_lookup_alter_ne].
  destruct (l !! i); [cbn; by rewrite Hf|done].
Qed.

Lemma elem_put_ne {A} k (v : A) l x : x ∈ l -> x.1 <> k -> x ∈ put k v l.
Proof.
  induction l as [|[k' v'] l IH]; cbn; [by intros ?%elem_of_nil|]. intros [->|Hx]%elem_of_cons Hk; cbn in *.
  - rewrite decide_False by congruence. left.
  - case_decide; right; auto.
Qed.

(** The n-th promise, still waiting, is settled, its timer cleared, and the entry
    under its id removed. *)
Lemma settle_ok n p o r : requests_ok r -> promises r !! n = Some p -> n ∈ timers r -> outcome_ok p o ->
  requests_ok (close_request (rp_id p) n o r).
Proof.
  intros [H1 H2 H3 H4 H5] Hp Hn Ho. split; cbn.
  - eapply sublist_NoDup; [exact H1|]. apply fmap_sublist, remove_sublist.
  - intros id m Hin. unfold remove in Hin. apply list_elem_of_filter in Hin as [Hid Hin]. cbn in Hid.
    destruct (H2 _ _ Hin) as (Ht & q & Hq & Hqi). split.
    + apply list_elem_of_filter. split; [|done]. intros ->. congruence.
    + unfold settle. destruct (decide (m = n)) as [->|Hm]; [congruence|]. rewrite list_lookup_alter_ne by done. eauto.
  - intros m q. unfold settle. destruct (decide (m = n)) as [->|Hm].
    + rewrite list_lookup_alter_eq, Hp. intros [= <-]. right. split; [rewrite list_elem_of_filter; tauto|].
      destruct (H3 _ _ Hp) as [[_ Es]|[? _]]; [|done]. cbn. rewrite Es. by exists o.
    + rewrite list_lookup_alter_ne by done. intros Hq. destruct (H3 _ _ Hq) as [[Ht Es]|[Ht Es]].
      * left. split; [|done]. by apply list_elem_of_filter.
      * right. split; [|done]. rewrite list_elem_of_filter. tauto.
  - intros m [_ Hm]%list_elem_of_filter. unfold settle. rewrite length_alter. by apply H4.
  - unfold settle. rewrite fmap_alter_id by done. intros Hd m q [Hm Ht]%list_elem_of_filter.
    rewrite list_lookup_alter_ne by done. intros Hq. apply list_elem_of_filter. split; [|by apply H5].
    cbn. intros E. apply Hm. eapply (NoDup_lookup _ m n (rp_id p)); [exact Hd|..]; rewrite list_lookup_fmap, ?Hq, ?Hp; cbn; congruence.
Qed.

Lemma open_request_ok id r : requests_ok r -> requests_ok (open_request id r).
Proof.
  intros [H1 H2 H3 H4 H5]. split; cbn.
  - by apply put_NoDup.
  - intros id' n [[= -> ->]|Hin]%put_elem.
    + split; [left|]. rewrite lookup_app_r, Nat.sub_diag by lia. eauto.
    + destruct (H2 _ _ Hin) as (Ht & p & Hp & Hi). split; [by right|]. exists p. split; [|done]. by apply lookup_app_l_Some.
  - intros n p Hp. unfold promise_ok. rewrite elem_of_cons. apply lookup_app_Some in Hp as [Hp|[Hl Hp]].
    + destruct (H3 _ _ Hp) as [[Ht Es]|[Ht Es]]; [by left; split; [right|]|right]. split; [|done].
      intros [->|?]; [|done]. apply lookup_lt_Some in Hp. lia.
    + apply list_lookup_singleton_Some in Hp as [Hn <-]. left. split; [left; lia|done].
  - intros n. rewrite elem_of_cons, length_app. cbn. intros [->|Hn]; [lia|]. pose proof (H4 _ Hn). lia.
  - rewrite fmap_app. intros Hd n p Hn Hp. apply NoDup_app in Hd as (Hd & Hx & _).
    apply lookup_app_Some in Hp as [Hp|[Hl Hp]].
    + apply elem_of_cons in Hn as [->|Hn]; [apply lookup_lt_Some in Hp; lia|].
      apply elem_put_ne; [by apply H5|]. cbn. intros E. apply (Hx id); [|left]. rewrite <- E.
      apply list_elem_of_fmap. exists p. split; [done|]. by eapply list_elem_of_lookup_2.
    + apply list_lookup_singleton_Some in Hp as [Hn' <-]. cbn.
      replace n with (length (promises r)) by lia. apply assoc_elem. by rewrite assoc_put, decide_True.
Qed.

Lemma consume_request_ok n r : requests_ok r -> requests_ok (consume_request n r).
Proof.
  intros [H1 H2 H3 H4 H5]. split; cbn; try done.
  - intros id m Hin. destruct (H2 _ _ Hin) as (Ht & p & Hp & Hi). split; [done|].
    destruct (decide (m = n)) as [->|Hm]; [|rewrite list_lookup_alter_ne by done; eauto].
    rewrite list_lookup_alter_eq, Hp. eexists. split; [reflexivity|done].
  - intros m q. destruct (decide (m = n)) as [->|Hm]; [|rewrite list_lookup_alter_ne by done; apply H3].
    rewrite list_lookup_alter_eq. destruct (promises r !! n) as [p|] eqn:Hp; [|done]. intros [= <-].
    destruct (H3 _ _ Hp) as [?|[? (o & ? & ?)]]; [by left|right]. split; [done|]. by exists o.
  - intros m Hm. rewrite length_alter. by apply H4.
  - rewrite fmap_alter_id by done. intros Hd m q Hm Hq.
    destruct (decide (m = n)) as [->|Hne]; [|rewrite list_lookup_alter_ne in Hq by done; by apply H5].
    rewrite list_lookup_alter_eq in Hq. destruct (promises r !! n) as [p|] eqn:Hp; [|done]. injection Hq as <-.
    by apply (H5 Hd n p).
Qed.

Lemma fire_timer_ok n r : requests_ok r -> requests_ok (fire_timer n r).
Proof.
  intros Hr. unfold fire_timer. destruct (decide _) as [Hn|]; [|done].
  destruct (promises r !! n) as [p|] eqn:Hp; [|done]. by apply settle_ok.
Qed.

Lemma close_entry_ok id n o r : requests_ok r -> (id, n) ∈ pending r ->
  (forall p, rp_id p = id -> outcome_ok p o) -> requests_ok (close_request id n o r).
Proof.
  intros Hr Hin Ho. destruct (rq_pending _ Hr _ _ Hin) as (Ht & p & Hp & <-). apply settle_ok; auto.
Qed.

Lemma resolvePending_ok message r : requests_ok r -> requests_ok (resolvePending message r).
Proof.
  intros Hr. unfold resolvePending. destruct (as_string _) as [s|] eqn:Es; [|done].
  assert (Eg : get "reply_to" message = Some (JStr s)).
  { unfold as_string in Es. destruct (get "reply_to" message) as [[]|]; by simplify_eq. }
  destruct s as [|c s]; [done|]. destruct (assoc _ (pending r)) as [n|] eqn:Ea; [|done].
  apply assoc_elem in Ea. apply close_entry_ok; [done..|]. intros p Hp. destruct (decide _); [done|].
  cbn. by rewrite Hp.
Qed.

(** [rejectAll] empties [pending]. *)
Lemma rejectAll_fold error l r : NoDup l.*1 -> (forall e, e ∈ l -> e ∈ pending r) -> requests_ok r ->
  let r' := fold_left (fun r (e : string * nat) => close_request e.1 e.2 (Rejected error) r) l r in
  requests_ok r' /\ forall e, e ∈ pending r' -> e ∈ pending r /\ e.1 ∉ l.*1.
Proof.
  revert r. induction l as [|[id n] l IH]; intros r Hd Hl Hr; cbn [fold_left].
  { split; [done|]. intros e He. split; [done|]. apply not_elem_of_nil. }
  apply NoDup_cons in Hd as [Hk Hd]. cbn [fst snd] in *.
  destruct (IH (close_request id n (Rejected error) r) Hd) as [Hok He].
  - intros e He. cbn. unfold remove. apply list_elem_of_filter. split; [|apply Hl; by right].
    intros <-. apply Hk. by apply (list_elem_of_fmap_2 fst).
  - apply close_entry_ok; [done|apply Hl; left|done].
  - split; [done|]. intros e Hin. apply He in Hin as [Hin Hn]. cbn in Hin. unfold remove in Hin.
    apply list_elem_of_filter in Hin as [Hid Hin]. split; [done|]. by apply not_elem_of_cons.
Qed.

Lemma rejectAll_ok error r : requests_ok r -> requests_ok (rejectAll error r) /\ pending (rejectAll error r) = [].
Proof.
  intros Hr. destruct (rejectAll_fold error (pending r) r (rq_keys _ Hr) ltac:(done) Hr) as [Hok He].
  split; [done|]. unfold rejectAll. destruct (pending (fold_left _ _ _)) as [|e l] eqn:E; [done|].
  destruct (He e) as [Hin Hn]; [left|]. exfalso. apply Hn. by apply (list_elem_of_fmap_2 fst).
Qed.

Section Requests.
Context `{Aead}.
Context (sendKey receiveKey : buffer).
Let ok (c : Client) : Prop := requests_ok (requests c).

Lemma send_requests nonce message t c : requests (send sendKey nonce message t c).1 = requests c.
Proof. rewrite send_cases. destruct (decide _); [|done]. by destruct (sealFrame _ _ _ _ _). Qed.

Lemma send_ok nonce message t : preserves ok (send sendKey nonce message t).
Proof. intros c Hc. unfold ok. by rewrite send_requests. Qed.

Lemma report_ok nonce clock e : preserves ok (report_error sendKey nonce clock e).
Proof. apply preserves_catch; [apply send_ok|]. intros ?. apply preserves_ret. Qed.

Lemma close_ok reason : preserves ok (close reason).
Proof. unfold close. preserve; [by apply rejectAll_ok|done]. Qed.

Lemma raw_ok nonce clock data : preserves ok (handleRawMessage sendKey receiveKey nonce clock data).
Proof.
  intros c Hc. destruct (raw_cases sendKey receiveKey nonce clock data c) as [[-> _]|(raw & f & m & _ & _ & _ & ->)]; [done|].
  assert (Hw : ok (on_wire (receive (fp_sequence f) raw) c)) by done. revert Hw.
  generalize (on_wire (receive (fp_sequence f) raw) c). intros c'. revert c'.
  repeat case_match; [apply send_ok|done|apply close_ok|]. 
  change (preserves ok (message ← lift (decodeMessage m);
              modify (on_requests (resolvePending message));;
              start_delivery message)).
  unfold start_delivery. preserve; [by apply resolvePending_ok|done].
Qed.

Lemma step_ok e c : ok c -> ok (step sendKey receiveKey e c).
Proof.
  revert c. destruct e; intros c Hc; cbn [step];
    try match goal with |- ok (exec ?m c) => revert c Hc; change (preserves ok m) end; try done.
  - unfold connect, opened. preserve; try done. apply send_ok.
  - apply send_ok.
  - unfold onMessageEvent. apply preserves_catch; [apply raw_ok|]. intros ?. apply report_ok.
  - unfold deliver. preserve; try done. apply report_ok.
  - unfold handleClose. preserve; [by apply rejectAll_ok|done|done].
  - apply close_ok.
  - apply send_ok.
  - unfold request. preserve; [by apply open_request_ok|apply send_ok|by apply consume_request_ok].
  - by apply fire_timer_ok.
  - unfold onMessage. preserve; done.
  - unfold offMessage. preserve; done.
  - unfold onClose. preserve; done.
  - unfold offClose. preserve; done.
Qed.

Lemma tunnel_run_ok l : ok (run sendKey receiveKey l).
Proof.
  unfold run. apply (preserves_fold ok); [by intros; apply step_ok|].
  split; cbn; [constructor|by intros ? ? ?%elem_of_nil|done|by intros ? ?%elem_of_nil|by intros ? ? ? ?%elem_of_nil].
Qed.
End Requests.

(** ** Properties *)

(** Two lists in strict order of a key, one within the other. *)
Lemma sorted_sublist {A} (l1 l2 : list (Z * A)) :
  StronglySorted Z.lt l1.*1 -> StronglySorted Z.lt l2.*1 -> (forall x, x ∈ l1 -> x ∈ l2) -> sublist l1 l2.
Proof.
  revert l1. induction l2 as [|y l2 IH]; intros l1 H1 H2 Hin.
  - destruct l1 as [|x l1]; [constructor|]. by pose proof (Hin x (list_elem_of_here _ _)) as ?%elem_of_nil.
  - destruct l1 as [|x l1]; [apply sublist_nil_l|].
    cbn in H1, H2. apply StronglySorted_inv in H1 as [H1 Hx], H2 as [H2 Hy].
    assert (Hlt : forall z, z ∈ l1 -> x.1 < z.1).
    { intros z Hz. apply (list_elem_of_fmap_2 fst) in Hz. by apply (proj1 (Forall_forall _ _) Hx). }
    assert (Hgt : forall z, z ∈ l2 -> y.1 < z.1).
    { intros z Hz. apply (list_elem_of_fmap_2 fst) in Hz. by apply (proj1 (Forall_forall _ _) Hy). }
    pose proof (Hin x (list_elem_of_here _ _)) as [->|Hx2]%elem_of_cons.
    + apply sublist_skip, IH; [done..|]. intros z Hz.
      pose proof (Hin z (list_elem_of_further _ _ _ Hz)) as [->|?]%elem_of_cons; [|done]. pose proof (Hlt _ Hz). lia.
    + apply sublist_cons, IH; [by constructor|done|]. intros z Hz.
      pose proof (Hin z Hz) as [->|?]%elem_of_cons; [|done].
      apply elem_of_cons in Hz as [<-|Hz]; [done|]. pose proof (Hlt _ Hz). pose proof (Hgt _ Hx2). lia.
Qed.

Lemma sorted_NoDup (l : list Z) : StronglySorted Z.lt l -> NoDup l.
Proof.
  induction 1 as [|x l Hs IH Hx]; constructor; [|done]. intros Hin.
  pose proof (proj1 (Forall_forall _ _) Hx _ Hin). cbn in *. lia.
Qed.

(** The sequence number under which a frame was sealed is the one it opens with. *)
Lemma sealed_sequence `{Aead} nonce k t n m raw k' f m' :
  sealFrame nonce k t n m = Ok raw -> openFrame k' raw = Ok (f, m') -> fp_sequence f = n.
Proof.
  unfold sealFrame, openFrame. intros Hs Ho. inv_ok. simplify_eq.
  repeat match goal with He : encodeFrame _ = Ok _ |- _ => apply encodeFrame_ok in He as [Hw ->] end.
  match goal with Hd : decodeFrame _ = Ok _ |- _ => rewrite decode_frame_bytes in Hd by done; by injection Hd as <- end.
Qed.

(** C6: order and replay on the channel: whatever happens at the two ends of a
    tunnel, and however the network drops, repeats or reorders frames, if the
    receiver takes only frames that the sender sealed then the frames it accepts
    are a subsequence of those sent, in the order they were sent and each at
    most once. *)
Theorem tunnel_in_order `{Aead} (k1 k2 k3 : buffer) (sender receiver : list event) :
  let a := wire (run k1 k2 sender) in
  let b := wire (run k3 k1 receiver) in
  (forall x, x ∈ (accepted b).*2 -> x ∈ (sent a).*2) ->
  sublist (accepted b) (sent a) /\ NoDup (accepted b).*1.
Proof.
  cbn zeta. intros Hin. pose proof (run_wire k1 k2 sender) as Ha. pose proof (run_wire k3 k1 receiver) as Hb. split.
  - apply sorted_sublist; [apply (wk_accepted _ _ _ Hb)|apply (wk_sent _ _ _ Ha)|].
    intros [n raw] Hx. pose proof (proj1 (Forall_forall _ _) (wk_opened _ _ _ Hb) _ Hx) as (f & m & Ho & Hf). cbn in *.
    pose proof (Hin raw) as Hr. assert (raw ∈ (sent (wire (run k1 k2 sender))).*2) as [[n' raw'] [-> Hs]]%list_elem_of_fmap.
    { apply Hr. by apply (list_elem_of_fmap_2 snd) in Hx. }
    pose proof (proj1 (Forall_forall _ _) (wk_sealed _ _ _ Ha) _ Hs) as (nonce & t & p & Hseal). cbn in *.
    assert (n = n') as -> by (rewrite <- Hf; by eapply sealed_sequence). done.
  - eapply sorted_NoDup, (wk_accepted _ _ _ Hb).
Qed.

(** One frame, one number: the frames a client seals carry strictly increasing
    sequence numbers, so no (key, sequence) pair is ever used twice; and the
    numbers it accepts also strictly increase, each from a frame that opened
    under the receive key. *)
Theorem tunnel_sequences `{Aead} (sendKey receiveKey : buffer) (events : list event) :
  let w := wire (run sendKey receiveKey events) in
  StronglySorted Z.lt (sent w).*1 /\ Forall (fun s => 0 <= s < sendSequence w) (sent w).*1 /\
  StronglySorted Z.lt (accepted w).*1 /\
  forall n raw, (n, raw) ∈ accepted w -> exists f m, openFrame receiveKey raw = Ok (f, m) /\ fp_sequence f = n.
Proof.
  cbn zeta. pose proof (run_wire sendKey receiveKey events) as Hw. destruct Hw as [H1 H2 H3 H4 H5 H6 H7 H8].
  split_and!; try done. intros n raw Hin. by apply (proj1 (Forall_forall _ _) H8) in Hin.
Qed.

(** C19: requests and replies: in every reachable state each promise that [request]
    created either waits with its timer set, or was settled exactly once and its
    timer is cleared; one that was resolved got a message whose [reply_to] is the
    request's id and that is not an error. *)
Theorem request_settles_once `{Aead} (sendKey receiveKey : buffer) (events : list event) (n : nat) (p : RequestPromise) :
  let r := requests (run sendKey receiveKey events) in
  promises r !! n = Some p ->
  (n ∈ timers r /\ rp_settled p = []) \/
  (n ∉ timers r /\ exists o, rp_settled p = [o] /\
     match o with
     | Resolved m => get "reply_to" m = Some (JStr (rp_id p)) /\ get "type" m <> Some (JStr MESSAGE_TYPE.ERROR)
     | Rejected _ => True
     end).
Proof. cbn zeta. intros Hp. by apply (rq_promises _ (tunnel_run_ok sendKey receiveKey events)). Qed.

Lemma fire_all_ok l r : requests_ok r -> (forall n, n ∈ timers r -> n ∈ l) ->
  let r' := fold_left (fun r n => fire_timer n r) l r in requests_ok r' /\ timers r' = [].
Proof.
  revert r. induction l as [|n l IH]; intros r Hr Hl; cbn [fold_left].
  - split; [done|]. destruct (timers r) as [|m l]; [done|]. by pose proof (Hl m (list_elem_of_here _ _)) as ?%elem_of_nil.
  - apply IH; [by apply fire_timer_ok|]. intros m Hm. unfold fire_timer in Hm. destruct (decide (n ∈ timers r)) as [Hn|Hn].
    + destruct (proj2 (lookup_lt_is_Some _ _) (rq_timers _ Hr n Hn)) as [p Hp]. rewrite Hp in Hm.
      cbn in Hm. apply list_elem_of_filter in Hm as [Hne Hm]. apply Hl in Hm. apply elem_of_cons in Hm as [?|?]; done.
    + pose proof (Hl m Hm) as [->|?]%elem_of_cons; done.
Qed.

(** C20: no request waits for ever: from every reachable state, once the timers
    that are set have fired every promise is settled; and closing the tunnel, or
    losing the connection, settles every promise at once when no two requests
    used the same id. *)
Theorem requests_terminate `{Aead} (sendKey receiveKey : buffer) (events : list event) (reason : string) :
  let c := run sendKey receiveKey events in
  let waited := run sendKey receiveKey (events ++ map Timeout (timers (requests c))) in
  (forall n p, promises (requests waited) !! n = Some p -> exists o, rp_settled p = [o]) /\
  forall e, e = Close reason \/ e = CloseEvent reason ->
    let closed := step sendKey receiveKey e c in
    pending (requests closed) = [] /\ ws closed = None /\
    (NoDup (rp_id <$> promises (requests c)) ->
     forall n p, promises (requests closed) !! n = Some p -> exists o, rp_settled p = [o]).
Proof.
  cbn zeta. set (c := run _ _ events). pose proof (tunnel_run_ok sendKey receiveKey events) as Hc. fold c in Hc. split.
  - intros n p. unfold run. rewrite fold_left_app. change (fold_left _ events new_client) with c.
    assert (E : forall l c, requests (fold_left (fun c e => step sendKey receiveKey e c) (map Timeout l) c) =
                        fold_left (fun r n => fire_timer n r) l (requests c)).
    { induction l as [|m l IH]; intros c0; [done|]. cbn. by rewrite IH. }
    rewrite E. destruct (fire_all_ok (timers (requests c)) (requests c) Hc ltac:(done)) as [Hr Ht].
    intros Hp. destruct (rq_promises _ Hr _ _ Hp) as [[Hn _]|[_ (o & Ho & _)]]; [rewrite Ht in Hn; by apply elem_of_nil in Hn|eauto].
  - intros e He. set (closed := step _ _ e c).
    assert (Hq : exists err, requests closed = rejectAll err (requests c) /\ ws closed = None).
    { destruct He as [->| ->]; eexists; split; reflexivity. }
    destruct Hq as (err & -> & Hws). destruct (rejectAll_ok err _ Hc) as [Hr Hp0]. split; [done|]. split; [done|].
    intros Hd n p Hp. destruct (rq_promises _ Hr _ _ Hp) as [[Hn _]|[_ (o & Ho & _)]]; [|eauto].
    assert (Hd' : NoDup (rp_id <$> promises (rejectAll err (requests c)))).
    { replace (rp_id <$> promises (rejectAll err (requests c))) with (rp_id <$> promises (requests c)); [done|].
      unfold rejectAll. generalize (pending (requests c)) as l. clear. intros l. generalize (requests c) as r.
      induction l as [|[id n] l IH]; intros r; [done|]. cbn [fold_left]. rewrite <- IH. cbn. unfold settle. by rewrite fmap_alter_id. }
    pose proof (rq_distinct _ Hr Hd' _ _ Hn Hp) as Hin. rewrite Hp0 in Hin. by apply elem_of_nil in Hin.
Qed.

Lemma open_then_fire id r :
  promises (fire_timer (length (promises r)) (open_request id r)) !! length (promises r) =
  Some {| rp_id := id; rp_consumed := false; rp_settled := [Rejected (timeout_error id)] |}.
Proof.
  set (p := {| rp_id := id; rp_consumed := false; rp_settled := [] |}).
  assert (El : promises (open_request id r) !! length (promises r) = Some p).
  { unfold open_request. cbn [promises]. by rewrite lookup_app_r, Nat.sub_diag by lia. }
  unfold fire_timer. rewrite decide_True by left. rewrite El. unfold settle. cbn [promises].
  by rewrite list_lookup_alter_eq, El.
Qed.

(** What [request] does when the socket is not open: the call throws, but the
    promise it made stays behind with its timer, and its rejection, when the
    timer fires, has no handler. *)
Theorem request_unconnected_orphan `{Aead} (sendKey receiveKey nonce : buffer) (uuid : string) (message : json)
    (events : list event) :
  let c := run sendKey receiveKey events in
  ws c <> Some true ->
  let n := length (promises (requests c)) in
  let (c', res) := request sendKey nonce uuid message c in
  res = Throw (PlainError "Tunnel is not connected") /\ n ∈ timers (requests c') /\
  exists id, promises (requests (step sendKey receiveKey (Timeout n) c')) !! n =
    Some {| rp_id := id; rp_consumed := false; rp_settled := [Rejected (timeout_error id)] |}.
Proof.
  cbn zeta. set (c := run _ _ _). intros Hw. unfold request, gets, modify, mbind, eff_bind.
  rewrite send_cases. rewrite decide_False by done. split; [done|]. split; [left|].
  eexists. apply open_then_fire.
Qed.

Module Run.
Definition k1 : buffer := be_encode 32 7.
Definition k2 : buffer := be_encode 32 8.
Definition nonce : buffer := be_encode 12 5.
Definition options : TunnelClientOptions :=
  {| op_mode := "control"; op_nodeId := Some "n1"; op_candidateId := None; op_version := None; op_publicKeyPem := None |}.
Definition ping : json := pingMessage 1000 "m1".
Definition sender : list event := [Connect true nonce 0 options; RequestCall nonce "m0" ping; SendCall nonce ping FRAME_TYPE.DATA].
Definition frames : list buffer := (sent (wire (@run Toy.aead k1 k2 sender))).*2.
Definition frame (i : nat) : SocketData := Bytes (default [] (frames !! i)).
(** Frame 1 is lost, frames 0 and 2 are repeated, and garbage arrives. *)
Definition receiver : list event :=
  [Connect true nonce 0 options; OnMessage 4; MessageEvent nonce nonce 0 (frame 0); MessageEvent nonce nonce 0 (frame 0);
   MessageEvent nonce nonce 0 (TextData "AAAA"); MessageEvent nonce nonce 0 (frame 2); Deliver 0 (Ok tt) nonce 0;
   MessageEvent nonce nonce 0 (frame 0); MessageEvent nonce nonce 0 (frame 2)].
Definition after_timeout : list event := sender ++ [Timeout 0].
Definition promise : RequestPromise :=
  {| rp_id := "m1"; rp_consumed := true; rp_settled := [Rejected (timeout_error "m1")] |}.
End Run.

Lemma tunnel_in_order_witness :
  let a := wire (@run Toy.aead Run.k1 Run.k2 Run.sender) in
  let b := wire (@run Toy.aead Run.k2 Run.k1 Run.receiver) in
  (accepted b).*1 = [0; 2] /\ sublist (accepted b) (sent a) /\ NoDup (accepted b).*1.
Proof.
  cbn zeta. split; [vm_compute; reflexivity|].
  apply (@tunnel_in_order Toy.aead Run.k1 Run.k2 Run.k2 Run.sender Run.receiver).
  apply Forall_forall. apply (bool_decide_unpack _). vm_compute. exact I.
Defined.

Lemma request_settles_once_witness :
  let r := requests (@run Toy.aead Run.k1 Run.k2 Run.after_timeout) in
  (O ∈ timers r /\ rp_settled Run.promise = []) \/
  (O ∉ timers r /\ exists o, rp_settled Run.promise = [o] /\
     match o with
     | Resolved m => get "reply_to" m = Some (JStr (rp_id Run.promise)) /\ get "type" m <> Some (JStr MESSAGE_TYPE.ERROR)
     | Rejected _ => True
     end).
Proof. apply (@request_settles_once Toy.aead Run.k1 Run.k2 Run.after_timeout 0 Run.promise). vm_compute. reflexivity. Defined.

Lemma requests_terminate_witness :
  let c := @run Toy.aead Run.k1 Run.k2 Run.sender in
  Forall (fun p => exists o, rp_settled p = [o]) (promises (requests (@step Toy.aead Run.k1 Run.k2 (Close "bye") c))).
Proof.
  cbn zeta. apply Forall_lookup_2. destruct (@requests_terminate Toy.aead Run.k1 Run.k2 Run.sender "bye") as [_ H].
  destruct (H (Close "bye") (or_introl eq_refl)) as (_ & _ & Hd). apply Hd. apply (bool_decide_unpack _). vm_compute. exact I.
Defined.

Lemma request_unconnected_orphan_witness :
  let '(c', res) := @request Toy.aead Run.k1 Run.nonce "m0" Run.ping new_client in
  res = Throw (PlainError "Tunnel is not connected") /\ O ∈ timers (requests c') /\
  exists id, promises (requests (@step Toy.aead Run.k1 Run.k2 (Timeout 0) c')) !! O =
    Some {| rp_id := id; rp_consumed := false; rp_settled := [Rejected (timeout_error id)] |}.
Proof. apply (@request_unconnected_orphan Toy.aead Run.k1 Run.k2 Run.nonce "m0" Run.ping []). discriminate. Defined.
