(* ===== verification/Files.v ===== *)
(** * Paths and files (node:path, node:fs as the code uses them; node/state.ts)

    POSIX paths, and a disk of files.  A file that exists but cannot be read
    ([EACCES], [EIO], a directory in the way) keeps the error code its reading
    gives, and a write to it fails and leaves it.  [fs.writeFile] truncates a file
    before it writes: where there is no room ([Full]) it fails and leaves the file
    empty.  Directories and modes are not modelled, a write that does not fail at its
    first byte is complete, and a new file can always be made. *)

From S2P Require Import Prelude Effect Text Json JsonText JsonIndent Coerce.
Local Open Scope Z_scope.

(** ** [path.join] *)

(** One segment after [acc], the segments so far in reverse. *)
Definition norm_step (abs : bool) (acc : list string) (seg : string) : list string :=
  if bool_decide (seg = "") || bool_decide (seg = ".") then acc
  else if bool_decide (seg = "..") then
    match acc with
    | [] => if abs then [] else [".."]
    | top :: rest => if bool_decide (top = "..") then ".." :: acc else rest
    end
  else seg :: acc.

Definition normalize (path : string) : string :=
  let abs := startsWith path "/" in
  let body := join "/" (rev (fold_left (norm_step abs) (split "/" path) [])) in
  let body := if bool_decide (body = "") && negb abs then "." else body in
  let body := if endsWith path "/" && negb (bool_decide (body = "")) then body +:+ "/" else body in
  if abs then "/" +:+ body else body.

Definition path_join (parts : list string) : string :=
  let joined := join "/" (filter (fun s => s <> "") parts) in
  if bool_decide (joined = "") then "." else normalize joined.

Definition isAbsolute (path : string) : bool := startsWith path "/".

(** ** The disk *)

Inductive entry :=
| Regular (content : buffer)
| Full (content : buffer)
| Unreadable (code : string).

#[export] Instance entry_eq_dec : EqDecision entry.
Proof. solve_decision. Defined.

Notation Disk := (gmap string entry).

Inductive reading :=
| Contents (b : buffer)
| ENOENT
| Failed (code : string).

Definition readFile (file : string) (d : Disk) : reading :=
  match d !! file with
  | Some (Regular b | Full b) => Contents b
  | Some (Unreadable code) => Failed code
  | None => ENOENT
  end.

Definition io_error (code : string) : exn := PlainError code.

Definition readFile_or_throw (file : string) (d : Disk) : result buffer :=
  match readFile file d with
  | Contents b => Ok b
  | ENOENT => Throw (io_error "ENOENT")
  | Failed code => Throw (io_error code)
  end.

Definition writeFile (file : string) (b : buffer) (d : Disk) : Disk * result unit :=
  match d !! file with
  | Some (Unreadable code) => (d, Throw (io_error code))
  | Some (Full _) => (<[file := Full []]> d, Throw (io_error "ENOSPC"))
  | _ => (<[file := Regular b]> d, Ok tt)
  end.

(** Both names exist afterwards only if they are the same. *)
Definition rename (from to : string) (d : Disk) : Disk * result unit :=
  match d !! from with
  | Some e => (<[to := e]> (delete from d), Ok tt)
  | None => (d, Throw (io_error "ENOENT"))
  end.

(** [fs.access]. *)
Definition file_exists (file : string) (d : Disk) : bool := bool_decide (is_Some (d !! file)).

(** ** The process: environment, directories, account *)

Record Process := {
  env : string -> option string; homedir : string; cwd : string; os_platform : string; os_arch : string;
  getuid : option Z }.

(** [process.env.K || d]: unset and empty alike fall through. *)
Definition env_or (p : Process) (k d : string) : string :=
  match env p k with Some v => if bool_decide (v = "") then d else v | None => d end.
Definition env_set (p : Process) (k : string) : bool := bool_decide (env_or p k "" <> "").

Record StatePaths := {
  base : string; config : string; keysDir : string; p_privateKeyPem : string; p_publicKeyPem : string;
  p_manifest : string; joinAuth : string; setupProgress : string }.

Definition stateDir (p : Process) : string :=
  env_or p "CONSENSUS_STATE_DIR" (path_join [homedir p; ".consensus"; "node"]).

Definition paths (p : Process) : StatePaths :=
  let b := stateDir p in
  let k := path_join [b; "keys"] in
  {| base := b; config := path_join [b; "config.json"]; keysDir := k;
     p_privateKeyPem := path_join [k; "node.key"]; p_publicKeyPem := path_join [k; "node.pub"];
     p_manifest := path_join [b; "release-manifest.json"]; joinAuth := path_join [b; "join-auth.json"];
     setupProgress := path_join [b; "setup-progress.json"] |}.

(** Any failure to read or to parse gives the fallback. *)
Definition readJson (file : string) (fallback : json) (d : Disk) : json :=
  match readFile file d with
  | Contents b => ok_or fallback (JSON_parse (utf8_text b))
  | _ => fallback
  end.

(** [Number(process.env.NODE_PORT || 9090)]. *)
Definition default_config (p : Process) : json :=
  JObj [("port", JNum (string_to_number (env_or p "NODE_PORT" "9090")))].

Definition loadConfig (p : Process) (d : Disk) : json := readJson (config (paths p)) (default_config p) d.
Definition loadSetupProgress (p : Process) (d : Disk) : json := readJson (setupProgress (paths p)) (JObj []) d.

Definition writeJson (file : string) (value : json) : eff Disk unit := writeFile file (utf8 (stringify2 value)).
Definition saveConfig (p : Process) (value : json) : eff Disk unit := writeJson (config (paths p)) value.
Definition saveSetupProgress (p : Process) (progress : json) : eff Disk unit :=
  writeFile (setupProgress (paths p)) (utf8 (stringify2 progress)).

(** ** Lemmas *)

Lemma split_nonempty c a : split c a <> [].
Proof. destruct a as [|d a]; [done|]. cbn. destruct (decide _); [done|]. by destruct (split c a). Qed.

Lemma split_slash c (a b : string) : split c (a +:+ String c b) = split c a ++ split c b.
Proof.
  induction a as [|d a IH]; cbn [String.append split]; [by rewrite decide_True|].
  rewrite IH. destruct (decide _); [done|]. pose proof (split_nonempty c a). by destruct (split c a).
Qed.

(** A plain file name. *)
Definition plain_name (f : string) : Prop := no_char "/" f /\ f <> "" /\ f <> "." /\ f <> "..".

(** The segments of a directory, ["."] and [".."] resolved. *)
Definition dir_segments (dir : string) : list string :=
  rev (fold_left (norm_step (startsWith dir "/")) (split "/" dir) []).

Lemma str_rev_app a acc : str_rev a acc = str_rev a "" +:+ acc.
Proof.
  revert acc. induction a as [|c a IH]; intros acc; [done|]. cbn [str_rev].
  rewrite (IH (String c acc)), (IH (String c "")). by rewrite str_app_assoc.
Qed.

Lemma str_rev_cat a b : str_rev (a +:+ b) "" = str_rev b "" +:+ str_rev a "".
Proof.
  induction a as [|c a IH]; cbn [String.append str_rev]; [by rewrite str_app_nil|].
  rewrite (str_rev_app (a +:+ b)), IH, (str_rev_app a (String c "")). by rewrite str_app_assoc.
Qed.

Lemma no_char_rev c a : no_char c a -> no_char c (str_rev a "").
Proof.
  assert (Hc : forall x y, no_char c x -> no_char c y -> no_char c (x +:+ y)).
  { induction x as [|d x IH]; intros y Hx Hy; [done|]. apply no_char_cons in Hx as [Hd Hx].
    cbn [String.append]. apply no_char_cons. split; [done|by apply IH]. }
  induction a as [|d a IH]; intros H; [done|]. apply no_char_cons in H as [Hd H]. cbn [str_rev].
  rewrite str_rev_app. apply Hc; [by apply IH|]. by apply no_char_cons.
Qed.

Lemma startsWith_char c d r : startsWith (String d r) (String c "") = bool_decide (d = c).
Proof.
  unfold startsWith, String.prefix. destruct (ascii_dec c d) as [->|Hn].
  - rewrite bool_decide_true by done. by destruct r.
  - by rewrite bool_decide_false.
Qed.

Lemma plain_not_slash_end x f : plain_name f -> endsWith (x +:+ String "/" f) "/" = false.
Proof.
  intros (Hf & Hn & _). unfold endsWith. rewrite str_rev_cat. cbn [str_rev]. rewrite (str_rev_app f).
  apply no_char_rev in Hf. destruct (str_rev f "") as [|d r] eqn:E.
  - exfalso. apply Hn. apply (f_equal String.length) in E. destruct f; [done|]. cbn [str_rev] in E.
    rewrite str_rev_app, str_app_length in E. cbn in E. lia.
  - apply no_char_cons in Hf as [Hd _]. cbn [String.append str_rev]. rewrite startsWith_char. by apply bool_decide_false.
Qed.

Lemma path_join_file dir f : dir <> "" -> plain_name f ->
  path_join [dir; f] = (if startsWith dir "/" then "/" else "") +:+ join "/" (dir_segments dir ++ [f]).
Proof.
  intros Hd Hf. pose proof Hf as (Hc & Hn & Hdot & Hdots). unfold path_join.
  rewrite filter_cons_True by done. rewrite filter_cons_True by done. rewrite filter_nil.
  cbn [join String.concat]. change ("/" +:+ f) with (String "/" f).
  assert (Hs : startsWith (dir +:+ String "/" f) "/" = startsWith dir "/").
  { destruct dir as [|c d]; [done|]. cbn [String.append]. by rewrite !startsWith_char. }
  rewrite bool_decide_false by (by destruct dir). unfold normalize. rewrite Hs, split_slash, (split_no_char _ f) by done.
  rewrite fold_left_app. cbn [fold_left].
  assert (Hns : forall a acc, norm_step a acc f = f :: acc) by (intros; unfold norm_step; by rewrite !bool_decide_false).
  rewrite Hns. cbn [rev].
  fold (dir_segments dir). rewrite (plain_not_slash_end _ _ Hf). cbn [andb].
  assert (Hj : join "/" (dir_segments dir ++ [f]) <> "").
  { unfold join. destruct (dir_segments dir) as [|s l]; [done|]. cbn. destruct (l ++ [f]) eqn:E; [by destruct l|].
    intros Hz. apply (f_equal String.length) in Hz. rewrite !str_app_length in Hz. cbn in Hz. lia. }
  rewrite bool_decide_false by done. cbn [andb]. by destruct (startsWith dir "/").
Qed.

(** Writing. *)
Lemma readFile_absent file d : readFile file d = ENOENT -> d !! file = None.
Proof. unfold readFile. by destruct (d !! file) as [[]|]. Qed.

Lemma readFile_exists file d b : readFile file d = Contents b -> file_exists file d = true.
Proof. unfold readFile, file_exists. intros E. apply bool_decide_eq_true. by destruct (d !! file). Qed.

Lemma readFile_same file d d' : d' !! file = d !! file -> readFile file d' = readFile file d.
Proof. unfold readFile. by intros ->. Qed.

(** A write changes no other file; when it fails, its own is as it was or empty. *)
Lemma writeFile_other file b d f : f <> file -> (writeFile file b d).1 !! f = d !! f.
Proof. intros Hf. unfold writeFile. destruct (d !! file) as [[]|]; cbn; by rewrite ?lookup_insert_ne. Qed.

Definition kept_or_emptied (file : string) (d d' : Disk) : Prop := d' !! file = d !! file \/ d' !! file = Some (Full []).

Lemma writeFile_failed file b d d' e : writeFile file b d = (d', Throw e) -> kept_or_emptied file d d'.
Proof. unfold writeFile, kept_or_emptied. destruct (d !! file) as [[]|] eqn:E; intros [= <- <-]; [right; apply lookup_insert_eq|by left]. Qed.

Lemma writeFile_ok file b d d' : writeFile file b d = (d', Ok tt) -> d' = <[file := Regular b]> d.
Proof. unfold writeFile. destruct (d !! file) as [[]|]; by intros [= <-]. Qed.

(** What was written is read back, whatever the fallback. *)
Lemma readJson_written file v fallback d : wf_json v = true -> d !! file = Some (Regular (utf8 (stringify2 v))) ->
  readJson file fallback d = v.
Proof.
  intros Hw Hf. unfold readJson, readFile. by rewrite Hf, utf8_text_utf8, JSON_parse_indented.
Qed.

Lemma config_saved p v d d' : wf_json v = true -> saveConfig p v d = (d', Ok tt) ->
  loadConfig p d' = v /\ forall f, f <> config (paths p) -> d' !! f = d !! f.
Proof.
  intros Hw ->%writeFile_ok. split; [apply readJson_written; [done|apply lookup_insert_eq]|].
  intros f Hf. by rewrite lookup_insert_ne.
Qed.

Lemma path_join_nonempty parts : path_join parts <> "".
Proof.
  unfold path_join. destruct (bool_decide _) eqn:E; [done|]. apply bool_decide_eq_false in E.
  set (s := join "/" _) in *. clearbody s. unfold normalize. destruct (startsWith s "/") eqn:Es; [done|].
  set (b := join "/" (rev _)). clearbody b. destruct (bool_decide (b = "")) eqn:Eb; cbn [andb negb].
  - destruct (endsWith s "/"); [done|done].
  - apply bool_decide_eq_false in Eb. destruct (_ && _); [|done]. by destruct b.
Qed.

(** [path.resolve(value)]: absolute, without a trailing slash. *)
Definition resolve (p : Process) (value : string) : string :=
  let full := if isAbsolute value then value else cwd p +:+ "/" +:+ value in
  "/" +:+ join "/" (rev (fold_left (norm_step true) (split "/" full) [])).
