(* ===== verification/Paseto.v ===== *)
(** * PASETO v4.public tokens (tickets/paseto.ts) *)

From S2P Require Import Prelude Text Base64 Crypto.
Local Open Scope Z_scope.

Definition HEADER : string := "v4.public.".
Definition HEADER_BYTES : buffer := utf8 HEADER.
Definition SIG_LEN : nat := 64.

Fixpoint le64_loop (n : nat) (value : Z) : buffer :=
  match n with
  | O => []
  | S n' => byte_of_Z (value mod 256) :: le64_loop n' (value / 256)
  end.

Definition le64 (n : Z) : buffer :=
  alter (fun b => byte_of_Z (Z.land (Z_of_byte b) 0x7f)) 7%nat (le64_loop 8 n).

Definition pae (pieces : list buffer) : buffer :=
  le64 (Z.of_nat (length pieces)) ++
  concat (map (fun piece => le64 (Z.of_nat (length piece)) ++ piece) pieces).

Record VerifiedToken := { vt_message : buffer; vt_footer : buffer }.

#[export] Instance VerifiedToken_eq_dec : EqDecision VerifiedToken.
Proof. solve_decision. Defined.

Section Paseto.
Context `{Signing}.

Definition signV4Public (m : buffer) (secretKey : SecretKey) (f i : buffer) : string :=
  let sig := sign secretKey (pae [HEADER_BYTES; m; f; i]) in
  let token := HEADER +:+ toBase64url (m ++ sig) in
  if bool_decide (f = []) then token else token +:+ "." +:+ toBase64url f.

Definition verifyV4Public (token : string) (publicKey : PublicKey) (i : buffer) : result VerifiedToken :=
  throw_if (negb (startsWith token HEADER)) (PlainError "paseto: unsupported header");;
  let parts := split "." token in
  throw_if (negb (length parts =? 3)%nat && negb (length parts =? 4)%nat)
           (PlainError "paseto: malformed token");;
  let body := fromBase64 (default "" (parts !! 2%nat)) in
  throw_if (length body <? SIG_LEN)%nat (PlainError "paseto: token too short");;
  let m := subarray 0 (length body - SIG_LEN) body in
  let sig := drop (length body - SIG_LEN) body in
  let f := if (length parts =? 4)%nat then fromBase64 (default "" (parts !! 3%nat)) else [] in
  throw_if (negb (verify publicKey (pae [HEADER_BYTES; m; f; i]) sig)) (PlainError "paseto: bad signature");;
  Ok {| vt_message := m; vt_footer := f |}.
End Paseto.

#[global] Arguments le64 : simpl never.

(** ** Lemmas *)

Lemma le64_loop_length n v : length (le64_loop n v) = n.
Proof. revert v; induction n; intros; cbn; [done|]. by rewrite IHn. Qed.

Lemma le64_length n : length (le64 n) = 8%nat.
Proof. unfold le64. by rewrite length_alter, le64_loop_length. Qed.

Lemma le64_loop_inj n a b :
  0 <= a < 256 ^ Z.of_nat n -> 0 <= b < 256 ^ Z.of_nat n -> le64_loop n a = le64_loop n b -> a = b.
Proof.
  revert a b; induction n as [|n IH]; intros a b; [cbn; lia|].
  rewrite Nat2Z.inj_succ, Z.pow_succ_r by lia. intros Ha Hb. cbn [le64_loop]. intros [= H1 H2].
  apply IH in H2; [|Z.to_euclidean_division_equations; nia..].
  apply (f_equal Z_of_byte) in H1. rewrite !Z_of_byte_of_Z, !Z.mod_mod in H1 by lia.
  rewrite (Z.div_mod a 256), (Z.div_mod b 256) by lia. congruence.
Qed.

(** Below 2^63 the cleared bit is already clear. *)
Lemma le64_plain n : 0 <= n < 2 ^ 63 -> le64 n = le64_loop 8 n.
Proof.
  intros Hn. unfold le64.
  change (le64_loop 8 n) with (le64_loop 8 n : list byte). cbn [le64_loop].
  cbn [alter list_alter]. do 7 (apply (f_equal2 cons); [done|]). apply (f_equal2 cons); [|done].
  apply Z_of_byte_inj. rewrite !Z_of_byte_of_Z, Z.mod_mod by lia.
  change 0x7f with (Z.ones 7). rewrite Z.land_ones by lia.
  Z.to_euclidean_division_equations; lia.
Qed.

Lemma le64_inj a b : 0 <= a < 2 ^ 63 -> 0 <= b < 2 ^ 63 -> le64 a = le64 b -> a = b.
Proof.
  intros Ha Hb. rewrite !le64_plain by done. apply le64_loop_inj; cbn; lia.
Qed.

Definition size_ok (b : buffer) : Prop := Z.of_nat (length b) < 2 ^ 63.

Lemma pae_items_inj l1 l2 :
  length l1 = length l2 -> Forall size_ok l1 -> Forall size_ok l2 ->
  concat (map (fun piece => le64 (Z.of_nat (length piece)) ++ piece) l1) =
  concat (map (fun piece => le64 (Z.of_nat (length piece)) ++ piece) l2) -> l1 = l2.
Proof.
  revert l2; induction l1 as [|a l1 IH]; intros [|b l2] Hl H1 H2; try done.
  injection Hl as Hl. cbn [map concat].
  apply Forall_cons in H1 as [Ha H1]. apply Forall_cons in H2 as [Hb H2].
  rewrite <- !app_assoc. intros [E1 E2]%app_inj_1; [|by rewrite !le64_length].
  apply le64_inj in E1; [|unfold size_ok in *; lia..].
  apply app_inj_1 in E2 as [-> E3]; [|lia]. f_equal. by apply IH.
Qed.

Lemma b64url_no_char b : no_char "." (toBase64url b).
Proof.
  pose proof (b64url_no_dot b) as Hd. induction (toBase64url b) as [|c s IH]; [done|].
  apply no_char_cons. split.
  - intros ->. by apply (Hd 0%nat).
  - apply IH. intros i. apply (Hd (S i)).
Qed.

Lemma toBase64url_nonempty b : b <> [] -> toBase64url b <> "".
Proof. by destruct b as [|x [|y [|z b]]]. Qed.

(** The dot-separated parts of a token built by [signV4Public]. *)
Lemma token_parts3 t : no_char "." t -> split "." (HEADER +:+ t) = ["v4"; "public"; t].
Proof. intros Ht. unfold HEADER. cbn. by rewrite split_no_char. Qed.

Lemma token_parts4 t u : no_char "." t -> no_char "." u ->
  split "." (HEADER +:+ t +:+ "." +:+ u) = ["v4"; "public"; t; u].
Proof. intros Ht Hu. unfold HEADER. cbn. by rewrite split_app, split_no_char. Qed.

Section PasetoTheorems.
Context `{Signing}.

(** What a successful verification establishes. *)
Lemma verifyV4Public_sound token pk i v :
  verifyV4Public token pk i = Ok v ->
  exists sig, length sig = SIG_LEN /\
    verify pk (pae [HEADER_BYTES; vt_message v; vt_footer v; i]) sig = true.
Proof.
  unfold verifyV4Public. intros Hv. inv_ok. cbn. apply negb_false_iff in Hm2.
  eexists. split; [|exact Hm2].
  apply Nat.ltb_ge in Hm1. rewrite length_drop. unfold SIG_LEN in *. lia.
Qed.

Lemma verify_signed `{!SigningLaws} m sk f i :
  verifyV4Public (signV4Public m sk f i) (public_of sk) i =
  Ok {| vt_message := m; vt_footer := f |}.
Proof.
  unfold verifyV4Public, signV4Public.
  set (sig := sign sk _). set (body := toBase64url (m ++ sig)).
  assert (Hs : length sig = 64%nat) by apply sign_length.
  assert (Hb : fromBase64 body = m ++ sig) by apply fromBase64_toBase64url.
  assert (Hl : length (m ++ sig) = (length m + 64)%nat) by (rewrite length_app; lia).
  set (tok := if bool_decide (f = []) then _ else _).
  assert (Hparts : split "." tok = if bool_decide (f = []) then ["v4"; "public"; body]
                                   else ["v4"; "public"; body; toBase64url f]).
  { unfold tok. case_bool_decide; [apply token_parts3|apply token_parts4]; apply b64url_no_char. }
  assert (Hst : startsWith tok HEADER = true).
  { unfold tok. case_bool_decide; rewrite ?str_app_assoc; apply startsWith_app. }
  rewrite Hst, Hparts. unfold throw_if.
  case_bool_decide as Hf; cbn -[pae fromBase64 SIG_LEN verify HEADER_BYTES Nat.ltb];
    rewrite ?Hb, ?fromBase64_toBase64url, Hl;
    rewrite (proj2 (Nat.ltb_ge _ _)) by (unfold SIG_LEN; lia);
    replace (length m + 64 - SIG_LEN)%nat with (length m) by (unfold SIG_LEN; lia);
    rewrite subarray_here, drop_app_length by done; subst;
    cbn -[pae verify HEADER_BYTES]; unfold sig; by rewrite verify_sign.
Qed.
End PasetoTheorems.

(** ** Properties *)

(** The pre-authentication encoding is injective on pieces shorter than
    2^63 bytes: what is signed determines header, message, footer and implicit
    assertion. *)
Theorem pae_injective (l1 l2 : list buffer) :
  Forall size_ok l1 -> Forall size_ok l2 -> Z.of_nat (length l1) < 2 ^ 63 ->
  Z.of_nat (length l2) < 2 ^ 63 -> pae l1 = pae l2 -> l1 = l2.
Proof.
  intros H1 H2 Hl1 Hl2. unfold pae. intros [E1 E2]%app_inj_1; [|by rewrite !le64_length].
  apply le64_inj in E1; [|lia..]. apply pae_items_inj; auto. lia.
Qed.

Lemma pae_injective_witness : pae [[Byte.x01]; []] = pae [[Byte.x01]; []] /\ [[Byte.x01]; []] = [[Byte.x01]; @nil byte].
Proof.
  split; [reflexivity|].
  apply (pae_injective [[Byte.x01]; []] [[Byte.x01]; []]);
    [repeat constructor..|reflexivity|reflexivity|reflexivity].
Defined.

(** A token signed with a key verifies under the matching public key and the
    same implicit assertion, and returns exactly the message and footer. *)
Theorem paseto_roundtrip `{SigningLaws} (m f i : buffer) (sk : SecretKey) :
  verifyV4Public (signV4Public m sk f i) (public_of sk) i =
  Ok {| vt_message := m; vt_footer := f |}.
Proof. apply verify_signed. Qed.

Lemma paseto_roundtrip_witness :
  verifyV4Public (H := Toy.signing) (signV4Public (H := Toy.signing) (utf8 "hi") 7 (utf8 "kid") []) 7 [] =
  Ok {| vt_message := utf8 "hi"; vt_footer := utf8 "kid" |}.
Proof. apply (@paseto_roundtrip Toy.signing Toy.signing_laws (utf8 "hi") (utf8 "kid") [] 7). Defined.
