(* ===== verification/Ticket.v ===== *)
(** * Routing tickets (tickets/ticket.ts)

    The claims the orchestrator signs and the node verifies, over the PASETO
    core.  Clock readings and options are integers; [clock] is the value of
    [Date.now()] in milliseconds. *)

From S2P Require Import Prelude Text Json JsonText Crypto Paseto.
Local Open Scope Z_scope.

Definition TICKET_ISSUER : string := "consensus-orchestrator".
Definition TICKET_SCOPE_PROXY : string := "proxy".
Definition DEFAULT_TTL_SEC : Z := 60.
Definition DEFAULT_CLOCK_TOLERANCE_SEC : Z := 5.

(** [Math.floor(Date.now() / 1000)]. *)
Definition unix_seconds (clock : Z) : Z := clock / 1000.

Record TicketClaims := {
  iss : string; aud : string; sub : string; scope : string;
  iat : num; exp : num; jti : string }.

Record IssueTicketInput := {
  in_nodeId : string; in_dedupeKey : string; in_jti : string;
  in_ttlSec : option Z; in_scope : option string; in_now : option Z }.

Record VerifyTicketOptions := {
  expectedNodeId : string; expectedScope : option string;
  now : option Z; clockToleranceSec : option Z }.

(** [kid] is whatever JSON value the footer carries, [JNull] by default. *)
Record VerifiedTicket := { vk_claims : TicketClaims; vk_kid : json }.

Definition claims_json (c : TicketClaims) : json :=
  JObj [("iss", JStr (iss c)); ("aud", JStr (aud c)); ("sub", JStr (sub c));
        ("scope", JStr (scope c)); ("iat", JNum (iat c)); ("exp", JNum (exp c));
        ("jti", JStr (jti c))].

Definition kid_json (kid : string) : json := JObj [("kid", JStr kid)].

Definition issue_claims (clock : Z) (input : IssueTicketInput) : TicketClaims :=
  let now := default (unix_seconds clock) (in_now input) in
  {| iss := TICKET_ISSUER;
     aud := in_nodeId input;
     sub := in_dedupeKey input;
     scope := default TICKET_SCOPE_PROXY (in_scope input);
     iat := num_of_Z now;
     exp := num_of_Z (now + default DEFAULT_TTL_SEC (in_ttlSec input));
     jti := in_jti input |}.

(** [v.k] on a parsed value; reading a property of [null] throws. *)
Definition member (k : string) (v : json) : result (option json) :=
  match v with
  | JNull => Throw (TypeError "null is not an object")
  | _ => Ok (get k v)
  end.

Definition is_str (v : option json) (s : string) : bool := bool_decide (v = Some (JStr s)).

(** [typeof v !== "number" || bad v]. *)
Definition check_num (v : option json) (bad : num -> bool) (e : exn) : result num :=
  match as_num v with
  | Some n => if bad n then Throw e else Ok n
  | None => Throw e
  end.

(** [typeof v !== "string" || !v]. *)
Definition check_text (v : option json) (e : exn) : result string :=
  match as_string v with
  | Some s => if bool_decide (s = "") then Throw e else Ok s
  | None => Throw e
  end.

(** The claim checks, in the order of the code. *)
Definition check_claims (t skew : Z) (wanted_aud wanted_scope : string) (c : json) : result TicketClaims :=
  i ← member "iss" c;
  throw_if (negb (is_str i TICKET_ISSUER)) (PlainError "ticket: bad issuer");;
  a ← member "aud" c;
  throw_if (negb (is_str a wanted_aud)) (PlainError "ticket: audience mismatch");;
  s ← member "scope" c;
  throw_if (negb (is_str s wanted_scope)) (PlainError "ticket: scope mismatch");;
  e ← member "exp" c;
  e ← check_num e (fun n => num_ltb (num_add n (num_of_Z skew)) (num_of_Z t)) (PlainError "ticket: expired");
  ia ← member "iat" c;
  ia ← check_num ia (fun n => num_ltb (num_of_Z (t + skew)) n) (PlainError "ticket: issued in the future");
  j ← member "jti" c;
  j ← check_text j (PlainError "ticket: missing jti");
  su ← member "sub" c;
  su ← check_text su (PlainError "ticket: missing subject");
  Ok {| iss := TICKET_ISSUER; aud := wanted_aud; sub := su; scope := wanted_scope;
        iat := ia; exp := e; jti := j |}.

(** [footer.length ? (try JSON.parse(footer).kid ?? null) : null]. *)
Definition footer_kid (footer : buffer) : json :=
  if bool_decide (footer = []) then JNull
  else match JSON_parse (utf8_text footer) ≫= member "kid" with
       | Ok (Some k) => k
       | Ok None | Throw _ => JNull
       end.

Section Ticket.
Context `{Signing}.

Definition issueTicket (clock : Z) (input : IssueTicketInput) (secretKey : SecretKey) (kid : string) : string :=
  signV4Public (utf8 (stringify (claims_json (issue_claims clock input)))) secretKey
    (utf8 (stringify (kid_json kid))) (utf8 (in_nodeId input)).

Definition verifyTicket (clock : Z) (token : string) (publicKey : PublicKey) (opts : VerifyTicketOptions)
  : result VerifiedTicket :=
  v ← verifyV4Public token publicKey (utf8 (expectedNodeId opts));
  c ← match JSON_parse (utf8_text (vt_message v)) with
      | Ok c => Ok c
      | Throw _ => Throw (PlainError "ticket: malformed claims")
      end;
  let t := default (unix_seconds clock) (now opts) in
  let skew := default DEFAULT_CLOCK_TOLERANCE_SEC (clockToleranceSec opts) in
  let wanted := default TICKET_SCOPE_PROXY (expectedScope opts) in
  claims ← check_claims t skew (expectedNodeId opts) wanted c;
  Ok {| vk_claims := claims; vk_kid := footer_kid (vt_footer v) |}.
End Ticket.

(** ** Lemmas *)

Lemma member_ok k v r : member k v = Ok r -> r = get k v.
Proof. destruct v; cbn; intros H; inv_ok; done. Qed.

Lemma check_num_ok v bad e n : check_num v bad e = Ok n <-> v = Some (JNum n) /\ bad n = false.
Proof.
  unfold check_num, as_num. destruct v as [[]|]; try naive_solver.
  destruct (bad n0) eqn:E; split; intros; destruct_and?; inv_ok; try done; naive_solver congruence.
Qed.

Lemma check_text_ok v e s : check_text v e = Ok s <-> v = Some (JStr s) /\ s <> "".
Proof.
  unfold check_text, as_string. destruct v as [[]|]; try naive_solver.
  case_bool_decide; naive_solver.
Qed.

(** The claims a token must carry to be accepted at time [t]. *)
Record claims_accepted (t skew : Z) (wanted_aud wanted_scope : string) (c : json) (r : TicketClaims) : Prop := {
  ca_iss : get "iss" c = Some (JStr TICKET_ISSUER);
  ca_aud : get "aud" c = Some (JStr wanted_aud);
  ca_scope : get "scope" c = Some (JStr wanted_scope);
  ca_exp : get "exp" c = Some (JNum (exp r));
  ca_live : num_ltb (num_add (exp r) (num_of_Z skew)) (num_of_Z t) = false;
  ca_iat : get "iat" c = Some (JNum (iat r));
  ca_past : num_ltb (num_of_Z (t + skew)) (iat r) = false;
  ca_jti : get "jti" c = Some (JStr (jti r));
  ca_jti_ne : jti r <> "";
  ca_sub : get "sub" c = Some (JStr (sub r));
  ca_sub_ne : sub r <> "";
  ca_fixed : iss r = TICKET_ISSUER /\ aud r = wanted_aud /\ scope r = wanted_scope }.

Lemma check_claims_spec t skew wa ws c r :
  check_claims t skew wa ws c = Ok r <-> claims_accepted t skew wa ws c r.
Proof.
  unfold check_claims. split.
  - intros Hc. inv_ok.
    repeat match goal with H : member _ _ = Ok _ |- _ => apply member_ok in H; subst end.
    repeat match goal with
      | H : check_num _ _ _ = Ok _ |- _ => apply check_num_ok in H as [? ?]
      | H : check_text _ _ = Ok _ |- _ => apply check_text_ok in H as [? ?]
      | H : negb (is_str _ _) = false |- _ => apply negb_false_iff, bool_decide_eq_true in H end.
    by split.
  - intros []. destruct c; try done.
    cbn [member mbind result_bind] in *.
    unfold is_str. rewrite ca_iss0, ca_aud0, ca_scope0, ca_exp0, ca_iat0, ca_jti0, ca_sub0.
    rewrite !bool_decide_true by done. cbn [negb throw_if mbind result_bind check_num as_num].
    rewrite ca_live0, ca_past0. unfold check_text. cbn [as_string].
    rewrite !bool_decide_false by done. destruct ca_fixed0 as (E1 & E2 & E3).
    destruct r; cbn in *; by subst.
Qed.

Section TicketLemmas.
Context `{Signing}.

Lemma verifyTicket_inv clock token pk opts v :
  verifyTicket clock token pk opts = Ok v ->
  exists m c, verifyV4Public token pk (utf8 (expectedNodeId opts)) = Ok m /\
    JSON_parse (utf8_text (vt_message m)) = Ok c /\
    claims_accepted (default (unix_seconds clock) (now opts))
      (default DEFAULT_CLOCK_TOLERANCE_SEC (clockToleranceSec opts))
      (expectedNodeId opts) (default TICKET_SCOPE_PROXY (expectedScope opts)) c (vk_claims v) /\
    vk_kid v = footer_kid (vt_footer m).
Proof.
  unfold verifyTicket. intros Hv. inv_ok. exists r.
  destruct (JSON_parse _) as [c|] eqn:E; [|done]. inv_ok.
  exists r0. rewrite check_claims_spec in Hm1. done.
Qed.

Lemma verifyTicket_ok clock token pk opts m f c r :
  verifyV4Public token pk (utf8 (expectedNodeId opts)) = Ok {| vt_message := m; vt_footer := f |} ->
  JSON_parse (utf8_text m) = Ok c ->
  check_claims (default (unix_seconds clock) (now opts))
    (default DEFAULT_CLOCK_TOLERANCE_SEC (clockToleranceSec opts))
    (expectedNodeId opts) (default TICKET_SCOPE_PROXY (expectedScope opts)) c = Ok r ->
  verifyTicket clock token pk opts = Ok {| vk_claims := r; vk_kid := footer_kid f |}.
Proof.
  intros Hv Hp Hc. unfold verifyTicket. rewrite Hv. cbn [mbind result_bind vt_message vt_footer].
  rewrite Hp. cbn [mbind result_bind]. by rewrite Hc.
Qed.
End TicketLemmas.

Lemma wf_claims c : canonical_num (iat c) = true -> canonical_num (exp c) = true ->
  wf_json (claims_json c) = true.
Proof.
  intros H1 H2. unfold claims_json. cbn [wf_json forallb snd].
  rewrite bool_decide_true by reflexivity. by rewrite H1, H2.
Qed.

Lemma wf_kid kid : wf_json (kid_json kid) = true.
Proof. unfold kid_json. cbn [wf_json forallb snd]. by rewrite bool_decide_true by reflexivity. Qed.

Lemma footer_kid_json kid : footer_kid (utf8 (stringify (kid_json kid))) = JStr kid.
Proof.
  unfold footer_kid. case_bool_decide as E.
  - apply (f_equal utf8_text) in E. rewrite utf8_text_utf8 in E. discriminate E.
  - by rewrite utf8_text_utf8, JSON_parse_stringify by apply wf_kid.
Qed.

Lemma JSON_parse_claims c : canonical_num (iat c) = true -> canonical_num (exp c) = true ->
  JSON_parse (stringify (claims_json c)) = Ok (claims_json c).
Proof. intros. by apply JSON_parse_stringify, wf_claims. Qed.

Lemma issue_claims_pass clock input t skew :
  in_jti input <> "" -> in_dedupeKey input <> "" ->
  default (unix_seconds clock) (in_now input) - skew <= t ->
  t <= default (unix_seconds clock) (in_now input) + default DEFAULT_TTL_SEC (in_ttlSec input) + skew ->
  check_claims t skew (in_nodeId input) (default TICKET_SCOPE_PROXY (in_scope input))
    (claims_json (issue_claims clock input)) = Ok (issue_claims clock input).
Proof.
  intros Hj Hd Hlo Hhi. apply check_claims_spec.
  split; cbn [issue_claims iss aud scope exp iat sub jti]; try done.
  - rewrite num_add_Z, num_ltb_Z. apply Z.ltb_ge. lia.
  - rewrite num_ltb_Z. apply Z.ltb_ge. lia.
Qed.

(** ** Properties *)

(** A ticket issued for a node verifies at that node, under the issuing key,
    at every time from [iat - skew] to [exp + skew] inclusive, and verification
    returns exactly the issued claims and key id. *)
Theorem ticket_issue_verify `{SigningLaws} (clock clock' : Z) (input : IssueTicketInput)
    (sk : SecretKey) (kid : string) (opts : VerifyTicketOptions) (t skew : Z) :
  t = default (unix_seconds clock') (now opts) ->
  skew = default DEFAULT_CLOCK_TOLERANCE_SEC (clockToleranceSec opts) ->
  expectedNodeId opts = in_nodeId input ->
  default TICKET_SCOPE_PROXY (expectedScope opts) = default TICKET_SCOPE_PROXY (in_scope input) ->
  in_jti input <> "" -> in_dedupeKey input <> "" ->
  small_num (default (unix_seconds clock) (in_now input)) ->
  small_num (default (unix_seconds clock) (in_now input) + default DEFAULT_TTL_SEC (in_ttlSec input)) ->
  default (unix_seconds clock) (in_now input) - skew <= t ->
  t <= default (unix_seconds clock) (in_now input) + default DEFAULT_TTL_SEC (in_ttlSec input) + skew ->
  verifyTicket clock' (issueTicket clock input sk kid) (public_of sk) opts =
  Ok {| vk_claims := issue_claims clock input; vk_kid := JStr kid |}.
Proof.
  intros Et Es Hn Hsc Hj Hd Hs1 Hs2 Hlo Hhi. rewrite <- (footer_kid_json kid).
  eapply verifyTicket_ok.
  - rewrite Hn. apply verify_signed.
  - cbn [vt_message]. rewrite utf8_text_utf8. by apply JSON_parse_claims; apply canonical_small.
  - rewrite <- Et, <- Es, Hsc, Hn. by apply issue_claims_pass.
Qed.

Definition demo_input : IssueTicketInput :=
  {| in_nodeId := "node-1"; in_dedupeKey := "abc"; in_jti := "j1"; in_ttlSec := None;
     in_scope := None; in_now := Some 1000 |}.
Definition demo_opts (t : Z) : VerifyTicketOptions :=
  {| expectedNodeId := "node-1"; expectedScope := None; now := Some t; clockToleranceSec := None |}.

Lemma ticket_issue_verify_witness :
  @verifyTicket Toy.signing 0 (@issueTicket Toy.signing 0 demo_input 7 "k1") 7 (demo_opts 1065) =
  Ok {| vk_claims := issue_claims 0 demo_input; vk_kid := JStr "k1" |}.
Proof.
  apply (@ticket_issue_verify Toy.signing Toy.signing_laws 0 0 demo_input 7 "k1" (demo_opts 1065) 1065 5);
    try reflexivity; try discriminate.
Defined.

(** Soundness of verification: an accepted token carries a valid signature
    over its claims bound to this node, and its claims pass every check (issuer,
    audience, scope, expiry, issue time, non-empty id and subject). *)
Theorem verifyTicket_sound `{Signing} (clock : Z) (token : string) (pk : PublicKey)
    (opts : VerifyTicketOptions) (v : VerifiedTicket) :
  verifyTicket clock token pk opts = Ok v ->
  exists message footer sig c,
    verify pk (pae [HEADER_BYTES; message; footer; utf8 (expectedNodeId opts)]) sig = true /\
    length sig = SIG_LEN /\ JSON_parse (utf8_text message) = Ok c /\
    claims_accepted (default (unix_seconds clock) (now opts))
      (default DEFAULT_CLOCK_TOLERANCE_SEC (clockToleranceSec opts))
      (expectedNodeId opts) (default TICKET_SCOPE_PROXY (expectedScope opts)) c (vk_claims v).
Proof.
  intros (m & c & Hm & Hc & Ha & _)%verifyTicket_inv.
  apply verifyV4Public_sound in Hm as (sig & Hl & Hv). by exists (vt_message m), (vt_footer m), sig, c.
Qed.

Lemma verifyTicket_sound_witness :
  exists message footer sig c,
    @verify Toy.signing 7 (pae [HEADER_BYTES; message; footer; utf8 "node-1"]) sig = true /\
    length sig = SIG_LEN /\ JSON_parse (utf8_text message) = Ok c /\
    claims_accepted 1065 5 "node-1" "proxy" c (issue_claims 0 demo_input).
Proof.
  apply (@verifyTicket_sound Toy.signing 0 (@issueTicket Toy.signing 0 demo_input 7 "k1") 7 (demo_opts 1065)
    {| vk_claims := issue_claims 0 demo_input; vk_kid := JStr "k1" |}).
  vm_compute. reflexivity.
Defined.
