(* ===== verification/Replay.v ===== *)
(** * The single-use cache of ticket ids (tickets/replay.ts)

    A JavaScript [Map] iterates in insertion order: the cache is the list of its
    entries, oldest first. *)

From S2P Require Import Prelude Json.
Local Open Scope Z_scope.

Definition SWEEP_INTERVAL_SEC : Z := 30.

Record JtiReplayCache := {
  seen : list (string * num);
  lastSweep : Z;
  maxEntries : Z }.

Definition new_cache (max : Z) : JtiReplayCache := {| seen := []; lastSweep := 0; maxEntries := max |}.

Definition with_seen (l : list (string * num)) (c : JtiReplayCache) : JtiReplayCache :=
  {| seen := l; lastSweep := lastSweep c; maxEntries := maxEntries c |}.

(** [get size()]. *)
Definition size (c : JtiReplayCache) : Z := Z.of_nat (length (seen c)).

Definition keys (c : JtiReplayCache) : list string := (seen c).*1.

(** Drop the entries with [exp <= now], at most once per interval. *)
Definition sweep (nowSec : Z) (c : JtiReplayCache) : JtiReplayCache :=
  if nowSec - lastSweep c <? SWEEP_INTERVAL_SEC then c
  else {| seen := filter (fun e => num_leb e.2 (num_of_Z nowSec) = false) (seen c);
          lastSweep := nowSec; maxEntries := maxEntries c |}.

(** The eviction loop: oldest first while the map is at or over its bound. *)
Fixpoint evict (max : Z) (l : list (string * num)) : list (string * num) :=
  if max <=? Z.of_nat (length l) then
    match l with
    | [] => []
    | _ :: l' => evict max l'
    end
  else l.

Definition consume (jti : string) (expSec : num) (nowSec : Z) (c : JtiReplayCache) : bool * JtiReplayCache :=
  let c := sweep nowSec c in
  if bool_decide (jti ∈ keys c) then (false, c)
  else (true, with_seen (evict (maxEntries c) (seen c) ++ [(jti, expSec)]) c).

(** A run of [consume] calls; the boolean says whether the call was fresh. *)
Record call := { c_jti : string; c_exp : num; c_now : Z }.

Fixpoint run (calls : list call) (c : JtiReplayCache) : list bool * JtiReplayCache :=
  match calls with
  | [] => ([], c)
  | k :: calls =>
      let '(b, c1) := consume (c_jti k) (c_exp k) (c_now k) c in
      let '(bs, c2) := run calls c1 in (b :: bs, c2)
  end.

(** ** Invariant: distinct ids, within the bound *)

Definition cache_ok (c : JtiReplayCache) : Prop :=
  NoDup (keys c) /\ size c <= Z.max 1 (maxEntries c).

(** [evict] keeps a suffix. *)
Lemma evict_suffix max l : exists n, evict max l = drop n l /\
  (Z.of_nat (length (evict max l)) < max \/ evict max l = []).
Proof.
  induction l as [|x l IH]; cbn [evict].
  - exists 0%nat. destruct (_ <=? _) eqn:E; auto.
  - destruct (_ <=? _) eqn:E.
    + destruct IH as (n & H1 & H2). exists (S n). auto.
    + exists 0%nat. bool_solve. split; [done|]. left. lia.
Qed.

Lemma evict_room max l x : Z.of_nat (length (evict max l ++ [x])) <= Z.max 1 max.
Proof.
  destruct (evict_suffix max l) as (n & _ & [H| ->]); [|cbn; lia].
  rewrite length_app. cbn. lia.
Qed.

Lemma evict_subset max l x : x ∈ evict max l -> x ∈ l.
Proof.
  destruct (evict_suffix max l) as (n & -> & _). intros (i & Hi)%list_elem_of_lookup.
  rewrite lookup_drop in Hi. eauto using list_elem_of_lookup_2.
Qed.

Lemma evict_keys_NoDup max l : NoDup l.*1 -> NoDup (evict max l).*1.
Proof.
  destruct (evict_suffix max l) as (n & -> & _). rewrite fmap_drop.
  intros H. eapply sublist_NoDup; [exact H|]. apply sublist_drop.
Qed.

Lemma sweep_max now c : maxEntries (sweep now c) = maxEntries c.
Proof. unfold sweep. by destruct (_ <? _). Qed.

Lemma sweep_keys_subset now c j : j ∈ keys (sweep now c) -> j ∈ keys c.
Proof.
  unfold sweep, keys. destruct (_ <? _); [done|]. cbn.
  intros (e & -> & He)%list_elem_of_fmap. apply list_elem_of_filter in He as [_ He].
  by apply list_elem_of_fmap_2.
Qed.

Lemma sweep_ok now c : cache_ok c -> cache_ok (sweep now c).
Proof.
  intros [H1 H2]. unfold cache_ok. rewrite sweep_max. unfold sweep.
  destruct (_ <? _); [done|]. unfold keys, size in *; cbn. split.
  - eapply sublist_NoDup; [exact H1|]. apply fmap_sublist. apply sublist_filter.
  - pose proof (length_filter (fun e : string * num => num_leb e.2 (num_of_Z now) = false) (seen c)). lia.
Qed.

Lemma consume_ok jti e now c : cache_ok c -> cache_ok (consume jti e now c).2.
Proof.
  intros H%(sweep_ok now). unfold consume. case_bool_decide as Hj; [done|].
  destruct H as [Hd Hs]. split; [|apply evict_room].
  unfold keys in *; cbn. rewrite fmap_app. apply NoDup_app. split_and!.
  - by apply evict_keys_NoDup.
  - intros x (y & -> & Hy)%list_elem_of_fmap. cbn. rewrite list_elem_of_singleton.
    intros E. apply Hj. rewrite <- E. apply list_elem_of_fmap_2. by eapply evict_subset.
  - apply NoDup_singleton.
Qed.

Lemma run_ok calls c : cache_ok c -> cache_ok (run calls c).2.
Proof.
  revert c; induction calls as [|k calls IH]; intros c H; cbn; [done|].
  pose proof (consume_ok (c_jti k) (c_exp k) (c_now k) c H) as H1.
  destruct (consume _ _ _ c) as [b c1]. specialize (IH c1 H1).
  by destruct (run calls c1).
Qed.

(** ** An accepted id stays recorded *)

(** [j] is recorded with expiry [e], with at most [k] newer entries. *)
Definition tracked (j : string) (e : num) (k : Z) (c : JtiReplayCache) : Prop :=
  exists l1 l2, seen c = l1 ++ (j, e) :: l2 /\ Z.of_nat (length l2) <= k.

Lemma tracked_mono j e k k' c : k <= k' -> tracked j e k c -> tracked j e k' c.
Proof. intros H (l1 & l2 & E & Hl). exists l1, l2. split; [done|lia]. Qed.

Lemma tracked_key j e k c : tracked j e k c -> j ∈ keys c.
Proof.
  intros (l1 & l2 & E & _). unfold keys. rewrite E, fmap_app. cbn. set_solver.
Qed.

Lemma not_leb_of_ltb a b : num_ltb a b = true -> num_leb b a = false.
Proof.
  unfold num_leb. intros H. rewrite (num_ltb_antisym _ _ H). cbn.
  destruct a as [|[]|], b as [|[]|]; cbn in *; try done. bool_solve. apply Z.eqb_neq. lia.
Qed.

Lemma sweep_tracked j e k now c :
  num_ltb (num_of_Z now) e = true -> tracked j e k c -> tracked j e k (sweep now c).
Proof.
  intros Hn (l1 & l2 & E & Hl). unfold sweep. destruct (_ <? _); [by exists l1, l2|].
  unfold tracked. cbn [seen]. rewrite E, filter_app, filter_cons_True by (by apply not_leb_of_ltb).
  eexists _, _. split; [done|].
  pose proof (length_filter (fun e : string * num => num_leb e.2 (num_of_Z now) = false) l2). lia.
Qed.

Lemma evict_keeps max l1 l2 : Z.of_nat (length l2) < max ->
  exists l1', evict max (l1 ++ l2) = l1' ++ l2.
Proof.
  intros H. induction l1 as [|x l1 (l1' & IH)].
  - exists []. cbn. destruct l2; cbn [evict]; destruct (_ <=? _) eqn:E; bool_solve; try done; lia.
  - cbn [app evict]. destruct (_ <=? _); [by exists l1'|]. by exists (x :: l1).
Qed.

Lemma consume_tracked j e k j' e' now c :
  num_ltb (num_of_Z now) e = true -> tracked j e k c ->
  ((consume j' e' now c).1 = true -> k + 1 < maxEntries c) ->
  tracked j e (if (consume j' e' now c).1 then k + 1 else k) (consume j' e' now c).2.
Proof.
  intros Hn Ht Hk. apply (sweep_tracked _ _ _ _ _ Hn) in Ht. unfold consume in *.
  case_bool_decide as Hj; [done|]. specialize (Hk eq_refl).
  destruct Ht as (l1 & l2 & E & Hl). unfold tracked. cbn [snd fst seen with_seen].
  destruct (evict_keeps (maxEntries (sweep now c)) l1 ((j, e) :: l2)) as (l1' & E').
  { rewrite sweep_max. cbn. lia. }
  rewrite E, E', <- app_assoc. exists l1', (l2 ++ [(j', e')]). split; [done|].
  rewrite length_app. cbn. lia.
Qed.

Lemma consume_max j e now c : maxEntries (consume j e now c).2 = maxEntries c.
Proof. unfold consume. case_bool_decide; cbn; apply sweep_max. Qed.

Lemma run_max calls c : maxEntries (run calls c).2 = maxEntries c.
Proof.
  revert c; induction calls as [|k calls IH]; intros c; cbn; [done|].
  pose proof (consume_max (c_jti k) (c_exp k) (c_now k) c) as Hm.
  destruct (consume _ _ _ c) as [b c1]. specialize (IH c1). destruct (run calls c1). cbn in *. congruence.
Qed.

(** Calls of a run that found their id fresh. *)
Fixpoint accepted (bs : list bool) : Z :=
  match bs with [] => 0 | b :: bs => (if b then 1 else 0) + accepted bs end.

Lemma accepted_nonneg bs : 0 <= accepted bs.
Proof. induction bs as [|[] bs IH]; cbn; lia. Qed.

Lemma run_tracked j e k calls c :
  Forall (fun q => num_ltb (num_of_Z (c_now q)) e = true) calls ->
  k + accepted (run calls c).1 < maxEntries c -> tracked j e k c ->
  tracked j e (k + accepted (run calls c).1) (run calls c).2.
Proof.
  revert k c; induction calls as [|q calls IH]; intros k c Hq Hk Ht; cbn [run] in *.
  - eapply tracked_mono; [|exact Ht]. cbn. lia.
  - apply Forall_cons in Hq as [Hq1 Hq].
    pose proof (consume_max (c_jti q) (c_exp q) (c_now q) c) as Hm.
    pose proof (consume_tracked j e k (c_jti q) (c_exp q) (c_now q) c Hq1 Ht) as Ht1.
    destruct (consume (c_jti q) (c_exp q) (c_now q) c) as [b c1]. cbn [fst snd] in *.
    specialize (IH (if b then k + 1 else k) c1 Hq).
    destruct (run calls c1) as [bs c2]. cbn [fst snd accepted] in *.
    pose proof (accepted_nonneg bs).
    eapply tracked_mono; [|apply IH]; [destruct b; lia|rewrite Hm; destruct b; lia|].
    apply Ht1. intros ->. lia.
Qed.

Lemma consume_fresh j e now c c' : consume j e now c = (true, c') -> tracked j e 0 c'.
Proof.
  unfold consume. case_bool_decide; [done|]. intros [= <-]. unfold tracked. cbn.
  eexists _, []. split; [done|]. cbn. lia.
Qed.

(** ** Properties *)

(** C27: single use: once an id has been accepted, it is refused for as long as
    every clock reading stays below its expiry and fewer than [maxEntries] other
    ids have been accepted since, whatever calls come in between. *)
Theorem jti_single_use (j : string) (e e' : num) (now0 now1 : Z) (calls : list call) (c c1 : JtiReplayCache) :
  consume j e now0 c = (true, c1) ->
  Forall (fun q => num_ltb (num_of_Z (c_now q)) e = true) calls ->
  accepted (run calls c1).1 < maxEntries c ->
  num_ltb (num_of_Z now1) e = true ->
  (consume j e' now1 (run calls c1).2).1 = false.
Proof.
  intros Hc Hq Ha Hn. pose proof (consume_max j e now0 c) as Hm. rewrite Hc in Hm. cbn in Hm.
  apply consume_fresh in Hc.
  pose proof (run_tracked j e 0 calls c1 Hq ltac:(rewrite Hm; lia) Hc) as Ht.
  apply (sweep_tracked _ _ _ now1 _ Hn), tracked_key in Ht.
  unfold consume. by rewrite bool_decide_true.
Qed.

Definition demo_calls : list call :=
  [{| c_jti := "b"; c_exp := num_of_Z 130; c_now := 80 |}; {| c_jti := "c"; c_exp := num_of_Z 150; c_now := 95 |}].

Lemma jti_single_use_witness :
  (consume "a" (num_of_Z 100) 99 (run demo_calls (consume "a" (num_of_Z 100) 50 (new_cache 3)).2).2).1 = false.
Proof.
  apply (jti_single_use "a" (num_of_Z 100) (num_of_Z 100) 50 99 demo_calls (new_cache 3)
           (consume "a" (num_of_Z 100) 50 (new_cache 3)).2); try reflexivity.
  repeat constructor.
Defined.

(** After any sequence of calls on a fresh cache the recorded ids are
    distinct and there are at most [max 1 maxEntries] of them. *)
Theorem replay_cache_bounded (max : Z) (calls : list call) :
  let c := (run calls (new_cache max)).2 in NoDup (keys c) /\ size c <= Z.max 1 max.
Proof.
  cbn zeta. change max with (maxEntries (new_cache max)) at 3. rewrite <- run_max with (calls := calls).
  apply run_ok. split; [constructor|]. unfold size; cbn. lia.
Qed.
