(* ===== verification/Url.v ===== *)
(** * URL objects

    The WHATWG URL parser is a service of the runtime, not code of the
    repository: it is a class.  A parsed URL is the record of the components
    the code reads; assigning the empty string to [hash], [search] or [port]
    clears that component. *)

From S2P Require Import Prelude Text.
Local Open Scope Z_scope.

Record URL := {
  protocol : string; username : string; password : string; hostname : string;
  port : string; pathname : string; search : string; hash : string }.

#[export] Instance URL_eq_dec : EqDecision URL.
Proof. solve_decision. Defined.

Definition with_hostname (h : string) (u : URL) : URL :=
  {| protocol := protocol u; username := username u; password := password u; hostname := h;
     port := port u; pathname := pathname u; search := search u; hash := hash u |}.
Definition with_port (p : string) (u : URL) : URL :=
  {| protocol := protocol u; username := username u; password := password u; hostname := hostname u;
     port := p; pathname := pathname u; search := search u; hash := hash u |}.
Definition with_pathname (p : string) (u : URL) : URL :=
  {| protocol := protocol u; username := username u; password := password u; hostname := hostname u;
     port := port u; pathname := p; search := search u; hash := hash u |}.
Definition with_search (s : string) (u : URL) : URL :=
  {| protocol := protocol u; username := username u; password := password u; hostname := hostname u;
     port := port u; pathname := pathname u; search := s; hash := hash u |}.
Definition with_hash (h : string) (u : URL) : URL :=
  {| protocol := protocol u; username := username u; password := password u; hostname := hostname u;
     port := port u; pathname := pathname u; search := search u; hash := h |}.

(** [u.host]: the port only when it is not the default one. *)
Definition host (u : URL) : string :=
  if bool_decide (port u = "") then hostname u else hostname u +:+ ":" +:+ port u.

Class UrlApi := {
  (** [new URL(s)], [None] when it throws. *)
  new_URL : string -> option URL;
  (** [new URL(s, base)]. *)
  new_URL_at : string -> string -> option URL;
  (** [u.toString()]. *)
  href : URL -> string;
  (** [u.origin]. *)
  origin : URL -> string;
  (** the setters of [protocol], [hostname] and [pathname], which re-parse. *)
  set_protocol : string -> URL -> URL;
  set_hostname : string -> URL -> URL;
  set_pathname : string -> URL -> URL;
  (** [u.searchParams.entries()] as a function of [u.search]. *)
  parse_query : string -> list (string * string);
  (** the query text [searchParams.append] builds. *)
  form_encode : list (string * string) -> string;
  (** [decodeURIComponent], [None] when it throws, and [encodeURIComponent]. *)
  decodeURIComponent : string -> option string;
  encodeURIComponent : string -> string }.

Definition InvalidUrl : exn := TypeError "Invalid URL".

(** ** An instance for the witnesses: [scheme://host[:port]/path[?query][#hash]] *)

Module ToyUrl.
Fixpoint cut (c : ascii) (s : string) : string * option string :=
  match s with
  | EmptyString => ("", None)
  | String d r =>
      if decide (d = c) then ("", Some r)
      else let '(a, b) := cut c r in (String d a, b)
  end.

Definition prefixed (p : string) (o : option string) : string :=
  match o with Some s => if bool_decide (s = "") then "" else p +:+ s | None => "" end.

Definition parse (s : string) : option URL :=
  let '(s, h) := cut "#" s in
  let '(s, q) := cut "?" s in
  match cut ":" s with
  | (scheme, Some (String "/" (String "/" rest))) =>
      let '(authority, path) := cut "/" rest in
      let '(name, port) := cut ":" authority in
      let proto := toLowerCase scheme +:+ ":" in
      let port := default "" port in
      let default_port := bool_decide (proto = "https:" /\ port = "443" \/ proto = "http:" /\ port = "80") in
      if bool_decide (name = "") then None else
      Some {| protocol := proto; username := ""; password := ""; hostname := toLowerCase name;
              port := if default_port then "" else port;
              pathname := "/" +:+ default "" path;
              search := prefixed "?" q; hash := prefixed "#" h |}
  | _ => None
  end.

Definition show_origin (u : URL) : string := protocol u +:+ "//" +:+ host u.

Definition pair_of (s : string) : string * string :=
  let '(k, v) := cut "=" s in (k, default "" v).

#[export] Instance api : UrlApi := {|
  new_URL := parse;
  new_URL_at := fun s base => parse (base +:+ s);
  href := fun u => show_origin u +:+ pathname u +:+ search u +:+ hash u;
  origin := show_origin;
  set_protocol := fun p u => u;
  set_hostname := with_hostname;
  set_pathname := with_pathname;
  parse_query := fun s => if bool_decide (s = "") then [] else map pair_of (split "&" (slice_from 1 s));
  form_encode := fun l => join "&" (map (fun kv => kv.1 +:+ "=" +:+ kv.2) l);
  decodeURIComponent := fun s => Some s;
  encodeURIComponent := fun s => s |}.
End ToyUrl.
