(* ===== verification/Dedupe.v ===== *)
(** * Request deduplication keys (runtime/dedupe.ts)

    The canonical form of a request and its hash.  An object of strings such as
    the headers is the list of its entries in enumeration order. *)

From S2P Require Import Prelude Text Json JsonText Crypto Url.
Local Open Scope Z_scope.

(** [Record<string, string>]. *)
Notation Headers := (list (string * string)).

(** [null] and [undefined] bodies are both [NoBody]. *)
Inductive RequestBody :=
| NoBody
| TextBody (s : string)
| BufferBody (b : buffer)
| JsonBody (j : json).

Record DedupeParams := {
  target_url : string; method : string; headers : Headers;
  body : RequestBody; profile_hash : option string }.

Definition ALLOW_HEADERS : list string := ["accept"; "content-type"].
Definition HASH_HEADERS : list string := ["authorization"; "cookie"].

(** [Object.entries(o).map(...).sort(...)], then [Object.fromEntries]. *)
Fixpoint deepSort (value : json) : json :=
  match value with
  | JArr l => JArr (map deepSort l)
  | JObj l => JObj (fromEntries (sort_by (by_key fst) (map (fun kv => (kv.1, deepSort kv.2)) l)))
  | _ => value
  end.

Definition stableStringify (value : json) : string := stringify (deepSort value).

(** The order of query parameters: by name, then by value. *)
Definition param_ltb (a b : string * string) : bool :=
  if decide (a.1 = b.1) then str_ltb a.2 b.2 else str_ltb a.1 b.1.

Section Url.
Context `{UrlApi}.

Definition canonicalizeUrl (raw : string) : result string :=
  u ← of_option (new_URL raw) InvalidUrl;
  let u := with_hash "" u in
  let u := set_protocol (toLowerCase (protocol u)) u in
  let u := set_hostname (toLowerCase (hostname u)) u in
  let u := if bool_decide (protocol u = "https:" /\ port u = "443") ||
              bool_decide (protocol u = "http:" /\ port u = "80") then with_port "" u else u in
  let params := sort_by param_ltb (parse_query (search u)) in
  let u := with_search (match params with [] => "" | _ => "?" +:+ form_encode params end) u in
  Ok (href u).
End Url.

(** [if (result[k]) ordered[k] = result[k]]. *)
Definition pick (k : string) (result : Headers) : Headers :=
  match assoc k result with
  | Some v => if bool_decide (v = "") then [] else [(k, v)]
  | None => []
  end.

Section Hash.
Context `{Hashing}.

Definition sha256Hex (input : buffer) : string := hex_text (sha256 input).

Definition semantic_step (result : Headers) (kv : string * string) : Headers :=
  let lower := toLowerCase kv.1 in
  if bool_decide (lower ∈ ALLOW_HEADERS) then set_key lower (collapse_spaces (trim kv.2)) result
  else if bool_decide (lower ∈ HASH_HEADERS) then set_key lower (sha256Hex (utf8 kv.2)) result
  else result.

Definition canonicalizeSemanticHeaders (headers : Headers) : Headers :=
  let result := fold_left semantic_step headers [] in
  pick "accept" result ++ pick "authorization" result ++ pick "content-type" result ++ pick "cookie" result.

Definition computeBodyHash (body : RequestBody) : string :=
  match body with
  | NoBody => "no-body"
  | BufferBody b => sha256Hex b
  | TextBody s => sha256Hex (utf8 s)
  | JsonBody j => sha256Hex (utf8 (stableStringify j))
  end.
End Hash.

Definition strings_json (h : Headers) : json := JObj (map (fun kv => (kv.1, JStr kv.2)) h).

(** [profile_hash || undefined]. *)
Definition or_undefined (s : option string) : option string :=
  match s with Some s => if bool_decide (s = "") then None else Some s | None => None end.

Section Dedupe.
Context `{Hashing} `{UrlApi}.

Definition canonical_request (p : DedupeParams) (url : string) : json :=
  obj [("v", Some (JNum (num_of_Z 1)));
       ("scope", Some (JStr "global"));
       ("method", Some (JStr (toUpperCase (method p))));
       ("url", Some (JStr url));
       ("headers", Some (strings_json (canonicalizeSemanticHeaders (headers p))));
       ("body_hash", Some (JStr (computeBodyHash (body p))));
       ("profile_hash", JStr <$> or_undefined (profile_hash p))].

Definition generateDedupeKey (p : DedupeParams) : result string :=
  url ← canonicalizeUrl (target_url p);
  Ok (sha256Hex (utf8 (stableStringify (canonical_request p url)))).
End Dedupe.

(** ** Canonical headers *)

Section HeaderLemmas.
Context `{Hashing}.

Definition semantic (kv : string * string) : bool :=
  bool_decide (toLowerCase kv.1 ∈ ALLOW_HEADERS) || bool_decide (toLowerCase kv.1 ∈ HASH_HEADERS).

(** What a semantic header contributes. *)
Definition semantic_entry (kv : string * string) : string * string :=
  (toLowerCase kv.1,
   if bool_decide (toLowerCase kv.1 ∈ ALLOW_HEADERS) then collapse_spaces (trim kv.2)
   else sha256Hex (utf8 kv.2)).

Lemma semantic_step_entry r kv :
  semantic_step r kv =
  if semantic kv then set_key (semantic_entry kv).1 (semantic_entry kv).2 r else r.
Proof. unfold semantic_step, semantic, semantic_entry. cbn. by repeat case_bool_decide. Qed.

Definition entries (hs : Headers) : Headers := map semantic_entry (filter semantic hs).

Lemma fold_semantic_assoc k hs r :
  NoDup (entries hs).*1 ->
  assoc k (fold_left semantic_step hs r) =
  match assoc k (entries hs) with Some v => Some v | None => assoc k r end.
Proof.
  revert r; induction hs as [|kv hs IH]; intros r; [done|]. unfold entries in *.
  rewrite filter_cons. cbn [fold_left]. rewrite semantic_step_entry.
  destruct (decide (semantic kv)) as [Hs|Hs].
  - apply Is_true_true in Hs as ->. destruct (semantic_entry kv) as [k0 v0] eqn:Ekv.
    cbn [map]. rewrite Ekv. cbn. intros [Hk Hd]%NoDup_cons. rewrite IH, assoc_set_key by done.
    destruct (decide (k = k0)) as [->|]; [|done]. by rewrite (proj2 (assoc_none _ _) Hk).
  - apply Is_true_false in Hs as ->. apply IH.
Qed.

Lemma canonical_headers_perm h1 h2 :
  NoDup (entries h1).*1 -> entries h1 ≡ₚ entries h2 ->
  canonicalizeSemanticHeaders h1 = canonicalizeSemanticHeaders h2.
Proof.
  intros Hd HP. unfold canonicalizeSemanticHeaders, pick. cbn zeta.
  rewrite !fold_semantic_assoc by (by rewrite <- ?HP). cbn [assoc].
  by rewrite !(assoc_perm _ _ _ Hd HP).
Qed.

(** The four possible entries, in alphabetical order. *)
Definition header_shape (h : Headers) : Prop :=
  exists a b c d : option string,
    h = omap (fun kv => pair kv.1 <$> kv.2)
          [("accept", a); ("authorization", b); ("content-type", c); ("cookie", d)].

Lemma pick_shape k r : exists o : option string,
  pick k r = match o with Some v => [(k, v)] | None => [] end.
Proof.
  unfold pick. destruct (assoc k r) as [v|]; [|by exists None].
  case_bool_decide; [by exists None|by exists (Some v)].
Qed.

Lemma canonical_headers_shape h : header_shape (canonicalizeSemanticHeaders h).
Proof.
  unfold canonicalizeSemanticHeaders. cbn zeta. set (r := fold_left _ _ _).
  destruct (pick_shape "accept" r) as [a ->], (pick_shape "authorization" r) as [b ->],
    (pick_shape "content-type" r) as [c ->], (pick_shape "cookie" r) as [d ->].
  exists a, b, c, d. by destruct a, b, c, d.
Qed.
End HeaderLemmas.

(** ** The canonical request as text *)

Definition canonical_fields (m url bh : string) (h : Headers) (ph : option string) : json :=
  JObj ([("body_hash", JStr bh); ("headers", strings_json h); ("method", JStr m)] ++
        match ph with Some p => [("profile_hash", JStr p)] | None => [] end ++
        [("scope", JStr "global"); ("url", JStr url); ("v", JNum (num_of_Z 1))]).

Lemma deepSort_headers h : header_shape h -> deepSort (strings_json h) = strings_json h.
Proof. intros (a & b & c & d & ->). by destruct a, b, c, d. Qed.

Lemma wf_headers h : header_shape h -> wf_json (strings_json h) = true.
Proof.
  intros (a & b & c & d & ->).
  destruct a, b, c, d; unfold strings_json; cbn [map omap list_omap fmap option_fmap option_map fst snd];
    cbn [wf_json forallb snd]; by rewrite bool_decide_true by reflexivity.
Qed.

Lemma strings_json_inj h1 h2 : strings_json h1 = strings_json h2 -> h1 = h2.
Proof.
  intros [= E]. revert h2 E; induction h1 as [|[k v] h1 IH]; intros [|[k' v'] h2]; cbn; try done.
  intros [= -> -> E]. f_equal. by apply IH.
Qed.

Section CanonicalLemmas.
Context `{Hashing} `{UrlApi}.

Lemma deepSort_canonical p url :
  deepSort (canonical_request p url) =
  canonical_fields (toUpperCase (method p)) url (computeBodyHash (body p))
    (canonicalizeSemanticHeaders (headers p)) (or_undefined (profile_hash p)).
Proof.
  unfold canonical_request, canonical_fields.
  pose proof (deepSort_headers _ (canonical_headers_shape (headers p))) as E.
  generalize dependent (canonicalizeSemanticHeaders (headers p)); intros h E.
  generalize (computeBodyHash (body p)) (toUpperCase (method p)); intros b m.
  destruct (or_undefined (profile_hash p)); unfold obj;
    cbn [omap list_omap fmap option_fmap option_map fst snd deepSort map]; rewrite E; reflexivity.
Qed.

Lemma wf_canonical m url bh h ph : header_shape h -> wf_json (canonical_fields m url bh h ph) = true.
Proof.
  intros Hh%wf_headers. unfold canonical_fields.
  destruct ph; cbn [app wf_json forallb snd]; rewrite bool_decide_true by reflexivity;
    rewrite Hh; reflexivity.
Qed.

Lemma canonical_fields_inj m1 u1 b1 h1 p1 m2 u2 b2 h2 p2 :
  canonical_fields m1 u1 b1 h1 p1 = canonical_fields m2 u2 b2 h2 p2 ->
  m1 = m2 /\ u1 = u2 /\ b1 = b2 /\ h1 = h2 /\ p1 = p2.
Proof.
  unfold canonical_fields. destruct p1, p2; cbn [app]; intros E; try discriminate E;
    injection E as -> Eh -> ?; subst; try done; apply (f_equal JObj) in Eh;
    apply strings_json_inj in Eh; naive_solver.
Qed.

Lemma generateDedupeKey_ok p k :
  generateDedupeKey p = Ok k <-> exists url, canonicalizeUrl (target_url p) = Ok url /\
    k = hex_text (sha256 (utf8 (stringify (canonical_fields (toUpperCase (method p)) url
          (computeBodyHash (body p)) (canonicalizeSemanticHeaders (headers p))
          (or_undefined (profile_hash p)))))).
Proof.
  unfold generateDedupeKey. rewrite bind_ok. unfold stableStringify, sha256Hex. split.
  - intros (url & Hu & <-%Ok_inj). exists url. by rewrite deepSort_canonical.
  - intros (url & Hu & ->). exists url. by rewrite deepSort_canonical.
Qed.
End CanonicalLemmas.

(** ** Canonical URLs *)

(** Two parsed URLs that differ only in their fragment and in the order of their
    query parameters. *)
Definition same_resource `{UrlApi} (u1 u2 : URL) : Prop :=
  with_search "" (with_hash "" u1) = with_search "" (with_hash "" u2) /\
  parse_query (search u1) ≡ₚ parse_query (search u2).

(** The setters touch neither each other's component nor the query. *)
Class UrlSetterLaws `{UrlApi} : Prop := {
  set_protocol_search : forall p s u, set_protocol p (with_search s u) = with_search s (set_protocol p u);
  set_hostname_search : forall h s u, set_hostname h (with_search s u) = with_search s (set_hostname h u) }.

#[export] Instance toy_url_setter_laws : @UrlSetterLaws ToyUrl.api.
Proof. by split. Qed.

Lemma param_ltb_trans a b c : param_ltb b a = false -> param_ltb c b = false -> param_ltb c a = false.
Proof.
  destruct a as [a1 a2], b as [b1 b2], c as [c1 c2]. unfold param_ltb; cbn [fst snd].
  intros H1 H2. destruct (decide (b1 = a1)) as [E1|N1], (decide (c1 = b1)) as [E2|N2].
  - subst. rewrite decide_True by done. by apply str_le_trans with b2.
  - subst. by rewrite decide_False.
  - subst. by rewrite decide_False.
  - destruct (decide (c1 = a1)) as [E3|N3]; [|by apply str_le_trans with b1].
    exfalso. apply N1. apply str_le_antisym; congruence.
Qed.

Lemma param_ltb_antisym a b : param_ltb a b = true -> param_ltb b a = false.
Proof.
  destruct a as [a1 a2], b as [b1 b2]. unfold param_ltb; cbn [fst snd].
  destruct (decide (a1 = b1)) as [->|Hn].
  - rewrite decide_True by done. apply str_ltb_antisym.
  - rewrite decide_False by done. apply str_ltb_antisym.
Qed.

Lemma param_eq a b : param_ltb a b = false -> param_ltb b a = false -> a = b.
Proof.
  destruct a as [a1 a2], b as [b1 b2]. unfold param_ltb; cbn [fst snd].
  destruct (decide (a1 = b1)) as [->|Hn].
  - rewrite decide_True by done. intros. f_equal. by apply str_le_antisym.
  - rewrite decide_False by done. intros. exfalso. apply Hn. by apply str_le_antisym.
Qed.

Lemma sort_params_perm l1 l2 : l1 ≡ₚ l2 -> sort_by param_ltb l1 = sort_by param_ltb l2.
Proof.
  apply sort_by_unique.
  - intros a b c. apply param_ltb_trans.
  - intros a b. apply param_ltb_antisym.
  - intros a b _ _. apply param_eq.
Qed.

Section CanonicalUrl.
Context `{UrlSetterLaws}.

(** The canonical text depends on the URL without its query and on the sorted
    parameters. *)
Lemma canonicalizeUrl_eq raw u : new_URL raw = Some u ->
  exists f, (forall u', with_search "" (with_hash "" u') = with_search "" (with_hash "" u) ->
    forall raw', new_URL raw' = Some u' ->
    canonicalizeUrl raw' = Ok (f (sort_by param_ltb (parse_query (search u'))))).
Proof.
  intros Hu.
  set (b := with_search "" (with_hash "" u)).
  set (b1 := set_protocol (toLowerCase (protocol b)) b).
  set (b2 := set_hostname (toLowerCase (hostname b1)) b1).
  set (b3 := if bool_decide (protocol b2 = "https:" /\ port b2 = "443") ||
                bool_decide (protocol b2 = "http:" /\ port b2 = "80") then with_port "" b2 else b2).
  exists (fun params => href (with_search (match params with [] => "" | _ => "?" +:+ form_encode params end) b3)).
  intros u' Hb raw' Hr. unfold canonicalizeUrl. rewrite Hr. cbn [of_option mbind result_bind].
  assert (E0 : with_hash "" u' = with_search (search u') b).
  { rewrite <- Hb. by destruct u'. }
  rewrite E0. clear E0 Hb.
  cbn [protocol with_search]. rewrite set_protocol_search. fold b1.
  assert (E1 : forall s v, hostname (with_search s v) = hostname v) by done.
  rewrite E1, set_hostname_search. fold b1 b2. clear E1.
  assert (E2 : (if bool_decide (protocol (with_search (search u') b2) = "https:" /\ port (with_search (search u') b2) = "443") ||
                bool_decide (protocol (with_search (search u') b2) = "http:" /\ port (with_search (search u') b2) = "80")
                then with_port "" (with_search (search u') b2) else with_search (search u') b2) = with_search (search u') b3).
  { unfold b3. cbn [protocol port with_search]. by destruct (_ || _). }
  rewrite E2. done.
Qed.

Lemma canonicalizeUrl_same r1 r2 u1 u2 :
  new_URL r1 = Some u1 -> new_URL r2 = Some u2 -> same_resource u1 u2 ->
  canonicalizeUrl r1 = canonicalizeUrl r2.
Proof.
  intros H1 H2 [Hb HP]. destruct (canonicalizeUrl_eq r1 u1 H1) as [f Hf].
  rewrite (Hf u1 eq_refl r1 H1), (Hf u2 (eq_sym Hb) r2 H2). by rewrite (sort_params_perm _ _ HP).
Qed.
End CanonicalUrl.

(** ** Properties *)

Lemma sha256Hex_inj `{Hashing} a b : sha256Hex a = sha256Hex b -> a = b \/ collide a b.
Proof. intros E%hex_text_inj. by apply sha256_inj. Qed.

(** What a key determines. *)
Definition same_request `{Hashing} `{UrlApi} (p1 p2 : DedupeParams) : Prop :=
  toUpperCase (method p1) = toUpperCase (method p2) /\
  canonicalizeUrl (target_url p1) = canonicalizeUrl (target_url p2) /\
  computeBodyHash (body p1) = computeBodyHash (body p2) /\
  canonicalizeSemanticHeaders (headers p1) = canonicalizeSemanticHeaders (headers p2) /\
  or_undefined (profile_hash p1) = or_undefined (profile_hash p2).

(** The text whose digest is the key. *)
Definition key_text `{Hashing} `{UrlApi} (p : DedupeParams) : buffer :=
  match canonicalizeUrl (target_url p) with
  | Ok url => utf8 (stableStringify (canonical_request p url))
  | Throw _ => []
  end.

Lemma dedupe_binds `{Hashing} `{UrlApi} p1 p2 k :
  generateDedupeKey p1 = Ok k -> generateDedupeKey p2 = Ok k -> same_request p1 p2 \/ collide (key_text p1) (key_text p2).
Proof.
  intros (u1 & Hu1 & E1)%generateDedupeKey_ok (u2 & Hu2 & E2)%generateDedupeKey_ok.
  rewrite E2 in E1. unfold key_text, stableStringify. rewrite Hu1, Hu2, !deepSort_canonical.
  apply sha256Hex_inj in E1 as [E|[Hn Hc]]; [|right; by split; [apply not_eq_sym|]].
  left. unfold same_request.
  apply utf8_inj, stringify_inj in E; [|apply wf_canonical, canonical_headers_shape..].
  apply canonical_fields_inj in E as (-> & -> & -> & -> & ->). rewrite Hu1, Hu2. done.
Qed.

(** The key binds the request: two requests with the same key agree on the
    upper-cased method, the canonical URL, the canonical semantic headers, the
    body hash and the profile hash, or the texts behind
    the two keys are a SHA-256 collision. *)
Theorem dedupe_key_binds `{Hashing} `{UrlApi} (p1 p2 : DedupeParams) (k : string) :
  generateDedupeKey p1 = Ok k -> generateDedupeKey p2 = Ok k ->
  (toUpperCase (method p1) = toUpperCase (method p2) /\
   canonicalizeUrl (target_url p1) = canonicalizeUrl (target_url p2) /\
   computeBodyHash (body p1) = computeBodyHash (body p2) /\
   canonicalizeSemanticHeaders (headers p1) = canonicalizeSemanticHeaders (headers p2) /\
   or_undefined (profile_hash p1) = or_undefined (profile_hash p2)) \/
  collide (key_text p1) (key_text p2).
Proof. apply dedupe_binds. Qed.

Definition demo_params : DedupeParams :=
  {| target_url := "https://a.io/x?b=2&a=1#f"; method := "get"; headers := [("Accept", "text/html"); ("Cookie", "s=1")];
     body := NoBody; profile_hash := None |}.
Definition demo_params' : DedupeParams :=
  {| target_url := "https://a.io/x?a=1&b=2"; method := "GET"; headers := [("cookie", "s=1"); ("X-Trace", "9"); ("accept", "text/html")];
     body := NoBody; profile_hash := None |}.
Definition demo_key : string :=
  match @generateDedupeKey Toy.hashing ToyUrl.api demo_params with Ok k => k | Throw _ => "" end.

Lemma dedupe_key_binds_witness :
  (toUpperCase (method demo_params) = toUpperCase (method demo_params') /\
   @canonicalizeUrl ToyUrl.api (target_url demo_params) = @canonicalizeUrl ToyUrl.api (target_url demo_params') /\
   @computeBodyHash Toy.hashing (body demo_params) = @computeBodyHash Toy.hashing (body demo_params') /\
   @canonicalizeSemanticHeaders Toy.hashing (headers demo_params) =
   @canonicalizeSemanticHeaders Toy.hashing (headers demo_params') /\
   or_undefined (profile_hash demo_params) = or_undefined (profile_hash demo_params')) \/
  @collide Toy.hashing (@key_text Toy.hashing ToyUrl.api demo_params) (@key_text Toy.hashing ToyUrl.api demo_params').
Proof.
  apply (@dedupe_key_binds Toy.hashing ToyUrl.api demo_params demo_params' demo_key); vm_compute; reflexivity.
Defined.

(** C30: the key is canonical: it does not change with the fragment of the URL,
    the order of its query parameters, the case of the method, or the order,
    name case and presence of non-semantic headers - for headers of which no two
    semantic names differ only in case (of two such the later one counts). *)
Theorem dedupe_key_invariant `{Hashing} `{UrlSetterLaws} (p1 p2 : DedupeParams) (u1 u2 : URL) :
  new_URL (target_url p1) = Some u1 -> new_URL (target_url p2) = Some u2 -> same_resource u1 u2 ->
  toUpperCase (method p1) = toUpperCase (method p2) ->
  NoDup (entries (headers p1)).*1 -> entries (headers p1) ≡ₚ entries (headers p2) ->
  computeBodyHash (body p1) = computeBodyHash (body p2) ->
  or_undefined (profile_hash p1) = or_undefined (profile_hash p2) ->
  generateDedupeKey p1 = generateDedupeKey p2.
Proof.
  intros Hu1 Hu2 Hs Hm Hd HP Hb Hp. unfold generateDedupeKey.
  rewrite (canonicalizeUrl_same _ _ u1 u2 Hu1 Hu2 Hs).
  destruct (canonicalizeUrl (target_url p2)) as [url|]; [|done]. cbn [mbind result_bind].
  unfold stableStringify. by rewrite !deepSort_canonical, Hm, Hb, Hp, (canonical_headers_perm _ _ Hd HP).
Qed.

Lemma dedupe_key_invariant_witness :
  @generateDedupeKey Toy.hashing ToyUrl.api demo_params = @generateDedupeKey Toy.hashing ToyUrl.api demo_params'.
Proof.
  eapply (@dedupe_key_invariant Toy.hashing ToyUrl.api toy_url_setter_laws demo_params demo_params');
    [reflexivity|reflexivity| |reflexivity| | |reflexivity|reflexivity].
  - split; [reflexivity|]. vm_compute. apply Permutation_swap.
  - apply (bool_decide_unpack _). vm_compute. exact I.
  - vm_compute. apply Permutation_swap.
Defined.
