(* ===== verification/Update.v ===== *)
(** * Releases: manifests, updates and version numbers (node/manifest.ts,
    runtime/capabilities.ts, update.ts, version.ts) *)

From S2P Require Import Prelude Effect Text Json JsonText Coerce Crypto CanonicalJson Dedupe Files.
Local Open Scope Z_scope.

(** ** The manifest of the running release *)

Definition NODE_CAPABILITIES : list string := ["forward_proxy"; "reverse_proxy"; "websockets"; "tunnels"; "ip_leasing"].

Definition capabilitiesRecord : json := JObj (fromEntries (map (fun c => (c, JBool true)) NODE_CAPABILITIES)).

Definition REQUIRED_ROUTES : list string :=
  ["GET /health"; "GET /node/version"; "GET /node/manifest"; "GET /node/integrity"; "GET /node/capabilities";
   "POST /benchmark/fetch"; "POST /benchmark/cpu"; "POST /benchmark/crypto"; "POST /benchmark/concurrency";
   "GET /benchmark/system"; "POST /benchmark/memory-test"; "POST /benchmark/memory-pressure"; "POST /proxy";
   "GET /connect"].

(** [package.json], and what [git rev-parse HEAD] printed, if it ran. *)
Record Build := { pkg_version : option string; pkg_commit : option string; pkg_platform : option string; git_stdout : option string }.

(** [a || b] on optional text. *)
Definition or_else (a : option string) (b : option string) : option string :=
  match a with Some v => if bool_decide (v = "") then b else a | None => b end.

Definition gitCommit (b : Build) : option string :=
  match git_stdout b with
  | Some out => or_else (Some (trim out)) None
  | None => None
  end.

Definition platform (p : Process) (b : Build) : string :=
  default (os_platform p +:+ "-" +:+ os_arch p) (or_else (env p "CONSENSUS_NODE_PLATFORM") (or_else (pkg_platform b) None)).

Definition routesHash `{Hashing} : string :=
  "sha256:" +:+ sha256Hex (utf8 (canonicalJson (JArr (map JStr REQUIRED_ROUTES)))).

Definition releaseManifest `{Hashing} (p : Process) (b : Build) : json :=
  obj [("product", Some (JStr "consensus-node"));
       ("version", Some (JStr (default "0.0.0" (or_else (env p "CONSENSUS_NODE_VERSION") (or_else (pkg_version b) None)))));
       ("artifact", Some (JStr "npm-tarball"));
       ("platform", Some (JStr (platform p b)));
       ("commit", Some (JStr (default "unknown" (or_else (env p "CONSENSUS_NODE_COMMIT") (or_else (pkg_commit b) (gitCommit b))))));
       ("download_url", JStr <$> env p "CONSENSUS_NODE_DOWNLOAD_URL");
       ("tarball_sha256", JStr <$> env p "CONSENSUS_NODE_TARBALL_SHA256");
       ("routes_hash", Some (JStr routesHash));
       ("capabilities", Some (JArr (map JStr NODE_CAPABILITIES)));
       ("signing_key_id", JStr <$> env p "CONSENSUS_RELEASE_SIGNING_KEY_ID");
       ("signature", JStr <$> env p "CONSENSUS_RELEASE_SIGNATURE")].

(** ** Comparing manifests *)

(** Reading a member of [null] throws. *)
Definition members (v : json) : result unit :=
  throw_if (bool_decide (v = JNull)) (TypeError "null is not an object").

(** The running manifest holds texts, so [!==] against it is inequality. *)
Definition differs (k : string) (current required : json) : bool := negb (bool_decide (get k current = get k required)).

Definition reasons (current required : json) : list string :=
  filter (fun k => differs k current required = true) ["version"; "platform"; "commit"; "routes_hash"] ++
  (if truthy (get "tarball_sha256" required) && differs "tarball_sha256" current required then ["tarball_sha256"] else []).

Record UpdateStatus := { update_required : bool; status_current : json; status_required : json; status_reasons : list string }.

Definition compareManifests (current required : json) : result UpdateStatus :=
  members required;;
  Ok {| update_required := bool_decide (reasons current required <> []); status_current := current;
        status_required := required; status_reasons := reasons current required |}.

(** ** Fetching *)

Definition stripShaPrefix (value : string) : string :=
  if startsWith value "sha256:" then slice_from 7 value else value.

Fixpoint drop_slashes (s : string) : string :=
  match s with String "/" r => drop_slashes r | _ => s end.
Definition trimTrailingSlash (value : string) : string := str_rev (drop_slashes (str_rev value "")) "".

(** A response: its status and its body. *)
Record Response := { resp_status : Z; resp_body : buffer }.
Definition resp_ok (r : Response) : bool := (200 <=? resp_status r) && (resp_status r <=? 299).

(** A value inside a template string. *)
Definition template (v : option json) : string := match v with None => "undefined" | Some v => js_string v end.

Section Fetching.
(** [fetch] with its timeout signal. *)
Context `{Hashing} (fetch : string -> result Response).

Definition fetchRequiredManifest (serverUrl : string) : result json :=
  r ← fetch (trimTrailingSlash serverUrl +:+ "/update/latest");
  throw_if (negb (resp_ok r)) (PlainError ("Failed to fetch required manifest: HTTP " +:+ pretty (resp_status r)));;
  body ← JSON_parse (utf8_text (resp_body r));
  members body;;
  throw_if (negb (bool_decide (get "product" body = Some (JStr "consensus-node"))))
    (PlainError "Required manifest is not for consensus-node");;
  Ok body.

(** [manifest.tarball_sha256 && sha256 !== stripShaPrefix(...)]: a truthy value
    that is not a string has no [startsWith]. *)
Definition check_digest (manifest : json) (sha256 : string) : result unit :=
  if truthy (get "tarball_sha256" manifest) then
    match get "tarball_sha256" manifest with
    | Some (JStr expected) =>
        throw_if (negb (bool_decide (sha256 = stripShaPrefix expected)))
          (PlainError ("Artifact SHA-256 mismatch: expected " +:+ expected +:+ ", got " +:+ sha256))
    | _ => Throw (TypeError "value.startsWith is not a function")
    end
  else Ok tt.

(** Checks and digest of the artifact, before anything is written. *)
Definition fetch_artifact (manifest : json) : result (buffer * string) :=
  members manifest;;
  throw_if (negb (truthy (get "download_url" manifest))) (PlainError "Required manifest does not include download_url");;
  r ← fetch (template (get "download_url" manifest));
  throw_if (negb (resp_ok r)) (PlainError ("Failed to download update artifact: HTTP " +:+ pretty (resp_status r)));;
  let sha256 := sha256Hex (resp_body r) in
  check_digest manifest sha256;;
  Ok (resp_body r, sha256).

Definition artifact_name (manifest : json) : string :=
  "consensus-node-" +:+ template (get "version" manifest) +:+ "-" +:+ template (get "platform" manifest) +:+ ".tgz".

Definition artifact_path (p : Process) (manifest : json) : string :=
  path_join [path_join [base (paths p); "downloads"]; artifact_name manifest].

Record Downloaded := { dl_path : string; dl_sha256 : string }.

Definition downloadAndVerify (p : Process) (manifest : json) : eff Disk Downloaded :=
  a ← lift (fetch_artifact manifest);
  writeFile (artifact_path p manifest) a.1;;
  mret {| dl_path := artifact_path p manifest; dl_sha256 := a.2 |}.

(** ** The command [update]: what it prints, or its error *)

Inductive printed :=
| Status (s : UpdateStatus) (next_step : option string) (downloaded : option Downloaded).

Definition main (p : Process) (b : Build) (download : bool) : eff Disk printed :=
  let serverUrl := trim (default "" (env p "CONSENSUS_SERVER_URL")) in
  lift (throw_if (bool_decide (serverUrl = "")) (PlainError "Missing CONSENSUS_SERVER_URL"));;
  required ← lift (fetchRequiredManifest serverUrl);
  status ← lift (compareManifests (releaseManifest p b) required);
  if negb (update_required status) then mret (Status status None None)
  else if negb download
  then mret (Status status
         (Some "Run `bun run update -- --download` to download and verify the required artifact.") None)
  else
    d ← downloadAndVerify p required;
    mret (Status status None (Some d)).
End Fetching.

(** ** Version numbers *)

Inductive BumpKind := major | minor | patch | prerelease.

Definition bump_kind (value : string) : option BumpKind :=
  if bool_decide (value = "major") then Some major
  else if bool_decide (value = "minor") then Some minor
  else if bool_decide (value = "patch") then Some patch
  else if bool_decide (value = "prerelease") then Some prerelease
  else None.

Definition isBumpKind (value : string) : bool := bool_decide (is_Some (bump_kind value)).

(** The pieces of [SEMVER_PATTERN]: [0|[1-9]\d*]; an identifier of letters,
    digits and hyphens, which when all digits has no leading zero. *)
Definition numeric_id (s : string) : bool :=
  negb (bool_decide (s = "")) && str_forall is_digit s && (bool_decide (s = "0") || negb (startsWith s "0")).
Definition id_char (c : ascii) : bool := is_digit c || between "a" "z" c || between "A" "Z" c || bool_decide (c = "-"%char).
Definition build_id (s : string) : bool := negb (bool_decide (s = "")) && str_forall id_char s.
Definition prerelease_id (s : string) : bool := if str_forall is_digit s then numeric_id s else build_id s.

(** The text up to the first [c], and what follows it. *)
Fixpoint cut (c : ascii) (s : string) : string * option string :=
  match s with
  | EmptyString => ("", None)
  | String d r => if decide (d = c) then ("", Some r) else let '(a, b) := cut c r in (String d a, b)
  end.

Record Version := { v_major : Z; v_minor : Z; v_patch : Z; v_prerelease : option string }.

(** Digits as a number; exact below 2^53. *)
Definition digits_value (s : string) : Z := (parse_digits 0 0 s).1.1.

Definition parseVersion (value : string) : result Version :=
  let '(version, build) := cut "+" value in
  let '(core, pre) := cut "-" version in
  let ids_ok (f : string -> bool) (o : option string) :=
    match o with Some s => forallb f (split "." s) | None => true end in
  match split "." core with
  | [a; b; c] =>
      throw_if (negb (numeric_id a && numeric_id b && numeric_id c && ids_ok prerelease_id pre && ids_ok build_id build))
        (PlainError ("Invalid semver version: " +:+ value));;
      Ok {| v_major := digits_value a; v_minor := digits_value b; v_patch := digits_value c; v_prerelease := pre |}
  | _ => Throw (PlainError ("Invalid semver version: " +:+ value))
  end.

(** [/^(.*?)(\d+)$/]: the trailing run of digits, and what precedes it. *)
Fixpoint leading_digits (s : string) : string * string :=
  match s with
  | String c r => if is_digit c then let '(d, t) := leading_digits r in (String c d, t) else ("", s)
  | EmptyString => ("", "")
  end.
Definition trailing_digits (s : string) : option (string * string) :=
  let '(d, t) := leading_digits (str_rev s "") in
  if bool_decide (d = "") then None else Some (str_rev t "", str_rev d "").

Definition core_text (a b c : Z) : string := dec a +:+ "." +:+ dec b +:+ "." +:+ dec c.

Definition bumpVersion (current : string) (kind : BumpKind) : result string :=
  v ← parseVersion current;
  match kind with
  | major => Ok (core_text (v_major v + 1) 0 0)
  | minor => Ok (core_text (v_major v) (v_minor v + 1) 0)
  | patch => Ok (core_text (v_major v) (v_minor v) (v_patch v + 1))
  | prerelease =>
      let pre := default "alpha.0" (v_prerelease v) in
      let here := core_text (v_major v) (v_minor v) (v_patch v) in
      match trailing_digits pre with
      | None => Ok (here +:+ "-" +:+ pre +:+ ".1")
      | Some (label, number) => Ok (here +:+ "-" +:+ label +:+ dec (digits_value number + 1))
      end
  end.

Definition normalizeVersion (value : string) : result string := parseVersion value;; Ok value.

(** The command [version:bump]: the version written to [package.json]. *)
Definition next_version (pkg_version requested : string) : result string :=
  throw_if (bool_decide (requested = ""))
    (PlainError "Usage: bun run version:bump -- <major|minor|patch|prerelease|x.y.z[-tag.n]>");;
  match bump_kind requested with
  | Some k => bumpVersion pkg_version k
  | None => normalizeVersion requested
  end.

Example bump_patch : bumpVersion "1.2.3-beta.4+b7" patch = Ok "1.2.4".
Proof. reflexivity. Qed.
Example bump_pre : bumpVersion "1.2.3-beta.9" prerelease = Ok "1.2.3-beta.10".
Proof. reflexivity. Qed.
Example bump_first : bumpVersion "1.2.3" prerelease = Ok "1.2.3-alpha.1".
Proof. reflexivity. Qed.
Example bump_bad : bumpVersion "1.02.3" minor = Throw (PlainError "Invalid semver version: 1.02.3").
Proof. reflexivity. Qed.

(** ** Lemmas *)

Lemma members_ok v u : members v = Ok u <-> v <> JNull.
Proof. unfold members. rewrite throw_if_ok. apply bool_decide_eq_false. Qed.

Lemma check_digest_inv manifest h : check_digest manifest h = Ok tt ->
  truthy (get "tarball_sha256" manifest) = false \/
  exists expected, get "tarball_sha256" manifest = Some (JStr expected) /\ h = stripShaPrefix expected.
Proof.
  unfold check_digest. destruct (truthy _); [|by left]. intros Hc. right.
  destruct (get "tarball_sha256" manifest) as [[| | |s| |]|]; try done. inv_ok. bool_solve. eauto.
Qed.

Lemma reasons_nil current required : reasons current required = [] <->
  get "version" current = get "version" required /\ get "platform" current = get "platform" required /\
  get "commit" current = get "commit" required /\ get "routes_hash" current = get "routes_hash" required /\
  (truthy (get "tarball_sha256" required) = true -> get "tarball_sha256" current = get "tarball_sha256" required).
Proof.
  assert (Hd : forall k, differs k current required = false <-> get k current = get k required).
  { intros k. unfold differs. rewrite negb_false_iff. apply bool_decide_eq_true. }
  assert (Hf : forall ks, filter (fun k => differs k current required = true) ks = [] <->
    Forall (fun k => get k current = get k required) ks).
  { induction ks as [|k ks IH]; [done|]. rewrite filter_cons, Forall_cons, <- IH, <- Hd.
    destruct (decide _); destruct (differs k current required); naive_solver. }
  unfold reasons. rewrite app_nil, Hf, !Forall_cons.
  destruct (truthy _); cbn [andb]; [|naive_solver]. specialize (Hd "tarball_sha256").
  destruct (differs "tarball_sha256" current required); naive_solver.
Qed.

(** The bytes of an artifact and its digest. *)
Record artifact `{Hashing} (fetch : string -> result Response) (manifest : json) (bytes : buffer) (h : string) : Prop := {
  ar_fetched : exists r, fetch (template (get "download_url" manifest)) = Ok r /\ resp_ok r = true /\ resp_body r = bytes;
  ar_digest : h = sha256Hex bytes;
  ar_expected : truthy (get "tarball_sha256" manifest) = true ->
    exists expected, get "tarball_sha256" manifest = Some (JStr expected) /\ h = stripShaPrefix expected }.

Lemma fetch_artifact_inv `{Hashing} fetch manifest a : fetch_artifact fetch manifest = Ok a -> artifact fetch manifest a.1 a.2.
Proof.
  unfold fetch_artifact. intros Ha. inv_ok. bool_solve.
  repeat match goal with H : check_digest _ _ = Ok _ |- _ => apply check_digest_inv in H as Hc; clear H end.
  split; [eauto|done|]. intros Ht. destruct Hc as [Hf|He]; [congruence|done].
Qed.

Lemma download_inv `{Hashing} fetch p manifest d :
  let (d', r) := downloadAndVerify fetch p manifest d in
  match r with
  | Ok dl => exists bytes, artifact fetch manifest bytes (dl_sha256 dl) /\
      dl_path dl = artifact_path p manifest /\ d' = <[dl_path dl := Regular bytes]> d
  | Throw _ => kept_or_emptied (artifact_path p manifest) d d' /\ forall f, f <> artifact_path p manifest -> d' !! f = d !! f
  end.
Proof.
  unfold downloadAndVerify, lift, mbind, eff_bind. destruct (fetch_artifact fetch manifest) as [a|e] eqn:Ea; [|by split; [left|]].
  destruct (writeFile _ _ d) as [d' [[]|e]] eqn:Ew.
  - apply fetch_artifact_inv in Ea. apply writeFile_ok in Ew. cbn. eauto.
  - split; [by eapply writeFile_failed|]. intros f Hf. pose proof (writeFile_other _ a.1 d f Hf) as Hw. by rewrite Ew in Hw.
Qed.

Lemma cut_none c s : no_char c s -> cut c s = (s, None).
Proof.
  induction s as [|d s IH]; [done|]. intros [Hd Hs]%no_char_cons. cbn. rewrite decide_False by done. by rewrite IH.
Qed.

(** Decimal text is a numeric identifier, and parses back. *)
Lemma dec_aux_digits f z acc : 0 <= z -> str_forall is_digit acc = true -> str_forall is_digit (dec_aux f z acc) = true.
Proof.
  revert z acc. induction f as [|f IH]; intros z acc Hz Ha; [done|]. cbn [dec_aux].
  pose proof (Z.mod_pos_bound z 10 eq_refl) as Hm.
  assert (Hd : str_forall is_digit (String (digit (z mod 10)) acc) = true).
  { cbn [str_forall]. rewrite Ha, andb_true_r.
    by destruct (digit_cases _ Hm) as [-> | [-> | [-> | [-> | [-> | [-> | [-> | [-> | [-> | ->]]]]]]]]]. }
  destruct (z <? 10); [done|]. apply IH; [|done]. apply Z.div_pos; lia.
Qed.

Lemma digits_no_char c s : is_digit c = false -> str_forall is_digit s = true -> no_char c s.
Proof.
  intros Hc. induction s as [|d s IH]; [done|]. cbn [str_forall]. intros [Hd Hs]%andb_true_iff.
  apply no_char_cons. split; [|by apply IH]. intros ->. congruence.
Qed.

Lemma dec_digits z : 0 <= z -> str_forall is_digit (dec z) = true.
Proof. intros. by apply dec_aux_digits. Qed.

Lemma dec_numeric_id z : 0 <= z -> numeric_id (dec z) = true.
Proof.
  intros Hz. unfold numeric_id. rewrite (dec_digits z Hz), andb_true_r.
  destruct (dec_head z Hz) as (d & r & E & Hd & H0). rewrite E. rewrite bool_decide_false by done. cbn [negb andb].
  destruct (decide (z = 0)) as [->|Hn]; [by injection E as <- <-|].
  apply orb_true_iff. right. rewrite startsWith_char, bool_decide_false; [done|].
  intros Hc%digit_zero; [|done]. by apply Hn, H0.
Qed.

Lemma digits_value_dec z : 0 <= z -> digits_value (dec z) = z.
Proof.
  intros Hz. unfold digits_value. destruct (parse_dec z "" Hz I) as [n Hn]. rewrite str_app_nil in Hn. by rewrite Hn.
Qed.

Lemma parse_core a b c : 0 <= a -> 0 <= b -> 0 <= c ->
  parseVersion (core_text a b c) = Ok {| v_major := a; v_minor := b; v_patch := c; v_prerelease := None |}.
Proof.
  intros Ha Hb Hc. unfold parseVersion.
  assert (Hn : forall x, is_digit x = false -> x <> "."%char -> no_char x (core_text a b c)).
  { intros x Hx Hd. unfold core_text. repeat (apply no_char_app; [by apply digits_no_char, dec_digits|];
      apply no_char_app; [by apply no_char_cons; split; [apply not_eq_sym|]|]). by apply digits_no_char, dec_digits. }
  rewrite !cut_none by (by apply Hn). change (core_text a b c) with (join "." [dec a; dec b; dec c]).
  rewrite split_join by (done || (repeat constructor; by apply digits_no_char, dec_digits)).
  rewrite !dec_numeric_id, !digits_value_dec by done. done.
Qed.

Lemma parse_digits_nonneg s : forall acc n, 0 <= acc -> 0 <= (parse_digits acc n s).1.1.
Proof.
  induction s as [|c s IH]; intros acc n Ha; [done|]. cbn. unfold digit_val.
  destruct (_ && _) eqn:E; [|done]. apply andb_true_iff in E as [E _]. apply Z.leb_le in E. apply IH. lia.
Qed.

Lemma parseVersion_nonneg s v : parseVersion s = Ok v -> 0 <= v_major v /\ 0 <= v_minor v /\ 0 <= v_patch v.
Proof.
  unfold parseVersion. destruct (cut "+" s) as [x bu], (cut "-" x) as [core pre].
  destruct (split "." core) as [|a [|b [|c [|]]]]; try done. intros Hv. inv_ok. cbn.
  split_and!; by apply parse_digits_nonneg.
Qed.

(** ** Properties *)

(** An update artifact reaches the disk only after its digest has been checked:
    when [downloadAndVerify] returns, the file at the returned path holds the
    bytes the manifest's URL served, the returned digest is theirs, and it is the
    manifest's [tarball_sha256] when it has one; when it throws, every other file is
    as it was. *)
Theorem update_artifact_verified `{Hashing} (fetch : string -> result Response) (p : Process) (manifest : json) (d : Disk) :
  let (d', r) := downloadAndVerify fetch p manifest d in
  match r with
  | Ok dl => exists bytes, readFile (dl_path dl) d' = Contents bytes /\ artifact fetch manifest bytes (dl_sha256 dl) /\
      forall file, file <> dl_path dl -> readFile file d' = readFile file d
  | Throw _ => forall file, file <> artifact_path p manifest -> readFile file d' = readFile file d
  end.
Proof.
  pose proof (download_inv fetch p manifest d) as Hd. destruct (downloadAndVerify fetch p manifest d) as [d' [dl|e]].
  2: { intros f Hf. apply readFile_same. by apply Hd. }
  destruct Hd as (bytes & Ha & _ & ->). exists bytes. unfold readFile. rewrite lookup_insert_eq.
  split; [done|]. split; [done|]. intros f Hf. by rewrite lookup_insert_ne.
Qed.

(** An update is required exactly when the running manifest differs from the
    required one in version, platform, commit, routes, or in the digest of the
    tarball when the required manifest has one; a node never asks for the release
    it runs. *)
Theorem update_required_iff (current required : json) (s : UpdateStatus) :
  compareManifests current required = Ok s ->
  (update_required s = false <->
    get "version" current = get "version" required /\ get "platform" current = get "platform" required /\
    get "commit" current = get "commit" required /\ get "routes_hash" current = get "routes_hash" required /\
    (truthy (get "tarball_sha256" required) = true -> get "tarball_sha256" current = get "tarball_sha256" required)) /\
  (required = current -> update_required s = false).
Proof.
  unfold compareManifests. intros Hc. inv_ok. cbn [update_required]. rewrite bool_decide_eq_false, <- reasons_nil. split.
  - destruct (decide (reasons current required = [])) as [Hr|Hr]; naive_solver.
  - intros ->. intros Hn. apply Hn. by apply reasons_nil.
Qed.

(** An artifact whose version and platform are plain text is stored directly
    under [downloads] of the state directory. *)
Theorem artifact_path_confined (p : Process) (manifest : json) (v pl : string) :
  get "version" manifest = Some (JStr v) -> get "platform" manifest = Some (JStr pl) ->
  no_char "/" v -> no_char "/" pl ->
  let dir := path_join [base (paths p); "downloads"] in
  artifact_path p manifest =
    (if startsWith dir "/" then "/" else "") +:+ join "/" (dir_segments dir ++ ["consensus-node-" +:+ v +:+ "-" +:+ pl +:+ ".tgz"]).
Proof.
  intros Hv Hp Nv Np. cbn zeta. unfold artifact_path, artifact_name. rewrite Hv, Hp. cbn [template js_string].
  apply path_join_file; [apply path_join_nonempty|]. split_and!; [|done..].
  apply no_char_app; [done|]. apply no_char_app; [done|]. apply no_char_app; [done|]. by apply no_char_app.
Qed.

(** The component a bump raises; the ones after it are cleared. *)
Definition bumped (v : Version) (k : BumpKind) : Z * Z * Z :=
  match k with
  | major => (v_major v + 1, 0, 0)
  | minor => (v_major v, v_minor v + 1, 0)
  | _ => (v_major v, v_minor v, v_patch v + 1)
  end.

(** A bump prints a version that parses back to the raised components with no
    prerelease tag, and fails exactly on text that is no version. *)
Theorem bump_version_parses (current : string) (k : BumpKind) : k <> prerelease ->
  match parseVersion current with
  | Ok v => exists next, bumpVersion current k = Ok next /\
      parseVersion next = Ok {| v_major := (bumped v k).1.1; v_minor := (bumped v k).1.2; v_patch := (bumped v k).2; v_prerelease := None |}
  | Throw e => bumpVersion current k = Throw e
  end.
Proof.
  intros Hk. unfold bumpVersion. destruct (parseVersion current) as [v|e] eqn:Ev; [|done].
  apply parseVersion_nonneg in Ev as (H1 & H2 & H3). cbn [mbind result_bind].
  destruct k; try done; (eexists; split; [done|]; cbn [bumped fst snd]; apply parse_core; lia).
Qed.

(** ** A concrete node *)

Module Demo.
Definition process : Process :=
  {| env := fun _ => None; homedir := "/home/op"; cwd := "/srv/node"; os_platform := "linux"; os_arch := "x64"; getuid := Some 1000 |}.
Definition bytes : buffer := utf8 "artifact".
Definition fetch (url : string) : result Response := Ok {| resp_status := 200; resp_body := bytes |}.
Definition manifest (v : string) : json :=
  JObj [("product", JStr "consensus-node"); ("version", JStr v); ("platform", JStr "linux-x64");
        ("download_url", JStr "https://r.io/a.tgz")].
(** A manifest that names the digest of its tarball. *)
Definition pinned (v : string) (sha256 : string) : json :=
  JObj [("product", JStr "consensus-node"); ("version", JStr v); ("platform", JStr "linux-x64");
        ("download_url", JStr "https://r.io/a.tgz"); ("tarball_sha256", JStr ("sha256:" +:+ sha256))].
End Demo.

Lemma update_required_iff_witness :
  exists s, compareManifests (Demo.manifest "1.0.0") (Demo.manifest "1.0.0") = Ok s /\ update_required s = false.
Proof.
  eexists. split; [reflexivity|].
  by apply (proj2 (update_required_iff (Demo.manifest "1.0.0") (Demo.manifest "1.0.0") _ eq_refl)).
Defined.

Lemma artifact_path_confined_witness :
  artifact_path Demo.process (Demo.manifest "1.0.0") = "/home/op/.consensus/node/downloads/consensus-node-1.0.0-linux-x64.tgz".
Proof.
  apply (artifact_path_confined Demo.process (Demo.manifest "1.0.0") "1.0.0" "linux-x64"); vm_compute; reflexivity.
Defined.

(** A finding: the version of a manifest is not checked, so one with [/..] in it
    has its artifact written outside the state directory. *)
Theorem artifact_path_escapes `{Hashing} :
  let m := Demo.manifest "x/../../../../../../etc/cron.d/job" in
  exists dl, downloadAndVerify Demo.fetch Demo.process m ∅ =
    ({[ "/etc/cron.d/job-linux-x64.tgz" := Regular Demo.bytes ]}, Ok dl).
Proof. cbn zeta. eexists. reflexivity. Qed.

Lemma bump_version_parses_witness :
  exists next, bumpVersion "1.2.3-rc.1" minor = Ok next /\
    parseVersion next = Ok {| v_major := 1; v_minor := 3; v_patch := 0; v_prerelease := None |}.
Proof. apply (bump_version_parses "1.2.3-rc.1" minor). discriminate. Defined.
