(* ===== verification/SecretStore.v ===== *)
(** * Secrets at rest and the node's identity (node/secret-store.ts,
    crypto/identity.ts)

    The state of a process is its disk and the data key it has cached.  Random
    bytes and generated keys are arguments.  A file keeps its permissions and its
    directory; neither is modelled. *)

From S2P Require Import Prelude Effect Text Json JsonText JsonIndent Coerce Base64 Crypto CanonicalJson Files.
Local Open Scope Z_scope.

Definition DEK_BYTES : nat := 32.
Definition NONCE_BYTES : nat := 12.
Definition ENVELOPE_VERSION : Z := 1.
Definition ALGORITHM : string := "chacha20-poly1305".
Definition SLOT_NODE_KEY : string := "node.key".
Definition SLOT_JOIN_AUTH : string := "join-auth.json".

Record World := { w_disk : Disk; cachedKey : option buffer }.
Definition set_cache (k : option buffer) (w : World) : World := {| w_disk := w_disk w; cachedKey := k |}.
Definition on_files {A} (m : eff Disk A) : eff World A := fun w =>
  let (d, r) := m (w_disk w) in ({| w_disk := d; cachedKey := cachedKey w |}, r).

(** ** Keystores *)

(** A place the data key can live. *)
Record KeystoreAdapter := {
  ka_name : string; ka_available : bool; ka_get : Disk -> result (option buffer); ka_set : buffer -> eff Disk unit }.

Definition isRoot (p : Process) : bool := bool_decide (getuid p = Some 0).

Definition envAdapter (p : Process) : KeystoreAdapter := {|
  ka_name := "env";
  ka_available := env_set p "CONSENSUS_NODE_SECRET_KEY";
  ka_get := fun _ =>
    let raw := env_or p "CONSENSUS_NODE_SECRET_KEY" "" in
    if bool_decide (raw = "") then Ok None
    else
      let key := fromBase64 raw in
      if bool_decide (length key = DEK_BYTES) then Ok (Some key)
      else Throw (PlainError ("CONSENSUS_NODE_SECRET_KEY must be 32 base64-encoded bytes, got " +:+ pretty (Z.of_nat (length key))));
  ka_set := fun _ => mret tt |}.

Definition keyFilePath (p : Process) : string :=
  let override := env_or p "CONSENSUS_NODE_SECRET_KEY_PATH" "" in
  if negb (bool_decide (override = "")) then override
  else if bool_decide (os_platform p = "darwin") then
    if isRoot p then "/Library/Application Support/consensus-node/secret.key"
    else path_join [homedir p; "Library"; "Application Support"; "consensus-node"; "secret.key"]
  else if isRoot p then "/etc/consensus-node/secret.key"
  else path_join [env_or p "XDG_CONFIG_HOME" (path_join [homedir p; ".config"]); "consensus-node"; "secret.key"].

(** What a key file holds: a malformed or unreadable key is an error, never an
    absent one. *)
Definition keyfile_get (file : string) (d : Disk) : result (option buffer) :=
  match readFile file d with
  | ENOENT => Ok None
  | Failed code =>
      Throw (PlainError ("data key at " +:+ file +:+ " exists but could not be read (" +:+ code +:+
        "). Refusing to continue: replacing it would make every existing secret unrecoverable."))
  | Contents raw =>
      let key := fromBase64 (trim (utf8_text raw)) in
      if bool_decide (length key = DEK_BYTES) then Ok (Some key)
      else Throw (PlainError ("data key at " +:+ file +:+ " is malformed: decoded to " +:+ pretty (Z.of_nat (length key)) +:+
        " bytes, expected 32. Restore the original file from backup. Delete it only if you accept that every " +:+
        "secret encrypted under it — including this node's identity — is unrecoverable."))
  end.

Definition keyfileAdapter (p : Process) : KeystoreAdapter := {|
  ka_name := "keyfile";
  ka_available := bool_decide (os_platform p = "darwin") || bool_decide (os_platform p = "linux");
  ka_get := keyfile_get (keyFilePath p);
  ka_set := fun key => writeFile (keyFilePath p) (utf8 (toBase64 key)) |}.

Definition ADAPTERS (p : Process) : list KeystoreAdapter := [envAdapter p; keyfileAdapter p].

Definition selectAdapter (p : Process) : result KeystoreAdapter :=
  of_option (List.find ka_available (ADAPTERS p))
    (PlainError ("No keystore adapter available for platform " +:+ os_platform p +:+
       ". Set CONSENSUS_NODE_SECRET_KEY to a base64 32-byte key to supply one yourself.")).

(** [key] is what [crypto.randomBytes] gives. *)
Definition getOrCreateDataKey (p : Process) (key : buffer) : eff World buffer :=
  cached ← gets cachedKey;
  match cached with
  | Some k => mret k
  | None =>
      adapter ← lift (selectAdapter p);
      d ← gets w_disk;
      existing ← lift (ka_get adapter d);
      match existing with
      | Some k => modify (set_cache (Some k));; mret k
      | None =>
          on_files (ka_set adapter key);;
          d' ← gets w_disk;
          stored ← lift (ka_get adapter d');
          lift (throw_if (negb (bool_decide (stored = Some key)))
            (PlainError ("Keystore " +:+ ka_name adapter +:+ " did not retain the node data key")));;
          modify (set_cache (Some key));;
          mret key
      end
  end.

Record KeystoreStatus := { ks_adapter : string; ks_location : string; ks_present : bool }.

Definition describeKeystore (p : Process) (d : Disk) : result KeystoreStatus :=
  adapter ← selectAdapter p;
  k ← ka_get adapter d;
  Ok {| ks_adapter := ka_name adapter;
        ks_location := if bool_decide (ka_name adapter = "env") then "CONSENSUS_NODE_SECRET_KEY" else keyFilePath p;
        ks_present := bool_decide (k <> None) |}.

(** ** Envelopes *)

Record SecretEnvelope := { se_nonce : string; se_ct : string }.

Definition envelope_json (e : SecretEnvelope) : json :=
  JObj [("v", JNum (num_of_Z ENVELOPE_VERSION)); ("alg", JStr ALGORITHM); ("nonce", JStr (se_nonce e)); ("ct", JStr (se_ct e))].

(** [isSecretEnvelope(value)], and the members it grants. *)
Definition secret_envelope (value : json) : option SecretEnvelope :=
  if bool_decide (get "v" value = Some (JNum (num_of_Z ENVELOPE_VERSION))) && bool_decide (get "alg" value = Some (JStr ALGORITHM)) then
    n ← as_string (get "nonce" value);
    c ← as_string (get "ct" value);
    Some {| se_nonce := n; se_ct := c |}
  else None.

Section Secrets.
Context `{Aead} (p : Process).

(** Random bytes of one call: a data key, a nonce, the suffix of a file name. *)
Record Random := { rnd_key : buffer; rnd_nonce : buffer; rnd_suffix : buffer }.

Definition seal_with (key nonce : buffer) (slot plaintext : string) : SecretEnvelope :=
  {| se_nonce := toBase64 nonce; se_ct := toBase64 (aead_encrypt key nonce (utf8 slot) (utf8 plaintext)) |}.

Definition sealSecret (r : Random) (slot plaintext : string) : eff World SecretEnvelope :=
  key ← getOrCreateDataKey p (rnd_key r);
  mret (seal_with key (rnd_nonce r) slot plaintext).

Definition open_with (key : buffer) (slot : string) (e : SecretEnvelope) : result string :=
  utf8_text <$> of_option (aead_decrypt key (fromBase64 (se_nonce e)) (utf8 slot) (fromBase64 (se_ct e))) (PlainError "invalid tag").

Definition openSecret (r : Random) (slot : string) (e : SecretEnvelope) : eff World string :=
  key ← getOrCreateDataKey p (rnd_key r);
  lift (open_with key slot e).

Definition tmp_name (r : Random) (file : string) : string := file +:+ ".tmp-" +:+ hex_text (rnd_suffix r).

Definition writeSecretFile (r : Random) (slot file plaintext : string) : eff World unit :=
  envelope ← sealSecret r slot plaintext;
  on_files (writeFile (tmp_name r file) (utf8 (stringify (envelope_json envelope))));;
  on_files (rename (tmp_name r file) file).

(** Text that is not JSON parses as [null]. *)
Definition parse_or_null (raw : string) : json := ok_or JNull (JSON_parse raw).

Definition readSecretFile (r : Random) (slot file : string) : eff World (option string) :=
  d ← gets w_disk;
  match readFile file d with
  | ENOENT => mret None
  | Failed code =>
      throw (PlainError ("secret " +:+ slot +:+ " at " +:+ file +:+ " exists but could not be read (" +:+ code +:+
        "). Refusing to treat it as absent."))
  | Contents b =>
      let raw := utf8_text b in
      match secret_envelope (parse_or_null raw) with
      | Some e => t ← openSecret r slot e; mret (Some t)
      | None => writeSecretFile r slot file raw;; mret (Some raw)
      end
  end.

(** ** The identity *)

(** [generateKeyPairSync] made this pair. *)
Definition loadOrCreateIdentity (r : Random) (fresh : NodeIdentity) : eff World NodeIdentity :=
  let files := paths p in
  let create :=
    writeSecretFile r SLOT_NODE_KEY (p_privateKeyPem files) (privateKeyPem fresh);;
    on_files (writeFile (p_publicKeyPem files) (utf8 (publicKeyPem fresh)));;
    mret fresh in
  d ← gets w_disk;
  if file_exists (p_privateKeyPem files) d && file_exists (p_publicKeyPem files) d then
    k ← readSecretFile r SLOT_NODE_KEY (p_privateKeyPem files);
    match k with
    | Some pem =>
        if bool_decide (pem = "") then create
        else
          d ← gets w_disk;
          pub ← lift (readFile_or_throw (p_publicKeyPem files) d);
          mret {| privateKeyPem := pem; publicKeyPem := utf8_text pub |}
    | None => create
    end
  else create.

(** ** The join authorization (node/state.ts) *)

Definition saveJoinAuthorization (r : Random) (auth : json) : eff World unit :=
  writeSecretFile r SLOT_JOIN_AUTH (joinAuth (paths p)) (stringify2 auth).

(** A corrupt authorization is treated as absent. *)
Definition loadJoinAuthorization (r : Random) : eff World (option json) :=
  raw ← readSecretFile r SLOT_JOIN_AUTH (joinAuth (paths p));
  match raw with
  | None => mret None
  | Some text => mret (match JSON_parse text with Ok v => Some v | Throw _ => None end)
  end.
End Secrets.

(** ** Lemmas *)

Section Lemmas.
Context `{Aead} (p : Process).

(** The keystore holds this key. *)
Definition key_at (d : Disk) (k : buffer) : Prop := exists a, selectAdapter p = Ok a /\ ka_get a d = Ok (Some k).

(** The cached key is the one the keystore holds. *)
Definition coherent (w : World) : Prop := forall k, cachedKey w = Some k -> key_at (w_disk w) k.

(** Files other than the key file do not matter to a keystore. *)
Definition same_key_file (d d' : Disk) : Prop := d !! keyFilePath p = d' !! keyFilePath p.

Lemma select_cases a : selectAdapter p = Ok a -> a = envAdapter p \/ a = keyfileAdapter p.
Proof.
  unfold selectAdapter, ADAPTERS. cbn [List.find]. intros Ha. inv_ok.
  destruct (ka_available (envAdapter p)); [left; congruence|].
  destruct (ka_available (keyfileAdapter p)); [right; congruence|done].
Qed.

Lemma get_same d d' a : selectAdapter p = Ok a -> same_key_file d d' -> ka_get a d = ka_get a d'.
Proof.
  intros [-> | ->]%select_cases Hd; [done|]. cbn. unfold keyfile_get, readFile. by rewrite Hd.
Qed.

Lemma key_at_same d d' k : same_key_file d d' -> key_at d k -> key_at d' k.
Proof. intros Hd (a & Ha & Hk). exists a. split; [done|]. by rewrite <- (get_same d d'). Qed.

(** Only the key file can change, and only when there was no key. *)
Lemma data_key_spec key w : coherent w ->
  let (w', r) := getOrCreateDataKey p key w in
  (forall file, file <> keyFilePath p \/ is_Some (w_disk w !! file) \/ (exists k, key_at (w_disk w) k) -> w_disk w' !! file = w_disk w !! file) /\
  coherent w' /\ (forall k, r = Ok k -> key_at (w_disk w') k).
Proof.
  intros Hw. unfold getOrCreateDataKey, gets, lift, modify, mbind, eff_bind. destruct (cachedKey w) as [k|] eqn:Ec.
  - split_and!; try done. intros k' [= <-]. by apply Hw.
  - destruct (selectAdapter p) as [a|] eqn:Ea; [|done].
    destruct (ka_get a (w_disk w)) as [[k|]|] eqn:Eg; [| |done].
    + assert (Hk : key_at (w_disk w) k) by (exists a; done). split_and!; try done; intros k' [= <-]; done.
    + assert (Hf : forall d' r, ka_set a key (w_disk w) = (d', r) ->
        forall file, file <> keyFilePath p \/ is_Some (w_disk w !! file) \/ (exists k, key_at (w_disk w) k) -> d' !! file = w_disk w !! file).
      { intros d' r Es file Hf. assert (Hno : ~ exists k, key_at (w_disk w) k) by (intros (k & a' & Ha' & Hk'); congruence). pose proof Ea as [-> | ->]%select_cases; cbn in Es; [by injection Es as <-|].
        unfold writeFile in Es. cbn in Eg. unfold keyfile_get, readFile in Eg.
        destruct (w_disk w !! keyFilePath p) as [[b|b|c]|] eqn:El; [by case_bool_decide..|done|].
        injection Es as <-. rewrite lookup_insert_ne; [done|]. intros <-. destruct Hf as [Hf|[[x Hx]|Hx]]; congruence. }
      unfold on_files. destruct (ka_set a key (w_disk w)) as [d' [[]|]] eqn:Es; [|by split_and!; eauto; intros k; cbn; congruence].
      cbn [w_disk cachedKey]. destruct (ka_get a d') as [st|] eqn:Eg'; [|by split_and!; eauto; intros k; cbn; congruence].
      destruct (throw_if _ _) as [[]|] eqn:Et; [|by split_and!; eauto; intros k; cbn; congruence].
      apply throw_if_ok in Et. bool_solve. subst st.
      assert (Hk : key_at d' key) by (exists a; done). split_and!; [by eauto|intros k; cbn|intros k]; intros [= <-]; done.
Qed.

Lemma tmp_other r file : tmp_name r file <> file.
Proof.
  unfold tmp_name. intros Hf. apply (f_equal String.length) in Hf. rewrite str_app_length in Hf. cbn in Hf. lia.
Qed.

(** What [file] holds once [pt] is sealed in it. *)
Definition sealed (k nonce : buffer) (slot pt : string) : entry :=
  Regular (utf8 (stringify (envelope_json (seal_with k nonce slot pt)))).

(** A file is replaced through a temporary one. *)
Lemma replace_spec d tmp file b : tmp <> file ->
  let (d1, r1) := writeFile tmp b d in
  match r1 with
  | Throw _ => forall f, f <> tmp -> d1 !! f = d !! f
  | Ok _ => exists d2, rename tmp file d1 = (d2, Ok tt) /\ d2 !! file = Some (Regular b) /\
      forall f, f <> file -> f <> tmp -> d2 !! f = d !! f
  end.
Proof.
  intros Hn. unfold writeFile. destruct (d !! tmp) as [[x|x|c]|]; [|by intros f Hf; rewrite lookup_insert_ne|done|];
    (eexists; unfold rename; rewrite lookup_insert_eq; split; [done|]; split; [apply lookup_insert_eq|];
     intros f Hf Ht; by rewrite lookup_insert_ne, lookup_delete_ne, lookup_insert_ne).
Qed.

Lemma write_spec r slot file pt w : coherent w -> file <> keyFilePath p -> tmp_name r file <> keyFilePath p ->
  let (w', res) := writeSecretFile p r slot file pt w in
  coherent w' /\
  (forall f, f <> file -> f <> tmp_name r file -> f <> keyFilePath p -> w_disk w' !! f = w_disk w !! f) /\
  (res = Ok tt -> exists k, key_at (w_disk w') k /\ w_disk w' !! file = Some (sealed k (rnd_nonce r) slot pt)) /\
  (forall e, res = Throw e -> w_disk w' !! file = w_disk w !! file).
Proof.
  intros Hw Hf Ht. unfold writeSecretFile, sealSecret, on_files, mbind, eff_bind.
  pose proof (data_key_spec (rnd_key r) w Hw) as Hd. destruct (getOrCreateDataKey p (rnd_key r) w) as [w1 [k|e]];
    destruct Hd as (H1 & H2 & H3); [|split_and!; by eauto].
  specialize (H3 k eq_refl).
  assert (Hc : forall d', d' !! keyFilePath p = w_disk w1 !! keyFilePath p -> coherent {| w_disk := d'; cachedKey := cachedKey w1 |}).
  { intros d' E c Hc. apply (key_at_same (w_disk w1)); [done|by apply H2]. }
  pose proof (replace_spec (w_disk w1) (tmp_name r file) file
    (utf8 (stringify (envelope_json (seal_with k (rnd_nonce r) slot pt)))) (tmp_other r file)) as Hr.
  unfold mret, eff_ret. destruct (writeFile _ _ (w_disk w1)) as [d1 [[]|e]]; cbn [w_disk cachedKey].
  - destruct Hr as (d2 & -> & Hfile & Hsame).
    assert (Hk : d2 !! keyFilePath p = w_disk w1 !! keyFilePath p) by (by apply Hsame).
    split_and!; [by apply Hc| | |done].
    + intros f Hf1 Hf2 Hf3. cbn. rewrite Hsame by done. by eauto.
    + intros _. exists k. split; [by apply (key_at_same (w_disk w1))|done].
  - split_and!; [by apply Hc, Hr|intros f F1 F2 F3; cbn; rewrite Hr by done; by eauto|done|].
    intros x _. cbn. rewrite Hr by (by apply not_eq_sym, tmp_other). by eauto.
Qed.

(** The key file is written only when there was no key. *)
Lemma write_key_file r slot file pt w : coherent w -> file <> keyFilePath p -> tmp_name r file <> keyFilePath p ->
  is_Some (w_disk w !! keyFilePath p) \/ (exists k, key_at (w_disk w) k) ->
  w_disk (writeSecretFile p r slot file pt w).1 !! keyFilePath p = w_disk w !! keyFilePath p.
Proof.
  intros Hw Hf Ht Hk. unfold writeSecretFile, sealSecret, on_files, mbind, eff_bind.
  pose proof (data_key_spec (rnd_key r) w Hw) as Hd. destruct (getOrCreateDataKey p (rnd_key r) w) as [w1 [k|e]];
    destruct Hd as (H1 & _ & _); specialize (H1 _ (or_intror Hk)); [|exact H1]. rewrite <- H1.
  pose proof (replace_spec (w_disk w1) (tmp_name r file) file
    (utf8 (stringify (envelope_json (seal_with k (rnd_nonce r) slot pt)))) (tmp_other r file)) as Hr.
  unfold mret, eff_ret. destruct (writeFile _ _ (w_disk w1)) as [d1 [[]|e]]; cbn [w_disk cachedKey fst]; [|by apply Hr, not_eq_sym].
  destruct Hr as (d2 & -> & _ & Hsame). by apply Hsame.
Qed.

Lemma envelope_parses e : secret_envelope (parse_or_null (utf8_text (utf8 (stringify (envelope_json e))))) = Some e.
Proof.
  assert (Hw : wf_json (envelope_json e) = true).
  { unfold envelope_json. cbn [wf_json forallb snd]. by rewrite bool_decide_true. }
  unfold parse_or_null. rewrite utf8_text_utf8, JSON_parse_stringify by done. by destruct e.
Qed.

(** [file] holds the secret [pt], sealed with [k]. *)
Definition holds (d : Disk) (k : buffer) (slot file pt : string) : Prop :=
  exists b e, readFile file d = Contents b /\ secret_envelope (parse_or_null (utf8_text b)) = Some e /\ open_with k slot e = Ok pt.

Lemma sealed_holds `{!AeadLaws} d k nonce slot file pt : d !! file = Some (sealed k nonce slot pt) -> holds d k slot file pt.
Proof.
  intros Hf. eexists _, _. split; [by unfold readFile; rewrite Hf|]. split; [apply envelope_parses|].
  unfold open_with, seal_with. cbn [se_nonce se_ct]. rewrite !fromBase64_toBase64, aead_decrypt_encrypt. cbn. by rewrite utf8_text_utf8.
Qed.

Lemma holds_same d d' k slot file pt : d' !! file = d !! file -> holds d k slot file pt -> holds d' k slot file pt.
Proof. intros E (b & e & Hf & He). exists b, e. unfold readFile in *. by rewrite E. Qed.

Lemma key_at_unique d k k' : key_at d k -> key_at d k' -> k = k'.
Proof. intros (a & Ha & Hk) (a' & Ha' & Hk'). congruence. Qed.

(** What a process reads once the key is in the keystore; it changes nothing. *)
Lemma holds_read d k slot file pt c r : key_at d k -> c = None \/ c = Some k -> holds d k slot file pt ->
  readSecretFile p r slot file {| w_disk := d; cachedKey := c |} = ({| w_disk := d; cachedKey := Some k |}, Ok (Some pt)).
Proof.
  intros (a & Ha & Hk) Hc (b & e & Hf & He & Ho). unfold readSecretFile, gets, mbind, eff_bind. cbn [w_disk]. rewrite Hf, He.
  destruct Hc as [-> | ->]; unfold openSecret, getOrCreateDataKey, gets, lift, modify, mbind, eff_bind; cbn [cachedKey w_disk];
    [rewrite Ha, Hk|]; cbn; by rewrite Ho.
Qed.

(** A sealed file is read back under its slot by a process that starts anew. *)
Lemma read_sealed `{!AeadLaws} r d k nonce slot file pt : key_at d k -> d !! file = Some (sealed k nonce slot pt) ->
  readSecretFile p r slot file {| w_disk := d; cachedKey := None |} = ({| w_disk := d; cachedKey := Some k |}, Ok (Some pt)).
Proof. intros Hk Hf. apply holds_read; [done|by left|]. by eapply sealed_holds. Qed.

(** A secret that was read is there, sealed, with its key. *)
Lemma read_holds `{!AeadLaws} r slot file w w' pt : coherent w -> file <> keyFilePath p -> tmp_name r file <> keyFilePath p ->
  readSecretFile p r slot file w = (w', Ok (Some pt)) -> exists k, key_at (w_disk w') k /\ holds (w_disk w') k slot file pt.
Proof.
  intros Hw Hf Ht. unfold readSecretFile, gets. unfold mbind at 1, eff_bind at 1.
  destruct (readFile file (w_disk w)) as [b| |c] eqn:Ef; [|done|done]. destruct (secret_envelope _) as [e|] eqn:Ee.
  - unfold openSecret, lift, mbind, eff_bind. pose proof (data_key_spec (rnd_key r) w Hw) as Hd.
    destruct (getOrCreateDataKey p (rnd_key r) w) as [w1 [k|e']]; [|done]. destruct Hd as (H1 & _ & H3).
    destruct (open_with k slot e) as [pt'|] eqn:Eo; [|done]. intros [= <- <-]. exists k. split; [by apply H3|].
    exists b, e. split; [|done]. rewrite <- Ef. unfold readFile. rewrite (H1 file); [done|by left].
  - unfold mret, eff_ret, mbind, eff_bind. pose proof (write_spec r slot file (utf8_text b) w Hw Hf Ht) as Hs.
    destruct (writeSecretFile p r slot file (utf8_text b) w) as [w1 [[]|e]]; [|done]. intros [= <- <-].
    destruct Hs as (_ & _ & H3 & _). destruct (H3 eq_refl) as (k & Hk & Hs). exists k. split; [done|]. by eapply sealed_holds.
Qed.

(** What reading a secret does to its file: nothing, or it seals the plaintext. *)
Definition kept_or_sealed (r : Random) (slot file : string) (d d' : Disk) : Prop :=
  d' !! file = d !! file \/
  exists k raw, readFile file d = Contents (utf8 raw) /\ key_at d' k /\ d' !! file = Some (sealed k (rnd_nonce r) slot raw).

Lemma read_spec r slot file w : coherent w -> file <> keyFilePath p -> tmp_name r file <> keyFilePath p ->
  let (w', res) := readSecretFile p r slot file w in
  (forall f, f <> file -> f <> tmp_name r file -> f <> keyFilePath p -> w_disk w' !! f = w_disk w !! f) /\
  kept_or_sealed r slot file (w_disk w) (w_disk w') /\ (res = Ok None -> w_disk w !! file = None).
Proof.
  intros Hw Hf Ht. unfold readSecretFile, gets. unfold mbind at 1, eff_bind at 1.
  destruct (readFile file (w_disk w)) as [b| |c] eqn:Ef.
  - destruct (secret_envelope _) as [e|].
    + unfold openSecret, lift, mbind, eff_bind. pose proof (data_key_spec (rnd_key r) w Hw) as Hd.
      destruct (getOrCreateDataKey p (rnd_key r) w) as [w1 [k|e']]; destruct Hd as (H1 & H2 & H3).
      * assert (Hs : kept_or_sealed r slot file (w_disk w) (w_disk w1)) by (left; apply H1; by left).
        unfold mret, eff_ret. destruct (open_with k slot e); split_and!; try done; intros f _ _ Hk; apply H1; by left.
      * assert (Hs : kept_or_sealed r slot file (w_disk w) (w_disk w1)) by (left; apply H1; by left).
        split_and!; try done; intros f _ _ Hk; apply H1; by left.
    + unfold mret, eff_ret, mbind, eff_bind. pose proof (write_spec r slot file (utf8_text b) w Hw Hf Ht) as Hs.
      destruct (writeSecretFile p r slot file (utf8_text b) w) as [w1 [[]|e]]; destruct Hs as (_ & H2 & H3 & H4); split_and!; try done.
      * right. destruct (H3 eq_refl) as (k & Hk & Hs). exists k, (utf8_text b). by rewrite utf8_utf8_text.
      * left. by apply (H4 e).
  - split_and!; [done|by left|]. intros _. by apply readFile_absent.
  - split_and!; try done. by left.
Qed.

Lemma read_coherent r slot file w : coherent w -> file <> keyFilePath p -> tmp_name r file <> keyFilePath p ->
  coherent (readSecretFile p r slot file w).1.
Proof.
  intros Hw Hf Ht. unfold readSecretFile, gets. unfold mbind at 1, eff_bind at 1.
  destruct (readFile file (w_disk w)) as [b| |c]; [|done|done]. destruct (secret_envelope _) as [e|].
  - unfold openSecret, lift, mbind, eff_bind. pose proof (data_key_spec (rnd_key r) w Hw) as Hd.
    destruct (getOrCreateDataKey p (rnd_key r) w) as [w1 [k|e']]; destruct Hd as (_ & Hc & _); [|done].
    by destruct (open_with k slot e).
  - unfold mbind, eff_bind. pose proof (write_spec r slot file (utf8_text b) w Hw Hf Ht) as Hs.
    destruct (writeSecretFile p r slot file (utf8_text b) w) as [w1 [[]|e]]; by destruct Hs as [Hc _].
Qed.

(** The files that [loadOrCreateIdentity] may change. *)
Definition identity_files (r : Random) : list string :=
  let priv := p_privateKeyPem (paths p) in [priv; tmp_name r priv; p_publicKeyPem (paths p); keyFilePath p].

Lemma identity_keeps r fresh w : coherent w -> p_privateKeyPem (paths p) <> keyFilePath p ->
  tmp_name r (p_privateKeyPem (paths p)) <> keyFilePath p -> p_publicKeyPem (paths p) <> keyFilePath p ->
  let (w', res) := loadOrCreateIdentity p r fresh w in
  coherent w' /\ forall f, f ∉ identity_files r -> w_disk w' !! f = w_disk w !! f.
Proof.
  intros Hw H1 H2 H3. unfold loadOrCreateIdentity, gets. cbv zeta. unfold mbind at 1, eff_bind at 1.
  set (priv := p_privateKeyPem (paths p)) in *. set (pub := p_publicKeyPem (paths p)) in *.
  set (create := writeSecretFile p r SLOT_NODE_KEY priv (privateKeyPem fresh) ≫= _).
  assert (Hcreate : forall w0, coherent w0 -> (forall f, f ∉ identity_files r -> w_disk w0 !! f = w_disk w !! f) ->
    let (w', res) := create w0 in coherent w' /\ forall f, f ∉ identity_files r -> w_disk w' !! f = w_disk w !! f).
  { intros w0 Hc Hd. subst create. unfold mbind, eff_bind. pose proof (write_spec r SLOT_NODE_KEY priv (privateKeyPem fresh) w0 Hc H1 H2) as Hs.
    assert (Hw1 : forall w1 : World, (forall f, f <> priv -> f <> tmp_name r priv -> f <> keyFilePath p -> w_disk w1 !! f = w_disk w0 !! f) ->
      forall f, f ∉ identity_files r -> w_disk w1 !! f = w_disk w !! f).
    { intros w1 Hs1 f Hf. rewrite <- Hd by done. unfold identity_files in Hf. cbv zeta in Hf. rewrite !not_elem_of_cons in Hf.
      apply Hs1; tauto. }
    destruct (writeSecretFile _ _ _ _ _ w0) as [w1 [[]|e]]; destruct Hs as (Hc1 & Hs & _); [|split; [done|by apply Hw1]].
    unfold on_files, mret, eff_ret. pose proof (fun f => writeFile_other pub (utf8 (publicKeyPem fresh)) (w_disk w1) f) as Ho.
    destruct (writeFile pub _ (w_disk w1)) as [d2 r2]. cbn [fst] in Ho.
    assert (Hres : coherent {| w_disk := d2; cachedKey := cachedKey w1 |} /\ forall f, f ∉ identity_files r -> d2 !! f = w_disk w !! f).
    { split.
      - intros k Hk. apply (key_at_same (w_disk w1)); [|by apply Hc1]. symmetry. apply Ho. by apply not_eq_sym.
      - intros f Hf. rewrite Ho; [by apply Hw1|]. intros ->. apply Hf. unfold identity_files. cbv zeta. right. right. left. }
    destruct r2 as [[]|e]; exact Hres. }
  destruct (_ && _); [|by apply Hcreate]. unfold mbind at 1, eff_bind at 1.
  pose proof (read_spec r SLOT_NODE_KEY priv w Hw H1 H2) as Hr. pose proof (read_coherent r SLOT_NODE_KEY priv w Hw H1 H2) as Hc.
  destruct (readSecretFile p r SLOT_NODE_KEY priv w) as [w1 res]. destruct Hr as (Hd & _). cbn [fst] in Hc.
  assert (Hk : forall f, f ∉ identity_files r -> w_disk w1 !! f = w_disk w !! f).
  { intros f Hf. unfold identity_files in Hf. cbv zeta in Hf. rewrite !not_elem_of_cons in Hf. apply Hd; tauto. }
  destruct res as [[pem|]|e]; [|by apply Hcreate|done]. destruct (bool_decide (pem = "")); [by apply Hcreate|].
  unfold lift, mbind, eff_bind. by destruct (readFile_or_throw pub (w_disk w1)).
Qed.

(** The temporary file of the private key is not the public key. *)
Lemma tmp_not_public r : tmp_name r (p_privateKeyPem (paths p)) <> p_publicKeyPem (paths p).
Proof.
  assert (Hl : String.length (p_privateKeyPem (paths p)) = String.length (p_publicKeyPem (paths p))).
  { change (String.length (path_join [path_join [stateDir p; "keys"]; "node.key"]) =
            String.length (path_join [path_join [stateDir p; "keys"]; "node.pub"])).
    rewrite (path_join_file _ "node.key"), (path_join_file _ "node.pub") by (apply path_join_nonempty || (split_and!; done)).
    rewrite !str_app_length. f_equal.
    generalize (dir_segments (path_join [stateDir p; "keys"])). clear. unfold join.
    induction l as [|s l IH]; [reflexivity|]. cbn [app]. destruct (l ++ ["node.key"]) as [|x1 l1] eqn:E1; [by destruct l|].
    destruct (l ++ ["node.pub"]) as [|x2 l2] eqn:E2; [by destruct l|]. cbn [String.concat] in *.
    rewrite !str_app_length. by rewrite IH. }
  unfold tmp_name. intros E. apply (f_equal String.length) in E. rewrite !str_app_length, Hl in E. cbn in E. lia.
Qed.

(** The disk holds this identity, the private key under the key of the keystore. *)
Definition settled (d : Disk) (k : buffer) (id : NodeIdentity) : Prop :=
  key_at d k /\ holds d k SLOT_NODE_KEY (p_privateKeyPem (paths p)) (privateKeyPem id) /\
  readFile (p_publicKeyPem (paths p)) d = Contents (utf8 (publicKeyPem id)) /\ privateKeyPem id <> "".

Lemma identity_settled `{!AeadLaws} r fresh w w' id : coherent w -> p_privateKeyPem (paths p) <> keyFilePath p ->
  tmp_name r (p_privateKeyPem (paths p)) <> keyFilePath p -> p_publicKeyPem (paths p) <> keyFilePath p ->
  p_privateKeyPem (paths p) <> p_publicKeyPem (paths p) -> privateKeyPem fresh <> "" ->
  loadOrCreateIdentity p r fresh w = (w', Ok id) -> exists k, settled (w_disk w') k id.
Proof.
  intros Hw H1 H2 H3 H4 Hne. unfold loadOrCreateIdentity, gets. cbv zeta. unfold mbind at 1, eff_bind at 1. unfold settled.
  set (priv := p_privateKeyPem (paths p)) in *. set (pub := p_publicKeyPem (paths p)) in *.
  set (create := writeSecretFile p r SLOT_NODE_KEY priv (privateKeyPem fresh) ≫= _).
  assert (Hcreate : forall w0, coherent w0 -> create w0 = (w', Ok id) -> exists k, key_at (w_disk w') k /\
    holds (w_disk w') k SLOT_NODE_KEY priv (privateKeyPem id) /\ readFile pub (w_disk w') = Contents (utf8 (publicKeyPem id)) /\ privateKeyPem id <> "").
  { intros w0 Hc. subst create. unfold mbind, eff_bind. pose proof (write_spec r SLOT_NODE_KEY priv (privateKeyPem fresh) w0 Hc H1 H2) as Hs.
    destruct (writeSecretFile _ _ _ _ _ w0) as [w1 [[]|e]]; [|done]. destruct Hs as (_ & _ & Hs & _). destruct (Hs eq_refl) as (k & Hk & Hf).
    unfold on_files, mret, eff_ret. destruct (writeFile pub _ (w_disk w1)) as [d2 [[]|e]] eqn:Ew; [|done]. apply writeFile_ok in Ew. subst d2.
    intros [= <- <-]. exists k. cbn [w_disk]. unfold readFile at 1. rewrite lookup_insert_eq. split_and!; [| |done..].
    - apply (key_at_same (w_disk w1)); [|done]. unfold same_key_file. by rewrite lookup_insert_ne.
    - eapply sealed_holds. by rewrite lookup_insert_ne. }
  destruct (_ && _); [|by apply Hcreate]. unfold mbind at 1, eff_bind at 1.
  pose proof (read_coherent r SLOT_NODE_KEY priv w Hw H1 H2) as Hc. pose proof (read_holds r SLOT_NODE_KEY priv w) as Hr.
  destruct (readSecretFile p r SLOT_NODE_KEY priv w) as [w1 [[pem|]|e]]; cbn [fst] in Hc; [|by apply Hcreate|done].
  case_bool_decide as Ep; [by apply Hcreate|]. destruct (Hr w1 pem Hw H1 H2 eq_refl) as (k & Hk & Hh).
  unfold lift, mbind, eff_bind, readFile_or_throw. destruct (readFile pub (w_disk w1)) as [b| |c] eqn:Eb; [|done|done].
  intros [= <- <-]. exists k. cbn [privateKeyPem publicKeyPem]. by rewrite utf8_utf8_text, Eb.
Qed.

(** Every later process loads it, and changes nothing. *)
Lemma settled_loads r other d k id : settled d k id ->
  loadOrCreateIdentity p r other {| w_disk := d; cachedKey := None |} = ({| w_disk := d; cachedKey := Some k |}, Ok id).
Proof.
  intros (Hk & Hh & Hpub & Hne). unfold loadOrCreateIdentity, gets. cbv zeta. unfold mbind at 1, eff_bind at 1. cbn [w_disk].
  assert (Hpriv : file_exists (p_privateKeyPem (paths p)) d = true) by (destruct Hh as (b & e & Hb & _); by eapply readFile_exists).
  assert (Hpub' : file_exists (p_publicKeyPem (paths p)) d = true) by (by eapply readFile_exists).
  rewrite Hpriv, Hpub'. cbn [andb]. unfold mbind at 1, eff_bind at 1. rewrite (holds_read d k _ _ _ _ r Hk (or_introl eq_refl) Hh).
  rewrite (bool_decide_false _ Hne). unfold lift, mbind, eff_bind, readFile_or_throw. cbn [w_disk]. rewrite Hpub.
  cbn. rewrite utf8_text_utf8. by destruct id.
Qed.

Lemma settled_same d d' k id : key_at d' k -> d' !! p_privateKeyPem (paths p) = d !! p_privateKeyPem (paths p) ->
  d' !! p_publicKeyPem (paths p) = d !! p_publicKeyPem (paths p) -> settled d k id -> settled d' k id.
Proof. intros Hk E1 E2 (_ & Hh & Hp & Hne). split_and!; [done|by eapply holds_same|by rewrite (readFile_same _ d)|done]. Qed.
End Lemmas.

(** ** Properties *)

(** C24: a secret survives a restart: what [writeSecretFile] stored, a process
    started afterwards with the same keystore reads back under the same slot,
    whether the data key existed or was made for it; the reading changes no file,
    and the writing changed none but the secret's, its temporary file and, when there
    was no key, the key file: a key file that exists, whatever it holds, is left as it
    is, and so is the place of one when the keystore has a key elsewhere. *)
Theorem secret_roundtrip `{Aead, !AeadLaws} (p : Process) (r r' : Random) (slot file pt : string) (w w' : World) :
  coherent p w -> file <> keyFilePath p -> tmp_name r file <> keyFilePath p ->
  writeSecretFile p r slot file pt w = (w', Ok tt) ->
  (exists k, readSecretFile p r' slot file (set_cache None w') = ({| w_disk := w_disk w'; cachedKey := Some k |}, Ok (Some pt))) /\
  forall f, f <> file -> f <> tmp_name r file ->
    (f = keyFilePath p -> is_Some (w_disk w !! f) \/ exists k, key_at p (w_disk w) k) -> w_disk w' !! f = w_disk w !! f.
Proof.
  intros Hw Hf Ht E. pose proof (write_spec p r slot file pt w Hw Hf Ht) as Hs. pose proof (write_key_file p r slot file pt w Hw Hf Ht) as Hkf.
  rewrite E in Hs, Hkf. destruct Hs as (_ & Hd & Hk & _). destruct (Hk eq_refl) as (k & Hk1 & Hk2). split.
  - exists k. by apply (read_sealed p r' (w_disk w') k (rnd_nonce r)).
  - intros f Hf1 Hf2 Hf3. destruct (decide (f = keyFilePath p)) as [->|Hne]; [by apply Hkf, Hf3|by apply Hd].
Qed.

(** The private key file holds the empty text, plain or sealed. *)
Definition empty_secret `{Aead} (p : Process) (r : Random) (file : string) (w : World) : Prop :=
  exists b, readFile file (w_disk w) = Contents b /\
    (b = [] \/ exists e w1 k, secret_envelope (parse_or_null (utf8_text b)) = Some e /\
                getOrCreateDataKey p (rnd_key r) w = (w1, Ok k) /\ open_with k SLOT_NODE_KEY e = Ok "").

Lemma read_empty `{Aead} (p : Process) (r : Random) (file : string) (w w1 : World) :
  readSecretFile p r SLOT_NODE_KEY file w = (w1, Ok (Some "")) -> empty_secret p r file w.
Proof.
  unfold readSecretFile, gets. unfold mbind at 1, eff_bind at 1. destruct (readFile file (w_disk w)) as [b| |c] eqn:Ef; [|done|done].
  destruct (secret_envelope _) as [e|] eqn:Ee.
  - unfold openSecret, lift, mbind, eff_bind. destruct (getOrCreateDataKey p (rnd_key r) w) as [w2 [k|x]] eqn:Ek; [|done].
    destruct (open_with k SLOT_NODE_KEY e) as [t|x] eqn:Eo; [|done]. intros [= <- ->]. exists b. split; [done|]. right. by exists e, w2, k.
  - unfold mbind, eff_bind. destruct (writeSecretFile _ _ _ _ _ w) as [w2 [[]|x]]; [|done]. intros [= <- E]. exists b. split; [done|]. left.
    apply (f_equal utf8) in E. by rewrite utf8_utf8_text in E.
Qed.

Lemma empty_read `{Aead} (p : Process) (r : Random) (file : string) (w w1 : World) t :
  empty_secret p r file w -> readSecretFile p r SLOT_NODE_KEY file w = (w1, Ok t) -> t = Some "".
Proof.
  intros (b & Hf & Hb). unfold readSecretFile, gets. unfold mbind at 1, eff_bind at 1. rewrite Hf.
  destruct Hb as [-> |(e & w2 & k & -> & Hk & Ho)].
  - replace (secret_envelope (parse_or_null (utf8_text []))) with (@None SecretEnvelope) by (vm_compute; reflexivity).
    unfold mbind, eff_bind. destruct (writeSecretFile _ _ _ _ _ w) as [w2 [[]|x]]; [|done]. by intros [= <- <-].
  - unfold openSecret, lift, mbind, eff_bind. rewrite Hk, Ho. by intros [= <- <-].
Qed.

(** C15: a registered identity is not replaced while its key files are there: whatever
    condition the two files are in, as long as the private one does not hold the empty
    text, [loadOrCreateIdentity] leaves the public key as it is and the private key as
    it is or sealed in place, and either throws or returns the two keys of the files,
    never new ones.  A private key file that holds the empty text, plain or sealed, is
    the one exception: the code takes it for a missing identity, and what it returns
    then is new and overwrites both files. *)
Theorem identity_never_replaced `{Aead, !AeadLaws} (p : Process) (r : Random) (fresh : NodeIdentity) (w : World) :
  let priv := p_privateKeyPem (paths p) in let pub := p_publicKeyPem (paths p) in
  coherent p w -> file_exists priv (w_disk w) = true -> file_exists pub (w_disk w) = true ->
  priv <> keyFilePath p -> pub <> keyFilePath p -> tmp_name r priv <> keyFilePath p -> priv <> pub ->
  let (w', res) := loadOrCreateIdentity p r fresh w in
  (~ empty_secret p r priv w ->
     w_disk w' !! pub = w_disk w !! pub /\
     kept_or_sealed p r SLOT_NODE_KEY priv (w_disk w) (w_disk w') /\
     forall id, res = Ok id -> readFile pub (w_disk w) = Contents (utf8 (publicKeyPem id)) /\
       exists w1, readSecretFile p r SLOT_NODE_KEY priv w = (w1, Ok (Some (privateKeyPem id)))) /\
  (empty_secret p r priv w -> forall id, res = Ok id ->
     id = fresh /\ readFile pub (w_disk w') = Contents (utf8 (publicKeyPem fresh)) /\
     exists k, holds (w_disk w') k SLOT_NODE_KEY priv (privateKeyPem fresh)).
Proof.
  cbn zeta. set (priv := p_privateKeyPem _). set (pub := p_publicKeyPem _).
  intros Hw Hpriv Hpub H1 H2 H3 H4. unfold loadOrCreateIdentity, gets. cbv zeta. unfold mbind at 1, eff_bind at 1.
  fold priv pub. rewrite Hpriv, Hpub. cbn [andb]. unfold mbind at 1, eff_bind at 1.
  pose proof (read_spec p r SLOT_NODE_KEY priv w Hw H1 H3) as Hr. pose proof (read_coherent p r SLOT_NODE_KEY priv w Hw H1 H3) as Hc.
  pose proof (read_empty p r priv w) as He. pose proof (empty_read p r priv w) as He'.
  destruct (readSecretFile p r SLOT_NODE_KEY priv w) as [w1 res]. destruct Hr as (Hd & Hk & Hn).
  assert (Hp : w_disk w1 !! pub = w_disk w !! pub) by (apply Hd; try done; apply not_eq_sym, tmp_not_public).
  destruct res as [[pem|]|e]; [| |by split; [|done]].
  - case_bool_decide as Epem; [subst pem|].
    + specialize (He w1 eq_refl). unfold mbind, eff_bind. cbn [fst] in Hc.
      pose proof (write_spec p r SLOT_NODE_KEY priv (privateKeyPem fresh) w1 Hc H1 H3) as Hs.
      destruct (writeSecretFile _ _ _ _ _ w1) as [w2 [[]|e]]; [|by split]. destruct Hs as (_ & _ & Hs & _).
      destruct (Hs eq_refl) as (k & _ & Hks). unfold on_files.
      destruct (writeFile pub _ (w_disk w2)) as [d2 [[]|e]] eqn:Ew; [|by split]. apply writeFile_ok in Ew. subst d2. split; [done|].
      intros _ id [= <-]. cbn [w_disk]. unfold readFile. rewrite lookup_insert_eq. split; [done|]. split; [done|]. exists k.
      eapply sealed_holds. by rewrite lookup_insert_ne.
    + unfold lift, mbind, eff_bind, readFile_or_throw. rewrite (readFile_same pub _ _ Hp).
      destruct (readFile pub (w_disk w)) as [b| |c] eqn:Eb; (split; [intros _|by intros Hem; specialize (He' _ _ Hem eq_refl); simplify_eq]); split_and!; try done.
      intros id [= <-]. cbn [publicKeyPem privateKeyPem]. rewrite utf8_utf8_text. split; [done|]. by exists w1.
  - apply bool_decide_eq_true in Hpriv as [x Hx]. rewrite (Hn eq_refl) in Hx. done.
Qed.

(** A finding: when the public key file is missing, the private key of a
    registered node is overwritten with a new one, whatever it was. *)
Theorem identity_lost_without_public `{Aead, !AeadLaws} (p : Process) (r r' : Random) (fresh id : NodeIdentity) (w w' : World) :
  let priv := p_privateKeyPem (paths p) in
  coherent p w -> priv <> keyFilePath p -> tmp_name r priv <> keyFilePath p -> p_publicKeyPem (paths p) <> keyFilePath p ->
  priv <> p_publicKeyPem (paths p) ->
  file_exists (p_publicKeyPem (paths p)) (w_disk w) = false ->
  loadOrCreateIdentity p r fresh w = (w', Ok id) ->
  id = fresh /\ exists w2, readSecretFile p r' SLOT_NODE_KEY priv (set_cache None w') = (w2, Ok (Some (privateKeyPem fresh))).
Proof.
  cbn zeta. set (priv := p_privateKeyPem _). set (pub := p_publicKeyPem _).
  intros Hw H1 H3 H2 H4 Hpub. unfold loadOrCreateIdentity, gets. cbv zeta. unfold mbind at 1, eff_bind at 1.
  fold priv pub. rewrite Hpub, andb_false_r. unfold mbind, eff_bind.
  pose proof (write_spec p r SLOT_NODE_KEY priv (privateKeyPem fresh) w Hw H1 H3) as Hs.
  destruct (writeSecretFile _ _ _ _ _ w) as [w1 [[]|e]]; [|done]. destruct Hs as (_ & Hd & Hk & _).
  destruct (Hk eq_refl) as (k & Hka & Hks). unfold on_files.
  destruct (writeFile pub _ (w_disk w1)) as [d2 [[]|e]] eqn:Ew; [|done]. intros [= <- <-]. split; [done|].
  apply writeFile_ok in Ew. subst d2. unfold set_cache. cbn [w_disk].
  eexists. apply (read_sealed p r' _ k (rnd_nonce r)).
  - apply (key_at_same p (w_disk w1)); [|done]. unfold same_key_file. by rewrite lookup_insert_ne.
  - by rewrite lookup_insert_ne.
Qed.

(** ** A concrete node *)

Module Node.
Definition process : Process :=
  {| env := fun _ => None; homedir := "/home/op"; cwd := "/srv/node"; os_platform := "linux"; os_arch := "x64"; getuid := Some 1000 |}.
Definition random (n : Z) : Random :=
  {| rnd_key := be_encode 32 n; rnd_nonce := be_encode 12 n; rnd_suffix := be_encode 6 n |}.
Definition empty : World := {| w_disk := ∅; cachedKey := None |}.
Definition registered : NodeIdentity := {| privateKeyPem := "PRIVATE"; publicKeyPem := "PUBLIC" |}.
Definition other : NodeIdentity := {| privateKeyPem := "OTHER"; publicKeyPem := "NEW" |}.
Definition priv : string := p_privateKeyPem (paths process).
Definition pub : string := p_publicKeyPem (paths process).
Definition load (n : Z) (fresh : NodeIdentity) (w : World) := @loadOrCreateIdentity Toy.aead process (random n) fresh w.
Definition written : World := (@writeSecretFile Toy.aead process (random 5) SLOT_JOIN_AUTH "/home/op/auth" "{}" empty).1.
Definition provisioned : World := (load 5 registered empty).1.
Definition with_empty : World := {| w_disk := <[priv := Regular []]> (w_disk provisioned); cachedKey := None |}.
Definition without_public : World := {| w_disk := delete pub (w_disk provisioned); cachedKey := None |}.

Lemma coherent_new d : coherent process {| w_disk := d; cachedKey := None |}.
Proof. by intros k. Qed.
End Node.

Lemma secret_roundtrip_witness : exists k,
  @readSecretFile Toy.aead Node.process (Node.random 6) SLOT_JOIN_AUTH "/home/op/auth" (set_cache None Node.written) =
    ({| w_disk := w_disk Node.written; cachedKey := Some k |}, Ok (Some "{}")).
Proof.
  apply (@secret_roundtrip Toy.aead Toy.aead_laws Node.process (Node.random 5) (Node.random 6) SLOT_JOIN_AUTH "/home/op/auth" "{}" Node.empty);
    [apply Node.coherent_new|vm_compute; discriminate|vm_compute; discriminate|vm_compute; reflexivity].
Defined.

Lemma identity_never_replaced_witness :
  w_disk (Node.load 6 Node.other (set_cache None Node.provisioned)).1 !! Node.pub = Some (Regular (utf8 "PUBLIC")) /\
  readFile Node.pub (w_disk (Node.load 6 Node.other Node.with_empty).1) = Contents (utf8 "NEW").
Proof.
  pose proof (@identity_never_replaced Toy.aead Toy.aead_laws Node.process (Node.random 6) Node.other) as Ht. cbn zeta in Ht. split.
  - specialize (Ht (set_cache None Node.provisioned)). unfold Node.load. destruct (loadOrCreateIdentity _ _ _ _) as [w' res]. cbn [fst].
    change (w_disk w' !! p_publicKeyPem (paths Node.process) = Some (Regular (utf8 "PUBLIC"))).
    destruct Ht as [Ht _]; [apply Node.coherent_new|vm_compute; reflexivity|vm_compute; reflexivity|vm_compute; discriminate..|].
    destruct Ht as [-> _]; [|vm_compute; reflexivity].
    intros (b & Hb & [-> |(e & w1 & k & He & Hk & Ho)]); [vm_compute in Hb; discriminate Hb|].
    vm_compute in Hb. injection Hb as <-. vm_compute in He. injection He as <-. vm_compute in Hk. injection Hk as <- <-. vm_compute in Ho. discriminate Ho.
  - specialize (Ht Node.with_empty). unfold Node.load. destruct (loadOrCreateIdentity _ _ _ _) as [w' res] eqn:E. cbn [fst].
    destruct Ht as [_ Ht]; [apply Node.coherent_new|vm_compute; reflexivity|vm_compute; reflexivity|vm_compute; discriminate..|].
    assert (Hres : res = Ok Node.other) by (apply (f_equal snd) in E; cbn [snd] in E; rewrite <- E; vm_compute; reflexivity).
    destruct (Ht ltac:(exists []; split; [vm_compute; reflexivity|by left]) Node.other Hres) as (_ & Hp & _). exact Hp.
Defined.

Lemma identity_lost_without_public_witness :
  exists w2, @readSecretFile Toy.aead Node.process (Node.random 8) SLOT_NODE_KEY Node.priv
    (set_cache None (Node.load 7 Node.other Node.without_public).1) = (w2, Ok (Some "OTHER")).
Proof.
  apply (@identity_lost_without_public Toy.aead Toy.aead_laws Node.process (Node.random 7) (Node.random 8) Node.other Node.other
    Node.without_public); [apply Node.coherent_new|vm_compute; discriminate..|vm_compute; reflexivity|vm_compute; reflexivity].
Defined.
