(* ===== verification/Secrets.v ===== *)
(** * The check of the secrets before boot (secrets-check.ts)

    Run as the account of the daemon: it makes the data key if there is none, and
    opens what is sealed with it. *)

From S2P Require Import Prelude Effect Text Json JsonText JsonIndent Coerce Base64 Crypto CanonicalJson Files SecretStore.
Local Open Scope Z_scope.

(** What is said of a slot. *)
Inductive finding := Absent | Opens.

Section Check.
Context `{Aead} (p : Process).

(** Every error of a secret is explained as one of the key. *)
Definition undecryptable (slot file location : string) (e : exn) : exn :=
  PlainError (slot +:+ " at " +:+ file +:+ " could not be decrypted with the data key at " +:+ location +:+ ". " +:+
    "The key does not match this node's secrets — it was most likely lost, rotated, or " +:+
    "created under a different user account. Restore the original key file; a node " +:+
    "cannot recover " +:+ SLOT_NODE_KEY +:+ " without it and would have to re-register. " +:+
    "(underlying: " +:+ errorMessage e +:+ ")").

Definition check_slot (r : Random) (location slot file : string) : eff World finding :=
  d ← gets w_disk;
  if negb (file_exists file d) then mret Absent
  else
    try_catch (readSecretFile p r slot file;; mret tt) (fun e => throw (undecryptable slot file location e));;
    mret Opens.

(** [main]: the random bytes are those of its three calls. *)
Definition main (r1 r2 r3 : Random) : eff World (finding * finding) :=
  d ← gets w_disk;
  before ← lift (describeKeystore p d);
  getOrCreateDataKey p (rnd_key r1);;
  d ← gets w_disk;
  after ← lift (describeKeystore p d);
  lift (throw_if (negb (ks_present after) && negb (bool_decide (ks_adapter after = "env")))
    (PlainError ("data key was not persisted to " +:+ ks_location after)));;
  a ← check_slot r2 (ks_location after) SLOT_NODE_KEY (p_privateKeyPem (paths p));
  b ← check_slot r3 (ks_location after) SLOT_JOIN_AUTH (joinAuth (paths p));
  mret (a, b).
End Check.

(** ** Lemmas *)

Section Lemmas.
Context `{Aead, !AeadLaws} (p : Process).

(** The file holds a secret that this key opens. *)
Definition opens_with (d : Disk) (k : buffer) (slot file : string) : Prop := exists pt, holds d k slot file pt.

(** With the key in the cache nothing but the secret's own files changes. *)
Definition only_changes (r : Random) (file : string) (d d' : Disk) : Prop :=
  forall f, f <> file -> f <> tmp_name r file -> d' !! f = d !! f.

Lemma cached_key_read key w k : cachedKey w = Some k -> getOrCreateDataKey p key w = (w, Ok k).
Proof. unfold getOrCreateDataKey, gets, mbind, eff_bind. by intros ->. Qed.

Lemma sealed_opens d k nonce slot file pt : d !! file = Some (sealed k nonce slot pt) -> opens_with d k slot file.
Proof. intros Hf. exists pt. by eapply sealed_holds. Qed.

(** [readSecretFile] of a file that exists, when it returns. *)
Lemma read_opens r slot file w k w' res : cachedKey w = Some k -> is_Some (w_disk w !! file) ->
  readSecretFile p r slot file w = (w', Ok res) ->
  cachedKey w' = Some k /\ only_changes r file (w_disk w) (w_disk w') /\ opens_with (w_disk w') k slot file.
Proof.
  intros Hk [x Hx]. unfold readSecretFile, gets. unfold mbind at 1, eff_bind at 1.
  destruct (readFile file (w_disk w)) as [b| |c] eqn:Ef; [|by apply readFile_absent in Ef; rewrite Ef in Hx|done].
  destruct (secret_envelope _) as [e|] eqn:Ee.
  - unfold openSecret. unfold mbind at 1, eff_bind at 1. unfold mbind at 1, eff_bind at 1. rewrite (cached_key_read _ _ _ Hk). unfold lift.
    destruct (open_with k slot e) as [pt|] eqn:Eo; [|done]. intros [= <- <-]. split_and!; [done|by intros f|]. by exists pt, b, e.
  - unfold writeSecretFile, sealSecret. unfold mbind, eff_bind. rewrite (cached_key_read _ _ _ Hk). unfold mret, eff_ret, on_files.
    pose proof (replace_spec (w_disk w) (tmp_name r file) file
      (utf8 (stringify (envelope_json (seal_with k (rnd_nonce r) slot (utf8_text b))))) (tmp_other r file)) as Hr.
    destruct (writeFile _ _ (w_disk w)) as [d1 [[]|e']]; [|done]. cbn [w_disk cachedKey]. destruct Hr as (d2 & -> & Hfile & Hsame).
    intros [= <- <-]. cbn [w_disk cachedKey]. split_and!; [done|exact Hsame|]. by eapply sealed_opens.
Qed.

Lemma check_inv r location slot file w k w' f : cachedKey w = Some k -> check_slot p r location slot file w = (w', Ok f) ->
  cachedKey w' = Some k /\ only_changes r file (w_disk w) (w_disk w') /\
  (file_exists file (w_disk w) = true -> opens_with (w_disk w') k slot file).
Proof.
  intros Hk. unfold check_slot, gets. unfold mbind at 1, eff_bind at 1. destruct (file_exists file (w_disk w)) eqn:Ef; cbn [negb].
  - unfold try_catch, throw, mbind, eff_bind, mret, eff_ret. destruct (readSecretFile p r slot file w) as [w1 [res|e]] eqn:Er; [|done].
    intros [= <- <-]. unfold file_exists in Ef. bool_solve. edestruct read_opens as (H1 & H2 & H3); [exact Hk|eassumption|exact Er|]. by split_and!.
  - intros [= <- <-]. split_and!; [done|by intros g|done].
Qed.

(** The key that is used is in the keystore, and in the cache. *)
Lemma data_key_cached key w w' k : coherent p w -> getOrCreateDataKey p key w = (w', Ok k) -> cachedKey w' = Some k /\ key_at p (w_disk w') k.
Proof.
  intros Hw E. pose proof (data_key_spec p key w Hw) as Hs. rewrite E in Hs. destruct Hs as (_ & _ & Hk). split; [|by apply Hk].
  unfold getOrCreateDataKey, gets, lift, modify, mbind, eff_bind in E. destruct (cachedKey w) as [c|] eqn:Ec; [by injection E as <- <-|].
  destruct (selectAdapter p) as [a|]; [|done]. destruct (ka_get a (w_disk w)) as [[c|]|]; [by injection E as <- <-| |done].
  destruct (on_files _ w) as [w1 [[]|]]; [|done]. destruct (ka_get a (w_disk w1)) as [st|]; [|done].
  destruct (throw_if _ _) as [[]|]; [|done]. by injection E as <- <-.
Qed.

(** What a process makes of a pair of key files, when the private one is sealed. *)
Lemma identity_of_pair d k pem b r other : let priv := p_privateKeyPem (paths p) in let pub := p_publicKeyPem (paths p) in
  let start := {| w_disk := d; cachedKey := None |} in let opened := {| w_disk := d; cachedKey := Some k |} in
  priv <> keyFilePath p -> tmp_name r priv <> keyFilePath p -> priv <> pub ->
  key_at p d k -> holds d k SLOT_NODE_KEY priv pem -> readFile pub d = Contents b ->
  (pem <> "" -> loadOrCreateIdentity p r other start = (opened, Ok {| privateKeyPem := pem; publicKeyPem := utf8_text b |})) /\
  (pem = "" -> forall w2 id, loadOrCreateIdentity p r other start = (w2, Ok id) -> id = other /\ holds (w_disk w2) k SLOT_NODE_KEY priv (privateKeyPem other)).
Proof.
  cbv zeta. intros H1 H2 H3 Hk Hh Hb. set (priv := p_privateKeyPem _) in *. set (pub := p_publicKeyPem _) in *.
  assert (Hpub : file_exists pub d = true) by (by eapply readFile_exists).
  assert (Hpriv : file_exists priv d = true) by (destruct Hh as (b' & e & Hb' & _); by eapply readFile_exists).
  split; intros Hp; unfold loadOrCreateIdentity, gets; cbv zeta; fold priv pub; unfold mbind at 1, eff_bind at 1; cbn [w_disk];
    rewrite Hpriv, Hpub; cbn [andb]; unfold mbind at 1, eff_bind at 1; rewrite (holds_read p d k _ _ _ _ r Hk (or_introl eq_refl) Hh).
  - rewrite bool_decide_false by done. unfold lift, mbind, eff_bind. cbn [w_disk]. unfold readFile_or_throw. by rewrite Hb.
  - rewrite bool_decide_true by done. intros w2 id.
    assert (Hc : coherent p {| w_disk := d; cachedKey := Some k |}) by (by intros c [= <-]).
    assert (Hck : cachedKey {| w_disk := d; cachedKey := Some k |} = Some k) by done.
    unfold writeSecretFile, sealSecret, mbind, eff_bind. rewrite (cached_key_read _ _ _ Hck). unfold mret, eff_ret, on_files. cbn [w_disk cachedKey].
    pose proof (replace_spec d (tmp_name r priv) priv
      (utf8 (stringify (envelope_json (seal_with k (rnd_nonce r) SLOT_NODE_KEY (privateKeyPem other))))) (tmp_other r priv)) as Hr.
    destruct (writeFile _ _ d) as [d1 [[]|e']]; [|done]. cbn [w_disk cachedKey]. destruct Hr as (d2 & -> & Hfile & _). cbn [w_disk].
    destruct (writeFile pub _ d2) as [d3 [[]|e']] eqn:Ew; [|done]. apply writeFile_ok in Ew. subst d3. intros [= <- <-]. split; [done|].
    eapply sealed_holds. cbn [w_disk]. rewrite lookup_insert_ne by done. exact Hfile.
Qed.

Lemma opens_kept d d' k slot file : d' !! file = d !! file -> opens_with d k slot file -> opens_with d' k slot file.
Proof. intros E [pt Hh]. exists pt. by eapply holds_same. Qed.
End Lemmas.

(** ** Properties *)


(** A node that was provisioned before, with a join authorization in plain text. *)
Module CheckDemo.
Definition disk : Disk := <[joinAuth (paths Node.process) := Regular (utf8 "{}")]> (w_disk Node.provisioned).
Definition check (d : Disk) := @main Toy.aead Node.process (Node.random 11) (Node.random 12) (Node.random 13) {| w_disk := d; cachedKey := None |}.
Definition checked := check disk.
(** The same node after its key file was truncated. *)
Definition truncated := check (<[Node.priv := Regular []]> disk).
End CheckDemo.

(** The check passes a truncated key file, and the daemon replaces the identity. *)
Example truncated_key_passes : CheckDemo.truncated.2 = Ok (Opens, Opens) /\
  (@loadOrCreateIdentity Toy.aead Node.process (Node.random 14) Node.other {| w_disk := w_disk CheckDemo.truncated.1; cachedKey := None |}).2 = Ok Node.other.
Proof. split; vm_compute; reflexivity. Qed.

