(* ===== verification/Machine.v ===== *)
(** * One node per machine (node/machine.ts)

    The registry file of a machine.  Its text is kept as the value [JSON.parse]
    gives for it.  A save goes to a temporary file that is renamed, so that one that
    fails leaves the registry as it was; the temporary file itself is not modelled, and
    two processes do not run here at the same time. *)

From S2P Require Import Prelude Effect Text Json JsonText Coerce Messages Files.
Local Open Scope Z_scope.

Record MachineRegistry := {
  machine_id : string; created_at : string; updated_at : string; mr_state_dir : option string;
  install_dir : option string; mr_node_id : option string; registered_at : option string }.

Inductive registry_file :=
| NoFile
| BadRead (code : string)
| Text (parsed : result json).

(** The machine: its registry, and what becomes of the saves to come - the error code
    of a directory, a write or a rename that fails, or success, as for every save
    after these. *)
Record Machine := { m_file : registry_file; m_saves : list (option string) }.

Definition machineRegistryDir (p : Process) : string :=
  let dir := trim (default "" (env p "CONSENSUS_MACHINE_REGISTRY_DIR")) in
  if bool_decide (dir = "") then path_join [homedir p; ".consensus"] else dir.
Definition machineRegistryPath (p : Process) : string := path_join [machineRegistryDir p; "machine.json"].

Definition registry_json (r : MachineRegistry) : json :=
  obj [("machine_id", Some (JStr (machine_id r))); ("created_at", Some (JStr (created_at r)));
       ("updated_at", Some (JStr (updated_at r))); ("state_dir", JStr <$> mr_state_dir r);
       ("install_dir", JStr <$> install_dir r); ("node_id", JStr <$> mr_node_id r);
       ("registered_at", JStr <$> registered_at r)].

Section Registry.
Context (p : Process).

Definition loadMachineRegistry (now : string) (f : registry_file) : result (option MachineRegistry) :=
  match f with
  | NoFile => Ok None
  | BadRead code => Throw (io_error code)
  | Text parsed =>
      v ← parsed;
      throw_if (bool_decide (v = JNull)) (TypeError "null is not an object");;
      let id := default "" (as_string (get "machine_id" v)) in
      throw_if (bool_decide (id = "")) (PlainError ("Machine registry is missing machine_id at " +:+ machineRegistryPath p));;
      Ok (Some {| machine_id := id; created_at := default now (as_string (get "created_at" v));
                  updated_at := default now (as_string (get "updated_at" v)); mr_state_dir := as_string (get "state_dir" v);
                  install_dir := as_string (get "install_dir" v); mr_node_id := as_string (get "node_id" v);
                  registered_at := as_string (get "registered_at" v) |})
  end.

Definition saveMachineRegistry (r : MachineRegistry) : eff Machine unit := fun m =>
  match m_saves m with
  | Some code :: l => ({| m_file := m_file m; m_saves := l |}, Throw (io_error code))
  | None :: l => ({| m_file := Text (Ok (registry_json r)); m_saves := l |}, Ok tt)
  | [] => ({| m_file := Text (Ok (registry_json r)); m_saves := [] |}, Ok tt)
  end.

Definition loadOrCreateMachineRegistry (now uuid : string) : eff Machine MachineRegistry :=
  f ← gets m_file;
  existing ← lift (loadMachineRegistry now f);
  match existing with
  | Some r => mret r
  | None =>
      let r := {| machine_id := uuid; created_at := now; updated_at := now; mr_state_dir := None; install_dir := None;
                  mr_node_id := None; registered_at := None |} in
      saveMachineRegistry r;; mret r
  end.

(** A text that counts as set. *)
Definition set_text (o : option string) : option string := match o with Some s => if bool_decide (s = "") then None else o | None => None end.

Definition normalizeDir (value : string) : string := resolve p value.
Definition one_per_machine : string := "Consensus allows one node per machine; use that existing node state instead of registering another.".

Definition assertMachineCanRegister (now uuid : string) (existingNodeId stateDirOption : option string) : eff Machine MachineRegistry :=
  registry ← loadOrCreateMachineRegistry now uuid;
  let currentStateDir := normalizeDir (default (stateDir p) stateDirOption) in
  match set_text (mr_node_id registry) with
  | None => mret registry
  | Some id =>
      match set_text (mr_state_dir registry) with
      | Some dir =>
          lift (throw_if (negb (bool_decide (normalizeDir dir = currentStateDir)))
            (PlainError ("This machine is already registered as " +:+ id +:+ " using state " +:+ dir +:+ ". " +:+ one_per_machine)))
      | None =>
          lift (throw_if (bool_decide (set_text existingNodeId = None))
            (PlainError ("This machine is already registered as " +:+ id +:+
              ". Consensus allows one node per machine; use the existing node state instead of registering another.")))
      end;;
      match set_text existingNodeId with
      | Some other =>
          lift (throw_if (negb (bool_decide (id = other)))
            (PlainError ("This machine is already registered as " +:+ id +:+ "; current state has " +:+ other +:+
              ". Consensus allows one node per machine.")))
      | None => mret tt
      end;;
      mret registry
  end.

Definition claimMachineNode (now uuid nodeId : string) (installDir stateDirOption : option string) : eff Machine MachineRegistry :=
  registry ← assertMachineCanRegister now uuid (Some nodeId) stateDirOption;
  let next := {| machine_id := machine_id registry; created_at := created_at registry; updated_at := now;
                 mr_state_dir := Some (normalizeDir (default (stateDir p) stateDirOption));
                 install_dir := match set_text installDir with Some d => Some (normalizeDir d) | None => install_dir registry end;
                 mr_node_id := Some nodeId; registered_at := Some (default now (registered_at registry)) |} in
  saveMachineRegistry next;;
  mret next.

(** ** Histories of a machine *)

Inductive operation :=
| Create (now uuid : string)
| CanRegister (now uuid : string) (existingNodeId stateDirOption : option string)
| Claim (now uuid nodeId : string) (installDir stateDirOption : option string).

Definition perform (o : operation) : eff Machine MachineRegistry :=
  match o with
  | Create now uuid => loadOrCreateMachineRegistry now uuid
  | CanRegister now uuid e s => assertMachineCanRegister now uuid e s
  | Claim now uuid n i s => claimMachineNode now uuid n i s
  end.

Definition performs (l : list operation) (f : Machine) : Machine := fold_left (fun f o => exec (perform o) f) l f.

(** The machine is registered as node [n] with its state in [dir]. *)
Definition claimed (n dir : string) (f : registry_file) : Prop :=
  forall now, exists r, loadMachineRegistry now f = Ok (Some r) /\ mr_node_id r = Some n /\ mr_state_dir r = Some dir.

Lemma registry_member r k : get k (registry_json r) =
  match assoc k [("machine_id", Some (JStr (machine_id r))); ("created_at", Some (JStr (created_at r)));
       ("updated_at", Some (JStr (updated_at r))); ("state_dir", JStr <$> mr_state_dir r);
       ("install_dir", JStr <$> install_dir r); ("node_id", JStr <$> mr_node_id r);
       ("registered_at", JStr <$> registered_at r)] with Some v => v | None => None end.
Proof. apply obj_assoc. apply (bool_decide_unpack _). vm_compute. exact I. Qed.

Lemma load_saved r now : machine_id r <> "" -> loadMachineRegistry now (Text (Ok (registry_json r))) = Ok (Some r).
Proof.
  intros Hid. unfold loadMachineRegistry. cbn [mbind result_bind]. rewrite bool_decide_false by done. cbn [throw_if mbind result_bind].
  rewrite !registry_member. cbn. rewrite bool_decide_false by done. cbn.
  destruct r as [a b c [d|] [e|] [f|] [g|]]; done.
Qed.

Lemma load_id now f r : loadMachineRegistry now f = Ok (Some r) -> machine_id r <> "".
Proof. destruct f as [| |v]; try done. cbn. intros Hl. inv_ok. bool_solve. by simplify_eq. Qed.

(** A save leaves the registry, or replaces it. *)
Lemma save_spec r m : let (m', res) := saveMachineRegistry r m in
  match res with Ok _ => m_file m' = Text (Ok (registry_json r)) | Throw e => m_file m' = m_file m /\ exists code, e = io_error code end.
Proof. unfold saveMachineRegistry. destruct (m_saves m) as [|[code|] l]; cbn; by eauto. Qed.

Lemma create_claimed n dir now uuid f : claimed n dir (m_file f) ->
  exists r, loadOrCreateMachineRegistry now uuid f = (f, Ok r) /\ mr_node_id r = Some n /\ mr_state_dir r = Some dir /\ machine_id r <> "".
Proof.
  intros Hc. destruct (Hc now) as (r & Hl & Hn & Hd). exists r. unfold loadOrCreateMachineRegistry, gets, lift, mbind, eff_bind.
  rewrite Hl. split_and!; try done. by eapply load_id.
Qed.

Lemma assert_claimed n dir now uuid e s f : n <> "" -> dir <> "" -> claimed n dir (m_file f) ->
  let (f', res) := assertMachineCanRegister now uuid e s f in
  f' = f /\ forall r, res = Ok r -> mr_node_id r = Some n /\ machine_id r <> "" /\
    (forall o, set_text e = Some o -> o = n) /\ normalizeDir (default (stateDir p) s) = normalizeDir dir.
Proof.
  intros Hn Hd Hc. destruct (create_claimed n dir now uuid f Hc) as (r & Hr & H1 & H2 & H3).
  unfold assertMachineCanRegister. unfold mbind at 1, eff_bind at 1. rewrite Hr, H1, H2. cbn [set_text].
  rewrite !bool_decide_false by done. unfold lift, mbind, eff_bind, mret, eff_ret.
  destruct (throw_if _ _) as [[]|] eqn:E1; [|done]. apply throw_if_ok in E1. bool_solve.
  destruct (set_text e) as [o|]; [|by split; [done|intros ? [= <-]]].
  destruct (throw_if _ _) as [[]|] eqn:E2; [|done]. apply throw_if_ok in E2. bool_solve.
  split; [done|]. intros ? [= <-]. split_and!; try done. by intros ? [= <-].
Qed.

(** A claimed machine stays claimed by the same node, under the same directory. *)
Lemma perform_claimed n dir o f : n <> "" -> dir <> "" -> (forall now uuid i s, o <> Claim now uuid "" i s) ->
  normalizeDir dir = dir -> claimed n dir (m_file f) -> claimed n dir (m_file (exec (perform o) f)).
Proof.
  intros Hn Hd He Hnorm Hc. destruct o as [now uuid|now uuid e s|now uuid m i s]; cbn [perform]; unfold exec.
  - destruct (create_claimed n dir now uuid f Hc) as (r & -> & _). done.
  - pose proof (assert_claimed n dir now uuid e s f Hn Hd Hc) as Ha. by destruct (assertMachineCanRegister _ _ _ _ f) as [f' res], Ha as [-> _].
  - unfold claimMachineNode, mbind, eff_bind. pose proof (assert_claimed n dir now uuid (Some m) s f Hn Hd Hc) as Ha.
    destruct (assertMachineCanRegister _ _ _ _ f) as [f' [r|]]; destruct Ha as [-> Ha]; [|done].
    destruct (Ha r eq_refl) as (H1 & H2 & H3 & H4).
    assert (m = n) as ->. { apply H3. cbn. rewrite bool_decide_false; [done|]. intros ->. by apply (He now uuid i s). }
    match goal with |- context [saveMachineRegistry ?next f] => pose proof (save_spec next f) as Hs; destruct (saveMachineRegistry next f) as [f' [[]|e']] end;
      cbn [fst]; [|destruct Hs as [-> _]; exact Hc].
    cbn [mret eff_ret fst]. rewrite Hs. intros now'. eexists. split; [by apply load_saved|]. cbn [mr_node_id mr_state_dir]. by rewrite H4, Hnorm.
Qed.

(** What a call of [loadOrCreateMachineRegistry] leaves is read the same way again. *)
Lemma reload now uuid f f' r : uuid <> "" -> loadOrCreateMachineRegistry now uuid f = (f', Ok r) ->
  forall now' uuid', exists r', loadOrCreateMachineRegistry now' uuid' f' = (f', Ok r') /\ machine_id r' = machine_id r /\
    machine_id r' <> "" /\ mr_node_id r' = mr_node_id r /\ mr_state_dir r' = mr_state_dir r.
Proof.
  intros Hu. unfold loadOrCreateMachineRegistry, gets, lift, mbind, eff_bind, mret, eff_ret.
  destruct (loadMachineRegistry now (m_file f)) as [[x|]|] eqn:El; [| |done].
  - intros [= <- <-] now' uuid'. pose proof (load_id _ _ _ El) as Hid.
    assert (Hl : exists r', loadMachineRegistry now' (m_file f) = Ok (Some r') /\ machine_id r' = machine_id x /\ mr_node_id r' = mr_node_id x /\
      mr_state_dir r' = mr_state_dir x).
    { destruct (m_file f) as [| |v]; try done. revert El. unfold loadMachineRegistry. intros El. inv_ok. cbn [mbind result_bind].
      repeat match goal with Hb : _ = false |- _ => rewrite Hb end. cbn [throw_if mbind result_bind]. simplify_eq. eexists. split_and!; reflexivity. }
    destruct Hl as (r' & -> & E1 & E2 & E3). exists r'. split_and!; congruence.
  - match goal with |- context [saveMachineRegistry ?next f] => pose proof (save_spec next f) as Hs; destruct (saveMachineRegistry next f) as [f1 [[]|e]] end; [|done].
    intros [= <- <-] now' uuid'. rewrite Hs, load_saved by done. eexists. by split_and!.
Qed.

(** The check returns what it loaded or made. *)
Lemma assert_loads now uuid e s f f' r : assertMachineCanRegister now uuid e s f = (f', Ok r) -> loadOrCreateMachineRegistry now uuid f = (f', Ok r).
Proof.
  unfold assertMachineCanRegister, lift, mbind, eff_bind, mret, eff_ret.
  destruct (loadOrCreateMachineRegistry now uuid f) as [f1 [r1|]] eqn:El; [|done]. intros Ha.
  destruct (set_text (mr_node_id r1)) as [id|]; [|by injection Ha as <- <-].
  destruct (set_text (mr_state_dir r1)); destruct (throw_if _ _) as [[]|] in Ha; try done;
    destruct (set_text e); try (destruct (throw_if _ _) as [[]|] in Ha; [|done]); by injection Ha as <- <-.
Qed.

(** It names no node the registry did not name. *)
Lemma assert_names n dir now uuid e s f f' r : uuid <> "" -> assertMachineCanRegister now uuid e s f = (f', Ok r) ->
  claimed n dir (m_file f') -> claimed n dir (m_file f).
Proof.
  intros Hu Ha. apply assert_loads in Ha. revert Ha. unfold loadOrCreateMachineRegistry, gets, lift, mbind, eff_bind, mret, eff_ret.
  destruct (loadMachineRegistry now (m_file f)) as [[x|]|] eqn:El; [by intros [= <- _]| |done].
  match goal with |- context [saveMachineRegistry ?next f] => pose proof (save_spec next f) as Hs; destruct (saveMachineRegistry next f) as [f1 [[]|e']] end; [|done].
  intros [= <- _]. rewrite Hs. intros Hc. destruct (Hc now) as (r' & Hl & Hn & _). rewrite load_saved in Hl by done. injection Hl as <-. done.
Qed.

(** A machine that may register can be claimed, by its own node or its first one, if
    the registry can be saved. *)
Lemma claim_allowed now uuid e s f f' r n inst now' uuid' : uuid <> "" ->
  assertMachineCanRegister now uuid e s f = (f', Ok r) -> (forall id, set_text (mr_node_id r) = Some id -> n = id) ->
  let (f2, res) := claimMachineNode now' uuid' n inst s f' in
  match res with
  | Ok r' => m_file f2 = Text (Ok (registry_json r')) /\ machine_id r' = machine_id r /\ machine_id r' <> "" /\
      mr_node_id r' = Some n /\ mr_state_dir r' = Some (normalizeDir (default (stateDir p) s))
  | Throw e => m_file f2 = m_file f' /\ exists code, e = io_error code
  end.
Proof.
  intros Hu Ha Hn. unfold claimMachineNode.
  assert (Hr : exists r0, assertMachineCanRegister now' uuid' (Some n) s f' = (f', Ok r0) /\ machine_id r0 = machine_id r /\ machine_id r0 <> "").
  { pose proof (assert_loads _ _ _ _ _ _ _ Ha) as El. revert Ha. unfold assertMachineCanRegister, lift, mbind, eff_bind, mret, eff_ret.
    rewrite El. intros Ha. destruct (reload _ _ _ _ _ Hu El now' uuid') as (r2 & E2 & E3 & E4 & E5 & E6). rewrite E2, E5, E6.
    destruct (set_text (mr_node_id r)) as [id|] eqn:Eid; [|by exists r2].
    assert (Hid : id <> "") by (intros ->; by destruct (mr_node_id r) as [[]|]).
    destruct (set_text (mr_state_dir r)) as [dir|]; destruct (throw_if _ _) as [[]|] eqn:Et in Ha; try done;
      destruct (set_text e) as [other|]; try (destruct (throw_if _ _) as [[]|] eqn:Et2 in Ha; [|done]); clear Ha;
      rewrite (Hn id eq_refl); cbn [set_text]; rewrite ?(bool_decide_false (id = "")) by done;
      rewrite ?Et, ?(bool_decide_true (id = id)) by done; cbn; by exists r2. }
  destruct Hr as (r0 & Ha2 & E1 & E2). unfold mbind at 1, eff_bind at 1. rewrite Ha2. unfold mbind, eff_bind.
  match goal with |- context [saveMachineRegistry ?next f'] => pose proof (save_spec next f') as Hs; destruct (saveMachineRegistry next f') as [f1 [[]|e']] end; [|exact Hs].
  by split_and!.
Qed.
End Registry.

(** One node per machine: once a node has claimed the machine, under its state
    directory, no sequence of later calls makes the registry name another node or
    directory, whichever of their saves fail, and a claim for another node always fails
    and leaves the registry as it is. *)
Theorem machine_claimed_once (p : Process) (n dir : string) (f : Machine) (l : list operation) :
  n <> "" -> dir <> "" -> normalizeDir p dir = dir -> claimed p n dir (m_file f) ->
  (forall now uuid i s, Claim now uuid "" i s ∉ l) ->
  claimed p n dir (m_file (performs p l f)) /\
  forall now uuid m i s, m <> n -> m <> "" ->
    exists e, claimMachineNode p now uuid m i s (performs p l f) = (performs p l f, Throw e).
Proof.
  intros Hn Hd Hnorm Hc He.
  assert (Hf : claimed p n dir (m_file (performs p l f))).
  { revert f Hc He. induction l as [|o l IH]; intros f Hc He; [done|]. apply IH.
    - apply perform_claimed; try done. intros now uuid i s ->. apply (He now uuid i s). left.
    - intros now uuid i s Hin. apply (He now uuid i s). by right. }
  split; [done|]. intros now uuid m i s Hm Hm0. unfold claimMachineNode, mbind, eff_bind.
  pose proof (assert_claimed p n dir now uuid (Some m) s _ Hn Hd Hf) as Ha.
  destruct (assertMachineCanRegister _ _ _ _ _ _) as [f' [r|e]]; destruct Ha as [-> Ha]; [|by exists e].
  destruct (Ha r eq_refl) as (_ & _ & H3 & _). exfalso. apply Hm, H3. cbn. by rewrite bool_decide_false.
Qed.

Module Demo.
Definition process : Process :=
  {| env := fun _ => None; homedir := "/home/op"; cwd := "/srv/node"; os_platform := "linux"; os_arch := "x64"; getuid := Some 1000 |}.
Definition first : Machine := (claimMachineNode process "t0" "m-1" "n1" None (Some "/data/n1/") {| m_file := NoFile; m_saves := [] |}).1.
Definition later : list operation :=
  [Create "t1" "m-2"; CanRegister "t2" "m-2" None None; Claim "t3" "m-2" "n2" None None; Claim "t4" "m-2" "n1" None (Some "/data/n1")].
End Demo.

Lemma machine_claimed_once_witness :
  exists e, claimMachineNode Demo.process "t5" "m-2" "n2" None (Some "/data/n1") (performs Demo.process Demo.later Demo.first) =
    (performs Demo.process Demo.later Demo.first, Throw e).
Proof.
  apply (machine_claimed_once Demo.process "n1" "/data/n1" Demo.first Demo.later); try discriminate; [vm_compute; reflexivity| |].
  - intros now. eexists. split; [vm_compute; reflexivity|]. by split; vm_compute.
  - intros now uuid i s Hin. unfold Demo.later in Hin. repeat (apply elem_of_cons in Hin as [Hin|Hin]; [discriminate|]).
    by apply not_elem_of_nil in Hin.
Defined.
