(* ===== verification/Supervise.v ===== *)
(** * The supervised unit and the reconnect loop (supervise.ts, control.ts)

    [supervise.ts] runs the control client and the local server as two child
    processes and ends with the first of them.  Events are what reaches the
    supervisor: a child's exit, a failed spawn, a signal that ends a process unless it
    listens for it, and the end of the grace period of a shutdown in progress.  After
    the unit has ended nothing happens. *)

From S2P Require Import Prelude Text Url Files.
Local Open Scope Z_scope.

(** ** Children *)

(** [grouped]: [process.kill(-pid)] reaches the child's process group; otherwise
    [proc.kill] is used, which sets [killed]. *)
Record Child := {
  c_name : string; pid : option Z; grouped : bool; exitCode : option Z; signalCode : option string; killed : bool }.

Definition stillRunning (c : Child) : bool :=
  bool_decide (exitCode c = None) && bool_decide (signalCode c = None) && negb (killed c).

(** [waiting] are the children whose exit a shutdown still waits for; [in_main] says
    that [main] exits when it is over. *)
Record Shutdown := { waiting : list nat; in_main : bool }.

(** [process.exit], or the default action of a signal. *)
Inductive ending := ExitedWith (code : Z) | KilledBy (signal : string).

(** [listening]: the signals whose [process.once] listener is still set. *)
Record Unit := {
  children : list Child; first : option (string * Z); signalled : option string; listening : list string; shutdowns : list Shutdown;
  sent : list (nat * string); exited : option ending }.

Definition set_children (l : list Child) (u : Unit) : Unit :=
  {| children := l; first := first u; signalled := signalled u; listening := listening u; shutdowns := shutdowns u; sent := sent u; exited := exited u |}.
Definition set_first (x : string * Z) (u : Unit) : Unit :=
  {| children := children u; first := Some x; signalled := signalled u; listening := listening u; shutdowns := shutdowns u; sent := sent u;
     exited := exited u |}.
Definition set_signalled (s : string) (u : Unit) : Unit :=
  {| children := children u; first := first u; signalled := Some s; listening := listening u; shutdowns := shutdowns u; sent := sent u;
     exited := exited u |}.
Definition set_listening (l : list string) (u : Unit) : Unit :=
  {| children := children u; first := first u; signalled := signalled u; listening := l; shutdowns := shutdowns u; sent := sent u; exited := exited u |}.
Definition set_shutdowns (l : list Shutdown) (u : Unit) : Unit :=
  {| children := children u; first := first u; signalled := signalled u; listening := listening u; shutdowns := l; sent := sent u; exited := exited u |}.
Definition record_sent (i : nat) (signal : string) (u : Unit) : Unit :=
  {| children := children u; first := first u; signalled := signalled u; listening := listening u; shutdowns := shutdowns u;
     sent := sent u ++ [(i, signal)]; exited := exited u |}.
Definition set_ended (e : ending) (u : Unit) : Unit :=
  {| children := children u; first := first u; signalled := signalled u; listening := listening u; shutdowns := shutdowns u; sent := sent u;
     exited := Some e |}.

Definition set_killed (c : Child) : Child :=
  {| c_name := c_name c; pid := pid c; grouped := grouped c; exitCode := exitCode c; signalCode := signalCode c; killed := true |}.
Definition set_exit (code : option Z) (signal : option string) (c : Child) : Child :=
  {| c_name := c_name c; pid := pid c; grouped := grouped c; exitCode := code; signalCode := signal; killed := killed c |}.

Definition NO_RELEASE_EXIT : Z := 70.

Section Supervisor.
(** [os.constants.signals]. *)
Context (signals : string -> option Z).

(** 128 + the signal's number for a process that a signal ended. *)
Definition exitCodeFor (code : option Z) (signal : option string) : Z :=
  match code, signal with
  | Some c, _ => c
  | None, Some s => 128 + default 0 (signals s)
  | None, None => 1
  end.

Definition signalChild (signal : string) (u : Unit) (i : nat) : Unit :=
  match children u !! i with
  | Some c =>
      match pid c with
      | None => u
      | Some _ =>
          record_sent i signal (if grouped c then u else set_children (alter set_killed i (children u)) u)
      end
  | None => u
  end.

Definition survivors (u : Unit) : list nat :=
  filter (fun i => (stillRunning <$> children u !! i) = Some true) (seq 0 (length (children u))).

(** What [main] passes to [process.exit]. *)
Definition unit_code (u : Unit) : Z :=
  match signalled u with
  | Some s => exitCodeFor None (Some s)
  | None => default 0 (snd <$> first u)
  end.

(** A shutdown is over. *)
Definition finish (main : bool) (u : Unit) : Unit := if main then set_ended (ExitedWith (unit_code u)) u else u.

(** [shutdown(children)] up to its wait. *)
Definition shutdown (main : bool) (u : Unit) : Unit :=
  match survivors u with
  | [] => finish main u
  | l => let u := fold_left (signalChild "SIGTERM") l u in
         set_shutdowns (shutdowns u ++ [{| waiting := l; in_main := main |}]) u
  end.

(** [firstExit] resolves: [main] goes on. *)
Definition first_exit (name : string) (code : Z) (u : Unit) : Unit :=
  match first u with
  | Some _ => u
  | None => shutdown true (set_first (name, code) u)
  end.

(** The exit of child [i] as the shutdowns in progress see it. *)
Definition note_exit (i : nat) (s : Shutdown) : Shutdown :=
  {| waiting := filter (fun j => j <> i) (waiting s); in_main := in_main s |}.
Definition over (s : Shutdown) : bool := bool_decide (waiting s = []).

Definition note_exits (i : nat) (u : Unit) : Unit :=
  let l := map (note_exit i) (shutdowns u) in
  finish (existsb (fun s => over s && in_main s) l) (set_shutdowns (filter (fun s => over s = false) l) u).

Definition child_exit (i : nat) (code : option Z) (signal : option string) (u : Unit) : Unit :=
  match children u !! i with
  | Some c =>
      first_exit (c_name c) (exitCodeFor code signal) (note_exits i (set_children (alter (set_exit code signal) i (children u)) u))
  | None => u
  end.

Definition spawn_error (i : nat) (u : Unit) : Unit :=
  match children u !! i with Some c => first_exit (c_name c) 1 u | None => u end.

Definition onSignal (signal : string) (u : Unit) : Unit :=
  match signalled u with
  | Some _ => u
  | None => shutdown false (set_signalled signal u)
  end.

(** A signal reaches the process: a listener runs once and is gone; without one the
    process ends at once, whatever its children do. *)
Definition signal_arrives (signal : string) (u : Unit) : Unit :=
  if decide (signal ∈ listening u) then onSignal signal (set_listening (filter (fun s => s <> signal) (listening u)) u)
  else set_ended (KilledBy signal) u.

(** The grace period of the k-th shutdown in progress ends. *)
Definition grace_over (k : nat) (u : Unit) : Unit :=
  match shutdowns u !! k with
  | None => u
  | Some s => finish (in_main s) (set_shutdowns (delete k (shutdowns u)) (fold_left (signalChild "SIGKILL") (survivors u) u))
  end.

Inductive event :=
| ChildExit (i : nat) (code : option Z) (signal : option string)
| SpawnError (i : nat)
| Signal (signal : string)
| GraceOver (k : nat).

Definition step (u : Unit) (e : event) : Unit :=
  match exited u with
  | Some _ => u
  | None =>
      match e with
      | ChildExit i code signal => child_exit i code signal u
      | SpawnError i => spawn_error i u
      | Signal s => signal_arrives s u
      | GraceOver k => grace_over k u
      end
  end.

Definition startChild (name : string) (pid : option Z) (grouped : bool) : Child :=
  {| c_name := name; pid := pid; grouped := grouped; exitCode := None; signalCode := None; killed := false |}.

(** [release] says that [current] is a directory. *)
Definition main (release : bool) (runtime control : option Z) (g1 g2 : bool) : Unit :=
  let u := {| children := [startChild "runtime" runtime g1; startChild "control" control g2]; first := None; signalled := None;
              listening := ["SIGINT"; "SIGTERM"]; shutdowns := []; sent := []; exited := None |} in
  if release then u else set_ended (ExitedWith NO_RELEASE_EXIT) u.

Definition run (l : list event) (u : Unit) : Unit := fold_left step l u.

(** ** The invariant *)

Definition main_shutdowns (u : Unit) : list Shutdown := filter (fun s => in_main s = true) (shutdowns u).

Record unit_ok (u : Unit) : Prop := {
  uo_running : first u = None -> (forall c, exited u <> Some (ExitedWith c)) /\ main_shutdowns u = [];
  uo_ending : is_Some (first u) -> exited u = None -> exists s, main_shutdowns u = [s];
  uo_code : forall c, exited u = Some (ExitedWith c) -> c = unit_code u }.

(** What signalling children leaves. *)
Record same_but_sent (u v : Unit) : Prop := {
  sb_first : first v = first u; sb_signalled : signalled v = signalled u; sb_listening : listening v = listening u;
  sb_shutdowns : shutdowns v = shutdowns u; sb_exited : exited v = exited u; sb_names : map c_name (children v) = map c_name (children u);
  sb_sent : forall x, x ∈ sent u -> x ∈ sent v }.

Lemma alter_names f i l : (forall c, c_name (f c) = c_name c) -> map c_name (alter f i l) = map c_name l.
Proof. intros Hf. revert i. induction l as [|c l IH]; intros [|i]; cbn; [done..|by rewrite Hf|]. f_equal. apply IH. Qed.

Lemma signalChild_keeps signal u i : same_but_sent u (signalChild signal u i).
Proof.
  unfold signalChild. destruct (children u !! i) as [c|]; [|done]. destruct (pid c); [|done].
  destruct (grouped c); split; cbn; try done; try (by apply alter_names); intros x Hx; apply elem_of_app; by left.
Qed.

Lemma signal_all_keeps signal l u : same_but_sent u (fold_left (signalChild signal) l u).
Proof.
  revert u. induction l as [|i l IH]; intros u; [done|]. cbn [fold_left].
  destruct (IH (signalChild signal u i)) as [? ? ? ? ? ? Hs]. destruct (signalChild_keeps signal u i) as [? ? ? ? ? ? Hi].
  split; try congruence. intros x Hx. by apply Hs, Hi.
Qed.

Lemma unit_code_same u v : first v = first u -> signalled v = signalled u -> unit_code v = unit_code u.
Proof. intros E1 E2. unfold unit_code. by rewrite E1, E2. Qed.

(** Ending the unit, or going on. *)
Lemma finish_ok main u : exited u = None ->
  (main = true -> is_Some (first u)) ->
  (first u = None -> main_shutdowns u = []) ->
  (main = false -> is_Some (first u) -> exists s, main_shutdowns u = [s]) -> unit_ok (finish main u).
Proof.
  intros He Hm Hr Hs. destruct main; cbn [finish].
  - destruct (Hm eq_refl) as [x Hx]. split; cbn; [congruence|congruence|]. intros c [= <-]. by apply unit_code_same.
  - split; [intros E; rewrite He, Hr by done; by split|by eauto|congruence].
Qed.

Lemma shutdown_ok main u : exited u = None -> (main = true -> is_Some (first u) /\ main_shutdowns u = []) ->
  (main = false -> unit_ok u) -> unit_ok (shutdown main u).
Proof.
  intros He Hm Hu. unfold shutdown. destruct (survivors u) as [|i l].
  - destruct main; [|by apply Hu]. destruct (Hm eq_refl) as [[x Hx] Hs]. apply finish_ok; eauto; congruence.
  - destruct (signal_all_keeps "SIGTERM" (i :: l) u) as [E1 E2 _ E3 E4 _ _].
    set (v := fold_left _ _ u) in *. unfold main_shutdowns in *.
    assert (Hc : unit_code (set_shutdowns (shutdowns v ++ [{| waiting := i :: l; in_main := main |}]) v) = unit_code u) by (by apply unit_code_same).
    clearbody v. split; unfold main_shutdowns; cbn; rewrite ?E1, ?E3, ?E4, ?filter_app, ?filter_cons; cbn.
    + intros Hf. destruct main; [destruct (Hm eq_refl) as [[x Hx] _]; congruence|]. destruct (uo_running _ (Hu eq_refl) Hf) as [_ Hms].
      rewrite He. split; [done|]. unfold main_shutdowns in Hms. by rewrite Hms.
    + intros Hf _. destruct main; [destruct (Hm eq_refl) as [_ ->]; eauto|]. destruct (uo_ending _ (Hu eq_refl) Hf He) as [s Hs].
      exists s. unfold main_shutdowns in Hs. by rewrite Hs.
    + congruence.
Qed.

Lemma filter_map_note i l : filter (fun s => in_main s = true) (filter (fun s => over s = false) (map (note_exit i) l)) =
  filter (fun s => over s = false) (map (note_exit i) (filter (fun s => in_main s = true) l)).
Proof.
  induction l as [|s l IH]; [done|]. cbn [map]. rewrite !filter_cons. destruct (decide (in_main s = true)) as [Hm|Hm]; cbn [map].
  - rewrite filter_cons. destruct (decide (over (note_exit i s) = false)); rewrite ?filter_cons; [|done]. cbn [in_main note_exit].
    rewrite decide_True by done. by rewrite IH.
  - destruct (decide (over (note_exit i s) = false)); rewrite ?filter_cons; [|done]. cbn [in_main note_exit].
    by rewrite decide_False.
Qed.

Lemma existsb_main i l : existsb (fun s => over s && in_main s) (map (note_exit i) l) =
  existsb over (map (note_exit i) (filter (fun s => in_main s = true) l)).
Proof.
  induction l as [|s l IH]; [done|]. cbn [map existsb]. rewrite IH, filter_cons. cbn [in_main note_exit].
  destruct (in_main s); cbn; [by rewrite andb_true_r|by rewrite andb_false_r].
Qed.

Lemma note_exits_ok i u : exited u = None -> unit_ok u -> unit_ok (note_exits i u).
Proof.
  intros He Hu. unfold note_exits. cbv zeta. rewrite existsb_main. fold (main_shutdowns u).
  apply finish_ok; cbn [exited first set_shutdowns]; unfold main_shutdowns; cbn [shutdowns set_shutdowns]; [done| | |].
  - intros Ho. fold (main_shutdowns u) in Ho. destruct (first u) as [x|] eqn:Ef; [done|]. by rewrite (proj2 (uo_running _ Hu Ef)) in Ho.
  - intros Hf. rewrite filter_map_note. fold (main_shutdowns u). by rewrite (proj2 (uo_running _ Hu Hf)).
  - intros Ho Hf. fold (main_shutdowns u) in Ho. rewrite filter_map_note. fold (main_shutdowns u). destruct (uo_ending _ Hu Hf He) as [s Hs].
    rewrite Hs in *. cbn in Ho. rewrite orb_false_r in Ho. cbn [map]. rewrite filter_cons, decide_True by done. by eexists.
Qed.

Lemma first_exit_ok name code u : exited u = None \/ is_Some (first u) -> unit_ok u -> unit_ok (first_exit name code u).
Proof.
  intros He Hu. unfold first_exit. destruct (first u) as [x|] eqn:Ef; [done|]. destruct (uo_running _ Hu Ef) as [_ Hm].
  destruct He as [He|[? ?]]; [|done]. apply shutdown_ok; [done|by split|done].
Qed.

Lemma note_exits_going i u : exited u = None -> unit_ok u -> first u = None -> exited (note_exits i u) = None.
Proof.
  intros He Hu Hf. unfold note_exits. cbv zeta. rewrite existsb_main. fold (main_shutdowns u). by rewrite (proj2 (uo_running _ Hu Hf)).
Qed.

Lemma children_ok f u : unit_ok u -> unit_ok (set_children (f (children u)) u).
Proof. intros [H1 H2 H3]. by split. Qed.

Lemma unit_step_ok u e : unit_ok u -> unit_ok (step u e).
Proof.
  intros Hu. unfold step. destruct (exited u) as [c|] eqn:He; [done|]. destruct e as [i code signal|i|s|k]; cbn.
  - unfold child_exit. destruct (children u !! i) as [c|]; [|done]. set (v := set_children _ u).
    assert (Hv : unit_ok v) by apply (children_ok (alter (set_exit code signal) i) u Hu).
    apply first_exit_ok; [|by apply note_exits_ok]. destruct (first u) as [x|] eqn:Ef.
    + right. unfold note_exits. cbv zeta. destruct (existsb _ _); cbn; by rewrite Ef.
    + left. by apply note_exits_going.
  - unfold spawn_error. destruct (children u !! i) as [c|]; [|done]. apply first_exit_ok; [by left|done].
  - unfold signal_arrives. case_decide; [|destruct Hu as [H1 H2 H3]; split; cbn; [intros Hf; destruct (H1 Hf); by split|congruence|congruence]].
    unfold onSignal. cbn [signalled set_listening]. destruct (signalled u) as [x|] eqn:Es; [by destruct Hu as [H1 H2 H3]; split|].
    apply shutdown_ok; [done|done|]. intros _. destruct Hu as [H1 H2 H3]. split; [done|done|]. cbn. congruence.
  - unfold grace_over. destruct (shutdowns u !! k) as [s|] eqn:Es; [|done].
    destruct (signal_all_keeps "SIGKILL" (survivors u) u) as [E1 E2 _ E3 E4 _ _]. set (v := fold_left _ _ u) in *. clearbody v.
    assert (Hd : main_shutdowns u = filter (fun s => in_main s = true) (take k (shutdowns u)) ++
      (if in_main s then [s] else []) ++ filter (fun s => in_main s = true) (drop (S k) (shutdowns u))).
    { unfold main_shutdowns. rewrite <- (take_drop_middle _ _ _ Es) at 1. rewrite filter_app, filter_cons. by destruct (in_main s). }
    assert (Hr : main_shutdowns (set_shutdowns (delete k (shutdowns u)) v) =
      filter (fun s => in_main s = true) (take k (shutdowns u)) ++ filter (fun s => in_main s = true) (drop (S k) (shutdowns u))).
    { unfold main_shutdowns. cbn. by rewrite delete_take_drop, filter_app. }
    apply finish_ok; cbn [exited first set_shutdowns]; rewrite ?E1, ?E4; try done.
    + intros Hm. destruct (first u) eqn:Ef; [done|]. destruct (uo_running _ Hu Ef) as [_ Hms]. rewrite Hd, Hm in Hms.
      by destruct (filter _ (take _ _)).
    + intros Hf. rewrite Hr. destruct (uo_running _ Hu Hf) as [_ Hms]. rewrite Hd in Hms. apply app_nil in Hms as [-> Hms].
      by apply app_nil in Hms as [_ ->].
    + intros Hm Hf. rewrite Hr. destruct (uo_ending _ Hu Hf He) as [x Hx]. rewrite Hd, Hm in Hx. by exists x.
Qed.

Lemma run_unit_ok l u : unit_ok u -> unit_ok (run l u).
Proof. revert u. induction l as [|e l IH]; intros u Hu; [done|]. cbn. by apply IH, unit_step_ok. Qed.

Lemma start_ok runtime control g1 g2 : unit_ok (main true runtime control g1 g2).
Proof. split; cbn; done. Qed.

(** Every child that has a process is reached. *)
Definition has_pid (i : nat) (u : Unit) : Prop := exists c, children u !! i = Some c /\ is_Some (pid c).

Lemma signalChild_pid signal u i j : has_pid j u -> has_pid j (signalChild signal u i).
Proof.
  intros (c & Hc & Hp). unfold has_pid, signalChild. destruct (children u !! i) as [d|] eqn:Ed; [|by eauto]. destruct (pid d); [|by eauto].
  destruct (grouped d); cbn; [by eauto|]. destruct (decide (i = j)) as [->|Hn].
  - exists (set_killed c). by rewrite list_lookup_alter_eq, Hc.
  - exists c. by rewrite list_lookup_alter_ne.
Qed.

Lemma signal_all_sends signal l u i : i ∈ l -> has_pid i u -> (i, signal) ∈ sent (fold_left (signalChild signal) l u).
Proof.
  revert u. induction l as [|j l IH]; intros u Hi Hp; [by apply not_elem_of_nil in Hi|]. cbn [fold_left].
  apply elem_of_cons in Hi as [->|Hi]; [|by apply IH; [|apply signalChild_pid]].
  destruct (signal_all_keeps signal l (signalChild signal u j)) as [_ _ _ _ _ _ Hs]. apply Hs.
  destruct Hp as (c & Hc & [n Hn]). unfold signalChild. rewrite Hc, Hn. cbn. apply elem_of_app. right. left.
Qed.

(** ** What the events say *)

(** How the end of a child is reported: its exit code, 128 and the number of the signal
    that ended it, or 1. *)
Definition reported (code : option Z) (signal : option string) : Z :=
  match code with Some c => c | None => match signal with Some s => 128 + default 0 (signals s) | None => 1 end end.

(** The first child, by name, that ended or could not be started. *)
Definition child_name (i : nat) : option string := ["runtime"; "control"] !! i.
Definition child_end (e : event) : option (string * Z) :=
  match e with
  | ChildExit i code signal => (fun n => (n, reported code signal)) <$> child_name i
  | SpawnError i => (fun n => (n, 1)) <$> child_name i
  | _ => None
  end.
Definition first_child (l : list event) : option (string * Z) := head (omap child_end l).

Definition signal_of (e : event) : option string := match e with Signal s => Some s | _ => None end.
Definition signals_in (l : list event) : list string := omap signal_of l.
Definition first_signal (l : list event) : option string := head (signals_in l).

(** The code of the signal that stopped the unit, or else of its first child. *)
Definition code_of (l : list event) : option Z :=
  match first_signal l with Some s => Some (128 + default 0 (signals s)) | None => snd <$> first_child l end.

(** What the unit remembers of its events while it runs. *)
Record remembers (l : list event) (u : Unit) : Prop := {
  re_first : first u = first_child l; re_signalled : signalled u = first_signal l;
  re_listening : listening u = filter (fun s => s ∉ signals_in l) ["SIGINT"; "SIGTERM"];
  re_signals : Forall (fun s => s ∈ ["SIGINT"; "SIGTERM"]) (signals_in l);
  re_names : map c_name (children u) = ["runtime"; "control"] }.

Lemma head_app {A} (l : list A) (o : option A) : head (l ++ option_list o) = match head l with Some x => Some x | None => o end.
Proof. destruct l, o; done. Qed.

Lemma omap_snoc {A} (f : event -> option A) l e : omap f (l ++ [e]) = omap f l ++ option_list (f e).
Proof. by rewrite omap_app. Qed.

Lemma first_child_snoc l e : first_child (l ++ [e]) = match first_child l with Some x => Some x | None => child_end e end.
Proof. unfold first_child. by rewrite omap_snoc, head_app. Qed.

Lemma first_signal_snoc l e : first_signal (l ++ [e]) = match first_signal l with Some x => Some x | None => signal_of e end.
Proof. unfold first_signal, signals_in. by rewrite omap_snoc, head_app. Qed.

Lemma signals_in_snoc l e : signals_in (l ++ [e]) = signals_in l ++ option_list (signal_of e).
Proof. apply omap_snoc. Qed.

(** Ending a shutdown, or starting one, changes nothing of this. *)
Lemma finish_remembers m l u : remembers l u -> remembers l (finish m u).
Proof. intros [H1 H2 H3 H4 H5]. by destruct m; split. Qed.

Lemma signalling_remembers signal js l u : remembers l u -> remembers l (fold_left (signalChild signal) js u).
Proof. intros [H1 H2 H3 H4 H5]. destruct (signal_all_keeps signal js u). split; congruence. Qed.

Lemma shutdowns_remembers x l u : remembers l u -> remembers l (set_shutdowns x u).
Proof. intros [H1 H2 H3 H4 H5]. by split. Qed.

Lemma shutdown_remembers m l u : remembers l u -> remembers l (shutdown m u).
Proof.
  intros Hu. unfold shutdown. destruct (survivors u) as [|i js]; [by apply finish_remembers|]. cbv zeta.
  by apply shutdowns_remembers, signalling_remembers.
Qed.

Lemma first_remembers l e u n c : remembers l u -> child_end e = Some (n, c) -> signal_of e = None -> remembers (l ++ [e]) (first_exit n c u).
Proof.
  intros [H1 H2 H3 H4 H5] He Hs. unfold first_exit.
  assert (Hall : forall v, first v = first_child (l ++ [e]) -> signalled v = signalled u -> listening v = listening u -> children v = children u -> remembers (l ++ [e]) v).
  { intros v V1 V2 V3 V4. split; [done|..]; rewrite ?V2, ?V3, ?V4; try done; rewrite ?first_signal_snoc, ?signals_in_snoc, Hs; cbn [option_list]; rewrite ?app_nil_r; try done.
    rewrite H2. by destruct (first_signal l). }
  destruct (first u) as [x|] eqn:Ef.
  - apply Hall; try done. by rewrite first_child_snoc, <- H1, Ef.
  - apply shutdown_remembers, Hall; try done. cbn [set_first first]. by rewrite first_child_snoc, <- H1, He.
Qed.

Lemma names_at l u i c : remembers l u -> children u !! i = Some c -> child_name i = Some (c_name c).
Proof. intros [_ _ _ _ Hn] Hc. unfold child_name. rewrite <- Hn. by rewrite list_lookup_fmap, Hc. Qed.

Lemma names_none l u i : remembers l u -> children u !! i = None -> child_name i = None.
Proof. intros [_ _ _ _ Hn] Hc. unfold child_name. rewrite <- Hn. by rewrite list_lookup_fmap, Hc. Qed.

(** An event that says nothing of a child or a signal. *)
Lemma silent_remembers l e u : child_end e = None -> signal_of e = None -> remembers l u -> remembers (l ++ [e]) u.
Proof.
  intros He Hs [H1 H2 H3 H4 H5]. split; rewrite ?first_child_snoc, ?first_signal_snoc, ?signals_in_snoc, ?He, ?Hs; cbn [option_list]; rewrite ?app_nil_r; try done.
  - rewrite H1. by destruct (first_child l).
  - rewrite H2. by destruct (first_signal l).
Qed.

Lemma note_remembers l i u : remembers l u -> remembers l (note_exits i u).
Proof. intros Hu. unfold note_exits. cbv zeta. by apply finish_remembers, shutdowns_remembers. Qed.

Definition kills (l : list event) (e : event) (s : string) : Prop := e = Signal s /\ (s ∉ ["SIGINT"; "SIGTERM"] \/ Signal s ∈ l).

Lemma in_signals s l : s ∈ signals_in l <-> Signal s ∈ l.
Proof.
  unfold signals_in. rewrite list_elem_of_omap. split; [|by exists (Signal s)]. intros (e & He & Hs). destruct e; try done. by injection Hs as ->.
Qed.

Lemma step_remembers l e u : exited u = None -> unit_ok u -> remembers l u ->
  (exists s, kills l e s /\ exited (step u e) = Some (KilledBy s)) \/
  (forall s, ~ kills l e s) /\ remembers (l ++ [e]) (step u e) /\ forall s, exited (step u e) <> Some (KilledBy s).
Proof.
  intros He Hu Hr. unfold step. rewrite He.
  assert (Hsend : forall signal js v, (forall s, exited v <> Some (KilledBy s)) -> forall s, exited (fold_left (signalChild signal) js v) <> Some (KilledBy s)).
  { intros signal js v Hv s. destruct (signal_all_keeps signal js v). rewrite sb_exited0. apply Hv. }
  assert (Hfin : forall m v, (forall s, exited v <> Some (KilledBy s)) -> forall s, exited (finish m v) <> Some (KilledBy s)) by (by intros [] v Hv s).
  assert (Hshut : forall m v, (forall s, exited v <> Some (KilledBy s)) -> forall s, exited (shutdown m v) <> Some (KilledBy s)).
  { intros m v Hv. unfold shutdown. destruct (survivors v) as [|j js]; [by apply Hfin|]. cbv zeta. by apply Hsend. }
  assert (Hfirst : forall n c v, (forall s, exited v <> Some (KilledBy s)) -> forall s, exited (first_exit n c v) <> Some (KilledBy s)).
  { intros n c v Hv. unfold first_exit. destruct (first v); [done|]. by apply Hshut. }
  assert (Hno : forall s, exited u <> Some (KilledBy s)) by (by rewrite He).
  destruct e as [i code signal|i|s|k].
  - right. split; [by intros s [Hs _]|]. cbn [step]. unfold child_exit. destruct (children u !! i) as [c|] eqn:Ec.
    + pose proof (names_at _ _ _ _ Hr Ec) as Hn. split.
      * apply first_remembers; [|cbn; by rewrite Hn|done]. apply note_remembers. destruct Hr as [H1 H2 H3 H4 H5]. split; try done.
        cbn. rewrite alter_names; done.
      * apply Hfirst. unfold note_exits. cbv zeta. by apply Hfin.
    + split; [|done]. apply silent_remembers; try done. cbn. by rewrite (names_none _ _ _ Hr Ec).
  - right. split; [by intros s [Hs _]|]. cbn [step]. unfold spawn_error. destruct (children u !! i) as [c|] eqn:Ec.
    + pose proof (names_at _ _ _ _ Hr Ec) as Hn. split; [|by apply Hfirst]. apply first_remembers; [done|cbn; by rewrite Hn|done].
    + split; [|done]. apply silent_remembers; try done. cbn. by rewrite (names_none _ _ _ Hr Ec).
  - cbn [step]. unfold signal_arrives. destruct Hr as [H1 H2 H3 H4 H5]. case_decide as Hl; rewrite H3, list_elem_of_filter in Hl.
    + destruct Hl as [Hl1 Hl2]. right. split; [intros s' [[= <-] [Hs|Hs]]; [done|by apply Hl1, in_signals]|].
      assert (Hr' : remembers (l ++ [Signal s]) (set_signalled (default s (signalled u)) (set_listening (filter (fun x => x <> s) (listening u)) u))).
      { split; cbn [first signalled listening children set_signalled set_listening].
        - rewrite first_child_snoc, H1. by destruct (first_child l).
        - rewrite first_signal_snoc, H2. by destruct (first_signal l).
        - rewrite signals_in_snoc, H3, list_filter_filter. apply list_filter_iff. intros x. change (option_list (signal_of (Signal s))) with [s]. rewrite not_elem_of_app, not_elem_of_cons. pose proof (not_elem_of_nil x). tauto.
        - rewrite signals_in_snoc. cbn. by apply Forall_app_2, Forall_singleton.
        - done. }
      unfold onSignal. cbn [signalled set_listening]. destruct (signalled u) as [x|] eqn:Es; cbn [default] in Hr'.
      * split; [|done]. destruct Hr' as [R1 R2 R3 R4 R5]. split; try done. cbn in *. congruence.
      * split; [by apply shutdown_remembers|]. by apply Hshut.
    + left. exists s. split; [|done]. split; [done|]. destruct (decide (s ∈ ["SIGINT"; "SIGTERM"])); [right|by left].
      apply in_signals. destruct (decide (s ∈ signals_in l)); [done|]. by destruct Hl.
  - right. split; [by intros s [Hs _]|]. apply (silent_remembers l (GraceOver k)) in Hr; [|done..]. cbn [step]. unfold grace_over.
    destruct (shutdowns u !! k) as [sd|]; [|done]. split.
    + by apply finish_remembers, shutdowns_remembers, signalling_remembers.
    + apply Hfin. cbn. by apply Hsend.
Qed.

(** The history of a unit, and how it ended. *)
Definition told (v : Unit) (l : list event) (u : Unit) : Prop :=
  match exited u with
  | None => remembers l u /\ forall l1 e l2 s, l = l1 ++ e :: l2 -> ~ kills l1 e s
  | Some (ExitedWith c) => exists l1 e l2, l = l1 ++ e :: l2 /\ exited (run l1 v) = None /\ is_Some (first_child (l1 ++ [e])) /\ code_of (l1 ++ [e]) = Some c
  | Some (KilledBy s) => exists l1 e l2, l = l1 ++ e :: l2 /\ kills l1 e s
  end.

Lemma code_told l u c : remembers l u -> unit_ok u -> exited u = Some (ExitedWith c) -> is_Some (first_child l) /\ code_of l = Some c.
Proof.
  intros [H1 H2 _ _ _] Hu Hc. assert (Hf : is_Some (first u)) by (destruct (first u) as [x|] eqn:E; [done|]; by destruct (uo_running _ Hu E) as [Hn _]; destruct (Hn c)).
  rewrite (uo_code _ Hu c Hc). unfold unit_code, code_of. rewrite <- H1, <- H2. split; [done|]. destruct Hf as [x ->]. by destruct (signalled u).
Qed.

Lemma run_told runtime control g1 g2 l :
  let v := main true runtime control g1 g2 in told v l (run l v).
Proof.
  intros v. induction l as [|e l IH] using rev_ind; [by split; [|intros [] ? ? ? ?]|]. assert (Hrun : run (l ++ [e]) v = step (run l v) e) by (unfold run; by rewrite fold_left_app).
  rewrite Hrun. pose proof (run_unit_ok l _ (start_ok runtime control g1 g2)) as Hu. fold v in Hu. remember (run l v) as u eqn:Hw. clear Hrun.
  unfold told in IH. destruct (exited u) as [[c|s]|] eqn:Ee.
  - unfold step. rewrite Ee. unfold told. rewrite Ee. destruct IH as (l1 & x & l2 & -> & Hc). exists l1, x, (l2 ++ [e]). by rewrite <- app_assoc.
  - unfold step. rewrite Ee. unfold told. rewrite Ee. destruct IH as (l1 & x & l2 & -> & Hk). exists l1, x, (l2 ++ [e]). by rewrite <- app_assoc.
  - destruct IH as [Hr Hk]. destruct (step_remembers l e u Ee Hu Hr) as [(s & Hs & Hx)|(Hn & Hr' & Hx)]; unfold told.
    + rewrite Hx. by exists l, e, [].
    + pose proof (unit_step_ok u e Hu) as Hu'. destruct (exited (step u e)) as [[c|s]|] eqn:Ex.
      * exists l, e, []. split; [done|]. split; [congruence|]. by eapply code_told.
      * by destruct (Hx s).
      * split; [done|]. intros l1 x l2 s Hl. destruct l2 as [|y l2 _] using rev_ind.
        -- apply app_inj_tail in Hl as [<- <-]. apply Hn.
        -- rewrite app_comm_cons, app_assoc in Hl. apply app_inj_tail in Hl as [-> _]. by apply (Hk l1 x l2 s).
Qed.
End Supervisor.

(** C26: the supervised unit ends with its first child.  While neither child has ended
    or failed to start, the unit does not exit.  Once one has, the unit has exited or
    waits in exactly one shutdown, and when the grace period of that one ends it exits,
    having sent SIGKILL to every child process that has not ended and that it had not
    reached with [proc.kill] before (those are skipped).  When it exits, its code is
    128 and the number of the first signal that had arrived by then, or else that of
    the first child: its exit code, 128 and the number of the signal that ended it, or 1
    when it could not be started.  A finding: SIGINT and SIGTERM are listened for once
    each, so that the second of the same kind - like any other signal - kills the
    supervisor at once, with nothing sent to the children. *)
Theorem supervised_unit_exits (signals : string -> option Z) (runtime control : option Z) (g1 g2 : bool) (l : list event) :
  let u := run signals l (main true runtime control g1 g2) in
  (first_child signals l = None -> forall c, exited u <> Some (ExitedWith c)) /\
  (forall c, exited u = Some (ExitedWith c) -> exists l1 e l2, l = l1 ++ e :: l2 /\
     exited (run signals l1 (main true runtime control g1 g2)) = None /\
     is_Some (first_child signals (l1 ++ [e])) /\ code_of signals (l1 ++ [e]) = Some c) /\
  (forall s, exited u = Some (KilledBy s) -> exists l1 l2, l = l1 ++ Signal s :: l2 /\ (s ∉ ["SIGINT"; "SIGTERM"] \/ Signal s ∈ l1)) /\
  (exited u = None ->
     (is_Some (first_child signals l) -> exists k sd, shutdowns u !! k = Some sd /\ main_shutdowns u = [sd] /\
        let v := step signals u (GraceOver k) in
        (exists c, code_of signals l = Some c /\ exited v = Some (ExitedWith c)) /\
        forall i c, children u !! i = Some c -> exitCode c = None -> signalCode c = None -> killed c = false -> is_Some (pid c) ->
          (i, "SIGKILL") ∈ sent v) /\
     (forall s, s ∉ ["SIGINT"; "SIGTERM"] \/ Signal s ∈ l ->
        let v := step signals u (Signal s) in exited v = Some (KilledBy s) /\ sent v = sent u)).
Proof.
  cbn zeta. pose proof (run_unit_ok signals l _ (start_ok signals runtime control g1 g2)) as Hu.
  pose proof (run_told signals runtime control g1 g2 l) as Ht. cbn zeta in Ht. set (u := run _ l _) in *. clearbody u. unfold told in Ht. split_and!.
  - intros Hf c Hc. rewrite Hc in Ht. destruct Ht as (l1 & e & l2 & -> & _ & [x Hx] & _). unfold first_child in *. rewrite cons_middle, app_assoc, omap_app in Hf.
    by destruct (omap (child_end signals) (l1 ++ [e])).
  - intros c Hc. by rewrite Hc in Ht.
  - intros s Hs. rewrite Hs in Ht. destruct Ht as (l1 & e & l2 & -> & -> & Hk). by exists l1, l2.
  - intros He. rewrite He in Ht. destruct Ht as [Hr _]. split.
    + rewrite <- (re_first _ _ _ Hr). intros Hf. destruct (uo_ending _ _ Hu Hf He) as [sd Hs].
      assert (Hin : sd ∈ main_shutdowns u) by (rewrite Hs; left). unfold main_shutdowns in Hin.
      apply list_elem_of_filter in Hin as [Hm Hin]. apply list_elem_of_lookup in Hin as [k Hk].
      exists k, sd. split; [done|]. split; [done|]. unfold step; rewrite He; unfold grace_over; rewrite Hk, Hm; cbn [finish set_ended exited sent]. split.
      * destruct (signal_all_keeps "SIGKILL" (survivors u) u) as [E1 E2 _ _ _ _ _]. eexists. split; [|reflexivity].
        unfold unit_code, code_of. cbn [first signalled set_shutdowns]. rewrite E1, E2, (re_first _ _ _ Hr), (re_signalled _ _ _ Hr).
        rewrite (re_first _ _ _ Hr) in Hf. destruct Hf as [x ->]. by destruct (first_signal l).
      * intros i c Hc H1 H2 H3 Hp. cbn [set_shutdowns sent]. apply signal_all_sends; [|by exists c].
        unfold survivors. apply list_elem_of_filter. rewrite Hc. cbn. unfold stillRunning. rewrite H1, H2, H3. split; [done|].
        apply elem_of_seq. apply lookup_lt_Some in Hc. lia.
    + intros s Hs. unfold step. rewrite He. unfold signal_arrives. rewrite decide_False; [done|]. rewrite (re_listening _ _ _ Hr), list_elem_of_filter, in_signals. tauto.
Qed.

Module Supervised.
Definition numbers (s : string) : option Z := if bool_decide (s = "SIGTERM") then Some 15 else if bool_decide (s = "SIGINT") then Some 2 else None.
Definition start : Unit := main true (Some 10) (Some 11) true true.
End Supervised.

(** A second SIGTERM during the grace period ends the supervisor, not its children. *)
Example second_signal : let u := run Supervised.numbers [Signal "SIGTERM"; Signal "SIGTERM"] Supervised.start in
  exited u = Some (KilledBy "SIGTERM") /\ sent u = [(0%nat, "SIGTERM"); (1%nat, "SIGTERM")] /\ map stillRunning (children u) = [true; true].
Proof. vm_compute. done. Qed.

Example crash_reported : exited (run Supervised.numbers [ChildExit 1 (Some 3) None; ChildExit 0 None (Some "SIGTERM")] Supervised.start) = Some (ExitedWith 3).
Proof. vm_compute. done. Qed.

(** ** The reconnect loop of [control.ts] *)

(** [rnd] is [Math.floor(Math.random() * 500)]. *)
Definition reconnectDelayMs (attempt rnd : Z) : Z :=
  let capped := Z.min attempt 6 in
  Z.min 30000 (1000 * 2 ^ (capped - 1)) + rnd.

(** How a pass of the loop ended: the tunnel was up and closed, or connecting threw. *)
Inductive pass := WasUp | Failed.

(** [attempt] after a pass, before the wait. *)
Definition next_attempt (attempt : Z) (r : pass) : Z := match r with WasUp => 1 | Failed => attempt + 1 end.

Fixpoint delays (attempt : Z) (l : list (pass * Z)) : list Z :=
  match l with
  | [] => []
  | (r, rnd) :: l => let a := next_attempt attempt r in reconnectDelayMs a rnd :: delays a l
  end.

Section TunnelUrl.
Context `{UrlApi}.

Definition tunnelUrlFromEnv (p : Process) : result string :=
  let explicit := trim (default "" (env p "CONSENSUS_TUNNEL_URL")) in
  if negb (bool_decide (explicit = "")) then Ok explicit
  else
    let serverUrl := trim (default "" (env p "CONSENSUS_SERVER_URL")) in
    throw_if (bool_decide (serverUrl = "")) (PlainError "Missing CONSENSUS_TUNNEL_URL or CONSENSUS_SERVER_URL");;
    url ← of_option (new_URL serverUrl) InvalidUrl;
    Ok (href (with_hash "" (with_search "" (set_pathname "/node/tunnel"
          (set_protocol (if bool_decide (protocol url = "http:") then "ws:" else "wss:") url))))).
End TunnelUrl.

Lemma delay_bounds a rnd : 1 <= a -> 0 <= rnd < 500 -> 1000 <= reconnectDelayMs a rnd < 30500.
Proof.
  intros Ha Hr. unfold reconnectDelayMs. assert (Hp : 0 < 2 ^ (Z.min a 6 - 1)) by (apply Z.pow_pos_nonneg; lia). lia.
Qed.

(** Reconnecting never busy-loops and never gives up: every wait is between one
    second and 30.5 seconds, waits do not shrink by more than the jitter while
    connecting fails, and the wait after a tunnel that was up is below 1.5 seconds. *)
Theorem reconnect_bounded (l : list (pass * Z)) (attempt : Z) : 0 <= attempt -> Forall (fun x => 0 <= x.2 < 500) l ->
  Forall (fun d => 1000 <= d < 30500) (delays attempt l) /\ length (delays attempt l) = length l /\
  (forall i d rnd, delays attempt l !! i = Some d -> l !! i = Some (WasUp, rnd) -> d < 1500) /\
  (forall i d d' rnd, delays attempt l !! i = Some d -> delays attempt l !! S i = Some d' -> l !! S i = Some (Failed, rnd) -> d - 500 < d').
Proof.
  revert attempt. induction l as [|[r x] l IH]; intros a Ha Hl; [by split_and!|]. apply Forall_cons in Hl as [Hx Hl]. cbn [snd] in Hx.
  assert (Hn : 1 <= next_attempt a r) by (destruct r; cbn; lia). cbn [delays].
  destruct (IH (next_attempt a r) ltac:(lia) Hl) as (H1 & H2 & H3 & H4). split_and!.
  - constructor; [by apply delay_bounds|done].
  - cbn. by rewrite H2.
  - intros [|i] d rnd; cbn; [|apply H3]. intros [= <-] [= -> ->].
    change (Z.min 30000 (1000 * 1) + rnd < 1500). lia.
  - intros [|i] d d' rnd; cbn; [|apply H4]. intros [= <-]. destruct l as [|[r' x'] l]; [done|]. cbn. intros [= <-] [= -> ->].
    apply Forall_cons in Hl as [Hx' _]. cbn [snd] in Hx'. unfold reconnectDelayMs. cbn [next_attempt].
    assert (2 ^ (Z.min (next_attempt a r) 6 - 1) <= 2 ^ (Z.min (next_attempt a r + 1) 6 - 1)) by (apply Z.pow_le_mono_r; lia). lia.
Qed.

Lemma reconnect_bounded_witness : Forall (fun d => 1000 <= d < 30500) (delays 0 [(Failed, 17); (Failed, 480); (WasUp, 3)]).
Proof. apply (reconnect_bounded [(Failed, 17); (Failed, 480); (WasUp, 3)] 0); [done|repeat constructor; cbn; lia]. Defined.
