(* ===== verification/RequestTicket.v ===== *)
(** * Spending a ticket (tickets/request-ticket.ts, tickets/verifier.ts,
    tickets/orchestrator-key.ts)

    Verification of a ticket against the request it was issued for, the
    single-use commit, and the key pinned at registration.  The replay cache is
    shared state: an operation returns its outcome and the cache it leaves. *)

From S2P Require Import Prelude Text Json JsonText Crypto Paseto Ticket Replay Url Dedupe.
Local Open Scope Z_scope.

Record VerifyRequestTicketOptions := {
  rt_token : string; rt_nodeId : string; rt_request : DedupeParams;
  rt_expectedScope : option string; rt_now : option Z; rt_clockToleranceSec : option Z }.

Record VerifiedRequestTicket := {
  vr_claims : TicketClaims; vr_kid : json; vr_dedupeKey : string }.

Definition ReplayedJti : exn := PlainError "ticket: replayed jti".

(** The commit of the single-use id; [replay] is absent when the caller passes none. *)
Definition commit (t : Z) (c : TicketClaims) (replay : option JtiReplayCache)
  : result unit * option JtiReplayCache :=
  match replay with
  | None => (Ok tt, None)
  | Some cache =>
      let '(fresh, cache') := consume (jti c) (exp c) t cache in
      (throw_if (negb fresh) ReplayedJti, Some cache')
  end.

Section RequestTicket.
Context `{Signing} `{Hashing} `{UrlApi}.

(** Everything before the commit. *)
Definition check_request (clock : Z) (publicKey : PublicKey) (opts : VerifyRequestTicketOptions)
  : result VerifiedRequestTicket :=
  v ← verifyTicket clock (rt_token opts) publicKey
        {| expectedNodeId := rt_nodeId opts; expectedScope := rt_expectedScope opts;
           now := rt_now opts; clockToleranceSec := rt_clockToleranceSec opts |};
  dedupeKey ← generateDedupeKey (rt_request opts);
  throw_if (negb (bool_decide (dedupeKey = sub (vk_claims v))))
    (PlainError "ticket: request does not match ticket binding (dedupe_key)");;
  Ok {| vr_claims := vk_claims v; vr_kid := vk_kid v; vr_dedupeKey := dedupeKey |}.

Definition verifyRequestTicket (clock : Z) (publicKey : PublicKey) (opts : VerifyRequestTicketOptions)
  (replay : option JtiReplayCache) : result VerifiedRequestTicket * option JtiReplayCache :=
  match check_request clock publicKey opts with
  | Throw e => (Throw e, replay)
  | Ok r =>
      let '(o, replay') := commit (default (unix_seconds clock) (rt_now opts)) (vr_claims r) replay in
      (o;; Ok r, replay')
  end.

(** tickets/verifier.ts *)
Definition verifyRoutingTicket (clock : Z) (token : string) (publicKey : PublicKey)
  (opts : VerifyTicketOptions) (replay : option JtiReplayCache) : result VerifiedTicket * option JtiReplayCache :=
  match verifyTicket clock token publicKey opts with
  | Throw e => (Throw e, replay)
  | Ok verified =>
      let '(o, replay') := commit (default (unix_seconds clock) (now opts)) (vk_claims verified) replay in
      (o;; Ok verified, replay')
  end.
End RequestTicket.

(** ** The pinned orchestrator key *)

(** [fromResponse ?? existing ?? null]. *)
Definition resolvePinnedPubkey (existing fromResponse : option json) : option json :=
  match fromResponse with Some k => Some k | None => existing end.

(** [crypto.createPublicKey] of a JWK: the key and its [asymmetricKeyType],
    [None] when the import throws. *)
Class JwkImport `{Signing} := { createPublicKey : json -> option (PublicKey * string) }.

Section OrchestratorKey.
Context `{JwkImport}.

Definition importOrchestratorJwk (jwk : json) : result PublicKey :=
  k ← of_option (createPublicKey jwk) (TypeError "Invalid JWK");
  throw_if (negb (bool_decide (k.2 = "ed25519")))
    (PlainError "orchestrator pubkey: expected an Ed25519 (OKP) key");;
  Ok k.1.

(** [pinned] is [config.orchestrator_pubkey] of the loaded configuration. *)
Definition loadPinnedOrchestratorKey (pinned : option json) : result (option (PublicKey * option json)) :=
  if negb (truthy pinned) then Ok None
  else jwk ← of_option pinned (TypeError "unreachable");
       key ← importOrchestratorJwk jwk;
       Ok (Some (key, match get "kid" jwk with Some JNull => None | k => k end)).
End OrchestratorKey.

(** ** Lemmas *)

Section Lemmas.
Context `{Signing} `{Hashing} `{UrlApi}.

Lemma check_request_ok clock pk opts r : check_request clock pk opts = Ok r ->
  verifyTicket clock (rt_token opts) pk
    {| expectedNodeId := rt_nodeId opts; expectedScope := rt_expectedScope opts;
       now := rt_now opts; clockToleranceSec := rt_clockToleranceSec opts |} =
    Ok {| vk_claims := vr_claims r; vk_kid := vr_kid r |} /\
  generateDedupeKey (rt_request opts) = Ok (sub (vr_claims r)) /\ vr_dedupeKey r = sub (vr_claims r).
Proof.
  unfold check_request. intros Hc. inv_ok. apply negb_false_iff, bool_decide_eq_true in Hm1. subst.
  cbn [vr_claims vr_kid vr_dedupeKey]. split; [|done]. rewrite Hm. by destruct r0.
Qed.

Lemma commit_cases t c replay o replay' : commit t c replay = (o, replay') ->
  (o = Ok tt /\ (forall cache, replay = Some cache ->
      exists cache', replay' = Some cache' /\ consume (jti c) (exp c) t cache = (true, cache'))) \/
  (o = Throw ReplayedJti /\ exists cache cache', replay = Some cache /\ replay' = Some cache' /\
      consume (jti c) (exp c) t cache = (false, cache')).
Proof.
  unfold commit. destruct replay as [cache|]; [|intros [= <- <-]; by left].
  destruct (consume _ _ _ cache) as [[] cache'] eqn:E; cbn; intros [= <- <-].
  - left. split; [done|]. intros ? [= <-]. by exists cache'.
  - right. split; [done|]. by exists cache, cache'.
Qed.
End Lemmas.

Lemma consume_fresh_keys j e t c c' : consume j e t c = (true, c') ->
  j ∉ keys (sweep t c) /\ j ∈ keys c'.
Proof.
  intros Hc. split; [|by eapply tracked_key, consume_fresh].
  unfold consume in Hc. case_bool_decide; congruence.
Qed.

Lemma consume_stale_keys j e t c c' : consume j e t c = (false, c') -> c' = sweep t c /\ j ∈ keys c'.
Proof. unfold consume. case_bool_decide; [|done]. by intros [= <-]. Qed.

(** ** Properties *)

(** C8: a ticket is spent only on the request it was issued for, and its id is
    recorded as used exactly when everything else has passed: a success means
    the ticket verified at this node, its subject is the recomputed key of this
    very request, and its id was unused and now is recorded; a failure records
    no id that was not recorded before. *)
Theorem request_ticket_spent_once `{Signing} `{Hashing} `{UrlApi} (clock : Z) (pk : PublicKey)
    (opts : VerifyRequestTicketOptions) (cache cache' : JtiReplayCache) (res : result VerifiedRequestTicket) :
  verifyRequestTicket clock pk opts (Some cache) = (res, Some cache') ->
  match res with
  | Ok r =>
      (exists kid, verifyTicket clock (rt_token opts) pk
        {| expectedNodeId := rt_nodeId opts; expectedScope := rt_expectedScope opts;
           now := rt_now opts; clockToleranceSec := rt_clockToleranceSec opts |} =
        Ok {| vk_claims := vr_claims r; vk_kid := kid |}) /\
      generateDedupeKey (rt_request opts) = Ok (sub (vr_claims r)) /\
      jti (vr_claims r) ∉ keys (sweep (default (unix_seconds clock) (rt_now opts)) cache) /\
      jti (vr_claims r) ∈ keys cache'
  | Throw e => (forall j, j ∈ keys cache' -> j ∈ keys cache) /\ (e = ReplayedJti \/ cache' = cache)
  end.
Proof.
  unfold verifyRequestTicket. destruct (check_request clock pk opts) as [r|e] eqn:E; [|intros [= <- <-]; auto].
  destruct (commit _ _ _) as [o c'] eqn:Ec. apply commit_cases in Ec as [(-> & Hc)|(-> & c0 & c1 & Hc0 & -> & Hc)];
    intros [= <- ->].
  - apply check_request_ok in E as (Hv & Hd & _). destruct (Hc _ eq_refl) as (c2 & [= ->] & Hcons).
    apply consume_fresh_keys in Hcons as [H1' H2']. eauto.
  - injection Hc0 as <-. apply consume_stale_keys in Hc as [-> _]. split; [|by left].
    intros j. apply sweep_keys_subset.
Qed.

Definition demo_opts : VerifyRequestTicketOptions :=
  {| rt_token := @issueTicket Toy.signing 0
       {| in_nodeId := "n1"; in_dedupeKey := demo_key; in_jti := "j1"; in_ttlSec := None; in_scope := None;
          in_now := Some 1000 |} 7 "k1";
     rt_nodeId := "n1"; rt_request := demo_params; rt_expectedScope := None; rt_now := Some 1010;
     rt_clockToleranceSec := None |}.

Definition demo_run := @verifyRequestTicket Toy.signing Toy.hashing ToyUrl.api 0 7 demo_opts (Some (new_cache 10)).

Lemma request_ticket_spent_once_witness :
  is_ok demo_run.1 = true /\
  match demo_run.1 with
  | Ok r =>
      (exists kid, @verifyTicket Toy.signing 0 (rt_token demo_opts) 7
        {| expectedNodeId := "n1"; expectedScope := None; now := Some 1010; clockToleranceSec := None |} =
        Ok {| vk_claims := vr_claims r; vk_kid := kid |}) /\
      @generateDedupeKey Toy.hashing ToyUrl.api (rt_request demo_opts) = Ok (sub (vr_claims r)) /\
      jti (vr_claims r) ∉ keys (sweep (default (unix_seconds 0) (Some 1010)) (new_cache 10)) /\
      jti (vr_claims r) ∈ keys (default (new_cache 10) demo_run.2)
  | Throw e => (forall j, j ∈ keys (default (new_cache 10) demo_run.2) -> j ∈ keys (new_cache 10)) /\
               (e = ReplayedJti \/ default (new_cache 10) demo_run.2 = new_cache 10)
  end.
Proof.
  split; [vm_compute; reflexivity|].
  apply (@request_ticket_spent_once Toy.signing Toy.hashing ToyUrl.api 0 7 demo_opts (new_cache 10)
           (default (new_cache 10) demo_run.2) demo_run.1).
  vm_compute. reflexivity.
Defined.

(** Re-registration never loses the pinned trust anchor: a response without
    a key keeps the existing one, and only a key in the response replaces it. *)
Theorem pinned_key_kept (existing fromResponse : option json) :
  (fromResponse = None -> resolvePinnedPubkey existing fromResponse = existing) /\
  (forall k, fromResponse = Some k -> resolvePinnedPubkey existing fromResponse = Some k) /\
  (resolvePinnedPubkey existing fromResponse = None -> existing = None /\ fromResponse = None).
Proof. destruct existing, fromResponse; cbn; naive_solver. Qed.

(** The id of a ticket is forgotten while the ticket is still
    accepted: at the clock reading [exp] (five seconds before the end of the
    acceptance window) the sweep drops the id, and the same ticket is spent a
    second time. *)
Theorem replay_in_skew_window :
  let opts t := {| rt_token := rt_token demo_opts; rt_nodeId := "n1"; rt_request := demo_params;
                   rt_expectedScope := None; rt_now := Some t; rt_clockToleranceSec := None |} in
  let verify t c := @verifyRequestTicket Toy.signing Toy.hashing ToyUrl.api 0 7 (opts t) c in
  is_ok (verify 1010 (Some (new_cache 100000))).1 = true /\
  is_ok (verify 1060 (verify 1010 (Some (new_cache 100000))).2).1 = true.
Proof. split; vm_compute; reflexivity. Qed.
