(* ===== verification/Ssrf.v ===== *)
(** * The SSRF guard (runtime/ssrf.ts)

    Address normalisation, the private ranges, and the resolution of a target
    URL with its DNS cache.  The cache is the state; [dns.lookup] is an argument
    (its outcome at this call), as are the clock readings before and after it. *)

From S2P Require Import Prelude Text Json Coerce Url.
Local Open Scope Z_scope.

Definition ALLOWED_PROTOCOLS : list string := ["http:"; "https:"].

Record SafeResolution := { ip : string; family : Z; sr_hostname : string; isLiteral : bool }.

Record DnsCacheEntry := {
  isPrivate : bool; de_ip : option string; de_family : option Z; expiresAt : Z }.

Definition DNS_TTL_MS : Z := 30000.
Definition DNS_NEG_TTL : Z := 5000.
Definition FORBIDDEN : exn :=
  TypeError "Forbidden target_url — private/internal addresses are not allowed".

(** ** Addresses *)

Definition strip_lead (s : string) : string := match s with String "[" r => r | _ => s end.
Fixpoint strip_trail (s : string) : string :=
  match s with
  | String "]" EmptyString => EmptyString
  | String c r => String c (strip_trail r)
  | EmptyString => EmptyString
  end.

(** [s.replace(/^\[|\]$/g, "")]. *)
Definition strip_brackets (s : string) : string := strip_trail (strip_lead s).

Definition len_between (lo hi : nat) (s : string) : bool :=
  (lo <=? String.length s)%nat && (String.length s <=? hi)%nat.

(** [\d{1,3}\.\d{1,3}\.\d{1,3}\.\d{1,3}] *)
Definition is_dotted (s : string) : bool :=
  let p := split "." s in
  (length p =? 4)%nat && forallb (fun x => len_between 1 3 x && str_forall is_digit x) p.

Fixpoint take_zeros (s : string) : nat * string :=
  match s with
  | String "0" r => let '(n, t) := take_zeros r in (S n, t)
  | _ => (O, s)
  end.

(** [(?:0{1,4}:){n}] at the start of [s]; the rest. *)
Fixpoint zero_groups (n : nat) (s : string) : option string :=
  match n with
  | O => Some s
  | S n' =>
      match take_zeros s with
      | (k, String ":" r) => if (1 <=? k)%nat && (k <=? 4)%nat then zero_groups n' r else None
      | _ => None
      end
  end.

Definition after (p s : string) : option string :=
  if startsWith s p then Some (slice_from (String.length p) s) else None.

Definition mapped_dotted (s : string) : option string :=
  match (r ← zero_groups 5 s; t ← after "ffff:" r; if is_dotted t then Some t else None) with
  | Some t => Some t
  | None => t ← after "::ffff:" s; if is_dotted t then Some t else None
  end.

Definition mapped_hex (s : string) : option (Z * Z) :=
  t ← after "::ffff:" s;
  match split ":" t with
  | [a; b] =>
      if len_between 1 4 a && str_forall is_lower_hex a && len_between 1 4 b && str_forall is_lower_hex b
      then Some (parse_int 16 a, parse_int 16 b) else None
  | _ => None
  end.

Definition is_octal (c : ascii) : bool := between "0" "7" c.

(** [/^(0x[0-9a-f]+|0[0-7]*|[1-9]\d*|0)$/] *)
Definition part_ok (p : string) : bool :=
  match p with
  | String "0" (String "x" r) => negb (bool_decide (r = "")) && str_forall is_lower_hex r
  | String "0" r => str_forall is_octal r
  | String c r => between "1" "9" c && str_forall is_digit r
  | EmptyString => false
  end.

Definition part_value (p : string) : Z :=
  if startsWith p "0x" then parse_int 16 (slice_from 2 p)
  else if startsWith p "0" && (1 <? String.length p)%nat then parse_int 8 p
  else parse_int 10 p.

Definition dotted (a b c d : Z) : string := join "." [dec a; dec b; dec c; dec d].

(** The 32-bit word of one to four parts, [None] when a part is out of range. *)
Definition pack_ip (nums : list Z) : option Z :=
  match nums with
  | [a] => if 0xffffffff <? a then None else Some a
  | [a; b] =>
      if (0xff <? a) || (0xffffff <? b) then None else Some (js_or (js_shl a 24) b)
  | [a; b; c] =>
      if (0xff <? a) || (0xff <? b) || (0xffff <? c) then None
      else Some (js_or (js_or (js_shl a 24) (js_shl b 16)) c)
  | [a; b; c; d] =>
      if (0xff <? a) || (0xff <? b) || (0xff <? c) || (0xff <? d) then None
      else Some (js_or (js_or (js_or (js_shl a 24) (js_shl b 16)) (js_shl c 8)) d)
  | _ => None
  end.

Definition unpack_ip (ip32 : Z) : string :=
  dotted (js_and (js_ushr ip32 24) 255) (js_and (js_ushr ip32 16) 255)
         (js_and (js_ushr ip32 8) 255) (js_and ip32 255).

Definition normalizeToIPv4 (raw : string) : option string :=
  let s := toLowerCase (strip_brackets raw) in
  match mapped_dotted s with
  | Some t => Some t
  | None =>
      match mapped_hex s with
      | Some (hi, lo) => Some (dotted (js_ushr hi 8) (js_and hi 255) (js_ushr lo 8) (js_and lo 255))
      | None =>
          let parts := split "." s in
          if forallb part_ok parts then unpack_ip <$> pack_ip (map part_value parts) else None
      end
  end.

Definition num_is (n : num) (z : Z) : bool := num_eqb n (num_of_Z z).
Definition num_in (n : num) (lo hi : Z) : bool := num_leb (num_of_Z lo) n && num_leb n (num_of_Z hi).

Definition isPrivateIPv4 (s : string) : bool :=
  match map string_to_number (split "." s) with
  | [a; b; c; d] =>
      forallb (fun n => num_in n 0 255) [a; b; c; d] &&
      (num_is a 127 || num_is a 0 || num_is a 10 ||
       (num_is a 172 && num_in b 16 31) ||
       (num_is a 192 && num_is b 168) ||
       (num_is a 169 && num_is b 254) ||
       (num_is a 100 && num_in b 64 127) ||
       (num_is a 192 && num_is b 0 && num_is c 2) ||
       (num_is a 198 && num_is b 51 && num_is c 100) ||
       (num_is a 203 && num_is b 0 && num_is c 113))
  | _ => false
  end.

(** [/^f[cd][0-9a-f]{2}:/i] *)
Definition is_unique_local (s : string) : bool :=
  match toLowerCase s with
  | String "f" (String x (String h1 (String h2 (String ":" _)))) =>
      (bool_decide (x = "c"%char) || bool_decide (x = "d"%char)) && is_lower_hex h1 && is_lower_hex h2
  | _ => false
  end.

Definition isPrivateIPv6Bare (bare : string) : bool :=
  bool_decide (bare = "::1") || startsWith (toLowerCase bare) "fe80:" || is_unique_local bare ||
  match normalizeToIPv4 bare with Some mapped => isPrivateIPv4 mapped | None => false end.

(** ** Resolution *)

Notation DnsCache := (list (string * DnsCacheEntry)).

Record DnsRecord := { address : string; rec_family : Z }.

(** [safeIp] as a truth value. *)
Definition found (safe : option (string * Z)) : bool :=
  match safe with Some (a, _) => negb (bool_decide (a = "")) | None => false end.

(** The scan over the records: first safe address, and whether any was private. *)
Definition scan_step (acc : option (string * Z) * bool) (r : DnsRecord) : option (string * Z) * bool :=
  let '(safe, anyPrivate) := acc in
  let keep := if found safe then safe else Some (address r, rec_family r) in
  if rec_family r =? 4 then
    if isPrivateIPv4 (address r) then (safe, true) else (keep, anyPrivate)
  else if rec_family r =? 6 then
    if isPrivateIPv6Bare (toLowerCase (address r)) then (safe, true) else (keep, anyPrivate)
  else acc.

Definition scan (records : list DnsRecord) : option (string * Z) * bool :=
  fold_left scan_step records (None, false).

Section Ssrf.
Context `{UrlApi}.

(** The checks before any lookup: the hostname, and the resolution of a literal. *)
Definition check_literal (urlString : string) : result (string * option SafeResolution) :=
  parsed ← of_option (new_URL urlString) FORBIDDEN;
  throw_if (negb (bool_decide (protocol parsed ∈ ALLOWED_PROTOCOLS))) FORBIDDEN;;
  decoded ← of_option (decodeURIComponent (hostname parsed)) (PlainError "URI malformed");
  throw_if (negb (bool_decide (hostname parsed = decoded))) FORBIDDEN;;
  let name := toLowerCase (hostname parsed) in
  let bare := strip_brackets name in
  throw_if (isPrivateIPv6Bare bare) FORBIDDEN;;
  match normalizeToIPv4 bare with
  | Some normalized =>
      throw_if (isPrivateIPv4 normalized) FORBIDDEN;;
      Ok (name, Some {| ip := normalized; family := 4; sr_hostname := normalized; isLiteral := true |})
  | None => Ok (name, None)
  end.

Definition private_entry (at_ : Z) : DnsCacheEntry :=
  {| isPrivate := true; de_ip := None; de_family := None; expiresAt := at_ |}.

(** The lookup of [name] and its outcome [answer]; [t1] is the clock after it. *)
Definition resolve_dns (t1 : Z) (answer : result (list DnsRecord)) (name : string) (cache : DnsCache)
  : result SafeResolution * DnsCache :=
  match answer with
  | Ok records =>
      match scan records with
      | (Some (a, f), false) =>
          if bool_decide (a = "") then (Throw FORBIDDEN, put name (private_entry (t1 + DNS_TTL_MS)) cache) else
          (Ok {| ip := a; family := f; sr_hostname := name; isLiteral := false |},
           put name {| isPrivate := false; de_ip := Some a; de_family := Some f; expiresAt := t1 + DNS_TTL_MS |} cache)
      | _ => (Throw FORBIDDEN, put name (private_entry (t1 + DNS_TTL_MS)) cache)
      end
  | Throw (TypeError m) => (Throw (TypeError m), cache)
  | Throw _ => (Throw FORBIDDEN, put name (private_entry (t1 + DNS_NEG_TTL)) cache)
  end.

Definition resolveAndCheckTarget (t0 t1 : Z) (lookup : string -> result (list DnsRecord))
  (urlString : string) (cache : DnsCache) : result SafeResolution * DnsCache :=
  match check_literal urlString with
  | Throw e => (Throw e, cache)
  | Ok (_, Some literal) => (Ok literal, cache)
  | Ok (name, None) =>
      match assoc name cache with
      | Some cached =>
          if t0 <? expiresAt cached then
            match isPrivate cached, de_ip cached with
            | false, Some a =>
                if bool_decide (a = "") then (Throw FORBIDDEN, cache)
                else (Ok {| ip := a; family := default 0 (de_family cached); sr_hostname := name; isLiteral := false |}, cache)
            | _, _ => (Throw FORBIDDEN, cache)
            end
          else resolve_dns t1 (lookup name) name cache
      | None => resolve_dns t1 (lookup name) name cache
      end
  end.

(** Every failure means private. *)
Definition isPrivateTarget (t0 t1 : Z) (lookup : string -> result (list DnsRecord))
  (urlString : string) (cache : DnsCache) : bool * DnsCache :=
  let '(r, cache') := resolveAndCheckTarget t0 t1 lookup urlString cache in (negb (is_ok r), cache').
End Ssrf.

(** ** Specification of the address checks *)

(** The word that one to four numbers denote ([inet_aton]). *)
Definition inet_aton (nums : list Z) : option Z :=
  match nums with
  | [a] => if a <? 2 ^ 32 then Some a else None
  | [a; b] => if (a <? 2 ^ 8) && (b <? 2 ^ 24) then Some (a * 2 ^ 24 + b) else None
  | [a; b; c] =>
      if (a <? 2 ^ 8) && (b <? 2 ^ 8) && (c <? 2 ^ 16) then Some (a * 2 ^ 24 + b * 2 ^ 16 + c) else None
  | [a; b; c; d] =>
      if (a <? 2 ^ 8) && (b <? 2 ^ 8) && (c <? 2 ^ 8) && (d <? 2 ^ 8)
      then Some (a * 2 ^ 24 + b * 2 ^ 16 + c * 2 ^ 8 + d) else None
  | _ => None
  end.

Definition ip_text (v : Z) : string :=
  dotted (v / 2 ^ 24 mod 2 ^ 8) (v / 2 ^ 16 mod 2 ^ 8) (v / 2 ^ 8 mod 2 ^ 8) (v mod 2 ^ 8).

(** A block [a.b.c.d/len]. *)
Record cidr := { base : Z; plen : Z }.
Definition block (a b c d len : Z) : cidr := {| base := a * 2 ^ 24 + b * 2 ^ 16 + c * 2 ^ 8 + d; plen := len |}.
Definition in_cidr (v : Z) (k : cidr) : bool := v / 2 ^ (32 - plen k) =? base k / 2 ^ (32 - plen k).

Definition PRIVATE_BLOCKS : list cidr :=
  [block 127 0 0 0 8; block 0 0 0 0 8; block 10 0 0 0 8; block 172 16 0 0 12; block 192 168 0 0 16;
   block 169 254 0 0 16; block 100 64 0 0 10; block 192 0 2 0 24; block 198 51 100 0 24; block 203 0 113 0 24].

Definition in_private_block (v : Z) : bool := existsb (in_cidr v) PRIVATE_BLOCKS.

Lemma pack_ip_aton nums : Forall (fun n => 0 <= n) nums -> ToUint32 <$> pack_ip nums = inet_aton nums.
Proof.
  intros Hn.
  destruct nums as [|a [|b [|c [|d [|e nums]]]]]; try done;
    repeat (apply Forall_cons in Hn as [? Hn]); unfold pack_ip, inet_aton.
  - destruct (_ <? a) eqn:E, (a <? _) eqn:F; bool_solve; try lia; try done. cbn. f_equal. apply ToUint32_small. lia.
  - destruct ((_ || _) : bool) eqn:E, ((_ && _) : bool) eqn:F; bool_solve;
      rewrite ?orb_true_iff, ?andb_false_iff, ?Z.ltb_lt, ?Z.ltb_ge in *; try lia; try done.
    cbn [fmap option_fmap option_map]. f_equal. rewrite or_shl_value; rewrite ?ToUint32_small; lia.
  - destruct ((_ || _) : bool) eqn:E, ((_ && _) : bool) eqn:F; bool_solve;
      rewrite ?orb_true_iff, ?andb_false_iff, ?Z.ltb_lt, ?Z.ltb_ge in *; try lia; try done.
    cbn [fmap option_fmap option_map]. f_equal. rewrite ToUint32_or, or_shl_value by (rewrite ?ToUint32_shl, ?ToUint32_small; lia).
    rewrite ToUint32_shl, !ToUint32_small by lia.
    replace (a * 2 ^ 24 + b * 2 ^ 16) with ((a * 2 ^ 8 + b) * 2 ^ 16) by lia. rewrite lor_shift_add by lia. lia.
  - destruct ((_ || _) : bool) eqn:E, ((_ && _) : bool) eqn:F; bool_solve;
      rewrite ?orb_true_iff, ?andb_false_iff, ?Z.ltb_lt, ?Z.ltb_ge in *; try lia; try done.
    cbn [fmap option_fmap option_map]. f_equal.
    rewrite !ToUint32_or, <- ToUint32_or, or_shl_value by (rewrite ?ToUint32_shl, ?ToUint32_small; lia).
    rewrite !ToUint32_shl, !ToUint32_small by lia.
    replace (a * 2 ^ 24 + b * 2 ^ 16) with ((a * 2 ^ 8 + b) * 2 ^ 16) by lia. rewrite lor_shift_add by lia.
    replace ((a * 2 ^ 8 + b) * 2 ^ 16 + c * 2 ^ 8) with ((a * 2 ^ 16 + b * 2 ^ 8 + c) * 2 ^ 8) by lia.
    rewrite lor_shift_add by lia. lia.
Qed.

Lemma unpack_ip_text v : unpack_ip v = ip_text (ToUint32 v).
Proof. unfold unpack_ip, ip_text. by rewrite !ushr_byte, and_byte by lia. Qed.

Lemma pack_unpack nums : Forall (fun n => 0 <= n) nums ->
  unpack_ip <$> pack_ip nums = ip_text <$> inet_aton nums.
Proof.
  intros Hn. rewrite <- (pack_ip_aton _ Hn). destruct (pack_ip nums); [|done].
  cbn [fmap option_fmap option_map]. by rewrite unpack_ip_text.
Qed.

(** ** Dotted text *)

Definition octet_ok (z : Z) : bool :=
  bool_decide (string_to_number (dec z) = num_of_Z z) && str_forall is_digit (dec z) && len_between 1 3 (dec z).

Lemma octet_spec z : 0 <= z < 256 ->
  string_to_number (dec z) = num_of_Z z /\ str_forall is_digit (dec z) = true.
Proof.
  intros Hz. assert (H : octet_ok z = true) by (revert z Hz; by apply forallb_range).
  unfold octet_ok in H. bool_solve. done.
Qed.

Lemma digits_no_dot s : str_forall is_digit s = true -> no_char "." s.
Proof.
  induction s as [|c s IH]; [done|]. cbn [str_forall]. intros H. bool_solve.
  apply no_char_cons. split; [|by apply IH]. intros ->. done.
Qed.

Lemma split_dotted a b c d : 0 <= a < 256 -> 0 <= b < 256 -> 0 <= c < 256 -> 0 <= d < 256 ->
  split "." (dotted a b c d) = [dec a; dec b; dec c; dec d].
Proof.
  intros Ha Hb Hc Hd. unfold dotted. apply split_join; [done|].
  repeat constructor; apply digits_no_dot; by apply octet_spec.
Qed.

Lemma num_is_Z a z : num_is (num_of_Z a) z = (a =? z).
Proof. unfold num_is. apply num_eqb_Z. Qed.

Lemma num_in_Z a lo hi : num_in (num_of_Z a) lo hi = (lo <=? a) && (a <=? hi).
Proof.
  unfold num_in, num_leb. rewrite !num_ltb_Z, !num_eqb_Z.
  destruct (lo <? a) eqn:E1, (lo =? a) eqn:E2, (a <? hi) eqn:E3, (a =? hi) eqn:E4, (lo <=? a) eqn:E5, (a <=? hi) eqn:E6;
    bool_solve; try done; lia.
Qed.

Lemma in_cidr_iff v k : in_cidr v k = true <-> v / 2 ^ (32 - plen k) = base k / 2 ^ (32 - plen k).
Proof. apply Z.eqb_eq. Qed.

(** Comparisons of packed octets, octet by octet. *)
Lemma pair_test a b K A B : 0 <= b < K -> 0 <= B < K -> (a * K + b =? A * K + B) = (a =? A) && (b =? B).
Proof.
  intros Hb HB. apply Bool.eq_true_iff_eq. rewrite andb_true_iff, !Z.eqb_eq. split; [|intros [-> ->]; done].
  intros E. assert (a = A) as ->; [nia|]. lia.
Qed.

Lemma range_test b k n lo : 0 < k -> lo = n * k -> (b / k =? n) = (lo <=? b) && (b <=? lo + k - 1).
Proof.
  intros Hk ->. apply Bool.eq_true_iff_eq. rewrite andb_true_iff, Z.eqb_eq, !Z.leb_le.
  pose proof (Z.div_mod b k). pose proof (Z.mod_pos_bound b k). nia.
Qed.

(** The octet tests are exactly membership in the blocks. *)
Lemma private_octets a b c d : 0 <= a < 256 -> 0 <= b < 256 -> 0 <= c < 256 -> 0 <= d < 256 ->
  isPrivateIPv4 (dotted a b c d) = in_private_block (a * 2 ^ 24 + b * 2 ^ 16 + c * 2 ^ 8 + d).
Proof.
  intros Ha Hb Hc Hd. unfold isPrivateIPv4. rewrite split_dotted by done. cbn [map].
  destruct (octet_spec a Ha) as [-> _], (octet_spec b Hb) as [-> _],
    (octet_spec c Hc) as [-> _], (octet_spec d Hd) as [-> _].
  unfold in_private_block, PRIVATE_BLOCKS. cbn [existsb forallb].
  rewrite !num_in_Z, !num_is_Z. unfold in_cidr, block. cbn [base plen].
  set (v := a * 2 ^ 24 + b * 2 ^ 16 + c * 2 ^ 8 + d).
  assert (H24 : v / 2 ^ (32 - 8) = a) by (subst v; Z.to_euclidean_division_equations; lia).
  assert (H22 : v / 2 ^ (32 - 10) = a * 4 + b / 64) by (subst v; Z.to_euclidean_division_equations; lia).
  assert (H20 : v / 2 ^ (32 - 12) = a * 16 + b / 16) by (subst v; Z.to_euclidean_division_equations; lia).
  assert (H16 : v / 2 ^ (32 - 16) = a * 256 + b) by (subst v; Z.to_euclidean_division_equations; lia).
  assert (H8 : v / 2 ^ (32 - 24) = a * 65536 + b * 256 + c) by (subst v; Z.to_euclidean_division_equations; lia).
  rewrite H24, H22, H20, H16, H8. rewrite !orb_assoc. clear H24 H22 H20 H16 H8. clearbody v.
  assert (Hb16 : 0 <= b / 16 < 16) by (split; [apply Z.div_pos|apply Z.div_lt_upper_bound]; lia).
  assert (Hb64 : 0 <= b / 64 < 4) by (split; [apply Z.div_pos|apply Z.div_lt_upper_bound]; lia).
  assert (B12 : (a * 16 + b / 16 =? (172 * 2 ^ 24 + 16 * 2 ^ 16 + 0 * 2 ^ 8 + 0) / 2 ^ (32 - 12)) = (a =? 172) && ((16 <=? b) && (b <=? 31))).
  { change ((172 * 2 ^ 24 + 16 * 2 ^ 16 + 0 * 2 ^ 8 + 0) / 2 ^ (32 - 12)) with (172 * 16 + 1). rewrite pair_test by lia.
    f_equal. by apply range_test. }
  assert (B10 : (a * 4 + b / 64 =? (100 * 2 ^ 24 + 64 * 2 ^ 16 + 0 * 2 ^ 8 + 0) / 2 ^ (32 - 10)) = (a =? 100) && ((64 <=? b) && (b <=? 127))).
  { change ((100 * 2 ^ 24 + 64 * 2 ^ 16 + 0 * 2 ^ 8 + 0) / 2 ^ (32 - 10)) with (100 * 4 + 1). rewrite pair_test by lia.
    f_equal. by apply range_test. }
  assert (B16 : forall A B, 0 <= B < 256 -> (a * 256 + b =? (A * 2 ^ 24 + B * 2 ^ 16 + 0 * 2 ^ 8 + 0) / 2 ^ (32 - 16)) = (a =? A) && (b =? B)).
  { intros A B HB. rewrite <- pair_test with (K := 256) by lia. do 2 f_equal.
    replace (A * 2 ^ 24 + B * 2 ^ 16 + 0 * 2 ^ 8 + 0) with ((A * 256 + B) * 2 ^ 16) by lia. by apply Z.div_mul. }
  assert (B24 : forall A B C, 0 <= B < 256 -> 0 <= C < 256 ->
    (a * 65536 + b * 256 + c =? (A * 2 ^ 24 + B * 2 ^ 16 + C * 2 ^ 8 + 0) / 2 ^ (32 - 24)) = (a =? A) && (b =? B) && (c =? C)).
  { intros A B C HB HC. rewrite <- (pair_test a b 256), <- (pair_test _ c 256) by lia. f_equal; [lia|].
    replace (A * 2 ^ 24 + B * 2 ^ 16 + C * 2 ^ 8 + 0) with ((A * 65536 + B * 256 + C) * 2 ^ 8) by lia.
    rewrite Z.div_mul by done. lia. }
  rewrite B12, B10, !B16, !B24 by lia.
  assert (forall z, 0 <= z < 256 -> (0 <=? z) && (z <=? 255) = true) as R by (intros; apply andb_true_iff; rewrite !Z.leb_le; lia).
  rewrite !R by done. cbn [andb]. rewrite orb_false_r.
  reflexivity.
Qed.

(** ** Literals *)

Definition octet (v k : Z) : Z := v / 2 ^ k mod 2 ^ 8.

Lemma octet_range v k : 0 <= octet v k < 256.
Proof. apply Z.mod_pos_bound. done. Qed.

Lemma ip_text_private v : 0 <= v < 2 ^ 32 -> isPrivateIPv4 (ip_text v) = in_private_block v.
Proof.
  intros Hv. unfold ip_text. pose proof (octet_range v 24). pose proof (octet_range v 16).
  pose proof (octet_range v 8). pose proof (Z.mod_pos_bound v (2 ^ 8)).
  unfold octet in *. rewrite private_octets by lia. f_equal.
  Z.to_euclidean_division_equations; lia.
Qed.

Lemma inet_aton_range nums v : Forall (fun n => 0 <= n) nums -> inet_aton nums = Some v -> 0 <= v < 2 ^ 32.
Proof.
  intros Hn Hv.
  destruct nums as [|a [|b [|c [|d [|e nums]]]]]; try done;
    repeat (apply Forall_cons in Hn as [? Hn]); unfold inet_aton in Hv;
    case_match eqn:E; try done; injection Hv as <-; bool_solve; lia.
Qed.

Lemma radix_digits_nonneg r acc s v : 0 < r -> 0 <= acc -> radix_digits r acc s = Some v -> 0 <= v.
Proof.
  intros Hr. revert acc; induction s as [|c s IH]; intros acc Ha; cbn; [by intros [= <-]|].
  unfold digit_of, hex_val. set (n := Z.of_nat (Ascii.nat_of_ascii c)).
  intros Hs. repeat (case_match; try done); simplify_eq/=; bool_solve; (eapply IH; [|exact Hs]); nia.
Qed.

Lemma parse_int_nonneg r s : 0 < r -> 0 <= parse_int r s.
Proof.
  intros Hr. unfold parse_int. destruct (radix_digits r 0 s) eqn:E; cbn; [|lia].
  by eapply radix_digits_nonneg in E.
Qed.

Lemma part_value_nonneg p : 0 <= part_value p.
Proof. unfold part_value. repeat case_match; by apply parse_int_nonneg. Qed.

(** The parts of a numeric literal hold no colon, so the mapped forms do not apply. *)
Lemma forall_no_colon (f : ascii -> bool) s : f ":"%char = false -> str_forall f s = true -> no_char ":" s.
Proof.
  intros Hf. induction s as [|c s IH]; [done|]. cbn [str_forall]. intros H. bool_solve.
  apply no_char_cons. split; [|by apply IH]. intros ->. congruence.
Qed.

Lemma part_ok_no_colon p : part_ok p = true -> no_char ":" p.
Proof.
  destruct p as [|c p]; [done|]. intros Hp.
  assert (Hc : c <> ":"%char) by (intros ->; done).
  apply no_char_cons. split; [done|]. unfold part_ok in Hp.
  destruct (decide (c = "0"%char)) as [->|Hn0].
  - destruct p as [|d p]; [done|]. destruct (decide (d = "x"%char)) as [->|Hx].
    + bool_solve. apply no_char_cons. split; [done|]. by eapply forall_no_colon; [|eassumption].
    + assert (str_forall is_octal (String d p) = true) by (by destruct d as [[] [] [] [] [] [] [] []]).
      by eapply forall_no_colon; [|eassumption].
  - assert (str_forall is_digit p = true).
    { destruct c as [[] [] [] [] [] [] [] []]; cbn in Hp; try done; by bool_solve. }
    by eapply forall_no_colon; [|eassumption].
Qed.

Lemma split_parts_no_char c s :
  Forall (no_char c) (split "." s) -> c <> "."%char -> no_char c s.
Proof.
  induction s as [|d s IH]; cbn [split]; [done|]. intros H Hc. apply no_char_cons.
  destruct (decide (d = "."%char)) as [->|Hd].
  - apply Forall_cons in H as [_ H]. split; [congruence|by apply IH].
  - destruct (split "." s) as [|q qs].
    + apply Forall_cons in H as [[H1 _]%no_char_cons _]. split; [done|]. by apply IH.
    + apply Forall_cons in H as [[H1 H2]%no_char_cons H]. split; [done|]. apply IH; [|done]. by constructor.
Qed.

Lemma take_zeros_no_colon s : no_char ":" s -> no_char ":" (take_zeros s).2.
Proof.
  induction s as [|c s IH]; [done|]. intros [Hc H]%no_char_cons.
  destruct (decide (c = "0"%char)) as [->|Hn].
  - cbn. specialize (IH H). by destruct (take_zeros s).
  - assert (take_zeros (String c s) = (O, String c s)) as -> by (by destruct c as [[] [] [] [] [] [] [] []]).
    by apply no_char_cons.
Qed.

Lemma no_mapped_form s : no_char ":" s -> mapped_dotted s = None /\ mapped_hex s = None.
Proof.
  intros Hs.
  assert (Ha : after "::ffff:" s = None).
  { unfold after. destruct (startsWith s "::ffff:") eqn:E; [|done].
    apply startsWith_spec in E as [r ->]. by apply no_char_cons in Hs as [? _]. }
  assert (Hz : zero_groups 5 s = None).
  { cbn [zero_groups]. pose proof (take_zeros_no_colon s Hs) as Ht. destruct (take_zeros s) as [n t].
    cbn in Ht. destruct t as [|c t]; [done|]. apply no_char_cons in Ht as [Hc _].
    by destruct c as [[] [] [] [] [] [] [] []]. }
  unfold mapped_dotted, mapped_hex. by rewrite Hz, Ha.
Qed.

Lemma normalize_numeric raw :
  let s := toLowerCase (strip_brackets raw) in
  forallb part_ok (split "." s) = true ->
  normalizeToIPv4 raw = ip_text <$> inet_aton (map part_value (split "." s)).
Proof.
  cbn zeta. intros Hp. unfold normalizeToIPv4.
  destruct (no_mapped_form (toLowerCase (strip_brackets raw))) as [-> ->].
  { apply split_parts_no_char; [|done]. apply Forall_forall. intros p Hin. apply part_ok_no_colon.
    by apply (proj1 (forallb_forall _ _) Hp), list_elem_of_In. }
  rewrite Hp. apply pack_unpack. apply Forall_map, Forall_true. intros; apply part_value_nonneg.
Qed.

(** ** Safety of the resolution *)

(** An address the guard may hand out. *)
Definition address_safe (a : string) (f : Z) : bool :=
  if f =? 4 then negb (isPrivateIPv4 a)
  else if f =? 6 then negb (isPrivateIPv6Bare (toLowerCase a)) else false.

(** No record of a private address. *)
Definition record_public (r : DnsRecord) : Prop :=
  address_safe (address r) (rec_family r) = true \/ (rec_family r <> 4 /\ rec_family r <> 6).

(** The same in terms of words and texts, without the code's checks. *)
Inductive private6 : string -> Prop :=
| p6_loopback : private6 "::1"
| p6_link_local r : private6 ("fe80:" +:+ r)
| p6_unique_local x h1 h2 r : x ∈ ["c"%char; "d"%char] -> is_lower_hex h1 = true -> is_lower_hex h2 = true ->
    private6 (String "f" (String x (String h1 (String h2 (String ":" r)))))
| p6_mapped v : 0 <= v < 2 ^ 32 -> in_private_block v = true -> private6 ("::ffff:" +:+ ip_text v)
| p6_mapped_hex a b : len_between 1 4 a = true -> str_forall is_lower_hex a = true ->
    len_between 1 4 b = true -> str_forall is_lower_hex b = true ->
    in_private_block (parse_int 16 a * 2 ^ 16 + parse_int 16 b) = true -> private6 ("::ffff:" +:+ a +:+ ":" +:+ b).

Definition reserved (a : string) (f : Z) : Prop :=
  (f = 4 /\ exists v, 0 <= v < 2 ^ 32 /\ a = ip_text v /\ in_private_block v = true) \/
  (f = 6 /\ private6 (toLowerCase a)).

(** Texts of the characters of an address are left alone by the normalisation. *)
Definition address_char (c : ascii) : bool := is_lower_hex c || bool_decide (c = "."%char) || bool_decide (c = ":"%char).

Lemma address_chars s : str_forall address_char s = true -> toLowerCase s = s /\ strip_brackets s = s.
Proof.
  intros Hs. split.
  - induction s as [|c s IH]; [done|]. cbn in Hs |- *. bool_solve. rewrite IH by done.
    by destruct c as [[] [] [] [] [] [] [] []].
  - unfold strip_brackets. assert (strip_lead s = s) as -> by (destruct s as [|[[] [] [] [] [] [] [] []] s]; done).
    induction s as [|c s IH]; [done|]. cbn [str_forall] in Hs. bool_solve.
    assert (strip_trail (String c s) = String c (strip_trail s)) as -> by (destruct c as [[] [] [] [] [] [] [] []]; done).
    by rewrite IH.
Qed.

Lemma hex_address s : str_forall is_lower_hex s = true -> str_forall address_char s = true.
Proof. apply str_forall_weaken. intros c Hc. unfold address_char. by rewrite Hc. Qed.

Lemma octet_text v k : let t := dec (octet v k) in
  str_forall is_digit t = true /\ len_between 1 3 t = true /\ string_to_number t = num_of_Z (octet v k).
Proof.
  cbn zeta. pose proof (octet_range v k) as Hz. revert Hz. generalize (octet v k). intros z Hz.
  assert (H : octet_ok z = true) by (revert z Hz; by apply forallb_range). unfold octet_ok in H. by bool_solve.
Qed.

Lemma ip_text_octets v : ip_text v = dotted (octet v 24) (octet v 16) (octet v 8) (octet v 0).
Proof. unfold ip_text, octet. by rewrite Z.div_1_r. Qed.

Lemma ip_text_dotted v : is_dotted (ip_text v) = true.
Proof.
  rewrite ip_text_octets. unfold is_dotted. rewrite split_dotted by apply octet_range. cbn [length Nat.eqb forallb].
  destruct (octet_text v 24) as (-> & -> & _), (octet_text v 16) as (-> & -> & _), (octet_text v 8) as (-> & -> & _),
    (octet_text v 0) as (-> & -> & _). done.
Qed.

Lemma ip_text_chars v : str_forall address_char (ip_text v) = true.
Proof.
  rewrite ip_text_octets. unfold dotted, join, String.concat. rewrite !str_forall_app.
  assert (Ho : forall k, str_forall address_char (dec (octet v k)) = true).
  { intros k. destruct (octet_text v k) as (Hd & _). revert Hd. apply str_forall_weaken. intros c Hc.
    unfold address_char, is_lower_hex. by rewrite Hc. }
  by rewrite !Ho.
Qed.

Lemma mapped_after t : mapped_dotted ("::ffff:" +:+ t) = if is_dotted t then Some t else None.
Proof.
  unfold mapped_dotted. replace (zero_groups 5 ("::ffff:" +:+ t)) with (@None string) by done. cbn [mbind option_bind].
  unfold after. rewrite startsWith_app. done.
Qed.

Lemma mapped_dotted_text t : is_dotted t = true -> mapped_dotted ("::ffff:" +:+ t) = Some t.
Proof. intros Ht. rewrite mapped_after. by rewrite Ht. Qed.
Lemma digit_of_range r c d : digit_of r c = Some d -> 0 <= d < r.
Proof.
  unfold digit_of. destruct (hex_val c) as [z|] eqn:Eh; [|done]. destruct (Z.ltb_spec z r); [|done]. intros [= ->].
  split; [|done]. unfold hex_val in Eh. cbv zeta in Eh. repeat (case_match; try done); simplify_eq/=; bool_solve; lia.
Qed.

Lemma hex_group_range a : len_between 1 4 a = true -> str_forall is_lower_hex a = true -> 0 <= parse_int 16 a < 2 ^ 16.
Proof.
  intros Hl Hx. split; [by apply parse_int_nonneg|].
  assert (Hd : forall s acc v, str_forall is_lower_hex s = true -> 0 <= acc ->
    radix_digits 16 acc s = Some v -> v < (acc + 1) * 16 ^ Z.of_nat (String.length s)).
  { clear. induction s as [|c s IH]; intros acc v; cbn [radix_digits String.length str_forall]; [intros _ _ [= <-]; lia|].
    intros Hc Ha Hv. bool_solve. destruct (digit_of 16 c) as [d|] eqn:Ed; [|done]. cbn in Hv.
    apply digit_of_range in Ed.
    apply IH in Hv; [|done|lia]. rewrite Nat2Z.inj_succ, Z.pow_succ_r by lia. nia. }
  unfold parse_int. destruct (radix_digits 16 0 a) as [v|] eqn:E; cbn; [|lia].
  apply Hd in E; [|done|lia]. unfold len_between in Hl.
  apply andb_true_iff in Hl as [_ Hl%Nat.leb_le]. assert (16 ^ Z.of_nat (String.length a) <= 16 ^ 4) by (apply Z.pow_le_mono_r; lia). lia.
Qed.

Lemma mapped_hex_text hi lo : 0 <= hi < 2 ^ 16 -> 0 <= lo < 2 ^ 16 ->
  dotted (js_ushr hi 8) (js_and hi 255) (js_ushr lo 8) (js_and lo 255) = ip_text (hi * 2 ^ 16 + lo).
Proof.
  intros Hh Hl. rewrite ip_text_octets, !and_byte. unfold js_ushr. rewrite !Z.shiftr_div_pow2 by done.
  rewrite !ToUint32_small by lia. unfold octet. f_equal; Z.to_euclidean_division_equations; lia.
Qed.

Lemma normalize_mapped v : normalizeToIPv4 ("::ffff:" +:+ ip_text v) = Some (ip_text v).
Proof.
  destruct (address_chars ("::ffff:" +:+ ip_text v)) as [El Es].
  { rewrite str_forall_app. by rewrite ip_text_chars. }
  unfold normalizeToIPv4. by rewrite Es, El, (mapped_dotted_text _ (ip_text_dotted v)).
Qed.

Lemma normalize_mapped_hex a b : len_between 1 4 a = true -> str_forall is_lower_hex a = true ->
  len_between 1 4 b = true -> str_forall is_lower_hex b = true ->
  normalizeToIPv4 ("::ffff:" +:+ a +:+ ":" +:+ b) = Some (ip_text (parse_int 16 a * 2 ^ 16 + parse_int 16 b)).
Proof.
  intros H1 H2 H3 H4. destruct (address_chars ("::ffff:" +:+ a +:+ ":" +:+ b)) as [El Es].
  { rewrite !str_forall_app. by rewrite (hex_address a H2), (hex_address b H4). }
  unfold normalizeToIPv4. rewrite Es, El.
  assert (Hc : forall x, str_forall is_lower_hex x = true -> no_char ":" x) by (intros x; by apply (forall_no_colon is_lower_hex)).
  assert (Hp : forall x, str_forall is_lower_hex x = true -> no_char "." x).
  { induction x as [|c x IH]; [done|]. cbn [str_forall]. intros Hx. bool_solve. apply no_char_cons. split; [|by apply IH]. by intros ->. }
  assert (Hd : is_dotted (a +:+ ":" +:+ b) = false).
  { unfold is_dotted. rewrite split_no_char; [done|]. apply no_char_app; [by apply Hp|]. apply no_char_cons. split; [done|by apply Hp]. }
  rewrite mapped_after, Hd.
  unfold mapped_hex, after. rewrite startsWith_app. cbn [mbind option_bind].
  change (slice_from (String.length "::ffff:") ("::ffff:" +:+ a +:+ ":" +:+ b)) with (a +:+ ":" +:+ b).
  change (a +:+ ":" +:+ b) with (a +:+ String ":" b). rewrite split_app, split_no_char by by apply Hc.
  rewrite H1, H2, H3, H4. cbn [andb]. by rewrite mapped_hex_text by by apply hex_group_range.
Qed.

Lemma private6_refused a : private6 a -> isPrivateIPv6Bare a = true.
Proof.
  unfold isPrivateIPv6Bare. destruct 1 as [|r|x h1 h2 r Hx H1 H2|v Hv Hp|g h H1 H2 H3 H4 Hp].
  - done.
  - change (toLowerCase ("fe80:" +:+ r)) with ("fe80:" +:+ toLowerCase r). by rewrite startsWith_app, orb_true_r.
  - assert (is_unique_local (String "f" (String x (String h1 (String h2 (String ":" r))))) = true) as ->; [|by rewrite orb_true_r].
    unfold is_unique_local. change (toLowerCase ?s) with (str_map lower_char s). cbn [str_map].
    assert (Hl : forall h, is_lower_hex h = true -> lower_char h = h).
    { intros h Hh. destruct h as [[] [] [] [] [] [] [] []]; vm_compute in Hh; done. }
    rewrite (Hl h1 H1), (Hl h2 H2), !elem_of_cons in *. destruct Hx as [->|[->|?%elem_of_nil]]; [..|done];
      cbn -[is_lower_hex]; by rewrite H1, H2.
  - rewrite normalize_mapped, ip_text_private, Hp by done. by rewrite orb_true_r.
  - rewrite normalize_mapped_hex by done. rewrite ip_text_private, Hp; [by rewrite orb_true_r|].
    pose proof (hex_group_range _ H1 H2). pose proof (hex_group_range _ H3 H4). lia.
Qed.

Lemma safe_family a f : address_safe a f = true -> f = 4 \/ f = 6.
Proof. unfold address_safe. destruct (f =? 4) eqn:E4, (f =? 6) eqn:E6; bool_solve; auto. done. Qed.

Lemma safe_not_reserved a f : address_safe a f = true -> ~ reserved a f.
Proof.
  intros Hs [(-> & v & Hv & -> & Hp)|[-> Hp]]; unfold address_safe in Hs; cbn [Z.eqb Pos.eqb] in Hs.
  - rewrite ip_text_private in Hs by done. by rewrite Hp in Hs.
  - by rewrite private6_refused in Hs.
Qed.

Lemma public_not_reserved x : record_public x -> ~ reserved (address x) (rec_family x).
Proof. intros [Hs|[H1 H2]]; [by apply safe_not_reserved|]. by intros [[? _]|[? _]]. Qed.

Lemma scan_step_ok acc r :
  (forall a f, acc.1 = Some (a, f) -> address_safe a f = true) ->
  (forall a f, (scan_step acc r).1 = Some (a, f) -> address_safe a f = true) /\
  ((scan_step acc r).2 = false -> acc.2 = false /\ record_public r).
Proof.
  destruct acc as [safe p]. intros Hacc. unfold scan_step, record_public, address_safe in *. cbn [fst snd] in *.
  destruct (rec_family r =? 4) eqn:E4; [|destruct (rec_family r =? 6) eqn:E6].
  - destruct (isPrivateIPv4 (address r)) eqn:E; cbn [fst snd negb]; [by split|].
    split; [|by auto]. destruct (found safe); [done|]. intros a f [= <- <-]. by rewrite E4, E.
  - destruct (isPrivateIPv6Bare _) eqn:E; cbn [fst snd negb]; [by split|].
    split; [|by auto]. destruct (found safe); [done|]. intros a f [= <- <-]. by rewrite E4, E6, E.
  - bool_solve. split; [done|]. cbn. auto.
Qed.

Lemma scan_from_ok records acc :
  (forall a f, acc.1 = Some (a, f) -> address_safe a f = true) ->
  (forall a f, (fold_left scan_step records acc).1 = Some (a, f) -> address_safe a f = true) /\
  ((fold_left scan_step records acc).2 = false -> acc.2 = false /\ Forall record_public records).
Proof.
  revert acc; induction records as [|r records IH]; intros acc Hacc; cbn [fold_left]; [auto|].
  destruct (scan_step_ok acc r Hacc) as [H1 H2]. destruct (IH _ H1) as [H3 H4]. split; [done|].
  intros Hf. destruct (H4 Hf) as [Hf' Hr]. destruct (H2 Hf') as [? ?]. auto.
Qed.

Lemma scan_ok records a f : scan records = (Some (a, f), false) ->
  address_safe a f = true /\ Forall record_public records.
Proof.
  intros Hs. unfold scan in Hs. destruct (scan_from_ok records (None, false)) as [H1 H2]; [done|].
  rewrite Hs in *. split; [by apply H1|by apply H2].
Qed.

Lemma scan_step_member acc r a f : (scan_step acc r).1 = Some (a, f) ->
  acc.1 = Some (a, f) \/ r = {| address := a; rec_family := f |}.
Proof.
  destruct acc as [safe p], r as [a' f']. unfold scan_step. cbn [address rec_family].
  repeat case_match; cbn [fst]; intros Hs; simplify_eq; auto.
Qed.

Lemma scan_member records acc a f : (fold_left scan_step records acc).1 = Some (a, f) ->
  acc.1 = Some (a, f) \/ {| address := a; rec_family := f |} ∈ records.
Proof.
  revert acc; induction records as [|r records IH]; intros acc; cbn [fold_left]; [by left|].
  intros [[Hs| ->]%scan_step_member|Hs]%IH; [by left|right; left|right; by right].
Qed.

Notation Lookup := (string -> result (list DnsRecord)).

(** One of the lookups answered [name] with this address, and with no private one. *)
Definition vouched (lookups : list Lookup) (name a : string) (f : Z) : Prop :=
  exists lookup records, lookup ∈ lookups /\ lookup name = Ok records /\ {| address := a; rec_family := f |} ∈ records /\
    address_safe a f = true /\ Forall record_public records.

Lemma scan_vouched lookups (lookup : Lookup) name records a f : lookup ∈ lookups -> lookup name = Ok records ->
  scan records = (Some (a, f), false) -> vouched lookups name a f.
Proof.
  intros Hl Hr Hs. destruct (scan_ok _ _ _ Hs) as [Ha Hp]. exists lookup, records. split_and!; try done.
  destruct (scan_member records (None, false) a f) as [?|?]; [|done|done]. unfold scan in Hs. by rewrite Hs.
Qed.

(** Every address in the cache was answered and checked. *)
Definition cache_safe (lookups : list Lookup) (cache : DnsCache) : Prop :=
  Forall (fun e => match isPrivate e.2, de_ip e.2 with
                   | false, Some a => vouched lookups e.1 a (default 0 (de_family e.2))
                   | _, _ => True end) cache.

Lemma cache_safe_put lookups name e cache :
  match isPrivate e, de_ip e with
  | false, Some a => vouched lookups name a (default 0 (de_family e)) | _, _ => True end ->
  cache_safe lookups cache -> cache_safe lookups (put name e cache).
Proof.
  intros He. unfold cache_safe. induction 1 as [|[k v] cache Hv Hc IH]; cbn; [by repeat constructor|].
  case_decide; [subst|]; by constructor.
Qed.

Section Safety.
Context `{UrlApi}.

(** A literal of the URL, or an address from the DNS. *)
Definition resolution_safe (lookups : list Lookup) (r : SafeResolution) : Prop :=
  address_safe (ip r) (family r) = true /\
  (if isLiteral r then family r = 4 /\ exists url u, new_URL url = Some u /\
     normalizeToIPv4 (strip_brackets (toLowerCase (hostname u))) = Some (ip r)
   else vouched lookups (sr_hostname r) (ip r) (family r)).

Lemma check_literal_safe lookups url name r : check_literal url = Ok (name, Some r) -> resolution_safe lookups r.
Proof.
  unfold check_literal. intros Hc. inv_ok. case_match; inv_ok; simplify_eq.
  unfold resolution_safe, address_safe. cbn. rewrite Hm4. eauto 10.
Qed.

Lemma vouched_resolution lookups name a f : vouched lookups name a f ->
  resolution_safe lookups {| ip := a; family := f; sr_hostname := name; isLiteral := false |}.
Proof. intros Hv. split; [|done]. by destruct Hv as (? & ? & _ & _ & _ & ? & _). Qed.

Lemma resolve_dns_safe lookups (lookup : Lookup) t1 name cache res cache' : lookup ∈ lookups ->
  resolve_dns t1 (lookup name) name cache = (res, cache') -> cache_safe lookups cache ->
  cache_safe lookups cache' /\ (forall r, res = Ok r -> resolution_safe lookups r).
Proof.
  unfold resolve_dns. intros Hl Hr Hc. destruct (lookup name) as [records|[]] eqn:Ea.
  - destruct (scan records) as [[[a f]|] []] eqn:Es;
      try (injection Hr as <- <-; split; [by apply cache_safe_put|done]).
    pose proof (scan_vouched _ _ _ _ _ _ Hl Ea Es) as Hv. case_bool_decide; injection Hr as <- <-.
    + split; [by apply cache_safe_put|done].
    + split; [by apply cache_safe_put|]. intros r [= <-]. by apply vouched_resolution.
  - injection Hr as <- <-. split; [by apply cache_safe_put|done].
  - injection Hr as <- <-. done.
  - injection Hr as <- <-. split; [by apply cache_safe_put|done].
Qed.

Lemma resolve_safe lookups t0 t1 lookup url cache res cache' : lookup ∈ lookups ->
  resolveAndCheckTarget t0 t1 lookup url cache = (res, cache') -> cache_safe lookups cache ->
  cache_safe lookups cache' /\ forall r, res = Ok r -> resolution_safe lookups r.
Proof.
  unfold resolveAndCheckTarget. intros Hl Hr Hc.
  destruct (check_literal url) as [[name [r|]]|e] eqn:El.
  - injection Hr as <- <-. split; [done|]. intros ? [= <-]. by eapply check_literal_safe.
  - pose proof (resolve_dns_safe lookups lookup t1 name cache res cache' Hl) as Hdns.
    destruct (assoc name cache) as [c|] eqn:Ec; [|by apply Hdns].
    destruct (t0 <? expiresAt c); [|by apply Hdns].
    apply assoc_elem in Ec. apply (proj1 (Forall_forall _ _) Hc) in Ec. cbn [fst snd] in Ec.
    destruct (isPrivate c), (de_ip c) as [a|]; try (injection Hr as <- <-; done).
    case_bool_decide; injection Hr as <- <-; [done|]. split; [done|]. intros ? [= <-]. by apply vouched_resolution.
  - injection Hr as <- <-. done.
Qed.

(** A history of calls on the shared cache; [q_lookup] is what DNS answers at
    the time of the call. *)
Record query := { q_t0 : Z; q_t1 : Z; q_lookup : string -> result (list DnsRecord); q_url : string }.

Fixpoint resolve_all (qs : list query) (cache : DnsCache) : list (result SafeResolution) * DnsCache :=
  match qs with
  | [] => ([], cache)
  | q :: qs =>
      let '(r, c1) := resolveAndCheckTarget (q_t0 q) (q_t1 q) (q_lookup q) (q_url q) cache in
      let '(rs, c2) := resolve_all qs c1 in (r :: rs, c2)
  end.

Lemma resolve_all_safe lookups qs cache : (forall q, q ∈ qs -> q_lookup q ∈ lookups) -> cache_safe lookups cache ->
  cache_safe lookups (resolve_all qs cache).2 /\ forall r, Ok r ∈ (resolve_all qs cache).1 -> resolution_safe lookups r.
Proof.
  revert cache; induction qs as [|q qs IH]; intros cache Hq Hc; cbn [resolve_all].
  - split; [done|]. by intros r ?%elem_of_nil.
  - destruct (resolveAndCheckTarget _ _ _ _ cache) as [o c1] eqn:E.
    apply (resolve_safe lookups) in E as [Hc1 Ho]; [|apply Hq; left|done].
    destruct (IH c1 (fun q' Hq' => Hq q' (list_elem_of_further _ _ _ Hq')) Hc1) as [Hc2 Hr].
    destruct (resolve_all qs c1) as [rs c2]. cbn in *. split; [done|]. intros r [<-|Hin]%elem_of_cons; auto.
Qed.

(** What one more call on the cache of a history gives. *)
Lemma resolve_after_history qs d0 d1 dns url r :
  (resolveAndCheckTarget d0 d1 dns url (resolve_all qs []).2).1 = Ok r -> resolution_safe (dns :: map q_lookup qs) r.
Proof.
  destruct (resolveAndCheckTarget _ _ _ _ _) as [o c2] eqn:E. cbn. intros ->.
  eapply resolve_safe in E as [_ E]; [by apply E|left|].
  eapply resolve_all_safe; [|constructor]. intros q Hq. right. by apply list_elem_of_fmap_2.
Qed.
End Safety.

(** ** Properties *)

(** C9: the guard never hands out a private IPv4 address: in any history of calls
    sharing the DNS cache, whatever the DNS server answers at each call (including
    rebinding between calls), a resolution that succeeds carries an IPv4 or IPv6
    address; the IPv4 address of a 32-bit word outside the ten private, reserved and
    documentation blocks; an IPv6 text that is not the loopback address, does not start
    with fe80: or a unique-local group, and is not a mapped form of a word in one of
    the blocks (other IPv6 texts of such addresses do pass, [ssrf_ipv6_gaps]).  It is
    the literal of a URL, or an address some lookup of the history answered for this
    name, together with no private one. *)
Theorem ssrf_history_safe `{UrlApi} (qs : list query) (r : SafeResolution) :
  Ok r ∈ (resolve_all qs []).1 ->
  (family r = 4 \/ family r = 6) /\ ~ reserved (ip r) (family r) /\
  if isLiteral r
  then family r = 4 /\ exists url u, new_URL url = Some u /\
    normalizeToIPv4 (strip_brackets (toLowerCase (hostname u))) = Some (ip r)
  else exists q records, q ∈ qs /\ q_lookup q (sr_hostname r) = Ok records /\
    {| address := ip r; rec_family := family r |} ∈ records /\
    Forall (fun x => ~ reserved (address x) (rec_family x)) records.
Proof.
  intros Hr. destruct (resolve_all_safe (map q_lookup qs) qs []) as [_ Hs]; [|constructor|].
  { intros q Hq. by apply list_elem_of_fmap_2. }
  destruct (Hs r Hr) as [Ha Hk]. split_and!; [by eapply safe_family|by apply safe_not_reserved|].
  destruct (isLiteral r); [done|]. destruct Hk as (lk & rs & (q & -> & Hq)%list_elem_of_fmap & Hl & Hin & _ & Hp).
  exists q, rs. split_and!; try done. eapply Forall_impl; [exact Hp|]. apply public_not_reserved.
Qed.

Definition demo_queries : list query :=
  [{| q_t0 := 0; q_t1 := 1; q_lookup := fun _ => Ok [{| address := "93.184.216.34"; rec_family := 4 |}];
      q_url := "https://example.com/" |};
   {| q_t0 := 50000; q_t1 := 50001; q_lookup := fun _ => Ok [{| address := "127.0.0.1"; rec_family := 4 |}];
      q_url := "https://example.com/" |}].
Definition demo_resolution : SafeResolution :=
  {| ip := "93.184.216.34"; family := 4; sr_hostname := "example.com"; isLiteral := false |}.

Lemma ssrf_history_safe_witness : ~ reserved "93.184.216.34" 4.
Proof.
  apply (@ssrf_history_safe ToyUrl.api demo_queries demo_resolution).
  vm_compute. left.
Defined.

(** A numeric IPv4 literal is judged by the 32-bit word it denotes: in any
    of the one- to four-part decimal, octal and hexadecimal notations, the
    normalised text is the dotted quad of that word, and it is private exactly
    when the word lies in one of the ten blocked CIDR ranges. *)
Theorem ssrf_ipv4_literal (raw : string) (v : Z) :
  let parts := split "." (toLowerCase (strip_brackets raw)) in
  forallb part_ok parts = true -> inet_aton (map part_value parts) = Some v ->
  normalizeToIPv4 raw = Some (ip_text v) /\ isPrivateIPv4 (ip_text v) = in_private_block v.
Proof.
  cbn zeta. intros Hp Hv. split.
  - rewrite normalize_numeric by done. by rewrite Hv.
  - apply ip_text_private. eapply inet_aton_range; [|exact Hv].
    apply Forall_map, Forall_true. intros; apply part_value_nonneg.
Qed.

Lemma ssrf_ipv4_literal_witness :
  normalizeToIPv4 "0x7F.1" = Some (ip_text 2130706433) /\
  isPrivateIPv4 (ip_text 2130706433) = in_private_block 2130706433.
Proof. apply (ssrf_ipv4_literal "0x7F.1" 2130706433); vm_compute; reflexivity. Defined.

(** Addresses that reach the host itself or its network are not
    classified as private: the unspecified address, link-local addresses beyond
    [fe80::/16], and IPv4-compatible and NAT64 forms of a loopback address. *)
Theorem ssrf_ipv6_gaps :
  map isPrivateIPv6Bare ["::"; "fe90::1"; "::7f00:1"; "64:ff9b::7f00:1"] = [false; false; false; false] /\
  is_ok (@resolveAndCheckTarget ToyUrl.api 0 1 (fun _ => Ok [{| address := "::"; rec_family := 6 |}])
           "https://rebind.example/" []).1 = true.
Proof. split; vm_compute; reflexivity. Qed.
