(* ===== verification/Profile.v ===== *)
(** * Proxy execution profiles (runtime/profile-v1.ts)

    Validation and canonicalisation of the profile a request carries, its
    enforcement on a target, its hash and the control headers it sets. *)

From S2P Require Import Prelude Text Json JsonText Coerce Crypto Url Dedupe.
Local Open Scope Z_scope.

Definition PROXY_PROFILE_PROTOCOL : string := "consensus.proxy-profile".
Definition PROXY_PROFILE_VERSION : Z := 1.

Record ProxyExecutionProfileV1 := {
  base_url : string; allowed_methods : list string; allowed_paths : list string;
  cache_ttl : num; verbose : bool; node_region : option string; node_domain : option string;
  node_exclude : option string; direct : bool }.

Definition PROFILE_KEYS : list string :=
  ["protocol"; "version"; "base_url"; "allowed_methods"; "allowed_paths"; "cache_ttl"; "verbose";
   "node_region"; "node_domain"; "node_exclude"; "direct"].
Definition METHOD_ORDER : list string := ["GET"; "HEAD"; "POST"; "PUT"; "PATCH"; "DELETE"; "OPTIONS"].
Definition MAX_PATHS : Z := 64.
Definition MAX_CACHE_TTL_SECONDS : Z := 3600.
Definition MAX_PREFERENCE_LENGTH : nat := 256.
Definition PROFILE_CONTROL_HEADERS : list string :=
  ["x-cache-ttl"; "x-verbose"; "x-node-region"; "x-node-domain"; "x-node-exclude"; "x-direct"].

(** The same recursion as [deepSort]. *)
Definition stableValue : json -> json := deepSort.

Definition optionalBoolean (value : option json) (field : string) : result (option bool) :=
  match value with
  | None => Ok None
  | Some (JBool b) => Ok (Some b)
  | Some _ => Throw (TypeError (field +:+ " must be a boolean"))
  end.

Definition optionalPreference (value : option json) (field : string) : result (option string) :=
  match value with
  | None => Ok None
  | Some (JStr s) =>
      let normalized := join "," (filter (fun p => p <> "") (map trim (split "," s))) in
      if bool_decide (normalized = "") || (MAX_PREFERENCE_LENGTH <? String.length normalized)%nat
      then Throw (TypeError (field +:+ " must contain 1-256 characters"))
      else Ok (Some normalized)
  | Some _ => Throw (TypeError (field +:+ " must be a string"))
  end.

(** [p.replace(/\/+$/, "")]. *)
Fixpoint all_slashes (s : string) : bool :=
  match s with EmptyString => true | String c r => bool_decide (c = "/"%char) && all_slashes r end.
Fixpoint strip_slashes (s : string) : string :=
  if all_slashes s then "" else match s with EmptyString => "" | String c r => String c (strip_slashes r) end.

(** [p.replace(/\/$/, "")]. *)
Fixpoint strip_slash (s : string) : string :=
  match s with
  | String "/" EmptyString => EmptyString
  | String c r => String c (strip_slash r)
  | EmptyString => EmptyString
  end.

(** [[...new Set(l)]]: first occurrences, in order. *)
Fixpoint dedup (seen : list string) (l : list string) : list string :=
  match l with
  | [] => []
  | x :: l => if bool_decide (x ∈ seen) then dedup seen l else x :: dedup (x :: seen) l
  end.

Fixpoint mapM_result {A B} (f : A -> result B) (l : list A) : result (list B) :=
  match l with [] => Ok [] | x :: l => y ← f x; ys ← mapM_result f l; Ok (y :: ys) end.

Section Profile.
Context `{UrlApi}.

Definition normalizePath (field : string) (value : json) : result string :=
  match value with
  | JStr s =>
      throw_if (negb (startsWith s "/") || startsWith s "//" || has_char "\" s)
        (TypeError (field +:+ " must be an origin-relative path beginning with /"));;
      parsed ← of_option (new_URL_at s "http://profile.local") InvalidUrl;
      throw_if (negb (bool_decide (origin parsed = "http://profile.local")) ||
                negb (bool_decide (search parsed = "")) || negb (bool_decide (hash parsed = "")))
        (TypeError (field +:+ " must not contain an origin, query, or fragment"));;
      Ok (pathname parsed)
  | _ => Throw (TypeError (field +:+ " must be an origin-relative path beginning with /"))
  end.

Definition normalizeBase (value : option json) : result string :=
  base ← of_option (new_URL (match value with None | Some JNull => "" | Some v => js_string v end))
           (TypeError "proxy profile base_url is invalid");
  throw_if (negb (bool_decide (protocol base ∈ ["http:"; "https:"])) ||
            negb (bool_decide (username base = "")) || negb (bool_decide (password base = "")) ||
            negb (bool_decide (search base = "")) || negb (bool_decide (hash base = "")))
    (TypeError "proxy profile base_url must be an http(s) URL without credentials, query, or fragment");;
  Ok (href (set_pathname (if bool_decide (pathname base = "/") then "/" else strip_slashes (pathname base)) base)).

Definition normalizeMethods (value : option json) : result (list string) :=
  match value with
  | Some (JArr (m :: ms)) =>
      let methodSet := map (fun m => toUpperCase (js_string m)) (m :: ms) in
      throw_if (existsb (fun m => negb (bool_decide (m ∈ METHOD_ORDER))) methodSet)
        (TypeError "proxy profile contains an unsupported HTTP method");;
      Ok (filter (fun m => m ∈ methodSet) METHOD_ORDER)
  | _ => Throw (TypeError "proxy profile allowed_methods must be a non-empty array")
  end.

Definition normalizePaths (value : option json) : result (list string) :=
  let bad := TypeError "proxy profile allowed_paths must contain 1-64 entries" in
  match value with
  | Some (JArr l) =>
      throw_if (bool_decide (l = []) || (MAX_PATHS <? Z.of_nat (length l))) bad;;
      ps ← mapM_result (normalizePath "proxy profile allowed_paths entry") l;
      Ok (sort_by str_ltb (dedup [] ps))
  | _ => Throw bad
  end.

Definition normalizeTtl (value : option json) : result num :=
  match value with
  | None => Ok (num_of_Z 300)
  | Some v =>
      let cacheTtl := js_number v in
      throw_if (negb (isInteger cacheTtl) || num_ltb cacheTtl (num_of_Z 1) ||
                num_ltb (num_of_Z MAX_CACHE_TTL_SECONDS) cacheTtl)
        (TypeError "proxy profile cache_ttl must be an integer from 1-3600");;
      Ok cacheTtl
  end.

Definition known_version (v : option json) : bool :=
  match v with Some (JNum n) => num_eqb n (num_of_Z PROXY_PROFILE_VERSION) | _ => false end.

Definition normalizeProxyProfileV1 (input : option json) : result ProxyExecutionProfileV1 :=
  match input with
  | Some (JObj value) =>
      let g k := assoc k value in
      match find (fun k => negb (bool_decide (k ∈ PROFILE_KEYS))) (map fst value) with
      | Some key => Throw (TypeError ("unsupported proxy profile field: " +:+ key))
      | None =>
          throw_if (negb (bool_decide (g "protocol" = Some (JStr PROXY_PROFILE_PROTOCOL))) ||
                    negb (known_version (g "version")))
            (TypeError ("unsupported proxy profile protocol/version; expected " +:+ PROXY_PROFILE_PROTOCOL +:+ "@1"));;
          base ← normalizeBase (g "base_url");
          methods ← normalizeMethods (g "allowed_methods");
          paths ← normalizePaths (g "allowed_paths");
          ttl ← normalizeTtl (g "cache_ttl");
          verb ← optionalBoolean (g "verbose") "proxy profile verbose";
          region ← optionalPreference (g "node_region") "proxy profile node_region";
          domain ← optionalPreference (g "node_domain") "proxy profile node_domain";
          exclude ← optionalPreference (g "node_exclude") "proxy profile node_exclude";
          dir ← optionalBoolean (g "direct") "proxy profile direct";
          Ok {| base_url := base; allowed_methods := methods; allowed_paths := paths; cache_ttl := ttl;
                verbose := default false verb; node_region := region; node_domain := domain;
                node_exclude := exclude; direct := default true dir |}
      end
  | _ => Throw (TypeError "proxy profile must be an object")
  end.

(** Whether [path] lies below [prefix] at a segment boundary. *)
Definition path_allowed (relativePath prefix : string) : bool :=
  bool_decide (prefix = "/") || bool_decide (relativePath = prefix) ||
  startsWith relativePath (prefix +:+ "/").

Definition base_path (base : URL) : string :=
  if bool_decide (pathname base = "/") then "" else strip_slash (pathname base).

(** [target.pathname.slice(basePath.length) || "/"]. *)
Definition relative_path (basePath : string) (target : URL) : string :=
  let r := slice_from (String.length basePath) (pathname target) in
  if bool_decide (r = "") then "/" else r.

Definition assertProxyProfileRequestV1 (input : option json) (targetUrl m : string)
  : result ProxyExecutionProfileV1 :=
  profile ← normalizeProxyProfileV1 input;
  target ← of_option (new_URL targetUrl) (TypeError "proxy profile target_url is invalid");
  base ← of_option (new_URL (base_url profile)) InvalidUrl;
  throw_if (negb (bool_decide (protocol target = "http:")) && negb (bool_decide (protocol target = "https:")))
    (TypeError "proxy profile target must use http(s)");;
  throw_if (negb (bool_decide (username target = "")) || negb (bool_decide (password target = "")) ||
            negb (bool_decide (hash target = "")))
    (TypeError "proxy profile target cannot contain credentials or a fragment");;
  throw_if (negb (bool_decide (origin target = origin base)))
    (TypeError "proxy profile target is outside its configured origin");;
  let basePath := base_path base in
  throw_if (negb (bool_decide (basePath = "")) && negb (bool_decide (pathname target = basePath)) &&
            negb (startsWith (pathname target) (basePath +:+ "/")))
    (TypeError "proxy profile target is outside its configured base path");;
  throw_if (negb (existsb (path_allowed (relative_path basePath target)) (allowed_paths profile)))
    (TypeError "proxy profile target path is not allowed");;
  throw_if (negb (bool_decide (toUpperCase m ∈ allowed_methods profile)))
    (TypeError ("method " +:+ toUpperCase m +:+ " is not allowed by the proxy profile"));;
  Ok profile.
End Profile.

Definition profile_json (p : ProxyExecutionProfileV1) : json :=
  obj [("protocol", Some (JStr PROXY_PROFILE_PROTOCOL));
       ("version", Some (JNum (num_of_Z PROXY_PROFILE_VERSION)));
       ("base_url", Some (JStr (base_url p)));
       ("allowed_methods", Some (JArr (map JStr (allowed_methods p))));
       ("allowed_paths", Some (JArr (map JStr (allowed_paths p))));
       ("cache_ttl", Some (JNum (cache_ttl p)));
       ("verbose", Some (JBool (verbose p)));
       ("node_region", JStr <$> node_region p);
       ("node_domain", JStr <$> node_domain p);
       ("node_exclude", JStr <$> node_exclude p);
       ("direct", Some (JBool (direct p)))].

Definition hashNormalizedProfile `{Hashing} (p : ProxyExecutionProfileV1) : string :=
  hex_text (sha256 (utf8 (stringify (stableValue (profile_json p))))).

Definition hashProxyProfileV1 `{Hashing} `{UrlApi} (input : option json) : result string :=
  hashNormalizedProfile <$> normalizeProxyProfileV1 input.

Definition opt_header (k : string) (v : option string) : Headers :=
  match v with Some v => [(k, v)] | None => [] end.

Definition controlHeadersForNormalizedProfile (p : ProxyExecutionProfileV1) : Headers :=
  [("x-cache-ttl", num_to_string (cache_ttl p))] ++
  (if verbose p then [("x-verbose", "true")] else []) ++
  opt_header "x-node-region" (node_region p) ++
  opt_header "x-node-domain" (node_domain p) ++
  opt_header "x-node-exclude" (node_exclude p) ++
  (if direct p then [("x-direct", "true")] else []).

Definition proxyProfileControlHeadersV1 `{UrlApi} (input : option json) : result Headers :=
  controlHeadersForNormalizedProfile <$> normalizeProxyProfileV1 input.

Record PreparedProxyProfileV1 := {
  pp_profile : ProxyExecutionProfileV1; pp_profile_hash : string; pp_headers : Headers }.

(** [{ ...a, ...b }]. *)
Definition spread (a b : Headers) : Headers := set_all b a.

Definition is_control (kv : string * string) : bool := bool_decide (toLowerCase kv.1 ∈ PROFILE_CONTROL_HEADERS).

Definition prepareProxyProfileRequestV1 `{Hashing} `{UrlApi} (input : option json) (targetUrl m : string)
  (headers : Headers) : result PreparedProxyProfileV1 :=
  profile ← assertProxyProfileRequestV1 input targetUrl m;
  let requestHeaders := fromEntries (filter (fun kv => is_control kv = false) headers) in
  Ok {| pp_profile := profile;
        pp_profile_hash := hashNormalizedProfile profile;
        pp_headers := spread requestHeaders (controlHeadersForNormalizedProfile profile) |}.

Lemma prepare_profile_inv `{Hashing} `{UrlApi} input targetUrl m hs r :
  prepareProxyProfileRequestV1 input targetUrl m hs = Ok r ->
  normalizeProxyProfileV1 input = Ok (pp_profile r) /\ pp_profile_hash r = hashNormalizedProfile (pp_profile r) /\
  pp_headers r = spread (fromEntries (filter (fun kv => is_control kv = false) hs)) (controlHeadersForNormalizedProfile (pp_profile r)).
Proof. unfold prepareProxyProfileRequestV1, assertProxyProfileRequestV1. intros Hr. inv_ok. by subst. Qed.

(** ** Enforcement *)

(** What it means for a request to lie inside a profile. *)
Record profile_allows (p : ProxyExecutionProfileV1) (origin_of : URL -> string) (target base : URL) (m : string) : Prop := {
  pa_scheme : protocol target = "http:" \/ protocol target = "https:";
  pa_anonymous : username target = "" /\ password target = "" /\ hash target = "";
  pa_origin : origin_of target = origin_of base;
  pa_base : base_path base = "" \/ pathname target = base_path base \/
            exists r, pathname target = (base_path base +:+ "/") +:+ r;
  pa_path : exists prefix, prefix ∈ allowed_paths p /\
      (prefix = "/" \/ relative_path (base_path base) target = prefix \/
       exists r, relative_path (base_path base) target = (prefix +:+ "/") +:+ r);
  pa_method : toUpperCase m ∈ allowed_methods p }.

Lemma path_allowed_spec r prefix : path_allowed r prefix = true <->
  prefix = "/" \/ r = prefix \/ exists t, r = (prefix +:+ "/") +:+ t.
Proof.
  unfold path_allowed. rewrite !orb_true_iff, !bool_decide_eq_true, startsWith_spec. tauto.
Qed.

Lemma existsb_elem {A} (f : A -> bool) l : existsb f l = true <-> exists x, x ∈ l /\ f x = true.
Proof. rewrite existsb_exists. by setoid_rewrite list_elem_of_In. Qed.

Lemma throw_if_bind {A} b e (k : unit -> result A) r :
  (throw_if b e ≫= k) = Ok r <-> b = false /\ k tt = Ok r.
Proof. destruct b; cbn; naive_solver. Qed.

Section Enforcement.
Context `{UrlApi}.

Lemma assert_spec input targetUrl m p :
  assertProxyProfileRequestV1 input targetUrl m = Ok p <->
  normalizeProxyProfileV1 input = Ok p /\
  exists target base, new_URL targetUrl = Some target /\ new_URL (base_url p) = Some base /\
    profile_allows p origin target base m.
Proof.
  unfold assertProxyProfileRequestV1. split.
  - intros Ha. inv_ok. split; [done|]. eexists _, _. split; [done|]. split; [done|].
    bool_solve. rewrite existsb_elem in *. setoid_rewrite path_allowed_spec in Hm6.
    split; try done.
    + destruct (decide (protocol r0 = "http:")); [by left|]. right.
      apply andb_false_iff in Hm2 as [E|E]; bool_solve; done.
    + destruct (decide (base_path r1 = "")); [by left|]. right.
      rewrite bool_decide_false in Hm5 by done. cbn [negb andb] in Hm5.
      apply andb_false_iff in Hm5 as [E|E]; bool_solve; [by left|right]. by apply startsWith_spec.
  - intros (Hn & target & base & Ht & Hb & [Hs [Hu [Hpw Hh]] Ho Hbp Hp Hm]).
    rewrite Hn. cbn [mbind result_bind]. rewrite Ht. cbn [of_option mbind result_bind]. rewrite Hb.
    cbn [of_option mbind result_bind]. rewrite Hu, Hpw, Hh, Ho.
    repeat (rewrite throw_if_bind; split).
    + destruct Hs as [-> | ->]; done.
    + done.
    + by rewrite bool_decide_true.
    + destruct Hbp as [-> | [-> | Hr]].
      * done.
      * by rewrite (bool_decide_true (base_path base = base_path base)), andb_false_r.
      * apply startsWith_spec in Hr. rewrite Hr. by rewrite andb_false_r.
    + apply negb_false_iff, existsb_elem. by setoid_rewrite path_allowed_spec.
    + by rewrite bool_decide_true.
    + done.
Qed.
End Enforcement.

(** ** Canonical profiles *)

Record profile_wf (p : ProxyExecutionProfileV1) : Prop := {
  pw_methods : allowed_methods p <> [] /\ exists P : string -> bool, allowed_methods p = filter P METHOD_ORDER;
  pw_paths : 1 <= Z.of_nat (length (allowed_paths p)) <= MAX_PATHS /\ NoDup (allowed_paths p) /\
             StronglySorted (le_of str_ltb) (allowed_paths p);
  pw_ttl : isInteger (cache_ttl p) = true /\ num_ltb (cache_ttl p) (num_of_Z 1) = false /\
           num_ltb (num_of_Z MAX_CACHE_TTL_SECONDS) (cache_ttl p) = false;
  pw_prefs : Forall (fun o => forall s, o = Some s -> s <> "" /\ (String.length s <= MAX_PREFERENCE_LENGTH)%nat)
               [node_region p; node_domain p; node_exclude p] }.

Lemma mapM_result_length {A B} (f : A -> result B) l ys : mapM_result f l = Ok ys -> length ys = length l.
Proof.
  revert ys; induction l as [|x l IH]; intros ys H; cbn in H; inv_ok; [done|]. cbn. f_equal. by apply IH.
Qed.

Lemma dedup_spec seen l : NoDup (dedup seen l) /\ (forall x, x ∈ dedup seen l -> x ∉ seen) /\
  (length (dedup seen l) <= length l)%nat.
Proof.
  revert seen; induction l as [|x l IH]; intros seen; cbn [dedup].
  - split; [constructor|]. split; [by intros ? ?%elem_of_nil|done].
  - case_bool_decide as Hx.
    + destruct (IH seen) as (? & ? & ?). cbn. auto.
    + destruct (IH (x :: seen)) as (Hd & Hs & Hl). split_and!.
      * constructor; [|done]. intros Hin. by apply (Hs x Hin); left.
      * intros y [->|Hy]%elem_of_cons; [done|]. intros Hy'. by apply (Hs y Hy); right.
      * cbn. lia.
Qed.

Lemma dedup_nonempty x l : dedup [] (x :: l) <> [].
Proof. cbn [dedup]. by rewrite bool_decide_false by (by intros ?%elem_of_nil). Qed.

Lemma optionalPreference_ok v f o : optionalPreference v f = Ok o ->
  forall s, o = Some s -> s <> "" /\ (String.length s <= MAX_PREFERENCE_LENGTH)%nat.
Proof.
  unfold optionalPreference. destruct v as [[]|]; intros Ho; inv_ok; try done.
  cbn zeta in Ho. destruct (_ || _) eqn:E; inv_ok. intros t [= <-]. bool_solve. split; [done|]. by apply Nat.ltb_ge.
Qed.

Section Canonical.
Context `{UrlApi}.

Lemma normalizeMethods_ok v ms : normalizeMethods v = Ok ms ->
  ms <> [] /\ exists P : string -> bool, ms = filter P METHOD_ORDER.
Proof.
  unfold normalizeMethods. destruct v as [[| | | |[|m l]|]|]; intros Hv; inv_ok.
  set (S := map _ (m :: l)) in *. split.
  - assert (Hin : toUpperCase (js_string m) ∈ filter (fun x => x ∈ S) METHOD_ORDER).
    { apply list_elem_of_filter. split; [unfold S; left|].
      unfold S in Hm. cbn [map existsb] in Hm. bool_solve. done. }
    intros E. rewrite E in Hin. by apply elem_of_nil in Hin.
  - exists (fun x => bool_decide (x ∈ S)). apply list_filter_iff. intros x. by rewrite bool_decide_spec.
Qed.

Lemma normalizePaths_ok v ps : normalizePaths v = Ok ps ->
  1 <= Z.of_nat (length ps) <= MAX_PATHS /\ NoDup ps /\ StronglySorted (le_of str_ltb) ps.
Proof.
  unfold normalizePaths. destruct v as [[| | | |l|]|]; intros Hv; inv_ok. rename r0 into r. bool_solve.
  destruct (dedup_spec [] r) as (Hd & _ & Hl). apply mapM_result_length in Hm0.
  assert (Hlen : length (sort_by str_ltb (dedup [] r)) = length (dedup [] r)) by (by rewrite sort_by_perm).
  split_and!.
  - rewrite Hlen. destruct r as [|x r]; [by destruct l|].
    pose proof (dedup_nonempty x r). destruct (dedup [] (x :: r)); [done|]. cbn. lia.
  - rewrite Hlen. lia.
  - by apply sort_by_NoDup.
  - apply sort_by_sorted; [apply str_le_trans|apply str_ltb_antisym].
Qed.

Lemma normalizeTtl_ok v t : normalizeTtl v = Ok t ->
  isInteger t = true /\ num_ltb t (num_of_Z 1) = false /\ num_ltb (num_of_Z MAX_CACHE_TTL_SECONDS) t = false.
Proof.
  unfold normalizeTtl. destruct v as [v|]; intros Hv; inv_ok; [|done]. by bool_solve.
Qed.

Lemma normalize_wf input p : normalizeProxyProfileV1 input = Ok p -> profile_wf p.
Proof.
  unfold normalizeProxyProfileV1. destruct input as [[| | | | |value]|]; try done.
  case_match; [done|]. intros Hn. inv_ok.
  split; cbn [allowed_methods allowed_paths cache_ttl node_region node_domain node_exclude].
  - by eapply normalizeMethods_ok.
  - by eapply normalizePaths_ok.
  - by eapply normalizeTtl_ok.
  - repeat apply Forall_cons_2; [by eapply optionalPreference_ok..|apply Forall_nil_2].
Qed.
End Canonical.

(** ** Control headers *)

Lemma control_headers_NoDup p : NoDup (controlHeadersForNormalizedProfile p).*1.
Proof.
  unfold controlHeadersForNormalizedProfile, opt_header.
  destruct (verbose p), (node_region p), (node_domain p), (node_exclude p), (direct p);
    apply (bool_decide_unpack _); vm_compute; exact I.
Qed.

Lemma control_headers_known p k v : (k, v) ∈ controlHeadersForNormalizedProfile p ->
  k ∈ PROFILE_CONTROL_HEADERS.
Proof.
  unfold controlHeadersForNormalizedProfile, opt_header, PROFILE_CONTROL_HEADERS.
  destruct (verbose p), (node_region p), (node_domain p), (node_exclude p), (direct p); set_solver.
Qed.

Lemma control_lower k : k ∈ PROFILE_CONTROL_HEADERS -> toLowerCase k = k.
Proof.
  unfold PROFILE_CONTROL_HEADERS. rewrite !elem_of_cons.
  intros [->|[->|[->|[->|[->|[->|?%elem_of_nil]]]]]]; done.
Qed.

(** ** Properties *)

(** Enforcement: a request is let through exactly when the profile is valid
    and the target lies inside it: http(s), no credentials or fragment, the
    profile's own origin, at or below its base path and an allowed path at a
    segment boundary, with an allowed method. *)
Theorem profile_enforced `{UrlApi} (input : option json) (targetUrl m : string) (p : ProxyExecutionProfileV1) :
  assertProxyProfileRequestV1 input targetUrl m = Ok p <->
  normalizeProxyProfileV1 input = Ok p /\
  exists target base, new_URL targetUrl = Some target /\ new_URL (base_url p) = Some base /\
    profile_allows p origin target base m.
Proof. apply assert_spec. Qed.

(** C35: a normalised profile is canonical: its methods are a non-empty part of
    the fixed method order, its 1 to 64 paths are distinct and sorted, its cache
    lifetime is an integer from 1 to 3600 and its preferences are 1 to 256
    characters long. *)
Theorem normalized_profile_wf `{UrlApi} (input : option json) (p : ProxyExecutionProfileV1) :
  normalizeProxyProfileV1 input = Ok p -> profile_wf p.
Proof. apply normalize_wf. Qed.

Definition demo_profile : option json :=
  Some (JObj [("protocol", JStr PROXY_PROFILE_PROTOCOL); ("version", JNum (num_of_Z 1));
              ("base_url", JStr "https://api.io/v1"); ("allowed_methods", JArr [JStr "post"; JStr "get"]);
              ("allowed_paths", JArr [JStr "/b"; JStr "/a"; JStr "/b"]); ("node_region", JStr " eu , us ")]).

Definition demo_normalized : ProxyExecutionProfileV1 :=
  {| base_url := "https://api.io/v1"; allowed_methods := ["GET"; "POST"]; allowed_paths := ["/a"; "/b"];
     cache_ttl := num_of_Z 300; verbose := false; node_region := Some "eu,us"; node_domain := None;
     node_exclude := None; direct := true |}.

Lemma normalized_profile_wf_witness : profile_wf demo_normalized.
Proof. apply (@normalized_profile_wf ToyUrl.api demo_profile demo_normalized). vm_compute. reflexivity. Defined.

(** Control headers cannot be smuggled: in the headers of a prepared
    request, every control header, in whatever case the client wrote it, has
    exactly the value the profile sets, and every other header keeps the value
    the client gave it. *)
Theorem profile_controls_headers `{Hashing} `{UrlApi} (input : option json) (targetUrl m : string)
    (hs : Headers) (r : PreparedProxyProfileV1) (k : string) :
  prepareProxyProfileRequestV1 input targetUrl m hs = Ok r ->
  assoc k (pp_headers r) =
  if bool_decide (toLowerCase k ∈ PROFILE_CONTROL_HEADERS)
  then assoc k (controlHeadersForNormalizedProfile (pp_profile r))
  else assoc k (fromEntries hs).
Proof.
  unfold prepareProxyProfileRequestV1. intros Hr. inv_ok. cbn [pp_headers pp_profile]. unfold spread.
  rewrite assoc_set_all by apply control_headers_NoDup.
  set (f := fromEntries (filter _ hs)). case_bool_decide as Hk.
  - destruct (assoc k (controlHeadersForNormalizedProfile r0)) as [v|]; [done|].
    destruct (assoc k f) as [v|] eqn:E; [|done]. exfalso. unfold f in E.
    change (fromEntries ?l) with (set_all l []) in E. apply assoc_set_all_elem in E as [E|E]; [|done].
    apply list_elem_of_filter in E as [E _]. unfold is_control in E. cbn [fst] in E.
    by rewrite bool_decide_true in E.
  - destruct (assoc k (controlHeadersForNormalizedProfile r0)) as [v|] eqn:E.
    + exfalso. apply assoc_elem, control_headers_known in E. apply Hk. by rewrite control_lower.
    + apply (assoc_set_all_filter (fun kv => is_control kv = false)); [|done].
      intros v. unfold is_control. cbn [fst]. by rewrite bool_decide_false.
Qed.

Lemma profile_controls_headers_witness :
  assoc "X-Direct" (match @prepareProxyProfileRequestV1 Toy.hashing ToyUrl.api demo_profile "https://api.io/v1/a/x" "get"
                            [("X-Direct", "evil"); ("accept", "*/*")] with Ok r => pp_headers r | Throw _ => [("X-Direct", "?")] end) = None.
Proof.
  set (o := prepareProxyProfileRequestV1 _ _ _ _).
  assert (E : exists r, o = Ok r) by (eexists; vm_compute; reflexivity).
  destruct E as [r E]. rewrite E.
  rewrite (@profile_controls_headers Toy.hashing ToyUrl.api demo_profile "https://api.io/v1/a/x" "get"
             [("X-Direct", "evil"); ("accept", "*/*")] r "X-Direct" E).
  assert (Hp : pp_profile r = demo_normalized).
  { unfold o in E. cbn [bool_decide] in E. revert E. vm_compute. intros [= <-]. reflexivity. }
  rewrite Hp. vm_compute. reflexivity.
Defined.
