(* ===== verification/ProxyServe.v ===== *)
(** * Serving a proxy request (runtime/proxy-serve.ts)

    The SSRF-gated fetch with its node-local cache.  [fetch] and the rules of the
    Headers object are services of the runtime; the calls made to [fetch] are
    recorded, in order, in the result. *)

From S2P Require Import Prelude Text Json JsonText Coerce Crypto Url Dedupe Profile Ssrf.
Local Open Scope Z_scope.

Record ProxyServeRequest := {
  rq_target_url : string; rq_method : option string; rq_headers : option Headers;
  rq_body : RequestBody; rq_profile : option json }.

Record ProxyResult := {
  status : Z; statusText : string; res_headers : Headers; res_body : buffer;
  cached : option bool; res_profile_hash : option string }.

(** [BunFetchInit]; [redirect] is always "manual". *)
Record FetchInit := {
  fi_method : string; fi_headers : Headers; fi_body : RequestBody; fi_redirect : string;
  fi_timeout : Z; fi_serverName : option string }.

Record Response := {
  rs_status : Z; rs_statusText : string; rs_headers : Headers; rs_body : result buffer }.

(** The Headers object: the rule for a legal name and value, and the value kept. *)
Class HeadersApi := {
  legal_header : string -> string -> bool;
  header_value : string -> string }.

Definition DEFAULT_TIMEOUT_MS : Z := 30000.
Definition MAX_PROFILE_CACHE_ENTRIES : Z := 1000.

Record CacheEntry := { ce_value : ProxyResult; ce_expiresAt : num }.
Notation ProfileCache := (list (string * CacheEntry)).

Definition clearProxyProfileCache (c : ProfileCache) : ProfileCache := [].

Definition mark_cached (b : bool) (v : ProxyResult) : ProxyResult :=
  {| status := status v; statusText := statusText v; res_headers := res_headers v; res_body := res_body v;
     cached := Some b; res_profile_hash := res_profile_hash v |}.

Definition cachedProfileResult (now : Z) (key : string) (c : ProfileCache) : option ProxyResult * ProfileCache :=
  match assoc key c with
  | None => (None, c)
  | Some entry =>
      if num_leb (ce_expiresAt entry) (num_of_Z now) then (None, remove key c)
      else (Some (mark_cached true (ce_value entry)), c)
  end.

(** [n * k] for an integer [k]. *)
Definition num_scale (n : num) (k : Z) : num :=
  match n with Fin m e => Fin (m * k) e | _ => n end.

Definition storeProfileResult (now : Z) (key : string) (value : ProxyResult) (ttlSeconds : num) (c : ProfileCache)
  : ProfileCache :=
  let c := if MAX_PROFILE_CACHE_ENTRIES <=? Z.of_nat (length c) then
             match c with
             | (oldest, _) :: _ => if bool_decide (oldest = "") then c else remove oldest c
             | [] => c
             end
           else c in
  put key {| ce_value := mark_cached false value;
             ce_expiresAt := num_add (num_of_Z now) (num_scale ttlSeconds 1000) |} c.

(** ** Header forwarding *)

Definition HOP_BY_HOP : list string :=
  ["host"; "connection"; "keep-alive"; "proxy-connection"; "transfer-encoding"; "te"; "trailer"; "upgrade"].

Definition connection_tokens (value : string) : list string :=
  filter (fun name => name <> "") (map (fun t => toLowerCase (trim t)) (split "," value)).

Definition buildHopByHopDenySet (headers : Headers) : list string :=
  HOP_BY_HOP ++
  concat (map (fun kv => if bool_decide (toLowerCase kv.1 = "connection") then connection_tokens kv.2 else []) headers).

Definition CONSENSUS_CONTROL_HEADERS : list string :=
  ["host"; "content-length"; "transfer-encoding"; "connection"; "x-idempotency-key"; "idempotency-key";
   "x-payment"; "x-verbose"; "x-api-key"; "x-cache-ttl"; "x-direct"; "x-node-region"; "x-node-domain";
   "x-node-exclude"; "x-forwarded-for"; "x-real-ip"; "forwarded"].

Definition CACHEABLE_METHODS : list string := ["GET"; "HEAD"].

Definition stripped (headers : Headers) (lower : string) : bool :=
  bool_decide (lower ∈ buildHopByHopDenySet headers) || bool_decide (lower ∈ CONSENSUS_CONTROL_HEADERS).

Definition forwardedHeaderEntries (effectiveHeaders : Headers) : Headers :=
  sort_by (by_key fst)
    (map (fun kv => (toLowerCase kv.1, kv.2))
       (filter (fun kv => stripped effectiveHeaders (toLowerCase kv.1) = false) effectiveHeaders)).

Definition pairs_json (l : Headers) : json := JArr (map (fun kv => JArr [JStr kv.1; JStr kv.2]) l).

Definition newline : string := String "010" "".

Definition profileCacheKey `{Hashing} (dedupeKey : string) (forwarded : Headers) : string :=
  sha256Hex (utf8 (dedupeKey +:+ newline +:+ stableStringify (pairs_json forwarded))).

(** [headers.set(key, value)]. *)
Definition headers_set `{HeadersApi} (k v : string) (h : Headers) : result Headers :=
  throw_if (negb (legal_header k v)) (TypeError "Invalid header");;
  Ok (put (toLowerCase k) (header_value v) h).

Fixpoint headers_set_all `{HeadersApi} (l h : Headers) : result Headers :=
  match l with [] => Ok h | (k, v) :: l => h ← headers_set k v h; headers_set_all l h end.

(** ** The request *)

(** What happens in one call: the outcome, the cache it leaves and the calls to
    [fetch]. *)
Record Served := {
  sv_result : result ProxyResult; sv_cache : ProfileCache; sv_fetched : list (string * FetchInit) }.

Section Serve.
Context `{Hashing} `{UrlApi} `{HeadersApi}.

(** The request as it will be sent upstream. *)
Record Prepared := {
  pr_method : string; pr_profile : option ProxyExecutionProfileV1; pr_profileHash : option string;
  pr_effectiveHeaders : Headers; pr_forwarded : Headers; pr_cacheKey : option string }.

Definition prepare (request : ProxyServeRequest) : result Prepared :=
  let m := toUpperCase (default "GET" (rq_method request)) in
  prepared ← (if truthy (rq_profile request)
              then Some <$> prepareProxyProfileRequestV1 (rq_profile request) (rq_target_url request) m
                              (default [] (rq_headers request))
              else Ok None);
  let effectiveHeaders := match prepared with Some p => pp_headers p | None => default [] (rq_headers request) end in
  let forwarded := forwardedHeaderEntries effectiveHeaders in
  let ttl := match prepared with Some p => truthy (Some (JNum (cache_ttl (pp_profile p)))) | None => false end in
  cacheKey ← (if ttl && bool_decide (m ∈ CACHEABLE_METHODS) then
                dedupeKey ← generateDedupeKey
                  {| target_url := rq_target_url request; method := m; headers := effectiveHeaders;
                     body := rq_body request; profile_hash := pp_profile_hash <$> prepared |};
                Ok (Some (profileCacheKey dedupeKey forwarded))
              else Ok None);
  Ok {| pr_method := m; pr_profile := pp_profile <$> prepared; pr_profileHash := pp_profile_hash <$> prepared;
        pr_effectiveHeaders := effectiveHeaders; pr_forwarded := forwarded; pr_cacheKey := cacheKey |}.

(** The outgoing request, pinned to the resolved address. *)
Definition outgoing (timeoutMs : option Z) (request : ProxyServeRequest) (p : Prepared) (resolution : SafeResolution)
  : result (string * FetchInit) :=
  url ← of_option (new_URL (rq_target_url request)) InvalidUrl;
  let originalHost := host url in
  let serverName := hostname url in
  let isHttps := bool_decide (protocol url = "https:") in
  let url := set_hostname (if family resolution =? 6 then "[" +:+ ip resolution +:+ "]" else ip resolution) url in
  h ← headers_set_all (pr_forwarded p) [];
  h ← headers_set "host" originalHost h;
  h ← (match assoc "user-agent" h with
       | Some _ => Ok h
       | None => headers_set "user-agent" "Consensus-Node/0.1" h
       end);
  Ok (href url,
      {| fi_method := pr_method p; fi_headers := h;
         fi_body := if bool_decide (pr_method p = "GET") || bool_decide (pr_method p = "HEAD") then NoBody
                    else rq_body request;
         fi_redirect := "manual"; fi_timeout := default DEFAULT_TIMEOUT_MS timeoutMs;
         fi_serverName := if isHttps then Some serverName else None |}).

Definition to_result (p : Prepared) (response : Response) : result ProxyResult :=
  b ← rs_body response;
  Ok {| status := rs_status response; statusText := rs_statusText response;
        res_headers := fromEntries (rs_headers response); res_body := b; cached := Some false;
        res_profile_hash := match pr_profileHash p with
                            | Some h => if bool_decide (h = "") then None else Some h | None => None end |}.

(** [key] and lifetime under which a result is stored. *)
Definition store_as (p : Prepared) (r : ProxyResult) : option (string * num) :=
  match pr_cacheKey p, pr_profile p with
  | Some key, Some profile =>
      if negb (bool_decide (key = "")) && truthy (Some (JNum (cache_ttl profile))) &&
         (200 <=? status r) && (status r <? 300)
      then Some (key, cache_ttl profile) else None
  | _, _ => None
  end.

(** [ssrfCheck] and [fetch] are what those services answer to this call; [t0] and
    [t1] are the clock at the cache lookup and at the store. *)
Definition serveProxyRequest (t0 t1 : Z) (ssrfCheck : string -> result SafeResolution)
  (fetch : string -> FetchInit -> result Response) (timeoutMs : option Z)
  (request : ProxyServeRequest) (c : ProfileCache) : Served :=
  match prepare request with
  | Throw e => {| sv_result := Throw e; sv_cache := c; sv_fetched := [] |}
  | Ok p =>
      let '(hit, c) := match pr_cacheKey p with
                       | Some key => if bool_decide (key = "") then (None, c) else cachedProfileResult t0 key c
                       | None => (None, c)
                       end in
      match hit with
      | Some r => {| sv_result := Ok r; sv_cache := c; sv_fetched := [] |}
      | None =>
          match resolution ← ssrfCheck (rq_target_url request); outgoing timeoutMs request p resolution with
          | Throw e => {| sv_result := Throw e; sv_cache := c; sv_fetched := [] |}
          | Ok (url, init) =>
              match response ← fetch url init; to_result p response with
              | Throw e => {| sv_result := Throw e; sv_cache := c; sv_fetched := [(url, init)] |}
              | Ok r =>
                  {| sv_result := Ok r;
                     sv_cache := match store_as p r with
                                 | Some (key, ttl) => storeProfileResult t1 key r ttl c
                                 | None => c
                                 end;
                     sv_fetched := [(url, init)] |}
              end
          end
      end
  end.
End Serve.

(** ** Forwarded headers *)

Lemma forwarded_iff hs k v : (k, v) ∈ forwardedHeaderEntries hs <->
  exists k0, (k0, v) ∈ hs /\ k = toLowerCase k0 /\ stripped hs k = false.
Proof.
  unfold forwardedHeaderEntries. rewrite sort_by_perm, list_elem_of_fmap. split.
  - intros ((k0 & v0) & [= -> ->] & Hin). apply list_elem_of_filter in Hin as [Hs Hin]. eauto.
  - intros (k0 & Hin & -> & Hs). exists (k0, v). split; [done|]. apply list_elem_of_filter. done.
Qed.

Lemma stripped_spec hs k : stripped hs k = true <->
  k ∈ HOP_BY_HOP \/ k ∈ CONSENSUS_CONTROL_HEADERS \/
  exists c cv, (c, cv) ∈ hs /\ toLowerCase c = "connection" /\ k ∈ connection_tokens cv.
Proof.
  unfold stripped, buildHopByHopDenySet. rewrite orb_true_iff, !bool_decide_eq_true, elem_of_app.
  assert (E : k ∈ concat (map (fun kv : string * string => if bool_decide (toLowerCase kv.1 = "connection")
                                  then connection_tokens kv.2 else []) hs) <->
              exists c cv, (c, cv) ∈ hs /\ toLowerCase c = "connection" /\ k ∈ connection_tokens cv).
  { rewrite list_elem_of_In, in_concat. setoid_rewrite <- list_elem_of_In. split.
    - intros (x & Hx & Hk). apply list_elem_of_fmap in Hx as ([c cv] & -> & Hin). cbn in Hk.
      case_bool_decide; [|by apply elem_of_nil in Hk]. eauto.
    - intros (c & cv & Hin & Hc & Hk). exists (connection_tokens cv). split; [|done].
      apply list_elem_of_fmap. exists (c, cv). split; [|done]. cbn. by rewrite bool_decide_true. }
  rewrite E. tauto.
Qed.

(** ** The cache *)

Definition cache_ok (c : ProfileCache) : Prop :=
  NoDup c.*1 /\ Z.of_nat (length c) <= MAX_PROFILE_CACHE_ENTRIES /\ "" ∉ c.*1.

Lemma remove_head_length {A} k (v : A) l : (length (remove k ((k, v) :: l)) <= length l)%nat.
Proof.
  unfold remove. rewrite filter_cons_False by (cbn; tauto). apply length_filter.
Qed.

Lemma remove_ok k c : cache_ok c -> cache_ok (remove k c).
Proof.
  intros (H1 & H2 & H3). pose proof (fmap_sublist fst _ _ (remove_sublist k c)) as Hs. split_and!.
  - by eapply sublist_NoDup.
  - pose proof (sublist_length _ _ (remove_sublist k c)). lia.
  - intros Hin. apply H3. by eapply sublist_subseteq.
Qed.

Lemma store_ok now key r ttl c : key <> "" -> cache_ok c -> cache_ok (storeProfileResult now key r ttl c).
Proof.
  intros Hkey Hc. unfold storeProfileResult.
  assert (Hroom : exists c', (if MAX_PROFILE_CACHE_ENTRIES <=? Z.of_nat (length c) then
             match c with
             | (oldest, _) :: _ => if bool_decide (oldest = "") then c else remove oldest c
             | [] => c
             end else c) = c' /\ cache_ok c' /\ Z.of_nat (length c') < MAX_PROFILE_CACHE_ENTRIES).
  { destruct (_ <=? _) eqn:E; bool_solve; [|eauto]. destruct c as [|[k v] c]; [done|].
    rewrite bool_decide_false by (intros ->; apply (proj2 (proj2 Hc)); left).
    eexists. split; [done|]. split; [by apply remove_ok|].
    destruct Hc as (_ & Hl & _). pose proof (remove_head_length k v c). cbn [length] in Hl. lia. }
  destruct Hroom as (c' & -> & (H1 & H2 & H3) & Hlt). split_and!.
  - by apply put_NoDup.
  - pose proof (put_length key {| ce_value := mark_cached false r;
      ce_expiresAt := num_add (num_of_Z now) (num_scale ttl 1000) |} c'). lia.
  - intros ([k' e] & Hk & Hin)%list_elem_of_fmap. cbn in Hk. subst k'.
    apply put_elem in Hin as [[= E _]|Hin]; [by subst|]. apply H3. by apply (list_elem_of_fmap_2 fst) in Hin.
Qed.

Lemma store_elem now key r ttl c x : x ∈ storeProfileResult now key r ttl c ->
  (x.1 = key /\ ce_value x.2 = mark_cached false r /\
   ce_expiresAt x.2 = num_add (num_of_Z now) (num_scale ttl 1000)) \/ x ∈ c.
Proof.
  unfold storeProfileResult. intros [->|Hin]%put_elem; [by left|]. right.
  destruct (_ <=? _); [|done]. destruct c as [|[k v] c]; [done|]. case_bool_decide; [done|].
  by eapply sublist_subseteq; [apply remove_sublist|].
Qed.

Lemma cached_hit now key c r c' : cachedProfileResult now key c = (Some r, c') ->
  c' = c /\ exists e, (key, e) ∈ c /\ r = mark_cached true (ce_value e) /\
    num_leb (ce_expiresAt e) (num_of_Z now) = false.
Proof.
  unfold cachedProfileResult. destruct (assoc key c) as [e|] eqn:Ea; [|done].
  destruct (num_leb _ _) eqn:El; [done|]. intros [= <- <-]. split; [done|].
  exists e. split_and!; [by apply assoc_elem|done|done].
Qed.

Lemma cached_after now key c o c' : cachedProfileResult now key c = (o, c') -> c' = c \/ c' = remove key c.
Proof.
  unfold cachedProfileResult. destruct (assoc key c) as [e|]; [|intros [= _ <-]; by left].
  destruct (num_leb _ _); intros [= _ <-]; [by right|by left].
Qed.

Lemma cached_after_ok now key c o c' : cachedProfileResult now key c = (o, c') ->
  (cache_ok c -> cache_ok c') /\ forall x, x ∈ c' -> x ∈ c.
Proof.
  intros [->| ->]%cached_after; [done|]. split; [apply remove_ok|].
  intros x. apply sublist_subseteq, remove_sublist.
Qed.

Section ServeLemmas.
Context `{Hashing} `{UrlApi} `{HeadersApi}.

(** The possible courses of one call. *)
Inductive course (t0 t1 : Z) (ssrfCheck : string -> result SafeResolution)
  (fetch : string -> FetchInit -> result Response) (timeoutMs : option Z)
  (q : ProxyServeRequest) (c : ProfileCache) : Served -> Prop :=
| course_refused e c' :
    (cache_ok c -> cache_ok c') -> (forall x, x ∈ c' -> x ∈ c) ->
    course t0 t1 ssrfCheck fetch timeoutMs q c {| sv_result := Throw e; sv_cache := c'; sv_fetched := [] |}
| course_hit p key e :
    prepare q = Ok p -> pr_cacheKey p = Some key -> (key, e) ∈ c ->
    num_leb (ce_expiresAt e) (num_of_Z t0) = false ->
    course t0 t1 ssrfCheck fetch timeoutMs q c
      {| sv_result := Ok (mark_cached true (ce_value e)); sv_cache := c; sv_fetched := [] |}
| course_failed p resolution url init e c' :
    (cache_ok c -> cache_ok c') -> (forall x, x ∈ c' -> x ∈ c) ->
    prepare q = Ok p -> ssrfCheck (rq_target_url q) = Ok resolution ->
    outgoing timeoutMs q p resolution = Ok (url, init) ->
    course t0 t1 ssrfCheck fetch timeoutMs q c {| sv_result := Throw e; sv_cache := c'; sv_fetched := [(url, init)] |}
| course_served p resolution url init response r c' :
    (cache_ok c -> cache_ok c') -> (forall x, x ∈ c' -> x ∈ c) ->
    prepare q = Ok p -> ssrfCheck (rq_target_url q) = Ok resolution ->
    outgoing timeoutMs q p resolution = Ok (url, init) -> fetch url init = Ok response -> to_result p response = Ok r ->
    course t0 t1 ssrfCheck fetch timeoutMs q c
      {| sv_result := Ok r;
         sv_cache := match store_as p r with Some (key, ttl) => storeProfileResult t1 key r ttl c' | None => c' end;
         sv_fetched := [(url, init)] |}.

Lemma serve_course t0 t1 ssrfCheck fetch timeoutMs q c :
  course t0 t1 ssrfCheck fetch timeoutMs q c (serveProxyRequest t0 t1 ssrfCheck fetch timeoutMs q c).
Proof.
  unfold serveProxyRequest. destruct (prepare q) as [p|e] eqn:Ep; [|by apply course_refused].
  destruct (match pr_cacheKey p with Some _ => _ | None => _ end) as [hit c'] eqn:Eh.
  assert (Hc' : (cache_ok c -> cache_ok c') /\ forall x, x ∈ c' -> x ∈ c).
  { destruct (pr_cacheKey p) as [key|]; [case_bool_decide|]; try by injection Eh as _ <-.
    by eapply cached_after_ok. }
  destruct Hc' as [Hok Hin]. destruct hit as [r|].
  - destruct (pr_cacheKey p) as [key|] eqn:Ek; [|done]. case_bool_decide; [done|].
    apply cached_hit in Eh as (-> & e & He & -> & Hl). by eapply course_hit.
  - destruct (ssrfCheck (rq_target_url q)) as [resolution|e] eqn:Es; cbn [mbind result_bind];
      [|by apply course_refused].
    destruct (outgoing timeoutMs q p resolution) as [[url init]|e] eqn:Eo; [|by apply course_refused].
    destruct (fetch url init) as [response|e] eqn:Ef; cbn [mbind result_bind]; [|by eapply course_failed].
    destruct (to_result p response) as [r|e] eqn:Er; [|by eapply course_failed].
    by eapply course_served.
Qed.

Lemma store_as_some p r key ttl : store_as p r = Some (key, ttl) ->
  pr_cacheKey p = Some key /\ key <> "" /\ 200 <= status r < 300 /\
  exists profile, pr_profile p = Some profile /\ ttl = cache_ttl profile.
Proof.
  unfold store_as. destruct (pr_cacheKey p) as [k|], (pr_profile p) as [profile|]; try done.
  destruct (_ && _) eqn:E; [|done]. intros [= -> <-]. bool_solve. eauto 10.
Qed.

Lemma prepare_inv q p : prepare q = Ok p ->
  pr_method p = toUpperCase (default "GET" (rq_method q)) /\
  pr_forwarded p = forwardedHeaderEntries (pr_effectiveHeaders p) /\
  forall key, pr_cacheKey p = Some key ->
    pr_method p ∈ CACHEABLE_METHODS /\
    exists d, generateDedupeKey {| target_url := rq_target_url q; method := pr_method p;
                 headers := pr_effectiveHeaders p; body := rq_body q; profile_hash := pr_profileHash p |} = Ok d /\
      key = profileCacheKey d (pr_forwarded p).
Proof.
  unfold prepare. intros Hp. inv_ok. cbn [pr_method pr_forwarded pr_effectiveHeaders pr_cacheKey pr_profileHash].
  split_and!; [done..|]. intros key ->. destruct (_ && _) eqn:E; [|done]. inv_ok. bool_solve.
  simplify_eq. eauto.
Qed.

(** ** The outgoing request *)

Lemma headers_set_ok k v h h' : headers_set k v h = Ok h' ->
  forall k', assoc k' h' = if decide (k' = toLowerCase k) then Some (header_value v) else assoc k' h.
Proof. unfold headers_set. intros Hh. inv_ok. intros k'. apply assoc_put. Qed.

Lemma headers_set_all_ok l h h' : headers_set_all l h = Ok h' ->
  forall k v, assoc k h' = Some v -> assoc k h = Some v \/ exists k0 v0, (k0, v0) ∈ l /\ k = toLowerCase k0.
Proof.
  revert h; induction l as [|[k0 v0] l IH]; intros h; cbn [headers_set_all]; intros Hh; inv_ok.
  - by left.
  - intros k v Hkv. destruct (IH _ Hk k v Hkv) as [E|(k1 & v1 & Hin & ->)].
    + rewrite (headers_set_ok _ _ _ _ Hm) in E. destruct (decide (k = toLowerCase k0)); [|by left]. right. exists k0, v0. split; [left|done].
    + right. exists k1, v1. split; [by right|done].
Qed.

Definition pinned_host (resolution : SafeResolution) : string :=
  if family resolution =? 6 then "[" +:+ ip resolution +:+ "]" else ip resolution.

Lemma outgoing_inv timeoutMs q p resolution url init : outgoing timeoutMs q p resolution = Ok (url, init) ->
  exists u, new_URL (rq_target_url q) = Some u /\ url = href (set_hostname (pinned_host resolution) u) /\
    fi_redirect init = "manual" /\ assoc "host" (fi_headers init) = Some (header_value (host u)) /\
    fi_serverName init = (if bool_decide (protocol u = "https:") then Some (hostname u) else None) /\
    forall k v, assoc k (fi_headers init) = Some v ->
      k = "host" \/ k = "user-agent" \/ exists k0 v0, (k0, v0) ∈ pr_forwarded p /\ k = toLowerCase k0.
Proof.
  unfold outgoing. intros Ho. inv_ok. simplify_eq. exists r. cbn [fi_redirect fi_headers fi_serverName].
  assert (Hh : (forall k v, assoc k r1 = Some v -> k = "host" \/ k = "user-agent" \/
                  exists k0 v0, (k0, v0) ∈ pr_forwarded p /\ k = toLowerCase k0) /\
               assoc "host" r1 = Some (header_value (host r))).
  { split.
    - intros k v Hkv. rewrite (headers_set_ok _ _ _ _ Hm1) in Hkv. case_decide; [by left|].
      destruct (headers_set_all_ok _ _ _ Hm0 k v Hkv) as [?|?]; [done|by right; right].
    - by rewrite (headers_set_ok _ _ _ _ Hm1). }
  destruct Hh as [Hall Hhost].
  assert (Hfin : assoc "host" r2 = Some (header_value (host r)) /\
    forall k v, assoc k r2 = Some v -> k = "host" \/ k = "user-agent" \/
                  exists k0 v0, (k0, v0) ∈ pr_forwarded p /\ k = toLowerCase k0).
  { destruct (assoc "user-agent" r1); [inv_ok; done|].
    split; [by rewrite (headers_set_ok _ _ _ _ Hm2)|].
    intros k v Hkv. rewrite (headers_set_ok _ _ _ _ Hm2) in Hkv. case_decide; [by right; left|]. by apply Hall with v. }
  destruct Hfin as [Hf1 Hf2]. split_and!; auto.
Qed.
End ServeLemmas.

(** ** Histories of calls on the shared cache *)

Section Histories.
Context `{Hashing} `{UrlApi} `{HeadersApi}.

Record proxy_call := {
  pc_t0 : Z; pc_t1 : Z; pc_ssrf : string -> result SafeResolution;
  pc_fetch : string -> FetchInit -> result Response; pc_timeout : option Z; pc_request : ProxyServeRequest }.

Definition serve_call (k : proxy_call) (c : ProfileCache) : Served :=
  serveProxyRequest (pc_t0 k) (pc_t1 k) (pc_ssrf k) (pc_fetch k) (pc_timeout k) (pc_request k) c.

Fixpoint serve_all (calls : list proxy_call) (c : ProfileCache) : ProfileCache :=
  match calls with
  | [] => c
  | k :: calls => serve_all calls (sv_cache (serve_call k c))
  end.

(** The response that upstream sent, as it is handed on. *)
Record upstream_answer (response : Response) (r : ProxyResult) : Prop := {
  ua_status : status r = rs_status response;
  ua_statusText : statusText r = rs_statusText response;
  ua_headers : res_headers r = fromEntries (rs_headers response);
  ua_body : rs_body response = Ok (res_body r) }.

(** The call that stored a cache entry: what it fetched, and for how long it is kept. *)
Definition stored_for (key : string) (e : CacheEntry) (k : proxy_call) (c : ProfileCache) : Prop :=
  exists p profile url init response,
    prepare (pc_request k) = Ok p /\ pr_cacheKey p = Some key /\ pr_profile p = Some profile /\ 200 <= status (ce_value e) < 300 /\
    sv_fetched (serve_call k c) = [(url, init)] /\ pc_fetch k url init = Ok response /\ upstream_answer response (ce_value e) /\
    ce_expiresAt e = num_add (num_of_Z (pc_t1 k)) (num_scale (cache_ttl profile) 1000).

Lemma serve_call_ok k c : cache_ok c -> cache_ok (sv_cache (serve_call k c)).
Proof.
  intros Hc. unfold serve_call. destruct (serve_course (pc_t0 k) (pc_t1 k) (pc_ssrf k) (pc_fetch k) (pc_timeout k) (pc_request k) c);
    cbn [sv_cache]; auto.
  destruct (store_as p r) as [[key ttl]|] eqn:Es; [|by auto].
  apply store_as_some in Es as (_ & Hk & _). by apply store_ok; auto.
Qed.

Lemma to_result_answer p response r b : to_result p response = Ok r -> upstream_answer response (mark_cached b r).
Proof. unfold to_result. intros Hr. inv_ok. by subst. Qed.

Lemma serve_call_entry k c key e : (key, e) ∈ sv_cache (serve_call k c) ->
  (key, e) ∈ c \/ stored_for key e k c.
Proof.
  unfold stored_for, serve_call.
  destruct (serve_course (pc_t0 k) (pc_t1 k) (pc_ssrf k) (pc_fetch k) (pc_timeout k) (pc_request k) c);
    cbn [sv_cache sv_fetched]; intros Hin; auto.
  destruct (store_as p r) as [[key' ttl]|] eqn:Es; [|by auto].
  apply store_as_some in Es as (Hk & Hne & Hst & profile & Hpr & ->).
  apply store_elem in Hin as [(E1 & E2 & E3)|Hin]; [|by auto]. cbn in E1, E2, E3. subst key'.
  right. exists p, profile, url, init, response. rewrite E2, E3. split_and!; try (done || (cbn; lia)). by eapply to_result_answer.
Qed.

Lemma serve_all_ok calls c : cache_ok c -> cache_ok (serve_all calls c).
Proof. revert c; induction calls; cbn; auto using serve_call_ok. Qed.

Lemma serve_all_entry calls c key e : (key, e) ∈ serve_all calls c ->
  (key, e) ∈ c \/ exists l1 k l2, calls = l1 ++ k :: l2 /\ stored_for key e k (serve_all l1 c).
Proof.
  revert c; induction calls as [|k calls IH]; intros c; cbn [serve_all]; [by left|].
  intros [Hin|(l1 & k' & l2 & -> & Hs)]%IH.
  - apply serve_call_entry in Hin as [?|?]; [by left|right]. by exists [], k, calls.
  - right. by exists (k :: l1), k', l2.
Qed.
End Histories.

Lemma hex_text_no_newline b : no_char "010" (hex_text b).
Proof.
  induction b as [|x b IH]; [done|]. cbn [hex_text]. pose proof (Z_of_byte_range x).
  assert (Hd : forall z, 0 <= z < 16 -> hex_digit z <> "010"%char).
  { intros z Hz.
    assert (E : negb (bool_decide (hex_digit z = "010"%char)) = true).
    { revert z Hz. by apply (forallb_range (fun z => negb (bool_decide (hex_digit z = "010"%char)))). }
    by bool_solve. }
  apply no_char_cons. split; [apply Hd; split; [apply Z.div_pos|apply Z.div_lt_upper_bound]; lia|].
  apply no_char_cons. split; [apply Hd, Z.mod_pos_bound; lia|done].
Qed.

Lemma pairs_json_sorted l : deepSort (pairs_json l) = pairs_json l.
Proof.
  unfold pairs_json. cbn [deepSort]. f_equal. rewrite map_map. done.
Qed.

Lemma wf_pairs l : wf_json (pairs_json l) = true.
Proof. unfold pairs_json. cbn [wf_json]. apply forallb_forall. by intros x ([k v] & <- & _)%in_map_iff. Qed.

Lemma pairs_json_inj l1 l2 : pairs_json l1 = pairs_json l2 -> l1 = l2.
Proof.
  unfold pairs_json. intros [= E]. revert l2 E.
  induction l1 as [|[k v] l1 IH]; intros [|[k' v'] l2]; cbn; try done.
  intros [= -> -> E]. f_equal. by apply IH.
Qed.

(** The text whose digest is the cache key. *)
Definition cache_key_text (dedupeKey : string) (forwarded : Headers) : buffer :=
  utf8 (dedupeKey +:+ newline +:+ stableStringify (pairs_json forwarded)).

(** Equal keys mean the same request and the same forwarded headers. *)
Lemma cache_key_binds `{Hashing} d1 f1 d2 f2 :
  no_char "010" d1 -> no_char "010" d2 ->
  profileCacheKey d1 f1 = profileCacheKey d2 f2 -> (d1 = d2 /\ f1 = f2) \/ collide (cache_key_text d1 f1) (cache_key_text d2 f2).
Proof.
  intros H1 H2 E. unfold profileCacheKey in E. apply sha256Hex_inj in E as [E|]; [left|by right].
  apply utf8_inj in E. unfold newline in E.
  assert (Es : forall d x, no_char "010" d -> split "010" (d +:+ (String "010" "" +:+ x)) = d :: split "010" x).
  { intros d x Hd. change (String "010" "" +:+ x) with (String "010" x). by apply split_app. }
  assert (E1 : d1 = d2).
  { apply (f_equal (split "010")) in E. rewrite !Es in E by done. by injection E. }
  subst d2. split; [done|]. unfold stableStringify in E. rewrite !pairs_json_sorted in E.
  apply pairs_json_inj. apply stringify_inj; [apply wf_pairs..|].
  do 2 apply str_app_inj in E. exact E.
Qed.

(** ** Properties *)

(** C17: the gate and the pin: one call makes at most one request upstream, only
    after the SSRF check of the target, through the guard and its DNS cache after any
    history of lookups, has returned an address that is not reserved; the URL
    requested is the target's with this address for its host, the Host header and the
    TLS server name are those of the original target, and redirects are not
    followed. *)
Theorem proxy_fetch_pinned `{Hashing} `{UrlApi} `{HeadersApi} (history : list query) (k : proxy_call)
    (d0 d1 : Z) (dns : string -> result (list DnsRecord)) (c : ProfileCache) (url : string) (init : FetchInit) :
  pc_ssrf k = (fun u => (resolveAndCheckTarget d0 d1 dns u (resolve_all history []).2).1) ->
  (url, init) ∈ sv_fetched (serve_call k c) ->
  sv_fetched (serve_call k c) = [(url, init)] /\ fi_redirect init = "manual" /\
  exists u checked, new_URL (rq_target_url (pc_request k)) = Some u /\
    (resolveAndCheckTarget d0 d1 dns (rq_target_url (pc_request k)) (resolve_all history []).2).1 = Ok checked /\
    ~ reserved (ip checked) (family checked) /\
    url = href (set_hostname (if family checked =? 6 then "[" +:+ ip checked +:+ "]" else ip checked) u) /\
    assoc "host" (fi_headers init) = Some (header_value (host u)) /\
    fi_serverName init = (if bool_decide (protocol u = "https:") then Some (hostname u) else None).
Proof.
  intros Hs. unfold serve_call.
  destruct (serve_course (pc_t0 k) (pc_t1 k) (pc_ssrf k) (pc_fetch k) (pc_timeout k) (pc_request k) c);
    cbn [sv_fetched]; intros Hin; try (by apply elem_of_nil in Hin);
    apply list_elem_of_singleton in Hin as [= -> ->];
    match goal with Ho : outgoing _ _ _ _ = Ok _, Hc : pc_ssrf k _ = Ok _ |- _ =>
      apply outgoing_inv in Ho as (u & Hu & -> & Hr & Hh & Hsn & _); rewrite Hs in Hc end;
    (split_and!; [done|done|]); exists u, resolution; (split_and!; try done);
    by eapply safe_not_reserved, resolve_after_history.
Qed.

Module Demo.
#[export] Instance headers_api : HeadersApi := {| legal_header := fun _ _ => true; header_value := fun v => v |}.

Definition request : ProxyServeRequest :=
  {| rq_target_url := "https://api.io/v1/a"; rq_method := Some "get";
     rq_headers := Some [("Authorization", "t"); ("Connection", "X-Hop"); ("x-hop", "1")]; rq_body := NoBody;
     rq_profile := demo_profile |}.

Definition answer : Response :=
  {| rs_status := 200; rs_statusText := "OK"; rs_headers := [("etag", "1")]; rs_body := Ok (utf8 "body") |}.

Definition dns : string -> result (list DnsRecord) := fun _ => Ok [{| address := "93.184.216.34"; rec_family := 4 |}].

Definition call (t : Z) : proxy_call :=
  {| pc_t0 := t; pc_t1 := t;
     pc_ssrf := fun u => (@resolveAndCheckTarget ToyUrl.api 0 1 dns u (@resolve_all ToyUrl.api [] []).2).1;
     pc_fetch := fun _ _ => Ok answer; pc_timeout := None; pc_request := request |}.

Definition serve (t : Z) (c : ProfileCache) : Served :=
  @serve_call Toy.hashing ToyUrl.api headers_api (call t) c.

Definition init : FetchInit :=
  match sv_fetched (serve 0 []) with [(_, i)] => i | _ => {| fi_method := ""; fi_headers := []; fi_body := NoBody;
    fi_redirect := ""; fi_timeout := 0; fi_serverName := None |} end.
End Demo.

Lemma proxy_fetch_pinned_witness :
  sv_fetched (Demo.serve 0 []) = [("https://93.184.216.34/v1/a", Demo.init)] /\ fi_redirect Demo.init = "manual" /\
  exists u checked, @new_URL ToyUrl.api "https://api.io/v1/a" = Some u /\
    (@resolveAndCheckTarget ToyUrl.api 0 1 Demo.dns "https://api.io/v1/a" (@resolve_all ToyUrl.api [] []).2).1 = Ok checked /\
    ~ reserved (ip checked) (family checked) /\
    "https://93.184.216.34/v1/a" =
    @href ToyUrl.api (@set_hostname ToyUrl.api (if family checked =? 6 then "[" +:+ ip checked +:+ "]" else ip checked) u) /\
    assoc "host" (fi_headers Demo.init) = Some (@header_value Demo.headers_api (host u)) /\
    fi_serverName Demo.init = (if bool_decide (protocol u = "https:") then Some (hostname u) else None).
Proof.
  apply (@proxy_fetch_pinned Toy.hashing ToyUrl.api Demo.headers_api [] (Demo.call 0) 0 1 Demo.dns []
           "https://93.184.216.34/v1/a" Demo.init); [reflexivity|].
  assert (E : sv_fetched (Demo.serve 0 []) = [("https://93.184.216.34/v1/a", Demo.init)]) by (vm_compute; reflexivity).
  unfold Demo.serve in E. rewrite E. left.
Defined.

(** Header hygiene: what reaches the upstream besides Host and User-Agent
    comes from the client's headers, and is neither hop-by-hop, nor named by a
    Connection header, nor a control header. *)
Theorem proxy_headers_stripped `{Hashing} `{UrlApi} `{HeadersApi} (k : proxy_call) (c : ProfileCache)
    (url : string) (init : FetchInit) (p : Prepared) (name value : string) :
  (url, init) ∈ sv_fetched (serve_call k c) -> prepare (pc_request k) = Ok p ->
  assoc name (fi_headers init) = Some value -> name <> "host" -> name <> "user-agent" ->
  exists k0 v0, (k0, v0) ∈ pr_effectiveHeaders p /\ name = toLowerCase k0 /\
    name ∉ HOP_BY_HOP /\ name ∉ CONSENSUS_CONTROL_HEADERS /\
    forall n cv, (n, cv) ∈ pr_effectiveHeaders p -> toLowerCase n = "connection" -> name ∉ connection_tokens cv.
Proof.
  intros Hin Hp Hn Hh Hu.
  assert (Hf : exists k1 v1, (k1, v1) ∈ pr_forwarded p /\ name = toLowerCase k1).
  { revert Hin. unfold serve_call.
    destruct (serve_course (pc_t0 k) (pc_t1 k) (pc_ssrf k) (pc_fetch k) (pc_timeout k) (pc_request k) c);
      cbn [sv_fetched]; intros Hin; try (by apply elem_of_nil in Hin);
      apply list_elem_of_singleton in Hin as [= -> ->];
      match goal with Hp' : prepare _ = Ok ?p' |- _ => lazymatch p' with p => fail | _ => assert (p' = p) as -> by congruence end end;
      match goal with Ho : outgoing _ _ _ _ = Ok _ |- _ => apply outgoing_inv in Ho as (u & _ & _ & _ & _ & _ & Ha) end;
      by destruct (Ha _ _ Hn) as [?|[?|?]]. }
  destruct Hf as (k1 & v1 & Hf & ->). destruct (prepare_inv _ _ Hp) as (_ & E & _). rewrite E in Hf.
  apply forwarded_iff in Hf as (k0 & Hk0 & -> & Hs). rewrite toLowerCase_idem in *.
  exists k0, v1. split; [done|]. split; [done|].
  assert (Hns : ~ (stripped (pr_effectiveHeaders p) (toLowerCase k0) = true)) by congruence.
  rewrite stripped_spec in Hns. split_and!; [tauto|tauto|]. intros n cv Hin' Hc Ht. apply Hns. right; right. eauto.
Qed.

Lemma proxy_headers_stripped_witness :
  exists p, @prepare Toy.hashing ToyUrl.api Demo.request = Ok p /\
  exists k0 v0, (k0, v0) ∈ pr_effectiveHeaders p /\ "authorization" = toLowerCase k0 /\
    "authorization" ∉ HOP_BY_HOP /\ "authorization" ∉ CONSENSUS_CONTROL_HEADERS /\
    forall n cv, (n, cv) ∈ pr_effectiveHeaders p -> toLowerCase n = "connection" -> "authorization" ∉ connection_tokens cv.
Proof.
  assert (E : exists p, @prepare Toy.hashing ToyUrl.api Demo.request = Ok p) by (eexists; vm_compute; reflexivity).
  destruct E as [p E]. exists p. split; [exact E|].
  apply (@proxy_headers_stripped Toy.hashing ToyUrl.api Demo.headers_api (Demo.call 0) []
           "https://93.184.216.34/v1/a" Demo.init p "authorization" "t"); [|exact E|vm_compute; reflexivity|discriminate|discriminate].
  assert (Ef : sv_fetched (Demo.serve 0 []) = [("https://93.184.216.34/v1/a", Demo.init)]) by (vm_compute; reflexivity).
  unfold Demo.serve in Ef. rewrite Ef. left.
Defined.

(** What the deduplication key of a call is computed from. *)
Definition call_params (k : proxy_call) (p : Prepared) : DedupeParams :=
  {| target_url := rq_target_url (pc_request k); method := pr_method p; headers := pr_effectiveHeaders p;
     body := rq_body (pc_request k); profile_hash := pr_profileHash p |}.

(** Two requests with one cache key. *)
Lemma same_key_same_request `{Hashing} `{UrlApi} (k1 k : proxy_call) (p1 p : Prepared) (key : string) :
  prepare (pc_request k1) = Ok p1 -> prepare (pc_request k) = Ok p -> pr_cacheKey p1 = Some key -> pr_cacheKey p = Some key ->
  (same_request (call_params k1 p1) (call_params k p) /\ pr_forwarded p1 = pr_forwarded p) \/
  collide (key_text (call_params k1 p1)) (key_text (call_params k p)) \/
  exists d1 d, generateDedupeKey (call_params k1 p1) = Ok d1 /\ generateDedupeKey (call_params k p) = Ok d /\
    collide (cache_key_text d1 (pr_forwarded p1)) (cache_key_text d (pr_forwarded p)).
Proof.
  intros Hp1 Hp Hkey1 Hk.
  destruct (prepare_inv _ _ Hp) as (_ & _ & Hi). destruct (Hi _ Hk) as (_ & d & Hd & ->).
  destruct (prepare_inv _ _ Hp1) as (_ & _ & Hi1). destruct (Hi1 _ Hkey1) as (_ & d1 & Hd1 & Heq).
  pose proof (proj1 (generateDedupeKey_ok _ _) Hd) as (? & _ & Hh).
  pose proof (proj1 (generateDedupeKey_ok _ _) Hd1) as (? & _ & Hh1).
  assert (Hn : no_char "010" d /\ no_char "010" d1) by (rewrite Hh, Hh1; split; apply hex_text_no_newline).
  destruct (cache_key_binds _ _ _ _ (proj2 Hn) (proj1 Hn) (eq_sym Heq)) as [[-> Hfw]|];
    [|right; right; by exists d1, d].
  destruct (dedupe_binds _ _ _ Hd1 Hd) as [?|?]; [by left|right; by left].
Qed.



(** The cache holds at most 1000 distinct keys after any history, and an
    entry that a call adds is a 2xx answer to a GET or HEAD request with a
    profile. *)
Theorem proxy_cache_policy `{Hashing} `{UrlApi} `{HeadersApi} (calls : list proxy_call) (k : proxy_call) :
  let c := serve_all calls [] in
  cache_ok c /\
  forall key e, (key, e) ∈ sv_cache (serve_call k c) -> (key, e) ∉ c ->
    200 <= status (ce_value e) < 300 /\
    exists p, prepare (pc_request k) = Ok p /\ pr_method p ∈ CACHEABLE_METHODS.
Proof.
  cbn zeta. split.
  - apply serve_all_ok. unfold cache_ok. cbn. split_and!; [constructor|done|by intros ?%elem_of_nil].
  - intros key e Hin Hn. apply serve_call_entry in Hin as [?|(p & ? & ? & ? & ? & Hp & Hk & _ & Hs & _)]; [done|].
    split; [done|]. exists p. split; [done|]. destruct (prepare_inv _ _ Hp) as (_ & _ & Hi). by apply (Hi key).
Qed.
