(* ===== verification/ProxyCommand.v ===== *)
(** * The three doors to the proxy (runtime/proxy-command.ts,
    runtime/proxy-session.ts, runtime/proxy-worker.ts)

    A tunnel message, a message of a public-tunnel session and an HTTP route all
    end in [serveProxyRequest].  [serve] stands for that call on the current
    cache; the cache is threaded by the caller. *)

From S2P Require Import Prelude Text Json JsonText Coerce Base64 Crypto Url Dedupe Profile Ssrf Messages ProxyServe.
Local Open Scope Z_scope.

(** [ProxyRequestMessage]. *)
Record ProxyRequestMessage := {
  pm_id : option string; pm_target_url : string; pm_method : string; pm_headers : option Headers;
  pm_body : option string; pm_body_encoding : option string; pm_profile : option json }.

Definition decodeBody (body encoding : option string) : RequestBody :=
  match body with
  | None => NoBody
  | Some b => if bool_decide (encoding = Some "base64") then BufferBody (fromBase64 b) else TextBody b
  end.

(** [method || "GET"]. *)
Definition or_get (m : option string) : string :=
  match m with Some m => if bool_decide (m = "") then "GET" else m | None => "GET" end.

Definition command_request (message : ProxyRequestMessage) : ProxyServeRequest :=
  {| rq_target_url := pm_target_url message;
     rq_method := Some (toUpperCase (or_get (Some (pm_method message))));
     rq_headers := pm_headers message;
     rq_body := decodeBody (pm_body message) (pm_body_encoding message);
     rq_profile := pm_profile message |}.

Definition proxy_response (clock : Z) (id : option string) (r : ProxyResult) : TunnelMessage :=
  ProxyResponse {| m_id := None; timestamp := nowSeconds clock |} (default "" id) (num_of_Z (status r))
    (Some (statusText r)) (Some (strings_json (res_headers r))) (Some (toBase64 (res_body r))) (Some "base64")
    (cached r) (res_profile_hash r).

Section Doors.
(** What [serveProxyRequest] returns to this call. *)
Context (serve : ProxyServeRequest -> result ProxyResult).

Definition executeProxyCommand (clock : Z) (message : ProxyRequestMessage) : result TunnelMessage :=
  proxy_response clock (pm_id message) <$> serve (command_request message).

(** ** Session messages *)

Definition jsonBuffer (value : json) : buffer := utf8 (stringify value).

Definition invalid_request (id : option json) (message : string) : buffer :=
  jsonBuffer (obj [("id", id); ("error", Some (JStr "invalid_request")); ("message", Some (JStr message))]).

(** A member used as text: a value of another type has no string methods. *)
Definition text_or (d : string) (v : option json) : result string :=
  match v with
  | None | Some JNull => Ok d
  | Some (JStr s) => Ok s
  | Some _ => Throw (TypeError "not a function")
  end.

Definition headers_of (v : option json) : option Headers :=
  match v with Some (JObj l) => Some (map (fun kv => (kv.1, js_string kv.2)) l) | _ => None end.

Definition session_answer (clock : Z) (request : json) : result TunnelMessage :=
  m ← text_or "GET" (get "method" request);
  executeProxyCommand clock
    {| pm_id := as_string (get "id" request); pm_target_url := default "" (js_string <$> get "url" request);
       pm_method := m; pm_headers := headers_of (get "headers" request);
       pm_body := as_string (get "body" request); pm_body_encoding := Some "utf8"; pm_profile := None |}.

Definition session_ok (id : option json) (m : TunnelMessage) : buffer :=
  match m with
  | ProxyResponse _ _ st _ h b be _ _ =>
      jsonBuffer (obj [("id", id); ("status", Some (JNum st)); ("headers", Some (default (JObj []) h));
                       ("body", Some (JStr (default "" b))); ("body_encoding", JStr <$> be);
                       ("meta", Some (JObj [("served_by", JStr "node-control")]))])
  | _ => jsonBuffer JNull
  end.

(** Reading [url] of [null] is the only error the function does not turn into a
    reply. *)
Definition executeProxySessionMessage (clock : Z) (data : buffer) : result buffer :=
  match JSON_parse (utf8_text data) with
  | Throw _ =>
      Ok (jsonBuffer (obj [("error", Some (JStr "invalid_request"));
                           ("message", Some (JStr "Message must be valid JSON"))]))
  | Ok JNull => Throw (TypeError "null is not an object")
  | Ok request =>
      if negb (truthy (get "url" request))
      then Ok (invalid_request (get "id" request) "Missing required field: url")
      else match session_answer clock request with
           | Ok m => Ok (session_ok (get "id" request) m)
           | Throw e =>
               Ok (jsonBuffer (obj [("id", get "id" request); ("error", Some (JStr "fetch_failed"));
                                    ("message", Some (JStr (errorMessage e)))]))
           end
  end.

(** ** The HTTP route [POST /proxy]: status code and body of the reply *)

Definition route_request (body : json) : result ProxyServeRequest :=
  m ← text_or "GET" (get "method" body);
  let m := toUpperCase (or_get (Some m)) in
  Ok {| rq_target_url := default "" (js_string <$> get "target_url" body);
        rq_method := Some m;
        rq_headers := headers_of (get "headers" body);
        rq_body := if bool_decide (m = "GET") || bool_decide (m = "HEAD") then NoBody
                   else match get "body" body with
                        | Some (JStr s) => TextBody s
                        | b => TextBody (stringify (default JNull b))
                        end;
        rq_profile := get "profile" body |}.

Definition proxyRoute (processing_ms : Z) (now_iso : string) (body : option json) : result (Z * json) :=
  match body with
  | Some b =>
      if negb (truthy (get "target_url" b)) then Ok (400, JObj [("error", JStr "Missing target_url")])
      else
        q ← route_request b; r ← serve q;
        Ok (status r,
            obj [("status", Some (JNum (num_of_Z (status r)))); ("statusText", Some (JStr (statusText r)));
                 ("headers", Some (strings_json (res_headers r))); ("data", Some (JStr (utf8_text (res_body r))));
                 ("meta", Some (obj [("processing_ms", Some (JNum (num_of_Z processing_ms)));
                                     ("timestamp", Some (JStr now_iso)); ("cached", JBool <$> cached r);
                                     ("profile_hash", JStr <$> res_profile_hash r)]))])
  | None => Ok (400, JObj [("error", JStr "Missing target_url")])
  end.
End Doors.

(** ** Properties *)

(** The session door never fails on well-formed JSON other than [null]: every
    such message is answered, and the answer to a served request carries the
    upstream body, recoverable from its base64 text. *)
Theorem session_always_answers (serve : ProxyServeRequest -> result ProxyResult) (clock : Z) (data : buffer) :
  (forall v, JSON_parse (utf8_text data) = Ok v -> v <> JNull) ->
  exists reply, executeProxySessionMessage serve clock data = Ok reply /\
    forall request r, JSON_parse (utf8_text data) = Ok request -> truthy (get "url" request) = true ->
      (exists q, serve q = Ok r /\ session_answer serve clock request = Ok (proxy_response clock (as_string (get "id" request)) r)) ->
      exists b, reply = jsonBuffer b /\ get "body" b = Some (JStr (toBase64 (res_body r))) /\
        fromBase64 (toBase64 (res_body r)) = res_body r.
Proof.
  intros Hn. unfold executeProxySessionMessage. destruct (JSON_parse (utf8_text data)) as [request|e]; [|by eexists].
  specialize (Hn _ eq_refl).
  assert (E : exists reply, (if negb (truthy (get "url" request))
      then Ok (invalid_request (get "id" request) "Missing required field: url")
      else match session_answer serve clock request with
           | Ok m => Ok (session_ok (get "id" request) m)
           | Throw e =>
               Ok (jsonBuffer (obj [("id", get "id" request); ("error", Some (JStr "fetch_failed"));
                                    ("message", Some (JStr (errorMessage e)))]))
           end) = Ok reply /\
      (forall r, truthy (get "url" request) = true ->
        session_answer serve clock request = Ok (proxy_response clock (as_string (get "id" request)) r) ->
        reply = session_ok (get "id" request) (proxy_response clock (as_string (get "id" request)) r))).
  { destruct (truthy (get "url" request)); cbn [negb].
    - destruct (session_answer serve clock request) as [m|e]; eexists; (split; [reflexivity|]).
      + intros r _ [= ->]. done.
      + done.
    - eexists. split; [reflexivity|done]. }
  destruct E as (reply & E & Hr). exists reply. split; [by destruct request|].
  intros request' r [= <-] Hu (q & _ & Ha). rewrite (Hr r Hu Ha). unfold session_ok, proxy_response.
  eexists. split; [reflexivity|]. split; [|apply fromBase64_toBase64].
  destruct (get "id" request); reflexivity.
Qed.
