(* ===== verification/DataPlane.v ===== *)
(** * The data plane (tunnel/data-plane.ts, runtime/data-route.ts)

    One connection: handshake, one ticketed request, one response.  The process
    state shared by the connections is the replay cache of ticket ids and the
    cache of responses.  What a transport receives, whether it can send, key
    pairs, nonces and clocks are arguments; what it is told to send is returned. *)

From S2P Require Import Prelude Text Json JsonText Coerce Base64 Frames Crypto CanonicalJson SecureChannel ResponderAuth DataHandshake Paseto Ticket Replay Url Dedupe RequestTicket Profile Ssrf ProxyServe ProxyCommand.
Local Open Scope Z_scope.

Definition DATA_PLANE_PATH : string := "/connect".

(** State shared by the connections of a process. *)
Record Node := { n_replay : JtiReplayCache; n_cache : ProfileCache }.

Definition encodeJson (value : json) : buffer := utf8 (stringify value).
Definition decodeJson (b : buffer) : result json := JSON_parse (utf8_text b).

Definition error_payload (code message : string) : json :=
  obj [("type", Some (JStr "error")); ("code", Some (JStr code)); ("message", Some (JStr message))].

Definition response_payload (r : ProxyResult) : json :=
  obj [("type", Some (JStr "proxy_response")); ("status", Some (JNum (num_of_Z (status r))));
       ("status_text", Some (JStr (statusText r))); ("headers", Some (strings_json (res_headers r)));
       ("body", Some (JStr (toBase64 (res_body r)))); ("body_encoding", Some (JStr "base64"));
       ("cached", JBool <$> cached r); ("profile_hash", JStr <$> res_profile_hash r)].

(** An element of a [Buffer]: a number modulo 256. *)
Definition element_byte (v : json) : Byte.byte :=
  match js_number v with
  | Fin m e => byte_of_Z (Z.quot m (10 ^ Z.of_nat e) mod 256)
  | _ => byte_of_Z 0
  end.

(** The longest typed array. *)
Definition MAX_BUFFER_LENGTH : Z := 2 ^ 32.

(** The elements of an object with a [length]. *)
Definition array_like_bytes (length : num) (v : json) : result buffer :=
  let size := match length with Fin m e => Z.quot m (10 ^ Z.of_nat e) | Infinite true | NaN => 0 | Infinite false => MAX_BUFFER_LENGTH + 1 end in
  throw_if (MAX_BUFFER_LENGTH <? size) (PlainError "RangeError: Invalid typed array length");;
  Ok (map (fun i => element_byte (default JNull (get (num_to_string (num_of_Z (Z.of_nat i))) v))) (seq 0 (Z.to_nat size))).

(** [Buffer.from(value)] of a value that is not a string: an array, an array-like
    object, or what [Buffer.toJSON] gives. *)
Definition buffer_from (v : json) : result buffer :=
  match v with
  | JArr l => Ok (map element_byte l)
  | JObj _ =>
      match get "length" v, get "type" v, get "data" v with
      | Some (JNum n), _, _ => array_like_bytes n v
      | Some _, _, _ => Ok []
      | None, Some (JStr "Buffer"), Some (JArr l) => Ok (map element_byte l)
      | None, _, _ => Throw (TypeError "The first argument must be of type string or an instance of Buffer")
      end
  | _ => Throw (TypeError "The first argument must be of type string or an instance of Buffer")
  end.

Definition decodeBody (body encoding : option json) : result RequestBody :=
  match body with
  | None | Some JNull => Ok NoBody
  | Some (JStr s) => Ok (BufferBody (if bool_decide (encoding = Some (JStr "base64")) then fromBase64 s else utf8 s))
  | Some v => BufferBody <$> buffer_from v
  end.

(** What becomes of a request: an error reply, or a call to the server under a
    verified ticket. *)
Inductive Outcome :=
| Refused (code message : string)
| Answered (ticket : VerifiedRequestTicket) (request : ProxyServeRequest) (served : Served).

Definition response_of (o : Outcome) : json :=
  match o with
  | Refused code message => error_payload code message
  | Answered _ _ s => match sv_result s with
                      | Ok r => response_payload r
                      | Throw e => error_payload "upstream_error" (errorMessage e)
                      end
  end.

Inductive action :=
| Sent (data : buffer)
| Closed (code : Z).

Section DataPlane.
Context `{Hashing} `{Hkdf} `{KeyExchange} `{PemKeys} `{Aead} `{UrlApi}.

Record DataPlaneServeDeps := {
  dp_nodeId : string; dp_identity : NodeIdentity; dp_pinnedKey : PublicKey;
  dp_serve : ProxyServeRequest -> ProfileCache -> Served }.

(** The frame opened and its payload checked. *)
Definition parse_request (session : SecureSession) (requestFrame : buffer) : result json :=
  opened ← openFrame (receiveKey session) requestFrame;
  let '(frame, plaintext) := opened in
  throw_if (negb (fp_type frame =? FRAME_TYPE.DATA)) (PlainError "unexpected frame type");;
  payload ← decodeJson plaintext;
  throw_if (bool_decide (payload = JNull)) (TypeError "null is not an object");;
  throw_if (negb (bool_decide (get "type" payload = Some (JStr "proxy_request")) &&
                  bool_decide (is_Some (as_string (get "token" payload))) &&
                  bool_decide (is_Some (as_string (get "target_url" payload)))))
    (PlainError "invalid proxy_request payload");;
  Ok payload.

(** The request the ticket is checked against and the one that is served. *)
Record RequestPlan := { pl_token : string; pl_dedupe : DedupeParams; pl_request : ProxyServeRequest }.

Definition text_field (k : string) (payload : json) : string := default "" (as_string (get k payload)).

Definition plan_request (payload : json) (m : string) (b : RequestBody) : result RequestPlan :=
  let target := text_field "target_url" payload in
  let headers := headers_of (get "headers" payload) in
  prepared ← (if truthy (get "profile" payload)
              then Some <$> prepareProxyProfileRequestV1 (get "profile" payload) target m (default [] headers)
              else Ok None);
  let effective := match prepared with Some p => Some (pp_headers p) | None => headers end in
  Ok {| pl_token := text_field "token" payload;
        pl_dedupe := {| target_url := target; method := m; headers := default [] effective; body := b;
                        profile_hash := pp_profile_hash <$> prepared |};
        pl_request := {| rq_target_url := target; rq_method := Some m; rq_headers := effective; rq_body := b;
                         rq_profile := profile_json ∘ pp_profile <$> prepared |} |}.

(** Everything up to the call of [serve]: an error reply, or the verified ticket
    and the request.  Nothing is awaited in between. *)
Definition authorize (clock : Z) (requestFrame : buffer) (session : SecureSession) (deps : DataPlaneServeDeps)
  (replay : JtiReplayCache) : result ((string * string) + VerifiedRequestTicket * ProxyServeRequest) * JtiReplayCache :=
  match parse_request session requestFrame with
  | Throw e => (Ok (inl ("bad_request", errorMessage e)), replay)
  | Ok payload =>
      match b ← decodeBody (get "body" payload) (get "body_encoding" payload);
            m ← text_or "GET" (get "method" payload);
            Ok (b, toUpperCase m) with
      | Throw e => (Throw e, replay)
      | Ok (b, m) =>
          match plan_request payload m b with
          | Throw e => (Ok (inl ("bad_request", errorMessage e)), replay)
          | Ok plan =>
              match verifyRequestTicket clock (dp_pinnedKey deps)
                {| rt_token := pl_token plan; rt_nodeId := dp_nodeId deps; rt_request := pl_dedupe plan;
                   rt_expectedScope := None; rt_now := None; rt_clockToleranceSec := None |} (Some replay) with
              | (Throw e, replay') => (Ok (inl ("unauthorized", errorMessage e)), default replay replay')
              | (Ok ticket, replay') => (Ok (inr (ticket, pl_request plan)), default replay replay')
              end
          end
      end
  end.

Definition resolveProxyResponse (clock : Z) (requestFrame : buffer) (session : SecureSession) (deps : DataPlaneServeDeps)
  (n : Node) : result Outcome * Node :=
  let '(a, replay) := authorize clock requestFrame session deps (n_replay n) in
  match a with
  | Throw e => (Throw e, {| n_replay := replay; n_cache := n_cache n |})
  | Ok (inl (code, message)) => (Ok (Refused code message), {| n_replay := replay; n_cache := n_cache n |})
  | Ok (inr (ticket, request)) =>
      let served := dp_serve deps request (n_cache n) in
      (Ok (Answered ticket request served), {| n_replay := replay; n_cache := sv_cache served |})
  end.

(** What the environment supplies to a connection of the node. *)
Record ConnectionInput := {
  cx_init : result buffer; cx_request : result buffer;
  cx_sendAccept : result unit; cx_sendResponse : result unit;
  cx_key : DhSecret; cx_nonce : buffer; cx_frameNonce : buffer; cx_now : Z; cx_clock : Z }.

(** The handshake half: the accept message and the session. *)
Definition accept_connection (x : ConnectionInput) (deps : DataPlaneServeDeps) : result (json * SecureSession) :=
  raw ← cx_init x;
  init ← decodeJson raw;
  acceptDataInit (cx_key x) (cx_nonce x) init (dp_identity deps) (dp_nodeId deps) (cx_now x).

Definition serveDataConnection (x : ConnectionInput) (deps : DataPlaneServeDeps) (n : Node)
  : list action * result Outcome * Node :=
  match accept_connection x deps with
  | Throw e => ([], Throw e, n)
  | Ok (accept, session) =>
      match cx_sendAccept x with
      | Throw e => ([], Throw e, n)
      | Ok _ =>
          let sent := [Sent (encodeJson accept)] in
          match cx_request x with
          | Throw e => (sent, Throw e, n)
          | Ok requestFrame =>
              match resolveProxyResponse (cx_clock x) requestFrame session deps n with
              | (Throw e, n) => (sent, Throw e, n)
              | (Ok o, n) =>
                  match sealFrame (cx_frameNonce x) (sendKey session) FRAME_TYPE.DATA 0 (encodeJson (response_of o)) with
                  | Throw e => (sent, Throw e, n)
                  | Ok raw =>
                      match cx_sendResponse x with
                      | Throw e => (sent, Throw e, n)
                      | Ok _ => (sent ++ [Sent raw; Closed 1000], Ok o, n)
                      end
                  end
              end
          end
      end
  end.

(** The WebSocket route: an error of the lookup or of the connection closes it
    with code 1011. *)
Definition route_connection (x : ConnectionInput) (resolve : result DataPlaneServeDeps) (n : Node)
  : list action * result Outcome * Node :=
  match resolve with
  | Throw e => ([Closed 1011], Throw e, n)
  | Ok deps =>
      match serveDataConnection x deps n with
      | (sent, Throw e, n) => (sent ++ [Closed 1011], Throw e, n)
      | done => done
      end
  end.

(** The connections of a process in the order in which their requests are resolved. *)
Fixpoint serve_all (l : list (ConnectionInput * result DataPlaneServeDeps)) (n : Node)
  : list (list action * result Outcome) * Node :=
  match l with
  | [] => ([], n)
  | (x, d) :: l =>
      let '(acts, o, n) := route_connection x d n in
      let '(rest, n) := serve_all l n in ((acts, o) :: rest, n)
  end.

(** ** The client *)

Record ClientRequest := {
  cr_target_url : string; cr_method : option string; cr_headers : option Headers; cr_body : RequestBody;
  cr_profile : option json }.

Definition normalizeBody (b : RequestBody) : option buffer :=
  match b with BufferBody b => Some b | TextBody s => Some (utf8 s) | _ => None end.

Definition request_payload (token : string) (r : ClientRequest) : json :=
  obj [("type", Some (JStr "proxy_request")); ("token", Some (JStr token)); ("target_url", Some (JStr (cr_target_url r)));
       ("method", JStr <$> cr_method r); ("headers", strings_json <$> cr_headers r);
       ("body", JStr ∘ toBase64 <$> normalizeBody (cr_body r));
       ("body_encoding", (fun _ => JStr "base64") <$> normalizeBody (cr_body r));
       ("profile", cr_profile r)].

(** After the answer to its init: the sealed request and the session. *)
Definition client_request (clock : Z) (frameNonce : buffer) (client : ClientDataHandshake) (nodeId pem token : string)
  (r : ClientRequest) (received : buffer) : result (buffer * SecureSession) :=
  accept ← decodeJson received;
  session ← deriveClientDataSession clock client accept nodeId pem None;
  raw ← sealFrame frameNonce (sendKey session) FRAME_TYPE.DATA 0 (encodeJson (request_payload token r));
  Ok (raw, session).

Definition client_response (session : SecureSession) (received : buffer) : result json :=
  opened ← openFrame (receiveKey session) received;
  let '(frame, plaintext) := opened in
  throw_if (negb (fp_type frame =? FRAME_TYPE.DATA)) (PlainError "data-plane: unexpected response frame type");;
  decodeJson plaintext.

(** [runDataRequest] over a transport whose answers are [accepted] and [answered]. *)
Definition runDataRequest (clock : Z) (key : DhSecret) (nonce frameNonce : buffer) (now : Z)
  (nodeId pem token : string) (r : ClientRequest) (accepted answered : result buffer) : list buffer * result json :=
  let client := createDataInit key nonce nodeId now in
  let first := encodeJson (cd_message client) in
  match received ← accepted; client_request clock frameNonce client nodeId pem token r received with
  | Throw e => ([first], Throw e)
  | Ok (raw, session) => ([first; raw], received ← answered; client_response session received)
  end.
End DataPlane.

(** ** Authorization *)

Section Authorization.
Context `{Hashing} `{Hkdf} `{KeyExchange} `{PemKeys} `{Aead} `{UrlApi}.

Lemma parse_request_inv session frame payload : parse_request session frame = Ok payload ->
  exists f m, openFrame (receiveKey session) frame = Ok (f, m) /\ fp_type f = FRAME_TYPE.DATA /\ decodeJson m = Ok payload /\
    get "token" payload = Some (JStr (text_field "token" payload)) /\ is_Some (as_string (get "target_url" payload)).
Proof.
  unfold parse_request. rewrite bind_ok. intros ([f m] & Ho & Hk). inv_ok. subst.
  exists f, m. apply negb_false_iff, Z.eqb_eq in Hm.
  match goal with H : negb (_ && _) = false |- _ => apply negb_false_iff in H; rewrite !andb_true_iff, !bool_decide_eq_true in H; destruct H as [[_ Ht] Hu] end.
  split_and!; try done. unfold text_field. destruct (get "token" payload) as [[]|]; cbn in Ht |- *; by destruct Ht.
Qed.

(** A granted request, and what the check did to the replay cache. *)
Lemma authorize_granted clock frame session deps c t r c' :
  authorize clock frame session deps c = (Ok (inr (t, r)), c') ->
  exists payload b m plan,
    parse_request session frame = Ok payload /\
    (decodeBody (get "body" payload) (get "body_encoding" payload) = Ok b /\
     exists m0, text_or "GET" (get "method" payload) = Ok m0 /\ m = toUpperCase m0) /\
    plan_request payload m b = Ok plan /\ r = pl_request plan /\
    check_request clock (dp_pinnedKey deps)
      {| rt_token := pl_token plan; rt_nodeId := dp_nodeId deps; rt_request := pl_dedupe plan;
         rt_expectedScope := None; rt_now := None; rt_clockToleranceSec := None |} = Ok t /\
    consume (jti (vr_claims t)) (exp (vr_claims t)) (unix_seconds clock) c = (true, c').
Proof.
  unfold authorize. destruct (parse_request session frame) as [payload|e] eqn:Ep; [|done].
  destruct (b ← decodeBody _ _; _) as [[b m]|e] eqn:Eb; [|done]. inv_ok. simplify_eq.
  destruct (plan_request payload _ b) as [plan|e] eqn:El; [|done].
  unfold verifyRequestTicket. destruct (check_request _ _ _) as [t'|e] eqn:Ec; [|done].
  unfold commit. cbn [rt_now default from_option id]. destruct (consume _ _ _ c) as [[] c0] eqn:Eco; [|done].
  cbn. intros [= -> <- <-]. eexists payload, b, _, plan. split_and!; eauto.
Qed.

(** Any other outcome records no id. *)
Lemma authorize_cases clock frame session deps c :
  let '(a, c') := authorize clock frame session deps c in
  (exists t r, a = Ok (inr (t, r))) \/ c' = c \/ exists j e, consume j e (unix_seconds clock) c = (false, c').
Proof.
  unfold authorize. destruct (parse_request session frame) as [payload|e]; [|by right; left].
  destruct (b ← decodeBody _ _; _) as [[b m]|e]; [|by right; left].
  destruct (plan_request payload _ b) as [plan|e]; [|by right; left].
  unfold verifyRequestTicket. destruct (check_request _ _ _) as [t'|e]; [|by right; left].
  unfold commit. cbn [rt_now default from_option id]. destruct (consume _ _ _ c) as [[] c0] eqn:Eco; cbn;
    [by left; eauto|right; right; eauto].
Qed.

(** One authorization in a history: the clock, and what the connection has. *)
Record Attempt := { at_clock : Z; at_frame : buffer; at_session : SecureSession; at_deps : DataPlaneServeDeps }.

Definition attempt (a : Attempt) (c : JtiReplayCache) := authorize (at_clock a) (at_frame a) (at_session a) (at_deps a) c.

Definition granted (a : result ((string * string) + VerifiedRequestTicket * ProxyServeRequest)) : bool :=
  match a with Ok (inr _) => true | _ => false end.

(** The authorizations of a process, in order: how many were granted, and the
    replay cache they leave. *)
Fixpoint attempts (l : list Attempt) (c : JtiReplayCache) : Z * JtiReplayCache :=
  match l with
  | [] => (0, c)
  | a :: l =>
      let '(o, c) := attempt a c in
      let '(n, c) := attempts l c in ((if granted o then 1 else 0) + n, c)
  end.

Lemma attempts_nonneg l c : 0 <= (attempts l c).1.
Proof.
  revert c. induction l as [|a l IH]; intros c; cbn; [lia|]. destruct (attempt a c) as [o c1].
  specialize (IH c1). destruct (attempts l c1). cbn in *. destruct (granted o); lia.
Qed.

Lemma attempt_tracked j e k a c : num_ltb (num_of_Z (unix_seconds (at_clock a))) e = true -> tracked j e k c ->
  (granted (attempt a c).1 = true -> k + 1 < maxEntries c) ->
  tracked j e (if granted (attempt a c).1 then k + 1 else k) (attempt a c).2 /\ maxEntries (attempt a c).2 = maxEntries c.
Proof.
  intros Hn Ht Hk. unfold attempt in *. destruct (authorize _ _ _ _ c) as [o c'] eqn:E.
  pose proof (authorize_cases (at_clock a) (at_frame a) (at_session a) (at_deps a) c) as Hc. rewrite E in Hc. cbn [fst snd] in *.
  destruct Hc as [(t & r & ->)|Hc].
  - apply authorize_granted in E as (? & ? & ? & ? & _ & _ & _ & _ & _ & Hco). cbn [granted] in *. specialize (Hk eq_refl).
    pose proof (consume_tracked j e k (jti (vr_claims t)) (exp (vr_claims t)) (unix_seconds (at_clock a)) c Hn Ht) as Hct.
    pose proof (consume_max (jti (vr_claims t)) (exp (vr_claims t)) (unix_seconds (at_clock a)) c) as Hm.
    rewrite Hco in Hct, Hm. cbn [fst snd] in *. auto.
  - assert (Ho : tracked j e k c' /\ maxEntries c' = maxEntries c).
    { destruct Hc as [->|(j' & e' & Hco)]; [done|].
      pose proof (consume_tracked j e k j' e' (unix_seconds (at_clock a)) c Hn Ht) as Hct.
      pose proof (consume_max j' e' (unix_seconds (at_clock a)) c) as Hm. rewrite Hco in Hct, Hm. cbn [fst snd] in *.
      split; [|done]. by apply Hct. }
    destruct Ho as [Ho Hm]. split; [|done]. eapply tracked_mono; [|exact Ho]. destruct (granted o); lia.
Qed.

Lemma attempts_tracked j e k l c :
  Forall (fun a => num_ltb (num_of_Z (unix_seconds (at_clock a))) e = true) l ->
  k + (attempts l c).1 < maxEntries c -> tracked j e k c ->
  tracked j e (k + (attempts l c).1) (attempts l c).2.
Proof.
  revert k c. induction l as [|a l IH]; intros k c Hl Hk Ht; cbn [attempts] in *.
  - cbn. by rewrite Z.add_0_r.
  - apply Forall_cons in Hl as [Ha Hl]. pose proof (attempt_tracked j e k a c Ha Ht) as Hat.
    destruct (attempt a c) as [o c1]. pose proof (attempts_nonneg l c1) as Hnn. cbn [fst snd] in *.
    specialize (IH (if granted o then k + 1 else k) c1 Hl). destruct (attempts l c1) as [n c2]. cbn [fst snd] in *.
    destruct Hat as [Ht1 Hm]; [intros Hg; rewrite Hg in Hk; lia|]. rewrite Hm in IH.
    eapply tracked_mono; [|apply IH]; [destruct (granted o); lia|destruct (granted o); lia|done].
Qed.

(** ** Properties *)

(** The profile hash of a request as it is served. *)
Definition served_profile_hash (r : ProxyServeRequest) : option string :=
  (fun j => hex_text (sha256 (utf8 (stringify (stableValue j))))) <$> rq_profile r.

(** The request that a payload asks for. *)
Record asked_for (payload : json) (r : ProxyServeRequest) : Prop := {
  af_target : get "target_url" payload = Some (JStr (rq_target_url r));
  af_method : exists m, text_or "GET" (get "method" payload) = Ok m /\ rq_method r = Some (toUpperCase m);
  af_body : decodeBody (get "body" payload) (get "body_encoding" payload) = Ok (rq_body r);
  af_profile : if truthy (get "profile" payload)
    then exists p, normalizeProxyProfileV1 (get "profile" payload) = Ok p /\ rq_profile r = Some (profile_json p) /\
           rq_headers r = Some (spread (fromEntries (filter (fun kv => is_control kv = false) (default [] (headers_of (get "headers" payload)))))
             (controlHeadersForNormalizedProfile p))
    else rq_profile r = None /\ rq_headers r = headers_of (get "headers" payload) }.

Lemma plan_asked_for payload m b plan token :
  plan_request payload m b = Ok plan -> decodeBody (get "body" payload) (get "body_encoding" payload) = Ok b ->
  (exists m0, text_or "GET" (get "method" payload) = Ok m0 /\ m = toUpperCase m0) ->
  get "token" payload = Some (JStr token) -> is_Some (as_string (get "target_url" payload)) ->
  asked_for payload (pl_request plan) /\ pl_token plan = token /\
  pl_dedupe plan = {| target_url := rq_target_url (pl_request plan); method := default "" (rq_method (pl_request plan));
    headers := default [] (rq_headers (pl_request plan)); body := rq_body (pl_request plan);
    profile_hash := served_profile_hash (pl_request plan) |}.
Proof.
  intros Hp Hb (m0 & Hm0 & ->) Ht [target Hu]. unfold plan_request in Hp. apply bind_ok in Hp as (prepared & Hpr & [= <-]).
  unfold text_field. rewrite Ht. split; [|split; [done|]].
  - split; cbn; [|eauto|done|].
    + destruct (get "target_url" payload) as [[]|]; cbn in Hu |- *; done.
    + destruct (truthy (get "profile" payload)); [|by injection Hpr as <-].
      apply fmap_result_ok in Hpr as (q & (? & _ & Hh)%prepare_profile_inv & ->). exists (pp_profile q). split_and!; [done|done|]. cbn. by rewrite Hh.
  - destruct (truthy (get "profile" payload)); [|by injection Hpr as <-].
    apply fmap_result_ok in Hpr as (q & (_ & Eh & _)%prepare_profile_inv & ->). unfold served_profile_hash. cbn. by rewrite Eh.
Qed.

(** C1: nothing is served without a ticket: when a connection serves a request, the
    frame opened under the session key as a DATA frame, its payload asked for exactly
    the request that is served (target, method, body, headers, and its profile in
    normal form, if it has one), the token in the payload is a ticket that verified
    under the pinned orchestrator key for this node, the subject of the ticket is the
    deduplication key of the served request and of the hash of the served profile, the
    ticket's id was unused and is now recorded, and the response is that of serving
    this request on the current cache. *)
Theorem data_plane_authorized clock frame session deps n t r s n' :
  resolveProxyResponse clock frame session deps n = (Ok (Answered t r s), n') ->
  (exists f m payload token kid, openFrame (receiveKey session) frame = Ok (f, m) /\ fp_type f = FRAME_TYPE.DATA /\
     decodeJson m = Ok payload /\ asked_for payload r /\ get "token" payload = Some (JStr token) /\
     verifyTicket clock token (dp_pinnedKey deps)
       {| expectedNodeId := dp_nodeId deps; expectedScope := None; now := None; clockToleranceSec := None |} =
       Ok {| vk_claims := vr_claims t; vk_kid := kid |}) /\
  generateDedupeKey {| target_url := rq_target_url r; method := default "" (rq_method r);
       headers := default [] (rq_headers r); body := rq_body r; profile_hash := served_profile_hash r |} = Ok (sub (vr_claims t)) /\
  jti (vr_claims t) ∉ keys (sweep (unix_seconds clock) (n_replay n)) /\ jti (vr_claims t) ∈ keys (n_replay n') /\
  s = dp_serve deps r (n_cache n) /\ n_cache n' = sv_cache s.
Proof.
  unfold resolveProxyResponse. destruct (authorize _ _ _ _ _) as [a c'] eqn:Ea.
  destruct a as [[[code msg]|[t' r']]|e]; [done| |done]. intros [= -> -> <- <-].
  apply authorize_granted in Ea as (payload & b & m & plan & Hp & [Hb Hm] & Hpl & -> & Hc & Hco).
  apply parse_request_inv in Hp as (f & p & Ho & Ht & Hd & Htok & Hu).
  destruct (plan_asked_for _ _ _ _ _ Hpl Hb Hm Htok Hu) as (Ha & Etok & Edd).
  apply check_request_ok in Hc as (Hv & Hk & _). cbn [rt_token rt_nodeId rt_request rt_expectedScope rt_now rt_clockToleranceSec] in Hv, Hk.
  rewrite Etok in Hv. rewrite Edd in Hk. apply consume_fresh_keys in Hco as [Hf Hi]. split; [|by split_and!].
  eexists f, p, payload, _, _. by split_and!.
Qed.

(** C2: a ticket is good for one request: once a request with ticket id [j] has
    been granted, no later request with that id is granted by any connection of
    the process, whatever happens in between, while the clock stays below the
    ticket's expiry and fewer than [maxEntries] other tickets are spent. *)
Theorem ticket_served_once (a0 a1 : Attempt) (l : list Attempt) c c0 t0 r0 t1 r1 :
  attempt a0 c = (Ok (inr (t0, r0)), c0) ->
  Forall (fun a => num_ltb (num_of_Z (unix_seconds (at_clock a))) (exp (vr_claims t0)) = true) (l ++ [a1]) ->
  (attempts l c0).1 < maxEntries c ->
  (attempt a1 (attempts l c0).2).1 = Ok (inr (t1, r1)) ->
  jti (vr_claims t1) <> jti (vr_claims t0).
Proof.
  intros E0 Hl Hk E1 Hj. apply Forall_app in Hl as [Hl Ha]. apply Forall_cons in Ha as [Ha _].
  unfold attempt in E0. apply authorize_granted in E0 as (? & ? & ? & ? & _ & _ & _ & _ & _ & Hco).
  pose proof (consume_max (jti (vr_claims t0)) (exp (vr_claims t0)) (unix_seconds (at_clock a0)) c) as Hm.
  rewrite Hco in Hm. cbn [snd] in Hm. apply consume_fresh in Hco.
  pose proof (attempts_tracked _ _ 0 l c0 Hl ltac:(lia) Hco) as Ht.
  unfold attempt in E1. destruct (authorize _ _ _ _ _) as [o c1] eqn:E; cbn [fst] in E1. subst o.
  apply authorize_granted in E as (? & ? & ? & ? & _ & _ & _ & _ & _ & Hco1).
  apply consume_fresh_keys in Hco1 as [Hf _]. apply Hf. rewrite Hj.
  eapply tracked_key, sweep_tracked; [exact Ha|exact Ht].
Qed.
End Authorization.

Section RoundTrip.
Context `{HashingLaws} `{HkdfLaws} `{KeyExchangeLaws} `{PemKeys} `{!SigningLaws} `{AeadLaws} `{UrlApi}.

Lemma decode_encode v : wf_json v = true -> decodeJson (encodeJson v) = Ok v.
Proof. intros Hv. unfold decodeJson, encodeJson. rewrite utf8_text_utf8. by apply JSON_parse_stringify. Qed.

Definition fits (v : json) : Prop := wf_json v = true /\ Z.of_nat (length (encodeJson v)) <= 0xffffffff.

(** What one end seals the other opens. *)
Lemma seal_open_json nonce key v : length nonce = NONCE_BYTES -> length key = KEY_BYTES -> fits v ->
  exists raw f, sealFrame nonce key FRAME_TYPE.DATA 0 (encodeJson v) = Ok raw /\
    openFrame key raw = Ok (f, encodeJson v) /\ fp_type f = FRAME_TYPE.DATA.
Proof.
  intros Hn Hk [_ Hl]. destruct (seal_open nonce key FRAME_TYPE.DATA 0 (encodeJson v)) as (raw & c & tag & Hs & Ho); try done.
  - apply (bool_decide_unpack _). vm_compute. exact I.
  - eexists raw, _. split; [done|]. by split; [exact Ho|].
Qed.

Lemma data_init_wf a cn nodeId t0 : small_num t0 -> wf_json (cd_message (createDataInit a cn nodeId t0)) = true.
Proof.
  intros Ht%canonical_small. apply wf_object_intro; [by repeat constructor|]. cbn -[num_of_Z]. repeat constructor; done.
Qed.

Lemma accept_message_wf nk sid proof : wf_json proof = true -> wf_json (accept_message nk sid proof) = true.
Proof. intros Hp. apply wf_object_intro; [by repeat constructor|]. cbn -[num_of_Z]. repeat constructor; done. Qed.

(** The checks of a request payload on the payload the client writes. *)
Lemma parse_request_payload session raw f token r :
  openFrame (receiveKey session) raw = Ok (f, encodeJson (request_payload token r)) -> fp_type f = FRAME_TYPE.DATA ->
  wf_json (request_payload token r) = true ->
  parse_request session raw = Ok (request_payload token r).
Proof.
  intros Ho Ht Hw. unfold parse_request. rewrite Ho. cbn [mbind result_bind]. rewrite Ht, decode_encode by done.
  set (p := request_payload token r).
  replace (get "type" p) with (Some (JStr "proxy_request")) by done.
  replace (get "token" p) with (Some (JStr token)) by done.
  replace (get "target_url" p) with (Some (JStr (cr_target_url r))) by done.
  cbn [as_string mbind result_bind]. rewrite (bool_decide_false (p = JNull)) by done.
  rewrite !bool_decide_true by (done || by eexists). done.
Qed.

(** Everything an honest run depends on: the keys of the two ends, nonces of the
    right length, clocks the handshake accepts. *)
Record honest (clock : Z) (cn nn fn1 : buffer) (t0 : Z) (x : ConnectionInput) (deps : DataPlaneServeDeps)
  (sk : SecretKey) : Prop := {
  hn_node : dp_nodeId deps <> "";
  hn_nonces : (16 <= length cn)%nat /\ (16 <= length (cx_nonce x))%nat;
  hn_frames : length fn1 = NONCE_BYTES /\ length (cx_frameNonce x) = NONCE_BYTES;
  hn_identity : key_pair (privateKeyPem (dp_identity deps)) (publicKeyPem (dp_identity deps)) sk;
  hn_clock : cx_now x - DEFAULT_CLOCK_TOLERANCE_SEC <= clock / 1000 <=
             cx_now x + DEFAULT_MAX_AGE_SEC + DEFAULT_CLOCK_TOLERANCE_SEC;
  hn_times : small_num t0 /\ small_num (cx_now x);
  hn_sends : cx_sendAccept x = Ok tt /\ cx_sendResponse x = Ok tt }.

Lemma serve_steps x deps n b init m session frame o n' raw :
  cx_init x = Ok b -> decodeJson b = Ok init ->
  acceptDataInit (cx_key x) (cx_nonce x) init (dp_identity deps) (dp_nodeId deps) (cx_now x) = Ok (m, session) ->
  cx_sendAccept x = Ok tt -> cx_request x = Ok frame ->
  resolveProxyResponse (cx_clock x) frame session deps n = (Ok o, n') ->
  sealFrame (cx_frameNonce x) (sendKey session) FRAME_TYPE.DATA 0 (encodeJson (response_of o)) = Ok raw ->
  cx_sendResponse x = Ok tt ->
  serveDataConnection x deps n = ([Sent (encodeJson m); Sent raw; Closed 1000], Ok o, n').
Proof.
  intros E1 E2 E3 E4 E5 E6 E7 E8. unfold serveDataConnection, accept_connection. rewrite E1. cbn [mbind result_bind].
  rewrite E2. cbn [mbind result_bind]. by rewrite E3, E4, E5, E6, E7, E8.
Qed.

Lemma client_steps clock a cn fn1 t0 nodeId pem token r accepted answered m s raw f p v :
  decodeJson accepted = Ok m ->
  deriveClientDataSession clock (createDataInit a cn nodeId t0) m nodeId pem None = Ok s ->
  sealFrame fn1 (sendKey s) FRAME_TYPE.DATA 0 (encodeJson (request_payload token r)) = Ok raw ->
  openFrame (receiveKey s) answered = Ok (f, p) -> fp_type f = FRAME_TYPE.DATA -> decodeJson p = Ok v ->
  runDataRequest clock a cn fn1 t0 nodeId pem token r (Ok accepted) (Ok answered) =
  ([encodeJson (cd_message (createDataInit a cn nodeId t0)); raw], Ok v).
Proof.
  intros E1 E2 E3 E4 E5 E6. unfold runDataRequest, client_request. cbn [mbind result_bind]. rewrite E1. cbn [mbind result_bind].
  rewrite E2. cbn [mbind result_bind]. rewrite E3. cbn [mbind result_bind]. unfold client_response. rewrite E4.
  cbn [mbind result_bind]. by rewrite E5, E6.
Qed.

(** C3: a connection between an honest client and an honest node carries one
    request and its response intact: the node reads exactly the payload the
    client wrote, and, whatever the node answers, it sends the accept message and
    one sealed frame and closes with code 1000, and the client returns that
    answer. *)
Theorem data_plane_roundtrip clock a cn fn1 t0 x deps sk n token r :
  honest clock cn (cx_nonce x) fn1 t0 x deps sk -> fits (request_payload token r) ->
  let first := encodeJson (cd_message (createDataInit a cn (dp_nodeId deps) t0)) in
  exists accept raw1 session,
    parse_request session raw1 = Ok (request_payload token r) /\
    forall o n', cx_init x = Ok first -> cx_request x = Ok raw1 ->
      resolveProxyResponse (cx_clock x) raw1 session deps n = (Ok o, n') -> fits (response_of o) ->
      exists raw2,
        serveDataConnection x deps n = ([Sent accept; Sent raw2; Closed 1000], Ok o, n') /\
        runDataRequest clock a cn fn1 t0 (dp_nodeId deps) (publicKeyPem (dp_identity deps)) token r (Ok accept) (Ok raw2) =
          ([first; raw1], Ok (response_of o)).
Proof.
  intros [Hn [Hcn Hnn] [Hf1 Hf2] Hk Ht [Ht0 Ht1] [Hsa Hsr]] Hreq first.
  destruct (honest_run clock a (cx_key x) cn (cx_nonce x) (dp_nodeId deps) t0 (cx_now x) (dp_identity deps) sk None
              Hn Hcn Hnn Hk Ht) as (hp & sg & s & s' & -> & Ha & Hs & _ & Hsend & Hrecv).
  set (m := accept_message _ _ _) in *.
  assert (Hwm : wf_json m = true) by (apply accept_message_wf; by apply honest_proof_wf).
  assert (Hkeys : length (sendKey s) = KEY_BYTES /\ length (receiveKey s) = KEY_BYTES).
  { apply derive_client_inv in Hs as (? & ? & ? & _ & _ & _ & _ & _ & _ & Hd). by eapply derive_key_length. }
  destruct (seal_open_json fn1 (sendKey s) (request_payload token r) Hf1 (proj1 Hkeys) Hreq) as (raw1 & f1 & Hs1 & Ho1 & Hf1t).
  exists (encodeJson m), raw1, s'. rewrite Hsend in Ho1. split; [by eapply parse_request_payload; [exact Ho1|done|apply Hreq]|].
  intros o n' Hi Hr Hres Hfit. rewrite Hrecv in Hkeys.
  destruct (seal_open_json (cx_frameNonce x) (sendKey s') (response_of o) Hf2 (proj2 Hkeys) Hfit) as (raw2 & f2 & Hs2 & Ho2 & Hf2t).
  exists raw2. split.
  - by eapply serve_steps; [exact Hi|by apply decode_encode, data_init_wf|exact Ha|..].
  - by eapply client_steps; [by apply decode_encode|exact Hs|exact Hs1|rewrite Hrecv; exact Ho2|exact Hf2t|by apply decode_encode, Hfit].
Qed.
End RoundTrip.

Module Demo.
Definition target : string := "https://a.io/v1".
Definition params : DedupeParams :=
  {| target_url := target; method := "GET"; headers := [("accept", "text/html")]; body := NoBody; profile_hash := None |}.
Definition key : string := ok_or "" (@generateDedupeKey Toy.hashing ToyUrl.api params).
Definition token_for (j : string) : string := @issueTicket Toy.signing 0
  {| in_nodeId := "n1"; in_dedupeKey := key; in_jti := j; in_ttlSec := None; in_scope := None; in_now := Some 1000 |} 3 "k1".
Definition token : string := token_for "j1".
Definition request : ClientRequest :=
  {| cr_target_url := target; cr_method := Some "get"; cr_headers := Some [("accept", "text/html")]; cr_body := NoBody;
     cr_profile := None |}.
Definition session : SecureSession :=
  {| sessionId := "s"; sendKey := be_encode 32 8; receiveKey := be_encode 32 7 |}.
Definition frame_for (token : string) : buffer :=
  ok_or [] (@sealFrame Toy.aead (be_encode 12 5) (be_encode 32 7) FRAME_TYPE.DATA 0 (encodeJson (request_payload token request))).
Definition frame : buffer := frame_for token.
Definition answer : ProxyResult :=
  {| ProxyServe.status := 200; statusText := "OK"; res_headers := []; res_body := utf8 "hi"; cached := Some false; res_profile_hash := None |}.
Definition identity : NodeIdentity := {| privateKeyPem := "7"; publicKeyPem := "7" |}.
Definition deps : @DataPlaneServeDeps Toy.signing :=
  @Build_DataPlaneServeDeps Toy.signing "n1" identity 3
    (fun _ c => {| sv_result := Ok answer; sv_cache := c; sv_fetched := [] |}).
Definition node : Node := {| n_replay := new_cache 10; n_cache := [] |}.
Definition resolve (n : Node) : result Outcome * Node :=
  @resolveProxyResponse Toy.hashing Toy.signing Toy.aead ToyUrl.api 1010000 frame session deps n.
Definition outcome : Outcome := ok_or (Refused "" "") (resolve node).1.
Definition ticket_in (o : Outcome) : option VerifiedRequestTicket := match o with Answered t _ _ => Some t | _ => None end.
Definition ticket : option VerifiedRequestTicket := ticket_in outcome.
Definition no_ticket : VerifiedRequestTicket :=
  {| vr_claims := {| iss := ""; aud := ""; sub := ""; scope := ""; iat := NaN; exp := NaN; jti := "" |}; vr_kid := JNull; vr_dedupeKey := "" |}.
Definition granted_ticket : VerifiedRequestTicket := default no_ticket ticket.
Definition served_request : ProxyServeRequest :=
  {| rq_target_url := target; rq_method := Some "GET"; rq_headers := Some [("accept", "text/html")]; rq_body := NoBody;
     rq_profile := None |}.
Definition served : Served := {| sv_result := Ok answer; sv_cache := []; sv_fetched := [] |}.
Definition after : Node := (resolve node).2.
Definition attempt_at (clock : Z) (j : string) : @Attempt Toy.signing :=
  @Build_Attempt Toy.signing clock (frame_for (token_for j)) session deps.
Definition try (a : @Attempt Toy.signing) (c : JtiReplayCache) := @attempt Toy.hashing Toy.signing Toy.aead ToyUrl.api a c.
Definition ticket_of (a : result ((string * string) + VerifiedRequestTicket * ProxyServeRequest)) : VerifiedRequestTicket :=
  match a with Ok (inr (t, _)) => t | _ => no_ticket end.
Definition between : list (@Attempt Toy.signing) := [attempt_at 1011000 "j1"; attempt_at 1012000 "j2"].
Definition cache1 : JtiReplayCache := (try (attempt_at 1010000 "j1") (new_cache 10)).2.
Definition cache2 : JtiReplayCache := (@attempts Toy.hashing Toy.signing Toy.aead ToyUrl.api between cache1).2.
Definition ticket1 : VerifiedRequestTicket := ticket_of (try (attempt_at 1010000 "j1") (new_cache 10)).1.
Definition ticket3 : VerifiedRequestTicket := ticket_of (try (attempt_at 1013000 "j3") cache2).1.
Definition connection : @ConnectionInput Toy.key_exchange :=
  @Build_ConnectionInput Toy.key_exchange (Ok []) (Ok []) (Ok tt) (Ok tt) 11 (be_encode 16 22) (be_encode 12 6) 1000 1010000.
Strategy expand [key token_for token frame_for frame attempt_at try between cache1 cache2 ticket1 ticket3 resolve outcome ticket granted_ticket after].
End Demo.

Lemma data_plane_authorized_witness :
  (exists f m payload token kid, @openFrame Toy.aead (receiveKey Demo.session) Demo.frame = Ok (f, m) /\ fp_type f = FRAME_TYPE.DATA /\
     decodeJson m = Ok payload /\ @asked_for ToyUrl.api payload Demo.served_request /\ get "token" payload = Some (JStr token) /\
     @verifyTicket Toy.signing 1010000 token 3
       {| expectedNodeId := "n1"; expectedScope := None; now := None; clockToleranceSec := None |} =
       Ok {| vk_claims := vr_claims Demo.granted_ticket; vk_kid := kid |}) /\
  @generateDedupeKey Toy.hashing ToyUrl.api
     {| target_url := Demo.target; method := "GET"; headers := [("accept", "text/html")]; body := NoBody; profile_hash := None |} =
     Ok (sub (vr_claims Demo.granted_ticket)) /\
  jti (vr_claims Demo.granted_ticket) ∉ keys (sweep (unix_seconds 1010000) (n_replay Demo.node)) /\
  jti (vr_claims Demo.granted_ticket) ∈ keys (n_replay Demo.after) /\
  Demo.served = dp_serve Demo.deps Demo.served_request (n_cache Demo.node) /\ n_cache Demo.after = sv_cache Demo.served.
Proof.
  apply (@data_plane_authorized Toy.hashing Toy.signing Toy.aead ToyUrl.api 1010000 Demo.frame Demo.session Demo.deps
           Demo.node Demo.granted_ticket Demo.served_request Demo.served Demo.after).
  vm_compute. reflexivity.
Defined.

Lemma ticket_served_once_witness : jti (vr_claims Demo.ticket3) <> jti (vr_claims Demo.ticket1).
Proof.
  apply (@ticket_served_once Toy.hashing Toy.signing Toy.aead ToyUrl.api (Demo.attempt_at 1010000 "j1") (Demo.attempt_at 1013000 "j3")
    Demo.between (new_cache 10) Demo.cache1 Demo.ticket1 Demo.served_request Demo.ticket3 Demo.served_request).
  - vm_compute. reflexivity.
  - apply (bool_decide_unpack _). vm_compute. exact I.
  - vm_compute. reflexivity.
  - vm_compute. reflexivity.
Defined.

Lemma data_plane_roundtrip_witness :
  exists accept raw1 session,
    @parse_request Toy.aead session raw1 = Ok (request_payload Demo.token Demo.request) /\
    forall o n', cx_init Demo.connection = Ok (encodeJson (cd_message (@createDataInit Toy.key_exchange 5 (be_encode 16 21) "n1" 999))) ->
      cx_request Demo.connection = Ok raw1 ->
      @resolveProxyResponse Toy.hashing Toy.signing Toy.aead ToyUrl.api (cx_clock Demo.connection) raw1 session Demo.deps Demo.node = (Ok o, n') ->
      fits (response_of o) ->
      exists raw2,
        @serveDataConnection Toy.hashing Toy.hkdf_toy Toy.key_exchange Toy.signing ToyPem.pem_keys Toy.aead ToyUrl.api
          Demo.connection Demo.deps Demo.node = ([Sent accept; Sent raw2; Closed 1000], Ok o, n') /\
        @runDataRequest Toy.hashing Toy.hkdf_toy Toy.key_exchange Toy.signing ToyPem.pem_keys Toy.aead
          1000000 5 (be_encode 16 21) (be_encode 12 9) 999 "n1" "7" Demo.token Demo.request (Ok accept) (Ok raw2) =
          ([encodeJson (cd_message (@createDataInit Toy.key_exchange 5 (be_encode 16 21) "n1" 999)); raw1], Ok (response_of o)).
Proof.
  apply (@data_plane_roundtrip Toy.hashing Toy.hashing_laws Toy.hkdf_toy Toy.hkdf_laws Toy.key_exchange Toy.key_exchange_laws
    Toy.signing ToyPem.pem_keys Toy.signing_laws Toy.aead Toy.aead_laws ToyUrl.api 1000000 5 (be_encode 16 21) (be_encode 12 9) 999
    Demo.connection Demo.deps 7 Demo.node Demo.token Demo.request).
  - split.
    + discriminate.
    + change (cx_nonce Demo.connection) with (be_encode 16 22). rewrite !be_encode_length. split; lia.
    + change (cx_frameNonce Demo.connection) with (be_encode 12 6). by rewrite !be_encode_length.
    + split; reflexivity.
    + split; vm_compute; discriminate.
    + split; vm_compute; reflexivity.
    + split; reflexivity.
  - split; [vm_compute; reflexivity|]. vm_compute. discriminate.
Defined.
