(* ===== verification/Channel.v ===== *)
(** * Message channels of the data plane (clients/data-plane-stream.ts,
    runtime/data-route.ts)

    The transport under a data-plane session: messages pushed by the network wait
    in [inbox] until a [recv] takes them, and [recv] calls wait in [waiters] until
    a message or a failure comes.  Calls of [recv] are numbered; [recvs] holds how
    each was settled. *)

From S2P Require Import Prelude.

Section Channel.
Context {D : Type}.

Record Channel := {
  inbox : list D; waiters : list nat; failure : option exn; recvs : list (option (result D)) }.

Definition new_channel : Channel := {| inbox := []; waiters := []; failure := None; recvs := [] |}.

(** The n-th call is settled. *)
Definition settle_recv (n : nat) (r : result D) (l : list (option (result D))) : list (option (result D)) :=
  <[n := Some r]> l.

Definition push (data : D) (c : Channel) : Channel :=
  match waiters c with
  | n :: ws => {| inbox := inbox c; waiters := ws; failure := failure c; recvs := settle_recv n (Ok data) (recvs c) |}
  | [] => {| inbox := inbox c ++ [data]; waiters := []; failure := failure c; recvs := recvs c |}
  end.

Definition fail (reason : exn) (c : Channel) : Channel :=
  {| inbox := inbox c; waiters := []; failure := Some reason;
     recvs := fold_left (fun l n => settle_recv n (Throw reason) l) (waiters c) (recvs c) |}.

Definition recv (c : Channel) : Channel :=
  match inbox c with
  | buffered :: rest => {| inbox := rest; waiters := waiters c; failure := failure c; recvs := recvs c ++ [Some (Ok buffered)] |}
  | [] =>
      match failure c with
      | Some e => {| inbox := []; waiters := waiters c; failure := failure c; recvs := recvs c ++ [Some (Throw e)] |}
      | None => {| inbox := []; waiters := waiters c ++ [length (recvs c)]; failure := None; recvs := recvs c ++ [None] |}
      end
  end.

Inductive event :=
| Push (data : D)
| Fail (reason : exn)
| Recv.

Definition step (e : event) (c : Channel) : Channel :=
  match e with Push d => push d c | Fail r => fail r c | Recv => recv c end.

Definition run (l : list event) (c : Channel) : Channel := fold_left (fun c e => step e c) l c.

(** ** The specification: a queue

    Messages leave in the order they came; a call is answered by the next message
    or, when there is none, by the failure. *)

Record Queue := { q_pushed : list D; q_taken : nat; q_answers : list (result D); q_calls : nat; q_failed : option exn }.

Definition new_queue : Queue := {| q_pushed := []; q_taken := 0; q_answers := []; q_calls := 0; q_failed := None |}.

(** Calls not answered yet. *)
Definition waiting (q : Queue) : nat := q_calls q - length (q_answers q).

Definition spec_step (e : event) (q : Queue) : Queue :=
  match e with
  | Push d =>
      if decide (waiting q = 0)%nat
      then {| q_pushed := q_pushed q ++ [d]; q_taken := q_taken q; q_answers := q_answers q; q_calls := q_calls q; q_failed := q_failed q |}
      else {| q_pushed := q_pushed q ++ [d]; q_taken := S (q_taken q); q_answers := q_answers q ++ [Ok d];
              q_calls := q_calls q; q_failed := q_failed q |}
  | Fail e => {| q_pushed := q_pushed q; q_taken := q_taken q; q_answers := q_answers q ++ replicate (waiting q) (Throw e);
                 q_calls := q_calls q; q_failed := Some e |}
  | Recv =>
      match q_pushed q !! q_taken q with
      | Some d => {| q_pushed := q_pushed q; q_taken := S (q_taken q); q_answers := q_answers q ++ [Ok d];
                     q_calls := S (q_calls q); q_failed := q_failed q |}
      | None =>
          {| q_pushed := q_pushed q; q_taken := q_taken q;
             q_answers := match q_failed q with Some e => q_answers q ++ [Throw e] | None => q_answers q end;
             q_calls := S (q_calls q); q_failed := q_failed q |}
      end
  end.

Definition spec_run (l : list event) (q : Queue) : Queue := fold_left (fun q e => spec_step e q) l q.

(** The abstraction relation. *)
Record implements (c : Channel) (q : Queue) : Prop := {
  im_inbox : drop (q_taken q) (q_pushed q) = inbox c;
  im_taken : (q_taken q <= length (q_pushed q))%nat;
  im_oks : take (q_taken q) (q_pushed q) = omap (fun r => match r with Ok d => Some d | Throw _ => None end) (q_answers q);
  im_recvs : recvs c = (Some <$> q_answers q) ++ replicate (length (waiters c)) None;
  im_waiters : waiters c = seq (length (q_answers q)) (length (waiters c));
  im_calls : q_calls q = (length (q_answers q) + length (waiters c))%nat;
  im_failed : failure c = q_failed q;
  im_idle : waiters c = [] \/ (inbox c = [] /\ failure c = None) }.

Lemma im_waiting c q : implements c q -> waiting q = length (waiters c).
Proof. intros H. unfold waiting. rewrite (im_calls _ _ H). lia. Qed.

Lemma settle_first (rs : list (result D)) k r :
  settle_recv (length rs) r ((Some <$> rs) ++ replicate (S k) None) = (Some <$> (rs ++ [r])) ++ replicate k None.
Proof.
  unfold settle_recv. rewrite insert_app_r_alt by (by rewrite length_fmap). rewrite length_fmap, Nat.sub_diag.
  cbn. by rewrite fmap_app, <- app_assoc.
Qed.

Lemma settle_all e k (rs : list (result D)) :
  fold_left (fun l n => settle_recv n (Throw e) l) (seq (length rs) k) ((Some <$> rs) ++ replicate k None) =
  Some <$> (rs ++ replicate k (Throw e)).
Proof.
  revert rs. induction k as [|k IH]; intros rs; [by rewrite !app_nil_r|].
  cbn [seq fold_left]. rewrite settle_first. replace (S (length rs)) with (length (rs ++ [Throw e])) by (rewrite length_app; cbn; lia).
  rewrite IH. by rewrite <- app_assoc.
Qed.

Lemma implements_step e c q : implements c q -> implements (step e c) (spec_step e q).
Proof.
  intros Hi. pose proof (im_waiting _ _ Hi) as Hw. destruct Hi as [H1 H2 H3 H4 H5 H6 H7 H8].
  destruct c as [ib ws f rv]; cbn [inbox waiters failure recvs] in *. destruct e as [d|e|]; cbn [step spec_step].
  - unfold push. cbn [inbox waiters failure recvs]. rewrite Hw. destruct ws as [|n ws]; cbn [length].
    + destruct (decide _) as [_|?]; [|lia]. split; cbn; try done.
      * rewrite drop_app_le by lia. by rewrite H1.
      * rewrite length_app. cbn. lia.
      * rewrite take_app_le by lia. done.
      * by left.
    + destruct (decide _) as [?|_]; [lia|]. destruct H8 as [|[-> ->]]; [done|]. cbn [length] in *.
      assert (Hq : q_taken q = length (q_pushed q)).
      { apply (f_equal length) in H1. rewrite length_drop in H1. cbn in H1. lia. }
      injection H5 as -> H5. split; cbn [inbox waiters failure recvs q_pushed q_taken q_answers q_calls q_failed].
      * rewrite Hq, drop_ge; [done|]. rewrite length_app. cbn. lia.
      * rewrite length_app. cbn. lia.
      * rewrite omap_app, <- H3, Hq, !take_ge; [done|lia|rewrite length_app; cbn; lia].
      * rewrite H4. apply settle_first.
      * rewrite length_app. cbn. by rewrite Nat.add_1_r.
      * rewrite length_app. cbn. lia.
      * done.
      * by right.
  - unfold fail. cbn [inbox waiters failure recvs]. rewrite Hw. split; cbn; try done.
    + rewrite omap_app, <- H3. clear. induction (length ws) as [|k IH]; cbn; [by rewrite app_nil_r|done].
    + rewrite app_nil_r, H4. remember (length ws) as k. rewrite H5. apply settle_all.
    + rewrite length_app, length_replicate. lia.
    + by left.
  - unfold recv. cbn [inbox waiters failure recvs]. destruct ib as [|b ib].
    + assert (Hn : q_pushed q !! q_taken q = None).
      { apply lookup_ge_None. apply (f_equal length) in H1. rewrite length_drop in H1. cbn in H1. lia. }
      rewrite Hn, <- H7. destruct f as [e|]; split; cbn; try done.
      * by rewrite omap_app, app_nil_r.
      * destruct H8 as [->|[_ ?]]; [|done]. cbn in *. rewrite H4, !app_nil_r. by rewrite fmap_app.
      * destruct H8 as [->|[_ ?]]; done.
      * rewrite length_app. cbn. lia.
      * rewrite H4, length_app. cbn. rewrite replicate_add. by rewrite app_assoc.
      * remember (length ws) as k. rewrite length_app, H4, length_app, length_fmap, length_replicate. cbn [length]. rewrite seq_app, <- Heqk. by rewrite <- H5.
      * rewrite length_app. cbn. lia.
      * by right.
    + assert (Hs : q_pushed q !! q_taken q = Some b).
      { rewrite <- (Nat.add_0_r (q_taken q)), <- lookup_drop, H1. done. }
      rewrite Hs. destruct H8 as [->|[? _]]; [|done]. split; cbn.
      * rewrite (drop_S (q_pushed q) b) in H1 by done. by injection H1.
      * apply lookup_lt_Some in Hs. lia.
      * rewrite omap_app, <- H3. by rewrite (take_S_r _ _ b).
      * rewrite H4. cbn. rewrite !app_nil_r. by rewrite fmap_app.
      * done.
      * rewrite length_app. cbn in *. lia.
      * done.
      * by left.
Qed.

Lemma implements_run l c q : implements c q -> implements (run l c) (spec_run l q).
Proof.
  revert c q. induction l as [|e l IH]; intros c q H; [done|]. cbn. by apply IH, implements_step.
Qed.

Lemma implements_new : implements new_channel new_queue.
Proof. split; cbn; (done || by left). Qed.
End Channel.
Arguments Channel : clear implicits.
Arguments event : clear implicits.
Arguments Queue : clear implicits.

(** ** The stream adapter: [startDataPlaneStream] *)

Definition PlainReason (e : exn) : exn := PlainError (errorMessage e).

Record DataPlaneStream := {
  ds_channel : Channel buffer; ds_closed : bool; ds_running : bool;
  sendClose_calls : list string; onError_calls : list exn; onDone_calls : nat }.

Definition start : DataPlaneStream :=
  {| ds_channel := new_channel; ds_closed := false; ds_running := true; sendClose_calls := []; onError_calls := []; onDone_calls := 0 |}.

Definition on_channel (f : Channel buffer -> Channel buffer) (s : DataPlaneStream) : DataPlaneStream :=
  {| ds_channel := f (ds_channel s); ds_closed := ds_closed s; ds_running := ds_running s;
     sendClose_calls := sendClose_calls s; onError_calls := onError_calls s; onDone_calls := onDone_calls s |}.

Definition closeOnce (reason : string) (s : DataPlaneStream) : DataPlaneStream :=
  if ds_closed s then s
  else {| ds_channel := ds_channel s; ds_closed := true; ds_running := ds_running s;
          sendClose_calls := sendClose_calls s ++ [reason]; onError_calls := onError_calls s; onDone_calls := onDone_calls s |}.

Definition stream_fail (reason : exn) (s : DataPlaneStream) : DataPlaneStream :=
  {| ds_channel := fail reason (ds_channel s); ds_closed := true; ds_running := ds_running s;
     sendClose_calls := sendClose_calls s; onError_calls := onError_calls s; onDone_calls := onDone_calls s |}.

(** The session ends: [resolveDeps] or [serveDataConnection] returned or threw. *)
Definition finish (outcome : result unit) (s : DataPlaneStream) : DataPlaneStream :=
  if ds_running s then
    let s := closeOnce "data-plane closed"
      {| ds_channel := ds_channel s; ds_closed := ds_closed s; ds_running := false; sendClose_calls := sendClose_calls s;
         onError_calls := match outcome with Ok _ => onError_calls s | Throw e => onError_calls s ++ [e] end;
         onDone_calls := onDone_calls s |} in
    {| ds_channel := ds_channel s; ds_closed := ds_closed s; ds_running := ds_running s;
       sendClose_calls := sendClose_calls s; onError_calls := onError_calls s; onDone_calls := S (onDone_calls s) |}
  else s.

Inductive stream_event :=
| StreamPush (data : buffer)
| StreamFail (reason : exn)
| StreamRecv
| StreamClose
| StreamFinish (outcome : result unit).

Definition stream_step (e : stream_event) (s : DataPlaneStream) : DataPlaneStream :=
  match e with
  | StreamPush d => on_channel (push d) s
  | StreamFail r => stream_fail r s
  | StreamRecv => on_channel recv s
  | StreamClose => closeOnce "data-plane complete" s
  | StreamFinish o => finish o s
  end.

Definition stream_run (l : list stream_event) (s : DataPlaneStream) : DataPlaneStream :=
  fold_left (fun s e => stream_step e s) l s.

(** ** The WebSocket adapter: [wsServerTransport] *)

Inductive RawWsData :=
| WsBuffer (b : buffer)
| WsFragments (l : list buffer)
| WsArrayBuffer (b : buffer).

Definition toBuffer (data : RawWsData) : buffer :=
  match data with WsBuffer b | WsArrayBuffer b => b | WsFragments l => concat l end.

Inductive ws_event :=
| WsMessage (data : RawWsData)
| WsClose
| WsError (e : exn)
| WsRecv.

(** The handlers of the socket, as events of the channel. *)
Definition ws_channel_event (e : ws_event) : event buffer :=
  match e with
  | WsMessage data => Push (toBuffer data)
  | WsClose => Fail (PlainError "connection closed")
  | WsError e => Fail e
  | WsRecv => Recv
  end.

Definition ws_run (l : list ws_event) (c : Channel buffer) : Channel buffer := run (map ws_channel_event l) c.

(** ** Properties *)

(** C21: neither adapter loses, repeats or reorders a message: after any interleaving
    of messages, failures and [recv] calls the channel implements the queue
    specification - the messages taken are the first ones pushed, in order, the
    calls are answered in call order, each once, and the calls that still wait
    are the last ones made. *)
Theorem channel_refines_queue {D} (l : list (event D)) :
  implements (run l new_channel) (spec_run l new_queue).
Proof. apply implements_run, implements_new. Qed.

Lemma stream_closed_kept e s : ds_closed s = true ->
  ds_closed (stream_step e s) = true /\ sendClose_calls (stream_step e s) = sendClose_calls s.
Proof.
  intros Hc. destruct e; cbn; try done; unfold closeOnce, finish; rewrite ?Hc; try done.
  destruct (ds_running s); [|done]. unfold closeOnce. cbn. done.
Qed.

Lemma stream_closed_run l s : ds_closed s = true -> sendClose_calls (stream_run l s) = sendClose_calls s.
Proof.
  revert s. induction l as [|e l IH]; intros s Hc; [done|]. destruct (stream_closed_kept e s Hc) as [Hc' Hs].
  cbn. change (sendClose_calls (stream_run l (stream_step e s)) = sendClose_calls s). by rewrite IH.
Qed.

Record stream_ok (s : DataPlaneStream) : Prop := {
  so_closed : ds_closed s = false -> sendClose_calls s = [];
  so_once : (length (sendClose_calls s) <= 1)%nat;
  so_done : onDone_calls s = if ds_running s then 0%nat else 1%nat;
  so_errors : (length (onError_calls s) <= onDone_calls s)%nat;
  so_finished : ds_running s = false -> ds_closed s = true }.

Lemma stream_step_ok e s : stream_ok s -> stream_ok (stream_step e s).
Proof.
  intros [H1 H2 H3 H4 H5]. destruct e as [d|r| | |o]; cbn [stream_step].
  - by split.
  - by split; cbn; auto.
  - by split.
  - unfold closeOnce. destruct (ds_closed s) eqn:E; [by split; rewrite ?E; auto|].
    split; cbn; auto; [done|by rewrite (H1 eq_refl)].
  - unfold finish. destruct (ds_running s) eqn:E; [|by split; rewrite ?E; auto]. unfold closeOnce. cbn.
    rewrite H3 in H4. destruct (ds_closed s) eqn:Ec; split; cbn; auto; try (by rewrite (H1 eq_refl)); try lia;
      destruct o; cbn; rewrite ?length_app; cbn; lia.
Qed.

(** Without a failure, [closed] says whether STREAM_CLOSE has been sent. *)
Definition closes_exact (s : DataPlaneStream) : Prop :=
  (ds_closed s = false -> sendClose_calls s = []) /\ (ds_closed s = true -> length (sendClose_calls s) = 1%nat).

Lemma stream_step_exact e s : (forall r, e <> StreamFail r) -> closes_exact s -> closes_exact (stream_step e s).
Proof.
  destruct s as [c [] [] sc oe od]; destruct e as [d|r| | |o]; cbn; intros He [H1 H2]; try (by destruct (He r));
    split; cbn in *; auto; try done; intros _; by rewrite H1.
Qed.

Lemma stream_run_exact l s : (forall r, StreamFail r ∉ l) -> closes_exact s ->
  ds_closed (stream_run l s) = true -> length (sendClose_calls (stream_run l s)) = 1%nat.
Proof.
  revert s. induction l as [|e l IH]; intros s Hf Hs; [apply Hs|]. apply IH.
  - intros r Hr. apply (Hf r). by right.
  - apply stream_step_exact; [|done]. intros r ->. apply (Hf r). left.
Qed.

(** One STREAM_CLOSE: in every history of a stream it is sent at most once and
    [onDone] runs exactly once, when the session ends; when the session has ended
    it has been sent exactly once unless the peer closed or the tunnel dropped,
    and after that it is never sent. *)
Theorem stream_closes_once (l : list stream_event) :
  let s := stream_run l start in
  (length (sendClose_calls s) <= 1)%nat /\ (onDone_calls s = 1%nat <-> ds_running s = false) /\ (onDone_calls s <= 1)%nat /\
  (forall l1 r l2, l = l1 ++ StreamFail r :: l2 -> sendClose_calls s = sendClose_calls (stream_run l1 start)) /\
  ((forall r, StreamFail r ∉ l) -> ds_running s = false -> length (sendClose_calls s) = 1%nat).
Proof.
  cbn zeta.
  assert (Hok : stream_ok (stream_run l start)).
  { unfold stream_run. assert (H0 : stream_ok start) by (split; cbn; auto). revert H0. generalize start as s.
    induction l as [|e l IH]; intros s Hs; [done|]. cbn. by apply IH, stream_step_ok. }
  pose proof Hok as [H1 H2 H3 H4 H5].
  split; [done|]. split; [rewrite H3; by destruct (ds_running _)|]. split; [rewrite H3; destruct (ds_running _); lia|]. split.
  - intros l1 r l2 ->. unfold stream_run at 1. rewrite fold_left_app. cbn [fold_left]. fold (stream_run l1 start).
    exact (stream_closed_run l2 (stream_step (StreamFail r) (stream_run l1 start)) eq_refl).
  - intros Hf Hr. apply (stream_run_exact l start Hf); [by split|]. by apply H5.
Qed.
