(* ===== verification/ControlClient.v ===== *)
(** * The control client (clients/control-client.ts)

    One control connection of a node: it answers proxy requests, probes and
    updates, and carries raw, public-tunnel and data-plane streams over the
    encrypted tunnel.  A [State] holds the variables [startControlClient] closes
    over, the sockets and data-plane streams it created (numbered; the callbacks of
    each close over its stream id), and the continuations of its handlers that wait
    on something ([jobs]).  Every [event] runs one stretch of code between two
    awaits; [out] is what the node does, in order.

    Messages carry the members their TypeScript types declare: [decodeMessage]
    checks only [type] and [timestamp].  [NoTarget] is the one exception modelled,
    a proxy request without [target_url].  Logging is left out. *)

From S2P Require Import Prelude Effect Text Json JsonText Coerce Base64 Crypto Messages CanonicalJson Files Dedupe Update Profile Ssrf ProxyServe ProxyCommand DataPlane Channel.
Local Open Scope Z_scope.

(** ** Frames of a public tunnel *)

Module PUBLIC_TUNNEL_FRAME.
Definition STREAM_OPEN : Z := 1.
Definition STREAM_DATA : Z := 2.
Definition STREAM_END : Z := 3.
Definition STREAM_RESET : Z := 4.
Definition PING : Z := 5.
Definition PONG : Z := 6.
End PUBLIC_TUNNEL_FRAME.

Definition OutOfRange : exn := RangeError "ERR_OUT_OF_RANGE".

(** [writeUInt8] and [writeUInt32BE] throw out of range. *)
Definition encodePublicTunnelFrame (type streamId : Z) (payload : buffer) : result buffer :=
  throw_if ((type <? 0) || (0xff <? type)) OutOfRange;;
  throw_if ((streamId <? 0) || (0xffffffff <? streamId)) OutOfRange;;
  Ok (be_encode 1 type ++ be_encode 4 streamId ++ payload).

Record PublicFrame := { pf_type : Z; pf_streamId : Z; pf_payload : buffer }.

Definition decodePublicTunnelFrame (data : buffer) : result PublicFrame :=
  throw_if (bool_decide (length data < 5)%nat)
    (RangeError ("Public tunnel frame too short: " +:+ pretty (Z.of_nat (length data)) +:+ " bytes"));;
  Ok {| pf_type := readBE 1 0 data; pf_streamId := readBE 4 1 data; pf_payload := drop 5 data |}.

(** ** Stream targets *)

Inductive StreamTarget :=
| RawTunnel (host : json) (port : num)
| PublicTunnelOwner (tunnelId : json)
| PublicTunnelStream (tunnelId : json) (initialData : buffer)
| DataPlaneTarget.

(** [Buffer.from(v, "base64")] of a truthy value. *)
Definition initial_bytes (v : option json) : result buffer :=
  if truthy v then
    match v with
    | Some (JStr s) => Ok (fromBase64 s)
    | Some v => buffer_from v
    | None => Ok []
    end
  else Ok [].

Definition target_port (v : option json) : option num :=
  match v with
  | Some (JNum n) => if negb (isInteger n) || num_ltb n (num_of_Z 1) || num_ltb (num_of_Z 65535) n then None else Some n
  | _ => None
  end.

(** A member that must be truthy. *)
Definition required (k : string) (v : json) : option json := if truthy (get k v) then get k v else None.

Definition target_of (parsed : json) : option StreamTarget :=
  match get "kind" parsed with
  | Some (JStr "raw-tunnel") => h ← required "host" parsed; n ← target_port (get "port" parsed); Some (RawTunnel h n)
  | Some (JStr "public-tunnel-owner") => PublicTunnelOwner <$> required "tunnel_id" parsed
  | Some (JStr "public-tunnel-stream") =>
      t ← required "tunnel_id" parsed;
      match initial_bytes (get "initial_data" parsed) with Ok b => Some (PublicTunnelStream t b) | Throw _ => None end
  | Some (JStr "data-plane") => Some DataPlaneTarget
  | _ => None
  end.

Definition parseStreamTarget (value : option string) : option StreamTarget :=
  match value with
  | None => None
  | Some s => if bool_decide (s = "") then None
              else match JSON_parse s with Ok parsed => target_of parsed | Throw _ => None end
  end.

(** Map keys are compared by value; the text of a scalar determines it. *)
Definition tunnel_key (tunnelId : json) : string := stringify tunnelId.

(** ** The stream tables *)

Record Owner := { o_streamId : string; nextStreamId : Z; ownerToServer : gmap Z string; serverToOwner : list (string * Z) }.
Record PublicStream := { ps_tunnelId : string; ps_ownerStreamId : Z }.

(** Maps keep insertion order, in which the code iterates over them. *)
Record Table := {
  activeStreams : gset string; rawStreams : list (string * nat); publicTunnelOwners : list (string * Owner);
  publicTunnelStreams : list (string * PublicStream); dataPlaneStreams : list (string * nat) }.

Definition empty_table : Table :=
  {| activeStreams := ∅; rawStreams := []; publicTunnelOwners := []; publicTunnelStreams := []; dataPlaneStreams := [] |}.

Definition on_active (f : gset string -> gset string) (t : Table) : Table :=
  {| activeStreams := f (activeStreams t); rawStreams := rawStreams t; publicTunnelOwners := publicTunnelOwners t;
     publicTunnelStreams := publicTunnelStreams t; dataPlaneStreams := dataPlaneStreams t |}.
Definition on_raw (f : list (string * nat) -> list (string * nat)) (t : Table) : Table :=
  {| activeStreams := activeStreams t; rawStreams := f (rawStreams t); publicTunnelOwners := publicTunnelOwners t;
     publicTunnelStreams := publicTunnelStreams t; dataPlaneStreams := dataPlaneStreams t |}.
Definition on_owners (f : list (string * Owner) -> list (string * Owner)) (t : Table) : Table :=
  {| activeStreams := activeStreams t; rawStreams := rawStreams t; publicTunnelOwners := f (publicTunnelOwners t);
     publicTunnelStreams := publicTunnelStreams t; dataPlaneStreams := dataPlaneStreams t |}.
Definition on_public (f : list (string * PublicStream) -> list (string * PublicStream)) (t : Table) : Table :=
  {| activeStreams := activeStreams t; rawStreams := rawStreams t; publicTunnelOwners := publicTunnelOwners t;
     publicTunnelStreams := f (publicTunnelStreams t); dataPlaneStreams := dataPlaneStreams t |}.
Definition on_data (f : list (string * nat) -> list (string * nat)) (t : Table) : Table :=
  {| activeStreams := activeStreams t; rawStreams := rawStreams t; publicTunnelOwners := publicTunnelOwners t;
     publicTunnelStreams := publicTunnelStreams t; dataPlaneStreams := f (dataPlaneStreams t) |}.

Definition add_active (id : string) : Table -> Table := on_active (fun a => {[id]} ∪ a).
Definition delete_active (id : string) : Table -> Table := on_active (fun a => a ∖ {[id]}).

(** Changes to an owner object, which the map holds by reference. *)
Definition alter_owner (tunnelId : string) (f : Owner -> Owner) : Table -> Table :=
  on_owners (fun l => match assoc tunnelId l with Some o => put tunnelId (f o) l | None => l end).

Definition unlink (serverStreamId : string) (ownerStreamId : Z) (o : Owner) : Owner :=
  {| o_streamId := o_streamId o; nextStreamId := nextStreamId o;
     ownerToServer := delete ownerStreamId (ownerToServer o); serverToOwner := remove serverStreamId (serverToOwner o) |}.

Definition cleanupPublicTunnelStream (serverStreamId : string) (t : Table) : Table :=
  match assoc serverStreamId (publicTunnelStreams t) with
  | None => t
  | Some linked =>
      delete_active serverStreamId (on_public (remove serverStreamId)
        (alter_owner (ps_tunnelId linked) (unlink serverStreamId (ps_ownerStreamId linked)) t))
  end.

(** [publicTunnelOwners.set(tunnelId, {...})]. *)
Definition new_owner (streamId : string) : Owner :=
  {| o_streamId := streamId; nextStreamId := 1; ownerToServer := ∅; serverToOwner := [] |}.
Definition open_owner (streamId tunnelId : string) (t : Table) : Table :=
  on_owners (put tunnelId (new_owner streamId)) (add_active streamId t).

Definition link (serverStreamId : string) (o : Owner) : Owner :=
  {| o_streamId := o_streamId o; nextStreamId := nextStreamId o + 1;
     ownerToServer := <[nextStreamId o := serverStreamId]> (ownerToServer o);
     serverToOwner := put serverStreamId (nextStreamId o) (serverToOwner o) |}.

(** A public stream gets the owner's next number. *)
Definition open_public (serverStreamId tunnelId : string) (o : Owner) (t : Table) : Table :=
  add_active serverStreamId
    (on_public (put serverStreamId {| ps_tunnelId := tunnelId; ps_ownerStreamId := nextStreamId o |})
      (alter_owner tunnelId (link serverStreamId) t)).

(** [Array.from(publicTunnelOwners.entries()).find(...)]. *)
Definition find_owner (streamId : string) (t : Table) : option (string * Owner) :=
  List.find (fun kv => bool_decide (o_streamId kv.2 = streamId)) (publicTunnelOwners t).

(** ** The connection *)

Record PreparedUpdate := { pu_updateId : string; pu_manifest : json; pu_artifactPath : string; pu_sha256 : string }.

(** What a handler waits for. *)
Inductive job :=
| JProxy (m : ProxyRequestMessage)                      (* [executeProxyCommand] *)
| JSession (stream_id : string) (data : buffer)         (* [executeProxySessionMessage] *)
| JFinally (o : result unit)                            (* the send before [finally] *)
| JEval (id : option string) (act : string)             (* [runEvalAction] *)
| JCleanup (stream_id : string)                         (* the reset frame to the owner *)
| JPrepare (id : option string) (update_id : string) (manifest : json)  (* [downloadAndVerify] *)
| JTimer (update_id : string) (restartAfterMs : num)    (* [setTimeout] *)
| JInstaller (update_id : string)                       (* [child.exited] *)
| JExit.                                                (* [sleep(250)] *)

Inductive action :=
| Sent (m : TunnelMessage)
| Connected (socket : nat) (host : json) (port : num)
| Written (socket : nat) (data : buffer)
| Destroyed (socket : nat)
| CloseTunnel (code : Z) (reason : string)
| Spawned (command : string) (u : PreparedUpdate)
| Exited.

(** [timer] says whether the heartbeat interval is set, [connected] whether the
    tunnel's socket is open. *)
Record State := {
  activeRequests : Z; table : Table; preparedUpdate : option PreparedUpdate; stopped : bool; timer : bool; connected : bool;
  sockets : list string; streams : list (string * DataPlaneStream); jobs : list job; disk : Disk; out : list action }.

Definition on_requests (f : Z -> Z) (s : State) : State :=
  {| activeRequests := f (activeRequests s); table := table s; preparedUpdate := preparedUpdate s; stopped := stopped s;
     timer := timer s; connected := connected s; sockets := sockets s; streams := streams s; jobs := jobs s; disk := disk s; out := out s |}.
Definition on_table (f : Table -> Table) (s : State) : State :=
  {| activeRequests := activeRequests s; table := f (table s); preparedUpdate := preparedUpdate s; stopped := stopped s;
     timer := timer s; connected := connected s; sockets := sockets s; streams := streams s; jobs := jobs s; disk := disk s; out := out s |}.
Definition set_prepared (u : option PreparedUpdate) (s : State) : State :=
  {| activeRequests := activeRequests s; table := table s; preparedUpdate := u; stopped := stopped s;
     timer := timer s; connected := connected s; sockets := sockets s; streams := streams s; jobs := jobs s; disk := disk s; out := out s |}.
Definition set_flags (stop tick conn : bool) (s : State) : State :=
  {| activeRequests := activeRequests s; table := table s; preparedUpdate := preparedUpdate s; stopped := stop;
     timer := tick; connected := conn; sockets := sockets s; streams := streams s; jobs := jobs s; disk := disk s; out := out s |}.
Definition on_sockets (f : list string -> list string) (s : State) : State :=
  {| activeRequests := activeRequests s; table := table s; preparedUpdate := preparedUpdate s; stopped := stopped s;
     timer := timer s; connected := connected s; sockets := f (sockets s); streams := streams s; jobs := jobs s; disk := disk s; out := out s |}.
Definition on_streams (f : list (string * DataPlaneStream) -> list (string * DataPlaneStream)) (s : State) : State :=
  {| activeRequests := activeRequests s; table := table s; preparedUpdate := preparedUpdate s; stopped := stopped s;
     timer := timer s; connected := connected s; sockets := sockets s; streams := f (streams s); jobs := jobs s; disk := disk s; out := out s |}.
Definition on_jobs (f : list job -> list job) (s : State) : State :=
  {| activeRequests := activeRequests s; table := table s; preparedUpdate := preparedUpdate s; stopped := stopped s;
     timer := timer s; connected := connected s; sockets := sockets s; streams := streams s; jobs := f (jobs s); disk := disk s; out := out s |}.
Definition set_disk (d : Disk) (s : State) : State :=
  {| activeRequests := activeRequests s; table := table s; preparedUpdate := preparedUpdate s; stopped := stopped s;
     timer := timer s; connected := connected s; sockets := sockets s; streams := streams s; jobs := jobs s; disk := d; out := out s |}.
Definition emit (a : action) (s : State) : State :=
  {| activeRequests := activeRequests s; table := table s; preparedUpdate := preparedUpdate s; stopped := stopped s;
     timer := timer s; connected := connected s; sockets := sockets s; streams := streams s; jobs := jobs s; disk := disk s; out := out s ++ [a] |}.

Definition wait (j : job) : eff State unit := modify (on_jobs (fun l => l ++ [j])).
(** [void p.catch(() => undefined)]. *)
Definition swallow (m : eff State unit) : eff State unit := try_catch m (fun _ => mret tt).
Definition base_of (clock : Z) : BaseMessage := {| m_id := None; timestamp := nowSeconds clock |}.
Definition num_max (a b : num) : num := match a, b with NaN, _ | _, NaN => NaN | _, _ => if num_ltb a b then b else a end.
(** A text member of a manifest. *)
Definition text_member (k : string) (v : json) : string := default "" (as_string (get k v)).

(** ** The installer command *)

Fixpoint escape_quotes (s : string) : string :=
  match s with
  | EmptyString => ""
  | String c r => (if decide (c = "'"%char) then "'\''" else String c "") +:+ escape_quotes r
  end.
Definition shellQuote (value : string) : string := "'" +:+ escape_quotes value +:+ "'".

(** [existsSync] is [file_exists] on the disk. *)
Definition updateCommand (p : Process) (d : Disk) : option string :=
  let explicit := trim (default "" (env p "CONSENSUS_NODE_UPDATE_COMMAND")) in
  if negb (bool_decide (explicit = "")) then Some explicit
  else
    let localScript := path_join [cwd p; "scripts"; "install-release.sh"] in
    if file_exists localScript d then Some (shellQuote localScript)
    else
      let dir := trim (default "" (env p "CONSENSUS_NODE_INSTALL_DIR")) in
      let installDir := if bool_decide (dir = "") then path_join [homedir p; ".consensus"; "node-runtime"] else dir in
      let installedScript := path_join [installDir; "current"; "scripts"; "install-release.sh"] in
      if file_exists installedScript d then Some (shellQuote installedScript) else None.

Section Control.
Context `{Hashing}.
(** How [client.send] ends on an open socket; the node's process and build. *)
Context (seal : TunnelMessage -> result unit) (proc : Process) (build : Build) (nodeId : string).

Definition current : json := releaseManifest proc build.

(** [connected.client.send]. *)
Definition send (m : TunnelMessage) : eff State unit :=
  c ← gets connected;
  if (c : bool) then lift (seal m);; modify (emit (Sent m)) else throw (PlainError "Tunnel is not connected").

Definition sendHeartbeat (clock : Z) (uptime : num) : eff State unit :=
  n ← gets activeRequests;
  k ← gets (fun s => size (activeStreams (table s)));
  send (Heartbeat (base_of clock) nodeId uptime capabilitiesRecord (Some (num_of_Z n)) (Some (num_of_Z (Z.of_nat k)))).

Definition sendStreamData (clock : Z) (streamId : string) (data : buffer) : eff State unit :=
  send (Messages.StreamData (base_of clock) streamId (toBase64 data) "base64").

Definition sendStreamClose (clock : Z) (streamId reason : string) : eff State unit :=
  send (Messages.StreamClose (base_of clock) streamId (Some reason)).

Definition sendError (clock : Z) (reply_to : option string) (code message : string) : eff State unit :=
  send (Messages.Error (base_of clock) reply_to code message).

Definition close (code : Z) (reason : string) : eff State unit :=
  modify (fun s => set_flags (stopped s) (timer s) false (emit (CloseTunnel code reason) s)).

(** ** Requests *)

Definition incr (n : Z) : Z := n + 1.
Definition decr (n : Z) : Z := Z.max 0 (n - 1).

Definition proxy_request (m : ProxyRequestMessage) : eff State unit :=
  modify (on_requests incr);; wait (JProxy m).

Definition session_request (stream_id : string) (data : buffer) : eff State unit :=
  modify (on_requests incr);; wait (JSession stream_id data).

(** [o] is how the [try] and [catch] blocks ended. *)
Definition finally (o : result unit) : eff State unit := modify (on_requests decr);; lift o.

Definition outcome (m : eff State unit) : eff State (result unit) := fun s => let (s', r) := m s in (s', Ok r).

Definition proxy_done (clock : Z) (m : ProxyRequestMessage) (served : result ProxyResult) : eff State unit :=
  o ← outcome (try_catch
        (response ← lift (executeProxyCommand (fun _ => served) clock m); send response)
        (fun e => sendError clock (pm_id m) "proxy_failed" (errorMessage e)));
  wait (JFinally o).

Definition session_done (clock : Z) (stream_id : string) (data : buffer) (served : result ProxyResult) : eff State unit :=
  o ← outcome (try_catch
        (output ← lift (executeProxySessionMessage (fun _ => served) clock data); sendStreamData clock stream_id output)
        (fun e => swallow (sendError clock None "stream_data_failed" (errorMessage e))));
  wait (JFinally o).

Definition eval_request (clock : Z) (id : option string) (act : string) : eff State unit :=
  if bool_decide (act = "benchmark_sustained") || bool_decide (act = "integrity") then wait (JEval id act)
  else sendError clock id "eval_action_not_allowed" ("Action not allowed on the control tunnel: " +:+ act).

Definition eval_done (clock : Z) (id : option string) (act : string) (r : result json) : eff State unit :=
  try_catch
    (res ← lift r; send (EvalResponse (base_of clock) (default "" id) act true (Some res) None))
    (fun e => send (EvalResponse (base_of clock) (default "" id) act false None (Some (errorMessage e)))).

(** ** Streams *)

Definition raw_open (stream_id : string) (host : json) (port : num) : eff State unit :=
  n ← gets (fun s => length (sockets s));
  modify (on_table (add_active stream_id));;
  modify (on_sockets (fun l => l ++ [stream_id]));;
  modify (emit (Connected n host port));;
  modify (on_table (on_raw (put stream_id n))).

Definition data_open (stream_id : string) : eff State unit :=
  n ← gets (fun s => length (streams s));
  modify (on_table (add_active stream_id));;
  modify (on_streams (fun l => l ++ [(stream_id, Channel.start)]));;
  modify (on_table (on_data (put stream_id n))).

Definition stream_open (clock : Z) (stream_id : string) (target : option string) : eff State unit :=
  if bool_decide (target = Some "proxy-session") then modify (on_table (add_active stream_id))
  else match parseStreamTarget target with
  | Some (PublicTunnelOwner tid) => modify (on_table (open_owner stream_id (tunnel_key tid)))
  | Some (PublicTunnelStream tid initialData) =>
      found ← gets (fun s => assoc (tunnel_key tid) (publicTunnelOwners (table s)));
      match found with
      | None => sendStreamClose clock stream_id "tunnel owner unavailable"
      | Some o =>
          modify (on_table (open_public stream_id (tunnel_key tid) o));;
          frame ← lift (encodePublicTunnelFrame PUBLIC_TUNNEL_FRAME.STREAM_OPEN (nextStreamId o) initialData);
          sendStreamData clock (o_streamId o) frame
      end
  | Some DataPlaneTarget => data_open stream_id
  | Some (RawTunnel host port) => raw_open stream_id host port
  | None => sendError clock None "unsupported_stream_target" ("Unsupported stream target: " +:+ default "" target)
  end.

(** A frame from the owner of a tunnel. *)
Definition owner_data (clock : Z) (o : Owner) (data : buffer) : eff State unit :=
  frame ← lift (decodePublicTunnelFrame data);
  if pf_type frame =? PUBLIC_TUNNEL_FRAME.PING then
    pong ← lift (encodePublicTunnelFrame PUBLIC_TUNNEL_FRAME.PONG 0 []);
    sendStreamData clock (o_streamId o) pong
  else if pf_type frame =? PUBLIC_TUNNEL_FRAME.PONG then mret tt
  else match ownerToServer o !! pf_streamId frame with
  | None => mret tt
  | Some serverStreamId =>
      if bool_decide (serverStreamId = "") then mret tt
      else if pf_type frame =? PUBLIC_TUNNEL_FRAME.STREAM_DATA then sendStreamData clock serverStreamId (pf_payload frame)
      else if pf_type frame =? PUBLIC_TUNNEL_FRAME.STREAM_END then
        modify (on_table (cleanupPublicTunnelStream serverStreamId));; sendStreamClose clock serverStreamId "target closed"
      else if pf_type frame =? PUBLIC_TUNNEL_FRAME.STREAM_RESET then
        modify (on_table (cleanupPublicTunnelStream serverStreamId));; sendStreamClose clock serverStreamId "target reset"
      else mret tt
  end.

Definition public_data (clock : Z) (stream_id : string) (linked : PublicStream) (data : buffer) : eff State unit :=
  found ← gets (fun s => assoc (ps_tunnelId linked) (publicTunnelOwners (table s)));
  match found with
  | None =>
      modify (on_table (cleanupPublicTunnelStream stream_id));; sendStreamClose clock stream_id "tunnel owner unavailable"
  | Some o =>
      frame ← lift (encodePublicTunnelFrame PUBLIC_TUNNEL_FRAME.STREAM_DATA (ps_ownerStreamId linked) data);
      sendStreamData clock (o_streamId o) frame
  end.

(** [dataPlaneStream.push] and [.fail]. *)
Definition on_stream (n : nat) (e : stream_event) : eff State unit :=
  modify (on_streams (alter (fun kv => (kv.1, stream_step e kv.2)) n)).

Definition stream_data (clock : Z) (stream_id data : string) : eff State unit :=
  t ← gets table;
  match find_owner stream_id t with
  | Some (_, o) => swallow (owner_data clock o (fromBase64 data))
  | None =>
      match assoc stream_id (publicTunnelStreams t) with
      | Some linked => public_data clock stream_id linked (fromBase64 data)
      | None =>
          match assoc stream_id (rawStreams t), assoc stream_id (dataPlaneStreams t) with
          | Some n, _ => modify (emit (Written n (fromBase64 data)))
          | None, Some n => on_stream n (StreamPush (fromBase64 data))
          | None, None => session_request stream_id (fromBase64 data)
          end
      end
  end.

(** The streams of a closed owner. *)
Fixpoint drop_streams (clock : Z) (ids : list string) : eff State unit :=
  match ids with
  | [] => mret tt
  | id :: ids =>
      modify (on_table (delete_active id ∘ on_public (remove id)));;
      swallow (sendStreamClose clock id "tunnel owner closed");;
      drop_streams clock ids
  end.

Definition stream_close (clock : Z) (stream_id : string) : eff State unit :=
  t ← gets table;
  match find_owner stream_id t with
  | Some (tunnelId, o) =>
      drop_streams clock (serverToOwner o).*1;;
      modify (on_table (delete_active stream_id ∘ on_owners (remove tunnelId)))
  | None =>
      match assoc stream_id (publicTunnelStreams t) with
      | Some linked =>
          match assoc (ps_tunnelId linked) (publicTunnelOwners t) with
          | Some o =>
              frame ← lift (encodePublicTunnelFrame PUBLIC_TUNNEL_FRAME.STREAM_RESET (ps_ownerStreamId linked) []);
              swallow (sendStreamData clock (o_streamId o) frame);;
              wait (JCleanup stream_id)
          | None => modify (on_table (cleanupPublicTunnelStream stream_id))
          end
      | None =>
          match assoc stream_id (dataPlaneStreams t) with
          | Some n =>
              modify (on_table (delete_active stream_id ∘ on_data (remove stream_id)));;
              on_stream n (StreamFail (PlainError "client stream closed"))
          | None =>
              match assoc stream_id (rawStreams t) with
              | Some n => modify (on_table (on_raw (remove stream_id)));; modify (emit (Destroyed n))
              | None => mret tt
              end;;
              modify (on_table (delete_active stream_id))
          end
      end
  end.

(** Callbacks of the n-th socket. *)
Definition socket_data (clock : Z) (n : nat) (data : buffer) : eff State unit :=
  l ← gets sockets;
  match l !! n with
  | Some stream_id => swallow (sendStreamData clock stream_id data)
  | None => mret tt
  end.

Definition socket_close (clock : Z) (n : nat) : eff State unit :=
  l ← gets sockets;
  t ← gets table;
  match l !! n with
  | Some stream_id =>
      match assoc stream_id (rawStreams t) with
      | None => mret tt
      | Some _ =>
          modify (on_table (delete_active stream_id ∘ on_raw (remove stream_id)));;
          swallow (sendStreamClose clock stream_id "target closed")
      end
  | None => mret tt
  end.

Definition socket_error (clock : Z) (n : nat) (message : string) : eff State unit :=
  l ← gets sockets;
  match l !! n with
  | Some stream_id =>
      modify (on_table (delete_active stream_id ∘ on_raw (remove stream_id)));;
      swallow (sendError clock None "raw_tunnel_failed" message);;
      swallow (sendStreamClose clock stream_id message)
  | None => mret tt
  end.

(** The n-th data-plane stream moves: each STREAM_CLOSE it asks for is sent, and
    when it is done it leaves the tables. *)
Fixpoint close_calls (clock : Z) (stream_id : string) (reasons : list string) : eff State unit :=
  match reasons with
  | [] => mret tt
  | r :: reasons => swallow (sendStreamClose clock stream_id r);; close_calls clock stream_id reasons
  end.

Definition onDone (stream_id : string) : Table -> Table := delete_active stream_id ∘ on_data (remove stream_id).

Definition stream_moves (clock : Z) (n : nat) (e : stream_event) : eff State unit :=
  l ← gets streams;
  match l !! n with
  | None => mret tt
  | Some (stream_id, before) =>
      let after := stream_step e before in
      on_stream n e;;
      close_calls clock stream_id (drop (length (sendClose_calls before)) (sendClose_calls after));;
      if bool_decide (onDone_calls before = onDone_calls after) then mret tt
      else modify (on_table (onDone stream_id))
  end.

Definition stream_sends (clock : Z) (n : nat) (data : buffer) : eff State unit :=
  l ← gets streams;
  match l !! n with
  | Some (stream_id, _) => sendStreamData clock stream_id data
  | None => mret tt
  end.

(** ** Updates *)

Definition on_disk {A} (m : eff Disk A) : eff State A := fun s => let (d, r) := m (disk s) in (set_disk d s, r).

Definition prepare_failed (clock : Z) (id : option string) (update_id : string) (e : exn) : eff State unit :=
  send (UpdateFailed (base_of clock) (Some (default update_id id)) update_id "prepare_failed" (errorMessage e)).

Definition prepared (clock : Z) (id : option string) (update_id : string) (manifest : json) (d : Downloaded) : eff State unit :=
  modify (set_prepared (Some {| pu_updateId := update_id; pu_manifest := manifest; pu_artifactPath := dl_path d; pu_sha256 := dl_sha256 d |}));;
  send (UpdateReady (base_of clock) (default update_id id) update_id (dl_path d) (dl_sha256 d)
          (text_member "version" current) (text_member "version" manifest)).

Definition update_prepare (clock : Z) (id : option string) (update_id : string) (manifest : json) : eff State unit :=
  try_catch
    (status ← lift (compareManifests current manifest);
     if update_required status then wait (JPrepare id update_id manifest)
     else prepared clock id update_id manifest {| dl_path := ""; dl_sha256 := text_member "tarball_sha256" current |})
    (prepare_failed clock id update_id).

Definition prepare_done (clock : Z) (fetch : string -> result Update.Response) (id : option string) (update_id : string) (manifest : json)
  : eff State unit :=
  try_catch
    (d ← on_disk (downloadAndVerify fetch proc manifest); prepared clock id update_id manifest d)
    (prepare_failed clock id update_id).

Definition update_apply (clock : Z) (id : option string) (update_id : string) (restart_after_ms : option num) : eff State unit :=
  u ← gets preparedUpdate;
  if bool_decide (pu_updateId <$> u = Some update_id) then
    send (Ack (base_of clock) (default update_id id));;
    wait (JTimer update_id (num_max (num_of_Z 0) (default (num_of_Z 1000) restart_after_ms)))
  else send (UpdateFailed (base_of clock) (Some (default update_id id)) update_id "update_not_prepared"
               "No matching prepared update is available").

Definition apply_failed (clock : Z) (update_id : string) (e : exn) : eff State unit :=
  swallow (send (UpdateFailed (base_of clock) None update_id "apply_failed" (errorMessage e))).

(** Up to [await child.exited]. *)
Definition runUpdateCommand (update : PreparedUpdate) : eff State unit :=
  d ← gets disk;
  match updateCommand proc d with
  | None => throw (PlainError "No node update command is available")
  | Some command => modify (emit (Spawned command update))
  end.

(** The restart timer: [preparedUpdate] is read when it fires. *)
Definition apply_timer (clock : Z) (update_id : string) : eff State unit :=
  try_catch
    (u ← gets preparedUpdate;
     match u with
     | None => throw (TypeError "null is not an object")
     | Some update => runUpdateCommand update;; wait (JInstaller update_id)
     end)
    (apply_failed clock update_id).

Definition installer_exit (clock : Z) (update_id : string) (code : Z) : eff State unit :=
  try_catch
    (lift (throw_if (negb (code =? 0)) (PlainError ("Node update command exited with code " +:+ pretty code)));;
     close 1012 "node update apply requested";;
     wait JExit)
    (apply_failed clock update_id).

(** ** Messages and the other events *)

Definition onMessage (clock : Z) (m : TunnelMessage) : eff State unit :=
  match m with
  | ProxyRequest b url meth headers body be profile =>
      proxy_request {| pm_id := m_id b; pm_target_url := url; pm_method := meth; pm_headers := headers_of headers;
                       pm_body := body; pm_body_encoding := be; pm_profile := profile |}
  | EvalRequest b act _ => eval_request clock (m_id b) act
  | StreamOpen _ stream_id target => stream_open clock stream_id target
  | StreamData _ stream_id data _ => stream_data clock stream_id data
  | Messages.StreamClose _ stream_id _ => stream_close clock stream_id
  | UpdatePrepare b update_id manifest => update_prepare clock (m_id b) update_id manifest
  | UpdateApply b update_id restart => update_apply clock (m_id b) update_id restart
  | _ => mret tt
  end.

(** A proxy request whose [target_url] is missing: [sanitizeUrl] reads the length
    of [undefined], outside the [try]. *)
Definition proxy_request_no_target : eff State unit :=
  modify (on_requests incr);; throw (TypeError "undefined is not an object").

Fixpoint destroy_all (l : list (string * nat)) : eff State unit :=
  match l with [] => mret tt | (_, n) :: l => modify (emit (Destroyed n));; destroy_all l end.
Fixpoint fail_all (l : list (string * nat)) : eff State unit :=
  match l with [] => mret tt | (_, n) :: l => on_stream n (StreamFail (PlainError "connection closed"));; fail_all l end.

Definition onClose : eff State unit :=
  modify (fun s => set_flags (stopped s) false false s);;
  t ← gets table;
  destroy_all (rawStreams t);;
  fail_all (dataPlaneStreams t);;
  modify (on_table (fun _ => empty_table)).

(** The heartbeat interval. *)
Definition tick (clock : Z) (uptime : num) : eff State unit :=
  set ← gets timer;
  if (set : bool) then
    try_catch (sendHeartbeat clock uptime)
      (fun _ => st ← gets stopped; if (st : bool) then mret tt else close 1011 "heartbeat failed")
  else mret tt.

Definition stop : eff State unit :=
  modify (fun s => set_flags true false (connected s) s);; close 1000 "control stopped".

(** What a wait ended with. *)
Inductive result_of_wait :=
| Served (r : result ProxyResult)
| Evaluated (r : result json)
| Fetched (fetch : string -> result Update.Response)
| ExitCode (code : Z)
| Done.

Definition resume (clock : Z) (j : job) (r : result_of_wait) : eff State unit :=
  match j, r with
  | JProxy m, Served v => proxy_done clock m v
  | JSession id data, Served v => session_done clock id data v
  | JFinally o, Done => finally o
  | JEval id act, Evaluated v => eval_done clock id act v
  | JCleanup id, Done => modify (on_table (cleanupPublicTunnelStream id))
  | JPrepare id u m, Fetched f => prepare_done clock f id u m
  | JTimer u _, Done => apply_timer clock u
  | JInstaller u, ExitCode c => installer_exit clock u c
  | JExit, Done => modify (emit Exited)
  | j, _ => wait j
  end.

(** The n-th wait ends; a result of the wrong kind changes nothing but the order
    of [jobs]. *)
Definition resume_nth (clock : Z) (n : nat) (r : result_of_wait) : eff State unit :=
  l ← gets jobs;
  match l !! n with
  | None => mret tt
  | Some j => modify (on_jobs (delete n));; resume clock j r
  end.

Inductive event :=
| Message (m : TunnelMessage)
| NoTarget
| Resume (n : nat) (r : result_of_wait)
| SocketData (n : nat) (data : buffer)
| SocketClose (n : nat)
| SocketError (n : nat) (message : string)
| StreamMoves (n : nat) (e : stream_event)
| StreamSends (n : nat) (data : buffer)
| Tick (uptime : num)
| ConnectionLost
| TunnelClosed
| Stop.

Definition handle (clock : Z) (e : event) : eff State unit :=
  match e with
  | Message m => onMessage clock m
  | NoTarget => proxy_request_no_target
  | Resume n r => resume_nth clock n r
  | SocketData n d => socket_data clock n d
  | SocketClose n => socket_close clock n
  | SocketError n m => socket_error clock n m
  | StreamMoves n e => stream_moves clock n e
  | StreamSends n d => stream_sends clock n d
  | Tick u => tick clock u
  | ConnectionLost => modify (fun s => set_flags (stopped s) (timer s) false s)
  | TunnelClosed => onClose
  | Stop => stop
  end.

(** A handler that rejects leaves what it did. *)
Definition step (te : Z * event) (s : State) : State := exec (handle te.1 te.2) s.
Definition run (l : list (Z * event)) (s : State) : State := fold_left (fun s e => step e s) l s.

Definition connected_state (d : Disk) : State :=
  {| activeRequests := 0; table := empty_table; preparedUpdate := None; stopped := false; timer := true; connected := true;
     sockets := []; streams := []; jobs := []; disk := d; out := [] |}.

End Control.

(** [startControlClient] once the tunnel is up: the node id, then the first
    heartbeat. *)
Definition resolve_node_id (option_id : option string) (config : json) : result string :=
  let id := match option_id with Some s => Some (JStr s) | None => get "node_id" config end in
  if truthy id then Ok (template id)
  else Throw (PlainError "Missing node id. Register the node before starting control mode.").

Definition startControlClient `{Hashing} (seal : TunnelMessage -> result unit) (option_id : option string) (config : json)
  (clock : Z) (uptime : num) (d : Disk) : result State :=
  nodeId ← resolve_node_id option_id config;
  match sendHeartbeat seal nodeId clock uptime (connected_state d) with
  | (s, Ok _) => Ok s
  | (_, Throw e) => Throw e
  end.

(** ** Requests in flight *)

(** Waits that end in [finally]. *)
Definition weight (j : job) : Z := match j with JProxy _ | JSession _ _ | JFinally _ => 1 | _ => 0 end.
Fixpoint in_flight (l : list job) : Z := match l with [] => 0 | j :: l => weight j + in_flight l end.

Lemma weight_nonneg j : 0 <= weight j.
Proof. by destruct j. Qed.
Lemma in_flight_app a b : in_flight (a ++ b) = in_flight a + in_flight b.
Proof. induction a as [|j a IH]; cbn; [done|]. rewrite IH. lia. Qed.
Lemma in_flight_nonneg l : 0 <= in_flight l.
Proof. induction l as [|j l IH]; cbn; [done|]. pose proof (weight_nonneg j). lia. Qed.
Lemma in_flight_delete l n j : l !! n = Some j -> in_flight l = weight j + in_flight (delete n l).
Proof.
  intros Hj. rewrite <- (take_drop_middle l n j Hj) at 1. rewrite delete_take_drop, !in_flight_app. cbn. lia.
Qed.

(** An update the node may install: its artifact was checked, or the node already
    runs that release. *)
Definition verified `{Hashing} (proc : Process) (build : Build) (u : PreparedUpdate) : Prop :=
  (exists st, compareManifests (current proc build) (pu_manifest u) = Ok st /\ update_required st = false /\ pu_artifactPath u = "") \/
  (exists fetch bytes, artifact fetch (pu_manifest u) bytes (pu_sha256 u) /\ pu_artifactPath u = artifact_path proc (pu_manifest u)).

(** ** What every handler keeps

    [P w] is a property of states while [w] requests are counted whose handler has
    not yet left a job behind.  When it survives the elementary changes below, it
    survives every event. *)

Definition minor (a : action) : Prop := match a with Sent _ | Spawned _ _ => False | _ => True end.

(** Waits that no update prepares. *)
Definition no_prepare (j : job) : Prop := match j with JPrepare _ _ _ => False | _ => True end.

(** The changes outside updates. *)
Record calm (seal : TunnelMessage -> result unit) (P : Z -> State -> Prop) : Prop := {
  st_send : forall w m, preserves (P w) (send seal m);
  st_table : forall w f s, P w s -> P w (on_table f s);
  st_sockets : forall w f s, P w s -> P w (on_sockets f s);
  st_streams : forall w f s, P w s -> P w (on_streams f s);
  st_emit : forall w a s, minor a -> P w s -> P w (emit a s);
  st_flags : forall w stop tick s, P w s -> P w (set_flags stop tick (connected s) s);
  st_lost : forall w stop tick s, P w s -> P w (set_flags stop tick false s);
  st_take : forall n j s, jobs s !! n = Some j -> P 0 s -> P (weight j) (on_jobs (delete n) s);
  st_wait : forall j s, no_prepare j -> P (weight j) s -> P 0 (on_jobs (fun l => l ++ [j]) s);
  st_incr : forall s, P 0 s -> P 1 (on_requests incr s);
  st_decr : forall s, P 1 s -> P 0 (on_requests decr s) }.

(** All of them. *)
Record stable `{Hashing} (seal : TunnelMessage -> result unit) (proc : Process) (build : Build) (P : Z -> State -> Prop) : Prop := {
  st_calm : calm seal P;
  st_prepare : forall id u m s, P 0 s -> P 0 (on_jobs (fun l => l ++ [JPrepare id u m]) s);
  st_disk : forall d s, P 0 s -> P 0 (set_disk d s);
  st_prepared : forall u s, verified proc build u -> P 0 s -> P 0 (set_prepared (Some u) s);
  st_spawned : forall c u s, preparedUpdate s = Some u -> P 0 s -> P 0 (emit (Spawned c u) s) }.

Section Calm.
Context `{Hashing} (seal : TunnelMessage -> result unit) (proc : Process) (build : Build) (nodeId : string).
Context (P : Z -> State -> Prop) (HC : calm seal P).

Lemma at_table w f s : P w s -> P w (on_table f s).
Proof. apply (st_table _ _ HC). Qed.
Lemma at_sockets w f s : P w s -> P w (on_sockets f s).
Proof. apply (st_sockets _ _ HC). Qed.
Lemma at_streams w f s : P w s -> P w (on_streams f s).
Proof. apply (st_streams _ _ HC). Qed.
Lemma at_emit w a s : minor a -> P w s -> P w (emit a s).
Proof. apply (st_emit _ _ HC). Qed.
Lemma keep_send w m : preserves (P w) (send seal m).
Proof. apply (st_send _ _ HC). Qed.
Lemma keep_data w clock id d : preserves (P w) (sendStreamData seal clock id d).
Proof. apply keep_send. Qed.
Lemma keep_closing w clock id r : preserves (P w) (sendStreamClose seal clock id r).
Proof. apply keep_send. Qed.
Lemma keep_error w clock r c m : preserves (P w) (sendError seal clock r c m).
Proof. apply keep_send. Qed.
Lemma keep_swallow w m : preserves (P w) m -> preserves (P w) (swallow m).
Proof. intros Hm. unfold swallow. preserve; done. Qed.
Lemma keep_table w f : preserves (P w) (modify (on_table f)).
Proof. apply preserves_modify. intros s. apply (st_table _ _ HC). Qed.
Lemma keep_emit w a : minor a -> preserves (P w) (modify (emit a)).
Proof. intros Ha. apply preserves_modify. intros s. by apply (st_emit _ _ HC). Qed.
Lemma keep_stream w n e : preserves (P w) (on_stream n e).
Proof. apply preserves_modify. intros s. apply (st_streams _ _ HC). Qed.
Lemma keep_wait j : weight j = 0 -> no_prepare j -> preserves (P 0) (wait j).
Proof. intros Hj Hn s Hs. apply (st_wait _ _ HC); [done|]. by rewrite Hj. Qed.
Lemma keep_close code reason : preserves (P 0) (close code reason).
Proof. apply preserves_modify. intros s Hs. apply (st_lost _ _ HC). by apply (st_emit _ _ HC). Qed.

#[local] Hint Resolve keep_send keep_data keep_closing keep_error keep_swallow keep_table keep_emit keep_stream keep_wait
  keep_close : keep.
#[local] Hint Resolve at_table at_sockets at_streams at_emit : keep.
#[local] Hint Extern 1 (minor _) => exact I : keep.
#[local] Hint Extern 1 (no_prepare _) => exact I : keep.
#[local] Hint Extern 1 (weight _ = 0) => reflexivity : keep.
Ltac keep := preserve; auto with keep.

Lemma keep_open clock id target : preserves (P 0) (stream_open seal clock id target).
Proof. unfold stream_open, raw_open, data_open. keep. Qed.

Lemma keep_owner_data w clock o d : preserves (P w) (owner_data seal clock o d).
Proof. unfold owner_data. keep. Qed.

Lemma keep_public_data w clock id l d : preserves (P w) (public_data seal clock id l d).
Proof. unfold public_data. keep. Qed.

Lemma keep_drop w clock ids : preserves (P w) (drop_streams seal clock ids).
Proof. induction ids as [|id ids IH]; cbn [drop_streams]; keep. Qed.

Lemma keep_stream_close clock id : preserves (P 0) (stream_close seal clock id).
Proof. unfold stream_close. pose proof keep_drop. keep. Qed.

Lemma keep_calls w clock id rs : preserves (P w) (close_calls seal clock id rs).
Proof. induction rs as [|r rs IH]; cbn [close_calls]; keep. Qed.

Lemma keep_moves clock n e : preserves (P 0) (stream_moves seal clock n e).
Proof. unfold stream_moves. pose proof keep_calls. keep. Qed.

Lemma keep_socket_close clock n : preserves (P 0) (socket_close seal clock n).
Proof. unfold socket_close. keep. Qed.

Lemma keep_socket_error clock n m : preserves (P 0) (socket_error seal clock n m).
Proof. unfold socket_error. keep. Qed.

Lemma keep_all l : preserves (P 0) (destroy_all l) /\ preserves (P 0) (fail_all l).
Proof. induction l as [|[id n] l [IH1 IH2]]; split; cbn [destroy_all fail_all]; keep. Qed.

(** A new request: counted, then left as a job. *)
Lemma keep_incr j : weight j = 1 -> preserves (P 0) (modify (on_requests incr);; wait j).
Proof.
  intros Hj s Hs. apply (st_wait _ _ HC); [by destruct j|]. rewrite Hj. by apply (st_incr _ _ HC).
Qed.

Lemma keep_stream_data clock id d : preserves (P 0) (stream_data seal clock id d).
Proof.
  unfold stream_data. pose proof keep_owner_data. pose proof keep_public_data. keep. by apply keep_incr.
Qed.

(** The two blocks of a [try] without [finally]: then the job that runs it. *)
Lemma keep_finally (m : eff State unit) s : preserves (P 1) m -> P 1 s -> P 0 (exec (o ← outcome m; wait (JFinally o)) s).
Proof.
  intros Hm Hs. unfold exec, outcome, mbind, eff_bind. specialize (Hm s Hs). destruct (m s) as [s' o].
  by apply (st_wait _ _ HC).
Qed.

Lemma keep_apply clock id u r : preserves (P 0) (update_apply seal clock id u r).
Proof. unfold update_apply. keep. Qed.

Lemma keep_apply_failed clock u e : preserves (P 0) (apply_failed seal clock u e).
Proof. unfold apply_failed. auto with keep. Qed.

Lemma keep_exit clock u code : preserves (P 0) (installer_exit seal clock u code).
Proof. unfold installer_exit. pose proof keep_apply_failed. keep. Qed.

Lemma keep_eval clock id act : preserves (P 0) (eval_request seal clock id act).
Proof. unfold eval_request. keep. Qed.

Lemma keep_eval_done clock id act r : preserves (P 0) (eval_done seal clock id act r).
Proof. unfold eval_done. keep. Qed.

Lemma keep_message clock m : (forall b u v, m <> UpdatePrepare b u v) -> preserves (P 0) (onMessage seal proc build clock m).
Proof.
  intros Hm. destruct m; cbn [onMessage]; auto with keep; try apply preserves_ret.
  - apply keep_eval.
  - by apply keep_incr.
  - apply keep_open.
  - apply keep_stream_data.
  - apply keep_stream_close.
  - by edestruct Hm.
  - apply keep_apply.
Qed.

(** The waits of an update. *)
Definition of_update (j : job) : bool := match j with JPrepare _ _ _ | JTimer _ _ => true | _ => false end.

Lemma keep_resume clock j r s : of_update j = false -> P (weight j) s -> P 0 (exec (resume seal proc build clock j r) s).
Proof.
  intros Hj Hs. destruct j, r; try done; cbn [resume weight] in *; try (by apply (st_wait _ _ HC)).
  - unfold proxy_done. apply keep_finally; [|done]. keep.
  - unfold session_done. apply keep_finally; [|done]. keep.
  - unfold finally, lift, modify, exec, mbind, eff_bind. by apply (st_decr _ _ HC).
  - by apply keep_eval_done.
  - by apply keep_table.
  - by apply keep_exit.
  - by apply keep_emit.
Qed.

Lemma keep_tick clock up : preserves (P 0) (tick seal nodeId clock up).
Proof. unfold tick, sendHeartbeat. keep. Qed.

Lemma keep_on_close : preserves (P 0) onClose.
Proof.
  unfold onClose. preserve; auto with keep.
  - by apply (st_lost _ _ HC).
  - apply keep_all.
  - apply keep_all.
Qed.

Lemma keep_stop : preserves (P 0) stop.
Proof. unfold stop. preserve; auto with keep. by apply (st_flags _ _ HC). Qed.

(** An event that does not concern an update, where it comes to [s]. *)
Definition plain (s : State) (e : event) : Prop :=
  match e with
  | Message (UpdatePrepare _ _ _) | NoTarget => False
  | Resume n _ => forall j, jobs s !! n = Some j -> of_update j = false
  | _ => True
  end.

Lemma calm_step te s : plain s te.2 -> P 0 s -> P 0 (step seal proc build nodeId te s).
Proof.
  destruct te as [clock e]. intros He Hs. unfold step. destruct e as [m| |n r|n d|n|n m|n e|n d|up| | |]; cbn [fst snd handle plain] in *.
  - apply keep_message; [|done]. by intros b u v ->.
  - done.
  - unfold resume_nth, gets, exec, mbind, eff_bind. destruct (jobs s !! n) as [j|] eqn:Ej; [|done].
    apply (keep_resume clock j r); [by apply He|]. by apply (st_take _ _ HC).
  - clear He. revert s Hs. change (preserves (P 0) (socket_data seal clock n d)). unfold socket_data. keep.
  - by apply keep_socket_close.
  - by apply keep_socket_error.
  - by apply keep_moves.
  - clear He. revert s Hs. change (preserves (P 0) (stream_sends seal clock n d)). unfold stream_sends. keep.
  - by apply keep_tick.
  - by apply (st_lost _ _ HC).
  - by apply keep_on_close.
  - by apply keep_stop.
Qed.
End Calm.

Section Stable.
Context `{Hashing} (seal : TunnelMessage -> result unit) (proc : Process) (build : Build) (nodeId : string).
Context (P : Z -> State -> Prop) (HP : stable seal proc build P).

Let HC : calm seal P := st_calm _ _ _ _ HP.

Lemma keep_prepared clock id u manifest d :
  verified proc build {| pu_updateId := u; pu_manifest := manifest; pu_artifactPath := dl_path d; pu_sha256 := dl_sha256 d |} ->
  preserves (P 0) (prepared seal proc build clock id u manifest d).
Proof. intros Hv. unfold prepared. preserve; [by apply (st_prepared _ _ _ _ HP)|apply (keep_send _ _ HC)]. Qed.

Lemma keep_prepare clock id u manifest : preserves (P 0) (update_prepare seal proc build clock id u manifest).
Proof.
  intros s Hs. unfold update_prepare, try_catch, lift, mbind, eff_bind.
  destruct (compareManifests _ manifest) as [st|e] eqn:Ec; [|by apply (keep_send _ _ HC)].
  destruct (update_required st) eqn:Eu; [by apply (st_prepare _ _ _ _ HP)|].
  set (d := {| dl_path := ""; dl_sha256 := _ |}).
  assert (Hp : preserves (P 0) (prepared seal proc build clock id u manifest d)) by (apply keep_prepared; left; eauto).
  specialize (Hp s Hs). destruct (prepared _ _ _ _ _ _ _ _ s) as [s' [|]]; [done|by apply (keep_send _ _ HC)].
Qed.

Lemma keep_prepare_done clock fetch id u manifest : preserves (P 0) (prepare_done seal proc build clock fetch id u manifest).
Proof.
  intros s Hs. unfold prepare_done, try_catch, on_disk. cbv beta. unfold mbind at 1, eff_bind at 1.
  pose proof (download_inv fetch proc manifest (disk s)) as Hd. destruct (downloadAndVerify _ _ _ _) as [d' [d|e]];
    apply (st_disk _ _ _ _ HP d') in Hs; [|by apply (keep_send _ _ HC)].
  destruct Hd as (bytes & Ha & Hpath & _).
  assert (Hp : preserves (P 0) (prepared seal proc build clock id u manifest d)) by (apply keep_prepared; right; eauto).
  specialize (Hp _ Hs). destruct (prepared _ _ _ _ _ _ _ _ _) as [s' [|]]; [done|by apply (keep_send _ _ HC)].
Qed.

Lemma keep_timer clock u : preserves (P 0) (apply_timer seal proc clock u).
Proof.
  unfold apply_timer. apply preserves_catch; [|intros; apply (keep_apply_failed _ _ HC)].
  intros s Hs. unfold gets at 1, mbind at 1, eff_bind at 1. destruct (preparedUpdate s) as [up|] eqn:Eu; [|done].
  unfold runUpdateCommand, gets, mbind, eff_bind. destruct (updateCommand _ _); [|done].
  apply (keep_wait _ _ HC (JInstaller u)); [done..|]. by apply (st_spawned _ _ _ _ HP).
Qed.

Theorem stable_step te s : te.2 <> NoTarget -> P 0 s -> P 0 (step seal proc build nodeId te s).
Proof.
  destruct te as [clock e]. intros He Hs. destruct e as [m| |n r|n d|n|n m|n e|n d|up| | |]; try (by apply (calm_step _ _ _ _ _ HC)).
  - destruct m; try (by apply (calm_step _ _ _ _ _ HC)). by apply keep_prepare.
  - unfold step. cbn [fst snd handle]. unfold resume_nth, gets, exec, mbind, eff_bind. destruct (jobs s !! n) as [j|] eqn:Ej; [|done].
    apply (st_take _ _ HC _ _ _ Ej) in Hs. destruct (of_update j) eqn:Ej'; [|by apply (keep_resume _ _ _ _ HC)].
    destruct j, r; try done; cbn [resume weight] in *; try (by apply (st_wait _ _ HC)); try (by apply (st_prepare _ _ _ _ HP)).
    + by apply keep_prepare_done.
    + by apply keep_timer.
Qed.

Theorem stable_run l s : Forall (fun te => te.2 <> NoTarget) l -> P 0 s -> P 0 (run seal proc build nodeId l s).
Proof.
  intros Hl. revert s. induction Hl as [|te l Ht Hl IH]; intros s Hs; [done|]. cbn. by apply IH, stable_step.
Qed.

End Stable.

Lemma target_cases (e : event) : e = NoTarget \/ e <> NoTarget.
Proof. destruct e; auto. Qed.

(** A property of states alone survives every event. *)
Lemma stable_always `{Hashing} seal proc build nodeId (Q : State -> Prop) l s :
  stable seal proc build (fun _ => Q) -> Q s -> Q (run seal proc build nodeId l s).
Proof.
  intros HQ. revert s. induction l as [|[clock e] l IH]; intros s Hs; [done|]. cbn. apply IH.
  destruct (target_cases e) as [->|He]; [by apply (st_incr _ _ (st_calm _ _ _ _ HQ))|]. by apply (stable_step _ _ _ _ _ HQ).
Qed.

(** ** Counting requests *)

(** [k] more requests are counted than are in flight. *)
Definition counts (k w : Z) (s : State) : Prop := activeRequests s = in_flight (jobs s) + k + w /\ 0 <= k.

Lemma send_frame seal m s : (send seal m s).1 = s \/ (send seal m s).1 = emit (Sent m) s /\ connected s = true.
Proof. unfold send, gets, lift, modify, throw, mbind, eff_bind. destruct (connected s); [|by left]. destruct (seal m); [by right|by left]. Qed.

Lemma counts_calm seal k : calm seal (counts k).
Proof.
  split; try done; unfold counts; cbn.
  - intros w m s Hs. by destruct (send_frame seal m s) as [->|[-> _]].
  - intros n j s Hj [Hc Hk]. apply in_flight_delete in Hj. lia.
  - intros j s _ [Hc Hk]. rewrite in_flight_app. cbn. lia.
  - intros s [Hc Hk]. unfold incr. lia.
  - intros s [Hc Hk]. unfold decr. pose proof (in_flight_nonneg (jobs s)). lia.
Qed.

Lemma counts_stable `{Hashing} seal proc build k : stable seal proc build (counts k).
Proof. split; [apply counts_calm|..]; try done. intros id u m s [Hc Hk]. unfold counts. cbn. rewrite in_flight_app. cbn. lia. Qed.

Definition no_target (te : Z * event) : bool := match te.2 with NoTarget => true | _ => false end.
Fixpoint count_no_target (l : list (Z * event)) : Z :=
  match l with [] => 0 | te :: l => (if no_target te then 1 else 0) + count_no_target l end.

(** C12: the number of active requests a heartbeat reports is exact: after every
    history it is the number of proxy requests and session messages whose handler
    has not finished, plus one for every request that came without a target, which
    is never given back. *)
Theorem active_requests_exact `{Hashing} seal proc build nodeId (l : list (Z * event)) (d : Disk) :
  let s := run seal proc build nodeId l (connected_state d) in
  activeRequests s = in_flight (jobs s) + count_no_target l.
Proof.
  cbn zeta. set (s0 := connected_state d).
  enough (Hg : forall l s k, counts k 0 s -> counts (k + count_no_target l) 0 (run seal proc build nodeId l s)).
  { assert (Hc : counts 0 0 s0) by done. apply (Hg l) in Hc as [Hc _]. lia. }
  clear. induction l as [|[clock e] l IH]; intros s k Hs; [cbn; by rewrite Z.add_0_r|]. cbn [run fold_left].
  change (fold_left _ l ?x) with (run seal proc build nodeId l x).
  destruct (target_cases e) as [->|He].
  - change (count_no_target ((clock, NoTarget) :: l)) with (1 + count_no_target l). rewrite Z.add_assoc.
    apply IH. destruct Hs as [Hc Hk]. split; [|lia].
    change (activeRequests s + 1 = in_flight (jobs s) + (k + 1) + 0). lia.
  - replace (count_no_target ((clock, e) :: l)) with (count_no_target l) by (by destruct e).
    apply IH. by apply (stable_step _ _ _ _ _ (counts_stable seal proc build k)).
Qed.

(** ** Updates *)

(** [l] has the message that asks to prepare this update. *)
Definition announced (l : list (Z * event)) (update_id : string) (manifest : json) : Prop :=
  exists l1 clock b l2, l = l1 ++ (clock, Message (UpdatePrepare b update_id manifest)) :: l2.

(** The artifact of [u] was fetched and checked in [l], and is on the disk [d] - or its
    file was emptied since, by a later download that could not be written. *)
Definition downloaded `{Hashing} (proc : Process) (l : list (Z * event)) (u : PreparedUpdate) (d : Disk) : Prop :=
  exists l1 clock n fetch l2 bytes, l = l1 ++ (clock, Resume n (Fetched fetch)) :: l2 /\
    artifact fetch (pu_manifest u) bytes (pu_sha256 u) /\
    pu_artifactPath u = artifact_path proc (pu_manifest u) /\
    (readFile (pu_artifactPath u) d = Contents bytes \/ readFile (pu_artifactPath u) d = Contents []).

(** The node runs this release already; there is nothing to install from. *)
Definition running_already `{Hashing} (proc : Process) (build : Build) (u : PreparedUpdate) : Prop :=
  exists st, compareManifests (current proc build) (pu_manifest u) = Ok st /\ update_required st = false /\ pu_artifactPath u = "".

Definition prepared_by `{Hashing} (proc : Process) (build : Build) (l : list (Z * event)) (u : PreparedUpdate) (d : Disk) : Prop :=
  announced l (pu_updateId u) (pu_manifest u) /\ (running_already proc build u \/ downloaded proc l u d).

Lemma announced_later l te i m : announced l i m -> announced (l ++ [te]) i m.
Proof. intros (l1 & c & b & l2 & ->). exists l1, c, b, (l2 ++ [te]). by rewrite <- app_assoc. Qed.

(** Later, with the file as it was or emptied. *)
Lemma prepared_later `{Hashing} proc build l te u d d' :
  (forall f, readFile f d' = readFile f d \/ readFile f d' = Contents []) -> prepared_by proc build l u d -> prepared_by proc build (l ++ [te]) u d'.
Proof.
  intros Hd [Ha Hu]. split; [by apply announced_later|]. destruct Hu as [Hr|(l1 & c & n & fetch & l2 & bytes & -> & Har & Hp & Hf)]; [by left|].
  right. exists l1, c, n, fetch, (l2 ++ [te]), bytes. rewrite <- app_assoc. split_and!; [done..|].
  destruct (Hd (pu_artifactPath u)) as [->| ->]; [done|by right].
Qed.

(** What a calm stretch leaves of an update. *)
Definition still (s0 : State) (s : State) : Prop :=
  preparedUpdate s = preparedUpdate s0 /\ disk s = disk s0 /\
  (forall id u m, JPrepare id u m ∈ jobs s -> JPrepare id u m ∈ jobs s0) /\
  (forall c u, Spawned c u ∈ out s -> Spawned c u ∈ out s0).

Lemma still_calm seal s0 : calm seal (fun _ => still s0).
Proof.
  assert (He : forall a s, (forall c u, a <> Spawned c u) -> still s0 s -> still s0 (emit a s)).
  { intros a s Ha (H1 & H2 & H3 & H4). split_and!; [done..|]. intros c u [Hu|Hu%list_elem_of_singleton]%elem_of_app; [by apply H4|]. by destruct (Ha c u). }
  split; try done.
  - intros _ m s Hs. destruct (send_frame seal m s) as [->|[-> _]]; [done|]. by apply He.
  - intros _ a s Ha Hs. apply He; [|done]. by intros c u ->.
  - intros n j s _ (H1 & H2 & H3 & H4). split_and!; [done..| |done]. intros id u m Hj. apply (H3 id), list_elem_of_In.
    cbn [jobs on_jobs] in Hj. rewrite delete_take_drop in Hj. rewrite <- (take_drop n (jobs s)). apply list_elem_of_In in Hj.
    apply in_or_app. apply in_app_or in Hj as [Hj|Hj]; [by left|right]. replace (S n) with (n + 1)%nat in Hj by lia.
    rewrite <- drop_drop in Hj. apply list_elem_of_In in Hj. apply list_elem_of_In. destruct (drop n (jobs s)); [done|by right].
  - intros j s Hj Hs. destruct Hs as (H1 & H2 & H3 & H4). split_and!; [done..| |done].
    intros id u m [Hm|Hm%list_elem_of_singleton]%elem_of_app; [by apply (H3 id)|]. by rewrite <- Hm in Hj.
Qed.

Section Installs.
Context `{Hashing} (seal : TunnelMessage -> result unit) (proc : Process) (build : Build) (nodeId : string) (d0 : Disk).
Notation run := (fun l => run seal proc build nodeId l (connected_state d0)).

(** What a history has prepared and started. *)
Record updates_of (l : list (Z * event)) (s : State) : Prop := {
  up_jobs : forall id u m, JPrepare id u m ∈ jobs s -> announced l u m;
  up_prepared : forall u, preparedUpdate s = Some u -> prepared_by proc build l u (disk s);
  up_spawned : forall c u, Spawned c u ∈ out s -> exists l1 te l2, l = l1 ++ te :: l2 /\ prepared_by proc build l1 u (disk (run l1)) }.

Lemma updates_later l te s s' : updates_of l s -> still s s' -> updates_of (l ++ [te]) s'.
Proof.
  intros [U1 U2 U3] (H1 & H2 & H3 & H4). split.
  - intros id u m Hj. by eapply announced_later, U1, H3.
  - intros u Hu. rewrite H2. apply (prepared_later _ _ _ _ _ (disk s)); [by left|]. apply U2. by rewrite <- H1.
  - intros c u Hu. destruct (U3 c u (H4 c u Hu)) as (l1 & t1 & l2 & -> & Hp). exists l1, t1, (l2 ++ [te]). by rewrite <- app_assoc.
Qed.

Lemma updates_still l s s' : updates_of l s -> still s s' -> updates_of l s'.
Proof.
  intros [U1 U2 U3] (H1 & H2 & H3 & H4). split.
  - intros id u m Hj. by eapply U1, H3.
  - intros u Hu. rewrite H2. apply U2. by rewrite <- H1.
  - intros c u Hu. by apply (U3 c u), H4.
Qed.

Lemma still_refl s : still s s.
Proof. done. Qed.

(** [send] after a stretch. *)
Lemma updates_send l s m : updates_of l s -> updates_of l (exec (send seal m) s).
Proof. intros Hu. apply (updates_still _ s); [done|]. by apply (st_send _ _ (still_calm seal s) 0). Qed.

Lemma updates_replace l te s d' u : updates_of l s -> prepared_by proc build (l ++ [te]) u d' ->
  updates_of (l ++ [te]) (set_prepared (Some u) (set_disk d' s)).
Proof.
  intros [U1 U2 U3] Hp. split.
  - intros i v m Hj. by eapply announced_later, U1.
  - by intros v [= <-].
  - intros c v Hv. destruct (U3 c v Hv) as (l1 & t1 & l2 & -> & Hp'). exists l1, t1, (l2 ++ [te]). by rewrite <- app_assoc.
Qed.

Lemma updates_disk l te s d' : (forall f, readFile f d' = readFile f (disk s) \/ readFile f d' = Contents []) ->
  updates_of l s -> updates_of (l ++ [te]) (set_disk d' s).
Proof.
  intros Hd [U1 U2 U3]. split.
  - intros i v m Hj. by eapply announced_later, U1.
  - intros v Hv. apply (prepared_later _ _ _ _ _ (disk s)); [done|]. by apply U2.
  - intros c v Hv. destruct (U3 c v Hv) as (l1 & t1 & l2 & -> & Hp'). exists l1, t1, (l2 ++ [te]). by rewrite <- app_assoc.
Qed.

(** A handler that fails says so. *)
Lemma updates_try l (m : eff State unit) (h : exn -> eff State unit) s : (forall s0 e, preserves (still s0) (h e)) ->
  updates_of l (exec m s) -> updates_of l (exec (try_catch m h) s).
Proof.
  unfold exec, try_catch. intros Hh Hm. destruct (m s) as [s' [x|e]]; [done|]. apply (updates_still _ s'); [done|]. by apply Hh.
Qed.

Lemma prepare_failed_still clock id u s0 e : preserves (still s0) (prepare_failed seal clock id u e).
Proof. apply (st_send _ _ (still_calm seal s0) 0). Qed.

Lemma set_disk_same s : set_disk (disk s) s = s.
Proof. by destruct s. Qed.

Lemma updates_prepare l clock b u manifest s : updates_of l s ->
  updates_of (l ++ [(clock, Message (UpdatePrepare b u manifest))]) (exec (update_prepare seal proc build clock (m_id b) u manifest) s).
Proof.
  intros Hs. assert (Hs' : updates_of (l ++ [(clock, Message (UpdatePrepare b u manifest))]) s) by (by eapply updates_later).
  assert (Ha : announced (l ++ [(clock, Message (UpdatePrepare b u manifest))]) u manifest) by (by exists l, clock, b, []).
  unfold update_prepare. apply updates_try; [intros; apply prepare_failed_still|]. unfold exec, lift, mbind at 1, eff_bind at 1.
  destruct (compareManifests _ manifest) as [st|e] eqn:Ec; [|done]. destruct (update_required st) eqn:Er.
  - destruct Hs' as [U1 U2 U3]. split; [|done..]. intros i v m [Hm|Hm%list_elem_of_singleton]%elem_of_app; [by eapply U1|].
    by injection Hm as _ -> ->.
  - unfold prepared. erewrite bind_run by reflexivity. apply updates_send. rewrite <- (set_disk_same s). apply updates_replace; [done|].
    split; [done|]. left. by exists st.
Qed.

Lemma updates_download l clock n fetch id u manifest s : updates_of l s -> announced l u manifest ->
  updates_of (l ++ [(clock, Resume n (Fetched fetch))]) (exec (prepare_done seal proc build clock fetch id u manifest) s).
Proof.
  intros Hs Ha. unfold prepare_done. apply updates_try; [intros; apply prepare_failed_still|].
  unfold exec, on_disk. cbv beta. unfold mbind at 1, eff_bind at 1.
  pose proof (download_inv fetch proc manifest (disk s)) as Hd. destruct (downloadAndVerify _ _ _ _) as [d' [dl|e]]; cbn [fst].
  - destruct Hd as (bytes & Har & Hpath & Hd). unfold prepared. erewrite bind_run by reflexivity. apply updates_send, updates_replace; [done|].
    split; [by apply announced_later|]. right. exists l, clock, n, fetch, [], bytes. split_and!; [done..|]. left. cbn [pu_artifactPath].
    subst d'. unfold readFile. by rewrite lookup_insert_eq.
  - apply updates_disk; [|done]. intros f. destruct Hd as [Hown Hd]. destruct (decide (f = artifact_path proc manifest)) as [->|Hne].
    + destruct Hown as [Ho|Ho]; [left; by apply readFile_same|right]. unfold readFile. by rewrite Ho.
    + left. by apply readFile_same, Hd.
Qed.

Lemma updates_timer l te u s : disk s = disk (run l) -> updates_of l s -> updates_of (l ++ [te]) (exec (apply_timer seal proc te.1 u) s).
Proof.
  intros Hrun Hs. assert (Hs' : updates_of (l ++ [te]) s) by (by eapply updates_later). unfold apply_timer.
  apply updates_try; [intros s0 e; apply (keep_apply_failed _ _ (still_calm seal s0))|].
  unfold exec, gets at 1, mbind at 1, eff_bind at 1. destruct (preparedUpdate s) as [up|] eqn:Eu; [|done].
  unfold runUpdateCommand, gets, mbind, eff_bind. destruct (updateCommand _ _) as [c|]; [|done]. cbn [fst modify].
  assert (Hp : prepared_by proc build l up (disk (run l))) by (rewrite <- Hrun; by apply (up_prepared _ _ Hs)).
  destruct Hs' as [U1 U2 U3]. split.
  - intros i v m [Hm|Hm%list_elem_of_singleton]%elem_of_app; [by eapply U1|done].
  - exact U2.
  - intros c' v [Hv|Hv%list_elem_of_singleton]%elem_of_app; [by eapply U3|]. injection Hv as -> ->. by exists l, te, [].
Qed.

(** A wait that is put back. *)
Lemma updates_jobs l te s id u m : updates_of l s -> announced l u m -> updates_of (l ++ [te]) (exec (wait (JPrepare id u m)) s).
Proof.
  intros Hs Ha. assert (Hs' : updates_of (l ++ [te]) s) by (by eapply updates_later). destruct Hs' as [U1 U2 U3]. split; [|done..].
  intros i v m' [Hm|Hm%list_elem_of_singleton]%elem_of_app; [by eapply U1|]. injection Hm as _ -> ->. by apply announced_later.
Qed.

Lemma updates_step l te : updates_of l (run l) -> updates_of (l ++ [te]) (step seal proc build nodeId te (run l)).
Proof.
  intros Hs. destruct te as [clock e].
  assert (Hplain : plain (run l) e -> updates_of (l ++ [(clock, e)]) (step seal proc build nodeId (clock, e) (run l))).
  { intros Hp. apply (updates_later _ _ (run l)); [done|]. by apply (calm_step seal proc build nodeId _ (still_calm seal (run l)) (clock, e)). }
  destruct e as [m| |n r|n d|n|n m|n e|n d|up| | |]; try (by apply Hplain).
  - destruct m; try (by apply Hplain). by apply updates_prepare.
  - by apply (updates_later _ _ (run l)).
  - destruct (jobs (run l) !! n) as [j|] eqn:Ej; [|apply Hplain; cbn; intros j'; by rewrite Ej].
    destruct (of_update j) eqn:Eu; [|apply Hplain; cbn; intros j'; rewrite Ej; by intros [= <-]].
    unfold step. cbn [fst snd handle]. unfold resume_nth, exec. erewrite bind_run by reflexivity. rewrite Ej. erewrite bind_run by reflexivity.
    set (s1 := on_jobs (delete n) (run l)).
    assert (Hst : still (run l) s1) by (by eapply (st_take _ _ (still_calm seal (run l)))).
    assert (Hs1 : updates_of l s1) by (by eapply updates_still).
    assert (Hwait : no_prepare j -> updates_of (l ++ [(clock, Resume n r)]) (wait j s1).1).
    { intros Hj. apply (updates_later _ _ s1); [done|]. apply (st_wait _ _ (still_calm seal s1)); done. }
    destruct j as [| | | | |id u m|u ms| |]; try done; destruct r; cbn [resume]; try (by apply Hwait).
    all: try (by apply updates_timer; [apply Hst|]).
    all: try (by apply updates_download; [|eapply (up_jobs _ _ Hs), list_elem_of_lookup_2]).
    all: apply (updates_jobs _ _ s1); [done|]; by eapply (up_jobs _ _ Hs), list_elem_of_lookup_2.
Qed.

Lemma updates_run l : updates_of l (run l).
Proof.
  induction l as [|te l IH] using rev_ind.
  - split; [|done|]; intros; by match goal with H : _ ∈ _ |- _ => apply not_elem_of_nil in H end.
  - cbn beta. unfold ControlClient.run at 1. rewrite fold_left_app. by apply updates_step.
Qed.
End Installs.


(** ** The end of the tunnel *)

Definition sent (l : list action) : list TunnelMessage := omap (fun a => match a with Sent m => Some m | _ => None end) l.

Definition silent (k : list TunnelMessage) (s : State) : Prop := connected s = false /\ sent (out s) = k.

Lemma silent_calm seal k : calm seal (fun _ => silent k).
Proof.
  assert (He : forall a s, (forall m, a <> Sent m) -> silent k s -> silent k (emit a s)).
  { intros a s Ha [Hc Hk]. split; [done|]. cbn. unfold sent in *. rewrite omap_app, Hk. destruct a; cbn; rewrite ?app_nil_r; try done.
    by destruct (Ha m). }
  split; try done.
  - intros _ m s Hs. destruct (send_frame seal m s) as [->|[_ Hc]]; [done|]. destruct Hs. congruence.
  - intros _ a s Ha Hs. apply He; [|done]. by intros m ->.
  - by intros _ x y s [_ Hk].
Qed.

Lemma silent_stable `{Hashing} seal proc build k : stable seal proc build (fun _ => silent k).
Proof.
  split; [apply silent_calm|done..|]. intros c u s _ [Hc Hk]. split; [done|]. cbn. unfold sent in *. rewrite omap_app, Hk. cbn. by rewrite app_nil_r.
Qed.

Lemma destroy_all_spec l s : exec (destroy_all l) s =
  {| activeRequests := activeRequests s; table := table s; preparedUpdate := preparedUpdate s; stopped := stopped s;
     timer := timer s; connected := connected s; sockets := sockets s; streams := streams s; jobs := jobs s; disk := disk s;
     out := out s ++ map (fun kv => Destroyed kv.2) l |}.
Proof.
  revert s. induction l as [|[id n] l IH]; intros s.
  - unfold exec. cbn. rewrite app_nil_r. by destruct s.
  - change (exec (destroy_all ((id, n) :: l)) s) with (exec (destroy_all l) (emit (Destroyed n) s)).
    rewrite IH. cbn. by rewrite <- app_assoc.
Qed.

Definition closed_stream (n : nat) (s : State) : Prop := forall id ds, streams s !! n = Some (id, ds) -> ds_closed ds = true.

Lemma fail_all_spec l s :
  let s' := exec (fail_all l) s in
  out s' = out s /\ connected s' = connected s /\ timer s' = timer s /\
  forall n, (n ∈ l.*2 \/ closed_stream n s) -> closed_stream n s'.
Proof.
  revert s. induction l as [|[id n] l IH]; intros s.
  - cbn. split_and!; try done. intros n [Hn|Hn]; [by apply not_elem_of_nil in Hn|done].
  - set (s1 := on_streams (alter (fun kv => (kv.1, stream_step (StreamFail (PlainError "connection closed")) kv.2)) n) s).
    change (exec (fail_all ((id, n) :: l)) s) with (exec (fail_all l) s1).
    destruct (IH s1) as (H1 & H2 & H3 & H4). cbn zeta. rewrite H1, H2, H3. split_and!; try done.
    intros m Hm. apply H4.
    assert (Hn : forall k, k = n \/ closed_stream k s -> closed_stream k s1).
    { intros k Hk i ds. cbn. destruct (decide (k = n)) as [->|Hne].
      - rewrite list_lookup_alter_eq. destruct (streams s !! n) as [[]|]; [|done]. by intros [= _ <-].
      - rewrite list_lookup_alter_ne by done. destruct Hk as [->|Hk]; [done|apply Hk]. }
    destruct Hm as [Hm|Hm]; [|right; apply Hn; by right].
    apply elem_of_cons in Hm as [->|Hm]; [right; apply Hn; by left|by left].
Qed.

(** C14: when the tunnel is closed, everything the connection held is let go: the
    tables are empty, every raw socket has been destroyed, every data-plane stream
    has been failed, the heartbeat has stopped; and whatever happens afterwards the
    node sends nothing more on it. *)
Theorem closed_tunnel_quiet `{Hashing} seal proc build nodeId (clock : Z) (s : State) :
  let s1 := step seal proc build nodeId (clock, TunnelClosed) s in
  table s1 = empty_table /\ timer s1 = false /\
  (forall id n, (id, n) ∈ rawStreams (table s) -> Destroyed n ∈ out s1) /\
  (forall id n, (id, n) ∈ dataPlaneStreams (table s) -> closed_stream n s1) /\
  forall l, sent (out (run seal proc build nodeId l s1)) = sent (out s).
Proof.
  cbn zeta. set (s0 := set_flags (stopped s) false false s).
  set (s2 := exec (destroy_all (rawStreams (table s))) s0).
  set (s3 := exec (fail_all (dataPlaneStreams (table s))) s2).
  assert (E : step seal proc build nodeId (clock, TunnelClosed) s = on_table (fun _ => empty_table) s3).
  { unfold step, handle, onClose, exec, gets, modify. cbn [fst snd]. unfold mbind, eff_bind. fold s0. cbn [table s0 set_flags].
    subst s3 s2. unfold exec.
    assert (Hd : forall l x, (destroy_all l x).2 = Ok tt) by (clear; induction l as [|[] l IH]; intros x; [done|apply IH]).
    assert (Hf : forall l x, (fail_all l x).2 = Ok tt) by (clear; induction l as [|[] l IH]; intros x; [done|apply IH]).
    specialize (Hd (rawStreams (table s)) s0). destruct (destroy_all _ s0) as [s2 r2]. cbn in Hd. subst r2. cbn [fst].
    specialize (Hf (dataPlaneStreams (table s)) s2). destruct (fail_all _ s2) as [s3 r3]. cbn in Hf. by subst r3. }
  rewrite E. destruct (fail_all_spec (dataPlaneStreams (table s)) s2) as (H1 & H2 & H3 & H4). fold s3 in H1, H2, H3, H4.
  assert (Ed : s2 = _) by apply destroy_all_spec. rewrite Ed in H1, H2, H3. cbn in H1, H2, H3.
  split; [done|]. split; [done|]. split; [|split].
  - intros id n Hin. cbn. rewrite H1. apply elem_of_app. right. apply list_elem_of_In, in_map_iff. exists (id, n).
    split; [done|by apply list_elem_of_In].
  - intros id n Hin. apply (H4 n). left. apply list_elem_of_fmap. by exists (id, n).
  - intros l.
    assert (Hq : silent (sent (out s)) (run seal proc build nodeId l (on_table (fun _ => empty_table) s3))); [|apply Hq].
    apply stable_always; [apply silent_stable|]. split; [done|]. cbn. rewrite H1. unfold sent. rewrite omap_app.
    rewrite <- (app_nil_r (omap _ (out s))) at 2. f_equal. clear. by induction (rawStreams (table s)) as [|[] l IH].
Qed.

(** ** A concrete update *)

Module Demo.
Definition seal (m : TunnelMessage) : result unit := Ok tt.
Definition build : Build := {| pkg_version := Some "1.0.0"; pkg_commit := Some "c0"; pkg_platform := Some "linux-x64"; git_stdout := None |}.
Definition b : BaseMessage := {| m_id := None; timestamp := num_of_Z 1 |}.
Definition manifest : json := Update.Demo.pinned "2.0.0" (@sha256Hex Toy.hashing Update.Demo.bytes).
Definition history : list (Z * event) :=
  [(1000, Message (UpdatePrepare b "u1" manifest)); (1000, Resume 0 (Fetched Update.Demo.fetch));
   (2000, Message (UpdateApply b "u1" None)); (3000, Resume 0 Done)].
Definition script : Disk := {[ "/srv/node/scripts/install-release.sh" := Regular [] ]}.
Definition after : State := @run Toy.hashing seal Update.Demo.process build "n1" history (connected_state script).
Definition update : PreparedUpdate :=
  default {| pu_updateId := ""; pu_manifest := JNull; pu_artifactPath := ""; pu_sha256 := "" |} (preparedUpdate after).
End Demo.

