(* ===== verification/UnitEnv.v ===== *)
(** * What the supervised children are started with (supervise.ts)

    [supervise.ts] fixes four variables for its children, which read them in
    [Files.paths], [Supervise.tunnelUrlFromEnv] and [ControlClient.updateCommand].
    The life of the unit is in [Supervise]. *)

From S2P Require Import Prelude Text Json Coerce Url Files Supervise ControlClient.
Local Open Scope Z_scope.

Section Children.
(** The supervisor's own process. *)
Context (p : Process).

Definition SHUTDOWN_GRACE_MS : num :=
  match string_to_number <$> env p "CONSENSUS_SUPERVISE_GRACE_MS" with
  | Some (Fin m e) => if 0 <? m then Fin m e else num_of_Z 10000
  | _ => num_of_Z 10000
  end.

Definition envOr (name fallback : string) : string :=
  match env p name with Some value => if bool_decide (value = "") then fallback else value | None => fallback end.

Definition installDir : string := envOr "CONSENSUS_NODE_INSTALL_DIR" (path_join [homedir p; ".consensus"; "node-runtime"]).
Definition stateDir : string := envOr "CONSENSUS_STATE_DIR" (path_join [homedir p; ".consensus"; "node"]).
Definition serverUrl : string := envOr "CONSENSUS_SERVER_URL" "https://consensus.canister.software".
Definition currentDir : string := path_join [installDir; "current"].
Definition updateCommand : string :=
  envOr "CONSENSUS_NODE_UPDATE_COMMAND" (path_join [currentDir; "scripts"; "install-release.sh"]).

Definition childEnv (name : string) : option string :=
  if bool_decide (name = "CONSENSUS_STATE_DIR") then Some stateDir
  else if bool_decide (name = "CONSENSUS_SERVER_URL") then Some serverUrl
  else if bool_decide (name = "CONSENSUS_NODE_INSTALL_DIR") then Some installDir
  else if bool_decide (name = "CONSENSUS_NODE_UPDATE_COMMAND") then Some updateCommand
  else env p name.

(** [process.versions.bun] says whether Bun runs the supervisor. *)
Definition bunExecutable (bun : bool) (execPath : string) : string := if bun then execPath else "bun".

(** What [startChild] gives to [spawn], and the process that is started. *)
Definition child_command (bun : bool) (execPath script : string) : string * list string :=
  (bunExecutable bun execPath, ["run"; script]).
Definition child_process : Process :=
  {| env := childEnv; homedir := homedir p; cwd := currentDir; os_platform := os_platform p; os_arch := os_arch p; getuid := getuid p |}.

(** ** What the children read *)

Lemma child_env_other k :
  k ∉ ["CONSENSUS_STATE_DIR"; "CONSENSUS_SERVER_URL"; "CONSENSUS_NODE_INSTALL_DIR"; "CONSENSUS_NODE_UPDATE_COMMAND"] ->
  childEnv k = env p k.
Proof. intros Hk. unfold childEnv. repeat (case_bool_decide; [exfalso; apply Hk; set_solver|]). done. Qed.

(** The children keep their state where the supervisor's own modules look for it. *)
Lemma child_paths : paths child_process = paths p.
Proof.
  unfold paths. replace (Files.stateDir child_process) with (Files.stateDir p); [done|].
  change (Files.stateDir child_process) with (if bool_decide (stateDir = "") then path_join [homedir p; ".consensus"; "node"] else stateDir).
  case_bool_decide as Hd; [|done]. unfold Files.stateDir, env_or. unfold stateDir, envOr in Hd.
  destruct (env p "CONSENSUS_STATE_DIR"); [|done]. by case_bool_decide.
Qed.

Lemma grace_positive : exists m e, SHUTDOWN_GRACE_MS = Fin m e /\ 0 < m.
Proof.
  unfold SHUTDOWN_GRACE_MS. destruct (env p _) as [v|]; cbn; [|by eexists _, _].
  destruct (string_to_number v) as [m e| |]; try by eexists _, _. destruct (Z.ltb_spec 0 m); by eexists _, _.
Qed.

(** The control loop has a server to go to, unless the variable is blank. *)
Lemma child_tunnel_url `{UrlApi} url : env p "CONSENSUS_TUNNEL_URL" = None -> trim serverUrl <> "" -> new_URL (trim serverUrl) = Some url ->
  is_ok (tunnelUrlFromEnv child_process) = true.
Proof.
  intros Ht Hs Hu. unfold tunnelUrlFromEnv. change (env child_process "CONSENSUS_TUNNEL_URL") with (env p "CONSENSUS_TUNNEL_URL").
  change (env child_process "CONSENSUS_SERVER_URL") with (Some serverUrl). rewrite Ht. cbn [default option_map from_option].
  rewrite (bool_decide_true (trim "" = "")) by done. cbv zeta. unfold id. cbn [negb]. rewrite (bool_decide_false _ Hs).
  cbn. by rewrite Hu.
Qed.

(** The update command of a supervised node is the supervisor's text as it is, so that
    none of the quoted scripts of [ControlClient.updateCommand] is ever chosen. *)
Lemma child_update_command (d : Disk) : trim updateCommand <> "" ->
  ControlClient.updateCommand child_process d = Some (trim updateCommand).
Proof.
  intros Hu. unfold ControlClient.updateCommand. change (env child_process "CONSENSUS_NODE_UPDATE_COMMAND") with (Some updateCommand).
  cbn [default option_map from_option]. unfold id. by rewrite (bool_decide_false _ Hu).
Qed.

End Children.

(** An install directory with a space: the supervised node gives [sh -lc] the path
    without quotes, the same node started by hand in that directory quotes it. *)
Module Demo.

Definition operator : Process :=
  {| env := fun k => if bool_decide (k = "CONSENSUS_NODE_INSTALL_DIR") then Some "/srv/my node" else None;
     homedir := "/home/op"; cwd := "/home/op"; os_platform := "linux"; os_arch := "x64"; getuid := Some 1000 |}.
Definition by_hand : Process :=
  {| env := env operator; homedir := "/home/op"; cwd := "/srv/my node/current"; os_platform := "linux"; os_arch := "x64"; getuid := Some 1000 |}.

Example update_command_unquoted (d : Disk) : file_exists "/srv/my node/current/scripts/install-release.sh" d = true ->
  ControlClient.updateCommand (child_process operator) d = Some "/srv/my node/current/scripts/install-release.sh" /\
  ControlClient.updateCommand by_hand d = Some "'/srv/my node/current/scripts/install-release.sh'".
Proof.
  intros Hd. split.
  - rewrite child_update_command; [by vm_compute|by vm_compute].
  - unfold ControlClient.updateCommand. change (path_join [cwd by_hand; "scripts"; "install-release.sh"]) with "/srv/my node/current/scripts/install-release.sh".
    by rewrite Hd.
Qed.

End Demo.
