(* ===== verification/Routing.v ===== *)
(** * Public tunnels: which bytes reach which stream (clients/control-client.ts)

    The tables that link the streams of a public tunnel with the numbers its owner
    knows them by, as an invariant of histories in which the orchestrator opens
    streams under unused ids and tunnels that are not open; and what happens when
    it does not. *)

From S2P Require Import Prelude Effect Text Json JsonText Coerce Base64 Crypto Messages CanonicalJson Files Dedupe Update Profile Ssrf ProxyServe ProxyCommand DataPlane Channel ControlClient.
Local Open Scope Z_scope.

(** ** Frames *)

Lemma public_frame_codec type streamId payload b :
  encodePublicTunnelFrame type streamId payload = Ok b ->
  decodePublicTunnelFrame b = Ok {| pf_type := type; pf_streamId := streamId; pf_payload := payload |}.
Proof.
  unfold encodePublicTunnelFrame, decodePublicTunnelFrame. intros He. inv_ok. bool_solve.
  assert (Hl1 : length (be_encode 1 type) = 1%nat) by apply be_encode_length.
  assert (Hl4 : length (be_encode 4 streamId) = 4%nat) by apply be_encode_length.
  rewrite bool_decide_false by (rewrite !length_app; lia). cbn [throw_if mbind result_bind]. do 2 f_equal.
  - unfold readBE. rewrite subarray_here by done. apply be_decode_encode_small. cbn. lia.
  - unfold readBE. rewrite subarray_skip by (rewrite Hl1; done). rewrite Hl1, subarray_here by done.
    apply be_decode_encode_small. cbn. lia.
Qed.

Lemma public_frame_encodes type streamId payload : 0 <= type <= 255 -> 0 <= streamId <= 0xffffffff ->
  exists b, encodePublicTunnelFrame type streamId payload = Ok b.
Proof.
  intros Ht Hs. unfold encodePublicTunnelFrame.
  rewrite !(proj2 (throw_if_ok _ _ tt)); [by eexists| |]; apply orb_false_iff; split; apply Z.ltb_ge; lia.
Qed.

(** ** The invariant *)

Section Invariant.
Implicit Types (os : list (string * Owner)) (ps : list (string * PublicStream)).

Record routes_ok os ps : Prop := {
  ro_owners : NoDup os.*1;
  ro_link : forall sid tid k, assoc sid ps = Some {| ps_tunnelId := tid; ps_ownerStreamId := k |} <->
              exists o, assoc tid os = Some o /\ ownerToServer o !! k = Some sid;
  ro_inv : forall tid o sid k, assoc tid os = Some o -> ownerToServer o !! k = Some sid <-> assoc sid (serverToOwner o) = Some k;
  ro_next : forall tid o, assoc tid os = Some o -> 1 <= nextStreamId o /\ forall k sid, ownerToServer o !! k = Some sid -> 1 <= k < nextStreamId o;
  ro_distinct : forall tid1 o1 tid2 o2, assoc tid1 os = Some o1 -> assoc tid2 os = Some o2 -> o_streamId o1 = o_streamId o2 -> tid1 = tid2;
  ro_apart : forall tid o sid, assoc tid os = Some o -> is_Some (assoc sid ps) -> sid <> o_streamId o }.

(** A stream id nothing uses yet. *)
Definition unused (id : string) os ps : Prop :=
  assoc id ps = None /\ forall tid o, assoc tid os = Some o -> o_streamId o <> id.

Lemma routes_empty : routes_ok [] [].
Proof. split; try done; [constructor|]. intros sid tid k. split; [done|]. by intros (o & ? & _). Qed.

Lemma routes_open_owner os ps id tid : routes_ok os ps -> assoc tid os = None -> unused id os ps ->
  routes_ok (put tid (new_owner id) os) ps.
Proof.
  intros [H1 H2 H3 H4 H5 H6] Hn [Hu1 Hu2]. split.
  - by apply put_NoDup.
  - intros sid t k. rewrite H2. split; intros (o & Ho & Hk).
    + exists o. rewrite assoc_put, decide_False; [done|]. intros ->. congruence.
    + rewrite assoc_put in Ho. destruct (decide (t = tid)); [injection Ho as <-|eauto]. by cbn in Hk.
  - intros t o sid k. rewrite assoc_put. destruct (decide (t = tid)); [intros [= <-]|eauto]. by cbn.
  - intros t o. rewrite assoc_put. destruct (decide (t = tid)); [intros [= <-]|eauto]. by cbn.
  - intros t1 o1 t2 o2. rewrite !assoc_put.
    destruct (decide (t1 = tid)) as [->|], (decide (t2 = tid)) as [->|]; try done; [intros [= <-] Ho E|intros Ho [= <-] E|eauto];
      cbn in E; exfalso; by eapply Hu2.
  - intros t o sid. rewrite assoc_put. destruct (decide (t = tid)); [intros [= <-] [l Hl]|eauto]. cbn. congruence.
Qed.

(** Replacing an owner by one on the same stream. *)
Lemma same_streams os tid o o1 : assoc tid os = Some o -> o_streamId o1 = o_streamId o ->
  forall t o', assoc t (put tid o1 os) = Some o' -> exists o'', assoc t os = Some o'' /\ o_streamId o'' = o_streamId o'.
Proof. intros Ho E t o'. rewrite assoc_put. destruct (decide (t = tid)) as [->|]; [intros [= <-]|]; eauto. Qed.

Lemma routes_open_public os ps sid tid o : routes_ok os ps -> assoc tid os = Some o -> unused sid os ps ->
  routes_ok (put tid (link sid o) os) (put sid {| ps_tunnelId := tid; ps_ownerStreamId := nextStreamId o |} ps).
Proof.
  intros [H1 H2 H3 H4 H5 H6] Ho [Hu1 Hu2].
  destruct (H4 _ _ Ho) as [Hn1 Hn2].
  assert (Hx : forall t o' k, assoc t os = Some o' -> ownerToServer o' !! k <> Some sid).
  { intros t o' k Ho' Hk. assert (assoc sid ps = Some {| ps_tunnelId := t; ps_ownerStreamId := k |}) by (apply H2; eauto). congruence. }
  pose proof (fun k => Hx tid o k Ho) as Hs.
  assert (Hf : ownerToServer o !! nextStreamId o = None).
  { destruct (ownerToServer o !! nextStreamId o) eqn:E; [|done]. apply Hn2 in E. lia. }
  split.
  - by apply put_NoDup.
  - intros s t k. rewrite assoc_put. destruct (decide (s = sid)) as [->|Hne].
    + split.
      * intros [= <- <-]. exists (link sid o). rewrite assoc_put, decide_True by done. split; [done|]. apply lookup_insert_eq.
      * intros (o' & Ho' & Hk). rewrite assoc_put in Ho'. destruct (decide (t = tid)) as [->|].
        -- injection Ho' as <-. cbn in Hk. destruct (decide (k = nextStreamId o)) as [->|]; [done|].
           rewrite lookup_insert_ne in Hk by done. by destruct (Hs k).
        -- by destruct (Hx t o' k Ho').
    + rewrite H2. split; intros (o' & Ho' & Hk).
      * destruct (decide (t = tid)) as [->|Ht]; [|exists o'; rewrite assoc_put, decide_False by done; done].
        exists (link sid o). rewrite assoc_put, decide_True by done. split; [done|]. cbn.
        assert (o' = o) as -> by congruence. rewrite lookup_insert_ne; [done|]. congruence.
      * rewrite assoc_put in Ho'. destruct (decide (t = tid)) as [->|]; [|eauto]. injection Ho' as <-. exists o. split; [done|].
        cbn in Hk. destruct (decide (k = nextStreamId o)) as [->|]; [|by rewrite lookup_insert_ne in Hk].
        rewrite lookup_insert_eq in Hk. congruence.
  - intros t o' s k. rewrite assoc_put. destruct (decide (t = tid)) as [->|]; [intros [= <-]|eauto]. cbn. rewrite assoc_put.
    destruct (decide (s = sid)) as [->|Hne], (decide (k = nextStreamId o)) as [->|Hk].
    + by rewrite lookup_insert_eq.
    + rewrite lookup_insert_ne by done. split; [intros E; by destruct (Hs k)|congruence].
    + rewrite lookup_insert_eq. split; [congruence|]. intros E. apply (H3 _ _ _ _ Ho) in E. congruence.
    + rewrite lookup_insert_ne by done. by apply (H3 tid).
  - intros t o'. rewrite assoc_put. destruct (decide (t = tid)) as [->|]; [intros [= <-]|eauto]. cbn. split; [lia|].
    intros k s. destruct (decide (k = nextStreamId o)) as [->|Hk]; [lia|]. rewrite lookup_insert_ne by done.
    intros E%Hn2. lia.
  - intros t1 o1 t2 o2 (x & Hox & Ex)%(same_streams os tid o (link sid o) Ho eq_refl) (y & Hoy & Ey)%(same_streams os tid o (link sid o) Ho eq_refl) E. apply (H5 _ _ _ _ Hox Hoy). congruence.
  - intros t o' s (x & Hox & <-)%(same_streams os tid o (link sid o) Ho eq_refl). rewrite assoc_put. destruct (decide (s = sid)) as [->|]; [|eauto].
    intros _ E. by apply (Hu2 t x).
Qed.

Lemma routes_cleanup os ps sid tid k o : routes_ok os ps ->
  assoc sid ps = Some {| ps_tunnelId := tid; ps_ownerStreamId := k |} -> assoc tid os = Some o ->
  routes_ok (put tid (unlink sid k o) os) (remove sid ps).
Proof.
  intros Hr Hl Ho. pose proof Hr as [H1 H2 H3 H4 H5 H6].
  assert (Hk : ownerToServer o !! k = Some sid).
  { apply H2 in Hl as (o' & Ho' & Hk). congruence. }
  split.
  - by apply put_NoDup.
  - intros s t j. rewrite remove_assoc. destruct (decide (s = sid)) as [->|Hne].
    + split; [done|]. intros (o' & Ho' & Hj). rewrite assoc_put in Ho'. destruct (decide (t = tid)) as [->|Ht].
      * injection Ho' as <-. cbn in Hj. apply lookup_delete_Some in Hj as [Hjk Hj].
        apply (H3 _ _ _ _ Ho) in Hj. apply (H3 _ _ _ _ Ho) in Hk. congruence.
      * assert (assoc sid ps = Some {| ps_tunnelId := t; ps_ownerStreamId := j |}) by (apply H2; eauto). congruence.
    + rewrite H2. split; intros (o' & Ho' & Hj).
      * destruct (decide (t = tid)) as [->|Ht]; [|exists o'; rewrite assoc_put, decide_False by done; done].
        exists (unlink sid k o). rewrite assoc_put, decide_True by done. split; [done|]. cbn.
        assert (o' = o) as -> by congruence. rewrite lookup_delete_ne; [done|]. congruence.
      * rewrite assoc_put in Ho'. destruct (decide (t = tid)) as [->|]; [|eauto]. injection Ho' as <-. exists o. split; [done|].
        cbn in Hj. by apply lookup_delete_Some in Hj as [_ Hj].
  - intros t o' s j. rewrite assoc_put. destruct (decide (t = tid)) as [->|]; [intros [= <-]|eauto]. cbn.
    rewrite remove_assoc. rewrite lookup_delete_Some, (H3 _ _ s j Ho). apply (H3 _ _ _ _ Ho) in Hk.
    destruct (decide (s = sid)) as [->|Hne]; [split; [intros [? ?]; congruence|done]|]. split; [by intros [_ ?]|].
    intros E. split; [|done]. intros ->. apply (H3 _ _ _ _ Ho) in E, Hk. congruence.
  - intros t o'. rewrite assoc_put. destruct (decide (t = tid)) as [->|]; [intros [= <-]|eauto]. cbn.
    destruct (H4 _ _ Ho) as [Hn1 Hn2]. split; [done|]. intros j s [_ Hj]%lookup_delete_Some. eauto.
  - intros t1 o1 t2 o2 (x & Hox & Ex)%(same_streams os tid o (unlink sid k o) Ho eq_refl) (y & Hoy & Ey)%(same_streams os tid o (unlink sid k o) Ho eq_refl) E. apply (H5 _ _ _ _ Hox Hoy). congruence.
  - intros t o' s (x & Hox & <-)%(same_streams os tid o (unlink sid k o) Ho eq_refl). rewrite remove_assoc. destruct (decide (s = sid)); [by intros [? [=]]|eauto].
Qed.

(** All streams of an owner, then the owner. *)
Lemma assoc_removes (ids : list string) ps s :
  assoc s (fold_left (fun ps id => remove id ps) ids ps) = if decide (s ∈ ids) then None else assoc s ps.
Proof.
  revert ps. induction ids as [|id ids IH]; intros ps; cbn [fold_left]; [by rewrite decide_False by apply not_elem_of_nil|].
  rewrite IH, remove_assoc. destruct (decide (s ∈ ids)) as [Hi|Hi].
  - rewrite decide_True by (by right). done.
  - destruct (decide (s = id)) as [->|]; [by rewrite decide_True by left|]. rewrite decide_False; [done|].
    by intros [?|?]%elem_of_cons.
Qed.

Lemma routes_close_owner os ps tid o : routes_ok os ps -> assoc tid os = Some o ->
  routes_ok (remove tid os) (fold_left (fun ps id => remove id ps) (serverToOwner o).*1 ps).
Proof.
  intros Hr Ho. pose proof Hr as [H1 H2 H3 H4 H5 H6].
  assert (Hkeys : forall s, s ∈ (serverToOwner o).*1 <-> exists k, ownerToServer o !! k = Some s).
  { intros s. split.
    - intros Hs. destruct (assoc s (serverToOwner o)) as [k|] eqn:E; [|by apply assoc_none in E].
      exists k. by apply (H3 tid).
    - intros [k Hk]. apply (H3 _ _ _ _ Ho) in Hk. apply assoc_elem in Hk. by apply (list_elem_of_fmap_2 fst) in Hk. }
  split.
  - eapply sublist_NoDup; [exact H1|]. apply fmap_sublist, remove_sublist.
  - intros s t k. rewrite assoc_removes. setoid_rewrite remove_assoc. destruct (decide (s ∈ _)) as [Hs|Hs].
    + split; [done|]. intros (o' & Ho' & Hk). destruct (decide (t = tid)) as [->|Ht]; [done|].
      apply Hkeys in Hs as [j Hj].
      assert (E1 : assoc s ps = Some {| ps_tunnelId := t; ps_ownerStreamId := k |}) by (apply H2; eauto).
      assert (E2 : assoc s ps = Some {| ps_tunnelId := tid; ps_ownerStreamId := j |}) by (apply H2; eauto). congruence.
    + rewrite H2. split; intros (o' & Ho' & Hk).
      * exists o'. rewrite decide_False; [done|]. intros ->. apply Hs, Hkeys. exists k. congruence.
      * destruct (decide (t = tid)); [done|eauto].
  - intros t o'. rewrite remove_assoc. destruct (decide (t = tid)); [done|]. eauto.
  - intros t o'. rewrite remove_assoc. destruct (decide (t = tid)); [done|]. eauto.
  - intros t1 o1 t2 o2. rewrite !remove_assoc. destruct (decide (t1 = tid)); [done|]. destruct (decide (t2 = tid)); [done|]. eauto.
  - intros t o' s. rewrite remove_assoc, assoc_removes. destruct (decide (t = tid)); [done|]. destruct (decide (s ∈ _)); [by intros _ [? [=]]|]. eauto.
Qed.
End Invariant.

(** ** Histories *)

Definition routed (s : State) : Prop := routes_ok (publicTunnelOwners (table s)) (publicTunnelStreams (table s)).

(** The orchestrator's side: a tunnel is opened when it is not open, a stream under
    an id that no open stream has. *)
Definition opens_fresh (s : State) (e : event) : Prop :=
  match e with
  | Message (StreamOpen _ id target) =>
      match parseStreamTarget target with
      | Some (PublicTunnelOwner tid) =>
          assoc (tunnel_key tid) (publicTunnelOwners (table s)) = None /\
          unused id (publicTunnelOwners (table s)) (publicTunnelStreams (table s))
      | Some (PublicTunnelStream _ _) => unused id (publicTunnelOwners (table s)) (publicTunnelStreams (table s))
      | _ => True
      end
  | _ => True
  end.

Section Histories.
Context `{Hashing} (seal : TunnelMessage -> result unit) (proc : Process) (build : Build) (nodeId : string).

Fixpoint disciplined (l : list (Z * event)) (s : State) : Prop :=
  match l with
  | [] => True
  | te :: l => opens_fresh s te.2 /\ disciplined l (step seal proc build nodeId te s)
  end.

Lemma routed_send m : preserves routed (send seal m).
Proof. intros s Hs. by destruct (send_frame seal m s) as [->|[-> _]]. Qed.
Lemma routed_data clock id d : preserves routed (sendStreamData seal clock id d).
Proof. apply routed_send. Qed.
Lemma routed_closing clock id r : preserves routed (sendStreamClose seal clock id r).
Proof. apply routed_send. Qed.
Lemma routed_error clock r c m : preserves routed (sendError seal clock r c m).
Proof. apply routed_send. Qed.
Lemma routed_swallow m : preserves routed m -> preserves routed (swallow m).
Proof. intros Hm. unfold swallow. preserve; done. Qed.
Lemma routed_wait j : preserves routed (wait j).
Proof. by intros s Hs. Qed.
Lemma routed_stream n e : preserves routed (on_stream n e).
Proof. by intros s Hs. Qed.
Lemma routed_close code r : preserves routed (close code r).
Proof. by intros s Hs. Qed.
Lemma routed_outcome m : preserves routed m -> preserves routed (outcome m).
Proof. intros Hm s Hs. unfold outcome. specialize (Hm s Hs). by destruct (m s). Qed.
Lemma routed_disk {A} (m : eff Disk A) : preserves routed (on_disk m).
Proof. intros s Hs. unfold on_disk. by destruct (m (disk s)). Qed.

Lemma routed_cleanup sid : preserves routed (modify (on_table (cleanupPublicTunnelStream sid))).
Proof.
  intros s Hs. unfold routed, modify. cbn. unfold cleanupPublicTunnelStream.
  destruct (assoc sid _) as [[tid k]|] eqn:El; [|done]. cbn. pose proof El as Hl. apply (ro_link _ _ Hs) in Hl as (o & Ho & _).
  rewrite Ho. by apply (routes_cleanup _ _ _ tid).
Qed.

Lemma cleanup_at sid s : routed s -> routed (on_table (cleanupPublicTunnelStream sid) s).
Proof. apply routed_cleanup. Qed.

#[local] Hint Resolve cleanup_at routed_send routed_data routed_closing routed_error routed_swallow routed_wait routed_stream
  routed_close routed_outcome routed_disk routed_cleanup : routed.
Ltac route := preserve; try done; auto with routed.

Lemma routed_table f : (forall t, publicTunnelOwners (f t) = publicTunnelOwners t) ->
  (forall t, publicTunnelStreams (f t) = publicTunnelStreams t) -> preserves routed (modify (on_table f)).
Proof. intros H1 H2 s Hs. unfold routed, modify. cbn. by rewrite H1, H2. Qed.

Lemma routed_open clock id target s : opens_fresh s (Message (StreamOpen (base_of 0) id target)) -> routed s ->
  routed (exec (stream_open seal clock id target) s).
Proof.
  intros Hf Hs. cbn in Hf. unfold stream_open. destruct (bool_decide _); [done|].
  destruct (parseStreamTarget target) as [[h p|tid|tid b|]|].
  - by unfold raw_open.
  - destruct Hf. by apply routes_open_owner.
  - unfold exec, gets. unfold mbind at 1, eff_bind at 1. destruct (assoc (tunnel_key tid) _) as [o|] eqn:Eo; [|by apply routed_send].
    set (m := lift _ ≫= _). assert (Hm : preserves routed m) by (subst m; route).
    unfold modify, mbind, eff_bind. apply Hm. unfold routed. cbn. rewrite Eo. by apply routes_open_public.
  - done.
  - by apply routed_send.
Qed.

Lemma drop_streams_table clock ids s :
  let (s', r) := drop_streams seal clock ids s in
  r = Ok tt /\ publicTunnelOwners (table s') = publicTunnelOwners (table s) /\
  publicTunnelStreams (table s') = fold_left (fun ps id => remove id ps) ids (publicTunnelStreams (table s)).
Proof.
  revert s. induction ids as [|id ids IH]; intros s; [done|]. cbn [drop_streams fold_left].
  unfold mbind, eff_bind, modify at 1. set (s1 := on_table _ s).
  assert (Hw : (swallow (sendStreamClose seal clock id "tunnel owner closed") s1).2 = Ok tt) by (unfold swallow, try_catch; by destruct (sendStreamClose _ _ _ _ s1) as [? [[]|]]).
  assert (Ht : table (swallow (sendStreamClose seal clock id "tunnel owner closed") s1).1 = table s1).
  { unfold swallow, try_catch. pose proof (send_frame seal (Messages.StreamClose (base_of clock) id (Some "tunnel owner closed")) s1) as Hx.
    unfold sendStreamClose. destruct (send seal _ s1) as [s2 [|]]; destruct Hx as [Hx|[Hx _]]; cbn in *; by rewrite Hx. }
  destruct (swallow _ s1) as [s2 r2]. cbn in Hw, Ht. subst r2. specialize (IH s2). rewrite Ht in IH. exact IH.
Qed.

Lemma routed_stream_close clock id : preserves routed (stream_close seal clock id).
Proof.
  intros s Hs. unfold stream_close. unfold gets at 1, mbind at 1, eff_bind at 1.
  destruct (find_owner id (table s)) as [[tid o]|] eqn:Ef.
  - apply List.find_some in Ef as [Hin%list_elem_of_In _]. apply elem_assoc in Hin; [|apply Hs].
    pose proof (drop_streams_table clock (serverToOwner o).*1 s) as Hd. unfold mbind, eff_bind.
    destruct (drop_streams _ _ _ s) as [s' r]. destruct Hd as (-> & H1 & H2). unfold routed, modify. cbn. rewrite H1, H2.
    by apply (routes_close_owner _ _ tid).
  - match goal with |- routed (?m s).1 => assert (Hm : preserves routed m); [|by apply Hm] end. route.
Qed.

Lemma routed_stream_data clock id d : preserves routed (stream_data seal clock id d).
Proof. unfold stream_data, owner_data, public_data, session_request. repeat (route; try apply routed_swallow). Qed.

Lemma routed_calls clock id rs : preserves routed (close_calls seal clock id rs).
Proof. induction rs as [|r rs IH]; cbn [close_calls]; route. Qed.

Lemma routed_prepared clock id u m d : preserves routed (prepared seal proc build clock id u m d).
Proof. unfold prepared. route. Qed.

Lemma routed_failed clock u e : preserves routed (apply_failed seal clock u e).
Proof. unfold apply_failed. route. Qed.

Lemma routed_resume clock j r : preserves routed (resume seal proc build clock j r).
Proof.
  pose proof routed_prepared. pose proof routed_failed.
  destruct j, r; cbn [resume]; auto with routed;
    unfold proxy_done, session_done, finally, eval_done, prepare_done, prepare_failed, apply_timer, runUpdateCommand, installer_exit; route;
    apply routed_outcome; route.
Qed.

Lemma routed_all l : preserves routed (destroy_all l) /\ preserves routed (fail_all l).
Proof. induction l as [|[id n] l [IH1 IH2]]; split; cbn [destroy_all fail_all]; route. Qed.

Lemma routed_message clock m s : opens_fresh s (Message m) -> routed s -> routed (exec (onMessage seal proc build clock m) s).
Proof.
  pose proof routed_prepared. intros Hf Hs. destruct m; cbn [onMessage]; try done.
  - revert s Hs Hf. change (forall s, routed s -> True -> routed (exec (eval_request seal clock (m_id b) action) s)).
    intros s Hs _. assert (Hp : preserves routed (eval_request seal clock (m_id b) action)) by (unfold eval_request; route). by apply Hp.
  - by apply routed_open.
  - by apply routed_stream_data.
  - by apply routed_stream_close.
  - assert (Hp : preserves routed (update_prepare seal proc build clock (m_id b) update_id manifest))
      by (unfold update_prepare, prepare_failed; route). by apply Hp.
  - assert (Hp : preserves routed (update_apply seal clock (m_id b) update_id restart_after_ms)) by (unfold update_apply; route).
    by apply Hp.
Qed.

Lemma routed_handle clock e : match e with Message _ => False | _ => True end -> preserves routed (handle seal proc build nodeId clock e).
Proof.
  pose proof routed_resume. pose proof routed_calls. pose proof routed_all as Ha.
  assert (Ha1 := fun l => proj1 (Ha l)). assert (Ha2 := fun l => proj2 (Ha l)).
  destruct e as [m| |n r|n d|n|n m|n e|n d|up| | |]; intros He; cbn [handle]; [done|..];
    unfold proxy_request_no_target, resume_nth, socket_data, socket_close, socket_error, stream_moves, stream_sends, tick, sendHeartbeat,
      onClose, stop; route; apply routes_empty.
Qed.

Lemma routed_step te s : opens_fresh s te.2 -> routed s -> routed (step seal proc build nodeId te s).
Proof.
  destruct te as [clock e]. intros Hf Hs. unfold step. cbn [fst snd] in *.
  destruct e as [m| |n r|n d|n|n m|n e|n d|up| | |]; [by apply routed_message|..]; (refine (routed_handle clock _ _ s Hs); exact I).
Qed.

Lemma routed_run l s : disciplined l s -> routed s -> routed (run seal proc build nodeId l s).
Proof.
  revert s. induction l as [|te l IH]; intros s Hd Hs; [done|]. destruct Hd as [Hf Hd]. cbn. by apply IH, routed_step.
Qed.
End Histories.

(** ** What a linked stream sees *)

Section Delivery.
Context `{Hashing} (seal : TunnelMessage -> result unit) (proc : Process) (build : Build).

Definition data_message (clock : Z) (id : string) (d : buffer) : TunnelMessage :=
  Messages.StreamData (base_of clock) id (toBase64 d) "base64".

Lemma send_open m s : connected s = true -> seal m = Ok tt -> send seal m s = (emit (Sent m) s, Ok tt).
Proof. intros Hc Hm. unfold send, gets, lift, modify, mbind, eff_bind. by rewrite Hc, Hm. Qed.

Lemma find_owner_ok s tid o : routed s -> assoc tid (publicTunnelOwners (table s)) = Some o ->
  find_owner (o_streamId o) (table s) = Some (tid, o).
Proof.
  intros Hs Ho. unfold find_owner. destruct (List.find _ _) as [[t o']|] eqn:Ef.
  - apply List.find_some in Ef as [Hin%list_elem_of_In Hid]. cbn in Hid. apply bool_decide_eq_true in Hid.
    apply elem_assoc in Hin; [|apply Hs]. assert (t = tid) as -> by (by apply (ro_distinct _ _ Hs t o' tid o)). congruence.
  - exfalso. apply assoc_elem, list_elem_of_In in Ho. apply (List.find_none _ _ Ef) in Ho. cbn in Ho.
    by apply bool_decide_eq_false in Ho.
Qed.

Lemma find_owner_none s id : routed s -> is_Some (assoc id (publicTunnelStreams (table s))) -> find_owner id (table s) = None.
Proof.
  intros Hs Hp. unfold find_owner. destruct (List.find _ _) as [[t o]|] eqn:Ef; [|done].
  apply List.find_some in Ef as [Hin%list_elem_of_In Hid]. cbn in Hid. apply bool_decide_eq_true in Hid.
  apply elem_assoc in Hin; [|apply Hs]. by destruct (ro_apart _ _ Hs t o id Hin Hp).
Qed.

(** Bytes of the public side go to the owner under the stream's number. *)
Lemma to_owner clock b id data enc s l o frame : find_owner id (table s) = None -> connected s = true -> (forall m, seal m = Ok tt) ->
  assoc id (publicTunnelStreams (table s)) = Some l -> assoc (ps_tunnelId l) (publicTunnelOwners (table s)) = Some o ->
  encodePublicTunnelFrame PUBLIC_TUNNEL_FRAME.STREAM_DATA (ps_ownerStreamId l) (fromBase64 data) = Ok frame ->
  exec (onMessage seal proc build clock (Messages.StreamData b id data enc)) s =
    emit (Sent (data_message clock (o_streamId o) frame)) s.
Proof.
  intros Hs Hc Hsl Hl Ho He. unfold exec. cbn [onMessage]. unfold stream_data, gets, mbind, eff_bind.
  rewrite Hs, Hl. unfold public_data, gets, lift, mbind, eff_bind. rewrite Ho, He.
  unfold sendStreamData. by rewrite send_open.
Qed.

(** A frame of the owner goes to the stream that has its number. *)
Lemma from_owner clock b enc s tid o k id payload frame : routed s -> connected s = true -> (forall m, seal m = Ok tt) ->
  assoc tid (publicTunnelOwners (table s)) = Some o -> ownerToServer o !! k = Some id -> id <> "" ->
  encodePublicTunnelFrame PUBLIC_TUNNEL_FRAME.STREAM_DATA k payload = Ok frame ->
  exec (onMessage seal proc build clock (Messages.StreamData b (o_streamId o) (toBase64 frame) enc)) s =
    emit (Sent (data_message clock id payload)) s.
Proof.
  intros Hs Hc Hsl Ho Hk Hid He. unfold exec. cbn [onMessage]. unfold stream_data, gets, mbind, eff_bind.
  rewrite (find_owner_ok s tid o), fromBase64_toBase64 by done. unfold swallow, try_catch, owner_data, lift, mbind, eff_bind.
  rewrite (public_frame_codec _ _ _ _ He). cbn [pf_type pf_streamId pf_payload Z.eqb PUBLIC_TUNNEL_FRAME.STREAM_DATA
    PUBLIC_TUNNEL_FRAME.PING PUBLIC_TUNNEL_FRAME.PONG Pos.eqb].
  rewrite Hk, bool_decide_false by done. unfold sendStreamData. by rewrite send_open.
Qed.
End Delivery.

(** C7: public tunnels do not mix their streams: after every history in which the
    orchestrator opens tunnels that are not open and streams under unused ids, each
    public stream has an owner and a number of its own there; what arrives on the
    stream is sent to the owner in a frame of that number, and what the owner sends
    in a frame of that number is sent to that stream and no other. *)
Theorem public_tunnel_routing `{Hashing} seal proc build nodeId (l : list (Z * event)) (d : Disk) (id : string) (link : PublicStream) :
  let s := run seal proc build nodeId l (connected_state d) in
  (forall m, seal m = Ok tt) -> disciplined seal proc build nodeId l (connected_state d) -> connected s = true ->
  assoc id (publicTunnelStreams (table s)) = Some link -> id <> "" -> ps_ownerStreamId link <= 0xffffffff ->
  exists o, assoc (ps_tunnelId link) (publicTunnelOwners (table s)) = Some o /\
  forall payload, exists frame,
    decodePublicTunnelFrame frame =
      Ok {| pf_type := PUBLIC_TUNNEL_FRAME.STREAM_DATA; pf_streamId := ps_ownerStreamId link; pf_payload := payload |} /\
    forall clock b enc,
    exec (onMessage seal proc build clock (Messages.StreamData b id (toBase64 payload) enc)) s =
      emit (Sent (data_message clock (o_streamId o) frame)) s /\
    exec (onMessage seal proc build clock (Messages.StreamData b (o_streamId o) (toBase64 frame) enc)) s =
      emit (Sent (data_message clock id payload)) s /\
    forall id', assoc id' (publicTunnelStreams (table s)) = Some link -> id' = id.
Proof.
  cbn zeta. intros Hsl Hd Hc Hl Hid Hk.
  assert (Hs : routed (run seal proc build nodeId l (connected_state d))) by (apply routed_run; [done|apply routes_empty]).
  set (s := run _ _ _ _ _ _) in *. destruct link as [tid k]. cbn [ps_tunnelId ps_ownerStreamId] in *.
  destruct (proj1 (ro_link _ _ Hs id tid k) Hl) as (o & Ho & Hok). exists o. split; [done|]. intros payload.
  destruct (ro_next _ _ Hs tid o Ho) as [_ Hn]. pose proof (Hn _ _ Hok).
  destruct (public_frame_encodes PUBLIC_TUNNEL_FRAME.STREAM_DATA k payload) as [frame Hf];
    [unfold PUBLIC_TUNNEL_FRAME.STREAM_DATA; lia|lia|].
  exists frame. split; [by apply public_frame_codec|]. intros clock b enc. split; [|split].
  - apply (to_owner seal proc build clock b id _ enc s {| ps_tunnelId := tid; ps_ownerStreamId := k |} o frame); try done.
    + apply find_owner_none; [done|by eexists].
    + by rewrite fromBase64_toBase64.
  - by apply (from_owner seal proc build clock b enc s tid o k id payload frame).
  - intros id' Hl'. apply (ro_link _ _ Hs) in Hl' as (o' & Ho' & Hok'). congruence.
Qed.

(** ** Concrete histories *)

Module Run.
Definition seal (m : TunnelMessage) : result unit := Ok tt.
Definition process : Process := Update.Demo.process.
Definition build : Build := {| pkg_version := Some "1.0.0"; pkg_commit := Some "c0"; pkg_platform := Some "linux-x64"; git_stdout := None |}.
Definition b : BaseMessage := {| m_id := None; timestamp := num_of_Z 1 |}.
Definition opening (id kind tid : string) : Z * event :=
  (1000, Message (StreamOpen b id (Some (stringify (JObj [("kind", JStr kind); ("tunnel_id", JStr tid)]))))).
Definition data (id : string) (d : buffer) : Z * event := (1000, Message (Messages.StreamData b id (toBase64 d) "base64")).
Definition opened : list (Z * event) :=
  [opening "o1" "public-tunnel-owner" "t"; opening "a" "public-tunnel-stream" "t"; opening "c" "public-tunnel-stream" "t"].
Definition key : string := tunnel_key (JStr "t").
Definition after `{Hashing} (l : list (Z * event)) : State := run seal process build "n1" l (connected_state ∅).

(** The discipline as a test. *)
Definition unused_b (id : string) (t : Table) : bool :=
  bool_decide (assoc id (publicTunnelStreams t) = None) &&
  forallb (fun kv => negb (bool_decide (o_streamId kv.2 = id))) (publicTunnelOwners t).
Definition fresh_b (s : State) (e : event) : bool :=
  match e with
  | Message (StreamOpen _ id target) =>
      match parseStreamTarget target with
      | Some (PublicTunnelOwner tid) => bool_decide (assoc (tunnel_key tid) (publicTunnelOwners (table s)) = None) && unused_b id (table s)
      | Some (PublicTunnelStream _ _) => unused_b id (table s)
      | _ => true
      end
  | _ => true
  end.
Fixpoint disciplined_b `{Hashing} (l : list (Z * event)) (s : State) : bool :=
  match l with [] => true | te :: l => fresh_b s te.2 && disciplined_b l (step seal process build "n1" te s) end.

Lemma unused_spec id t : unused_b id t = true -> unused id (publicTunnelOwners t) (publicTunnelStreams t).
Proof.
  intros [Hp Ho]%andb_true_iff. bool_solve. split; [done|]. intros tid o Hin%assoc_elem%list_elem_of_In.
  rewrite forallb_forall in Ho. apply Ho in Hin. by bool_solve.
Qed.

Lemma fresh_spec s e : fresh_b s e = true -> opens_fresh s e.
Proof.
  destruct e as [[]| | | | | | | | | | |]; try done. cbn. destruct (parseStreamTarget _) as [[]|]; try done.
  - intros [Hp Hu]%andb_true_iff. bool_solve. split; [done|by apply unused_spec].
  - apply unused_spec.
Qed.

Lemma disciplined_spec `{Hashing} l s : disciplined_b l s = true -> disciplined seal process build "n1" l s.
Proof.
  revert s. induction l as [|te l IH]; intros s; [done|]. cbn. intros [Hf Hd]%andb_true_iff. split; [by apply fresh_spec|by apply IH].
Qed.

(** The owner comes back on a new stream before its old one is closed. *)
Definition reopened : list (Z * event) :=
  [opening "o1" "public-tunnel-owner" "t"; opening "a" "public-tunnel-stream" "t";
   opening "o2" "public-tunnel-owner" "t"; opening "c" "public-tunnel-stream" "t"].

Definition update (v : string) : json := Update.Demo.manifest v.
Definition fetched : result_of_wait := Fetched Update.Demo.fetch.
(** u1 is prepared and applied; u2 is prepared before the restart timer fires. *)
Definition overtaken : list (Z * event) :=
  [(1000, Message (UpdatePrepare b "u1" (update "2.0.0"))); (1000, Resume 0 fetched);
   (2000, Message (UpdateApply b "u1" None));
   (2500, Message (UpdatePrepare b "u2" (update "3.0.0"))); (2600, Resume 1 fetched);
   (3000, Resume 0 Done)].
Definition script : Disk := {[ "/srv/node/scripts/install-release.sh" := Regular [] ]}.
Definition applies (te : Z * event) : option string := match te.2 with Message (UpdateApply _ u _) => Some u | _ => None end.
Definition installed (a : action) : option string := match a with Spawned _ u => Some (pu_updateId u) | _ => None end.
End Run.

(** A finding: opening an owner tunnel again throws away the numbers of its
    streams but not the streams.  Then the bytes of two different public streams
    reach the owner in frames of the same number, and closing the older stream cuts
    the newer one off. *)
Theorem owner_reopen_crosstalk `{Hashing} :
  let frame p := be_encode 1 PUBLIC_TUNNEL_FRAME.STREAM_DATA ++ be_encode 4 1 ++ p in
  let s := Run.after Run.reopened in
  (forall clock p, exec (onMessage Run.seal Run.process Run.build clock (Messages.StreamData Run.b "a" (toBase64 p) "base64")) s =
     emit (Sent (data_message clock "o2" (frame p))) s) /\
  (forall clock p, exec (onMessage Run.seal Run.process Run.build clock (Messages.StreamData Run.b "c" (toBase64 p) "base64")) s =
     emit (Sent (data_message clock "o2" (frame p))) s) /\
  (exists o, assoc Run.key (publicTunnelOwners (table s)) = Some o /\ ownerToServer o !! 1 = Some "c") /\
  let s' := Run.after (Run.reopened ++ [(2000, Message (Messages.StreamClose Run.b "a" None)); (2000, Resume 0 Done)]) in
  is_Some (assoc "c" (publicTunnelStreams (table s'))) /\
  exists o, assoc Run.key (publicTunnelOwners (table s')) = Some o /\ ownerToServer o !! 1 = None.
Proof.
  cbn zeta. split; [|split; [|split]].
  - intros clock p. apply (to_owner _ _ _ clock _ _ _ _ _ {| ps_tunnelId := Run.key; ps_ownerStreamId := 1 |} (link "c" (new_owner "o2"))).
    6: by rewrite fromBase64_toBase64.
    all: vm_compute; reflexivity.
  - intros clock p. apply (to_owner _ _ _ clock _ _ _ _ _ {| ps_tunnelId := Run.key; ps_ownerStreamId := 1 |} (link "c" (new_owner "o2"))).
    6: by rewrite fromBase64_toBase64.
    all: vm_compute; reflexivity.
  - eexists. by split; vm_compute.
  - split; [by eexists; vm_compute|]. eexists. by split; vm_compute.
Qed.

(** A finding: the restart timer installs whatever update was prepared last.  Here
    only u1 is ever applied, and the installer is started for u2. *)
Theorem apply_installs_latest :
  let s := @run Toy.hashing Run.seal Run.process Run.build "n1" Run.overtaken (connected_state Run.script) in
  omap Run.applies Run.overtaken = ["u1"] /\ omap Run.installed (out s) = ["u2"].
Proof. vm_compute. split; reflexivity. Qed.

Lemma public_tunnel_routing_witness :
  exists o, assoc Run.key (publicTunnelOwners (table (@Run.after Toy.hashing Run.opened))) = Some o.
Proof.
  destruct (@public_tunnel_routing Toy.hashing Run.seal Run.process Run.build "n1" Run.opened ∅ "c" {| ps_tunnelId := Run.key; ps_ownerStreamId := 2 |})
    as (o & Ho & _);
    [reflexivity|apply Run.disciplined_spec; vm_compute; reflexivity|vm_compute; reflexivity|vm_compute; reflexivity|discriminate|done|by exists o].
Defined.
