(* ===== verification/Connect.v ===== *)
(** * Opening an encrypted tunnel (tunnel/connect.ts)

    [connectEncryptedTunnel] opens a socket, sends the handshake, waits for the
    answer and hands the socket with the session to a [TunnelClient].  What happens
    on the socket is a sequence of events; the phase says which listeners are set. *)

From S2P Require Import Prelude Effect Text Json JsonText Coerce Base64 Frames Crypto CanonicalJson SecureChannel Messages Handshake.
From S2P Require Import TunnelClient Files SecretStore.
Local Open Scope Z_scope.

Record ConnectEncryptedTunnelOptions := {
  co_url : string; co_mode : string; co_identity : option NodeIdentity; co_nodeId : option string;
  co_candidateId : option string; co_releaseVersion : option string; co_serverPublicKeyPem : option string }.

(** The socket carries text as UTF-8 here, and as base64 in [TunnelClient.toBuffer]. *)
Definition toBuffer (data : SocketData) : result buffer :=
  match data with
  | Bytes b => Ok b
  | TextData s => Ok (utf8 s)
  | OtherData type => Throw (TypeError ("Unsupported WebSocket message payload: " +:+ type))
  end.

Definition rejected (m : json) : exn :=
  PlainError ("Tunnel handshake rejected: " +:+ show_value (get "code" m) +:+ ": " +:+ show_value (get "message" m)).

Definition decodeAccept (data : SocketData) : result json :=
  b ← toBuffer data;
  message ← decodeHandshakeMessage (inl b);
  throw_if (bool_decide (get "type" message = Some (JStr HANDSHAKE_REJECT))) (rejected message);;
  throw_if (negb (bool_decide (get "type" message = Some (JStr HANDSHAKE_ACCEPT))))
    (PlainError ("Unexpected tunnel handshake response: " +:+ show_value (get "type" message)));;
  Ok message.

Section Connect.
Context `{Aead} `{Hashing} `{Hkdf} `{KeyExchange} `{PemKeys}.

(** The identity that signs, and the handshake it signed. *)
Record Attempt := { at_identity : NodeIdentity; at_handshake : ClientHandshake }.

Definition client_input (o : ConnectEncryptedTunnelOptions) (identity : NodeIdentity) : ClientInput :=
  {| ci_mode := co_mode o; ci_identity := identity; ci_nodeId := co_nodeId o; ci_candidateId := co_candidateId o;
     ci_releaseVersion := co_releaseVersion o |}.

(** [connectEncryptedTunnel] up to the socket.  A node that is given no identity
    loads its own; [key], [nonce] and [now] are those of the handshake. *)
Definition connectEncryptedTunnel (p : Process) (r : Random) (fresh : NodeIdentity) (key : DhSecret) (nonce : buffer) (now : Z)
  (o : ConnectEncryptedTunnelOptions) : eff World Attempt :=
  lift (throw_if (negb (bool_decide (co_mode o ∈ TUNNEL_MODES))) (RangeError ("Unsupported tunnel mode: " +:+ co_mode o)));;
  identity ← match co_identity o with Some id => mret id | None => loadOrCreateIdentity p r fresh end;
  handshake ← lift (createClientHandshake key nonce now (client_input o identity));
  mret {| at_identity := identity; at_handshake := handshake |}.

(** [Opening]: [openSocket] waits.  [Responding]: the handshake is sent and the three
    listeners of [exchangeHandshake] are set.  [Decoding]: its message listener, which
    fires once, is gone; the other two remain.  [Welcoming]: [TunnelClient.connect]
    waits for the socket. *)
Inductive phase :=
| Opening
| Responding
| Decoding (data : SocketData)
| Welcoming (session : SecureSession) (client : TunnelClient.Client)
| Connected (session : SecureSession) (client : TunnelClient.Client)
| Failed (e : exn).

Record Tunnel := { tn_phase : phase; tn_open : bool; outbox : list buffer }.

Definition set_phase (ph : phase) (t : Tunnel) : Tunnel := {| tn_phase := ph; tn_open := tn_open t; outbox := outbox t |}.
Definition set_open (b : bool) (t : Tunnel) : Tunnel := {| tn_phase := tn_phase t; tn_open := b; outbox := outbox t |}.

Section Attempt.
Context (o : ConnectEncryptedTunnelOptions) (a : Attempt).

(** [exchangeHandshake]: listeners, then [socket.send(payload)]. *)
Definition exchangeHandshake (t : Tunnel) : Tunnel :=
  {| tn_phase := Responding; tn_open := tn_open t;
     outbox := outbox t ++ [encodeHandshakeMessage (ch_message (at_handshake a))] |}.

Definition tunnel_options : TunnelClientOptions :=
  {| op_mode := co_mode o; op_nodeId := co_nodeId o; op_candidateId := co_candidateId o;
     op_version := co_releaseVersion o; op_publicKeyPem := Some (publicKeyPem (at_identity a)) |}.

(** [new WebSocket(url)] throws, or gives a socket in some state. *)
Definition openSocket (created : result bool) : Tunnel :=
  match created with
  | Throw e => {| tn_phase := Failed e; tn_open := false; outbox := [] |}
  | Ok true => exchangeHandshake {| tn_phase := Opening; tn_open := true; outbox := [] |}
  | Ok false => {| tn_phase := Opening; tn_open := false; outbox := [] |}
  end.

Definition connection_failed : exn := PlainError ("Tunnel connection failed: " +:+ co_url o).

(** After [exchangeHandshake] has returned: the session, the client, its [connect]. *)
Definition welcome (nonce : buffer) (clock : Z) (data : SocketData) (t : Tunnel) : Tunnel :=
  match accept ← decodeAccept data; deriveClientSessionFromAccept (at_handshake a) accept (co_serverPublicKeyPem o) with
  | Throw e => set_phase (Failed e) t
  | Ok session =>
      match connect (sendKey session) (tn_open t) nonce clock tunnel_options new_client with
      | (_, Throw e) => set_phase (Failed e) t
      | (c, Ok _) => set_phase (if tn_open t then Connected session c else Welcoming session c) t
      end
  end.

Inductive event :=
| SocketOpen (nonce : buffer) (clock : Z)
| SocketError
| SocketClose
| SocketState (open : bool)
| SocketMessage (data : SocketData)
| Decoded (nonce : buffer) (clock : Z)
| ClientEvent (e : TunnelClient.event).

Definition step (e : event) (t : Tunnel) : Tunnel :=
  match e with
  | SocketOpen nonce clock =>
      let t := set_open true t in
      match tn_phase t with
      | Opening => exchangeHandshake t
      | Welcoming s c =>
          match opened (sendKey s) nonce clock tunnel_options (set_ws (Some true) c) with
          | (_, Throw e) => set_phase (Failed e) t
          | (c, Ok _) => set_phase (Connected s c) t
          end
      | _ => t
      end
  | SocketError =>
      match tn_phase t with
      | Opening | Welcoming _ _ => set_phase (Failed connection_failed) t
      | Responding | Decoding _ => set_phase (Failed (PlainError "Tunnel errored during handshake")) t
      | _ => t
      end
  | SocketClose =>
      let t := set_open false t in
      match tn_phase t with
      | Responding | Decoding _ => set_phase (Failed (PlainError "Tunnel closed during handshake")) t
      | _ => t
      end
  | SocketState b => set_open b t
  | SocketMessage data => match tn_phase t with Responding => set_phase (Decoding data) t | _ => t end
  | Decoded nonce clock => match tn_phase t with Decoding data => welcome nonce clock data t | _ => t end
  | ClientEvent e =>
      match tn_phase t with
      | Connected s c => set_phase (Connected s (TunnelClient.step (sendKey s) (receiveKey s) e c)) t
      | _ => t
      end
  end.

Definition run (l : list event) (t : Tunnel) : Tunnel := fold_left (fun t e => step e t) l t.
End Attempt.

(** ** Lemmas *)

Section Lemmas.
Context (o : ConnectEncryptedTunnelOptions) (a : Attempt).

Lemma run_app l1 l2 t : run o a (l1 ++ l2) t = run o a l2 (run o a l1 t).
Proof. apply fold_left_app. Qed.

(** How far an attempt has come, and where its session is from. *)
Definition answered (history : list event) (created : result bool) (session : SecureSession) : Prop :=
  exists l1 data l2 accept, history = l1 ++ SocketMessage data :: l2 /\
    tn_phase (run o a l1 (openSocket a created)) = Responding /\
    decodeAccept data = Ok accept /\
    deriveClientSessionFromAccept (at_handshake a) accept (co_serverPublicKeyPem o) = Ok session.

Definition received (history : list event) (created : result bool) (data : SocketData) : Prop :=
  exists l1 l2, history = l1 ++ SocketMessage data :: l2 /\ tn_phase (run o a l1 (openSocket a created)) = Responding.

Definition handshake_payload : buffer := encodeHandshakeMessage (ch_message (at_handshake a)).

Definition course (history : list event) (created : result bool) (t : Tunnel) : Prop :=
  match tn_phase t with
  | Opening => outbox t = []
  | Responding => outbox t = [handshake_payload]
  | Decoding data => outbox t = [handshake_payload] /\ received history created data
  | Welcoming s _ | Connected s _ => outbox t = [handshake_payload] /\ answered history created s
  | Failed _ => outbox t = [] \/ outbox t = [handshake_payload]
  end.

Lemma received_more h created data e : received h created data -> received (h ++ [e]) created data.
Proof. intros (l1 & l2 & -> & Hp). exists l1, (l2 ++ [e]). split; [by rewrite <- app_assoc|done]. Qed.

Lemma answered_more h created s e : answered h created s -> answered (h ++ [e]) created s.
Proof. intros (l1 & data & l2 & acc & -> & Hr). exists l1, data, (l2 ++ [e]), acc. split; [by rewrite <- app_assoc|done]. Qed.

Lemma received_answered h created data accept s : received h created data -> decodeAccept data = Ok accept ->
  deriveClientSessionFromAccept (at_handshake a) accept (co_serverPublicKeyPem o) = Ok s -> answered h created s.
Proof. intros (l1 & l2 & -> & Hp) Hd Hs. by exists l1, data, l2, accept. Qed.

Lemma welcome_course h created e nonce clock data t : tn_phase t = Decoding data -> course h created t ->
  course (h ++ [e]) created (welcome o a nonce clock data t).
Proof.
  unfold course at 1. intros -> [Ho Hr]. unfold welcome. destruct (decodeAccept data) as [accept|] eqn:Ed; cbn [mbind result_bind]; [|by right].
  destruct (deriveClientSessionFromAccept _ _ _) as [s|] eqn:Es; [|by right].
  assert (Ha : answered (h ++ [e]) created s) by (apply answered_more; by eapply received_answered).
  destruct (connect _ _ _ _ _ _) as [c [[]|]]; [|by right]. by destruct (tn_open t).
Qed.

Lemma step_course h created e t : t = run o a h (openSocket a created) -> course h created t -> course (h ++ [e]) created (step o a e t).
Proof.
  intros Et Hc.
  assert (Hkeep : forall b, course (h ++ [e]) created (set_open b t)).
  { intros b. unfold course in *. cbn [set_open tn_phase outbox]. destruct (tn_phase t); try done;
      destruct Hc as [? ?]; (split; [done|]); by (apply received_more || apply answered_more). }
  assert (Hsame : course (h ++ [e]) created t) by (destruct t; apply (Hkeep _)).
  destruct (tn_phase t) as [| |data|s c|s c|x] eqn:Ep; pose proof Hc as Hc'; unfold course in Hc'; rewrite Ep in Hc'.
  - destruct e; cbn [step set_open tn_phase]; rewrite ?Ep; try done; try apply Hkeep.
    + unfold course. cbn. by rewrite Hc'.
    + by left.
  - destruct e; cbn [step set_open tn_phase]; rewrite ?Ep; try done; try apply Hkeep; try by right.
    split; [done|]. exists h, []. split; [done|]. by rewrite <- Et.
  - destruct Hc' as [Ho Hr]. destruct e; cbn [step set_open tn_phase]; rewrite ?Ep; try done; try apply Hkeep; try by right.
    by apply welcome_course.
  - destruct Hc' as [Ho Ha]. destruct e; cbn [step set_open tn_phase]; rewrite ?Ep; try done; try apply Hkeep; try by right.
    destruct (opened _ _ _ _ _) as [c' [[]|]]; [|by right]. split; [done|by apply answered_more].
  - destruct Hc' as [Ho Ha]. destruct e; cbn [step set_open tn_phase]; rewrite ?Ep; try done; try apply Hkeep.
    split; [done|by apply answered_more].
  - destruct e; cbn [step set_open tn_phase]; rewrite ?Ep; try done; apply Hkeep.
Qed.

Lemma run_course l created : course l created (run o a l (openSocket a created)).
Proof.
  induction l as [|e l IH] using rev_ind.
  - destruct created as [[]|]; cbn; [done|done|by left].
  - rewrite run_app. cbn. by apply step_course.
Qed.

(** A failed attempt stays failed. *)
Lemma failed_final l t e : tn_phase t = Failed e -> tn_phase (run o a l t) = Failed e.
Proof.
  revert t. induction l as [|x l IH]; intros t Ht; [done|]. cbn. apply IH.
  destruct x; cbn [step set_open tn_phase]; by rewrite ?Ht.
Qed.
End Lemmas.

(** ** Messages on the wire *)

Lemma base_inv m type : assertHandshakeBase m type = Ok tt -> is_object m = true /\ get "type" m = Some (JStr type).
Proof. unfold assertHandshakeBase. intros Hb. inv_ok. by bool_solve. Qed.

Lemma decode_encoded_message m : wf_json m = true -> assertHandshakeMessage m = Ok tt ->
  decodeHandshakeMessage (inl (encodeHandshakeMessage m)) = Ok m.
Proof.
  intros Hw Ha. unfold decodeHandshakeMessage, encodeHandshakeMessage. rewrite utf8_text_utf8, JSON_parse_stringify by done.
  cbn [mbind result_bind]. by rewrite Ha.
Qed.

Lemma init_message m : assertHandshakeInit m = Ok tt -> assertHandshakeMessage m = Ok tt.
Proof.
  intros Ha. assert (Hb : assertHandshakeBase m HANDSHAKE_INIT = Ok tt) by (unfold assertHandshakeInit in Ha; by inv_ok).
  apply base_inv in Hb as [Ho Ht]. unfold assertHandshakeMessage. by rewrite Ho, Ht, decide_True.
Qed.

Lemma accept_message m : assertHandshakeAccept m = Ok tt -> assertHandshakeMessage m = Ok tt /\ get "type" m = Some (JStr HANDSHAKE_ACCEPT).
Proof.
  intros Ha. assert (Hb : assertHandshakeBase m HANDSHAKE_ACCEPT = Ok tt) by (unfold assertHandshakeAccept in Ha; by inv_ok).
  apply base_inv in Hb as [Ho Ht]. unfold assertHandshakeMessage. by rewrite Ho, Ht, decide_False, decide_True.
Qed.

(** The answer of a server arrives as it was sent. *)
Lemma decodeAccept_encode m : wf_json m = true -> assertHandshakeAccept m = Ok tt ->
  decodeAccept (Bytes (encodeHandshakeMessage m)) = Ok m.
Proof.
  intros Hw Ha. apply accept_message in Ha as [Hm Ht]. unfold decodeAccept. cbn [toBuffer mbind result_bind].
  rewrite decode_encoded_message by done. cbn [mbind result_bind]. rewrite Ht, (bool_decide_true (Some (JStr HANDSHAKE_ACCEPT) = Some (JStr HANDSHAKE_ACCEPT))) by done. by rewrite bool_decide_false.
Qed.

Lemma reject_fields now code message : let m := createHandshakeReject now code message in
  assertHandshakeBase m HANDSHAKE_REJECT = Ok tt /\ get "code" m = Some (JStr code) /\ get "message" m = Some (JStr message).
Proof. cbn zeta. split_and!; vm_compute; reflexivity. Qed.

Lemma reject_message now code message : code <> "" -> message <> "" ->
  assertHandshakeMessage (createHandshakeReject now code message) = Ok tt.
Proof.
  intros Hc Hm. destruct (reject_fields now code message) as (Hb & Hgc & Hgm). pose proof (base_inv _ _ Hb) as [Ho Ht].
  unfold assertHandshakeMessage. rewrite Ho, Ht, !decide_False, decide_True by done. unfold assertHandshakeReject.
  by rewrite Hb, Hgc, Hgm, !assertString_ok.
Qed.

Lemma decodeAccept_reject m : wf_json m = true -> assertHandshakeMessage m = Ok tt ->
  get "type" m = Some (JStr HANDSHAKE_REJECT) -> decodeAccept (Bytes (encodeHandshakeMessage m)) = Throw (rejected m).
Proof.
  intros Hw Ha Ht. unfold decodeAccept. cbn [toBuffer mbind result_bind]. rewrite decode_encoded_message by done.
  cbn [mbind result_bind]. by rewrite Ht, (bool_decide_true (Some (JStr HANDSHAKE_REJECT) = Some (JStr HANDSHAKE_REJECT))) by done.
Qed.

Lemma reject_wf now code message : small_num now -> wf_json (createHandshakeReject now code message) = true.
Proof. intros Hnow%canonical_small. apply wf_object_intro; [by repeat constructor|]; cbn -[num_of_Z]; by repeat constructor. Qed.

Lemma reject_decoded now code message : small_num now -> code <> "" -> message <> "" ->
  decodeAccept (Bytes (encodeHandshakeMessage (createHandshakeReject now code message))) =
  Throw (PlainError ("Tunnel handshake rejected: " +:+ code +:+ ": " +:+ message)).
Proof.
  intros Hnow Hc Hm. pose proof (reject_wf now code message Hnow) as Hw. pose proof (reject_message now code message Hc Hm) as Ha.
  destruct (reject_fields now code message) as (Hb & Hgc & Hgm). apply base_inv in Hb as [_ Ht].
  revert Hw Ha Ht Hgc Hgm. generalize (createHandshakeReject now code message) as m. intros m Hw Ha Ht Hgc Hgm.
  rewrite decodeAccept_reject by done. unfold rejected. by rewrite Hgc, Hgm.
Qed.

Lemma hello_wf clock options : small_num (clock / 1000) -> wf_json (message_json (hello_message clock options)) = true.
Proof.
  intros Hc%canonical_small. destruct options as [mode [?|] [?|] [?|] [?|]];
    (apply wf_object_intro; [by repeat constructor|]); cbn -[num_of_Z]; repeat constructor; done.
Qed.

Context `{!AeadLaws}.

(** [connect] on an open socket sends one frame, the hello. *)
Lemma connect_hello key nonce clock options : length key = KEY_BYTES -> length nonce = SecureChannel.NONCE_BYTES ->
  small_num (clock / 1000) ->
  Z.of_nat (length (encodeMessage (message_json (hello_message clock options)))) <= 0xffffffff ->
  exists c raw f m, connect key true nonce clock options new_client = (c, Ok tt) /\ sent (wire c) = [(0, raw)] /\
    ws c = Some true /\ openFrame key raw = Ok (f, m) /\ fp_sequence f = 0 /\
    decodeMessage m = Ok (message_json (hello_message clock options)).
Proof.
  intros Hk Hn Hc Hl.
  destruct (seal_open nonce key FRAME_TYPE.DATA 0 (encodeMessage (message_json (hello_message clock options))))
    as (raw & ct & tag & Hs & Ho); [done|done|right; left|split; discriminate|done|].
  eexists _, raw, _, _. split.
  - unfold connect, gets, modify, mbind, eff_bind. cbn [ws new_client]. rewrite bool_decide_false by done.
    unfold opened. rewrite send_cases. cbn [set_ws ws wire new_client sendSequence]. rewrite decide_True by done. by rewrite Hs.
  - split; [done|]. split; [done|]. split; [exact Ho|]. split; [done|]. apply decodeMessage_ok. unfold encodeMessage.
    rewrite utf8_text_utf8. split; [by apply JSON_parse_stringify, hello_wf|]. by apply message_json_tunnel.
Qed.
End Connect.

(** ** Properties *)

(** C4: a tunnel is opened end to end: an honest node and an honest server, whatever
    the node's optional ids, with the key of the server pinned when it has one, reach
    a connected client: exactly one handshake payload is sent, the server decodes it
    to the node's init and accepts it, the server's encoded answer gives the client a
    session with crossed keys, and the one frame the client then sends opens at the
    server, with sequence number 0, to the hello message of the node. *)
Theorem tunnel_established `{Aead, !AeadLaws} `{Hashing} `{Hkdf, !HkdfLaws} `{KeyExchange, !KeyExchangeLaws}
    `{Signing, !SigningLaws} `{!PemKeys} (o : ConnectEncryptedTunnelOptions) (identity : NodeIdentity)
    (a b : DhSecret) (cn sn nonce : buffer) (t0 t1 clock clock' : Z) (sk : SecretKey) (srv : option NodeIdentity) :
  co_mode o ∈ TUNNEL_MODES -> (16 <= length cn)%nat -> (16 <= length sn)%nat -> length nonce = SecureChannel.NONCE_BYTES ->
  publicKeyPem identity <> "" -> key_pair (privateKeyPem identity) (publicKeyPem identity) sk -> server_keys srv ->
  co_serverPublicKeyPem o = publicKeyPem <$> srv ->
  small_num t0 -> small_num t1 -> small_num (clock / 1000) ->
  (forall h, let hello := message_json (hello_message clock (tunnel_options o {| at_identity := identity; at_handshake := h |})) in
     Z.of_nat (length (encodeMessage hello)) <= 0xffffffff) ->
  exists h sh s c raw f m,
    let at' := {| at_identity := identity; at_handshake := h |} in
    let t := run o at' [SocketOpen nonce clock'; SocketMessage (Bytes (encodeHandshakeMessage (sh_message sh))); Decoded nonce clock]
               (openSocket at' (Ok false)) in
    createClientHandshake a cn t0 (client_input o identity) = Ok h /\
    (exists payload, outbox t = [payload] /\ decodeHandshakeMessage (inl payload) = Ok (ch_message h)) /\
    acceptClientHandshake b sn t1 (ch_message h) (privateKeyPem <$> srv) = Ok sh /\
    tn_phase t = Connected s c /\ sessionId s = sessionId (sh_session sh) /\
    sendKey s = receiveKey (sh_session sh) /\ receiveKey s = sendKey (sh_session sh) /\
    sent (wire c) = [(0, raw)] /\ openFrame (receiveKey (sh_session sh)) raw = Ok (f, m) /\ fp_sequence f = 0 /\
    decodeMessage m = Ok (message_json (hello_message clock (tunnel_options o at'))).
Proof.
  intros Hm Hcn Hsn Hn Hp Hk Hsrv Hpin Ht0 Ht1 Hc Hl.
  destruct (honest_tunnel_run a b cn sn t0 t1 (client_input o identity) sk srv)
    as (h & sh & s & Ec & Ei & Es & Ea & Ed & Ek & E1 & E2 & E3); [done..|].
  destruct (connect_hello (sendKey s) nonce clock (tunnel_options o {| at_identity := identity; at_handshake := h |}))
    as (c & raw & f & m & F1 & F2 & _ & F3 & F4 & F5); [done..|by apply Hl|].
  exists h, sh, s, c, raw, f, m. cbn zeta. rewrite E2 in F3.
  assert (Hwi : wf_json (ch_message h) = true).
  { revert Ec. unfold createClientHandshake. intros Ec. inv_ok. cbn [ch_message].
    by match goal with |- wf_json (with_signature _ ?sg) = true => destruct (init_wf a cn t0 (client_input o identity) sg Ht0) as (l & -> & Hw) end. }
  assert (Hwa : wf_json (sh_message sh) = true).
  { apply acceptClient_inv in Es as (_ & _ & sg & ->).
    by destruct (accept_wf t1 b sn (sessionId (sh_session sh)) sg Ht1) as (l & -> & Hw). }
  assert (Hrun : run o {| at_identity := identity; at_handshake := h |}
      [SocketOpen nonce clock'; SocketMessage (Bytes (encodeHandshakeMessage (sh_message sh))); Decoded nonce clock]
      (openSocket {| at_identity := identity; at_handshake := h |} (Ok false)) =
    {| tn_phase := Connected s c; tn_open := true; outbox := [encodeHandshakeMessage (ch_message h)] |}).
  { unfold run. cbn [fold_left openSocket step set_open tn_phase exchangeHandshake set_phase]. unfold welcome.
    rewrite decodeAccept_encode by done. cbn [mbind result_bind at_handshake]. rewrite Hpin, Ed.
    cbn [exchangeHandshake set_open set_phase tn_open tn_phase outbox app at_handshake]. by rewrite F1. }
  rewrite Hrun. cbn [tn_phase outbox]. split_and!; try done.
  exists (encodeHandshakeMessage (ch_message h)). split; [done|]. by apply decode_encoded_message, init_message.
Qed.

(** C13: no session without the server's answer: whatever happens on the socket, at
    most one payload is sent, the node's handshake; and a client that is connected, or
    about to be, has the session derived from the first message that came after it,
    which decodes as an accept message and, when a server key is pinned, carries a
    signature that verifies under it. *)
Theorem tunnel_session_verified `{Aead} `{Hashing} `{Hkdf} `{KeyExchange} `{PemKeys}
    (o : ConnectEncryptedTunnelOptions) (a : Attempt) (created : result bool) (l : list event) :
  let t := run o a l (openSocket a created) in
  (outbox t = [] \/ outbox t = [encodeHandshakeMessage (ch_message (at_handshake a))]) /\
  forall s c, tn_phase t = Connected s c \/ tn_phase t = Welcoming s c ->
    exists l1 data l2 accept, l = l1 ++ SocketMessage data :: l2 /\
      tn_phase (run o a l1 (openSocket a created)) = Responding /\ decodeAccept data = Ok accept /\
      deriveClientSessionFromAccept (at_handshake a) accept (co_serverPublicKeyPem o) = Ok s /\
      forall pem, truthy_text (co_serverPublicKeyPem o) = Some pem -> exists pk sg,
        pem_public pem = Some pk /\ get "signature" accept = Some (JStr sg) /\
        verify pk (utf8 (signingPayload accept)) (fromBase64 sg) = true.
Proof.
  cbn zeta. pose proof (run_course o a l created) as Hc. set (t := run o a l _) in *. clearbody t. unfold course in Hc. split.
  - destruct (tn_phase t); try (by left); try (by right); try (right; by destruct Hc). done.
  - intros s c Hp. assert (Ha : answered o a l created s) by (destruct Hp as [Hp|Hp]; rewrite Hp in Hc; apply Hc).
    destruct Ha as (l1 & data & l2 & accept & E & Hr & Hd & Hs). exists l1, data, l2, accept. split_and!; try done.
    apply deriveClient_inv in Hs as (_ & _ & _ & Hv). exact Hv.
Qed.

(** A payload that is the text of a JSON value which calls itself an accept. *)
Definition accept_text (data : SocketData) : Prop :=
  exists text v, (data = TextData text \/ data = Bytes (utf8 text)) /\ JSON_parse text = Ok v /\ get "type" v = Some (JStr "handshake_accept").

Lemma decoded_accept data accept : decodeAccept data = Ok accept -> accept_text data.
Proof.
  unfold decodeAccept, decodeHandshakeMessage. intros Hd. inv_ok. bool_solve. simplify_eq.
  eexists (utf8_text _), _. split; [|split; [eassumption|done]].
  destruct data as [b|t|ty]; cbn [toBuffer] in *; simplify_eq; [right|left]; by rewrite ?utf8_utf8_text, ?utf8_text_utf8.
Qed.

Section Failing.
Context `{Aead} `{Hashing} `{Hkdf} `{KeyExchange} `{PemKeys} (o : ConnectEncryptedTunnelOptions) (a : Attempt).

(** An event that fails an attempt settles it. *)
Lemma fails_for_good e t x l : tn_phase (step o a e t) = Failed x -> tn_phase (run o a (e :: l) t) = Failed x.
Proof. intros Hx. apply (failed_final o a l). exact Hx. Qed.

(** While a message that is no accept is decoded. *)
Lemma never_welcome data t l : ~ accept_text data -> tn_phase t = Decoding data ->
  tn_phase (run o a l t) = Decoding data \/ exists x, tn_phase (run o a l t) = Failed x.
Proof.
  intros Hd. revert t. induction l as [|e l IH]; intros t Hp; [by left|]. cbn [run fold_left].
  assert (Hs : tn_phase (step o a e t) = Decoding data \/ exists x, tn_phase (step o a e t) = Failed x).
  { destruct e; cbn [step set_open tn_phase]; rewrite ?Hp; cbn; try (by left); try (by right; eexists).
    right. unfold welcome. destruct (decodeAccept data) as [v|x] eqn:E; [by apply decoded_accept in E|by eexists]. }
  destruct Hs as [Hs|[x Hs]]; [by apply IH|]. right. exists x. by apply failed_final.
Qed.
End Failing.

(** C31: how opening a tunnel fails, for good: an error while the socket opens, and a
    close or an error after the handshake was sent and before the answer was decoded,
    fail the attempt with the message of that case; a reject message fails it with the
    code and the text of the server; and when the first message after the handshake is
    anything else than the text of a JSON value of type [handshake_accept] - bytes that
    are no JSON, another type, a payload that is neither text nor bytes - the attempt
    fails when it is decoded, and there is no connection whatever happens before or
    after.  A failed attempt stays failed whatever happens later.  A finding: once the
    answer is decoded nobody listens for the close of the socket, so when it is no
    longer open then, its close leaves the attempt waiting. *)
Theorem tunnel_failures `{Aead} `{Hashing} `{Hkdf} `{KeyExchange} `{PemKeys}
    (o : ConnectEncryptedTunnelOptions) (a : Attempt) (created : result bool) (l : list event) :
  let t := run o a l (openSocket a created) in
  let waiting_for_answer := tn_phase t = Responding \/ exists data, tn_phase t = Decoding data in
  let fails l' x := tn_phase (run o a l' t) = Failed (PlainError x) in
  (forall l', tn_phase t = Opening -> fails (SocketError :: l') ("Tunnel connection failed: " +:+ co_url o)) /\
  (forall l', waiting_for_answer -> fails (SocketClose :: l') "Tunnel closed during handshake") /\
  (forall l', waiting_for_answer -> fails (SocketError :: l') "Tunnel errored during handshake") /\
  (forall now code message nonce clock l', tn_phase t = Responding -> small_num now -> code <> "" -> message <> "" ->
     fails (SocketMessage (Bytes (encodeHandshakeMessage (createHandshakeReject now code message))) :: Decoded nonce clock :: l')
       ("Tunnel handshake rejected: " +:+ code +:+ ": " +:+ message)) /\
  (forall data l', tn_phase t = Responding -> ~ accept_text data ->
     (forall nonce clock, exists x, tn_phase (run o a (SocketMessage data :: Decoded nonce clock :: l') t) = Failed x) /\
     forall s c, tn_phase (run o a (SocketMessage data :: l') t) <> Welcoming s c /\ tn_phase (run o a (SocketMessage data :: l') t) <> Connected s c) /\
  (forall e l', tn_phase t = Failed e -> tn_phase (run o a l' t) = Failed e) /\
  (forall s c, tn_phase t = Welcoming s c -> tn_phase (step o a SocketClose t) = Welcoming s c).
Proof.
  cbn zeta. set (t := run o a l _). clearbody t.
  assert (Hbad : forall data e nonce clock l', tn_phase t = Responding -> decodeAccept data = Throw e ->
     tn_phase (run o a (SocketMessage data :: Decoded nonce clock :: l') t) = Failed e).
  { intros data e nonce clock l' Hp Hd. apply (failed_final o a l' (run o a [SocketMessage data; Decoded nonce clock] t)).
    unfold run. cbn [fold_left step]. rewrite Hp. cbn [set_phase tn_phase]. unfold welcome. by rewrite Hd. }
  split_and!.
  - intros l' Hp. apply fails_for_good. cbn. by rewrite Hp.
  - intros l' [Hp|[data Hp]]; apply fails_for_good; cbn; by rewrite Hp.
  - intros l' [Hp|[data Hp]]; apply fails_for_good; cbn; by rewrite Hp.
  - intros now code message nonce clock l' Hp Hnow Hcode Hmsg. apply Hbad; [done|]. by apply reject_decoded.
  - intros data l' Hp Hd. split.
    + intros nonce clock. destruct (decodeAccept data) as [v|x] eqn:E; [by apply decoded_accept in E|]. exists x. by apply Hbad.
    + intros s c. assert (Hp' : tn_phase (step o a (SocketMessage data) t) = Decoding data) by (cbn; by rewrite Hp).
      destruct (never_welcome o a data _ l' Hd Hp') as [Hr|[x Hr]]; cbn [run fold_left] in *; unfold run in Hr; by rewrite Hr.
  - intros e l' He. by apply failed_final.
  - intros s c Hp. cbn. by rewrite Hp.
Qed.

(** ** A concrete tunnel *)

Module Demo.
Definition options : ConnectEncryptedTunnelOptions :=
  {| co_url := "wss://orchestrator/node/tunnel"; co_mode := "control"; co_identity := Some Handshake.Run.node;
     co_nodeId := Some "n1"; co_candidateId := None; co_releaseVersion := Some "1.2.0"; co_serverPublicKeyPem := Some "9" |}.
Definition attempt : @Attempt Toy.key_exchange :=
  @Build_Attempt Toy.key_exchange Handshake.Run.node Handshake.Run.client.
Definition nonce : buffer := be_encode 12 5.
(** The answer comes, and then a second one that nobody reads. *)
Definition answer : SocketData := Bytes (encodeHandshakeMessage (sh_message Handshake.Run.answer)).
Definition events : list event :=
  [SocketOpen nonce 0; SocketMessage answer; SocketMessage (TextData "late"); Decoded nonce 1700000000000].
Definition tunnel : Tunnel :=
  @run Toy.aead Toy.hashing Toy.hkdf_toy Toy.key_exchange Toy.signing ToyPem.pem_keys options attempt events
    (@openSocket Toy.key_exchange attempt (Ok false)).
Definition client_of (t : Tunnel) : TunnelClient.Client :=
  match tn_phase t with Connected _ c => c | _ => new_client end.
Definition session_of (t : Tunnel) : SecureSession :=
  match tn_phase t with Connected s _ => s | _ => Handshake.Run.no_session end.
End Demo.

Lemma tunnel_session_verified_witness :
  exists l1 data l2 accept, Demo.events = l1 ++ SocketMessage data :: l2 /\
    decodeAccept data = Ok accept /\ exists pk sg,
      @pem_public Toy.signing ToyPem.pem_keys "9" = Some pk /\ get "signature" accept = Some (JStr sg) /\
      @verify Toy.signing pk (utf8 (signingPayload accept)) (fromBase64 sg) = true.
Proof.
  destruct (@tunnel_session_verified Toy.aead Toy.hashing Toy.hkdf_toy Toy.key_exchange Toy.signing ToyPem.pem_keys
    Demo.options Demo.attempt (Ok false) Demo.events) as [_ Hs].
  destruct (Hs (Demo.session_of Demo.tunnel) (Demo.client_of Demo.tunnel)) as (l1 & data & l2 & accept & H1 & _ & H3 & _ & H5);
    [left; vm_compute; reflexivity|].
  exists l1, data, l2, accept. split; [exact H1|]. split; [exact H3|]. apply H5. reflexivity.
Defined.

Lemma tunnel_established_witness : exists h sh s c,
  @acceptClientHandshake Toy.hashing Toy.hkdf_toy Toy.key_exchange Toy.signing ToyPem.pem_keys 11 (be_encode 16 22) 1001
    (ch_message h) (Some "9") = Ok sh /\
  tn_phase (@run Toy.aead Toy.hashing Toy.hkdf_toy Toy.key_exchange Toy.signing ToyPem.pem_keys Demo.options
    (@Build_Attempt Toy.key_exchange Handshake.Run.node h)
    [SocketOpen Demo.nonce 0; SocketMessage (Bytes (encodeHandshakeMessage (sh_message sh))); Decoded Demo.nonce 1700000000000]
    (@openSocket Toy.key_exchange (@Build_Attempt Toy.key_exchange Handshake.Run.node h) (Ok false))) = Connected s c /\
  sendKey s = receiveKey (sh_session sh) /\ receiveKey s = sendKey (sh_session sh) /\ length (sent (wire c)) = 1%nat.
Proof.
  destruct (@tunnel_established Toy.aead Toy.aead_laws Toy.hashing Toy.hkdf_toy Toy.hkdf_laws Toy.key_exchange Toy.key_exchange_laws
    Toy.signing Toy.signing_laws ToyPem.pem_keys Demo.options Handshake.Run.node 5 11 (be_encode 16 21) (be_encode 16 22) Demo.nonce
    1000 1001 1700000000000 0 7 (Some Handshake.Run.server)) as (h & sh & s & c & raw & f & m & _ & _ & H3 & H4 & _ & H6 & H7 & H8 & _).
  - right. left.
  - rewrite be_encode_length. lia.
  - rewrite be_encode_length. lia.
  - reflexivity.
  - discriminate.
  - split; reflexivity.
  - split; [discriminate|]. exists 9. split; reflexivity.
  - reflexivity.
  - reflexivity.
  - reflexivity.
  - reflexivity.
  - intros h. apply Z.leb_le. vm_compute. reflexivity.
  - exists h, sh, s, c. rewrite H8. split_and!; assumption || reflexivity.
Defined.
