(* ===== verification/Eval.v ===== *)
(** * Evaluation over the tunnel (clients/eval-client.ts, runtime/eval.ts,
    runtime/network-eval.ts, eval.ts)

    The orchestrator asks a candidate for measurements; each request gets one
    answer.  What a benchmark measures is an argument; which one runs, with which
    bounds, is modelled.  At the end the node signs a nonce and keeps the join
    authorization. *)

From S2P Require Import Prelude Supervise.
From S2P Require Import Effect Text Json JsonText JsonIndent Coerce Base64 Frames Crypto CanonicalJson SecureChannel Messages.
From S2P Require Import Handshake TunnelClient Files SecretStore Url Dedupe Update ProxyServe Connect.
Local Open Scope Z_scope.

(** [v ?? d]. *)
Definition nullish (v : option json) : option json := match v with Some JNull => None | _ => v end.

(** ** Parameters of the actions (runtime/eval.ts) *)

(** [Math.floor] of a finite number. *)
Definition num_floor (n : num) : Z := match n with Fin m e => m / pow10 e | _ => 0 end.

Definition clampInt (value : option json) (fallback min max : Z) : Z :=
  let parsed := match nullish value with Some v => js_number v | None => num_of_Z fallback end in
  if isFinite parsed then Z.max min (Z.min max (num_floor parsed)) else fallback.

Definition is_positive (n : num) : bool := isFinite n && num_ltb (num_of_Z 0) n.

Definition positiveNumber (value : option json) : option num :=
  let parsed := match value with Some v => js_number v | None => NaN end in
  if is_positive parsed then Some parsed else None.

(** A benchmark that runs, with the parameters it is given. *)
Inductive benchmark :=
| System | CpuHash | CryptoAead | Memory | EventLoop
| MemoryPressure (requestedMb rounds : Z)
| CompositeRequest (quick : bool)
| Sustained (durationMs windowMs : option num)
| MultiCore (durationMs : option num).

(** The buffers that [runLegacyMemoryPressure] holds at its end, in megabytes. *)
Definition allocated_mb (b : benchmark) : Z := match b with MemoryPressure mb rounds => mb * rounds | _ => 0 end.

Definition benchmark_of (action : string) (params : json) : option benchmark :=
  if bool_decide (action = "benchmark_system") then Some System
  else if bool_decide (action = "benchmark_cpu") then Some CpuHash
  else if bool_decide (action = "benchmark_crypto") then Some CryptoAead
  else if bool_decide (action = "benchmark_memory") then Some Memory
  else if bool_decide (action = "benchmark_event_loop") then Some EventLoop
  else if bool_decide (action = "benchmark_memory_pressure") then
    Some (MemoryPressure (clampInt (get "test_size_mb" params) 128 1 512) (clampInt (get "rounds" params) 2 1 8))
  else if bool_decide (action = "benchmark_composite") then Some (CompositeRequest (truthy (get "quick" params)))
  else if bool_decide (action = "benchmark_sustained") then
    Some (Sustained (positiveNumber (get "duration_ms" params)) (positiveNumber (get "window_ms" params)))
  else if bool_decide (action = "benchmark_multicore") then Some (MultiCore (positiveNumber (get "duration_ms" params)))
  else None.

(** ** The two network actions (runtime/network-eval.ts) *)

Definition MAX_ECHO_BYTES : Z := 512 * 1024.
Definition DEFAULT_FETCH_TIMEOUT_MS : Z := 15000.

(** [typeof v === "string" ? v : d]. *)
Definition string_or (d : string) (v : option json) : string := default d (as_string v).

Definition runTunnelEcho (params : json) : result json :=
  let payload := string_or "" (get "payload" params) in
  let bytes := Z.of_nat (length (fromBase64 payload)) in
  throw_if (MAX_ECHO_BYTES <? bytes)
    (PlainError ("tunnel_echo payload " +:+ pretty bytes +:+ " bytes exceeds max " +:+ pretty MAX_ECHO_BYTES));;
  Ok (obj [("ok", Some (JBool true)); ("bytes", Some (JNum (num_of_Z bytes))); ("echo", Some (JStr payload));
           ("nonce", JStr <$> as_string (get "nonce" params))]).

Definition fetch_timeout (params : json) : num :=
  let candidate := match nullish (get "timeout_ms" params) with Some v => js_number v | None => num_of_Z DEFAULT_FETCH_TIMEOUT_MS end in
  if is_positive candidate then candidate else num_of_Z DEFAULT_FETCH_TIMEOUT_MS.

(** [serve] is what [serveProxyRequest] returns with that timeout; [node_ms] the
    time it took, rounded. *)
Definition runSpeedtestFetch (serve : num -> ProxyServeRequest -> result ProxyResult) (node_ms : num) (params : json) : result json :=
  let targetUrl := string_or "" (get "target_url" params) in
  throw_if (bool_decide (targetUrl = "")) (PlainError "speedtest_fetch requires a target_url");;
  let method := match as_string (get "method" params) with Some m => toUpperCase m | None => "GET" end in
  r ← serve (fetch_timeout params)
        {| rq_target_url := targetUrl; rq_method := Some method; rq_headers := None; rq_body := NoBody; rq_profile := None |};
  Ok (obj [("ok", Some (JBool ((200 <=? status r) && (status r <? 400)))); ("status", Some (JNum (num_of_Z (status r))));
           ("bytes", Some (JNum (num_of_Z (Z.of_nat (length (res_body r)))))); ("node_ms", Some (JNum node_ms));
           ("content_type", JStr <$> assoc "content-type" (res_headers r))]).

(** ** Dispatch *)

(** What the actions call. *)
Record Services := {
  sv_integrity : result json;
  sv_measure : benchmark -> result json;
  sv_serve : num -> ProxyServeRequest -> result ProxyResult;
  sv_node_ms : num }.

Definition runEvalAction (sv : Services) (action : option json) (params : json) : result json :=
  let name := string_or "" action in
  if bool_decide (name = "capabilities") then Ok capabilitiesRecord
  else if bool_decide (name = "integrity") then sv_integrity sv
  else match benchmark_of name params with
       | Some b => sv_measure sv b
       | None =>
           if bool_decide (name = "tunnel_echo") then runTunnelEcho params
           else if bool_decide (name = "speedtest_fetch") then runSpeedtestFetch (sv_serve sv) (sv_node_ms sv) params
           else Throw (PlainError ("Unsupported eval action: " +:+ template action))
       end.

(** ** The client (clients/eval-client.ts) *)

Definition eval_result (sv : Services) (message : json) : result json :=
  runEvalAction sv (get "action" message) (default (JObj []) (nullish (get "params" message))).

(** The answer to a request, of an action that returned or threw. *)
Definition eval_answer (clock : Z) (message : json) (r : result json) : json :=
  let head := [("type", Some (JStr MESSAGE_TYPE.EVAL_RESPONSE)); ("timestamp", Some (JNum (nowSeconds clock)));
               ("reply_to", Some (default (JStr "") (nullish (get "id" message)))); ("action", get "action" message);
               ("ok", Some (JBool (is_ok r)))] in
  obj (head ++ match r with Ok v => [("result", Some v)] | Throw e => [("error", Some (JStr (errorMessage e)))] end).

(** The state of the process: its tunnel client, its files. *)
Record EvalState := { ev_client : TunnelClient.Client; ev_world : World }.

Definition on_client {A} (m : eff TunnelClient.Client A) : eff EvalState A := fun s =>
  let (c, r) := m (ev_client s) in ({| ev_client := c; ev_world := ev_world s |}, r).
Definition on_world {A} (m : eff World A) : eff EvalState A := fun s =>
  let (w, r) := m (ev_world s) in ({| ev_client := ev_client s; ev_world := w |}, r).

(** [decodeBase64Url]. *)
Definition url_char (c : ascii) : ascii :=
  if bool_decide (c = "-"%char) then "+"%char else if bool_decide (c = "_"%char) then "/"%char else c.

Fixpoint repeat_char (c : ascii) (n : nat) : string := match n with O => "" | S n => String c (repeat_char c n) end.

Definition decodeBase64Url (value : string) : buffer :=
  let normalized := str_map url_char value in
  let n := String.length normalized in
  fromBase64 (normalized +:+ repeat_char "=" ((4 - n mod 4) mod 4)).

Section Client.
Context `{Aead} `{PemKeys} (sendKey : buffer) (p : Process) (sv : Services).

Definition handleEvalRequest (nonce1 nonce2 : buffer) (clock : Z) (message : json) : eff TunnelClient.Client unit :=
  try_catch
    (v ← lift (eval_result sv message); send sendKey nonce1 (eval_answer clock message (Ok v)) FRAME_TYPE.DATA)
    (fun e => send sendKey nonce2 (eval_answer clock message (Throw e)) FRAME_TYPE.DATA).

Definition join_authorization (message : json) (nonce signature saved_at : string) : json :=
  obj [("join_id", get "join_id" message); ("alg", get "alg" message); ("nonce", Some (JStr nonce));
       ("signature", Some (JStr signature)); ("expires_at", get "expires_at" message); ("saved_at", Some (JStr saved_at))].

Definition handleJoinReady (r1 r2 : Random) (fresh : NodeIdentity) (saved_at : string) (message : json) : eff World unit :=
  identity ← loadOrCreateIdentity p r1 fresh;
  nonce ← lift (of_option (as_string (get "nonce" message)) (TypeError "value.replace is not a function"));
  signature ← lift (signBytes (privateKeyPem identity) (decodeBase64Url nonce));
  saveJoinAuthorization p r2 (join_authorization message nonce signature saved_at).

(** Random bytes and clocks of one message. *)
Record Draws := { dr_nonce1 : buffer; dr_nonce2 : buffer; dr_clock : Z; dr_1 : Random; dr_2 : Random; dr_fresh : NodeIdentity; dr_saved_at : string }.

(** The handler that [startEvalClient] registers. *)
Definition onMessage (d : Draws) (message : json) : eff EvalState unit :=
  if bool_decide (get "type" message = Some (JStr MESSAGE_TYPE.EVAL_REQUEST)) then
    on_client (handleEvalRequest (dr_nonce1 d) (dr_nonce2 d) (dr_clock d) message)
  else if bool_decide (get "type" message = Some (JStr MESSAGE_TYPE.JOIN_READY)) then
    on_world (handleJoinReady (dr_1 d) (dr_2 d) (dr_fresh d) (dr_saved_at d) message)
  else mret tt.
End Client.

(** ** The evaluation command (eval.ts) *)

(** The same function as in [control.ts]. *)
Definition tunnelUrlFromEnv `{UrlApi} (p : Process) : result string := Supervise.tunnelUrlFromEnv p.

(** [a > n] and [a <= n] for a member [a] and an integer [n]. *)
Definition member_gt (v : option json) (n : Z) : bool := match v with Some v => num_ltb (num_of_Z n) (js_number v) | None => false end.
Definition member_le (v : option json) (n : Z) : bool := match v with Some v => num_leb (js_number v) (num_of_Z n) | None => false end.

(** One turn of the loop: the clock at the test of the deadline, what was loaded,
    and the clock at the test of the expiry. *)
Record Poll := { po_start : Z; po_loaded : result (option json); po_now : Z }.

Inductive waiting := Found (joinAuth : json) | GaveUp (e : exn) | Waiting.

Definition usable (joinAuth : option json) (now : Z) : bool :=
  truthy joinAuth && member_gt (match joinAuth with Some v => get "expires_at" v | None => None end) (now / 1000).

Fixpoint waitForJoinAuthorization (deadline : Z) (l : list Poll) : waiting :=
  match l with
  | [] => Waiting
  | x :: l =>
      if po_start x <? deadline then
        match po_loaded x with
        | Throw e => GaveUp e
        | Ok (Some v) => if usable (Some v) (po_now x) then Found v else waitForJoinAuthorization deadline l
        | Ok None => waitForJoinAuthorization deadline l
        end
      else GaveUp (PlainError "Timed out waiting for encrypted join authorization")
  end.

(** ** Lemmas *)

Lemma clampInt_bounds v fallback lo hi : lo <= fallback <= hi -> lo <= clampInt v fallback lo hi <= hi.
Proof. intros Hf. unfold clampInt. destruct (isFinite _); lia. Qed.

Lemma fetch_timeout_positive params : is_positive (fetch_timeout params) = true.
Proof.
  unfold fetch_timeout. generalize (match nullish (get "timeout_ms" params) with Some v => js_number v | None => num_of_Z DEFAULT_FETCH_TIMEOUT_MS end).
  intros n. cbn zeta. by destruct (is_positive n) eqn:E.
Qed.

Lemma positiveNumber_positive v n : positiveNumber v = Some n -> is_positive n = true.
Proof. unfold positiveNumber. destruct (is_positive _) eqn:E; [|done]. by intros [= <-]. Qed.

Lemma echo_ok params v : runTunnelEcho params = Ok v ->
  exists payload, payload = string_or "" (get "payload" params) /\ Z.of_nat (length (fromBase64 payload)) <= MAX_ECHO_BYTES /\
    get "echo" v = Some (JStr payload) /\ get "bytes" v = Some (JNum (num_of_Z (Z.of_nat (length (fromBase64 payload))))).
Proof.
  unfold runTunnelEcho. intros He. inv_ok. bool_solve. eexists. split; [done|]. split; [done|].
  split; unfold obj; cbn [get]; by destruct (as_string (get "nonce" params)).
Qed.

(** Characters outside the alphabet are skipped, and padding ends the text. *)
Lemma url_char_val c : b64_val (url_char c) = b64_val c /\ (url_char c = "="%char <-> c = "="%char).
Proof. destruct c as [[] [] [] [] [] [] [] []]; (split; [reflexivity|split; vm_compute; congruence]). Qed.

Lemma text_sextets_padded s n : text_sextets (str_map url_char s +:+ repeat_char "=" n) = text_sextets s.
Proof.
  induction s as [|c s IH]; [by destruct n|]. cbn [str_map String.append text_sextets].
  destruct (url_char_val c) as [Hv He]. rewrite Hv, IH.
  destruct (decide (c = "="%char)) as [Hc|Hc]; [by rewrite decide_True by tauto|by rewrite decide_False by tauto].
Qed.

Lemma decodeBase64Url_spec s : decodeBase64Url s = fromBase64 s.
Proof. unfold decodeBase64Url, fromBase64. by rewrite text_sextets_padded. Qed.

Lemma blank_payload n : fromBase64 (repeat_char " " n) = [].
Proof. unfold fromBase64. replace (text_sextets (repeat_char " " n)) with (@nil Z); [done|]. by induction n. Qed.

Lemma repeat_char_length c n : String.length (repeat_char c n) = n.
Proof. induction n as [|n IH]; cbn; congruence. Qed.

Section Lemmas.
Context `{Aead, !AeadLaws} (key : buffer).

(** Sending on an open socket, with room for the message. *)
Lemma send_one nonce m c : length key = KEY_BYTES -> length nonce = SecureChannel.NONCE_BYTES ->
  ws c = Some true -> 0 <= sendSequence (wire c) <= MAX_U64 -> Z.of_nat (length (encodeMessage m)) <= 0xffffffff ->
  exists c' raw f, send key nonce m FRAME_TYPE.DATA c = (c', Ok tt) /\
    sent (wire c') = sent (wire c) ++ [(sendSequence (wire c), raw)] /\
    openFrame key raw = Ok (f, encodeMessage m) /\ fp_sequence f = sendSequence (wire c).
Proof.
  intros Hk Hn Hw Hs Hm.
  destruct (seal_open nonce key FRAME_TYPE.DATA (sendSequence (wire c)) (encodeMessage m))
    as (raw & ct & tag & Hseal & Ho); [done|done|right; left|done|done|].
  eexists _, raw, _. split; [rewrite send_cases, decide_True, Hseal by done; reflexivity|]. split; [done|]. by split; [exact Ho|].
Qed.
End Lemmas.

(** ** Properties *)

(** Every evaluation request gets exactly one answer: whatever the action, known
    or not, and whether it returns or throws, when the tunnel is open one frame is
    sent, under the next sequence number, that opens to the response for this request
    with its id, its action and whether it succeeded; when it is not open, the handler
    fails and nothing is sent. *)
Theorem eval_answers_once `{Aead, !AeadLaws} (key nonce1 nonce2 : buffer) (sv : Services) (clock : Z) (message : json)
    (c : TunnelClient.Client) :
  let answer := eval_answer clock message (eval_result sv message) in
  length key = KEY_BYTES -> length nonce1 = SecureChannel.NONCE_BYTES -> length nonce2 = SecureChannel.NONCE_BYTES ->
  0 <= sendSequence (wire c) <= MAX_U64 -> Z.of_nat (length (encodeMessage answer)) <= 0xffffffff ->
  let (c', r) := handleEvalRequest key sv nonce1 nonce2 clock message c in
  (ws c = Some true -> r = Ok tt /\ exists raw f,
     sent (wire c') = sent (wire c) ++ [(sendSequence (wire c), raw)] /\
     openFrame key raw = Ok (f, encodeMessage answer) /\ fp_sequence f = sendSequence (wire c)) /\
  (ws c <> Some true -> c' = c /\ r = Throw (PlainError "Tunnel is not connected")) /\
  get "reply_to" answer = Some (default (JStr "") (nullish (get "id" message))) /\
  get "action" answer = get "action" message /\
  get "ok" answer = Some (JBool (is_ok (eval_result sv message))).
Proof.
  cbn zeta. intros Hk Hn1 Hn2 Hs Hl.
  assert (Hget : forall r, let answer := eval_answer clock message r in
    get "reply_to" answer = Some (default (JStr "") (nullish (get "id" message))) /\
    get "action" answer = get "action" message /\ get "ok" answer = Some (JBool (is_ok r))).
  { intros r. cbn zeta. unfold eval_answer, obj. destruct (get "action" message), r; done. }
  unfold handleEvalRequest, try_catch, lift, mbind, eff_bind.
  assert (Hclosed : forall nonce m, ws c <> Some true -> send key nonce m FRAME_TYPE.DATA c = (c, Throw (PlainError "Tunnel is not connected"))).
  { intros nonce m Hw. by rewrite send_cases, decide_False. }
  destruct (decide (ws c = Some true)) as [Hw|Hw]; destruct (eval_result sv message) as [v|e].
  - destruct (send_one key nonce1 _ c Hk Hn1 Hw Hs Hl) as (c' & raw & f & E & Hr). rewrite E. cbv beta iota.
    split; [|split; [done|apply Hget]]. intros _. split; [done|by exists raw, f].
  - destruct (send_one key nonce2 _ c Hk Hn2 Hw Hs Hl) as (c' & raw & f & E & Hr). rewrite E. cbv beta iota.
    split; [|split; [done|apply Hget]]. intros _. split; [done|by exists raw, f].
  - rewrite !Hclosed by done. cbv beta iota. split; [done|]. split; [done|apply Hget].
  - rewrite Hclosed by done. cbv beta iota. split; [done|]. split; [done|apply Hget].
Qed.

(** C34: the parameters of an evaluation are bounded: a memory benchmark holds at most
    4 GiB, in whole megabytes and rounds; durations are positive or left to the
    benchmark; a speed test always has a positive timeout; an echo returns its payload
    unchanged and only when it decodes to at most 512 KiB, and fails when it decodes to
    more. *)
Theorem eval_parameters_bounded (action : string) (params : json) :
  (forall b, benchmark_of action params = Some b -> 0 <= allocated_mb b <= 4096 /\
     match b with
     | MemoryPressure mb rounds => 1 <= mb <= 512 /\ 1 <= rounds <= 8
     | Sustained d w => Forall (fun n => is_positive n = true) (option_list d ++ option_list w)
     | MultiCore d => Forall (fun n => is_positive n = true) (option_list d)
     | _ => True
     end) /\
  is_positive (fetch_timeout params) = true /\
  (forall payload, get "payload" params = Some (JStr payload) ->
     (Z.of_nat (length (fromBase64 payload)) <= MAX_ECHO_BYTES -> exists v, runTunnelEcho params = Ok v /\ get "echo" v = Some (JStr payload)) /\
     (MAX_ECHO_BYTES < Z.of_nat (length (fromBase64 payload)) -> exists e, runTunnelEcho params = Throw e)).
Proof.
  split_and!.
  - intros b. unfold benchmark_of. repeat (case_bool_decide; [intros [= <-]|]); try done.
    + pose proof (clampInt_bounds (get "test_size_mb" params) 128 1 512 ltac:(lia)).
      pose proof (clampInt_bounds (get "rounds" params) 2 1 8 ltac:(lia)). cbn [allocated_mb]. nia.
    + split; [done|]. apply Forall_app.
      split; (destruct (positiveNumber _) eqn:E; cbn; [apply positiveNumber_positive in E; by repeat constructor|constructor]).
    + split; [done|]. destruct (positiveNumber _) eqn:E; cbn; [apply positiveNumber_positive in E; by repeat constructor|constructor].
  - apply fetch_timeout_positive.
  - intros payload Hp. split; intros Hl; unfold runTunnelEcho, string_or; rewrite Hp; cbn [as_string default from_option id].
    + rewrite (proj2 (Z.ltb_ge _ _)) by done. eexists. split; [reflexivity|]. by destruct (as_string (get "nonce" params)).
    + rewrite (proj2 (Z.ltb_lt _ _)) by done. by eexists.
Qed.

(** A finding: the cap of an echo counts decoded bytes, and text outside the
    alphabet decodes to none, so a payload of any length is accepted and returned. *)
Theorem echo_cap_bypass (n : nat) : exists payload v,
  String.length payload = n /\ runTunnelEcho (JObj [("payload", JStr payload)]) = Ok v /\ get "echo" v = Some (JStr payload).
Proof.
  exists (repeat_char " " n). eexists. split; [apply repeat_char_length|].
  unfold runTunnelEcho, string_or.
  change (get "payload" (JObj [("payload", JStr (repeat_char " " n))])) with (Some (JStr (repeat_char " " n))).
  cbn [as_string default from_option id]. rewrite blank_payload. split; reflexivity.
Qed.

(** The loop of [eval.ts] gives an authorization that is still valid, and stops at the
    first poll at or after the deadline. *)
Theorem wait_sound (deadline : Z) (l : list Poll) :
  (forall v, waitForJoinAuthorization deadline l = Found v ->
     exists x, x ∈ l /\ po_loaded x = Ok (Some v) /\ po_start x < deadline /\ usable (Some v) (po_now x) = true) /\
  ((exists x, x ∈ l /\ deadline <= po_start x) -> waitForJoinAuthorization deadline l <> Waiting).
Proof.
  induction l as [|x l [IH1 IH2]]; cbn [waitForJoinAuthorization]; split; try done.
  - intros (x & Hx & _). by apply elem_of_nil in Hx.
  - intros v. destruct (po_start x <? deadline) eqn:E; [|done]. bool_solve.
    assert (Hl : waitForJoinAuthorization deadline l = Found v -> exists y, y ∈ x :: l /\ po_loaded y = Ok (Some v) /\
      po_start y < deadline /\ usable (Some v) (po_now y) = true).
    { intros Hf. destruct (IH1 v Hf) as (y & Hy & Hr). exists y. split; [by right|done]. }
    destruct (po_loaded x) as [[w|]|] eqn:Ex; try done. destruct (usable (Some w) (po_now x)) eqn:Eu; [|done].
    intros [= <-]. exists x. split; [left|]. done.
  - intros (y & Hy & Hd). destruct (po_start x <? deadline) eqn:E; [|done]. bool_solve.
    apply elem_of_cons in Hy as [->|Hy]; [lia|].
    assert (Hl : waitForJoinAuthorization deadline l <> Waiting) by (apply IH2; eauto).
    destruct (po_loaded x) as [[w|]|]; try done. by destruct (usable (Some w) (po_now x)).
Qed.

Module Demo.
Definition services : Services :=
  {| sv_integrity := Ok JNull; sv_measure := fun _ => Ok (JObj []); sv_serve := fun _ _ => Throw (PlainError "blocked");
     sv_node_ms := num_of_Z 3 |}.
Definition request : json :=
  JObj [("type", JStr "eval_request"); ("id", JStr "q1"); ("action", JStr "speedtest_fetch");
        ("params", JObj [("target_url", JStr "http://10.0.0.1/")])].
Definition key : buffer := be_encode 32 7.
Definition nonce : buffer := be_encode 12 5.
Definition client : TunnelClient.Client := set_ws (Some true) new_client.
End Demo.

Lemma eval_answers_once_witness :
  let answer := eval_answer 0 Demo.request (eval_result Demo.services Demo.request) in
  let c' := (@handleEvalRequest Toy.aead Demo.key Demo.services Demo.nonce Demo.nonce 0 Demo.request Demo.client).1 in
  get "error" answer = Some (JStr "blocked") /\ exists raw f,
    sent (wire c') = [(0, raw)] /\ @openFrame Toy.aead Demo.key raw = Ok (f, encodeMessage answer).
Proof.
  cbn zeta. split; [reflexivity|].
  pose proof (@eval_answers_once Toy.aead Toy.aead_laws Demo.key Demo.nonce Demo.nonce Demo.services 0 Demo.request Demo.client) as Ht.
  cbn zeta in Ht. destruct (handleEvalRequest _ _ _ _ _ _ _) as [c' r]. cbn [fst].
  destruct Ht as [Ht _]; [reflexivity|reflexivity|reflexivity|split; discriminate|apply Z.leb_le; vm_compute; reflexivity|].
  destruct (Ht eq_refl) as (_ & raw & f & H1 & H2 & _). exists raw, f. split; [exact H1|exact H2].
Defined.
