(* ===== verification/Join.v ===== *)
(** * Registration (registration/join.ts, node/integrity.ts, node/headless.ts)

    A node that passed the evaluation joins: it sends its key and its signed join
    authorization, keeps the configuration it is given and claims the machine.  The
    state is the files, the machine registry and the requests sent. *)

From S2P Require Import Prelude Effect Text Json JsonText JsonIndent Coerce Base64 Crypto CanonicalJson Messages Files SecretStore.
From S2P Require Import Machine Dedupe Update Url Ticket RequestTicket Eval.
Local Open Scope Z_scope.

(** ** Options from the environment *)

Record RegisterNodeOptions := {
  ro_serverUrl : string; ro_ipv4 : string; ro_ipv6 : option string; ro_port : num; ro_contact : string;
  ro_emailVerificationToken : string; ro_evmAddress : string; ro_solanaAddress : string; ro_icpAddress : string;
  ro_machineId : option string }.

Section Environment.
Context (p : Process).

Definition optionalEnv (key : string) : option string :=
  match env p key with Some v => set_text (Some (trim v)) | None => None end.

Definition requiredEnv (key : string) : result string :=
  of_option (optionalEnv key) (PlainError ("Missing required environment variable: " +:+ key)).

Definition integerEnv (key : string) (fallback : num) : result num :=
  match optionalEnv key with
  | None => Ok fallback
  | Some value =>
      let parsed := string_to_number value in
      throw_if (negb (isInteger parsed) || num_ltb parsed (num_of_Z 1) || num_ltb (num_of_Z 65535) parsed)
        (PlainError (key +:+ " must be an integer TCP port"));;
      Ok parsed
  end.

Definition optionsFromEnv : result RegisterNodeOptions :=
  serverUrl ← requiredEnv "CONSENSUS_SERVER_URL";
  ipv4 ← requiredEnv "CONSENSUS_NODE_IPV4";
  fallback ← integerEnv "NODE_PORT" (num_of_Z 9090);
  port ← integerEnv "CONSENSUS_NODE_PORT" fallback;
  contact ← requiredEnv "CONSENSUS_NODE_CONTACT";
  token ← requiredEnv "CONSENSUS_EMAIL_VERIFICATION_TOKEN";
  evm ← requiredEnv "CONSENSUS_EVM_ADDRESS";
  solana ← requiredEnv "CONSENSUS_SOLANA_ADDRESS";
  icp ← requiredEnv "CONSENSUS_ICP_ADDRESS";
  Ok {| ro_serverUrl := serverUrl; ro_ipv4 := ipv4; ro_ipv6 := optionalEnv "CONSENSUS_NODE_IPV6"; ro_port := port;
        ro_contact := contact; ro_emailVerificationToken := token; ro_evmAddress := evm; ro_solanaAddress := solana;
        ro_icpAddress := icp; ro_machineId := optionalEnv "CONSENSUS_MACHINE_ID" |}.
End Environment.

(** ** The request *)

(** Members of the join authorization are sent as they were stored. *)
Definition buildJoinPayload (o : RegisterNodeOptions) (machineId : option string) (publicKeyPem : string) (joinAuth : json) : json :=
  obj [("pubkey_ed25519_pem", Some (JStr publicKeyPem)); ("ipv4", Some (JStr (ro_ipv4 o)));
       ("ipv6", Some (match ro_ipv6 o with Some v => JStr v | None => JNull end)); ("port", Some (JNum (ro_port o)));
       ("contact", Some (JStr (ro_contact o))); ("email_verification_token", Some (JStr (ro_emailVerificationToken o)));
       ("evm_address", Some (JStr (ro_evmAddress o))); ("solana_address", Some (JStr (ro_solanaAddress o)));
       ("icp_address", Some (JStr (ro_icpAddress o))); ("machine_id", JStr <$> machineId);
       ("capabilities", Some capabilitiesRecord); ("join_id", get "join_id" joinAuth);
       ("join_signature", get "signature" joinAuth)].

(** [key in body] for a truthy [body]: a primitive has no members to ask for. *)
Definition has_member (key : string) (body : json) : result bool :=
  match body with
  | JObj _ => Ok (bool_decide (is_Some (get key body)))
  | JArr _ => Ok false
  | _ => Throw (TypeError "cannot use the in operator on a primitive")
  end.

(** [body && key in body && body[key]]. *)
Definition detail_member (key : string) (body : json) : result (option json) :=
  if truthy (Some body) then
    present ← has_member key body;
    Ok (if present && truthy (get key body) then get key body else None)
  else Ok None.

Definition join_detail (status : Z) (body : json) : result string :=
  m ← detail_member "message" body;
  match m with
  | Some v => Ok (js_string v)
  | None =>
      e ← detail_member "error" body;
      Ok (match e with Some v => js_string v | None => "HTTP " +:+ pretty status end)
  end.

(** The body of a response that is not JSON counts as [null]. *)
Definition response_body (r : Response) : json := ok_or JNull (JSON_parse (utf8_text (resp_body r))).

(** The answer of the server, checked. *)
Definition join_response (r : Response) : result json :=
  let body := response_body r in
  (if resp_ok r then Ok tt
   else detail ← join_detail (resp_status r) body; Throw (PlainError ("Node join failed: " +:+ detail)));;
  throw_if (negb (truthy (Some body))) (PlainError "Node join failed: malformed response");;
  present ← has_member "success" body;
  throw_if (negb (present && truthy (get "success" body))) (PlainError "Node join failed: malformed response");;
  Ok body.

(** ** The configuration *)

(** [{ ...existing, ...fields }] as it is written: a member that is [undefined] is
    dropped.  A configuration that is not an object has no members here. *)
Definition assign (existing : json) (fields : list (string * option json)) : json :=
  JObj (fold_left (fun l f => match f.2 with Some v => set_key f.1 v l | None => remove f.1 l end) fields
          (match existing with JObj l => l | _ => [] end)).

(** The key to keep: [null] counts as absent. *)
Definition kept_pubkey (existing body : json) : json :=
  default JNull (resolvePinnedPubkey (nullish (get "orchestrator_pubkey" existing)) (nullish (get "orchestrator_pubkey" body))).

Definition registered_config (existing body : json) (machineId now : string) : json :=
  assign existing
    [("node_id", get "node_id" body); ("machine_id", Some (JStr machineId)); ("domain", get "domain" body);
     ("region", get "region" body); ("ipv4", get "ipv4" body); ("ipv6", get "ipv6" body); ("port", get "port" body);
     ("registered_at", Some (JStr now)); ("benchmark_score", get "benchmark_score" body);
     ("orchestrator_pubkey", Some (kept_pubkey existing body))].

(** ** Registering *)

Record RegState := { rs_world : World; rs_registry : Machine; rs_posted : list (string * json) }.

Definition on_world {A} (m : eff World A) : eff RegState A := fun s =>
  let (w, r) := m (rs_world s) in ({| rs_world := w; rs_registry := rs_registry s; rs_posted := rs_posted s |}, r).
Definition on_registry {A} (m : eff Machine A) : eff RegState A := fun s =>
  let (f, r) := m (rs_registry s) in ({| rs_world := rs_world s; rs_registry := f; rs_posted := rs_posted s |}, r).

(** Random bytes, clocks and ids of one registration. *)
Record JoinDraws := { jd_1 : Random; jd_2 : Random; jd_fresh : NodeIdentity; jd_now : Z; jd_iso : string; jd_uuid : string }.

Section Register.
Context `{Aead} (p : Process) (fetch : string -> json -> result Response).

Definition requireJoinAuthorization (r : Random) (now : Z) : eff World json :=
  a ← loadJoinAuthorization p r;
  match a with
  | Some joinAuth =>
      lift (throw_if (negb (truthy (Some joinAuth)))
        (PlainError "Missing join authorization. Run encrypted eval first so join-auth.json can be created."));;
      lift (throw_if (negb (bool_decide (get "alg" joinAuth = Some (JStr "ed25519"))))
        (PlainError ("Unsupported join authorization algorithm: " +:+ template (get "alg" joinAuth))));;
      lift (throw_if (member_le (get "expires_at" joinAuth) (now / 1000))
        (PlainError "Join authorization expired. Run encrypted eval again to get a fresh join request."));;
      mret joinAuth
  | None => throw (PlainError "Missing join authorization. Run encrypted eval first so join-auth.json can be created.")
  end.

Definition post (url : string) (payload : json) : eff RegState Response := fun s =>
  ({| rs_world := rs_world s; rs_registry := rs_registry s; rs_posted := rs_posted s ++ [(url, payload)] |}, fetch url payload).

(** A member the code treats as text. *)
Definition text_member (k : string) (v : json) : string := default "" (as_string (get k v)).

(** The end of [registerNode]: the configuration is saved, then the machine claimed. *)
Definition keepRegistration (d : JoinDraws) (existing : json) (machine : MachineRegistry) (body : json) : eff RegState json :=
  on_world (on_files (saveConfig p (registered_config existing body (machine_id machine) (jd_iso d))));;
  on_registry (claimMachineNode p (jd_iso d) (jd_uuid d) (text_member "node_id" body)
    (set_text (trim <$> env p "CONSENSUS_NODE_INSTALL_DIR")) None);;
  mret body.

Definition registerNode (d : JoinDraws) (o : RegisterNodeOptions) : eff RegState json :=
  identity ← on_world (loadOrCreateIdentity p (jd_1 d) (jd_fresh d));
  joinAuth ← on_world (requireJoinAuthorization (jd_2 d) (jd_now d));
  existing ← gets (fun s => loadConfig p (w_disk (rs_world s)));
  lift (members existing);;
  machine ← on_registry (assertMachineCanRegister p (jd_iso d) (jd_uuid d) (as_string (get "node_id" existing)) None);
  let machineId := default (machine_id machine) (ro_machineId o) in
  let payload := buildJoinPayload o (Some machineId) (publicKeyPem identity) joinAuth in
  r ← post (trimTrailingSlash (ro_serverUrl o) +:+ "/node/join") payload;
  body ← lift (join_response r);
  (match set_text (mr_node_id machine) with
   | Some id => lift (throw_if (negb (bool_decide (get "node_id" body = Some (JStr id))))
       (PlainError ("This machine is already registered as " +:+ id +:+ "; server returned " +:+ template (get "node_id" body))))
   | None => mret tt
   end);;
  keepRegistration d existing machine body.
End Register.

(** ** Lemmas *)

Definition own_members (v : json) : list (string * json) := match v with JObj l => l | _ => [] end.

Lemma assign_member k fields existing : NoDup fields.*1 ->
  get k (assign existing fields) = match assoc k fields with Some v => v | None => assoc k (own_members existing) end.
Proof.
  unfold assign. cbn [get]. change (match existing with JObj l => l | _ => [] end) with (own_members existing).
  generalize (own_members existing) as l. induction fields as [|[k' o] fields IH]; intros l; [done|].
  intros [Hk Hd]%NoDup_cons. cbn [fold_left fst snd assoc] in *. rewrite IH by done.
  destruct (decide (k = k')) as [->|Hn].
  - rewrite (proj2 (assoc_none _ _) Hk). destruct o as [v|]; [by rewrite assoc_set_key, decide_True|by rewrite remove_assoc, decide_True].
  - destruct (assoc k fields); [done|]. destruct o as [v|]; [by rewrite assoc_set_key, decide_False|by rewrite remove_assoc, decide_False].
Qed.

(** The members that registration sets. *)
Lemma registered_members existing body machineId now :
  get "node_id" (registered_config existing body machineId now) = get "node_id" body /\
  get "machine_id" (registered_config existing body machineId now) = Some (JStr machineId) /\
  get "orchestrator_pubkey" (registered_config existing body machineId now) = Some (kept_pubkey existing body) /\
  forall k, k ∉ ["node_id"; "machine_id"; "domain"; "region"; "ipv4"; "ipv6"; "port"; "registered_at"; "benchmark_score"; "orchestrator_pubkey"] ->
    get k (registered_config existing body machineId now) = assoc k (own_members existing).
Proof.
  unfold registered_config. set (fields := [("node_id", _); _; _; _; _; _; _; _; _; _]).
  assert (Hd : NoDup fields.*1) by (apply (bool_decide_unpack _); vm_compute; exact I).
  split_and!; try (rewrite assign_member by done; reflexivity).
  intros k Hk. rewrite assign_member by done. by rewrite (proj2 (assoc_none k fields)).
Qed.

Section Lemmas.
Context `{Aead} (p : Process).

(** The files a reading of the join authorization may change. *)
Definition join_files (r : Random) : list string :=
  [joinAuth (paths p); tmp_name r (joinAuth (paths p)); keyFilePath p].

(** The state files are not the key file. *)
Record apart (d : JoinDraws) : Prop := {
  ap_priv : p_privateKeyPem (paths p) <> keyFilePath p; ap_priv_tmp : tmp_name (jd_1 d) (p_privateKeyPem (paths p)) <> keyFilePath p;
  ap_pub : p_publicKeyPem (paths p) <> keyFilePath p; ap_join : joinAuth (paths p) <> keyFilePath p;
  ap_join_tmp : tmp_name (jd_2 d) (joinAuth (paths p)) <> keyFilePath p;
  ap_config : config (paths p) ∉ identity_files p (jd_1 d) ++ join_files (jd_2 d) }.

(** What a join authorization must be at the time [now]. *)
Definition authorized (now : Z) (auth : json) : Prop :=
  truthy (Some auth) = true /\ get "alg" auth = Some (JStr "ed25519") /\ member_le (get "expires_at" auth) (now / 1000) = false.

Lemma require_spec r now w : coherent p w -> joinAuth (paths p) <> keyFilePath p -> tmp_name r (joinAuth (paths p)) <> keyFilePath p ->
  let (w', res) := requireJoinAuthorization p r now w in
  (forall f, f ∉ join_files r -> w_disk w' !! f = w_disk w !! f) /\ forall auth, res = Ok auth -> authorized now auth.
Proof.
  intros Hw H1 H2. unfold requireJoinAuthorization, loadJoinAuthorization, mbind, eff_bind, lift, throw, mret, eff_ret.
  pose proof (read_spec p r SLOT_JOIN_AUTH (joinAuth (paths p)) w Hw H1 H2) as Hr.
  destruct (readSecretFile p r SLOT_JOIN_AUTH (joinAuth (paths p)) w) as [w1 res]. destruct Hr as (Hd & _).
  assert (Hk : forall f, f ∉ join_files r -> w_disk w1 !! f = w_disk w !! f).
  { intros f Hf. unfold join_files in Hf. rewrite !not_elem_of_cons in Hf. apply Hd; tauto. }
  destruct res as [[text|]|]; try done. destruct (JSON_parse text) as [v|]; [|done].
  repeat (match goal with |- context [throw_if ?b ?e] => destruct b eqn:?; [done|] end; cbn [throw_if]).
  bool_solve. split; [done|]. intros auth [= <-]. done.
Qed.

(** What is left when a registration could not be kept: the configuration was not
    written - and is emptied at worst - or it was, and the machine could not be claimed. *)
Definition half_kept (cfg : json) (before after : RegState) (e : exn) : Prop :=
  kept_or_emptied (config (paths p)) (w_disk (rs_world before)) (w_disk (rs_world after)) \/
  (w_disk (rs_world after) !! config (paths p) = Some (Regular (utf8 (stringify2 cfg))) /\
   (exists code, e = io_error code) /\
   forall n dir, claimed p n dir (m_file (rs_registry after)) -> claimed p n dir (m_file (rs_registry before))).

(** Keeping a registration does both steps, or throws between or before. *)
Lemma keep_spec d existing body machine e f s : jd_uuid d <> "" ->
  assertMachineCanRegister p (jd_iso d) (jd_uuid d) e None f = (rs_registry s, Ok machine) ->
  (forall id, set_text (mr_node_id machine) = Some id -> text_member "node_id" body = id) ->
  let (s', res) := keepRegistration p d existing machine body s in
  rs_posted s' = rs_posted s /\
  match res with
  | Throw e => half_kept (registered_config existing body (machine_id machine) (jd_iso d)) s s' e
  | Ok v => v = body /\ w_disk (rs_world s') !! config (paths p) =
        Some (Regular (utf8 (stringify2 (registered_config existing body (machine_id machine) (jd_iso d))))) /\
      claimed p (text_member "node_id" body) (normalizeDir p (stateDir p)) (m_file (rs_registry s'))
  end.
Proof.
  intros Hu Em Hck. unfold keepRegistration, on_world, on_registry, on_files, saveConfig, writeJson, mbind, eff_bind, mret, eff_ret.
  destruct (writeFile (config (paths p)) _ (w_disk (rs_world s))) as [d3 [[]|x]] eqn:Ew.
  2: { split; [done|]. left. by eapply writeFile_failed. }
  apply writeFile_ok in Ew. subst d3. cbn [rs_world rs_registry rs_posted].
  pose proof (claim_allowed p _ _ _ _ _ _ _ (text_member "node_id" body) (set_text (trim <$> env p "CONSENSUS_NODE_INSTALL_DIR"))
    (jd_iso d) (jd_uuid d) Hu Em Hck) as Hc. destruct (claimMachineNode _ _ _ _ _ _ _) as [f2 [r'|x]];
    cbn [rs_world rs_registry rs_posted w_disk]; (split; [done|]).
  - destruct Hc as (Hf & Eid & Hid & En & Es). split_and!; [done|by apply lookup_insert_eq|].
    intros now. exists r'. rewrite Hf. split; [by apply load_saved|]. split; [exact En|exact Es].
  - destruct Hc as [Hf Hx]. right. split; [by apply lookup_insert_eq|]. split; [exact Hx|]. cbn [rs_registry]. by rewrite Hf.
Qed.

(** The course of a registration: what was read before the request, and its outcome. *)
Definition sent_request (fetch : string -> json -> result Response) (d : JoinDraws) (o : RegisterNodeOptions) (s s' : RegState) (r : Response) : Prop :=
  exists key auth machineId, authorized (jd_now d) auth /\
    let url := trimTrailingSlash (ro_serverUrl o) +:+ "/node/join" in
    let payload := buildJoinPayload o (Some machineId) key auth in
    rs_posted s' = rs_posted s ++ [(url, payload)] /\ fetch url payload = Ok r.
End Lemmas.

(** ** Properties *)


Lemma get_wf k v j : wf_json j = true -> get k j = Some v -> wf_json v = true.
Proof.
  intros Hw Hg. destruct j as [| | | | |l]; try done. cbn [get] in Hg. apply assoc_elem in Hg.
  apply wf_object in Hw as [_ Hw]. by apply (proj1 (Forall_forall _ _) Hw) in Hg.
Qed.

Lemma join_authorization_wf message nonce sg at' : wf_json message = true ->
  wf_json (join_authorization message nonce sg at') = true.
Proof.
  intros Hw. unfold join_authorization.
  pose proof (fun v => get_wf "join_id" v message Hw) as H1. pose proof (fun v => get_wf "alg" v message Hw) as H2.
  pose proof (fun v => get_wf "expires_at" v message Hw) as H3.
  destruct (get "join_id" message), (get "alg" message), (get "expires_at" message);
    (apply wf_object_intro; [by repeat constructor|]); repeat constructor; cbn; by auto.
Qed.

Lemma join_authorization_fields message nonce sg at' :
  let auth := join_authorization message nonce sg at' in
  get "join_id" auth = get "join_id" message /\ get "alg" auth = get "alg" message /\
  get "expires_at" auth = get "expires_at" message /\ get "signature" auth = Some (JStr sg) /\ truthy (Some auth) = true.
Proof.
  cbn zeta. unfold join_authorization, obj.
  destruct (get "join_id" message), (get "alg" message), (get "expires_at" message); done.
Qed.

Lemma handle_join_inv `{Aead} `{PemKeys} p r1 r2 fresh at' message w w' :
  handleJoinReady p r1 r2 fresh at' message w = (w', Ok tt) ->
  exists w1 id nonce sk, loadOrCreateIdentity p r1 fresh w = (w1, Ok id) /\ get "nonce" message = Some (JStr nonce) /\
    pem_secret (privateKeyPem id) = Some sk /\
    saveJoinAuthorization p r2 (join_authorization message nonce (toBase64 (sign sk (fromBase64 nonce))) at') w1 = (w', Ok tt).
Proof.
  unfold handleJoinReady, mbind, eff_bind, lift. destruct (loadOrCreateIdentity p r1 fresh w) as [w1 [id|]] eqn:Ei; [|done].
  unfold as_string. destruct (get "nonce" message) as [[| | |nonce| |]|] eqn:En; try done. cbn [of_option].
  destruct (signBytes _ _) as [sg|] eqn:Es; [|done]. unfold signBytes in Es. inv_ok. rewrite decodeBase64Url_spec.
  intros Hs. by exists w1, id, nonce, r.
Qed.

(** C25: the evaluation lets a node join: once the handler of a join-ready message has
    returned, a process started later with the same keystore - whatever key pair it would
    make - loads the identity the handler used, which is the one it registers, and after
    it a valid join authorization, until that expires: the one of the message, with a
    signature of its nonce that verifies under the public key of this identity (when the
    two keys it holds are a pair).  Neither changes a file. *)
Theorem eval_then_join `{Aead, !AeadLaws} `{PemKeys, !SigningLaws} (p : Process) (r1 r2 r3 r4 : Random) (fresh other : NodeIdentity)
    (saved_at : string) (message : json) (now : Z) (w w' : World) :
  let priv := p_privateKeyPem (paths p) in let pub := p_publicKeyPem (paths p) in let auth_file := joinAuth (paths p) in
  coherent p w -> priv <> keyFilePath p -> tmp_name r1 priv <> keyFilePath p -> pub <> keyFilePath p -> priv <> pub ->
  auth_file ∉ [keyFilePath p; priv; pub] -> tmp_name r2 auth_file ∉ [keyFilePath p; priv; pub] ->
  wf_json message = true -> get "alg" message = Some (JStr "ed25519") ->
  member_le (get "expires_at" message) (now / 1000) = false -> privateKeyPem fresh <> "" ->
  handleJoinReady p r1 r2 fresh saved_at message w = (w', Ok tt) ->
  exists id auth k, let later := {| w_disk := w_disk w'; cachedKey := Some k |} in
    loadOrCreateIdentity p r3 other (set_cache None w') = (later, Ok id) /\
    requireJoinAuthorization p r4 now later = (later, Ok auth) /\
    get "join_id" auth = get "join_id" message /\
    exists nonce sg sk, get "nonce" message = Some (JStr nonce) /\ get "signature" auth = Some (JStr sg) /\
      pem_secret (privateKeyPem id) = Some sk /\
      (pem_public (publicKeyPem id) = Some (public_of sk) -> verify (public_of sk) (fromBase64 nonce) (fromBase64 sg) = true).
Proof.
  cbn zeta. intros Hw A1 A2 A3 A4 A5 A6 Hm Halg Hexp Hne Hj. apply handle_join_inv in Hj as (w1 & id & nonce & sk & Ei & En & Esk & Es).
  set (auth := join_authorization _ _ _ _) in *. pose proof (join_authorization_wf message nonce (toBase64 (sign sk (fromBase64 nonce))) saved_at Hm) as Hwf.
  pose proof (join_authorization_fields message nonce (toBase64 (sign sk (fromBase64 nonce))) saved_at) as Hf. cbn zeta in Hf.
  fold auth in Hwf, Hf. destruct Hf as (F1 & F2 & F3 & F4 & F5). rewrite !not_elem_of_cons in A5, A6.
  destruct A5 as (B1 & B2 & B3 & _), A6 as (C1 & C2 & C3 & _).
  pose proof (identity_keeps p r1 fresh w Hw A1 A2 A3) as Hi. rewrite Ei in Hi. destruct Hi as [Hc1 _].
  destruct (identity_settled p r1 fresh w w1 id Hw A1 A2 A3 A4 Hne Ei) as (k & Hset).
  pose proof (write_spec p r2 SLOT_JOIN_AUTH (joinAuth (paths p)) (stringify2 auth) w1 Hc1 B1 C1) as Hs.
  pose proof (write_key_file p r2 SLOT_JOIN_AUTH (joinAuth (paths p)) (stringify2 auth) w1 Hc1 B1 C1) as Hkey.
  unfold saveJoinAuthorization in Es. rewrite Es in Hs, Hkey. destruct Hs as (_ & Hd & Hk & _). destruct (Hk eq_refl) as (k' & Hk1 & Hk2).
  cbn [fst] in Hkey. assert (Hkeq : key_at p (w_disk w') k) by (apply (key_at_same p (w_disk w1)); [symmetry; apply Hkey; right; exists k; apply Hset|apply Hset]).
  rewrite <- (key_at_unique p _ _ _ Hkeq Hk1) in Hk2.
  exists id, auth, k. cbn zeta. split_and!.
  - apply settled_loads. apply (settled_same p (w_disk w1)); [done| | |done]; apply Hd; try done; by apply not_eq_sym.
  - unfold requireJoinAuthorization, loadJoinAuthorization, mbind, eff_bind, lift, mret, eff_ret.
    rewrite (holds_read p (w_disk w') k SLOT_JOIN_AUTH _ (stringify2 auth)) by (auto; by eapply sealed_holds).
    rewrite JSON_parse_indented by done. rewrite F5, F2, F3, Halg, Hexp, bool_decide_true by done. done.
  - done.
  - exists nonce, (toBase64 (sign sk (fromBase64 nonce))), sk. split_and!; try done.
    intros _. by rewrite fromBase64_toBase64, verify_sign.
Qed.

(** The trust anchor survives registration: the configuration that registration
    writes keeps the pinned orchestrator key when the answer has none or [null], and
    takes the key of the answer otherwise; members that registration does not set are
    kept, and when the written file is read back it is this configuration. *)
Theorem registration_keeps_trust (p : Process) (existing body : json) (machineId now : string) (d d' : Disk) :
  let cfg := registered_config existing body machineId now in
  wf_json cfg = true -> saveConfig p cfg d = (d', Ok tt) ->
  loadConfig p d' = cfg /\
  (forall k, get "orchestrator_pubkey" existing = Some k -> nullish (get "orchestrator_pubkey" body) = None ->
     get "orchestrator_pubkey" (loadConfig p d') = Some k) /\
  (forall k, get "orchestrator_pubkey" body = Some k -> k <> JNull -> get "orchestrator_pubkey" (loadConfig p d') = Some k) /\
  get "node_id" (loadConfig p d') = get "node_id" body /\
  get "commissioned_at" (loadConfig p d') = assoc "commissioned_at" (own_members existing).
Proof.
  cbn zeta. intros Hw Hs. destruct (config_saved p _ d d' Hw Hs) as [-> _].
  destruct (registered_members existing body machineId now) as (E1 & _ & E3 & E4). rewrite E1, E3. split; [done|]. split_and!.
  - intros k Hk Hn. unfold kept_pubkey. rewrite Hn, Hk. by destruct k.
  - intros k Hk Hn. unfold kept_pubkey. rewrite Hk. cbn. by destruct k.
  - done.
  - apply E4. apply (bool_decide_unpack _). vm_compute. exact I.
Qed.

(** ** A concrete registration *)

Module Demo.
Definition process : Process := Node.process.
Definition random (n : Z) : Random :=
  {| rnd_key := be_encode 32 n; rnd_nonce := be_encode 12 n; rnd_suffix := be_encode 6 n |}.
Definition identity : NodeIdentity := {| privateKeyPem := "7"; publicKeyPem := "7" |}.
Definition empty : World := {| w_disk := ∅; cachedKey := None |}.
Definition ready : json :=
  JObj [("type", JStr "join_ready"); ("timestamp", JNum (num_of_Z 1)); ("join_id", JStr "j1"); ("alg", JStr "ed25519");
        ("nonce", JStr "AAECAw=="); ("expires_at", JNum (num_of_Z 2000))].
Definition evaluated : World :=
  (@handleJoinReady Toy.aead Toy.signing ToyPem.pem_keys process (random 5) (random 6) identity "t1" ready empty).1.
Definition old_config : json := JObj [("port", JNum (num_of_Z 9090)); ("orchestrator_pubkey", JStr "KEY"); ("commissioned_at", JStr "t0")].
Definition start : RegState :=
  {| rs_world := {| w_disk := <[config (paths process) := Regular (utf8 (stringify2 old_config))]> (w_disk evaluated); cachedKey := None |};
     rs_registry := {| m_file := NoFile; m_saves := [] |}; rs_posted := [] |}.
Definition draws : JoinDraws :=
  {| jd_1 := random 7; jd_2 := random 8; jd_fresh := identity; jd_now := 1000000; jd_iso := "t2"; jd_uuid := "m-1" |}.
Definition options : RegisterNodeOptions :=
  {| ro_serverUrl := "https://orchestrator//"; ro_ipv4 := "203.0.113.5"; ro_ipv6 := None; ro_port := num_of_Z 9090; ro_contact := "op@example.org";
     ro_emailVerificationToken := "e"; ro_evmAddress := "0x1"; ro_solanaAddress := "s"; ro_icpAddress := "i"; ro_machineId := None |}.
Definition answer : json := JObj [("success", JBool true); ("node_id", JStr "n1"); ("domain", JStr "n1.example.org"); ("port", JNum (num_of_Z 9090))].
Definition fetch (url : string) (payload : json) : result Response :=
  if bool_decide (url = "https://orchestrator/node/join") then Ok {| resp_status := 200; resp_body := utf8 (stringify answer) |}
  else Throw (PlainError "unknown host").
Definition joined : RegState * result json := @registerNode Toy.aead process fetch draws options start.
Definition new_config : json := registered_config old_config answer "m-1" "t2".

Lemma files_apart : apart process draws.
Proof. split; apply (bool_decide_unpack _); vm_compute; exact I. Qed.

Lemma coherent_start : coherent process (rs_world start).
Proof. unfold start. cbn [rs_world]. apply Node.coherent_new. Qed.
End Demo.

(** The claim cannot be saved: the error is thrown, but the node id is already in the
    configuration, and the machine is not claimed. *)
Example claim_not_saved :
  let s := {| rs_world := rs_world Demo.start; rs_registry := {| m_file := NoFile; m_saves := [None; Some "ENOSPC"] |}; rs_posted := [] |} in
  let (s', res) := @registerNode Toy.aead Demo.process Demo.fetch Demo.draws Demo.options s in
  res = Throw (io_error "ENOSPC") /\ get "node_id" (loadConfig Demo.process (w_disk (rs_world s'))) = Some (JStr "n1") /\
  match m_file (rs_registry s') with Text (Ok v) => get "node_id" v = None | _ => False end.
Proof. vm_compute. done. Qed.


Lemma eval_then_join_witness : exists auth k, let later := {| w_disk := w_disk Demo.evaluated; cachedKey := Some k |} in
  @loadOrCreateIdentity Toy.aead Demo.process (Demo.random 8) Node.other (set_cache None Demo.evaluated) = (later, Ok Demo.identity) /\
  @requireJoinAuthorization Toy.aead Demo.process (Demo.random 9) 1000000 later = (later, Ok auth) /\
  get "join_id" auth = Some (JStr "j1") /\ exists nonce sg,
    get "nonce" Demo.ready = Some (JStr nonce) /\ get "signature" auth = Some (JStr sg) /\
    @verify Toy.signing 7 (fromBase64 nonce) (fromBase64 sg) = true.
Proof.
  destruct (@eval_then_join Toy.aead Toy.aead_laws Toy.signing ToyPem.pem_keys Toy.signing_laws Demo.process (Demo.random 5) (Demo.random 6)
    (Demo.random 8) (Demo.random 9) Demo.identity Node.other "t1" Demo.ready 1000000 Demo.empty Demo.evaluated) as (id & auth & k & H1 & H2 & H3 & H4).
  - apply Node.coherent_new.
  - vm_compute. discriminate.
  - vm_compute. discriminate.
  - vm_compute. discriminate.
  - vm_compute. discriminate.
  - apply (bool_decide_unpack _). vm_compute. exact I.
  - apply (bool_decide_unpack _). vm_compute. exact I.
  - vm_compute. reflexivity.
  - reflexivity.
  - vm_compute. reflexivity.
  - discriminate.
  - vm_compute. reflexivity.
  - assert (Hid : id = Demo.identity).
    { assert (E : (@loadOrCreateIdentity Toy.aead Demo.process (Demo.random 8) Node.other (set_cache None Demo.evaluated)).2 = Ok Demo.identity) by (vm_compute; reflexivity).
      rewrite H1 in E. cbn in E. congruence. }
    rewrite Hid in H1, H4. exists auth, k. split; [exact H1|]. split; [exact H2|]. split; [exact H3|].
    destruct H4 as (nonce & sg & sk & E1 & E2 & E3 & E4). exists nonce, sg. split; [exact E1|]. split; [exact E2|].
    vm_compute in E3. injection E3 as <-. exact (E4 eq_refl).
Defined.

Lemma registration_keeps_trust_witness :
  get "orchestrator_pubkey" (loadConfig Demo.process (w_disk (rs_world Demo.joined.1))) = Some (JStr "KEY").
Proof.
  destruct (registration_keeps_trust Demo.process Demo.old_config Demo.answer "m-1" "t2" ∅
    (<[config (paths Demo.process) := Regular (utf8 (stringify2 Demo.new_config))]> ∅)) as (_ & H2 & _);
    [vm_compute; reflexivity|reflexivity|].
  etransitivity; [|apply (H2 (JStr "KEY")); reflexivity]. vm_compute. reflexivity.
Defined.
