(* ===== verification/Reports.v ===== *)
(** * What a node says of itself (node/integrity.ts, node/headless.ts, verify.ts,
    runtime/server.ts) *)

From S2P Require Import Prelude Effect Text Json JsonText Coerce Base64 Crypto CanonicalJson Files SecretStore Url Dedupe Update Ticket RequestTicket Eval Join.
Local Open Scope Z_scope.

(** ** Integrity (node/integrity.ts) *)

Section Integrity.
Context `{Aead} `{PemKeys} `{Hashing} (p : Process) (b : Build).

Definition unsigned_integrity (publicKeyPem : string) (now : Z) (nonce : buffer) : json :=
  let manifest := releaseManifest p b in
  obj [("product", Some (JStr "consensus-node")); ("version", get "version" manifest); ("runtime", Some (JStr "bun"));
       ("platform", get "platform" manifest); ("node_public_key_pem", Some (JStr publicKeyPem)); ("manifest", Some manifest);
       ("timestamp", Some (JNum (num_of_Z (now / 1000)))); ("nonce", Some (JStr (hex_text nonce)))].

Definition integrityPayload (r : Random) (fresh : NodeIdentity) (now : Z) (nonce : buffer) : eff World json :=
  identity ← loadOrCreateIdentity p r fresh;
  let unsigned := unsigned_integrity (publicKeyPem identity) now nonce in
  signature ← lift (signUtf8 (privateKeyPem identity) (canonicalJson unsigned));
  mret (with_signature unsigned signature).

(** [verify.ts]: the report is posted for the registered node. *)
Definition verify_main (fetch : string -> json -> result Response) (r : Random) (fresh : NodeIdentity) (now : Z) (nonce : buffer) : eff World json :=
  let serverUrl := trim (default "" (env p "CONSENSUS_SERVER_URL")) in
  lift (throw_if (bool_decide (serverUrl = "")) (PlainError "Missing CONSENSUS_SERVER_URL"));;
  d ← gets w_disk;
  let config := loadConfig p d in
  lift (members config);;
  lift (throw_if (negb (truthy (get "node_id" config))) (PlainError "Missing node_id. Register the node first."));;
  payload ← integrityPayload r fresh now nonce;
  response ← lift (fetch (trimTrailingSlash serverUrl +:+ "/node/verify-integrity/" +:+ template (get "node_id" config)) payload);
  let body := response_body response in
  lift (throw_if (negb (resp_ok response)) (PlainError ("Integrity verification failed: " +:+ stringify body)));;
  mret body.
End Integrity.

(** ** Boot units (node/headless.ts) *)

Record HeadlessBootStatus := { configured : bool; mechanism : string; boot_unit : option string; detail : string }.

Definition LAUNCHD_UNIT : string := "/Library/LaunchDaemons/com.consensus.node.plist".
Definition SYSTEMD_UNITS : list string :=
  ["/etc/systemd/system/consensus-node.service"; "/lib/systemd/system/consensus-node.service";
   "/usr/lib/systemd/system/consensus-node.service"].

(** [exists] does not throw here: a failing test counts as absent. *)
Definition headlessBootStatus (platform : string) (exists_ : string -> bool) : HeadlessBootStatus :=
  if bool_decide (platform = "darwin") then
    if exists_ LAUNCHD_UNIT then
      {| configured := true; mechanism := "launchd"; boot_unit := Some LAUNCHD_UNIT;
         detail := "LaunchDaemon installed; starts at boot without a login." |}
    else
      {| configured := false; mechanism := "launchd"; boot_unit := None;
         detail := "No LaunchDaemon. This node will NOT come back after a reboot until someone logs in. " +:+
           "Run: sudo scripts/install-launchd.sh (pm2 startup does NOT work here — it writes a login-gated LaunchAgent)." |}
  else if bool_decide (platform = "linux") then
    match List.find exists_ SYSTEMD_UNITS with
    | Some u => {| configured := true; mechanism := "systemd"; boot_unit := Some u; detail := "systemd unit installed." |}
    | None =>
        {| configured := false; mechanism := "systemd"; boot_unit := None;
           detail := "No systemd unit. This node will NOT restart after a reboot. " +:+
             "Install systemd/consensus-node.service and enable it." |}
    end
  else
    {| configured := false; mechanism := "unknown"; boot_unit := None;
       detail := "Unsupported platform for headless boot: " +:+ platform |}.

(** ** The local server (runtime/server.ts) *)

Definition status_json (st : HeadlessBootStatus) : json :=
  JObj [("configured", JBool (configured st)); ("mechanism", JStr (mechanism st));
        ("unit", match boot_unit st with Some u => JStr u | None => JNull end); ("detail", JStr (detail st))].

Definition value_or_null (v : option json) : json := match v with Some v => v | None => JNull end.

(** [GET /health]. *)
Definition health (p : Process) (exists_ : string -> bool) (uptime : num) (timestamp : string) (d : Disk) : result json :=
  let config := loadConfig p d in
  members config;;
  Ok (JObj [("status", JStr "healthy"); ("headless_boot", status_json (headlessBootStatus (os_platform p) exists_));
            ("registered", JBool (truthy (get "node_id" config))); ("node_id", value_or_null (get "node_id" config));
            ("domain", value_or_null (get "domain" config)); ("uptime", JNum uptime); ("timestamp", JStr timestamp)]).

(** What the data plane of this server is given: a registered node with a pinned key. *)
Definition resolveDataPlane `{Aead} `{JwkImport} (p : Process) (r : Random) (fresh : NodeIdentity)
  : eff World (json * NodeIdentity * PublicKey) :=
  d ← gets w_disk;
  let config := loadConfig p d in
  lift (members config);;
  lift (throw_if (negb (truthy (get "node_id" config))) (PlainError "node is not registered"));;
  pinned ← lift (loadPinnedOrchestratorKey (get "orchestrator_pubkey" config));
  match pinned with
  | None => throw (PlainError "no pinned orchestrator key")
  | Some (key, _) =>
      identity ← loadOrCreateIdentity p r fresh;
      mret (value_or_null (get "node_id" config), identity, key)
  end.

(** ** Properties *)

(** The data plane is served only by a registered node, with the key its configuration
    pins, and an unregistered node does not even make an identity for it. *)
Theorem data_plane_needs_registration `{Aead} `{JwkImport} (p : Process) (r : Random) (fresh : NodeIdentity) (w : World) :
  let config := loadConfig p (w_disk w) in
  let (w', res) := resolveDataPlane p r fresh w in
  (truthy (get "node_id" config) = false \/ truthy (get "orchestrator_pubkey" config) = false -> w' = w /\ exists e, res = Throw e) /\
  forall id identity key, res = Ok (id, identity, key) -> get "node_id" config = Some id /\ truthy (Some id) = true /\
    exists jwk, get "orchestrator_pubkey" config = Some jwk /\ importOrchestratorJwk jwk = Ok key.
Proof.
  cbn zeta. unfold resolveDataPlane, gets, lift, throw, mbind, eff_bind, mret, eff_ret. set (config := loadConfig p (w_disk w)). clearbody config.
  destruct (members config) as [[]|e]; [|by split; [eauto|]].
  destruct (truthy (get "node_id" config)) eqn:En; cbn [negb throw_if]; [|by split; [eauto|]].
  unfold loadPinnedOrchestratorKey. destruct (truthy (get "orchestrator_pubkey" config)) eqn:Ek; cbn [negb]; [|by split; [eauto|]].
  destruct (get "orchestrator_pubkey" config) as [jwk|]; [|done]. cbn [of_option mbind result_bind].
  destruct (importOrchestratorJwk jwk) as [key|e] eqn:Ei; cbn [mbind result_bind]; [|by split; [eauto|]].
  destruct (loadOrCreateIdentity p r fresh w) as [w1 [identity|e]]; (split; [by intros [?|?]|]); [|done].
  intros id i k [= <- <- <-]. destruct (get "node_id" config) as [v|]; [|done]. split; [done|]. split; [done|]. by exists jwk.
Qed.

(** A signed object has the payload it was signed for. *)
Lemma integrity_payload_signed `{Hashing} p b pub now nonce sg :
  signingPayload (with_signature (unsigned_integrity p b pub now nonce) sg) = canonicalJson (unsigned_integrity p b pub now nonce).
Proof.
  unfold unsigned_integrity. generalize (releaseManifest p b) as m. intros m.
  unfold signingPayload, with_signature, obj. by destruct (get "version" m), (get "platform" m).
Qed.

(** The report of a node is verifiable: its signature verifies, over the payload that
    signed tunnel messages use too, under the public key inside it, which is that of
    the identity the node loaded. *)
Theorem integrity_verifies `{Aead} `{PemKeys, !SigningLaws} `{Hashing} (p : Process) (b : Build) (r : Random) (fresh : NodeIdentity)
    (now : Z) (nonce : buffer) (w w' : World) (report : json) (sk : SecretKey) :
  integrityPayload p b r fresh now nonce w = (w', Ok report) ->
  exists id, loadOrCreateIdentity p r fresh w = (w', Ok id) /\ get "node_public_key_pem" report = Some (JStr (publicKeyPem id)) /\
    get "manifest" report = Some (releaseManifest p b) /\
    (key_pair (privateKeyPem id) (publicKeyPem id) sk -> exists sg, get "signature" report = Some (JStr sg) /\
       verifyUtf8 (publicKeyPem id) (signingPayload report) sg = Ok true).
Proof.
  unfold integrityPayload, mbind, eff_bind, lift, mret, eff_ret. cbv zeta.
  destruct (loadOrCreateIdentity p r fresh w) as [w1 [id|]]; [|done].
  destruct (signUtf8 _ _) as [sg|] eqn:Es; [|done]. intros [<- Er]%pair_equal_spec. apply Ok_inj in Er as <-.
  exists id. split; [done|].
  rewrite integrity_payload_signed.
  assert (Hg : forall k v, k <> "signature" -> get k (unsigned_integrity p b (publicKeyPem id) now nonce) = Some v ->
    get k (with_signature (unsigned_integrity p b (publicKeyPem id) now nonce) sg) = Some v).
  { intros k v Hk. unfold with_signature. destruct (unsigned_integrity _ _ _ _ _); try done. cbn [get]. by rewrite assoc_set_key, decide_False. }
  split; [|split].
  - apply Hg; [done|]. unfold unsigned_integrity, obj. by destruct (get "version" _), (get "platform" _).
  - apply Hg; [done|]. unfold unsigned_integrity, obj. by destruct (get "version" _), (get "platform" _).
  - intros Hk. exists sg. split; [|by eapply sign_verifies]. unfold with_signature, unsigned_integrity, obj. cbn [get].
    by rewrite assoc_set_key, decide_True.
Qed.

(** A node counts as configured exactly when the boot unit of its platform is there. *)
Theorem headless_configured (platform : string) (exists_ : string -> bool) :
  let st := headlessBootStatus platform exists_ in
  (configured st = true <->
     (platform = "darwin" /\ exists_ LAUNCHD_UNIT = true) \/ (platform = "linux" /\ exists u, u ∈ SYSTEMD_UNITS /\ exists_ u = true)) /\
  (forall u, boot_unit st = Some u -> exists_ u = true /\ configured st = true).
Proof.
  cbn zeta. unfold headlessBootStatus. case_bool_decide as Hd; [|case_bool_decide as Hl].
  - subst platform. destruct (exists_ LAUNCHD_UNIT) eqn:E; cbn; naive_solver.
  - subst platform. destruct (List.find exists_ SYSTEMD_UNITS) as [u|] eqn:E; cbn.
    + apply List.find_some in E as [Hin He]. apply list_elem_of_In in Hin. naive_solver.
    + assert (Hn : forall u, u ∈ SYSTEMD_UNITS -> exists_ u = true -> False).
      { intros u Hu He. apply list_elem_of_In in Hu. pose proof (List.find_none _ _ E _ Hu). congruence. }
      split; [|done]. split; [done|]. intros [[? ?]|(_ & u & Hu & He)]; [done|]. exfalso. by apply (Hn u).
  - cbn. naive_solver.
Qed.
