(* ===== verification/WalletCapture.v ===== *)
(** * The local page that captures payout addresses (registration/wallet-capture.ts)

    A server on the loopback interface with a random token in its links.  The page's
    script is [WalletPage]; its markup and the bytes of its assets are not modelled,
    which asset is served is.  [done] is the promise the operator's process waits for. *)

From S2P Require Import Prelude Text Json JsonText Coerce Url Dedupe Eval.
Local Open Scope Z_scope.

(** ** Addresses *)

Record WalletAddresses := { evmAddress : option string; solanaAddress : option string; icpAddress : option string }.

Definition is_hex (c : ascii) : bool := is_digit c || between "a" "f" c || between "A" "F" c.

(** [/^0x[a-fA-F0-9]{40}$/]. *)
Definition isValidEvmAddress (value : string) : bool :=
  match value with
  | String "0" (String "x" r) => (String.length r =? 40)%nat && str_forall is_hex r
  | _ => false
  end.

(** [[1-9A-HJ-NP-Za-km-z]]. *)
Definition is_base58 (c : ascii) : bool :=
  between "1" "9" c || between "A" "H" c || between "J" "N" c || between "P" "Z" c || between "a" "k" c || between "m" "z" c.

Definition isValidSolanaAddress (value : string) : bool :=
  (32 <=? String.length value)%nat && (String.length value <=? 44)%nat && str_forall is_base58 value.

(** One to five of [[a-z0-9]]. *)
Definition icp_group (g : string) : bool :=
  (1 <=? String.length g)%nat && (String.length g <=? 5)%nat && str_forall (fun c => between "a" "z" c || is_digit c) g.

(** [/^[a-z0-9]{1,5}(?:-[a-z0-9]{1,5})+$/]: at least two groups. *)
Definition isValidIcpAddress (value : string) : bool :=
  let groups := split "-" value in (2 <=? length groups)%nat && forallb icp_group groups.

Definition normalizedText (value : option json) : option string :=
  match as_string value with
  | Some s => let trimmed := trim s in if bool_decide (trimmed = "") then None else Some trimmed
  | None => None
  end.

(** A value without members has none of the three. *)
Definition normalizeWalletAddresses (input : json) : WalletAddresses :=
  {| evmAddress := normalizedText (get "evmAddress" input); solanaAddress := normalizedText (get "solanaAddress" input);
     icpAddress := normalizedText (get "icpAddress" input) |}.

Definition or_base (patch base : option string) : option string := match patch with Some _ => patch | None => base end.

Definition mergeWalletAddresses (base patch : WalletAddresses) : WalletAddresses :=
  {| evmAddress := or_base (evmAddress patch) (evmAddress base); solanaAddress := or_base (solanaAddress patch) (solanaAddress base);
     icpAddress := or_base (icpAddress patch) (icpAddress base) |}.

(** [value && !isValid(value)]. *)
Definition bad (valid : string -> bool) (value : option string) : bool :=
  match value with Some s => negb (bool_decide (s = "")) && negb (valid s) | None => false end.

Definition validateWalletAddresses (a : WalletAddresses) : list (string * json) :=
  (if bad isValidEvmAddress (evmAddress a)
   then [("evmAddress", JStr "EVM address must be 0x followed by 40 hex characters")] else []) ++
  (if bad isValidSolanaAddress (solanaAddress a)
   then [("solanaAddress", JStr "Solana address must be a base58 public key")] else []) ++
  (if bad isValidIcpAddress (icpAddress a)
   then [("icpAddress", JStr "ICP address must be a textual principal")] else []).

(** ** Requests *)

Definition MAX_BODY : Z := 64 * 1024.

(** The loop of [readJsonBody] over the chunks that arrive. *)
Fixpoint read_chunks (total : Z) (acc : buffer) (chunks : list buffer) : result buffer :=
  match chunks with
  | [] => Ok acc
  | c :: chunks =>
      let total := total + Z.of_nat (length c) in
      throw_if (MAX_BODY <? total) (PlainError "Request body too large");;
      read_chunks total (acc ++ c) chunks
  end.

Definition readJsonBody (chunks : list buffer) : result json :=
  b ← read_chunks 0 [] chunks;
  match chunks with [] => Ok JNull | _ => Ok (ok_or JNull (JSON_parse (utf8_text b))) end.

Inductive reply :=
| NoContent
| Page (startPage : string)
| Asset (pathname : string)
| Json (status : Z) (body : json).

Definition ASSETS : list string :=
  ["/assets/consensus-logo-light.svg"; "/assets/consensus-logo-dark.svg"; "/assets/phantom.svg"; "/assets/plug.jpeg"].

(** [pathname.replace(/^\/+/, "")]. *)
Fixpoint strip_slashes (s : string) : string := match s with String "/" r => strip_slashes r | _ => s end.

Definition pageFromPath (pathname : string) : string :=
  let value := strip_slashes pathname in
  if bool_decide (value ∈ ["metamask"; "phantom"; "plug"; "review"]) then value else "overview".

Definition error_json (message : string) : json := JObj [("error", JStr message)].

(** What [done] came to. *)
Inductive settlement := Submitted (a : WalletAddresses) | Stopped (e : exn).

(** [settled] with what it was settled to. *)
Notation Session := (option settlement).

Definition resolveDone (a : WalletAddresses) (s : Session) : Session :=
  match s with None => Some (Submitted a) | Some _ => s end.

(** No address among the three. *)
Definition no_address (a : WalletAddresses) : bool :=
  negb (truthy (JStr <$> evmAddress a)) && negb (truthy (JStr <$> solanaAddress a)) && negb (truthy (JStr <$> icpAddress a)).

Section Server.
Context `{UrlApi} (token : string).

Definition handleWalletRequest (method : string) (url : URL) (body : json) (s : Session) : reply * Session :=
  if bool_decide (pathname url = "/favicon.ico") then (NoContent, s)
  else if negb (bool_decide (assoc "token" (parse_query (search url)) = Some token)) then
    (Json 403 (error_json "Invalid wallet capture token"), s)
  else if bool_decide (method = "GET") && bool_decide (pathname url ∈ ASSETS) then (Asset (pathname url), s)
  else if bool_decide (method = "GET") then (Page (pageFromPath (pathname url)), s)
  else if bool_decide (method = "POST") && bool_decide (pathname url = "/capture") then
    let addresses := normalizeWalletAddresses body in
    let errors := validateWalletAddresses addresses in
    if negb (bool_decide (errors = [])) then
      (Json 422 (JObj [("error", JStr "Invalid wallet address"); ("errors", JObj errors)]), s)
    else if no_address addresses then (Json 400 (error_json "Connect at least one wallet before submitting"), s)
    else (Json 200 (JObj [("success", JBool true)]), resolveDone addresses s)
  else (Json 404 (error_json "Not found"), s).

(** A request as it arrives. *)
Record Incoming := { in_method : option string; in_host : option string; in_url : option string; in_chunks : list buffer }.

(** [handleNodeRequest], with the [catch] of the server around it. *)
Definition handleNodeRequest (q : Incoming) (s : Session) : reply * Session :=
  let method := default "GET" (in_method q) in
  match (url ← of_option (new_URL_at (default "/" (in_url q)) ("http://" +:+ default "127.0.0.1" (in_host q))) InvalidUrl;
         body ← (if bool_decide (method = "POST") then readJsonBody (in_chunks q) else Ok JNull);
         Ok (url, body)) with
  | Ok (url, body) => handleWalletRequest method url body s
  | Throw e => (Json 500 (error_json (errorMessage e)), s)
  end.

Inductive event := Request (q : Incoming) | Stop.

Definition step (e : event) (s : Session) : Session :=
  match e with
  | Request q => (handleNodeRequest q s).2
  | Stop => match s with None => Some (Stopped (PlainError "Wallet address capture stopped before submission")) | Some _ => s end
  end.

Definition run (l : list event) : Session := fold_left (fun s e => step e s) l None.
End Server.

(** ** Listening *)

Inductive bind := Bound (port : Z) | BindFailed (in_use : bool) (e : exn).

(** One attempt per entry of [tries], which are what binding comes to on the ports
    that are drawn; [None] while an attempt is missing. *)
Fixpoint attempts (n : nat) (requested : bool) (last : option exn) (tries : list bind) : option (result Z) :=
  match n with
  | O => Some (Throw (default (PlainError "Unable to start wallet address server") last))
  | S n =>
      match tries with
      | [] => None
      | Bound port :: _ => Some (Ok port)
      | BindFailed in_use e :: tries => if requested || negb in_use then Some (Throw e) else attempts n requested (Some e) tries
      end
  end.

(** A port of [0] counts as not requested. *)
Definition listen (requestedPort : option Z) (tries : list bind) : option (result Z) :=
  let requested := truthy (JNum ∘ num_of_Z <$> requestedPort) in
  attempts (if requested then 1 else 20) requested None tries.

(** [JSON.stringify(value).replace(/</g, "\\u003c")]. *)
Fixpoint escape_lt (s : string) : string :=
  match s with
  | EmptyString => ""
  | String c r => (if bool_decide (c = "<"%char) then String chr_backslash "u003c" else String c "") +:+ escape_lt r
  end.
Definition safeScriptJson (value : json) : string := escape_lt (stringify value).

(** ** Lemmas *)

Lemma normalizedText_some v s : normalizedText v = Some s -> s <> "".
Proof. unfold normalizedText. destruct (as_string v) as [x|]; [|done]. case_bool_decide; [done|]. by intros [= <-]. Qed.

Lemma bad_false valid v s : bad valid v = false -> v = Some s -> s <> "" -> valid s = true.
Proof. intros Hb -> Hs. unfold bad in Hb. rewrite bool_decide_false in Hb by done. by destruct (valid s). Qed.

(** Addresses that may be kept: each one present is valid, and there is one. *)
Definition valid_capture (a : WalletAddresses) : Prop :=
  (forall s, evmAddress a = Some s -> isValidEvmAddress s = true) /\
  (forall s, solanaAddress a = Some s -> isValidSolanaAddress s = true) /\
  (forall s, icpAddress a = Some s -> isValidIcpAddress s = true) /\
  (is_Some (evmAddress a) \/ is_Some (solanaAddress a) \/ is_Some (icpAddress a)).

Lemma validated body : let a := normalizeWalletAddresses body in
  validateWalletAddresses a = [] -> no_address a = false -> valid_capture a.
Proof.
  cbn zeta. set (a := normalizeWalletAddresses body). unfold validateWalletAddresses. intros Hv Hn.
  destruct (bad isValidEvmAddress (evmAddress a)) eqn:E1; [done|]. destruct (bad isValidSolanaAddress (solanaAddress a)) eqn:E2; [done|].
  destruct (bad isValidIcpAddress (icpAddress a)) eqn:E3; [done|]. split_and!.
  - intros s Hs. eapply bad_false; [exact E1|done|]. exact (normalizedText_some (get "evmAddress" body) s Hs).
  - intros s Hs. eapply bad_false; [exact E2|done|]. exact (normalizedText_some (get "solanaAddress" body) s Hs).
  - intros s Hs. eapply bad_false; [exact E3|done|]. exact (normalizedText_some (get "icpAddress" body) s Hs).
  - unfold no_address in Hn. destruct (evmAddress a); [by eauto|]. destruct (solanaAddress a); [by eauto|].
    destruct (icpAddress a); [by eauto|done].
Qed.

Lemma chunks_too_large total acc chunks : MAX_BODY < total + Z.of_nat (length (concat chunks)) ->
  total <= MAX_BODY -> exists e, read_chunks total acc chunks = Throw e.
Proof.
  revert total acc. induction chunks as [|c chunks IH]; intros total acc Hl Ht; cbn [concat read_chunks] in *; [cbn in Hl; lia|].
  rewrite length_app in Hl. destruct (MAX_BODY <? total + Z.of_nat (length c)) eqn:E; [by eexists|]. bool_solve. cbn. apply IH; lia.
Qed.

Section Lemmas.
Context `{UrlApi} (token : string).

(** A submission that counts. *)
Definition submission (q : Incoming) (a : WalletAddresses) : Prop := exists url body,
  in_method q = Some "POST" /\
  new_URL_at (default "/" (in_url q)) ("http://" +:+ default "127.0.0.1" (in_host q)) = Some url /\
  pathname url = "/capture" /\ assoc "token" (parse_query (search url)) = Some token /\
  readJsonBody (in_chunks q) = Ok body /\ a = normalizeWalletAddresses body /\ valid_capture a.

Lemma node_request_cases q s : (handleNodeRequest token q s).2 = s \/
  exists a, submission q a /\ (handleNodeRequest token q s).2 = resolveDone a s.
Proof.
  unfold handleNodeRequest. destruct (mbind _ _) as [[url body]|e] eqn:E; [|by left]. inv_ok. simplify_eq.
  unfold handleWalletRequest. destruct (bool_decide (pathname url = "/favicon.ico")); [by left|].
  destruct (bool_decide (assoc "token" _ = _)) eqn:Ht; cbn [negb]; [|by left].
  destruct (_ && _); [by left|]. destruct (bool_decide (_ = "GET")) eqn:Hg; [by left|].
  destruct (_ && _) eqn:Ep; [|by left]. bool_solve. rewrite bool_decide_true in Hm0 by done.
  destruct (bool_decide (validateWalletAddresses _ = [])) eqn:Hv; cbn [negb]; [|by left].
  destruct (no_address _) eqn:Hn; [by left|]. right. bool_solve.
  exists (normalizeWalletAddresses body). split; [|done]. exists url, body.
  assert (Hmeth : in_method q = Some "POST") by (destruct (in_method q) as [m|]; cbn in *; congruence).
  split_and!; try done. by apply validated.
Qed.

Lemma capture_run_app l1 l2 : run token (l1 ++ l2) = fold_left (fun s e => step token e s) l2 (run token l1).
Proof. apply fold_left_app. Qed.

Lemma settled_step e x : step token e (Some x) = Some x.
Proof. destruct e as [q|]; [|done]. cbn. by destruct (node_request_cases q (Some x)) as [->|(a & _ & ->)]. Qed.

Lemma settled_run l x : fold_left (fun s e => step token e s) l (Some x) = Some x.
Proof. induction l as [|e l IH]; [done|]. cbn [fold_left]. by rewrite settled_step. Qed.
End Lemmas.

(** ** Properties *)

(** C29: only valid addresses are captured, once, and by who has the link: whatever is
    requested, the promise the setup waits for is resolved only by a POST to the
    capture path that carries the token and a body with at least one address, every
    address in it one that the exported validators take; once it is settled nothing
    changes it; a request without the token is refused - only /favicon.ico is answered
    without one, with 204 and no effect - and a body over 64 KiB is not read. *)
Theorem wallet_capture_sound `{UrlApi} (token : string) (l : list event) :
  (forall a, run token l = Some (Submitted a) -> valid_capture a /\
     exists l1 q l2, l = l1 ++ Request q :: l2 /\ run token l1 = None /\ submission token q a) /\
  (forall l', run token l <> None -> run token (l ++ l') = run token l) /\
  (forall method url body s, pathname url <> "/favicon.ico" -> assoc "token" (parse_query (search url)) <> Some token ->
     handleWalletRequest token method url body s = (Json 403 (error_json "Invalid wallet capture token"), s)) /\
  (forall chunks, MAX_BODY < Z.of_nat (length (concat chunks)) -> exists e, readJsonBody chunks = Throw e).
Proof.
  split_and!.
  - induction l as [|e l IH] using rev_ind; [done|]. intros a. rewrite capture_run_app. cbn [fold_left].
    destruct (run token l) as [x|] eqn:Er.
    + rewrite settled_step. intros [= ->]. destruct (IH a eq_refl) as (Hv & l1 & q & l2 & -> & Hr & Hs). split; [done|].
      exists l1, q, (l2 ++ [e]). by rewrite <- app_assoc.
    + destruct e as [q|]; [|done]. cbn. destruct (node_request_cases token q None) as [->|(b & Hb & ->)]; [done|].
      intros [= <-]. split; [by destruct Hb as (? & ? & ? & ? & ? & ? & ? & ? & Hv)|]. by exists l, q, [].
  - intros l' Hr. rewrite capture_run_app. destruct (run token l); [apply settled_run|done].
  - intros method url body s Hf Ht. unfold handleWalletRequest. by rewrite (bool_decide_false _ Hf), (bool_decide_false _ Ht).
  - intros chunks Hl. unfold readJsonBody. destruct (chunks_too_large 0 [] chunks) as [e ->]; [lia|done|by eexists].
Qed.

(** Listening ends after at most twenty attempts, or one on a requested port. *)
Theorem listen_terminates (requestedPort : option Z) (tries : list bind) : (20 <= length tries)%nat ->
  exists r, listen requestedPort tries = Some r /\ forall port, r = Ok port -> Bound port ∈ take 20 tries.
Proof.
  unfold listen. intros Hl. set (requested := truthy _). clearbody requested.
  assert (Ha : forall n last tries, (n <= length tries)%nat -> exists r, attempts n requested last tries = Some r /\
    forall port, r = Ok port -> Bound port ∈ take n tries).
  { induction n as [|n IH]; intros last t Ht; [by eexists|]. destruct t as [|x t]; cbn in Ht; [lia|]. cbn [attempts take].
    destruct x as [port|u e]; [eexists; split; [done|]; intros ? [= ->]; left|].
    destruct (requested || negb u); [by eexists|]. destruct (IH (Some e) t ltac:(lia)) as (r & -> & Hr).
    exists r. split; [done|]. intros port Hp. right. by apply Hr. }
  destruct requested.
  - destruct (Ha 1%nat None tries ltac:(lia)) as (r & -> & Hr). exists r. split; [done|]. intros port Hp.
    specialize (Hr port Hp). destruct tries as [|x tries]; [by apply elem_of_nil in Hr|].
    apply list_elem_of_singleton in Hr as ->. left.
  - by apply Ha.
Qed.

Lemma no_char_append c a b : str_forall (fun d => negb (bool_decide (d = c))) (a +:+ b) =
  str_forall (fun d => negb (bool_decide (d = c))) a && str_forall (fun d => negb (bool_decide (d = c))) b.
Proof. induction a as [|x a IH]; [done|]. cbn. by rewrite IH, andb_assoc. Qed.

(** What is embedded in the page cannot close its script element. *)
Theorem script_json_no_tag (value : json) : no_char "<" (safeScriptJson value).
Proof.
  unfold safeScriptJson, no_char. generalize (stringify value) as s. intros s.
  induction s as [|c s IH]; [done|]. cbn [escape_lt]. rewrite no_char_append, IH, andb_true_r.
  case_bool_decide as Hc; [done|]. cbn. by rewrite bool_decide_false.
Qed.

Module Demo.
Definition post (token body : string) : Incoming :=
  {| in_method := Some "POST"; in_host := Some "127.0.0.1:45001"; in_url := Some ("/capture?token=" +:+ token); in_chunks := [utf8 body] |}.
Definition wallet (icp : string) : string := stringify (JObj [("icpAddress", JStr icp)]).
Definition events : list event :=
  [Request (post "wrong" (wallet "aaaaa-aa")); Request (post "tok" (wallet "AAAAA")); Request (post "tok" (wallet " aaaaa-aa "));
   Request (post "tok" (wallet "bbbbb-bb")); Stop].
Definition captured : WalletAddresses := {| evmAddress := None; solanaAddress := None; icpAddress := Some "aaaaa-aa" |}.
End Demo.

Lemma wallet_capture_sound_witness : valid_capture Demo.captured /\ isValidIcpAddress "aaaaa-aa" = true.
Proof.
  destruct (@wallet_capture_sound ToyUrl.api "tok" Demo.events) as [Ht _].
  destruct (Ht Demo.captured) as [Hv _]; [vm_compute; reflexivity|]. split; [exact Hv|]. apply Hv. reflexivity.
Defined.
