(* ===== verification/Program.v ===== *)
(** * Asynchronous handlers as resumptions

    An [async] function runs without interruption up to its next [await] on
    something outside; other handlers run in between.  A program is a tree of
    atomic actions on the shared state and of questions to the outside.  Several
    programs run interleaved, and an invariant is proved one program at a time. *)

From S2P Require Import Prelude Effect.

(** [S]: the state handlers share; [E X]: the questions answered by an [X]. *)
Inductive prog (S : Type) (E : Type -> Type) (A : Type) : Type :=
| Return (a : A)
| Raise (e : exn)
| Atomic {X : Type} (m : eff S X) (k : result X -> prog S E A)
| Ask {X : Type} (q : E X) (k : X -> prog S E A).
Arguments Return {S E A} a.
Arguments Raise {S E A} e.
Arguments Atomic {S E A X} m k.
Arguments Ask {S E A X} q k.

(** A question with its answer. *)
Record exchange (E : Type -> Type) := Exchange { ex_type : Type; ex_question : E ex_type; ex_answer : ex_type }.
Arguments Exchange {E X} q a : rename.

#[export] Instance prog_ret {S E} : MRet (prog S E) := fun A a => Return a.
#[export] Instance prog_bind {S E} : MBind (prog S E) := fun A B f =>
  fix bind (p : prog S E A) : prog S E B :=
  match p with
  | Return a => f a
  | Raise e => Raise e
  | Atomic m k => Atomic m (fun r => bind (k r))
  | Ask q k => Ask q (fun a => bind (k a))
  end.

Section Operations.
Context {S : Type} {E : Type -> Type}.

Definition resume {A} (r : result A) : prog S E A := match r with Ok a => Return a | Throw e => Raise e end.
Definition atomically {A} (m : eff S A) : prog S E A := Atomic m resume.
Definition ask {A} (q : E A) : prog S E A := Ask q Return.
Definition raise {A} (e : exn) : prog S E A := Raise e.

Fixpoint catch {A} (p : prog S E A) (h : exn -> prog S E A) : prog S E A :=
  match p with
  | Return a => Return a
  | Raise e => h e
  | Atomic m k => Atomic m (fun r => catch (k r) h)
  | Ask q k => Ask q (fun a => catch (k a) h)
  end.

(** ** Interleaving *)

(** The shared state, the questions answered so far, and the programs under way. *)
Record Pool (A : Type) := { shared : S; log : list (exchange E); threads : list (prog S E A) }.

Context {A : Type}.

Definition put_thread (i : nat) (p : prog S E A) (c : Pool A) (s : S) (l : list (exchange E)) : Pool A :=
  {| shared := s; log := l; threads := <[i := p]> (threads _ c) |}.

Section Steps.
Context (start : prog S E A -> Prop).

Inductive step : Pool A -> Pool A -> Prop :=
| step_atomic c i X (m : eff S X) k : threads _ c !! i = Some (Atomic m k) ->
    step c (put_thread i (k (m (shared _ c)).2) c (m (shared _ c)).1 (log _ c))
| step_ask c i X (q : E X) k a : threads _ c !! i = Some (Ask q k) ->
    step c (put_thread i (k a) c (shared _ c) (log _ c ++ [Exchange q a]))
| step_start c p : start p ->
    step c {| shared := shared _ c; log := log _ c; threads := threads _ c ++ [p] |}.

Definition reaches : Pool A -> Pool A -> Prop := rtc step.

(** An execution with the states it went through. *)
Inductive execution (c0 : Pool A) : list S -> Pool A -> Prop :=
| exec_start : execution c0 [shared _ c0] c0
| exec_step l c c' : execution c0 l c -> step c c' -> execution c0 (l ++ [shared _ c']) c'.

Lemma execution_last c0 l c : execution c0 l c -> shared _ c ∈ l.
Proof. destruct 1; [left|apply elem_of_app; right; left]. Qed.

Lemma step_log c c' : step c c' -> forall x, x ∈ log _ c -> x ∈ log _ c'.
Proof. destruct 1; cbn; intros x Hx; [done|apply elem_of_app; by left|done]. Qed.

Lemma reaches_execution c0 c : reaches c0 c -> exists l, execution c0 l c.
Proof.
  revert c. apply (rtc_ind_r (fun c => exists l, execution c0 l c)).
  - eexists. apply exec_start.
  - intros c c' _ Hs [l Hl]. eexists. by eapply exec_step.
Qed.
End Steps.

(** ** A scheduler that can be run *)

Context (answer : forall X, E X -> X).

Definition turn (i : nat) (c : Pool A) : Pool A :=
  match threads _ c !! i with
  | Some (Atomic m k) => put_thread i (k (m (shared _ c)).2) c (m (shared _ c)).1 (log _ c)
  | Some (Ask q k) => put_thread i (k (answer _ q)) c (shared _ c) (log _ c ++ [Exchange q (answer _ q)])
  | _ => c
  end.

(** [i] is the thread that runs next. *)
Definition schedule (l : list nat) (c : Pool A) : Pool A := fold_left (fun c i => turn i c) l c.

Fixpoint run_alone (p : prog S E A) (s : S) : S * result A :=
  match p with
  | Return a => (s, Ok a)
  | Raise e => (s, Throw e)
  | Atomic m k => run_alone (k (m s).2) (m s).1
  | Ask q k => run_alone (k (answer _ q)) s
  end.
End Operations.

(** ** Invariants *)

(** What a run is known to have gone through: its states, its questions with answers. *)
Class Chronicle (S : Type) (E : Type -> Type) := { seen : S -> Prop; heard : exchange E -> Prop }.

Section Invariant.
Context {S : Type} {E : Type -> Type} {this : Chronicle S E} (P : S -> Prop) (Q : forall X, E X -> Prop).

(** Each atomic action keeps [P], each question is one of [Q], and a value that is
    returned is one of [R], whatever the answers and the other programs do in the run. *)
Fixpoint keeps {A} (R : A -> Prop) (p : prog S E A) : Prop :=
  match p with
  | Return a => R a
  | Raise _ => True
  | Atomic m k => forall s, seen s -> P s -> P (m s).1 /\ (seen (m s).1 -> keeps R (k (m s).2))
  | Ask q k => Q _ q /\ forall a, heard (Exchange q a) -> keeps R (k a)
  end.

Lemma keeps_weaken {A} (R R' : A -> Prop) p : (forall a, R a -> R' a) -> keeps R p -> keeps R' p.
Proof.
  intros H. induction p as [a|e|X m k IH|X q k IH]; cbn; [apply H|done| |].
  - intros Hm s Hv Hs. destruct (Hm s Hv Hs) as [H1 H2]. split; [done|]. intros Hv'. by apply IH, H2.
  - intros [H1 H2]. split; [done|]. intros a Ha. by apply IH, H2.
Qed.

Lemma keeps_ret {A} (R : A -> Prop) a : R a -> keeps R (mret a).
Proof. done. Qed.

Lemma keeps_bind {A B} (R : A -> Prop) (R' : B -> Prop) p (f : A -> prog S E B) :
  keeps R p -> (forall a, R a -> keeps R' (f a)) -> keeps R' (p ≫= f).
Proof.
  intros Hp Hf. induction p as [a|e|X m k IH|X q k IH]; cbn in *; [by apply Hf|done| |].
  - intros s Hv Hs. destruct (Hp s Hv Hs) as [H1 H2]. split; [done|]. intros Hv'. by apply IH, H2.
  - destruct Hp as [H1 H2]. split; [done|]. intros a Ha. by apply IH, H2.
Qed.

Lemma keeps_catch {A} (R : A -> Prop) p h : keeps R p -> (forall e, keeps R (h e)) -> keeps R (catch p h).
Proof.
  intros Hp Hh. induction p as [a|e|X m k IH|X q k IH]; cbn in *; [done|apply Hh| |].
  - intros s Hv Hs. destruct (Hp s Hv Hs) as [H1 H2]. split; [done|]. intros Hv'. by apply IH, H2.
  - destruct Hp as [H1 H2]. split; [done|]. intros a Ha. by apply IH, H2.
Qed.

Lemma keeps_resume {A} (R : A -> Prop) r : (forall a, r = Ok a -> R a) -> keeps R (resume r).
Proof. destruct r as [a|e]; [|done]. intros H. by apply H. Qed.

(** What an atomic action returns may depend on the states before and after it. *)
Lemma keeps_action {A} (R : A -> Prop) (m : eff S A) :
  (forall s, seen s -> P s -> P (m s).1 /\ (seen (m s).1 -> forall a, (m s).2 = Ok a -> R a)) -> keeps R (atomically m).
Proof.
  intros H s Hv Hs. destruct (H s Hv Hs) as [H1 H2]. split; [done|]. intros Hv'. destruct (m s).2 as [a|e]; [|done]. by apply (H2 Hv').
Qed.

Lemma keeps_atomic {A} (R : A -> Prop) (m : eff S A) :
  (forall s, P s -> P (m s).1 /\ forall a, (m s).2 = Ok a -> R a) -> keeps R (atomically m).
Proof. intros H. apply keeps_action. intros s _ Hs. destruct (H s Hs) as [H1 H2]. by split. Qed.

Lemma keeps_ask {A} (R : A -> Prop) (q : E A) : Q _ q -> (forall a, heard (Exchange q a) -> R a) -> keeps R (ask q).
Proof. intros Hq HR. by split. Qed.

Context {A : Type} (start : prog S E A -> Prop).

(** The invariant of a pool: of its state, of the questions asked, of each program. *)
Definition good (c : Pool A) : Prop :=
  P (shared _ c) /\ Forall (fun x => Q _ (ex_question _ x)) (log _ c) /\ Forall (keeps (fun _ => True)) (threads _ c).

Lemma step_good c c' : (forall p, start p -> keeps (fun _ => True) p) ->
  seen (shared _ c) -> seen (shared _ c') -> (forall x, x ∈ log _ c' -> heard x) -> good c -> step start c c' -> good c'.
Proof.
  intros Hst Hv Hv' Hx (Hs & Hl & Ht). destruct 1 as [c i X m k Hi|c i X q k a Hi|c p Hp]; cbn in *.
  - pose proof (Forall_lookup_1 _ _ _ _ Ht Hi) as Hk. cbn in Hk. destruct (Hk _ Hv Hs) as [H1 H2].
    split; [done|]. split; [done|]. by apply Forall_insert; [|apply H2].
  - pose proof (Forall_lookup_1 _ _ _ _ Ht Hi) as Hk. cbn in Hk. destruct Hk as [H1 H2].
    split; [done|]. split; [|by apply Forall_insert; [|apply H2, Hx, elem_of_app; right; left]].
    apply Forall_app. split; [done|]. by apply Forall_singleton.
  - split; [done|]. split; [done|]. apply Forall_app. split; [done|]. by apply Forall_singleton, Hst.
Qed.

(** By rule induction on the execution. *)
Lemma execution_good c0 l c : (forall p, start p -> keeps (fun _ => True) p) -> good c0 ->
  execution start c0 l c -> (forall s, s ∈ l -> seen s) -> (forall x, x ∈ log _ c -> heard x) -> good c.
Proof.
  intros Hst Hg He. induction He as [|l c c' He IH Hs]; intros Hv Hx; [done|].
  eapply step_good; [done| | |exact Hx| |exact Hs].
  - apply Hv, elem_of_app. left. by eapply execution_last.
  - apply Hv, elem_of_app. right. left.
  - apply IH; [intros s Hin; apply Hv, elem_of_app; by left|]. intros x Hin. by eapply Hx, step_log.
Qed.
End Invariant.

(** The states and the questions of an execution. *)
Definition chronicle {S E A} (l : list S) (c : Pool (S := S) (E := E) A) : Chronicle S E :=
  {| seen := fun s => s ∈ l; heard := fun x => x ∈ log _ c |}.

(** Walks down a program; leaves its atomic actions, its questions and its calls. *)
Ltac keep :=
  repeat lazymatch goal with
  | |- keeps _ _ _ (mret _) => apply keeps_ret; try exact I
  | |- keeps _ _ _ (raise _) => exact I
  | |- keeps _ _ _ (resume _) => apply keeps_resume; intros ? ?; try exact I
  | |- keeps _ _ _ (catch _ _) => apply keeps_catch; [|intros ?]
  | |- keeps _ _ _ (match ?x with _ => _ end) => destruct x eqn:?
  end.

(** ** The scheduler follows the steps *)

Section Schedule.
Context {S : Type} {E : Type -> Type} {A : Type} (start : prog S E A -> Prop) (answer : forall X, E X -> X).

Lemma start_reaches s ps l : Forall start ps -> reaches start {| shared := s; log := l; threads := [] |} {| shared := s; log := l; threads := ps |}.
Proof.
  induction ps as [|p ps IH] using rev_ind; intros Hp; [apply rtc_refl|]. apply Forall_app in Hp as [Hps Hp].
  etransitivity; [by apply IH|]. apply rtc_once.
  apply (step_start _ {| shared := s; log := l; threads := ps |} p). exact (proj1 (Forall_singleton _ _) Hp).
Qed.

Lemma turn_reaches i c : reaches start c (turn answer i c).
Proof.
  unfold turn. destruct (threads A c !! i) as [[a|e|X m k|X q k]|] eqn:Hi; try apply rtc_refl.
  - apply rtc_once. by eapply step_atomic.
  - apply rtc_once. by eapply step_ask.
Qed.

Lemma schedule_reaches l c : reaches start c (schedule answer l c).
Proof.
  revert c. induction l as [|i l IH]; intros c; [apply rtc_refl|]. cbn [schedule fold_left].
  etransitivity; [apply turn_reaches|apply IH].
Qed.
End Schedule.
