(* ===== verification/Trace.v ===== *)
(** * One program and its history

    A program that runs alone, step by step, with what it asked and what it was
    answered so far.  While an answer is awaited the state may change under it, within
    a relation.  A weakest precondition says what holds of each question at the time
    it is asked, and of the end. *)

From S2P Require Import Prelude Effect Program.

Section Runs.
Context {S : Type} {E : Type -> Type} (rely : S -> S -> Prop).

Record Run (A : Type) := Running { rest : prog S E A; state : S; history : list (exchange E) }.
Arguments Running {A} _ _ _.

Inductive advance {A} : Run A -> Run A -> Prop :=
| advance_atomic X (m : eff S X) k s h : advance (Running (Atomic m k) s h) (Running (k (m s).2) (m s).1 h)
| advance_ask X (q : E X) k s h a s' : rely s s' -> advance (Running (Ask q k) s h) (Running (k a) s' (h ++ [Exchange q a])).

(** What is asked now, if anything, is one of [Q]. *)
Definition now_asks (Q : forall X, E X -> S -> list (exchange E) -> Prop) {A} (r : Run A) : Prop :=
  match rest _ r with Ask q _ => Q _ q (state _ r) (history _ r) | _ => True end.

Section Wp.
Context (Q : forall X, E X -> S -> list (exchange E) -> Prop).

Fixpoint wp {A} (Φ : result A -> S -> list (exchange E) -> Prop) (p : prog S E A) (s : S) (h : list (exchange E)) : Prop :=
  match p with
  | Return a => Φ (Ok a) s h
  | Raise e => Φ (Throw e) s h
  | Atomic m k => wp Φ (k (m s).2) (m s).1 h
  | Ask q k => Q _ q s h /\ forall a s', rely s s' -> wp Φ (k a) s' (h ++ [Exchange q a])
  end.

Lemma wp_mono {A} (Φ Ψ : result A -> S -> list (exchange E) -> Prop) p s h :
  (forall r s h, Φ r s h -> Ψ r s h) -> wp Φ p s h -> wp Ψ p s h.
Proof.
  intros Hi. revert s h. induction p as [a|e|X m k IH|X q k IH]; intros s h; cbn; [apply Hi..|apply IH|].
  intros [Hq Hk]. split; [done|]. intros a s' Hs. by apply IH, Hk.
Qed.

Lemma wp_bind {A B} (Φ : result B -> S -> list (exchange E) -> Prop) (p : prog S E A) f s h :
  wp (fun r s h => match r with Ok a => wp Φ (f a) s h | Throw e => Φ (Throw e) s h end) p s h -> wp Φ (p ≫= f) s h.
Proof.
  revert s h. induction p as [a|e|X m k IH|X q k IH]; intros s h; cbn; [done|done|apply IH|].
  intros [Hq Hk]. split; [done|]. intros a s' Hs. by apply IH, Hk.
Qed.

Lemma wp_catch {A} (Φ : result A -> S -> list (exchange E) -> Prop) p f s h :
  wp (fun r s h => match r with Ok a => Φ (Ok a) s h | Throw e => wp Φ (f e) s h end) p s h -> wp Φ (catch p f) s h.
Proof.
  revert s h. induction p as [a|e|X m k IH|X q k IH]; intros s h; cbn; [done|done|apply IH|].
  intros [Hq Hk]. split; [done|]. intros a s' Hs. by apply IH, Hk.
Qed.

Lemma wp_ret {A} (Φ : result A -> S -> list (exchange E) -> Prop) a s h : Φ (Ok a) s h -> wp Φ (mret a) s h.
Proof. done. Qed.

Lemma wp_resume {A} (Φ : result A -> S -> list (exchange E) -> Prop) r s h : Φ r s h -> wp Φ (resume r) s h.
Proof. by destruct r. Qed.

Lemma wp_atomic {A} (Φ : result A -> S -> list (exchange E) -> Prop) m s h : Φ (m s).2 (m s).1 h -> wp Φ (atomically m) s h.
Proof. apply wp_resume. Qed.

Lemma wp_ask {A} (Φ : result A -> S -> list (exchange E) -> Prop) q s h :
  Q _ q s h -> (forall a s', rely s s' -> Φ (Ok a) s' (h ++ [Exchange q a])) -> wp Φ (ask q) s h.
Proof. by split. Qed.

(** Every question of a run is one of [Q] when it is asked. *)
Lemma wp_sound {A} (Φ : result A -> S -> list (exchange E) -> Prop) r r' :
  wp Φ (rest _ r) (state _ r) (history _ r) -> rtc advance r r' -> now_asks Q r'.
Proof.
  intros Hw Hr. revert Hw. induction Hr as [r|r r1 r2 Hs _ IH]; intros Hw.
  - destruct r as [[a|e|Y m k|Y q' k] s h]; try done. exact (proj1 Hw).
  - apply IH. destruct Hs as [X m k s h|X q k s h a s' Hs]; cbn in *; [done|]. by apply Hw.
Qed.
End Wp.

(** ** A run that can be computed *)

(** Answers given by a function; nothing else changes the state. *)
Context (answer : forall X, E X -> X).

Definition turn {A} (r : Run A) : Run A :=
  match rest _ r with
  | Atomic m k => Running (k (m (state _ r)).2) (m (state _ r)).1 (history _ r)
  | Ask q k => Running (k (answer _ q)) (state _ r) (history _ r ++ [Exchange q (answer _ q)])
  | _ => r
  end.

Definition turns {A} (n : nat) (r : Run A) : Run A := Nat.iter n turn r.

Lemma turn_advance {A} (r : Run A) : (forall s, rely s s) -> rtc advance r (turn r).
Proof.
  intros Hr. destruct r as [[a|e|X m k|X q k] s h]; unfold turn; cbn; [apply rtc_refl..| |].
  - apply rtc_once, advance_atomic.
  - apply rtc_once. by apply advance_ask.
Qed.

Lemma turns_advance {A} n (r : Run A) : (forall s, rely s s) -> rtc advance r (turns n r).
Proof.
  intros Hr. induction n as [|n IH]; [apply rtc_refl|]. etransitivity; [exact IH|]. by apply (turn_advance (turns n r)).
Qed.
End Runs.
Arguments Running {S E A} _ _ _.
