(* ===== verification/Setup.v ===== *)
(** * Setting a node up: what setup-wizard.ts and setup.ts share

    The progress an operator makes is a JSON object in the state directory, whose
    members the code reads back unchecked.  A progress that is not an object has no
    members to spread. *)

From S2P Require Import Prelude Effect Program Text Json JsonText JsonIndent Coerce Crypto Files SecretStore Machine Dedupe Update Url Eval Join.
From S2P Require Import WalletCapture.
Local Open Scope Z_scope.

Definition DEFAULT_SERVER_URL : string := "https://consensus.canister.software".
Definition DEFAULT_PM2_NAME : string := "consensus-node-control".
Definition DEFAULT_INSTALL_DIR (p : Process) : string := path_join [homedir p; ".consensus"; "node-runtime"].

(** ** The outside *)

(** A child process: [env] is added to the environment of the wizard. *)
Record Command := { cmd_name : string; cmd_args : list string; cmd_env : list (string * string); cmd_cwd : option string }.

(** How it ends: its exit code ([None] after a signal) with what it printed on both
    channels, or a failure to start it. *)
Inductive ChildEnd := Exited (code : option Z) (printed : string) | NotStarted (message : string).

Inductive question : Type -> Type :=
| Now : question Z
| RandomUUID : question string
| Entropy : question Random
(** what [fetch] answers to a GET during one call. *)
| Network : question (string -> result Response)
| Post (url : string) (body : json) : question (result Response)
| Spawn (c : Command) : question ChildEnd
| Access (path : string) : question bool
(** the page templates: path, size and modification time of each, or a failure. *)
| StatTemplates : question (result (list (string * num * num)))
| Sleep (ms : num) : question unit
(** [startWalletAddressServer]: the address of its page. *)
| StartWalletServer (initial : WalletAddresses) : question (result string)
| StopWalletServer (sessionId : string) : question (result unit).

(** A wallet session as the wizard keeps it. *)
Inductive session_status := pending | done_ | error_ (message : string).
Record WalletEntry := { we_url : string; we_status : session_status; we_addresses : option (list (string * option json)) }.

(** [new Date(ms).toISOString()]; the civil date counts from the first of March. *)
Definition toISOString (ms : Z) : string :=
  let days := ms / 86400000 in
  let rest := ms mod 86400000 in
  let z := days + 719468 in
  let doe := z mod 146097 in
  let yoe := (doe - doe / 1460 + doe / 36524 - doe / 146096) / 365 in
  let doy := doe - (365 * yoe + yoe / 4 - yoe / 100) in
  let mp := (5 * doy + 2) / 153 in
  let month := if mp <? 10 then mp + 3 else mp - 9 in
  let year := yoe + z / 146097 * 400 + (if month <=? 2 then 1 else 0) in
  let year_text := if (0 <=? year) && (year <=? 9999) then dec_pad 4 year ""
                   else (if year <? 0 then "-" else "+") +:+ dec_pad 6 (Z.abs year) "" in
  year_text +:+ "-" +:+ dec_pad 2 month "" +:+ "-" +:+ dec_pad 2 (doy - (153 * mp + 2) / 5 + 1) "" +:+ "T" +:+
  dec_pad 2 (rest / 3600000) "" +:+ ":" +:+ dec_pad 2 (rest / 60000 mod 60) "" +:+ ":" +:+ dec_pad 2 (rest / 1000 mod 60) "" +:+
  "." +:+ dec_pad 3 (rest mod 1000) "" +:+ "Z".

(** What the handlers share. *)
Record SetupState := { ss_world : World; ss_registry : Machine; walletSessions : gmap string WalletEntry }.

Notation program := (prog SetupState question).

Definition with_world {A} (m : eff World A) : eff SetupState A := fun s =>
  let (w, r) := m (ss_world s) in ({| ss_world := w; ss_registry := ss_registry s; walletSessions := walletSessions s |}, r).
Definition with_registry {A} (m : eff Machine A) : eff SetupState A := fun s =>
  let (f, r) := m (ss_registry s) in ({| ss_world := ss_world s; ss_registry := f; walletSessions := walletSessions s |}, r).
Definition put_session (id : string) (e : WalletEntry) : eff SetupState unit :=
  modify (fun s => {| ss_world := ss_world s; ss_registry := ss_registry s; walletSessions := <[id := e]> (walletSessions s) |}).

(** [new Date().toISOString()]. *)
Definition nowIso : program string := now ← ask Now; mret (toISOString now).

(** ** Children *)

Record Outcome := { ok : bool; output : string }.

(** [value.trim().split(/\n/).slice(-8).join("\n")]. *)
Definition compactOutput (value : string) : string :=
  let lines := split "010" (trim value) in join (String "010" "") (drop (length lines - 8) lines).

Definition run_with (c : Command) (clean : string -> string) : program Outcome :=
  e ← ask (Spawn c);
  mret (match e with
        | Exited code printed => {| ok := bool_decide (code = Some 0); output := clean printed |}
        | NotStarted m => {| ok := false; output := m |}
        end).

Definition runSetupCommand (command : string) (args : list string) (env : list (string * string)) (cwd : string) : program Outcome :=
  run_with {| cmd_name := command; cmd_args := args; cmd_env := env; cmd_cwd := Some cwd |} compactOutput.

Definition runInstaller (command : string) (args : list string) (env : list (string * string)) : program Outcome :=
  found ← ask (Access command);
  if found : bool then run_with {| cmd_name := command; cmd_args := args; cmd_env := env; cmd_cwd := None |} compactOutput
  else mret {| ok := false; output := command +:+ " not found" |}.

(** The first word of a text that is trimmed. *)
Fixpoint first_word (s : string) : string :=
  match s with
  | EmptyString => ""
  | String c r => if is_space c then "" else String c (first_word r)
  end.

(** The one runner that drops the message of a child that does not start. *)
Definition runCapture (command : string) (args : list string) : program Outcome :=
  e ← ask (Spawn {| cmd_name := command; cmd_args := args; cmd_env := []; cmd_cwd := None |});
  mret (match e with
        | Exited code printed => {| ok := bool_decide (code = Some 0); output := first_word (trim printed) |}
        | NotStarted _ => {| ok := false; output := "" |}
        end).

(** [value.replace(/'/g, "'\\''")] between quotes. *)
Fixpoint escape_quotes (s : string) : string :=
  match s with
  | EmptyString => ""
  | String c r => (if bool_decide (c = "'"%char) then "'\''" else String c "") +:+ escape_quotes r
  end.
Definition shellQuote (value : string) : string := "'" +:+ escape_quotes value +:+ "'".

Definition which (command : string) : program (option string) :=
  r ← runCapture "sh" ["-lc"; "command -v " +:+ shellQuote command];
  mret (if ok r && negb (bool_decide (output r = "")) then Some (output r) else None).

Fixpoint first_existing (candidates : list string) : program (option string) :=
  match candidates with
  | [] => mret None
  | c :: candidates => found ← ask (Access c); if found : bool then mret (Some c) else first_existing candidates
  end.

Definition resolveExecutable (command : string) (fallbackPaths : list string) : program (option string) :=
  found ← which command;
  match found with Some f => mret (Some f) | None => first_existing fallbackPaths end.

Definition bunFallbackPaths (p : Process) : list string :=
  [path_join [homedir p; ".bun"; "bin"; "bun"]; "/opt/homebrew/bin/bun"; "/usr/local/bin/bun"].
Definition pm2FallbackPaths : list string := ["/opt/homebrew/bin/pm2"; "/usr/local/bin/pm2"].

(** ** Requests *)

(** [response.json().catch(() => null)] and the checks on it. *)
Definition post_result (r : Response) : result json :=
  let parsed := response_body r in
  (if resp_ok r then mret tt
   else
     let member k := match parsed with JNull => None | _ => nullish (get k parsed) end in
     Throw (PlainError (match member "message" with
                        | Some m => js_string m
                        | None => match member "error" with Some e => js_string e | None => "HTTP " +:+ pretty (resp_status r) end
                        end)));;
  throw_if (negb (truthy (Some parsed))) (PlainError "Malformed JSON response");;
  Ok parsed.

Definition postJson (url : string) (body : json) : program json :=
  r ← ask (Post url body); resume (r ≫= post_result).

Definition response_json (r : Response) : result json := JSON_parse (utf8_text (resp_body r)).

Definition region_of `{UrlApi} (fetch : string -> result Response) (serverUrl : string) (ipv4 : json) : result json :=
  r ← fetch (trimTrailingSlash serverUrl +:+ "/node/region/" +:+ encodeURIComponent (js_string ipv4));
  throw_if (negb (resp_ok r)) (PlainError ("HTTP " +:+ pretty (resp_status r)));;
  response_json r.

Definition fetchRegion `{UrlApi} (serverUrl : string) (ipv4 : json) : program json :=
  fetch ← ask Network; resume (region_of fetch serverUrl ipv4).

Definition detected_ip (fetch : string -> result Response) (url : string) : result (option json) :=
  r ← fetch url; body ← response_json r; members body;; Ok (get "ip" body).

Definition detectPublicIpv4 : program json :=
  fetch ← ask Network;
  ip ← resume (detected_ip fetch "https://api4.ipify.org?format=json");
  match ip with
  | Some v => if truthy (Some v) then mret v else raise (PlainError "Unable to detect public IPv4")
  | None => raise (PlainError "Unable to detect public IPv4")
  end.

Definition detectPublicIpv6 : program json :=
  fetch ← ask Network;
  ip ← resume (detected_ip fetch "https://api6.ipify.org?format=json");
  mret (default JNull (nullish ip)).

(** ** PM2 *)

(** The first application of that name; an element [null] throws. *)
Fixpoint find_app (appName : string) (apps : list json) : result (option json) :=
  match apps with
  | [] => Ok None
  | a :: apps =>
      members a;;
      if bool_decide (get "name" a = Some (JStr appName)) then Ok (Some a) else find_app appName apps
  end.

(** Any failure gives [null]. *)
Definition pm2StatusFromJlist (output appName : string) : option json :=
  match (apps ← JSON_parse output; match apps with JArr l => find_app appName l | _ => Ok None end) with
  | Ok (Some app) =>
      match nullish (get "pm2_env" app) with Some e => nullish (get "status" e) | None => None end
  | _ => None
  end.

(** Milliseconds; [NaN], infinite and negative settings give two seconds. *)
Definition pm2VerifyDelayMs (p : Process) : num :=
  let seconds := string_to_number (default "2" (env p "CONSENSUS_PM2_VERIFY_DELAY_SECONDS")) in
  match seconds with
  | Fin m e => if 0 <=? m then normalise e (m * 1000) else num_of_Z 2000
  | _ => num_of_Z 2000
  end.

(** [process.env.K?.trim() || d]. *)
Definition env_trimmed_or (p : Process) (k d : string) : string :=
  let v := trim (default "" (env p k)) in if bool_decide (v = "") then d else v.

(** ** Progress *)

Definition currentWalletAddresses (progress : json) : list (string * option json) :=
  [("evmAddress", get "evmAddress" progress); ("solanaAddress", get "solanaAddress" progress);
   ("icpAddress", get "icpAddress" progress)].

(** A member that counts as set, as text. *)
Definition set_member (k : string) (v : json) : option string :=
  match get k v with Some x => if truthy (Some x) then Some (js_string x) else None | None => None end.

(** [validateWalletAddresses] of the addresses of a progress. *)
Definition address_errors (progress : json) : list (string * json) :=
  let wrong k (valid : string -> bool) := match set_member k progress with Some s => negb (valid s) | None => false end in
  (if wrong "evmAddress" isValidEvmAddress
   then [("evmAddress", JStr "EVM address must be 0x followed by 40 hex characters")] else []) ++
  (if wrong "solanaAddress" isValidSolanaAddress
   then [("solanaAddress", JStr "Solana address must be a base58 public key")] else []) ++
  (if wrong "icpAddress" isValidIcpAddress
   then [("icpAddress", JStr "ICP address must be a textual principal")] else []).

(** [mergeWalletAddresses] with the addresses of [progress] as its base. *)
Definition merged_addresses (progress : json) (patch : WalletAddresses) : list (string * option json) :=
  let pick k (v : option string) := (k, match v with Some s => Some (JStr s) | None => get k progress end) in
  [pick "evmAddress" (evmAddress patch); pick "solanaAddress" (solanaAddress patch); pick "icpAddress" (icpAddress patch)].

(** A member read with [?? d] and used as text: another value has no text methods. *)
Definition text_or (k d : string) (v : json) : result string :=
  match nullish (get k v) with
  | None => Ok d
  | Some (JStr s) => Ok s
  | Some _ => Throw (TypeError (k +:+ " is not a string"))
  end.

(** [===] of members: two objects are not the same one. *)
Definition strict_equal (a b : option json) : bool :=
  match a with Some (JObj _) | Some (JArr _) => false | _ => bool_decide (a = b) end.

(** A variable of a child's environment; [undefined] leaves it out. *)
Definition env_entry (name : string) (v : option json) : list (string * string) :=
  match v with Some v => [(name, js_string v)] | None => [] end.

(** A time in seconds more than a minute ahead. *)
Definition fresh_until (v : option json) (now : Z) : bool := truthy v && member_gt v (now / 1000 + 60).

(** [joinAuth && joinAuth.expires_at > Math.floor(Date.now() / 1000) + 60]. *)
Definition joinAuthReusable (joinAuth : option json) (now : Z) : bool :=
  truthy joinAuth && member_gt (match joinAuth with Some v => get "expires_at" v | None => None end) (now / 1000 + 60).

Section State.
Context (p : Process).

Definition loadProgress : program json := atomically (gets (fun s => loadSetupProgress p (w_disk (ss_world s)))).
Definition saveProgress (v : json) : program unit := atomically (with_world (on_files (saveSetupProgress p v))).
Definition readConfig : program json := atomically (gets (fun s => loadConfig p (w_disk (ss_world s)))).
Definition writeConfig (v : json) : program unit := atomically (with_world (on_files (saveConfig p v))).

(** [{ ...progress, ...patch }], saved and returned. *)
Definition remember (progress : json) (patch : list (string * option json)) : program json :=
  let next := assign progress patch in
  saveProgress next;; mret next.

Definition joinAuthorization `{Aead} : program (option json) :=
  r ← ask Entropy; atomically (with_world (loadJoinAuthorization p r)).

Definition claimNode (nodeId : string) (installDir : option string) : program unit :=
  now ← nowIso;
  uuid ← ask RandomUUID;
  atomically (with_registry (claimMachineNode p now uuid nodeId installDir None));;
  mret tt.

Definition fetchManifest (serverUrl : string) : program json :=
  fetch ← ask Network; resume (fetchRequiredManifest fetch serverUrl).

Definition downloadArtifact `{Hashing} (manifest : json) : program Downloaded :=
  fetch ← ask Network; atomically (with_world (on_files (downloadAndVerify fetch p manifest))).
End State.

Example iso_epoch : map toISOString [0; 1000000000000; 951782400000; -1] =
  ["1970-01-01T00:00:00.000Z"; "2001-09-09T01:46:40.000Z"; "2000-02-29T00:00:00.000Z"; "1969-12-31T23:59:59.999Z"].
Proof. vm_compute. reflexivity. Qed.

(** ** Lemmas *)

Lemma toISOString_set ms : toISOString ms <> "".
Proof.
  unfold toISOString. intros E. apply (f_equal String.length) in E. rewrite !str_app_length in E. cbn in E. lia.
Qed.

Lemma compactOutput_lines value : exists l, compactOutput value = join (String "010" "") l /\ (length l <= 8)%nat.
Proof. eexists. split; [reflexivity|]. rewrite length_drop. lia. Qed.

Lemma truthy_some v : truthy v = true -> is_Some v.
Proof. by destruct v. Qed.

(** ** The progress file is not one of the others *)

Lemma normalize_tail z seg : plain_name seg -> exists y, Files.normalize (z +:+ String "/" seg) = y +:+ seg.
Proof.
  intros Hs. pose proof Hs as (Hc & Hn & Hd & Hdd). unfold Files.normalize.
  rewrite split_slash, (split_no_char _ seg), fold_left_app by done. cbn [fold_left].
  assert (Hst : forall a acc, norm_step a acc seg = seg :: acc) by (intros; unfold norm_step; by rewrite !bool_decide_false).
  rewrite Hst. cbn [rev]. rewrite (plain_not_slash_end _ _ Hs). cbn [andb].
  set (segs := rev _). assert (Hj : exists y, join "/" (segs ++ [seg]) = y +:+ seg).
  { unfold join. clearbody segs. induction segs as [|x l [y IH]]; [by exists ""|]. destruct l as [|x' l].
    - exists (x +:+ "/"). by rewrite str_app_assoc.
    - exists (x +:+ "/" +:+ y). rewrite !str_app_assoc, <- IH. done. }
  destruct Hj as [y Hy]. rewrite Hy.
  assert (Hne : y +:+ seg <> "").
  { intros Hz. apply (f_equal String.length) in Hz. rewrite str_app_length in Hz. destruct seg; [done|]. cbn in Hz. lia. }
  rewrite bool_decide_false by done. cbn [andb]. destruct (startsWith _ "/"); [|by exists y].
  exists ("/" +:+ y). by rewrite str_app_assoc.
Qed.

(** A text up to its last slash, and after it. *)
Lemma last_slash s : no_char "/" s \/ exists z t, s = z +:+ String "/" t /\ no_char "/" t.
Proof.
  induction s as [|c s [IH|(z & t & -> & Ht)]]; [by left| |right; by exists (String c z), t].
  destruct (decide (c = "/"%char)) as [->|Hc]; [right; by exists "", s|left; by apply no_char_cons].
Qed.

Lemma path_join_tail dir name seg : dir <> "" -> plain_name seg -> (name = seg \/ exists z, name = z +:+ String "/" seg) ->
  exists y, path_join [dir; name] = y +:+ seg.
Proof.
  intros Hd Hs Hn. assert (Hne : name <> "").
  { pose proof Hs as (_ & Hs' & _). destruct Hn as [->|[z ->]]; [done|]. by destruct z. }
  unfold path_join. rewrite filter_cons_True, filter_cons_True, filter_nil by done. cbn [join String.concat].
  change ("/" +:+ name) with (String "/" name). rewrite bool_decide_false by (by destruct dir).
  destruct Hn as [->|[z ->]]; [by apply normalize_tail|].
  change (String "/" (z +:+ String "/" seg)) with (String "/" z +:+ String "/" seg). rewrite <- str_app_assoc. by apply normalize_tail.
Qed.

(** Two texts with different ends. *)
Lemma ends_differ x a y b : (forall s t, str_rev a "" +:+ s <> str_rev b "" +:+ t) -> x +:+ a <> y +:+ b.
Proof. intros Hd E. apply (f_equal (fun s => str_rev s "")) in E. rewrite !str_rev_cat in E. by apply (Hd _ _ E). Qed.

Lemma setupProgress_tail p : exists y, setupProgress (paths p) = y +:+ "setup-progress.json".
Proof.
  destruct (decide (base (paths p) = "")) as [E|E].
  - exists "". unfold paths in *. cbn in *. by rewrite E.
  - apply path_join_tail; [done|by split_and!|by left].
Qed.

Lemma joinAuth_tail p : exists y, joinAuth (paths p) = y +:+ "join-auth.json".
Proof.
  destruct (decide (base (paths p) = "")) as [E|E].
  - exists "". unfold paths in *. cbn in *. by rewrite E.
  - apply path_join_tail; [done|by split_and!|by left].
Qed.

Lemma progress_not_joinAuth p : setupProgress (paths p) <> joinAuth (paths p).
Proof. destruct (setupProgress_tail p) as [y ->], (joinAuth_tail p) as [z ->]. by apply ends_differ. Qed.

(** The extension of a file name survives [path.join], whatever the name. *)
Lemma path_join_ext dir a ext : dir <> "" -> no_char "/" ext -> (2 < String.length ext)%nat -> exists y, path_join [dir; a +:+ ext] = y +:+ ext.
Proof.
  intros Hd He Hl. assert (Hp : forall t, no_char "/" t -> plain_name (t +:+ ext)).
  { intros t Ht. split_and!; [by apply no_char_app| | |]; intros E; apply (f_equal String.length) in E; rewrite str_app_length in E; cbn in E; lia. }
  assert (Ht : exists seg, plain_name (seg +:+ ext) /\ (a +:+ ext = seg +:+ ext \/ exists z, a +:+ ext = z +:+ String "/" (seg +:+ ext))).
  { destruct (last_slash a) as [Hn|(z & t & -> & Ht)]; [exists a|exists t]; (split; [by apply Hp|]); [by left|right].
    exists z. by rewrite str_app_assoc. }
  destruct Ht as (seg & Hs & Hn). destruct (path_join_tail _ _ _ Hd Hs Hn) as [w ->]. exists (w +:+ seg). by rewrite str_app_assoc.
Qed.

Lemma progress_not_artifact p manifest : setupProgress (paths p) <> artifact_path p manifest.
Proof.
  destruct (setupProgress_tail p) as [y ->]. unfold artifact_path, artifact_name.
  set (a := "consensus-node-" +:+ template (get "version" manifest) +:+ "-" +:+ template (get "platform" manifest)).
  assert (Ha : "consensus-node-" +:+ template (get "version" manifest) +:+ "-" +:+ template (get "platform" manifest) +:+ ".tgz" = a +:+ ".tgz")
    by (unfold a; by rewrite !str_app_assoc).
  rewrite Ha. destruct (path_join_ext (path_join [base (paths p); "downloads"]) a ".tgz" (path_join_nonempty _)) as [w ->]; [done|cbn; lia|].
  by apply ends_differ.
Qed.

Lemma progress_not_tmp p r : setupProgress (paths p) <> tmp_name r (joinAuth (paths p)).
Proof.
  destruct (setupProgress_tail p) as [y ->]. unfold tmp_name.
  assert (Hh : no_char "n" (".tmp-" +:+ hex_text (rnd_suffix r))).
  { apply no_char_app; [done|]. generalize (rnd_suffix r) as b. induction b as [|x b IH]; [done|]. cbn [hex_text].
    assert (Hd : forall v, 0 <= v < 16 -> hex_digit v <> "n"%char).
    { intros v Hv. assert (Hb : negb (bool_decide (hex_digit v = "n"%char)) = true); [|by bool_solve].
      revert v Hv. by apply (forallb_range (fun v => negb (bool_decide (hex_digit v = "n"%char)))). }
    pose proof (Z_of_byte_range x) as Hx. rewrite !no_char_cons. split_and!; [apply Hd..|exact IH].
    - split; [apply Z.div_pos|apply Z.div_lt_upper_bound]; lia.
    - apply Z.mod_pos_bound. lia. }
  apply ends_differ. intros s t E. apply no_char_rev in Hh. destruct (str_rev (".tmp-" +:+ _) "") as [|c r'] eqn:Er.
  - apply (f_equal String.length) in Er. rewrite str_rev_cat, str_app_length in Er. cbn in Er. lia.
  - apply no_char_cons in Hh as [Hc _]. cbn in E. congruence.
Qed.
