(* ===== verification/SetupFrame.v ===== *)
(** * What the setup leaves alone

    Reading the network, the secrets and the configuration changes other files than
    the progress, and starts no process.  An invariant that only looks at the progress
    file, with a claim that is only about started processes, is kept by all of it. *)

From S2P Require Import Prelude Effect Program Text Json JsonText JsonIndent JsonSaved Coerce Crypto Files SecretStore Machine Dedupe Update Url Eval.
From S2P Require Import Join WalletCapture Setup.
Local Open Scope Z_scope.

(** ** Progress *)

Lemma remove_enum {A} k (l : list (string * A)) : enum_ok l.*1 -> enum_ok (remove k l).*1.
Proof.
  unfold enum_ok, remove. induction l as [|[k' v] l IH]; intros Hs; [constructor|]. cbn [fmap list_fmap] in Hs.
  apply StronglySorted_inv in Hs as [Hs Hk]. rewrite filter_cons. destruct (decide _); [|by apply IH]. cbn. constructor; [by apply IH|].
  apply Forall_forall. intros x (kv & -> & Hx)%list_elem_of_fmap. apply list_elem_of_filter in Hx as [_ Hx].
  apply (proj1 (Forall_forall _ _) Hk). by apply list_elem_of_fmap_2.
Qed.

Lemma assign_parsed existing fields : parsed_json existing = true ->
  Forall (fun f : string * option json => forall v, f.2 = Some v -> parsed_json v = true) fields -> parsed_json (assign existing fields) = true.
Proof.
  intros He Hf. unfold assign. change (match existing with JObj l => l | _ => [] end) with (own_members existing).
  assert (Hl : parsed_json (JObj (own_members existing)) = true) by (by destruct existing).
  revert Hl. generalize (own_members existing) as l. induction Hf as [|[k o] fields Hv Hf IH]; intros l Hl; [done|].
  cbn [fold_left fst snd] in *. apply IH. apply parsed_object_inv in Hl as [He' Hl']. destruct o as [v|].
  - apply parsed_object; [by apply set_key_ok|]. apply Forall_forall. intros x [->|Hx]%set_key_elem; [by apply Hv|].
    by apply (proj1 (Forall_forall _ _) Hl').
  - apply parsed_object; [by apply remove_enum|]. eapply Forall_of_sublist; [apply remove_sublist|exact Hl'].
Qed.

Lemma get_assign k fields existing : NoDup fields.*1 ->
  get k (assign existing fields) = match assoc k fields with Some v => v | None => get k existing end.
Proof. intros Hd. rewrite assign_member by done. by destruct existing. Qed.

Lemma get_parsed k v x : parsed_json v = true -> get k v = Some x -> parsed_json x = true.
Proof.
  destruct v as [|b|n|s|l|l]; try done. intros [_ Hl]%parsed_object_inv Hx. cbn in Hx. apply assoc_elem in Hx.
  exact (proj1 (Forall_forall _ _) Hl _ Hx).
Qed.

Lemma loaded_parsed p d : parsed_json (loadSetupProgress p d) = true.
Proof.
  unfold loadSetupProgress, readJson. destruct (readFile _ d) as [b| |]; [|done..].
  destruct (JSON_parse (utf8_text b)) as [v|] eqn:E; [|done]. by apply JSON_parse_parsed in E.
Qed.

(** ** Files that are not the progress *)

Lemma config_tail p : exists y, config (paths p) = y +:+ "config.json".
Proof.
  destruct (decide (base (paths p) = "")) as [E|E].
  - exists "". unfold paths in *. cbn in *. by rewrite E.
  - apply path_join_tail; [done|by split_and!|by left].
Qed.

Lemma progress_not_config p : setupProgress (paths p) <> config (paths p).
Proof. destruct (setupProgress_tail p) as [y ->], (config_tail p) as [z ->]. by apply ends_differ. Qed.

Section Frame.
Context (p : Process) (f : string) (x : option entry).

Definition holds (w : World) : Prop := w_disk w !! f = x.
Definition disk_holds (d : Disk) : Prop := d !! f = x.

Lemma files_hold {A} (m : eff Disk A) : preserves disk_holds m -> preserves holds (on_files m).
Proof. intros Hm w Hw. unfold on_files. specialize (Hm _ Hw). by destruct (m (w_disk w)). Qed.

Lemma write_holds file b : f <> file -> preserves disk_holds (writeFile file b).
Proof. intros Hf d Hd. unfold writeFile. destruct (d !! file) as [[]|]; try done; unfold disk_holds; cbn; by rewrite lookup_insert_ne. Qed.

Lemma rename_holds from to : f <> from -> f <> to -> preserves disk_holds (rename from to).
Proof.
  intros H1 H2 d Hd. unfold rename. destruct (d !! from); [|done]. unfold disk_holds. cbn. by rewrite lookup_insert_ne, lookup_delete_ne.
Qed.

Lemma data_key_holds key : f <> keyFilePath p -> preserves holds (getOrCreateDataKey p key).
Proof.
  intros Hf w Hw. unfold getOrCreateDataKey, gets, lift, modify, mbind, eff_bind. destruct (cachedKey w); [done|].
  destruct (selectAdapter p) as [a|] eqn:Ea; [|done]. destruct (ka_get a (w_disk w)) as [[k|]|]; [done| |done].
  assert (Hs : preserves holds (on_files (ka_set a key))).
  { apply files_hold. apply select_cases in Ea as [-> | ->]; [by intros d|]. by apply write_holds. }
  specialize (Hs w Hw). destruct (on_files _ w) as [w' [[]|]]; [|done]. destruct (ka_get a (w_disk w')); [|done].
  by destruct (throw_if _ _).
Qed.

Lemma join_auth_holds `{Aead} r : f ∉ join_files p r -> preserves holds (loadJoinAuthorization p r).
Proof.
  intros Hf. unfold join_files in Hf. rewrite !not_elem_of_cons in Hf. destruct Hf as (H1 & H2 & H3 & _).
  unfold loadJoinAuthorization, readSecretFile, openSecret, writeSecretFile, sealSecret. preserve; try by apply data_key_holds.
  - apply files_hold. by apply write_holds.
  - apply files_hold. by apply rename_holds.
Qed.
End Frame.

(** ** The interface *)

(** What is not a started process. *)
Definition quiet {X} (q : question X) : bool := match q with Spawn _ => false | _ => true end.

(** [P] looks at the progress file only. *)
Class Framed (p : Process) (P : SetupState -> Prop) : Prop :=
  framed_file s s' : w_disk (ss_world s') !! setupProgress (paths p) = w_disk (ss_world s) !! setupProgress (paths p) -> P s -> P s'.

(** [Q] allows every quiet question. *)
Class Allows (Q : forall X, question X -> Prop) : Prop :=
  allowed X (q : question X) : quiet q = true -> Q X q.

Lemma seq_keeps {S E} {this : Chronicle S E} (P : S -> Prop) (Q : forall X, E X -> Prop) {A B} (m : prog S E A) (f : A -> prog S E B) :
  keeps P Q (fun _ => True) m -> (forall a, keeps P Q (fun _ => True) (f a)) -> keeps P Q (fun _ => True) (m ≫= f).
Proof. intros Hm Hf. eapply keeps_bind; [exact Hm|]. intros a _. apply Hf. Qed.

Section Framed.
Context {this : Chronicle SetupState question} (p : Process) (P : SetupState -> Prop) (Q : forall X, question X -> Prop) `{HP : !Framed p P} `{HQ : !Allows Q}.

Notation always := (fun _ => True).

Lemma world_keeps {A} (m : eff World A) : (forall x, preserves (holds (setupProgress (paths p)) x) m) -> keeps P Q always (atomically (with_world m)).
Proof.
  intros Hm. apply keeps_atomic. intros s Hs. split; [|done]. unfold with_world. specialize (Hm _ (ss_world s) eq_refl).
  destruct (m (ss_world s)) as [w r]. by apply (framed_file s).
Qed.

Lemma registry_keeps {A} (m : eff Machine A) : keeps P Q always (atomically (with_registry m)).
Proof. apply keeps_atomic. intros s Hs. split; [|done]. unfold with_registry. destruct (m (ss_registry s)). by apply (framed_file s). Qed.

Lemma gets_keeps {A} (f : SetupState -> A) : keeps P Q always (atomically (gets f)).
Proof. by apply keeps_atomic. Qed.

Lemma session_keeps id e : keeps P Q always (atomically (put_session id e)).
Proof. apply keeps_atomic. intros s Hs. split; [|done]. by apply (framed_file s). Qed.

(** Sub-programs that leave the progress alone and run no command that matters. *)
Lemma config_keeps : keeps P Q always (readConfig p).
Proof. apply gets_keeps. Qed.

Lemma write_config_keeps v : keeps P Q always (writeConfig p v).
Proof. apply world_keeps. intros x. apply files_hold, write_holds, progress_not_config. Qed.

Lemma join_auth_keeps `{Aead} : setupProgress (paths p) <> keyFilePath p -> keeps P Q always (joinAuthorization p).
Proof.
  intros Hk. split; [by apply allowed|]. intros r _. apply world_keeps. intros x. apply join_auth_holds. unfold join_files. rewrite !not_elem_of_cons.
  split_and!; [apply progress_not_joinAuth|apply progress_not_tmp|done|apply not_elem_of_nil].
Qed.

Lemma claim_keeps id dir : keeps P Q always (claimNode p id dir).
Proof. split; [by apply allowed|]. intros now _. split; [by apply allowed|]. intros uuid _. apply seq_keeps; [apply registry_keeps|done]. Qed.

(** An artifact that this run has downloaded and written. *)
Definition downloaded `{Hashing} (manifest : json) (dl : Downloaded) : Prop :=
  exists fetch bytes s, heard (Exchange Network fetch) /\ artifact fetch manifest bytes (dl_sha256 dl) /\
    dl_path dl = artifact_path p manifest /\ seen s /\ readFile (dl_path dl) (w_disk (ss_world s)) = Contents bytes.

Lemma download_keeps `{Hashing} manifest : keeps P Q (downloaded manifest) (downloadArtifact p manifest).
Proof.
  split; [by apply allowed|]. intros fetch Hf. apply keeps_action. intros s _ Hs. unfold with_world, on_files.
  pose proof (download_inv fetch p manifest (w_disk (ss_world s))) as Hd.
  destruct (downloadAndVerify fetch p manifest _) as [d [dl|e]]; cbn.
  - destruct Hd as (bytes & Ha & Hp & ->). split.
    + apply (framed_file s); [|exact Hs]. cbn. rewrite lookup_insert_ne; [done|]. rewrite Hp. apply not_eq_sym, progress_not_artifact.
    + intros Hv ? [= <-]. exists fetch, bytes. eexists. split_and!; [done..|exact Hv|]. cbn. unfold readFile. by rewrite lookup_insert_eq.
  - split; [|done]. apply (framed_file s); [|exact Hs]. cbn. destruct Hd as [_ Hd]. apply Hd, progress_not_artifact.
Qed.

Lemma existing_keeps l : keeps P Q always (first_existing l).
Proof. induction l as [|c l IH]; [done|]. split; [by apply allowed|]. intros [] _; [done|exact IH]. Qed.

Lemma iso_keeps : keeps P Q (fun s => s <> "") nowIso.
Proof. split; [by apply allowed|]. intros now _. apply toISOString_set. Qed.

Lemma post_keeps url body : keeps P Q (fun v => parsed_json v = true) (postJson url body).
Proof.
  split; [by apply allowed|]. intros r _. apply keeps_resume. intros v Hv. inv_ok. unfold post_result in *. inv_ok.
  unfold response_body. destruct (JSON_parse _) as [w|] eqn:E; [|done]. by apply JSON_parse_parsed in E.
Qed.

Lemma ip_keeps : keeps P Q (fun v => parsed_json v = true) detectPublicIpv4.
Proof.
  split; [by apply allowed|]. intros fetch _. eapply keeps_bind.
  { apply (keeps_resume _ _ (fun o => forall v, o = Some v -> parsed_json v = true)). intros o Ho. unfold detected_ip in Ho. inv_ok.
    unfold response_json in *. intros v Hv. eapply get_parsed; [|exact Hv]. by eapply JSON_parse_parsed. }
  intros [v|] Hv; [|exact I]. destruct (truthy _); [by apply Hv|exact I].
Qed.

Lemma ip6_keeps : keeps P Q (fun v => parsed_json v = true) detectPublicIpv6.
Proof.
  split; [by apply allowed|]. intros fetch _. eapply keeps_bind.
  { apply (keeps_resume _ _ (fun o => forall v, o = Some v -> parsed_json v = true)). intros o Ho. unfold detected_ip in Ho. inv_ok.
    unfold response_json in *. intros v Hv. eapply get_parsed; [|exact Hv]. by eapply JSON_parse_parsed. }
  intros [[]|] Hv; try exact eq_refl; by apply (Hv _ eq_refl).
Qed.

Lemma region_keeps `{UrlApi} url ip : keeps P Q (fun v => parsed_json v = true) (fetchRegion url ip).
Proof.
  split; [by apply allowed|]. intros fetch _. apply keeps_resume. intros v Hv. unfold region_of, response_json in Hv. inv_ok. by eapply JSON_parse_parsed.
Qed.

(** The manifest that the server gave in this run. *)
Definition required_manifest (url : string) (manifest : json) : Prop :=
  exists fetch, heard (Exchange Network fetch) /\ fetchRequiredManifest fetch url = Ok manifest.

Lemma manifest_keeps url : keeps P Q (fun v => parsed_json v = true /\ required_manifest url v) (fetchManifest url).
Proof.
  split; [by apply allowed|]. intros fetch Hf. apply keeps_resume. intros v Hv. split; [|by exists fetch].
  unfold fetchRequiredManifest in Hv. inv_ok. by eapply JSON_parse_parsed.
Qed.

End Framed.
