(* ===== verification/Wizard.v ===== *)
(** * The setup wizard (setup-wizard.ts)

    A local web server takes an operator through the setup: agreement, directory,
    runtime, network evaluation, registration.  Each step reads the progress file,
    checks that the earlier steps are done, and writes the file again; requests run
    interleaved.  Pages are modelled by which one is shown and with what progress. *)

From S2P Require Import Prelude Effect Program Text Json JsonText JsonIndent JsonSaved Coerce Crypto Files SecretStore Machine Dedupe Update Url Eval Join.
From S2P Require Import WalletCapture Setup.
Local Open Scope Z_scope.

Definition AGREEMENT_VERSION : string := "node-operator-good-faith-v2".

Definition WIZARD_ASSETS : list string :=
  ["/assets/consensus-logo-light.svg"; "/assets/consensus-logo-dark.svg"; "/assets/bun-logo.png"; "/assets/pm2-logo.png"].

Inductive page := Welcome | ConnectionPage | InstallPage | NetworkPage | RegistrationPage | SuccessPage.

Inductive reply :=
| JsonReply (status : Z) (body : json)
| HtmlReply (shown : page) (input : json)
| Redirect (location : string)
| AssetReply (pathname : string)
| Favicon.

Definition fail (status : Z) (message : string) : reply := JsonReply status (JObj [("error", JStr message)]).

(** ** Request bodies *)

Definition text_field (k : string) (input : json) : string := match get k input with Some (JStr s) => trim s | _ => "" end.
Definition true_field (k : string) (input : json) : bool := bool_decide (get k input = Some (JBool true)).

Record AgreementBody := { accepted : bool; agreementReviewed : bool; signature : string; confirmation : string }.
Definition normalizeAgreementBody (input : json) : AgreementBody :=
  {| accepted := true_field "accepted" input; agreementReviewed := true_field "agreementReviewed" input;
     signature := text_field "signature" input; confirmation := text_field "confirmation" input |}.

(** [s.length]: UTF-16 code units of a UTF-8 text. *)
Fixpoint js_length (s : string) : nat :=
  match s with
  | EmptyString => O
  | String c r => Nat.add (if (128 <=? code c) && (code c <? 192) then O else if 240 <=? code c then 2%nat else 1%nat) (js_length r)
  end.

Definition normalizeConnectionBody (input : json) : string := text_field "installDir" input.

Inductive install_mode := Install | Reuse.
Definition normalizeRuntimeInstallBody (input : json) : install_mode :=
  if bool_decide (get "mode" input = Some (JStr "reuse")) then Reuse else Install.

Inductive eval_mode := RealEval | TestEval.
Definition normalizeNetworkEvalBody (input : json) : eval_mode :=
  if bool_decide (get "mode" input = Some (JStr "test")) then TestEval else RealEval.

Definition normalizeEmailStartBody (input : json) : string := text_field "email" input.

Record EmailVerifyBody := { email : string; verificationId : string; verification_code : string }.
Definition normalizeEmailVerifyBody (input : json) : EmailVerifyBody :=
  {| email := text_field "email" input; verificationId := text_field "verificationId" input;
     verification_code := text_field "code" input |}.

Record RegisterBody := { rb_port : string; rb_startPm2 : bool }.
Definition normalizeRegisterBody (input : json) : RegisterBody :=
  {| rb_port := text_field "port" input; rb_startPm2 := true_field "startPm2" input |}.

Definition normalizePort (value : string) : option num :=
  let port := string_to_number (if bool_decide (value = "") then "9090" else value) in
  if negb (isInteger port) || num_ltb port (num_of_Z 1) || num_ltb (num_of_Z 65535) port then None else Some port.

(** [/^[^\s@]+@[^\s@]+\.[^\s@]+$/]: a dot of the domain with text on both sides. *)
Fixpoint inner_dot (seen : bool) (s : string) : bool :=
  match s with
  | EmptyString => false
  | String "." r => (seen && negb (bool_decide (r = ""))) || inner_dot true r
  | String _ r => inner_dot true r
  end.
Definition isValidEmail (value : string) : bool :=
  str_forall (fun c => negb (is_space c)) value &&
  match split "@" value with
  | [user; domain] => negb (bool_decide (user = "")) && inner_dot false domain
  | _ => false
  end.

Definition normalizeInstallDir (p : Process) (value : string) : option string :=
  let trimmed := trim value in
  if bool_decide (trimmed = "") then None
  else if bool_decide (trimmed = "~") then Some (homedir p)
  else if startsWith trimmed "~/" then Some (path_join [homedir p; slice_from 2 trimmed])
  else if isAbsolute trimmed then Some (Files.normalize trimmed)
  else None.

Definition normalizeChooserPath (value : string) : option string :=
  let trimmed := trim value in
  if negb (startsWith trimmed "/") then None
  else Some (if (1 <? String.length trimmed)%nat then trimTrailingSlash trimmed else trimmed).

(** ** Gates *)

Definition isCurrentAgreementAccepted (progress : json) : bool :=
  true_field "operatorAgreementAccepted" progress &&
  bool_decide (get "operatorAgreementVersion" progress = Some (JStr AGREEMENT_VERSION)).

Definition has (k : string) (progress : json) : bool := truthy (get k progress).

Definition connectionReady (progress : json) : option reply :=
  if negb (isCurrentAgreementAccepted progress) then Some (fail 409 "Operator agreement must be accepted first")
  else if negb (has "installDir" progress) then Some (fail 409 "Runtime directory must be selected first")
  else None.

Definition progressOrder : list (string * string) :=
  [("operatorAgreementAcceptedAt", "operator agreement"); ("serverUrl", "server URL confirmed");
   ("installDir", "install directory confirmed"); ("installedVersion", "runtime install");
   ("publicIpv4", "network detection"); ("evalPassedAt", "benchmark evaluation");
   ("contact", "contact and email verification"); ("evmAddress", "payout wallets"); ("port", "node port")].

(** The last key of the order that is set, whatever comes before it. *)
Definition lastCompletedProgressKey (progress : json) : option (string * string) :=
  fold_left (fun last kl => if has kl.1 progress then Some kl else last) progressOrder None.

Definition or_null (v : option json) : json := default JNull v.

Section Wizard.
Context `{UrlApi} `{Aead} `{Hashing} (p : Process).

Definition TEST_FLOW : bool := bool_decide (trim (default "" (env p "CONSENSUS_SETUP_WIZARD_TEST_FLOW")) = "1").

Definition installReady (progress : json) : option reply :=
  match connectionReady progress with
  | Some r => Some r
  | None => if negb TEST_FLOW && negb (has "installedVersion" progress) then Some (fail 409 "Runtime must be installed first") else None
  end.

Definition registrationReady (progress : json) : option reply :=
  match installReady progress with
  | Some r => Some r
  | None => if negb (has "evalPassedAt" progress) then Some (fail 409 "Network evaluation must pass first") else None
  end.

Definition progressView (progress : json) : json :=
  let last := lastCompletedProgressKey progress in
  JObj [("hasProgress", JBool (bool_decide (own_members progress <> []))); ("stateDir", JStr (stateDir p));
        ("lastCompletedKey", or_null (JStr ∘ fst <$> last)); ("lastCompletedLabel", or_null (JStr ∘ snd <$> last));
        ("operatorAgreementAccepted", JBool (isCurrentAgreementAccepted progress));
        ("operatorAgreementAcceptedAt", or_null (get "operatorAgreementAcceptedAt" progress));
        ("operatorAgreementSignature", or_null (get "operatorAgreementSignature" progress));
        ("operatorAgreementVersion", or_null (get "operatorAgreementVersion" progress));
        ("serverUrl", or_null (get "serverUrl" progress)); ("installDir", or_null (get "installDir" progress));
        ("installedVersion", or_null (get "installedVersion" progress))].

(** Reading a member of a progress that is [null] throws. *)
Definition loadMembers : program json :=
  progress ← loadProgress p; resume (members progress);; mret progress.

(** The handlers that need the earlier steps: [ready] answers when one is missing. *)
Definition when_ready (ready : json -> option reply) (k : json -> program reply) : program reply :=
  progress ← loadMembers;
  match ready progress with Some r => mret r | None => k progress end.

Definition serverUrl_of (progress : json) : json := default (JStr DEFAULT_SERVER_URL) (nullish (get "serverUrl" progress)).
Definition server_text (progress : json) : result string := text_or "serverUrl" DEFAULT_SERVER_URL progress.

(** [path.join(progress.installDir!, "current")]. *)
Definition current_dir (progress : json) : result string :=
  dir ← text_or "installDir" "" progress; Ok (path_join [dir; "current"]).

(** ** Agreement and connection *)

Definition recordOperatorAgreement (input : json) : program reply :=
  progress ← loadProgress p;
  let body := normalizeAgreementBody input in
  if negb (agreementReviewed body) then mret (fail 422 "Review and accept the Operator Agreement before signing")
  else if negb (accepted body) then mret (fail 422 "Agreement checkbox is required")
  else if (js_length (signature body) <? 2)%nat then mret (fail 422 "Electronic signature is required")
  else if negb (bool_decide (confirmation body = "I AGREE")) then mret (fail 422 "Typed confirmation must match I AGREE")
  else
    acceptedAt ← nowIso;
    next ← remember p progress [("operatorAgreementAccepted", Some (JBool true));
                                ("operatorAgreementAcceptedAt", Some (JStr acceptedAt));
                                ("operatorAgreementSignature", Some (JStr (signature body)));
                                ("operatorAgreementVersion", Some (JStr AGREEMENT_VERSION))];
    mret (JsonReply 200 (JObj [("success", JBool true); ("nextStep", JStr "configuration"); ("progress", progressView next)])).

Definition agreement_first : reply := fail 409 "Operator agreement must be accepted first".
Definition agreementReady (progress : json) : option reply :=
  if negb (isCurrentAgreementAccepted progress) then Some agreement_first else None.

Definition recordConnection (input : json) : program reply :=
  when_ready agreementReady (fun progress =>
  match normalizeInstallDir p (normalizeConnectionBody input) with
  | None => mret (fail 422 "Enter an absolute or ~-relative runtime directory")
  | Some "" => mret (fail 422 "Enter an absolute or ~-relative runtime directory")
  | Some installDir =>
      next ← remember p progress [("serverUrl", Some (JStr DEFAULT_SERVER_URL)); ("installDir", Some (JStr installDir))];
      mret (JsonReply 200 (JObj [("success", JBool true); ("nextStep", JStr "runtime-install"); ("nextUrl", JStr "/install");
                                 ("progress", progressView next)]))
  end).

(** ** The environment of the operator *)

Definition commandStatus (command : string) (args : list string) (fallbackPaths : list string) : program json :=
  executable ← resolveExecutable command fallbackPaths;
  let label := command +:+ " " +:+ join " " args in
  match executable with
  | None =>
      mret (JObj [("available", JBool false); ("command", JStr command); ("label", JStr "Not found");
                  ("detail", JStr (label +:+ " · command not found"))])
  | Some exe =>
      r ← runCapture exe args;
      mret (if ok r
            then JObj [("available", JBool true); ("command", JStr command); ("path", JStr exe); ("version", JStr (output r));
                       ("label", JStr "Detected"); ("detail", JStr (label +:+ " · " +:+ (if bool_decide (output r = "") then "ok" else output r)))]
            else JObj [("available", JBool false); ("command", JStr command); ("path", JStr exe); ("label", JStr "Failed");
                       ("detail", JStr (label +:+ " · " +:+ (if bool_decide (output r = "") then "command failed" else output r)))])
  end.

(** The two commands run at the same time; neither uses the state. *)
Definition environmentView : program json :=
  bun ← commandStatus "bun" ["--version"] (bunFallbackPaths p);
  pm2 ← commandStatus "pm2" ["--version"] pm2FallbackPaths;
  mret (JObj [("bun", bun); ("pm2", pm2); ("bunInstallCommand", JStr "scripts/ensure-bun.sh");
              ("pm2InstallCommand", JStr "scripts/ensure-pm2.sh")]).

Definition ensure (script otherwise_ : string) : program reply :=
  when_ready agreementReady (fun _ =>
    result ← runInstaller script ["--yes"] [("CI", "1"); ("NONINTERACTIVE", "1")];
    environment ← environmentView;
    mret (if ok result
          then JsonReply 200 (JObj [("success", JBool true); ("output", JStr (output result)); ("environment", environment)])
          else JsonReply 500 (JObj [("error", JStr (if bool_decide (output result = "") then otherwise_ else output result));
                                    ("environment", environment)]))).

Definition installPm2 : program reply := ensure "scripts/ensure-pm2.sh" "PM2 installation failed".
Definition installBun : program reply := ensure "scripts/ensure-bun.sh" "Bun installation failed".

Definition runChooser : program Outcome :=
  run_with {| cmd_name := "osascript";
              cmd_args := ["-e"; "POSIX path of (choose folder with prompt " +:+ quote "Select Consensus runtime directory" +:+ ")"];
              cmd_env := []; cmd_cwd := None |} trim.

Definition selectInstallDir : program reply :=
  when_ready agreementReady (fun _ =>
    if negb (bool_decide (os_platform p = "darwin")) then mret (fail 501 "Folder selection is only available on macOS")
    else
      result ← runChooser;
      if negb (ok result) then mret (fail 409 (if bool_decide (output result = "") then "Folder selection cancelled" else output result))
      else match normalizeChooserPath (output result) with
           | None | Some "" => mret (fail 422 "Folder selection did not return an absolute path")
           | Some installDir => mret (JsonReply 200 (JObj [("installDir", JStr installDir)]))
           end).

(** ** The runtime *)

Definition testReleaseManifest : json :=
  JObj [("product", JStr "consensus-node"); ("version", JStr "0.1.0-alpha.9-test"); ("artifact", JStr "npm-tarball");
        ("platform", JStr (os_platform p +:+ "-" +:+ os_arch p)); ("commit", JStr "local-test-flow");
        ("download_url", JStr "local-test-flow://consensus-node"); ("tarball_sha256", JStr "sha256:local-test-flow");
        ("routes_hash", JStr "local-test-flow"); ("capabilities", JArr (map JStr NODE_CAPABILITIES))].

Definition setupManifest (progress : json) : program json :=
  if TEST_FLOW then mret testReleaseManifest
  else url ← resume (server_text progress); fetchManifest url.

Definition manifestView (manifest : json) : json :=
  obj [("product", get "product" manifest); ("version", get "version" manifest); ("platform", get "platform" manifest);
       ("commit", get "commit" manifest); ("sha256", Some (or_null (get "tarball_sha256" manifest)));
       ("source", Some (or_null (get "download_url" manifest))); ("routesHash", get "routes_hash" manifest);
       ("capabilities", get "capabilities" manifest); ("signingKeyId", Some (or_null (get "signing_key_id" manifest)))].

Definition canReuseRuntime (progress manifest : json) : program bool :=
  if negb (has "installDir" progress) then mret false
  else if strict_equal (get "installedVersion" progress) (get "version" manifest)
  then dir ← resume (current_dir progress); ask (Access dir)
  else mret false.

Definition runtimeInstallView (progress manifest : json) : program json :=
  installDir ← resume (text_or "installDir" (DEFAULT_INSTALL_DIR p) progress);
  let currentPath := path_join [installDir; "current"] in
  canReuse ← canReuseRuntime progress manifest;
  mret (JObj [("manifest", manifestView manifest); ("serverUrl", serverUrl_of progress); ("installDir", JStr installDir);
              ("currentPath", JStr currentPath); ("installedVersion", or_null (get "installedVersion" progress));
              ("canReuse", JBool canReuse);
              ("reuseReason", if canReuse : bool
                 then JStr ("Release " +:+ template (get "version" manifest) +:+ " is already installed at " +:+ currentPath) else JNull)]).

Definition installManifestView : program reply :=
  when_ready connectionReady (fun progress =>
    manifest ← setupManifest progress; view ← runtimeInstallView progress manifest; mret (JsonReply 200 view)).

Definition rememberRuntimeInstall (progress manifest : json) : program json :=
  remember p progress [("installedVersion", get "version" manifest)].

Definition installer_env (progress manifest : json) (artifact : Downloaded) : list (string * string) :=
  env_entry "CONSENSUS_NODE_INSTALL_DIR" (get "installDir" progress) ++ [("CONSENSUS_NODE_ARTIFACT_PATH", dl_path artifact)] ++
  env_entry "CONSENSUS_NODE_TARGET_VERSION" (get "version" manifest).

Definition artifact_json (a : Downloaded) : json := JObj [("path", JStr (dl_path a)); ("sha256", JStr (dl_sha256 a))].

(** The answer once the installed version is recorded. *)
Definition installed (progress manifest : json) (mode : string) (extra : list (string * json)) : program reply :=
  next ← rememberRuntimeInstall progress manifest;
  view ← runtimeInstallView next manifest;
  mret (JsonReply 200 (JObj ([("success", JBool true); ("mode", JStr mode)] ++ extra ++
                             [("progress", progressView next); ("install", view)]))).

(** Download, verify, and run the installer on the artifact. *)
Definition install_release (progress manifest : json) : program reply :=
  artifact ← downloadArtifact p manifest;
  result ← runInstaller "scripts/install-release.sh" [] (installer_env progress manifest artifact);
  if negb (ok result) then
    view ← runtimeInstallView progress manifest;
    mret (JsonReply 500 (JObj [("error", JStr (if bool_decide (output result = "") then "Runtime installation failed" else output result));
                               ("artifact", artifact_json artifact); ("install", view)]))
  else installed progress manifest "install" [("artifact", artifact_json artifact); ("output", JStr (output result))].

Definition installRuntime (input : json) : program reply :=
  when_ready connectionReady (fun progress =>
    manifest ← setupManifest progress;
    canReuse ← canReuseRuntime progress manifest;
    match normalizeRuntimeInstallBody input with
    | Reuse =>
        if negb canReuse then mret (fail 409 "No matching runtime install is available to reuse")
        else installed progress manifest "reuse" []
    | Install =>
        if TEST_FLOW then installed progress manifest "test-install" [("output", JStr "Local test flow: runtime install simulated")]
        else install_release progress manifest
    end).

(** ** Network and evaluation *)

Definition networkView (progress : json) : program json :=
  joinAuth ← joinAuthorization p;
  now ← (if truthy joinAuth then ask Now else mret 0);
  let reusable := joinAuthReusable joinAuth now in
  mret (JObj [("testFlow", JBool TEST_FLOW); ("serverUrl", serverUrl_of progress);
              ("installDir", or_null (get "installDir" progress)); ("installedVersion", or_null (get "installedVersion" progress));
              ("networkDetected", JBool (has "publicIpv4" progress)); ("publicIpv4", or_null (get "publicIpv4" progress));
              ("publicIpv6", or_null (get "publicIpv6" progress)); ("region", or_null (get "region" progress));
              ("evalPassedAt", or_null (get "evalPassedAt" progress)); ("joinAuthReusable", JBool reusable);
              ("joinAuth", match joinAuth with
                 | Some a => if reusable then obj [("joinId", get "join_id" a); ("expiresAt", get "expires_at" a)] else JNull
                 | None => JNull end)]).

Definition networkStatus : program reply :=
  when_ready installReady (fun progress => view ← networkView progress; mret (JsonReply 200 view)).

Definition eval_passed (progress : json) : program json :=
  at_ ← nowIso; remember p progress [("evalPassedAt", Some (JStr at_))].

Definition eval_success (mode : string) (extra : list (string * json)) (next : json) : program reply :=
  network ← networkView next;
  mret (JsonReply 200 (JObj ([("success", JBool true); ("mode", JStr mode)] ++ extra ++
                             [("network", network); ("progress", progressView next)]))).

Definition test_eval (progress : json) : program reply :=
  if negb TEST_FLOW then mret (fail 403 "Local test flow is not enabled")
  else
    at_ ← nowIso;
    next ← remember p progress [("publicIpv4", Some (JStr "203.0.113.42")); ("publicIpv6", Some JNull);
      ("region", Some (JObj [("region", JStr "local-test"); ("city", JStr "Local Test"); ("country_code", JStr "US")]));
      ("evalPassedAt", Some (JStr at_))];
    eval_success "test" [] next.

(** Each thing that is detected is saved before the next one is looked for. *)
Definition detectNetwork (progress : json) : program json :=
  publicIpv4 ← detectPublicIpv4;
  next ← remember p progress [("publicIpv4", Some publicIpv4)];
  publicIpv6 ← catch detectPublicIpv6 (fun _ => mret JNull);
  next ← remember p next [("publicIpv6", Some publicIpv6)];
  region ← catch (url ← resume (server_text next); fetchRegion url publicIpv4) (fun _ => mret JNull);
  remember p next [("region", Some region)].

Definition eval_command (progress : json) (dir : string) : program Outcome :=
  runSetupCommand "bun" ["run"; "eval"]
    (env_entry "CONSENSUS_SERVER_URL" (Some (serverUrl_of progress)) ++ [("CONSENSUS_STATE_DIR", stateDir p)]) dir.

Definition real_eval (progress : json) : program reply :=
  next ← detectNetwork progress;
  joinAuth ← joinAuthorization p;
  now ← (if truthy joinAuth then ask Now else mret 0);
  if joinAuthReusable joinAuth now then eval_passed next ≫= eval_success "reuse-join-auth" []
  else
    currentDir ← resume (current_dir next);
    found ← ask (Access currentDir);
    if negb found then mret (fail 409 ("Installed runtime not found at " +:+ currentDir))
    else
      result ← eval_command next currentDir;
      if negb (ok result) then
        network ← networkView next;
        mret (JsonReply 500 (JObj [("error", JStr (if bool_decide (output result = "") then "Benchmark evaluation failed" else output result));
                                   ("network", network)]))
      else eval_passed next ≫= eval_success "real" [("output", JStr (output result))].

Definition runNetworkEval (input : json) : program reply :=
  when_ready installReady (fun progress =>
    match normalizeNetworkEvalBody input with TestEval => test_eval progress | RealEval => real_eval progress end).

(** ** Registration *)

Definition emailVerified (progress : json) (now : Z) : bool :=
  has "emailVerificationToken" progress && fresh_until (get "emailVerificationExpiresAt" progress) now.

Definition registrationView (progress : json) : program json :=
  config ← readConfig p;
  resume (members config);;
  now ← ask Now;
  runtime ← (if has "installDir" progress then dir ← resume (current_dir progress); mret (JStr dir) else mret JNull);
  mret (JObj [("testFlow", JBool TEST_FLOW); ("progress", progressView progress); ("contact", or_null (get "contact" progress));
              ("emailVerified", JBool (emailVerified progress now));
              ("emailVerificationExpiresAt", or_null (get "emailVerificationExpiresAt" progress));
              ("wallets", obj (currentWalletAddresses progress));
              ("walletErrors", JObj (address_errors progress));
              ("port", default (JStr "9090") (nullish (get "port" progress)));
              ("network", JObj [("publicIpv4", or_null (get "publicIpv4" progress)); ("publicIpv6", or_null (get "publicIpv6" progress));
                                ("region", or_null (get "region" progress)); ("evalPassedAt", or_null (get "evalPassedAt" progress))]);
              ("config", config); ("registered", JBool (has "node_id" config)); ("stateDir", JStr (stateDir p));
              ("runtimeCurrent", runtime)]).

Definition registrationStatus : program reply :=
  when_ready registrationReady (fun progress => view ← registrationView progress; mret (JsonReply 200 view)).

Definition invalid_email : reply := fail 422 "Enter a valid contact email".

Definition startEmailVerification (input : json) : program reply :=
  when_ready registrationReady (fun progress =>
    let mail := normalizeEmailStartBody input in
    if negb (isValidEmail mail) then mret invalid_email
    else if TEST_FLOW then
      now ← ask Now;
      mret (JsonReply 200 (JObj [("verification_id", JStr "local-test-email"); ("expires_at", JNum (num_of_Z (now / 1000 + 900)));
                                 ("dev_code", JStr "123456"); ("testFlow", JBool true)]))
    else
      url ← resume (server_text progress);
      started ← postJson (trimTrailingSlash url +:+ "/node/email/start") (JObj [("email", JStr mail)]);
      mret (JsonReply 200 started)).

(** What the server says of the code that was entered. *)
Definition verify_code (progress : json) (body : EmailVerifyBody) : program json :=
  if TEST_FLOW then
    now ← ask Now;
    mret (JObj [("email_verification_token", JStr "local-test-email-token"); ("expires_at", JNum (num_of_Z (now / 1000 + 3600)))])
  else
    url ← resume (server_text progress);
    postJson (trimTrailingSlash url +:+ "/node/email/verify")
      (JObj [("email", JStr (email body)); ("verification_id", JStr (verificationId body)); ("code", JStr (verification_code body))]).

Definition verifyEmailCode (input : json) : program reply :=
  when_ready registrationReady (fun progress =>
    let body := normalizeEmailVerifyBody input in
    if negb (isValidEmail (email body)) then mret invalid_email
    else if bool_decide (verificationId body = "") then mret (fail 422 "Verification session is missing")
    else if bool_decide (verification_code body = "") then mret (fail 422 "Enter the email verification code")
    else
      verified ← verify_code progress body;
      next ← remember p progress [("contact", Some (JStr (email body)));
                                  ("emailVerificationToken", get "email_verification_token" verified);
                                  ("emailVerificationExpiresAt", get "expires_at" verified)];
      view ← registrationView next;
      mret (JsonReply 200 (JObj [("success", JBool true); ("progress", progressView next); ("registration", view)]))).

Definition testWalletAddresses : list (string * option json) :=
  [("evmAddress", Some (JStr "0x0000000000000000000000000000000000000000"));
   ("solanaAddress", Some (JStr "11111111111111111111111111111111")); ("icpAddress", Some (JStr "aaaaa-aa"))].

Definition startWalletSession : program reply :=
  when_ready registrationReady (fun progress =>
    if TEST_FLOW then
      next ← remember p progress testWalletAddresses;
      view ← registrationView next;
      mret (JsonReply 200 (JObj [("success", JBool true); ("done", JBool true); ("testFlow", JBool true);
                                 ("addresses", obj testWalletAddresses); ("registration", view)]))
    else
      sessionId ← ask RandomUUID;
      url ← ask (StartWalletServer (normalizeWalletAddresses progress));
      url ← resume url;
      atomically (put_session sessionId {| we_url := url; we_status := pending; we_addresses := None |});;
      mret (JsonReply 200 (JObj [("success", JBool true); ("sessionId", JStr sessionId); ("url", JStr url)]))).

Definition find_session (id : string) : program (option WalletEntry) := atomically (gets (fun s => walletSessions s !! id)).
Definition set_status (id : string) (e : WalletEntry) (st : session_status) (a : option (list (string * option json))) : program unit :=
  atomically (put_session id {| we_url := we_url e; we_status := st; we_addresses := a |}).

(** [session.done.then(...).catch(...)], when [done] settles: the progress is read
    again, and no gate is checked. *)
Definition walletDone (sessionId : string) (settled : settlement) : program unit :=
  catch
    (match settled with
     | Stopped e => raise e
     | Submitted addresses =>
         current ← find_session sessionId;
         match current with
         | None => mret tt
         | Some c =>
             latest ← loadMembers;
             let merged := merged_addresses latest addresses in
             remember p latest merged;;
             set_status sessionId c done_ (Some merged);;
             catch (r ← ask (StopWalletServer sessionId); resume r) (fun _ => mret tt)
         end
     end)
    (fun e =>
       current ← find_session sessionId;
       match current with
       | None => mret tt
       | Some c => set_status sessionId c (error_ (errorMessage e)) (we_addresses c)
       end).

Definition status_text (st : session_status) : string := match st with pending => "pending" | done_ => "done" | error_ _ => "error" end.

Definition walletSessionStatus (session : option string) : program reply :=
  when_ready registrationReady (fun progress =>
    match set_text session with
    | None =>
        view ← registrationView progress;
        mret (JsonReply 200 (JObj [("status", JStr "current"); ("addresses", obj (currentWalletAddresses progress)); ("registration", view)]))
    | Some id =>
        found ← find_session id;
        match found with
        | None => mret (fail 404 "Wallet session not found")
        | Some e =>
            latest ← loadMembers;
            current ← find_session id;
            let st := we_status (default e current) in
            view ← registrationView latest;
            mret (JsonReply 200 (JObj [("status", JStr (status_text st));
                                       ("error", match st with error_ m => JStr m | _ => JNull end);
                                       ("addresses", obj (currentWalletAddresses latest)); ("registration", view)]))
        end
    end).

(** What is missing for a registration, in the order it is reported. *)
Definition registrationValidationErrors (progress : json) (now : Z) : list string :=
  (if has "contact" progress && emailVerified progress now then [] else ["Contact email must be verified"]) ++
  (if has "publicIpv4" progress then [] else ["Public IPv4 must be detected"]) ++
  (if has "evalPassedAt" progress then [] else ["Network evaluation must pass"]) ++
  (if has "evmAddress" progress then [] else ["EVM address is required"]) ++
  (if has "solanaAddress" progress then [] else ["Solana address is required"]) ++
  (if has "icpAddress" progress then [] else ["ICP address is required"]) ++
  map (fun kv => js_string kv.2) (address_errors progress).

Definition testNodeConfig (progress : json) (port : num) (registered commissioned : string) : json :=
  JObj [("node_id", JStr "node-local-test"); ("domain", JStr "node-local-test.consensus.local");
        ("region", default (JStr "local-test") (nullish (nullish (get "region" progress) ≫= get "region")));
        ("ipv4", default (JStr "203.0.113.42") (nullish (get "publicIpv4" progress))); ("ipv6", or_null (get "publicIpv6" progress));
        ("port", JNum port); ("registered_at", JStr registered); ("commissioned_at", JStr commissioned);
        ("benchmark_score", JNum (num_of_Z 100)); ("orchestrator_pubkey", JNull)].

Definition registrationEnv (progress : json) (port : num) : list (string * string) :=
  [("CONSENSUS_SERVER_URL", js_string (serverUrl_of progress)); ("CONSENSUS_STATE_DIR", stateDir p)] ++
  env_entry "CONSENSUS_NODE_IPV4" (get "publicIpv4" progress) ++
  (if has "publicIpv6" progress then env_entry "CONSENSUS_NODE_IPV6" (get "publicIpv6" progress) else []) ++
  [("CONSENSUS_NODE_PORT", num_to_string port)] ++
  env_entry "CONSENSUS_NODE_CONTACT" (get "contact" progress) ++
  env_entry "CONSENSUS_EMAIL_VERIFICATION_TOKEN" (get "emailVerificationToken" progress) ++
  env_entry "CONSENSUS_EVM_ADDRESS" (get "evmAddress" progress) ++
  env_entry "CONSENSUS_SOLANA_ADDRESS" (get "solanaAddress" progress) ++
  env_entry "CONSENSUS_ICP_ADDRESS" (get "icpAddress" progress).

Definition verifyPm2Online (pm2 appName : string) : program Outcome :=
  ask (Sleep (pm2VerifyDelayMs p));;
  list ← runSetupCommand pm2 ["jlist"] [] (cwd p);
  mret (if negb (ok list)
        then {| ok := false; output := if bool_decide (output list = "") then "Could not inspect PM2 process status" else output list |}
        else
          let status := pm2StatusFromJlist (output list) appName in
          if bool_decide (status = Some (JStr "online")) then {| ok := true; output := "PM2 " +:+ appName +:+ " is online" |}
          else {| ok := false;
                  output := "PM2 accepted " +:+ appName +:+ ", but it did not reach online status (status: " +:+
                    (if truthy status then template status else "missing") +:+ "). Check logs with: pm2 logs " +:+ appName |}).

(** [path.join(installDir, ...)] where [installDir] is set. *)
Definition startPm2Control (progress : json) : program Outcome :=
  if TEST_FLOW then mret {| ok := true; output := "Local test flow: PM2 start simulated" |}
  else if negb (has "installDir" progress) then mret {| ok := false; output := "Runtime install directory is missing" |}
  else
    installDir ← resume (text_or "installDir" "" progress);
    let appName := env_trimmed_or p "CONSENSUS_PM2_NAME" DEFAULT_PM2_NAME in
    let configPath := path_join [installDir; "current"; "ecosystem.config.cjs"] in
    found ← ask (Access configPath);
    if negb found then mret {| ok := false; output := "PM2 config not found at " +:+ configPath |}
    else
      pm2 ← resolveExecutable "pm2" pm2FallbackPaths;
      match pm2 with
      | None => mret {| ok := false; output := "PM2 is not available" |}
      | Some pm2 =>
          start ← runSetupCommand pm2 ["startOrReload"; configPath; "--only"; appName; "--update-env"]
            [("CONSENSUS_SERVER_URL", js_string (serverUrl_of progress)); ("CONSENSUS_STATE_DIR", stateDir p);
             ("CONSENSUS_NODE_INSTALL_DIR", installDir);
             ("CONSENSUS_NODE_RELEASE_RETENTION", env_trimmed_or p "CONSENSUS_NODE_RELEASE_RETENTION" "3");
             ("CONSENSUS_PM2_NAME", appName);
             ("CONSENSUS_NODE_UPDATE_COMMAND", path_join [installDir; "current"; "scripts"; "install-release.sh"])] (cwd p);
          if negb (ok start) then mret start
          else
            online ← verifyPm2Online pm2 appName;
            if negb (ok online) then mret online
            else
              save ← runSetupCommand pm2 ["save"] [] (cwd p);
              let nl := String "010" "" in
              mret (if ok save
                    then {| ok := true; output := compactOutput (output start +:+ nl +:+ output online +:+ nl +:+ output save) |}
                    else save)
      end.

(** [bun run register] for a node that has no id yet: [None] when it succeeds. *)
Definition register_child (next : json) (port : num) : program (option reply) :=
  currentDir ← resume (current_dir next);
  found ← ask (Access currentDir);
  if negb found then mret (Some (fail 409 ("Installed runtime not found at " +:+ currentDir)))
  else
    result ← runSetupCommand "bun" ["run"; "register"] (registrationEnv next port) currentDir;
    mret (if ok result then None
          else Some (fail 500 (if bool_decide (output result = "") then "Node registration failed" else output result))).

(** [claimMachineNode] with the node id of a configuration. *)
Definition claim_existing (config next : json) : program unit :=
  claimNode p (text_member "node_id" config) (as_string (get "installDir" next)).

(** The registration itself: the configuration afterwards, or an answer. *)
Definition register (next : json) (port : num) : program (json + reply) :=
  if TEST_FLOW then
    r ← nowIso; c ← nowIso;
    let config := testNodeConfig next port r c in
    writeConfig p config;; mret (inl config)
  else
    existing ← readConfig p;
    resume (members existing);;
    failed ← (if has "node_id" existing then claim_existing existing next;; mret None else register_child next port);
    match failed with
    | Some r => mret (inr r)
    | None =>
        config ← readConfig p;
        resume (members config);;
        (if has "node_id" config then claim_existing config next else mret tt);;
        mret (inl config)
    end.

Definition registerNodeFromWizard (input : json) : program reply :=
  when_ready registrationReady (fun progress =>
    let body := normalizeRegisterBody input in
    match normalizePort (rb_port body) with
    | None => mret (fail 422 "Enter a valid TCP port")
    | Some port =>
        now ← ask Now;
        match registrationValidationErrors progress now with
        | _ :: _ as errors => mret (fail 422 (join "; " errors))
        | [] =>
            next ← remember p progress [("port", Some (JStr (num_to_string port)))];
            registered ← register next port;
            match registered with
            | inr r => mret r
            | inl config =>
                let finish (pm2 : json) :=
                  view ← registrationView next;
                  mret (JsonReply 200 (JObj [("success", JBool true); ("config", config); ("pm2", pm2); ("registration", view)])) in
                if rb_startPm2 body then
                  started ← startPm2Control next;
                  if negb (ok started)
                  then mret (JsonReply 500 (JObj [("error", JStr (if bool_decide (output started = "") then "PM2 start failed" else output started));
                                                  ("config", config)]))
                  else finish (JObj [("started", JBool true); ("output", JStr (output started))])
                else finish JNull
            end
        end
    end).

Definition startPm2FromWizard : program reply :=
  when_ready registrationReady (fun progress =>
    config ← readConfig p;
    resume (members config);;
    if negb (has "node_id" config) then mret (fail 409 "Node must be registered before starting PM2")
    else
      result ← startPm2Control progress;
      mret (if ok result then JsonReply 200 (JObj [("success", JBool true); ("output", JStr (output result))])
            else fail 500 (if bool_decide (output result = "") then "PM2 start failed" else output result))).

(** [/FileVault is Off/i] of what [fdesetup] prints, unless it does not start. *)
Definition fileVault : program (option bool) :=
  if negb (bool_decide (os_platform p = "darwin")) then mret None
  else
    e ← ask (Spawn {| cmd_name := "fdesetup"; cmd_args := ["status"]; cmd_env := []; cmd_cwd := None |});
    mret (match e with
          | Exited _ out => Some (negb (includes (toLowerCase out) "filevault is off"))
          | NotStarted _ => None
          end).

Definition headlessStatus : program json :=
  progress ← loadMembers;
  dir ← resume (text_or "installDir" (DEFAULT_INSTALL_DIR p) progress);
  let plist := "/Library/LaunchDaemons/com.consensus.node.plist" in
  daemonInstalled ← ask (Access plist);
  fileVaultOn ← fileVault;
  mret (JObj [("platform", JStr (os_platform p)); ("daemonInstalled", JBool daemonInstalled); ("plist", JStr plist);
              ("fileVaultOn", or_null (JBool <$> fileVaultOn));
              ("installCommand", JStr ("sudo " +:+ path_join [dir; "current"; "scripts"; "install-launchd.sh"]));
              ("restartCommand", JStr ("sudo " +:+ path_join [dir; "current"; "scripts"; "node-service.sh"] +:+ " restart"));
              ("ready", JBool (daemonInstalled && negb (bool_decide (fileVaultOn = Some true))))]).

(** ** Requests *)

Definition query_param (k : string) (url : URL) : option string := assoc k (parse_query (search url)).

Definition DEV_RELOAD : bool := bool_decide (trim (default "" (env p "CONSENSUS_SETUP_WIZARD_DEV_RELOAD")) = "1").

(** [setupWizardTemplateVersion] (render.ts). *)
Definition templateVersion (serverStartId : string) : program string :=
  stats ← ask StatTemplates;
  stats ← resume stats;
  mret (serverStartId +:+ ":" +:+ join "|" (map (fun s : string * num * num => s.1.1 +:+ ":" +:+ num_to_string s.1.2 +:+ ":" +:+ num_to_string s.2) stats)).

Section Server.
Context (token serverStartId : string).

Definition with_token (path : string) : string := path +:+ "?token=" +:+ encodeURIComponent token.
Definition link (path : string) : program reply := mret (Redirect (with_token path)).

(** What a page is rendered from: the progress, its links and some texts. *)
Definition html (shown : page) (progress : json) (links : list (string * string)) (texts : list (string * json)) : program reply :=
  version ← templateVersion serverStartId;
  mret (HtmlReply shown (JObj ([("progress", progressView progress)] ++ map (fun kl => (kl.1, JStr (with_token kl.2))) links ++ texts ++
    [("serverStartId", JStr version); ("devReload", JBool DEV_RELOAD)]))).

Definition common_links : list (string * string) := [("logoUrl", "/assets/consensus-logo-light.svg"); ("faviconUrl", "/favicon.svg")].
Definition reload_link : list (string * string) := [("reloadUrl", "/api/reload-version")].

(** The pages lead back to the first step that is missing. *)
Definition successPage : program reply :=
  progress ← loadMembers;
  if negb (isCurrentAgreementAccepted progress) then link "/"
  else if negb (has "evalPassedAt" progress) then link "/network"
  else
    config ← readConfig p;
    resume (members config);;
    if negb (has "node_id" config) then link "/registration"
    else html SuccessPage progress
           (common_links ++ [("statusUrl", "/api/registration-status"); ("pm2Url", "/api/start-pm2"); ("headlessUrl", "/api/headless-status")] ++ reload_link)
           [("installDir", default (JStr (DEFAULT_INSTALL_DIR p)) (nullish (get "installDir" progress)))].

Definition registrationPage : program reply :=
  progress ← loadMembers;
  if negb (isCurrentAgreementAccepted progress) then link "/"
  else if negb (has "evalPassedAt" progress) then link "/network"
  else html RegistrationPage progress
         (common_links ++ [("backUrl", "/network"); ("statusUrl", "/api/registration-status"); ("emailStartUrl", "/api/email/start");
           ("emailVerifyUrl", "/api/email/verify"); ("walletSessionUrl", "/api/wallet-session"); ("walletStatusUrl", "/api/wallet-status");
           ("registerUrl", "/api/register-node"); ("successUrl", "/success")] ++ reload_link) [].

Definition networkPage : program reply :=
  progress ← loadMembers;
  if negb (isCurrentAgreementAccepted progress) then link "/"
  else if negb (has "installDir" progress) then link "/connection"
  else if negb TEST_FLOW && negb (has "installedVersion" progress) then link "/install"
  else html NetworkPage progress
         (common_links ++ [("backUrl", "/install"); ("statusUrl", "/api/network-status"); ("runUrl", "/api/network-eval");
           ("nextUrl", "/registration")] ++ reload_link) [].

Definition installPage : program reply :=
  progress ← loadMembers;
  if negb (isCurrentAgreementAccepted progress) then link "/"
  else if negb (has "installDir" progress) then link "/connection"
  else html InstallPage progress
         (common_links ++ [("backUrl", "/connection"); ("manifestUrl", "/api/install-manifest"); ("installUrl", "/api/runtime-install");
           ("nextUrl", "/network")] ++ reload_link) [("installDir", or_null (get "installDir" progress))].

Definition connectionPage : program reply :=
  progress ← loadMembers;
  if negb (isCurrentAgreementAccepted progress) then link "/"
  else html ConnectionPage progress
         (common_links ++ [("bunLogoUrl", "/assets/bun-logo.png"); ("pm2LogoUrl", "/assets/pm2-logo.png"); ("backUrl", "/");
           ("connectionUrl", "/api/connection"); ("installUrl", "/install"); ("installDirSelectUrl", "/api/select-install-dir");
           ("environmentUrl", "/api/environment"); ("bunInstallUrl", "/api/install-bun"); ("pm2InstallUrl", "/api/install-pm2")] ++ reload_link)
         [("installDir", default (JStr (DEFAULT_INSTALL_DIR p)) (nullish (get "installDir" progress)));
          ("defaultInstallDir", JStr (DEFAULT_INSTALL_DIR p))].

Definition welcomePage : program reply :=
  progress ← loadMembers;
  html Welcome progress
    (common_links ++ [("progressUrl", "/api/progress"); ("agreementUrl", "/api/operator-agreement"); ("nextUrl", "/connection")] ++ reload_link)
    [("agreementVersion", JStr AGREEMENT_VERSION)].

(** [GET]: the views, then the pages; any other path is the welcome page. *)
Definition handle_get (url : URL) : program reply :=
  let path := pathname url in
  if bool_decide (path ∈ WIZARD_ASSETS) then mret (AssetReply path)
  else if bool_decide (path = "/api/progress") then progress ← loadMembers; mret (JsonReply 200 (progressView progress))
  else if bool_decide (path = "/api/environment") then view ← environmentView; mret (JsonReply 200 view)
  else if bool_decide (path = "/api/install-manifest") then installManifestView
  else if bool_decide (path = "/api/network-status") then networkStatus
  else if bool_decide (path = "/api/registration-status") then registrationStatus
  else if bool_decide (path = "/api/reload-version") then version ← templateVersion serverStartId; mret (JsonReply 200 (JObj [("serverStartId", JStr version)]))
  else if bool_decide (path = "/api/wallet-status") then walletSessionStatus (query_param "session" url)
  else if bool_decide (path = "/api/headless-status") then view ← headlessStatus; mret (JsonReply 200 view)
  else if bool_decide (path = "/success") then successPage
  else if bool_decide (path = "/registration") then registrationPage
  else if bool_decide (path = "/network") then networkPage
  else if bool_decide (path = "/install") then installPage
  else if bool_decide (path = "/connection") then connectionPage
  else welcomePage.

Definition handle_post (path : string) (body : json) : program reply :=
  if bool_decide (path = "/api/operator-agreement") then recordOperatorAgreement body
  else if bool_decide (path = "/api/connection") then recordConnection body
  else if bool_decide (path = "/api/select-install-dir") then selectInstallDir
  else if bool_decide (path = "/api/install-bun") then installBun
  else if bool_decide (path = "/api/install-pm2") then installPm2
  else if bool_decide (path = "/api/runtime-install") then installRuntime body
  else if bool_decide (path = "/api/network-eval") then runNetworkEval body
  else if bool_decide (path = "/api/email/start") then startEmailVerification body
  else if bool_decide (path = "/api/email/verify") then verifyEmailCode body
  else if bool_decide (path = "/api/wallet-session") then startWalletSession
  else if bool_decide (path = "/api/register-node") then registerNodeFromWizard body
  else if bool_decide (path = "/api/start-pm2") then startPm2FromWizard
  else mret (fail 404 "Not found").

Definition handleWizardRequest (method : string) (url : URL) (body : json) : program reply :=
  if bool_decide (pathname url = "/favicon.ico") || bool_decide (pathname url = "/favicon.svg") then mret Favicon
  else if negb (bool_decide (query_param "token" url = Some token)) then mret (fail 403 "Invalid setup wizard token")
  else if bool_decide (method = "GET") then handle_get url
  else if bool_decide (method = "POST") then handle_post (pathname url) body
  else mret (fail 404 "Not found").

(** [handleNodeRequest] with the [catch] of the server around it; the body is read
    only for a POST. *)
Definition serve (q : Incoming) : program reply :=
  let method := default "GET" (in_method q) in
  catch
    (url ← resume (of_option (new_URL_at (default "/" (in_url q)) ("http://" +:+ default "127.0.0.1" (in_host q))) InvalidUrl);
     body ← resume (if bool_decide (method = "POST") then readJsonBody (in_chunks q) else Ok JNull);
     handleWizardRequest method url body)
    (fun e => mret (fail 500 (errorMessage e))).

(** What may start to run: a request, the end of a wallet session, and a change that
    a child process makes to other files or to the machine registry. *)
Inductive starts : program (option reply) -> Prop :=
| starts_request q : starts (r ← serve q; mret (Some r))
| starts_wallet id settled : starts (walletDone id settled;; mret None)
| starts_child (m : eff SetupState unit) :
    (forall s, w_disk (ss_world (m s).1) !! setupProgress (paths p) = w_disk (ss_world s) !! setupProgress (paths p)) ->
    starts (atomically m;; mret None).
End Server.
End Wizard.

(** ** The port *)

Lemma parse_decimal_canonical neg s n : parse_decimal neg s = n -> isInteger n = true -> exists z, n = num_of_Z z.
Proof.
  intros <-. unfold parse_decimal. destruct (bool_decide (s = "Infinity")); [done|].
  pose proof (parse_digits_nonneg_acc s 0 0 ltac:(lia)) as H1. destruct (parse_digits 0 0 s) as [[ip n1] s1]. cbn in H1.
  set (frac := match s1 with String "." r => parse_digits ip 0 r | _ => (ip, O, s1) end).
  assert (H2 : 0 <= frac.1.1).
  { unfold frac. destruct s1 as [|[[] [] [] [] [] [] [] []] r]; try done. by apply parse_digits_nonneg_acc. }
  destruct frac as [[m n2] s2]. cbn in H2. destruct (bool_decide _); [done|].
  destruct (parse_exp s2) as [[x [|]]|]; try done. pose proof (mk_num_parsed neg m (x - Z.of_nat n2) H2) as Hp.
  destruct (mk_num neg m (x - Z.of_nat n2)) as [| |z e]; try done. cbn. unfold parsed_num in Hp. rewrite orb_false_r in Hp. cbn in Hp. bool_solve.
  intros Hi. bool_solve. destruct e as [|e]; [by exists z|]. exfalso. cbn [bool_decide] in *.
  rewrite bool_decide_false in * by done. cbn [orb] in *. bool_solve. rename select (z mod 10 <> 0) into Hz. apply Hz.
  rename select (z mod pow10 (S e) = 0) into Hd. unfold pow10 in Hd. rewrite Nat2Z.inj_succ, Z.pow_succ_r in Hd by lia.
  apply Z.mod_divide in Hd as [q ->]; [|pose proof (Z.pow_pos_nonneg 10 (Z.of_nat e)); lia]. rewrite Z.mul_assoc, (Z.mul_comm q 10), <- Z.mul_assoc, Z.mul_comm.
  apply Z.mod_mul. lia.
Qed.

Lemma parse_radix_canonical r s n : 0 < r -> parse_radix r s = n -> isInteger n = true -> exists z, n = num_of_Z z.
Proof.
  intros Hr <-. unfold parse_radix. destruct (bool_decide (s = "")); [done|]. destruct (radix_digits r 0 s) as [v|] eqn:E; [|done].
  unfold mk_num. cbn. rewrite Z.mul_1_r. destruct (overflow_threshold <=? v); [done|]. by exists v.
Qed.

Lemma number_canonical s n : string_to_number s = n -> isInteger n = true -> exists z, n = num_of_Z z.
Proof.
  unfold string_to_number. cbv zeta. destruct (trim s) as [|c r]; [intros <- _; by exists 0|]. intros E Hi.
  repeat match type of E with
  | context [match ?x with _ => _ end] => destruct x
  end; first [eapply parse_decimal_canonical; eassumption|eapply (parse_radix_canonical 16); [lia|eassumption..]
             |eapply (parse_radix_canonical 8); [lia|eassumption..]|eapply (parse_radix_canonical 2); [lia|eassumption..]].
Qed.

(** A port the wizard accepts is a TCP port. *)
Lemma normalizePort_range value port : normalizePort value = Some port -> exists z, port = num_of_Z z /\ 1 <= z <= 65535.
Proof.
  unfold normalizePort. set (n := string_to_number _). destruct (isInteger n) eqn:Ei; [cbn [negb orb]|done].
  destruct (number_canonical _ n eq_refl Ei) as [z Hz]. rewrite Hz, !num_ltb_Z. destruct (z <? 1) eqn:E1; [done|].
  destruct (65535 <? z) eqn:E2; [done|]. cbn. intros [= <-]. bool_solve. exists z. split; [done|lia].
Qed.
