(* ===== verification/WizardOrder.v ===== *)
(** * The wizard keeps its steps in order

    Requests of the setup wizard run interleaved, each with the progress it read
    first; still the progress file never gets ahead of a step, and the commands that
    install, evaluate and register are only run once their step is due. *)

From S2P Require Import Prelude Effect Program Text Json JsonText JsonIndent JsonSaved Coerce Crypto Files SecretStore Machine Dedupe Update Url Eval.
From S2P Require Import Join WalletCapture Setup SetupFrame Wizard.
Local Open Scope Z_scope.

(** ** What the order is *)

(** Later steps are texts, and each one needs the one before it. *)
Record order_of (current : Prop) (dir version eval_ contact port : option json) : Prop := {
  or_dir_text : truthy dir = true -> exists s, dir = Some (JStr s);
  or_eval_text : truthy eval_ = true -> exists s, eval_ = Some (JStr s);
  or_contact_text : truthy contact = true -> exists s, contact = Some (JStr s);
  or_port_text : truthy port = true -> exists s, port = Some (JStr s);
  or_agreed : truthy dir = true -> current;
  or_version : truthy version = true -> truthy dir = true;
  or_eval : truthy eval_ = true -> truthy dir = true;
  or_contact : truthy contact = true -> truthy eval_ = true;
  or_port : truthy port = true -> truthy contact = true }.

Definition ordered (progress : json) : Prop :=
  order_of (isCurrentAgreementAccepted progress = true) (get "installDir" progress) (get "installedVersion" progress)
    (get "evalPassedAt" progress) (get "contact" progress) (get "port" progress).

Section Commands.
Context `{UrlApi} `{Aead} `{Hashing} (p : Process).

Definition saved_progress (s : SetupState) : json := loadSetupProgress p (w_disk (ss_world s)).

Definition in_order (s : SetupState) : Prop := ordered (saved_progress s).

(** Members of a progress that are set, and the facts each step leaves. *)
Definition all_set (keys : list string) (progress : json) : Prop := Forall (fun k => truthy (get k progress) = true) keys.

Definition agreed (progress : json) : Prop :=
  get "operatorAgreementAccepted" progress = Some (JBool true) /\
  get "operatorAgreementVersion" progress = Some (JStr AGREEMENT_VERSION).

(** A verified contact until a minute after [now] and payout addresses that are valid. *)
Record registrable (progress : json) (now : Z) : Prop := {
  rg_agreed : agreed progress;
  rg_set : all_set ["installDir"; "installedVersion"; "evalPassedAt"; "contact"; "emailVerificationToken"; "publicIpv4";
    "evmAddress"; "solanaAddress"; "icpAddress"; "emailVerificationExpiresAt"] progress;
  rg_until : member_gt (get "emailVerificationExpiresAt" progress) (now / 1000 + 60) = true;
  rg_valid : forall v, (get "evmAddress" progress = Some v -> isValidEvmAddress (js_string v) = true) /\
    (get "solanaAddress" progress = Some v -> isValidSolanaAddress (js_string v) = true) /\
    (get "icpAddress" progress = Some v -> isValidIcpAddress (js_string v) = true) }.

Section Run.
Context {this : Chronicle SetupState question}.

(** The progress as it was on the disk at some moment of the run. *)
Definition was_saved (progress : json) : Prop := exists s, seen s /\ saved_progress s = progress.

(** The commands that matter, by their arguments: the installer is given an artifact
    that the run has downloaded for the manifest that the run was given, the evaluation
    runs in an installed runtime, and a registration is of a progress with every step
    done; each time for a progress that was on the disk. *)
Record sound_command (c : Command) : Prop := {
  so_install : cmd_args c = [] -> exists progress url manifest dl,
    was_saved progress /\ agreed progress /\ all_set ["installDir"] progress /\ cmd_name c = "scripts/install-release.sh" /\
    server_text progress = Ok url /\ required_manifest url manifest /\ downloaded p manifest dl /\
    cmd_env c = installer_env progress manifest dl;
  so_eval : cmd_args c = ["run"; "eval"] -> exists progress dir,
    was_saved progress /\ agreed progress /\ all_set ["installDir"; "installedVersion"] progress /\
    current_dir progress = Ok dir /\ cmd_cwd c = Some dir;
  so_register : cmd_args c = ["run"; "register"] -> exists progress now port dir,
    was_saved progress /\ heard (Exchange Now now) /\ registrable progress now /\ 1 <= port <= 65535 /\
    current_dir progress = Ok dir /\ cmd_cwd c = Some dir /\
    cmd_env c = registrationEnv p (assign progress [("port", Some (JStr (num_to_string (num_of_Z port))))]) (num_of_Z port) }.

Definition sound_question (X : Type) (q : question X) : Prop :=
  match q with Spawn c => sound_command c | _ => True end.
End Run.

(** What a handler knows of the progress it read. *)
Definition snapshot (progress : json) : Prop := parsed_json progress = true /\ ordered progress.
Definition loaded {this : Chronicle SetupState question} (progress : json) : Prop := snapshot progress /\ was_saved progress.
End Commands.

(** ** Progress *)

Lemma ordered_finite v : ordered v -> ordered (finite v).
Proof.
  intros Ho. unfold ordered. rewrite !get_finite.
  assert (Hc : isCurrentAgreementAccepted v = true -> isCurrentAgreementAccepted (finite v) = true).
  { unfold isCurrentAgreementAccepted, true_field. rewrite !get_finite. intros Hc. bool_solve.
    rewrite H, H0. by rewrite !bool_decide_true. }
  assert (Ht : forall o, truthy (finite <$> o) = true -> truthy o = true).
  { intros [[|b|n|s|l|l]|]; try done. by destruct n. }
  assert (Hs : forall o, (truthy o = true -> exists s, o = Some (JStr s)) -> truthy o = true ->
    truthy (finite <$> o) = true /\ exists s, finite <$> o = Some (JStr s)).
  { intros o Ho' Hx. destruct (Ho' Hx) as [s ->]. split; [done|by exists s]. }
  destruct Ho as [H1 H2 H3 H4 H5 H6 H7 H8 H9].
  split; try (intros Hx%Ht; by apply Hs); intros Hx%Ht; [by apply Hc, H5|apply Hs; auto..].
Qed.

(** ** What a step writes *)

(** Members of a patch: a member of another name is kept. *)
Ltac patched :=
  unfold ordered, isCurrentAgreementAccepted, true_field;
  rewrite !get_assign by (apply (bool_decide_unpack _); vm_compute; exact I); cbn [assoc];
  repeat first [rewrite decide_True by done|rewrite decide_False by done].

Lemma agreement_ordered progress at_ name : ordered progress ->
  ordered (assign progress [("operatorAgreementAccepted", Some (JBool true)); ("operatorAgreementAcceptedAt", Some (JStr at_));
    ("operatorAgreementSignature", Some (JStr name)); ("operatorAgreementVersion", Some (JStr AGREEMENT_VERSION))]).
Proof. patched. intros []. split; try done. Qed.

Lemma connection_ordered progress url dir : isCurrentAgreementAccepted progress = true -> dir <> "" -> ordered progress ->
  ordered (assign progress [("serverUrl", Some url); ("installDir", Some (JStr dir))]).
Proof.
  patched. intros Hc Hd []. assert (Ht : truthy (Some (JStr dir)) = true) by (by destruct dir). split; eauto.
Qed.

Lemma version_ordered progress v : has "installDir" progress = true -> ordered progress -> ordered (assign progress [("installedVersion", v)]).
Proof. patched. intros Hd []. split; try done. Qed.

Lemma eval_ordered progress at_ : has "installDir" progress = true -> at_ <> "" -> ordered progress ->
  ordered (assign progress [("evalPassedAt", Some (JStr at_))]).
Proof.
  patched. intros Hd Ha []. assert (Ht : truthy (Some (JStr at_)) = true) by (by destruct at_). split; eauto.
Qed.

Lemma contact_ordered progress mail token until : has "evalPassedAt" progress = true -> mail <> "" -> ordered progress ->
  ordered (assign progress [("contact", Some (JStr mail)); ("emailVerificationToken", token); ("emailVerificationExpiresAt", until)]).
Proof.
  patched. intros Hd Ha []. assert (Ht : truthy (Some (JStr mail)) = true) by (by destruct mail). split; eauto.
Qed.

Lemma port_ordered progress port : has "contact" progress = true -> ordered progress -> ordered (assign progress [("port", Some (JStr port))]).
Proof. patched. intros Hd []. split; eauto. Qed.

Definition tracked : list string :=
  ["operatorAgreementAccepted"; "operatorAgreementVersion"; "installDir"; "installedVersion"; "evalPassedAt"; "contact"; "port"].

Lemma other_ordered progress patch : NoDup patch.*1 -> Forall (fun k => k ∉ tracked) patch.*1 -> ordered progress -> ordered (assign progress patch).
Proof.
  intros Hd Hf. unfold ordered, isCurrentAgreementAccepted, true_field. rewrite !get_assign by done.
  assert (Hk : forall k, k ∈ tracked -> assoc k patch = None).
  { intros k Hk. apply assoc_none. intros Hin. by apply (proj1 (Forall_forall _ _) Hf k Hin). }
  by rewrite !Hk by (unfold tracked; set_solver).
Qed.

(** ** Operations *)

Lemma when_ready_keeps {this : Chronicle SetupState question} p (P : SetupState -> Prop) (Q : forall X, question X -> Prop) (R : json -> Prop) ready k :
  keeps P Q R (loadMembers p) -> (forall progress, R progress -> ready progress = None -> keeps P Q (fun _ => True) (k progress)) ->
  keeps P Q (fun _ => True) (when_ready p ready k).
Proof.
  intros Hl Hk. unfold when_ready. eapply keeps_bind; [exact Hl|]. intros progress Hp.
  destruct (ready progress) eqn:E; [exact I|]. by apply Hk.
Qed.

Lemma sound_other `{UrlApi} `{Aead} `{Hashing} {this : Chronicle SetupState question} p c : cmd_args c <> [] -> cmd_args c <> ["run"; "eval"] -> cmd_args c <> ["run"; "register"] -> sound_command p c.
Proof. by split. Qed.

Section Keeps.
Context `{UrlApi} `{Aead} `{Hashing} {this : Chronicle SetupState question} (p : Process).
Hypothesis key_apart : setupProgress (paths p) <> keyFilePath p.

Notation P := (in_order p).
Notation Q := (sound_question p).
Notation always := (fun _ => True).

#[local] Instance in_order_framed : Framed p P.
Proof. unfold Framed, in_order, saved_progress, loadSetupProgress, readJson, readFile. by intros s s' ->. Qed.
#[local] Instance sound_allows : Allows Q.
Proof. by intros ? []. Qed.

Lemma load_keeps : keeps P Q (loaded p) (loadProgress p).
Proof.
  apply keeps_action. intros s Hv Hs. split; [done|]. intros _ v [= <-]. split; [split; [apply loaded_parsed|done]|by exists s].
Qed.

Lemma members_keeps : keeps P Q (loaded p) (loadMembers p).
Proof.
  unfold loadMembers. eapply keeps_bind; [apply load_keeps|]. intros progress Hp.
  eapply keeps_bind; [by apply (keeps_resume _ _ always)|]. by intros _ _.
Qed.

(** An emptied progress is none. *)
Lemma emptied_progress d : d !! setupProgress (paths p) = Some (Full []) -> loadSetupProgress p d = JObj [].
Proof. intros E. unfold loadSetupProgress, readJson, readFile. by rewrite E. Qed.

Lemma save_keeps v : snapshot v -> keeps P Q always (saveProgress p v).
Proof.
  intros [Hp Ho]. apply keeps_atomic. intros s Hs. split; [|done]. unfold with_world, on_files, saveSetupProgress.
  destruct (writeFile _ _ _) as [d r] eqn:Ew. destruct r as [[]|e].
  - apply writeFile_ok in Ew as ->. unfold in_order, saved_progress, loadSetupProgress, readJson, readFile. cbn.
    rewrite lookup_insert_eq, utf8_text_utf8, JSON_parse_saved by done. by apply ordered_finite.
  - apply writeFile_failed in Ew as [Ew|Ew].
    + apply (framed_file s); [exact Ew|exact Hs].
    + unfold in_order, saved_progress. cbn [ss_world w_disk fst]. rewrite (emptied_progress _ Ew). done.
Qed.

Lemma remember_keeps progress patch : parsed_json progress = true ->
  Forall (fun f : string * option json => forall v, f.2 = Some v -> parsed_json v = true) patch -> ordered (assign progress patch) ->
  keeps P Q (fun next => next = assign progress patch /\ snapshot next) (remember p progress patch).
Proof.
  intros Hp Hf Ho. assert (Hs : snapshot (assign progress patch)) by (split; [by apply assign_parsed|done]).
  unfold remember. eapply keeps_bind; [by apply save_keeps|]. by intros _ _.
Qed.

Lemma ready_keeps ready k : (forall progress, loaded p progress -> ready progress = None -> keeps P Q always (k progress)) ->
  keeps P Q always (when_ready p ready k).
Proof. apply when_ready_keeps, members_keeps. Qed.

Lemma run_keeps c clean : sound_command p c -> keeps P Q always (run_with c clean).
Proof. intros Hc. by split. Qed.

Lemma capture_keeps command args : args <> [] -> args <> ["run"; "eval"] -> args <> ["run"; "register"] -> keeps P Q always (runCapture command args).
Proof. intros Ha Hb Hc. split; [|done]. by apply sound_other. Qed.

Lemma setup_command_keeps command args e dir : args <> [] -> args <> ["run"; "eval"] -> args <> ["run"; "register"] ->
  keeps P Q always (runSetupCommand command args e dir).
Proof. intros Ha Hb Hc. apply run_keeps. by apply sound_other. Qed.

Lemma executable_keeps command l : keeps P Q always (resolveExecutable command l).
Proof.
  unfold resolveExecutable, which. apply seq_keeps; [apply seq_keeps; [by apply capture_keeps|done]|].
  intros [f|]; [done|apply existing_keeps; apply _].
Qed.

#[local] Hint Resolve config_keeps write_config_keeps join_auth_keeps claim_keeps existing_keeps executable_keeps gets_keeps sound_allows in_order_framed : wizard.
#[local] Hint Extern 1 (keeps _ _ _ (atomically (put_session _ _))) => apply (session_keeps p) : wizard.
#[local] Hint Extern 1 (_ <> _) => discriminate : wizard.

(** Walks down a handler to the calls that the lemmas above do not cover. *)
Ltac walk := repeat (cbv zeta; lazymatch goal with
  | |- keeps _ _ _ (mret _) => exact I
  | |- keeps _ _ _ (raise _) => exact I
  | |- keeps _ _ _ (resume _) => apply keeps_resume; intros ? ?; exact I
  | |- keeps _ _ _ (ask _) => split; [exact I|intros ? ?; exact I]
  | |- keeps _ _ _ (_ ≫= _) => apply seq_keeps; [|intros ?]
  | |- keeps _ _ _ (catch _ _) => apply keeps_catch; [|intros ?]
  | |- keeps _ _ _ (runSetupCommand _ _ _ _) => apply setup_command_keeps; discriminate
  | |- keeps _ _ _ (runCapture _ _) => apply capture_keeps; discriminate
  | |- keeps _ _ _ (match ?x with _ => _ end) => destruct x eqn:?
  | |- keeps _ _ _ _ => solve [auto with wizard]
  end).

(** ** Views *)

Lemma status_keeps command l : keeps P Q always (commandStatus command ["--version"] l).
Proof. unfold commandStatus. walk. Qed.

Lemma environment_keeps : keeps P Q always (environmentView p).
Proof. unfold environmentView. repeat (apply seq_keeps; [apply status_keeps|intros ?]). exact I. Qed.

Lemma reuse_keeps progress manifest : keeps P Q always (canReuseRuntime progress manifest).
Proof. unfold canReuseRuntime. walk. Qed.
#[local] Hint Resolve environment_keeps reuse_keeps : wizard.

Lemma install_view_keeps progress manifest : keeps P Q always (runtimeInstallView p progress manifest).
Proof. unfold runtimeInstallView. walk. Qed.

Lemma network_view_keeps progress : keeps P Q always (networkView p progress).
Proof. unfold networkView. walk. Qed.

Lemma registration_view_keeps progress : keeps P Q always (registrationView p progress).
Proof. unfold registrationView. walk. Qed.

Lemma headless_keeps : keeps P Q always (headlessStatus p).
Proof.
  unfold headlessStatus, fileVault. apply seq_keeps; [eapply keeps_weaken; [|apply members_keeps]; done|intros progress].
  walk. by split; [apply sound_other; discriminate|].
Qed.
#[local] Hint Resolve install_view_keeps network_view_keeps registration_view_keeps headless_keeps : wizard.

(** ** Handlers *)

Lemma remember_walk progress patch (k : json -> program reply) : parsed_json progress = true ->
  Forall (fun f : string * option json => forall v, f.2 = Some v -> parsed_json v = true) patch -> ordered (assign progress patch) ->
  (snapshot (assign progress patch) -> keeps P Q always (k (assign progress patch))) -> keeps P Q always (remember p progress patch ≫= k).
Proof. intros Hp Hf Ho Hk. eapply keeps_bind; [by apply remember_keeps|]. intros next [-> Hs]. by apply Hk. Qed.

Ltac values := repeat constructor; intros ? [= <-]; done.

Lemma gate_agreed progress : agreementReady progress = None -> isCurrentAgreementAccepted progress = true.
Proof. unfold agreementReady. by destruct (isCurrentAgreementAccepted progress). Qed.

Lemma gate_connection progress : connectionReady progress = None -> has "installDir" progress = true.
Proof. unfold connectionReady. by destruct (isCurrentAgreementAccepted progress), (has "installDir" progress). Qed.

Lemma gate_connection_agreed progress : connectionReady progress = None -> agreed progress.
Proof.
  unfold connectionReady, agreed, isCurrentAgreementAccepted, true_field. destruct (_ && _) eqn:E; [|done]. bool_solve. done.
Qed.

Lemma gate_install progress : installReady p progress = None -> connectionReady progress = None.
Proof. unfold installReady. by destruct (connectionReady progress). Qed.

Lemma gate_registration progress : registrationReady p progress = None -> has "evalPassedAt" progress = true /\ installReady p progress = None.
Proof. unfold registrationReady. destruct (installReady p progress); [done|]. by destruct (has "evalPassedAt" progress). Qed.

Lemma agreement_keeps input : keeps P Q always (recordOperatorAgreement p input).
Proof.
  unfold recordOperatorAgreement. eapply keeps_bind; [apply load_keeps|]. intros progress [[Hp Ho] _]. cbv zeta.
  repeat (destruct (negb _); [exact I|]). destruct (_ <? 2)%nat; [exact I|]. destruct (negb _); [exact I|].
  eapply keeps_bind; [apply iso_keeps; apply _|]. intros at_ _. apply remember_walk; [done|values|by apply agreement_ordered|]. done.
Qed.

Lemma connection_keeps input : keeps P Q always (recordConnection p input).
Proof.
  apply ready_keeps. intros progress [[Hp Ho] _] Hr%gate_agreed. destruct (normalizeInstallDir p _) as [dir|]; [|exact I].
  destruct dir as [|c dir]; [exact I|]. apply remember_walk; [done|values|by apply connection_ordered|]. done.
Qed.

Lemma ensure_keeps script other : keeps P Q always (ensure p script other).
Proof.
  apply ready_keeps. intros progress _ _. unfold runInstaller. apply seq_keeps; [|intros ?; walk]. apply seq_keeps; [walk|].
  intros []; [|exact I]. apply run_keeps. by apply sound_other.
Qed.

Lemma select_keeps : keeps P Q always (selectInstallDir p).
Proof.
  apply ready_keeps. intros progress _ _. destruct (negb _); [exact I|]. apply seq_keeps; [apply run_keeps; by apply sound_other|].
  intros result. walk.
Qed.

Lemma test_manifest_parsed : parsed_json (testReleaseManifest p) = true.
Proof. apply parsed_object; repeat constructor; vm_compute; congruence. Qed.

(** The manifest of the real flow comes from the server of the progress. *)
Definition from_server (progress manifest : json) : Prop :=
  TEST_FLOW p = false -> exists url, server_text progress = Ok url /\ required_manifest url manifest.

Lemma setup_manifest_keeps progress :
  keeps P Q (fun v => parsed_json v = true /\ from_server progress v) (setupManifest p progress).
Proof.
  unfold setupManifest, from_server. destruct (TEST_FLOW p); [split; [apply test_manifest_parsed|done]|].
  eapply keeps_bind; [by apply (keeps_resume _ _ (fun url => server_text progress = Ok url))|].
  intros url Hu. eapply keeps_weaken; [|apply manifest_keeps; apply _]. intros v [Hv Hm]. split; [done|]. intros _. by exists url.
Qed.

Lemma manifest_view_keeps : keeps P Q always (installManifestView p).
Proof.
  apply ready_keeps. intros progress _ _. eapply keeps_bind; [apply setup_manifest_keeps|]. intros manifest _. walk.
Qed.

Lemma installed_keeps progress manifest mode extra : snapshot progress -> parsed_json manifest = true -> connectionReady progress = None ->
  keeps P Q always (installed p progress manifest mode extra).
Proof.
  intros [Hp Ho] Hm Hr%gate_connection. unfold installed, rememberRuntimeInstall.
  apply remember_walk; [done| |by apply version_ordered|intros _; walk].
  repeat constructor. cbn. intros v Hv. by eapply get_parsed.
Qed.

Lemma release_keeps progress manifest : loaded p progress -> parsed_json manifest = true -> from_server progress manifest ->
  TEST_FLOW p = false -> connectionReady progress = None -> keeps P Q always (install_release p progress manifest).
Proof.
  intros [Hs Hv] Hm Hf Ht Hr. destruct (Hf Ht) as (url & Hu & Hreq).
  unfold install_release. eapply keeps_bind; [apply download_keeps; apply _|]. intros dl Hd.
  apply seq_keeps.
  - unfold runInstaller. apply seq_keeps; [walk|]. intros []; [|exact I]. apply run_keeps. split; try done. intros _.
    exists progress, url, manifest, dl. split_and!; try done; [by apply gate_connection_agreed|].
    apply Forall_singleton. by apply gate_connection.
  - intros result. destruct (negb _); [walk|]. by apply installed_keeps.
Qed.

Lemma runtime_keeps input : keeps P Q always (installRuntime p input).
Proof.
  apply ready_keeps. intros progress Hs Hr. eapply keeps_bind; [apply setup_manifest_keeps|]. intros manifest [Hm Hf].
  apply seq_keeps; [walk|]. intros canReuse. destruct (normalizeRuntimeInstallBody input).
  - destruct (TEST_FLOW p) eqn:Et; [by apply installed_keeps; [apply Hs|..]|by apply release_keeps].
  - destruct (negb canReuse); [exact I|by apply installed_keeps; [apply Hs|..]].
Qed.

(** ** Network and evaluation *)

Lemma other_gates progress patch : NoDup patch.*1 -> Forall (fun k => k ∉ tracked) patch.*1 ->
  installReady p (assign progress patch) = installReady p progress /\ get "installDir" (assign progress patch) = get "installDir" progress.
Proof.
  intros Hd Hf. assert (Hk : forall k, k ∈ tracked -> get k (assign progress patch) = get k progress).
  { intros k Hk. rewrite get_assign by done. rewrite (proj2 (assoc_none k patch)); [done|]. intros Hin.
    by apply (proj1 (Forall_forall _ _) Hf k Hin). }
  unfold installReady, connectionReady, isCurrentAgreementAccepted, true_field, has.
  rewrite !Hk by (unfold tracked; set_solver). done.
Qed.

Ltac fields := repeat (apply List.Forall_cons || apply List.Forall_nil); cbn [snd merged_addresses]; intros v Hx.
Ltac untracked := apply (bool_decide_unpack _); vm_compute; exact I.

(** Remembering something that is not a step. *)
Lemma remember_other progress patch : snapshot progress ->
  Forall (fun f : string * option json => forall v, f.2 = Some v -> parsed_json v = true) patch ->
  NoDup patch.*1 -> Forall (fun k => k ∉ tracked) patch.*1 -> installReady p progress = None ->
  keeps P Q (fun next => snapshot next /\ installReady p next = None /\ get "installDir" next = get "installDir" progress)
    (remember p progress patch).
Proof.
  intros [Hp Ho] Hf Hd Ht Hr. eapply keeps_weaken; [|apply remember_keeps; [done|done|by apply other_ordered]].
  intros next [-> Hs]. destruct (other_gates progress patch Hd Ht) as [-> ->]. done.
Qed.

Lemma detect_keeps progress : snapshot progress -> installReady p progress = None ->
  keeps P Q (fun next => snapshot next /\ installReady p next = None /\ get "installDir" next = get "installDir" progress)
    (detectNetwork p progress).
Proof.
  intros Hs Hr. unfold detectNetwork. eapply keeps_bind; [apply ip_keeps; apply _|]. intros ip Hip.
  eapply keeps_bind; [apply remember_other; [done|repeat constructor; intros ? [= <-]; done|untracked|untracked|done]|]. intros n1 (Hs1 & Hr1 & <-).
  eapply keeps_bind; [apply (keeps_catch _ _ (fun v => parsed_json v = true)); [apply ip6_keeps; apply _|done]|]. intros ip6 Hip6.
  eapply keeps_bind; [apply remember_other; [done|repeat constructor; intros ? [= <-]; done|untracked|untracked|done]|]. intros n2 (Hs2 & Hr2 & <-).
  eapply keeps_bind; [apply (keeps_catch _ _ (fun v => parsed_json v = true));
    [eapply keeps_bind; [by apply (keeps_resume _ _ always)|intros url _; apply region_keeps; apply _]|done]|]. intros region Hreg.
  apply remember_other; [done|repeat constructor; intros ? [= <-]; done|untracked|untracked|done].
Qed.

Lemma passed_keeps next mode extra : snapshot next -> installReady p next = None ->
  keeps P Q always (eval_passed p next ≫= eval_success p mode extra).
Proof.
  intros [Hp Ho] Hr%gate_install%gate_connection. unfold eval_passed. eapply (keeps_bind _ _ always).
  - eapply keeps_bind; [apply iso_keeps; apply _|]. intros at_ Ha.
    eapply keeps_weaken; [|apply remember_keeps; [done|values|by apply eval_ordered]]. done.
  - intros n _. unfold eval_success. walk.
Qed.

Hypothesis real_flow : TEST_FLOW p = false.

Lemma gate_installed progress : installReady p progress = None -> agreed progress /\ all_set ["installDir"; "installedVersion"] progress.
Proof.
  intros Hr. pose proof (gate_install _ Hr) as Hc. split; [by apply gate_connection_agreed|].
  repeat constructor; [by apply gate_connection|]. unfold installReady in Hr. rewrite Hc, real_flow in Hr.
  change (has "installedVersion" progress = true). by destruct (has "installedVersion" progress).
Qed.

Lemma eval_keeps input : keeps P Q always (runNetworkEval p input).
Proof.
  apply ready_keeps. intros progress [Hs Hv] Hr. destruct (normalizeNetworkEvalBody input).
  - unfold real_eval. eapply keeps_bind; [by apply detect_keeps|]. intros next (Hs' & Hr' & Hdir).
    apply seq_keeps; [walk|]. intros joinAuth. apply seq_keeps; [walk|]. intros now.
    destruct (joinAuthReusable joinAuth now); [by apply passed_keeps|]. eapply keeps_bind.
    { apply (keeps_resume _ _ (fun dir => current_dir next = Ok dir)). done. }
    intros dir Hd. apply seq_keeps; [walk|]. intros found. destruct (negb found); [exact I|]. apply seq_keeps.
    + apply run_keeps. split; try done. intros _. exists progress, dir. unfold current_dir, text_or in *. rewrite Hdir in Hd.
      by destruct (gate_installed _ Hr).
    + intros result. destruct (negb (ok result)); [walk|by apply passed_keeps].
  - unfold test_eval. rewrite real_flow. exact I.
Qed.

(** ** Registration *)

Lemma email_set mail : isValidEmail mail = true -> mail <> "".
Proof. by intros H' ->. Qed.

Lemma start_email_keeps input : keeps P Q always (startEmailVerification p input).
Proof.
  apply ready_keeps. intros progress _ _. cbv zeta. destruct (negb _); [exact I|]. destruct (TEST_FLOW p); [walk|].
  eapply keeps_bind; [by apply (keeps_resume _ _ always)|]. intros url _. eapply keeps_bind; [apply post_keeps; apply _|]. done.
Qed.

Lemma verify_code_keeps progress body : keeps P Q (fun v => parsed_json v = true) (verify_code p progress body).
Proof.
  unfold verify_code. rewrite real_flow. eapply keeps_bind; [by apply (keeps_resume _ _ always)|]. intros url _. apply post_keeps; apply _.
Qed.

Lemma verify_email_keeps input : keeps P Q always (verifyEmailCode p input).
Proof.
  apply ready_keeps. intros progress [[Hp Ho] _] [He _]%gate_registration. cbv zeta.
  destruct (isValidEmail _) eqn:Em; [cbn [negb]|exact I]. apply email_set in Em. repeat (destruct (bool_decide _); [exact I|]).
  eapply keeps_bind; [apply verify_code_keeps|]. intros verified Hv. apply remember_walk; [done| |by apply contact_ordered|intros _; walk].
  fields; [by injection Hx as <-|exact (get_parsed _ _ _ Hv Hx)..].
Qed.

Lemma start_wallet_keeps : keeps P Q always (startWalletSession p).
Proof.
  apply ready_keeps. intros progress _ _. rewrite real_flow. walk.
Qed.

Lemma wallet_status_keeps session : keeps P Q always (walletSessionStatus p session).
Proof.
  apply ready_keeps. intros progress _ _. unfold find_session. walk. eapply keeps_weaken; [|apply members_keeps]. done.
Qed.

(** The addresses of a wallet session are no step of the order. *)
Lemma wallet_done_keeps id settled : keeps P Q always (walletDone p id settled).
Proof.
  unfold walletDone, find_session, set_status. apply keeps_catch; [|intros e; walk]. destruct settled as [a|e]; [|exact I].
  apply seq_keeps; [walk|]. intros [c|]; [|exact I]. eapply keeps_bind; [apply members_keeps|]. intros latest [[Hp Ho] _]. cbv zeta.
  apply seq_keeps; [|intros ?; walk].
  eapply keeps_weaken; [|apply remember_keeps; [done| |apply other_ordered; [untracked|untracked|done]]]; [done|].
  fields; match type of Hx with match ?o with _ => _ end = _ => destruct o; [by injection Hx as <-|exact (get_parsed _ _ _ Hp Hx)] end.
Qed.

Lemma pm2_keeps progress : keeps P Q always (startPm2Control p progress).
Proof.
  unfold startPm2Control, verifyPm2Online. walk.
Qed.
#[local] Hint Resolve pm2_keeps : wizard.

Lemma errors_nil progress now : registrationValidationErrors progress now = [] ->
  has "contact" progress = true /\ emailVerified progress now = true /\ has "publicIpv4" progress = true /\ has "evalPassedAt" progress = true /\
  has "evmAddress" progress = true /\ has "solanaAddress" progress = true /\ has "icpAddress" progress = true /\
  address_errors progress = [].
Proof.
  unfold registrationValidationErrors. destruct (has "contact" progress && emailVerified progress now) eqn:E1; [|done].
  repeat (match goal with |- context [if has ?k progress then _ else _] => destruct (has k progress) eqn:?; [|done] end).
  bool_solve. cbn [app]. destruct (address_errors _); [|done]. intros _. by split_and!.
Qed.

(** An address that no error is about. *)
Lemma address_valid (valid : string -> bool) k progress v (e : string * json) :
  (if match set_member k progress with Some s => negb (valid s) | None => false end then [e] else []) = [] ->
  has k progress = true -> get k progress = Some v -> valid (js_string v) = true.
Proof.
  unfold set_member, has. intros He Hk Hv. rewrite Hv in *. rewrite Hk in He. by destruct (valid (js_string v)).
Qed.

Lemma gate_registrable progress now : registrationReady p progress = None -> registrationValidationErrors progress now = [] ->
  registrable progress now.
Proof.
  intros [He Hi]%gate_registration Hn. destruct (gate_installed _ Hi) as [Ha Hset].
  destruct (errors_nil _ _ Hn) as (Hcontact & Hemail & Hip & _ & Hevm & Hsol & Hicp & Haddr).
  unfold emailVerified, fresh_until, has in *. bool_solve.
  apply Forall_cons in Hset as [Hd [Hver _]%Forall_cons].
  split; [done|by repeat constructor|done|]. intros v. unfold address_errors in Haddr.
  apply app_nil in Haddr as [E1 [E2 E3]%app_nil].
  split_and!; intros Hx; by eapply address_valid.
Qed.

Lemma register_keeps progress now body port : was_saved p progress -> heard (Exchange Now now) ->
  registrationReady p progress = None -> registrationValidationErrors progress now = [] ->
  normalizePort body = Some port -> let next := assign progress [("port", Some (JStr (num_to_string port)))] in
  keeps P Q always (register p next port).
Proof.
  intros Hv Hn Hr He Hb next. unfold register. rewrite real_flow. unfold claim_existing. apply seq_keeps; [walk|]. intros existing.
  apply seq_keeps; [walk|]. intros _. apply seq_keeps; [|intros failed; walk]. destruct (has "node_id" existing); [walk|].
  unfold register_child. eapply keeps_bind; [by apply (keeps_resume _ _ (fun dir => current_dir next = Ok dir))|]. intros dir Hd.
  apply seq_keeps; [walk|]. intros found. destruct (negb found); [exact I|]. apply seq_keeps; [|intros result; walk].
  apply run_keeps. split; try done. intros _. apply normalizePort_range in Hb as (z & -> & Hz).
  exists progress, now, z, dir. split_and!; try (done || lia); [by apply gate_registrable|].
  unfold current_dir, text_or in *. revert Hd. unfold next. by rewrite get_assign by (repeat constructor; set_solver).
Qed.

Lemma register_node_keeps input : keeps P Q always (registerNodeFromWizard p input).
Proof.
  apply ready_keeps. intros progress [[Hp Ho] Hv] Hr. cbv zeta. destruct (normalizePort _) as [port|] eqn:Eb; [|exact I].
  eapply (keeps_bind _ _ (fun now => heard (Exchange Now now))); [by apply keeps_ask|]. intros now Hn.
  destruct (registrationValidationErrors progress now) eqn:Ee; [|exact I].
  pose proof (errors_nil _ _ Ee) as (Hc & _).
  apply remember_walk; [done|values|by apply port_ordered|]. intros Hs.
  apply seq_keeps; [by eapply register_keeps|]. intros [config|r]; [|exact I]. walk.
Qed.

Lemma start_pm2_keeps : keeps P Q always (startPm2FromWizard p).
Proof. apply ready_keeps. intros progress _ _. walk. Qed.

(** ** Requests *)

Context (token sid : string).

Lemma simple_ready_keeps ready (view : json -> program json) : (forall progress, keeps P Q always (view progress)) ->
  keeps P Q always (when_ready p ready (fun progress => v ← view progress; mret (JsonReply 200 v))).
Proof. intros Hv. apply ready_keeps. intros progress _ _. apply seq_keeps; [apply Hv|done]. Qed.

Lemma page_keeps (f : json -> program reply) : (forall progress, keeps P Q always (f progress)) -> keeps P Q always (loadMembers p ≫= f).
Proof. intros Hf. eapply keeps_bind; [apply members_keeps|]. intros progress _. apply Hf. Qed.

Lemma version_keeps : keeps P Q always (templateVersion sid).
Proof. unfold templateVersion. walk. Qed.
#[local] Hint Resolve version_keeps : wizard.

Lemma html_keeps shown progress links texts : keeps P Q always (html p token sid shown progress links texts).
Proof. unfold html. walk. Qed.

Lemma link_keeps path : keeps P Q always (link token path).
Proof. exact I. Qed.
#[local] Hint Resolve html_keeps link_keeps : wizard.

Lemma get_keeps url : keeps P Q always (handle_get p token sid url).
Proof.
  unfold handle_get, successPage, registrationPage, networkPage, installPage, connectionPage, welcomePage, networkStatus, registrationStatus.
  cbv zeta. repeat (case_bool_decide; [try exact I|]).
  all: try lazymatch goal with |- keeps _ _ _ (loadMembers p ≫= _) => apply page_keeps; intros progress; walk end.
  - walk.
  - apply manifest_view_keeps.
  - apply simple_ready_keeps. intros progress. walk.
  - apply simple_ready_keeps. intros progress. walk.
  - walk.
  - apply wallet_status_keeps.
  - walk.
Qed.

Lemma post_handlers_keep path body : keeps P Q always (handle_post p path body).
Proof.
  unfold handle_post. repeat (case_bool_decide; [|]); [..|exact I].
  - apply agreement_keeps.
  - apply connection_keeps.
  - apply select_keeps.
  - apply ensure_keeps.
  - apply ensure_keeps.
  - apply runtime_keeps.
  - apply eval_keeps.
  - apply start_email_keeps.
  - apply verify_email_keeps.
  - apply start_wallet_keeps.
  - apply register_node_keeps.
  - apply start_pm2_keeps.
Qed.

Lemma serve_keeps q : keeps P Q always (serve p token sid q).
Proof.
  unfold serve. apply keeps_catch; [|done]. apply seq_keeps; [walk|]. intros url. apply seq_keeps; [walk|]. intros body.
  unfold handleWizardRequest. repeat (match goal with |- context [if ?b then _ else _] => destruct b; [try exact I|] end); [..|exact I].
  - apply get_keeps.
  - apply post_handlers_keep.
Qed.

Lemma starts_keeps t : starts p token sid t -> keeps P Q always t.
Proof.
  destruct 1 as [q|id settled|m Hm].
  - apply seq_keeps; [apply serve_keeps|done].
  - apply seq_keeps; [apply wallet_done_keeps|done].
  - apply seq_keeps; [|done]. apply keeps_atomic. intros s Hs. split; [|done]. apply (framed_file s); [apply Hm|done].
Qed.
End Keeps.

(** ** Properties *)

(** C10: the setup wizard cannot be driven out of order (outside its test flow, which
    simulates the steps): in every execution, with requests, wallet submissions and
    child processes interleaved in any way and answered anything, the progress file
    stays ordered (a directory needs the current agreement, an installed version and a
    passed evaluation need a directory, a verified contact needs the evaluation, a port
    needs the contact), and every installer, evaluation and registration that was ever
    started was due for a progress that was on the disk before: the installer was given
    an artifact that this execution wrote to the disk, downloaded for the manifest it
    got from the progress's server, whose digest, if it has one, the artifact has; an
    evaluation had an installed version; and a registration, besides, a passed
    evaluation, a TCP port, a contact verified for another minute, a public address and
    valid payout addresses, which are what the child is given. *)
Theorem wizard_in_order `{UrlApi} `{Aead} `{Hashing} (p : Process) (token sid : string) (s : SetupState)
    (states : list SetupState) (c : Pool (S := SetupState) (E := question) (option reply)) :
  setupProgress (paths p) <> keyFilePath p -> TEST_FLOW p = false -> in_order p s ->
  execution (starts p token sid) {| shared := s; log := []; threads := [] |} states c ->
  in_order p (shared _ c) /\
  forall cmd e, Exchange (Spawn cmd) e ∈ log _ c -> sound_command (this := chronicle states c) p cmd.
Proof.
  intros Hk Ht Hs He.
  assert (Hg : good (this := chronicle states c) (in_order p) (sound_question (this := chronicle states c) p) (A := option reply)
    {| shared := s; log := []; threads := [] |}) by (split; [exact Hs|split; by apply List.Forall_nil]).
  destruct (execution_good _ _ (starts p token sid) _ _ _ (starts_keeps p Hk Ht token sid) Hg He) as (Ho & Hl & _); [done..|].
  split; [done|]. intros cmd e Hc. exact (proj1 (Forall_forall _ _) Hl _ Hc).
Qed.

(** Without the token of its link the wizard does nothing: a request for anything but
    the icon is answered with an error at once, before any file is read and before
    anything outside is asked. *)
Theorem wizard_needs_token `{UrlApi} `{Aead} `{Hashing} (p : Process) (token sid : string) (q : Incoming) :
  (forall url, new_URL_at (default "/" (in_url q)) ("http://" +:+ default "127.0.0.1" (in_host q)) = Some url ->
     query_param "token" url <> Some token /\ pathname url <> "/favicon.ico" /\ pathname url <> "/favicon.svg") ->
  exists status message, (status = 403 \/ status = 500) /\ serve p token sid q = Return (fail status message).
Proof.
  intros Hu. unfold serve. destruct (new_URL_at _ _) as [url|]; [|by eexists 500, _; split; [right|]].
  destruct (Hu url eq_refl) as (Ht & Hi & Hs). cbn [of_option resume mbind prog_bind].
  destruct (if bool_decide _ then readJsonBody _ else _) as [body|e]; [|by eexists 500, _; split; [right|]].
  cbn [resume mbind prog_bind]. unfold handleWizardRequest. rewrite !bool_decide_false by done. by eexists 403, _; split; [left|].
Qed.

(** ** A run of the wizard *)

Module Demo.
Notation "'program'" := (prog SetupState question).
Definition process : Process := Node.process.
Definition release : json :=
  JObj [("product", JStr "consensus-node"); ("version", JStr "1.2.3"); ("platform", JStr "linux-x64"); ("download_url", JStr "https://dl/a.tgz");
        ("tarball_sha256", JStr (@sha256Hex Toy.hashing (utf8 "artifact")))].
Definition answers (url : string) : result Response :=
  if bool_decide (url = "https://consensus.canister.software/update/latest") then Ok {| resp_status := 200; resp_body := utf8 (stringify release) |}
  else if bool_decide (url = "https://dl/a.tgz") then Ok {| resp_status := 200; resp_body := utf8 "artifact" |}
  else if bool_decide (url = "https://api4.ipify.org?format=json") then
    Ok {| resp_status := 200; resp_body := utf8 (stringify (JObj [("ip", JStr "203.0.113.5")])) |}
  else Throw (PlainError "unreachable").
Definition verified : json := JObj [("email_verification_token", JStr "tok"); ("expires_at", JNum (num_of_Z 5000))].

Definition answer (X : Type) (q : question X) : X :=
  match q in question X return X with
  | Now => 1000000
  | RandomUUID => "u1"
  | Entropy => Node.random 5
  | Network => answers
  | Post url body => Ok {| resp_status := 200; resp_body := utf8 (stringify verified) |}
  | Spawn c => Exited (Some 0) "done"
  | Access path => true
  | StatTemplates => Ok []
  | Sleep ms => tt
  | StartWalletServer initial => Ok "http://127.0.0.1:45001/?token=w"
  | StopWalletServer id => Ok tt
  end.

Definition post (path : string) (body : list (string * json)) : Incoming :=
  {| in_method := Some "POST"; in_host := Some "127.0.0.1:45000"; in_url := Some (path +:+ "?token=t"); in_chunks := [utf8 (stringify (JObj body))] |}.

Definition evm : string := "0x00000000000000000000000000000000000000aB".
Definition addresses : WalletAddresses :=
  {| evmAddress := Some evm; solanaAddress := Some "11111111111111111111111111111111"; icpAddress := Some "aaaaa-aa" |}.

Definition request (q : Incoming) : program (option reply) :=
  r ← @serve ToyUrl.api Toy.aead Toy.hashing process "t" "s1" q; mret (Some r).
Definition email_request : program (option reply) :=
  request (post "/api/email/verify" [("email", JStr "op@example.org"); ("verificationId", JStr "v1"); ("code", JStr "123456")]).
Definition wallet_end : program (option reply) := walletDone process "u1" (Submitted addresses);; mret None.
Definition register_request : program (option reply) := request (post "/api/register-node" [("port", JStr " 9.1e3 ")]).

(** The steps of an operator, in order. *)
Definition steps : list (program (option reply)) :=
  [request (post "/api/operator-agreement" [("accepted", JBool true); ("agreementReviewed", JBool true); ("signature", JStr "Op"); ("confirmation", JStr "I AGREE")]);
   request (post "/api/connection" [("installDir", JStr "~/runtime")]);
   request (post "/api/runtime-install" []);
   request (post "/api/network-eval" []);
   request (post "/api/wallet-session" []);
   email_request; wallet_end; register_request].

Definition empty : SetupState := {| ss_world := Node.empty; ss_registry := {| m_file := NoFile; m_saves := [] |}; walletSessions := ∅ |}.
Definition pool (s : SetupState) (l : list (program (option reply))) : Pool (option reply) := {| shared := s; log := []; threads := l |}.
(** Each thread runs to its end before the next one. *)
Definition turns (n : nat) : list nat := List.concat (map (fun i => repeat i 60) (seq 0 n)).
Definition finished : Pool (option reply) := schedule answer (turns 8) (pool empty steps).
Definition progress : json := saved_progress process (shared _ finished).

(** Evaluated, with a wallet session open. *)
Definition evaluated : SetupState := shared _ (schedule answer (turns 5) (pool empty (take 5 steps))).
(** The email verification has read the progress and posted the code; the wallet
    session ends; then the answer of the server arrives. *)
Definition raced : Pool (option reply) := schedule answer ([0; 0]%nat ++ repeat 1%nat 60 ++ repeat 0%nat 60) (pool evaluated [email_request; wallet_end]).
Definition in_turn : Pool (option reply) := schedule answer (turns 2) (pool evaluated [email_request; wallet_end]).
Definition status_of (s : SetupState) : option session_status := we_status <$> walletSessions s !! "u1".

(** Everything is done but the registration. *)
Definition complete : json :=
  JObj [("operatorAgreementAccepted", JBool true); ("operatorAgreementVersion", JStr AGREEMENT_VERSION); ("installDir", JStr "/srv/rt");
        ("installedVersion", JStr "1.2.3"); ("publicIpv4", JStr "203.0.113.5"); ("evalPassedAt", JStr "2026-01-01"); ("contact", JStr "op@example.org");
        ("emailVerificationToken", JStr "tok"); ("emailVerificationExpiresAt", JNum (num_of_Z 5000)); ("evmAddress", JStr evm);
        ("solanaAddress", JStr "11111111111111111111111111111111"); ("icpAddress", JStr "aaaaa-aa")].
Definition ready : SetupState :=
  {| ss_world := {| w_disk := {[ setupProgress (paths process) := Regular (utf8 (stringify2 complete)) ]}; cachedKey := None |};
     ss_registry := {| m_file := NoFile; m_saves := [] |}; walletSessions := ∅ |}.
Definition registering : Pool (option reply) := schedule answer (turns 1) (pool ready [register_request]).
Definition register_command : Command :=
  {| cmd_name := "bun"; cmd_args := ["run"; "register"]; cmd_cwd := Some "/srv/rt/current";
     cmd_env := @registrationEnv process (assign complete [("port", Some (JStr "9100"))]) (num_of_Z 9100) |}.
End Demo.

Example wizard_completes :
  map (fun t => match t with Return (Some (JsonReply status _)) => Some status | _ => None end) (threads _ Demo.finished) =
    [Some 200; Some 200; Some 200; Some 200; Some 200; Some 200; None; Some 200] /\
  get "port" Demo.progress = Some (JStr "9100") /\ get "evmAddress" Demo.progress = Some (JStr Demo.evm).
Proof. vm_compute. done. Qed.

Lemma wizard_in_order_witness : in_order Demo.process (shared _ Demo.registering) /\
  exists states, @sound_command Toy.hashing Demo.process (chronicle states Demo.registering) Demo.register_command.
Proof.
  assert (Hr : reaches (@starts ToyUrl.api Toy.aead Toy.hashing Demo.process "t" "s1")
    {| shared := Demo.ready; log := []; threads := [] |} Demo.registering).
  { etransitivity; [apply (start_reaches _ _ [Demo.register_request])|apply schedule_reaches].
    apply Forall_singleton. exact (starts_request _ _ _ _). }
  apply reaches_execution in Hr as [states He].
  destruct (@wizard_in_order ToyUrl.api Toy.aead Toy.hashing Demo.process "t" "s1" Demo.ready states Demo.registering) as [Ho Hs].
  - vm_compute. discriminate.
  - vm_compute. reflexivity.
  - assert (E : saved_progress Demo.process Demo.ready = Demo.complete) by (vm_compute; reflexivity). unfold in_order. rewrite E.
    split; intros Hx; try (vm_compute in Hx; discriminate Hx); try (vm_compute; reflexivity); eexists; vm_compute; reflexivity.
  - exact He.
  - split; [exact Ho|]. exists states. apply (Hs Demo.register_command (Exited (Some 0) "done")).
    apply (list_elem_of_lookup_2 _ 2). vm_compute. reflexivity.
Defined.

(** Progress is lost when two requests overlap: every handler writes back all of the
    progress it read when it began, so payout addresses that a wallet session saved
    while an email verification waited for the server are gone afterwards, although
    the session reports them as done; one after the other, both are kept. *)
Theorem wizard_lost_update :
  reaches (@starts ToyUrl.api Toy.aead Toy.hashing Demo.process "t" "s1") (Demo.pool Demo.evaluated [Demo.email_request; Demo.wallet_end]) Demo.raced /\
  Demo.status_of (shared _ Demo.raced) = Some done_ /\
  get "evmAddress" (saved_progress Demo.process (shared _ Demo.raced)) = None /\
  get "evmAddress" (saved_progress Demo.process (shared _ Demo.in_turn)) = Some (JStr Demo.evm) /\
  get "contact" (saved_progress Demo.process (shared _ Demo.raced)) = get "contact" (saved_progress Demo.process (shared _ Demo.in_turn)).
Proof.
  split; [apply schedule_reaches|]. split; [vm_compute; reflexivity|]. split; [vm_compute; reflexivity|]. split; vm_compute; reflexivity.
Qed.

Lemma wizard_needs_token_witness : exists status message, (status = 403 \/ status = 500) /\
  @serve ToyUrl.api Toy.aead Toy.hashing Demo.process "secret" "s1" (Demo.post "/api/register-node" []) = Return (fail status message).
Proof.
  apply (@wizard_needs_token ToyUrl.api Toy.aead Toy.hashing Demo.process "secret" "s1" (Demo.post "/api/register-node" [])).
  intros url Hu. vm_compute in Hu. injection Hu as <-. vm_compute. repeat split; discriminate.
Defined.
