(* ===== verification/SetupEnv.v ===== *)
(** * From the wizard to the registration (setup-wizard.ts, registration/join.ts)

    The wizard runs [bun run register] with what it collected in environment
    variables; the registration reads them back.  Port numbers go through their
    decimal text, addresses through their validation. *)

From S2P Require Import Prelude Effect Program Text Json JsonText JsonIndent JsonSaved Coerce Crypto Files SecretStore Machine Dedupe Update Url Eval.
From S2P Require Import Join Ssrf WalletCapture Setup SetupFrame Wizard WizardOrder.
Local Open Scope Z_scope.

(** The environment of a child process, as it is added to that of its parent. *)
Definition child_env (p : Process) (e : list (string * string)) : Process :=
  {| env := fun k => match assoc k e with Some v => Some v | None => env p k end; homedir := homedir p; cwd := cwd p;
     os_platform := os_platform p; os_arch := os_arch p; getuid := getuid p |}.

(** ** Trimming *)

Definition no_space (s : string) : Prop := str_forall (fun c => negb (is_space c)) s = true.

Lemma str_forall_rev f a : str_forall f (str_rev a "") = str_forall f a.
Proof.
  induction a as [|c a IH]; [done|]. cbn [str_rev str_forall]. rewrite str_rev_app, str_forall_app, IH. cbn. by rewrite andb_true_r, andb_comm.
Qed.

Lemma str_rev_rev a : str_rev (str_rev a "") "" = a.
Proof. induction a as [|c a IH]; [done|]. cbn [str_rev]. rewrite (str_rev_app a (String c "")), str_rev_cat, IH. done. Qed.

Lemma trim_start_id s : no_space s -> trim_start s = s.
Proof. destruct s as [|c s]; [done|]. unfold no_space. cbn. by destruct (is_space c). Qed.

Lemma trim_no_space s : no_space s -> trim s = s.
Proof.
  intros Hs. unfold trim. rewrite (trim_start_id s), trim_start_id, str_rev_rev; [done| |done].
  unfold no_space. by rewrite str_forall_rev.
Qed.

(** A class of characters without white space, by its 256 cases. *)
Lemma class_no_space (f : ascii -> bool) : forallb (fun n => negb (f (of_code n)) || negb (is_space (of_code n))) (seqZ 0 256) = true ->
  forall s, str_forall f s = true -> no_space s.
Proof.
  intros Hf s. apply str_forall_weaken. intros c Hc. pose proof (forallb_range _ _ Hf (code c) (code_range c)) as Hx. cbv beta in Hx.
  assert (E : of_code (code c) = c) by (apply code_inj, code_of_code, code_range). rewrite E, Hc in Hx. exact Hx.
Qed.

Lemma evm_no_space s : isValidEvmAddress s = true -> no_space s.
Proof.
  unfold isValidEvmAddress. destruct s as [|[[] [] [] [] [] [] [] []] s]; try done.
  destruct s as [|[[] [] [] [] [] [] [] []] r]; try done. intros Hv. bool_solve.
  unfold no_space. cbn. apply (class_no_space is_hex); [vm_compute; reflexivity|done].
Qed.

Lemma solana_no_space s : isValidSolanaAddress s = true -> no_space s.
Proof.
  unfold isValidSolanaAddress. intros Hv. bool_solve. apply (class_no_space is_base58); [vm_compute; reflexivity|done].
Qed.

Lemma join_split c s : join (String c "") (split c s) = s.
Proof.
  induction s as [|d s IH]; [done|]. cbn [split]. destruct (decide (d = c)) as [->|Hd].
  - pose proof (split_nonempty c s). unfold join in *. destruct (split c s) as [|x l] eqn:E; [done|]. cbn [String.concat] in *. by rewrite <- IH.
  - pose proof (split_nonempty c s). destruct (split c s) as [|x l] eqn:E; [done|]. unfold join in *. cbn [String.concat] in *.
    destruct l; cbn in *; by rewrite <- IH.
Qed.

Lemma icp_no_space s : isValidIcpAddress s = true -> no_space s.
Proof.
  unfold isValidIcpAddress. intros Hv. bool_solve. rewrite <- (join_split "-" s). rename select (forallb _ _ = true) into Hg.
  revert Hg. generalize (split "-" s) as l. unfold join. induction l as [|g l IH]; [done|]. cbn [forallb]. intros Hg. bool_solve.
  assert (Hn : no_space g).
  { unfold icp_group in *. bool_solve. eapply class_no_space; [|eassumption]. vm_compute. reflexivity. }
  destruct l as [|g' l]; [done|]. unfold no_space in *. change (String.concat "-" (g :: g' :: l)) with (g +:+ "-" +:+ String.concat "-" (g' :: l)).
  rewrite !str_forall_app, Hn. cbn [str_forall andb]. by apply IH.
Qed.

(** ** Ports *)

Lemma parse_digits_count s : forall acc n, (n <= (parse_digits acc n s).1.2)%nat.
Proof. induction s as [|c s IH]; intros acc n; cbn; [lia|]. destruct (digit_val c); [|done]. specialize (IH (acc * 10 + z) (S n)). lia. Qed.

(** [Number(String(n)) = n]. *)
Lemma number_of_dec z : 0 < z < overflow_threshold -> string_to_number (dec z) = num_of_Z z.
Proof.
  intros Hz. assert (Hs : trim (dec z) = dec z).
  { apply trim_no_space. apply (class_no_space is_digit); [vm_compute; reflexivity|]. apply dec_digits. lia. }
  destruct (parse_dec z "" ltac:(lia) I) as [n Hn]. rewrite str_app_nil in Hn.
  destruct (dec_head z ltac:(lia)) as (d & r & E & Hd & H0).
  assert (Hd0 : digit d <> "0"%char) by (intros E0%digit_zero; [|done]; specialize (H0 E0); lia).
  assert (Hc : (1 <= n)%nat).
  { pose proof (parse_digits_count r (0 * 10 + d) 1) as Hc. rewrite E in Hn. cbn [parse_digits] in Hn. rewrite digit_val_digit in Hn by done.
    by rewrite Hn in Hc. }
  assert (Hp : string_to_number (dec z) = parse_decimal false (dec z)).
  { unfold string_to_number. rewrite Hs, E. cbv zeta. pose proof (digit_not_sign d Hd) as Hm.
    assert (Hpl : digit d <> "+"%char) by (destruct (digit_cases d Hd) as [-> | [-> | [-> | [-> | [-> | [-> | [-> | [-> | [-> | ->]]]]]]]]]; done).
    destruct (digit d) as [[] [] [] [] [] [] [] []]; try done; congruence. }
  rewrite Hp. unfold parse_decimal. rewrite bool_decide_false, Hn by (rewrite E; destruct (digit_cases d Hd) as [-> | [-> | [-> | [-> | [-> | [-> | [-> | [-> | [-> | ->]]]]]]]]]; done).
  rewrite bool_decide_false by lia. cbn [parse_exp]. change (0 - Z.of_nat 0) with 0. unfold mk_num. cbn [Z.leb Z.compare Z.pow].
  rewrite Z.mul_1_r, (proj2 (Z.leb_gt _ _)) by lia. done.
Qed.

(** ** The round trip *)

Lemma port_text z : 1 <= z <= 65535 -> num_to_string (num_of_Z z) = dec z /\ trim (dec z) = dec z /\ dec z <> "" /\ string_to_number (dec z) = num_of_Z z.
Proof.
  intros Hz. split_and!.
  - unfold num_to_string, num_of_Z. rewrite (proj2 (Z.ltb_ge _ _)), Z.abs_eq, Z.div_1_r by lia. by rewrite str_app_nil.
  - apply trim_no_space. apply (class_no_space is_digit); [vm_compute; reflexivity|]. apply dec_digits. lia.
  - destruct (dec_head z ltac:(lia)) as (d & r & -> & _). done.
  - apply number_of_dec. assert (65536 <= overflow_threshold) by (apply Z.leb_le; vm_compute; reflexivity). lia.
Qed.

(** A member as text, "" when it is not set. *)
Definition text_of (k : string) (progress : json) : string := default "" (set_member k progress).

Lemma entry_text name k v : has k v = true -> env_entry name (get k v) = [(name, text_of k v)].
Proof. unfold has, env_entry, text_of, set_member. destruct (get k v) as [x|]; [|done]. by intros ->. Qed.

Lemma option_trim p k v : env p k = Some v -> trim v <> "" -> optionalEnv p k = Some (trim v).
Proof. unfold optionalEnv. intros -> Ht. cbn. by rewrite bool_decide_false. Qed.

(** The variables, as texts. *)
Definition registration_texts (p : Process) (progress next : json) (z : Z) : list (string * string) :=
  [("CONSENSUS_SERVER_URL", js_string (serverUrl_of next)); ("CONSENSUS_STATE_DIR", stateDir p);
   ("CONSENSUS_NODE_IPV4", text_of "publicIpv4" progress)] ++
  (if has "publicIpv6" progress then [("CONSENSUS_NODE_IPV6", text_of "publicIpv6" progress)] else []) ++
  [("CONSENSUS_NODE_PORT", dec z); ("CONSENSUS_NODE_CONTACT", text_of "contact" progress);
   ("CONSENSUS_EMAIL_VERIFICATION_TOKEN", text_of "emailVerificationToken" progress); ("CONSENSUS_EVM_ADDRESS", text_of "evmAddress" progress);
   ("CONSENSUS_SOLANA_ADDRESS", text_of "solanaAddress" progress); ("CONSENSUS_ICP_ADDRESS", text_of "icpAddress" progress)].

Lemma emailVerified_token progress now : emailVerified progress now = true -> has "emailVerificationToken" progress = true.
Proof. unfold emailVerified. intros Hv. by bool_solve. Qed.

Lemma text_set k v : has k v = true -> set_member k v = Some (text_of k v).
Proof. unfold has, text_of, set_member. destruct (get k v) as [x|]; [|done]. by intros ->. Qed.

Lemma addresses_valid progress : has "evmAddress" progress = true -> has "solanaAddress" progress = true -> has "icpAddress" progress = true ->
  address_errors progress = [] ->
  isValidEvmAddress (text_of "evmAddress" progress) = true /\ isValidSolanaAddress (text_of "solanaAddress" progress) = true /\
  isValidIcpAddress (text_of "icpAddress" progress) = true.
Proof.
  intros E5 E6 E7. unfold address_errors. rewrite !text_set by done. cbv zeta.
  destruct (isValidEvmAddress _); [|done]. destruct (isValidSolanaAddress _); [|done]. by destruct (isValidIcpAddress _).
Qed.

(** The required variables among them. *)
Definition required_texts (progress next : json) : list (string * string) :=
  [("CONSENSUS_SERVER_URL", js_string (serverUrl_of next)); ("CONSENSUS_NODE_IPV4", text_of "publicIpv4" progress);
   ("CONSENSUS_NODE_CONTACT", text_of "contact" progress); ("CONSENSUS_EMAIL_VERIFICATION_TOKEN", text_of "emailVerificationToken" progress);
   ("CONSENSUS_EVM_ADDRESS", text_of "evmAddress" progress); ("CONSENSUS_SOLANA_ADDRESS", text_of "solanaAddress" progress);
   ("CONSENSUS_ICP_ADDRESS", text_of "icpAddress" progress)].

Section Reading.
Context (p : Process) (progress : json) (z : Z).
Hypothesis port_ok : 1 <= z <= 65535.
Variable now : Z.
Hypothesis checked : registrationValidationErrors progress now = [].
Let next := assign progress [("port", Some (JStr (num_to_string (num_of_Z z))))].
Let child := child_env p (registrationEnv p next (num_of_Z z)).

Lemma registration_env_texts k : env child k = match assoc k (registration_texts p progress next z) with Some v => Some v | None => env p k end.
Proof.
  destruct (errors_nil _ _ checked) as (E1 & E2 & E3 & E4 & E5 & E6 & E7 & _). pose proof (emailVerified_token _ _ E2) as E8.
  unfold child. cbn [env child_env]. assert (E : registrationEnv p next (num_of_Z z) = registration_texts p progress next z); [|by rewrite E].
  unfold registrationEnv, registration_texts. rewrite (proj1 (port_text z port_ok)). unfold next.
  unfold has at 1. rewrite !get_assign by (apply (bool_decide_unpack _); vm_compute; exact I). cbn [assoc].
  repeat rewrite decide_False by done. change (truthy (get "publicIpv6" progress)) with (has "publicIpv6" progress).
  destruct (has "publicIpv6" progress) eqn:E9; by rewrite !entry_text by done.
Qed.

Lemma read_required k v : assoc k (required_texts progress next) = Some v -> trim v <> "" -> requiredEnv child k = Ok (trim v).
Proof.
  intros Hk Hv. unfold requiredEnv. rewrite (option_trim child k v); [done| |done]. rewrite registration_env_texts.
  assert (E : assoc k (registration_texts p progress next z) = Some v); [|by rewrite E]. revert Hk. unfold required_texts, registration_texts.
  destruct (has "publicIpv6" progress); cbn [assoc app]; repeat (destruct (decide _) as [->|]; [done|]); done.
Qed.

Lemma read_port fallback : integerEnv p "NODE_PORT" (num_of_Z 9090) = Ok fallback ->
  integerEnv child "NODE_PORT" (num_of_Z 9090) = Ok fallback /\ integerEnv child "CONSENSUS_NODE_PORT" fallback = Ok (num_of_Z z).
Proof.
  destruct (port_text z port_ok) as (_ & P2 & P3 & P4). intros Hf. split.
  - revert Hf. unfold integerEnv, optionalEnv. rewrite registration_env_texts. unfold registration_texts. by destruct (has "publicIpv6" progress).
  - unfold integerEnv. rewrite (option_trim child _ (dec z)); [|rewrite registration_env_texts; unfold registration_texts; by destruct (has "publicIpv6" progress)|by rewrite P2].
    cbv zeta. rewrite P2, P4, !num_ltb_Z, (proj2 (Z.ltb_ge _ _)), (proj2 (Z.ltb_ge _ _)) by lia.
    unfold isInteger, num_of_Z, pow10. cbn [Z.of_nat Z.pow]. by rewrite Z.mod_1_r.
Qed.
End Reading.

(** C23: what the wizard checked reaches the registration: when the wizard's validation
    passes, the process it starts reads back from its environment exactly the port
    that was entered, a port number from 1 to 65535, the three payout addresses, which
    are valid, and the server, address, contact and email token up to the white space
    around them; a port of the parent's own environment does not matter as long as it
    is one. *)
Theorem wizard_registration_env (p : Process) (progress : json) (now : Z) (body : string) (port fallback : num) :
  let next := assign progress [("port", Some (JStr (num_to_string port)))] in
  registrationValidationErrors progress now = [] -> normalizePort body = Some port ->
  trim (js_string (serverUrl_of next)) <> "" -> trim (text_of "publicIpv4" progress) <> "" ->
  trim (text_of "contact" progress) <> "" -> trim (text_of "emailVerificationToken" progress) <> "" ->
  integerEnv p "NODE_PORT" (num_of_Z 9090) = Ok fallback ->
  exists o, optionsFromEnv (child_env p (registrationEnv p next port)) = Ok o /\
    ro_port o = port /\ (exists z, port = num_of_Z z /\ 1 <= z <= 65535) /\
    ro_evmAddress o = text_of "evmAddress" progress /\ isValidEvmAddress (ro_evmAddress o) = true /\
    ro_solanaAddress o = text_of "solanaAddress" progress /\ isValidSolanaAddress (ro_solanaAddress o) = true /\
    ro_icpAddress o = text_of "icpAddress" progress /\ isValidIcpAddress (ro_icpAddress o) = true /\
    ro_serverUrl o = trim (js_string (serverUrl_of next)) /\ ro_ipv4 o = trim (text_of "publicIpv4" progress) /\
    ro_contact o = trim (text_of "contact" progress) /\ ro_emailVerificationToken o = trim (text_of "emailVerificationToken" progress).
Proof.
  intros next He Hb Hs Hip Hc Ht Hf. destruct (errors_nil _ _ He) as (_ & _ & _ & _ & E5 & E6 & E7 & Ev).
  destruct (normalizePort_range _ _ Hb) as (z & -> & Hz). destruct (addresses_valid _ E5 E6 E7 Ev) as (V1 & V2 & V3).
  pose proof (trim_no_space _ (evm_no_space _ V1)) as T1. pose proof (trim_no_space _ (solana_no_space _ V2)) as T2.
  pose proof (trim_no_space _ (icp_no_space _ V3)) as T3.
  assert (Hne : forall valid s, valid "" = false -> valid s = true -> s <> "") by (intros valid s Hv Hs' ->; congruence).
  destruct (read_port p progress z Hz now He fallback Hf) as [Hp1 Hp2]. pose proof (read_required p progress z Hz now He) as Hr. cbn zeta in *.
  fold next in Hp1, Hp2, Hr. unfold optionsFromEnv.
  rewrite (Hr "CONSENSUS_SERVER_URL" _ eq_refl Hs), (Hr "CONSENSUS_NODE_IPV4" _ eq_refl Hip), Hp1. cbn [mbind result_bind]. rewrite Hp2.
  rewrite (Hr "CONSENSUS_NODE_CONTACT" _ eq_refl Hc), (Hr "CONSENSUS_EMAIL_VERIFICATION_TOKEN" _ eq_refl Ht).
  rewrite (Hr "CONSENSUS_EVM_ADDRESS" _ eq_refl), (Hr "CONSENSUS_SOLANA_ADDRESS" _ eq_refl), (Hr "CONSENSUS_ICP_ADDRESS" _ eq_refl);
    [|rewrite T3; exact (Hne isValidIcpAddress _ eq_refl V3)|rewrite T2; exact (Hne isValidSolanaAddress _ eq_refl V2)
     |rewrite T1; exact (Hne isValidEvmAddress _ eq_refl V1)].
  eexists. split; [reflexivity|]. cbn. rewrite T1, T2, T3. split_and!; try done. by exists z.
Qed.

Lemma wizard_registration_env_witness : exists o,
  optionsFromEnv (child_env Demo.process (registrationEnv Demo.process (assign Demo.complete [("port", Some (JStr "9100"))]) (num_of_Z 9100))) = Ok o /\
  ro_port o = num_of_Z 9100 /\ isValidEvmAddress (ro_evmAddress o) = true /\ ro_contact o = "op@example.org".
Proof.
  destruct (wizard_registration_env Demo.process Demo.complete 1000000 "9.1e3" (num_of_Z 9100) (num_of_Z 9090)) as (o & Ho & Hp & _ & _ & Hv & _ & _ & _ & _ & _ & _ & Hc & _).
  - vm_compute. reflexivity.
  - vm_compute. reflexivity.
  - vm_compute. discriminate.
  - vm_compute. discriminate.
  - vm_compute. discriminate.
  - vm_compute. discriminate.
  - vm_compute. reflexivity.
  - exists o. split; [exact Ho|]. split; [exact Hp|]. split; [exact Hv|]. rewrite Hc. vm_compute. reflexivity.
Defined.
