(* ===== verification/Render.v ===== *)
(** * The pages of the setup wizard (setup-wizard/render.ts)

    A page is a template whose slots [{{NAME}}] are filled in one pass.  The files
    are arguments; what is put in which slot, and how it is escaped, is modelled. *)

From S2P Require Import Prelude Effect Program Text Json JsonText Coerce Files Url Setup WalletCapture Wizard.
Local Open Scope Z_scope.

(** ** Templates *)

(** [[A-Z0-9_]]. *)
Definition slot_char (c : ascii) : bool := between "A" "Z" c || is_digit c || bool_decide (c = "_"%char).

(** The longest run of slot characters, and what follows it. *)
Fixpoint take_slot (s : string) : string * string :=
  match s with
  | EmptyString => ("", "")
  | String c r => if slot_char c then let '(a, b) := take_slot r in (String c a, b) else ("", s)
  end.

(** A match of [/\{\{([A-Z0-9_]+)\}\}/] at the start: its name, and what follows. *)
Definition slot_at (s : string) : option (string * string) :=
  match s with
  | String "{" (String "{" r) =>
      let '(name, rest) := take_slot r in
      match rest with
      | String "}" (String "}" rest) => if bool_decide (name = "") then None else Some (name, rest)
      | _ => None
      end
  | _ => None
  end.

Definition slot_text (name : string) : string := "{{" +:+ name +:+ "}}".

(** [values[key] ?? match]. *)
Definition fill (values : list (string * string)) (name : string) : string := default (slot_text name) (assoc name values).

(** The replacement from left to right; the fuel counts characters. *)
Fixpoint inject (fuel : nat) (values : list (string * string)) (s : string) : string :=
  match fuel, s with
  | O, _ | _, EmptyString => ""
  | S fuel, String c r =>
      match slot_at s with
      | Some (name, rest) => fill values name +:+ inject fuel values rest
      | None => String c (inject fuel values r)
      end
  end.

Definition injectTemplate (template : string) (values : list (string * string)) : string :=
  inject (String.length template) values template.

Definition escape_html_char (c : ascii) : string :=
  if bool_decide (c = "&"%char) then "&amp;"
  else if bool_decide (c = "<"%char) then "&lt;"
  else if bool_decide (c = ">"%char) then "&gt;"
  else if bool_decide (c = chr_quote) then "&quot;"
  else String c "".

(** The four replacements at once: none of them makes a character that a later one
    replaces, but [&], which is first. *)
Fixpoint escapeHtml (value : string) : string :=
  match value with EmptyString => "" | String c r => escape_html_char c +:+ escapeHtml r end.

(** ** Pages *)

(** The files, by their key in [TEMPLATE_FILES]. *)
Section Pages.
Context (file : string -> string).

(** The members of the input that a page's script is given. *)
Definition pick (keys : list string) (input : json) : json := obj (map (fun k => (k, get k input)) keys).
(** The texts of an input are strings. *)
Definition input_text (k : string) (input : json) : string := match get k input with Some v => js_string v | None => "undefined" end.

Definition common (client : string) (config input : json) : list (string * string) :=
  [("CLIENT_SCRIPT", file client); ("CONFIG_JSON", safeScriptJson config); ("FAVICON_URL", escapeHtml (input_text "faviconUrl" input));
   ("LOGO_URL", escapeHtml (input_text "logoUrl" input)); ("STYLES", file "styles")].

Definition renderWelcomeHtml (input : json) : string :=
  injectTemplate (file "welcome")
    ([("AGREEMENT_CONTENT", file "agreement"); ("AGREEMENT_VERSION", escapeHtml (input_text "agreementVersion" input))] ++
     common "client" (pick ["progress"; "agreementVersion"; "progressUrl"; "agreementUrl"; "nextUrl"; "reloadUrl"; "serverStartId"; "devReload"] input) input).

Definition renderConnectionHtml (input : json) : string :=
  injectTemplate (file "connection")
    ([("BUN_LOGO_URL", escapeHtml (input_text "bunLogoUrl" input)); ("DEFAULT_INSTALL_DIR", escapeHtml (input_text "defaultInstallDir" input));
      ("INSTALL_DIR", escapeHtml (input_text "installDir" input)); ("PM2_LOGO_URL", escapeHtml (input_text "pm2LogoUrl" input))] ++
     common "connectionClient" (pick ["progress"; "backUrl"; "connectionUrl"; "installUrl"; "installDirSelectUrl"; "environmentUrl";
       "bunInstallUrl"; "pm2InstallUrl"; "reloadUrl"; "serverStartId"; "devReload"] input) input).

Definition renderInstallHtml (input : json) : string :=
  injectTemplate (file "install")
    ([("INSTALL_DIR", escapeHtml (input_text "installDir" input))] ++
     common "installClient" (pick ["progress"; "backUrl"; "manifestUrl"; "installUrl"; "nextUrl"; "reloadUrl"; "serverStartId"; "devReload"] input) input).

Definition renderNetworkHtml (input : json) : string :=
  injectTemplate (file "network")
    (common "networkClient" (pick ["progress"; "backUrl"; "statusUrl"; "runUrl"; "nextUrl"; "reloadUrl"; "serverStartId"; "devReload"] input) input).

Definition renderRegistrationHtml (input : json) : string :=
  injectTemplate (file "registration")
    (common "registrationClient" (pick ["progress"; "backUrl"; "statusUrl"; "emailStartUrl"; "emailVerifyUrl"; "walletSessionUrl";
       "walletStatusUrl"; "registerUrl"; "successUrl"; "reloadUrl"; "serverStartId"; "devReload"] input) input).

Definition renderSuccessHtml (input : json) : string :=
  injectTemplate (file "success")
    (common "successClient" (pick ["progress"; "statusUrl"; "headlessUrl"; "installDir"; "pm2Url"; "reloadUrl"; "serverStartId"; "devReload"] input) input).

Definition render (shown : page) (input : json) : string :=
  match shown with
  | Welcome => renderWelcomeHtml input
  | ConnectionPage => renderConnectionHtml input
  | InstallPage => renderInstallHtml input
  | NetworkPage => renderNetworkHtml input
  | RegistrationPage => renderRegistrationHtml input
  | SuccessPage => renderSuccessHtml input
  end.
End Pages.

(** ** Lemmas *)

Fixpoint count (c : ascii) (s : string) : nat :=
  match s with EmptyString => O | String d r => ((if decide (d = c) then 1 else 0) + count c r)%nat end.

Lemma count_app c a b : count c (a +:+ b) = (count c a + count c b)%nat.
Proof. induction a as [|d a IH]; [done|]. cbn [String.append count]. rewrite IH. lia. Qed.

Lemma count_none c s : no_char c s -> count c s = O.
Proof. induction s as [|d s IH]; [done|]. intros [Hd Hs]%no_char_cons. cbn. rewrite decide_False by done. by apply IH. Qed.

Lemma escape_none c s : (forall d, no_char c (escape_html_char d)) -> no_char c (escapeHtml s).
Proof. intros Hd. induction s as [|d s IH]; [done|]. cbn [escapeHtml]. by apply no_char_app. Qed.

(** Escaped text opens no tag and ends no attribute. *)
Lemma escapeHtml_inert s : no_char "<" (escapeHtml s) /\ no_char ">" (escapeHtml s) /\ no_char chr_quote (escapeHtml s).
Proof.
  assert (Hd : forall e d, e ∈ ["<"%char; ">"%char; chr_quote] -> no_char e (escape_html_char d)).
  { intros e d He. unfold escape_html_char. rewrite !elem_of_cons in He.
    repeat case_bool_decide; try (by destruct He as [->|[->|[->|He]]]; [..|by apply elem_of_nil in He]).
    apply no_char_cons. split; [|done]. destruct He as [->|[->|[->|He]]]; [done..|by apply elem_of_nil in He]. }
  split_and!; apply escape_none; intros d; apply Hd; set_solver.
Qed.

Lemma take_slot_split s : (take_slot s).1 +:+ (take_slot s).2 = s.
Proof. induction s as [|c s IH]; [done|]. cbn. destruct (slot_char c); [|done]. destruct (take_slot s). cbn in *. by rewrite IH. Qed.

Lemma slot_at_split s name rest : slot_at s = Some (name, rest) -> s = slot_text name +:+ rest.
Proof.
  unfold slot_at. intros Hs.
  repeat match type of Hs with
  | match ?x with _ => _ end = _ => is_var x; destruct x; try done
  end.
  match type of Hs with context [take_slot ?r] => pose proof (take_slot_split r) as Ht; destruct (take_slot r) as [a b] end. cbn in Ht.
  repeat match type of Hs with
  | match ?x with _ => _ end = _ => is_var x; destruct x; try done
  end.
  destruct (bool_decide _); [done|]. injection Hs as -> ->. subst. unfold slot_text. cbn [String.append]. by rewrite str_app_assoc.
Qed.

(** A slot without a value stays as it is; the fuel is enough. *)
Lemma inject_nothing fuel s : (String.length s <= fuel)%nat -> inject fuel [] s = s.
Proof.
  revert s. induction fuel as [|fuel IH]; intros [|c r] Hl; try done; [cbn in Hl; lia|]. cbn [inject].
  destruct (slot_at (String c r)) as [[name rest]|] eqn:E; [|by rewrite IH by (cbn in Hl; lia)].
  pose proof (slot_at_split _ _ _ E) as Hs. rewrite Hs. unfold fill. cbn [assoc default]. rewrite IH; [done|].
  rewrite Hs in Hl. unfold slot_text in Hl. rewrite !str_app_length in Hl. cbn in Hl. lia.
Qed.

(** Slots are replaced in one pass: what is put in a slot is not looked at again. *)
Lemma inject_count c fuel vs ws s : (forall name, count c (fill vs name) = count c (fill ws name)) ->
  count c (inject fuel vs s) = count c (inject fuel ws s).
Proof.
  intros Hv. revert s. induction fuel as [|fuel IH]; intros [|d r]; try done. cbn [inject].
  destruct (slot_at _) as [[name rest]|]; [by rewrite !count_app, Hv, IH|]. cbn [count]. by rewrite IH.
Qed.

(** Values with the same names, and with as many [c] under each name. *)
Lemma fill_count c vs ws : Forall2 (fun v w => v.1 = w.1 /\ count c v.2 = count c w.2) vs ws ->
  forall name, count c (fill vs name) = count c (fill ws name).
Proof.
  intros Hf name. unfold fill. induction Hf as [|[k v] [k' w] vs ws [Hk Hc] Hf IH]; [done|]. cbn in Hk, Hc. subst k'.
  cbn [assoc]. destruct (decide (name = k)); [done|exact IH].
Qed.

(** ** Properties *)

(** Nothing an operator, a server or a link says can add an element to a page: with the
    same template files, every page of the wizard has the same number of ["<"] whatever
    the progress, the directories and the links it is rendered from, so no tag can be
    opened or closed by them; and a template none of whose slots has a value is left
    as it is. *)
Theorem page_markup_fixed (file : string -> string) (shown : page) (input input' : json) :
  count "<" (render file shown input) = count "<" (render file shown input') /\
  forall template, injectTemplate template [] = template.
Proof.
  split; [|intros template; by apply inject_nothing].
  assert (He : forall k k', count "<" (escapeHtml (input_text k input)) = count "<" (escapeHtml (input_text k' input'))).
  { intros k k'. by rewrite !count_none by apply escapeHtml_inert. }
  assert (Hc : forall client l, Forall2 (fun v w : string * string => v.1 = w.1 /\ count "<" v.2 = count "<" w.2)
    (common file client (pick l input) input) (common file client (pick l input') input')).
  { intros client l. unfold common. repeat constructor; cbn [snd]; try apply He.
    by rewrite !count_none by apply script_json_no_tag. }
  destruct shown; apply inject_count, fill_count; rewrite ?app_nil_l; try apply Hc; (apply Forall2_app; [|apply Hc]); repeat constructor; apply He.
Qed.
