(* ===== verification/Terminal.v ===== *)
(** * The setup command (setup.ts)

    The same setup as the wizard, asked at a terminal: one question after the other,
    each answer saved before the next one.  The steps the two share are in [Setup].
    What is printed is not modelled. *)

From S2P Require Import Prelude Effect Program Text Json JsonText JsonIndent Coerce Crypto Files SecretStore Machine Dedupe Update Url Eval Join.
From S2P Require Import WalletCapture Setup.
Local Open Scope Z_scope.

(** ** The terminal *)

(** How the wait for the browser ends: with addresses, with a line typed at the
    terminal instead, or with a terminal that fails. *)
Inductive wallet_answer := Captured (a : WalletAddresses) | Skipped | TerminalFailed (e : exn).

(** Questions to the operator, and the questions of [Setup] with the [PATH] that the
    processes it starts inherit. *)
Inductive outside : Type -> Type :=
| Outside {X} (q : question X) (PATH : option string) : outside X
| Prompt (text : string) : outside string
| OpenPage (url : string) : outside (result unit)
| WalletRace (text : string) : outside wallet_answer.

(** The state of [Setup], and [process.env.PATH], which this process changes. *)
Record Cli := { cli_setup : SetupState; cli_path : option string }.

Notation cli := (prog Cli outside).

Definition on_setup {A} (m : eff SetupState A) : eff Cli A := fun s =>
  let (s', r) := m (cli_setup s) in ({| cli_setup := s'; cli_path := cli_path s |}, r).

(** A program of [Setup] as a part of this one. *)
Fixpoint lifted {A} (q : prog SetupState question A) : cli A :=
  match q with
  | Return a => Return a
  | Raise e => Raise e
  | Atomic m k => Atomic (on_setup m) (fun r => lifted (k r))
  | Ask q k => Atomic (gets cli_path) (fun r => match r with Ok PATH => Ask (Outside q PATH) (fun a => lifted (k a)) | Throw e => Raise e end)
  end.

Definition from_outside {A} (q : question A) : cli A := lifted (ask q).

Definition exit_text (code : option Z) : string := match code with Some c => pretty c | None => "null" end.

Definition as_text (v : json) : result string :=
  match v with JStr s => Ok s | _ => Throw (TypeError "not a string") end.

(** ** Answers *)

Definition confirm_text (prompt : string) (fallback : bool) : string :=
  prompt +:+ " [" +:+ (if fallback then "Y/n" else "y/N") +:+ "]: ".

(** What an answer to [confirm] means. *)
Definition means (fallback : bool) (line : string) : bool :=
  let answer := toLowerCase (trim line) in
  if bool_decide (answer = "") then fallback else bool_decide (answer = "y") || bool_decide (answer = "yes").

Definition confirm (prompt : string) (fallback : bool) : cli bool :=
  line ← ask (Prompt (confirm_text prompt fallback)); mret (means fallback line).

Definition question_or (prompt : string) (fallback : json) : cli json :=
  line ← ask (Prompt (prompt +:+ " [" +:+ js_string fallback +:+ "]: "));
  mret (if bool_decide (trim line = "") then fallback else JStr (trim line)).

(** The loop of [requiredQuestion]; after [tries] empty answers the terminal is taken
    to be closed. *)
Fixpoint requiredQuestion (tries : nat) (prompt : string) (fallback : option json) : cli json :=
  match tries with
  | O => raise (PlainError "readline was closed")
  | S tries =>
      let suffix := match fallback with Some f => if truthy (Some f) then " [" +:+ js_string f +:+ "]" else "" | None => "" end in
      line ← ask (Prompt (prompt +:+ suffix +:+ ": "));
      if negb (bool_decide (trim line = "")) then mret (JStr (trim line))
      else match fallback with
           | Some f => if truthy (Some f) then mret f else requiredQuestion tries prompt fallback
           | None => requiredQuestion tries prompt fallback
           end
  end.

(** ** Processes *)

Fixpoint drop_while (f : ascii -> bool) (s : string) : string :=
  match s with String c r => if f c then drop_while f r else s | EmptyString => "" end.

(** [path.dirname], read from the end: the last segment, then its slash. *)
Definition path_dirname (s : string) : string :=
  let slash c := bool_decide (c = "/"%char) in
  match drop_while (fun c => negb (slash c)) (drop_while slash (str_rev s "")) with
  | String _ (String _ r' as r) => if startsWith s "/" && bool_decide (r' = "") then "//" else str_rev r ""
  | _ => if startsWith s "/" then "/" else "."
  end.

Example dirnames : map path_dirname ["/usr/local/bin/bun"; "bun"; "/bun"; "a//b/"; "//a"; ""; "/"] =
  ["/usr/local/bin"; "."; "/"; "a/"; "//"; "."; "/"].
Proof. vm_compute. reflexivity. Qed.

Definition addExecutableDirToPath (executable : string) : cli unit :=
  let dir := path_dirname executable in
  atomically (modify (fun s =>
    let current := default "" (cli_path s) in
    if bool_decide (dir ∈ split ":" current) then s
    else {| cli_setup := cli_setup s; cli_path := Some (dir +:+ ":" +:+ current) |})).

Section Terminal.
Context `{UrlApi} `{Aead} `{Hashing} (p : Process) (tries : nat).

Definition run (command : string) (args : list string) (env : list (string * string)) (dir : string) : cli unit :=
  e ← from_outside (Spawn {| cmd_name := command; cmd_args := args; cmd_env := env; cmd_cwd := Some dir |});
  match e with
  | Exited code _ => if bool_decide (code = Some 0) then mret tt else raise (PlainError (command +:+ " exited with code " +:+ exit_text code))
  | NotStarted m => raise (PlainError m)
  end.

(** What is printed is the output of a process that succeeds and the errors of one
    that fails. *)
Definition runForOutput (command : string) (args : list string) : cli string :=
  e ← from_outside (Spawn {| cmd_name := command; cmd_args := args; cmd_env := []; cmd_cwd := Some (cwd p) |});
  match e with
  | Exited code printed =>
      if bool_decide (code = Some 0) then mret printed
      else raise (PlainError (if bool_decide (trim printed = "") then command +:+ " exited with code " +:+ exit_text code else trim printed))
  | NotStarted m => raise (PlainError m)
  end.

Definition runScript (script : string) (args : list string) (env : list (string * string)) : cli unit :=
  found ← from_outside (Access script);
  if found : bool then run script args env (cwd p)
  else raise (PlainError ("ENOENT: no such file or directory, access '" +:+ script +:+ "'")).

Definition runBunInCurrent (installDir : json) (args : list string) (env : list (string * string)) : cli unit :=
  dir ← resume (as_text installDir); run "bun" args env (path_join [dir; "current"]).

(** The whole line that the shell prints, not its first word. *)
Definition which_line (command : string) : cli (option string) :=
  e ← from_outside (Spawn {| cmd_name := "sh"; cmd_args := ["-lc"; "command -v " +:+ shellQuote command]; cmd_env := []; cmd_cwd := None |});
  mret (match e with
        | Exited code printed => if bool_decide (code = Some 0) && negb (bool_decide (trim printed = "")) then Some (trim printed) else None
        | NotStarted _ => None
        end).

Definition find_executable (command : string) (fallbackPaths : list string) : cli (option string) :=
  found ← which_line command;
  match found with Some f => mret (Some f) | None => lifted (first_existing fallbackPaths) end.

Definition HOME : string := default "." (env p "HOME").
Definition default_install_dir : string := path_join [HOME; ".consensus"; "node-runtime"].
Definition bun_paths : list string := [path_join [HOME; ".bun"; "bin"; "bun"]; "/opt/homebrew/bin/bun"; "/usr/local/bin/bun"].

(** ** The runtime of the node *)

Definition use_executable (executable : string) : cli unit :=
  addExecutableDirToPath executable;; run executable ["--version"] [] (cwd p).

(** [ensureBunAvailable] and [ensurePm2Available]: the script runs only after a yes. *)
Definition ensure_available (command : string) (fallbackPaths : list string) (prompt script missing lost : string) : cli unit :=
  existing ← find_executable command fallbackPaths;
  match existing with
  | Some executable => use_executable executable
  | None =>
      yes ← confirm prompt false;
      if negb yes then raise (PlainError missing)
      else
        runScript script ["--yes"] [];;
        found ← find_executable command fallbackPaths;
        match found with None => raise (PlainError lost) | Some executable => use_executable executable end
  end.

Definition ensureBunAvailable : cli unit :=
  ensure_available "bun" bun_paths "Install Bun now?" "scripts/ensure-bun.sh"
    "Bun is required. Run `scripts/ensure-bun.sh`, then rerun setup."
    "Bun installed, but bun was not found on PATH or in standard locations.".
Definition ensurePm2Available : cli unit :=
  ensure_available "pm2" pm2FallbackPaths "Install PM2 and any missing macOS dependencies now?" "scripts/ensure-pm2.sh"
    "PM2 is required. Run `scripts/ensure-pm2.sh`, then rerun setup."
    "PM2 installed, but pm2 was not found on PATH or in standard Homebrew locations.".

Definition remembered (progress : json) (patch : list (string * option json)) : cli json := lifted (remember p progress patch).

(** [None]: the operator declined. *)
Definition installRelease (serverUrl installDir progress : json) : cli (option json) :=
  url ← resume (as_text serverUrl);
  manifest ← lifted (fetchManifest url);
  dir ← resume (as_text installDir);
  let version := get "version" manifest in
  reuse ← (if strict_equal (get "installedVersion" progress) version then
             found ← from_outside (Access (path_join [dir; "current"]));
             if found : bool then confirm ("Use existing installed runtime " +:+ template version +:+ "?") true else mret false
           else mret false);
  if reuse : bool then mret (Some progress)
  else
    yes ← confirm "Download and install this approved release?" false;
    if negb yes then mret None
    else
      artifact ← lifted (downloadArtifact p manifest);
      runScript "scripts/install-release.sh" []
        ([("CONSENSUS_NODE_INSTALL_DIR", dir); ("CONSENSUS_NODE_ARTIFACT_PATH", dl_path artifact)] ++
         env_entry "CONSENSUS_NODE_TARGET_VERSION" version);;
      next ← remembered progress [("installedVersion", version)];
      mret (Some next).

(** ** Network and evaluation *)

(** The addresses and the progress; each thing is saved before the next is looked for. *)
Definition detect_network (serverUrl progress : json) : cli (json * json * json) :=
  publicIpv4 ← lifted detectPublicIpv4;
  next ← remembered progress [("publicIpv4", Some publicIpv4)];
  publicIpv6 ← lifted (catch detectPublicIpv6 (fun _ => mret JNull));
  next ← remembered next [("publicIpv6", Some publicIpv6)];
  region ← lifted (catch (url ← resume (as_text serverUrl); fetchRegion url publicIpv4) (fun _ => mret JNull));
  next ← remembered next [("region", Some region)];
  mret (publicIpv4, publicIpv6, next).

Definition reuse_prompt (joinAuth : option json) : string :=
  "Reuse valid eval join authorization " +:+ template (match joinAuth with Some v => get "join_id" v | None => None end) +:+ "?".

Definition evaluate (serverUrl installDir progress : json) : cli json :=
  joinAuth ← lifted (joinAuthorization p);
  now ← (if truthy joinAuth then from_outside Now else mret 0);
  reuse ← (if joinAuthReusable joinAuth now then confirm (reuse_prompt joinAuth) true else mret false);
  if reuse : bool then mret progress
  else
    runBunInCurrent installDir ["run"; "eval"]
      (env_entry "CONSENSUS_SERVER_URL" (Some serverUrl) ++ [("CONSENSUS_STATE_DIR", stateDir p)]);;
    at_ ← lifted nowIso;
    remembered progress [("evalPassedAt", Some (JStr at_))].

(** ** Contact *)

Definition verifyEmail (serverUrl email : json) : cli (option json * option json) :=
  url ← resume (as_text serverUrl);
  started ← lifted (postJson (trimTrailingSlash url +:+ "/node/email/start") (JObj [("email", email)]));
  code ← requiredQuestion tries "Email verification code" None;
  verified ← lifted (postJson (trimTrailingSlash url +:+ "/node/email/verify")
    (obj [("email", Some email); ("verification_id", get "verification_id" started); ("code", Some code)]));
  mret (get "email_verification_token" verified, get "expires_at" verified).

Definition reuse_token_prompt (contact : json) : string := "Reuse verified email token for " +:+ js_string contact +:+ "?".

(** The token that the registration is given, and the progress. *)
Definition email_token (serverUrl contact progress : json) : cli (option json * json) :=
  let token := get "emailVerificationToken" progress in
  let until := get "emailVerificationExpiresAt" progress in
  now ← (if truthy token && truthy until then from_outside Now else mret 0);
  reuse ← (if truthy token && fresh_until until now then confirm (reuse_token_prompt contact) true else mret false);
  if reuse : bool then mret (token, progress)
  else
    verified ← verifyEmail serverUrl contact;
    next ← remembered progress [("emailVerificationToken", verified.1); ("emailVerificationExpiresAt", verified.2)];
    mret (verified.1, next).

(** ** Payout addresses *)

Definition race_prompt : string := "Submit addresses in the browser, or press Enter here to type them manually: ".

(** The submission as the race ended, merged into the progress if all of it is valid. *)
Definition take_addresses (progress : json) (answer : wallet_answer) : cli json :=
  match answer with
  | TerminalFailed e => raise e
  | Skipped => mret progress
  | Captured addresses =>
      let merged := merged_addresses progress addresses in
      match address_errors (assign progress merged) with
      | [] => remembered progress merged
      | _ => mret progress
      end
  end.

Definition collectWalletAddresses (progress : json) : cli json :=
  yes ← confirm "Use browser wallet connection?" true;
  if negb yes then mret progress
  else
    url ← from_outside (StartWalletServer (normalizeWalletAddresses progress));
    url ← resume url;
    (if bool_decide (trim (default "" (env p "CONSENSUS_WALLET_CAPTURE_OPEN")) = "0") then mret tt
     else ask (OpenPage url);; mret tt);;
    answer ← ask (WalletRace race_prompt);
    let stop : cli unit := from_outside (StopWalletServer url);; mret tt in
    next ← catch (take_addresses progress answer) (fun e => stop;; raise e);
    stop;; mret next.

Definition ask_member (prompt key : string) (progress : json) : cli (json * json) :=
  v ← requiredQuestion tries prompt (get key progress);
  next ← remembered progress [(key, Some v)];
  mret (v, next).

(** ** PM2 *)

Definition verify_online (pm2 appName : string) : cli unit :=
  from_outside (Sleep (pm2VerifyDelayMs p));;
  printed ← runForOutput pm2 ["jlist"];
  let status := pm2StatusFromJlist printed appName in
  if bool_decide (status = Some (JStr "online")) then mret tt
  else raise (PlainError ("PM2 accepted " +:+ appName +:+ ", but it did not reach online status (status: " +:+
    (if truthy status then template status else "missing") +:+ "). Run `pm2 logs " +:+ appName +:+ "` for details.")).

Definition start_prompt : string := "Start the PM2 supervised control tunnel now?".

Definition offerStartPm2 (installDir serverUrl : json) : cli unit :=
  let appName := env_trimmed_or p "CONSENSUS_PM2_NAME" DEFAULT_PM2_NAME in
  dir ← resume (as_text installDir);
  let configPath := path_join [dir; "current"; "ecosystem.config.cjs"] in
  found ← from_outside (Access configPath);
  if negb found then mret tt
  else
    yes ← confirm start_prompt true;
    if negb yes then mret tt
    else
      pm2 ← find_executable "pm2" pm2FallbackPaths;
      match pm2 with
      | None => raise (PlainError "PM2 is not available. Run `scripts/ensure-pm2.sh`, then rerun setup.")
      | Some pm2 =>
          addExecutableDirToPath pm2;;
          run pm2 ["startOrReload"; configPath; "--only"; appName; "--update-env"]
            (env_entry "CONSENSUS_SERVER_URL" (Some serverUrl) ++
             [("CONSENSUS_STATE_DIR", stateDir p); ("CONSENSUS_NODE_INSTALL_DIR", dir);
              ("CONSENSUS_NODE_RELEASE_RETENTION", env_trimmed_or p "CONSENSUS_NODE_RELEASE_RETENTION" "3");
              ("CONSENSUS_PM2_NAME", appName);
              ("CONSENSUS_NODE_UPDATE_COMMAND", path_join [dir; "current"; "scripts"; "install-release.sh"])]) (cwd p);;
          verify_online pm2 appName;;
          run pm2 ["save"] [] (cwd p)
      end.

(** ** The command *)

Definition registration_env (serverUrl publicIpv4 publicIpv6 port contact : json) (token : option json) (evm solana icp : json) : list (string * string) :=
  env_entry "CONSENSUS_SERVER_URL" (Some serverUrl) ++ [("CONSENSUS_STATE_DIR", stateDir p)] ++
  env_entry "CONSENSUS_NODE_IPV4" (Some publicIpv4) ++
  (if truthy (Some publicIpv6) then env_entry "CONSENSUS_NODE_IPV6" (Some publicIpv6) else []) ++
  env_entry "CONSENSUS_NODE_PORT" (Some port) ++ env_entry "CONSENSUS_NODE_CONTACT" (Some contact) ++
  env_entry "CONSENSUS_EMAIL_VERIFICATION_TOKEN" token ++ env_entry "CONSENSUS_EVM_ADDRESS" (Some evm) ++
  env_entry "CONSENSUS_SOLANA_ADDRESS" (Some solana) ++ env_entry "CONSENSUS_ICP_ADDRESS" (Some icp).

Definition skip_prompt (config : json) : string :=
  "Node already registered as " +:+ template (get "node_id" config) +:+ "; skip registration?".

(** A node that is registered keeps its registration, unless the operator says no. *)
Definition register_or_keep (installDir serverUrl : json) (env_of : list (string * string)) : cli unit :=
  config ← lifted (readConfig p);
  resume (members config);;
  skip ← (if truthy (get "node_id" config) then confirm (skip_prompt config) true else mret false);
  (if skip : bool then lifted (claimNode p (text_member "node_id" config) (as_string (Some installDir)))
   else runBunInCurrent installDir ["run"; "register"] env_of);;
  offerStartPm2 installDir serverUrl.

(** From the detected network to the registration. *)
Definition registration (serverUrl installDir progress : json) : cli unit :=
  network ← detect_network serverUrl progress;
  let '(publicIpv4, publicIpv6, progress) := network in
  progress ← evaluate serverUrl installDir progress;
  c ← ask_member "Contact email" "contact" progress;
  t ← email_token serverUrl c.1 c.2;
  progress ← collectWalletAddresses t.2;
  evm ← ask_member "EVM address" "evmAddress" progress;
  solana ← ask_member "Solana address" "solanaAddress" evm.2;
  icp ← ask_member "ICP address" "icpAddress" solana.2;
  port ← question_or "Node local port" (default (JStr "9090") (nullish (get "port" icp.2)));
  remembered icp.2 [("port", Some port)];;
  register_or_keep installDir serverUrl
    (registration_env serverUrl publicIpv4 publicIpv6 port c.1 t.1 evm.1 solana.1 icp.1).

Definition welcome_prompt : string := "Continue with node setup?".

(** [main]; a rejection is printed and the process exits with 1. *)
Definition main : cli unit :=
  progress ← lifted (loadProgress p);
  yes ← confirm welcome_prompt false;
  if negb yes then mret tt
  else
    resume (members progress);;
    serverUrl ← question_or "Consensus server URL" (default (JStr DEFAULT_SERVER_URL) (nullish (get "serverUrl" progress)));
    installDir ← question_or "Runtime install directory" (default (JStr default_install_dir) (nullish (get "installDir" progress)));
    progress ← remembered progress [("serverUrl", Some serverUrl); ("installDir", Some installDir)];
    ensureBunAvailable;;
    ensurePm2Available;;
    installed ← installRelease serverUrl installDir progress;
    match installed with
    | None => mret tt
    | Some progress => registration serverUrl installDir progress
    end.
End Terminal.

(** ** Lemmas *)

(** What is typed, line by line. *)
Fixpoint feed {A} (lines : list string) (m : cli A) : cli A :=
  match lines with
  | [] => m
  | l :: lines =>
      match m with
      | Ask q k => match q in outside X return (X -> cli A) -> cli A with Prompt _ => fun k => feed lines (k l) | _ => fun _ => m end k
      | _ => m
      end
  end.

(** The fuel of [requiredQuestion] counts empty answers: with more than there are, the
    first answer that is not empty is returned. *)
Lemma required_enough tries prompt blanks x : Forall (fun b => trim b = "") blanks -> trim x <> "" -> (length blanks < tries)%nat ->
  feed (blanks ++ [x]) (requiredQuestion tries prompt None) = mret (JStr (trim x)).
Proof.
  intros Hb Hx. revert tries. induction Hb as [|b blanks Hb _ IH]; intros [|tries] Hl; try (cbn in Hl; lia).
  - cbn. by rewrite bool_decide_false.
  - cbn. rewrite bool_decide_true by done. cbn in Hl. apply IH. lia.
Qed.

(** A default that is set is taken at once. *)
Lemma required_default tries prompt f line : truthy (Some f) = true -> trim line = "" ->
  feed [line] (requiredQuestion (S tries) prompt (Some f)) = mret f.
Proof. intros Hf Hl. cbn [requiredQuestion]. cbv zeta. rewrite Hf. cbn [feed mbind prog_bind ask]. by rewrite bool_decide_true. Qed.
