(* ===== verification/TerminalSafe.v ===== *)
(** * What the setup command does, and when

    The command runs alone, but the processes it starts and other programs may change
    every file but its progress while it waits.  What is started was agreed to at the
    terminal before, and the registration is of what was saved. *)

From S2P Require Import Prelude Effect Program Trace Text Json JsonText JsonIndent JsonSaved Coerce Crypto Files SecretStore Machine Dedupe Update Url Eval.
From S2P Require Import Join WalletCapture Setup SetupFrame Terminal.
Local Open Scope Z_scope.

Notation hist := (list (exchange outside)).
Notation setup_run := (@Run Cli outside unit).

(** ** Claims *)

(** The operator was asked, and the answer means yes. *)
Definition told (prompt : string) (fallback : bool) (h : hist) : Prop :=
  exists line, In (Exchange (Prompt (confirm_text prompt fallback)) line) h /\ means fallback line = true.

(** An evaluation: a join authorization that was still good and that the operator
    reuses, or an evaluation process that succeeded. *)
Definition evaluated (h : hist) : Prop :=
  (exists joinAuth now PATH, In (Exchange (Outside Now PATH) now) h /\ joinAuthReusable joinAuth now = true /\ told (reuse_prompt joinAuth) true h) \/
  (exists c PATH printed, In (Exchange (Outside (Spawn c) PATH) (Exited (Some 0) printed)) h /\ cmd_args c = ["run"; "eval"]).

(** A token for a contact: one the operator reuses before it expires, or one the server
    gave for that very contact. *)
Definition token_source (contact : json) (token : option json) (h : hist) : Prop :=
  (exists until now PATH, In (Exchange (Outside Now PATH) now) h /\ fresh_until until now = true /\ told (reuse_token_prompt contact) true h) \/
  (exists url body PATH answer verified, In (Exchange (Outside (Post url body) PATH) answer) h /\ get "email" body = Some contact /\
     answer ≫= post_result = Ok verified /\ token = get "email_verification_token" verified).

Section Claims.
Context (p : Process).

Definition file_of (s : SetupState) : option entry := w_disk (ss_world s) !! setupProgress (paths p).
Definition saved (s : Cli) : json := loadSetupProgress p (w_disk (ss_world (cli_setup s))).

(** The progress in hand is the one on disk. *)
Definition knows (progress : json) (s : Cli) : Prop := parsed_json progress = true /\ saved s = finite progress.

(** What the registration is given, from the progress alone. *)
Definition progress_env (progress : json) : list (string * string) :=
  let var name k := env_entry name (get k progress) in
  var "CONSENSUS_SERVER_URL" "serverUrl" ++ [("CONSENSUS_STATE_DIR", stateDir p)] ++ var "CONSENSUS_NODE_IPV4" "publicIpv4" ++
  (if truthy (get "publicIpv6" progress) then var "CONSENSUS_NODE_IPV6" "publicIpv6" else []) ++
  var "CONSENSUS_NODE_PORT" "port" ++ var "CONSENSUS_NODE_CONTACT" "contact" ++
  var "CONSENSUS_EMAIL_VERIFICATION_TOKEN" "emailVerificationToken" ++ var "CONSENSUS_EVM_ADDRESS" "evmAddress" ++
  var "CONSENSUS_SOLANA_ADDRESS" "solanaAddress" ++ var "CONSENSUS_ICP_ADDRESS" "icpAddress".

(** The environment of the installer, which names an artifact that was downloaded for
    the manifest that the saved server gave, with the digest of the manifest, if it has
    one. *)
Definition given_release `{Hashing} (c : Command) (s : Cli) (h : hist) : Prop :=
  exists progress url dir fetch0 PATH0 manifest fetch PATH bytes sha256,
    knows progress s /\ get "serverUrl" progress = Some (JStr url) /\ get "installDir" progress = Some (JStr dir) /\
    In (Exchange (Outside Network PATH0) fetch0) h /\ fetchRequiredManifest fetch0 url = Ok manifest /\
    In (Exchange (Outside Network PATH) fetch) h /\ artifact fetch manifest bytes sha256 /\
    cmd_env c = [("CONSENSUS_NODE_INSTALL_DIR", dir); ("CONSENSUS_NODE_ARTIFACT_PATH", artifact_path p manifest)] ++
      env_entry "CONSENSUS_NODE_TARGET_VERSION" (get "version" manifest).

Record sound_process `{Hashing} (c : Command) (s : Cli) (h : hist) : Prop := {
  sp_tools : cmd_args c = ["--yes"] ->
    cmd_name c = "scripts/ensure-bun.sh" /\ told "Install Bun now?" false h \/
    cmd_name c = "scripts/ensure-pm2.sh" /\ told "Install PM2 and any missing macOS dependencies now?" false h;
  sp_install : cmd_args c = [] ->
    cmd_name c = "scripts/install-release.sh" /\ told "Download and install this approved release?" false h /\
    given_release c s h;
  sp_start : head (cmd_args c) = Some "startOrReload" -> told start_prompt true h;
  sp_register : cmd_args c = ["run"; "register"] -> evaluated h /\
    exists progress contact dir, knows progress s /\ cmd_env c = progress_env progress /\
      get "contact" progress = Some contact /\ token_source contact (get "emailVerificationToken" progress) h /\
      get "installDir" progress = Some (JStr dir) /\ cmd_cwd c = Some (path_join [dir; "current"]) }.

Definition justified `{Hashing} (X : Type) (q : outside X) (s : Cli) (h : hist) : Prop :=
  match q with
  | Prompt _ => True
  | Outside q _ => told welcome_prompt false h /\ match q with Spawn c => sound_process c s h | _ => True end
  | _ => told welcome_prompt false h
  end.

(** What may change while the command waits, or does something else: everything but
    the progress. *)
Definition others (s s' : Cli) : Prop := file_of (cli_setup s') = file_of (cli_setup s).
End Claims.

(** ** Histories only grow *)

Definition later (h h' : hist) : Prop := exists l, h' = h ++ l.

Lemma later_refl h : later h h.
Proof. exists []. by rewrite List.app_nil_r. Qed.
Lemma later_trans h h1 h2 : later h h1 -> later h1 h2 -> later h h2.
Proof. intros [l1 ->] [l2 ->]. exists (l1 ++ l2). by rewrite List.app_assoc. Qed.
Lemma later_snoc h x : later h (h ++ [x]).
Proof. by exists [x]. Qed.
Lemma in_last h (x : exchange outside) : In x (h ++ [x]).
Proof. apply in_or_app. right. by left. Qed.

Lemma elem_later (x : exchange outside) h h' : In x h -> later h h' -> In x h'.
Proof. intros Hx [l ->]. apply in_or_app. by left. Qed.

Lemma told_later prompt fallback h h' : told prompt fallback h -> later h h' -> told prompt fallback h'.
Proof. intros (line & Hl & Hm) Hp. exists line. split; [by eapply elem_later|done]. Qed.

Lemma evaluated_later h h' : evaluated h -> later h h' -> evaluated h'.
Proof.
  intros [(a & now & PATH & Hn & Hr & Ht)|(c & PATH & out & Hc & Ha)] Hp; [left; exists a, now, PATH|right; exists c, PATH, out].
  - split_and!; [by eapply elem_later|done|by eapply told_later].
  - split; [by eapply elem_later|done].
Qed.

Lemma token_later contact token h h' : token_source contact token h -> later h h' -> token_source contact token h'.
Proof.
  intros [(u & now & PATH & Hn & Hr & Ht)|(url & body & PATH & a & v & Ha & Hb)] Hp; [left; exists u, now, PATH|right; exists url, body, PATH, a, v].
  - split_and!; [by eapply elem_later|done|by eapply told_later].
  - split; [by eapply elem_later|done].
Qed.

Create HintDb cli.
#[export] Hint Resolve told_later evaluated_later token_later : cli.

(** ** Runs *)

Section Does.
Context `{Hashing} (p : Process).

(** [m] asks only justified questions; when it returns, [R] holds of the value. *)
Definition does {A} (m : cli A) (s : Cli) (h : hist) (R : A -> Cli -> hist -> Prop) : Prop :=
  wp (others p) (justified p) (fun r s' h' => later h h' /\ match r with Ok a => R a s' h' | Throw _ => True end) m s h.

Lemma does_ret {A} (a : A) s h (R : A -> Cli -> hist -> Prop) : R a s h -> does (mret a) s h R.
Proof. intros. split; [apply later_refl|done]. Qed.

Lemma does_raise {A} e s h (R : A -> Cli -> hist -> Prop) : does (raise e) s h R.
Proof. intros. split; [apply later_refl|done]. Qed.

Lemma does_resume {A} (r : result A) s h (R : A -> Cli -> hist -> Prop) : (forall a, r = Ok a -> R a s h) -> does (resume r) s h R.
Proof. destruct r as [a|e]; intros Hr; [by apply does_ret, Hr|apply does_raise]. Qed.

Lemma does_mono {A} (m : cli A) s h (R R' : A -> Cli -> hist -> Prop) :
  (forall a s' h', later h h' -> R a s' h' -> R' a s' h') -> does m s h R -> does m s h R'.
Proof. intros Hi. apply wp_mono. intros [a|e] s' h' [Hp Hr]; split; auto. Qed.

Lemma does_bind {A B} (m : cli A) (f : A -> cli B) s h (R : A -> Cli -> hist -> Prop) (R' : B -> Cli -> hist -> Prop) :
  does m s h R -> (forall a s' h', later h h' -> R a s' h' -> does (f a) s' h' R') -> does (m ≫= f) s h R'.
Proof.
  intros Hm Hf. apply wp_bind. eapply wp_mono; [|exact Hm]. intros [a|e] s' h' [Hp Hr]; [|done].
  eapply wp_mono; [|exact (Hf _ _ _ Hp Hr)]. intros r s2 h2 [Hp2 Hr2]. split; [by eapply later_trans|done].
Qed.

Lemma does_ask {A} (q : outside A) s h (R : A -> Cli -> hist -> Prop) :
  justified p _ q s h -> (forall a s', others p s s' -> R a s' (h ++ [Exchange q a])) -> does (ask q) s h R.
Proof. intros Hq HR. apply wp_ask; [done|]. intros a s' Hs. split; [apply later_snoc|by apply HR]. Qed.

Lemma does_modify (f : Cli -> Cli) s h (R : unit -> Cli -> hist -> Prop) : R tt (f s) h -> does (atomically (modify f)) s h R.
Proof. intros HR. by apply wp_atomic. Qed.

(** A question of [Setup]. *)
Lemma does_outside {A} (q : question A) s h (R : A -> Cli -> hist -> Prop) :
  justified p _ (Outside q (cli_path s)) s h ->
  (forall a s', others p s s' -> R a s' (h ++ [Exchange (Outside q (cli_path s)) a])) -> does (from_outside q) s h R.
Proof. intros Hq HR. cbn. split; [done|]. intros a s' Hs. split; [apply later_snoc|by apply HR]. Qed.

Lemma others_refl s : others p s s.
Proof. done. Qed.
Lemma others_trans s s1 s2 : others p s s1 -> others p s1 s2 -> others p s s2.
Proof. unfold others. congruence. Qed.

Lemma knows_others progress s s' : knows p progress s -> others p s s' -> knows p progress s'.
Proof. unfold knows, saved, others, file_of, loadSetupProgress, readJson, readFile. by intros [Hp Hs] ->. Qed.

Definition quiet_only (X : Type) (q : question X) : Prop := quiet q = true.
#[export] Instance quiet_allows : Allows quiet_only.
Proof. by intros X q. Qed.
#[export] Instance file_framed x : Framed p (fun s => file_of p s = x).
Proof. intros s s'. unfold file_of. by intros ->. Qed.

(** What a program of [Setup] is told in a history. *)
Definition told_in (h : hist) : Chronicle SetupState question :=
  {| seen := fun _ => True; heard := fun x => exists PATH, In (Exchange (Outside (ex_question _ x) PATH) (ex_answer _ x)) h |}.

(** A program of [Setup] that leaves the progress alone and starts nothing. *)
Lemma does_lifted {A} (m : prog SetupState question A) (R : hist -> A -> Prop) s h : told welcome_prompt false h ->
  (forall h', later h h' -> keeps (this := told_in h') (fun st => file_of p st = file_of p (cli_setup s)) quiet_only (R h') m) ->
  does (lifted m) s h (fun a s' h' => others p s s' /\ R h' a).
Proof.
  intros Ht Hk. unfold others. remember (file_of p (cli_setup s)) as x eqn:Hx. symmetry in Hx. revert s h Ht Hx Hk.
  induction m as [a|e|X m k IH|X q k IH]; intros s h Ht Hx Hk; cbn in Hk.
  - apply does_ret. split; [done|]. apply Hk, later_refl.
  - apply does_raise.
  - cbn. unfold does. cbn. unfold on_setup. destruct (Hk h (later_refl _) _ I Hx) as [H1 _].
    assert (H2 : forall h', later h h' -> keeps (this := told_in h') (fun st => file_of p st = x) quiet_only (R h') (k (m (cli_setup s)).2))
      by (intros h' Hl; by apply (Hk h' Hl)).
    destruct (m (cli_setup s)) as [s' r] eqn:Em. by apply (IH r).
  - split; [split; [done|]; pose proof (Hk h (later_refl _)) as [Hq _]; by destruct q|].
    intros a s' Hs. unfold others in Hs. eapply wp_mono; [|apply (IH a s')].
    + intros r s2 h2 [Hp Hr]. split; [|done]. eapply later_trans; [apply later_snoc|exact Hp].
    + eapply told_later; [exact Ht|apply later_snoc].
    + by rewrite Hs.
    + intros h' Hl. apply (Hk h'); [eapply later_trans; [apply later_snoc|exact Hl]|].
      exists (cli_path s). eapply elem_later; [apply in_last|exact Hl].
Qed.

Lemma does_confirm prompt fallback s h (R : bool -> Cli -> hist -> Prop) :
  (forall yes s' h', others p s s' -> later h h' -> (yes = true -> told prompt fallback h') -> R yes s' h') ->
  does (confirm prompt fallback) s h R.
Proof.
  intros HR. unfold confirm. eapply does_bind; [apply (does_ask _ _ _ (fun line s' h' => others p s s' /\ h' = h ++ [Exchange (Prompt (confirm_text prompt fallback)) line]))|].
  - exact I.
  - done.
  - intros line s' h' Hl [Ho ->]. apply does_ret, HR; [done|done|]. intros Hm. exists line. split; [apply in_last|done].
Qed.

Lemma does_question prompt fallback s h (R : json -> Cli -> hist -> Prop) :
  (forall v s' h', others p s s' -> later h h' -> (v = fallback \/ exists t, v = JStr t) -> R v s' h') -> does (question_or prompt fallback) s h R.
Proof.
  intros HR. unfold question_or. eapply does_bind; [apply (does_ask _ _ _ (fun _ s' _ => others p s s')); [exact I|done]|].
  intros line s' h' Hl Ho. apply does_ret, HR; [done|done|]. destruct (bool_decide _); [by left|right; eauto].
Qed.

Lemma does_required tries prompt fallback s h (R : json -> Cli -> hist -> Prop) :
  (forall v s' h', others p s s' -> later h h' -> (fallback = Some v \/ exists t, v = JStr t) -> R v s' h') ->
  does (requiredQuestion tries prompt fallback) s h R.
Proof.
  revert s h. induction tries as [|tries IH]; intros s h HR; [apply does_raise|]. cbn [requiredQuestion]. cbv zeta.
  eapply does_bind; [apply (does_ask _ _ _ (fun _ s' _ => others p s s')); [exact I|done]|].
  intros line s' h' Hl Ho. destruct (negb _).
  { apply does_ret, HR; [done|done|right; eauto]. }
  assert (Hrec : does (requiredQuestion tries prompt fallback) s' h' R).
  { apply IH. intros v s2 h2 Ho2 Hl2 Hv. apply HR; [exact (others_trans _ _ _ Ho Ho2)|exact (later_trans _ _ _ Hl Hl2)|done]. }
  destruct fallback as [f|]; [|exact Hrec]. destruct (truthy (Some f)); [|exact Hrec].
  apply does_ret, HR; [done|done|by left].
Qed.
End Does.

(** ** Operations *)

Section Operations.
Context `{UrlApi} `{Aead} `{Hashing} (p : Process) (tries : nat).
Hypothesis key_apart : setupProgress (paths p) <> keyFilePath p.

Notation does := (does p).
Notation others := (others p).
Notation began := (told welcome_prompt false).

(** A process whose arguments are none of those that need something. *)
Lemma harmless c s h : cmd_args c <> ["--yes"] -> cmd_args c <> [] -> head (cmd_args c) <> Some "startOrReload" ->
  cmd_args c <> ["run"; "register"] -> sound_process p c s h.
Proof. by split. Qed.

Lemma does_spawn c s h (R : ChildEnd -> Cli -> hist -> Prop) : began h -> sound_process p c s h ->
  (forall e s' h', others s s' -> later h h' -> (forall out, e = Exited (Some 0) out -> exists PATH, In (Exchange (Outside (Spawn c) PATH) e) h') -> R e s' h') ->
  does (from_outside (Spawn c)) s h R.
Proof.
  intros Hb Hc HR. apply does_outside; [done|]. intros e s' Ho. apply HR; [done|apply later_snoc|].
  intros out ->. eexists. apply in_last.
Qed.

Lemma does_run command args e dir s h : let c := {| cmd_name := command; cmd_args := args; cmd_env := e; cmd_cwd := Some dir |} in
  began h -> sound_process p c s h ->
  does (run command args e dir) s h (fun _ s' h' => others s s' /\ exists PATH out, In (Exchange (Outside (Spawn c) PATH) (Exited (Some 0) out)) h').
Proof.
  intros c Hb Hc. unfold run. eapply does_bind.
  - apply (does_spawn _ _ _ (fun e s' h' => others s s' /\ (forall out, e = Exited (Some 0) out -> exists PATH, In (Exchange (Outside (Spawn c) PATH) e) h'))); auto.
  - intros [code out|m] s' h' _ [Ho Hin]; [|apply does_raise]. destruct (bool_decide_reflect (code = Some 0)) as [->|]; [|apply does_raise].
    apply does_ret. split; [done|]. destruct (Hin out eq_refl) as [PATH Hx]. eauto.
Qed.

(** Runs that start nothing that needs something, and leave the progress alone. *)
Definition calm {A} (m : cli A) : Prop := forall s h, began h -> does m s h (fun _ s' _ => others s s').

Lemma calm_ret {A} (a : A) : calm (mret a).
Proof. intros s h _. by apply does_ret. Qed.
Lemma calm_raise {A} e : calm (A := A) (raise e).
Proof. intros s h _. apply does_raise. Qed.
Lemma calm_resume {A} (r : result A) : calm (resume r).
Proof. intros s h _. by apply does_resume. Qed.

Lemma calm_bind {A B} (m : cli A) (f : A -> cli B) : calm m -> (forall a, calm (f a)) -> calm (m ≫= f).
Proof.
  intros Hm Hf s h Hb. eapply does_bind; [by apply Hm|]. intros a s' h' Hl Ho.
  eapply does_mono; [|apply Hf; eauto with cli]. intros b s2 h2 _ Ho2. exact (others_trans _ _ _ _ Ho Ho2).
Qed.

(** Before a step that is proved separately. *)
Lemma calm_then {A B} (m : cli A) (f : A -> cli B) s h (R : B -> Cli -> hist -> Prop) : began h -> calm m ->
  (forall a s' h', later h h' -> others s s' -> does (f a) s' h' R) -> does (m ≫= f) s h R.
Proof. intros Hb Hm Hf. eapply does_bind; [by apply Hm|done]. Qed.

Lemma calm_lifted {A} (m : prog SetupState question A) :
  (forall this x, keeps (this := this) (fun st => file_of p st = x) quiet_only (fun _ => True) m) -> calm (lifted m).
Proof. intros Hm s h Hb. eapply does_mono; [|apply does_lifted; [done|intros h' _; apply Hm]]. by intros a s' h' _ []. Qed.

Lemma calm_outside {A} (q : question A) : quiet q = true -> calm (from_outside q).
Proof. intros Hq s h Hb. apply does_outside; [|done]. split; [done|by destruct q]. Qed.

Lemma calm_confirm prompt fallback : calm (confirm prompt fallback).
Proof. intros s h _. by apply does_confirm. Qed.

Lemma calm_required n prompt fallback : calm (requiredQuestion n prompt fallback).
Proof. intros s h _. by apply does_required. Qed.

Lemma calm_spawn c : (forall s h, sound_process p c s h) -> calm (from_outside (Spawn c)).
Proof. intros Hc s h Hb. by apply does_spawn. Qed.

Lemma calm_path executable : calm (addExecutableDirToPath executable).
Proof.
  intros s h _. apply does_modify. cbv zeta. by destruct (bool_decide _).
Qed.

Lemma calm_run command args e dir : (forall s h, sound_process p {| cmd_name := command; cmd_args := args; cmd_env := e; cmd_cwd := Some dir |} s h) ->
  calm (run command args e dir).
Proof. intros Hc s h Hb. eapply does_mono; [|by apply does_run]. by intros a s' h' _ []. Qed.

Lemma calm_output command args : (forall s h, sound_process p {| cmd_name := command; cmd_args := args; cmd_env := []; cmd_cwd := Some (cwd p) |} s h) ->
  calm (runForOutput p command args).
Proof.
  intros Hc. unfold runForOutput. apply calm_bind; [by apply calm_spawn|]. intros [code out|m]; [|apply calm_raise].
  destruct (bool_decide _); [apply calm_ret|apply calm_raise].
Qed.

(** Walks down a calm program. *)
Ltac calmly := repeat (cbv zeta; lazymatch goal with
  | |- calm (mret _) => apply calm_ret
  | |- calm (raise _) => apply calm_raise
  | |- calm (resume _) => apply calm_resume
  | |- calm (_ ≫= _) => apply calm_bind; [|intros ?]
  | |- calm (confirm _ _) => apply calm_confirm
  | |- calm (requiredQuestion _ _ _) => apply calm_required
  | |- calm (addExecutableDirToPath _) => apply calm_path
  | |- calm (from_outside (Spawn _)) => apply calm_spawn; intros ? ?; by apply harmless
  | |- calm (from_outside _) => by apply calm_outside
  | |- calm (run _ _ _ _) => apply calm_run; intros ? ?; by apply harmless
  | |- calm (runForOutput _ _ _) => apply calm_output; intros ? ?; by apply harmless
  | |- calm (match ?x with _ => _ end) => destruct x
  end).

Lemma calm_find command l : calm (find_executable command l).
Proof.
  unfold find_executable, which_line. calmly. apply calm_lifted. intros this x. apply existing_keeps; apply _.
Qed.

Lemma calm_use executable : calm (use_executable p executable).
Proof. unfold use_executable. calmly. Qed.

Lemma does_script script args e s h : let c := {| cmd_name := script; cmd_args := args; cmd_env := e; cmd_cwd := Some (cwd p) |} in
  began h -> (forall s' h', others s s' -> later h h' -> sound_process p c s' h') ->
  does (runScript p script args e) s h (fun _ s' _ => others s s').
Proof.
  intros c Hb Hc. unfold runScript. apply calm_then; [done|calmly|]. intros found s' h' Hl Ho. destruct found; [|apply does_raise].
  eapply does_mono; [|apply does_run; [eauto with cli|by apply Hc]]. intros a s2 h2 _ [Ho2 _]. exact (others_trans _ _ _ _ Ho Ho2).
Qed.

(** The installer of a tool runs after a yes. *)
Lemma ensure_does command l prompt script missing lost :
  script = "scripts/ensure-bun.sh" /\ prompt = "Install Bun now?" \/
  script = "scripts/ensure-pm2.sh" /\ prompt = "Install PM2 and any missing macOS dependencies now?" ->
  calm (ensure_available p command l prompt script missing lost).
Proof.
  intros Hs s h Hb. unfold ensure_available. apply calm_then; [done|apply calm_find|]. intros [exe|] s1 h1 Hl Ho.
  { eapply does_mono; [|apply calm_use; eauto with cli]. intros a s2 h2 _ Ho2. exact (others_trans _ _ _ _ Ho Ho2). }
  eapply does_bind; [apply (does_confirm p _ _ _ _ (fun yes s' h' => others s s' /\ began h' /\ (yes = true -> told prompt false h')))|].
  { intros yes s2 h2 Ho2 Hl2 Hy. split_and!; [exact (others_trans _ _ _ _ Ho Ho2)|eauto with cli|done]. }
  intros yes s2 h2 _ (Ho2 & Hb2 & Hy). destruct yes; [|apply does_raise]. eapply does_bind.
  - apply does_script; [done|]. intros s3 h3 _ Hl3. split; try done. intros _. cbn.
    destruct Hs as [[-> ->]|[-> ->]]; [left|right]; (split; [done|]); eapply told_later; eauto.
  - intros [] s3 h3 Hl3 Ho3. eapply does_mono; [|apply (calm_bind (find_executable command l))]; [|apply calm_find| |eauto with cli].
    + intros a s4 h4 _ Ho4. exact (others_trans _ _ _ _ (others_trans _ _ _ _ Ho2 Ho3) Ho4).
    + intros [exe|]; [apply calm_use|apply calm_raise].
Qed.

(** ** Progress *)

(** Members outside [ks] are as before. *)
Definition kept (ks : list string) (progress next : json) : Prop := forall k, k ∉ ks -> get k next = get k progress.

Lemma kept_trans ks ks' a b c : kept ks a b -> kept ks' b c -> kept (ks ++ ks') a c.
Proof. intros Hab Hbc k [Hk1 Hk2]%not_elem_of_app. by rewrite Hbc, Hab. Qed.

Lemma kept_assign progress patch : NoDup patch.*1 -> kept patch.*1 progress (assign progress patch).
Proof. intros Hd k Hk. rewrite get_assign by done. by rewrite (proj2 (assoc_none _ _)). Qed.

Lemma kept_one progress k v : kept [k] progress (assign progress [(k, v)]).
Proof. apply (kept_assign progress [(k, v)]), NoDup_singleton. Qed.

Definition parsed_values (patch : list (string * option json)) : Prop :=
  Forall (fun f : string * option json => forall v, f.2 = Some v -> parsed_json v = true) patch.

Lemma remembered_does progress patch s h : parsed_json progress = true -> parsed_values patch ->
  does (remembered p progress patch) s h (fun next s' _ => next = assign progress patch /\ knows p next s').
Proof.
  intros Hp Hv. pose proof (assign_parsed _ _ Hp Hv) as Hn. unfold remembered, remember, saveProgress. cbn -[assign]. unfold does, TerminalSafe.does.
  cbn -[assign]. unfold on_setup, with_world, on_files, saveSetupProgress.
  destruct (writeFile _ _ _) as [d r] eqn:Ew. destruct r as [[]|e]; cbn -[assign]; (split; [apply later_refl|]); [|exact I].
  split; [done|]. split; [done|]. apply writeFile_ok in Ew as ->. unfold saved, loadSetupProgress, readJson, readFile. cbn -[assign].
  by rewrite lookup_insert_eq, utf8_text_utf8, JSON_parse_saved.
Qed.

(** [remembered] before the rest of a program. *)
Lemma remembered_then {B} progress patch (f : json -> cli B) s h (R : B -> Cli -> hist -> Prop) :
  parsed_json progress = true -> parsed_values patch ->
  (forall s' h', later h h' -> knows p (assign progress patch) s' -> does (f (assign progress patch)) s' h' R) ->
  does (remembered p progress patch ≫= f) s h R.
Proof.
  intros Hp Hv Hf. eapply does_bind; [by apply remembered_does|]. intros next s' h' Hl [-> Hk]. by apply Hf.
Qed.

Ltac values := repeat first [apply List.Forall_cons|apply List.Forall_nil]; cbn [snd]; intros ? Hval;
  try injection Hval as <-; try done.

Lemma parsed_member k progress v : parsed_json progress = true -> get k progress = Some v -> parsed_json v = true.
Proof. apply get_parsed. Qed.

Lemma parsed_nullish k progress d : parsed_json progress = true -> parsed_json d = true -> parsed_json (default d (nullish (get k progress))) = true.
Proof.
  intros Hp Hd. destruct (get k progress) as [v|] eqn:E; [|done]. apply (get_parsed _ _ _ Hp) in E. by destruct v.
Qed.

(** What the addresses and the region are looked up with. *)
Lemma detect_does serverUrl progress s h : began h -> parsed_json progress = true ->
  does (detect_network p serverUrl progress) s h (fun r s' h' => knows p r.2 s' /\ kept ["publicIpv4"; "publicIpv6"; "region"] progress r.2 /\
    get "publicIpv4" r.2 = Some r.1.1 /\ get "publicIpv6" r.2 = Some r.1.2).
Proof.
  intros Hb Hp. unfold detect_network. eapply does_bind; [apply does_lifted; [done|intros h' _; apply ip_keeps; apply _]|].
  intros ip s1 h1 Hl1 [_ Hip]. apply remembered_then; [done|values|]. intros s2 h2 Hl2 [Hp2 _].
  eapply does_bind; [apply (does_lifted p _ (fun _ v => parsed_json v = true)); [eauto with cli|intros h' _]|].
  { apply keeps_catch; [apply ip6_keeps; apply _|by intros e]. }
  intros ip6 s3 h3 Hl3 [_ Hip6]. apply remembered_then; [done|values|]. intros s4 h4 Hl4 [Hp4 _].
  eapply does_bind; [apply (does_lifted p _ (fun _ v => parsed_json v = true)); [eauto with cli|intros h' _]|].
  { apply keeps_catch; [|by intros e]. eapply keeps_bind; [by apply (keeps_resume _ _ (fun _ => True))|].
    intros url _. apply region_keeps; apply _. }
  intros region s5 h5 Hl5 [_ Hr]. apply remembered_then; [done|values|]. intros s6 h6 Hl6 Hk.
  apply does_ret. cbn [fst snd]. split; [done|].
  assert (Hget : forall k, get k (assign (assign (assign progress [("publicIpv4", Some ip)]) [("publicIpv6", Some ip6)]) [("region", Some region)]) =
    match assoc k [("region", Some region); ("publicIpv6", Some ip6); ("publicIpv4", Some ip)] with Some v => v | None => get k progress end).
  { intros k. rewrite !get_assign by (apply (bool_decide_unpack _); vm_compute; exact I). cbn [assoc].
    by repeat case_decide. }
  rewrite !Hget. split; [|done]. intros k Hk'. rewrite Hget, (proj2 (assoc_none _ _)); [done|]. cbn. set_solver.
Qed.

(** [confirm] only when [b], before the rest of a program. *)
Lemma confirm_if {B} (b : bool) prompt fallback (f : bool -> cli B) s h (R : B -> Cli -> hist -> Prop) :
  (forall yes s' h', others s s' -> later h h' -> (yes = true -> b = true /\ told prompt fallback h') -> does (f yes) s' h' R) ->
  does ((if b then confirm prompt fallback else mret false) ≫= f) s h R.
Proof.
  intros Hf. eapply does_bind.
  - instantiate (1 := fun yes s' h' => others s s' /\ later h h' /\ (yes = true -> b = true /\ told prompt fallback h')). destruct b.
    + apply does_confirm. intros yes s' h' Ho Hl Hy. split_and!; auto.
    + apply does_ret. split_and!; [done|apply later_refl|done].
  - intros yes s' h' _ (Ho & Hl & Hy). by apply Hf.
Qed.

(** The clock, read only when [b]. *)
Lemma now_if {B} (b : bool) (f : Z -> cli B) s h (R : B -> Cli -> hist -> Prop) : began h ->
  (forall now s' h', others s s' -> later h h' -> (b = true -> exists PATH, In (Exchange (Outside Now PATH) now) h') -> does (f now) s' h' R) ->
  does ((if b then from_outside Now else mret 0) ≫= f) s h R.
Proof.
  intros Hb Hf. eapply does_bind.
  - instantiate (1 := fun now s' h' => others s s' /\ later h h' /\ (b = true -> exists PATH, In (Exchange (Outside Now PATH) now) h')). destruct b.
    + apply does_outside; [done|]. intros now s' Ho. split_and!; [done|apply later_snoc|]. intros _. eexists. apply in_last.
    + apply does_ret. split_and!; [done|apply later_refl|done].
  - intros now s' h' _ (Ho & Hl & Hn). by apply Hf.
Qed.

Lemma bun_does installDir args e s h : began h ->
  (forall dir, installDir = JStr dir -> sound_process p {| cmd_name := "bun"; cmd_args := args; cmd_env := e; cmd_cwd := Some (path_join [dir; "current"]) |} s h) ->
  does (runBunInCurrent installDir args e) s h (fun _ s' h' => others s s' /\
    exists c PATH out, In (Exchange (Outside (Spawn c) PATH) (Exited (Some 0) out)) h' /\ cmd_args c = args).
Proof.
  intros Hb Hc. unfold runBunInCurrent, as_text. destruct installDir as [| | |dir| |]; try apply does_raise. cbn [resume mbind prog_bind].
  eapply does_mono; [|apply does_run; [done|by apply Hc]]. intros [] s' h' _ [Ho (PATH & out & Hin)]. split; [done|]. by eexists _, PATH, out.
Qed.

Lemma evaluate_does serverUrl installDir progress s h : began h -> knows p progress s ->
  does (evaluate p serverUrl installDir progress) s h (fun next s' h' => knows p next s' /\ kept ["evalPassedAt"] progress next /\ evaluated h').
Proof.
  intros Hb Hk. pose proof Hk as [Hp _]. unfold evaluate.
  eapply does_bind; [apply does_lifted; [done|intros h' _; apply join_auth_keeps; [apply _..|done]]|]. intros auth s1 h1 Hl1 [Ho1 _].
  apply now_if; [eauto with cli|]. intros now s2 h2 Ho2 Hl2 Hn. apply confirm_if. intros yes s3 h3 Ho3 Hl3 Hy.
  assert (Hb3 : began h3) by eauto 6 with cli. destruct yes.
  - destruct (Hy eq_refl) as [Hr Ht]. apply does_ret. split_and!; [|done|].
    + eapply knows_others; [|exact Ho3]. eapply knows_others; [|exact Ho2]. by eapply knows_others.
    + left. assert (Ha : truthy auth = true) by (unfold joinAuthReusable in Hr; by bool_solve). destruct (Hn Ha) as [PATH Hin].
      exists auth, now, PATH. split_and!; [by eapply elem_later|done|done].
  - eapply does_bind; [apply bun_does; [done|]; intros dir _; by apply harmless|].
    intros [] s4 h4 Hl4 [Ho4 (c & PATH & out & Hin & Hc)]. eapply does_bind; [apply does_lifted; [eauto with cli|intros h' _; apply iso_keeps; apply _]|].
    intros at_ s5 h5 Hl5 [Ho5 _]. eapply does_mono; [|apply remembered_does; [done|values]].
    intros next s6 h6 Hl6 [-> Hk6]. split_and!; [done|apply kept_one|].
    eapply evaluated_later; [|exact Hl6]. eapply evaluated_later; [|exact Hl5]. right. by exists c, PATH, out.
Qed.

(** [postJson], with the answer it read. *)
Lemma post_does url body s h : began h ->
  does (lifted (postJson url body)) s h (fun v s' h' => others s s' /\ parsed_json v = true /\
    exists PATH answer, In (Exchange (Outside (Post url body) PATH) answer) h' /\ answer ≫= post_result = Ok v).
Proof.
  intros Hb. unfold postJson. cbn. split; [done|]. intros r s' Ho.
  destruct (r ≫= post_result) as [v|e] eqn:E; cbn; (split; [apply later_snoc|]); [|exact I].
  split_and!; [done| |eexists _, r; split; [apply in_last|done]].
  inv_ok. unfold post_result in *. inv_ok. unfold response_body. destruct (JSON_parse _) as [w|] eqn:Ew; [|done]. by apply JSON_parse_parsed in Ew.
Qed.

Lemma obj_email email (id code : option json) : get "email" (obj [("email", Some email); ("verification_id", id); ("code", code)]) = Some email.
Proof. by destruct id, code. Qed.

Lemma verify_does serverUrl contact s h : began h ->
  does (verifyEmail tries serverUrl contact) s h (fun r s' h' => (forall v, r.1 = Some v -> parsed_json v = true) /\
    (forall v, r.2 = Some v -> parsed_json v = true) /\ token_source contact r.1 h').
Proof.
  intros Hb. unfold verifyEmail. apply calm_then; [done|apply calm_resume|]. intros url s1 h1 Hl1 Ho1.
  eapply does_bind; [apply post_does; eauto with cli|]. intros started s2 h2 Hl2 _.
  apply calm_then; [eauto with cli|apply calm_required|]. intros code s3 h3 Hl3 Ho3.
  eapply does_bind; [apply post_does; eauto 6 with cli|]. intros verified s4 h4 Hl4 (Ho4 & Hp & PATH & answer & Hin & Ha).
  apply does_ret. cbn [fst snd]. split_and!; [by intros v Hv; eapply get_parsed..|]. right. do 2 eexists. exists PATH, answer, verified.
  split_and!; [exact Hin|apply obj_email|done|done].
Qed.

Lemma email_does serverUrl contact progress s h : began h -> knows p progress s ->
  does (email_token p tries serverUrl contact progress) s h (fun r s' h' => knows p r.2 s' /\
    kept ["emailVerificationToken"; "emailVerificationExpiresAt"] progress r.2 /\ get "emailVerificationToken" r.2 = r.1 /\
    token_source contact r.1 h').
Proof.
  intros Hb Hk. pose proof Hk as [Hp _]. unfold email_token. cbv zeta. apply now_if; [done|]. intros now s1 h1 Ho1 Hl1 Hn.
  apply confirm_if. intros yes s2 h2 Ho2 Hl2 Hy. assert (Hb2 : began h2) by eauto with cli. destruct yes.
  - destruct (Hy eq_refl) as [Hr Ht]. bool_solve. apply does_ret. cbn [fst snd]. split_and!; [|done|done|].
    + eapply knows_others; [|exact Ho2]. by eapply knows_others.
    + left. assert (Hu : truthy (get "emailVerificationExpiresAt" progress) = true) by (unfold fresh_until in *; by bool_solve).
      destruct Hn as [PATH Hin]; [by rewrite Hu, andb_true_r|]. eexists _, now, PATH. split_and!; [by eapply elem_later|eassumption|done].
  - eapply does_bind; [by apply verify_does|]. intros v s3 h3 Hl3 (Hv1 & Hv2 & Hs).
    apply remembered_then; [done|repeat constructor; [exact Hv1|exact Hv2]|]. intros s4 h4 Hl4 Hk4. apply does_ret. cbn [fst snd].
    assert (Hd : NoDup [("emailVerificationToken", v.1); ("emailVerificationExpiresAt", v.2)].*1) by (apply (bool_decide_unpack _); vm_compute; exact I).
    split_and!; [done|by apply (kept_assign _ _ Hd)| |eauto with cli]. by rewrite get_assign by exact Hd.
Qed.

Lemma merged_parsed progress a : parsed_json progress = true -> parsed_values (merged_addresses progress a).
Proof.
  intros Hp. unfold merged_addresses, parsed_values. repeat constructor; cbn [snd]; intros v Hv;
    match type of Hv with match ?o with _ => _ end = _ => destruct o; [by injection Hv as <-|by eapply get_parsed] end.
Qed.

Definition wallet_keys : list string := ["evmAddress"; "solanaAddress"; "icpAddress"].

Lemma take_does progress answer s h : knows p progress s ->
  does (take_addresses p progress answer) s h (fun next s' _ => knows p next s' /\ kept wallet_keys progress next).
Proof.
  intros Hk. pose proof Hk as [Hp _]. unfold take_addresses. destruct answer as [a| |e]; [|by apply does_ret|apply does_raise].
  cbv zeta. destruct (address_errors _); [|by apply does_ret].
  eapply does_mono; [|apply remembered_does; [done|by apply merged_parsed]]. intros next s' h' _ [-> Hk']. split; [done|].
  apply (kept_assign progress (merged_addresses progress a)). apply (bool_decide_unpack _). vm_compute. exact I.
Qed.

Lemma collect_does progress s h : began h -> knows p progress s ->
  does (collectWalletAddresses p progress) s h (fun next s' _ => knows p next s' /\ kept wallet_keys progress next).
Proof.
  intros Hb Hk. unfold collectWalletAddresses. apply calm_then; [done|apply calm_confirm|]. intros yes s1 h1 Hl1 Ho1.
  assert (Hk1 : knows p progress s1) by (by eapply knows_others). destruct yes; [|by apply does_ret]. cbn [negb].
  apply calm_then; [eauto with cli|by apply calm_outside|]. intros url s2 h2 Hl2 Ho2. assert (Hk2 : knows p progress s2) by (by eapply knows_others).
  apply calm_then; [eauto with cli|apply calm_resume|]. intros url' s3 h3 Hl3 Ho3. assert (Hk3 : knows p progress s3) by (by eapply knows_others).
  assert (Hopen : forall b : bool, calm (if b then mret tt else ask (OpenPage url');; mret tt)).
  { intros []; [apply calm_ret|]. apply calm_bind; [|intros; apply calm_ret]. intros s4 h4 Hb4. by apply does_ask. }
  apply calm_then; [eauto 6 with cli|apply Hopen|]. intros [] s4 h4 Hl4 Ho4. assert (Hk4 : knows p progress s4) by (by eapply knows_others).
  eapply does_bind; [apply (does_ask _ _ _ _ (fun _ s' _ => knows p progress s')); [cbn; eauto 8 with cli|intros a s5 Ho5; by eapply knows_others]|].
  intros answer s5 h5 Hl5 Hk5. cbv zeta. assert (Hb5 : began h5) by eauto 8 with cli.
  assert (Hstop : calm (from_outside (StopWalletServer url');; mret tt)) by (apply calm_bind; [by apply calm_outside|intros; apply calm_ret]).
  eapply does_bind.
  - apply wp_catch. eapply wp_mono; [|by apply (take_does progress answer)]. intros [next|e] s6 h6 [Hl6 Hr]; [exact (conj Hl6 Hr)|].
    eapply wp_mono; [|eapply (does_bind p _ _ s6 h6 _ (fun _ _ _ => False)); [apply Hstop; eauto with cli|intros; apply does_raise]].
    intros [?|?] s7 h7 [Hl7 Hr7]; [done|]. split; [by eapply later_trans|done].
  - intros next s6 h6 Hl6 [Hk6 Hkept]. apply calm_then; [eauto with cli|exact Hstop|]. intros [] s7 h7 Hl7 Ho7.
    apply does_ret. split; [by eapply knows_others|done].
Qed.

Lemma member_does prompt key progress s h : began h -> knows p progress s ->
  does (ask_member p tries prompt key progress) s h (fun r s' _ => knows p r.2 s' /\ kept [key] progress r.2 /\ get key r.2 = Some r.1).
Proof.
  intros Hb Hk. pose proof Hk as [Hp _]. unfold ask_member.
  eapply does_bind; [apply (does_required _ _ _ _ _ _ (fun v _ _ => parsed_json v = true))|].
  { intros v s' h' _ _ [Hv|[t ->]]; [by eapply get_parsed|done]. }
  intros v s1 h1 Hl1 Hv. apply remembered_then; [done|repeat constructor; cbn; congruence|]. intros s2 h2 Hl2 Hk2.
  apply does_ret. cbn [fst snd]. split_and!; [done|apply kept_one|]. rewrite get_assign by apply NoDup_singleton. cbn. by rewrite decide_True.
Qed.

Lemma install_does serverUrl installDir progress s h : began h -> knows p progress s ->
  get "serverUrl" progress = Some serverUrl -> get "installDir" progress = Some installDir ->
  does (installRelease p serverUrl installDir progress) s h (fun r s' _ => match r with
    | Some next => knows p next s' /\ kept ["installedVersion"] progress next
    | None => True end).
Proof.
  intros Hb Hk Gs Gi. pose proof Hk as [Hp _]. unfold installRelease.
  eapply does_bind; [apply (does_resume p _ _ _ (fun url s' _ => serverUrl = JStr url /\ others s s'))|].
  { intros url Hu. split; [|done]. destruct serverUrl; try done. by injection Hu as ->. }
  intros url s1 h1 Hl1 [-> Ho1]. assert (Hk1 : knows p progress s1) by (by eapply knows_others).
  eapply does_bind; [apply does_lifted; [eauto with cli|intros h' _; apply manifest_keeps; apply _]|].
  intros manifest s2 h2 Hl2 [Ho2 [Hm (fetch0 & [PATH0 Hin0] & Hreq)]]. cbn in Hin0.
  assert (Hk2 : knows p progress s2) by (by eapply knows_others).
  eapply does_bind; [apply (does_resume p _ _ _ (fun dir s' _ => installDir = JStr dir /\ others s2 s'))|].
  { intros dir Hd. split; [|done]. destruct installDir; try done. by injection Hd as ->. }
  intros dir s3 h3 Hl3 [-> Ho3]. cbv zeta. assert (Hk3 : knows p progress s3) by (by eapply knows_others).
  apply calm_then; [eauto 6 with cli| |].
  { destruct (strict_equal _ _); [|apply calm_ret]. apply calm_bind; [by apply calm_outside|]. intros []; [apply calm_confirm|apply calm_ret]. }
  intros reuse s4 h4 Hl4 Ho4. assert (Hk4 : knows p progress s4) by (by eapply knows_others). destruct reuse; [by apply does_ret|].
  eapply does_bind; [apply (does_confirm p _ _ _ _ (fun yes s' h' => others s4 s' /\ (yes = true -> told "Download and install this approved release?" false h'))); auto|].
  intros yes s5 h5 Hl5 (Ho5 & Hy). destruct yes; [|by apply does_ret]. specialize (Hy eq_refl). cbn [negb].
  eapply does_bind; [apply does_lifted; [eauto 8 with cli|intros h' _; apply download_keeps; apply _]|].
  intros dl s6 h6 Hl6 [Ho6 (fetch & bytes & st & [PATH Hin] & Ha & Hd & _)]. cbn in Hin.
  assert (Hk6 : knows p progress s6) by (eapply knows_others; [|exact Ho6]; by eapply knows_others).
  eapply does_bind.
  - apply does_script; [eauto 10 with cli|]. intros s7 h7 Ho7 Hl7. split; try done. intros _. split_and!; [done|eauto with cli|].
    exists progress, url, dir, fetch0, PATH0, manifest, fetch, PATH, bytes, (dl_sha256 dl). rewrite <- Hd.
    split_and!; try done; [by eapply knows_others; [exact Hk6|]| |exact (elem_later _ _ _ Hin Hl7)].
    apply (elem_later _ h2); [exact Hin0|]. do 4 (eapply later_trans; [eassumption|]). eassumption.
  - intros [] s7 h7 Hl7 Ho7. apply remembered_then; [done|repeat constructor; intros v Hv; by eapply get_parsed|]. intros s8 h8 Hl8 Hk8.
    apply does_ret. split; [done|apply kept_one].
Qed.

Lemma offer_calm installDir serverUrl : calm (offerStartPm2 p installDir serverUrl).
Proof.
  unfold offerStartPm2. cbv zeta. apply calm_bind; [apply calm_resume|]. intros dir. apply calm_bind; [by apply calm_outside|].
  intros found s h Hb. destruct found; [|by apply does_ret]. cbn [negb].
  eapply does_bind; [apply (does_confirm p _ _ _ _ (fun yes s' h' => others s s' /\ (yes = true -> told start_prompt true h'))); auto|].
  intros yes s1 h1 Hl1 (Ho1 & Hy). destruct yes; [|by apply does_ret]. specialize (Hy eq_refl). cbn [negb].
  eapply does_bind; [apply calm_find; eauto with cli|]. intros [pm2|] s2 h2 Hl2 Ho2; [|apply does_raise].
  eapply does_bind; [apply calm_path; eauto with cli|]. intros [] s3 h3 Hl3 Ho3. eapply does_bind.
  { apply does_run; [eauto with cli|]. split; try done. intros _. eauto with cli. }
  intros [] s4 h4 Hl4 [Ho4 _]. assert (Hb4 : began h4) by eauto 8 with cli.
  eapply does_mono; [|apply (calm_bind (verify_online p pm2 _)); [| |exact Hb4]].
  - intros a s5 h5 _ Ho5. unfold TerminalSafe.others in *. congruence.
  - unfold verify_online. calmly.
  - intros []. calmly.
Qed.

(** A registration of what was saved, or a claim of the node that is there. *)
Lemma register_does installDir serverUrl e s h : began h ->
  (forall s' h', others s s' -> later h h' -> forall dir, installDir = JStr dir ->
     sound_process p {| cmd_name := "bun"; cmd_args := ["run"; "register"]; cmd_env := e; cmd_cwd := Some (path_join [dir; "current"]) |} s' h') ->
  does (register_or_keep p installDir serverUrl e) s h (fun _ s' _ => others s s').
Proof.
  intros Hb Hs. unfold register_or_keep.
  apply calm_then; [done|apply calm_lifted; intros this x; apply config_keeps|]. intros config s1 h1 Hl1 Ho1.
  apply calm_then; [eauto with cli|apply calm_resume|]. intros [] s2 h2 Hl2 Ho2. apply confirm_if. intros skip s3 h3 Ho3 Hl3 _.
  assert (Hb3 : began h3) by eauto 6 with cli. assert (Ho : others s s3) by (unfold TerminalSafe.others in *; congruence).
  assert (Hl : later h h3) by (do 2 (eapply later_trans; [eassumption|]); done). eapply does_bind.
  - instantiate (1 := fun _ s' _ => others s s'). destruct skip.
    + eapply does_mono; [|apply calm_lifted; [intros this x; apply claim_keeps; apply _|done]]. intros a s4 h4 _ Ho4. exact (others_trans _ _ _ _ Ho Ho4).
    + eapply does_mono; [|apply bun_does; [done|by apply Hs]]. intros a s4 h4 _ [Ho4 _]. exact (others_trans _ _ _ _ Ho Ho4).
  - intros a s4 h4 Hl4 Ho4. eapply does_mono; [|apply offer_calm; eauto with cli]. intros b s5 h5 _ Ho5. exact (others_trans _ _ _ _ Ho4 Ho5).
Qed.

(** A member is followed back to the step that set it. *)
Ltac chase := repeat match goal with
  | K : kept _ _ ?n |- context [get ?k ?n] => rewrite (K k) by (apply (bool_decide_unpack _); vm_compute; exact I)
  end.

Lemma registration_does serverUrl installDir progress s h : began h -> knows p progress s ->
  get "serverUrl" progress = Some serverUrl -> get "installDir" progress = Some installDir ->
  does (registration p tries serverUrl installDir progress) s h (fun _ _ _ => True).
Proof.
  intros Hb [Hp _] Gs Gi. unfold registration. eapply does_bind; [by apply detect_does|].
  intros [[ip ip6] p1] s1 h1 Hl1 (Hk1 & K1 & G4 & G6). cbn [fst snd] in *.
  eapply does_bind; [apply evaluate_does; eauto with cli|]. intros p2 s2 h2 Hl2 (Hk2 & K2 & He).
  eapply does_bind; [apply member_does; eauto with cli|]. intros [contact p3] s3 h3 Hl3 (Hk3 & K3 & Gc). cbn [fst snd] in *.
  eapply does_bind; [apply email_does; eauto 6 with cli|]. intros [token p4] s4 h4 Hl4 (Hk4 & K4 & Gt & Ht). cbn [fst snd] in *.
  eapply does_bind; [apply collect_does; eauto 8 with cli|]. intros p5 s5 h5 Hl5 (Hk5 & K5).
  eapply does_bind; [apply member_does; eauto 8 with cli|]. intros [evm p6] s6 h6 Hl6 (Hk6 & K6 & Ge). cbn [fst snd] in *.
  eapply does_bind; [apply member_does; eauto 10 with cli|]. intros [sol p7] s7 h7 Hl7 (Hk7 & K7 & Gl). cbn [fst snd] in *.
  eapply does_bind; [apply member_does; eauto 10 with cli|]. intros [icp p8] s8 h8 Hl8 (Hk8 & K8 & Gp). cbn [fst snd] in *.
  pose proof Hk8 as [Hp8 _]. eapply does_bind.
  { apply (does_question _ _ _ _ _ (fun v _ _ => parsed_json v = true)). intros v s' h' _ _ [->|[t ->]]; [by apply parsed_nullish|done]. }
  intros port s9 h9 Hl9 Hv9. apply remembered_then; [done|repeat constructor; cbn; congruence|]. intros s10 h10 Hl10 Hk10.
  assert (Hl : later h4 h10) by (do 5 (eapply later_trans; [eassumption|]); eassumption).
  assert (Hb10 : began h10) by (eapply told_later; [|exact Hl]; eauto 8 with cli).
  eapply does_mono; [|apply register_does; [exact Hb10|]]; [done|]. intros s' h' Ho Hl' dir ->. pose proof (kept_one p8 "port" (Some port)) as K9.
  set (final := assign p8 _) in *. assert (Gport : get "port" final = Some port) by (unfold final; rewrite get_assign by apply NoDup_singleton; done).
  split; try done. intros _. split; [eapply evaluated_later; [|exact Hl']; eapply evaluated_later; [|exact Hl]; eauto 6 with cli|].
  exists final, contact, dir. split_and!.
  - by eapply knows_others.
  - cbn [cmd_env]. unfold registration_env, progress_env. rewrite Gport. chase. by rewrite Gs, G4, G6, Gc, Gt, Ge, Gl, Gp.
  - chase. exact Gc.
  - chase. rewrite Gt. eauto with cli.
  - chase. exact Gi.
  - done.
Qed.

Lemma main_does s : does (main p tries) s [] (fun _ _ _ => True).
Proof.
  unfold main. eapply does_bind.
  { instantiate (1 := fun progress _ h => parsed_json progress = true /\ h = []). unfold loadProgress. cbn. split; [apply later_refl|].
    split; [apply loaded_parsed|done]. }
  intros progress s1 h1 _ [Hp ->].
  eapply does_bind; [apply (does_confirm p _ _ _ _ (fun yes _ h' => yes = true -> began h')); auto|].
  intros yes s2 h2 _ Hy. destruct yes; [|by apply does_ret]. specialize (Hy eq_refl). cbn [negb].
  apply calm_then; [done|apply calm_resume|]. intros [] s3 h3 Hl3 Ho3.
  eapply does_bind; [apply (does_question _ _ _ _ _ (fun v _ _ => parsed_json v = true))|].
  { intros v s' h' _ _ [->|[t ->]]; [by apply parsed_nullish|done]. }
  intros url s4 h4 Hl4 Hv4. eapply does_bind; [apply (does_question _ _ _ _ _ (fun v _ _ => parsed_json v = true))|].
  { intros v s' h' _ _ [->|[t ->]]; [by apply parsed_nullish|done]. }
  intros dir s5 h5 Hl5 Hv5. apply remembered_then; [done|values; by try injection Hval as <-|]. intros s6 h6 Hl6 Hk6.
  set (saved_ := assign progress _) in *.
  assert (Hg : get "serverUrl" saved_ = Some url /\ get "installDir" saved_ = Some dir).
  { unfold saved_. split; rewrite get_assign by (apply (bool_decide_unpack _); vm_compute; exact I); done. }
  destruct Hg as [Gs Gi]. clearbody saved_. assert (Hb6 : began h6) by eauto 8 with cli.
  apply calm_then; [done|apply ensure_does; by left|]. intros [] s7 h7 Hl7 Ho7.
  apply calm_then; [eauto with cli|apply ensure_does; by right|]. intros [] s8 h8 Hl8 Ho8.
  eapply does_bind; [apply install_does; [eauto 6 with cli|eapply knows_others; [by eapply knows_others|exact Ho8]|done|done]|].
  intros [next|] s9 h9 Hl9 Hi; [|by apply does_ret]. destruct Hi as [Hk9 K9].
  apply registration_does; [eauto 8 with cli|done|by chase..].
Qed.
End Operations.

(** ** Properties *)


(** ** A run of the command *)

Module Demo.
Definition process : Process := Node.process.

Definition before : json :=
  JObj [("serverUrl", JStr DEFAULT_SERVER_URL); ("installDir", JStr "/srv/rt"); ("installedVersion", JStr "1.2.3");
        ("contact", JStr "op@example.org"); ("emailVerificationToken", JStr "tok"); ("emailVerificationExpiresAt", JNum (num_of_Z 5000));
        ("evmAddress", JStr "0x00000000000000000000000000000000000000aB")].
Definition state_of (progress : json) : Cli :=
  {| cli_setup := {| ss_world := {| w_disk := {[ setupProgress (paths process) := Regular (utf8 (stringify2 progress)) ]}; cachedKey := None |};
                     ss_registry := {| m_file := NoFile; m_saves := [] |}; walletSessions := ∅ |}; cli_path := Some "/usr/bin" |}.

Definition release : json :=
  JObj [("product", JStr "consensus-node"); ("version", JStr "1.2.3"); ("platform", JStr "linux-x64"); ("download_url", JStr "https://dl/a.tgz");
        ("tarball_sha256", JStr (@sha256Hex Toy.hashing (utf8 "artifact")))].
Definition fetched (url : string) : result Response :=
  if bool_decide (url = "https://consensus.canister.software/update/latest") then Ok {| resp_status := 200; resp_body := utf8 (stringify release) |}
  else if bool_decide (url = "https://dl/a.tgz") then Ok {| resp_status := 200; resp_body := utf8 "artifact" |}
  else if bool_decide (url = "https://api4.ipify.org?format=json") then
    Ok {| resp_status := 200; resp_body := utf8 (stringify (JObj [("ip", JStr "203.0.113.5")])) |}
  else Throw (PlainError "unreachable").
Definition verified : json := JObj [("email_verification_token", JStr "tok2"); ("expires_at", JNum (num_of_Z 9000))].

Section Answers.
(** What is typed at a prompt that starts with a text; Enter at any other. *)
Context (typed : list (string * string)).

Definition line (text : string) : string :=
  match filter (fun t => startsWith text t.1 = true) typed with t :: _ => t.2 | [] => "" end.

Definition setup_answer (X : Type) (q : question X) : X :=
  match q in question X return X with
  | Now => 1000000
  | RandomUUID => "u1"
  | Entropy => Node.random 5
  | Network => fetched
  | Post url body => Ok {| resp_status := 200; resp_body := utf8 (stringify verified) |}
  | Spawn c => Exited (Some 0) "/usr/local/bin/tool"
  | Access path => true
  | StatTemplates => Ok []
  | Sleep ms => tt
  | StartWalletServer initial => Ok "http://127.0.0.1:45001/?token=w"
  | StopWalletServer id => Ok tt
  end.

Definition answer (X : Type) (q : outside X) : X :=
  match q in outside X return X with
  | Outside q _ => setup_answer _ q
  | Prompt text => line text
  | OpenPage _ => Ok tt
  | WalletRace _ => Captured {| evmAddress := None; solanaAddress := Some "11111111111111111111111111111111"; icpAddress := Some "aaaaa-aa" |}
  end.

Definition run (n : nat) (s : Cli) : setup_run :=
  turns answer n (Running (@main ToyUrl.api Toy.aead Toy.hashing process 3) s []).
End Answers.

Definition is_register (r : setup_run) : bool :=
  match rest _ r with Ask (Outside (Spawn c) _) _ => bool_decide (cmd_args c = ["run"; "register"]) | _ => false end.
Definition register_env (r : setup_run) : list (string * string) :=
  match rest _ r with Ask (Outside (Spawn c) _) _ => cmd_env c | _ => [] end.
Definition has_posted (r : setup_run) : bool :=
  existsb (fun x => match ex_question _ x with Outside (Post _ _) _ => true | _ => false end) (history _ r).
End Demo.


(** A verified email token is reused for another contact: the progress holds a token for
    one address, the operator types another one and presses Enter at every later
    prompt, and the registration gets the new contact with the old token, although
    nothing was posted to the server to verify the new one. *)
Theorem setup_reuses_foreign_token :
  let r := Demo.run [("Continue", "y"); ("Contact email", "new@example.org")] 60 (Demo.state_of Demo.before) in
  rtc (advance (others Demo.process)) (Running (@main ToyUrl.api Toy.aead Toy.hashing Demo.process 3) (Demo.state_of Demo.before) []) r /\
  get "contact" Demo.before = Some (JStr "op@example.org") /\ get "emailVerificationToken" Demo.before = Some (JStr "tok") /\
  Demo.is_register r = true /\ assoc "CONSENSUS_NODE_CONTACT" (Demo.register_env r) = Some "new@example.org" /\
  assoc "CONSENSUS_EMAIL_VERIFICATION_TOKEN" (Demo.register_env r) = Some "tok" /\ Demo.has_posted r = false.
Proof.
  split; [by apply turns_advance|]. split; [reflexivity|]. split; [reflexivity|]. vm_compute. done.
Qed.
