(* ===== verification/Release.v ===== *)
(** * Making a release (release.ts)

    The staged package, the tarball and the two manifest files.  Copying the sources
    and [tar] are outside: the tarball is a function of the staged [package.json]. *)

From S2P Require Import Prelude Effect Text Json JsonText JsonIndent JsonSaved Coerce Crypto CanonicalJson Messages Files SecretStore Machine Dedupe Update Url Eval Join Setup SetupFrame.
Local Open Scope Z_scope.

(** ** The command line *)

Record ReleaseOptions := {
  opt_version : option string; opt_commit : option string; opt_platform : option string; opt_downloadUrl : option string;
  opt_required : bool; opt_outDir : string }.

Definition default_options : ReleaseOptions :=
  {| opt_version := None; opt_commit := None; opt_platform := None; opt_downloadUrl := None; opt_required := true; opt_outDir := "dist" |}.

Definition parseBoolean (value : string) : result bool :=
  if bool_decide (value = "true") then Ok true
  else if bool_decide (value = "false") then Ok false
  else Throw (PlainError ("Expected boolean value, got: " +:+ value)).

(** One option with its value. *)
Definition set_option (o : ReleaseOptions) (arg next : string) : result ReleaseOptions :=
  if bool_decide (arg = "--version") then
    Ok {| opt_version := Some next; opt_commit := opt_commit o; opt_platform := opt_platform o; opt_downloadUrl := opt_downloadUrl o;
          opt_required := opt_required o; opt_outDir := opt_outDir o |}
  else if bool_decide (arg = "--commit") then
    Ok {| opt_version := opt_version o; opt_commit := Some next; opt_platform := opt_platform o; opt_downloadUrl := opt_downloadUrl o;
          opt_required := opt_required o; opt_outDir := opt_outDir o |}
  else if bool_decide (arg = "--platform") then
    Ok {| opt_version := opt_version o; opt_commit := opt_commit o; opt_platform := Some next; opt_downloadUrl := opt_downloadUrl o;
          opt_required := opt_required o; opt_outDir := opt_outDir o |}
  else if bool_decide (arg = "--download-url") then
    Ok {| opt_version := opt_version o; opt_commit := opt_commit o; opt_platform := opt_platform o; opt_downloadUrl := Some next;
          opt_required := opt_required o; opt_outDir := opt_outDir o |}
  else if bool_decide (arg = "--required") then
    b ← parseBoolean next;
    Ok {| opt_version := opt_version o; opt_commit := opt_commit o; opt_platform := opt_platform o; opt_downloadUrl := opt_downloadUrl o;
          opt_required := b; opt_outDir := opt_outDir o |}
  else if bool_decide (arg = "--out") then
    Ok {| opt_version := opt_version o; opt_commit := opt_commit o; opt_platform := opt_platform o; opt_downloadUrl := opt_downloadUrl o;
          opt_required := opt_required o; opt_outDir := next |}
  else Throw (PlainError ("Unknown or incomplete release option: " +:+ arg)).

(** The loop of [parseArgs]; an empty value counts as missing. *)
Fixpoint parse_args (o : ReleaseOptions) (args : list string) : result ReleaseOptions :=
  match args with
  | [] => Ok o
  | arg :: rest =>
      match rest with
      | next :: rest =>
          if bool_decide (next = "") then Throw (PlainError ("Unknown or incomplete release option: " +:+ arg))
          else o ← set_option o arg next; parse_args o rest
      | [] => Throw (PlainError ("Unknown or incomplete release option: " +:+ arg))
      end
  end.

Definition parseArgs (args : list string) : result ReleaseOptions := parse_args default_options args.

(** ** The package *)

(** The texts of a [package.json]. *)
Definition package_text (k : string) (v : option json) : option string := match v with Some v => as_string (get k v) | None => None end.
Definition build_of (package : json) (git : option string) : Build :=
  {| pkg_version := package_text "version" (Some package); pkg_commit := package_text "commit" (get "consensus_node" package);
     pkg_platform := package_text "platform" (get "consensus_node" package); git_stdout := git |}.

(** [stdout.trim() || "dev"]; [None]: [git] fails. *)
Definition git_commit (stdout : option string) : string :=
  match stdout with Some out => if bool_decide (trim out = "") then "dev" else trim out | None => "dev" end.

Definition platformSlug (p : Process) : string := os_platform p +:+ "-" +:+ os_arch p.

(** What [stagePackage] writes into the staged [package.json]. *)
Definition staged_package (package : json) (version commit platform : string) : json :=
  assign package
    [("version", Some (JStr version));
     ("consensus_node", Some (assign (default JNull (get "consensus_node" package)) [("commit", Some (JStr commit)); ("platform", Some (JStr platform))]))].

(** [process.env.K = v] for each of them. *)
Definition with_env (p : Process) (e : list (string * string)) : Process :=
  {| env := fun k => match assoc k e with Some v => Some v | None => env p k end; homedir := homedir p; cwd := cwd p;
     os_platform := os_platform p; os_arch := os_arch p; getuid := getuid p |}.

(** [a ?? b] on optional text. *)
Definition or_default (a : option string) (b : string) : string := default b a.

Section Release.
Context `{Hashing} (p : Process).

Record Released := { rel_artifact : string; rel_manifest : string; rel_admin : string; rel_sha256 : string }.

Definition release_version (o : ReleaseOptions) (b : Build) : string :=
  or_default (opt_version o) (or_default (env p "CONSENSUS_NODE_VERSION") (or_default (pkg_version b) "0.0.0")).
Definition release_commit (o : ReleaseOptions) (b : Build) : string :=
  or_default (opt_commit o) (or_default (env p "CONSENSUS_NODE_COMMIT") (git_commit (git_stdout b))).
Definition release_platform (o : ReleaseOptions) : string :=
  or_default (opt_platform o) (or_default (env p "CONSENSUS_NODE_PLATFORM") (platformSlug p)).

Definition release_env (o : ReleaseOptions) (b : Build) (sha256 : string) : list (string * string) :=
  [("CONSENSUS_NODE_VERSION", release_version o b); ("CONSENSUS_NODE_COMMIT", release_commit o b);
   ("CONSENSUS_NODE_PLATFORM", release_platform o); ("CONSENSUS_NODE_TARBALL_SHA256", "sha256:" +:+ sha256)] ++
  match opt_downloadUrl o with Some url => if bool_decide (url = "") then [] else [("CONSENSUS_NODE_DOWNLOAD_URL", url)] | None => [] end.

Definition release_name (o : ReleaseOptions) (b : Build) : string := "consensus-node-" +:+ release_version o b +:+ "-" +:+ release_platform o.

(** [git]: what [git rev-parse HEAD] printed, if it succeeded; [tar] makes the tarball
    of a package, or fails. *)
Definition main (package : json) (git : option string) (tar : json -> result buffer) (args : list string) : eff Disk Released :=
  options ← lift (parseArgs args);
  let b := build_of package git in
  let outDir := resolve p (opt_outDir options) in
  let artifactPath := path_join [outDir; release_name options b +:+ ".tgz"] in
  tarball ← lift (tar (staged_package package (release_version options b) (release_commit options b) (release_platform options)));
  writeFile artifactPath tarball;;
  d ← gets id;
  bytes ← lift (readFile_or_throw artifactPath d);
  let sha256 := sha256Hex bytes in
  let manifest := releaseManifest (with_env p (release_env options b sha256)) b in
  let manifestPath := path_join [outDir; release_name options b +:+ ".manifest.json"] in
  let adminPayloadPath := path_join [outDir; release_name options b +:+ ".admin-manifest.json"] in
  writeFile manifestPath (utf8 (stringify2 manifest));;
  writeFile adminPayloadPath (utf8 (stringify2 (JObj [("manifest", manifest); ("required", JBool (opt_required options))])));;
  mret {| rel_artifact := artifactPath; rel_manifest := manifestPath; rel_admin := adminPayloadPath; rel_sha256 := "sha256:" +:+ sha256 |}.
End Release.

(** ** Lemmas *)

Section Lemmas.
Context `{Hashing} (p : Process).

(** What [main] did when it returned: three files, the manifests being of the tarball. *)
Record made (package : json) (git : option string) (tarball : buffer) (o : ReleaseOptions) (rel : Released) (d' : Disk) (manifest : json) : Prop := {
  made_manifest : manifest = releaseManifest (with_env p (release_env p o (build_of package git) (sha256Hex tarball))) (build_of package git);
  made_tarball : readFile (rel_artifact rel) d' = Contents tarball;
  made_text : readFile (rel_manifest rel) d' = Contents (utf8 (stringify2 manifest));
  made_admin : readFile (rel_admin rel) d' = Contents (utf8 (stringify2 (JObj [("manifest", manifest); ("required", JBool (opt_required o))])));
  made_sha : rel_sha256 rel = "sha256:" +:+ sha256Hex tarball }.

Lemma resolve_nonempty value : resolve p value <> "".
Proof. done. Qed.

Lemma release_files_apart dir name : dir <> "" ->
  let f ext := path_join [dir; name +:+ ext] in
  f ".tgz" <> f ".manifest.json" /\ f ".tgz" <> f ".admin-manifest.json" /\ f ".manifest.json" <> f ".admin-manifest.json".
Proof.
  intros Hd. cbv zeta.
  destruct (path_join_ext dir name ".tgz") as [x ->]; [done|done|cbn; lia|]. destruct (path_join_ext dir name ".manifest.json") as [y ->]; [done|done|cbn; lia|].
  destruct (path_join_ext dir name ".admin-manifest.json") as [z ->]; [done|done|cbn; lia|]. split_and!; by apply ends_differ.
Qed.

Lemma main_made package git tar args d d' rel : main p package git tar args d = (d', Ok rel) ->
  exists o tarball manifest, parseArgs args = Ok o /\
    tar (staged_package package (release_version p o (build_of package git)) (release_commit p o (build_of package git)) (release_platform p o)) = Ok tarball /\
    made package git tarball o rel d' manifest.
Proof.
  unfold main, lift, gets, mret, eff_ret, mbind, eff_bind. destruct (parseArgs args) as [o|]; [|done]. cbv zeta.
  destruct (tar _) as [tarball|] eqn:Et; [|done]. set (b := build_of package git) in *.
  destruct (release_files_apart (resolve p (opt_outDir o)) (release_name p o b) (resolve_nonempty _)) as (N1 & N2 & N3).
  set (f1 := path_join [_; _ +:+ ".tgz"]) in *. set (f2 := path_join [_; _ +:+ ".manifest.json"]) in *.
  set (f3 := path_join [_; _ +:+ ".admin-manifest.json"]) in *.
  destruct (writeFile f1 tarball d) as [d1 [[]|]] eqn:E1; [|done]. apply writeFile_ok in E1 as ->. cbn [id].
  unfold readFile_or_throw, readFile. rewrite lookup_insert_eq. set (manifest := releaseManifest _ _).
  destruct (writeFile f2 _ _) as [d2 [[]|]] eqn:E2; [|done]. apply writeFile_ok in E2 as ->.
  destruct (writeFile f3 _ _) as [d3 [[]|]] eqn:E3; [|done]. apply writeFile_ok in E3 as ->.
  intros [= <- <-]. exists o, tarball, manifest. split; [done|]. split; [exact Et|]. split; cbn [rel_artifact rel_manifest rel_admin rel_sha256]; try done; unfold readFile.
  - by rewrite lookup_insert_ne, lookup_insert_ne, lookup_insert_eq.
  - by rewrite lookup_insert_ne, lookup_insert_eq.
  - by rewrite lookup_insert_eq.
Qed.

Lemma manifest_keys q b : NoDup (map fst [("product", Some (JStr "consensus-node"));
       ("version", Some (JStr (default "0.0.0" (or_else (env q "CONSENSUS_NODE_VERSION") (or_else (pkg_version b) None)))));
       ("artifact", Some (JStr "npm-tarball")); ("platform", Some (JStr (platform q b)));
       ("commit", Some (JStr (default "unknown" (or_else (env q "CONSENSUS_NODE_COMMIT") (or_else (pkg_commit b) (gitCommit b))))));
       ("download_url", JStr <$> env q "CONSENSUS_NODE_DOWNLOAD_URL"); ("tarball_sha256", JStr <$> env q "CONSENSUS_NODE_TARBALL_SHA256");
       ("routes_hash", Some (JStr routesHash)); ("capabilities", Some (JArr (map JStr NODE_CAPABILITIES)));
       ("signing_key_id", JStr <$> env q "CONSENSUS_RELEASE_SIGNING_KEY_ID"); ("signature", JStr <$> env q "CONSENSUS_RELEASE_SIGNATURE")]).
Proof. apply (bool_decide_unpack _). vm_compute. exact I. Qed.

Lemma manifest_wf q b : wf_json (releaseManifest q b) = true.
Proof.
  unfold releaseManifest, obj. generalize routesHash as h, (platform q b) as pl. intros h pl.
  destruct (env q "CONSENSUS_NODE_DOWNLOAD_URL"), (env q "CONSENSUS_NODE_TARBALL_SHA256"), (env q "CONSENSUS_RELEASE_SIGNING_KEY_ID"),
    (env q "CONSENSUS_RELEASE_SIGNATURE"); cbn -[or_else gitCommit]; by rewrite bool_decide_true by reflexivity.
Qed.
End Lemmas.

(** Reads a member of a manifest. *)
Ltac member := unfold releaseManifest; rewrite obj_assoc by exact (manifest_keys _ _); cbn [assoc];
  repeat first [rewrite decide_True by done|rewrite decide_False by done].

Lemma check_digest_own manifest h : get "tarball_sha256" manifest = Some (JStr ("sha256:" +:+ h)) -> check_digest manifest h = Ok tt.
Proof.
  intros Hm. unfold check_digest. rewrite Hm. change (truthy (Some (JStr ("sha256:" +:+ h)))) with true. cbv iota.
  unfold stripShaPrefix. rewrite (startsWith_app "sha256:" h). change (slice_from 7 ("sha256:" +:+ h)) with h. by rewrite bool_decide_true.
Qed.

(** A node that runs the staged package has the texts of the release. *)
Lemma staged_build package version commit pl git :
  let b := build_of (staged_package package version commit pl) git in
  pkg_version b = Some version /\ pkg_commit b = Some commit /\ pkg_platform b = Some pl.
Proof.
  cbv zeta. unfold build_of, staged_package. cbn [pkg_version pkg_commit pkg_platform package_text].
  rewrite !get_assign by (apply (bool_decide_unpack _); vm_compute; exact I). cbn [assoc].
  repeat first [rewrite decide_True by done|rewrite decide_False by done]. cbn [package_text].
  rewrite !get_assign by (apply (bool_decide_unpack _); vm_compute; exact I). cbn [assoc].
  repeat first [rewrite decide_True by done|rewrite decide_False by done]. done.
Qed.

(** ** Properties *)


(** A node never counts as up to date: a node installed from a release, with nothing in
    its environment that describes a release, agrees with the release's manifest in
    version, platform, commit and routes, but is told that an update is required, for
    the digest of the tarball, which only the release tool itself ever has in its
    environment and which cannot be inside the tarball. *)
Theorem release_never_current `{Hashing} (p : Process) (package : json) (git git' : option string) (tar : json -> result buffer)
    (args : list string) (d d' : Disk) (rel : Released) (o : ReleaseOptions) (q : Process) :
  let b := build_of package git in
  let v := release_version p o b in let c := release_commit p o b in let pl := release_platform p o in
  main p package git tar args d = (d', Ok rel) -> parseArgs args = Ok o -> v <> "" -> c <> "" -> pl <> "" ->
  Forall (fun k => env q k = None) ["CONSENSUS_NODE_VERSION"; "CONSENSUS_NODE_COMMIT"; "CONSENSUS_NODE_PLATFORM"; "CONSENSUS_NODE_TARBALL_SHA256"] ->
  exists manifest s, readFile (rel_manifest rel) d' = Contents (utf8 (stringify2 manifest)) /\
    compareManifests (releaseManifest q (build_of (staged_package package v c pl) git')) manifest = Ok s /\
    update_required s = true /\ status_reasons s = ["tarball_sha256"].
Proof.
  cbv zeta. intros Hm Ho Hv Hc Hpl He. destruct (main_made p _ _ _ _ _ _ _ Hm) as (o' & tb & manifest & Ho' & _ & [Em _ Ex _ _]).
  rewrite Ho in Ho'. injection Ho' as <-. set (b := build_of package git) in *. set (v := release_version p o b) in *.
  set (c := release_commit p o b) in *. set (pl := release_platform p o) in *.
  set (q' := with_env p (release_env p o b (sha256Hex tb))) in *. set (b' := build_of (staged_package package v c pl) git').
  destruct (staged_build package v c pl git') as (Bv & Bc & Bp). fold b' in Bv, Bc, Bp.
  rewrite !Forall_cons in He. destruct He as (E1 & E2 & E3 & E4 & _).
  assert (Hself : forall k x, env q' k = Some x -> x <> "" -> forall alt, or_else (env q' k) alt = Some x).
  { intros k x Hx Hn alt. rewrite Hx. unfold or_else. by rewrite bool_decide_false. }
  assert (Hs : get "tarball_sha256" manifest = Some (JStr ("sha256:" +:+ sha256Hex tb))) by (subst manifest; member; reflexivity).
  assert (Hd : forall k, k ∈ ["version"; "platform"; "commit"; "routes_hash"] -> differs k (releaseManifest q b') manifest = false).
  { intros k Hk. unfold differs. rewrite negb_false_iff, bool_decide_eq_true. rewrite !elem_of_cons in Hk.
    destruct Hk as [->|[->|[->|[->|Hk]]]]; [| | | |by apply elem_of_nil in Hk]; subst manifest.
    - member. rewrite (Hself "CONSENSUS_NODE_VERSION" v), E1, Bv by first [exact Hv|reflexivity]. unfold or_else. by rewrite bool_decide_false.
    - member. unfold platform. rewrite (Hself "CONSENSUS_NODE_PLATFORM" pl), E3, Bp by first [exact Hpl|reflexivity]. unfold or_else. by rewrite bool_decide_false.
    - member. rewrite (Hself "CONSENSUS_NODE_COMMIT" c), E2, Bc by first [exact Hc|reflexivity]. unfold or_else. by rewrite bool_decide_false.
    - by do 2 member. }
  assert (Hr : reasons (releaseManifest q b') manifest = ["tarball_sha256"]).
  { unfold reasons. rewrite Hs. change (truthy (Some (JStr ("sha256:" +:+ sha256Hex tb)))) with true. cbn [andb].
    do 4 (rewrite filter_cons_False by (rewrite Hd by (rewrite !elem_of_cons; tauto); done)). rewrite filter_nil.
    assert (Hx : get "tarball_sha256" (releaseManifest q b') = None) by (member; by rewrite E4).
    unfold differs. rewrite Hx, Hs. reflexivity. }
  eexists manifest, _. split; [exact Ex|]. unfold compareManifests, members.
  rewrite (bool_decide_false (manifest = JNull)) by (intros E; rewrite E in Hs; discriminate Hs). cbn [throw_if mbind result_bind]. split; [reflexivity|].
  cbn [update_required status_reasons]. rewrite Hr. by rewrite bool_decide_true.
Qed.

(** ** A concrete release *)

Import Toy.

Module ReleaseDemo.
Definition package : json := JObj [("name", JStr "consensus-node"); ("version", JStr "1.2.2"); ("consensus_node", JObj [("commit", JStr "old")])].
Definition options : list string :=
  ["--version"; "1.2.3"; "--commit"; "c0ffee"; "--platform"; "linux-x64"; "--download-url"; "https://dl.example/a.tgz"].
Definition tar (package : json) : result buffer := Ok (utf8 "tarball of " ++ utf8 (stringify2 package)).
Definition run : Disk * result Released := main Node.process package (Some "abc") tar options ∅.
Definition opts : ReleaseOptions :=
  {| opt_version := Some "1.2.3"; opt_commit := Some "c0ffee"; opt_platform := Some "linux-x64";
     opt_downloadUrl := Some "https://dl.example/a.tgz"; opt_required := true; opt_outDir := "dist" |}.
Definition released : Released :=
  match run.2 with Ok rel => rel | Throw _ => {| rel_artifact := ""; rel_manifest := ""; rel_admin := ""; rel_sha256 := "" |} end.
Definition contents (f : string) : buffer := match readFile f run.1 with Contents b => b | _ => [] end.
(** The server publishes the manifest and hosts the tarball. *)
Definition fetch (url : string) : result Response :=
  Ok {| resp_status := 200; resp_body := if bool_decide (url = "https://dl.example/a.tgz") then contents (rel_artifact released) else contents (rel_manifest released) |}.
End ReleaseDemo.


Lemma release_never_current_witness : exists manifest s, readFile (rel_manifest ReleaseDemo.released) ReleaseDemo.run.1 = Contents (utf8 (stringify2 manifest)) /\
  compareManifests (releaseManifest Node.process (build_of (staged_package ReleaseDemo.package "1.2.3" "c0ffee" "linux-x64") None)) manifest = Ok s /\
  update_required s = true /\ status_reasons s = ["tarball_sha256"].
Proof.
  apply (release_never_current Node.process ReleaseDemo.package (Some "abc") None ReleaseDemo.tar ReleaseDemo.options ∅ ReleaseDemo.run.1 ReleaseDemo.released
    ReleaseDemo.opts Node.process);
    [vm_compute; reflexivity|vm_compute; reflexivity|discriminate|discriminate|discriminate|repeat constructor].
Defined.
