(* ===== verification/Double.v ===== *)
(** * Numbers as 64-bit floats

    The benchmarks compute with rounding, so their numbers are IEEE binary64 values
    ([spec_float], with the operations of the Standard Library) and not decimals. *)

From Stdlib Require Import SpecFloat.
From S2P Require Import Prelude.
Local Open Scope Z_scope.

Definition double : Type := spec_float.

#[export] Instance double_eq_dec : EqDecision double.
Proof. solve_decision. Defined.

(** Precision and exponent of binary64. *)
Definition prec : Z := 53.
Definition emax : Z := 1024.

Definition dadd (a b : double) : double := SFadd prec emax a b.
Definition dsub (a b : double) : double := SFsub prec emax a b.
Definition dmul (a b : double) : double := SFmul prec emax a b.
Definition ddiv (a b : double) : double := SFdiv prec emax a b.
Definition dsqrt (a : double) : double := SFsqrt prec emax a.

Definition nan : double := S754_nan.
Definition zero : double := S754_zero false.
Definition Infinity : double := S754_infinity false.

(** [Number(n)] of an integer; a numeral. *)
Definition of_Z (z : Z) : double := binary_normalize prec emax z 0 false.
(** The numeral [n / d]: dividing two exact integers rounds once. *)
Definition ratio (n d : Z) : double := ddiv (of_Z n) (of_Z d).

(** [a < b], [a <= b]; both are false on a NaN. *)
Definition dltb (a b : double) : bool := SFltb a b.
Definition dleb (a b : double) : bool := SFleb a b.

Declare Scope double_scope.
Delimit Scope double_scope with D.
Bind Scope double_scope with double.
Infix "+" := dadd : double_scope.
Infix "-" := dsub : double_scope.
Infix "*" := dmul : double_scope.
Infix "/" := ddiv : double_scope.
Infix "<?" := dltb : double_scope.
Infix "<=?" := dleb : double_scope.

Definition is_nan (a : double) : bool := match a with S754_nan => true | _ => false end.
Definition is_finite (a : double) : bool := match a with S754_finite _ _ _ | S754_zero _ => true | _ => false end.

Definition signed (s : bool) (m : positive) : Z := if s then Z.neg m else Z.pos m.

(** An integral value with the sign of [s] when it is zero. *)
Definition integral (s : bool) (z : Z) : double := if z =? 0 then S754_zero s else of_Z z.

(** [Math.floor], [Math.ceil] and [Math.round], which rounds halves up. *)
Definition dfloor (a : double) : double :=
  match a with
  | S754_finite s m e => if 0 <=? e then a else integral s (signed s m / 2 ^ (- e))
  | _ => a
  end.
Definition dceil (a : double) : double :=
  match a with
  | S754_finite s m e => if 0 <=? e then a else integral s (- (- signed s m / 2 ^ (- e)))
  | _ => a
  end.
Definition dround (a : double) : double :=
  match a with
  | S754_finite s m e => if 0 <=? e then a else integral s ((2 * signed s m + 2 ^ (- e)) / 2 ^ (1 - e))
  | _ => a
  end.

(** The integer an integral value stands for. *)
Definition to_Z (a : double) : Z :=
  match a with
  | S754_finite s m e => if 0 <=? e then signed s m * 2 ^ e else signed s m / 2 ^ (- e)
  | _ => 0
  end.

(** [Math.min(a, b)] and [Math.max(a, b)]. *)
Definition dmin (a b : double) : double :=
  if is_nan a || is_nan b then nan else if dltb b a then b
  else match a, b with S754_zero _, S754_zero true => b | _, _ => a end.
Definition dmax (a b : double) : double :=
  if is_nan a || is_nan b then nan else if dltb a b then b
  else match a, b with S754_zero _, S754_zero false => b | _, _ => a end.
(** [Math.min(...l)]: no argument gives [Infinity]. *)
Definition min_of (l : list double) : double := fold_left dmin l Infinity.
Definition max_of (l : list double) : double := fold_left dmax l (S754_infinity true).

(** [l.reduce((a, b) => a + b, 0)]. *)
Definition sum_of (l : list double) : double := fold_left dadd l zero.

(** ** Order *)

(** The comparison is that of a triple: the sign and kind, the exponent, the
    mantissa. *)
Definition rank (a : double) : Z * Z * Z :=
  match a with
  | S754_infinity true => (-2, 0, 0)
  | S754_finite true m e => (-1, - e, Z.neg m)
  | S754_zero _ | S754_nan => (0, 0, 0)
  | S754_finite false m e => (1, e, Z.pos m)
  | S754_infinity false => (2, 0, 0)
  end.
Definition rank_le (a b : Z * Z * Z) : Prop :=
  let '(a1, a2, a3) := a in let '(b1, b2, b3) := b in
  a1 < b1 \/ a1 = b1 /\ (a2 < b2 \/ a2 = b2 /\ a3 <= b3).

Lemma SFcompare_rank a b : is_nan a = false -> is_nan b = false ->
  exists c, SFcompare a b = Some c /\
    match c with Lt => ~ rank_le (rank b) (rank a) | Eq => rank a = rank b | Gt => ~ rank_le (rank a) (rank b) end.
Proof.
  intros Ha Hb. destruct a as [sa|[]| |[] ma ea]; try done; destruct b as [sb|[]| |[] mb eb]; try done;
    (eexists; split; [reflexivity|]); cbn [rank rank_le]; try done; try lia.
  - change (Pos.compare_cont Eq ma mb) with (Pos.compare ma mb). destruct (Z.compare_spec ea eb); [subst|lia|lia].
    destruct (Pos.compare_spec ma mb); cbn [CompOpp]; [by subst|lia|lia].
  - change (Pos.compare_cont Eq ma mb) with (Pos.compare ma mb). destruct (Z.compare_spec ea eb); [subst|lia|lia].
    destruct (Pos.compare_spec ma mb); [by subst|lia|lia].
Qed.

Lemma rank_total a b : rank_le a b \/ rank_le b a.
Proof. destruct a as [[a1 a2] a3], b as [[b1 b2] b3]. cbn. lia. Qed.

Lemma dleb_rank a b : is_nan a = false -> is_nan b = false -> dleb a b = true <-> rank_le (rank a) (rank b).
Proof.
  intros Ha Hb. unfold dleb, SFleb. destruct (SFcompare_rank a b Ha Hb) as (c & -> & Hc). destruct c.
  - rewrite Hc. split; [|done]. intros _. destruct (rank b) as [[b1 b2] b3]. cbn. lia.
  - split; [|done]. intros _. destruct (rank_total (rank a) (rank b)); done.
  - split; [done|]. by intros.
Qed.

Lemma dltb_rank a b : is_nan a = false -> is_nan b = false -> dltb a b = true <-> ~ rank_le (rank b) (rank a).
Proof.
  intros Ha Hb. unfold dltb, SFltb. destruct (SFcompare_rank a b Ha Hb) as (c & -> & Hc). destruct c.
  - rewrite Hc. split; [done|]. intros Hn. exfalso. apply Hn. destruct (rank b) as [[b1 b2] b3]. cbn. lia.
  - by split.
  - split; [done|]. intros Hn. exfalso. destruct (rank_total (rank a) (rank b)); done.
Qed.

Lemma dleb_refl a : is_nan a = false -> dleb a a = true.
Proof. intros Ha. apply dleb_rank; try done. destruct (rank a) as [[? ?] ?]. cbn. lia. Qed.

Lemma dleb_trans a b c : is_nan a = false -> is_nan b = false -> is_nan c = false ->
  dleb a b = true -> dleb b c = true -> dleb a c = true.
Proof.
  intros Ha Hb Hc. rewrite !dleb_rank by done. destruct (rank a) as [[? ?] ?], (rank b) as [[? ?] ?], (rank c) as [[? ?] ?]. cbn. lia.
Qed.

(** On numbers, [<] is the opposite of the converse [<=]. *)
Lemma dltb_dleb a b : is_nan a = false -> is_nan b = false -> dltb a b = negb (dleb b a).
Proof.
  intros Ha Hb. apply eq_true_iff_eq. rewrite negb_true_iff, <- not_true_iff_false, dleb_rank, dltb_rank by done. done.
Qed.

Lemma dltb_nan a b : dltb a b = true -> is_nan a = false /\ is_nan b = false.
Proof. destruct a, b; done. Qed.

(** ** Rounding keeps the sign *)

Lemma iter_pos_inv {A} (P : A -> Prop) (f : A -> A) n x : (forall x, P x -> P (f x)) -> P x -> P (SpecFloat.iter_pos f n x).
Proof. intros Hf. revert x. induction n as [n IH|n IH|]; cbn; auto. Qed.

Lemma shr_1_nonneg r : 0 <= shr_m r -> 0 <= shr_m (shr_1 r).
Proof. destruct r as [[|[p|p|]|[p|p|]] ? ?]; cbn; lia. Qed.

Lemma shr_nonneg r e n : 0 <= shr_m r -> 0 <= shr_m (shr r e n).1.
Proof. intros Hr. destruct n; cbn; [done| |done]. apply (iter_pos_inv (fun r => 0 <= shr_m r)); [apply shr_1_nonneg|done]. Qed.

Lemma round_nonneg m l : 0 <= m -> 0 <= round_nearest_even m l.
Proof. intros Hm. destruct l as [|[]]; cbn; try lia. destruct (Z.even m); lia. Qed.

Lemma shr_record_m m l : shr_m (shr_record_of_loc m l) = m.
Proof. by destruct l as [|[]]. Qed.

(** What rounding a non-negative mantissa may give. *)
Definition rounded (s : bool) (a : double) : Prop := a = S754_zero s \/ (exists m e, a = S754_finite s m e) \/ a = S754_infinity s.

Lemma round_aux_rounded s m e l : 0 <= m -> rounded s (binary_round_aux prec emax s m e l).
Proof.
  intros Hm. unfold binary_round_aux, shr_fexp.
  destruct (shr (shr_record_of_loc m l) e _) as [r1 e1] eqn:E1.
  assert (H1 : 0 <= shr_m r1) by (pose proof (shr_nonneg (shr_record_of_loc m l) e (fexp prec emax (Zdigits2 m + e) - e)) as Hs;
    rewrite shr_record_m, E1 in Hs; by apply Hs).
  set (m2 := round_nearest_even _ _). assert (H2 : 0 <= m2) by (by apply round_nonneg).
  destruct (shr (shr_record_of_loc m2 loc_Exact) e1 _) as [r3 e3] eqn:E3.
  assert (H3 : 0 <= shr_m r3) by (pose proof (shr_nonneg (shr_record_of_loc m2 loc_Exact) e1 (fexp prec emax (Zdigits2 m2 + e1) - e1)) as Hs;
    rewrite shr_record_m, E3 in Hs; by apply Hs).
  destruct (shr_m r3) as [|p|p]; [by left| |lia]. destruct (e3 <=? emax - prec); [right; left; eauto|by right; right].
Qed.

Lemma of_Z_nonneg z : 0 <= z -> rounded false (of_Z z).
Proof.
  intros Hz. unfold of_Z, binary_normalize. destruct z as [|m|m]; [by left| |lia].
  unfold binary_round. destruct (shl_align _ _ _) as [mz ez]. by apply round_aux_rounded.
Qed.

(** A quotient of positive numbers, the dividend finite, is a number. *)
Lemma ddiv_rounded a b : is_finite a = true -> dltb zero a = true -> dltb zero b = true -> rounded false (ddiv a b).
Proof.
  destruct a as [[]|[]| |[] ma ea]; try done. destruct b as [[]|[]| |[] mb eb]; try done; intros _ _ _.
  - by left.
  - unfold ddiv, SFdiv. destruct (SFdiv_core_binary _ _ _ _ _ _) as [[mz ez] lz] eqn:E. apply round_aux_rounded.
    unfold SFdiv_core_binary in E. destruct (Z.div_eucl _ _) as [q r] eqn:Ed. injection E as <- _ _.
    set (m' := match _ with Z0 => _ | Zpos _ => _ | Zneg _ => _ end) in Ed.
    replace q with (m' / Z.pos mb) by (unfold Z.div; by rewrite Ed). apply Z.div_pos; [|done].
    subst m'. destruct (_ - _); [done|by apply Z.shiftl_nonneg|done].
Qed.

Lemma ddiv_by_positive a b : rounded false a -> is_finite b = true -> dltb zero b = true -> rounded false (ddiv a b).
Proof.
  intros [-> |[(m & e & ->)| ->]] Hf Hb.
  - destruct b as [[]|[]| |[] ? ?]; try done. by left.
  - by apply ddiv_rounded.
  - destruct b as [[]|[]| |[] ? ?]; try done. by right; right.
Qed.

Lemma ddiv_of_positive a b : is_finite a = true -> dltb zero a = true -> rounded false b -> rounded false (ddiv a b).
Proof.
  intros Hf Ha [-> |[(m & e & ->)| ->]]; [|by apply ddiv_rounded|]; destruct a as [[]|[]| |[] ? ?]; try done; [by right; right|by left].
Qed.

Lemma rounded_number s a : rounded s a -> is_nan a = false.
Proof. by intros [-> |[(m & e & ->)| ->]]. Qed.

(** ** Integers are exact *)

Lemma digits_size p : digits2_pos p = Pos.size p.
Proof. induction p as [p IH|p IH|]; cbn; congruence. Qed.

Lemma digits_bound m : Z.pos m < 2 ^ 53 -> Z.pos (digits2_pos m) <= 53.
Proof.
  intros Hm. rewrite digits_size. pose proof (Pos.size_le m) as Hs. apply Pos2Z.pos_le_pos in Hs.
  rewrite Pos2Z.inj_pow in Hs. change (Z.pos m~0) with (2 * Z.pos m) in Hs. destruct (Z.le_gt_cases (Z.pos (Pos.size m)) 53) as [|Hgt]; [done|].
  pose proof (Z.pow_le_mono_r 2 54 (Z.pos (Pos.size m)) ltac:(lia) ltac:(lia)) as Hp. change (2 ^ 54) with (2 * 2 ^ 53) in Hp. lia.
Qed.

Lemma digits_shift m n : digits2_pos (Pos.iter xO m n) = (digits2_pos m + n)%positive.
Proof.
  induction n as [|n IH] using Pos.peano_ind; [cbn; lia|]. rewrite Pos.iter_succ. cbn [digits2_pos]. rewrite IH. lia.
Qed.

(** A mantissa of 53 digits is not rounded. *)
Lemma round_aux_exact s m e : Z.pos (digits2_pos m) = 53 -> -1074 <= e <= 971 ->
  binary_round_aux prec emax s (Z.pos m) e loc_Exact = S754_finite s m e.
Proof.
  intros Hd He. unfold binary_round_aux, shr_fexp. cbn [Zdigits2]. rewrite Hd.
  assert (Hf : fexp prec emax (53 + e) - e = 0) by (unfold fexp, emin, prec, emax; lia). rewrite Hf.
  cbn [shr shr_record_of_loc shr_m loc_of_shr_record round_nearest_even Zdigits2]. rewrite Hd, Hf. cbn [shr shr_m].
  by rewrite (proj2 (Z.leb_le e (emax - prec))) by (unfold emax, prec; lia).
Qed.

Lemma of_Z_exact m : Z.pos m < 2 ^ 53 -> exists m' e, of_Z (Z.pos m) = S754_finite false m' e.
Proof.
  intros Hm%digits_bound. unfold of_Z, binary_normalize, binary_round. rewrite Z.add_0_r.
  assert (Hf : fexp prec emax (Z.pos (digits2_pos m)) = Z.pos (digits2_pos m) - 53) by (unfold fexp, emin, prec, emax; lia).
  rewrite Hf. unfold shl_align. rewrite Z.sub_0_r. destruct (Z.pos (digits2_pos m) - 53) as [|d|d] eqn:Ed; [|lia|].
  - rewrite round_aux_exact by lia. eauto.
  - rewrite round_aux_exact; [eauto| |lia]. rewrite digits_shift. lia.
Qed.

Lemma of_Z_positive z : 0 < z < 2 ^ 53 -> is_finite (of_Z z) = true /\ dltb zero (of_Z z) = true.
Proof. intros Hz. destruct z as [|m|m]; [lia| |lia]. destruct (of_Z_exact m) as (m' & e & ->); [lia|]. done. Qed.

Lemma of_Z_not_positive z : z <= 0 -> dltb zero (of_Z z) = false.
Proof.
  intros Hz. destruct z as [|m|m]; [done|lia|]. unfold of_Z, binary_normalize, binary_round.
  destruct (shl_align _ _ _) as [mz ez]. destruct (round_aux_rounded true (Z.pos mz) ez loc_Exact ltac:(lia)) as [-> |[(? & ? & ->)| ->]]; done.
Qed.

Lemma shr_exponent r e n : e <= (shr r e n).2.
Proof. destruct n; cbn; lia. Qed.

Lemma round_aux_exponent s m e l : 0 <= e ->
  match binary_round_aux prec emax s m e l with S754_finite _ _ e' => 0 <= e' | _ => True end.
Proof.
  intros He. unfold binary_round_aux, shr_fexp. destruct (shr (shr_record_of_loc m l) e _) as [r1 e1] eqn:E1.
  pose proof (shr_exponent (shr_record_of_loc m l) e (fexp prec emax (Zdigits2 m + e) - e)) as H1. rewrite E1 in H1. cbn [snd] in H1.
  set (m2 := round_nearest_even _ _). destruct (shr (shr_record_of_loc m2 loc_Exact) e1 _) as [r3 e3] eqn:E3.
  pose proof (shr_exponent (shr_record_of_loc m2 loc_Exact) e1 (fexp prec emax (Zdigits2 m2 + e1) - e1)) as H3. rewrite E3 in H3. cbn [snd] in H3.
  destruct (shr_m r3); [done| |done]. destruct (_ <=? _); [lia|done].
Qed.

(** A large integer keeps a non-negative exponent. *)
Lemma of_Z_large z : 2 ^ 53 <= z -> match of_Z z with S754_finite _ _ e => 0 <= e | _ => True end.
Proof.
  intros Hz. destruct z as [|m|m]; [done| |lia]. unfold of_Z, binary_normalize, binary_round. rewrite Z.add_0_r.
  assert (Hd : 53 < Z.pos (digits2_pos m)).
  { rewrite digits_size. pose proof (Pos.size_gt m) as Hs. apply Pos2Z.pos_lt_pos in Hs. rewrite Pos2Z.inj_pow in Hs.
    destruct (Z.lt_ge_cases 53 (Z.pos (Pos.size m))) as [|Hle]; [done|].
    pose proof (Z.pow_le_mono_r 2 (Z.pos (Pos.size m)) 53 ltac:(lia) Hle). lia. }
  assert (Hf : fexp prec emax (Z.pos (digits2_pos m)) = Z.pos (digits2_pos m) - 53) by (unfold fexp, emin, prec, emax; lia).
  rewrite Hf. unfold shl_align. rewrite Z.sub_0_r. destruct (Z.pos (digits2_pos m) - 53) as [|d|d] eqn:Ed; [lia| |lia].
  by apply round_aux_exponent.
Qed.

Lemma iter_xO m n : Z.pos (Pos.iter xO m n) = Z.pos m * 2 ^ Z.pos n.
Proof.
  induction n as [|n IH] using Pos.peano_ind; [cbn; lia|]. rewrite Pos.iter_succ, Pos2Z.inj_succ, Z.pow_succ_r by lia.
  rewrite Pos2Z.inj_xO, IH. lia.
Qed.

Lemma to_Z_of_Z z : 0 <= z < 2 ^ 53 -> to_Z (of_Z z) = z.
Proof.
  intros Hz. destruct z as [|m|m]; [done| |lia]. pose proof (digits_bound m ltac:(lia)) as Hm.
  unfold of_Z, binary_normalize, binary_round. rewrite Z.add_0_r.
  assert (Hf : fexp prec emax (Z.pos (digits2_pos m)) = Z.pos (digits2_pos m) - 53) by (unfold fexp, emin, prec, emax; lia).
  rewrite Hf. unfold shl_align. rewrite Z.sub_0_r. destruct (Z.pos (digits2_pos m) - 53) as [|d|d] eqn:Ed; [|lia|].
  - rewrite round_aux_exact by lia. cbn. lia.
  - rewrite round_aux_exact; [|rewrite digits_shift; lia|lia]. cbn [to_Z signed]. rewrite (proj2 (Z.leb_gt 0 _)) by lia.
    rewrite iter_xO. change (- Z.neg d) with (Z.pos d). apply Z.div_mul. lia.
Qed.

Lemma large_not_below s m e : 0 <= e -> s = false -> dltb (S754_finite s m e) (of_Z 64) = false.
Proof.
  intros He ->. replace (of_Z 64) with (S754_finite false 4503599627370496 (-46)) by (vm_compute; reflexivity).
  unfold dltb, SFltb. cbn [SFcompare]. by rewrite (proj2 (Z.compare_gt_iff e (-46))) by lia.
Qed.

Lemma of_Z_form m : Z.pos m < 2 ^ 53 ->
  exists m', of_Z (Z.pos m) = S754_finite false m' (Z.pos (digits2_pos m) - 53) /\ Z.pos m' = Z.pos m * 2 ^ (53 - Z.pos (digits2_pos m)).
Proof.
  intros Hm%digits_bound. unfold of_Z, binary_normalize, binary_round. rewrite Z.add_0_r.
  assert (Hf : fexp prec emax (Z.pos (digits2_pos m)) = Z.pos (digits2_pos m) - 53) by (unfold fexp, emin, prec, emax; lia).
  rewrite Hf. unfold shl_align. rewrite Z.sub_0_r. destruct (Z.pos (digits2_pos m) - 53) as [|d|d] eqn:Ed; [|lia|].
  - rewrite round_aux_exact by lia. exists m. split; [done|]. replace (53 - _) with 0 by lia. lia.
  - rewrite round_aux_exact; [|rewrite digits_shift; lia|lia]. exists (Pos.iter xO m d). split; [done|]. rewrite iter_xO. do 2 f_equal. lia.
Qed.

Lemma of_Z_below_64 z : 0 < z < 2 ^ 53 -> dltb (of_Z z) (of_Z 64) = true -> z < 64.
Proof.
  intros Hz Hlt. destruct z as [|m|m]; [lia| |lia]. destruct (Z.lt_ge_cases (Z.pos m) 64) as [|Hge]; [done|exfalso].
  destruct (of_Z_form m ltac:(lia)) as (m' & E & Hm'). rewrite E in Hlt. clear E.
  assert (Hd : 7 <= Z.pos (digits2_pos m)).
  { rewrite digits_size. pose proof (Pos.size_gt m) as Hs. apply Pos2Z.pos_lt_pos in Hs. rewrite Pos2Z.inj_pow in Hs.
    destruct (Z.le_gt_cases 7 (Z.pos (Pos.size m))) as [|Hle]; [done|].
    pose proof (Z.pow_le_mono_r 2 (Z.pos (Pos.size m)) 6 ltac:(lia) ltac:(lia)). lia. }
  replace (of_Z 64) with (S754_finite false 4503599627370496 (-46)) in Hlt by (vm_compute; reflexivity).
  apply dltb_rank in Hlt; [|done|done]. apply Hlt. cbn [rank rank_le]. right. split; [done|].
  destruct (Z.lt_ge_cases (-46) (Z.pos (digits2_pos m) - 53)) as [|He]; [by left|right]. split; [lia|].
  rewrite Hm'. replace (53 - Z.pos (digits2_pos m)) with 46 by lia. lia.
Qed.

(** What [Math.round] may give. *)
Lemma dround_cases y : rounded false y ->
  (exists s, dround y = S754_zero s) \/ dround y = Infinity \/ (exists m e, dround y = S754_finite false m e /\ 0 <= e) \/
  exists z, 0 < z /\ dround y = of_Z z.
Proof.
  intros [-> |[(m & e & ->)| ->]]; [by left; exists false| |by right; left]. cbn [dround].
  destruct (Z.leb_spec 0 e) as [He|He]; [by right; right; left; exists m, e|]. unfold integral, signed.
  set (z := _ / _). assert (0 <= z) by (apply Z.div_pos; [lia|]; apply Z.pow_pos_nonneg; lia).
  destruct (Z.eqb_spec z 0); [by left; exists false|]. right; right; right. exists z. split; [lia|done].
Qed.

(** [Math.max(1, Math.min(64, Math.round(y)))] of a positive number is an integer from
    one to 64. *)
Lemma clamp_round y : rounded false y -> 1 <= to_Z (dmax (of_Z 1) (dmin (of_Z 64) (dround y))) <= 64.
Proof.
  intros Hy%dround_cases.
  assert (Hx : is_nan (dround y) = false /\ (dltb (dround y) (of_Z 64) = true -> dltb (of_Z 1) (dround y) = true -> 1 <= to_Z (dround y) <= 64)).
  { destruct Hy as [[s ->]|[->|[(m & e & -> & He)|(z & Hz & ->)]]].
    - split; [done|]. by destruct s.
    - split; [done|]. by vm_compute.
    - split; [done|]. by rewrite large_not_below.
    - split; [by eapply rounded_number, of_Z_nonneg, Z.lt_le_incl|]. destruct (Z.lt_ge_cases z (2 ^ 53)) as [Hs|Hl].
      + intros Hlt _. apply of_Z_below_64 in Hlt; [|lia]. rewrite to_Z_of_Z; lia.
      + pose proof (of_Z_large z Hl) as Hz'. pose proof (of_Z_nonneg z ltac:(lia)) as Hr. intros Hlt H1.
        destruct Hr as [Hr|[(m & e & Hr)|Hr]]; rewrite Hr in *; [by vm_compute in H1| |by vm_compute in Hlt].
        by rewrite large_not_below in Hlt. }
  destruct Hx as [Hn Hx]. set (x := dround y) in *. clearbody x.
  assert (Hmin : dmin (of_Z 64) x = x /\ dltb x (of_Z 64) = true \/ dmin (of_Z 64) x = of_Z 64).
  { unfold dmin. rewrite Hn. change (is_nan (of_Z 64)) with false. cbn [orb]. destruct (dltb x (of_Z 64)); [by left|]. right. by destruct x as [[]| | |]. }
  destruct Hmin as [[-> Hlt]| ->]; [|vm_compute; split; discriminate].
  unfold dmax. rewrite Hn. change (is_nan (of_Z 1)) with false. cbn [orb]. destruct (dltb (of_Z 1) x) eqn:E; [by apply Hx|].
  replace (match of_Z 1 with S754_zero _ => _ | _ => _ end) with (of_Z 1) by (by destruct x as [[]| | |]). vm_compute. split; discriminate.
Qed.

(** ** Sums and order of multiples of a power of two *)

(** The value [m * 2 ^ e]. *)
Definition dyad (m e : Z) : double := binary_normalize prec emax m e false.

(** Shifting zeros out loses nothing. *)
Lemma shr_zeros m n : SpecFloat.iter_pos shr_1 n {| shr_m := Z.pos (Pos.iter xO m n); shr_r := false; shr_s := false |} =
  {| shr_m := Z.pos m; shr_r := false; shr_s := false |}.
Proof.
  revert m. induction n as [n IH|n IH|]; intros m; [| |done].
  - cbn [SpecFloat.iter_pos Pos.iter shr_1 orb]. by rewrite !IH.
  - cbn [SpecFloat.iter_pos Pos.iter]. by rewrite !IH.
Qed.

Lemma round_zeros s m k P e : Z.pos (digits2_pos m) = 53 -> 0 <= k -> -1000 <= e + k <= 900 -> Z.pos P = Z.pos m * 2 ^ k ->
  binary_round prec emax s P e = S754_finite s m (e + k).
Proof.
  intros Hd Hk He HP. destruct k as [|n|n]; [| |lia].
  - assert (P = m) as -> by (apply Pos2Z.inj; lia). unfold binary_round. rewrite Hd, Z.add_0_r.
    assert (Hf : fexp prec emax (53 + e) = e) by (unfold fexp, emin, prec, emax; lia).
    rewrite Hf. unfold shl_align. rewrite Z.sub_diag. apply round_aux_exact; [done|lia].
  - assert (P = Pos.iter xO m n) as -> by (apply Pos2Z.inj; by rewrite HP, iter_xO).
    unfold binary_round. rewrite digits_shift, Pos2Z.inj_add, Hd.
    assert (Hf : fexp prec emax (53 + Z.pos n + e) = e + Z.pos n) by (unfold fexp, emin, prec, emax; lia).
    rewrite Hf. unfold shl_align. replace (e + Z.pos n - e) with (Z.pos n) by lia.
    unfold binary_round_aux, shr_fexp. cbn [Zdigits2]. rewrite digits_shift, Pos2Z.inj_add, Hd, Hf.
    replace (e + Z.pos n - e) with (Z.pos n) by lia. cbn [shr shr_record_of_loc]. rewrite shr_zeros.
    cbn [shr_m loc_of_shr_record round_nearest_even Zdigits2]. rewrite Hd.
    assert (Hf' : fexp prec emax (53 + (e + Z.pos n)) - (e + Z.pos n) = 0) by (unfold fexp, emin, prec, emax; lia).
    rewrite Hf'. cbn [shr shr_record_of_loc shr_m]. by rewrite (proj2 (Z.leb_le _ (emax - prec))) by (unfold emax, prec; lia).
Qed.

(** A positive dyad of at most 53 digits, with its mantissa filled up. *)
Lemma dyad_form m e : Z.pos m < 2 ^ 53 -> -900 <= e <= 800 -> exists m',
  dyad (Z.pos m) e = S754_finite false m' (Z.pos (digits2_pos m) + e - 53) /\
  Z.pos m' = Z.pos m * 2 ^ (53 - Z.pos (digits2_pos m)) /\ Z.pos (digits2_pos m') = 53.
Proof.
  intros Hm%digits_bound He. unfold dyad, binary_normalize, binary_round.
  assert (Hf : fexp prec emax (Z.pos (digits2_pos m) + e) = Z.pos (digits2_pos m) + e - 53) by (unfold fexp, emin, prec, emax; lia).
  rewrite Hf. unfold shl_align. destruct (_ - e) as [|d|d] eqn:Ed; [|lia|].
  - exists m. rewrite round_aux_exact by lia. replace (53 - _) with 0 by lia. rewrite Z.mul_1_r. split_and!; [|done|lia]. f_equal. lia.
  - exists (Pos.iter xO m d). rewrite round_aux_exact by (rewrite ?digits_shift; lia). split_and!; [done| |rewrite digits_shift; lia].
    rewrite iter_xO. do 2 f_equal. lia.
Qed.

Lemma dyad_scaled m k e : Z.pos m < 2 ^ 53 -> 0 <= k <= 100 -> -500 <= e <= 500 -> dyad (Z.pos m * 2 ^ k) (e - k) = dyad (Z.pos m) e.
Proof.
  intros Hm Hk He. destruct (dyad_form m e Hm ltac:(lia)) as (m' & -> & Hm' & Hd). pose proof (digits_bound m Hm) as Hb.
  assert (exists P, Z.pos P = Z.pos m * 2 ^ k) as (P & HP).
  { exists (Z.to_pos (Z.pos m * 2 ^ k)). apply Z2Pos.id. apply Z.mul_pos_pos; [done|]. apply Z.pow_pos_nonneg; lia. }
  rewrite <- HP. unfold dyad, binary_normalize. set (d := Z.pos (digits2_pos m)) in *. destruct (Z.le_gt_cases (53 - d) k) as [Hle|Hgt].
  - rewrite (round_zeros false m' (k - (53 - d))); [f_equal; lia|done|lia|lia|].
    rewrite HP, Hm', <- Z.mul_assoc, <- Z.pow_add_r by lia. do 2 f_equal. lia.
  - assert (HD : Z.pos (digits2_pos P) = d + k).
    { destruct k as [|n|n]; [|rewrite <- iter_xO in HP; injection HP as ->; rewrite digits_shift; lia|lia].
      assert (P = m) as -> by (apply Pos2Z.inj; lia). lia. }
    assert (Z.pos P < 2 ^ 53) as HP'.
    { rewrite digits_size in HD. pose proof (Pos.size_gt P) as Hs. apply Pos2Z.pos_lt_pos in Hs. rewrite Pos2Z.inj_pow, HD in Hs.
      pose proof (Z.pow_le_mono_r 2 (d + k) 53 ltac:(lia) ltac:(lia)). lia. }
    destruct (dyad_form P (e - k) HP' ltac:(lia)) as (P' & HE & HP2 & _). unfold dyad, binary_normalize in HE. rewrite HE, HD.
    f_equal; [|lia]. apply Pos2Z.inj. rewrite HP2, Hm', HP, HD, <- Z.mul_assoc, <- Z.pow_add_r by lia. do 2 f_equal. lia.
Qed.

Lemma shl_align_value m e e' : e' <= e -> Z.pos (shl_align m e e').1 = Z.pos m * 2 ^ (e - e').
Proof.
  intros He. unfold shl_align. destruct (e' - e) as [|d|d] eqn:Ed; [|lia|].
  - replace (e - e') with 0 by lia. cbn. lia.
  - cbn [fst]. rewrite iter_xO. do 2 f_equal. lia.
Qed.

Lemma digits_mono a b : (a <= b)%positive -> Z.pos (digits2_pos a) <= Z.pos (digits2_pos b).
Proof.
  intros Hab. rewrite !digits_size. pose proof (Pos.size_le a) as Ha. pose proof (Pos.size_gt b) as Hb.
  apply Pos2Z.pos_le_pos in Ha. apply Pos2Z.pos_lt_pos in Hb. rewrite Pos2Z.inj_pow in Ha, Hb. change (Z.pos a~0) with (2 * Z.pos a) in Ha.
  destruct (Z.le_gt_cases (Z.pos (Pos.size a)) (Z.pos (Pos.size b))) as [|Hgt]; [done|].
  pose proof (Z.pow_le_mono_r 2 (Z.pos (Pos.size b) + 1) (Z.pos (Pos.size a)) ltac:(lia) ltac:(lia)) as Hp. rewrite Z.pow_add_r in Hp by lia. lia.
Qed.

(** The exact sum is kept. *)
Lemma dadd_dyad a b e : 0 <= a -> 0 <= b -> a + b < 2 ^ 53 -> -500 <= e <= 500 -> dadd (dyad a e) (dyad b e) = dyad (a + b) e.
Proof.
  intros Ha Hb Hs He. destruct a as [|a|a]; [|destruct b as [|b|b]|lia]; [| | |lia].
  - destruct b as [|b|b]; [done| |lia]. destruct (dyad_form b e ltac:(lia) ltac:(lia)) as (b' & E & _). cbn [Z.add]. by rewrite E.
  - destruct (dyad_form a e ltac:(lia) ltac:(lia)) as (a' & E & _). rewrite Z.add_0_r. by rewrite E.
  - change (Z.pos a + Z.pos b) with (Z.pos (a + b)) in *.
    destruct (dyad_form a e ltac:(lia) ltac:(lia)) as (a' & -> & Ha' & _), (dyad_form b e ltac:(lia) ltac:(lia)) as (b' & -> & Hb' & _).
    destruct (dyad_form (a + b) e Hs ltac:(lia)) as (c & -> & Hc & Hd). pose proof (digits_bound a ltac:(lia)) as Hda. pose proof (digits_bound b ltac:(lia)) as Hdb.
    pose proof (digits_bound (a + b) Hs) as Hdc.
    pose proof (digits_mono a (a + b) ltac:(lia)) as Hl1. pose proof (digits_mono b (a + b) ltac:(lia)) as Hl2.
    set (da := Z.pos (digits2_pos a)) in *. set (db := Z.pos (digits2_pos b)) in *. set (dc := Z.pos (digits2_pos (a + b))) in *.
    cbn [dadd SFadd]. unfold dadd, SFadd. cbn [cond_Zopp]. set (ez := Z.min _ _). rewrite !shl_align_value by lia.
    assert (Hsum : Z.pos a' * 2 ^ (da + e - 53 - ez) + Z.pos b' * 2 ^ (db + e - 53 - ez) = Z.pos c * 2 ^ (dc + e - 53 - ez)).
    { rewrite Ha', Hb', Hc, <- !Z.mul_assoc, <- !Z.pow_add_r by lia.
      replace (53 - da + (da + e - 53 - ez)) with (e - ez) by lia. replace (53 - db + (db + e - 53 - ez)) with (e - ez) by lia.
      replace (53 - dc + (dc + e - 53 - ez)) with (e - ez) by lia. lia. }
    rewrite Hsum. assert (exists P, Z.pos P = Z.pos c * 2 ^ (dc + e - 53 - ez)) as (P & HP).
    { eexists (Z.to_pos _). apply Z2Pos.id. apply Z.mul_pos_pos; [done|]. apply Z.pow_pos_nonneg; lia. }
    rewrite <- HP. unfold binary_normalize. rewrite (round_zeros false c (dc + e - 53 - ez)); [f_equal; lia|done|lia|lia|done].
Qed.

Lemma dyad_nan m e : is_nan (dyad m e) = false.
Proof.
  unfold dyad, binary_normalize, binary_round. destruct m as [|m|m]; [done|..]; destruct (shl_align _ _ _); eapply rounded_number, round_aux_rounded; lia.
Qed.

Lemma dyad_le a b e : 0 <= a -> a <= b -> b < 2 ^ 53 -> -500 <= e <= 500 -> dleb (dyad a e) (dyad b e) = true.
Proof.
  intros Ha Hab Hb He. apply dleb_rank; [apply dyad_nan..|]. destruct a as [|a|a]; [|destruct b as [|b|b]; [lia| |lia]|lia].
  - destruct b as [|b|b]; [cbn; lia| |lia]. destruct (dyad_form b e ltac:(lia) ltac:(lia)) as (b' & -> & _). cbn. lia.
  - destruct (dyad_form a e ltac:(lia) ltac:(lia)) as (a' & -> & Ha' & _), (dyad_form b e ltac:(lia) ltac:(lia)) as (b' & -> & Hb' & _).
    cbn [rank rank_le]. right. split; [done|]. pose proof (digits_mono a b ltac:(lia)) as Hm.
    destruct (Z.le_gt_cases (Z.pos (digits2_pos b)) (Z.pos (digits2_pos a))) as [Hs|Hs]; [|lia].
    assert (Z.pos (digits2_pos a) = Z.pos (digits2_pos b)) as Hsz by lia. right. split; [lia|]. rewrite Ha', Hb', Hsz. apply Z.mul_le_mono_nonneg_r; [|lia].
    apply Z.pow_nonneg. lia.
Qed.

(** The order of the values. *)
Lemma dyad_leb a b e : 0 <= a < 2 ^ 53 -> 0 <= b < 2 ^ 53 -> -500 <= e <= 500 -> dleb (dyad a e) (dyad b e) = (a <=? b).
Proof.
  intros Ha Hb He. destruct (Z.leb_spec a b) as [Hle|Hgt]; [by apply dyad_le; lia|].
  pose proof (dyad_le b a e ltac:(lia) ltac:(lia) ltac:(lia) He) as Hba. apply not_true_iff_false. intros Hab.
  apply dleb_rank in Hab; [|apply dyad_nan..]. apply dleb_rank in Hba; [|apply dyad_nan..].
  destruct a as [|a|a]; [lia| |lia]. destruct (dyad_form a e ltac:(lia) ltac:(lia)) as (a' & Ea & Ha' & _). rewrite Ea in *.
  destruct b as [|b|b]; [by cbn in Hab; lia| |lia]. destruct (dyad_form b e ltac:(lia) ltac:(lia)) as (b' & Eb & Hb' & _). rewrite Eb in *.
  cbn [rank rank_le] in Hab, Hba. assert (Hsz : Z.pos (digits2_pos a) = Z.pos (digits2_pos b)) by lia. rewrite Hsz in Ha'.
  assert (Z.pos a' = Z.pos b') as Hm by lia. rewrite Ha', Hb' in Hm. apply Z.mul_reg_r in Hm; [lia|]. apply Z.pow_nonzero; [done|].
  pose proof (digits_bound b ltac:(lia)). lia.
Qed.
