(* ===== verification/Runner.v ===== *)
(** * The benchmark runner (runtime/benchmarks/runner.ts)

    The clock and the function that is measured are the environment: what the n-th
    reading of the clock gives, and what the n-th call returns.  The loops take fuel
    and return [None] when it runs out. *)

From S2P Require Import Prelude Text Double.
Local Open Scope Z_scope.

Record BenchOptions := {
  bo_name : string; bo_warmupMs : option Z; bo_measureMs : option Z; bo_minSamples : option Z; bo_maxSamples : option Z }.

Record BenchStats := { st_min : double; st_median : double; st_mean : double; st_p95 : double; st_p99 : double; st_stddev : double }.

Record BenchResult := {
  br_name : string; reliable : bool; samples : Z; total_ops : double; duration_ms : double; ops_per_second : double;
  ns_per_op : BenchStats; cv : double }.

(** ** Statistics *)

Definition percentile (sortedValues : list double) (p : double) : double :=
  match sortedValues with
  | [] => zero
  | _ =>
      let n := of_Z (Z.of_nat (length sortedValues)) in
      let index := dmax zero (dmin (n - of_Z 1)%D (dceil (n * p)%D - of_Z 1)%D) in
      default zero (sortedValues !! Z.to_nat (to_Z index))
  end.

(** [l.sort((a, b) => a - b)], which orders numbers as [<] does. *)
Definition sort_numbers (l : list double) : list double := sort_by dltb l.

(** The nanoseconds and the operations of one sample. *)
Definition sample : Type := double * double.

Definition NO_STATS : BenchStats :=
  {| st_min := zero; st_median := zero; st_mean := zero; st_p95 := zero; st_p99 := zero; st_stddev := zero |}.

(** What [bench] returns for its samples. *)
Definition report (name : string) (minSamples : Z) (l : list sample) (durationMs : double) : BenchResult :=
  match l with
  | [] => {| br_name := name; reliable := false; samples := 0; total_ops := zero; duration_ms := dround durationMs;
             ops_per_second := zero; ns_per_op := NO_STATS; cv := zero |}
  | _ =>
      let nsPerOp := map (fun s => s.1 / s.2)%D l in
      let sorted := sort_numbers nsPerOp in
      let n := of_Z (Z.of_nat (length l)) in
      let mean := (sum_of nsPerOp / n)%D in
      let variance := (sum_of (map (fun b => (b - mean) * (b - mean))%D nsPerOp) / n)%D in
      let stddev := dsqrt variance in
      let cv := if dltb zero mean then (stddev / mean)%D else zero in
      {| br_name := name; reliable := dltb cv (ratio 10 100) && (minSamples <=? Z.of_nat (length l));
         samples := Z.of_nat (length l); total_ops := sum_of (map snd l); duration_ms := dround durationMs;
         ops_per_second := (of_Z 1000000000 / mean)%D;
         ns_per_op := {| st_min := default zero (sorted !! 0%nat); st_median := percentile sorted (ratio 1 2); st_mean := mean;
           st_p95 := percentile sorted (ratio 95 100); st_p99 := percentile sorted (ratio 99 100); st_stddev := stddev |};
         cv := cv |}
  end.

(** ** The loops *)

Record Env := { clock : nat -> Z; calls : nat -> result double }.

(** [while (hrtime.bigint() < warmupEnd) await fn();]: the next reading and the next call. *)
Fixpoint warmup (fuel : nat) (e : Env) (warmupEnd : Z) (i k : nat) : option (result (nat * nat)) :=
  match fuel with
  | O => None
  | S fuel =>
      if clock e i <? warmupEnd
      then match calls e k with Throw x => Some (Throw x) | Ok _ => warmup fuel e warmupEnd (S i) (S k) end
      else Some (Ok (S i, k))
  end.

(** The samples, the readings and the calls so far; three readings in each round, of
    which the first is compared with the end. *)
Fixpoint measure (fuel : nat) (e : Env) (minSamples maxSamples measureEnd : Z) (i k : nat) (l : list sample) : option (result (list sample * nat * nat)) :=
  match fuel with
  | O => None
  | S fuel =>
      if Z.of_nat (length l) <? maxSamples then
        if (measureEnd <=? clock e i) && (minSamples <=? Z.of_nat (length l)) then Some (Ok (l, S i, k))
        else match calls e k with
             | Throw x => Some (Throw x)
             | Ok ops =>
                 let elapsedNs := of_Z (clock e (i + 2) - clock e (i + 1)) in
                 measure fuel e minSamples maxSamples measureEnd (i + 3) (S k)
                   (if dltb zero ops && dltb zero elapsedNs then l ++ [(elapsedNs, ops)] else l)
             end
      else Some (Ok (l, i, k))
  end.

(** [bench], with the number of calls it made. *)
Definition bench_run (fuel : nat) (e : Env) (o : BenchOptions) : option (result (BenchResult * nat)) :=
  let minSamples := default 10 (bo_minSamples o) in
  let warmupEnd := clock e 0 + default 200 (bo_warmupMs o) * 1000000 in
  match warmup fuel e warmupEnd 1 0 with
  | None => None
  | Some (Throw x) => Some (Throw x)
  | Some (Ok (i, k)) =>
      let measureEnd := clock e i + default 1000 (bo_measureMs o) * 1000000 in
      match measure fuel e minSamples (default 200 (bo_maxSamples o)) measureEnd (S i) k [] with
      | None => None
      | Some (Throw x) => Some (Throw x)
      | Some (Ok (l, j, k)) => Some (Ok (report (bo_name o) minSamples l (of_Z (clock e j - clock e i) / of_Z 1000000)%D, k))
      end
  end.

(** What becomes of a run that returned. *)
Definition returned {A B} (f : A -> B) (o : option (result A)) : option (result B) :=
  match o with Some (Ok a) => Some (Ok (f a)) | Some (Throw x) => Some (Throw x) | None => None end.

Definition bench (fuel : nat) (e : Env) (o : BenchOptions) : option (result BenchResult) := returned fst (bench_run fuel e o).

(** ** Lemmas *)

(** A number of samples that [measure] can stop at. *)
Definition enough (e : Env) (minSamples maxSamples measureEnd : Z) (l : list sample) : Prop :=
  maxSamples <= Z.of_nat (length l) \/ minSamples <= Z.of_nat (length l) /\ exists i, measureEnd <= clock e i.

Definition usable (s : sample) : Prop := (is_finite s.1 = true /\ dltb zero s.1 = true) /\ dltb zero s.2 = true.

(** No single interval of the clock is longer than the floats count exactly. *)
Definition short_steps (e : Env) : Prop := forall n, clock e (S n) - clock e n < 2 ^ 53.

Lemma elapsed_usable e i ops : short_steps e -> dltb zero ops && dltb zero (of_Z (clock e (S i) - clock e i)) = true ->
  usable (of_Z (clock e (S i) - clock e i), ops).
Proof.
  intros He Hv. bool_solve. destruct (Z.le_gt_cases (clock e (S i) - clock e i) 0) as [Hz|Hz].
  - rewrite of_Z_not_positive in H0 by done. done.
  - split; [|done]. apply of_Z_positive. specialize (He i). cbn. lia.
Qed.

Lemma measure_samples fuel e minS maxS mEnd i k l l' j k' : measure fuel e minS maxS mEnd i k l = Some (Ok (l', j, k')) ->
  short_steps e -> Forall usable l -> Z.of_nat (length l) <= Z.max 0 maxS ->
  Forall usable l' /\ enough e minS maxS mEnd l' /\ Z.of_nat (length l') <= Z.max 0 maxS.
Proof.
  intros Hk He. revert i k l Hk. induction fuel as [|fuel IH]; intros i k l; cbn [measure]; [done|].
  destruct (Z.ltb_spec (Z.of_nat (length l)) maxS) as [Hl|Hl].
  - destruct (_ && _) eqn:Eb.
    + intros [= <- <- _] Hu Hm. bool_solve. split_and!; [done|right; split; [lia|exists i; lia]|lia].
    + destruct (calls e k) as [ops|]; [|done]. replace (i + 2)%nat with (S (i + 1)) by lia. intros Hk Hu Hm.
      eapply IH; [exact Hk|..]; destruct (dltb zero ops && _) eqn:Ev; try done.
      * apply Forall_app. split; [done|]. constructor; [by apply elapsed_usable|done].
      * rewrite length_app. cbn. lia.
  - intros [= <- <- _] Hu Hm. split_and!; [done|left; lia|lia].
Qed.

(** The first [n] calls all count. *)
Definition calls_count (e : Env) (n : nat) : Prop := forall k, (k < n)%nat -> exists ops, calls e k = Ok ops /\ dltb zero ops = true.

(** When every call counts, one round for each sample is enough. *)
Lemma measure_returns fuel e minS maxS mEnd i k l B : calls_count e B -> (k + Z.to_nat (maxS - Z.of_nat (length l)) <= B)%nat ->
  (forall n, 0 < clock e (S n) - clock e n < 2 ^ 53) -> Z.max 0 (maxS - Z.of_nat (length l)) < Z.of_nat fuel ->
  exists l' j k', measure fuel e minS maxS mEnd i k l = Some (Ok (l', j, k')) /\ (k' <= k + Z.to_nat (maxS - Z.of_nat (length l)))%nat.
Proof.
  intros Hc HB Ht. revert i k l HB. induction fuel as [|fuel IH]; intros i k l HB Hf; cbn [measure]; [lia|].
  destruct (Z.ltb_spec (Z.of_nat (length l)) maxS) as [Hl|Hl]; [|eexists _, _, _; split; [reflexivity|lia]].
  destruct (_ && _); [eexists _, _, _; split; [reflexivity|lia]|]. destruct (Hc k) as (ops & -> & Hops); [lia|].
  replace (i + 2)%nat with (S (i + 1)) by lia. rewrite Hops, (proj2 (of_Z_positive _ (Ht (i + 1)%nat))). cbn [andb].
  match goal with |- context [measure _ _ _ _ _ ?i' _ ?l'] => destruct (IH i' (S k) l') as (l2 & j & k2 & -> & Hk) end;
    [rewrite length_app; cbn; lia..|]. eexists _, _, _. split; [reflexivity|]. rewrite length_app in Hk. cbn in Hk. lia.
Qed.

(** The warmup ends when the clock has advanced far enough. *)
Lemma warmup_returns e wEnd i k fuel B : calls_count e B -> (k + Z.to_nat (wEnd - clock e i) <= B)%nat ->
  (forall n, 0 < clock e (S n) - clock e n) -> wEnd - clock e i < Z.of_nat fuel -> (0 < fuel)%nat ->
  exists i' k', warmup fuel e wEnd i k = Some (Ok (i', k')) /\ (k' <= k + Z.to_nat (wEnd - clock e i))%nat.
Proof.
  intros Hc HB Ht. revert i k HB. induction fuel as [|fuel IH]; intros i k HB Hf H0; cbn [warmup]; [lia|].
  destruct (Z.ltb_spec (clock e i) wEnd) as [Hl|Hl]; [|eexists _, _; split; [reflexivity|lia]]. destruct (Hc k) as (ops & -> & _); [lia|].
  specialize (Ht i). destruct (IH (S i) (S k)) as (i' & k' & -> & Hk); [lia..|]. eexists _, _. split; [reflexivity|lia].
Qed.

(** When no call counts, the loop never has a sample. *)
Lemma measure_stuck fuel e minS maxS mEnd i k : (forall n, exists ops, calls e n = Ok ops /\ dltb zero ops = false) ->
  0 < minS -> 0 < maxS -> measure fuel e minS maxS mEnd i k [] = None.
Proof.
  intros Hc Hmin Hmax. revert i k. induction fuel as [|fuel IH]; intros i k; cbn [measure]; [done|].
  change (Z.of_nat (length (@nil sample))) with 0. rewrite (proj2 (Z.ltb_lt 0 maxS)) by done. rewrite (proj2 (Z.leb_gt minS 0)) by done. rewrite andb_false_r.
  destruct (Hc k) as (ops & -> & ->). cbn [andb]. apply IH.
Qed.

(** More fuel changes nothing. *)
Lemma warmup_more fuel fuel' e wEnd i k r : (fuel <= fuel')%nat -> warmup fuel e wEnd i k = Some r -> warmup fuel' e wEnd i k = Some r.
Proof.
  revert fuel' i k. induction fuel as [|fuel IH]; intros [|fuel'] i k Hf; cbn [warmup]; try done; [lia|].
  destruct (_ <? _); [|done]. destruct (calls e k); [|done]. apply IH. lia.
Qed.

(** The calls that a run of [bench] may make. *)
Definition call_bound (o : BenchOptions) : nat :=
  (Z.to_nat (default 200%Z (bo_warmupMs o) * 1000000) + Z.to_nat (default 200%Z (bo_maxSamples o)))%nat.

Lemma bench_returns_within e o : calls_count e (call_bound o) -> (forall n, 0 < clock e (S n) - clock e n < 2 ^ 53) ->
  exists fuel r k, bench_run fuel e o = Some (Ok (r, k)) /\ (k <= call_bound o)%nat.
Proof.
  intros Hc Ht. unfold bench_run. set (wEnd := clock e 0 + _). pose proof (Ht 0%nat) as H0.
  destruct (warmup_returns e wEnd 1 0 (S (Z.to_nat (wEnd - clock e 1))) _ Hc) as (i & k & Hw & Hk); [unfold call_bound; lia|apply Ht|lia|lia|].
  set (maxS := default 200 (bo_maxSamples o)). set (fuel := (S (Z.to_nat (wEnd - clock e 1)) + S (Z.to_nat maxS))%nat). exists fuel.
  rewrite (warmup_more (S (Z.to_nat (wEnd - clock e 1))) fuel _ _ _ _ _ ltac:(unfold fuel; lia) Hw).
  destruct (measure_returns fuel e (default 10 (bo_minSamples o)) maxS (clock e i + default 1000 (bo_measureMs o) * 1000000) (S i) k [] _ Hc)
    as (l & j & k' & -> & Hk'); [change (Z.of_nat (length (@nil sample))) with 0; unfold call_bound; fold maxS; lia|apply Ht|
      unfold fuel; change (Z.of_nat (length (@nil sample))) with 0; lia|].
  eexists _, _. split; [reflexivity|]. change (Z.of_nat (length (@nil sample))) with 0 in Hk'. unfold call_bound. fold maxS. lia.
Qed.

Lemma warmup_quiet fuel e wEnd i k x : (forall n, exists ops, calls e n = Ok ops) -> warmup fuel e wEnd i k <> Some (Throw x).
Proof.
  intros Hc. revert i k. induction fuel as [|fuel IH]; intros i k; cbn [warmup]; [done|]. destruct (_ <? _); [|done].
  destruct (Hc k) as [ops ->]. apply IH.
Qed.

(** *** Sorted numbers *)

Notation number a := (is_nan a = false).

Lemma sort_numbers_sorted l : Forall (fun a => number a) l -> StronglySorted (fun a b => dleb a b = true) (sort_numbers l).
Proof.
  unfold sort_numbers. induction 1 as [|x l Hx Hl IH]; cbn [sort_by]; [constructor|].
  assert (Hs : Forall (fun a => number a) (sort_by dltb l)) by (by rewrite sort_by_perm). revert IH Hs.
  generalize (sort_by dltb l) as s. induction s as [|y s IHs]; intros IH Hs; cbn [sort_insert]; [by repeat constructor|].
  apply Forall_cons in Hs as [Hy Hs]. apply StronglySorted_inv in IH as [Hss Hall]. rewrite dltb_dleb by done.
  destruct (dleb x y) eqn:E; cbn [negb].
  - constructor; [by constructor|]. constructor; [done|]. rewrite Forall_forall in Hall, Hs |- *. intros z Hz.
    apply (dleb_trans x y z); auto.
  - constructor; [by apply IHs|]. rewrite sort_insert_perm. constructor; [|done].
    assert (Hd : dltb y x = true) by (by rewrite dltb_dleb, E). rewrite dltb_rank in Hd by done. rewrite dleb_rank by done.
    destruct (rank_total (rank y) (rank x)); done.
Qed.

Lemma sorted_lookup (l : list double) i j a b : StronglySorted (fun a b => dleb a b = true) l -> Forall (fun a => number a) l -> (i <= j)%nat ->
  l !! i = Some a -> l !! j = Some b -> dleb a b = true.
Proof.
  intros Hs Hn. revert i j. induction Hs as [|x l Hs IH Hall]; intros i j Hij Hi Hj; [done|].
  apply Forall_cons in Hn as [Hx Hn]. destruct i as [|i], j as [|j]; cbn in Hi, Hj; try lia.
  - simplify_eq. by apply dleb_refl.
  - simplify_eq. rewrite Forall_forall in Hall. apply Hall. by eapply list_elem_of_lookup_2.
  - apply (IH Hn i j); [lia|done|done].
Qed.

(** *** Percentiles *)

(** The position that [percentile] reads, for the fraction [n / d] of [len] values. *)
Definition position (len n d : Z) : Z :=
  to_Z (dmax zero (dmin (of_Z len - of_Z 1)%D (dceil (of_Z len * ratio n d)%D - of_Z 1)%D)).

(** The nearest rank: the number of values that make up the fraction, rounded up. *)
Definition nearest_rank (len n d : Z) : Z := - (- (len * n) / d).

Lemma rank_order len : 1 <= len ->
  1 <= nearest_rank len 1 2 <= nearest_rank len 95 100 /\ nearest_rank len 95 100 <= nearest_rank len 99 100.
Proof. unfold nearest_rank. intros Hl. Z.to_euclidean_division_equations. lia. Qed.

Lemma position_rank len n d : (n, d) ∈ [(1, 2); (95, 100); (99, 100)] -> 1 <= len <= 1000 ->
  position len n d = nearest_rank len n d - 1 /\ 0 <= position len n d < len.
Proof.
  intros Hn Hl. pose (ok := fun z => (position (z + 1) n d =? nearest_rank (z + 1) n d - 1) && (0 <=? position (z + 1) n d) && (position (z + 1) n d <? z + 1)).
  assert (Hok : forallb ok (seqZ 0 1000) = true).
  { subst ok. rewrite !elem_of_cons in Hn. destruct Hn as [[= -> ->]|[[= -> ->]|[[= -> ->]|Hn]]]; [vm_compute; reflexivity..|by apply elem_of_nil in Hn]. }
  pose proof (forallb_range _ _ Hok (len - 1) ltac:(lia)) as Hz. subst ok. cbv beta in Hz. replace (len - 1 + 1) with len in Hz by lia.
  bool_solve. lia.
Qed.

Lemma percentile_rank l n d : (n, d) ∈ [(1, 2); (95, 100); (99, 100)] -> 1 <= Z.of_nat (length l) <= 1000 ->
  l !! Z.to_nat (nearest_rank (Z.of_nat (length l)) n d - 1) = Some (percentile l (ratio n d)).
Proof.
  intros Hn Hl. destruct (position_rank _ _ _ Hn Hl) as [Hp Hr]. destruct l as [|x l]; [cbn in Hl; lia|]. unfold percentile.
  fold (position (Z.of_nat (length (x :: l))) n d). rewrite <- Hp.
  destruct (lookup_lt_is_Some_2 (x :: l) (Z.to_nat (position (Z.of_nat (length (x :: l))) n d))) as [v Hv]; [lia|]. by rewrite Hv.
Qed.

(** The values of the samples are numbers. *)
Lemma usable_numbers l : Forall usable l -> Forall (fun a => number a) (map (fun s => s.1 / s.2)%D l).
Proof.
  intros Hl. rewrite Forall_map. eapply Forall_impl; [exact Hl|]. intros [ns ops] [[Hf Hn] Ho]. cbn in *.
  eapply rounded_number, ddiv_rounded; done.
Qed.

Lemma bench_report fuel e o r : bench fuel e o = Some (Ok r) -> short_steps e ->
  exists l mEnd d, r = report (bo_name o) (default 10 (bo_minSamples o)) l d /\ Forall usable l /\
    enough e (default 10 (bo_minSamples o)) (default 200 (bo_maxSamples o)) mEnd l /\
    Z.of_nat (length l) <= Z.max 0 (default 200 (bo_maxSamples o)).
Proof.
  unfold bench, bench_run. destruct (warmup _ _ _ _ _) as [[[i k]|]|]; try done. destruct (measure _ _ _ _ _ _ _ _) as [[[[l j] k']|]|] eqn:Em; try done.
  intros [= <-] He. apply measure_samples in Em as (Hu & Hen & Hm); [|done|constructor|cbn; lia]. eauto 10.
Qed.

(** ** Properties *)

(** What [bench] reports is about its samples: each took a positive time for a positive
    number of operations; there are at most [maxSamples], and at least [minSamples]
    unless [maxSamples] is smaller; of up to 1000 samples the minimum, the median and
    the percentiles are the nearest ranks of the sorted times per operation, in this
    order; and [reliable] means that the coefficient of variation is below a tenth and
    that there are enough samples. *)
Theorem bench_statistics (fuel : nat) (e : Env) (o : BenchOptions) (r : BenchResult) :
  bench fuel e o = Some (Ok r) -> short_steps e ->
  let minS := default 10 (bo_minSamples o) in let maxS := default 200 (bo_maxSamples o) in
  exists l, Forall usable l /\ samples r = Z.of_nat (length l) /\ Z.min minS maxS <= samples r <= Z.max 0 maxS /\
    (reliable r = true -> minS <= samples r /\ dltb (cv r) (ratio 10 100) = true) /\
    (1 <= samples r <= 1000 ->
     let sorted := sort_numbers (map (fun s => s.1 / s.2)%D l) in let st := ns_per_op r in
     let rank n d := sorted !! Z.to_nat (nearest_rank (samples r) n d - 1) in
     sorted !! 0%nat = Some (st_min st) /\ rank 1 2 = Some (st_median st) /\ rank 95 100 = Some (st_p95 st) /\ rank 99 100 = Some (st_p99 st) /\
     dleb (st_min st) (st_median st) = true /\ dleb (st_median st) (st_p95 st) = true /\ dleb (st_p95 st) (st_p99 st) = true).
Proof.
  intros Hb He. cbv zeta. destruct (bench_report _ _ _ _ Hb He) as (l & mEnd & d & -> & Hu & Hen & Hm).
  set (minS := default 10 (bo_minSamples o)) in *. set (maxS := default 200 (bo_maxSamples o)) in *.
  exists l. split; [done|]. assert (Hs : samples (report (bo_name o) minS l d) = Z.of_nat (length l)) by (by destruct l). rewrite Hs.
  split; [done|]. split; [destruct Hen as [|[]]; lia|]. split; [destruct l; [done|]; cbn; intros Hr; bool_solve; split; [lia|done]|].
  set (r := report _ _ _ _) in *.
  intros Hl. set (sorted := sort_numbers _). set (st := ns_per_op r). set (rank := fun n d => sorted !! Z.to_nat (nearest_rank (Z.of_nat (length l)) n d - 1)). pose proof (usable_numbers l Hu) as Hn. pose proof (sort_numbers_sorted _ Hn) as Hss.
  assert (Hlen : length sorted = length l) by (subst sorted; unfold sort_numbers; by rewrite sort_by_perm, length_map).
  assert (Hns : Forall (fun a => number a) sorted) by (subst sorted; unfold sort_numbers; by rewrite sort_by_perm).
  assert (Hst : st_median st = percentile sorted (ratio 1 2) /\ st_p95 st = percentile sorted (ratio 95 100) /\
    st_p99 st = percentile sorted (ratio 99 100) /\ sorted !! 0%nat = Some (st_min st)).
  { destruct (lookup_lt_is_Some_2 sorted 0) as [v Hv]; [lia|]. subst st r sorted. destruct l as [|x l]; [cbn in Hl; lia|].
    cbn [report ns_per_op st_min st_median st_p95 st_p99]. by rewrite Hv. }
  destruct Hst as (-> & -> & -> & H0).
  assert (Hr : forall n d, (n, d) ∈ [(1, 2); (95, 100); (99, 100)] -> rank n d = Some (percentile sorted (ratio n d))).
  { intros n d' Hnd. subst rank. cbv beta. rewrite <- Hlen. apply percentile_rank; [done|lia]. }
  pose proof (Hr 1 2 ltac:(set_solver)) as R1. pose proof (Hr 95 100 ltac:(set_solver)) as R2. pose proof (Hr 99 100 ltac:(set_solver)) as R3.
  split_and!; try done; (eapply sorted_lookup; [exact Hss|exact Hns| |first [exact H0|exact R1|exact R2]|first [exact R1|exact R2|exact R3]]);
    pose proof (rank_order (Z.of_nat (length l)) (proj1 Hl)); lia.
Qed.

(** A benchmark whose every call counts ends with a result, whatever its options, once
    the clock advances with each reading. *)
Theorem bench_returns (e : Env) (o : BenchOptions) :
  (forall n, exists ops, calls e n = Ok ops /\ dltb zero ops = true) -> (forall n, 0 < clock e (S n) - clock e n < 2 ^ 53) ->
  exists fuel r, bench fuel e o = Some (Ok r).
Proof.
  intros Hc Ht. destruct (bench_returns_within e o) as (fuel & r & k & Hr & _); [by intros n _|done|].
  exists fuel, r. unfold bench. by rewrite Hr.
Qed.

(** A finding: a benchmark no call of which counts never returns, so the result that
    [bench] has ready for the case of no sample is never given, unless the options ask
    for no sample. *)
Theorem bench_never_empty (e : Env) (o : BenchOptions) :
  0 < default 10 (bo_minSamples o) -> 0 < default 200 (bo_maxSamples o) ->
  ((forall n, exists ops, calls e n = Ok ops /\ dltb zero ops = false) -> forall fuel, bench fuel e o = None) /\
  (short_steps e -> forall fuel r, bench fuel e o = Some (Ok r) -> 0 < samples r).
Proof.
  intros Hmin Hmax. split.
  - intros Hc fuel. unfold bench, bench_run.
    destruct (warmup fuel e _ 1 0) as [[[i k]|x]|] eqn:Ew; [by rewrite measure_stuck| |done]. apply warmup_quiet in Ew; [done|].
    intros n. destruct (Hc n) as (ops & Hn & _). by exists ops.
  - intros He fuel r Hb. destruct (bench_report _ _ _ _ Hb He) as (l & mEnd & d & -> & _ & Hen & _).
    assert (Hs : samples (report (bo_name o) (default 10 (bo_minSamples o)) l d) = Z.of_nat (length l)) by (by destruct l). rewrite Hs.
    destruct Hen as [|[]]; lia.
Qed.

(** ** A concrete run *)

Module RunnerDemo.
(** A clock that advances by a millisecond with each reading. *)
Definition env : Env := {| clock := fun n => Z.of_nat n * 1000000; calls := fun _ => Ok (of_Z 4) |}.
Definition idle : Env := {| clock := fun n => Z.of_nat n * 1000000; calls := fun _ => Ok zero |}.
Definition options : BenchOptions :=
  {| bo_name := "demo"; bo_warmupMs := Some 3; bo_measureMs := Some 20; bo_minSamples := None; bo_maxSamples := Some 12 |}.
Definition result : BenchResult :=
  match bench 30 env options with Some (Ok r) => r | _ => report "" 0 [] zero end.
End RunnerDemo.

Lemma env_advances n : 0 < clock RunnerDemo.env (S n) - clock RunnerDemo.env n < 2 ^ 53.
Proof. cbn [clock RunnerDemo.env]. lia. Qed.

Example demo_result : samples RunnerDemo.result = 10 /\ reliable RunnerDemo.result = true /\ st_median (ns_per_op RunnerDemo.result) = of_Z 250000.
Proof. vm_compute. done. Qed.

Lemma bench_statistics_witness : dleb (st_min (ns_per_op RunnerDemo.result)) (st_median (ns_per_op RunnerDemo.result)) = true.
Proof.
  destruct (bench_statistics 30 RunnerDemo.env RunnerDemo.options RunnerDemo.result ltac:(vm_compute; reflexivity)
    (fun n => proj2 (env_advances n))) as (l & _ & _ & _ & _ & Hs). apply Hs. vm_compute. split; discriminate.
Defined.

Lemma bench_returns_witness : exists fuel r, bench fuel RunnerDemo.env RunnerDemo.options = Some (Ok r).
Proof. apply (bench_returns RunnerDemo.env RunnerDemo.options); [intros n; by exists (of_Z 4)|exact env_advances]. Defined.

Lemma bench_never_empty_witness : forall fuel, bench fuel RunnerDemo.idle RunnerDemo.options = None.
Proof. apply (bench_never_empty RunnerDemo.idle RunnerDemo.options); [done|done|]. intros n. by exists zero. Defined.
