(* ===== verification/Suites.v ===== *)
(** * The suites that measure one primitive (runtime/benchmarks/suites:
    cpu-hash.ts, crypto-aead.ts, ed25519.ts, session-derive.ts, encode.ts, memory.ts,
    event-loop.ts)

    Each measures a function that it runs in a loop.  The clock of each call of
    [bench] and the random bytes are arguments; fuel is that of [Runner.bench]. *)

From S2P Require Import Prelude Text Json JsonText Base64 Crypto Dedupe Frames SecureChannel Double Runner.
Local Open Scope Z_scope.

(** ** Running benchmarks one after the other *)

(** What [bench] is called with: its options, what the function returns each time, and
    the readings of the clock. *)
Record Run := { rn_options : BenchOptions; rn_call : result double; rn_clock : nat -> Z }.
Definition run_bench (fuel : nat) (r : Run) : option (result BenchResult) :=
  bench fuel {| clock := rn_clock r; calls := fun _ => rn_call r |} (rn_options r).

Fixpoint bench_all (fuel : nat) (l : list Run) : option (result (list BenchResult)) :=
  match l with
  | [] => Some (Ok [])
  | r :: l =>
      match run_bench fuel r with
      | None => None
      | Some (Throw x) => Some (Throw x)
      | Some (Ok b) =>
          match bench_all fuel l with
          | Some (Ok bs) => Some (Ok (b :: bs))
          | rest => rest
          end
      end
  end.

Definition named (name : string) : BenchOptions :=
  {| bo_name := name; bo_warmupMs := None; bo_measureMs := None; bo_minSamples := None; bo_maxSamples := None |}.
(** [{ name, ...opts }] for the options with two members. *)
Definition with_times (name : string) (warmupMs measureMs : option Z) : BenchOptions :=
  {| bo_name := name; bo_warmupMs := warmupMs; bo_measureMs := measureMs; bo_minSamples := None; bo_maxSamples := None |}.

(** [for (let i = 0; i < n; i++) body]. *)
Fixpoint repeat_body (n : nat) (body : result unit) : result unit :=
  match n with O => Ok tt | S n => body;; repeat_body n body end.

(** [table[sz] ?? d]. *)
Definition inner_of (table : list (Z * Z)) (d sz : Z) : Z :=
  default d ((fun x => x.2.2) <$> list_find (fun kv => kv.1 = sz) table).

(** ** The result of a suite over sizes *)

Record SubResult := { sr_bench : BenchResult; sr_size : Z; sr_rate : double }.
Record SuiteResult := { su_results : list SubResult; su_headline : option SubResult; su_reliable : bool }.

(** [sub.find((r) => r.size === size) ?? sub[0]] and [sub.every((r) => r.reliable)]. *)
Definition suite (headline : Z) (sub : list SubResult) : SuiteResult :=
  {| su_results := sub;
     su_headline := match snd <$> list_find (fun r => sr_size r = headline) sub with Some r => Some r | None => head sub end;
     su_reliable := forallb (fun r => reliable (sr_bench r)) sub |}.

(** Each size with the factor by which operations become a rate. *)
Definition subs (factor : Z -> Z) (sizes : list Z) (bs : list BenchResult) : list SubResult :=
  zip_with (fun sz b => {| sr_bench := b; sr_size := sz; sr_rate := (of_Z (factor sz) * ops_per_second b)%D |}) sizes bs.

(** ** cpu-hash.ts *)

Definition HASH_SIZES : list Z := [64; 1024; 16384].
Definition hash_inner : Z -> Z := inner_of [(64, 5000); (1024, 1000); (16384, 100)] 100.
(** Hashing does not fail, and its value is dropped. *)
Definition hash_call (sz : Z) : result double := repeat_body (Z.to_nat (hash_inner sz)) (Ok tt);; Ok (of_Z (hash_inner sz)).
Definition runCpuHash (fuel : nat) (clocks : Z -> nat -> Z) : option (result SuiteResult) :=
  returned (fun bs => suite 1024 (subs id HASH_SIZES bs))
    (bench_all fuel (map (fun sz => {| rn_options := named ("sha256-" +:+ dec sz +:+ "B"); rn_call := hash_call sz; rn_clock := clocks sz |}) HASH_SIZES)).

(** ** memory.ts *)

Definition SIZES_MB : list Z := [1; 16; 64].
Definition memory_options (mb : Z) : BenchOptions :=
  {| bo_name := "mem-copy-" +:+ dec mb +:+ "MB"; bo_warmupMs := None; bo_measureMs := Some 500; bo_minSamples := None; bo_maxSamples := None |}.
(** A copy reads and writes [mb] megabytes; sizes are in megabytes. *)
Definition runMemory (fuel : nat) (clocks : Z -> nat -> Z) : option (result SuiteResult) :=
  returned (fun bs => suite 16 (subs (fun mb => 2 * (mb * 1024 * 1024)) SIZES_MB bs))
    (bench_all fuel (map (fun mb => {| rn_options := memory_options mb; rn_call := Ok (of_Z 1); rn_clock := clocks mb |}) SIZES_MB)).

(** ** event-loop.ts *)

Definition runEventLoop (fuel : nat) (clock : nat -> Z) : option (result BenchResult) :=
  run_bench fuel {| rn_options := {| bo_name := "event-loop"; bo_warmupMs := None; bo_measureMs := Some 500; bo_minSamples := None;
                                     bo_maxSamples := Some 1000 |};
                    rn_call := Ok (of_Z 1); rn_clock := clock |}.

(** ** encode.ts *)

Definition ENCODE_SIZES : list Z := [1024; 16384; 262144].
Definition encode_inner : Z -> Z := inner_of [(1024, 400); (16384, 60); (262144, 6)] 50.
Definition encode_json (sz : Z) (b : buffer) : json :=
  obj [("type", Some (JStr "proxy_response")); ("status", Some (JNum (num_of_Z 200))); ("status_text", Some (JStr "OK"));
       ("headers", Some (strings_json [("content-type", "application/json"); ("content-length", dec sz); ("server", "upstream/1.0")]));
       ("body", Some (JStr (toBase64 b))); ("body_encoding", Some (JStr "base64"))].
Definition encode_call (body : Z -> buffer) (sz : Z) : result double :=
  repeat_body (Z.to_nat (encode_inner sz))
    (throw_if (bool_decide (stringify (encode_json sz (body sz)) = "")) (PlainError "encode produced empty output"));;
  Ok (of_Z (encode_inner sz)).
Definition runEncode (fuel : nat) (clocks : Z -> nat -> Z) (body : Z -> buffer) (warmupMs measureMs : option Z) : option (result SuiteResult) :=
  returned (fun bs => suite 16384 (subs id ENCODE_SIZES bs))
    (bench_all fuel (map (fun sz => {| rn_options := with_times ("encode-" +:+ dec sz) warmupMs measureMs; rn_call := encode_call body sz;
                                       rn_clock := clocks sz |}) ENCODE_SIZES)).

Section Suites.
Context `{Hashing} `{Hkdf} `{KeyExchange} `{Signing} `{Aead}.

(** ** crypto-aead.ts *)

Definition AEAD_SIZES : list Z := [64; 1024; 16384].
Definition aead_inner : Z -> Z := inner_of [(64, 2000); (1024, 500); (16384, 50)] 100.
Definition aead_round (key nonce aad payload : buffer) : result unit :=
  let sealed := aead_encrypt key nonce aad payload in
  opened ← of_option (aead_decrypt key nonce aad sealed) InvalidTag;
  throw_if (negb (length opened =? length payload)%nat) (PlainError "AEAD round-trip verification failed").
Definition aead_call (key : buffer) (payload : Z -> buffer) (sz : Z) : result double :=
  repeat_body (Z.to_nat (aead_inner sz)) (aead_round key (replicate 12 (byte_of_Z 0)) (utf8 "consensus-node-bench-v2") (payload sz));; Ok (of_Z (aead_inner sz)).
(** The rates one way and both ways. *)
Definition runCryptoAead (fuel : nat) (clocks : Z -> nat -> Z) (key : buffer) (payload : Z -> buffer) : option (result (SuiteResult * SuiteResult)) :=
  returned (fun bs => (suite 1024 (subs id AEAD_SIZES bs), suite 1024 (subs (fun sz => 2 * sz) AEAD_SIZES bs)))
    (bench_all fuel (map (fun sz => {| rn_options := named ("chacha20poly1305-" +:+ dec sz +:+ "B"); rn_call := aead_call key payload sz;
                                       rn_clock := clocks sz |}) AEAD_SIZES)).

(** ** ed25519.ts *)

Definition ED_INNER : Z := 128.
Record Ed25519Result := { ed_sign : BenchResult; ed_verify : BenchResult; sign_per_second : double; verify_per_second : double; ed_reliable : bool }.
Definition ed_sign_call : result double := repeat_body (Z.to_nat ED_INNER) (Ok tt);; Ok (of_Z ED_INNER).
Definition ed_verify_call (sk : SecretKey) (message : buffer) : result double :=
  let signature := sign sk message in
  repeat_body (Z.to_nat ED_INNER) (throw_if (negb (verify (public_of sk) message signature)) (PlainError "ed25519 verify failed"));; Ok (of_Z ED_INNER).
Definition runEd25519 (fuel : nat) (clock1 clock2 : nat -> Z) (sk : SecretKey) (message : buffer) (warmupMs measureMs : option Z)
  : option (result Ed25519Result) :=
  match run_bench fuel {| rn_options := with_times "ed25519-sign" warmupMs measureMs; rn_call := ed_sign_call; rn_clock := clock1 |} with
  | None => None
  | Some (Throw x) => Some (Throw x)
  | Some (Ok s) =>
      returned (fun v => {| ed_sign := s; ed_verify := v; sign_per_second := dround (ops_per_second s); verify_per_second := dround (ops_per_second v);
                            ed_reliable := reliable s && reliable v |})
        (run_bench fuel {| rn_options := with_times "ed25519-verify" warmupMs measureMs; rn_call := ed_verify_call sk message; rn_clock := clock2 |})
  end.

(** ** session-derive.ts *)

(** [peer]: the key pair of the client; [local]: the one of each call, all alike here. *)
Definition derive_call (peer local : DhSecret) (clientNonce serverNonce : buffer) : result double :=
  deriveSecureSession {| di_role := Server; di_privateKey := local; di_peerPublicKeyRaw := dh_public peer; di_clientNonce := clientNonce;
    di_serverNonce := serverNonce; di_transcriptHash := None |};;
  Ok (of_Z 1).
Definition runSessionDerive (fuel : nat) (clock : nat -> Z) (peer local : DhSecret) (clientNonce serverNonce : buffer) (warmupMs measureMs : option Z)
  : option (result (BenchResult * double)) :=
  returned (fun b => (b, dround (ops_per_second b)))
    (run_bench fuel {| rn_options := with_times "session-derive" warmupMs (Some (default 800 measureMs));
                       rn_call := derive_call peer local clientNonce serverNonce; rn_clock := clock |}).
End Suites.

(** ** Lemmas *)

Lemma repeat_ok n body : body = Ok tt -> repeat_body n body = Ok tt.
Proof. intros ->. by induction n. Qed.

Definition advances (clock : nat -> Z) : Prop := forall n, 0 < clock (S n) - clock n < 2 ^ 53.
(** A call that counts. *)
Definition counts (call : result double) : Prop := exists ops, call = Ok ops /\ dltb zero ops = true.

Lemma counts_intro (body : result unit) z : body = Ok tt -> dltb zero (of_Z z) = true -> counts (body;; Ok (of_Z z)).
Proof. intros -> Hz. by exists (of_Z z). Qed.

(** More fuel changes nothing. *)
Lemma measure_more fuel fuel' e minS maxS mEnd i k l r : (fuel <= fuel')%nat ->
  measure fuel e minS maxS mEnd i k l = Some r -> measure fuel' e minS maxS mEnd i k l = Some r.
Proof.
  revert fuel' i k l. induction fuel as [|fuel IH]; intros [|fuel'] i k l Hf; cbn [measure]; try done; [lia|].
  destruct (_ <? _); [|done]. destruct (_ && _); [done|]. destruct (calls e k); [|done]. apply IH. lia.
Qed.

Lemma bench_run_more fuel fuel' e o r : (fuel <= fuel')%nat -> bench_run fuel e o = Some r -> bench_run fuel' e o = Some r.
Proof.
  intros Hf. unfold bench_run. destruct (warmup fuel _ _ _ _) as [w|] eqn:Ew; [|done]. rewrite (warmup_more fuel fuel' _ _ _ _ _ Hf Ew).
  destruct w as [[i k]|x]; [|done]. destruct (measure fuel _ _ _ _ _ _ _) as [m|] eqn:Em; [|done].
  by rewrite (measure_more fuel fuel' _ _ _ _ _ _ _ _ Hf Em).
Qed.

Lemma bench_more fuel fuel' e o r : (fuel <= fuel')%nat -> bench fuel e o = Some r -> bench fuel' e o = Some r.
Proof.
  intros Hf. unfold bench. destruct (bench_run fuel e o) as [x|] eqn:E; [|done]. by rewrite (bench_run_more fuel fuel' e o x Hf E).
Qed.

Lemma bench_all_more fuel fuel' l bs : (fuel <= fuel')%nat -> bench_all fuel l = Some (Ok bs) -> bench_all fuel' l = Some (Ok bs).
Proof.
  intros Hf. revert bs. induction l as [|r l IH]; intros bs; cbn [bench_all]; [done|]. unfold run_bench.
  destruct (bench fuel _ _) as [[b|]|] eqn:Eb; try done. rewrite (bench_more _ _ _ _ _ Hf Eb).
  destruct (bench_all fuel l) as [[bs'|]|]; try done. intros [= <-]. by rewrite (IH bs' eq_refl).
Qed.

Definition goes (r : Run) : Prop := counts (rn_call r) /\ advances (rn_clock r).

Lemma run_returns r : goes r -> exists fuel b, forall fuel', (fuel <= fuel')%nat -> run_bench fuel' r = Some (Ok b).
Proof.
  intros [Hc Ha]. destruct (bench_returns {| clock := rn_clock r; calls := fun _ => rn_call r |} (rn_options r)) as (fuel & b & Hb);
    [by intros n|exact Ha|].
  exists fuel, b. intros fuel' Hf. by eapply bench_more.
Qed.

Lemma all_return l : Forall goes l -> exists fuel bs, length bs = length l /\ forall fuel', (fuel <= fuel')%nat -> bench_all fuel' l = Some (Ok bs).
Proof.
  induction 1 as [|r l Hr Hl (f2 & bs & Hlen & Hbs)]; [by exists 0%nat, []|]. destruct (run_returns r Hr) as (f1 & b & Hb).
  exists (Nat.max f1 f2), (b :: bs). split; [cbn; lia|]. intros fuel' Hf. cbn [bench_all]. rewrite Hb, Hbs by lia. done.
Qed.

(** A suite has a result for each size, and its headline is that of the size meant. *)
Lemma suite_of headline factor sizes bs : length bs = length sizes -> headline ∈ sizes ->
  map sr_size (su_results (suite headline (subs factor sizes bs))) = sizes /\
  exists h, su_headline (suite headline (subs factor sizes bs)) = Some h /\ sr_size h = headline.
Proof.
  intros Hl Hin. cbn [su_results su_headline suite]. unfold subs. assert (Hs : map sr_size (zip_with (fun sz b =>
    {| sr_bench := b; sr_size := sz; sr_rate := (of_Z (factor sz) * ops_per_second b)%D |}) sizes bs) = sizes).
  { clear Hin. revert bs Hl. induction sizes as [|sz sizes IH]; intros [|b bs]; cbn; try done. intros [= Hl]. by rewrite IH. }
  split; [exact Hs|]. set (sub := zip_with _ _ _) in *. rewrite <- Hs in Hin. apply list_elem_of_fmap in Hin as (r & Hr & Hin).
  destruct (list_find_elem_of (fun r => sr_size r = headline) sub r Hin (eq_sym Hr)) as [[i h] Hf]. rewrite Hf. exists h. split; [done|].
  by apply list_find_Some in Hf as (_ & Hp & _).
Qed.

(** A suite over sizes returns when the call for each of them counts. *)
Lemma sizes_return headline sizes (run : Z -> Run) : headline ∈ sizes -> (forall sz, goes (run sz)) ->
  exists fuel bs, forall fuel', (fuel <= fuel')%nat -> bench_all fuel' (map run sizes) = Some (Ok bs) /\
    forall factor, map sr_size (su_results (suite headline (subs factor sizes bs))) = sizes /\
    exists h, su_headline (suite headline (subs factor sizes bs)) = Some h /\ sr_size h = headline.
Proof.
  intros Hh Hr. destruct (all_return (map run sizes)) as (fuel & bs & Hl & Hb).
  { apply Forall_map, Forall_forall. intros sz _. apply Hr. }
  rewrite length_map in Hl. exists fuel, bs. intros fuel' Hf. split; [by apply Hb|]. intros factor. by apply suite_of.
Qed.

Lemma inner_positive table d sz : forallb (fun kv => dltb zero (of_Z kv.2)) table = true -> dltb zero (of_Z d) = true ->
  dltb zero (of_Z (inner_of table d sz)) = true.
Proof.
  intros Ht Hd. unfold inner_of. destruct (list_find _ table) as [[i kv]|] eqn:Ef; [|done]. cbn.
  apply list_find_Some in Ef as (Hi & _ & _). apply list_elem_of_lookup_2 in Hi. rewrite forallb_forall in Ht.
  apply Ht. by apply list_elem_of_In.
Qed.

Section Calls.
Context `{Hashing} `{Hkdf} `{KeyExchangeLaws} `{SigningLaws} `{AeadLaws}.

Lemma hash_counts sz : counts (hash_call sz).
Proof. apply counts_intro; [by apply repeat_ok|by apply inner_positive]. Qed.

Lemma encode_counts body sz : counts (encode_call body sz).
Proof. apply counts_intro; [by apply repeat_ok|by apply inner_positive]. Qed.

Lemma aead_counts key payload sz : counts (aead_call key payload sz).
Proof.
  apply counts_intro; [|by apply inner_positive]. apply repeat_ok. unfold aead_round. rewrite aead_decrypt_encrypt.
  cbn [of_option mbind result_bind]. by rewrite Nat.eqb_refl.
Qed.

Lemma verify_counts sk message : counts (ed_verify_call sk message).
Proof. apply counts_intro; [|done]. apply repeat_ok. by rewrite verify_sign. Qed.

Lemma derive_counts peer local cn sn : (16 <= length cn)%nat -> (16 <= length sn)%nat -> counts (derive_call peer local cn sn).
Proof.
  intros Hc Hs. unfold derive_call. destruct (derive_agree Client Server peer local cn sn None ltac:(done) Hc Hs) as (s1 & s2 & _ & -> & _).
  by exists (of_Z 1).
Qed.
End Calls.

Lemma suites_end `{Hashing} `{Hkdf} `{KeyExchangeLaws} `{SigningLaws} `{AeadLaws} (clocks : Z -> nat -> Z) (key : buffer)
    (payload : Z -> buffer) (sk : SecretKey) (message : buffer) (peer local : DhSecret) (cn sn : buffer) (warmupMs measureMs : option Z) :
  (forall sz, advances (clocks sz)) -> (16 <= length cn)%nat -> (16 <= length sn)%nat ->
  let good headline sizes r := map sr_size (su_results r) = sizes /\ exists h, su_headline r = Some h /\ sr_size h = headline in
  exists fuel, forall fuel', (fuel <= fuel')%nat ->
    (exists r, runCpuHash fuel' clocks = Some (Ok r) /\ good 1024 HASH_SIZES r) /\
    (exists r both, runCryptoAead fuel' clocks key payload = Some (Ok (r, both)) /\ good 1024 AEAD_SIZES r /\ good 1024 AEAD_SIZES both) /\
    (exists r, runEncode fuel' clocks payload warmupMs measureMs = Some (Ok r) /\ good 16384 ENCODE_SIZES r) /\
    (exists r, runMemory fuel' clocks = Some (Ok r) /\ good 16 SIZES_MB r) /\
    (exists r, runEventLoop fuel' (clocks 0) = Some (Ok r)) /\
    (exists r, runEd25519 fuel' (clocks 0) (clocks 1) sk message warmupMs measureMs = Some (Ok r)) /\
    (exists r, runSessionDerive fuel' (clocks 0) peer local cn sn warmupMs measureMs = Some (Ok r)).
Proof.
  intros Hc Hcn Hsn good.
  destruct (sizes_return 1024 HASH_SIZES (fun sz => {| rn_options := named ("sha256-" +:+ dec sz +:+ "B"); rn_call := hash_call sz; rn_clock := clocks sz |}))
    as (f1 & b1 & R1); [set_solver|intros sz; split; [apply hash_counts|apply Hc]|].
  destruct (sizes_return 1024 AEAD_SIZES (fun sz => {| rn_options := named ("chacha20poly1305-" +:+ dec sz +:+ "B"); rn_call := aead_call key payload sz;
    rn_clock := clocks sz |})) as (f2 & b2 & R2); [set_solver|intros sz; split; [apply aead_counts|apply Hc]|].
  destruct (sizes_return 16384 ENCODE_SIZES (fun sz => {| rn_options := with_times ("encode-" +:+ dec sz) warmupMs measureMs;
    rn_call := encode_call payload sz; rn_clock := clocks sz |})) as (f3 & b3 & R3); [set_solver|intros sz; split; [apply encode_counts|apply Hc]|].
  destruct (sizes_return 16 SIZES_MB (fun mb => {| rn_options := memory_options mb; rn_call := Ok (of_Z 1);
    rn_clock := clocks mb |})) as (f4 & b4 & R4); [set_solver|intros sz; split; [by exists (of_Z 1)|apply Hc]|].
  destruct (run_returns {| rn_options := {| bo_name := "event-loop"; bo_warmupMs := None; bo_measureMs := Some 500; bo_minSamples := None;
    bo_maxSamples := Some 1000 |}; rn_call := Ok (of_Z 1); rn_clock := clocks 0 |}) as (f5 & b5 & R5); [split; [by exists (of_Z 1)|apply Hc]|].
  destruct (run_returns {| rn_options := with_times "ed25519-sign" warmupMs measureMs; rn_call := ed_sign_call; rn_clock := clocks 0 |})
    as (f6 & b6 & R6); [split; [by exists (of_Z ED_INNER)|apply Hc]|].
  destruct (run_returns {| rn_options := with_times "ed25519-verify" warmupMs measureMs; rn_call := ed_verify_call sk message; rn_clock := clocks 1 |})
    as (f7 & b7 & R7); [split; [apply verify_counts|apply Hc]|].
  destruct (run_returns {| rn_options := with_times "session-derive" warmupMs (Some (default 800 measureMs)); rn_call := derive_call peer local cn sn;
    rn_clock := clocks 0 |}) as (f8 & b8 & R8); [split; [by apply derive_counts|apply Hc]|].
  exists (f1 + f2 + f3 + f4 + f5 + f6 + f7 + f8)%nat. intros fuel' Hf.
  destruct (R1 fuel' ltac:(lia)) as [E1 G1], (R2 fuel' ltac:(lia)) as [E2 G2], (R3 fuel' ltac:(lia)) as [E3 G3], (R4 fuel' ltac:(lia)) as [E4 G4].
  split_and!.
  - unfold runCpuHash. rewrite E1. eexists. split; [reflexivity|apply G1].
  - unfold runCryptoAead. rewrite E2. eexists _, _. split; [reflexivity|]. split; apply G2.
  - unfold runEncode. rewrite E3. eexists. split; [reflexivity|apply G3].
  - unfold runMemory. rewrite E4. eexists. split; [reflexivity|apply G4].
  - unfold runEventLoop. rewrite R5 by lia. by eexists.
  - unfold runEd25519. rewrite R6 by lia. rewrite R7 by lia. by eexists.
  - unfold runSessionDerive. rewrite R8 by lia. by eexists.
Qed.

(** ** Properties *)

(** The suites never fail: with a clock that advances, every suite returns, has a result
    for each of its sizes and takes its headline from the size that its report names
    (1KB, 1KB, 16KB, 16MB); sealed data opens, signatures verify and sessions derive in
    every round, so none of the checks in the loops throws. *)
Theorem suites_return `{Hashing} `{Hkdf} `{KeyExchangeLaws} `{SigningLaws} `{AeadLaws} (clocks : Z -> nat -> Z) (key : buffer)
    (payload : Z -> buffer) (sk : SecretKey) (message : buffer) (peer local : DhSecret) (cn sn : buffer) (warmupMs measureMs : option Z) :
  (forall sz, advances (clocks sz)) -> (16 <= length cn)%nat -> (16 <= length sn)%nat ->
  let good headline sizes r := map sr_size (su_results r) = sizes /\ exists h, su_headline r = Some h /\ sr_size h = headline in
  exists fuel, forall fuel', (fuel <= fuel')%nat ->
    (exists r, runCpuHash fuel' clocks = Some (Ok r) /\ good 1024 HASH_SIZES r) /\
    (exists r both, runCryptoAead fuel' clocks key payload = Some (Ok (r, both)) /\ good 1024 AEAD_SIZES r /\ good 1024 AEAD_SIZES both) /\
    (exists r, runEncode fuel' clocks payload warmupMs measureMs = Some (Ok r) /\ good 16384 ENCODE_SIZES r) /\
    (exists r, runMemory fuel' clocks = Some (Ok r) /\ good 16 SIZES_MB r) /\
    (exists r, runEventLoop fuel' (clocks 0) = Some (Ok r)) /\
    (exists r, runEd25519 fuel' (clocks 0) (clocks 1) sk message warmupMs measureMs = Some (Ok r)) /\
    (exists r, runSessionDerive fuel' (clocks 0) peer local cn sn warmupMs measureMs = Some (Ok r)).
Proof. apply suites_end. Qed.

Lemma suites_return_witness : exists fuel r, runEventLoop fuel (clock RunnerDemo.env) = Some (Ok r).
Proof.
  destruct (@suites_return Toy.hashing Toy.hkdf_toy Toy.key_exchange Toy.key_exchange_laws Toy.signing Toy.signing_laws Toy.aead Toy.aead_laws
    (fun _ => clock RunnerDemo.env) [] (fun _ => []) 3 [] 5 6 (be_encode 16 1) (be_encode 16 2) None None (fun _ => env_advances))
    as (fuel & Hf); [rewrite be_encode_length; lia|rewrite be_encode_length; lia|].
  destruct (Hf fuel (le_n fuel)) as (_ & _ & _ & _ & Hl & _). by exists fuel.
Defined.
