(* ===== verification/Composite.v ===== *)
(** * The composite request benchmark: its pipeline
    (runtime/benchmarks/suites/composite-request.ts)

    One iteration runs the work of a client, of the orchestrator and of the node for
    one request of the data plane, with the time of each stage of the node added to
    [StageTotals].  Keys, nonces, clocks and the elapsed time of the stages are
    arguments. *)

From S2P Require Import Prelude Effect Text Json JsonText Coerce Base64 Frames Crypto CanonicalJson SecureChannel ResponderAuth DataHandshake Paseto Ticket Replay Url Dedupe RequestTicket Update Profile ProxyServe ProxyCommand DataPlane.
Local Open Scope Z_scope.

Definition NODE_ID : string := "bench-node".
Definition KID : string := "bench-kid".
Definition TARGET_URL : string := "https://upstream.example.com/api/v1/resource?b=2&a=1".
Definition REPLAY_ROTATE_ITERATIONS : Z := 50000.

Definition REQUEST_HEADERS : Headers :=
  [("accept", "application/json"); ("content-type", "application/json"); ("user-agent", "consensus-bench/1.0")].

(** ** Stages *)

Inductive CompositeStageName := handshake | request_open | ticket_verify | response_encode | response_seal.
Definition STAGE_NAMES : list CompositeStageName := [handshake; request_open; ticket_verify; response_encode; response_seal].

#[export] Instance stage_eq_dec : EqDecision CompositeStageName.
Proof. solve_decision. Defined.

Record StageTotals := { stage_ns : CompositeStageName -> Z; iterations : Z }.

Definition newStageTotals : StageTotals := {| stage_ns := fun _ => 0; iterations := 0 |}.
(** Both fields of the shared object are set again. *)
Definition resetStageTotals (t : StageTotals) : StageTotals := newStageTotals.
Definition add_stage (s : CompositeStageName) (ns : Z) (t : StageTotals) : StageTotals :=
  {| stage_ns := fun s' => if decide (s' = s) then stage_ns t s + ns else stage_ns t s'; iterations := iterations t |}.
Definition add_iteration (t : StageTotals) : StageTotals := {| stage_ns := stage_ns t; iterations := iterations t + 1 |}.
(** [STAGE_NAMES.reduce(...)]. *)
Definition nodeNs (t : StageTotals) : Z := fold_left (fun sum s => sum + stage_ns t s) STAGE_NAMES 0.

(** ** The pipe in memory *)

(** One direction of [memoryPipe]: messages nobody has asked for, and those who wait. *)
Record Pipe := { pp_queue : list buffer; pp_waiters : list nat }.
Definition memoryPipe : Pipe := {| pp_queue := []; pp_waiters := [] |}.

(** Each returns the delivery that it causes: who receives which message. *)
Definition push (data : buffer) (p : Pipe) : Pipe * list (nat * buffer) :=
  match pp_waiters p with
  | waiter :: rest => ({| pp_queue := pp_queue p; pp_waiters := rest |}, [(waiter, data)])
  | [] => ({| pp_queue := pp_queue p ++ [data]; pp_waiters := [] |}, [])
  end.
Definition pull (who : nat) (p : Pipe) : Pipe * list (nat * buffer) :=
  match pp_queue p with
  | message :: rest => ({| pp_queue := rest; pp_waiters := pp_waiters p |}, [(who, message)])
  | [] => ({| pp_queue := []; pp_waiters := pp_waiters p ++ [who] |}, [])
  end.

Inductive pipe_op := Push (data : buffer) | Pull (who : nat).
Definition pipe_step (p : Pipe) (o : pipe_op) : Pipe * list (nat * buffer) :=
  match o with Push data => push data p | Pull who => pull who p end.
Fixpoint pipe_run (ops : list pipe_op) (p : Pipe) : Pipe * list (nat * buffer) :=
  match ops with
  | [] => (p, [])
  | o :: ops => let '(p, d) := pipe_step p o in let '(p, ds) := pipe_run ops p in (p, d ++ ds)
  end.

Definition pushed (ops : list pipe_op) : list buffer := omap (fun o => match o with Push d => Some d | Pull _ => None end) ops.
Definition pulled (ops : list pipe_op) : list nat := omap (fun o => match o with Pull w => Some w | Push _ => None end) ops.

Section Composite.
Context `{Hashing} `{Hkdf} `{KeyExchange} `{PemKeys} `{Aead} `{UrlApi}.

(** ** The fixture *)

(** What stays the same in a [Fixture]; its replay cache is state. *)
Record Fixture := {
  fx_identity : NodeIdentity; fx_orchestrator : SecretKey; fx_dedupeKey : string; fx_upstream : ProxyResult }.

Definition requestDedupeParams : DedupeParams :=
  {| target_url := TARGET_URL; method := "GET"; headers := REQUEST_HEADERS; body := NoBody; profile_hash := None |}.
(** The same object where [runDataRequest] takes it. *)
Definition request_of_params : ClientRequest :=
  {| cr_target_url := TARGET_URL; cr_method := Some "GET"; cr_headers := Some REQUEST_HEADERS; cr_body := NoBody; cr_profile := None |}.

(** [generated]: the key pair of the node; [orchestrator]: that of the tickets;
    [b]: the random body, of [responseBytes] bytes. *)
Definition upstream_result (b : buffer) (responseBytes : Z) : ProxyResult :=
  {| status := 200; statusText := "OK";
     res_headers := [("content-type", "application/json"); ("content-length", dec responseBytes); ("date", "Thu, 01 Jan 1970 00:00:00 GMT");
       ("server", "upstream/1.0"); ("cache-control", "no-store"); ("etag", String chr_quote ("bench-etag" +:+ String chr_quote ""));
       ("x-request-id", "bench-request")];
     res_body := b; cached := None; res_profile_hash := None |}.
Definition buildFixture (generated : NodeIdentity) (orchestrator : SecretKey) (b : buffer) (responseBytes : Z) : result Fixture :=
  dedupeKey ← generateDedupeKey requestDedupeParams;
  Ok {| fx_identity := generated; fx_orchestrator := orchestrator; fx_dedupeKey := dedupeKey; fx_upstream := upstream_result b responseBytes |}.

Definition mintTicket (fixture : Fixture) (clock : Z) (jti : string) : string :=
  issueTicket clock {| in_nodeId := NODE_ID; in_dedupeKey := fx_dedupeKey fixture; in_jti := jti; in_ttlSec := None;
                       in_scope := None; in_now := None |} (fx_orchestrator fixture) KID.

(** ** One iteration *)

(** What the environment supplies: the client's key, nonces and clocks, those of the
    node, the id and the clock of the ticket, and how long each stage took. *)
Record IterationInput := {
  it_clientKey : DhSecret; it_clientNonce : buffer; it_clientTime : Z; it_jti : string; it_issueClock : Z;
  it_nodeKey : DhSecret; it_nodeNonce : buffer; it_nodeTime : Z; it_clientClock : Z; it_requestNonce : buffer;
  it_nodeClock : Z; it_responseNonce : buffer; it_elapsed : CompositeStageName -> Z }.

(** What the iteration computed on the way, in its local variables. *)
Record Exchange := { ex_accept : json; ex_request : buffer; ex_ticket : VerifiedRequestTicket; ex_response : buffer }.

(** The replay cache of the fixture and the totals. *)
Record Workload := { w_replay : JtiReplayCache; w_totals : StageTotals }.
Definition timed (x : IterationInput) (s : CompositeStageName) : eff Workload unit :=
  modify (fun w => {| w_replay := w_replay w; w_totals := add_stage s (it_elapsed x s) (w_totals w) |}).

Definition composite_payload (token : string) : json :=
  obj [("type", Some (JStr "proxy_request")); ("token", Some (JStr token)); ("target_url", Some (JStr TARGET_URL));
       ("method", Some (JStr "GET")); ("headers", Some (strings_json REQUEST_HEADERS))].

(** The stage [request_open]: the token and what the ticket is checked against. *)
Definition open_request (session : SecureSession) (requestFrame : buffer) : result (string * DedupeParams) :=
  opened ← openFrame (receiveKey session) requestFrame;
  let '(frame, plaintext) := opened in
  throw_if (negb (fp_type frame =? FRAME_TYPE.DATA)) (PlainError "composite: unexpected frame type");;
  parsed ← JSON_parse (utf8_text plaintext);
  throw_if (bool_decide (parsed = JNull)) (TypeError "null is not an object");;
  throw_if (negb (bool_decide (get "type" parsed = Some (JStr "proxy_request")) &&
                  bool_decide (is_Some (as_string (get "token" parsed))) &&
                  bool_decide (is_Some (as_string (get "target_url" parsed)))))
    (PlainError "composite: invalid proxy_request payload");;
  b ← (if truthy (get "body" parsed) then decodeBody (get "body" parsed) (Some (JStr "base64")) else Ok NoBody);
  m ← text_or "GET" (get "method" parsed);
  Ok (text_field "token" parsed,
      {| target_url := text_field "target_url" parsed; method := toUpperCase m;
         headers := default [] (headers_of (get "headers" parsed)); body := b; profile_hash := None |}).

Definition response_json (r : ProxyResult) : json :=
  obj [("type", Some (JStr "proxy_response")); ("status", Some (JNum (num_of_Z (status r))));
       ("status_text", Some (JStr (statusText r))); ("headers", Some (strings_json (res_headers r)));
       ("body", Some (JStr (toBase64 (res_body r)))); ("body_encoding", Some (JStr "base64"))].

Definition runIteration (fixture : Fixture) (x : IterationInput) : eff Workload Exchange :=
  let client := createDataInit (it_clientKey x) (it_clientNonce x) NODE_ID (it_clientTime x) in
  let token := mintTicket fixture (it_issueClock x) (it_jti x) in
  accepted ← lift (acceptDataInit (it_nodeKey x) (it_nodeNonce x) (cd_message client) (fx_identity fixture) NODE_ID (it_nodeTime x));
  let '(accept, nodeSession) := accepted in
  timed x handshake;;
  clientSession ← lift (deriveClientDataSession (it_clientClock x) client accept NODE_ID (publicKeyPem (fx_identity fixture)) None);
  requestFrame ← lift (sealFrame (it_requestNonce x) (sendKey clientSession) FRAME_TYPE.DATA 0 (utf8 (stringify (composite_payload token))));
  opened ← lift (open_request nodeSession requestFrame);
  let '(token, dedupeParams) := opened in
  timed x request_open;;
  ticket ← (fun w => let '(r, replay) := verifyRequestTicket (it_nodeClock x) (public_of (fx_orchestrator fixture))
              {| rt_token := token; rt_nodeId := NODE_ID; rt_request := dedupeParams; rt_expectedScope := None; rt_now := None;
                 rt_clockToleranceSec := None |} (Some (w_replay w)) in
            ({| w_replay := default (w_replay w) replay; w_totals := w_totals w |}, r));
  timed x ticket_verify;;
  let responseJson := utf8 (stringify (response_json (fx_upstream fixture))) in
  timed x response_encode;;
  responseFrame ← lift (sealFrame (it_responseNonce x) (sendKey nodeSession) FRAME_TYPE.DATA 0 responseJson);
  timed x response_seal;;
  lift (throw_if (bool_decide (length responseFrame <= length (res_body (fx_upstream fixture)))%nat)
    (PlainError "composite: sealed response impossibly small"));;
  modify (fun w => {| w_replay := w_replay w; w_totals := add_iteration (w_totals w) |});;
  mret {| ex_accept := accept; ex_request := requestFrame; ex_ticket := ticket; ex_response := responseFrame |}.

(** ** The round trip that guards the fixture *)

(** [sanityRoundTrip]: the real client and the real server over [memoryPipe].  [None]:
    one of them failed before it answered, and the other waits for ever. *)
Definition check_response (fixture : Fixture) (response : json) : result unit :=
  throw_if (negb (bool_decide (get "type" response = Some (JStr "proxy_response"))))
    (PlainError ("composite sanity: pipeline returned " +:+ template (get "type" response) +:+ ": " +:+ stringify response));;
  throw_if (negb (bool_decide (fromBase64 (text_field "body" response) = res_body (fx_upstream fixture))))
    (PlainError "composite sanity: response body did not survive the pipeline").

Definition production (x : IterationInput) (request : result buffer) : ConnectionInput :=
  {| cx_init := Ok (encodeJson (cd_message (createDataInit (it_clientKey x) (it_clientNonce x) NODE_ID (it_clientTime x))));
     cx_request := request; cx_sendAccept := Ok tt; cx_sendResponse := Ok tt; cx_key := it_nodeKey x; cx_nonce := it_nodeNonce x;
     cx_frameNonce := it_responseNonce x; cx_now := it_nodeTime x; cx_clock := it_nodeClock x |}.
Definition stubbed (fixture : Fixture) : DataPlaneServeDeps :=
  {| dp_nodeId := NODE_ID; dp_identity := fx_identity fixture; dp_pinnedKey := public_of (fx_orchestrator fixture);
     dp_serve := fun _ c => {| sv_result := Ok (fx_upstream fixture); sv_cache := c; sv_fetched := [] |} |}.

Definition sanityRoundTrip (fixture : Fixture) (x : IterationInput) (replay : JtiReplayCache) : option (result unit * JtiReplayCache) :=
  let n := {| n_replay := replay; n_cache := [] |} in
  let client := runDataRequest (it_clientClock x) (it_clientKey x) (it_clientNonce x) (it_requestNonce x) (it_clientTime x) NODE_ID
    (publicKeyPem (fx_identity fixture)) (mintTicket fixture (it_issueClock x) (it_jti x)) request_of_params in
  let pending := Throw (PlainError "pending") in
  match serveDataConnection (production x pending) (stubbed fixture) n with
  | ([Sent accept], _, _) =>
      match client (Ok accept) pending with
      | ([_; request], _) =>
          match serveDataConnection (production x (Ok request)) (stubbed fixture) n with
          | ([Sent _; Sent answer; Closed _], served, n') =>
              Some (response ← (client (Ok accept) (Ok answer)).2; served;; check_response fixture response, n_replay n')
          | _ => None
          end
      | _ => None
      end
  | _ => None
  end.

(** ** The long-running workload *)

Record CompositeWorkload := { cw_state : Workload; cw_sinceRotate : Z }.

(** [iterate]; the cache is replaced by a fresh one now and then. *)
Definition iterate (fixture : Fixture) (x : IterationInput) (w : CompositeWorkload) : CompositeWorkload * result Exchange :=
  let n := cw_sinceRotate w + 1 in
  let w := if REPLAY_ROTATE_ITERATIONS <=? n
           then {| cw_state := {| w_replay := new_cache 100000; w_totals := w_totals (cw_state w) |}; cw_sinceRotate := 0 |}
           else {| cw_state := cw_state w; cw_sinceRotate := n |} in
  let '(s, r) := runIteration fixture x (cw_state w) in
  ({| cw_state := s; cw_sinceRotate := cw_sinceRotate w |}, r).
End Composite.

(** ** Lemmas *)

Lemma nodeNs_add s ns t : nodeNs (add_stage s ns t) = nodeNs t + ns.
Proof.
  unfold nodeNs, STAGE_NAMES. cbn [fold_left]. unfold add_stage. cbn [stage_ns].
  destruct s; repeat (case_decide; try done); lia.
Qed.

Lemma quote_body_length s : (String.length s <= String.length (quote_body s))%nat.
Proof.
  induction s as [|c s IH]; cbn [quote_body String.length]; [done|]. rewrite str_app_length.
  enough (1 <= String.length (quote_char c))%nat by lia. unfold quote_char.
  repeat case_match; cbn [String.length]; lia.
Qed.

(** A text member is at most as long as the text of the object. *)
Lemma stringify_member k s l : (k, JStr s) ∈ l -> (String.length s <= String.length (stringify (JObj l)))%nat.
Proof.
  intros Hin. cbn [stringify]. rewrite !str_app_length.
  pose proof (concat_length_ge (fun kv : string * json => quote kv.1 +:+ ":" +:+ stringify kv.2) l) as Hc.
  enough (S (String.length s) <= list_sum (map (fun v : string * json => S (String.length (quote v.1 +:+ ":" +:+ stringify v.2))) l))%nat by lia.
  clear Hc. induction l as [|x l IH]; [by apply elem_of_nil in Hin|]. cbn [map]. rewrite list_sum_cons.
  apply elem_of_cons in Hin as [<-|Hin]; [|specialize (IH Hin); lia]. cbn [fst snd stringify]. rewrite !str_app_length. unfold quote.
  cbn [String.length]. rewrite !str_app_length. pose proof (quote_body_length s). lia.
Qed.

Lemma to_sextets_length b : (length b <= length (to_sextets b))%nat.
Proof. induction b as [| | |a b c l IH] using list_ind3; cbn [to_sextets length]; lia. Qed.

Lemma toBase64_length b : (length b <= String.length (toBase64 b))%nat.
Proof.
  unfold toBase64. pose proof (to_sextets_length b) as Hl. generalize (b64_padding (length b)) as pad. intros pad.
  enough (forall l, length l <= String.length (sextet_text b64_alphabet l pad))%nat as Ht by (etransitivity; [exact Hl|apply Ht]).
  induction l as [|x l IHl]; cbn; lia.
Qed.

Lemma utf8_length s : length (utf8 s) = String.length s.
Proof. unfold utf8, String.list_byte_of_string. rewrite length_map. induction s as [|c s IH]; cbn; [done|]. by rewrite IH. Qed.

Lemma response_longer r : (length (res_body r) <= length (utf8 (stringify (response_json r))))%nat.
Proof.
  rewrite utf8_length. etransitivity; [apply toBase64_length|]. apply (stringify_member "body"). cbn -[num_of_Z strings_json]. set_solver.
Qed.

(** The deliveries from a state in which nobody waits beside a message. *)
Lemma pipe_run_zip ops p : pp_queue p = [] \/ pp_waiters p = [] ->
  (pipe_run ops p).2 = zip (pp_waiters p ++ pulled ops) (pp_queue p ++ pushed ops).
Proof.
  revert p. induction ops as [|[d|w] ops IH]; intros p Hp; cbn [pipe_run pipe_step].
  - unfold pulled, pushed. cbn. rewrite !app_nil_r. destruct Hp as [-> | ->]; [by destruct (pp_waiters p)|done].
  - unfold push. destruct (pp_waiters p) as [|w ws] eqn:Ew.
    + specialize (IH {| pp_queue := pp_queue p ++ [d]; pp_waiters := [] |} (or_intror eq_refl)). destruct (pipe_run ops _) as [p' ds].
      cbn [snd pp_queue pp_waiters app] in *. rewrite IH. unfold pushed, pulled. cbn. by rewrite <- app_assoc.
    + destruct Hp as [Hq|]; [|done]. specialize (IH {| pp_queue := pp_queue p; pp_waiters := ws |} (or_introl Hq)).
      destruct (pipe_run ops _) as [p' ds]. cbn [snd pp_queue pp_waiters] in *. rewrite IH, Hq. reflexivity.
  - unfold pull. destruct (pp_queue p) as [|d q] eqn:Eq.
    + specialize (IH {| pp_queue := []; pp_waiters := pp_waiters p ++ [w] |} (or_introl eq_refl)). destruct (pipe_run ops _) as [p' ds].
      cbn [snd pp_queue pp_waiters app] in *. rewrite IH. unfold pushed, pulled. cbn. by rewrite <- app_assoc.
    + destruct Hp as [|Hw]; [done|]. specialize (IH {| pp_queue := q; pp_waiters := pp_waiters p |} (or_intror Hw)).
      destruct (pipe_run ops _) as [p' ds]. cbn [snd pp_queue pp_waiters] in *. rewrite IH, Hw. reflexivity.
Qed.

Section Mirror.
Context `{HashingLaws} `{HkdfLaws} `{KeyExchangeLaws} `{PemKeys} `{!SigningLaws} `{AeadLaws} `{UrlApi}.

(** A dedupe key is a hash in hexadecimal, so it is not empty. *)
Lemma sha256Hex_nonempty b : sha256Hex b <> "".
Proof.
  unfold sha256Hex. pose proof (sha256_length b) as Hl. destruct (sha256 b) as [|x l]; [done|]. by cbn.
Qed.

(** What sealing returns is longer than what it seals. *)
Lemma seal_longer nonce key t s m raw : sealFrame nonce key t s m = Ok raw -> (length m < length raw)%nat.
Proof.
  unfold sealFrame. intros Hs. inv_ok. apply encodeFrame_ok in Hk0 as [Hw ->]. destruct r0 as [c tag].
  unfold encryptDetached in Hm0. inv_ok. simplify_eq. unfold frame_bytes. cbn [fp_ciphertext fp_tag fst snd].
  rewrite !length_app, !be_encode_length. rewrite aead_length, subarray_length by (rewrite ?aead_length; unfold TAG_BYTES; lia).
  rewrite length_drop, aead_length. unfold TAG_BYTES. lia.
Qed.

(** The stage [request_open] on the payload of the client. *)
Lemma open_request_payload session raw f token :
  openFrame (receiveKey session) raw = Ok (f, encodeJson (composite_payload token)) -> fp_type f = FRAME_TYPE.DATA ->
  wf_json (composite_payload token) = true ->
  open_request session raw = Ok (token, requestDedupeParams).
Proof.
  intros Ho Ht Hw. unfold open_request. rewrite Ho. cbn [mbind result_bind]. rewrite Ht.
  replace (JSON_parse _) with (decodeJson (encodeJson (composite_payload token))) by done. rewrite decode_encode by done. reflexivity.
Qed.

(** What an iteration depends on: the key pair of the node, nonces of the right
    lengths, clocks within the tolerances, a ticket id that is new, and sizes that
    fit a frame. *)
Record ready (fixture : Fixture) (x : IterationInput) (w : Workload) : Prop := {
  rd_identity : exists sk, key_pair (privateKeyPem (fx_identity fixture)) (publicKeyPem (fx_identity fixture)) sk;
  rd_nonces : (16 <= length (it_clientNonce x))%nat /\ (16 <= length (it_nodeNonce x))%nat;
  rd_frames : length (it_requestNonce x) = NONCE_BYTES /\ length (it_responseNonce x) = NONCE_BYTES;
  rd_times : small_num (it_clientTime x) /\ small_num (it_nodeTime x);
  rd_proof : it_nodeTime x - ResponderAuth.DEFAULT_CLOCK_TOLERANCE_SEC <= it_clientClock x / 1000 <=
             it_nodeTime x + DEFAULT_MAX_AGE_SEC + ResponderAuth.DEFAULT_CLOCK_TOLERANCE_SEC;
  rd_issue : small_num (unix_seconds (it_issueClock x)) /\ small_num (unix_seconds (it_issueClock x) + DEFAULT_TTL_SEC);
  rd_ticket : unix_seconds (it_issueClock x) - Ticket.DEFAULT_CLOCK_TOLERANCE_SEC <= unix_seconds (it_nodeClock x) <=
              unix_seconds (it_issueClock x) + DEFAULT_TTL_SEC + Ticket.DEFAULT_CLOCK_TOLERANCE_SEC;
  rd_jti : it_jti x <> "" /\ it_jti x ∉ keys (sweep (unix_seconds (it_nodeClock x)) (w_replay w));
  rd_request : fits (composite_payload (mintTicket fixture (it_issueClock x) (it_jti x)));
  rd_response : fits (response_json (fx_upstream fixture)) }.

(** The ticket of an iteration passes every check and is recorded. *)
Lemma ticket_passes fixture x w generated orchestrator b n :
  buildFixture generated orchestrator b n = Ok fixture -> ready fixture x w ->
  exists t replay, verifyRequestTicket (it_nodeClock x) (public_of (fx_orchestrator fixture))
    {| rt_token := mintTicket fixture (it_issueClock x) (it_jti x); rt_nodeId := NODE_ID; rt_request := requestDedupeParams;
       rt_expectedScope := None; rt_now := None; rt_clockToleranceSec := None |} (Some (w_replay w)) = (Ok t, Some replay) /\
    forall j, j ∈ keys replay -> j = it_jti x \/ j ∈ keys (w_replay w).
Proof.
  unfold buildFixture. intros Hb [_ _ _ _ _ [Hi1 Hi2] [Ht1 Ht2] [Hj1 Hj2] _ _]. inv_ok. simplify_eq. cbn [fx_orchestrator fx_dedupeKey] in *.
  assert (Hne : r <> "") by (unfold generateDedupeKey in Hm; inv_ok; simplify_eq; apply sha256Hex_nonempty).
  unfold verifyRequestTicket, check_request. cbn [rt_token rt_nodeId rt_request rt_expectedScope rt_now rt_clockToleranceSec default].
  unfold mintTicket. cbn [fx_orchestrator fx_dedupeKey].
  rewrite (ticket_issue_verify (it_issueClock x) (it_nodeClock x)
    {| in_nodeId := NODE_ID; in_dedupeKey := r; in_jti := it_jti x; in_ttlSec := None; in_scope := None; in_now := None |} orchestrator KID
    {| expectedNodeId := NODE_ID; expectedScope := None; now := None; clockToleranceSec := None |} (unix_seconds (it_nodeClock x)) Ticket.DEFAULT_CLOCK_TOLERANCE_SEC
    eq_refl eq_refl eq_refl eq_refl Hj1 Hne Hi1 Hi2 Ht1 Ht2).
  cbn [mbind result_bind]. rewrite Hm. cbn [mbind result_bind vk_claims issue_claims sub in_dedupeKey]. rewrite bool_decide_true by done.
  cbn [negb throw_if mbind result_bind]. unfold commit. cbn [vr_claims default from_option id issue_claims jti in_jti exp].
  unfold consume. rewrite bool_decide_false by done. cbn [negb throw_if mbind result_bind]. eexists _, _. split; [reflexivity|].
  intros j. unfold keys at 1, with_seen. cbn [seen]. rewrite fmap_app, elem_of_app. intros [Hj|Hj].
  - right. apply list_elem_of_fmap in Hj as (y & -> & Hy). apply evict_subset in Hy. eapply sweep_keys_subset. by eapply list_elem_of_fmap_2.
  - left. by apply list_elem_of_singleton in Hj.
Qed.

Lemma request_payload_composite token : request_payload token request_of_params = composite_payload token.
Proof. reflexivity. Qed.

(** A request that passes every check of [authorize]. *)
Lemma authorize_steps clock frame session deps c payload b m plan t c' :
  parse_request session frame = Ok payload -> decodeBody (get "body" payload) (get "body_encoding" payload) = Ok b ->
  text_or "GET" (get "method" payload) = Ok m -> plan_request payload (toUpperCase m) b = Ok plan ->
  verifyRequestTicket clock (dp_pinnedKey deps)
    {| rt_token := pl_token plan; rt_nodeId := dp_nodeId deps; rt_request := pl_dedupe plan;
       rt_expectedScope := None; rt_now := None; rt_clockToleranceSec := None |} (Some c) = (Ok t, Some c') ->
  authorize clock frame session deps c = (Ok (inr (t, pl_request plan)), c').
Proof. intros E1 E2 E3 E4 E5. unfold authorize. rewrite E1, E2, E3. cbn [mbind result_bind]. by rewrite E4, E5. Qed.

Definition composite_plan (token : string) : RequestPlan :=
  {| pl_token := token; pl_dedupe := requestDedupeParams;
     pl_request := {| rq_target_url := TARGET_URL; rq_method := Some "GET"; rq_headers := Some REQUEST_HEADERS; rq_body := NoBody; rq_profile := None |} |}.

(** The node of production on the same request. *)
Lemma production_answers fixture x w session raw f t replay c :
  let token := mintTicket fixture (it_issueClock x) (it_jti x) in
  openFrame (receiveKey session) raw = Ok (f, encodeJson (composite_payload token)) ->
  fp_type f = FRAME_TYPE.DATA -> wf_json (composite_payload token) = true ->
  verifyRequestTicket (it_nodeClock x) (public_of (fx_orchestrator fixture))
    {| rt_token := token; rt_nodeId := NODE_ID; rt_request := requestDedupeParams;
       rt_expectedScope := None; rt_now := None; rt_clockToleranceSec := None |} (Some (w_replay w)) = (Ok t, Some replay) ->
  resolveProxyResponse (it_nodeClock x) raw session (stubbed fixture) {| n_replay := w_replay w; n_cache := c |} =
    (Ok (Answered t (pl_request (composite_plan token)) {| sv_result := Ok (fx_upstream fixture); sv_cache := c; sv_fetched := [] |}),
     {| n_replay := replay; n_cache := c |}).
Proof.
  cbv zeta. set (token := mintTicket _ _ _). intros Ho Hf Hw Hv. unfold resolveProxyResponse. cbn [n_replay n_cache].
  erewrite (authorize_steps _ raw session (stubbed fixture) (w_replay w) (composite_payload token) NoBody "GET" (composite_plan token));
    [reflexivity| |reflexivity..|exact Hv].
  exact (parse_request_payload session raw f token request_of_params Ho Hf Hw).
Qed.

(** The same run of an iteration, step by step. *)
Lemma iteration_steps fixture x w accept session client raw t replay response :
  let token := mintTicket fixture (it_issueClock x) (it_jti x) in
  let init := createDataInit (it_clientKey x) (it_clientNonce x) NODE_ID (it_clientTime x) in
  acceptDataInit (it_nodeKey x) (it_nodeNonce x) (cd_message init) (fx_identity fixture) NODE_ID (it_nodeTime x) = Ok (accept, session) ->
  deriveClientDataSession (it_clientClock x) init accept NODE_ID (publicKeyPem (fx_identity fixture)) None = Ok client ->
  sealFrame (it_requestNonce x) (sendKey client) FRAME_TYPE.DATA 0 (encodeJson (composite_payload token)) = Ok raw ->
  open_request session raw = Ok (token, requestDedupeParams) ->
  verifyRequestTicket (it_nodeClock x) (public_of (fx_orchestrator fixture))
    {| rt_token := token; rt_nodeId := NODE_ID; rt_request := requestDedupeParams;
       rt_expectedScope := None; rt_now := None; rt_clockToleranceSec := None |} (Some (w_replay w)) = (Ok t, Some replay) ->
  sealFrame (it_responseNonce x) (sendKey session) FRAME_TYPE.DATA 0 (encodeJson (response_json (fx_upstream fixture))) = Ok response ->
  runIteration fixture x w =
    ({| w_replay := replay; w_totals := add_iteration (fold_left (fun t s => add_stage s (it_elapsed x s) t) STAGE_NAMES (w_totals w)) |},
     Ok {| ex_accept := accept; ex_request := raw; ex_ticket := t; ex_response := response |}).
Proof.
  cbv zeta. set (token := mintTicket _ _ _). set (init := createDataInit _ _ _ _). intros E1 E2 E3 E4 E5 E6.
  unfold runIteration. cbv zeta. fold token init. rewrite E1. unfold lift, timed, modify, mbind, eff_bind. rewrite E2.
  change (utf8 (stringify ?v)) with (encodeJson v). rewrite E3, E4. cbn [w_replay w_totals]. rewrite E5. cbn [default from_option id w_replay w_totals].
  rewrite E6. apply seal_longer in E6. pose proof (response_longer (fx_upstream fixture)) as Hl. unfold encodeJson in E6.
  rewrite bool_decide_false by lia. reflexivity.
Qed.
(** What the two ends of an iteration compute. *)
Record honest_run_of (fixture : Fixture) (x : IterationInput) (w : Workload) (accept : json) (client node : SecureSession)
    (request response : buffer) (t : VerifiedRequestTicket) (replay : JtiReplayCache) : Prop := {
  hr_accept : acceptDataInit (it_nodeKey x) (it_nodeNonce x)
    (cd_message (createDataInit (it_clientKey x) (it_clientNonce x) NODE_ID (it_clientTime x))) (fx_identity fixture) NODE_ID (it_nodeTime x) = Ok (accept, node);
  hr_wf : wf_json accept = true;
  hr_client : deriveClientDataSession (it_clientClock x) (createDataInit (it_clientKey x) (it_clientNonce x) NODE_ID (it_clientTime x)) accept NODE_ID
    (publicKeyPem (fx_identity fixture)) None = Ok client;
  hr_seal : sealFrame (it_requestNonce x) (sendKey client) FRAME_TYPE.DATA 0
    (encodeJson (composite_payload (mintTicket fixture (it_issueClock x) (it_jti x)))) = Ok request;
  hr_open : exists f, openFrame (receiveKey node) request = Ok (f, encodeJson (composite_payload (mintTicket fixture (it_issueClock x) (it_jti x)))) /\
    fp_type f = FRAME_TYPE.DATA;
  hr_ticket : verifyRequestTicket (it_nodeClock x) (public_of (fx_orchestrator fixture))
    {| rt_token := mintTicket fixture (it_issueClock x) (it_jti x); rt_nodeId := NODE_ID; rt_request := requestDedupeParams;
       rt_expectedScope := None; rt_now := None; rt_clockToleranceSec := None |} (Some (w_replay w)) = (Ok t, Some replay);
  hr_response : sealFrame (it_responseNonce x) (sendKey node) FRAME_TYPE.DATA 0 (encodeJson (response_json (fx_upstream fixture))) = Ok response;
  hr_answer : exists f, openFrame (receiveKey client) response = Ok (f, encodeJson (response_json (fx_upstream fixture))) /\ fp_type f = FRAME_TYPE.DATA }.

Lemma ready_run fixture generated orchestrator b responseBytes x w :
  buildFixture generated orchestrator b responseBytes = Ok fixture -> ready fixture x w ->
  exists accept client node request response t replay, honest_run_of fixture x w accept client node request response t replay.
Proof.
  intros Hb Hr. destruct (ticket_passes fixture x w _ _ _ _ Hb Hr) as (t & replay & Hv & _).
  destruct Hr as [[sk Hk] [Hcn Hnn] [Hf1 Hf2] [Ht0 Ht1] Ht _ _ _ Hreq Hres].
  destruct (honest_run (it_clientClock x) (it_clientKey x) (it_nodeKey x) (it_clientNonce x) (it_nodeNonce x) NODE_ID (it_clientTime x)
    (it_nodeTime x) (fx_identity fixture) sk None ltac:(done) Hcn Hnn Hk Ht) as (hp & sg & s & s' & -> & Ha & Hs & _ & Hsend & Hrecv).
  set (m := accept_message _ _ _) in *.
  assert (Hkeys : length (sendKey s) = KEY_BYTES /\ length (receiveKey s) = KEY_BYTES).
  { apply derive_client_inv in Hs as (? & ? & ? & _ & _ & _ & _ & _ & _ & Hd). by eapply derive_key_length. }
  destruct (seal_open_json (it_requestNonce x) (sendKey s) _ Hf1 (proj1 Hkeys) Hreq) as (raw1 & f1 & Hs1 & Ho1 & Hf1t).
  rewrite Hsend in Ho1. rewrite Hrecv in Hkeys.
  destruct (seal_open_json (it_responseNonce x) (sendKey s') _ Hf2 (proj2 Hkeys) Hres) as (raw2 & f2 & Hs2 & Ho2 & Hf2t).
  exists m, s, s', raw1, raw2, t, replay. split; [exact Ha| |exact Hs|exact Hs1|exact (ex_intro _ f1 (conj Ho1 Hf1t))|exact Hv|exact Hs2|].
  - apply accept_message_wf. by apply honest_proof_wf.
  - rewrite Hrecv. exact (ex_intro _ f2 (conj Ho2 Hf2t)).
Qed.

(** A server whose client does not go on has sent its accept message. *)
Lemma serve_waits x deps n b init m session e :
  cx_init x = Ok b -> decodeJson b = Ok init ->
  acceptDataInit (cx_key x) (cx_nonce x) init (dp_identity deps) (dp_nodeId deps) (cx_now x) = Ok (m, session) ->
  cx_sendAccept x = Ok tt -> cx_request x = Throw e ->
  serveDataConnection x deps n = ([Sent (encodeJson m)], Throw e, n).
Proof.
  intros E1 E2 E3 E4 E5. unfold serveDataConnection, accept_connection. rewrite E1. cbn [mbind result_bind].
  rewrite E2. cbn [mbind result_bind]. by rewrite E3, E4, E5.
Qed.

Section Honest.
Variables (fixture : Fixture) (x : IterationInput) (w : Workload).
Variables (accept : json) (client node : SecureSession) (request response : buffer) (t : VerifiedRequestTicket) (replay : JtiReplayCache).
Hypothesis Hrun : honest_run_of fixture x w accept client node request response t replay.
Hypothesis Hready : ready fixture x w.

Lemma honest_iteration : runIteration fixture x w =
  ({| w_replay := replay; w_totals := add_iteration (fold_left (fun t s => add_stage s (it_elapsed x s) t) STAGE_NAMES (w_totals w)) |},
   Ok {| ex_accept := accept; ex_request := request; ex_ticket := t; ex_response := response |}).
Proof.
  destruct Hrun as [Ha _ Hs Hs1 (f & Ho & Hf) Hv Hs2 _]. eapply iteration_steps; [exact Ha|exact Hs|exact Hs1| |exact Hv|exact Hs2].
  by eapply open_request_payload; [exact Ho|done|apply Hready].
Qed.

Lemma honest_server : cached (fx_upstream fixture) = None -> res_profile_hash (fx_upstream fixture) = None -> forall c,
  serveDataConnection (production x (Ok request)) (stubbed fixture) {| n_replay := w_replay w; n_cache := c |} =
    ([Sent (encodeJson accept); Sent response; Closed 1000],
     Ok (Answered t (pl_request (composite_plan (mintTicket fixture (it_issueClock x) (it_jti x))))
           {| sv_result := Ok (fx_upstream fixture); sv_cache := c; sv_fetched := [] |}),
     {| n_replay := replay; n_cache := c |}).
Proof.
  intros Hu1 Hu2 c. destruct Hrun as [Ha _ Hs Hs1 (f & Ho & Hf) Hv Hs2 _].
  eapply serve_steps; [reflexivity|by apply decode_encode, data_init_wf, Hready|exact Ha|reflexivity|reflexivity| | |reflexivity].
  - eapply production_answers; [exact Ho|exact Hf|apply Hready|exact Hv].
  - cbn [response_of sv_result]. unfold response_payload. rewrite Hu1, Hu2. exact Hs2.
Qed.

Lemma server_waits e n : serveDataConnection (production x (Throw e)) (stubbed fixture) n = ([Sent (encodeJson accept)], Throw e, n).
Proof.
  destruct Hrun as [Ha _ _ _ _ _ _ _].
  eapply serve_waits; [reflexivity|by apply decode_encode, data_init_wf, Hready|exact Ha|reflexivity|reflexivity].
Qed.

Lemma honest_client answered :
  runDataRequest (it_clientClock x) (it_clientKey x) (it_clientNonce x) (it_requestNonce x) (it_clientTime x) NODE_ID
      (publicKeyPem (fx_identity fixture)) (mintTicket fixture (it_issueClock x) (it_jti x)) request_of_params (Ok (encodeJson accept)) answered =
    ([encodeJson (cd_message (createDataInit (it_clientKey x) (it_clientNonce x) NODE_ID (it_clientTime x))); request],
     received ← answered; client_response client received).
Proof.
  destruct Hrun as [_ Hwf Hs Hs1 _ _ _ _]. unfold runDataRequest, client_request. cbn [mbind result_bind].
  rewrite decode_encode by done. cbn [mbind result_bind]. rewrite Hs. cbn [mbind result_bind].
  by rewrite request_payload_composite, Hs1.
Qed.

Lemma honest_answer : client_response client response = Ok (response_json (fx_upstream fixture)).
Proof.
  destruct Hrun as [_ _ _ _ _ _ _ (f & Ho & Hf)]. unfold client_response. rewrite Ho. cbn [mbind result_bind]. rewrite Hf.
  by rewrite decode_encode by apply Hready.
Qed.
End Honest.

(** One iteration that is ready: what it adds to the totals and to the cache. *)
Lemma ready_iteration fixture generated orchestrator b responseBytes x w :
  buildFixture generated orchestrator b responseBytes = Ok fixture -> ready fixture x w ->
  exists ex w', runIteration fixture x w = (w', Ok ex) /\
    w_totals w' = add_iteration (fold_left (fun t s => add_stage s (it_elapsed x s) t) STAGE_NAMES (w_totals w)) /\
    forall j, j ∈ keys (w_replay w') -> j = it_jti x \/ j ∈ keys (w_replay w).
Proof.
  intros Hb Hr. destruct (ready_run _ _ _ _ _ _ _ Hb Hr) as (accept & client & node & raw & response & t & replay & Hrun).
  destruct (ticket_passes fixture x w _ _ _ _ Hb Hr) as (t' & replay' & Hv & Hk). pose proof Hrun as [_ _ _ _ _ Hv' _ _].
  rewrite Hv in Hv'. injection Hv' as -> ->. eexists _, _. split; [by eapply honest_iteration|]. by split.
Qed.

Lemma fixture_plain generated orchestrator b responseBytes fixture : buildFixture generated orchestrator b responseBytes = Ok fixture ->
  cached (fx_upstream fixture) = None /\ res_profile_hash (fx_upstream fixture) = None.
Proof. unfold buildFixture. intros Hb. apply bind_ok in Hb as (k & _ & Hb). by apply Ok_inj in Hb as <-. Qed.
(** The round trip of the guard, and what it adds to the cache. *)
Lemma sanity_ok fixture generated orchestrator b responseBytes x w :
  buildFixture generated orchestrator b responseBytes = Ok fixture -> ready fixture x w ->
  exists replay, sanityRoundTrip fixture x (w_replay w) = Some (Ok tt, replay) /\
    forall j, j ∈ keys replay -> j = it_jti x \/ j ∈ keys (w_replay w).
Proof.
  intros Hb Hr. destruct (fixture_plain _ _ _ _ _ Hb) as [Hu1 Hu2].
  destruct (ready_run _ _ _ _ _ _ _ Hb Hr) as (accept & client & node & raw & response & t & replay & Hrun).
  destruct (ticket_passes fixture x w _ _ _ _ Hb Hr) as (t' & replay' & Hv & Hk). pose proof Hrun as [_ _ _ _ _ Hv' _ _].
  rewrite Hv in Hv'. injection Hv' as -> ->. exists replay. split; [|exact Hk].
  unfold sanityRoundTrip. erewrite server_waits by eassumption. erewrite honest_client by exact Hrun.
  erewrite honest_server by eassumption. erewrite honest_client by exact Hrun. cbn [snd mbind result_bind n_replay].
  erewrite honest_answer by eassumption. cbn [mbind result_bind].
  unfold check_response. change (get "type" (response_json (fx_upstream fixture))) with (Some (JStr "proxy_response")).
  rewrite (bool_decide_true (_ = Some (JStr "proxy_response"))) by reflexivity. cbn [negb throw_if mbind result_bind].
  change (text_field "body" (response_json (fx_upstream fixture))) with (toBase64 (res_body (fx_upstream fixture))).
  by rewrite fromBase64_toBase64, bool_decide_true.
Qed.
End Mirror.

(** ** Properties *)

(** C37: what the benchmark times is what production does: an iteration on a fixture whose
    ticket is new succeeds, adds the time of each of the five stages and one
    iteration, and with the same keys, nonces and clocks the real
    [serveDataConnection] sends the same accept message and the same sealed response,
    spends the same ticket and leaves the same replay cache, and the real
    [runDataRequest] sends the same sealed request and reads that response. *)
Theorem composite_mirrors_production `{HashingLaws} `{HkdfLaws} `{KeyExchangeLaws} `{PemKeys} `{!SigningLaws} `{AeadLaws} `{UrlApi}
    (fixture : Fixture) (generated : NodeIdentity) (orchestrator : SecretKey) (b : buffer) (responseBytes : Z) (x : IterationInput) (w : Workload) :
  buildFixture generated orchestrator b responseBytes = Ok fixture -> ready fixture x w ->
  let token := mintTicket fixture (it_issueClock x) (it_jti x) in
  exists ex w' request, runIteration fixture x w = (w', Ok ex) /\
    nodeNs (w_totals w') = nodeNs (w_totals w) + fold_left (fun n s => n + it_elapsed x s) STAGE_NAMES 0 /\
    iterations (w_totals w') = iterations (w_totals w) + 1 /\
    (forall c, serveDataConnection (production x (Ok (ex_request ex))) (stubbed fixture) {| n_replay := w_replay w; n_cache := c |} =
      ([Sent (encodeJson (ex_accept ex)); Sent (ex_response ex); Closed 1000],
       Ok (Answered (ex_ticket ex) request {| sv_result := Ok (fx_upstream fixture); sv_cache := c; sv_fetched := [] |}),
       {| n_replay := w_replay w'; n_cache := c |})) /\
    runDataRequest (it_clientClock x) (it_clientKey x) (it_clientNonce x) (it_requestNonce x) (it_clientTime x) NODE_ID
        (publicKeyPem (fx_identity fixture)) token request_of_params (Ok (encodeJson (ex_accept ex))) (Ok (ex_response ex)) =
      ([encodeJson (cd_message (createDataInit (it_clientKey x) (it_clientNonce x) NODE_ID (it_clientTime x))); ex_request ex],
       Ok (response_json (fx_upstream fixture))).
Proof.
  intros Hb Hr token. destruct (fixture_plain _ _ _ _ _ Hb) as [Hu1 Hu2].
  destruct (ready_run _ _ _ _ _ _ _ Hb Hr) as (accept & client & node & raw & response & t & replay & Hrun).
  eexists {| ex_accept := accept; ex_request := raw; ex_ticket := t; ex_response := response |}, _, _.
  split; [by eapply honest_iteration|]. cbn [w_replay w_totals ex_accept ex_request ex_ticket ex_response]. split; [|split; [reflexivity|split]].
  - change (nodeNs (add_iteration ?t)) with (nodeNs t). unfold STAGE_NAMES. cbn [fold_left]. rewrite !nodeNs_add. lia.
  - by eapply honest_server.
  - subst token. erewrite honest_client by exact Hrun. cbn [mbind result_bind]. by erewrite honest_answer.
Qed.

(** The pipe in memory keeps the order: the message that is sent as the k-th goes to
    the k-th who asks, whether the asking or the sending came first. *)
Theorem memory_pipe_fifo (ops : list pipe_op) : (pipe_run ops memoryPipe).2 = zip (pulled ops) (pushed ops).
Proof. by rewrite pipe_run_zip by (by left). Qed.

(** The guard passes: on a fixture whose ticket is new the round trip through the real
    pipeline ends without an error and its body is that of the fixture. *)
Theorem sanity_round_trip `{HashingLaws} `{HkdfLaws} `{KeyExchangeLaws} `{PemKeys} `{!SigningLaws} `{AeadLaws} `{UrlApi}
    (fixture : Fixture) (generated : NodeIdentity) (orchestrator : SecretKey) (b : buffer) (responseBytes : Z) (x : IterationInput) (w : Workload) :
  buildFixture generated orchestrator b responseBytes = Ok fixture -> ready fixture x w ->
  exists replay, sanityRoundTrip fixture x (w_replay w) = Some (Ok tt, replay).
Proof.
  intros Hb Hr. destruct (sanity_ok _ _ _ _ _ _ _ Hb Hr) as (replay & Hs & _). by exists replay.
Qed.

(** ** A concrete iteration *)

Module CompositeDemo.
Import Toy ToyPem.
Definition identity : NodeIdentity := {| privateKeyPem := "7"; publicKeyPem := "7" |}.
Definition key : string := ok_or "" (@generateDedupeKey Toy.hashing ToyUrl.api requestDedupeParams).
Definition fixture : @Fixture Toy.signing :=
  @Build_Fixture Toy.signing identity 3 key (upstream_result (utf8 "hi") 2).
Definition input_for (j : string) : @IterationInput Toy.key_exchange :=
  @Build_IterationInput Toy.key_exchange 5 (be_encode 16 21) 999 j 1000000 11 (be_encode 16 22) 1000 1000000 (be_encode 12 9) 1010000 (be_encode 12 6)
    (fun _ => 7).
Definition input : @IterationInput Toy.key_exchange := input_for "j1".
Definition fits_for (j : string) : bool :=
  let p := composite_payload (@mintTicket Toy.signing fixture 1000000 j) in
  wf_json p && (Z.of_nat (length (encodeJson p)) <=? 0xffffffff).
Definition workload : Workload := {| w_replay := new_cache 100000; w_totals := newStageTotals |}.
End CompositeDemo.

Lemma composite_built : @buildFixture Toy.hashing Toy.signing ToyUrl.api CompositeDemo.identity 3 (utf8 "hi") 2 = Ok CompositeDemo.fixture.
Proof.
  unfold buildFixture. rewrite (ok_or_ok "" (@generateDedupeKey Toy.hashing ToyUrl.api requestDedupeParams)) by (vm_compute; reflexivity). reflexivity.
Qed.

Lemma ready_for j w : j <> "" -> j ∉ keys (w_replay w) -> CompositeDemo.fits_for j = true ->
  @ready Toy.key_exchange Toy.signing ToyPem.pem_keys CompositeDemo.fixture (CompositeDemo.input_for j) w.
Proof.
  unfold CompositeDemo.fits_for. cbv zeta. intros Hj Hk Hf. rewrite andb_true_iff, Z.leb_le in Hf. destruct Hf as [Hf1 Hf2]. split.
  - exists (7 : @SecretKey Toy.signing). split; reflexivity.
  - vm_compute. split; lia.
  - vm_compute. by split.
  - split; vm_compute; reflexivity.
  - vm_compute. split; discriminate.
  - split; vm_compute; reflexivity.
  - vm_compute. split; discriminate.
  - split; [done|]. intros Hs. apply Hk. by eapply sweep_keys_subset.
  - by split.
  - split; [vm_compute; reflexivity|]. vm_compute. discriminate.
Qed.

Lemma composite_ready : @ready Toy.key_exchange Toy.signing ToyPem.pem_keys CompositeDemo.fixture CompositeDemo.input CompositeDemo.workload.
Proof. apply ready_for; [done|apply not_elem_of_nil|vm_compute; reflexivity]. Qed.

Lemma composite_mirrors_production_witness : exists ex w',
  @runIteration Toy.hashing Toy.hkdf_toy Toy.key_exchange Toy.signing ToyPem.pem_keys Toy.aead ToyUrl.api CompositeDemo.fixture CompositeDemo.input
    CompositeDemo.workload = (w', Ok ex) /\ nodeNs (w_totals w') = 35 /\ iterations (w_totals w') = 1.
Proof.
  destruct (@composite_mirrors_production Toy.hashing Toy.hashing_laws Toy.hkdf_toy Toy.hkdf_laws Toy.key_exchange Toy.key_exchange_laws Toy.signing
    ToyPem.pem_keys Toy.signing_laws Toy.aead Toy.aead_laws ToyUrl.api CompositeDemo.fixture CompositeDemo.identity 3 (utf8 "hi") 2 CompositeDemo.input
    CompositeDemo.workload composite_built composite_ready) as (ex & w' & _ & Hi & Hn & Hit & _).
  exists ex, w'. split; [exact Hi|]. split; [exact Hn|exact Hit].
Defined.

Lemma sanity_round_trip_witness : exists replay,
  @sanityRoundTrip Toy.hashing Toy.hkdf_toy Toy.key_exchange Toy.signing ToyPem.pem_keys Toy.aead ToyUrl.api CompositeDemo.fixture CompositeDemo.input
    (new_cache 100000) = Some (Ok tt, replay).
Proof.
  exact (@sanity_round_trip Toy.hashing Toy.hashing_laws Toy.hkdf_toy Toy.hkdf_laws Toy.key_exchange Toy.key_exchange_laws Toy.signing
    ToyPem.pem_keys Toy.signing_laws Toy.aead Toy.aead_laws ToyUrl.api CompositeDemo.fixture CompositeDemo.identity 3 (utf8 "hi") 2 CompositeDemo.input
    CompositeDemo.workload composite_built composite_ready).
Defined.
