(* ===== verification/CompositeRun.v ===== *)
(** * The composite request benchmark: its measurement
    (runtime/benchmarks/suites/composite-request.ts)

    [Composite.runIteration] run in the loops of [measureSize], on the clock of
    [Runner].  [inputs n] is what the environment supplies to the n-th iteration. *)

From S2P Require Import Prelude Effect Text Json JsonText Crypto CanonicalJson SecureChannel DataHandshake Ticket Base64 Paseto Replay Url Dedupe RequestTicket ProxyServe DataPlane Composite Double Runner Suites.
Local Open Scope Z_scope.

Record CompositeSizeConfig := { cs_label : string; cs_response_bytes : Z; cs_inner : option Z }.
Definition DEFAULT_COMPOSITE_SIZES : list CompositeSizeConfig :=
  [{| cs_label := "1KB"; cs_response_bytes := 1024; cs_inner := None |}; {| cs_label := "16KB"; cs_response_bytes := 16384; cs_inner := None |};
   {| cs_label := "256KB"; cs_response_bytes := 262144; cs_inner := None |}].
Definition TARGET_SAMPLE_MS : Z := 8.
Definition MAX_INNER : Z := 64.

Record CompositeRequestOptions := { co_sizes : option (list CompositeSizeConfig); co_warmupMs : option Z; co_measureMs : option Z }.

Record CompositeStageStats := { mean_ns : double; share : double }.
Record CompositeRequestSubResult := {
  response_size_bytes : Z; exchange : BenchResult; node_requests_per_second : double; node_ns_per_request : double;
  stages : CompositeStageName -> CompositeStageStats; sub_reliable : bool }.
Record CompositeRequestResult := { cr_results : list CompositeRequestSubResult; requests_per_second : double; cr_reliable : bool }.

(** The iterations of a sample: as many as fill the target at the pace of the warmup. *)
Definition tuned_inner (config : option Z) (warmupNsPerExchange : double) : Z :=
  default (to_Z (dmax (of_Z 1) (dmin (of_Z MAX_INNER) (dround (of_Z (TARGET_SAMPLE_MS * 1000000) / warmupNsPerExchange)%D)))) config.

(** The result of [measureSize] from its totals. *)
Definition size_result (responseBytes : Z) (b : BenchResult) (t : StageTotals) : CompositeRequestSubResult :=
  let mean ns := if 0 <? iterations t then (of_Z ns / of_Z (iterations t))%D else zero in
  let nodeNsPerRequest := mean (nodeNs t) in
  {| response_size_bytes := responseBytes; exchange := b;
     node_requests_per_second := if dltb zero nodeNsPerRequest then (of_Z 1000000000 / nodeNsPerRequest)%D else zero;
     node_ns_per_request := dround nodeNsPerRequest;
     stages := fun s => {| mean_ns := dround (mean (stage_ns t s));
                           share := if dltb zero nodeNsPerRequest then (mean (stage_ns t s) / nodeNsPerRequest)%D else zero |};
     sub_reliable := reliable b |}.

(** A loop that makes a step for each reading of the clock before its end: the next
    reading, the steps and the state. *)
Fixpoint while_before {S A} (fuel : nat) (step : nat -> S -> S * result A) (clk : nat -> Z) (loopEnd : Z) (i n : nat) (s : S)
  : option (result (nat * nat * S)) :=
  match fuel with
  | O => None
  | Datatypes.S fuel =>
      if clk i <? loopEnd then
        match step n s with
        | (_, Throw e) => Some (Throw e)
        | (s, Ok _) => while_before fuel step clk loopEnd (Datatypes.S i) (Datatypes.S n) s
        end
      else Some (Ok (Datatypes.S i, n, s))
  end.

Section Measure.
Context `{Hashing} `{Hkdf} `{KeyExchange} `{PemKeys} `{Aead} `{UrlApi}.

(** [n] iterations from the [i]-th on. *)
Fixpoint run_iterations (fixture : Fixture) (inputs : nat -> IterationInput) (n i : nat) (w : Workload) : Workload * result unit :=
  match n with
  | O => (w, Ok tt)
  | S n =>
      match runIteration fixture (inputs i) w with
      | (w, Throw e) => (w, Throw e)
      | (w, Ok _) => run_iterations fixture inputs n (S i) w
      end
  end.

(** The calls that [bench] makes, from the iteration [start] and the state there. *)
Definition sample_call (fixture : Fixture) (inputs : nat -> IterationInput) (inner : Z) (start : nat) (w : Workload) (k : nat) : result double :=
  let done := (k * Z.to_nat inner)%nat in
  (run_iterations fixture inputs (Z.to_nat inner) (start + done) (run_iterations fixture inputs done start w).1).2;;
  Ok (of_Z inner).

(** With the workload and the number of measured iterations at the end. *)
Definition measureSize (fuel : nat) (clk : nat -> Z) (inputs : nat -> IterationInput) (size : CompositeSizeConfig) (fixture : Fixture)
  (opts : CompositeRequestOptions) (replay : JtiReplayCache) : option (result (CompositeRequestSubResult * StageTotals * (nat * nat))) :=
  let warmupEnd := clk 0%nat + default 200 (co_warmupMs opts) * 1000000 in
  match while_before fuel (fun n => runIteration fixture (inputs n)) clk warmupEnd 1 0 {| w_replay := replay; w_totals := newStageTotals |} with
  | None => None
  | Some (Throw e) => Some (Throw e)
  | Some (Ok (i, n, w)) =>
      let inner := tuned_inner (cs_inner size) (of_Z (clk i - clk 0%nat) / of_Z (Z.max 1 (Z.of_nat n)))%D in
      let w := {| w_replay := w_replay w; w_totals := resetStageTotals (w_totals w) |} in
      returned (fun '(b, k) =>
          let measured := (k * Z.to_nat inner)%nat in
          let t := w_totals (run_iterations fixture inputs measured n w).1 in
          (size_result (cs_response_bytes size) b t, t, (n, measured)))
        (bench_run fuel {| clock := fun j => clk (S i + j)%nat; calls := sample_call fixture inputs inner n w |}
           {| bo_name := "composite-request-" +:+ cs_label size; bo_warmupMs := Some 0; bo_measureMs := Some (default 1000 (co_measureMs opts));
              bo_minSamples := None; bo_maxSamples := None |})
  end.

(** What the environment supplies for one size. *)
Record SizeInput := {
  si_identity : NodeIdentity; si_orchestrator : SecretKey; si_body : buffer; si_sanity : IterationInput;
  si_inputs : nat -> IterationInput; si_clock : nat -> Z }.

(** One round of the loop of [runCompositeRequest]. *)
Definition composite_size (fuel : nat) (opts : CompositeRequestOptions) (size : CompositeSizeConfig) (x : SizeInput)
  : option (result CompositeRequestSubResult) :=
  match buildFixture (si_identity x) (si_orchestrator x) (si_body x) (cs_response_bytes size) with
  | Throw e => Some (Throw e)
  | Ok fixture =>
      match sanityRoundTrip fixture (si_sanity x) (new_cache 100000) with
      | None => None
      | Some (Throw e, _) => Some (Throw e)
      | Some (Ok _, replay) => returned (fun r => r.1.1) (measureSize fuel (si_clock x) (si_inputs x) size fixture opts replay)
      end
  end.

Fixpoint composite_sizes (fuel : nat) (opts : CompositeRequestOptions) (env : CompositeSizeConfig -> SizeInput) (sizes : list CompositeSizeConfig)
  : option (result (list CompositeRequestSubResult)) :=
  match sizes with
  | [] => Some (Ok [])
  | size :: rest =>
      match composite_size fuel opts size (env size) with
      | None => None
      | Some (Throw e) => Some (Throw e)
      | Some (Ok r) => returned (cons r) (composite_sizes fuel opts env rest)
      end
  end.

Definition runCompositeRequest (fuel : nat) (opts : CompositeRequestOptions) (env : CompositeSizeConfig -> SizeInput)
  : option (result CompositeRequestResult) :=
  returned (fun results =>
      let headline := match list_find (fun r => response_size_bytes r = 16384) results with Some (_, r) => Some r | None => last results end in
      {| cr_results := results;
         requests_per_second := match headline with Some r => node_requests_per_second r | None => zero end;
         cr_reliable := forallb sub_reliable results |})
    (composite_sizes fuel opts env (default DEFAULT_COMPOSITE_SIZES (co_sizes opts))).
End Measure.

(** ** Lemmas *)

(** An invariant of the loop, indexed by the number of steps. *)
Lemma while_before_ok {S A} (I : nat -> S -> Prop) (N : nat) (step : nat -> S -> S * result A) clk loopEnd fuel i n s :
  (forall n, 0 < clk (Datatypes.S n) - clk n) ->
  (forall n s, I n s -> (n < N)%nat -> exists s' a, step n s = (s', Ok a) /\ I (Datatypes.S n) s') ->
  I n s -> (n + Z.to_nat (loopEnd - clk i) <= N)%nat -> (0 < fuel)%nat -> loopEnd - clk i < Z.of_nat fuel ->
  exists i' n' s', while_before fuel step clk loopEnd i n s = Some (Ok (i', n', s')) /\ I n' s' /\ (i < i')%nat /\
    (n' <= n + Z.to_nat (loopEnd - clk i))%nat.
Proof.
  intros Hc Hstep. revert i n s. induction fuel as [|fuel IH]; intros i n s Hb HN Hz Hf; cbn [while_before]; [lia|].
  destruct (Z.ltb_spec (clk i) loopEnd) as [Hl|Hl]; [|exists (Datatypes.S i), n, s; split_and!; [done|done|lia|lia]].
  destruct (Hstep n s Hb ltac:(lia)) as (s1 & a & -> & Hb1). specialize (Hc i).
  destruct (IH (Datatypes.S i) (Datatypes.S n) s1 Hb1) as (i' & n' & s' & Hw & Hb' & Hi & Hn'); [lia..|]. exists i', n', s'. split_and!; [done|done|lia|lia].
Qed.

Lemma while_before_more {S A} fuel fuel' (step : nat -> S -> S * result A) clk loopEnd i n s r : (fuel <= fuel')%nat ->
  while_before fuel step clk loopEnd i n s = Some r -> while_before fuel' step clk loopEnd i n s = Some r.
Proof.
  revert fuel' i n s. induction fuel as [|fuel IH]; intros [|fuel'] i n s Hf; cbn [while_before]; try done; [lia|].
  destruct (_ <? _); [|done]. destruct (step _ _) as [s' [|]]; [|done]. apply IH. lia.
Qed.

Section Lemmas.
Context `{HashingLaws} `{HkdfLaws} `{KeyExchangeLaws} `{PemKeys} `{!SigningLaws} `{AeadLaws} `{UrlApi}.
Variables (fixture : Fixture) (generated : NodeIdentity) (orchestrator : SecretKey) (b : buffer) (responseBytes : Z) (inputs : nat -> IterationInput)
  (replay : JtiReplayCache) (N : nat).
Hypothesis Hbuilt : buildFixture generated orchestrator b responseBytes = Ok fixture.
(** The first [N] iterations are ready once their ticket is new, no two of those tickets
    are alike and none is in the cache. *)
Record fresh_inputs : Prop := {
  fi_ready : forall n w, (n < N)%nat -> it_jti (inputs n) ∉ keys (w_replay w) -> ready fixture (inputs n) w;
  fi_distinct : forall m n, (m < n < N)%nat -> it_jti (inputs m) <> it_jti (inputs n);
  fi_new : forall n, (n < N)%nat -> it_jti (inputs n) ∉ keys replay }.
Hypothesis Hfresh : fresh_inputs.

(** The cache after the iterations before the [i]-th. *)
Definition before (i : nat) (w : Workload) : Prop :=
  forall j, j ∈ keys (w_replay w) -> j ∈ keys replay \/ exists m, (m < i)%nat /\ j = it_jti (inputs m).

Lemma before_fresh i w : before i w -> (i < N)%nat -> it_jti (inputs i) ∉ keys (w_replay w).
Proof.
  intros Hb Hi Hj. destruct (Hb _ Hj) as [Hr|(m & Hm & Hr)]; [by apply (fi_new Hfresh i)|].
  by apply (fi_distinct Hfresh m i); [lia|].
Qed.

(** What the iterations [i], ..., [i + n - 1] add to a stage. *)
Fixpoint elapsed (s : CompositeStageName) (n i : nat) : Z :=
  match n with O => 0 | S n => it_elapsed (inputs i) s + elapsed s n (S i) end.

Lemma add_stages x t s : stage_ns (fold_left (fun t s => add_stage s (it_elapsed x s) t) STAGE_NAMES t) s = stage_ns t s + it_elapsed x s.
Proof. unfold STAGE_NAMES. cbn [fold_left]. unfold add_stage. cbn [stage_ns]. destruct s; repeat (case_decide; try done). Qed.

Lemma step_before i w : before i w -> (i < N)%nat -> exists ex w', runIteration fixture (inputs i) w = (w', Ok ex) /\ before (S i) w' /\
  iterations (w_totals w') = iterations (w_totals w) + 1 /\
  forall s, stage_ns (w_totals w') s = stage_ns (w_totals w) s + it_elapsed (inputs i) s.
Proof.
  intros Hb Hi. destruct (ready_iteration _ _ _ _ _ (inputs i) w Hbuilt (fi_ready Hfresh i w Hi (before_fresh i w Hb Hi))) as (ex & w' & Hr & Ht & Hk).
  exists ex, w'. split; [done|]. split; [|split].
  - intros j Hj. destruct (Hk j Hj) as [->|Hj']; [right; exists i; split; [lia|done]|].
    destruct (Hb j Hj') as [|(m & Hm & ->)]; [by left|right; exists m; split; [lia|done]].
  - by rewrite Ht.
  - intros s. rewrite Ht. apply add_stages.
Qed.

Lemma run_iterations_ok n i w : before i w -> (i + n <= N)%nat -> exists w', run_iterations fixture inputs n i w = (w', Ok tt) /\ before (i + n) w' /\
  iterations (w_totals w') = iterations (w_totals w) + Z.of_nat n /\
  forall s, stage_ns (w_totals w') s = stage_ns (w_totals w) s + elapsed s n i.
Proof.
  revert i w. induction n as [|n IH]; intros i w Hb HN; cbn [run_iterations elapsed].
  - exists w. rewrite Nat.add_0_r. split_and!; [done|done|lia|intros; lia].
  - destruct (step_before i w Hb ltac:(lia)) as (ex & w1 & -> & Hb1 & Hn1 & Hs1). destruct (IH (S i) w1 Hb1 ltac:(lia)) as (w' & Hr & Hb' & Hn' & Hs').
    exists w'. split; [done|]. replace (i + S n)%nat with (S i + n)%nat by lia. split; [done|]. split; [lia|].
    intros s. rewrite Hs', Hs1. lia.
Qed.

Lemma sample_counts inner start w k : before start w -> 0 < inner < 2 ^ 53 -> (start + S k * Z.to_nat inner <= N)%nat ->
  exists ops, sample_call fixture inputs inner start w k = Ok ops /\ dltb zero ops = true.
Proof.
  intros Hb Hi HN. unfold sample_call. cbv zeta. destruct (run_iterations_ok (k * Z.to_nat inner) start w Hb ltac:(lia)) as (w1 & -> & Hb1 & _). cbn [fst].
  destruct (run_iterations_ok (Z.to_nat inner) _ w1 Hb1 ltac:(lia)) as (w2 & -> & _). exists (of_Z inner). split; [done|]. by apply of_Z_positive.
Qed.
End Lemmas.

Lemma clock_increases (clk : nat -> Z) i j : (forall n, 0 < clk (S n) - clk n) -> (i < j)%nat -> clk i < clk j.
Proof. intros Hc. induction 1 as [|j Hj IH]; [specialize (Hc i); lia|]. specialize (Hc j). lia. Qed.

(** The iterations that a measurement may need: those of the warmup, at most one a
    nanosecond, and 200 samples. *)
Definition iteration_bound (size : CompositeSizeConfig) (opts : CompositeRequestOptions) : nat :=
  (Z.to_nat (default 200%Z (co_warmupMs opts) * 1000000) + 200 * Z.to_nat (default 64%Z (cs_inner size)))%nat.

Lemma measure_ends `{HashingLaws} `{HkdfLaws} `{KeyExchangeLaws} `{PemKeys} `{!SigningLaws} `{AeadLaws} `{UrlApi}
    (fixture : Fixture) (generated : NodeIdentity) (orchestrator : SecretKey) (b : buffer) (responseBytes : Z) (inputs : nat -> IterationInput)
    (replay : JtiReplayCache) (clk : nat -> Z) (size : CompositeSizeConfig) (opts : CompositeRequestOptions) :
  buildFixture generated orchestrator b responseBytes = Ok fixture -> fresh_inputs fixture inputs replay (iteration_bound size opts) ->
  (forall n, 0 < clk (S n) - clk n < 2 ^ 53) -> default 200 (co_warmupMs opts) <= 1000000000 -> (forall z, cs_inner size = Some z -> 0 < z < 2 ^ 53) ->
  exists fuel r t n measured, (forall fuel', (fuel <= fuel')%nat -> measureSize fuel' clk inputs size fixture opts replay = Some (Ok (r, t, (n, measured)))) /\
    iterations t = Z.of_nat measured /\ (forall s, stage_ns t s = elapsed inputs s measured n) /\
    r = size_result (cs_response_bytes size) (exchange r) t /\ 10 <= samples (exchange r) <= 200.
Proof.
  intros Hb Hr Hc Hwm Hs. set (N := iteration_bound size opts) in *.
  set (w0 := {| w_replay := replay; w_totals := newStageTotals |}). set (wEnd := clk 0%nat + default 200 (co_warmupMs opts) * 1000000).
  set (f1 := S (Z.to_nat (wEnd - clk 1%nat))). pose proof (Hc 0%nat) as Hc0.
  destruct (while_before_ok (before inputs replay) N (fun n => runIteration fixture (inputs n)) clk wEnd f1 1 0 w0) as (i & n & w & Hw & Hwb & Hi0 & Hnf);
    [intros m; apply Hc| |intros j Hj; by left|subst N; unfold iteration_bound; lia|subst f1; lia|subst f1; lia|].
  { intros m s Hm HmN. destruct (step_before _ _ _ _ _ _ _ _ Hb Hr m s Hm HmN) as (ex & s' & Hrun & Hm' & _). by exists s', ex. }
  set (inner := tuned_inner (cs_inner size) (of_Z (clk i - clk 0%nat) / of_Z (Z.max 1 (Z.of_nat n)))%D).
  set (w1 := {| w_replay := w_replay w; w_totals := resetStageTotals (w_totals w) |}).
  assert (Hw1 : before inputs replay n w1) by exact Hwb.
  assert (Hclk : clk 0%nat < clk i) by (eapply clock_increases; [intros m; apply Hc|lia]).
  assert (Hinner : 0 < inner < 2 ^ 53 /\ inner <= default 64 (cs_inner size)).
  { subst inner. unfold tuned_inner. destruct (cs_inner size) as [z|] eqn:Ez; [split; [by apply Hs|done]|].
    match goal with |- 0 < ?x < _ /\ _ => enough (1 <= x <= 64) by (cbn [default from_option id] in *; lia) end.
    apply clamp_round, ddiv_of_positive; [done|done|]. apply ddiv_by_positive; [apply of_Z_nonneg; lia|apply of_Z_positive; lia..]. }
  destruct Hinner as [Hinner Hmax]. assert (HN : (n + 200 * Z.to_nat inner <= N)%nat) by (subst N; unfold iteration_bound; lia).
  set (e := {| clock := fun j => clk (S i + j)%nat; calls := sample_call fixture inputs inner n w1 |}).
  set (o := {| bo_name := "composite-request-" +:+ cs_label size; bo_warmupMs := Some 0; bo_measureMs := Some (default 1000 (co_measureMs opts));
    bo_minSamples := None; bo_maxSamples := None |}).
  assert (Hadv : forall k, 0 < clock e (S k) - clock e k < 2 ^ 53).
  { intros k. cbn [clock e]. replace (S i + S k)%nat with (S (S i + k)) by lia. apply Hc. }
  destruct (bench_returns_within e o) as (f2 & r & k & Hbr & Hk); [|exact Hadv|].
  { intros k Hk. eapply sample_counts; [exact Hb|exact Hr|exact Hw1|done|]. change (call_bound o) with 200%nat in Hk. nia. }
  change (call_bound o) with 200%nat in Hk. 
  assert (Hsm : 10 <= samples r <= 200).
  { destruct (bench_report f2 e o r) as (l & mEnd & d & -> & _ & Hen & Hlen); [by unfold bench; rewrite Hbr|intros m; apply Hadv|].
    change (default 10 (bo_minSamples o)) with 10 in *. change (default 200 (bo_maxSamples o)) with 200 in *.
    assert (Hs' : samples (report (bo_name o) 10 l d) = Z.of_nat (length l)) by (by destruct l). rewrite Hs'. destruct Hen as [|[]]; lia. }
  destruct (run_iterations_ok fixture generated orchestrator b responseBytes inputs replay N Hb Hr (k * Z.to_nat inner) n w1 Hw1) as (w2 & Hw2 & _ & Hit & Hst2);
    [nia|].
  exists (f1 + f2)%nat. eexists (size_result (cs_response_bytes size) r (w_totals w2)), (w_totals w2), n, (k * Z.to_nat inner)%nat. split; [|split; [|split; [|split]]].
  - intros F HF. pose proof (bench_run_more f2 F e o _ ltac:(lia) Hbr) as Ek. unfold measureSize. fold wEnd w0. rewrite (while_before_more f1 F _ _ _ _ _ _ _ ltac:(lia) Hw). fold inner w1 e o.
    rewrite Ek. cbn [returned]. by rewrite Hw2.
  - rewrite Hit. cbn. lia.
  - intros s. rewrite Hst2. done.
  - done.
  - exact Hsm.
Qed.

(** What a size of the suite depends on: a fixture that can be built, tickets that are
    new and a clock that advances. *)
Record size_ready `{Hashing} `{KeyExchange} `{PemKeys} `{UrlApi} (opts : CompositeRequestOptions) (size : CompositeSizeConfig) (x : SizeInput) : Prop := {
  sz_fixture : exists fixture, buildFixture (si_identity x) (si_orchestrator x) (si_body x) (cs_response_bytes size) = Ok fixture /\
    ready fixture (si_sanity x) {| w_replay := new_cache 100000; w_totals := newStageTotals |} /\
    fresh_inputs fixture (si_inputs x) (new_cache 100000) (iteration_bound size opts);
  sz_distinct : forall n, (n < iteration_bound size opts)%nat -> it_jti (si_inputs x n) <> it_jti (si_sanity x);
  sz_clock : forall n, 0 < si_clock x (S n) - si_clock x n < 2 ^ 53;
  sz_inner : forall z, cs_inner size = Some z -> 0 < z < 2 ^ 53 }.

Lemma fresh_after_sanity `{KeyExchange} `{PemKeys} fixture inputs x replay N :
  fresh_inputs fixture inputs (new_cache 100000) N -> (forall n, (n < N)%nat -> it_jti (inputs n) <> it_jti x) ->
  (forall j, j ∈ keys replay -> j = it_jti x \/ j ∈ keys (new_cache 100000)) -> fresh_inputs fixture inputs replay N.
Proof.
  intros [Hf1 Hf2 _] Hs Hk. split; [done..|]. intros n Hn [Hj|Hj]%Hk; [by apply (Hs n Hn)|by apply not_elem_of_nil in Hj].
Qed.

Lemma size_ends `{HashingLaws} `{HkdfLaws} `{KeyExchangeLaws} `{PemKeys} `{!SigningLaws} `{AeadLaws} `{UrlApi} opts size x :
  size_ready opts size x -> default 200 (co_warmupMs opts) <= 1000000000 ->
  exists fuel r, (forall fuel', (fuel <= fuel')%nat -> composite_size fuel' opts size x = Some (Ok r)) /\ response_size_bytes r = cs_response_bytes size.
Proof.
  intros [(fixture & Hb & Hr & Hf) Hd Hc Hi] Hw. destruct (sanity_ok _ _ _ _ _ _ _ Hb Hr) as (replay & Hs & Hk). cbn [w_replay] in Hs, Hk.
  destruct (measure_ends fixture _ _ _ _ (si_inputs x) replay (si_clock x) size opts Hb (fresh_after_sanity _ _ _ _ _ Hf Hd Hk) Hc Hw Hi)
    as (fuel & r & t & n & m & Hm & _ & _ & Hsz & _).
  exists fuel, r. split; [|by rewrite Hsz]. intros fuel' Hfu. unfold composite_size. rewrite Hb, Hs, Hm by done. done.
Qed.

Lemma sizes_end `{HashingLaws} `{HkdfLaws} `{KeyExchangeLaws} `{PemKeys} `{!SigningLaws} `{AeadLaws} `{UrlApi} opts env sizes :
  Forall (fun size => size_ready opts size (env size)) sizes -> default 200 (co_warmupMs opts) <= 1000000000 ->
  exists fuel rs, (forall fuel', (fuel <= fuel')%nat -> composite_sizes fuel' opts env sizes = Some (Ok rs)) /\
    map response_size_bytes rs = map cs_response_bytes sizes.
Proof.
  intros Hs Hw. induction Hs as [|size sizes Hr Hs (f2 & rs & R2 & E2)]; [by exists 0%nat, []|].
  destruct (size_ends opts size (env size) Hr Hw) as (f1 & r & R1 & E1). exists (Nat.max f1 f2), (r :: rs).
  split; [|cbn; by rewrite E1, E2]. intros fuel' Hf. cbn [composite_sizes]. rewrite R1 by lia. by rewrite R2 by lia.
Qed.

(** The suite ends, with a result for each size. *)
Lemma composite_ends `{HashingLaws} `{HkdfLaws} `{KeyExchangeLaws} `{PemKeys} `{!SigningLaws} `{AeadLaws} `{UrlApi} opts env :
  Forall (fun size => size_ready opts size (env size)) (default DEFAULT_COMPOSITE_SIZES (co_sizes opts)) -> default 200 (co_warmupMs opts) <= 1000000000 ->
  exists fuel r, (forall fuel', (fuel <= fuel')%nat -> runCompositeRequest fuel' opts env = Some (Ok r)) /\
    map response_size_bytes (cr_results r) = map cs_response_bytes (default DEFAULT_COMPOSITE_SIZES (co_sizes opts)).
Proof.
  intros Hs Hw. destruct (sizes_end opts env _ Hs Hw) as (fuel & rs & R & E). exists fuel. eexists.
  split; [intros fuel' Hf; unfold runCompositeRequest; rewrite R by done; reflexivity|exact E].
Qed.

(** ** Properties *)

(** The measured iterations, and no others, make up the result: with tickets that are
    all new and a clock that advances, [measureSize] returns, and its totals are the
    number of iterations that [bench] ran and, for each stage, the sum of the times of
    exactly those iterations; those of the warmup do not count.  The pipeline never
    stops a measurement. *)
Theorem measured_totals `{HashingLaws} `{HkdfLaws} `{KeyExchangeLaws} `{PemKeys} `{!SigningLaws} `{AeadLaws} `{UrlApi}
    (fixture : Fixture) (generated : NodeIdentity) (orchestrator : SecretKey) (b : buffer) (responseBytes : Z) (inputs : nat -> IterationInput)
    (replay : JtiReplayCache) (clk : nat -> Z) (size : CompositeSizeConfig) (opts : CompositeRequestOptions) :
  buildFixture generated orchestrator b responseBytes = Ok fixture -> fresh_inputs fixture inputs replay (iteration_bound size opts) ->
  (forall n, 0 < clk (S n) - clk n < 2 ^ 53) -> default 200 (co_warmupMs opts) <= 1000000000 -> (forall z, cs_inner size = Some z -> 0 < z < 2 ^ 53) ->
  exists fuel r t n measured, measureSize fuel clk inputs size fixture opts replay = Some (Ok (r, t, (n, measured))) /\
    iterations t = Z.of_nat measured /\ (forall s, stage_ns t s = elapsed inputs s measured n) /\
    r = size_result (cs_response_bytes size) (exchange r) t /\ 10 <= samples (exchange r) <= 200.
Proof.
  intros Hb Hr Hc Hw Hi. destruct (measure_ends fixture generated orchestrator b responseBytes inputs replay clk size opts Hb Hr Hc Hw Hi)
    as (fuel & r & t & n & measured & Hm & H'). exists fuel, r, t, n, measured. split; [by apply Hm|exact H'].
Qed.

(** ** A concrete measurement *)

Module MeasureDemo.
(** Tickets with binary ids; the clock of [RunnerDemo]. *)
Fixpoint binary (p : positive) : string := match p with xH => "1" | xO p => String "0" (binary p) | xI p => String "1" (binary p) end.
Definition id_of (n : nat) : string := binary (Pos.of_succ_nat n).
Definition inputs (n : nat) : @IterationInput Toy.key_exchange := CompositeDemo.input_for (id_of n).
Definition size : CompositeSizeConfig := {| cs_label := "demo"; cs_response_bytes := 2; cs_inner := Some 1 |}.
Definition opts : CompositeRequestOptions := {| co_sizes := None; co_warmupMs := Some 0; co_measureMs := Some 20 |}.
End MeasureDemo.

Lemma binary_length p k : Z.pos p < 2 ^ Z.of_nat k -> (String.length (MeasureDemo.binary p) <= k)%nat.
Proof.
  revert k. induction p as [p IH|p IH|]; intros [|k] Hp; cbn [MeasureDemo.binary String.length]; try (cbn in Hp; lia).
  - specialize (IH k). rewrite Nat2Z.inj_succ, Z.pow_succ_r in Hp by lia. lia.
  - specialize (IH k). rewrite Nat2Z.inj_succ, Z.pow_succ_r in Hp by lia. lia.
Qed.

Lemma binary_inj p q : MeasureDemo.binary p = MeasureDemo.binary q -> p = q.
Proof.
  revert q. induction p as [p IH|p IH|]; intros [q|q|]; cbn [MeasureDemo.binary]; intros E; try discriminate E; try reflexivity.
  1, 3: injection E as E; f_equal; by apply IH.
  all: injection E as E; first [by destruct p|by destruct q].
Qed.

Lemma id_of_length n : Z.of_nat n < 2 ^ 62 -> (String.length (MeasureDemo.id_of n) <= 63)%nat.
Proof. intros Hn. apply binary_length. rewrite Zpos_P_of_succ_nat. change (2 ^ Z.of_nat 63) with (2 * 2 ^ 62). lia. Qed.

Lemma id_of_nonempty n : MeasureDemo.id_of n <> "".
Proof. unfold MeasureDemo.id_of. by destruct (Pos.of_succ_nat n). Qed.

Lemma quote_body_max s : (String.length (quote_body s) <= 6 * String.length s)%nat.
Proof.
  induction s as [|c s IH]; cbn [quote_body String.length]; [done|]. rewrite str_app_length.
  enough (String.length (quote_char c) <= 6)%nat by lia. unfold quote_char, hex2.
  repeat case_decide; try (cbn; lia). cbv zeta. case_match; cbn; lia.
Qed.
Lemma toBase64url_max b : (String.length (toBase64url b) <= 2 * length b)%nat.
Proof.
  unfold toBase64url. assert (H : (length (to_sextets b) <= 2 * length b)%nat) by (induction b as [| | |x y z b IH] using list_ind3; cbn [to_sextets length]; lia).
  etransitivity; [|exact H]. generalize (to_sextets b) as l. induction l as [|v l IH]; cbn; lia.
Qed.

Lemma concat_length_max {A} (f : A -> string) (l : list A) :
  (String.length (String.concat "," (map f l)) <= list_sum (map (fun x => S (String.length (f x))) l))%nat.
Proof.
  induction l as [|x [|y l] IH]; [done|cbn; lia|]. change (map f (x :: y :: l)) with (f x :: map f (y :: l)).
  rewrite (map_cons (fun x => S _)), list_sum_cons. change (String.concat "," (f x :: map f (y :: l))) with (f x +:+ "," +:+ String.concat "," (map f (y :: l))).
  rewrite !str_app_length. cbn [String.length]. lia.
Qed.

(** An upper bound of the text of an object of texts. *)
Definition member_max (kv : string * json) : nat :=
  7 + 6 * String.length kv.1 + match kv.2 with JStr s => 2 + 6 * String.length s | v => String.length (stringify v) end.
Lemma object_max l : (String.length (stringify (JObj l)) <= 2 + list_sum (map member_max l))%nat.
Proof.
  cbn [stringify]. rewrite !str_app_length. cbn [String.length].
  pose proof (concat_length_max (fun kv : string * json => quote kv.1 +:+ ":" +:+ stringify kv.2) l) as Hc.
  enough (list_sum (map (fun x : string * json => S (String.length (quote x.1 +:+ ":" +:+ stringify x.2))) l) <= list_sum (map member_max l))%nat by lia.
  clear Hc. assert (Hq : forall s, (String.length (quote s) <= 2 + 6 * String.length s)%nat).
  { intros s. unfold quote. cbn [String.length]. rewrite str_app_length. cbn [String.length]. pose proof (quote_body_max s). lia. }
  induction l as [|[k v] l IH]; [done|]. rewrite !map_cons, !list_sum_cons. enough (S (String.length (quote k +:+ ":" +:+ stringify v)) <= member_max (k, v))%nat by (cbn [fst snd]; lia).
  rewrite !str_app_length. cbn [String.length]. unfold member_max. cbn [fst snd]. pose proof (Hq k). destruct v as [| | |s| |]; try lia. pose proof (Hq s). cbn [stringify]. lia.
Qed.

Lemma payload_max token : (String.length (stringify (composite_payload token)) <= 1000 + 6 * String.length token)%nat.
Proof.
  assert (Hh : member_max ("headers", strings_json REQUEST_HEADERS) = 147%nat) by (vm_compute; reflexivity).
  pose proof (object_max [("type", JStr "proxy_request"); ("token", JStr token); ("target_url", JStr TARGET_URL); ("method", JStr "GET");
    ("headers", strings_json REQUEST_HEADERS)]) as Hp. change (JObj _) with (composite_payload token) in Hp.
  rewrite !map_cons, !list_sum_cons, Hh in Hp. unfold member_max in Hp. cbn [fst snd String.length TARGET_URL map list_sum foldr] in Hp. lia.
Qed.

Lemma payload_wf token : wf_json (composite_payload token) = true.
Proof.
  change (composite_payload token) with (JObj [("type", JStr "proxy_request"); ("token", JStr token); ("target_url", JStr TARGET_URL); ("method", JStr "GET");
    ("headers", strings_json REQUEST_HEADERS)]). cbn [wf_json]. rewrite bool_decide_true by reflexivity. reflexivity.
Qed.

(** The token of the demo for an id. *)
Lemma demo_token_max j : (String.length (@mintTicket Toy.signing CompositeDemo.fixture 1000000 j) <= 3000 + 12 * String.length j)%nat.
Proof.
  unfold mintTicket, issueTicket, signV4Public. rewrite bool_decide_false by done. rewrite !str_app_length.
  match goal with |- context [toBase64url (?m ++ ?s)] => pose proof (toBase64url_max (m ++ s)) as Hm; set (sig := s) in * end.
  assert (Hs : length sig = 64%nat) by apply be_encode_length. rewrite length_app, Hs, utf8_length in Hm.
  assert (Hf : String.length (toBase64url (utf8 (stringify (kid_json KID)))) = 26%nat) by (vm_compute; reflexivity). rewrite Hf.
  set (fixed := [("iss", JStr TICKET_ISSUER); ("aud", JStr NODE_ID); ("sub", JStr CompositeDemo.key); ("scope", JStr TICKET_SCOPE_PROXY);
    ("iat", JNum (num_of_Z 1000)); ("exp", JNum (num_of_Z 1060))]).
  pose proof (object_max (fixed ++ [("jti", JStr j)])) as Hc. rewrite map_app, list_sum_app in Hc.
  assert (Hi : (list_sum (map member_max fixed) <= 900)%nat) by (apply Nat.leb_le; vm_compute; reflexivity).
  change (stringify (JObj (fixed ++ [("jti", JStr j)]))) with (stringify (claims_json (issue_claims 1000000 {| in_nodeId := NODE_ID;
    in_dedupeKey := fx_dedupeKey CompositeDemo.fixture; in_jti := j; in_ttlSec := None; in_scope := None; in_now := None |}))) in Hc.
  clearbody sig. unfold member_max at 2 in Hc. cbn [map list_sum foldr fst snd String.length] in Hc. cbn [String.length HEADER]. lia.
Qed.

Lemma demo_fits j : Z.of_nat (String.length j) <= 59000000 -> CompositeDemo.fits_for j = true.
Proof.
  intros Hj. unfold CompositeDemo.fits_for. cbv zeta. rewrite payload_wf. cbn [andb]. apply Z.leb_le. unfold encodeJson. rewrite utf8_length.
  pose proof (payload_max (@mintTicket Toy.signing CompositeDemo.fixture 1000000 j)). pose proof (demo_token_max j). lia.
Qed.

Lemma demo_fresh N : Z.of_nat N < 2 ^ 62 ->
  @fresh_inputs Toy.key_exchange Toy.signing ToyPem.pem_keys CompositeDemo.fixture MeasureDemo.inputs (new_cache 100000) N.
Proof.
  intros HN. split.
  - intros n w Hn Hk. pose proof (id_of_length n ltac:(lia)). apply ready_for; [apply id_of_nonempty|done|]. apply demo_fits. lia.
  - intros m n Hmn E. apply binary_inj in E. lia.
  - intros n _. by apply not_elem_of_nil.
Qed.

Lemma measured_totals_witness : exists fuel r t n measured,
  @measureSize Toy.hashing Toy.hkdf_toy Toy.key_exchange Toy.signing ToyPem.pem_keys Toy.aead ToyUrl.api fuel (clock RunnerDemo.env) MeasureDemo.inputs
    MeasureDemo.size CompositeDemo.fixture MeasureDemo.opts (new_cache 100000) = Some (Ok (r, t, (n, measured))) /\
  iterations t = Z.of_nat measured.
Proof.
  destruct (@measured_totals Toy.hashing Toy.hashing_laws Toy.hkdf_toy Toy.hkdf_laws Toy.key_exchange Toy.key_exchange_laws Toy.signing
    ToyPem.pem_keys Toy.signing_laws Toy.aead Toy.aead_laws ToyUrl.api CompositeDemo.fixture CompositeDemo.identity 3 (utf8 "hi") 2 MeasureDemo.inputs
    (new_cache 100000) (clock RunnerDemo.env) MeasureDemo.size MeasureDemo.opts composite_built (demo_fresh (iteration_bound MeasureDemo.size MeasureDemo.opts) ltac:(change (iteration_bound _ _) with 200%nat; lia)) env_advances ltac:(done))
    as (fuel & r & t & n & measured & Hm & Hi & _); [intros z [= <-]; lia|].
  exists fuel, r, t, n, measured. split; [exact Hm|exact Hi].
Defined.
