(* ===== verification/Sustained.v ===== *)
(** * The sustained benchmark (runtime/benchmarks/suites/sustained.ts)

    The composite workload runs for a long time and its throughput is taken in
    windows.  [Run] holds what the environment supplies: keys, the inputs of each
    iteration, the readings of the clock and the CPU time of the process. *)

From S2P Require Import Prelude Effect Text Json Crypto CanonicalJson SecureChannel DataHandshake Ticket Replay Url Dedupe RequestTicket ProxyServe DataPlane Double Runner Composite CompositeRun.
Local Open Scope Z_scope.

(** Times in milliseconds may have a fraction. *)
Record SustainedOptions := {
  so_durationMs : option double; so_windowMs : option double; so_responseBytes : option Z; so_warmupMs : option double }.

Record SustainedWindow := { start_ms : double; requests : Z; rps : double; node_rps : double }.

Record SustainedResult := {
  sust_response_size_bytes : Z; sust_duration_ms : double; window_ms : double; windows : list SustainedWindow; total_requests : Z;
  node_rps_mean : double; node_rps_early : double; node_rps_late : double; node_rps_min_window : double; node_rps_max_window : double;
  throttle_ratio : double; cpu_time_ratio : double; steady : bool }.

Definition STEADY_RATIO_FLOOR : double := ratio 85 100.

Definition round1 (v : double) : double := (dround (v * of_Z 10) / of_Z 10)%D.
Definition round3 (v : double) : double := (dround (v * of_Z 1000) / of_Z 1000)%D.
Definition meanOf (values : list double) : double :=
  match values with [] => zero | _ => (sum_of values / of_Z (Z.of_nat (length values)))%D end.

(** [BigInt(Math.round(ms * 1e6))]. *)
Definition ns_of_ms (ms : double) : result Z :=
  let x := dround (ms * of_Z 1000000)%D in if is_finite x then Ok (to_Z x) else Throw (RangeError "Not an integer").

(** A window of [n] requests from [start] to [now], with [nodeNs] spent by the node. *)
Definition window_entry (t0 start now n nodeNs : Z) : SustainedWindow :=
  {| start_ms := dround (of_Z (start - t0) / of_Z 1000000)%D; requests := n; rps := round1 (of_Z n * of_Z 1000000000 / of_Z (now - start))%D;
     node_rps := if 0 <? nodeNs then round1 (of_Z n * of_Z 1000000000 / of_Z nodeNs)%D else zero |}.

(** The variables of the loop. *)
Record Loop := {
  lp_work : CompositeWorkload; lp_windows : list SustainedWindow; lp_start : Z; lp_requests : Z; lp_nodeNsStart : Z; lp_total : Z; lp_now : Z }.

Definition node_total (w : CompositeWorkload) : Z := nodeNs (w_totals (cw_state w)).

Definition loop_start (w : CompositeWorkload) (t0 : Z) : Loop :=
  {| lp_work := w; lp_windows := []; lp_start := t0; lp_requests := 0; lp_nodeNsStart := node_total w; lp_total := 0; lp_now := t0 |}.

(** What the loop does after an iteration that left the workload [w]. *)
Definition count_request (t0 windowNs now : Z) (w : CompositeWorkload) (s : Loop) : Loop :=
  let n := lp_requests s + 1 in
  if windowNs <=? now - lp_start s
  then {| lp_work := w; lp_windows := lp_windows s ++ [window_entry t0 (lp_start s) now n (node_total w - lp_nodeNsStart s)];
          lp_start := now; lp_requests := 0; lp_nodeNsStart := node_total w; lp_total := lp_total s + 1; lp_now := now |}
  else {| lp_work := w; lp_windows := lp_windows s; lp_start := lp_start s; lp_requests := n; lp_nodeNsStart := lp_nodeNsStart s;
          lp_total := lp_total s + 1; lp_now := now |}.

(** What the function returns, from the loop at its end; [cpuUs] is the CPU time of
    the process in microseconds. *)
Definition sustained_result (responseBytes : Z) (windowMs : double) (t0 cpuUs : Z) (s : Loop) : SustainedResult :=
  let wallMs := (of_Z (lp_now s - t0) / of_Z 1000000)%D in
  let cpuMs := (of_Z cpuUs / of_Z 1000)%D in
  let nodeRates := map node_rps (lp_windows s) in
  let early := meanOf (take 2 nodeRates) in
  let late := meanOf (drop (length nodeRates - 2) nodeRates) in
  {| sust_response_size_bytes := responseBytes; sust_duration_ms := dround wallMs; window_ms := windowMs; windows := lp_windows s; total_requests := lp_total s;
     node_rps_mean := round1 (meanOf nodeRates); node_rps_early := round1 early; node_rps_late := round1 late;
     node_rps_min_window := round1 (min_of nodeRates); node_rps_max_window := round1 (max_of nodeRates);
     throttle_ratio := if dltb zero early then round3 (late / early)%D else zero;
     cpu_time_ratio := if dltb zero wallMs then round3 (cpuMs / wallMs)%D else zero;
     steady := dltb zero early && dleb STEADY_RATIO_FLOOR (late / early)%D |}.

Section Sustained.
Context `{Hashing} `{Hkdf} `{KeyExchange} `{PemKeys} `{Aead} `{UrlApi}.

Fixpoint sustained_loop (fuel : nat) (clk : nat -> Z) (fixture : Fixture) (inputs : nat -> IterationInput) (t0 tEnd windowNs : Z) (i n : nat) (s : Loop)
  : option (result (Loop * nat)) :=
  match fuel with
  | O => None
  | S fuel =>
      if lp_now s <? tEnd then
        match iterate fixture (inputs n) (lp_work s) with
        | (_, Throw e) => Some (Throw e)
        | (w, Ok _) => sustained_loop fuel clk fixture inputs t0 tEnd windowNs (S i) (S n) (count_request t0 windowNs (clk i) w s)
        end
      else Some (Ok (s, n))
  end.

(** [iterate], as many times as there are inputs. *)
Fixpoint iterates (fixture : Fixture) (xs : list IterationInput) (w : CompositeWorkload) : CompositeWorkload :=
  match xs with [] => w | x :: xs => iterates fixture xs (iterate fixture x w).1 end.

Definition fresh_workload (replay : JtiReplayCache) : CompositeWorkload :=
  {| cw_state := {| w_replay := replay; w_totals := newStageTotals |}; cw_sinceRotate := 0 |}.

Record SustainedInput := { ri_size : SizeInput; ri_cpuUs : Z }.

(** With the first measured iteration and the clock at the start. *)
Definition sustained_run (fuel : nat) (opts : SustainedOptions) (x : SustainedInput) : option (result (SustainedResult * (nat * nat * Z))) :=
  let responseBytes := default 16384 (so_responseBytes opts) in
  let windowMs := default (of_Z 5000) (so_windowMs opts) in
  let clk := si_clock (ri_size x) in
  match buildFixture (si_identity (ri_size x)) (si_orchestrator (ri_size x)) (si_body (ri_size x)) responseBytes with
  | Throw e => Some (Throw e)
  | Ok fixture =>
      match sanityRoundTrip fixture (si_sanity (ri_size x)) (new_cache 100000) with
      | None => None
      | Some (Throw e, _) => Some (Throw e)
      | Some (Ok _, replay) =>
          match ns_of_ms (default (of_Z 500) (so_warmupMs opts)) with
          | Throw e => Some (Throw e)
          | Ok warmupNs =>
              match while_before fuel (fun n => iterate fixture (si_inputs (ri_size x) n)) clk (clk 0%nat + warmupNs) 1 0 (fresh_workload replay) with
              | None => None
              | Some (Throw e) => Some (Throw e)
              | Some (Ok (i, n, w)) =>
                  match ns_of_ms windowMs, ns_of_ms (default (of_Z 60000) (so_durationMs opts)) with
                  | Throw e, _ | _, Throw e => Some (Throw e)
                  | Ok windowNs, Ok durationNs =>
                      let t0 := clk i in
                      returned (fun '(s, m) => (sustained_result responseBytes windowMs t0 (ri_cpuUs x) s, (n, m, t0)))
                        (sustained_loop fuel clk fixture (si_inputs (ri_size x)) t0 (t0 + durationNs) windowNs (S i) n (loop_start w t0))
                  end
              end
          end
      end
  end.

Definition runSustained (fuel : nat) (opts : SustainedOptions) (x : SustainedInput) : option (result SustainedResult) :=
  returned fst (sustained_run fuel opts x).
End Sustained.

(** ** Lemmas *)

(** *** One iteration *)

Section Iteration.
Context `{Hashing} `{Hkdf} `{KeyExchange} `{PemKeys} `{Aead} `{UrlApi}.

(** Only the check of the ticket touches the cache, and an iteration that succeeds
    adds the time of each stage. *)
Definition iteration_effect (x : IterationInput) (w w' : Workload) (r : result Exchange) : Prop :=
  (w_replay w' = w_replay w \/ exists clock pk opts res, verifyRequestTicket clock pk opts (Some (w_replay w)) = (res, Some (w_replay w'))) /\
  (forall ex, r = Ok ex -> w_totals w' = add_iteration (fold_left (fun t s => add_stage s (it_elapsed x s) t) STAGE_NAMES (w_totals w))).

Lemma throw_effect x w w' e : w_replay w' = w_replay w -> iteration_effect x w w' (Throw e).
Proof. intros Hw. split; [by left|done]. Qed.
Lemma verify_effect clock pk opts c res c' : verifyRequestTicket clock pk opts (Some c) = (res, c') -> exists c'', c' = Some c''.
Proof.
  unfold verifyRequestTicket. destruct (check_request _ _ _); [|by intros [= _ <-]; eexists]. unfold commit.
  destruct (consume _ _ _ _) as [b c1]. intros [= _ <-]. by eexists.
Qed.

Lemma iteration_effects fixture x w w' r : runIteration fixture x w = (w', r) -> iteration_effect x w w' r.
Proof.
  unfold runIteration, mbind, eff_bind. cbv zeta. unfold lift at 1.
  destruct (acceptDataInit _ _ _ _ _ _) as [[accept session]|e]; [|intros [= <- <-]; by apply throw_effect].
  unfold timed at 1, modify at 1, lift at 1. destruct (deriveClientDataSession _ _ _ _ _ _) as [client|e]; [|intros [= <- <-]; by apply throw_effect].
  unfold lift at 1. destruct (sealFrame _ _ _ _ _) as [raw|e]; [|intros [= <- <-]; by apply throw_effect].
  unfold lift at 1. destruct (open_request _ _) as [[token params]|e]; [|intros [= <- <-]; by apply throw_effect].
  unfold timed at 1, modify at 1. cbn [w_replay w_totals].
  destruct (verifyRequestTicket _ _ _ _) as [res c'] eqn:Ev. pose proof (verify_effect _ _ _ _ _ _ Ev) as [c'' ->]. cbn [default from_option id].
  assert (Hr : forall w'', w_replay w'' = c'' -> w_replay w'' = w_replay w \/
    exists clock pk opts res, verifyRequestTicket clock pk opts (Some (w_replay w)) = (res, Some (w_replay w''))) by (intros ? ->; right; by eexists _, _, _, _).
  destruct res as [t|e]; [|intros [= <- <-]; split; [by apply Hr|done]]. unfold timed, modify, lift.
  destruct (sealFrame _ _ _ _ _) as [response|e]; [|intros [= <- <-]; split; [by apply Hr|done]].
  destruct (throw_if _ _) as [[]|e]; intros [= <- <-]; (split; [by apply Hr|]); [|done]. intros ex _. reflexivity.
Qed.
End Iteration.

(** *** Windows *)

(** The time that the node spends on an iteration; on [count] of them from [first] on. *)
Definition node_time `{KeyExchange} (x : IterationInput) : Z := fold_left (fun n s => n + it_elapsed x s) STAGE_NAMES 0.
Fixpoint node_time_of `{KeyExchange} (inputs : nat -> IterationInput) (first count : nat) : Z :=
  match count with O => 0 | S count => node_time (inputs first) + node_time_of inputs (S first) count end.

(** A window as it was measured: when it began and ended, and its iterations. *)
Record RawWindow := { rw_start : Z; rw_end : Z; rw_first : nat; rw_count : nat }.
Definition entry_of `{KeyExchange} (inputs : nat -> IterationInput) (t0 : Z) (x : RawWindow) : SustainedWindow :=
  window_entry t0 (rw_start x) (rw_end x) (Z.of_nat (rw_count x)) (node_time_of inputs (rw_first x) (rw_count x)).

(** Each begins where the one before ended, in time and in iterations. *)
Fixpoint tiling (start : Z) (first : nat) (l : list RawWindow) (finish : Z) (last : nat) : Prop :=
  match l with
  | [] => start = finish /\ first = last
  | x :: l => rw_start x = start /\ rw_first x = first /\ tiling (rw_end x) (first + rw_count x) l finish last
  end.

Lemma tiling_snoc start first l finish last x : tiling start first l finish last -> rw_start x = finish -> rw_first x = last ->
  tiling start first (l ++ [x]) (rw_end x) (last + rw_count x).
Proof.
  revert start first. induction l as [|y l IH]; intros start first; cbn [tiling app].
  - intros [-> ->] Hs Hf. by rewrite Hf.
  - intros (Hs & Hf & Ht) Hx Hl. split_and!; [done..|]. by apply IH.
Qed.

Lemma node_time_of_snoc `{KeyExchange} inputs first count :
  node_time_of inputs first (S count) = node_time_of inputs first count + node_time (inputs (first + count)%nat).
Proof.
  revert first. induction count as [|count IH]; intros first; [cbn; rewrite Nat.add_0_r; lia|].
  change (node_time_of inputs first (S (S count))) with (node_time (inputs first) + node_time_of inputs (S first) (S count)).
  rewrite IH. cbn [node_time_of]. replace (S first + count)%nat with (first + S count)%nat by lia. lia.
Qed.

Lemma add_stages_total `{KeyExchange} x t :
  nodeNs (add_iteration (fold_left (fun t s => add_stage s (it_elapsed x s) t) STAGE_NAMES t)) = nodeNs t + node_time x.
Proof. change (nodeNs (add_iteration ?t)) with (nodeNs t). unfold node_time, STAGE_NAMES. cbn [fold_left]. rewrite !nodeNs_add. lia. Qed.

Section Windows.
Context `{Hashing} `{Hkdf} `{KeyExchange} `{PemKeys} `{Aead} `{UrlApi}.
Variables (fixture : Fixture) (inputs : nat -> IterationInput).

Lemma iterate_total x w w' ex : iterate fixture x w = (w', Ok ex) -> node_total w' = node_total w + node_time x.
Proof.
  unfold iterate, node_total. intros Hi.
  match type of Hi with context [runIteration fixture x ?s] => destruct (runIteration fixture x s) as [s' r] eqn:Er; pose proof (iteration_effects _ _ _ _ _ Er) as [_ Ht] end.
  destruct r as [ex'|]; [|by case_match]. simplify_eq. cbn [cw_state]. rewrite (Ht _ eq_refl), add_stages_total. by destruct (_ <=? _).
Qed.

(** The loop after the iterations from [n0] to [n]: the windows it has written, and
    the one that is open. *)
Definition windows_inv (t0 windowNs : Z) (n0 n : nat) (s : Loop) : Prop :=
  exists raw m, lp_windows s = map (entry_of inputs t0) raw /\ tiling t0 n0 raw (lp_start s) m /\
    Forall (fun x => windowNs <= rw_end x - rw_start x /\ (0 < rw_count x)%nat) raw /\
    (n0 <= m <= n)%nat /\ lp_requests s = Z.of_nat (n - m) /\ lp_total s = Z.of_nat (n - n0) /\
    node_total (lp_work s) = lp_nodeNsStart s + node_time_of inputs m (n - m).

Lemma count_request_inv t0 windowNs now w ex n0 n s :
  iterate fixture (inputs n) (lp_work s) = (w, Ok ex) -> windows_inv t0 windowNs n0 n s ->
  windows_inv t0 windowNs n0 (S n) (count_request t0 windowNs now w s).
Proof.
  intros Hi (raw & m & Hw & Ht & Hf & Hm & Hr & Hn & Hns). apply iterate_total in Hi. rewrite Hns in Hi.
  assert (Hnew : node_total w = lp_nodeNsStart s + node_time_of inputs m (S n - m)).
  { rewrite Hi. replace (S n - m)%nat with (S (n - m)) by lia. rewrite node_time_of_snoc. replace (m + (n - m))%nat with n by lia. lia. }
  unfold count_request. destruct (Z.leb_spec windowNs (now - lp_start s)) as [Hc|Hc].
  - set (x := {| rw_start := lp_start s; rw_end := now; rw_first := m; rw_count := S n - m |}).
    exists (raw ++ [x]), (S n). cbn [lp_windows lp_start lp_requests lp_total lp_work lp_nodeNsStart]. split_and!; try lia.
    + rewrite map_app, Hw. cbn [map]. apply (f_equal (fun y => _ ++ [y])). unfold entry_of. subst x. cbn [rw_start rw_end rw_first rw_count].
      replace (Z.of_nat (S n - m)) with (lp_requests s + 1) by lia. replace (node_total w - _) with (node_time_of inputs m (S n - m)) by lia. done.
    + replace (S n) with (m + rw_count x)%nat by (subst x; cbn [rw_count]; lia). by apply (tiling_snoc _ _ _ (lp_start s) m x Ht).
    + apply Forall_app. split; [done|]. repeat constructor; subst x; cbn [rw_start rw_end rw_count]; lia.
    + rewrite Nat.sub_diag. cbn. lia.
  - exists raw, m. cbn [lp_windows lp_start lp_requests lp_total lp_work lp_nodeNsStart]. split_and!; try done; lia.
Qed.

Lemma sustained_loop_inv fuel clk t0 tEnd windowNs i n0 n s s' m :
  sustained_loop fuel clk fixture inputs t0 tEnd windowNs i n s = Some (Ok (s', m)) -> (n0 <= n)%nat -> windows_inv t0 windowNs n0 n s ->
  windows_inv t0 windowNs n0 m s' /\ tEnd <= lp_now s'.
Proof.
  revert i n s. induction fuel as [|fuel IH]; intros i n s; cbn [sustained_loop]; [done|].
  destruct (Z.ltb_spec (lp_now s) tEnd) as [Hl|Hl]; [|by intros [= <- <-]].
  destruct (iterate fixture (inputs n) (lp_work s)) as [w [ex|e]] eqn:Ei; [|done]. intros Hs Hn Hinv.
  apply (IH _ _ _ Hs); [lia|]. by eapply count_request_inv.
Qed.

Lemma loop_start_inv t0 windowNs n w : windows_inv t0 windowNs n n (loop_start w t0).
Proof.
  exists [], n. unfold loop_start. cbn [lp_windows lp_start lp_requests lp_total lp_work lp_nodeNsStart tiling map].
  rewrite Nat.sub_diag. cbn. split_and!; try done; lia.
Qed.

(** *** The cache of the workload *)

Definition rotation_inv (w : CompositeWorkload) : Prop :=
  0 <= cw_sinceRotate w < REPLAY_ROTATE_ITERATIONS /\ size (w_replay (cw_state w)) <= cw_sinceRotate w + 1 /\ maxEntries (w_replay (cw_state w)) = 100000.

Lemma consume_size j e t c : size (consume j e t c).2 <= size c + 1 /\ maxEntries (consume j e t c).2 = maxEntries c.
Proof.
  split; [|apply consume_max]. unfold consume. assert (Hs : size (sweep t c) <= size c).
  { unfold sweep. destruct (_ <? _); [done|]. unfold size. cbn [seen].
    pose proof (length_filter (fun e : string * num => num_leb e.2 (num_of_Z t) = false) (seen c)). lia. }
  case_bool_decide; cbn [snd]; [lia|]. unfold with_seen, size in *. cbn [seen]. rewrite length_app. cbn [length].
  destruct (evict_suffix (maxEntries (sweep t c)) (seen (sweep t c))) as (n & -> & _). rewrite length_drop. lia.
Qed.

Lemma verify_size clock pk opts c res c' : verifyRequestTicket clock pk opts (Some c) = (res, Some c') -> size c' <= size c + 1 /\ maxEntries c' = maxEntries c.
Proof.
  unfold verifyRequestTicket. destruct (check_request _ _ _); [|intros [= _ <-]; lia]. unfold commit.
  match goal with |- context [consume ?j ?e ?t c] => pose proof (consume_size j e t c) as Hc; destruct (consume j e t c) as [b c1] end.
  intros [= _ <-]. exact Hc.
Qed.

Lemma iterate_rotation x w : rotation_inv w -> rotation_inv (iterate fixture x w).1.
Proof.
  intros (Hn & Hs & Hm). unfold iterate. destruct (Z.leb_spec REPLAY_ROTATE_ITERATIONS (cw_sinceRotate w + 1)) as [Hr|Hr];
    match goal with |- context [runIteration fixture ?x ?s] => destruct (runIteration fixture x s) as [s' r] eqn:Er; pose proof (iteration_effects _ _ _ _ _ Er) as [He _] end;
    unfold rotation_inv; cbn [fst cw_state cw_sinceRotate w_replay] in *.
  - assert (Hb : size (w_replay s') <= 1 /\ maxEntries (w_replay s') = 100000).
    { destruct He as [->|(clock & pk & opts & res & Hv)]; [by cbn|]. by apply verify_size in Hv. }
    unfold REPLAY_ROTATE_ITERATIONS in *. lia.
  - assert (Hb : size (w_replay s') <= size (w_replay (cw_state w)) + 1 /\ maxEntries (w_replay s') = 100000).
    { destruct He as [->|(clock & pk & opts & res & Hv)]; [lia|]. apply verify_size in Hv. lia. }
    unfold REPLAY_ROTATE_ITERATIONS in *. lia.
Qed.
End Windows.

(** *** The run ends *)

Section Ends.
Context `{HashingLaws} `{HkdfLaws} `{KeyExchangeLaws} `{PemKeys} `{!SigningLaws} `{AeadLaws} `{UrlApi}.
Variables (fixture : Fixture) (generated : NodeIdentity) (orchestrator : SecretKey) (b : buffer) (responseBytes : Z) (inputs : nat -> IterationInput)
  (replay : JtiReplayCache) (N : nat).
Hypothesis Hbuilt : buildFixture generated orchestrator b responseBytes = Ok fixture.
Hypothesis Hfresh : fresh_inputs fixture inputs replay N.

Lemma iterate_before n w : before inputs replay n (cw_state w) -> (n < N)%nat ->
  exists w' ex, iterate fixture (inputs n) w = (w', Ok ex) /\ before inputs replay (S n) (cw_state w').
Proof.
  intros Hb Hn. unfold iterate.
  match goal with |- context [if ?c then ?t else ?e] => set (w0 := if c then t else e) end.
  assert (Hw0 : before inputs replay n (cw_state w0)).
  { subst w0. destruct (_ <=? _); [|exact Hb]. intros j Hj. by apply not_elem_of_nil in Hj. }
  destruct (step_before fixture generated orchestrator b responseBytes inputs replay N Hbuilt Hfresh n _ Hw0 Hn) as (ex & s' & -> & Hb' & _).
  by eexists _, ex.
Qed.

Lemma sustained_loop_ends clk t0 tEnd windowNs fuel i n s : (forall n, 0 < clk (S n) - clk n) ->
  before inputs replay n (cw_state (lp_work s)) -> lp_now s < clk i -> (n + Z.to_nat (tEnd - lp_now s) <= N)%nat ->
  (Z.to_nat (tEnd - lp_now s) < fuel)%nat ->
  exists s' m, sustained_loop fuel clk fixture inputs t0 tEnd windowNs i n s = Some (Ok (s', m)).
Proof.
  intros Hc. revert i n s. induction fuel as [|fuel IH]; intros i n s Hb Hi HN Hf; [lia|]. cbn [sustained_loop].
  destruct (Z.ltb_spec (lp_now s) tEnd) as [Hl|Hl]; [|by eexists _, _].
  destruct (iterate_before n (lp_work s) Hb ltac:(lia)) as (w' & ex & -> & Hb').
  assert (Hnow : lp_now (count_request t0 windowNs (clk i) w' s) = clk i) by (unfold count_request; by destruct (_ <=? _)).
  assert (Hw : lp_work (count_request t0 windowNs (clk i) w' s) = w') by (unfold count_request; by destruct (_ <=? _)).
  specialize (Hc i). apply IH; rewrite ?Hnow, ?Hw; [done|lia..].
Qed.
End Ends.

Lemma sustained_loop_more `{Hashing} `{Hkdf} `{KeyExchange} `{PemKeys} `{Aead} `{UrlApi} fuel fuel' clk fixture inputs t0 tEnd windowNs i n s r : (fuel <= fuel')%nat ->
  sustained_loop fuel clk fixture inputs t0 tEnd windowNs i n s = Some r -> sustained_loop fuel' clk fixture inputs t0 tEnd windowNs i n s = Some r.
Proof.
  revert fuel' i n s. induction fuel as [|fuel IH]; intros [|fuel'] i n s Hf; cbn [sustained_loop]; try done; [lia|].
  destruct (_ <? _); [|done]. destruct (iterate _ _ _) as [w' [|]]; [|done]. apply IH. lia.
Qed.

(** What a run depends on. *)
Record sustained_ready `{Hashing} `{KeyExchange} `{PemKeys} `{UrlApi} (opts : SustainedOptions) (x : SustainedInput) : Prop := {
  rs_times : exists fixture warmupNs windowNs durationNs,
    buildFixture (si_identity (ri_size x)) (si_orchestrator (ri_size x)) (si_body (ri_size x)) (default 16384 (so_responseBytes opts)) = Ok fixture /\
    ready fixture (si_sanity (ri_size x)) (cw_state (fresh_workload (new_cache 100000))) /\
    ns_of_ms (default (of_Z 500) (so_warmupMs opts)) = Ok warmupNs /\ ns_of_ms (default (of_Z 5000) (so_windowMs opts)) = Ok windowNs /\
    ns_of_ms (default (of_Z 60000) (so_durationMs opts)) = Ok durationNs /\
    fresh_inputs fixture (si_inputs (ri_size x)) (new_cache 100000) (Z.to_nat warmupNs + Z.to_nat durationNs) /\
    forall n, (n < Z.to_nat warmupNs + Z.to_nat durationNs)%nat -> it_jti (si_inputs (ri_size x) n) <> it_jti (si_sanity (ri_size x));
  rs_clock : forall n, 0 < si_clock (ri_size x) (S n) - si_clock (ri_size x) n }.

Lemma sustained_ends `{HashingLaws} `{HkdfLaws} `{KeyExchangeLaws} `{PemKeys} `{!SigningLaws} `{AeadLaws} `{UrlApi}
    (opts : SustainedOptions) (x : SustainedInput) :
  sustained_ready opts x -> exists fuel r p, forall fuel', (fuel <= fuel')%nat -> sustained_run fuel' opts x = Some (Ok (r, p)).
Proof.
  intros [(fixture & warmupNs & windowNs & durationNs & Hb & Hr & E1 & E2 & E3 & Hf & Hs) Hc]. set (N := (Z.to_nat warmupNs + Z.to_nat durationNs)%nat) in *.
  destruct (sanity_ok _ _ _ _ _ _ _ Hb Hr) as (replay & Hsan & Hk). cbn [w_replay cw_state fresh_workload] in Hsan, Hk.
  pose proof (fresh_after_sanity _ _ _ _ _ Hf Hs Hk) as Hf'.
  set (clk := si_clock (ri_size x)) in *. set (wEnd := clk 0%nat + warmupNs). set (f1 := S (Z.to_nat (wEnd - clk 1%nat))). pose proof (Hc 0%nat) as Hc0.
  destruct (while_before_ok (fun n w => before (si_inputs (ri_size x)) replay n (cw_state w)) N (fun n => iterate fixture (si_inputs (ri_size x) n)) clk wEnd f1 1 0
    (fresh_workload replay)) as (i & n & w & Hw & Hwb & Hi & Hn); [exact Hc| |intros j Hj; by left|subst N wEnd; lia|subst f1; lia|subst f1; lia|].
  { intros k w Hkb HkN. by eapply iterate_before. }
  destruct (sustained_loop_ends fixture _ _ _ _ _ replay N Hb Hf' clk (clk i) (clk i + durationNs) windowNs (S (Z.to_nat durationNs)) (S i) n (loop_start w (clk i)))
    as (s & m & Hl); [exact Hc|exact Hwb|cbn [lp_now loop_start]; specialize (Hc i); lia|cbn [lp_now loop_start]; subst N wEnd; lia|cbn [lp_now loop_start]; lia|].
  exists (f1 + S (Z.to_nat durationNs))%nat. eexists _, _. intros F HF. unfold sustained_run. rewrite Hb, Hsan, E1, E2, E3. fold clk wEnd.
  rewrite (while_before_more f1 F _ _ _ _ _ _ _ ltac:(lia) Hw). rewrite (sustained_loop_more (S (Z.to_nat durationNs)) F _ _ _ _ _ _ _ _ _ _ ltac:(lia) Hl). reflexivity.
Qed.

(** *** Equal means *)

Lemma ddiv_self a : is_finite a = true -> dltb zero a = true -> (a / a)%D = of_Z 1.
Proof.
  destruct a as [| | |sg m e]; try done. intros _ Hp. destruct sg; [done|]. unfold ddiv, SpecFloat.SFdiv. cbn [xorb].
  unfold SpecFloat.SFdiv_core_binary. rewrite !Z.sub_diag. cbv zeta.
  replace (Z.min (SpecFloat.fexp prec emax 0) 0) with (-53) by reflexivity. cbn [Z.sub Z.opp Z.add].
  replace (Z.shiftl (Z.pos m) 53) with (2 ^ 53 * Z.pos m) by (rewrite Z.shiftl_mul_pow2 by lia; lia).
  pose proof (Z.div_mul (2 ^ 53) (Z.pos m) ltac:(lia)) as Hq. pose proof (Z.mod_mul (2 ^ 53) (Z.pos m) ltac:(lia)) as Hm.
  unfold Z.div, Z.modulo in Hq, Hm. destruct (Z.div_eucl _ _) as [q r]. subst q r.
  unfold SpecFloat.new_location, SpecFloat.new_location_even, SpecFloat.new_location_odd. cbn [Z.eqb].
  destruct (Z.even _); vm_compute; reflexivity.
Qed.

Lemma short_run_steady (responseBytes : Z) (windowMs : double) (t0 cpuUs : Z) (s : Loop) :
  let r := sustained_result responseBytes windowMs t0 cpuUs s in let early := meanOf (map node_rps (windows r)) in
  ((length (windows r) <= 2)%nat -> is_finite early = true -> dltb zero early = true -> steady r = true /\ throttle_ratio r = of_Z 1) /\
  (windows r = [] -> steady r = false /\ throttle_ratio r = zero /\ node_rps_min_window r = Infinity).
Proof.
  cbv zeta. unfold sustained_result. cbn [windows steady throttle_ratio node_rps_min_window]. split.
  - intros Hl Hf Hp. assert (Ht : take 2 (map node_rps (lp_windows s)) = map node_rps (lp_windows s)) by (apply take_ge; rewrite length_map; lia).
    assert (Hd : drop (length (map node_rps (lp_windows s)) - 2) (map node_rps (lp_windows s)) = map node_rps (lp_windows s)).
    { replace (length (map node_rps (lp_windows s)) - 2)%nat with 0%nat by (rewrite length_map; lia). done. }
    rewrite Ht, Hd, Hp, ddiv_self by done. split; vm_compute; reflexivity.
  - intros ->. split_and!; vm_compute; reflexivity.
Qed.

(** ** Properties *)

(** The windows tile the run: those of a run that ends follow one another without a
    gap in time and without leaving out or counting twice an iteration, from the first
    measured iteration on; each is as long as asked for, and its rates are the number
    of its iterations over its length and over the time that the node spent on exactly
    those.  The requests that are counted are the iterations of the run. *)
Theorem sustained_windows `{Hashing} `{Hkdf} `{KeyExchange} `{PemKeys} `{Aead} `{UrlApi}
    (fuel : nat) (opts : SustainedOptions) (x : SustainedInput) (r : SustainedResult) (n m : nat) (t0 : Z) :
  sustained_run fuel opts x = Some (Ok (r, (n, m, t0))) ->
  exists raw finish last windowNs, ns_of_ms (default (of_Z 5000) (so_windowMs opts)) = Ok windowNs /\
    windows r = map (entry_of (si_inputs (ri_size x)) t0) raw /\ tiling t0 n raw finish last /\ (last <= m)%nat /\
    Forall (fun y => windowNs <= rw_end y - rw_start y /\ (0 < rw_count y)%nat) raw /\ total_requests r = Z.of_nat (m - n).
Proof.
  unfold sustained_run. cbv zeta. destruct (buildFixture _ _ _ _) as [fixture|]; [|done]. destruct (sanityRoundTrip _ _ _) as [[[]replay]|]; [|done..].
  destruct (ns_of_ms (default (of_Z 500) _)) as [warmupNs|]; [|done]. destruct (while_before _ _ _ _ _ _ _) as [[[[i k] w]|]|]; [|done..].
  destruct (ns_of_ms (default (of_Z 5000) _)) as [windowNs|] eqn:Ew; [|done]. destruct (ns_of_ms (default (of_Z 60000) _)) as [durationNs|]; [|done].
  destruct (sustained_loop _ _ _ _ _ _ _ _ _ _) as [[[s m']|]|] eqn:El; try done. cbn [returned]. intros [= <- -> -> <-].
  apply (sustained_loop_inv _ _ _ _ _ _ _ _ n) in El as [(raw & l & Hw & Ht & Hf & Hm & _ & Hn & _) _]; [|done|apply loop_start_inv].
  exists raw, (lp_start s), l, windowNs. cbn [windows total_requests sustained_result]. split_and!; try done; lia.
Qed.

(** The run ends: with a fixture that can be built, tickets that are all new, finite
    times and a clock that advances, [runSustained] returns a result.  The replay cache
    is never what stops it. *)
Theorem sustained_returns `{HashingLaws} `{HkdfLaws} `{KeyExchangeLaws} `{PemKeys} `{!SigningLaws} `{AeadLaws} `{UrlApi}
    (opts : SustainedOptions) (x : SustainedInput) :
  sustained_ready opts x -> exists fuel r, runSustained fuel opts x = Some (Ok r).
Proof.
  intros Hr. destruct (sustained_ends opts x Hr) as (fuel & r & p & Hf). exists fuel, r. unfold runSustained. by rewrite Hf.
Qed.

(** A finding: a run of at most two windows cannot find a slow-down, since its early and
    its late windows are the same ones.  It is steady, with a ratio of exactly 1, however
    fast the throughput fell; and a run shorter than one window, the other way round, is
    never steady: its ratio is 0 and its slowest window is [Infinity]. *)
Theorem short_run_blind (responseBytes : Z) (windowMs : double) (t0 cpuUs : Z) (s : Loop) :
  let r := sustained_result responseBytes windowMs t0 cpuUs s in let early := meanOf (map node_rps (windows r)) in
  ((length (windows r) <= 2)%nat -> is_finite early = true -> dltb zero early = true -> steady r = true /\ throttle_ratio r = of_Z 1) /\
  (windows r = [] -> steady r = false /\ throttle_ratio r = zero /\ node_rps_min_window r = Infinity).
Proof. apply short_run_steady. Qed.

(** The cache of a long run stays small: started with at most the ticket of the guard,
    after any number of iterations, whether they succeed or not, it holds at most 50000
    ids, half of its bound, so that [consume] has nothing to evict. *)
Theorem rotation_keeps_room `{Hashing} `{Hkdf} `{KeyExchange} `{PemKeys} `{Aead} `{UrlApi}
    (fixture : Fixture) (xs : list IterationInput) (replay : JtiReplayCache) :
  size replay <= 1 -> maxEntries replay = 100000 ->
  let c := w_replay (cw_state (iterates fixture xs (fresh_workload replay))) in
  size c <= REPLAY_ROTATE_ITERATIONS /\ evict (maxEntries c) (seen c) = seen c.
Proof.
  intros Hs Hm. assert (Hi : rotation_inv (iterates fixture xs (fresh_workload replay))).
  { assert (Hw0 : rotation_inv (fresh_workload replay)) by (unfold rotation_inv, fresh_workload, REPLAY_ROTATE_ITERATIONS; cbn [cw_sinceRotate cw_state w_replay]; lia).
    revert Hw0. generalize (fresh_workload replay). induction xs as [|x xs IH]; intros w Hw; [done|]. cbn [iterates]. by apply IH, iterate_rotation. }
  destruct Hi as (Hn & Hsz & Hmax). unfold REPLAY_ROTATE_ITERATIONS in *. cbv zeta. split; [lia|]. rewrite Hmax.
  destruct (seen _) as [|e l] eqn:E; [done|]. cbn [evict]. rewrite (proj2 (Z.leb_gt _ _)); [done|].
  unfold size in Hsz. rewrite E in Hsz. lia.
Qed.

(** ** A concrete run *)

Module SustainedDemo.
Definition ms_of_ns (n : Z) : double := ratio n 1000000.
(** Windows of 40 ns in a run of 100 ns, on a clock that advances by 20 ns. *)
Definition opts : SustainedOptions :=
  {| so_durationMs := Some (ms_of_ns 100); so_windowMs := Some (ms_of_ns 40); so_responseBytes := Some 2; so_warmupMs := Some zero |}.
Definition input : @SustainedInput Toy.key_exchange Toy.signing :=
  {| ri_size := @Build_SizeInput Toy.key_exchange Toy.signing CompositeDemo.identity 3 (utf8 "hi") (CompositeDemo.input_for "k") MeasureDemo.inputs
       (fun n => Z.of_nat n * 20); ri_cpuUs := 1 |}.
Definition entry (rate : Z) : SustainedWindow := {| start_ms := zero; requests := 1; rps := of_Z rate; node_rps := of_Z rate |}.
(** Two windows, the second ten times slower than the first. *)
Definition halted : Loop :=
  {| lp_work := fresh_workload (new_cache 100000); lp_windows := [entry 1000; entry 100]; lp_start := 0; lp_requests := 0; lp_nodeNsStart := 0;
     lp_total := 2; lp_now := 100 |}.
End SustainedDemo.

Lemma demo_sanity : @ready Toy.key_exchange Toy.signing ToyPem.pem_keys CompositeDemo.fixture (CompositeDemo.input_for "k")
  (cw_state (fresh_workload (new_cache 100000))).
Proof. apply ready_for; [done|apply not_elem_of_nil|apply demo_fits; cbn; lia]. Qed.

Lemma demo_ready : @sustained_ready Toy.hashing Toy.key_exchange Toy.signing ToyPem.pem_keys ToyUrl.api SustainedDemo.opts SustainedDemo.input.
Proof.
  split; [|intros n; cbn; lia]. exists CompositeDemo.fixture, 0, 40, 100.
  split; [exact composite_built|]. split; [exact demo_sanity|]. split; [vm_compute; reflexivity|]. split; [vm_compute; reflexivity|].
  split; [vm_compute; reflexivity|]. split; [apply demo_fresh; lia|]. intros n _ E. unfold si_inputs, si_sanity in E. cbn in E. unfold MeasureDemo.id_of in E. by destruct (Pos.of_succ_nat n).
Qed.

Lemma sustained_returns_witness : exists fuel r,
  @runSustained Toy.hashing Toy.hkdf_toy Toy.key_exchange Toy.signing ToyPem.pem_keys Toy.aead ToyUrl.api fuel SustainedDemo.opts SustainedDemo.input = Some (Ok r).
Proof.
  exact (@sustained_returns Toy.hashing Toy.hashing_laws Toy.hkdf_toy Toy.hkdf_laws Toy.key_exchange Toy.key_exchange_laws Toy.signing
    ToyPem.pem_keys Toy.signing_laws Toy.aead Toy.aead_laws ToyUrl.api SustainedDemo.opts SustainedDemo.input demo_ready).
Defined.

Lemma short_run_blind_witness : steady (sustained_result 16384 (of_Z 5000) 0 1 SustainedDemo.halted) = true.
Proof. apply (short_run_blind 16384 (of_Z 5000) 0 1 SustainedDemo.halted); [cbn; lia|vm_compute; reflexivity..]. Defined.

Lemma rotation_keeps_room_witness : size (w_replay (cw_state (@iterates Toy.hashing Toy.hkdf_toy Toy.key_exchange Toy.signing ToyPem.pem_keys Toy.aead ToyUrl.api
  CompositeDemo.fixture [CompositeDemo.input; CompositeDemo.input] (fresh_workload (new_cache 100000))))) <= 50000.
Proof.
  apply (@rotation_keeps_room Toy.hashing Toy.hkdf_toy Toy.key_exchange Toy.signing ToyPem.pem_keys Toy.aead ToyUrl.api CompositeDemo.fixture
    [CompositeDemo.input; CompositeDemo.input] (new_cache 100000)); [done|reflexivity].
Defined.

Lemma sustained_windows_witness : exists fuel r n m t0 raw finish last,
  @sustained_run Toy.hashing Toy.hkdf_toy Toy.key_exchange Toy.signing ToyPem.pem_keys Toy.aead ToyUrl.api fuel SustainedDemo.opts SustainedDemo.input =
    Some (Ok (r, (n, m, t0))) /\ windows r = map (entry_of MeasureDemo.inputs t0) raw /\ tiling t0 n raw finish last.
Proof.
  destruct (@sustained_ends Toy.hashing Toy.hashing_laws Toy.hkdf_toy Toy.hkdf_laws Toy.key_exchange Toy.key_exchange_laws Toy.signing
    ToyPem.pem_keys Toy.signing_laws Toy.aead Toy.aead_laws ToyUrl.api SustainedDemo.opts SustainedDemo.input demo_ready) as (fuel & r & [[n m] t0] & Hr').
  specialize (Hr' fuel (le_n _)). rename Hr' into Hr.
  destruct (@sustained_windows Toy.hashing Toy.hkdf_toy Toy.key_exchange Toy.signing ToyPem.pem_keys Toy.aead ToyUrl.api fuel SustainedDemo.opts
    SustainedDemo.input r n m t0 Hr) as (raw & finish & last & windowNs & _ & Hw & Ht & _).
  exists fuel, r, n, m, t0, raw, finish, last. split; [exact Hr|]. split; [exact Hw|exact Ht].
Defined.
