(* ===== verification/MultiCore.v ===== *)
(** * The multi-core benchmark (runtime/benchmarks/suites/multi-core.ts and
    multi-core.worker.ts)

    A worker runs a chain of 32-bit steps for a while; the parent starts several and
    sums their rates.  Seeds, clocks and what the workers post, in the order in which
    it arrives, are arguments. *)

From S2P Require Import Prelude Text Json Coerce Double Runner Sustained.
Local Open Scope Z_scope.

(** ** The worker *)

Definition js_xor (a b : Z) : Z := ToInt32 (Z.lxor (ToInt32 a) (ToInt32 b)).
(** [Math.imul]. *)
Definition imul (a b : Z) : Z := ToInt32 (ToInt32 a * ToInt32 b).

Definition BATCH : Z := 8192.

Definition char_code (c : ascii) : Z := Z.of_nat (Ascii.nat_of_ascii c).
Fixpoint seed_fold (seed : string) (h : Z) : Z :=
  match seed with
  | EmptyString => h
  | String c rest => seed_fold rest (imul (js_xor h (char_code c)) 0x01000193)
  end.
(** The seeds are hexadecimal texts, one code unit for each character. *)
Definition seedState (seed : string) : Z :=
  let h := seed_fold seed (ToInt32 0x811c9dc5) in if h =? 0 then 1 else h.

(** One round of the loop. *)
Definition mix (h : Z) : Z :=
  let h := js_xor h (js_shl h 13) in
  let h := js_xor h (js_ushr h 17) in
  let h := js_xor h (js_shl h 5) in
  ToInt32 (imul h 0x9e3779b1 + 0x6d2b79f5).
Definition chain (n : nat) (h : Z) : Z := Nat.iter n mix h.

Record WorkerDone := { ops : Z; elapsed_ms : double; final : Z }.

(** State, operations and time when the time is over. *)
Fixpoint worker_loop (fuel : nat) (clk : nat -> Z) (tEnd : Z) (i : nat) (h n now : Z) : option (Z * Z * Z) :=
  match fuel with
  | O => None
  | S fuel => if now <? tEnd then worker_loop fuel clk tEnd (S i) (chain (Z.to_nat BATCH) h) (n + BATCH) (clk i) else Some (h, n, now)
  end.

(** [self.onmessage] on a start message; an exception becomes an error event. *)
Definition run_worker (fuel : nat) (clk : nat -> Z) (duration_ms : double) (seed : string) : option (result WorkerDone) :=
  match ns_of_ms (dmax (of_Z 1) duration_ms) with
  | Throw e => Some (Throw e)
  | Ok durationNs =>
      (fun '(h, n, now) => Ok {| ops := n; elapsed_ms := (of_Z (now - clk 0%nat) / of_Z 1000000)%D; final := ToUint32 h |}) <$>
        worker_loop fuel clk (clk 0%nat + durationNs) 1 (seedState seed) 0 (clk 0%nat)
  end.

(** ** The parent *)

Inductive posted := Ready | Done (d : WorkerDone).
Definition posted_type (m : posted) : string := match m with Ready => "ready" | Done _ => "done" end.

(** What reaches the parent: a message, an error, or the end of a timer. *)
Inductive worker_event := Posted (w : nat) (m : posted) | Failed (w : nat) (message : string) | TimedOut (w : nat).

(** [Promise.all(workers.map((worker) => waitForMessage(worker, type, ...)))]: the
    messages that were waited for and the events after them; [None] while it waits. *)
Fixpoint waitForMessage (type : string) (pending : list nat) (events : list worker_event) : option (result (list (nat * posted) * list worker_event)) :=
  match pending with
  | [] => Some (Ok ([], events))
  | _ :: _ =>
      match events with
      | [] => None
      | Posted w m :: events =>
          if bool_decide (w ∈ pending) && bool_decide (posted_type m = type)
          then returned (fun '(got, rest) => ((w, m) :: got, rest)) (waitForMessage type (filter (fun v => v <> w) pending) events)
          else waitForMessage type pending events
      | Failed w message :: events =>
          if bool_decide (w ∈ pending) then Some (Throw (PlainError ("multi-core: worker error: " +:+ message))) else waitForMessage type pending events
      | TimedOut w :: events =>
          if bool_decide (w ∈ pending) then Some (Throw (PlainError ("multi-core: timed out waiting for worker " +:+ String chr_quote (type +:+ String chr_quote ""))))
          else waitForMessage type pending events
      end
  end.

Definition done_of (got : list (nat * posted)) (w : nat) : option WorkerDone :=
  match list_find (fun x => x.1 = w) got with Some (_, (_, Done d)) => Some d | _ => None end.

(** [results.reduce(...)]. *)
Fixpoint sum_rates (results : list WorkerDone) (sum : double) : result double :=
  match results with
  | [] => Ok sum
  | r :: rest =>
      throw_if (negb (0 <? ops r) || negb (dltb zero (elapsed_ms r))) (PlainError "multi-core: worker reported an empty measurement");;
      sum_rates rest (sum + of_Z (ops r) * of_Z 1000 / elapsed_ms r)%D
  end.

Inductive worker_action := Spawn (w : nat) | Start (w : nat) (duration_ms : double) (seed : string) | Terminate (w : nat).

(** What the parent does to its workers and the outcome. *)
Definition measureWorkers (count : nat) (durationMs : double) (seeds : nat -> string) (events : list worker_event)
  : list worker_action * option (result double) :=
  let workers := seq 0 count in
  let finally outcome := match outcome with None => [] | Some _ => map Terminate workers end in
  match waitForMessage "ready" workers events with
  | None => (map Spawn workers, None)
  | Some (Throw e) => (map Spawn workers ++ map Terminate workers, Some (Throw e))
  | Some (Ok (_, events)) =>
      let outcome :=
        match waitForMessage "done" workers events with
        | None => None
        | Some (Throw e) => Some (Throw e)
        | Some (Ok (got, _)) => Some (sum_rates (omap (done_of got) workers) zero)
        end in
      (map Spawn workers ++ map (fun w => Start w durationMs (seeds w)) workers ++ finally outcome, outcome)
  end.

(** ** The curve *)

Record MultiCoreOptions := { mo_durationMs : option double; mo_points : option (list Z) }.
Record MultiCorePoint := { workers : Z; total_ops_per_second : double; per_worker_ops_per_second : double; efficiency : double }.
Record MultiCoreResult := { cores : Z; points : list MultiCorePoint; single_ops_per_second : double; effective_cores : double }.

(** [for (let k = 2; k < cores; k *= 2) points.push(k)]. *)
Fixpoint doublings (fuel : nat) (k cores : Z) : list Z :=
  match fuel with O => [] | S fuel => if k <? cores then k :: doublings fuel (2 * k) cores else [] end.
Definition defaultPoints (cores : Z) : list Z :=
  let points := 1 :: doublings (Z.to_nat cores) 2 cores in
  if bool_decide (cores ∈ points) then points else points ++ [cores].

(** The loop over the points; [total i] is what [measureWorkers] returned for the i-th. *)
Fixpoint measure_points (points : list Z) (i : nat) (total : nat -> Z -> option (result double)) (singleRate : double)
  : option (result (list MultiCorePoint * double)) :=
  match points with
  | [] => Some (Ok ([], singleRate))
  | k :: rest =>
      match total i k with
      | None => None
      | Some (Throw e) => Some (Throw e)
      | Some (Ok totalRate) =>
          let perWorker := (totalRate / of_Z k)%D in
          let singleRate := if k =? 1 then perWorker else singleRate in
          let point := {| workers := k; total_ops_per_second := dround totalRate; per_worker_ops_per_second := dround perWorker;
                          efficiency := if dltb zero singleRate then round3 (perWorker / singleRate)%D else zero |} in
          returned (fun '(l, single) => (point :: l, single)) (measure_points rest (S i) total singleRate)
      end
  end.

(** [cpus] is [os.cpus().length]. *)
Definition runMultiCore (opts : MultiCoreOptions) (cpus : Z) (seeds : nat -> nat -> string) (events : nat -> list worker_event)
  : option (result MultiCoreResult) :=
  let cores := Z.max 1 cpus in
  let durationMs := default (of_Z 1500) (mo_durationMs opts) in
  let total i k := (measureWorkers (Z.to_nat k) durationMs (seeds i) (events i)).2 in
  returned (fun '(measured, singleRate) =>
      {| cores := cores; points := measured; single_ops_per_second := dround singleRate;
         effective_cores :=
           match last measured with
           | Some p => if dltb zero singleRate then round1 (total_ops_per_second p / singleRate)%D else zero
           | None => zero
           end |})
    (measure_points (default (defaultPoints cores) (mo_points opts)) 0 total zero).

(** ** Lemmas *)

(** *** 32-bit integers *)

Definition int32 (z : Z) : Prop := - 2 ^ 31 <= z < 2 ^ 31.

Lemma ToInt32_range z : int32 (ToInt32 z).
Proof. unfold ToInt32, int32. pose proof (Z.mod_pos_bound (z + 2 ^ 31) (2 ^ 32) ltac:(lia)). lia. Qed.

Lemma ToInt32_mod z : ToInt32 z mod 2 ^ 32 = z mod 2 ^ 32.
Proof. unfold ToInt32. rewrite Zminus_mod_idemp_l. f_equal. lia. Qed.

Lemma ToInt32_id z : int32 z -> ToInt32 z = z.
Proof. unfold int32, ToInt32. intros Hz. rewrite Z.mod_small; lia. Qed.

Lemma int32_inj a b : int32 a -> int32 b -> a mod 2 ^ 32 = b mod 2 ^ 32 -> a = b.
Proof.
  unfold int32. intros Ha Hb E. pose proof (Z.div_mod a (2 ^ 32) ltac:(lia)). pose proof (Z.div_mod b (2 ^ 32) ltac:(lia)). rewrite E in *.
  enough (a / 2 ^ 32 = b / 2 ^ 32) by lia. lia.
Qed.

Lemma ToInt32_bit z i : 0 <= i < 32 -> Z.testbit (ToInt32 z) i = Z.testbit z i.
Proof. intros Hi. rewrite <- (Z.mod_pow2_bits_low (ToInt32 z) 32 i), <- (Z.mod_pow2_bits_low z 32 i) by lia. by rewrite ToInt32_mod. Qed.

Lemma int32_ext a b : int32 a -> int32 b -> (forall i, 0 <= i < 32 -> Z.testbit a i = Z.testbit b i) -> a = b.
Proof.
  intros Ha Hb Hi. apply int32_inj; [done..|]. apply Z.bits_inj'. intros i H0.
  destruct (Z.ltb_spec i 32); [rewrite !Z.mod_pow2_bits_low by lia; by apply Hi|by rewrite !Z.mod_pow2_bits_high by lia].
Qed.

Lemma js_xor_bit a b i : 0 <= i < 32 -> Z.testbit (js_xor a b) i = xorb (Z.testbit a i) (Z.testbit b i).
Proof. intros Hi. unfold js_xor. by rewrite ToInt32_bit, Z.lxor_spec, !ToInt32_bit. Qed.
Lemma js_shl_bit a k i : 0 <= k -> 0 <= i < 32 -> Z.testbit (js_shl a k) i = if i <? k then false else Z.testbit a (i - k).
Proof.
  intros Hk Hi. unfold js_shl. rewrite ToInt32_bit, Z.shiftl_spec by lia. destruct (Z.ltb_spec i k); [by apply Z.testbit_neg_r; lia|].
  apply ToInt32_bit. lia.
Qed.
Lemma js_ushr_bit a k i : 0 <= k -> 0 <= i < 32 -> Z.testbit (js_ushr a k) i = if i + k <? 32 then Z.testbit a (i + k) else false.
Proof.
  intros Hk Hi. unfold js_ushr, ToUint32. rewrite Z.shiftr_spec by lia.
  destruct (Z.ltb_spec (i + k) 32); [by apply Z.mod_pow2_bits_low|by apply Z.mod_pow2_bits_high; lia].
Qed.

(** *** Each step of the chain loses nothing *)

Lemma xor_shl_inj k a b : 0 < k -> int32 a -> int32 b -> js_xor a (js_shl a k) = js_xor b (js_shl b k) -> a = b.
Proof.
  intros Hk Ha Hb E. apply int32_ext; [done..|]. intros i [Hi0 Hi]. revert i Hi0 Hi. apply (Z_lt_induction (fun i => i < 32 -> Z.testbit a i = Z.testbit b i)).
  intros i IH Hi.
  destruct (Z.ltb_spec i 0); [by rewrite !Z.testbit_neg_r|].
  apply (f_equal (fun z => Z.testbit z i)) in E. rewrite !js_xor_bit, !js_shl_bit in E by lia. destruct (Z.ltb_spec i k) as [Hl|Hl].
  - by rewrite !xorb_false_r in E.
  - rewrite (IH (i - k)) in E by lia. by apply xorb_move_l_r_2 in E; rewrite E, xorb_assoc, xorb_nilpotent, xorb_false_r.
Qed.

Lemma xor_ushr_inj k a b : 0 < k -> int32 a -> int32 b -> js_xor a (js_ushr a k) = js_xor b (js_ushr b k) -> a = b.
Proof.
  intros Hk Ha Hb E. apply int32_ext; [done..|].
  assert (H : forall j, 0 <= j -> 0 <= j < 32 -> Z.testbit a (31 - j) = Z.testbit b (31 - j)).
  { apply (Z_lt_induction (fun j => 0 <= j < 32 -> Z.testbit a (31 - j) = Z.testbit b (31 - j))). intros j IH Hj.
    apply (f_equal (fun z => Z.testbit z (31 - j))) in E. rewrite !js_xor_bit, !js_ushr_bit in E by lia. destruct (Z.ltb_spec (31 - j + k) 32) as [Hl|Hl].
    - replace (31 - j + k) with (31 - (j - k)) in E by lia. rewrite (IH (j - k)) in E by lia.
      by apply xorb_move_l_r_2 in E; rewrite E, xorb_assoc, xorb_nilpotent, xorb_false_r.
    - by rewrite !xorb_false_r in E. }
  intros i Hi. replace i with (31 - (31 - i)) by lia. apply H; lia.
Qed.

(** The multiplier is odd, with the inverse 244002641. *)
Lemma int32_step_inj a b : int32 a -> int32 b -> ToInt32 (imul a 0x9e3779b1 + 0x6d2b79f5) = ToInt32 (imul b 0x9e3779b1 + 0x6d2b79f5) -> a = b.
Proof.
  intros Ha Hb E. apply int32_inj; [done..|]. apply (f_equal (fun z => z mod 2 ^ 32)) in E. rewrite !ToInt32_mod in E.
  assert (Hm : forall z, int32 z -> z mod 2 ^ 32 = ((imul z 0x9e3779b1 + 0x6d2b79f5) mod 2 ^ 32 - 0x6d2b79f5) * 244002641 mod 2 ^ 32).
  { intros z Hz. rewrite <- Z.mul_mod_idemp_l, Zminus_mod_idemp_l, Z.add_simpl_r by lia. unfold imul.
    rewrite ToInt32_mod, Z.mul_mod_idemp_l, (ToInt32_id z) by done. change (ToInt32 0x9e3779b1) with (-1640531535).
    replace (z * -1640531535 * 244002641) with (z + (z * -93200716) * 2 ^ 32) by lia. by rewrite Z.mod_add by lia. }
  by rewrite (Hm a Ha), (Hm b Hb), E.
Qed.

Lemma mix_range h : int32 (mix h).
Proof. apply ToInt32_range. Qed.
Lemma js_xor_range a b : int32 (js_xor a b).
Proof. apply ToInt32_range. Qed.

Lemma mix_steps h : exists a b, a = js_xor h (js_shl h 13) /\ b = js_xor a (js_ushr a 17) /\
  mix h = ToInt32 (imul (js_xor b (js_shl b 5)) 0x9e3779b1 + 0x6d2b79f5).
Proof. by eexists _, _. Qed.

Lemma mix_inj a b : int32 a -> int32 b -> mix a = mix b -> a = b.
Proof.
  intros Ha Hb E. destruct (mix_steps a) as (a1 & a2 & Ea1 & Ea2 & Ea). destruct (mix_steps b) as (b1 & b2 & Eb1 & Eb2 & Eb). rewrite Ea, Eb in E.
  apply int32_step_inj in E; [|apply js_xor_range..]. apply xor_shl_inj in E; [|lia|subst a2; apply js_xor_range|subst b2; apply js_xor_range].
  rewrite Ea2, Eb2 in E. apply xor_ushr_inj in E; [|lia|subst a1; apply js_xor_range|subst b1; apply js_xor_range].
  rewrite Ea1, Eb1 in E. by apply xor_shl_inj in E; [|lia| |].
Qed.

Lemma chain_S n h : chain (S n) h = mix (chain n h).
Proof. reflexivity. Qed.
Lemma chain_range n h : int32 h -> int32 (chain n h).
Proof. intros Hh. destruct n; [done|]. rewrite chain_S. apply mix_range. Qed.
Lemma chain_inj n a b : int32 a -> int32 b -> chain n a = chain n b -> a = b.
Proof.
  intros Ha Hb. induction n as [|n IH]; [done|]. rewrite !chain_S. intros E. apply IH. apply mix_inj; [by apply chain_range..|exact E].
Qed.
Lemma chain_add n m h : chain (n + m) h = chain n (chain m h).
Proof. unfold chain. apply Nat.iter_add. Qed.

Lemma seed_range s : int32 (seedState s) /\ seedState s <> 0.
Proof.
  unfold seedState. assert (H : int32 (seed_fold s (ToInt32 0x811c9dc5))).
  { generalize (ToInt32_range 0x811c9dc5). generalize (ToInt32 0x811c9dc5). induction s as [|c s IH]; intros z Hz; [done|]. apply IH, ToInt32_range. }
  destruct (Z.eqb_spec (seed_fold s (ToInt32 0x811c9dc5)) 0) as [E|E]; [unfold int32; lia|done].
Qed.

(** *** The loop of a worker *)

Lemma worker_loop_chain fuel clk tEnd i h n now h' n' now' : worker_loop fuel clk tEnd i h n now = Some (h', n', now') ->
  exists k, h' = chain (k * Z.to_nat BATCH) h /\ n' = n + BATCH * Z.of_nat k /\ tEnd <= now' /\ (k = 0%nat -> now' = now).
Proof.
  revert i h n now. induction fuel as [|fuel IH]; intros i h n now; cbn [worker_loop]; [done|]. destruct (Z.ltb_spec now tEnd) as [Hl|Hl].
  - intros (k & -> & -> & He & _)%IH. exists (k + 1)%nat. rewrite Nat.mul_add_distr_r, Nat.mul_1_l, chain_add. split_and!; [done|lia|done|lia].
  - intros [= <- <- <-]. exists 0%nat. split_and!; [done|lia|done|done].
Qed.

Lemma worker_loop_ends fuel clk tEnd i h n now : (forall n, 0 < clk (S n) - clk n) -> now < clk i -> (Z.to_nat (tEnd - now) < fuel)%nat ->
  is_Some (worker_loop fuel clk tEnd i h n now).
Proof.
  intros Hc. revert i h n now. induction fuel as [|fuel IH]; intros i h n now Hi Hf; [lia|]. cbn [worker_loop].
  destruct (Z.ltb_spec now tEnd); [|done]. specialize (Hc i). apply IH; lia.
Qed.

(** *** Waiting *)

Lemma wait_spec type pending events got rest : waitForMessage type pending events = Some (Ok (got, rest)) ->
  (forall w, w ∈ pending -> exists m, (w, m) ∈ got) /\ (forall w m, (w, m) ∈ got -> Posted w m ∈ events /\ posted_type m = type) /\
  (forall e, e ∈ rest -> e ∈ events).
Proof.
  revert pending got. induction events as [|e events IH]; intros pending got.
  - destruct pending; cbn [waitForMessage]; [|done]. intros [= <- <-]. split_and!; [intros w Hw; by apply not_elem_of_nil in Hw|intros w m Hw; by apply not_elem_of_nil in Hw|done].
  - destruct pending as [|p ps]; cbn [waitForMessage].
    { intros [= <- <-]. split_and!; [intros w Hw; by apply not_elem_of_nil in Hw|intros w m Hw; by apply not_elem_of_nil in Hw|done]. }
    set (pending := p :: ps). assert (Hskip : forall got, waitForMessage type pending events = Some (Ok (got, rest)) -> 
      (forall w, w ∈ pending -> exists m, (w, m) ∈ got) /\ (forall w m, (w, m) ∈ got -> Posted w m ∈ e :: events /\ posted_type m = type) /\
      (forall e', e' ∈ rest -> e' ∈ e :: events)).
    { intros got' Hw. destruct (IH _ _ Hw) as (H1 & H2 & H3). split_and!; [done|intros w m Hm; destruct (H2 w m Hm); split; [by right|done]|by right; apply H3]. }
    destruct e as [w m|w msg|w].
    + destruct (bool_decide_reflect (w ∈ pending)) as [Hw|Hw]; cbn [andb]; [|apply Hskip]. destruct (bool_decide_reflect (posted_type m = type)) as [Ht|Ht]; [|apply Hskip].
      destruct (waitForMessage type (filter _ pending) events) as [[[got' rest']|]|] eqn:E; cbn [returned]; try done. intros [= <- <-].
      destruct (IH _ _ E) as (H1 & H2 & H3). split_and!.
      * intros v Hv. destruct (decide (v = w)) as [->|Hne]; [exists m; by left|]. destruct (H1 v) as [m' Hm']; [by apply list_elem_of_filter|]. exists m'. by right.
      * intros v m' [[= -> ->]|Hm']%elem_of_cons; [split; [by left|done]|]. destruct (H2 v m' Hm'). split; [by right|done].
      * intros e' He. right. by apply H3.
    + case_bool_decide; [done|apply Hskip].
    + case_bool_decide; [done|apply Hskip].
Qed.

Lemma done_of_got got w d : done_of got w = Some d -> (w, Done d) ∈ got.
Proof.
  unfold done_of. destruct (list_find _ got) as [[i [v [|d']]]|] eqn:E; try done. intros [= ->].
  apply list_find_Some in E as (Hl & Hv & _). cbn in Hv. subst v. by eapply list_elem_of_lookup_2.
Qed.

Lemma done_of_some got w m : (forall v m', (v, m') ∈ got -> posted_type m' = "done") -> (w, m) ∈ got -> is_Some (done_of got w).
Proof.
  intros Ht Hm. unfold done_of. destruct (list_find_elem_of (fun x : nat * posted => x.1 = w) got (w, m) Hm eq_refl) as [[i [v m']] E]. rewrite E.
  apply list_find_Some in E as (Hl & _). apply list_elem_of_lookup_2, Ht in Hl. by destruct m'.
Qed.

Lemma sum_rates_positive results sum rate : sum_rates results sum = Ok rate -> Forall (fun d => 0 < ops d /\ dltb zero (elapsed_ms d) = true) results.
Proof.
  revert sum. induction results as [|d l IH]; intros sum; cbn [sum_rates]; [constructor|]. intros Hs. apply bind_ok in Hs as ([] & Hd & Hs).
  apply throw_if_ok in Hd. bool_solve. constructor; [split; [lia|done]|by eapply IH].
Qed.

(** *** The points of the curve *)

Lemma doublings_spec fuel j cores : 0 <= j -> cores - 2 ^ j < Z.of_nat fuel ->
  StronglySorted Z.lt (doublings fuel (2 ^ j) cores) /\
  (forall x, x ∈ doublings fuel (2 ^ j) cores <-> exists i, j <= i /\ x = 2 ^ i /\ x < cores).
Proof.
  revert j. induction fuel as [|fuel IH]; intros j Hj Hf; cbn [doublings].
  - split; [constructor|]. intros x. split; [intros Hx; by apply not_elem_of_nil in Hx|]. intros (i & Hi & -> & Hx).
    pose proof (Z.pow_le_mono_r 2 j i ltac:(lia) Hi). lia.
  - destruct (Z.ltb_spec (2 ^ j) cores) as [Hl|Hl].
    + rewrite <- Z.pow_succ_r by done. destruct (IH (Z.succ j)) as [Hs He]; [lia|rewrite Z.pow_succ_r by done; pose proof (Z.pow_pos_nonneg 2 j ltac:(lia) Hj); lia|]. split.
      * constructor; [done|]. rewrite Forall_forall. intros x (i & Hi & -> & _)%He. apply Z.pow_lt_mono_r; lia.
      * intros x. rewrite elem_of_cons, He. split.
        -- intros [->|(i & Hi & -> & Hx)]; [by exists j|exists i; split; [lia|done]].
        -- intros (i & Hi & -> & Hx). destruct (decide (i = j)) as [->|Hne]; [by left|right; exists i; split; [lia|done]].
    + split; [constructor|]. intros x. split; [intros Hx; by apply not_elem_of_nil in Hx|]. intros (i & Hi & -> & Hx).
      pose proof (Z.pow_le_mono_r 2 j i ltac:(lia) Hi). lia.
Qed.

Definition curve_point (rate : double) (k : Z) (total : double) : MultiCorePoint :=
  {| workers := k; total_ops_per_second := dround total; per_worker_ops_per_second := dround (total / of_Z k)%D;
     efficiency := if dltb zero rate then round3 (total / of_Z k / rate)%D else zero |}.

Lemma measure_points_curve ks i total rate l rate' : Forall (fun k => k <> 1) ks -> measure_points ks i total rate = Some (Ok (l, rate')) ->
  rate' = rate /\ exists totals, l = zip_with (curve_point rate) ks totals /\ length totals = length ks /\
    forall j k t, ks !! j = Some k -> totals !! j = Some t -> total (i + j)%nat k = Some (Ok t).
Proof.
  intros Hks. revert i l. induction Hks as [|k ks Hk Hks IH]; intros i l; cbn [measure_points].
  - intros [= <- <-]. split; [done|]. exists []. split_and!; done.
  - destruct (total i k) as [[t|]|] eqn:Et; try done. rewrite (proj2 (Z.eqb_neq k 1)) by done.
    destruct (measure_points ks (S i) total rate) as [[[l' r']|]|] eqn:Em; cbn [returned]; try done. intros [= <- <-].
    destruct (IH _ _ Em) as (-> & totals & -> & Hlen & Hall). split; [done|]. exists (t :: totals). split_and!; [done|cbn; lia|].
    intros [|j] k' t'; cbn; [intros [= <-] [= <-]; by rewrite Nat.add_0_r|]. intros Hj Ht. rewrite Nat.add_succ_r. by apply (Hall j).
Qed.

Lemma sorted_snoc (l : list Z) x : StronglySorted Z.lt l -> Forall (fun y => y < x) l -> StronglySorted Z.lt (l ++ [x]).
Proof.
  induction 1 as [|y l Hs IH Hall]; intros Hf; cbn [app]; [by repeat constructor|]. apply Forall_cons in Hf as [Hy Hf].
  constructor; [by apply IH|]. apply Forall_app. split; [done|]. by constructor.
Qed.

Lemma points_start cores : 1 <= cores -> exists rest, defaultPoints cores = 1 :: rest /\ Forall (fun k => k <> 1) rest.
Proof.
  intros Hc. destruct (doublings_spec (Z.to_nat cores) 1 cores) as [_ He]; [lia|lia|]. change (2 ^ 1) with 2 in He.
  assert (Hd : Forall (fun k => k <> 1) (doublings (Z.to_nat cores) 2 cores)).
  { rewrite Forall_forall. intros x (i & Hi & -> & _)%He. pose proof (Z.pow_le_mono_r 2 1 i ltac:(lia) Hi). lia. }
  unfold defaultPoints. destruct (bool_decide_reflect (cores ∈ 1 :: doublings (Z.to_nat cores) 2 cores)) as [Hin|Hin]; [by eexists|].
  eexists. split; [reflexivity|]. apply Forall_app. split; [done|]. repeat constructor. intros ->. apply Hin. by left.
Qed.

(** ** Properties *)

(** The proof of work: a worker that ends has run a whole number of batches, for at
    least the time it was given, and what it posts can be checked from the seed alone,
    by running the chain for the number of operations it claims.  The chain loses
    nothing: with as many operations, two seeds give the same final state only if they
    give the same first state, which is never zero. *)
Theorem worker_chain (fuel : nat) (clk : nat -> Z) (duration : double) (seed : string) (d : WorkerDone) :
  run_worker fuel clk duration seed = Some (Ok d) ->
  exists k durationNs finish, ops d = BATCH * Z.of_nat k /\ final d = ToUint32 (chain (Z.to_nat (ops d)) (seedState seed)) /\ 0 <= final d < 2 ^ 32 /\
    ns_of_ms (dmax (of_Z 1) duration) = Ok durationNs /\ elapsed_ms d = (of_Z (finish - clk 0%nat) / of_Z 1000000)%D /\ durationNs <= finish - clk 0%nat /\
    seedState seed <> 0 /\
    (forall other, ToUint32 (chain (Z.to_nat (ops d)) (seedState other)) = final d -> seedState other = seedState seed).
Proof.
  unfold run_worker. destruct (ns_of_ms _) as [durationNs|e] eqn:Ed; [|done]. destruct (worker_loop _ _ _ _ _ _ _) as [[[h n] now]|] eqn:El; [|done].
  intros [= <-]. apply worker_loop_chain in El as (k & -> & -> & He & _). cbn [ops final elapsed_ms].
  assert (Hk : Z.to_nat (0 + BATCH * Z.of_nat k) = (k * Z.to_nat BATCH)%nat) by (unfold BATCH; lia). destruct (seed_range seed) as [Hr Hz].
  exists k, durationNs, now. rewrite Hk. split_and!; [done|done|apply Z.mod_pos_bound; lia|apply Z.mod_pos_bound; lia|done|done|lia|done|].
  intros other Ho. apply int32_inj in Ho; [|by apply chain_range, seed_range..]. by apply chain_inj in Ho; [|apply seed_range|].
Qed.

(** A worker whose clock advances ends, when it is given a finite time. *)
Theorem worker_ends (clk : nat -> Z) (duration : double) (seed : string) (durationNs : Z) :
  (forall n, 0 < clk (S n) - clk n) -> ns_of_ms (dmax (of_Z 1) duration) = Ok durationNs ->
  exists fuel d, run_worker fuel clk duration seed = Some (Ok d).
Proof.
  intros Hc Ed. pose proof (Hc 0%nat). destruct (worker_loop_ends (S (Z.to_nat durationNs)) clk (clk 0%nat + durationNs) 1 (seedState seed) 0 (clk 0%nat) Hc) as [[[h n] now] El];
    [lia|lia|]. exists (S (Z.to_nat durationNs)). eexists. unfold run_worker. rewrite Ed, El. reflexivity.
Qed.

(** No worker is left running: however a measurement ends, the last thing it does is to
    terminate each of the workers it spawned, once; no worker is started before all of
    them are ready; and a rate means that each worker reported some operations in some
    time. *)
Theorem workers_stopped (count : nat) (durationMs : double) (seeds : nat -> string) (events : list worker_event) (outcome : result double) :
  (measureWorkers count durationMs seeds events).2 = Some outcome ->
  (exists before, (measureWorkers count durationMs seeds events).1 = before ++ map Terminate (seq 0 count) /\
    (forall w, Terminate w ∉ before) /\ (forall w, Spawn w ∈ before <-> (w < count)%nat) /\
    ((exists w d s, Start w d s ∈ before) -> forall w, (w < count)%nat -> Posted w Ready ∈ events)) /\
  (forall rate, outcome = Ok rate -> forall w, (w < count)%nat -> exists d, Posted w (Done d) ∈ events /\ 0 < ops d /\ dltb zero (elapsed_ms d) = true).
Proof.
  unfold measureWorkers. cbv zeta. destruct (waitForMessage "ready" (seq 0 count) events) as [[[got rest]|e]|] eqn:Er; [| |done].
  - apply wait_spec in Er as (Hr1 & Hr2 & Hr3).
    assert (Hready : forall w, (w < count)%nat -> Posted w Ready ∈ events).
    { intros w Hw. destruct (Hr1 w) as [m Hm]; [apply elem_of_seq; lia|]. apply Hr2 in Hm as [Hm Ht]. by destruct m. }
    cbn [snd fst]. intros Ho. rewrite Ho. split.
    + exists (map Spawn (seq 0 count) ++ map (fun w => Start w durationMs (seeds w)) (seq 0 count)). rewrite app_assoc. split_and!; [done| | |done].
      * intros w Hw. rewrite elem_of_app, !list_elem_of_fmap in Hw. naive_solver.
      * intros w. rewrite elem_of_app. split; [rewrite !list_elem_of_fmap; intros [(v & [= ->] & Hv)|(v & Hv & _)]; [apply elem_of_seq in Hv; lia|discriminate Hv]|].
        intros Hw. left. apply list_elem_of_fmap_2, elem_of_seq. lia.
    + intros rate -> w Hw. destruct (waitForMessage "done" (seq 0 count) rest) as [[[got' rest']|]|] eqn:Ed; try done. injection Ho as Hs.
      apply wait_spec in Ed as (Hd1 & Hd2 & _). destruct (Hd1 w) as [m Hm]; [apply elem_of_seq; lia|].
      destruct (done_of_some got' w m) as [d Hd]; [intros v m' Hv; by destruct (Hd2 _ _ Hv)|done|]. exists d.
      split; [apply Hr3; by destruct (Hd2 _ _ (done_of_got _ _ _ Hd))|].
      apply sum_rates_positive in Hs. rewrite Forall_forall in Hs. apply Hs. apply list_elem_of_omap. exists w. split; [apply elem_of_seq; lia|done].
  - cbn [snd fst]. intros [= <-]. split; [|done]. exists (map Spawn (seq 0 count)). split_and!; [done| | |].
    + intros w Hw. rewrite list_elem_of_fmap in Hw. naive_solver.
    + intros w. split; [intros (v & [= ->] & Hv)%list_elem_of_fmap; apply elem_of_seq in Hv; lia|]. intros Hw. apply list_elem_of_fmap_2, elem_of_seq. lia.
    + intros (w & d & s & Hw). rewrite list_elem_of_fmap in Hw. naive_solver.
Qed.

(** The worker counts that are sampled: they increase from 1 to the number of cores and
    are the powers of two below it and that number. *)
Theorem default_points (cores : Z) : 1 <= cores ->
  StronglySorted Z.lt (defaultPoints cores) /\ head (defaultPoints cores) = Some 1 /\ last (defaultPoints cores) = Some cores /\
  (forall x, x ∈ defaultPoints cores <-> x = cores \/ exists i, 0 <= i /\ x = 2 ^ i /\ x < cores).
Proof.
  intros Hc. destruct (doublings_spec (Z.to_nat cores) 1 cores) as [Hs He]; [lia|lia|]. change (2 ^ 1) with 2 in Hs, He.
  unfold defaultPoints. set (l := doublings (Z.to_nat cores) 2 cores) in *.
  assert (Hl : forall x, x ∈ 1 :: l <-> x = 1 \/ exists i, 1 <= i /\ x = 2 ^ i /\ x < cores) by (intros x; by rewrite elem_of_cons, He).
  assert (H1 : StronglySorted Z.lt (1 :: l)).
  { constructor; [done|]. rewrite Forall_forall. intros x (i & Hi & -> & _)%He. pose proof (Z.pow_le_mono_r 2 1 i ltac:(lia) Hi). lia. }
  destruct (bool_decide_reflect (cores ∈ 1 :: l)) as [Hin|Hin].
  - apply Hl in Hin as [->|(i & _ & _ & Hlt)]; [|lia]. assert (El : l = []).
    { destruct l as [|x l']; [done|]. destruct (proj1 (He x) ltac:(by left)) as (i & Hi & -> & Hlt). pose proof (Z.pow_le_mono_r 2 1 i ltac:(lia) Hi). lia. }
    rewrite El. split_and!; [by repeat constructor|done|done|]. intros x. rewrite list_elem_of_singleton. split; [by left|]. intros [->|(i & Hi & -> & Hlt)]; [done|].
    pose proof (Z.pow_pos_nonneg 2 i ltac:(lia) Hi). lia.
  - assert (Hc1 : 1 < cores) by (destruct (decide (cores = 1)) as [->|]; [by destruct Hin; left|lia]). split_and!; [|done|by rewrite last_snoc|].
    + apply sorted_snoc; [done|]. rewrite Forall_forall. intros x [->|(i & _ & _ & Hlt)]%Hl; lia.
    + intros x. rewrite elem_of_app, Hl, list_elem_of_singleton. split.
      * intros [[->|(i & Hi & -> & Hlt)]| ->]; [right; exists 0; split_and!; [lia|done|lia]|right; exists i; split_and!; [lia|done|done]|by left].
      * intros [->|(i & Hi & -> & Hlt)]; [by right|left]. destruct (decide (i = 0)) as [->|]; [by left|right; exists i; split_and!; [lia|done|done]].
Qed.

(** The curve: with the default points the first one, of one worker, gives the rate that
    every efficiency is relative to; its own efficiency is exactly 1 when that rate is a
    finite positive number. *)
Theorem multi_core_curve (opts : MultiCoreOptions) (cpus : Z) (seeds : nat -> nat -> string) (events : nat -> list worker_event) (r : MultiCoreResult) :
  runMultiCore opts cpus seeds events = Some (Ok r) -> mo_points opts = None ->
  exists rate rest totals, cores r = Z.max 1 cpus /\ defaultPoints (cores r) = 1 :: rest /\ length totals = length rest /\
    (measureWorkers 1 (default (of_Z 1500) (mo_durationMs opts)) (seeds 0%nat) (events 0%nat)).2 = Some (Ok rate) /\
    points r = curve_point (rate / of_Z 1)%D 1 rate :: zip_with (curve_point (rate / of_Z 1)%D) rest totals /\ single_ops_per_second r = dround (rate / of_Z 1)%D /\
    (is_finite (rate / of_Z 1)%D = true -> dltb zero (rate / of_Z 1)%D = true -> efficiency <$> head (points r) = Some (of_Z 1)).
Proof.
  unfold runMultiCore. cbv zeta. intros Hr Hp. rewrite Hp in Hr. cbn [default from_option] in Hr. destruct (points_start (Z.max 1 cpus) ltac:(lia)) as (rest & Er & Hne).
  unfold id in Hr. rewrite Er in Hr. cbn [measure_points] in Hr. destruct (measureWorkers _ _ _ _).2 as [[rate|]|] eqn:Em; try done. cbn [Z.eqb Pos.eqb] in Hr.
  destruct (measure_points rest 1 _ _) as [[[l rate']|]|] eqn:Ep; cbn [returned] in Hr; try done. injection Hr as <-.
  apply measure_points_curve in Ep as (-> & totals & -> & Hlen & _); [|done]. exists rate, rest, totals. cbn [cores points single_ops_per_second].
  split_and!; try done. intros Hf Hpos. change (Some (efficiency (curve_point (rate / of_Z 1)%D 1 rate)) = Some (of_Z 1)). unfold curve_point. cbn [efficiency].
  rewrite Hpos, ddiv_self by done. f_equal.
Qed.

(** ** Concrete runs *)

Module MultiCoreDemo.
Definition clk (n : nat) : Z := Z.of_nat n * 1000000.
Definition reported : WorkerDone := {| ops := BATCH; elapsed_ms := of_Z 2; final := 5 |}.
Definition seeds (n : nat) : string := "00ff".
(** One worker, then two: they answer in any order, after noise. *)
Definition one : list worker_event := [Posted 0 Ready; Posted 0 (Done reported)].
Definition two : list worker_event := [Failed 7 "unknown"; Posted 1 Ready; Posted 0 Ready; Posted 0 (Done reported); TimedOut 0; Posted 1 (Done reported)].
Definition events (i : nat) : list worker_event := match i with O => one | _ => two end.
Definition opts : MultiCoreOptions := {| mo_durationMs := None; mo_points := None |}.
Definition rate : double := ok_or zero (default (Ok zero) (measureWorkers 2 (of_Z 1500) seeds two).2).
Definition result : MultiCoreResult :=
  ok_or {| cores := 0; points := []; single_ops_per_second := zero; effective_cores := zero |}
    (default (Throw (PlainError "")) (runMultiCore opts 2 (fun _ => seeds) events)).
End MultiCoreDemo.

Example two_cores : map workers (points MultiCoreDemo.result) = [1; 2] /\ effective_cores MultiCoreDemo.result = of_Z 2.
Proof. vm_compute. done. Qed.

Lemma worker_ends_witness : exists fuel d, run_worker fuel MultiCoreDemo.clk (of_Z 2) "00ff" = Some (Ok d).
Proof. apply (worker_ends MultiCoreDemo.clk (of_Z 2) "00ff" 2000000); [intros n; unfold MultiCoreDemo.clk; lia|vm_compute; reflexivity]. Defined.

Lemma worker_chain_witness : exists fuel d, run_worker fuel MultiCoreDemo.clk (of_Z 2) "00ff" = Some (Ok d) /\
  final d = ToUint32 (chain (Z.to_nat (ops d)) (seedState "00ff")).
Proof.
  destruct worker_ends_witness as (fuel & d & Hd). exists fuel, d. split; [exact Hd|].
  destruct (worker_chain fuel MultiCoreDemo.clk (of_Z 2) "00ff" d Hd) as (k & n & f & _ & Hf & _). exact Hf.
Defined.

Lemma workers_stopped_witness : exists before, (measureWorkers 2 (of_Z 1500) MultiCoreDemo.seeds MultiCoreDemo.two).1 = before ++ [Terminate 0; Terminate 1].
Proof.
  destruct (workers_stopped 2 (of_Z 1500) MultiCoreDemo.seeds MultiCoreDemo.two (Ok MultiCoreDemo.rate) ltac:(vm_compute; reflexivity)) as [(before & Hb & _) _].
  exists before. exact Hb.
Defined.

Lemma default_points_witness : last (defaultPoints 10) = Some 10 /\ defaultPoints 10 = [1; 2; 4; 8; 10].
Proof. split; [apply (default_points 10); lia|vm_compute; reflexivity]. Defined.

Lemma multi_core_curve_witness : efficiency <$> head (points MultiCoreDemo.result) = Some (of_Z 1).
Proof.
  destruct (multi_core_curve MultiCoreDemo.opts 2 (fun _ => MultiCoreDemo.seeds) MultiCoreDemo.events MultiCoreDemo.result ltac:(vm_compute; reflexivity)
    eq_refl) as (rate & rest & totals & _ & _ & _ & Hr & _ & _ & He). vm_compute in Hr. injection Hr as Hr.
  apply He; rewrite <- Hr; vm_compute; reflexivity.
Defined.
