(* ===== verification/CpuBench.v ===== *)
(** * The CPU bench (bench-cpu.ts)

    The tool that judges a machine: it runs the suites one after the other and decides
    whether the measured capacity is admissible.  [BenchEnv] holds what the
    environment supplies to each suite. *)

From Stdlib Require Import SpecFloat.
From S2P Require Import Prelude Effect Text Json Coerce Crypto CanonicalJson SecureChannel Url Dedupe Replay DataHandshake ProxyServe DataPlane Double Runner Suites Composite CompositeRun Sustained MultiCore.
Local Open Scope Z_scope.

Definition BASELINE_P99_WARN_NS : double := of_Z 2000000.
Definition DRIFT_FACTOR_WARN : double := of_Z 4.
Definition CPU_TIME_RATIO_WARN : double := ratio 9 10.

(** ** Flags *)

(** The double nearest to a decimal: [p / q] rounded once. *)
Definition round_ratio (s : bool) (p q : positive) : double :=
  let '(m, e, l) := SFdiv_core_binary prec emax (Z.pos p) 0 (Z.pos q) 0 in binary_round_aux prec emax s m e l.
Definition double_of_num (n : num) : double :=
  match n with
  | NaN => nan
  | Infinite s => S754_infinity s
  | Fin m e => match m with Z0 => zero | Z.pos p => round_ratio false p (10 ^ Pos.of_nat e) | Z.neg p => round_ratio true p (10 ^ Pos.of_nat e) end
  end.
(** [Number(s)]. *)
Definition Number (s : string) : double := double_of_num (string_to_number s).

(** [args.includes(name)]; [args.indexOf(name)] is the first position. *)
Definition includes (name : string) (args : list string) : bool := bool_decide (name ∈ args).

(** What is thrown names the argument after the flag. *)
Definition numberFlag (args : list string) (name : string) (fallback : double) : result double :=
  match list_find (fun a => a = name) args with
  | None => Ok fallback
  | Some (index, _) =>
      let next := args !! S index in
      let value := match next with Some s => Number s | None => nan end in
      throw_if (negb (is_finite value) || dltb value zero)
        (PlainError (name +:+ " expects a non-negative number, got: " +:+ default "(nothing)" next));;
      Ok value
  end.

(** ** Admission *)

Inductive Blocker := NotRun | InvalidMeasurement | Throttled (ratio : double) | SharedCore (ratio : double).
Inductive Basis := SustainedBasis | BurstBasis.
Record AdmissionMetric := { capacity_req_s : double; floor_req_s : double; basis : Basis; stable : bool; blockers : list Blocker }.

(** [composite.results.find((r) => r.response_size_bytes === size)]. *)
Definition find_size (size : Z) (c : CompositeRequestResult) : option CompositeRequestSubResult :=
  snd <$> list_find (fun r => response_size_bytes r = size) (cr_results c).

Definition deriveAdmission (composite : CompositeRequestResult) (sustained : option SustainedResult) (measurementValid : bool) : AdmissionMetric :=
  match sustained with
  | None =>
      {| capacity_req_s := dround (match find_size 16384 composite with Some r => node_requests_per_second r | None => requests_per_second composite end);
         floor_req_s := zero; basis := BurstBasis; stable := false; blockers := [NotRun] |}
  | Some s =>
      let blockers := (if measurementValid then [] else [InvalidMeasurement]) ++ (if steady s then [] else [Throttled (throttle_ratio s)]) ++
        (if dltb (cpu_time_ratio s) CPU_TIME_RATIO_WARN then [SharedCore (cpu_time_ratio s)] else []) in
      {| capacity_req_s := dround (node_rps_mean s); floor_req_s := dround (node_rps_min_window s); basis := SustainedBasis;
         stable := bool_decide (length blockers = 0%nat); blockers := blockers |}
  end.

(** [Object.keys(stages)] is [STAGE_NAMES], the order in which they were set. *)
Definition topStage (stages : CompositeStageName -> CompositeStageStats) : option (CompositeStageName * double) :=
  fold_left (fun best name =>
      let share := share (stages name) in
      match best with
      | None => Some (name, share)
      | Some (_, most) => if dltb most share then Some (name, share) else best
      end) STAGE_NAMES None.

(** ** The report *)

Inductive Warning := Busy (p99 : double) | Drift (before after : double).
Inductive Note := Variance (bytes : Z) (cv : double) (expected : bool) | Bottleneck (stage : CompositeStageName) (share : double).

(** The inventory of [runSystem]. *)
Record SystemResult := {
  platform : string; arch : string; cpus : Z; total_memory_bytes : Z; free_memory_bytes : Z; uptime_seconds : double; bun_version : string }.

Record Primitives := {
  cpu_hash : option SuiteResult; crypto_aead : option (SuiteResult * SuiteResult); ed25519 : option Ed25519Result;
  session_derive : option (BenchResult * double); encode : option SuiteResult }.
Definition NO_PRIMITIVES : Primitives := {| cpu_hash := None; crypto_aead := None; ed25519 := None; session_derive := None; encode := None |}.

Record CpuBenchReport := {
  started_at : string; report_ms : double; quick : bool; system : SystemResult; baseline : BenchResult; post : option BenchResult;
  composite : CompositeRequestResult; primitives : Primitives; sustained : option SustainedResult; multi_core : option MultiCoreResult;
  admission : AdmissionMetric; small_1kb_req_s : option double; large_256kb_req_s : option double;
  dominant_stage_16kb : option (CompositeStageName * double); report_requests_per_second : double; report_reliable : bool;
  warnings : list Warning; notes : list Note }.

(** With [--json] the report is written as JSON, otherwise as a summary. *)
Inductive Outcome := Help | Report (json : bool) (r : CpuBenchReport).

(** ** The run *)

(** One suite after the other: the next begins when this one has its result. *)
Definition then_run {A B} (o : option (result A)) (k : A -> option (result B)) : option (result B) :=
  match o with None => None | Some (Throw e) => Some (Throw e) | Some (Ok a) => k a end.

Definition p99_of (r : BenchResult) : double := st_p99 (ns_per_op r).
Definition busy_warnings (baseline : BenchResult) : list Warning :=
  if dltb BASELINE_P99_WARN_NS (p99_of baseline) then [Busy (p99_of baseline)] else [].
Definition drift_warnings (baseline post : BenchResult) : list Warning :=
  if dltb (p99_of baseline * DRIFT_FACTOR_WARN)%D (p99_of post) then [Drift (p99_of baseline) (p99_of post)] else [].
Definition variance_notes (c : CompositeRequestResult) : list Note :=
  omap (fun sub => if sub_reliable sub then None
                   else Some (Variance (response_size_bytes sub) (cv (exchange sub)) (262144 <=? response_size_bytes sub))) (cr_results c).

Section Bench.
Context `{Hashing} `{Hkdf} `{KeyExchange} `{PemKeys} `{Aead} `{UrlApi}.

Record BenchEnv := {
  be_started : string; be_t0 : Z; be_t1 : Z; be_system : SystemResult; be_baseline : nat -> Z; be_composite : CompositeSizeConfig -> SizeInput;
  be_hash : Z -> nat -> Z; be_aead : Z -> nat -> Z; be_key : buffer; be_payload : Z -> buffer; be_sign : nat -> Z; be_verify : nat -> Z;
  be_sk : SecretKey; be_message : buffer; be_derive : nat -> Z; be_peer : DhSecret; be_local : DhSecret; be_clientNonce : buffer;
  be_serverNonce : buffer; be_encoding : Z -> nat -> Z; be_body : Z -> buffer; be_sustained : SustainedInput; be_cpus : Z;
  be_seeds : nat -> nat -> string; be_events : nat -> list worker_event; be_post : nat -> Z }.

Definition run_primitives (fuel : nat) (env : BenchEnv) : option (result Primitives) :=
  then_run (runCpuHash fuel (be_hash env)) (fun hash =>
  then_run (runCryptoAead fuel (be_aead env) (be_key env) (be_payload env)) (fun aead =>
  then_run (runEd25519 fuel (be_sign env) (be_verify env) (be_sk env) (be_message env) None None) (fun ed =>
  then_run (runSessionDerive fuel (be_derive env) (be_peer env) (be_local env) (be_clientNonce env) (be_serverNonce env) None None) (fun derive =>
  then_run (runEncode fuel (be_encoding env) (be_body env) None None) (fun enc =>
  Some (Ok {| cpu_hash := Some hash; crypto_aead := Some aead; ed25519 := Some ed; session_derive := Some derive; encode := Some enc |})))))).

(** The options that [main] gives to the composite suite and to the sustained one. *)
Definition composite_options (quick : bool) : CompositeRequestOptions :=
  if quick then {| co_sizes := None; co_warmupMs := Some 50; co_measureMs := Some 300 |} else {| co_sizes := None; co_warmupMs := None; co_measureMs := None |}.
Definition sustained_options (seconds : double) : SustainedOptions :=
  {| so_durationMs := Some (seconds * of_Z 1000)%D; so_windowMs := None; so_responseBytes := None; so_warmupMs := None |}.

(** What a run without [--quick] measures after the composite suite. *)
Record FullRun := { fr_primitives : Primitives; fr_sustained : option SustainedResult; fr_multi : MultiCoreResult; fr_post : BenchResult }.
Definition full_run (fuel : nat) (env : BenchEnv) (seconds : double) : option (result FullRun) :=
  then_run (run_primitives fuel env) (fun p =>
  then_run (if dltb zero seconds then returned Some (runSustained fuel (sustained_options seconds) (be_sustained env)) else Some (Ok None)) (fun s =>
  then_run (runMultiCore {| mo_durationMs := None; mo_points := None |} (be_cpus env) (be_seeds env) (be_events env)) (fun m =>
  then_run (runEventLoop fuel (be_post env)) (fun post =>
  Some (Ok {| fr_primitives := p; fr_sustained := s; fr_multi := m; fr_post := post |}))))).

Definition build_report (env : BenchEnv) (quick : bool) (baseline : BenchResult) (composite : CompositeRequestResult) (full : option FullRun) : CpuBenchReport :=
  let sustained := full ≫= fr_sustained in
  let warnings := busy_warnings baseline ++ match full with Some f => drift_warnings baseline (fr_post f) | None => [] end in
  let dominantStage := find_size 16384 composite ≫= fun r => topStage (stages r) in
  let notes := variance_notes composite ++ match dominantStage with Some (name, share) => [Bottleneck name share] | None => [] end in
  let admission := deriveAdmission composite sustained (bool_decide (length warnings = 0%nat)) in
  {| started_at := be_started env; report_ms := dround (of_Z (be_t1 env - be_t0 env) / of_Z 1000000)%D; quick := quick; system := be_system env;
     baseline := baseline; post := fr_post <$> full; composite := composite; primitives := from_option fr_primitives NO_PRIMITIVES full;
     sustained := sustained; multi_core := fr_multi <$> full; admission := admission;
     small_1kb_req_s := (fun r => dround (node_requests_per_second r)) <$> find_size 1024 composite;
     large_256kb_req_s := (fun r => dround (node_requests_per_second r)) <$> find_size 262144 composite; dominant_stage_16kb := dominantStage;
     report_requests_per_second := capacity_req_s admission; report_reliable := stable admission; warnings := warnings; notes := notes |}.

Definition main (fuel : nat) (env : BenchEnv) (args : list string) : option (result Outcome) :=
  if includes "--help" args || includes "-h" args then Some (Ok Help)
  else
    let quick := includes "--quick" args in
    match numberFlag args "--sustained-seconds" (of_Z 60) with
    | Throw e => Some (Throw e)
    | Ok sustainedSeconds =>
        then_run (runEventLoop fuel (be_baseline env)) (fun baseline =>
        then_run (runCompositeRequest fuel (composite_options quick) (be_composite env)) (fun composite =>
        then_run (if quick then Some (Ok None) else returned Some (full_run fuel env sustainedSeconds)) (fun full =>
        Some (Ok (Report (includes "--json" args) (build_report env quick baseline composite full))))))
    end.
End Bench.

(** ** Lemmas *)

Lemma full_run_ok `{Hashing} `{Hkdf} `{KeyExchange} `{PemKeys} `{Aead} `{UrlApi} fuel env args o : main fuel env args = Some (Ok o) ->
  o = Help /\ (includes "--help" args || includes "-h" args) = true \/
  exists baseline composite full, o = Report (includes "--json" args) (build_report env (includes "--quick" args) baseline composite full) /\
    (includes "--quick" args = true -> full = None).
Proof.
  unfold main. destruct (includes "--help" args || includes "-h" args); [by intros [= <-]; left|]. destruct (numberFlag _ _ _) as [seconds|]; [|done].
  destruct (runEventLoop _ _) as [[baseline|]|]; cbn [then_run]; try done. destruct (runCompositeRequest _ _ _) as [[composite|]|]; cbn [then_run]; try done.
  destruct (includes "--quick" args).
  - cbn [then_run]. intros [= <-]. right. by exists baseline, composite, None.
  - destruct (full_run _ _ _) as [[full|]|]; cbn [returned then_run]; try done. intros [= <-]. right. by exists baseline, composite, (Some full).
Qed.

Lemma derive_stable composite s valid : stable (deriveAdmission composite (Some s) valid) = true <->
  valid = true /\ steady s = true /\ dltb (cpu_time_ratio s) CPU_TIME_RATIO_WARN = false.
Proof. cbn [deriveAdmission stable]. destruct valid, (steady s), (dltb _ _); cbn; split; try done; intros (? & ? & ?); done. Qed.

Lemma derive_blockers composite s valid :
  let a := deriveAdmission composite s valid in stable a = true <-> blockers a = [].
Proof. destruct s as [s|]; cbn [deriveAdmission stable blockers]; [|done]. rewrite bool_decide_eq_true. by rewrite length_zero_iff_nil. Qed.

(** The largest share so far. *)
Lemma top_fold (st : CompositeStageName -> CompositeStageStats) l n : (forall m, is_nan (share (st m)) = false) -> exists n',
  fold_left (fun best name =>
      let share := share (st name) in
      match best with
      | None => Some (name, share)
      | Some (_, most) => if dltb most share then Some (name, share) else best
      end) l (Some (n, share (st n))) = Some (n', share (st n')) /\
  dleb (share (st n)) (share (st n')) = true /\ forall m, m ∈ l -> dleb (share (st m)) (share (st n')) = true.
Proof.
  intros Hn. revert n. induction l as [|x l IH]; intros n; cbn [fold_left].
  - exists n. split; [done|]. split; [by apply dleb_refl|]. intros m Hm. by apply not_elem_of_nil in Hm.
  - destruct (dltb (share (st n)) (share (st x))) eqn:E.
    + destruct (IH x) as (n' & Hf & Hx & Hl). exists n'. split; [exact Hf|].
      assert (Hnx : dleb (share (st n)) (share (st x)) = true).
      { apply dltb_rank in E; [|done..]. apply dleb_rank; [done..|]. destruct (rank_total (rank (share (st n))) (rank (share (st x)))); [done|by destruct E]. }
      split; [by eapply dleb_trans; [..|exact Hnx|exact Hx]|]. intros m [->|Hm]%elem_of_cons; [done|by apply Hl].
    + destruct (IH n) as (n' & Hf & Hx & Hl). exists n'. split; [exact Hf|]. split; [done|]. intros m [->|Hm]%elem_of_cons; [|by apply Hl].
      rewrite dltb_dleb in E by done. apply negb_false_iff in E. by eapply dleb_trans; [..|exact E|exact Hx].
Qed.

(** *** The tool ends *)

(** What the run depends on, with the sustained suite when it is asked for. *)
Record bench_ready `{Hashing} `{KeyExchange} `{PemKeys} `{UrlApi} (env : BenchEnv) (quick : bool) (seconds : double) : Prop := {
  br_baseline : advances (be_baseline env);
  br_composite : Forall (fun size => size_ready (composite_options quick) size (be_composite env size)) DEFAULT_COMPOSITE_SIZES;
  br_full : quick = false ->
    (forall sz, advances (be_hash env sz)) /\ (forall sz, advances (be_aead env sz)) /\ advances (be_sign env) /\ advances (be_verify env) /\
    advances (be_derive env) /\ (forall sz, advances (be_encoding env sz)) /\ advances (be_post env) /\
    (16 <= length (be_clientNonce env))%nat /\ (16 <= length (be_serverNonce env))%nat /\
    (dltb zero seconds = true -> sustained_ready (sustained_options seconds) (be_sustained env)) /\
    (forall i k, defaultPoints (Z.max 1 (be_cpus env)) !! i = Some k ->
       exists rate, (measureWorkers (Z.to_nat k) (of_Z 1500) (be_seeds env i) (be_events env i)).2 = Some (Ok rate)) }.

Lemma measure_points_ok ks i total rate : (forall j k, ks !! j = Some k -> exists t, total (i + j)%nat k = Some (Ok t)) ->
  exists l rate', measure_points ks i total rate = Some (Ok (l, rate')).
Proof.
  revert i rate. induction ks as [|k ks IH]; intros i rate Hk; cbn [measure_points]; [by eexists _, _|].
  destruct (Hk 0%nat k eq_refl) as [t Ht]. rewrite Nat.add_0_r in Ht. rewrite Ht.
  match goal with |- context [measure_points ks (S i) total ?r] => destruct (IH (S i) r) as (l & rate' & ->) end; [|by eexists _, _].
  intros j k' Hj. replace (S i + j)%nat with (i + S j)%nat by lia. by apply Hk.
Qed.

Lemma event_loop_ends clk : advances clk -> exists fuel b, forall fuel', (fuel <= fuel')%nat -> runEventLoop fuel' clk = Some (Ok b).
Proof. intros Hc. apply run_returns. split; [by exists (of_Z 1)|exact Hc]. Qed.

Lemma sustained_part `{HashingLaws} `{HkdfLaws} `{KeyExchangeLaws} `{PemKeys} `{!SigningLaws} `{AeadLaws} `{UrlApi} env seconds :
  (dltb zero seconds = true -> sustained_ready (sustained_options seconds) (be_sustained env)) ->
  exists fuel s, forall fuel', (fuel <= fuel')%nat ->
    (if dltb zero seconds then returned Some (runSustained fuel' (sustained_options seconds) (be_sustained env)) else Some (Ok None)) = Some (Ok s).
Proof.
  intros Hs. destruct (dltb zero seconds); [|by exists 0%nat, None]. destruct (sustained_ends _ _ (Hs eq_refl)) as (fuel & r & p & Hr).
  exists fuel, (Some r). intros fuel' Hf. unfold runSustained. by rewrite Hr.
Qed.

Lemma full_run_ends `{HashingLaws} `{HkdfLaws} `{KeyExchangeLaws} `{PemKeys} `{!SigningLaws} `{AeadLaws} `{UrlApi} env seconds :
  bench_ready env false seconds -> exists fuel, forall fuel', (fuel <= fuel')%nat -> exists full, full_run fuel' env seconds = Some (Ok full).
Proof.
  intros [_ _ Hf]. destruct (Hf eq_refl) as (C1 & C2 & C3 & C4 & C5 & C6 & C7 & L1 & L2 & Hs & Hm).
  destruct (suites_end (be_hash env) (be_key env) (be_payload env) (be_sk env) (be_message env) (be_peer env) (be_local env) _ _ None None C1 L1 L2) as (f1 & S1).
  destruct (suites_end (be_aead env) (be_key env) (be_payload env) (be_sk env) (be_message env) (be_peer env) (be_local env) _ _ None None C2 L1 L2) as (f2 & S2).
  assert (C34 : forall sz, advances (if sz =? 0 then be_sign env else be_verify env)) by (intros sz; by destruct (sz =? 0)).
  destruct (suites_end (fun sz => if sz =? 0 then be_sign env else be_verify env) (be_key env) (be_payload env) (be_sk env) (be_message env) (be_peer env)
    (be_local env) _ _ None None C34 L1 L2) as (f3 & S3).
  destruct (suites_end (fun _ => be_derive env) (be_key env) (be_payload env) (be_sk env) (be_message env) (be_peer env) (be_local env) _ _ None None (fun _ => C5) L1 L2)
    as (f4 & S4).
  destruct (suites_end (be_encoding env) (be_key env) (be_body env) (be_sk env) (be_message env) (be_peer env) (be_local env) _ _ None None C6 L1 L2) as (f5 & S5).
  destruct (sustained_part env seconds Hs) as (f6 & s & S6). destruct (event_loop_ends (be_post env) C7) as (f7 & post & S7).
  destruct (measure_points_ok (defaultPoints (Z.max 1 (be_cpus env))) 0
    (fun i k => (measureWorkers (Z.to_nat k) (of_Z 1500) (be_seeds env i) (be_events env i)).2) zero Hm) as (l & rate & Hpts).
  exists (f1 + f2 + f3 + f4 + f5 + f6 + f7)%nat. intros F HF. unfold full_run, run_primitives.
  destruct (S1 F ltac:(lia)) as ((r1 & E1 & _) & _), (S2 F ltac:(lia)) as (_ & (r2 & r2' & E2 & _) & _), (S3 F ltac:(lia)) as (_ & _ & _ & _ & _ & (r3 & E3) & _),
    (S4 F ltac:(lia)) as (_ & _ & _ & _ & _ & _ & (r4 & E4)), (S5 F ltac:(lia)) as (_ & _ & (r5 & E5 & _) & _).
  cbn [Z.eqb] in E3. rewrite E1, E2, E3, E4, E5. cbn [then_run]. rewrite S6 by lia. cbn [then_run]. unfold runMultiCore. cbn [mo_durationMs mo_points default from_option].
  unfold id. cbv zeta. rewrite Hpts. cbn [returned then_run]. rewrite S7 by lia. cbn [then_run]. by eexists.
Qed.

Lemma main_ends `{HashingLaws} `{HkdfLaws} `{KeyExchangeLaws} `{PemKeys} `{!SigningLaws} `{AeadLaws} `{UrlApi}
    (env : BenchEnv) (args : list string) (seconds : double) :
  includes "--help" args || includes "-h" args = false -> numberFlag args "--sustained-seconds" (of_Z 60) = Ok seconds ->
  bench_ready env (includes "--quick" args) seconds ->
  exists fuel r, main fuel env args = Some (Ok (Report (includes "--json" args) r)).
Proof.
  intros Hh Hs Hr. pose proof Hr as [Hb Hc _]. destruct (event_loop_ends _ Hb) as (f1 & b & E1).
  destruct (composite_ends (composite_options (includes "--quick" args)) (be_composite env)) as (f2 & c & E2 & _);
    [by revert Hc; destruct (includes "--quick" args)|destruct (includes "--quick" args); cbn; lia|].
  unfold main. rewrite Hh, Hs. destruct (includes "--quick" args).
  - exists (f1 + f2)%nat. eexists. rewrite E1 by lia. cbn [then_run]. rewrite E2 by lia. reflexivity.
  - destruct (full_run_ends env seconds Hr) as (f3 & E3). destruct (E3 (f1 + f2 + f3)%nat ltac:(lia)) as [full Ef].
    exists (f1 + f2 + f3)%nat. eexists. rewrite E1 by lia. cbn [then_run]. rewrite E2 by lia. cbn [then_run]. rewrite Ef. reflexivity.
Qed.

(** ** Properties *)

(** C36: the verdict: a report says that a machine is admissible exactly when the whole run
    was made, without [--quick], it left no warning, and the sustained suite ran, was
    steady and had its core to itself.  An admissible report has no blocker and the
    other way round; its capacity and floor are those of the sustained suite, whatever
    the composite suite measured; and the two old fields repeat the verdict. *)
Theorem admission_verdict `{Hashing} `{Hkdf} `{KeyExchange} `{PemKeys} `{Aead} `{UrlApi}
    (fuel : nat) (env : BenchEnv) (args : list string) (j : bool) (r : CpuBenchReport) :
  main fuel env args = Some (Ok (Report j r)) ->
  let a := admission r in
  (stable a = true <-> "--quick" ∉ args /\ warnings r = [] /\ exists s, sustained r = Some s /\ steady s = true /\
     dltb (cpu_time_ratio s) CPU_TIME_RATIO_WARN = false) /\
  (stable a = true <-> blockers a = []) /\
  (forall s, sustained r = Some s -> capacity_req_s a = dround (node_rps_mean s) /\ floor_req_s a = dround (node_rps_min_window s) /\
     basis a = SustainedBasis /\ forall c, deriveAdmission c (Some s) (bool_decide (length (warnings r) = 0%nat)) = a) /\
  (sustained r = None -> blockers a = [NotRun]) /\ ("--quick" ∈ args -> sustained r = None) /\
  report_requests_per_second r = capacity_req_s a /\ report_reliable r = stable a.
Proof.
  intros Hm. cbv zeta. apply full_run_ok in Hm as [[[=] _]|(baseline & composite & full & [= -> ->] & Hq)]. unfold includes in Hq. rewrite bool_decide_eq_true in Hq.
  cbn [build_report admission warnings sustained report_requests_per_second report_reliable]. set (ws := busy_warnings _ ++ _).
  split_and!; [|apply derive_blockers| | |by intros ->%Hq|done|done].
  - destruct (full ≫= fr_sustained) as [s|] eqn:Es.
    + rewrite derive_stable, bool_decide_eq_true, length_zero_iff_nil. split; [|naive_solver].
      intros (-> & Hs & Hc). split; [|naive_solver]. intros ->%Hq. done.
    + split; [done|]. intros (_ & _ & s & [=] & _).
  - intros s ->. done.
  - by intros ->.
Qed.

(** The dominant stage of the notes has the largest share. *)
Theorem top_stage_largest (stages : CompositeStageName -> CompositeStageStats) :
  (forall m, is_nan (share (stages m)) = false) ->
  exists n, topStage stages = Some (n, share (stages n)) /\ forall m, dleb (share (stages m)) (share (stages n)) = true.
Proof.
  intros Hn. destruct (top_fold stages [request_open; ticket_verify; response_encode; response_seal] handshake Hn) as (n & Hf & Hh & Hl).
  exists n. split; [exact Hf|]. intros m. destruct m; [exact Hh|apply Hl; set_solver..].
Qed.

(** [--sustained-seconds]: without the flag it is the fallback; a flag with nothing after
    it, or with a text that is no finite non-negative number, stops the tool; so what
    the run gets is always a finite number that is not below zero. *)
Theorem number_flag (args : list string) (name : string) (fallback : double) :
  (name ∉ args -> numberFlag args name fallback = Ok fallback) /\
  (forall before rest, args = before ++ name :: rest -> name ∉ before ->
     let value := match rest with s :: _ => Number s | [] => nan end in
     numberFlag args name fallback = if is_finite value && negb (dltb value zero) then Ok value
       else Throw (PlainError (name +:+ " expects a non-negative number, got: " +:+ default "(nothing)" (head rest)))) /\
  (forall v, is_finite fallback = true -> dltb fallback zero = false -> numberFlag args name fallback = Ok v -> is_finite v = true /\ dltb v zero = false).
Proof.
  unfold numberFlag. split_and!.
  - intros Hn. destruct (list_find _ args) as [[i a]|] eqn:E; [|done]. apply list_find_Some in E as (Hi & -> & _). by apply list_elem_of_lookup_2 in Hi.
  - intros pre rest -> Hn. set (value := match rest with s :: _ => Number s | [] => nan end). assert (E : list_find (fun a => a = name) (pre ++ name :: rest) = Some (length pre, name)).
    { apply list_find_Some. rewrite lookup_app_r, Nat.sub_diag by done. split_and!; [done|done|]. intros k a Hk Hlt ->.
      rewrite lookup_app_l in Hk by done. by apply list_elem_of_lookup_2 in Hk. }
    rewrite E. rewrite lookup_app_r by lia. replace (S (length pre) - length pre)%nat with 1%nat by lia.
    assert (Ev : value = match (name :: rest) !! 1%nat with Some s => Number s | None => nan end) by (subst value; by destruct rest).
    rewrite <- Ev. replace ((name :: rest) !! 1%nat) with (head rest) by (by destruct rest). destruct (is_finite value), (dltb value zero); done.
  - intros v Hf Hz. destruct (list_find _ args) as [[i a]|]; [|by intros [= <-]]. intros Hv. apply bind_ok in Hv as ([] & Ht & [= <-]).
    apply throw_if_ok in Ht. apply orb_false_iff in Ht as [Ht1 Ht2]. by apply negb_false_iff in Ht1.
Qed.

(** A finding: a sustained suite of at most two windows, as [--sustained-seconds 10] asks
    for, admits a machine that throttles: its early and late windows are the same, so it
    counts as steady, and with a core of its own it is admissible.  One of less than a
    window, on any machine, is blocked as throttled with a ratio of 0. *)
Theorem short_run_admitted (c : CompositeRequestResult) (responseBytes : Z) (windowMs : double) (t0 cpuUs : Z) (s : Loop) :
  let r := sustained_result responseBytes windowMs t0 cpuUs s in let early := meanOf (map node_rps (windows r)) in
  ((length (windows r) <= 2)%nat -> is_finite early = true -> dltb zero early = true -> dltb (cpu_time_ratio r) CPU_TIME_RATIO_WARN = false ->
   stable (deriveAdmission c (Some r) true) = true) /\
  (windows r = [] -> Throttled zero ∈ blockers (deriveAdmission c (Some r) true)).
Proof.
  cbv zeta. destruct (short_run_steady responseBytes windowMs t0 cpuUs s) as [H1 H2]. split.
  - intros Hl Hf Hp Hc. destruct (H1 Hl Hf Hp) as [Hs _]. by apply derive_stable.
  - intros Hw. destruct (H2 Hw) as (Hs & Ht & _). cbn [deriveAdmission blockers]. rewrite Hs, Ht. by left.
Qed.

(** The tool ends with a report: on clocks that advance, with tickets that are new and
    workers that answer, every suite of the run returns and so does [main]; neither a
    check in a suite nor the replay cache stops it. *)
Theorem bench_ends `{HashingLaws} `{HkdfLaws} `{KeyExchangeLaws} `{PemKeys} `{!SigningLaws} `{AeadLaws} `{UrlApi}
    (env : BenchEnv) (args : list string) (seconds : double) :
  includes "--help" args || includes "-h" args = false -> numberFlag args "--sustained-seconds" (of_Z 60) = Ok seconds ->
  bench_ready env (includes "--quick" args) seconds ->
  exists fuel r, main fuel env args = Some (Ok (Report (includes "--json" args) r)).
Proof. apply main_ends. Qed.

(** ** A concrete run *)

(** The same fixture with another response of the upstream server. *)
Definition with_upstream `{Signing} (u : ProxyResult) (fx : Fixture) : Fixture :=
  {| fx_identity := fx_identity fx; fx_orchestrator := fx_orchestrator fx; fx_dedupeKey := fx_dedupeKey fx; fx_upstream := u |}.

Lemma ready_upstream `{KeyExchange} `{PemKeys} u fixture x w : ready fixture x w -> fits (response_json u) -> ready (with_upstream u fixture) x w.
Proof. intros [R1 R2 R3 R4 R5 R6 R7 R8 R9 _] Hu. by split. Qed.

Module BenchDemo.
Definition clk : nat -> Z := clock RunnerDemo.env.
Definition for_size (size : CompositeSizeConfig) : @SizeInput Toy.key_exchange Toy.signing :=
  @Build_SizeInput Toy.key_exchange Toy.signing CompositeDemo.identity 3 (utf8 "hi") (CompositeDemo.input_for "k") MeasureDemo.inputs clk.
Definition fixture (responseBytes : Z) : @Fixture Toy.signing := with_upstream (upstream_result (utf8 "hi") responseBytes) CompositeDemo.fixture.
Definition system : SystemResult :=
  {| platform := "linux"; arch := "x64"; cpus := 2; total_memory_bytes := 8589934592; free_memory_bytes := 4294967296; uptime_seconds := of_Z 60;
     bun_version := "1.3.0" |}.
Definition env : @BenchEnv Toy.key_exchange Toy.signing :=
  @Build_BenchEnv Toy.key_exchange Toy.signing "1970-01-01T00:00:00.000Z" 0 5000000 system clk for_size (fun _ => clk) (fun _ => clk) (be_encode 32 1)
    (fun _ => utf8 "hi") clk clk 3 (utf8 "hi") clk 5 11 (be_encode 16 21) (be_encode 16 22) (fun _ => clk) (fun _ => utf8 "hi")
    {| ri_size := for_size {| cs_label := "16KB"; cs_response_bytes := 16384; cs_inner := None |}; ri_cpuUs := 1 |} 2 (fun _ => MultiCoreDemo.seeds)
    MultiCoreDemo.events clk.
Definition args : list string := ["--json"; "--sustained-seconds"; "0"].
End BenchDemo.

Lemma bench_built n : @buildFixture Toy.hashing Toy.signing ToyUrl.api CompositeDemo.identity 3 (utf8 "hi") n = Ok (BenchDemo.fixture n).
Proof.
  unfold buildFixture. rewrite (ok_or_ok "" (@generateDedupeKey Toy.hashing ToyUrl.api requestDedupeParams)) by (vm_compute; reflexivity). reflexivity.
Qed.

Lemma bench_ready_for n j w : n ∈ [1024; 16384; 262144] -> j <> "" -> j ∉ keys (w_replay w) -> Z.of_nat (String.length j) <= 59000000 ->
  @ready Toy.key_exchange Toy.signing ToyPem.pem_keys (BenchDemo.fixture n) (CompositeDemo.input_for j) w.
Proof.
  intros Hn Hj Hk Hl. refine (@ready_upstream Toy.key_exchange Toy.signing ToyPem.pem_keys (upstream_result (utf8 "hi") n) CompositeDemo.fixture (CompositeDemo.input_for j) w (ready_for j w Hj Hk (demo_fits j Hl)) _).
  rewrite !elem_of_cons in Hn. destruct Hn as [->|[->|[->|Hn]]]; [split; [vm_compute; reflexivity|vm_compute; discriminate]..|by apply elem_of_nil in Hn].
Qed.

Lemma bench_fresh n N : n ∈ [1024; 16384; 262144] -> Z.of_nat N < 2 ^ 62 ->
  @fresh_inputs Toy.key_exchange Toy.signing ToyPem.pem_keys (BenchDemo.fixture n) MeasureDemo.inputs (new_cache 100000) N.
Proof.
  intros Hn HN. destruct (demo_fresh N HN) as [_ F2 F3]. split; [|done..].
  intros k w Hk Hj. pose proof (id_of_length k ltac:(lia)). apply bench_ready_for; [done|apply id_of_nonempty|done|lia].
Qed.

Lemma demo_id n : it_jti (MeasureDemo.inputs n) <> it_jti (CompositeDemo.input_for "k").
Proof. cbn [it_jti MeasureDemo.inputs CompositeDemo.input_for]. unfold MeasureDemo.id_of. by destruct (Pos.of_succ_nat n). Qed.

Lemma demo_size_ready quick size : cs_response_bytes size ∈ [1024; 16384; 262144] -> cs_inner size = None ->
  @size_ready Toy.hashing Toy.key_exchange Toy.signing ToyPem.pem_keys ToyUrl.api (composite_options quick) size (BenchDemo.for_size size).
Proof.
  intros Hn Hi. split.
  - exists (BenchDemo.fixture (cs_response_bytes size)). split; [apply bench_built|]. split.
    + apply bench_ready_for; [done|done|apply not_elem_of_nil|cbn; lia].
    + apply bench_fresh; [done|]. unfold iteration_bound. rewrite Hi. destruct quick; cbn [co_warmupMs composite_options default from_option]; unfold id; lia.
  - intros n _. apply demo_id.
  - exact env_advances.
  - intros z. rewrite Hi. done.
Qed.

Lemma bench_demo_ready : @bench_ready Toy.hashing Toy.key_exchange Toy.signing ToyPem.pem_keys ToyUrl.api BenchDemo.env false zero.
Proof.
  split; [exact env_advances| |].
  { unfold DEFAULT_COMPOSITE_SIZES. repeat (apply Forall_cons_2; [apply demo_size_ready; [cbn [cs_response_bytes]; set_solver|done]|]). apply Forall_nil_2. }
  intros _. split_and!; try (intros; exact env_advances); try (cbn [BenchDemo.env be_clientNonce be_serverNonce]; by rewrite be_encode_length); [done|].
  change (defaultPoints (Z.max 1 (be_cpus BenchDemo.env))) with [1; 2]. intros [|[|i]] k; intros [= <-]; [exists (of_Z 4096000)|exists (of_Z 8192000)]; vm_compute; reflexivity.
Qed.

Lemma bench_ends_witness : exists fuel r,
  @main Toy.hashing Toy.hkdf_toy Toy.key_exchange Toy.signing ToyPem.pem_keys Toy.aead ToyUrl.api fuel BenchDemo.env BenchDemo.args = Some (Ok (Report true r)).
Proof.
  exact (@bench_ends Toy.hashing Toy.hashing_laws Toy.hkdf_toy Toy.hkdf_laws Toy.key_exchange Toy.key_exchange_laws Toy.signing
    ToyPem.pem_keys Toy.signing_laws Toy.aead Toy.aead_laws ToyUrl.api BenchDemo.env BenchDemo.args zero ltac:(vm_compute; reflexivity)
    ltac:(vm_compute; reflexivity) bench_demo_ready).
Defined.

Lemma admission_verdict_witness : exists fuel r,
  @main Toy.hashing Toy.hkdf_toy Toy.key_exchange Toy.signing ToyPem.pem_keys Toy.aead ToyUrl.api fuel BenchDemo.env BenchDemo.args = Some (Ok (Report true r)) /\
  (stable (admission r) = true <-> blockers (admission r) = []).
Proof.
  destruct (@main_ends Toy.hashing Toy.hashing_laws Toy.hkdf_toy Toy.hkdf_laws Toy.key_exchange Toy.key_exchange_laws Toy.signing
    ToyPem.pem_keys Toy.signing_laws Toy.aead Toy.aead_laws ToyUrl.api BenchDemo.env BenchDemo.args zero ltac:(vm_compute; reflexivity)
    ltac:(vm_compute; reflexivity) bench_demo_ready) as (fuel & r & Hr).
  exists fuel, r. split; [exact Hr|].
  destruct (@admission_verdict Toy.hashing Toy.hkdf_toy Toy.key_exchange Toy.signing ToyPem.pem_keys Toy.aead ToyUrl.api fuel BenchDemo.env BenchDemo.args true r Hr)
    as (_ & Hb & _). exact Hb.
Defined.

Lemma top_stage_largest_witness : exists n, topStage (fun s => {| mean_ns := zero; share := ratio 1 5 |}) = Some (n, ratio 1 5).
Proof.
  destruct (top_stage_largest (fun s => {| mean_ns := zero; share := ratio 1 5 |}) ltac:(intros m; vm_compute; reflexivity)) as (n & Hn & _).
  exists n. exact Hn.
Defined.

Example number_flag_values : numberFlag ["--sustained-seconds"; "0.5"] "--sustained-seconds" (of_Z 60) = Ok (ratio 1 2) /\
  numberFlag ["--sustained-seconds"; "1e400"] "--sustained-seconds" (of_Z 60) =
    Throw (PlainError "--sustained-seconds expects a non-negative number, got: 1e400").
Proof. vm_compute. done. Qed.

Lemma number_flag_witness : numberFlag ["--json"] "--sustained-seconds" (of_Z 60) = Ok (of_Z 60).
Proof. apply (number_flag ["--json"] "--sustained-seconds" (of_Z 60)). set_solver. Defined.

Lemma short_run_admitted_witness : stable (deriveAdmission {| cr_results := []; requests_per_second := zero; cr_reliable := true |}
  (Some (sustained_result 16384 (of_Z 5000) 0 1 SustainedDemo.halted)) true) = true.
Proof.
  apply (short_run_admitted {| cr_results := []; requests_per_second := zero; cr_reliable := true |} 16384 (of_Z 5000) 0 1 SustainedDemo.halted);
    [cbn; lia|vm_compute; reflexivity..].
Defined.
