(* ===== verification/Page.v ===== *)
(** * Scripts of a page

    What the scripts of the setup pages share: the elements of the document with the
    properties the scripts set, requests to the setup server and their answers, and the
    event loop.  A handler runs to its next [await] without interruption; it leaves a
    continuation that runs with the answer, whenever that comes. *)

From S2P Require Import Prelude Effect Text Json Coerce Ticket Eval Setup.
Local Open Scope Z_scope.

(** ** Elements *)

Record Element := {
  el_text : string; el_value : string; el_html : string;
  el_disabled : bool; el_hidden : bool; el_checked : bool; el_classes : list string }.

(** An element of the template with no attribute set. *)
Definition blank : Element :=
  {| el_text := ""; el_value := ""; el_html := ""; el_disabled := false; el_hidden := false; el_checked := false; el_classes := [] |}.

Definition put_text (t : string) (e : Element) : Element :=
  {| el_text := t; el_value := el_value e; el_html := el_html e; el_disabled := el_disabled e; el_hidden := el_hidden e;
     el_checked := el_checked e; el_classes := el_classes e |}.
Definition put_value (v : string) (e : Element) : Element :=
  {| el_text := el_text e; el_value := v; el_html := el_html e; el_disabled := el_disabled e; el_hidden := el_hidden e;
     el_checked := el_checked e; el_classes := el_classes e |}.
Definition put_html (h : string) (e : Element) : Element :=
  {| el_text := el_text e; el_value := el_value e; el_html := h; el_disabled := el_disabled e; el_hidden := el_hidden e;
     el_checked := el_checked e; el_classes := el_classes e |}.
Definition put_disabled (b : bool) (e : Element) : Element :=
  {| el_text := el_text e; el_value := el_value e; el_html := el_html e; el_disabled := b; el_hidden := el_hidden e;
     el_checked := el_checked e; el_classes := el_classes e |}.
Definition put_hidden (b : bool) (e : Element) : Element :=
  {| el_text := el_text e; el_value := el_value e; el_html := el_html e; el_disabled := el_disabled e; el_hidden := b;
     el_checked := el_checked e; el_classes := el_classes e |}.
Definition put_checked (b : bool) (e : Element) : Element :=
  {| el_text := el_text e; el_value := el_value e; el_html := el_html e; el_disabled := el_disabled e; el_hidden := el_hidden e;
     el_checked := b; el_classes := el_classes e |}.
Definition put_classes (l : list string) (e : Element) : Element :=
  {| el_text := el_text e; el_value := el_value e; el_html := el_html e; el_disabled := el_disabled e; el_hidden := el_hidden e;
     el_checked := el_checked e; el_classes := l |}.

(** [e.classList.contains(c)], and [toggle(c, on)]. *)
Definition has_class (c : string) (e : Element) : bool := existsb (String.eqb c) (el_classes e).
Definition toggle_class (c : string) (on : bool) (e : Element) : Element :=
  put_classes (filter (fun d => String.eqb c d = false) (el_classes e) ++ (if on then [c] else [])) e.

(** ** Texts *)

(** [a + v] for a text [a]. *)
Definition as_text (v : option json) : string := match v with Some v => js_string v | None => "undefined" end.
(** [v || d] for a text [d], as a text. *)
Definition or_text (v : option json) (d : string) : string := match v with Some x => if truthy v then js_string x else d | None => d end.
(** [error.message || d]. *)
Definition message_or (e : exn) (d : string) : string := if bool_decide (errorMessage e = "") then d else errorMessage e.
(** [String(v)] as [textContent = v] takes it: [null] and [undefined] are empty. *)
Definition content_text (v : option json) : string := match nullish v with Some v => js_string v | None => "" end.
Definition or_empty (v : option json) : json := if truthy v then default JNull v else JObj [].

(** [value.length <= head + tail + 3 ? value : value.slice(0, head) + "..." + value.slice(-tail)]:
    the length and the slices are those of texts and arrays. *)
Definition short_value (head tail : nat) (value : json) : result string :=
  match value with
  | JStr s =>
      Ok (if (String.length s <=? head + tail + 3)%nat then s else slice_to head s +:+ "..." +:+ slice_from (String.length s - tail) s)
  | JArr l =>
      Ok (if (length l <=? head + tail + 3)%nat then js_string (JArr l)
          else js_string (JArr (take head l)) +:+ "..." +:+ js_string (JArr (drop (length l - tail) l)))
  | JObj _ => if member_le (get "length" value) (Z.of_nat (head + tail + 3)) then Ok (js_string value) else Throw (TypeError "slice is not a function")
  | _ => Throw (TypeError "slice is not a function")
  end.

(** ** Answers of the server *)

(** [fetch] is rejected, or answers with a status and what [response.json()] comes to. *)
Inductive answer := Failed (e : exn) | Answered (status : Z) (body : result json).

Definition is_ok_status (status : Z) : bool := (200 <=? status) && (status <=? 299).
Definition ok_answer (a : answer) : bool := match a with Answered status _ => is_ok_status status | Failed _ => false end.

(** [if (!response.ok) throw new Error(body.error || otherwise); body] *)
Definition checked_body (status : Z) (body : json) (otherwise : string) : result json :=
  if is_ok_status status then Ok body else e ← member "error" body; Throw (PlainError (or_text e otherwise)).

(** [response.json().catch(() => ({}))], then the check. *)
Definition reply_body (a : answer) (otherwise : string) : result json :=
  match a with
  | Failed e => Throw e
  | Answered status body => checked_body status (ok_or (JObj []) body) otherwise
  end.

(** The same without the [catch]. *)
Definition strict_body (a : answer) (otherwise : string) : result json :=
  match a with
  | Failed e => Throw e
  | Answered status body => b ← body; checked_body status b otherwise
  end.

Lemma reply_body_ok a d b : reply_body a d = Ok b -> exists status body, a = Answered status body /\ is_ok_status status = true /\ b = ok_or (JObj []) body.
Proof.
  destruct a as [e|status body]; [done|]. cbn. unfold checked_body. destruct (is_ok_status status) eqn:E.
  - intros [= <-]. eauto.
  - destruct (member "error" _); done.
Qed.

Lemma strict_body_ok a d b : strict_body a d = Ok b -> exists status, a = Answered status (Ok b) /\ is_ok_status status = true.
Proof.
  destruct a as [e|status [body|e]]; [done| |done]. cbn. unfold checked_body. destruct (is_ok_status status) eqn:E.
  - intros [= <-]. eauto.
  - destruct (member "error" _); done.
Qed.

(** ** The page *)

Record Request := { rq_method : string; rq_url : string; rq_body : option json }.

Definition GET (url : string) : Request := {| rq_method := "GET"; rq_url := url; rq_body := None |}.
Definition POST (url : string) (body : json) : Request := {| rq_method := "POST"; rq_url := url; rq_body := Some body |}.
Definition POST_empty (url : string) : Request := {| rq_method := "POST"; rq_url := url; rq_body := None |}.

(** [V]: the variables of the script; [K]: where it waits. *)
Record Page (V K : Type) := {
  dom : string -> Element;
  vars : V;
  location : option string;   (* [window.location.href], once set *)
  reloads : nat;              (* [window.location.reload()] *)
  opened : list string;       (* [window.open] *)
  sent : list Request;
  pending : list K }.
Arguments dom {V K}. Arguments vars {V K}. Arguments location {V K}. Arguments reloads {V K}.
Arguments opened {V K}. Arguments sent {V K}. Arguments pending {V K}.

Section Actions.
Context {V K : Type}.
Notation page := (Page V K).
Notation act := (eff page).

Definition put_dom (d : string -> Element) (s : page) : page :=
  {| dom := d; vars := vars s; location := location s; reloads := reloads s; opened := opened s; sent := sent s; pending := pending s |}.
Definition put_vars (v : V) (s : page) : page :=
  {| dom := dom s; vars := v; location := location s; reloads := reloads s; opened := opened s; sent := sent s; pending := pending s |}.
Definition put_location (l : string) (s : page) : page :=
  {| dom := dom s; vars := vars s; location := Some l; reloads := reloads s; opened := opened s; sent := sent s; pending := pending s |}.
Definition put_reload (s : page) : page :=
  {| dom := dom s; vars := vars s; location := location s; reloads := S (reloads s); opened := opened s; sent := sent s; pending := pending s |}.
Definition put_opened (url : string) (s : page) : page :=
  {| dom := dom s; vars := vars s; location := location s; reloads := reloads s; opened := opened s ++ [url]; sent := sent s; pending := pending s |}.
Definition put_sent (q : Request) (s : page) : page :=
  {| dom := dom s; vars := vars s; location := location s; reloads := reloads s; opened := opened s; sent := sent s ++ [q]; pending := pending s |}.
Definition put_pending (l : list K) (s : page) : page :=
  {| dom := dom s; vars := vars s; location := location s; reloads := reloads s; opened := opened s; sent := sent s; pending := l |}.

Definition edit (id : string) (f : Element -> Element) : act unit :=
  modify (fun s => put_dom (fun i => if String.eqb id i then f (dom s i) else dom s i) s).
Definition element {A} (id : string) (f : Element -> A) : act A := gets (fun s => f (dom s id)).

Definition set_text (id t : string) : act unit := edit id (put_text t).
Definition set_value (id v : string) : act unit := edit id (put_value v).
Definition set_html (id h : string) : act unit := edit id (put_html h).
Definition set_disabled (id : string) (b : bool) : act unit := edit id (put_disabled b).
Definition set_hidden (id : string) (b : bool) : act unit := edit id (put_hidden b).
Definition set_checked (id : string) (b : bool) : act unit := edit id (put_checked b).
(** [e.className = c] *)
Definition set_class (id c : string) : act unit := edit id (put_classes (split " " c)).
Definition toggle (id c : string) (on : bool) : act unit := edit id (toggle_class c on).

Definition get_vars {A} (f : V -> A) : act A := gets (fun s => f (vars s)).
Definition set_vars (f : V -> V) : act unit := modify (fun s => put_vars (f (vars s)) s).

Definition navigate (url : string) : act unit := modify (put_location url).
Definition open_window (url : string) : act unit := modify (put_opened url).
(** [await] with what comes after it. *)
Definition wait (k : K) : act unit := modify (fun s => put_pending (pending s ++ [k]) s).
Definition fetch (q : Request) (k : K) : act unit := modify (put_sent q);; wait k.

(** A click is not delivered to a disabled button. *)
Definition click (id : string) (h : act unit) : act unit :=
  off ← element id el_disabled;
  if off : bool then mret tt else h.

(** ** Reloading while the templates are edited *)

(** [startDevReload]: a tick of its interval. *)
Definition reload_tick (config : json) (k : K) : act unit :=
  if truthy (get "devReload" config) then fetch (GET (as_text (get "reloadUrl" config))) k else mret tt.

(** [body.serverStartId && body.serverStartId !== config.serverStartId]; every exception is dropped. *)
Definition reload_answer (config : json) (a : answer) : act unit :=
  match a with
  | Failed _ => mret tt
  | Answered status body =>
      if negb (is_ok_status status) then mret tt
      else match (b ← body; member "serverStartId" b) with
           | Ok id => if truthy id && negb (strict_equal id (get "serverStartId" config)) then modify put_reload else mret tt
           | Throw _ => mret tt
           end
  end.

(** ** The event loop *)

Context {Ev : Type} (on : Ev -> act unit) (continue : K -> answer -> act unit).

Inductive input := Event (e : Ev) | Answer (i : nat) (a : answer).

(** [Answer i a]: the [i]-th of the continuations that wait runs with [a]. *)
Definition turn (s : page) (x : input) : page :=
  match x with
  | Event e => exec (on e) s
  | Answer i a =>
      match pending s !! i with
      | Some k => exec (continue k a) (put_pending (delete i (pending s)) s)
      | None => s
      end
  end.
Definition run (l : list input) (s : page) : page := fold_left turn l s.

(** [P]: an invariant; [good]: the inputs that are considered. *)
Lemma run_invariant (good : input -> Prop) (P : page -> Prop) l s :
  (forall e s, good (Event e) -> P s -> P (exec (on e) s)) ->
  (forall i k a s, good (Answer i a) -> P s -> pending s !! i = Some k ->
     P (exec (continue k a) (put_pending (delete i (pending s)) s))) ->
  Forall good l -> P s -> P (run l s).
Proof.
  intros Hon Hc. revert s. induction l as [|x l IH]; intros s Hl Hs; [done|]. apply Forall_cons in Hl as [Hx Hl].
  cbn. apply IH; [done|]. destruct x as [e|i a]; cbn; [by apply Hon|].
  destruct (pending s !! i) as [k|] eqn:E; [|done]. by apply Hc.
Qed.

(** The same, where what is considered of an input depends on the page it comes to. *)
Lemma run_invariant_at (good : page -> input -> Prop) (P : page -> Prop) l s :
  (forall e s, P s -> P (exec (on e) s)) ->
  (forall i k a s, good s (Answer i a) -> P s -> pending s !! i = Some k ->
     P (exec (continue k a) (put_pending (delete i (pending s)) s))) ->
  (forall l1 x l2, l = l1 ++ x :: l2 -> good (run l1 s) x) -> P s -> P (run l s).
Proof.
  intros Hon Hc. induction l as [|x l IH] using rev_ind; intros Hl Hs; [done|].
  assert (Hr : P (run l s)).
  { apply IH; [|done]. intros l1 y l2 ->. apply (Hl l1 y (l2 ++ [x])). by rewrite <- app_assoc. }
  specialize (Hl l x [] eq_refl). unfold run in *. rewrite fold_left_app. cbn. destruct x as [e|i a]; cbn; [by apply Hon|].
  destruct (pending _ !! i) as [k|] eqn:E; [|done]. by apply Hc.
Qed.
End Actions.
Arguments input Ev : clear implicits.
Arguments Event {Ev} e.
Arguments Answer {Ev} i a.

(** Walks down a script; leaves the changes of variables and of watched elements. *)
Ltac page_preserve :=
  repeat (progress unfold click, element, get_vars, set_vars, set_text, set_value, set_html, set_disabled, set_hidden, set_checked,
            set_class, toggle, edit, navigate, open_window, fetch, wait, reload_tick, reload_answer
          || preserve).

(** Decides which identifiers are the same. *)
Ltac page_ids :=
  repeat match goal with
  | |- context [String.eqb ?a ?b] =>
      let r := eval vm_compute in (String.eqb a b) in
      lazymatch r with true => change (String.eqb a b) with true | false => change (String.eqb a b) with false end
  | H : context [String.eqb ?a ?b] |- _ =>
      let r := eval vm_compute in (String.eqb a b) in
      lazymatch r with true => change (String.eqb a b) with true in H | false => change (String.eqb a b) with false in H end
  end.

Ltac page_cbn :=
  cbn [fst snd put_dom put_vars put_location put_reload put_opened put_sent put_pending dom vars location reloads opened sent pending
       put_text put_value put_html put_disabled put_hidden put_checked put_classes toggle_class
       el_text el_value el_html el_disabled el_hidden el_checked el_classes negb andb orb] in *.

(** Runs a stretch of a script on a page. *)
Ltac page_run :=
  cbv beta delta [exec mbind eff_bind mret eff_ret modify gets lift throw click element get_vars set_vars set_text set_value set_html
       set_disabled set_hidden set_checked set_class toggle edit navigate open_window fetch wait] in *;
  page_cbn; page_ids; page_cbn.

Section Waiting.
Context {K : Type}.

(** How many of the continuations that wait satisfy [P]. *)
Definition waiting (P : K -> bool) (l : list K) : nat := length (List.filter P l).

Lemma waiting_app P l l' : waiting P (l ++ l') = (waiting P l + waiting P l')%nat.
Proof. unfold waiting. by rewrite List.filter_app, length_app. Qed.

Lemma waiting_delete P l i k : l !! i = Some k -> waiting P l = ((if P k then 1 else 0) + waiting P (delete i l))%nat.
Proof.
  intros Hi. rewrite <- (take_drop_middle _ _ _ Hi) at 1. rewrite delete_take_drop, !waiting_app. unfold waiting. cbn.
  destruct (P k); cbn; lia.
Qed.

Lemma waiting_none P l k : waiting P l = O -> k ∈ l -> P k = false.
Proof.
  unfold waiting. intros H Hk. destruct (P k) eqn:E; [|done]. exfalso.
  assert (Hf : k ∈ List.filter P l) by (apply list_elem_of_In, filter_In; split; [by apply list_elem_of_In|done]).
  destruct (List.filter P l); [by apply elem_of_nil in Hf|done].
Qed.
End Waiting.
#[global] Arguments waiting {K} P l : simpl never.

(** ** The rows of a list of steps *)

Definition step_glyph (state : string) : string :=
  if bool_decide (state = "ok") then "✓" else if bool_decide (state = "err") then "!" else "-".
Definition step_icon (state : string) : string :=
  if bool_decide (state = "active") then "busy" else if bool_decide (state = "ok") then "ok" else if bool_decide (state = "err") then "err" else "pending".

Definition setStep {V K} (id state detail : string) : eff (Page V K) unit :=
  set_class id ("install-step " +:+ state);;
  set_class (id +:+ " .env-icon") ("env-icon " +:+ step_icon state);;
  set_text (id +:+ " .estatic") (step_glyph state);;
  set_text (id +:+ " .step-sub") detail.

(** ** Stretches that only decorate *)

Section Aside.
Context {V K : Type} (W : list string).
Notation page := (Page V K).

(** [m] returns, and changes nothing but elements outside [W]. *)
Definition aside (m : eff page unit) : Prop := forall s, exists d, m s = (put_dom d s, Ok tt) /\ forall i, i ∈ W -> d i = dom s i.

Lemma aside_ret : aside (mret tt).
Proof. intros s. exists (dom s). by destruct s. Qed.

Lemma aside_bind (m : eff page unit) (k : unit -> eff page unit) : aside m -> aside (k tt) -> aside (m ≫= k).
Proof.
  intros Hm Hk s. destruct (Hm s) as (d & Em & Hd). destruct (Hk (put_dom d s)) as (d' & Ek & Hd').
  exists d'. unfold mbind, eff_bind. rewrite Em, Ek. split; [done|]. intros i Hi. by rewrite Hd', <- Hd.
Qed.

Lemma aside_lift {A} (r : result A) a (k : A -> eff page unit) : r = Ok a -> aside (k a) -> aside (lift r ≫= k).
Proof. intros -> Hk s. apply Hk. Qed.

Lemma aside_edit id f : forallb (fun w => negb (String.eqb id w)) W = true -> aside (edit id f).
Proof.
  intros Hid s. eexists. split; [done|]. intros i Hi. cbn. destruct (String.eqb_spec id i) as [->|]; [|done].
  rewrite forallb_forall in Hid. specialize (Hid i ltac:(by apply list_elem_of_In)). by rewrite String.eqb_refl in Hid.
Qed.

Lemma aside_preserves (P : page -> Prop) m :
  (forall d s, (forall i, i ∈ W -> d i = dom s i) -> P s -> P (put_dom d s)) -> aside m -> preserves P m.
Proof. intros HP Hm s Hs. destruct (Hm s) as (d & -> & Hd). by apply HP. Qed.
End Aside.

Ltac page_aside :=
  repeat first
    [ simple apply aside_ret | simple apply aside_bind
    | progress unfold set_text, set_value, set_html, set_disabled, set_hidden, set_checked, set_class, toggle
    | simple apply aside_edit; reflexivity
    | lazymatch goal with |- aside _ (match ?x with _ => _ end) => destruct x end ].

(** Runs past a stretch [m] that only decorates; [H : aside W m]. *)
Ltac page_past H :=
  let A := fresh "A" in pose proof H as A;
  match type of A with aside _ ?m =>
    match goal with |- context [m ?s] =>
      let d := fresh "d" in let E := fresh "E" in let Hd := fresh "Hd" in
      destruct (A s) as (d & E & Hd); rewrite E; clear E A; page_run
    end
  end.

Lemma member_get k v x : member k v = Ok x -> x = get k v.
Proof. destruct v; cbn; congruence. Qed.

Section Frames.
Context {V K : Type}.
Lemma put_dom_dom d d' (s : Page V K) : put_dom d (put_dom d' s) = put_dom d s.
Proof. done. Qed.
Lemma put_vars_dom v d (s : Page V K) : put_vars v (put_dom d s) = put_dom d (put_vars v s).
Proof. done. Qed.
End Frames.

(** The watched elements are the same: each one through the stretches that were run. *)
Ltac page_watch :=
  let Hi := fresh "Hi" in intros ? Hi;
  match type of Hi with ?x ∈ ?W => let W' := eval hnf in W in change (x ∈ W') in Hi end;
  rewrite !elem_of_cons, elem_of_nil in Hi; destruct_or? Hi; try done; subst; page_run; repeat
    match goal with H : forall i, _ |- _ => rewrite H by (refine (bool_decide_unpack _ _); vm_compute; exact I) end;
  try done.

(** Walks down a script, past what only decorates; [HP]: the predicate reads [W] only. *)
Ltac page_walk W HP :=
  repeat first
    [ simple apply preserves_ret | simple apply preserves_lift | simple apply preserves_throw
    | simple apply (aside_preserves W); [exact HP|page_aside; fail]
    | simple apply preserves_bind; [|intros ?]
    | progress unfold click, element, get_vars
    | simple apply preserves_gets
    | lazymatch goal with |- preserves _ (match ?x with _ => _ end) => destruct x eqn:? end ].

Lemma bind_after {S A B} (P : S -> Prop) (m : eff S A) (k : A -> eff S B) s :
  P (m s).1 -> (forall a, preserves P (k a)) -> P ((m ≫= k) s).1.
Proof. unfold mbind, eff_bind. intros Hm Hk. destruct (m s) as [s' [a|e]]; [by apply Hk|done]. Qed.

Lemma bind_split {S A B} (Q P : S -> Prop) (m : eff S A) (k : A -> eff S B) s :
  Q (m s).1 -> (forall s, Q s -> P s) -> (forall a s, Q s -> P (k a s).1) -> P ((m ≫= k) s).1.
Proof. unfold mbind, eff_bind. intros Hm Hq Hk. destruct (m s) as [s' [a|e]]; [by apply Hk|by apply Hq]. Qed.

(** The parts of a row. *)
Definition step_parts (id : string) : list string := [id; id +:+ " .env-icon"; id +:+ " .estatic"; id +:+ " .step-sub"].

Lemma step_aside {V K} W id state detail :
  forallb (fun p => forallb (fun w => negb (String.eqb p w)) W) (step_parts id) = true -> aside (V := V) (K := K) W (setStep id state detail).
Proof.
  intros H. apply andb_true_iff in H as [H1 H]. apply andb_true_iff in H as [H2 H]. apply andb_true_iff in H as [H3 H].
  apply andb_true_iff in H as [H4 _]. unfold setStep, set_class, set_text. repeat (apply aside_bind; [by apply aside_edit|]). by apply aside_edit.
Qed.
