(* ===== verification/AgreementPage.v ===== *)
(** * The script of the agreement page (setup-wizard/templates/client.js)

    The operator opens the agreement, scrolls to its end, accepts it, signs and sends
    it.  [config] is what the server embeds in the page. *)

From S2P Require SecretStore.
From S2P Require Import Prelude Effect Program Text Json Coerce Ticket Eval Setup Wizard Double Page.
Local Open Scope Z_scope.

(** [storage]: the [sessionStorage] of the tab; [frames]: animation frames that were
    requested; [scroll_fill]: the width of the scroll meter. *)
Record Vars := { reviewed : json; storage : list (string * string); frames : nat; scroll_fill : string }.

Inductive K := KReload | KAgreement | KNavigate.
#[export] Instance K_eq_dec : EqDecision K.
Proof. solve_decision. Defined.

(** The place of the scrolled text when it is measured. *)
Record Geometry := { scrollTop : double; scrollHeight : Z; clientHeight : Z }.

Inductive Ev :=
| ReviewClick | CloseClick | ModalClick (on_backdrop : bool) | Scroll (g : Geometry) | Frame (g : Geometry) | AgreeClick
| Keydown (key : string) | TypeSignature (v : string) | TypeConfirmation (v : string) | ToggleAgree | ContinueClick | ReloadTick.

Definition reachedEnd (g : Geometry) : bool :=
  (of_Z (scrollHeight g - 8) <=? scrollTop g + of_Z (clientHeight g))%D.

Notation page := (Page Vars K).

Section Script.
Context (config : json).

Definition progress : json := or_null (get "progress" config).
Definition storageKey : string := "consensus-operator-agreement-reviewed:" +:+ as_text (get "agreementVersion" config).

Definition valid : eff page bool :=
  r ← get_vars reviewed;
  checked ← element "agree-check" el_checked;
  signature ← element "signature" el_value;
  confirmation ← element "confirmation" el_value;
  mret (truthy (Some r) && checked && (1 <? js_length (trim signature))%nat && bool_decide (trim confirmation = "I AGREE")).

Definition sync : eff page unit :=
  r ← get_vars reviewed;
  set_disabled "agree-check" (negb (truthy (Some r)));;
  v ← valid;
  set_disabled "continue" (negb v).

Definition markAgreementReviewed (preserveHelper : bool) : eff page unit :=
  set_vars (fun v => {| reviewed := JBool true; storage := put storageKey "1" (storage v); frames := frames v; scroll_fill := scroll_fill v |});;
  set_checked "agree-check" true;;
  set_disabled "agree-check" false;;
  toggle "agreement-review-gate" "accepted" true;;
  set_text "agreement-review-status" "Agreement accepted - signature required";;
  (if preserveHelper then mret tt
   else set_text "helper" "Agreement accepted in this session. Add signature and confirmation to continue.");;
  sync.

Definition openModal : eff page unit :=
  set_hidden "agreement-modal" false;;
  set_vars (fun v => {| reviewed := reviewed v; storage := storage v; frames := S (frames v); scroll_fill := scroll_fill v |}).

Definition closeModal : eff page unit := set_hidden "agreement-modal" true.

Definition syncModalScroll (g : Geometry) : eff page unit :=
  let max := dmax (of_Z 1) (of_Z (scrollHeight g - clientHeight g)) in
  let progressValue := if reachedEnd g then of_Z 1 else dmin (of_Z 1) (dmax zero (scrollTop g / max)%D) in
  set_vars (fun v => {| reviewed := reviewed v; storage := storage v; frames := frames v;
                        scroll_fill := num_to_string (num_of_Z (to_Z (dround (progressValue * of_Z 100)%D))) +:+ "%" |});;
  set_disabled "agreement-modal-agree" (negb (reachedEnd g));;
  set_text "agreement-scroll-note" (if reachedEnd g then "End reached" else "Scroll to continue").

(** The template, before the script runs. *)
Definition template (id : string) : Element :=
  if bool_decide (id ∈ ["agree-check"; "continue"; "agreement-modal-agree"]) then put_disabled true blank
  else if bool_decide (id = "agreement-modal") then put_hidden true blank
  else blank.
Definition opened_page (stored : list (string * string)) : page :=
  {| dom := template; vars := {| reviewed := JBool false; storage := stored; frames := 0; scroll_fill := "" |};
     location := None; reloads := 0; opened := []; sent := []; pending := [] |}.

Definition progress_member (k : string) : eff page (option json) := lift (member k progress).

Definition show_progress (accepted : option json) : eff page unit :=
  stateDir ← progress_member "stateDir";
  set_text "state-dir" ("state - " +:+ as_text stateDir);;
  hasProgress ← progress_member "hasProgress";
  set_text "progress-line" (if truthy accepted then "accepted" else if truthy hasProgress then "prior state found" else "review and sign");;
  (if truthy hasProgress then
     label ← progress_member "lastCompletedLabel";
     set_text "helper" (if truthy label then "Prior setup state found. Last completed step: " +:+ as_text label +:+ "."
                        else "Prior setup state found. Continue from the current required step.")
   else mret tt);;
  version ← progress_member "operatorAgreementVersion";
  if truthy accepted then
    signature ← progress_member "operatorAgreementSignature";
    at_ ← progress_member "operatorAgreementAcceptedAt";
    set_checked "agree-check" true;;
    set_value "signature" (or_text signature "");;
    set_value "confirmation" "I AGREE";;
    set_text "helper" ("Agreement accepted " +:+ or_text at_ "in a prior run" +:+ ".")
  else if truthy version && negb (strict_equal version (get "agreementVersion" config)) then
    set_text "helper" "Agreement was updated. Review the current agreement before signing."
  else mret tt.

(** The body of the script. *)
Definition script : eff page unit :=
  accepted ← progress_member "operatorAgreementAccepted";
  stored ← get_vars storage;
  let agreementReviewed := if truthy accepted then or_null accepted else JBool (bool_decide (assoc storageKey stored = Some "1")) in
  set_vars (fun v => {| reviewed := agreementReviewed; storage := storage v; frames := frames v; scroll_fill := scroll_fill v |});;
  show_progress accepted;;
  (if truthy (Some agreementReviewed) then markAgreementReviewed (truthy accepted) else mret tt);;
  sync.

Definition start_page (stored : list (string * string)) : page := exec script (opened_page stored).

Definition agreement_body : eff page json :=
  accepted ← element "agree-check" el_checked;
  agreementReviewed ← get_vars reviewed;
  signature ← element "signature" el_value;
  confirmation ← element "confirmation" el_value;
  mret (JObj [("accepted", JBool accepted); ("agreementReviewed", agreementReviewed); ("signature", JStr signature);
              ("confirmation", JStr confirmation)]).

(** The click on [continue], up to the [await] of the request. *)
Definition continue_click : eff page unit :=
  v ← valid;
  busy ← element "continue" (has_class "busy");
  if negb v || busy then mret tt
  else
    toggle "continue" "busy" true;;
    set_disabled "continue" true;;
    set_text "continue-label" "Recording agreement";;
    set_text "helper" "Writing agreement to setup-progress.json...";;
    body ← agreement_body;
    fetch (POST (as_text (get "agreementUrl" config)) body) KAgreement.

Definition agreement_answer (a : answer) : eff page unit :=
  match reply_body a "Agreement could not be recorded" with
  | Ok _ =>
      set_text "helper" "Agreement recorded. Next step: runtime directory and local tool checks.";;
      set_text "continue-label" "Agreement recorded";;
      wait KNavigate
  | Throw e =>
      set_text "helper" (message_or e "Agreement could not be recorded");;
      toggle "continue" "busy" false;;
      set_disabled "continue" false;;
      set_text "continue-label" "Continue setup"
  end.

Definition on (e : Ev) : eff page unit :=
  match e with
  | ReviewClick => openModal
  | CloseClick => closeModal
  | ModalClick on_backdrop => if on_backdrop : bool then closeModal else mret tt
  | Scroll g => syncModalScroll g
  | Frame g =>
      n ← get_vars frames;
      match n with
      | O => mret tt
      | S n =>
          set_vars (fun v => {| reviewed := reviewed v; storage := storage v; frames := n; scroll_fill := scroll_fill v |});;
          syncModalScroll g
      end
  | AgreeClick => click "agreement-modal-agree" (markAgreementReviewed false;; closeModal)
  | Keydown key =>
      hid ← element "agreement-modal" el_hidden;
      if bool_decide (key = "Escape") && negb hid then closeModal else mret tt
  | TypeSignature v => set_value "signature" v;; sync
  | TypeConfirmation v => set_value "confirmation" v;; sync
  | ToggleAgree => click "agree-check" (edit "agree-check" (fun e => put_checked (negb (el_checked e)) e);; sync;; sync)
  | ContinueClick => click "continue" continue_click
  | ReloadTick => reload_tick config KReload
  end.

Definition continue (k : K) (a : answer) : eff page unit :=
  match k with
  | KReload => reload_answer config a
  | KAgreement => agreement_answer a
  | KNavigate => navigate (as_text (get "nextUrl" config))
  end.

Definition run (stored : list (string * string)) (l : list (input Ev)) : page := Page.run on continue l (start_page stored).
End Script.

(** ** Lemmas *)

(** The text goes on for more than eight pixels below the view: the position is [n]
    1024ths of a pixel, the sizes are whole pixels. *)
Definition text_below (g : Geometry) : Prop :=
  exists n, scrollTop g = dyad n (-10) /\ 0 <= n /\ 0 <= clientHeight g /\ scrollHeight g < 2 ^ 40 /\
    n < 1024 * (scrollHeight g - clientHeight g - 8).
(** No measurement finds the end of the text. *)
Definition before_end (x : input Ev) : Prop :=
  match x with Event (Scroll g) | Event (Frame g) => text_below g | _ => True end.

Lemma of_Z_1024ths z : 0 <= z < 2 ^ 40 -> of_Z z = dyad (1024 * z) (-10).
Proof.
  intros Hz. destruct z as [|m|m]; [done| |lia]. change (of_Z (Z.pos m)) with (dyad (Z.pos m) 0). rewrite Z.mul_comm. symmetry.
  apply (dyad_scaled m 10 0); lia.
Qed.

Lemma text_below_open g : text_below g -> reachedEnd g = false.
Proof.
  intros (n & Hn & H0 & H1 & H2 & H3). unfold reachedEnd. rewrite Hn, !of_Z_1024ths, dadd_dyad, dyad_leb by lia. apply Z.leb_gt. lia.
Qed.

Definition refused (x : input Ev) : Prop := match x with Answer _ a => ok_answer a = false | Event _ => True end.
Definition is_agreement (k : K) : bool := match k with KAgreement => true | _ => false end.

Section Lemmas.
Context (config : json).

(** What the server's checks ask of a body. *)
Definition admissible (body : json) : Prop :=
  let b := normalizeAgreementBody body in
  agreementReviewed b = true /\ accepted b = true /\ (js_length (signature b) <? 2)%nat = false /\ confirmation b = "I AGREE".

Definition signed_post (q : Request) : Prop :=
  rq_method q = "POST" -> exists body, q = POST (as_text (get "agreementUrl" config)) body /\ admissible body.
Definition signed (s : page) : Prop := (exists b, reviewed (vars s) = JBool b) /\ Forall signed_post (sent s).

Lemma signed_sent q s : signed_post q -> signed s -> signed (put_sent q s).
Proof. intros Hq [H1 H2]. split; [done|]. cbn. by apply Forall_app_2, Forall_singleton. Qed.

Lemma sync_signed : preserves signed sync.
Proof. unfold sync, valid. page_preserve; done. Qed.

Lemma mark_signed b : preserves signed (markAgreementReviewed config b).
Proof.
  unfold markAgreementReviewed. page_preserve; try done; [|apply sync_signed].
  destruct H as [_ H]. split; [by eexists|done].
Qed.

Lemma continue_click_signed : preserves signed (continue_click config).
Proof.
  intros s Hs. unfold continue_click, valid, agreement_body.
  destruct (truthy (Some (reviewed (vars s)))) eqn:Er; [|page_run; by rewrite Er].
  destruct (el_checked (dom s "agree-check")) eqn:Ec; [|page_run; by rewrite Er, Ec].
  destruct (1 <? js_length (trim (el_value (dom s "signature"))))%nat eqn:El; [|page_run; by rewrite Er, Ec, El].
  destruct (bool_decide (trim (el_value (dom s "confirmation")) = "I AGREE")) eqn:Ea; [|page_run; by rewrite Er, Ec, El, Ea].
  destruct (has_class "busy" (dom s "continue")) eqn:Eb; page_run; rewrite Er, Ec, El, Ea, Eb; [done|]. page_run.
  destruct Hs as [[b Hb] Hs]. split; [by exists b|]. cbn. apply Forall_app_2; [done|]. apply Forall_singleton.
  intros _. eexists. split; [done|]. rewrite Hb in Er |- *. unfold admissible, normalizeAgreementBody. cbn.
  bool_solve. rewrite Ec. cbn in Er. destruct b; [|done]. split_and!; [done..| |done]. apply Nat.ltb_lt in El. by apply Nat.leb_gt.
Qed.

Lemma syncModalScroll_signed g : preserves signed (syncModalScroll g).
Proof. unfold syncModalScroll. page_preserve; done. Qed.

Lemma on_signed e : preserves signed (on config e).
Proof.
  destruct e; cbn [on]; unfold openModal, closeModal; page_preserve;
    lazymatch goal with
    | |- preserves _ _ => first [simple apply sync_signed | simple apply mark_signed | simple apply syncModalScroll_signed | simple apply continue_click_signed]
    | |- signed (put_sent _ _) => by apply signed_sent
    | |- _ => assumption
    end.
Qed.

Lemma continue_signed k a : preserves signed (continue config k a).
Proof. destruct k; cbn [continue]; unfold agreement_answer; page_preserve; done. Qed.

(** One agreement is being sent at most, and the button shows it. *)
Definition one_sent (s : page) : Prop :=
  (waiting is_agreement (pending s) <= if has_class "busy" (dom s "continue") then 1 else 0)%nat.

Lemma sync_one : preserves one_sent sync.
Proof. unfold sync, valid. page_preserve; done. Qed.

Lemma mark_one b : preserves one_sent (markAgreementReviewed config b).
Proof. unfold markAgreementReviewed. page_preserve; try done; apply sync_one. Qed.

Lemma syncModalScroll_one g : preserves one_sent (syncModalScroll g).
Proof. unfold syncModalScroll. page_preserve; done. Qed.

Lemma wait_one k s : is_agreement k = false -> one_sent s -> one_sent (put_pending (pending s ++ [k]) s).
Proof. intros Hk H. unfold one_sent in *. cbn. rewrite waiting_app. unfold waiting at 2. cbn. rewrite Hk. cbn. lia. Qed.

Lemma continue_click_one : preserves one_sent (continue_click config).
Proof.
  intros s Hs. unfold continue_click, agreement_body. destruct (valid s) as [s' [v|e]] eqn:Ev;
    assert (s' = s) as -> by (unfold valid in Ev; page_run; by simplify_eq).
  - page_run. rewrite Ev. page_run. destruct v; page_run; [|done].
    destruct (has_class "busy" (dom s "continue")) eqn:Eb; page_run; [done|]. unfold one_sent in *. page_run. rewrite Eb in Hs.
    rewrite waiting_app. unfold has_class at 1. cbn. rewrite existsb_app. cbn. rewrite orb_true_r.
    unfold waiting at 2. cbn. lia.
  - page_run. by rewrite Ev.
Qed.

Lemma on_one e : preserves one_sent (on config e).
Proof.
  destruct e; cbn [on]; unfold openModal, closeModal; page_preserve;
    lazymatch goal with
    | |- preserves _ _ => first [simple apply sync_one | simple apply mark_one | simple apply syncModalScroll_one | simple apply continue_click_one]
    | |- one_sent (put_pending _ _) => by apply wait_one
    | |- one_sent _ => unfold one_sent in *; page_run; assumption
    end.
Qed.

Lemma continue_one i k a s : one_sent s -> pending s !! i = Some k ->
  one_sent (exec (continue config k a) (put_pending (delete i (pending s)) s)).
Proof.
  intros Hs Hi. unfold one_sent in Hs. rewrite (waiting_delete is_agreement _ _ _ Hi) in Hs.
  destruct k; cbn [is_agreement] in Hs.
  - assert (Hp : preserves one_sent (reload_answer config a)) by (page_preserve; done). apply Hp. unfold one_sent. page_run. cbn in Hs. lia.
  - cbn in Hs. unfold exec. cbn [continue]. unfold agreement_answer. destruct (reply_body a _) as [b|e]; page_run; unfold one_sent; page_run.
    + rewrite waiting_app. unfold waiting at 2. cbn. destruct (has_class _ _); lia.
    + destruct (has_class "busy" (dom s "continue")); lia.
  - unfold one_sent. cbn in *. lia.
Qed.

(** Not reviewed, and no way to accept. *)
Definition gated (s : page) : Prop :=
  reviewed (vars s) = JBool false /\ el_disabled (dom s "agreement-modal-agree") = true /\
  Forall (fun q => rq_method q <> "POST") (sent s).

Lemma sync_gated : preserves gated sync.
Proof. unfold sync, valid. page_preserve; done. Qed.

Lemma syncModalScroll_gated g : reachedEnd g = false -> preserves gated (syncModalScroll g).
Proof. intros Hg s (H1 & H2 & H3). unfold syncModalScroll, gated. page_run. by rewrite Hg. Qed.

Lemma on_gated e s : before_end (Event e) -> gated s -> gated (exec (on config e) s).
Proof.
  intros He Hs. destruct e as [| |b|g|g| |key|v|v| | |]; cbn [on before_end] in *;
    try (by unfold openModal, closeModal; page_run; try (by destruct b); try (by destruct (_ && _))).
  - by apply (syncModalScroll_gated g (text_below_open g He)).
  - unfold exec. page_run. destruct (frames (vars s)); page_run; [done|]. by apply (syncModalScroll_gated g (text_below_open g He)).
  - destruct Hs as (H1 & H2 & H3). page_run. by rewrite H2.
  - assert (Hp : preserves gated (on config ToggleAgree)) by (cbn [on]; page_preserve; try done; apply sync_gated). by apply Hp.
  - destruct Hs as (H1 & H2 & H3). unfold continue_click, valid. page_run. destruct (el_disabled (dom s "continue")); page_run; [done|].
    rewrite H1. by page_run.
  - assert (Hp : preserves gated (reload_tick config KReload)); [|by apply Hp]. page_preserve; try done.
    destruct H as (H1 & H2 & H3). split_and!; [done..|]. cbn. by apply Forall_app_2, Forall_singleton.
Qed.

Lemma continue_gated k a : preserves gated (continue config k a).
Proof. destruct k; cbn [continue]; unfold agreement_answer; page_preserve; done. Qed.

(** Nothing leads to the next page. *)
Definition is_navigate (k : K) : bool := match k with KNavigate => true | _ => false end.
Definition staying (s : page) : Prop := location s = None /\ waiting is_navigate (pending s) = O.

Lemma wait_staying k s : is_navigate k = false -> staying s -> staying (put_pending (pending s ++ [k]) s).
Proof. intros Hk [H1 H2]. split; [done|]. page_run. rewrite waiting_app, H2. unfold waiting. cbn. by rewrite Hk. Qed.

Lemma sync_staying : preserves staying sync.
Proof. unfold sync, valid. page_preserve; done. Qed.

Lemma on_staying e : preserves staying (on config e).
Proof.
  destruct e; cbn [on]; unfold openModal, closeModal, syncModalScroll, markAgreementReviewed, continue_click, valid, agreement_body;
    page_preserve; try done; try apply sync_staying; by apply wait_staying.
Qed.

Lemma continue_staying i k a s : ok_answer a = false -> staying s -> pending s !! i = Some k ->
  staying (exec (continue config k a) (put_pending (delete i (pending s)) s)).
Proof.
  intros Ha [H1 H2] Hi. rewrite (waiting_delete _ _ _ _ Hi) in H2. destruct k; cbn in H2; [| |lia].
  - assert (Hp : preserves staying (reload_answer config a)) by (page_preserve; done). by apply Hp.
  - unfold exec. cbn [continue]. unfold agreement_answer. destruct (reply_body a _) as [b|e] eqn:Er; [|by page_run].
    apply reply_body_ok in Er as (st & bd & -> & Hst & _). cbn in Ha. congruence.
Qed.

(** ** The page when it is shown *)

Context (p : Files.Process) (saved : json) (Hconfig : get "progress" config = Some (progressView p saved)) (stored : list (string * string)).

Lemma progress_accepted s :
  progress_member config "operatorAgreementAccepted" s = (s, Ok (Some (JBool (isCurrentAgreementAccepted saved)))).
Proof. unfold progress_member, progress. by rewrite Hconfig. Qed.

Lemma show_progress_preserves (P : page -> Prop) accepted :
  (forall d s, P s -> (d "agreement-modal-agree" = dom s "agreement-modal-agree") -> (el_classes (d "continue") = el_classes (dom s "continue")) -> P (put_dom d s)) ->
  preserves P (show_progress config accepted).
Proof. intros HP. unfold show_progress, progress_member. page_preserve; by apply HP. Qed.

Definition shown (P : page -> Prop) : Prop := P (start_page config stored).

Lemma start_signed : shown signed.
Proof.
  unfold shown, start_page, script, exec. unfold mbind at 1, eff_bind. rewrite progress_accepted.
  apply (preserves_bind signed); [by page_preserve| |by split; [eexists|by apply Forall_nil]].
  intros st. page_preserve; try apply sync_signed; try apply mark_signed.
  - destruct H as [_ H]. split; [|done]. destruct (isCurrentAgreementAccepted saved); by eexists.
  - by apply show_progress_preserves.
Qed.

Lemma start_one : shown one_sent.
Proof.
  assert (Hp : preserves one_sent (script config)); [|apply Hp; unfold one_sent, waiting; apply Nat.le_0_l].
  unfold script, progress_member. page_preserve; try done; try apply sync_one; try apply mark_one.
  apply show_progress_preserves. unfold one_sent, has_class. intros d s0 Hs0 _ Hd. cbn. by rewrite Hd.
Qed.

Lemma start_staying : shown staying.
Proof.
  assert (Hp : preserves staying (script config)); [|by apply Hp].
  unfold script, progress_member, markAgreementReviewed. page_preserve; try done; try apply sync_staying.
  by apply show_progress_preserves.
Qed.

Lemma start_gated : isCurrentAgreementAccepted saved = false -> assoc (storageKey config) stored <> Some "1" -> shown gated.
Proof.
  intros Ha Hst. unfold shown, start_page, script, exec. unfold mbind at 1, eff_bind. rewrite progress_accepted, Ha.
  match goal with |- gated ((get_vars storage ≫= ?k) ?s).1 => change (gated (k stored s).1) end. cbn beta. rewrite (bool_decide_false _ Hst).
  match goal with |- gated (?m ?s).1 => assert (Hp : preserves gated m) end; [|by apply Hp; split_and!; [..|apply Forall_nil]].
  page_preserve; try done; try apply sync_gated; [by destruct H as (_ & H)|].
  apply show_progress_preserves. intros d s (H1 & H2 & H3) Hd _. split_and!; [done| |done]. cbn. by rewrite Hd.
Qed.
End Lemmas.

(** What the server does with an agreement it accepts. *)
Definition recorded (p : Files.Process) (name : string) : program reply :=
  progress ← loadProgress p;
  acceptedAt ← nowIso;
  next ← remember p progress [("operatorAgreementAccepted", Some (JBool true)); ("operatorAgreementAcceptedAt", Some (JStr acceptedAt));
                              ("operatorAgreementSignature", Some (JStr name)); ("operatorAgreementVersion", Some (JStr AGREEMENT_VERSION))];
  mret (JsonReply 200 (JObj [("success", JBool true); ("nextStep", JStr "configuration"); ("progress", progressView p next)])).

Lemma admissible_recorded p body : admissible body -> recordOperatorAgreement p body = recorded p (signature (normalizeAgreementBody body)).
Proof.
  intros (H1 & H2 & H3 & H4). unfold recordOperatorAgreement, recorded. rewrite H1, H2, H3, (bool_decide_true _ H4). done.
Qed.

(** ** Properties *)

(** C39: the agreement page sends what the server records, and only after the text was
    scrolled to its end: whatever the operator does on a page shown for some saved
    progress, and whatever the server answers in whatever order, each request that
    posts is an agreement that passes all of the server's checks; one is under way at
    most; none is sent while the agreement was accepted neither before nor in this tab
    and the text went on for more than eight pixels below the view at every
    measurement; and the page leads on only after a successful answer. *)
Theorem agreement_page_sound (p : Files.Process) (config saved : json) (stored : list (string * string)) (l : list (input Ev)) :
  get "progress" config = Some (progressView p saved) ->
  let s := run config stored l in
  (forall q, q ∈ sent s -> rq_method q = "POST" -> exists body,
     let name := signature (normalizeAgreementBody body) in
     q = POST (as_text (get "agreementUrl" config)) body /\ (1 < js_length name)%nat /\ recordOperatorAgreement p body = recorded p name) /\
  (waiting is_agreement (pending s) <= 1)%nat /\
  (isCurrentAgreementAccepted saved = false -> assoc (storageKey config) stored <> Some "1" -> Forall before_end l ->
     forall q, q ∈ sent s -> rq_method q <> "POST") /\
  (Forall refused l -> location s = None).
Proof.
  intros Hc. cbn zeta. assert (Hl : Forall (fun _ => True) l) by (by apply Forall_forall). unfold run. split_and!.
  - pose proof (run_invariant (on config) (continue config) (fun _ => True) (signed config) l (start_page config stored)) as Hr.
    destruct Hr as [_ Hr]; [intros; by apply on_signed|intros; by apply continue_signed|done|by eapply start_signed|].
    rewrite Forall_forall in Hr. intros q Hq Hm. destruct (Hr q Hq Hm) as (body & Hb & Ha). exists body. cbn zeta. split; [exact Hb|].
    split; [|by apply admissible_recorded]. destruct Ha as (_ & _ & Ha & _). apply Nat.ltb_ge in Ha. lia.
  - pose proof (run_invariant (on config) (continue config) (fun _ => True) one_sent l (start_page config stored)) as Hr.
    etransitivity; [apply Hr; [intros; by apply on_one|intros; by apply continue_one|done|by apply start_one]|].
    destruct (has_class _ _); lia.
  - intros Ha Hst Hg. pose proof (run_invariant (on config) (continue config) before_end gated l (start_page config stored)) as Hr.
    destruct Hr as (_ & _ & Hr); [by intros; apply on_gated|intros; by apply continue_gated|done|by eapply start_gated|].
    rewrite Forall_forall in Hr. exact Hr.
  - intros Hg. pose proof (run_invariant (on config) (continue config) refused staying l (start_page config stored)) as Hr.
    destruct Hr as [Hr _]; [intros; by apply on_staying|by intros; apply continue_staying|done|by apply start_staying|done].
Qed.

Module Demo.
Definition config : json :=
  JObj [("progress", progressView SecretStore.Node.process JNull); ("agreementVersion", JStr AGREEMENT_VERSION);
        ("agreementUrl", JStr "/api/operator-agreement?token=t"); ("nextUrl", JStr "/connection?token=t")].
Definition bottom : Geometry := {| scrollTop := of_Z 600; scrollHeight := 1000; clientHeight := 400 |}.
Definition top : Geometry := {| scrollTop := zero; scrollHeight := 1000; clientHeight := 400 |}.
Definition nearly : Geometry := {| scrollTop := ratio 1183 2; scrollHeight := 1000; clientHeight := 400 |}.
Definition clicks : list (input Ev) :=
  [Event ContinueClick; Event ReviewClick; Event (Frame top); Event AgreeClick;
   Event (Scroll bottom); Event AgreeClick; Event (TypeSignature " Ada "); Event (TypeConfirmation "I AGREE"); Event ContinueClick;
   Event ContinueClick; Answer 0 (Answered 200 (Ok (JObj []))); Answer 0 (Failed (PlainError ""))].
Definition posted : json :=
  JObj [("accepted", JBool true); ("agreementReviewed", JBool true); ("signature", JStr " Ada "); ("confirmation", JStr "I AGREE")].
End Demo.

(** One agreement is sent, after the end was reached, and the page leads on. *)
Example agreement_clicks : let s := run Demo.config [] Demo.clicks in
  sent s = [POST "/api/operator-agreement?token=t" Demo.posted] /\ location s = Some "/connection?token=t".
Proof. vm_compute. done. Qed.

(** What was tried before the end was measured, half a pixel above it at last. *)
Definition early : list (input Ev) :=
  [Event ReviewClick; Event (Frame Demo.top); Event AgreeClick; Event (Scroll Demo.nearly); Event AgreeClick;
   Event (TypeSignature "Ada"); Event (TypeConfirmation "I AGREE"); Event ContinueClick].

Lemma agreement_page_sound_witness : recordOperatorAgreement SecretStore.Node.process Demo.posted = recorded SecretStore.Node.process "Ada" /\
  (forall q, q ∈ sent (run Demo.config [] early) -> rq_method q <> "POST").
Proof.
  destruct (agreement_page_sound SecretStore.Node.process Demo.config JNull [] Demo.clicks) as (Hp & _); [reflexivity|].
  destruct (agreement_page_sound SecretStore.Node.process Demo.config JNull [] early) as (_ & _ & Hn & _); [reflexivity|]. split.
  - destruct (Hp (POST "/api/operator-agreement?token=t" Demo.posted)) as (body & Hb & _ & Hr).
    + vm_compute. left.
    + reflexivity.
    + injection Hb as <-. exact Hr.
  - apply Hn; [reflexivity|discriminate|]. apply Forall_fold_right. cbn.
    split_and!; try exact I; [exists 0|exists 605696]; split_and!; cbn; first [lia | reflexivity].
Defined.
