(* ===== verification/ConnectionPage.v ===== *)
(** * The script of the directory page (setup-wizard/templates/connection-client.js)

    The operator chooses the runtime directory while the server looks for Bun and PM2
    and installs what is missing.  [config] is what the server embeds in the page,
    [shown_dir] and [default_dir] the directory the field holds and its default. *)

From S2P Require SecretStore SetupEnv.
From S2P Require Import Prelude Effect Program Text Json Coerce Ticket Eval Files Setup Wizard Page.
Local Open Scope Z_scope.

Inductive tool := Bun | Pm2.

Inductive K := KReload | KEnvironment | KInstall (t : tool) | KSelect | KSave.

Inductive Ev := TypeDir (v : string) | SelectClick | ResetClick | RetryClick | InstallClick (t : tool) | BackClick | ContinueClick | ReloadTick.

(** The one variable of the script is [toolsReady]. *)
Notation page := (Page bool K).

(** [{ canInstallBun, canInstallPm2, bunMessage, pm2Message }]. *)
Record BlockerOptions := { canInstallBun : bool; canInstallPm2 : bool; bunMessage : string; pm2Message : string }.

(** The argument of [installTool]. *)
Definition tool_row (t : tool) : string := match t with Bun => "env-bun" | Pm2 => "env-pm2" end.
Definition tool_button (t : tool) : string := match t with Bun => "install-bun" | Pm2 => "install-pm2" end.
Definition tool_label (t : tool) : string := match t with Bun => "Bun" | Pm2 => "PM2" end.
Definition tool_url (t : tool) : string := match t with Bun => "bunInstallUrl" | Pm2 => "pm2InstallUrl" end.
Definition tool_script (t : tool) : string := match t with Bun => "scripts/ensure-bun.sh" | Pm2 => "scripts/ensure-pm2.sh" end.
Definition tool_failure (t : tool) : BlockerOptions :=
  {| canInstallBun := match t with Bun => true | Pm2 => false end; canInstallPm2 := match t with Bun => false | Pm2 => true end;
     bunMessage := ""; pm2Message := "" |}.

Definition or_string (a b : string) : string := if bool_decide (a = "") then b else a.

Definition installDirValid : eff page bool := v ← element "install-dir" el_value; mret (startsWith (trim v) "/").

Definition syncContinue : eff page unit :=
  ready ← get_vars id;
  valid ← installDirValid;
  set_disabled "continue" (negb ready || negb valid).

Definition syncPathState (default_dir : string) : eff page unit :=
  valid ← installDirValid;
  toggle "install-dir" "invalid" (negb valid);;
  toggle "install-dir-error" "show" (negb valid);;
  v ← element "install-dir" el_value;
  set_disabled "reset-install-dir" (bool_decide (v = default_dir));;
  syncContinue.

Definition row_glyph (state : string) : string :=
  if bool_decide (state = "ok") then "✓" else if bool_decide (state = "warn") then "!" else if bool_decide (state = "err") then "!" else "-".

Definition row_states : list string := ["ok"; "warn"; "err"; "busy"; "pending"].

Definition setRow (t : tool) (state status detail : string) : eff page unit :=
  let row := tool_row t in
  edit row (fun e => put_classes (filter (fun c => c ∉ row_states) (el_classes e) ++ [state]) e);;
  set_class (row +:+ " .env-icon") ("env-icon " +:+ state);;
  set_text (row +:+ " .estatic") (row_glyph state);;
  set_hidden (row +:+ " .env-status") false;;
  set_class (row +:+ " .env-status") ("env-status mono " +:+ (if bool_decide (state = "busy") then "pending" else state));;
  set_text (row +:+ " .env-status") status;;
  set_text (row +:+ " .et-sub") detail.

Definition setInstallAction (t : tool) (active : bool) : eff page unit :=
  set_hidden (tool_row t +:+ " .env-status") active;;
  set_hidden (tool_button t) (negb active).

Definition setRowWarning (id message : string) : eff page unit :=
  set_text id message;;
  toggle id "show" (negb (bool_decide (message = ""))).

Definition showBlocker (message : string) (options : BlockerOptions) : eff page unit :=
  setInstallAction Bun (canInstallBun options);;
  setInstallAction Pm2 (canInstallPm2 options);;
  setRowWarning "bun-warning" (if canInstallBun options then or_string (bunMessage options) message else "");;
  setRowWarning "pm2-warning" (if canInstallPm2 options then or_string (pm2Message options) message else "").

Definition clearBlocker : eff page unit :=
  setInstallAction Bun false;;
  setInstallAction Pm2 false;;
  setRowWarning "bun-warning" "";;
  setRowWarning "pm2-warning" "".

Definition available (t : json) : bool := truthy (get "available" t).

Definition missing_tools (missingBun missingPm2 : bool) : eff page unit :=
  set_text "helper" (if missingBun && missingPm2 then "Bun and PM2 can be installed by the local setup process."
                     else if missingBun then "Bun can be installed by the local setup process."
                     else "PM2 can be installed by the local setup process.");;
  set_text "rail-current" (if missingBun && missingPm2 then "blocked - tools missing"
                           else if missingBun then "blocked - bun missing" else "blocked - pm2 missing");;
  showBlocker "Required before continuing."
    {| canInstallBun := missingBun; canInstallPm2 := missingPm2;
       bunMessage := "Bun is required to install and run Consensus."; pm2Message := "PM2 is required to supervise the node process." |}.

Definition tool_row_of (t : tool) (found : json) (command : string) : eff page unit :=
  setRow t (if available found then "ok" else "err") (if available found then "Detected" else "Missing") (or_text (get "detail" found) command).

Definition applyEnvironment (body : json) : eff page unit :=
  bun ← lift (member "bun" body);
  let bun := or_empty bun in
  let pm2 := or_empty (get "pm2" body) in
  tool_row_of Bun bun "bun --version";;
  tool_row_of Pm2 pm2 "pm2 --version";;
  let ready := available bun && available pm2 in
  set_vars (fun _ => ready);;
  (if ready then
     clearBlocker;;
     set_text "helper" "Runtime tools are ready. Confirm the install directory to continue.";;
     set_text "rail-current" "environment ready"
   else missing_tools (negb (available bun)) (negb (available pm2)));;
  syncContinue.

Section Script.
Context (config : json) (shown_dir default_dir : string).

Definition url (k : string) : string := as_text (get k config).

(** [checkEnvironment], up to its [await]. *)
Definition checkEnvironment : eff page unit :=
  set_vars (fun _ => false);;
  syncContinue;;
  clearBlocker;;
  set_text "helper" "Checking Bun and PM2 on this machine...";;
  set_text "rail-current" "checking bun and pm2";;
  setRow Bun "busy" "Checking" "bun --version";;
  setRow Pm2 "pending" "Queued" "pm2 --version";;
  fetch (GET (url "environmentUrl")) KEnvironment.

Definition environment_failed (e : exn) : eff page unit :=
  setRow Bun "err" "Failed" "environment check failed";;
  setRow Pm2 "err" "Failed" "environment check failed";;
  set_text "helper" (message_or e "Environment check failed");;
  set_text "rail-current" "environment check failed";;
  showBlocker "The local setup server could not complete the environment check. Retry the check."
    {| canInstallBun := false; canInstallPm2 := false; bunMessage := ""; pm2Message := "" |}.

Definition environment_answer (a : answer) : eff page unit :=
  try_catch (body ← lift (strict_body a "Environment check failed"); applyEnvironment body) environment_failed;;
  syncContinue.

Definition installTool (t : tool) : eff page unit :=
  set_disabled (tool_button t) true;;
  set_text (tool_button t) "Installing";;
  set_text "helper" ("Installing " +:+ tool_label t +:+ " with " +:+ tool_script t +:+ "...");;
  set_text "rail-current" ("installing " +:+ toLowerCase (tool_label t));;
  setRow t "busy" "Installing" (tool_script t +:+ " --yes");;
  setInstallAction t true;;
  fetch (POST_empty (url (tool_url t))) (KInstall t).

Definition install_failed (t : tool) (e : exn) : eff page unit :=
  setRow t "err" "Failed" (toLowerCase (tool_label t) +:+ " install failed");;
  set_text "helper" (message_or e (tool_label t +:+ " installation failed"));;
  set_text "rail-current" (toLowerCase (tool_label t) +:+ " install failed");;
  showBlocker (tool_label t +:+ " installation failed. You can retry, or run " +:+ tool_script t +:+ " in the terminal.") (tool_failure t).

Definition install_answer (t : tool) (a : answer) : eff page unit :=
  try_catch
    (body ← lift (reply_body a (tool_label t +:+ " installation failed"));
     environment ← lift (member "environment" body);
     applyEnvironment (or_empty environment))
    (install_failed t);;
  set_disabled (tool_button t) false;;
  set_text (tool_button t) ("Install " +:+ tool_label t).

Definition select_click : eff page unit :=
  set_disabled "select-install-dir" true;;
  set_text "select-install-dir" "Browsing";;
  set_text "helper" "Opening folder picker...";;
  fetch (POST_empty (url "installDirSelectUrl")) KSelect.

Definition select_answer (a : answer) : eff page unit :=
  try_catch
    (body ← lift (reply_body a "Folder selection failed");
     dir ← lift (member "installDir" body);
     old ← element "install-dir" el_value;
     set_value "install-dir" (or_text dir old);;
     syncPathState default_dir;;
     set_text "helper" "Runtime directory selected.")
    (fun e => set_text "helper" (message_or e "Folder selection failed"));;
  set_disabled "select-install-dir" false;;
  set_text "select-install-dir" "Browse".

Definition continue_click : eff page unit :=
  off ← element "continue" el_disabled;
  busy ← element "continue" (has_class "busy");
  if off || busy then mret tt
  else
    toggle "continue" "busy" true;;
    set_disabled "continue" true;;
    set_text "continue-label" "Saving";;
    set_text "helper" "Saving runtime directory to setup-progress.json...";;
    dir ← element "install-dir" el_value;
    fetch (POST (url "connectionUrl") (JObj [("installDir", JStr dir)])) KSave.

Definition save_answer (a : answer) : eff page unit :=
  match reply_body a "Connection settings could not be saved" with
  | Ok _ =>
      set_text "helper" "Connection settings saved. Next step: runtime install.";;
      set_text "rail-current" "saved to setup-progress.json";;
      set_text "continue-label" "Saved";;
      navigate (url "installUrl")
  | Throw e =>
      set_text "helper" (message_or e "Connection settings could not be saved");;
      set_text "continue-label" "Continue setup";;
      toggle "continue" "busy" false;;
      syncContinue
  end.

Definition on (e : Ev) : eff page unit :=
  match e with
  | TypeDir v => set_value "install-dir" v;; syncPathState default_dir
  | SelectClick => click "select-install-dir" select_click
  | ResetClick => click "reset-install-dir" (set_value "install-dir" default_dir;; syncPathState default_dir)
  | RetryClick => checkEnvironment
  | InstallClick t => click (tool_button t) (installTool t)
  | BackClick => navigate (url "backUrl")
  | ContinueClick => click "continue" continue_click
  | ReloadTick => reload_tick config KReload
  end.

Definition continue (k : K) (a : answer) : eff page unit :=
  match k with
  | KReload => reload_answer config a
  | KEnvironment => environment_answer a
  | KInstall t => install_answer t a
  | KSelect => select_answer a
  | KSave => save_answer a
  end.

(** The template, before the script runs. *)
Definition template (id : string) : Element :=
  if bool_decide (id = "continue") then put_disabled true blank
  else if bool_decide (id ∈ ["install-bun"; "install-pm2"]) then put_hidden true blank
  else if bool_decide (id = "install-dir") then put_value shown_dir blank
  else blank.
Definition opened_page : page :=
  {| dom := template; vars := false; location := None; reloads := 0; opened := []; sent := []; pending := [] |}.

Definition script : eff page unit :=
  stateDir ← lift (member "stateDir" (or_null (get "progress" config)));
  set_text "state-dir" ("state - " +:+ as_text stateDir);;
  syncPathState default_dir;;
  checkEnvironment.

Definition start_page : page := exec script opened_page.
Definition run (l : list (input Ev)) : page := Page.run on continue l start_page.
End Script.

(** ** Lemmas *)

Definition watched : list string := ["continue"; "install-dir"].
Definition is_save (k : K) : bool := match k with KSave => true | _ => false end.
Definition dir_ok (s : page) : bool := startsWith (trim (el_value (dom s "install-dir"))) "/".
Definition busy (s : page) : bool := has_class "busy" (dom s "continue").

(** A body with both tools, as the two answers carry it. *)
Definition both_tools (body : json) : bool := available (or_empty (get "bun" body)) && available (or_empty (get "pm2" body)).
Definition tools_missing (x : input Ev) : Prop :=
  match x with
  | Answer _ (Answered _ (Ok body)) => both_tools body = false /\ both_tools (or_empty (get "environment" body)) = false
  | _ => True
  end.

Lemma row_aside t state status detail : aside (K := K) (V := bool) watched (setRow t state status detail).
Proof. destruct t; unfold setRow; page_aside. Qed.
Lemma action_aside t b : aside (K := K) (V := bool) watched (setInstallAction t b).
Proof. destruct t; unfold setInstallAction; page_aside. Qed.
Lemma blocker_aside m o : aside (K := K) (V := bool) watched (showBlocker m o).
Proof. unfold showBlocker, setRowWarning. page_aside; simple apply action_aside. Qed.
Lemma clear_aside : aside (K := K) (V := bool) watched clearBlocker.
Proof. unfold clearBlocker, setRowWarning. page_aside; simple apply action_aside. Qed.
Lemma missing_aside a b : aside (K := K) (V := bool) watched (missing_tools a b).
Proof. unfold missing_tools. page_aside; simple apply blocker_aside. Qed.
Lemma failed_aside e : aside (K := K) (V := bool) watched (environment_failed e).
Proof. unfold environment_failed. page_aside; first [simple apply row_aside | simple apply blocker_aside]. Qed.
Lemma install_failed_aside t e : aside (K := K) (V := bool) watched (install_failed t e).
Proof. unfold install_failed. page_aside; first [simple apply row_aside | simple apply blocker_aside]. Qed.

Definition refused (x : input Ev) : Prop := match x with Answer _ a => ok_answer a = false | Event _ => True end.

(** What [syncContinue] leaves. *)
Definition synced (s : page) : page :=
  put_dom (fun i => if String.eqb "continue" i then put_disabled (negb (vars s) || negb (dir_ok s)) (dom s i) else dom s i) s.
Lemma syncContinue_run s : syncContinue s = (synced s, Ok tt).
Proof. done. Qed.

(** The environment is applied to the end, or not at all. *)
Lemma applyEnvironment_run body s :
  (exists e, applyEnvironment body s = (s, Throw e)) \/
  exists d, applyEnvironment body s = (synced (put_dom d (put_vars (both_tools body) s)), Ok tt) /\ forall i, i ∈ watched -> d i = dom s i.
Proof.
  unfold applyEnvironment, both_tools, tool_row_of. destruct (member "bun" body) as [bun0|e] eqn:Em; [right|left; by eexists].
  apply member_get in Em as ->. page_run. generalize (or_empty (get "bun" body)) (or_empty (get "pm2" body)). intros bun pm2.
  page_past (row_aside Bun (if available bun then "ok" else "err") (if available bun then "Detected" else "Missing") (or_text (get "detail" bun) "bun --version")).
  page_past (row_aside Pm2 (if available pm2 then "ok" else "err") (if available pm2 then "Detected" else "Missing") (or_text (get "detail" pm2) "pm2 --version")).
  destruct (available bun && available pm2); page_run.
  - page_past clear_aside. rewrite put_vars_dom, !put_dom_dom, syncContinue_run. eexists. split; [done|]. page_watch.
  - page_past (missing_aside (negb (available bun)) (negb (available pm2))). rewrite put_vars_dom, !put_dom_dom, syncContinue_run.
    eexists. split; [done|]. page_watch.
Qed.

Lemma syncPathState_run default_dir s : exists d, syncPathState default_dir s = (synced (put_dom d s), Ok tt) /\ d "continue" = dom s "continue".
Proof. unfold syncPathState, installDirValid. page_run. rewrite syncContinue_run, !put_dom_dom. eexists. by split. Qed.

Section Lemmas.
Context (config : json) (shown_dir default_dir : string).

(** [may]: both tools may be reported; [ok]: a request may succeed. *)
Context (may ok : bool).
Definition allowed (x : input Ev) : Prop := (may = false -> tools_missing x) /\ (ok = false -> refused x).

Definition save_post (q : Request) : Prop := forall body, rq_body q = Some body ->
  exists dir, q = POST (url config "connectionUrl") (JObj [("installDir", JStr dir)]) /\ startsWith (trim dir) "/" = true /\ may = true.

(** One save is under way at most, and the button shows it. *)
Definition known (s : page) : Prop :=
  (vars s = true -> may = true) /\ (ok = false -> location s = None \/ location s = Some (url config "backUrl")).
Definition base (s : page) : Prop :=
  known s /\ Forall save_post (sent s) /\ (waiting is_save (pending s) <= if busy s then 1 else 0)%nat.
Definition enabled (s : page) : Prop := el_disabled (dom s "continue") = false -> vars s = true /\ dir_ok s = true.
Definition inv (s : page) : Prop := base s /\ enabled s.

Lemma base_dom d s : d "continue" = dom s "continue" -> base s -> base (put_dom d s).
Proof. intros Hd (H0 & H1 & H2). split; [done|]. split; [done|]. unfold busy. page_run. by rewrite Hd. Qed.

Lemma connection_inv_dom d s : (forall i, i ∈ watched -> d i = dom s i) -> inv s -> inv (put_dom d s).
Proof.
  intros Hd [H1 H2]. assert (Hc : d "continue" = dom s "continue") by (apply Hd; left).
  assert (Hi : d "install-dir" = dom s "install-dir") by (apply Hd; right; left).
  split; [by apply base_dom|]. unfold enabled, dir_ok in *. page_run. by rewrite Hc, Hi.
Qed.

Lemma synced_inv s : base s -> inv (synced s).
Proof.
  intros H. split; [done|]. clear H. unfold enabled, synced. page_run. intros H.
  apply orb_false_iff in H as [Hv Hd]. apply negb_false_iff in Hv, Hd. by rewrite Hv.
Qed.

Lemma connection_fetch_inv q k : rq_body q = None -> is_save k = false -> preserves inv (fetch q k).
Proof.
  intros Hq Hk s [(H0 & H1 & H2) H3]. unfold fetch. page_run. split; [|done]. split; [done|]. split; page_run.
  - apply Forall_app_2; [done|]. apply Forall_singleton. intros body. by rewrite Hq.
  - rewrite waiting_app. unfold waiting at 2. cbn. rewrite Hk. unfold busy in *. page_run. cbn. lia.
Qed.

Lemma path_inv v s : base s -> inv ((set_value "install-dir" v;; syncPathState default_dir) s).1.
Proof.
  intros Hs. page_run. match goal with |- context [syncPathState _ ?s] => destruct (syncPathState_run default_dir s) as (d & -> & Hd) end.
  apply synced_inv, base_dom; [done|]. by apply base_dom.
Qed.

Lemma connection_check_inv s : base s -> inv (checkEnvironment config s).1.
Proof.
  intros ([_ Hl] & H1 & H2). unfold checkEnvironment. erewrite bind_run by reflexivity. erewrite bind_run by apply syncContinue_run.
  match goal with |- inv (?m ?s).1 => cut (preserves inv m) end; [intros Hp; apply Hp, synced_inv; by split_and!|].
  page_walk watched connection_inv_dom; first
    [ apply (aside_preserves watched); [exact connection_inv_dom|simple apply clear_aside || simple apply row_aside]
    | by apply connection_fetch_inv ].
Qed.

Lemma connection_install_inv t : preserves inv (installTool config t).
Proof.
  unfold installTool. destruct t; page_walk watched connection_inv_dom; first
    [ apply (aside_preserves watched); [exact connection_inv_dom|simple apply row_aside || simple apply action_aside]
    | by apply connection_fetch_inv ].
Qed.

Lemma connection_click_inv : preserves inv (continue_click config).
Proof.
  intros s [(H0 & H1 & H2) H3]. unfold continue_click, busy in *. page_run.
  destruct (el_disabled (dom s "continue")) eqn:Ed; page_run; [done|].
  destruct (has_class "busy" (dom s "continue")) eqn:Eb; page_run; [split; [split_and!; [done..|]|done]; unfold busy; by rewrite Eb|].
  destruct (H3 Ed) as [Hv Hdir]. split; [split_and!; [done|..]|done]; page_run.
  - apply Forall_app_2; [done|]. apply Forall_singleton. intros body _. eexists. split; [done|]. split; [done|]. by apply H0.
  - rewrite waiting_app. unfold busy, has_class. page_run. rewrite existsb_app. cbn. rewrite orb_true_r. unfold waiting at 2. cbn. lia.
Qed.

Lemma select_inv : preserves inv (select_click config).
Proof. unfold select_click. page_walk watched connection_inv_dom; by apply connection_fetch_inv. Qed.

Lemma connection_on_inv e : preserves inv (on config default_dir e).
Proof.
  destruct e as [v| | | |t| | |]; cbn [on].
  - intros s [Hs _]. by apply path_inv.
  - page_walk watched connection_inv_dom. apply select_inv.
  - intros s Hs. unfold click. erewrite bind_run by reflexivity. destruct (el_disabled _); [done|]. destruct Hs. by apply path_inv.
  - intros s [Hs _]. by apply connection_check_inv.
  - page_walk watched connection_inv_dom. apply connection_install_inv.
  - intros s [([Hv _] & H1 & H2) H3]. split; [|done]. split; [|done]. split; [done|]. by right.
  - page_walk watched connection_inv_dom. apply connection_click_inv.
  - unfold reload_tick. page_walk watched connection_inv_dom. by apply connection_fetch_inv.
Qed.

Lemma environment_inv i a s : allowed (Answer i a) -> inv s -> inv (environment_answer a s).1.
Proof.
  intros Ha Hs. unfold environment_answer. apply bind_after.
  { page_run. unfold try_catch. page_run. destruct (strict_body a _) as [body|e] eqn:Eb; page_run.
    - destruct (applyEnvironment_run body s) as [[e ->]|(d & -> & Hd)].
      + apply (aside_preserves watched inv _ connection_inv_dom (failed_aside e)), Hs.
      + apply synced_inv, base_dom; [apply Hd; left|]. destruct Hs as [([_ Hl] & H1 & H2) _]. split; [|done]. split; [|done].
        intros Ht. destruct may eqn:Em; [done|]. apply strict_body_ok in Eb as (st & -> & _). destruct Ha as [Ha _].
        destruct (Ha Em) as [Ha' _]. page_run. congruence.
    - apply (aside_preserves watched inv _ connection_inv_dom (failed_aside e)), Hs. }
  intros _ s' [Hs' _]. by apply synced_inv.
Qed.

Lemma tool_answer_inv t i a s : allowed (Answer i a) -> inv s -> inv (install_answer t a s).1.
Proof.
  intros Ha Hs. unfold install_answer. apply bind_after.
  { page_run. unfold try_catch. page_run. destruct (reply_body a _) as [body|e] eqn:Eb; page_run.
    - destruct (member "environment" body) as [environment|e] eqn:Ee; page_run.
      + destruct (applyEnvironment_run (or_empty environment) s) as [[e ->]|(d & -> & Hd)].
        * apply (aside_preserves watched inv _ connection_inv_dom (install_failed_aside t e)), Hs.
        * apply synced_inv, base_dom; [apply Hd; left|]. destruct Hs as [([_ Hl] & H1 & H2) _]. split; [|done]. split; [|done].
          intros Ht. destruct may eqn:Em; [done|]. apply reply_body_ok in Eb as (st & bd & -> & _ & ->). apply member_get in Ee as ->.
          destruct Ha as [Ha _]. specialize (Ha Em). destruct bd as [bd|e]; [|done]. destruct Ha as [_ Ha]. page_run. cbn in Ht. congruence.
      + apply (aside_preserves watched inv _ connection_inv_dom (install_failed_aside t e)), Hs.
    - apply (aside_preserves watched inv _ connection_inv_dom (install_failed_aside t e)), Hs. }
  intros _. destruct t; page_walk watched connection_inv_dom.
Qed.

Lemma select_answer_inv a s : inv s -> inv (select_answer default_dir a s).1.
Proof.
  intros Hs. unfold select_answer. apply bind_after.
  { page_run. unfold try_catch. page_run. destruct (reply_body a _) as [body|e]; page_run; [|by apply connection_inv_dom; [page_watch|]].
    destruct (member "installDir" body) as [dir|e]; page_run; [|by apply connection_inv_dom; [page_watch|]].
    match goal with |- context [syncPathState _ ?s] => destruct (syncPathState_run default_dir s) as (d & -> & Hd) end. page_run.
    apply connection_inv_dom; [page_watch|]. apply synced_inv, base_dom; [done|]. apply base_dom; [done|]. by destruct Hs. }
  intros _. page_walk watched connection_inv_dom.
Qed.

Lemma save_answer_inv i a s : allowed (Answer i a) -> base s -> waiting is_save (pending s) = O -> enabled s -> inv (save_answer config a s).1.
Proof.
  intros [_ Ha] ([Hv Hl] & H1 & H2) Hw H3. unfold save_answer. destruct (reply_body a _) as [body|e] eqn:Eb; page_run.
  - split; [|exact H3]. split; [|done]. split; [done|]. intros Hok. apply reply_body_ok in Eb as (st & bd & -> & Hst & _).
    specialize (Ha Hok). cbn in Ha. congruence.
  - rewrite syncContinue_run. apply synced_inv. split_and!; try done. unfold busy. page_run. rewrite Hw. lia.
Qed.

Lemma delete_inv i k s : pending s !! i = Some k -> inv s -> inv (put_pending (delete i (pending s)) s).
Proof.
  intros Hi [(H0 & H1 & H2) H3]. split; [|done]. split; [done|]. split; [done|]. unfold busy in *. page_run.
  rewrite (waiting_delete is_save _ _ _ Hi) in H2. destruct (is_save k); lia.
Qed.

Lemma connection_continue_inv i k a s : allowed (Answer i a) -> inv s -> pending s !! i = Some k ->
  inv (exec (continue config default_dir k a) (put_pending (delete i (pending s)) s)).
Proof.
  intros Ha Hs Hi. pose proof (delete_inv _ _ _ Hi Hs) as Hd. unfold exec. destruct k; cbn [continue].
  - assert (Hp : preserves inv (reload_answer config a)) by (page_preserve; done). by apply Hp.
  - by eapply environment_inv.
  - by eapply tool_answer_inv.
  - by apply select_answer_inv.
  - destruct Hs as [(H0 & H1 & H2) H3]. rewrite (waiting_delete is_save _ _ _ Hi) in H2. cbn in H2.
    destruct Hd as [Hb He]. eapply save_answer_inv; [done..| |done]. page_run. destruct (busy s); lia.
Qed.

Lemma connection_start_inv : inv (start_page config shown_dir default_dir).
Proof.
  assert (H0 : inv (opened_page shown_dir)) by (split; [split_and!; [split; [done|by left]|by apply Forall_nil|unfold waiting; apply Nat.le_0_l]|done]).
  unfold start_page, script, exec. destruct (member "stateDir" _) as [dir|e]; [|exact H0].
  erewrite bind_run by reflexivity. erewrite bind_run by reflexivity. match goal with |- inv ((syncPathState _ ≫= _) ?s).1 => set (s0 := s) end.
  destruct (syncPathState_run default_dir s0) as (d & Hd & Hc). erewrite bind_run by exact Hd. apply connection_check_inv.
  assert (Hb : base s0) by (apply base_dom; [done|apply H0]). by apply synced_inv, base_dom.
Qed.
End Lemmas.

(** ** Trimming twice *)

Definition no_lead (s : string) : Prop := match s with String c _ => is_space c = false | EmptyString => True end.

Lemma trim_start_lead s : no_lead (trim_start s).
Proof. induction s as [|c s IH]; [done|]. cbn. by destruct (is_space c) eqn:E. Qed.

Lemma no_lead_start s : no_lead s -> trim_start s = s.
Proof. destruct s as [|c s]; [done|]. cbn. by intros ->. Qed.

Lemma trim_start_suffix s : exists x, s = x +:+ trim_start s.
Proof.
  induction s as [|c s [x IH]]; [by exists ""|]. cbn. destruct (is_space c); [|by exists ""].
  exists (String c x). cbn [String.append]. by f_equal.
Qed.

Lemma trim_lead s : no_lead (trim s).
Proof.
  unfold trim. pose proof (trim_start_lead s) as H. set (y := trim_start s) in *. destruct (trim_start_suffix (str_rev y "")) as [x Hx].
  apply (f_equal (fun z => str_rev z "")) in Hx. rewrite SetupEnv.str_rev_rev, str_rev_cat in Hx.
  destruct (str_rev (trim_start (str_rev y "")) "") as [|c r]; [done|]. rewrite Hx in H. exact H.
Qed.

Lemma trim_trim s : trim (trim s) = trim s.
Proof.
  unfold trim at 1. rewrite (no_lead_start _ (trim_lead s)). unfold trim. rewrite SetupEnv.str_rev_rev.
  by rewrite (no_lead_start _ (trim_start_lead _)).
Qed.

(** A directory the page takes is one the server takes. *)
Lemma absolute_accepted p dir : startsWith (trim dir) "/" = true ->
  exists d, normalizeInstallDir p (normalizeConnectionBody (JObj [("installDir", JStr dir)])) = Some d /\ d <> "".
Proof.
  intros H. change (normalizeConnectionBody _) with (trim dir). unfold normalizeInstallDir. rewrite trim_trim.
  destruct (trim dir) as [|c r]; [done|]. rewrite startsWith_char in H. bool_solve. subst c.
  rewrite !bool_decide_false by done. unfold isAbsolute. rewrite startsWith_char, bool_decide_true by done. cbn [startsWith String.prefix].
  eexists. split; [done|]. unfold Files.normalize. by rewrite startsWith_char, bool_decide_true.
Qed.

(** What the server does with a directory it takes. *)
Definition connected (p : Process) (dir : string) : program reply :=
  when_ready p agreementReady (fun progress =>
    next ← remember p progress [("serverUrl", Some (JStr DEFAULT_SERVER_URL)); ("installDir", Some (JStr dir))];
    mret (JsonReply 200 (JObj [("success", JBool true); ("nextStep", JStr "runtime-install"); ("nextUrl", JStr "/install");
                               ("progress", progressView p next)]))).

Lemma connected_run p body d : normalizeInstallDir p (normalizeConnectionBody body) = Some d -> d <> "" -> recordConnection p body = connected p d.
Proof. intros Hd Hn. unfold recordConnection, connected. rewrite Hd. by destruct d. Qed.

(** ** Properties *)

(** The directory page saves only what the server takes: whatever the operator does
    and whatever the server answers in whatever order, each request with a body is a
    save whose directory passes the server's check, so that it is refused only while the
    agreement is missing; one is under way at most; none is sent unless an answer
    reported both tools; and the page leads on, other than back, only if a request
    succeeded. *)
Theorem connection_page_sound (p : Process) (config : json) (shown_dir default_dir : string) (l : list (input Ev)) :
  let s := run config shown_dir default_dir l in
  (forall q body, q ∈ sent s -> rq_body q = Some body -> exists dir,
     q = POST (url config "connectionUrl") body /\ dir <> "" /\ recordConnection p body = connected p dir) /\
  (waiting is_save (pending s) <= 1)%nat /\
  (Forall tools_missing l -> forall q, q ∈ sent s -> rq_body q = None) /\
  (Forall refused l -> location s = None \/ location s = Some (url config "backUrl")).
Proof.
  cbn zeta.
  assert (Hinv : forall may ok, Forall (allowed may ok) l -> inv config may ok (run config shown_dir default_dir l)).
  { intros may ok Hl. unfold run. apply (run_invariant (on config default_dir) (continue config default_dir) (allowed may ok)); [| |done|apply connection_start_inv].
    - intros e s _. apply connection_on_inv.
    - intros i k a s. apply connection_continue_inv. }
  assert (Ht : Forall (allowed true true) l) by (by apply Forall_forall).
  destruct (Hinv true true Ht) as [(_ & Hs & Hw) _]. rewrite Forall_forall in Hs. split_and!.
  - intros q body Hq Hb. destruct (Hs q Hq body Hb) as (dir & -> & Hd & _). injection Hb as <-.
    destruct (absolute_accepted p dir Hd) as (d & Hn & Hd'). exists d. split; [done|]. split; [done|]. by apply connected_run.
  - etransitivity; [exact Hw|]. destruct (busy _); lia.
  - intros Hm q Hq. destruct (Hinv false true) as [(_ & Hs' & _) _]; [by eapply Forall_impl; [exact Hm|]|].
    rewrite Forall_forall in Hs'. destruct (rq_body q) as [body|] eqn:Eb; [|done]. by destruct (Hs' q Hq body Eb) as (_ & _ & _ & ?).
  - intros Hr. destruct (Hinv true false) as [([_ Hl] & _) _]; [by eapply Forall_impl; [exact Hr|]|]. by apply Hl.
Qed.

Module Demo.
Definition config : json :=
  JObj [("progress", JObj [("stateDir", JStr "/home/op/.consensus")]); ("connectionUrl", JStr "/api/connection"); ("installUrl", JStr "/install");
        ("environmentUrl", JStr "/api/environment"); ("pm2InstallUrl", JStr "/api/install-pm2"); ("bunInstallUrl", JStr "/api/install-bun")].
Definition found (b : bool) : json := JObj [("available", JBool b)].
Definition environment (bun pm2 : bool) : answer := Answered 200 (Ok (JObj [("bun", found bun); ("pm2", found pm2)])).
Definition clicks : list (input Ev) :=
  [Event ContinueClick; Answer 0 (environment true true); Event (TypeDir "~/node"); Event ContinueClick; Event (TypeDir " /srv/node ");
   Event ContinueClick; Event ContinueClick; Answer 0 (Answered 200 (Ok (JObj [])))].
End Demo.

Example connection_clicks : let s := run Demo.config "/opt/node" "/opt/node" Demo.clicks in
  sent s = [GET "/api/environment"; POST "/api/connection" (JObj [("installDir", JStr " /srv/node ")])] /\ location s = Some "/install".
Proof. vm_compute. done. Qed.

(** The page refuses a directory under the home directory that the server would take. *)
Example home_directory_refused : 
  el_disabled (dom (run Demo.config "/opt/node" "/opt/node" (take 3 Demo.clicks)) "continue") = true /\
  normalizeInstallDir SecretStore.Node.process "~/node" = Some "/home/op/node".
Proof. vm_compute. done. Qed.

(** Installing PM2 fails while Bun is missing too: the button that installs Bun goes. *)
Example failed_install_hides_the_other :
  let l := [Answer 0 (Demo.environment false false); Event (InstallClick Pm2); Answer 0 (Answered 500 (Ok (JObj [])))] in
  let shown n := el_hidden (dom (run Demo.config "/opt/node" "/opt/node" (take n l)) "install-bun") in
  shown 1%nat = false /\ shown 3%nat = true.
Proof. vm_compute. done. Qed.

Lemma connection_page_sound_witness : exists d, d <> "" /\
  recordConnection SecretStore.Node.process (JObj [("installDir", JStr " /srv/node ")]) = connected SecretStore.Node.process d.
Proof.
  destruct (connection_page_sound SecretStore.Node.process Demo.config "/opt/node" "/opt/node" Demo.clicks) as (Hp & _).
  destruct (Hp (POST "/api/connection" (JObj [("installDir", JStr " /srv/node ")])) (JObj [("installDir", JStr " /srv/node ")])) as (d & _ & Hd & Hr).
  - vm_compute. right. left.
  - reflexivity.
  - exists d. split; [exact Hd|exact Hr].
Defined.
