(* ===== verification/InstallPage.v ===== *)
(** * The script of the runtime page (setup-wizard/templates/install-client.js)

    The page shows the approved release manifest, lets the operator reuse an installed
    runtime or install a new one, and leads on when the server has done it. *)

From S2P Require SecretStore.
From S2P Require Import Prelude Effect Program Text Json Coerce Ticket Eval Files Update Setup Wizard Render Page.
Local Open Scope Z_scope.

(** [mode] is [installModeValue]. *)
Record Vars := { mode : install_mode; manifestReady : bool; installDone : bool }.

Inductive K := KReload | KManifest | KInstall.

Inductive Ev := ReuseClick | InstallClick | BackClick | ContinueClick | ReloadTick.

Notation page := (Page Vars K).

Definition mode_text (m : install_mode) : string := match m with Install => "install" | Reuse => "reuse" end.
Definition is_reuse (m : install_mode) : bool := match m with Reuse => true | Install => false end.

(** ** The manifest as a table *)

(** [value.slice(0, n)], [value.slice(-n)] for a positive [n]. *)
Definition slice_last (n : nat) (s : string) : string := slice_from (String.length s - n) s.

Definition trunc (value : option json) (size : nat) : string :=
  let text := or_text value "not provided" in
  if (String.length text <=? size)%nat then text
  else
    let edge := Nat.max 6 ((size - 3) / 2)%nat in
    slice_to edge text +:+ "..." +:+ slice_last edge text.

Definition manifest_rows : list (string * string) :=
  [("Version", "version"); ("Platform", "platform"); ("Commit", "commit"); ("SHA-256", "sha256"); ("Source", "source")].

(** [escapeHtml(value)], of [String(value ?? "")]. *)
Definition escape_value (value : option json) : string := escapeHtml (content_text value).

Definition attribute (name value : string) : string :=
  " " +:+ name +:+ "=" +:+ String chr_quote (value +:+ String chr_quote "").

(** One row of the grid; [full] is shown as the title. *)
Definition row_html (manifest : json) (row : string * string) : string :=
  let value := get row.2 manifest in
  let full := if truthy value then value else Some (JStr "not provided") in
  "<div" +:+ attribute "class" "kv-row" +:+ "><span" +:+ attribute "class" "kv-key mono" +:+ ">" +:+ escape_value (Some (JStr row.1)) +:+
  "</span><span" +:+ attribute "class" "kv-value mono" +:+ attribute "title" (escape_value full) +:+ ">" +:+
  escape_value (Some (JStr (trunc full (if bool_decide (row.1 = "Source") then 54 else 34)%nat))) +:+ "</span></div>".

Definition grid_html (manifest : json) : string := join "" (map (row_html manifest) manifest_rows).

(** ** The page *)

Definition setManifestStatus (state text : string) : eff page unit :=
  set_class "manifest-status" ("env-status mono " +:+ state);;
  set_text "manifest-status" text.

Definition syncContinueLabel : eff page unit :=
  v ← get_vars id;
  set_text "continue-label"
    (if installDone v then "Continue to network detection"
     else if negb (manifestReady v) then "Fetching manifest"
     else if is_reuse (mode v) then "Use existing runtime" else "Download & install").

Definition setMode (m : install_mode) : eff page unit :=
  set_vars (fun v => {| mode := m; manifestReady := manifestReady v; installDone := installDone v |});;
  toggle "reuse-mode" "on" (is_reuse m);;
  toggle "install-mode" "on" (negb (is_reuse m));;
  syncContinueLabel.

Definition setBusy (busy : bool) : eff page unit :=
  toggle "continue" "busy" busy;;
  ready ← get_vars manifestReady;
  set_disabled "continue" (busy || negb ready).

(** The second half of [renderManifest]. *)
Definition manifest_ready (canReuse : bool) : eff page unit :=
  set_vars (fun v => {| mode := mode v; manifestReady := true; installDone := installDone v |});;
  set_disabled "continue" false;;
  syncContinueLabel;;
  set_text "helper" (if canReuse then "A matching runtime is available. Reuse it or reinstall fresh."
                     else "Approved release is ready to download and install.");;
  set_text "rail-current" (if canReuse then "existing runtime detected" else "manifest verified").

Definition renderManifest (data : json) : eff page unit :=
  manifest ← lift (member "manifest" data);
  let manifest := or_empty manifest in
  let canReuse := truthy (get "canReuse" data) in
  set_html "manifest-grid" (grid_html manifest);;
  set_text "manifest-source" (as_text (get "serverUrl" data) +:+ " - fetched just now");;
  setManifestStatus "ok" "Verified";;
  (if canReuse then
     set_hidden "reuse-card" false;;
     set_text "reuse-copy" (or_text (get "reuseReason" data) "A matching runtime is already installed.");;
     setMode Reuse
   else
     set_hidden "reuse-card" true;;
     setMode Install);;
  manifest_ready canReuse.

Section Script.
Context (config : json).

Definition url (k : string) : string := as_text (get k config).

Definition loadManifest : eff page unit :=
  setManifestStatus "pending" "Fetching";;
  set_text "helper" "Fetching approved release manifest...";;
  fetch (GET (url "manifestUrl")) KManifest.

Definition manifest_answer (a : answer) : eff page unit :=
  try_catch
    (body ← lift (reply_body a "Manifest fetch failed");
     renderManifest body)
    (fun e =>
       setManifestStatus "err" "Failed";;
       set_text "manifest-source" "Manifest could not be fetched.";;
       set_text "helper" (message_or e "Manifest fetch failed");;
       set_text "rail-current" "manifest fetch failed").

(** [runInstall], up to its [await]. *)
Definition runInstall : eff page unit :=
  setBusy true;;
  m ← get_vars mode;
  let reuse := is_reuse m in
  set_text "helper" (if reuse then "Confirming existing runtime..." else "Installing approved runtime...");;
  set_text "rail-current" (if reuse then "using existing runtime" else "downloading verified artifact");;
  setStep "step-download" (if reuse then "ok" else "active") (if reuse then "skipped - existing artifact" else "downloading and verifying artifact");;
  setStep "step-verify" "pending" (if reuse then "skipped" else "queued");;
  setStep "step-install" "pending" (if reuse then "skipped" else "queued");;
  fetch (POST (url "installUrl") (JObj [("mode", JStr (mode_text m))])) KInstall.

(** [(body.install && body.install.currentPath) ? ... : "runtime ready"] *)
Definition ready_text (body : json) : string :=
  let path := if truthy (get "install" body) then get "currentPath" (or_null (get "install" body)) else None in
  if truthy path then "ready at " +:+ as_text path else "runtime ready".

Definition install_answer (a : answer) : eff page unit :=
  try_catch
    (body ← lift (reply_body a "Runtime install failed");
     m ← get_vars mode;
     let reuse := is_reuse m in
     setStep "step-download" "ok" (if reuse then "existing runtime selected" else "downloaded and checksum verified");;
     setStep "step-verify" "ok" (if reuse then "existing release matches manifest" else "checksum matches manifest");;
     lift (members body);;
     setStep "step-install" "ok" (ready_text body);;
     set_vars (fun v => {| mode := mode v; manifestReady := manifestReady v; installDone := true |});;
     set_text "rail-current" "runtime install confirmed";;
     set_text "helper" "Runtime ready. Network reachability and benchmark are next.";;
     syncContinueLabel)
    (fun e =>
       setStep "step-install" "err" (message_or e "runtime install failed");;
       set_text "rail-current" "runtime install failed";;
       set_text "helper" (message_or e "Runtime install failed"));;
  setBusy false.

Definition continue_click : eff page unit :=
  off ← element "continue" el_disabled;
  busy ← element "continue" (has_class "busy");
  done_ ← get_vars installDone;
  if off || busy then mret tt
  else if done_ : bool then navigate (url "nextUrl")
  else runInstall.

Definition on (e : Ev) : eff page unit :=
  match e with
  | ReuseClick => setMode Reuse
  | InstallClick => setMode Install
  | BackClick => navigate (url "backUrl")
  | ContinueClick => click "continue" continue_click
  | ReloadTick => reload_tick config KReload
  end.

Definition continue (k : K) (a : answer) : eff page unit :=
  match k with
  | KReload => reload_answer config a
  | KManifest => manifest_answer a
  | KInstall => install_answer a
  end.

(** The template, before the script runs. *)
Definition template (id : string) : Element :=
  if bool_decide (id = "continue") then put_disabled true blank
  else if bool_decide (id = "reuse-card") then put_hidden true blank
  else if bool_decide (id = "reuse-mode") then put_classes ["on"] blank
  else blank.
Definition opened_page : page :=
  {| dom := template; vars := {| mode := Install; manifestReady := false; installDone := false |};
     location := None; reloads := 0; opened := []; sent := []; pending := [] |}.

Definition script : eff page unit :=
  stateDir ← lift (member "stateDir" (or_null (get "progress" config)));
  set_text "state-dir" ("state - " +:+ as_text stateDir);;
  loadManifest.

Definition start_page : page := exec script opened_page.
Definition run (l : list (input Ev)) : page := Page.run on continue l start_page.
End Script.

(** ** Lemmas *)

Definition watched : list string := ["continue"].
Definition is_install (k : K) : bool := match k with KInstall => true | _ => false end.
Definition busy (s : page) : bool := has_class "busy" (dom s "continue").

Section Lemmas.
Context (config : json).

(** [mok], [iok]: a manifest, an install may succeed. *)
Context (mok iok : bool).

Definition install_post (q : Request) : Prop := forall body, rq_body q = Some body ->
  mok = true /\ exists m, q = POST (url config "installUrl") (JObj [("mode", JStr (mode_text m))]).

(** All but what the button shows. *)
Definition base (s : page) : Prop :=
  (manifestReady (vars s) = true -> mok = true) /\ (installDone (vars s) = true -> iok = true) /\
  (iok = false -> location s = None \/ location s = Some (url config "backUrl")) /\ Forall install_post (sent s).
Definition shown (s : page) : Prop := el_disabled (dom s "continue") = false -> manifestReady (vars s) = true.
Definition one_run (s : page) : Prop := (waiting is_install (pending s) <= if busy s then 1 else 0)%nat.
Definition inv (s : page) : Prop := base s /\ shown s /\ one_run s.

Lemma install_inv_dom d s : (forall i, i ∈ watched -> d i = dom s i) -> inv s -> inv (put_dom d s).
Proof.
  intros Hd (H1 & H2 & H3). assert (Hc : d "continue" = dom s "continue") by (apply Hd; left).
  split; [done|]. unfold shown, one_run, busy in *. page_run. by rewrite Hc.
Qed.

Lemma install_fetch_inv q k : rq_body q = None -> is_install k = false -> preserves inv (fetch q k).
Proof.
  intros Hq Hk s ((H1 & H2 & H3 & H4) & H5 & H6). unfold fetch. page_run. split; [|split; [done|]].
  - split_and!; [done..|]. page_run. apply Forall_app_2; [done|]. apply Forall_singleton. intros body. by rewrite Hq.
  - unfold one_run, busy in *. page_run. rewrite waiting_app. unfold waiting at 2. cbn. rewrite Hk. cbn. lia.
Qed.

Lemma setMode_inv m : preserves inv (setMode m).
Proof. unfold setMode, syncContinueLabel, set_vars. page_walk watched install_inv_dom. simple apply preserves_modify. by intros s. Qed.

Lemma install_label_inv : preserves inv syncContinueLabel.
Proof. unfold syncContinueLabel. page_walk watched install_inv_dom. Qed.

Lemma ready_inv canReuse : mok = true -> preserves inv (manifest_ready canReuse).
Proof.
  intros Hm s ((H1 & H2 & H3 & H4) & H5 & H6). unfold manifest_ready. erewrite bind_run by reflexivity. erewrite bind_run by reflexivity.
  match goal with |- inv (?m ?s).1 => cut (preserves inv m); [intros Hp; apply Hp; clear Hp|page_walk watched install_inv_dom; apply install_label_inv] end.
  split; [by split_and!|]. split; [done|]. unfold one_run, busy in *. page_run. exact H6.
Qed.

Lemma renderManifest_inv data : mok = true -> preserves inv (renderManifest data).
Proof.
  intros Hm. unfold renderManifest, setManifestStatus. cbn zeta.
  page_walk watched install_inv_dom; first [simple apply setMode_inv | by simple apply ready_inv].
Qed.

Definition manifest_allowed (a : answer) : Prop := ok_answer a = true -> mok = true.
Definition install_allowed (a : answer) : Prop := ok_answer a = true -> iok = true.

Lemma ok_reply a d b : reply_body a d = Ok b -> ok_answer a = true.
Proof. intros (st & bd & -> & Hst & _)%reply_body_ok. exact Hst. Qed.

Lemma manifest_inv a s : manifest_allowed a -> inv s -> inv (manifest_answer a s).1.
Proof.
  intros Ha Hs. unfold manifest_answer. destruct (reply_body a _) as [body|e] eqn:Eb.
  - apply (preserves_catch inv); [|intros e; unfold setManifestStatus; page_walk watched install_inv_dom|done].
    apply preserves_bind; [apply preserves_lift|]. intros b. apply renderManifest_inv, Ha. by eapply ok_reply.
  - apply (preserves_catch inv); [|intros e'; unfold setManifestStatus; page_walk watched install_inv_dom|done].
    by intros s' Hs'.
Qed.

(** The run that has ended: none waits. *)
Definition ended (s : page) : Prop := base s /\ shown s /\ waiting is_install (pending s) = O.

Lemma ended_dom d s : (forall i, i ∈ watched -> d i = dom s i) -> ended s -> ended (put_dom d s).
Proof.
  intros Hd (H1 & H2 & H3). split; [done|]. split; [|done]. unfold shown in *. page_run. by rewrite (Hd "continue") by left.
Qed.

Lemma install_setBusy_ended s : ended s -> inv (setBusy false s).1.
Proof.
  intros (H1 & H2 & H3). unfold setBusy. page_run. split; [done|]. split.
  - unfold shown. page_run. apply negb_false_iff.
  - unfold one_run. page_run. rewrite H3. lia.
Qed.

Lemma install_ended_inv s : ended s -> inv s.
Proof. intros (H1 & H2 & H3). split; [done|]. split; [done|]. unfold one_run. rewrite H3. lia. Qed.

Lemma install_install_inv a s : install_allowed a -> ended s -> inv (install_answer a s).1.
Proof.
  intros Ha Hs. unfold install_answer. apply (bind_split ended); [|apply install_ended_inv|intros _ s' Hs'; by apply install_setBusy_ended].
  revert s Hs. apply (preserves_catch ended).
  - destruct (reply_body a _) as [body|e] eqn:Eb; [|by intros s Hs].
    apply ok_reply in Eb. page_walk watched ended_dom;
      first [apply (aside_preserves watched); [exact ended_dom|apply step_aside; reflexivity] | unfold syncContinueLabel; page_walk watched ended_dom | idtac].
    all: intros s ((H1 & H2 & H3 & H4) & H5 & H6); split; [split_and!; try done|done]; intros _; by apply Ha.
  - intros e. page_walk watched ended_dom. apply (aside_preserves watched); [exact ended_dom|apply step_aside; reflexivity].
Qed.

Lemma runInstall_inv s : inv s -> manifestReady (vars s) = true -> busy s = false -> inv (runInstall config s).1.
Proof.
  intros ((H1 & H2 & H3 & H4) & H5 & H6) Hm Hb. unfold runInstall, setBusy. page_run.
  page_past (step_aside (V := Vars) (K := K) watched "step-download" (if is_reuse (mode (vars s)) then "ok" else "active")
    (if is_reuse (mode (vars s)) then "skipped - existing artifact" else "downloading and verifying artifact") eq_refl).
  page_past (step_aside (V := Vars) (K := K) watched "step-verify" "pending" (if is_reuse (mode (vars s)) then "skipped" else "queued") eq_refl).
  page_past (step_aside (V := Vars) (K := K) watched "step-install" "pending" (if is_reuse (mode (vars s)) then "skipped" else "queued") eq_refl).
  unfold one_run in H6. rewrite Hb in H6. unfold inv, base, shown, one_run, busy. page_run.
  assert (Hc : d1 "continue" = put_disabled true (toggle_class "busy" true (dom s "continue"))) by (by rewrite Hd1, Hd0, Hd by left).
  rewrite Hc. page_run. split; [split_and!; try done|split; [done|]].
  - apply Forall_app_2; [done|]. apply Forall_singleton. intros body [= <-]. split; [by apply H1|]. by eexists.
  - rewrite waiting_app. unfold has_class. page_run. rewrite existsb_app. cbn. rewrite orb_true_r. unfold waiting at 2. cbn. lia.
Qed.

Lemma install_navigate_inv url' s : (iok = false -> url' = url config "backUrl") -> inv s -> inv (put_location url' s).
Proof. intros Hu ((H1 & H2 & H3 & H4) & H5 & H6). split; [split_and!; try done|done]. intros Hi. right. cbn. by rewrite Hu. Qed.

Lemma install_click_inv s : inv s -> inv (continue_click config s).1.
Proof.
  intros Hs. unfold continue_click. erewrite !bind_run by reflexivity.
  destruct (el_disabled (dom s "continue")) eqn:Ed; [exact Hs|]. destruct (has_class "busy" (dom s "continue")) eqn:Eb; [exact Hs|]. cbn [orb].
  destruct (installDone (vars s)) eqn:Edone.
  - apply install_navigate_inv; [|done]. destruct Hs as ((H1 & H2 & H3 & H4) & H5 & H6). rewrite (H2 Edone). done.
  - apply runInstall_inv; [done| |done]. destruct Hs as (_ & H5 & _). by apply H5.
Qed.

Lemma install_on_inv e : preserves inv (on config e).
Proof.
  destruct e; cbn [on].
  - apply setMode_inv.
  - apply setMode_inv.
  - intros s Hs. by apply install_navigate_inv.
  - intros s Hs. unfold click. erewrite bind_run by reflexivity. destruct (el_disabled _); [exact Hs|by apply install_click_inv].
  - unfold reload_tick. page_walk watched install_inv_dom. by apply install_fetch_inv.
Qed.

(** What may answer which request. *)
Definition allowed (s : page) (x : input Ev) : Prop :=
  match x with
  | Answer i a =>
      (pending s !! i = Some KManifest -> manifest_allowed a) /\ (pending s !! i = Some KInstall -> install_allowed a)
  | Event _ => True
  end.

Lemma install_continue_inv i k a s : allowed s (Answer i a) -> inv s -> pending s !! i = Some k ->
  inv (exec (continue config k a) (put_pending (delete i (pending s)) s)).
Proof.
  intros [Hm Hn] (H1 & H2 & H3) Hi. unfold one_run in H3. rewrite (waiting_delete is_install _ _ _ Hi) in H3.
  unfold exec. destruct k; cbn [continue is_install] in *.
  - assert (Hp : preserves inv (reload_answer config a)) by (page_preserve; done). apply Hp. split; [done|]. split; [done|]. exact H3.
  - apply manifest_inv; [by apply Hm|]. split; [done|]. split; [done|]. exact H3.
  - apply install_install_inv; [by apply Hn|]. split; [done|]. split; [done|]. page_run. destruct (busy s); lia.
Qed.

Lemma install_start_inv : inv (start_page config).
Proof.
  assert (H0 : inv opened_page) by (split; [split_and!; [done|done|by left|by apply Forall_nil]|split; [done|unfold one_run, waiting; apply Nat.le_0_l]]).
  assert (Hp : preserves inv (script config)); [|by apply Hp]. unfold script, loadManifest, setManifestStatus.
  page_walk watched install_inv_dom. by apply install_fetch_inv.
Qed.
End Lemmas.

(** ** The table *)

Lemma count_escaped c s : c ∈ ["<"%char; ">"%char; chr_quote] -> count c (escapeHtml s) = O.
Proof.
  intros Hc. apply count_none. destruct (escapeHtml_inert s) as (H1 & H2 & H3).
  rewrite !elem_of_cons, elem_of_nil in Hc. by destruct_or? Hc; subst.
Qed.

Lemma row_counts m row : count "<" (row_html m row) = 6%nat /\ count ">" (row_html m row) = 6%nat /\ count chr_quote (row_html m row) = 8%nat.
Proof.
  unfold row_html, attribute, escape_value. cbn zeta. generalize (if truthy (get row.2 m) then get row.2 m else Some (JStr "not provided")). intros full.
  generalize (trunc full (if bool_decide (row.1 = "Source") then 54 else 34)%nat). intros t. generalize (content_text full). intros c. change (content_text (Some (JStr t))) with t. change (content_text (Some (JStr row.1))) with row.1.
  assert (Hq : forall v x, count v (String chr_quote x) = ((if decide (chr_quote = v) then 1 else 0) + count v x)%nat) by done.
  rewrite !count_app, !Hq, !count_app, !Hq, !count_escaped by set_solver. vm_compute. done.
Qed.

(** ** Properties *)

(** The runtime page installs only what a manifest allows and leads on only when it
    is installed: whatever the operator does and whatever the server answers in whatever
    order, each request with a body is an install in a mode the server reads back; one is
    under way at most; none is sent unless a manifest was answered; and the page leads
    on, other than back, only if an install was answered with success. *)
Theorem install_page_sound (config : json) (l : list (input Ev)) :
  let s := run config l in
  let refuses (k : K) := forall l1 i a l2, l = l1 ++ Answer i a :: l2 -> pending (run config l1) !! i = Some k -> ok_answer a = false in
  (forall q body, q ∈ sent s -> rq_body q = Some body -> exists m,
     q = POST (url config "installUrl") body /\ get "mode" body = Some (JStr (mode_text m)) /\ normalizeRuntimeInstallBody body = m) /\
  (waiting is_install (pending s) <= 1)%nat /\
  (refuses KManifest -> forall q, q ∈ sent s -> rq_body q = None) /\
  (refuses KInstall -> location s = None \/ location s = Some (url config "backUrl")).
Proof.
  cbn zeta. set (refuses := fun k => _).
  assert (Hinv : forall mok iok, (mok = false -> refuses KManifest) -> (iok = false -> refuses KInstall) -> inv config mok iok (run config l)).
  { intros mok iok Hm Hi. unfold run. apply (run_invariant_at (on config) (continue config) (allowed mok iok)).
    - intros e s. apply install_on_inv.
    - intros i k a s. apply install_continue_inv.
    - intros l1 x l2 Hl. destruct x as [e|i a]; [done|]. split; intros Hp Hok.
      + destruct mok eqn:E; [done|]. pose proof (Hm eq_refl l1 i a l2 Hl Hp). congruence.
      + destruct iok eqn:E; [done|]. pose proof (Hi eq_refl l1 i a l2 Hl Hp). congruence.
    - apply install_start_inv. }
  destruct (Hinv true true) as ((_ & _ & _ & Hs) & _ & Hw); [done..|]. rewrite Forall_forall in Hs. split_and!.
  - intros q body Hq Hb. destruct (Hs q Hq body Hb) as (_ & m & ->). injection Hb as <-. exists m. split_and!; [done..|]. by destruct m.
  - etransitivity; [exact Hw|]. destruct (busy _); lia.
  - intros Hm q Hq. destruct (Hinv false true) as ((_ & _ & _ & Hs') & _); [done..|]. rewrite Forall_forall in Hs'.
    destruct (rq_body q) as [body|] eqn:Eb; [|done]. by destruct (Hs' q Hq body Eb) as [? _].
  - intros Hi. destruct (Hinv true false) as ((_ & _ & Hl & _) & _); [done..|]. by apply Hl.
Qed.

(** The table shows the manifest as text: whatever the values are, the markup has the
    tags and the attributes of the five rows and no others. *)
Theorem manifest_grid_inert (manifest : json) :
  count "<" (grid_html manifest) = 30%nat /\ count ">" (grid_html manifest) = 30%nat /\ count chr_quote (grid_html manifest) = 40%nat.
Proof.
  unfold grid_html, manifest_rows, join. cbn [map String.concat].
  pose proof (fun r => proj1 (row_counts manifest r)) as H1. pose proof (fun r => proj1 (proj2 (row_counts manifest r))) as H2.
  pose proof (fun r => proj2 (proj2 (row_counts manifest r))) as H3. split_and!; rewrite !count_app, ?H1, ?H2, ?H3; done.
Qed.

Module Demo.
Definition config : json :=
  JObj [("progress", JObj [("stateDir", JStr "/home/op/.consensus")]); ("manifestUrl", JStr "/api/install-manifest");
        ("installUrl", JStr "/api/runtime-install"); ("nextUrl", JStr "/network"); ("backUrl", JStr "/connection")].
Definition manifest : json :=
  JObj [("manifest", JObj [("version", JStr "1.2.0"); ("source", JStr "<script>")]); ("canReuse", JBool true)].
Definition clicks : list (input Ev) :=
  [Event ContinueClick; Answer 0 (Answered 200 (Ok manifest)); Event ContinueClick; Event ContinueClick;
   Answer 0 (Answered 500 (Ok (JObj [("error", JStr "disk full")]))); Event InstallClick; Event ContinueClick;
   Answer 0 (Answered 200 (Ok (JObj []))); Event ContinueClick].
End Demo.

Example install_clicks : let s := run Demo.config Demo.clicks in
  sent s = [GET "/api/install-manifest"; POST "/api/runtime-install" (JObj [("mode", JStr "reuse")]);
            POST "/api/runtime-install" (JObj [("mode", JStr "install")])] /\
  location s = Some "/network" /\ el_text (dom (run Demo.config (take 5 Demo.clicks)) "helper") = "disk full".
Proof. vm_compute. done. Qed.

(** While a run is under way the mode can still be changed: the steps then tell of
    another mode than the one that was asked for. *)
Example mode_changes_under_way :
  let s := run Demo.config (take 3 Demo.clicks ++ [Event InstallClick; Answer 0 (Answered 200 (Ok (JObj [])))]) in
  last (sent s) = Some (POST "/api/runtime-install" (JObj [("mode", JStr "reuse")])) /\
  el_text (dom s "step-download .step-sub") = "downloaded and checksum verified".
Proof. vm_compute. done. Qed.

Lemma install_page_sound_witness :
  normalizeRuntimeInstallBody (JObj [("mode", JStr "reuse")]) = Reuse /\ location (run Demo.config (take 7 Demo.clicks)) = None.
Proof.
  destruct (install_page_sound Demo.config Demo.clicks) as (Hp & _).
  destruct (Hp (POST "/api/runtime-install" (JObj [("mode", JStr "reuse")])) (JObj [("mode", JStr "reuse")])) as (m & _ & Hm & Hr).
  - vm_compute. right. left.
  - reflexivity.
  - split; [destruct m; [discriminate Hm|exact Hr]|vm_compute; reflexivity].
Defined.
