(* ===== verification/NetworkPage.v ===== *)
(** * The script of the network page (setup-wizard/templates/network-client.js)

    The page shows what is known of the network, runs the benchmark and leads on when it
    has passed. *)

From S2P Require Import Prelude Effect Program Text Json Coerce Ticket Eval Update Setup Wizard Page.
Local Open Scope Z_scope.

Record Vars := { testFlow : bool; passed : bool }.

Inductive K := KReload | KStatus | KRun.

Inductive Ev := RunClick | BackClick | ContinueClick | ReloadTick.

Notation page := (Page Vars K).

Definition setText (id : string) (value : option json) : eff page unit := set_text id (or_text value "not detected").

Definition setStatus (state label : string) : eff page unit :=
  set_class "eval-status" ("env-status mono " +:+ state);;
  set_text "eval-status" label.

(** [v || d] for a text [d], as a value. *)
Definition or_value (v : option json) (d : string) : option json := if truthy v then v else Some (JStr d).

(** [l.filter(Boolean).join(" · ")] *)
Definition join_parts (l : list (option json)) : string :=
  join " · " (map content_text (filter (fun v => truthy v = true) l)).

Definition region_of (body : json) : string :=
  if truthy (get "region" body) then
    let region := or_null (get "region" body) in
    join_parts [get "region" region; get "city" region; get "country_code" region]
  else "pending".

(** The part of [renderNetwork] that fills in the fields. *)
Definition show_network (body : json) : eff page unit :=
  let ipv4 := get "publicIpv4" body in
  let ipv6 := get "publicIpv6" body in
  let networkDetected := truthy (get "networkDetected" body) || truthy ipv4 in
  let region := region_of body in
  setText "ipv4-value" (or_value ipv4 "pending");;
  setText "ipv6-value" (if networkDetected then or_value ipv6 "not detected" else Some (JStr "pending"));;
  setText "region-value" (Some (JStr region));;
  (if truthy ipv4 then setStep "step-ipv4" "ok" (content_text ipv4) else mret tt);;
  (if networkDetected then setStep "step-ipv6" "ok" (or_text ipv6 "none detected") else mret tt);;
  (if truthy (get "region" body) then setStep "step-region" "ok" region else mret tt).

(** The part that tells how the benchmark went. *)
Definition show_outcome (body : json) : eff page unit :=
  let at_ := get "evalPassedAt" body in
  test ← get_vars testFlow;
  if truthy at_ then
    setStep "step-eval" "ok" ("passed at " +:+ as_text at_);;
    setStatus "ok" "Passed";;
    set_text "rail-current" "benchmark passed";;
    set_text "helper" "Network benchmark passed. Contact and registration are next.";;
    set_vars (fun v => {| testFlow := testFlow v; passed := true |})
  else if truthy (get "joinAuthReusable" body) then
    setStep "step-eval" "ok" "valid join authorization can be reused";;
    setStatus "ok" "Reusable";;
    set_text "rail-current" "join authorization available";;
    set_text "helper" "A valid join authorization exists. Run the check to confirm this step."
  else
    setStatus "pending" (if test : bool then "Test flow" else "Waiting");;
    set_text "rail-current" (if test : bool then "local test flow enabled" else "waiting");;
    set_text "helper" (if test : bool then "Local test flow is enabled. This will simulate network and benchmark success."
                       else "Ready to detect network reachability and run the benchmark over an encrypted channel.").

(** [continueButton.disabled = !passed] *)
Definition sync_continue : eff page unit := p ← get_vars passed; set_disabled "continue" (negb p).

Definition renderNetwork (body : json) : eff page unit :=
  lift (members body);;
  set_vars (fun v => {| testFlow := truthy (get "testFlow" body); passed := passed v |});;
  show_network body;;
  show_outcome body;;
  test ← get_vars testFlow;
  set_text "run-label" (if test : bool then "Simulate pass" else "Run network check");;
  sync_continue.

Definition setBusy (busy : bool) : eff page unit :=
  toggle "run" "busy" busy;;
  set_disabled "run" busy;;
  p ← get_vars passed;
  set_disabled "continue" (busy || negb p).

Section Script.
Context (config : json).

Definition url (k : string) : string := as_text (get k config).

Definition loadStatus : eff page unit := fetch (GET (url "statusUrl")) KStatus.

Definition status_answer (a : answer) : eff page unit :=
  try_catch (body ← lift (reply_body a "Network status failed"); renderNetwork body)
    (fun e => setStatus "err" "Failed";; set_text "helper" (message_or e "Network status failed")).

(** [runNetwork], up to its [await]. *)
Definition runNetwork : eff page unit :=
  setBusy true;;
  set_vars (fun v => {| testFlow := testFlow v; passed := false |});;
  set_disabled "continue" true;;
  test ← get_vars testFlow;
  setStatus "pending" (if test : bool then "Simulating" else "Running");;
  set_text "rail-current" (if test : bool then "simulating benchmark" else "running benchmark");;
  set_text "helper" (if test : bool then "Writing local happy-path network progress..."
                     else "Checking network reachability and running the benchmark over an encrypted channel...");;
  setStep "step-ipv4" "active" "detecting";;
  setStep "step-ipv6" "pending" "queued";;
  setStep "step-region" "pending" "queued";;
  setStep "step-eval" "pending" "queued";;
  fetch (POST (url "runUrl") (JObj [("mode", JStr (if test : bool then "test" else "real"))])) KRun.

Definition run_answer (a : answer) : eff page unit :=
  try_catch
    (body ← lift (reply_body a "Network benchmark failed");
     network ← lift (member "network" body);
     renderNetwork (or_empty network))
    (fun e =>
       setStep "step-eval" "err" (message_or e "network benchmark failed");;
       setStatus "err" "Failed";;
       set_text "rail-current" "benchmark failed";;
       set_text "helper" (message_or e "Network benchmark failed"));;
  setBusy false.

Definition on (e : Ev) : eff page unit :=
  match e with
  | RunClick => click "run" runNetwork
  | BackClick => navigate (url "backUrl")
  | ContinueClick => click "continue" (off ← element "continue" el_disabled; if off : bool then mret tt else navigate (url "nextUrl"))
  | ReloadTick => reload_tick config KReload
  end.

Definition continue (k : K) (a : answer) : eff page unit :=
  match k with
  | KReload => reload_answer config a
  | KStatus => status_answer a
  | KRun => run_answer a
  end.

(** The template, before the script runs. *)
Definition template (id : string) : Element := if bool_decide (id = "continue") then put_disabled true blank else blank.
Definition opened_page : page :=
  {| dom := template; vars := {| testFlow := false; passed := false |}; location := None; reloads := 0; opened := []; sent := []; pending := [] |}.

Definition script : eff page unit :=
  at_ ← lift (member "evalPassedAt" (or_null (get "progress" config)));
  set_vars (fun v => {| testFlow := false; passed := truthy at_ |});;
  set_text "state-dir" ("state - " +:+ as_text (get "stateDir" (or_null (get "progress" config))));;
  loadStatus.

Definition start_page : page := exec script opened_page.
Definition run (l : list (input Ev)) : page := Page.run on continue l start_page.
End Script.

(** ** Lemmas *)

Definition watched : list string := ["continue"; "run"].
Definition is_run (k : K) : bool := match k with KRun => true | _ => false end.
Definition running (s : page) : bool := el_disabled (dom s "run").

(** No answer tells of a benchmark that has passed. *)
Definition reports_pass (body : json) : bool := truthy (get "evalPassedAt" body).
Definition no_pass (x : input Ev) : Prop :=
  match x with
  | Answer _ (Answered _ (Ok body)) => reports_pass body = false /\ reports_pass (or_empty (get "network" body)) = false
  | _ => True
  end.

Section Lemmas.
Context (config : json).

(** [may]: a benchmark may be told to have passed. *)
Context (may : bool).
Definition allowed (x : input Ev) : Prop := may = false -> no_pass x.

Definition run_post (q : Request) : Prop := forall body, rq_body q = Some body ->
  exists m, q = POST (url config "runUrl") (JObj [("mode", JStr m)]) /\ m ∈ ["test"; "real"].

Definition base (s : page) : Prop :=
  (passed (vars s) = true -> may = true) /\
  (may = false -> location s = None \/ location s = Some (url config "backUrl")) /\ Forall run_post (sent s).
Definition shown (s : page) : Prop := el_disabled (dom s "continue") = false -> passed (vars s) = true.
(** One run waits at most, while the button is off; none, once it has [ended]. *)
Definition one_run (ended : bool) (s : page) : Prop :=
  (waiting is_run (pending s) <= if ended then 0 else if running s then 1 else 0)%nat.
Definition inv (ended : bool) (s : page) : Prop := base s /\ shown s /\ one_run ended s.

Lemma network_inv_dom ended d s : (forall i, i ∈ watched -> d i = dom s i) -> inv ended s -> inv ended (put_dom d s).
Proof.
  intros Hd (H1 & H2 & H3). assert (Hc : d "continue" = dom s "continue") by (apply Hd; left).
  assert (Hr : d "run" = dom s "run") by (apply Hd; right; left).
  split; [done|]. unfold shown, one_run, running in *. page_run. by rewrite Hc, Hr.
Qed.

Lemma network_ended_inv s : inv true s -> inv false s.
Proof. intros (H1 & H2 & H3). split; [done|]. split; [done|]. unfold one_run in *. lia. Qed.

Lemma network_fetch_inv q k : rq_body q = None -> is_run k = false -> preserves (inv false) (fetch q k).
Proof.
  intros Hq Hk s ((H1 & H2 & H3) & H4 & H5). unfold fetch. page_run. split; [|split; [done|]].
  - split_and!; [done..|]. page_run. apply Forall_app_2; [done|]. apply Forall_singleton. intros body. by rewrite Hq.
  - unfold one_run, running in *. page_run. rewrite waiting_app. unfold waiting at 2. cbn. rewrite Hk. cbn. lia.
Qed.

Lemma step_inv ended id state detail : forallb (fun p => forallb (fun w => negb (String.eqb p w)) watched) (step_parts id) = true ->
  preserves (inv ended) (setStep id state detail).
Proof. intros H. apply (aside_preserves watched); [apply network_inv_dom|by apply step_aside]. Qed.

Lemma network_status_inv ended state label : preserves (inv ended) (setStatus state label).
Proof. unfold setStatus. page_walk watched (network_inv_dom ended). Qed.

Lemma show_network_inv ended body : preserves (inv ended) (show_network body).
Proof. unfold show_network, setText. cbn zeta. page_walk watched (network_inv_dom ended); by simple apply step_inv. Qed.

Lemma show_outcome_inv ended body : (reports_pass body = true -> may = true) -> preserves (inv ended) (show_outcome body).
Proof.
  intros Hm. unfold show_outcome, set_vars. cbn zeta. page_walk watched (network_inv_dom ended); try first [simple apply network_status_inv | by simple apply step_inv].
  apply preserves_modify. intros s ((H1 & H2 & H3) & H4 & H5). split; [|by split]. split_and!; [|done|done]. intros _. by apply Hm.
Qed.

Lemma network_sync_inv ended : preserves (inv ended) sync_continue.
Proof.
  intros s (H1 & H2 & H3). unfold sync_continue. page_run. split; [done|]. split; [|done]. unfold shown. page_run. by destruct (passed (vars s)).
Qed.

Lemma renderNetwork_inv ended body : (reports_pass body = true -> may = true) -> preserves (inv ended) (renderNetwork body).
Proof.
  intros Hm. unfold renderNetwork, set_vars. page_walk watched (network_inv_dom ended);
    first [simple apply show_network_inv | by simple apply show_outcome_inv | simple apply network_sync_inv | by apply preserves_modify].
Qed.

(** A body of an answer that is considered. *)
Lemma allowed_body i st bd : allowed (Answer i (Answered st bd)) ->
  (reports_pass (ok_or (JObj []) bd) = true -> may = true) /\
  (reports_pass (or_empty (get "network" (ok_or (JObj []) bd))) = true -> may = true).
Proof.
  unfold allowed. destruct may; [done|]. intros H. specialize (H eq_refl). destruct bd as [b|e]; [|done]. destruct H as [H1 H2]. cbn. rewrite H1, H2. done.
Qed.

Lemma status_answer_inv i a : allowed (Answer i a) -> preserves (inv false) (status_answer a).
Proof.
  intros Ha. unfold status_answer. apply preserves_catch; [|intros e; page_walk watched (network_inv_dom false); apply network_status_inv].
  destruct (reply_body a _) as [body|e] eqn:Eb; [|by intros s Hs]. apply reply_body_ok in Eb as (st & bd & -> & _ & ->).
  intros s Hs. erewrite bind_run by reflexivity. apply renderNetwork_inv; [|done]. by apply (allowed_body _ _ _ Ha).
Qed.

Lemma network_setBusy_ended s : inv true s -> inv false (setBusy false s).1.
Proof.
  intros (H1 & H2 & H3). unfold one_run in H3. unfold setBusy. page_run. split; [done|]. split.
  - unfold shown. page_run. by destruct (passed (vars s)).
  - unfold one_run. page_run. lia.
Qed.

Lemma run_answer_inv i a s : allowed (Answer i a) -> inv true s -> inv false (run_answer a s).1.
Proof.
  intros Ha Hs. unfold run_answer. apply (bind_split (inv true)); [|apply network_ended_inv|intros _ s' Hs'; by apply network_setBusy_ended].
  revert s Hs. apply (preserves_catch (inv true)).
  - destruct (reply_body a _) as [body|e] eqn:Eb; [|by intros s Hs]. apply reply_body_ok in Eb as (st & bd & -> & _ & ->).
    intros s Hs. erewrite bind_run by reflexivity. destruct (member "network" _) as [network|e] eqn:En; [|done].
    apply member_get in En as ->. erewrite bind_run by reflexivity. apply renderNetwork_inv; [|done]. by apply (allowed_body _ _ _ Ha).
  - intros e. page_walk watched (network_inv_dom true); first [by apply step_inv | apply network_status_inv].
Qed.

Lemma runNetwork_inv s : inv false s -> running s = false -> inv false (runNetwork config s).1.
Proof.
  intros ((H1 & H2 & H3) & H4 & H5) Hr. unfold one_run in H5. rewrite Hr in H5. unfold runNetwork.
  do 4 (erewrite bind_run by reflexivity; cbn beta).
  match goal with |- inv _ (_ ?s).1 => set (s1 := s) end.
  set (off := fun s : page => base s /\ el_disabled (dom s "continue") = true /\ running s = true /\ waiting is_run (pending s) = O).
  assert (H0 : off s1) by (split; [by split_and!|split_and!; [done..|cbn; lia]]).
  assert (Hoff : forall d s, (forall i, i ∈ watched -> d i = dom s i) -> off s -> off (put_dom d s)).
  { intros d s' Hd (G1 & G2 & G3 & G4). split; [done|]. unfold running in *. page_run.
    rewrite (Hd "continue") by left. by rewrite (Hd "run") by (right; left). }
  assert (Hinv : forall s, off s -> inv false s).
  { intros s' (G1 & G2 & G3 & G4). split; [done|]. split; [unfold shown; by rewrite G2|]. unfold one_run. rewrite G4. lia. }
  revert H0. match goal with |- context [if ?t then "Simulating" else _] => generalize t end. generalize s1. clear -Hoff Hinv. intros s test H0.
  do 7 (apply (bind_split off);
    [first [apply (aside_preserves watched off _ Hoff); [unfold setStatus; page_aside; fail|exact H0]
           | apply (aside_preserves watched off _ Hoff); [by apply step_aside|exact H0]]
    |exact Hinv|clear s H0; intros _ s H0; cbn beta]).
  destruct H0 as ((G0 & G1 & G2) & G3 & G4 & G5). unfold fetch. page_run. split; [split_and!; [done..|]|split].
  - page_run. apply Forall_app_2; [done|]. apply Forall_singleton. intros body [= <-]. eexists. split; [done|].
    destruct test; set_solver.
  - unfold shown. page_run. by rewrite G3.
  - unfold one_run, running in *. page_run. rewrite G4, waiting_app, G5. done.
Qed.

Lemma network_navigate_inv url' s : (may = false -> url' = url config "backUrl") -> inv false s -> inv false (put_location url' s).
Proof. intros Hu ((H1 & H2 & H3) & H4 & H5). split; [split_and!; try done|done]. intros Hi. right. cbn. by rewrite Hu. Qed.

Lemma network_on_inv e : preserves (inv false) (on config e).
Proof.
  destruct e; cbn [on]; intros s Hs.
  - unfold click. erewrite bind_run by reflexivity. destruct (el_disabled _) eqn:E; [exact Hs|]. by apply runNetwork_inv.
  - by apply network_navigate_inv.
  - unfold click. erewrite bind_run by reflexivity. destruct (el_disabled _) eqn:E; [exact Hs|]. erewrite bind_run by reflexivity.
    rewrite E. apply network_navigate_inv; [|done]. destruct Hs as ((H1 & _) & H4 & _). by rewrite (H1 (H4 E)).
  - revert s Hs. change (preserves (inv false) (reload_tick config KReload)). unfold reload_tick.
    page_walk watched (network_inv_dom false). by apply network_fetch_inv.
Qed.

Lemma network_continue_inv i k a s : allowed (Answer i a) -> inv false s -> pending s !! i = Some k ->
  inv false (exec (continue config k a) (put_pending (delete i (pending s)) s)).
Proof.
  intros Ha (H1 & H2 & H3) Hi. unfold one_run in H3. rewrite (waiting_delete is_run _ _ _ Hi) in H3.
  unfold exec. destruct k; cbn [continue is_run] in *.
  - assert (Hp : preserves (inv false) (reload_answer config a)) by (page_preserve; done). apply Hp. split; [done|]. split; [done|]. exact H3.
  - eapply status_answer_inv; [exact Ha|]. split; [done|]. split; [done|]. exact H3.
  - eapply run_answer_inv; [exact Ha|]. split; [done|]. split; [done|]. unfold one_run. page_run. destruct (running s); lia.
Qed.

Lemma network_start_inv : (reports_pass (or_null (get "progress" config)) = true -> may = true) -> inv false (start_page config).
Proof.
  intros Hm. assert (H0 : inv false opened_page) by (split; [split_and!; [done|by left|by apply Forall_nil]|by split; [|unfold one_run, waiting; apply Nat.le_0_l]]).
  unfold start_page, script, exec. destruct (member "evalPassedAt" _) as [at_|e] eqn:Em; [|exact H0]. apply member_get in Em as ->.
  do 2 (erewrite bind_run by reflexivity; cbn beta).
  match goal with |- inv _ (?m ?s).1 => cut (preserves (inv false) m); [intros Hp; apply Hp|] end.
  - destruct H0 as ((H1 & H2 & H3) & H4 & H5). split; [split_and!; [exact Hm|by left|done]|]. split; [done|exact H5].
  - unfold loadStatus. page_walk watched (network_inv_dom false). by apply network_fetch_inv.
Qed.
End Lemmas.

(** ** Properties *)

(** The network page leads on only after a benchmark that passed: whatever the
    operator does and whatever the server answers in whatever order, the page leads on,
    other than back, only if the progress it was shown with or an answer tells of a
    benchmark that passed; each request with a body is a run, in the mode the server
    reads back; and one run is under way at most. *)
Theorem network_page_sound (config : json) (l : list (input Ev)) :
  let s := run config l in
  (reports_pass (or_null (get "progress" config)) = false -> Forall no_pass l ->
     location s = None \/ location s = Some (url config "backUrl")) /\
  (forall q body, q ∈ sent s -> rq_body q = Some body -> exists m,
     q = POST (url config "runUrl") (JObj [("mode", JStr m)]) /\ body = JObj [("mode", JStr m)] /\
     normalizeNetworkEvalBody body = if bool_decide (m = "test") then TestEval else RealEval) /\
  (waiting is_run (pending s) <= 1)%nat.
Proof.
  cbn zeta.
  assert (Hinv : forall may, (reports_pass (or_null (get "progress" config)) = true -> may = true) -> Forall (allowed may) l -> inv config may false (run config l)).
  { intros may Hm Hl. unfold run. apply (run_invariant (on config) (continue config) (allowed may)); [| |done|by apply network_start_inv].
    - intros e s _. apply network_on_inv.
    - intros i k a s. apply network_continue_inv. }
  assert (Ht : Forall (allowed true) l) by (by apply Forall_forall).
  destruct (Hinv true ltac:(done) Ht) as ((_ & _ & Hs) & _ & Hw). rewrite Forall_forall in Hs. split_and!.
  - intros Hp Hn. destruct (Hinv false) as ((_ & Hl & _) & _); [by rewrite Hp|eapply Forall_impl; [exact Hn|]; intros x Hx _; exact Hx|]. by apply Hl.
  - intros q body Hq Hb. destruct (Hs q Hq body Hb) as (m & -> & Hm). injection Hb as <-. exists m. split; [done|]. split; [done|].
    rewrite !elem_of_cons, elem_of_nil in Hm. by destruct_or? Hm; subst.
  - etransitivity; [exact Hw|]. destruct (running _); lia.
Qed.

Module Demo.
Definition config : json :=
  JObj [("progress", JObj [("stateDir", JStr "/home/op/.consensus")]); ("statusUrl", JStr "/api/network-status"); ("runUrl", JStr "/api/network-eval");
        ("nextUrl", JStr "/registration"); ("backUrl", JStr "/install")].
Definition waiting_view : json := JObj [("testFlow", JBool false); ("publicIpv4", JNull)].
Definition passed_view : json := JObj [("publicIpv4", JStr "203.0.113.42"); ("evalPassedAt", JStr "2026-01-01T00:00:00.000Z")].
Definition refusal : answer := Answered 500 (Ok (JObj [("error", JStr "Benchmark evaluation failed")])).
Definition clicks : list (input Ev) :=
  [Event ContinueClick; Answer 0 (Answered 200 (Ok waiting_view)); Event RunClick; Event RunClick; Answer 0 refusal; Event ContinueClick;
   Event RunClick; Answer 0 (Answered 200 (Ok (JObj [("network", passed_view)]))); Event ContinueClick].
End Demo.

Example network_clicks : let s := run Demo.config Demo.clicks in
  sent s = [GET "/api/network-status"; POST "/api/network-eval" (JObj [("mode", JStr "real")]); POST "/api/network-eval" (JObj [("mode", JStr "real")])] /\
  location (run Demo.config (take 7 Demo.clicks)) = None /\ location s = Some "/registration".
Proof. vm_compute. done. Qed.

(** The status was asked for before the run and tells of an earlier pass: its answer,
    which comes during the run, lets the operator continue, and still after the run has
    failed. *)
Example late_status_continues :
  let s := run Demo.config [Event RunClick; Answer 0 (Answered 200 (Ok Demo.passed_view))] in
  let s' := Page.run (on Demo.config) (continue Demo.config) [Answer 0 Demo.refusal; Event ContinueClick] s in
  pending s = [KRun] /\ el_disabled (dom s "continue") = false /\
  el_text (dom s' "rail-current") = "benchmark failed" /\ location s' = Some "/registration".
Proof. vm_compute. done. Qed.

(** The view that the page is shown with has no [evalPassedAt]: only an answer can tell
    of a pass. *)
Example shown_progress_never_passed p progress : reports_pass (progressView p progress) = false.
Proof. reflexivity. Qed.

Lemma network_page_sound_witness : location (run Demo.config (take 7 Demo.clicks)) = None \/
  location (run Demo.config (take 7 Demo.clicks)) = Some "/install".
Proof.
  destruct (network_page_sound Demo.config (take 7 Demo.clicks)) as (Hp & _). apply Hp; [reflexivity|].
  repeat (apply Forall_cons; split; [try exact I; split; reflexivity|]). apply Forall_nil. exact I.
Defined.
