(* ===== verification/RegistrationPage.v ===== *)
(** * The script of the registration page (setup-wizard/templates/registration-client.js)

    The operator verifies an email address, connects three wallets, chooses a port and
    registers the node.  Each answer that carries a view of the registration is shown,
    also the ones of the poll that waits for the wallets. *)

From S2P Require SecretStore SetupEnv.
From S2P Require Import Prelude Effect Program Text Json Coerce Ticket Url Crypto Eval Files Update Setup Wizard Page NetworkPage.
Local Open Scope Z_scope.

(** [walletPoll] is the interval, with the session it asks for. *)
Record Vars := { verificationId : option json; model : option json; walletPoll : option (option json) }.

Inductive K := KReload | KStatus | KEmailStart | KEmailVerify | KPoll | KSession | KSubmit.

Inductive Ev :=
| TypeEmail (v : string) | TypeCode (v : string) | TypePort (v : string) | TogglePm2
| SendClick | VerifyClick | ConnectClick | SubmitClick | PollTick | BackClick | ReloadTick.

Notation page := (Page Vars K).

(** ** What is shown *)

Definition short (value : option json) : result string :=
  if truthy value then short_value 7 5 (or_null value) else Ok "not connected".

Definition setPill (id : string) (ok : bool) (text : string) : eff page unit :=
  set_class id ("env-status mono " +:+ (if ok then "ok" else "pending"));;
  set_text id text.

Definition wallet_keys : list string := ["evmAddress"; "solanaAddress"; "icpAddress"].

Definition walletComplete (wallets : option json) : bool :=
  truthy wallets && forallb (fun k => truthy (get k (or_null wallets))) wallet_keys.

Definition port_valid (v : string) : bool :=
  let value := string_to_number (trim v) in
  isInteger value && num_ltb (num_of_Z 0) value && num_leb value (num_of_Z 65535).
Definition portValid : eff page bool := v ← element "port" el_value; mret (port_valid v).

(** [model.emailVerified && walletComplete(model.wallets)] *)
Definition model_ready (m : option json) : bool :=
  truthy (get "emailVerified" (or_null m)) && walletComplete (get "wallets" (or_null m)).

Definition syncReady : eff page unit :=
  m ← get_vars model;
  if negb (truthy m) then mret tt
  else
    valid ← portValid;
    let ready := model_ready m && valid in
    set_disabled "submit" (negb ready);;
    set_text "submit-label" (if ready then "Complete registration" else "Complete all steps");;
    setPill "review-pill" ready (if ready then "Ready" else "Incomplete");;
    v ← element "port" el_value;
    set_text "review-port" (if bool_decide (trim v = "") then "9090" else trim v);;
    if ready : bool then set_text "rail-current" "ready to submit registration" else mret tt.

(** [render], what it puts in the two fields. *)
Definition render_fields (data : json) : eff page unit :=
  mail ← element "email" el_value;
  set_value "email" (or_text (get "contact" data) mail);;
  port ← element "port" el_value;
  set_value "port" (or_text (get "port" data) (if bool_decide (port = "") then "9090" else port)).

Definition render_review (data : json) : eff page unit :=
  let verified := truthy (get "emailVerified" data) in
  set_text "review-email" (if verified then content_text (get "contact" data) else "not verified");;
  ipv4 ← lift (member "publicIpv4" (or_null (get "network" data)));
  set_text "review-ipv4" (or_text ipv4 "pending");;
  set_text "review-region" (region_of (or_null (get "network" data)));;
  setPill "email-pill" verified (if verified then "Verified" else "Pending");;
  if verified then
    set_disabled "email" true;;
    set_hidden "code-row" true;;
    set_text "email-helper" "Verified contact email."
  else mret tt.

Definition digit (n : nat) : string := match n with 0 => "0" | 1 => "1" | 2 => "2" | _ => "3" end%nat.

Definition render_wallets (data : json) : eff page unit :=
  let wallets := or_empty (get "wallets" data) in
  evm ← lift (short (get "evmAddress" wallets));
  set_text "wallet-evm" evm;;
  solana ← lift (short (get "solanaAddress" wallets));
  set_text "wallet-solana" solana;;
  icp ← lift (short (get "icpAddress" wallets));
  set_text "wallet-icp" icp;;
  let connected := length (filter (fun k => truthy (get k wallets) = true) wallet_keys) in
  setPill "wallet-pill" (connected =? 3)%nat (digit connected +:+ "/3");;
  set_text "wallet-helper" (if (connected =? 3)%nat then "All payout wallets are connected."
                            else if truthy (get "testFlow" data) then "Local test flow will simulate wallet capture."
                            else "Open the wallet capture page and connect all three wallets.").

Definition put_model (m : option json) (v : Vars) : Vars := {| verificationId := verificationId v; model := m; walletPoll := walletPoll v |}.
Definition put_poll (w : option (option json)) (v : Vars) : Vars := {| verificationId := verificationId v; model := model v; walletPoll := w |}.

Definition render (data : option json) : eff page unit :=
  set_vars (put_model data);;
  lift (members (or_null data));;
  render_fields (or_null data);;
  render_review (or_null data);;
  render_wallets (or_null data);;
  syncReady.

Section Script.
Context `{UrlApi} (config : json).

Definition url (k : string) : string := as_text (get k config).
Definition helper_or (e : exn) (d : string) : eff page unit := set_text "helper" (message_or e d).

Definition loadStatus : eff page unit := fetch (GET (url "statusUrl")) KStatus.

Definition status_answer (a : answer) : eff page unit :=
  try_catch (body ← lift (reply_body a "Registration status failed"); render (Some body))
    (fun e => helper_or e "Registration status failed").

Definition sendCode : eff page unit :=
  set_disabled "send-code" true;;
  set_text "send-code" "Sending";;
  set_text "helper" "Starting email verification...";;
  mail ← element "email" el_value;
  fetch (POST (url "emailStartUrl") (JObj [("email", JStr mail)])) KEmailStart.

Definition email_started (a : answer) : eff page unit :=
  try_catch
    (body ← lift (reply_body a "Could not send verification code");
     id ← lift (member "verification_id" body);
     set_vars (fun v => {| verificationId := id; model := model v; walletPoll := walletPoll v |});;
     set_hidden "code-row" false;;
     let dev := get "dev_code" body in
     (if truthy dev then set_value "code" (as_text dev) else mret tt);;
     set_text "helper" (if truthy dev then "Test code filled. Verify to continue." else "Verification code sent.");;
     set_text "rail-current" "email code sent")
    (fun e => helper_or e "Could not send verification code");;
  set_disabled "send-code" false;;
  set_text "send-code" "Send code".

Definition verifyCode : eff page unit :=
  set_disabled "verify-code" true;;
  set_text "helper" "Verifying email code...";;
  mail ← element "email" el_value;
  id ← get_vars verificationId;
  code ← element "code" el_value;
  fetch (POST (url "emailVerifyUrl") (obj [("email", Some (JStr mail)); ("verificationId", id); ("code", Some (JStr code))])) KEmailVerify.

Definition email_verified (a : answer) : eff page unit :=
  try_catch
    (body ← lift (reply_body a "Email verification failed");
     registration ← lift (member "registration" body);
     render registration;;
     set_text "helper" "Email verified.";;
     set_text "rail-current" "email verified")
    (fun e => helper_or e "Email verification failed");;
  set_disabled "verify-code" false.

Definition pollWallets (sessionId : option json) : eff page unit :=
  fetch (GET (url "walletStatusUrl" +:+ "&session=" +:+ encodeURIComponent (as_text sessionId))) KPoll.

Definition poll_answer (a : answer) : eff page unit :=
  try_catch
    (body ← lift (reply_body a "Wallet status failed");
     registration ← lift (member "registration" body);
     render registration;;
     let status := get "status" body in
     if is_str status "done" then
       set_vars (put_poll None);;
       set_text "helper" "Wallet addresses received.";;
       set_text "rail-current" "wallets connected"
     else if is_str status "error" then
       set_vars (put_poll None);;
       set_text "helper" (or_text (get "error" body) "Wallet capture failed")
     else mret tt)
    (fun e => helper_or e "Wallet status failed").

Definition connectWallets : eff page unit :=
  set_disabled "connect-wallets" true;;
  set_text "connect-wallets" "Opening";;
  set_text "helper" "Starting wallet capture...";;
  fetch (POST_empty (url "walletSessionUrl")) KSession.

Definition session_answer (a : answer) : eff page unit :=
  try_catch
    (body ← lift (reply_body a "Wallet capture failed");
     done_ ← lift (member "done" body);
     if truthy done_ then
       render (get "registration" body);;
       set_text "helper" "Test wallets connected.";;
       set_text "rail-current" "wallets connected"
     else
       open_window (as_text (get "url" body));;
       set_text "helper" "Wallet page opened. Submit addresses there to continue.";;
       set_text "rail-current" "waiting for wallet capture";;
       set_vars (put_poll (Some (get "sessionId" body))))
    (fun e => helper_or e "Wallet capture failed");;
  set_disabled "connect-wallets" false;;
  set_text "connect-wallets" "Connect wallets".

Definition submitRegistration : eff page unit :=
  toggle "submit" "busy" true;;
  set_disabled "submit" true;;
  set_text "helper" "Submitting node registration...";;
  set_text "rail-current" "submitting registration";;
  port ← element "port" el_value;
  pm2 ← element "start-pm2" el_checked;
  fetch (POST (url "registerUrl") (JObj [("port", JStr port); ("startPm2", JBool pm2)])) KSubmit.

Definition submit_answer (a : answer) : eff page unit :=
  match reply_body a "Registration failed" with
  | Ok _ => navigate (url "successUrl")
  | Throw e =>
      helper_or e "Registration failed";;
      toggle "submit" "busy" false;;
      syncReady
  end.

Definition on (e : Ev) : eff page unit :=
  match e with
  | TypeEmail v => set_value "email" v
  | TypeCode v => set_value "code" v
  | TypePort v => set_value "port" v;; syncReady
  | TogglePm2 => edit "start-pm2" (fun e => put_checked (negb (el_checked e)) e)
  | SendClick => click "send-code" sendCode
  | VerifyClick => click "verify-code" verifyCode
  | ConnectClick => click "connect-wallets" connectWallets
  | SubmitClick => click "submit" submitRegistration
  | PollTick => w ← get_vars walletPoll; match w with Some session => pollWallets session | None => mret tt end
  | BackClick => navigate (url "backUrl")
  | ReloadTick => reload_tick config KReload
  end.

Definition continue (k : K) (a : answer) : eff page unit :=
  match k with
  | KReload => reload_answer config a
  | KStatus => status_answer a
  | KEmailStart => email_started a
  | KEmailVerify => email_verified a
  | KPoll => poll_answer a
  | KSession => session_answer a
  | KSubmit => submit_answer a
  end.

(** The template, before the script runs. *)
Definition template (id : string) : Element :=
  if bool_decide (id = "submit") then put_disabled true blank
  else if bool_decide (id = "code-row") then put_hidden true blank
  else if bool_decide (id = "port") then put_value "9090" blank
  else if bool_decide (id = "start-pm2") then put_checked true blank
  else blank.
Definition opened_page : page :=
  {| dom := template; vars := {| verificationId := Some (JStr ""); model := None; walletPoll := None |};
     location := None; reloads := 0; opened := []; sent := []; pending := [] |}.

Definition script : eff page unit :=
  stateDir ← lift (member "stateDir" (or_null (get "progress" config)));
  set_text "state-dir" ("state - " +:+ as_text stateDir);;
  loadStatus.

Definition start_page : page := exec script opened_page.
Definition run (l : list (input Ev)) : page := Page.run on continue l start_page.
End Script.

(** ** Lemmas *)

Definition watched : list string := ["submit"; "port"].

(** A view that is shown to the end: it has a network, and its addresses are texts or not set. *)
Definition renderable (data : option json) : bool :=
  let v := or_null data in
  negb (bool_decide (v = JNull)) && negb (bool_decide (or_null (get "network" v) = JNull)) &&
  forallb (fun k => is_ok (short (get k (or_empty (get "wallets" v))))) wallet_keys.

(** The view in an answer, by what was asked. *)
Definition view_of (k : K) (body : json) : option (option json) :=
  match k with
  | KStatus => Some (Some body)
  | KEmailVerify | KPoll => Some (get "registration" body)
  | KSession => if truthy (get "done" body) then Some (get "registration" body) else None
  | KReload | KEmailStart | KSubmit => None
  end.

Lemma renderable_truthy data : renderable data = true -> truthy data = true.
Proof.
  unfold renderable. intros H. apply andb_true_iff in H as [H _]. apply andb_true_iff in H as [H1 H2].
  destruct data as [v|]; [|done]. by destruct v.
Qed.

Lemma pill_aside id ok text : id ∈ ["email-pill"; "wallet-pill"; "review-pill"] -> aside (V := Vars) (K := K) watched (setPill id ok text).
Proof. intros Hid. rewrite !elem_of_cons, elem_of_nil in Hid. destruct_or? Hid; subst; unfold setPill; page_aside. Qed.

(** What [syncReady] does to the button. *)
Lemma syncReady_run s : exists d, syncReady s = (put_dom d s, Ok tt) /\ d "port" = dom s "port" /\
  el_disabled (d "submit") =
    (if truthy (model (vars s)) then negb (model_ready (model (vars s)) && port_valid (el_value (dom s "port"))) else el_disabled (dom s "submit")).
Proof.
  unfold syncReady, portValid. page_run. destruct (truthy (model (vars s))); page_run; [|exists (dom s); by destruct s].
  set (ready := model_ready _ && _).
  page_past (pill_aside "review-pill" ready (if ready then "Ready" else "Incomplete") ltac:(set_solver)).
  destruct ready; page_run; rewrite ?put_dom_dom; (eexists; split; [reflexivity|]); page_run; rewrite !Hd by set_solver; by page_run.
Qed.

Lemma review_aside data : or_null (get "network" data) <> JNull -> aside watched (render_review data).
Proof.
  intros Hn. unfold render_review. cbn zeta. apply aside_bind; [page_aside|].
  apply aside_lift with (get "publicIpv4" (or_null (get "network" data))); [by destruct (or_null (get "network" data))|].
  page_aside; apply pill_aside; set_solver.
Qed.

Lemma wallets_aside data : (forall k, k ∈ wallet_keys -> is_ok (short (get k (or_empty (get "wallets" data)))) = true) -> aside watched (render_wallets data).
Proof.
  intros Hs. unfold render_wallets. cbn zeta.
  repeat match goal with |- aside _ (lift (short (get ?k ?w)) ≫= _) =>
    let r := fresh "r" in let Er := fresh "Er" in pose proof (Hs k ltac:(set_solver)) as Er; destruct (short (get k w)) as [r|] in Er |- *; [clear Er|done];
    apply aside_lift with r; [done|]; apply aside_bind; [by page_aside|] end.
  page_aside. apply pill_aside. set_solver.
Qed.

(** A view that can be shown is shown, then the button is set. *)
Lemma render_run data s : renderable data = true -> exists d, render data s = syncReady (put_dom d (put_vars (put_model data (vars s)) s)) /\
  d "submit" = dom s "submit".
Proof.
  intros H. apply andb_true_iff in H as [H H3]. apply andb_true_iff in H as [H1 H2]. apply negb_true_iff in H1, H2.
  rewrite forallb_forall in H3. unfold render, render_fields, members. rewrite H1. page_run.
  page_past (review_aside (or_null data) ltac:(by apply bool_decide_eq_false_1 in H2)).
  page_past (wallets_aside (or_null data) ltac:(by intros k Hk; apply H3, list_elem_of_In)).
  rewrite !put_dom_dom. eexists. split; [reflexivity|]. rewrite Hd0, Hd by set_solver. by page_run.
Qed.

(** A port the page takes is one the server takes. *)
Lemma port_accepted v : port_valid v = true -> exists z, normalizePort (trim v) = Some (num_of_Z z) /\ 1 <= z <= 65535.
Proof.
  unfold port_valid. set (n := string_to_number (trim v)). intros H. apply andb_true_iff in H as [H H3]. apply andb_true_iff in H as [H1 H2].
  destruct (Wizard.number_canonical (trim v) n eq_refl H1) as [z Hz].
  assert (Hv : trim v <> "") by (intros E; unfold n in H2; rewrite E in H2; vm_compute in H2; done).
  unfold normalizePort. rewrite bool_decide_false by done. fold n. rewrite H1, Hz in *. unfold num_leb in H3. rewrite num_eqb_Z in H3.
  rewrite !num_ltb_Z in *. bool_solve. exists z. rewrite (proj2 (Z.ltb_ge _ _)), (proj2 (Z.ltb_ge _ _)) by lia. split; [done|lia].
Qed.

Section Lemmas.
Context `{UrlApi} (config : json).

(** [may]: a view may tell that the email and the wallets are there; [rok]: the
    registration may succeed. *)
Context (may rok : bool).

Definition register_post (q : Request) : Prop := forall body, rq_body q = Some body -> is_Some (get "startPm2" body) ->
  exists port pm2, q = POST (url config "registerUrl") body /\ body = JObj [("port", JStr port); ("startPm2", JBool pm2)] /\
    port_valid port = true /\ may = true.

Definition base (s : page) : Prop :=
  (model_ready (model (vars s)) = true -> may = true) /\
  (rok = false -> location s = None \/ location s = Some (url config "backUrl")) /\ Forall register_post (sent s).
Definition enabled (s : page) : Prop := el_disabled (dom s "submit") = false ->
  truthy (model (vars s)) = true /\ model_ready (model (vars s)) = true /\ port_valid (el_value (dom s "port")) = true.
Definition inv (s : page) : Prop := base s /\ enabled s.

Lemma registration_inv_dom d s : (forall i, i ∈ watched -> d i = dom s i) -> inv s -> inv (put_dom d s).
Proof.
  intros Hd [H1 H2]. split; [done|]. unfold enabled in *. page_run. by rewrite (Hd "submit") by left; rewrite (Hd "port") by (right; left).
Qed.

Lemma registration_sync_inv s : base s -> (el_disabled (dom s "submit") = false -> truthy (model (vars s)) = true) -> inv (syncReady s).1.
Proof.
  intros H1 Hm. destruct (syncReady_run s) as (d & -> & Hp & Hs). split; [done|]. unfold enabled. page_run. rewrite Hs, Hp. intros Hd.
  destruct (truthy (model (vars s))) eqn:Et; [|by specialize (Hm Hd)]. apply negb_false_iff, andb_true_iff in Hd as [? ?]. done.
Qed.

Lemma registration_fetch_inv q k : (forall body, rq_body q = Some body -> get "startPm2" body = None) -> preserves inv (fetch q k).
Proof.
  intros Hq s ((H1 & H2 & H3) & H4). unfold fetch. page_run. split; [|done]. split_and!; [done..|]. page_run.
  apply Forall_app_2; [done|]. apply Forall_singleton. intros body Hb [x Hx]. rewrite (Hq body Hb) in Hx. done.
Qed.

Lemma render_inv data : renderable data = true -> (model_ready data = true -> may = true) -> preserves inv (render data).
Proof.
  intros Hr Hm s ((H1 & H2 & H3) & H4). destruct (render_run data s Hr) as (d & -> & Hd). apply registration_sync_inv; [by split_and!|].
  intros _. page_run. by apply renderable_truthy.
Qed.

Lemma submit_inv s : inv s -> el_disabled (dom s "submit") = false -> inv (submitRegistration config s).1.
Proof.
  intros ((H1 & H2 & H3) & H4) Hd. destruct (H4 Hd) as (G1 & G2 & G3). unfold submitRegistration, fetch. page_run.
  split; [|done]. split_and!; [done..|]. page_run. apply Forall_app_2; [done|]. apply Forall_singleton.
  intros body [= <-] _. do 2 eexists. split_and!; [done|done|exact G3|by apply H1].
Qed.

Lemma registration_on_inv e : preserves inv (on config e).
Proof.
  destruct e; cbn [on].
  - page_walk watched registration_inv_dom.
  - page_walk watched registration_inv_dom.
  - intros s [H1 H2]. erewrite bind_run by reflexivity. apply registration_sync_inv; [done|]. page_run. intros Hd. by apply H2.
  - page_walk watched registration_inv_dom.
  - unfold sendCode. page_walk watched registration_inv_dom. apply registration_fetch_inv. by intros body [= <-].
  - unfold verifyCode. page_walk watched registration_inv_dom. apply registration_fetch_inv. intros body [= <-]. by match goal with |- context [("verificationId", ?x)] => destruct x end.
  - unfold connectWallets. page_walk watched registration_inv_dom. by apply registration_fetch_inv.
  - intros s Hs. unfold click. erewrite bind_run by reflexivity. destruct (el_disabled _) eqn:E; [exact Hs|]. by apply submit_inv.
  - unfold pollWallets. page_walk watched registration_inv_dom. by apply registration_fetch_inv.
  - intros s ((H1 & H2 & H3) & H4). split; [|done]. split_and!; [done| |done]. by right.
  - unfold reload_tick. page_walk watched registration_inv_dom. by apply registration_fetch_inv.
Qed.

(** What may answer: views that can be shown, and what the two bounds let. *)
Definition views_allowed (k : K) (a : answer) : Prop := forall status body data,
  a = Answered status body -> is_ok_status status = true -> view_of k (ok_or (JObj []) body) = Some data ->
  renderable data = true /\ (model_ready data = true -> may = true).
Definition allowed (k : K) (a : answer) : Prop := views_allowed k a /\ (k = KSubmit -> ok_answer a = true -> rok = true).

Lemma helper_inv e d : preserves inv (helper_or e d).
Proof. unfold helper_or. page_walk watched registration_inv_dom. Qed.

(** The four answers that may carry a view. *)
Lemma with_view k a otherwise (m : json -> eff page unit) h s :
  views_allowed k a ->
  (forall body, (forall data, view_of k body = Some data -> renderable data = true /\ (model_ready data = true -> may = true)) -> preserves inv (m body)) ->
  (forall e, preserves inv (h e)) -> inv s -> inv (try_catch (body ← lift (reply_body a otherwise); m body) h s).1.
Proof.
  intros Ha Hm Hh Hs. revert s Hs. apply (preserves_catch inv); [|done]. destruct (reply_body a otherwise) as [body|e] eqn:Eb; [|by intros s Hs].
  apply reply_body_ok in Eb as (st & bd & -> & Hst & ->). intros s Hs. erewrite bind_run by reflexivity.
  apply Hm; [|done]. intros data Hd. by eapply Ha.
Qed.

Lemma poll_set_inv w : preserves inv (set_vars (put_poll w)).
Proof. intros s ((H1 & H2 & H3) & H4). done. Qed.

Lemma registration_status_inv a s : views_allowed KStatus a -> inv s -> inv (status_answer a s).1.
Proof.
  intros Ha. unfold status_answer. eapply (with_view KStatus a _ (fun body => render (Some body))); [exact Ha| |intros e; apply helper_inv].
  intros body Hv. destruct (Hv _ eq_refl). by apply render_inv.
Qed.

Lemma verified_inv a s : views_allowed KEmailVerify a -> inv s -> inv (email_verified a s).1.
Proof.
  intros Ha Hs. unfold email_verified. apply bind_after; [|intros _; page_walk watched registration_inv_dom].
  eapply (with_view KEmailVerify a _ (fun body => _)); [exact Ha| |intros e; apply helper_inv|exact Hs].
  intros body Hv s' Hs'. destruct (member "registration" body) as [data|e] eqn:Em; [|exact Hs']. apply member_get in Em as ->.
  erewrite bind_run by reflexivity. destruct (Hv _ eq_refl). apply bind_after; [by apply render_inv|]. intros _. page_walk watched registration_inv_dom.
Qed.

Lemma poll_inv a s : views_allowed KPoll a -> inv s -> inv (poll_answer a s).1.
Proof.
  intros Ha Hs. unfold poll_answer.
  eapply (with_view KPoll a _ (fun body => _)); [exact Ha| |intros e; apply helper_inv|exact Hs].
  intros body Hv s' Hs'. destruct (member "registration" body) as [data|e] eqn:Em; [|exact Hs']. apply member_get in Em as ->.
  erewrite bind_run by reflexivity. destruct (Hv _ eq_refl). apply bind_after; [by apply render_inv|]. intros _. cbn zeta.
  page_walk watched registration_inv_dom; apply poll_set_inv.
Qed.

Lemma session_inv a s : views_allowed KSession a -> inv s -> inv (session_answer a s).1.
Proof.
  intros Ha Hs. unfold session_answer. apply bind_after; [|intros _; page_walk watched registration_inv_dom].
  eapply (with_view KSession a _ (fun body => _)); [exact Ha| |intros e; apply helper_inv|exact Hs].
  intros body Hv s' Hs'. destruct (member "done" body) as [done_|e] eqn:Em; [|exact Hs']. apply member_get in Em as ->.
  erewrite bind_run by reflexivity. cbn [view_of] in Hv. destruct (truthy (get "done" body)).
  - destruct (Hv _ eq_refl). apply bind_after; [by apply render_inv|]. intros _. page_walk watched registration_inv_dom.
  - revert s' Hs'. match goal with |- forall s', inv s' -> inv (?m s').1 => change (preserves inv m) end.
    page_walk watched registration_inv_dom; [|apply poll_set_inv]. by intros s' Hs'.
Qed.

Lemma started_inv a : preserves inv (email_started a).
Proof.
  unfold email_started. cbn zeta. page_walk watched registration_inv_dom.
  apply (preserves_catch inv); [|intros e; apply helper_inv]. page_walk watched registration_inv_dom. by apply preserves_modify.
Qed.

Lemma submitted_inv a s : (ok_answer a = true -> rok = true) -> inv s -> inv (submit_answer config a s).1.
Proof.
  intros Ha ((H1 & H2 & H3) & H4). unfold submit_answer. destruct (reply_body a _) as [body|e] eqn:Eb.
  - apply reply_body_ok in Eb as (st & bd & -> & Hst & _). split; [|exact H4]. split_and!; [done| |done]. intros Hr. rewrite (Ha Hst) in Hr. done.
  - unfold helper_or. erewrite bind_run by reflexivity. erewrite bind_run by reflexivity. apply registration_sync_inv; [by split_and!|]. page_run. intros Hd. by apply H4.
Qed.

Lemma registration_continue_inv i k a s : allowed k a -> inv s -> inv (exec (continue config k a) (put_pending (delete i (pending s)) s)).
Proof.
  intros [Ha Hk] Hs. assert (Hd : inv (put_pending (delete i (pending s)) s)) by exact Hs. unfold exec. destruct k; cbn [continue].
  - assert (Hp : preserves inv (reload_answer config a)) by (page_preserve; done). by apply Hp.
  - by apply registration_status_inv.
  - by apply started_inv.
  - by apply verified_inv.
  - by apply poll_inv.
  - by apply session_inv.
  - apply submitted_inv; [by apply Hk|done].
Qed.

Lemma registration_start_inv : inv (start_page config).
Proof.
  assert (H0 : inv opened_page) by (split; [split_and!; [done|by left|by apply Forall_nil]|done]).
  assert (Hp : preserves inv (script config)); [|by apply Hp]. unfold script, loadStatus. page_walk watched registration_inv_dom. by apply registration_fetch_inv.
Qed.
End Lemmas.

(** ** The views of the server *)

(** What the page can rely on in a view the server makes of a progress. *)
Definition server_view (progress v : json) : Prop :=
  ((forall k, k ∈ wallet_keys -> is_ok (short (get k progress)) = true) -> renderable (Some v) = true) /\
  (model_ready (Some v) = true -> has "emailVerificationToken" progress = true /\ forall k, k ∈ wallet_keys -> has k progress = true) /\
  (nullish (get "port" progress) = None -> get "port" v = Some (JStr "9090")).

Lemma wallets_get progress k : k ∈ wallet_keys -> get k (obj (currentWalletAddresses progress)) = get k progress.
Proof.
  intros Hk. unfold currentWalletAddresses, obj, wallet_keys in *. rewrite !elem_of_cons, elem_of_nil in Hk.
  destruct (get "evmAddress" progress) eqn:E1, (get "solanaAddress" progress) eqn:E2, (get "icpAddress" progress) eqn:E3;
    destruct_or? Hk; subst; rewrite ?E1, ?E2, ?E3; reflexivity.
Qed.

(** Whatever the disk holds and the clock says, the views are such. *)
Lemma view_shown `{UrlApi} `{Aead} `{Hashing} (this : Chronicle SetupState question) p progress :
  keeps (fun _ => True) (fun _ _ => True) (server_view progress) (registrationView p progress).
Proof.
  unfold registrationView, readConfig. apply (keeps_bind _ _ (fun _ => True)); [by apply keeps_atomic|intros config _].
  apply (keeps_bind _ _ (fun _ => True)); [by apply keeps_resume|intros _ _].
  apply (keeps_bind _ _ (fun _ => True)); [by apply keeps_ask|intros now _].
  apply (keeps_bind _ _ (fun _ => True)).
  { destruct (has "installDir" progress); [|done]. apply (keeps_bind _ _ (fun _ => True)); [by apply keeps_resume|done]. }
  intros runtime _. apply keeps_ret. split_and!.
  - intros Hk. unfold renderable. apply forallb_forall. intros k Hin%list_elem_of_In.
    change (is_ok (short (get k (obj (currentWalletAddresses progress)))) = true). rewrite wallets_get by done. by apply Hk.
  - unfold model_ready. cbn [or_null default]. intros Hm. apply andb_true_iff in Hm as [V1 V2].
    destruct (emailVerified progress now) eqn:V; [clear V1|discriminate V1]. apply andb_true_iff in V as [V _]. split; [done|].
    change (walletComplete (Some (obj (currentWalletAddresses progress))) = true) in V2. apply andb_true_iff in V2 as [_ V2].
    rewrite forallb_forall in V2. intros k Hk. specialize (V2 k). rewrite <- list_elem_of_In in V2. specialize (V2 Hk).
    change (truthy (get k (obj (currentWalletAddresses progress))) = true) in V2. by rewrite wallets_get in V2.
  - intros Hp. cbn. by rewrite Hp.
Qed.

(** ** Properties *)

(** A view with a verified email and an address for each of the three wallets. *)
Definition shows_both (data : option json) : Prop := exists v w,
  data = Some v /\ get "wallets" v = Some w /\ truthy (get "emailVerified" v) = true /\
  truthy (get "evmAddress" w) = true /\ truthy (get "solanaAddress" w) = true /\ truthy (get "icpAddress" w) = true.

Lemma ready_shows_both data : model_ready data = true -> shows_both data.
Proof.
  unfold model_ready, walletComplete. intros Hm. destruct data as [v|]; [|done]. cbn [or_null default from_option id] in Hm.
  apply andb_true_iff in Hm as [He Hw]. apply andb_true_iff in Hw as [_ Hw]. rewrite forallb_forall in Hw.
  destruct (get "wallets" v) as [w|] eqn:Ew; [|by specialize (Hw "evmAddress" ltac:(by left))].
  exists v, w. split_and!; try done; apply Hw; cbn; tauto.
Qed.

(** C40: the registration page asks for a registration only when it has been told that
    the email is verified and the wallets are connected, and with a port the server
    takes: whatever the operator does and whatever the server answers in whatever order,
    as long as each view in an answer can be shown (the server's can), each request to
    register is for a TCP port that the server's check gives back; there is none unless
    one view had a verified email and an address for each of the three wallets; and the page leads on, other than back, only after a
    registration that succeeded. *)
Theorem registration_page_sound `{UrlApi} (config : json) (l : list (input Ev)) :
  let s := run config l in
  let answered (k : K) (a : answer) := exists l1 i l2, l = l1 ++ Answer i a :: l2 /\ pending (run config l1) !! i = Some k in
  let told (data : option json) := exists k status body, answered k (Answered status body) /\ is_ok_status status = true /\
    view_of k (ok_or (JObj []) body) = Some data in
  (forall data, told data -> renderable data = true) ->
  (forall q body, q ∈ sent s -> rq_body q = Some body -> is_Some (get "startPm2" body) ->
     q = POST (url config "registerUrl") body /\
     exists z, normalizePort (rb_port (normalizeRegisterBody body)) = Some (num_of_Z z) /\ 1 <= z <= 65535) /\
  ((forall data, told data -> ~ shows_both data) -> forall q body, q ∈ sent s -> rq_body q = Some body -> get "startPm2" body = None) /\
  ((forall a, answered KSubmit a -> ok_answer a = false) -> location s = None \/ location s = Some (url config "backUrl")).
Proof.
  cbn zeta. set (answered := fun k a => _). set (told := fun data => _). intros Hr.
  assert (Hinv : forall may rok, (may = false -> forall data, told data -> model_ready data = false) ->
    (rok = false -> forall a, answered KSubmit a -> ok_answer a = false) -> inv config may rok (run config l)).
  { intros may rok Hm Hk. unfold run.
    apply (run_invariant_at (on config) (continue config)
             (fun s x => match x with Answer i a => forall k, pending s !! i = Some k -> allowed may rok k a | Event _ => True end)).
    - intros e s. apply registration_on_inv.
    - intros i k a s Ha Hs Hi. apply registration_continue_inv; [by apply Ha|done].
    - intros l1 [e|i a] l2 Hl; [done|]. intros k Hi.
      assert (Hans : answered k a) by (by exists l1, i, l2). split.
      + intros st body data -> Hst Hv. assert (Ht : told data) by (by exists k, st, body). split; [by apply Hr|].
        intros Hd. destruct may eqn:E; [done|]. pose proof (Hm eq_refl data Ht). congruence.
      + intros -> Hok. destruct rok eqn:E; [done|]. pose proof (Hk eq_refl a Hans). congruence.
    - apply registration_start_inv. }
  destruct (Hinv true true) as ((_ & _ & Hs) & _); [done..|]. rewrite Forall_forall in Hs. split_and!.
  - intros q body Hq Hb Hp. destruct (Hs q Hq body Hb Hp) as (port & pm2 & Hq' & -> & Hv & _). split; [exact Hq'|].
    exact (port_accepted port Hv).
  - intros Hn q body Hq Hb. destruct (Hinv false true) as ((_ & _ & Hs') & _); [|done|].
    { intros _ data Ht. apply not_true_is_false. intros Hm. by apply (Hn data Ht), ready_shows_both. }
    rewrite Forall_forall in Hs'.
    destruct (get "startPm2" body) as [x|] eqn:E; [|done]. destruct (Hs' q Hq body Hb) as (_ & _ & _ & _ & _ & ?); [by exists x|done].
  - intros Hk. destruct (Hinv true false) as ((_ & Hl & _) & _); [done..|]. by apply Hl.
Qed.

Module Demo.
Definition config : json :=
  JObj [("progress", JObj [("stateDir", JStr "/home/op/.consensus")]); ("statusUrl", JStr "/api/registration-status");
        ("walletSessionUrl", JStr "/api/wallet-session"); ("walletStatusUrl", JStr "/api/wallet-status?token=t");
        ("registerUrl", JStr "/api/register-node"); ("successUrl", JStr "/success"); ("backUrl", JStr "/network")].
Definition view (ready : bool) : json :=
  JObj [("contact", if ready then JStr "op@example.com" else JNull); ("emailVerified", JBool ready);
        ("wallets", if ready then JObj [("evmAddress", JStr "0x52908400098527886E0F7030069857D2E4169EE7");
                                        ("solanaAddress", JStr "11111111111111111111111111111111"); ("icpAddress", JStr "aaaaa-aa")] else JObj []);
        ("port", JStr "9090"); ("network", JObj [("publicIpv4", JStr "203.0.113.42"); ("region", JNull)])].
Definition good (body : json) : answer := Answered 200 (Ok body).
Definition session : answer := good (JObj [("sessionId", JStr "s1"); ("url", JStr "http://127.0.0.1:45001/")]).
Definition polled (status : string) (ready : bool) : answer := good (JObj [("status", JStr status); ("registration", view ready)]).
Definition clicks : list (input Ev) :=
  [Event SubmitClick; Answer 0 (good (view false)); Event ConnectClick; Answer 0 session; Event PollTick; Answer 0 (polled "done" true);
   Event PollTick; Event (TypePort " 8443 "); Event SubmitClick; Event SubmitClick; Answer 0 (good (JObj []))].
Definition register (port : string) : Request := POST "/api/register-node" (JObj [("port", JStr port); ("startPm2", JBool true)]).
End Demo.

Example registration_clicks : let s := @run ToyUrl.api Demo.config Demo.clicks in
  sent s = [GET "/api/registration-status"; POST_empty "/api/wallet-session"; GET "/api/wallet-status?token=t&session=s1"; Demo.register " 8443 "] /\
  opened s = ["http://127.0.0.1:45001/"] /\ walletPoll (vars s) = None /\ location s = Some "/success".
Proof. vm_compute. done. Qed.

(** The port that was typed is replaced by the one of each view that comes, and every
    view of the server has one: what is registered is not what the operator entered. *)
Example typed_port_lost :
  let l := [Answer 0 (Demo.good (Demo.view true)); Event ConnectClick; Answer 0 Demo.session; Event (TypePort "8443"); Event PollTick;
            Answer 0 (Demo.polled "pending" true); Event SubmitClick] in
  last (sent (@run ToyUrl.api Demo.config l)) = Some (Demo.register "9090").
Proof. vm_compute. done. Qed.

(** While a registration is under way, a change of the port or an answer to the poll
    turns the button on again, and a second click registers again. *)
Example registered_twice :
  let l := [Answer 0 (Demo.good (Demo.view true)); Event SubmitClick; Event (TypePort "9090"); Event SubmitClick] in
  let s := @run ToyUrl.api Demo.config l in
  pending s = [KSubmit; KSubmit] /\ sent s = [GET "/api/registration-status"; Demo.register "9090"; Demo.register "9090"].
Proof. vm_compute. done. Qed.

Lemma registration_page_sound_witness :
  exists z, normalizePort (rb_port (normalizeRegisterBody (JObj [("port", JStr "9090"); ("startPm2", JBool true)]))) = Some (num_of_Z z) /\ 1 <= z <= 65535.
Proof.
  destruct (@registration_page_sound ToyUrl.api Demo.config [Answer 0 (Demo.good (Demo.view true)); Event SubmitClick]) as (Hp & _).
  - intros data (k & st & body & (l1 & i & l2 & Hl & Hi) & Hst & Hv). destruct l1 as [|x [|y [|z l1]]]; [|discriminate Hl..].
    injection Hl as <- <- <- <-. injection Hi as <-. injection Hv as <-. vm_compute. reflexivity.
  - apply (Hp (Demo.register "9090") (JObj [("port", JStr "9090"); ("startPm2", JBool true)])).
    + vm_compute. right. left.
    + reflexivity.
    + eexists. reflexivity.
Defined.
