(* ===== verification/SuccessPage.v ===== *)
(** * The script of the last page (setup-wizard/templates/success-client.js)

    The page sums up the registered node, starts PM2 on request and tells whether the
    node will come back after a reboot.  [has_clipboard]: the browser has a clipboard. *)

From S2P Require Import Prelude Effect Program Text Json Coerce Ticket Eval Update Setup Wizard Page.
Local Open Scope Z_scope.

(** The buttons that copy a command, in the order of the page. *)
Inductive command := StartCommand | InstallCommand | RestartCommand.
Definition command_id (c : command) : string :=
  match c with StartCommand => "start-command" | InstallCommand => "headless-install-cmd" | RestartCommand => "headless-restart-cmd" end.
Definition copy_id (c : command) : string := command_id c +:+ " copy".

Inductive K := KReload | KStatus | KHeadless | KPm2 | KCopied (c : command) | KRestore (c : command) (old : string).

Inductive Ev := CopyClick (c : command) | StartClick | RecheckClick | ReloadTick.

(** The one variable is what was written to the clipboard. *)
Notation page := (Page (list string) K).

Definition setText (id : string) (value : option json) : eff page unit := set_text id (or_text value "not available").

Definition setHeadless (state label detail : string) : eff page unit :=
  set_class "headless-status" ("env-status mono " +:+ state);;
  set_text "headless-status" label;;
  set_text "headless-detail" detail.

(** What is told of a reboot. *)
Inductive boot := NotMac | Blocked | NotInstalled | Installed.
Definition boot_of (body : json) : boot :=
  if negb (is_str (get "platform" body) "darwin") then NotMac
  else if bool_decide (get "fileVaultOn" body = Some (JBool true)) then Blocked
  else if negb (truthy (get "daemonInstalled" body)) then NotInstalled
  else Installed.

Definition show_boot (b : boot) : eff page unit :=
  match b with
  | NotMac => setHeadless "pending" "Linux" "On Linux, install systemd/consensus-node.service instead. Do not rely on pm2 startup."
  | Blocked => setHeadless "err" "Blocked" "FileVault is ON. The Mac stops at a pre-boot unlock prompt, so nothing runs until someone types the password — no daemon can change that. Turn FileVault off for a headless node."
  | NotInstalled => setHeadless "err" "Not installed" "The boot service is not installed, so this node will NOT come back after a reboot until someone logs in. Run the command above, then press Re-check."
  | Installed => setHeadless "ok" "Installed" "Boot service installed — this node starts at boot without a login. Use the restart command any time to relaunch it and confirm the orchestrator sees it come back."
  end.

Definition show_command (id : string) (v : option json) : eff page unit := if truthy v then set_text id (content_text v) else mret tt.

(** [cfg.region || body.network?.region?.region] *)
Definition region_member (cfg body : json) : option json :=
  if truthy (get "region" cfg) then get "region" cfg
  else match nullish (get "network" body) with
       | Some network => match nullish (get "region" network) with Some region => get "region" region | None => None end
       | None => None
       end.

Definition show_status (body : json) : eff page unit :=
  lift (members body);;
  let cfg := or_empty (get "config" body) in
  let current := get "runtimeCurrent" body in
  setText "node-id" (get "node_id" cfg);;
  setText "domain" (get "domain" cfg);;
  setText "region" (region_member cfg body);;
  setText "runtime" current;;
  setText "state" (get "stateDir" body);;
  set_text "summary-sub" (if truthy (get "registered_at" cfg) then "Registered " +:+ as_text (get "registered_at" cfg)
                          else "Registered in local setup state.");;
  set_text "rail-node" (or_text (get "node_id" cfg) "node ready");;
  (if truthy current then set_text "start-command" (as_text current +:+ "/scripts/start-pm2.sh") else mret tt);;
  set_text "helper" (if truthy (get "testFlow" body) then "Local test flow completed without commissioning this Mac." else "Node registration is complete.").

Definition set_pm2 (state label : string) : eff page unit :=
  set_class "pm2-status" ("env-status mono " +:+ state);;
  set_text "pm2-status" label.

Section Script.
Context (config : json) (has_clipboard : bool).

Definition url (k : string) : string := as_text (get k config).

Definition loadStatus : eff page unit := fetch (GET (url "statusUrl")) KStatus.
Definition status_answer (a : answer) : eff page unit :=
  try_catch (body ← lift (reply_body a "Could not load success state"); show_status body)
    (fun e => set_text "helper" (message_or e "Could not load success state")).

Definition startPm2 : eff page unit :=
  toggle "start-pm2" "busy" true;;
  set_disabled "start-pm2" true;;
  set_pm2 "pending" "Starting";;
  set_text "helper" "Starting PM2 control tunnel...";;
  fetch (POST_empty (url "pm2Url")) KPm2.

Definition pm2_answer (a : answer) : eff page unit :=
  (match reply_body a "PM2 start failed" with
   | Ok _ => set_pm2 "ok" "Started";; set_text "helper" "PM2 control tunnel is started."
   | Throw e =>
       set_pm2 "err" "Failed";;
       set_text "helper" (message_or e "PM2 start failed");;
       set_disabled "start-pm2" false
   end);;
  toggle "start-pm2" "busy" false.

Definition loadHeadless : eff page unit := fetch (GET (url "headlessUrl")) KHeadless.

Definition headless_answer (a : answer) : eff page unit :=
  try_catch
    (body ← lift (reply_body a "Could not read headless status");
     install ← lift (member "installCommand" body);
     show_command "headless-install-cmd" install;;
     show_command "headless-restart-cmd" (get "restartCommand" body);;
     show_boot (boot_of body))
    (fun e => setHeadless "err" "Unknown" (message_or e "Could not read headless status")).

Definition copy_click (c : command) : eff page unit :=
  text ← element (command_id c) el_text;
  if has_clipboard then set_vars (fun l => l ++ [trim text]);; wait (KCopied c) else mret tt.

Definition copied (c : command) (a : answer) : eff page unit :=
  match a with
  | Failed _ => mret tt
  | Answered _ _ =>
      old ← element (copy_id c) el_text;
      set_text (copy_id c) "Copied";;
      wait (KRestore c old)
  end.

Definition on (e : Ev) : eff page unit :=
  match e with
  | CopyClick c => copy_click c
  | StartClick => click "start-pm2" startPm2
  | RecheckClick => loadHeadless
  | ReloadTick => reload_tick config KReload
  end.

Definition continue (k : K) (a : answer) : eff page unit :=
  match k with
  | KReload => reload_answer config a
  | KStatus => status_answer a
  | KHeadless => headless_answer a
  | KPm2 => pm2_answer a
  | KCopied c => copied c a
  | KRestore c old => set_text (copy_id c) old
  end.

(** The template, before the script runs. *)
Definition template (id : string) : Element :=
  if bool_decide (id ∈ ["start-command copy"; "headless-install-cmd copy"; "headless-restart-cmd copy"]) then put_text "Copy" blank
  else if bool_decide (id = "start-command") then put_text "~/.consensus/node-runtime/current/scripts/start-pm2.sh" blank
  else if bool_decide (id = "headless-install-cmd") then put_text "sudo scripts/install-launchd.sh" blank
  else if bool_decide (id = "headless-restart-cmd") then put_text "sudo scripts/node-service.sh restart" blank
  else if bool_decide (id = "headless-status") then put_text "Required" blank
  else if bool_decide (id = "pm2-status") then put_text "Ready" blank
  else blank.
Definition opened_page : page :=
  {| dom := template; vars := []; location := None; reloads := 0; opened := []; sent := []; pending := [] |}.

Definition script : eff page unit :=
  stateDir ← lift (member "stateDir" (or_null (get "progress" config)));
  set_text "state-dir" ("state - " +:+ as_text stateDir);;
  loadHeadless;;
  loadStatus.

Definition start_page : page := exec script opened_page.
Definition run (l : list (input Ev)) : page := Page.run on continue l start_page.
End Script.

(** ** Lemmas *)

Definition watched : list string := ["headless-status"; "start-pm2"; "pm2-status"].
Definition is_pm2 (k : K) : bool := match k with KPm2 => true | _ => false end.

Section Lemmas.
Context (config : json) (has_clipboard : bool).

(** [may]: the boot service may be reported; [pok]: PM2 may be started. *)
Context (may pok : bool).

Definition told (s : page) : Prop :=
  (el_text (dom s "headless-status") = "Installed" -> may = true) /\ (el_text (dom s "pm2-status") = "Started" -> pok = true).
Definition one_start (ended : bool) (s : page) : Prop :=
  (waiting is_pm2 (pending s) <= if ended then 0 else if el_disabled (dom s "start-pm2") then 1 else 0)%nat.
Definition inv (ended : bool) (s : page) : Prop := told s /\ one_start ended s.

Lemma success_inv_dom ended d s : (forall i, i ∈ watched -> d i = dom s i) -> inv ended s -> inv ended (put_dom d s).
Proof.
  intros Hd [[H1 H2] H3]. unfold inv, told, one_start in *. page_run.
  by rewrite (Hd "headless-status"), (Hd "start-pm2"), (Hd "pm2-status") by set_solver.
Qed.

Lemma success_wait_inv ended k : is_pm2 k = false -> preserves (inv ended) (wait k).
Proof. intros Hk s [H1 H2]. split; [done|]. unfold one_start in *. page_run. rewrite waiting_app. unfold waiting at 2. cbn. rewrite Hk. cbn. lia. Qed.

Lemma success_fetch_inv ended q k : is_pm2 k = false -> preserves (inv ended) (fetch q k).
Proof. intros Hk. apply preserves_bind; [by apply preserves_modify|]. intros _. by apply success_wait_inv. Qed.

(** A status of its own for the reboot. *)
Lemma headless_inv state label detail : (label = "Installed" -> may = true) -> preserves (inv false) (setHeadless state label detail).
Proof. intros Hl s [[H1 H2] H3]. unfold setHeadless. page_run. split; [|exact H3]. split; page_run; [exact Hl|exact H2]. Qed.

Lemma show_boot_inv b : (b = Installed -> may = true) -> preserves (inv false) (show_boot b).
Proof. intros Hb. destruct b; apply headless_inv; [done..|]. intros _. by apply Hb. Qed.

Lemma start_run s : inv false s -> el_disabled (dom s "start-pm2") = false -> inv false (startPm2 config s).1.
Proof.
  intros [[H1 H2] H3] Hd. unfold one_start in H3. rewrite Hd in H3. unfold startPm2, set_pm2. page_run. split; [by split|].
  unfold one_start. page_run. rewrite waiting_app. unfold waiting at 2. cbn. lia.
Qed.

Lemma success_on_inv e : preserves (inv false) (on config has_clipboard e).
Proof.
  destruct e as [c| | |]; cbn [on].
  - unfold copy_click. page_walk watched (success_inv_dom false); first [by apply success_wait_inv | by apply preserves_modify].
  - intros s Hs. unfold click. erewrite bind_run by reflexivity. destruct (el_disabled _) eqn:E; [exact Hs|]. by apply start_run.
  - unfold loadHeadless. by apply success_fetch_inv.
  - unfold reload_tick. page_walk watched (success_inv_dom false). by apply success_fetch_inv.
Qed.

Lemma pm2_inv a s : (ok_answer a = true -> pok = true) -> inv true s -> inv false (pm2_answer a s).1.
Proof.
  intros Ha [[H1 H2] H3]. unfold pm2_answer, set_pm2. destruct (reply_body a _) as [body|e] eqn:Eb; page_run.
  - apply reply_body_ok in Eb as (st & bd & -> & Hst & _). split; [split; [exact H1|intros _; by apply Ha]|].
    unfold one_start in *. page_run. lia.
  - split; [by split|]. unfold one_start in *. page_run. lia.
Qed.

Lemma show_status_inv body : preserves (inv false) (show_status body).
Proof. unfold show_status, setText. cbn zeta. page_walk watched (success_inv_dom false). Qed.

Definition allowed (k : K) (a : answer) : Prop :=
  (k = KPm2 -> ok_answer a = true -> pok = true) /\
  (k = KHeadless -> forall status body, a = Answered status body -> boot_of (ok_or (JObj []) body) = Installed -> may = true).

Lemma headless_answer_inv a : allowed KHeadless a -> preserves (inv false) (headless_answer a).
Proof.
  intros [_ Ha]. unfold headless_answer. apply preserves_catch; [|intros e; by apply headless_inv].
  destruct (reply_body a _) as [body|e] eqn:Eb; [|by intros s Hs]. apply reply_body_ok in Eb as (st & bd & -> & _ & ->).
  intros s Hs. erewrite bind_run by reflexivity. revert s Hs.
  match goal with |- forall s, inv false s -> inv false (?m s).1 => change (preserves (inv false) m) end.
  unfold show_command. page_walk watched (success_inv_dom false). apply show_boot_inv. by apply (Ha eq_refl _ _ eq_refl).
Qed.

Lemma success_continue_inv i k a s : allowed k a -> inv false s -> pending s !! i = Some k ->
  inv false (exec (continue config k a) (put_pending (delete i (pending s)) s)).
Proof.
  intros Ha [H1 H2] Hi. unfold one_start in H2. rewrite (waiting_delete is_pm2 _ _ _ Hi) in H2.
  assert (Hs : inv (is_pm2 k) (put_pending (delete i (pending s)) s)).
  { split; [done|]. unfold one_start. page_run. destruct (is_pm2 k), (el_disabled _); lia. }
  revert Hs. generalize (put_pending (delete i (pending s)) s). clear H1 H2 Hi. intros s' Hs. unfold exec. destruct k as [| | | |c|c old]; cbn [continue].
  - assert (Hp : preserves (inv false) (reload_answer config a)) by (page_preserve; done). by apply Hp.
  - revert s' Hs. apply preserves_catch; [|intros e; page_walk watched (success_inv_dom false)].
    apply preserves_bind; [apply preserves_lift|]. intros body. apply show_status_inv.
  - by apply headless_answer_inv.
  - apply pm2_inv; [by apply Ha|done].
  - revert s' Hs. change (preserves (inv false) (copied c a)). destruct c; unfold copied; page_walk watched (success_inv_dom false); by apply success_wait_inv.
  - revert s' Hs. change (preserves (inv false) (set_text (V := list string) (K := K) (copy_id c) old)). destruct c; page_walk watched (success_inv_dom false).
Qed.

Lemma success_start_inv : inv false (start_page config).
Proof.
  assert (H0 : inv false opened_page) by (split; [by split|unfold one_start, waiting; apply Nat.le_0_l]).
  assert (Hp : preserves (inv false) (script config)); [|by apply Hp]. unfold script, loadHeadless, loadStatus.
  page_walk watched (success_inv_dom false); by apply success_fetch_inv.
Qed.
End Lemmas.

(** ** Properties *)

(** The last page tells that the node comes back by itself only if an answer said so: a
    Mac, without the disk encryption that stops it, with the boot service; it tells that
    PM2 is started only after a start that succeeded; and one start is under way at most. *)
Theorem success_page_sound (config : json) (has_clipboard : bool) (l : list (input Ev)) :
  let s := run config has_clipboard l in
  let answered (k : K) (a : answer) := exists l1 i l2, l = l1 ++ Answer i a :: l2 /\ pending (run config has_clipboard l1) !! i = Some k in
  (el_text (dom s "headless-status") = "Installed" ->
     ~ (forall status body, answered KHeadless (Answered status body) -> boot_of (ok_or (JObj []) body) <> Installed)) /\
  (el_text (dom s "pm2-status") = "Started" -> ~ (forall a, answered KPm2 a -> ok_answer a = false)) /\
  (waiting is_pm2 (pending s) <= 1)%nat.
Proof.
  cbn zeta. set (answered := fun k a => _).
  assert (Hinv : forall may pok, (may = false -> forall status body, answered KHeadless (Answered status body) -> boot_of (ok_or (JObj []) body) <> Installed) ->
    (pok = false -> forall a, answered KPm2 a -> ok_answer a = false) -> inv may pok false (run config has_clipboard l)).
  { intros may pok Hm Hk. unfold run.
    apply (run_invariant_at (on config has_clipboard) (continue config)
             (fun s x => match x with Answer i a => forall k, pending s !! i = Some k -> allowed may pok k a | Event _ => True end)).
    - intros e s. apply success_on_inv.
    - intros i k a s Ha Hs Hi. apply success_continue_inv; [by apply Ha|done|done].
    - intros l1 [e|i a] l2 Hl; [done|]. intros k Hi.
      assert (Hans : answered k a) by (by exists l1, i, l2). split.
      + intros -> Hok. destruct pok eqn:E; [done|]. pose proof (Hk eq_refl a Hans). congruence.
      + intros -> st body -> Hb. destruct may eqn:E; [done|]. by destruct (Hm eq_refl st body Hans).
    - apply success_start_inv. }
  split_and!.
  - intros Ht Hn. destruct (Hinv false true) as [[H1 _] _]; [done..|]. by specialize (H1 Ht).
  - intros Ht Hn. destruct (Hinv true false) as [[_ H2] _]; [done..|]. by specialize (H2 Ht).
  - destruct (Hinv true true) as [_ H3]; [done..|]. etransitivity; [exact H3|]. destruct (el_disabled _); lia.
Qed.

(** Two quick clicks on a copy button: the second one takes [Copied] for the label to go
    back to, and the button keeps it. *)
Example copy_label_stays :
  let done_ := Answered 200 (Ok JNull) in
  let l := [Event (CopyClick StartCommand); Answer 2 done_; Event (CopyClick StartCommand); Answer 3 done_; Answer 2 done_; Answer 2 done_] in
  let s := run (JObj [("progress", JObj [])]) true l in
  pending s = [KHeadless; KStatus] /\ el_text (dom s "start-command copy") = "Copied".
Proof. vm_compute. done. Qed.

(** What is written to the clipboard is a command that the page shows. *)
Example copies_the_command :
  vars (run (JObj [("progress", JObj [])]) true [Event (CopyClick InstallCommand)]) = ["sudo scripts/install-launchd.sh"].
Proof. reflexivity. Qed.
