(* ===== verification/WalletPage.v ===== *)
(** * The script of the wallet page (the page of registration/wallet-capture.ts)

    The operator connects three wallets or pastes their addresses, and sends them to the
    local server.  The extensions of the browser are arguments; focus, icons and
    accessibility attributes are not modelled.

    A promise of an extension comes to an answer: [Answered _ (Ok v)] is what it gives,
    [Answered code (Throw e)] a rejection with that code, [Failed e] one without. *)

From S2P Require SetupEnv.
From S2P Require Import Prelude Effect Text Json Coerce Ticket Url Eval WalletCapture Page.
Local Open Scope Z_scope.

Inductive key := Evm | Sol | Icp.
#[export] Instance key_eq_dec : EqDecision key.
Proof. solve_decision. Defined.

Definition key_text (k : key) : string := match k with Evm => "evm" | Sol => "sol" | Icp => "icp" end.
Definition key_label (k : key) : string := match k with Evm => "MetaMask" | Sol => "Phantom" | Icp => "Plug" end.
Definition keys : list key := [Evm; Sol; Icp].
Definition id_of (prefix : string) (k : key) : string := prefix +:+ key_text k.

(** [{ address, source }], or [{ principal, source }]. *)
Record entry := { address : json; source : string }.

(** An extension as it can be recognised, and one that announces itself. *)
Record Provider := {
  isMetaMask : bool; isPhantom : bool; isCoinbaseWallet : bool; isBraveWallet : bool; isRabby : bool; isFrame : bool; isTrust : bool;
  isPlug : bool; can_request : bool }.
Record Announcement := { an_rdns : option json; an_name : option json; an_provider : option Provider }.
(** [window.ethereum] and its [providers]. *)
Record Ethereum := { eth_self : Provider; eth_providers : list Provider }.

Record Vars := {
  evm : option entry; sol : option entry; icp : option entry;
  autoReviewed : bool; announcedProviders : list Announcement;
  toasts : nat; clipboard : list string; closed : bool }.

Inductive K := KProvider | KEvm | KSol | KIcp | KPrincipal | KSubmit | KReview | KToast (n : nat) | KCopied (label : string) | KClose.

Inductive Ev :=
| Announce (a : option Announcement) | ConnectClick (k : key) | ManualClick (k : key) | SaveClick (k : key) | TypeAddress (k : key) (v : string)
| Keydown (k : key) (pressed : string) | CopyClick (k : key) | ContinueClick | ManualAllClick | TabClick (which : string).

Notation page := (Page Vars K).

(** ** Recognising MetaMask *)

Definition lower_text (v : option json) : string := toLowerCase (or_text v "").

Definition isMetaMaskAnnouncement (a : Announcement) : bool :=
  bool_decide (is_Some (an_provider a)) &&
  (bool_decide (lower_text (an_rdns a) = "io.metamask") || bool_decide (lower_text (an_name a) = "metamask")).

Definition isMetaMaskProvider (p : Provider) : bool :=
  isMetaMask p && negb (isPhantom p) && negb (isCoinbaseWallet p) && negb (isBraveWallet p) && negb (isRabby p) && negb (isFrame p) &&
  negb (isTrust p) && negb (isPlug p).

(** [getMetaMaskProvider], after its pause. *)
Definition getMetaMaskProvider (announced : list Announcement) (ethereum : option Ethereum) : option Provider :=
  match List.find isMetaMaskAnnouncement announced with
  | Some a => an_provider a
  | None =>
      let injected := match ethereum with
                      | Some e => match eth_providers e with [] => [eth_self e] | l => l end
                      | None => [] end in
      List.find isMetaMaskProvider injected
  end.

Definition walletError (code : option Z) (e : exn) (fallback : string) : string :=
  if bool_decide (code = Some 4001) then "Connection rejected" else message_or e fallback.

(** ** Addresses *)

Definition valid_for (k : key) (value : string) : bool :=
  match k with Evm => isValidEvmAddress value | Sol => isValidSolanaAddress value | Icp => isValidIcpAddress value end.

Definition manualValidationError (k : key) (value : string) : string :=
  if valid_for k value then ""
  else match k with
       | Evm => "EVM address must be 0x followed by 40 hex characters"
       | Sol => "Solana address must be a base58 public key"
       | Icp => "ICP address must be a textual principal"
       end.

Definition entry_of (k : key) (v : Vars) : option entry := match k with Evm => evm v | Sol => sol v | Icp => icp v end.
Definition addressFor (k : key) (v : Vars) : option json := address <$> entry_of k v.
Definition setAddress (k : key) (a : json) (src : string) (v : Vars) : Vars :=
  let e := Some {| address := a; source := src |} in
  {| evm := match k with Evm => e | _ => evm v end; sol := match k with Sol => e | _ => sol v end; icp := match k with Icp => e | _ => icp v end;
     autoReviewed := autoReviewed v; announcedProviders := announcedProviders v; toasts := toasts v; clipboard := clipboard v; closed := closed v |}.
Definition allProvided (v : Vars) : bool :=
  bool_decide (is_Some (evm v)) && bool_decide (is_Some (sol v)) && bool_decide (is_Some (icp v)).

(** [addr.length <= 13 ? addr : ...] for an address that is set. *)
Definition short (addr : json) : result string := short_value 6 4 addr.

Definition or_json (a : option json) : json := default JNull a.

(** [accounts && accounts[0]] *)
Definition first_account (v : json) : option json :=
  match v with
  | JArr (x :: _) => Some x
  | JStr (String c _) => Some (JStr (String c ""))
  | JObj _ => get "0" v
  | _ => None
  end.

(** ** The page *)

Definition put_auto (v : Vars) : Vars :=
  {| evm := evm v; sol := sol v; icp := icp v; autoReviewed := true; announcedProviders := announcedProviders v; toasts := toasts v;
     clipboard := clipboard v; closed := closed v |}.
Definition put_announced (a : Announcement) (v : Vars) : Vars :=
  {| evm := evm v; sol := sol v; icp := icp v; autoReviewed := autoReviewed v; announcedProviders := announcedProviders v ++ [a];
     toasts := toasts v; clipboard := clipboard v; closed := closed v |}.
Definition put_toast (v : Vars) : Vars :=
  {| evm := evm v; sol := sol v; icp := icp v; autoReviewed := autoReviewed v; announcedProviders := announcedProviders v;
     toasts := S (toasts v); clipboard := clipboard v; closed := closed v |}.
Definition put_clipboard (t : string) (v : Vars) : Vars :=
  {| evm := evm v; sol := sol v; icp := icp v; autoReviewed := autoReviewed v; announcedProviders := announcedProviders v;
     toasts := toasts v; clipboard := clipboard v ++ [t]; closed := closed v |}.
Definition put_closed (v : Vars) : Vars :=
  {| evm := evm v; sol := sol v; icp := icp v; autoReviewed := autoReviewed v; announcedProviders := announcedProviders v; toasts := toasts v;
     clipboard := clipboard v; closed := true |}.

(** A new toast takes the place of the one before and of its timer. *)
Definition toast (msg : string) : eff page unit :=
  set_text "toast-text" msg;;
  toggle "toast" "show" true;;
  set_vars put_toast;;
  n ← get_vars toasts;
  wait (KToast n).

Definition setBusy (k : key) (busy : bool) : eff page unit := toggle (id_of "btn-" k) "busy" busy.

Definition fill_input (k : key) : eff page unit :=
  a ← get_vars (addressFor k);
  old ← element (id_of "input-" k) el_value;
  set_value (id_of "input-" k) (or_text a old).

Definition showManualEntry (k : key) : eff page unit := toggle (id_of "entry-" k) "show" true;; fill_input k.

Definition toggleManualEntry (k : key) : eff page unit :=
  shown ← element (id_of "entry-" k) (has_class "show");
  toggle (id_of "entry-" k) "show" (negb shown);;
  if shown : bool then mret tt else fill_input k.

Definition set_status (k : key) (state text : string) : eff page unit :=
  set_class (id_of "status-" k) ("status-line " +:+ state);;
  set_text (id_of "status-" k +:+ " .stext") text.

(** The two branches of [renderWallet]; the listener of the copy button is the event
    [CopyClick]. *)
Definition show_address (k : key) (e : entry) : eff page unit :=
  let connected := bool_decide (source e = "wallet") in
  toggle (id_of "addr-" k) "filled" true;;
  set_text (id_of "addr-" k +:+ " .atext") (content_text (Some (address e)));;
  toggle (id_of "btn-" k) "connected" connected;;
  set_text (id_of "btn-" k +:+ " .blabel") (if connected then "Connected · reconnect" else "Connect " +:+ key_label k);;
  set_class (id_of "status-" k) "status-line ok";;
  text ← lift (short (address e));
  set_text (id_of "status-" k +:+ " .stext") ((if connected then "Connected " else "Address added ") +:+ text);;
  toggle (id_of "card-" k) "connected" true;;
  toggle (id_of "tab-" k) "done" true.

Definition show_nothing (k : key) : eff page unit :=
  toggle (id_of "addr-" k) "filled" false;;
  set_text (id_of "addr-" k +:+ " .atext") "not connected";;
  toggle (id_of "btn-" k) "connected" false;;
  set_text (id_of "btn-" k +:+ " .blabel") ("Connect " +:+ key_label k);;
  set_status k "idle" "Waiting to connect";;
  toggle (id_of "card-" k) "connected" false;;
  toggle (id_of "tab-" k) "done" false.

Definition renderWallet (k : key) : eff page unit :=
  data ← get_vars (entry_of k);
  match data with
  | Some e => if truthy (Some (address e)) then show_address k e else show_nothing k
  | None => show_nothing k
  end.

Definition review_row (k : key) : eff page unit :=
  data ← get_vars (entry_of k);
  let val := address <$> data in
  if truthy val then
    set_text (id_of "rv-" k) (content_text val);;
    toggle (id_of "rv-" k) "missing" false;;
    set_text (id_of "rs-" k) (if bool_decide (source <$> data = Some "wallet") then "connected" else "provided");;
    set_class (id_of "rs-" k) "rstat ok"
  else
    set_text (id_of "rv-" k) "not connected";;
    toggle (id_of "rv-" k) "missing" true;;
    set_text (id_of "rs-" k) "pending";;
    set_class (id_of "rs-" k) "rstat no".

Definition sync_continue : eff page unit := all ← get_vars allProvided; set_disabled "btn-continue" (negb all).

Definition renderReview : eff page unit :=
  review_row Evm;; review_row Sol;; review_row Icp;;
  sync_continue.

Definition maybeAutoReview : eff page unit :=
  v ← get_vars id;
  if negb (allProvided v) || autoReviewed v then mret tt
  else set_vars put_auto;; wait KReview.

Definition renderAll : eff page unit :=
  renderWallet Evm;; renderWallet Sol;; renderWallet Icp;;
  renderReview;;
  maybeAutoReview.

(** [style.display = "none"] is shown as hidden; the five tabs are [tab-] and their data. *)
Definition tab_names : list string := ["all"; "evm"; "sol"; "icp"; "review"].
Definition select_tab (which : string) : eff page unit :=
  toggle "tab-all" "on" (bool_decide (which = "all"));; toggle "tab-evm" "on" (bool_decide (which = "evm"));;
  toggle "tab-sol" "on" (bool_decide (which = "sol"));; toggle "tab-icp" "on" (bool_decide (which = "icp"));;
  toggle "tab-review" "on" (bool_decide (which = "review")).

Definition card_hidden (which : string) (k : key) : bool := negb (bool_decide (which = "all") || bool_decide (which = key_text k)).

Definition showTab (which : string) : eff page unit :=
  select_tab which;;
  if bool_decide (which = "review") then
    set_hidden "cards-pane" true;;
    toggle "review-pane" "show" true
  else
    toggle "review-pane" "show" false;;
    set_hidden "cards-pane" false;;
    set_hidden "card-evm" (card_hidden which Evm);;
    set_hidden "card-sol" (card_hidden which Sol);;
    set_hidden "card-icp" (card_hidden which Icp).

Definition saveManualAddress (k : key) : eff page unit :=
  v ← element (id_of "input-" k) el_value;
  let value := trim v in
  let error := manualValidationError k value in
  if negb (bool_decide (error = "")) then
    set_status k "err" error;;
    toast error
  else
    set_vars (setAddress k (JStr value) "manual");;
    toggle (id_of "entry-" k) "show" false;;
    renderAll;;
    toast "Public address added".

Section Script.
Context (config : json) (ethereum : option Ethereum) (phantom plug has_clipboard : bool).

Definition missing (k : key) (message status : string) : eff page unit :=
  toast message;;
  set_class (id_of "status-" k) "status-line err";;
  set_text (id_of "status-" k +:+ " .stext") status;;
  showManualEntry k.

Definition connect (k : key) : eff page unit :=
  match k with
  | Evm => wait KProvider
  | Sol => if phantom then setBusy Sol true;; wait KSol
           else missing Sol "Phantom not detected - paste its public address instead" "Phantom not found - paste the public address"
  | Icp => if plug then setBusy Icp true;; wait KIcp
           else missing Icp "Plug not detected - paste its public address instead" "Plug not found - paste the public principal"
  end.

(** [connectEvm] after the pause. *)
Definition provider_found : eff page unit :=
  announced ← get_vars announcedProviders;
  match getMetaMaskProvider announced ethereum with
  | Some p => if can_request p then setBusy Evm true;; wait KEvm
              else missing Evm "MetaMask not detected - paste its public address instead" "MetaMask not found - paste the public address"
  | None => missing Evm "MetaMask not detected - paste its public address instead" "MetaMask not found - paste the public address"
  end.

(** What an address that was given leads to; [renderAll] may throw. *)
Definition connected (k : key) (a : json) : eff page unit :=
  set_vars (setAddress k a "wallet");;
  renderAll;;
  toast (key_label k +:+ " connected").

Definition failed (k : key) (code : option Z) (e : exn) : eff page unit := toast (walletError code e ("Could not connect " +:+ key_label k)).

(** [try { ... } catch (error) { ... } finally { setBusy(key, false) }] around what comes
    of the answer. *)
Definition settled (k : key) (a : answer) (m : json -> eff page unit) : eff page unit :=
  (match a with
   | Failed e => failed k None e
   | Answered code (Throw e) => failed k (Some code) e
   | Answered _ (Ok v) => try_catch (m v) (failed k None)
   end);;
  setBusy k false.

Definition evm_answer (a : answer) : eff page unit :=
  settled Evm a (fun accounts =>
    let account := first_account accounts in
    if truthy account then connected Evm (default JNull account) else mret tt).

Definition sol_answer (a : answer) : eff page unit :=
  settled Sol a (fun address => if truthy (Some address) then connected Sol address else mret tt).

(** The first answer of Plug; [finally] runs after the second one. *)
Definition icp_answer (a : answer) : eff page unit :=
  match a with
  | Answered _ (Ok v) => if bool_decide (v = JBool false) then settled Icp a (fun _ => throw (PlainError "Plug did not approve the connection."))
                         else wait KPrincipal
  | _ => settled Icp a (fun _ => mret tt)
  end.

Definition principal_answer (a : answer) : eff page unit :=
  settled Icp a (fun principal => if truthy (Some principal) then connected Icp principal
                                  else throw (PlainError "Plug did not return a principal.")).

Definition address_or_empty (a : option json) : json := if truthy a then or_json a else JStr "".

Definition submitAddresses : eff page unit :=
  off ← element "btn-continue" el_disabled;
  if off : bool then mret tt
  else
    set_disabled "btn-continue" true;;
    set_text "btn-continue" "Saving wallets...";;
    v ← get_vars id;
    fetch (POST (as_text (get "submitUrl" config))
             (JObj [("evmAddress", address_or_empty (addressFor Evm v)); ("solanaAddress", address_or_empty (addressFor Sol v));
                    ("icpAddress", address_or_empty (addressFor Icp v))])) KSubmit.

Definition submit_answer (a : answer) : eff page unit :=
  match reply_body a "Address submission failed." with
  | Ok _ =>
      set_text "review-note" "Wallets saved. Return to the terminal if this tab does not close automatically.";;
      set_text "btn-continue" "Wallets saved";;
      toast "Wallets saved - closing tab...";;
      wait KClose
  | Throw e =>
      set_disabled "btn-continue" false;;
      set_text "btn-continue" "Continue to node setup ->";;
      toast (walletError None e "Address submission failed.")
  end.

Definition on (e : Ev) : eff page unit :=
  match e with
  | Announce a => match a with Some a => set_vars (put_announced a) | None => mret tt end
  | ConnectClick k => connect k
  | ManualClick k => toggleManualEntry k
  | SaveClick k => saveManualAddress k
  | TypeAddress k v => set_value (id_of "input-" k) v
  | Keydown k pressed => if bool_decide (pressed = "Enter") then saveManualAddress k else mret tt
  | CopyClick k =>
      text ← element (id_of "addr-" k +:+ " .atext") el_text;
      if has_clipboard then set_vars (put_clipboard text);; wait (KCopied (key_label k)) else mret tt
  | ContinueClick => click "btn-continue" submitAddresses
  | ManualAllClick => showTab "all";; showManualEntry Evm;; showManualEntry Sol;; showManualEntry Icp
  | TabClick which => showTab which
  end.

Definition continue (k : K) (a : answer) : eff page unit :=
  match k with
  | KProvider => provider_found
  | KEvm => evm_answer a
  | KSol => sol_answer a
  | KIcp => icp_answer a
  | KPrincipal => principal_answer a
  | KSubmit => submit_answer a
  | KReview => showTab "review"
  | KToast n => m ← get_vars toasts; if (n =? m)%nat then toggle "toast" "show" false else mret tt
  | KCopied label => toast (match a with Answered _ (Ok _) => "Copied " +:+ label +:+ " address" | _ => "Copy unavailable" end)
  | KClose => open_window "";; set_vars put_closed;; set_html "body" "Wallets saved. Return to the terminal."
  end.

(** The addresses the server had saved. *)
Definition initial (member_name : string) : option entry :=
  let a := match get "initialAddresses" config with Some v => get member_name v | None => None end in
  if truthy a then Some {| address := or_json a; source := "saved" |} else None.

(** The page, before [renderAll]. *)
Definition opened_page : page :=
  {| dom := fun id => if bool_decide (id = "btn-continue") then put_disabled true blank else blank;
     vars := {| evm := initial "evmAddress"; sol := initial "solanaAddress"; icp := initial "icpAddress"; autoReviewed := false;
                announcedProviders := []; toasts := 0; clipboard := []; closed := false |};
     location := None; reloads := 0; opened := []; sent := []; pending := [] |}.

(** [pageMap[config.startPage] || "all"] *)
Definition start_tab : string :=
  match get "startPage" config with
  | Some (JStr "metamask") => "evm"
  | Some (JStr "phantom") => "sol"
  | Some (JStr "plug") => "icp"
  | Some (JStr "review") => "review"
  | _ => "all"
  end.

Definition script : eff page unit := renderAll;; showTab start_tab.

Definition start_page : page := exec script opened_page.
Definition run (l : list (input Ev)) : page := Page.run on continue l start_page.
End Script.

(** ** Lemmas *)

Definition watched : list string := ["btn-continue"].
Definition is_submit (k : K) : bool := match k with KSubmit => true | _ => false end.

(** The member that carries an address. *)
Definition name_of (k : key) : string := match k with Evm => "evmAddress" | Sol => "solanaAddress" | Icp => "icpAddress" end.

(** The address that is pasted into the field of a wallet when it is saved. *)
Definition pasted (s : page) (k : key) : option (key * json) :=
  let value := trim (el_value (dom s (id_of "input-" k))) in
  if valid_for k value then Some (k, JStr value) else None.

(** The address that the answer of an extension gives. *)
Definition given (c : K) (v : json) : option (key * json) :=
  match c with
  | KEvm => a ← first_account v; Some (Evm, a)
  | KSol => Some (Sol, v)
  | KPrincipal => Some (Icp, v)
  | _ => None
  end.

(** The wallet that an input gives an address for, and the address. *)
Definition gives (s : page) (x : input Ev) : option (key * json) :=
  match x with
  | Event (SaveClick k) => pasted s k
  | Event (Keydown k pressed) => if bool_decide (pressed = "Enter") then pasted s k else None
  | Answer i (Answered _ (Ok v)) => c ← pending s !! i; g ← given c v; if truthy (Some g.2) then Some g else None
  | _ => None
  end.

Lemma is_continue (e : Ev) : e = ContinueClick \/ e <> ContinueClick.
Proof. destruct e; by (left + right). Qed.

(** ** What every stretch but a submission keeps *)

(** A predicate of the page that reads the addresses, the submissions and the button. *)
Class Frame (P : page -> Prop) : Prop := {
  frame_dom d s : (forall i, i ∈ watched -> d i = dom s i) -> P s -> P (put_dom d s);
  frame_wait k : is_submit k = false -> preserves P (wait k);
  frame_vars f : (forall v k, entry_of k (f v) = entry_of k v) -> preserves P (set_vars f);
  frame_sync : preserves P sync_continue;
  frame_opened url : preserves P (open_window url) }.

Section Frames.
Context (config : json) (ethereum : option Ethereum) (phantom plug has_clipboard : bool).
Context (P : page -> Prop) `{!Frame P}.

Lemma toast_keeps msg : preserves P (toast msg).
Proof. unfold toast. page_walk watched (frame_dom (P := P)); first [by apply frame_wait | apply frame_vars; by intros v []]. Qed.

Lemma row_keeps k : preserves P (review_row k).
Proof. destruct k; unfold review_row; cbn zeta; page_walk watched (frame_dom (P := P)). Qed.

Lemma wallet_keeps k : preserves P (renderWallet k).
Proof. destruct k; unfold renderWallet, show_address, show_nothing, set_status; cbn zeta; page_walk watched (frame_dom (P := P)). Qed.

Lemma renderAll_keeps : preserves P renderAll.
Proof.
  unfold renderAll, renderReview, maybeAutoReview. page_walk watched (frame_dom (P := P));
    first [simple apply wallet_keeps | simple apply row_keeps | simple apply frame_sync | by simple apply frame_wait | apply frame_vars; by intros v []].
Qed.

Lemma showTab_keeps which : preserves P (showTab which).
Proof. unfold showTab, select_tab. page_walk watched (frame_dom (P := P)). Qed.

Lemma manual_keeps k : preserves P (showManualEntry k).
Proof. destruct k; unfold showManualEntry, fill_input; page_walk watched (frame_dom (P := P)). Qed.

Lemma missing_keeps k m st : preserves P (missing k m st).
Proof. destruct k; unfold missing; page_walk watched (frame_dom (P := P)); first [simple apply toast_keeps | simple apply manual_keeps]. Qed.

Lemma connect_keeps k : preserves P (connect phantom plug k).
Proof. destruct k; unfold connect, setBusy; page_walk watched (frame_dom (P := P)); first [by simple apply frame_wait | simple apply missing_keeps]. Qed.

Lemma failed_keeps k c e : preserves P (failed k c e).
Proof. apply toast_keeps. Qed.

Lemma busy_keeps k b : preserves P (setBusy k b).
Proof. destruct k; unfold setBusy; page_walk watched (frame_dom (P := P)). Qed.

(** What is to be shown of the address an input gives. *)
Definition after (g : option (key * json)) (s : page) : Prop :=
  match g with Some (k, a) => forall src, P (put_vars (setAddress k a src (vars s)) s) | None => P s end.

Lemma pasted_keeps k s : after (pasted s k) s -> P (saveManualAddress k s).1.
Proof.
  unfold pasted, saveManualAddress. erewrite bind_run by reflexivity. cbn zeta. set (value := trim _).
  unfold manualValidationError. destruct (valid_for k value) eqn:Ev; cbn [after].
  - rewrite bool_decide_true by done. cbn [negb]. intros Hs. erewrite bind_run by reflexivity. specialize (Hs "manual").
    match goal with |- P (?m _).1 => cut (preserves P m); [intros Hp; by apply Hp|] end.
    destruct k; page_walk watched (frame_dom (P := P)); first [simple apply renderAll_keeps | simple apply toast_keeps].
  - rewrite bool_decide_false by (by destruct k). cbn [negb]. intros Hs.
    match goal with |- P (?m _).1 => cut (preserves P m); [intros Hp; by apply Hp|] end.
    destruct k; unfold set_status; page_walk watched (frame_dom (P := P)); simple apply toast_keeps.
Qed.

Lemma event_keeps e s : e <> ContinueClick -> after (gives s (Event e)) s -> P (exec (on config phantom plug has_clipboard e) s).
Proof.
  intros He Hs. destruct e as [a|k|k|k|k v|k pressed|k| | |which]; cbn [on gives after] in *.
  4: by apply pasted_keeps.
  5: { destruct (bool_decide _); [by apply pasted_keeps|done]. }
  all: try done.
  all: match goal with |- P (exec ?m _) => cut (preserves P m); [intros Hp; by apply Hp|] end.
  - page_walk watched (frame_dom (P := P)). apply frame_vars. by intros v [].
  - apply connect_keeps.
  - destruct k; unfold toggleManualEntry, fill_input; page_walk watched (frame_dom (P := P)).
  - destruct k; page_walk watched (frame_dom (P := P)).
  - page_walk watched (frame_dom (P := P)); first [by apply frame_wait | apply frame_vars; by intros v []].
  - page_walk watched (frame_dom (P := P)); first [simple apply showTab_keeps | simple apply manual_keeps].
  - apply showTab_keeps.
Qed.

Lemma connected_keeps k a s : after (Some (k, a)) s -> P (connected k a s).1.
Proof.
  intros Hs. unfold connected. erewrite bind_run by reflexivity. specialize (Hs "wallet").
  match goal with |- P (?m _).1 => cut (preserves P m); [intros Hp; by apply Hp|] end.
  page_walk watched (frame_dom (P := P)); first [simple apply renderAll_keeps | simple apply toast_keeps].
Qed.

(** [try ... catch ... finally]: what the stretch establishes stays. *)
Lemma settled_keeps k a m s : match a with Answered _ (Ok v) => P (m v s).1 | _ => P s end -> P (settled k a m s).1.
Proof.
  intros Hm. unfold settled. apply bind_after; [|intros _; apply busy_keeps].
  destruct a as [e|code [v|e]]; [by apply failed_keeps| |by apply failed_keeps]. unfold try_catch.
  destruct (m v s) as [s' [x|e]]; [done|]. by apply failed_keeps.
Qed.

Lemma answer_keeps i c a s : pending s !! i = Some c -> is_submit c = false ->
  let s' := put_pending (delete i (pending s)) s in after (gives s (Answer i a)) s' -> P (exec (continue ethereum c a) s').
Proof.
  cbn zeta. intros Hi Hc Hs. set (s' := put_pending _ _) in *. clearbody s'. unfold exec.
  destruct c as [| | | | | | |n|label|]; cbn [continue]; [..|done| | | |].
  - assert (Hs' : P s') by (unfold gives in Hs; destruct a as [e|code [v|e]]; [done| |done]; by rewrite Hi in Hs).
    cut (preserves P (provider_found ethereum)); [intros Hp; by apply Hp|].
    unfold provider_found, setBusy. page_walk watched (frame_dom (P := P)); first [by simple apply frame_wait | simple apply missing_keeps].
  - apply settled_keeps. destruct a as [e|code [v|e]]; cbn [gives after] in Hs |- *; [done| |done]. rewrite Hi in Hs. cbn [mbind option_bind given] in Hs.
    destruct (first_account v) as [x|]; cbn [mbind option_bind snd] in Hs; [|exact Hs]. destruct (truthy (Some x)); [|exact Hs]. by apply connected_keeps.
  - apply settled_keeps. destruct a as [e|code [v|e]]; cbn [gives after] in Hs |- *; [done| |done]. rewrite Hi in Hs. cbn [mbind option_bind given snd] in Hs.
    destruct (truthy (Some v)); [|exact Hs]. by apply connected_keeps.
  - assert (Hs' : P s') by (unfold gives in Hs; destruct a as [e|code [v|e]]; [done| |done]; by rewrite Hi in Hs).
    unfold icp_answer. destruct a as [e|code [v|e]]; [by apply settled_keeps| |by apply settled_keeps].
    case_bool_decide; [by apply settled_keeps|by apply frame_wait].
  - apply settled_keeps. destruct a as [e|code [v|e]]; cbn [gives after] in Hs |- *; [done| |done]. rewrite Hi in Hs. cbn [mbind option_bind given snd] in Hs.
    destruct (truthy (Some v)); [|exact Hs]. by apply connected_keeps.
  - assert (Hs' : P s') by (unfold gives in Hs; destruct a as [e|code [v|e]]; [done| |done]; by rewrite Hi in Hs). by apply showTab_keeps.
  - assert (Hs' : P s') by (unfold gives in Hs; destruct a as [e|code [v|e]]; [done| |done]; by rewrite Hi in Hs).
    match goal with |- P (?m _).1 => cut (preserves P m); [intros Hp; by apply Hp|] end. page_walk watched (frame_dom (P := P)).
  - assert (Hs' : P s') by (unfold gives in Hs; destruct a as [e|code [v|e]]; [done| |done]; by rewrite Hi in Hs). by apply toast_keeps.
  - assert (Hs' : P s') by (unfold gives in Hs; destruct a as [e|code [v|e]]; [done| |done]; by rewrite Hi in Hs).
    match goal with |- P (?m _).1 => cut (preserves P m); [intros Hp; by apply Hp|] end.
    page_walk watched (frame_dom (P := P)); [by apply frame_opened|]. apply frame_vars. by intros v [].
Qed.

Lemma script_keeps : preserves P (script config).
Proof. unfold script. page_walk watched (frame_dom (P := P)); first [simple apply renderAll_keeps | simple apply showTab_keeps]. Qed.

Lemma submit_answer_keeps a s : P s -> (forall d, P (put_dom d s)) -> (forall t, preserves P (set_text "btn-continue" t)) -> P (submit_answer a s).1.
Proof.
  intros Hs Hd Ht. unfold submit_answer. destruct (reply_body a _) as [body|e].
  - match goal with |- P (?m s).1 => cut (preserves P m); [intros Hp; by apply Hp|] end.
    page_walk watched (frame_dom (P := P)); first [simple apply Ht | simple apply toast_keeps | by simple apply frame_wait].
  - erewrite bind_run by reflexivity. match goal with |- P (?m _).1 => cut (preserves P m); [intros Hp; apply Hp; apply Hd|] end.
    page_walk watched (frame_dom (P := P)); first [simple apply Ht | simple apply toast_keeps].
Qed.
End Frames.

(** ** The addresses of the page *)

(** The addresses and the submissions of a page. *)
Definition stands (v : key -> option json) (l : list Request) (s : page) : Prop :=
  (forall k, addressFor k (vars s) = v k) /\ sent s = l.

#[export] Instance stands_frame v l : Frame (stands v l).
Proof.
  split.
  - by intros d s _ [H1 H2].
  - by intros k _ s [H1 H2].
  - intros f Hf s [H1 H2]. split; [|done]. intros k. rewrite <- H1. unfold addressFor. page_run. by rewrite Hf.
  - by intros s [H1 H2].
  - by intros url s [H1 H2].
Qed.

Definition noted (g : option (key * json)) (v : key -> option json) (k : key) : option json :=
  match g with Some (k', a) => if decide (k' = k) then Some a else v k | None => v k end.

Lemma stands_after g v l s : stands v l s -> after (stands (noted g v) l) g s.
Proof.
  intros [H1 H2]. destruct g as [[k a]|]; [|by split]. intros src. split; [|done]. intros k'. cbn [noted vars put_vars].
  rewrite <- H1. unfold addressFor. by destruct k, k'.
Qed.

Section Addresses.
Context (config : json) (ethereum : option Ethereum) (phantom plug has_clipboard : bool).
Notation run := (run config ethereum phantom plug has_clipboard).

(** The address a wallet was given last, by the operator, an extension or the saved
    ones. *)
Definition latest (l : list (input Ev)) (k : key) : option json :=
  (fold_left (fun (p : page * option json) x =>
     (turn (on config phantom plug has_clipboard) (continue ethereum) p.1 x, noted (gives p.1 x) (fun _ => p.2) k))
     l (start_page config, address <$> initial config (name_of k))).2.

Lemma latest_page l k : (fold_left (fun (p : page * option json) x =>
     (turn (on config phantom plug has_clipboard) (continue ethereum) p.1 x, noted (gives p.1 x) (fun _ => p.2) k))
     l (start_page config, address <$> initial config (name_of k))).1 = run l.
Proof. unfold run, Page.run. generalize (start_page config). intros s. generalize (address <$> initial config (name_of k)). revert s. induction l; intros; cbn; [done|]. apply IHl. Qed.

Lemma latest_app l x k : latest (l ++ [x]) k = noted (gives (run l) x) (latest l) k.
Proof. unfold latest. rewrite fold_left_app. cbn [fold_left snd]. rewrite latest_page. by destruct (gives _ x) as [[k' a]|]. Qed.

Lemma run_snoc l x : run (l ++ [x]) = turn (on config phantom plug has_clipboard) (continue ethereum) (run l) x.
Proof. unfold run, Page.run. by rewrite fold_left_app. Qed.

Definition submission (v : key -> option json) : option Request :=
  match v Evm, v Sol, v Icp with
  | Some a, Some b, Some c => Some (POST (as_text (get "submitUrl" config)) (JObj [("evmAddress", a); ("solanaAddress", b); ("icpAddress", c)]))
  | _, _, _ => None
  end.
End Addresses.

Section Lemmas.
Context (config : json) (ethereum : option Ethereum) (phantom plug has_clipboard : bool).
Notation run := (run config ethereum phantom plug has_clipboard).
Notation latest := (latest config ethereum phantom plug has_clipboard).

(** [trusted]: the extensions and the saved addresses are well-formed. *)
Context (trusted : bool).

Definition good (k : key) (a : json) : Prop :=
  truthy (Some a) = true /\ (trusted = true -> exists t, a = JStr t /\ valid_for k t = true).

Definition entries_ok (v : Vars) : Prop := forall k e, entry_of k v = Some e -> good k (address e).
Definition inv (s : page) : Prop :=
  entries_ok (vars s) /\
  (el_disabled (dom s "btn-continue") = false -> allProvided (vars s) = true) /\
  (waiting is_submit (pending s) <> O -> allProvided (vars s) = true).

#[export] Instance inv_frame : Frame inv.
Proof.
  split.
  - intros d s Hd (H1 & H3 & H4). split_and!; [done| |done]. page_run. by rewrite (Hd "btn-continue") by left.
  - intros k Hk s (H1 & H3 & H4). split_and!; [done..|]. page_run. rewrite waiting_app. unfold waiting at 2. cbn. rewrite Hk. cbn.
    rewrite Nat.add_0_r. done.
  - intros f Hf s (H1 & H3 & H4). assert (Ha : allProvided (f (vars s)) = allProvided (vars s)).
    { pose proof (Hf (vars s) Evm : evm (f (vars s)) = evm (vars s)) as E1. pose proof (Hf (vars s) Sol : sol (f (vars s)) = sol (vars s)) as E2.
      pose proof (Hf (vars s) Icp : icp (f (vars s)) = icp (vars s)) as E3. unfold allProvided. by rewrite E1, E2, E3. }
    split_and!; page_run; [|by rewrite Ha..]. intros k e. rewrite Hf. apply H1.
  - intros s (H1 & H3 & H4). split_and!; [done| |done]. unfold sync_continue. page_run. apply negb_false_iff.
  - by intros url s (H1 & H3 & H4).
Qed.

Lemma set_inv k a src s : good k a -> inv s -> inv (put_vars (setAddress k a src (vars s)) s).
Proof.
  intros Hg (H1 & H3 & H4).
  assert (Ha : allProvided (vars s) = true -> allProvided (setAddress k a src (vars s)) = true).
  { unfold allProvided. rewrite !andb_true_iff, !bool_decide_eq_true. intros [[E S] I]. destruct k; split_and!; by eauto. }
  split_and!; page_run; [|by intros; apply Ha, H3|by intros; apply Ha, H4].
  intros k' e. destruct (decide (k' = k)) as [->|Hk].
  - destruct k; cbn; by intros [= <-].
  - assert (entry_of k' (setAddress k a src (vars s)) = entry_of k' (vars s)) as -> by (by destruct k, k'). apply H1.
Qed.

Lemma pasted_good s k k' a : pasted s k = Some (k', a) -> good k' a.
Proof.
  unfold pasted. cbn zeta. generalize (trim (el_value (dom s (id_of "input-" k)))). intros t.
  destruct (valid_for k t) eqn:Ev; [|done]. intros [= <- <-]. split; [|intros _; eauto].
  cbn. rewrite bool_decide_false; [done|]. intros E. rewrite E in Ev. by destruct k.
Qed.

Lemma gives_truthy s x k a : gives s x = Some (k, a) -> truthy (Some a) = true.
Proof.
  destruct x as [e|i [e|code [v|e]]]; cbn [gives]; [| |..]; try done.
  - destruct e; try done; [by intros [Hg _]%pasted_good|]. case_bool_decide; [by intros [Hg _]%pasted_good|done].
  - destruct (pending s !! i) as [c|]; [|done]. cbn [mbind option_bind]. destruct (given c v) as [[k' x]|]; cbn [mbind option_bind snd]; [|done].
    destruct (truthy (Some x)) eqn:E; [|done]. by intros [= -> ->].
Qed.

(** What an input may give. *)
Definition fair (s : page) (x : input Ev) : Prop :=
  match x with Answer _ _ => forall k a, gives s x = Some (k, a) -> trusted = true -> exists t, a = JStr t /\ valid_for k t = true | Event _ => True end.

Lemma gives_good s x k a : fair s x -> gives s x = Some (k, a) -> good k a.
Proof.
  intros Hf Hg. destruct x as [e|i an].
  - cbn [gives] in Hg. destruct e; try done; [by eapply pasted_good|]. case_bool_decide; [by eapply pasted_good|done].
  - split; [by eapply gives_truthy|]. by apply Hf.
Qed.

Lemma fair_after s x s' : fair s x -> inv s' -> after inv (gives s x) s'.
Proof. intros Hf Hs. destruct (gives s x) as [[k a]|] eqn:E; [|done]. intros src. apply set_inv; [by eapply gives_good|done]. Qed.

Lemma submit_click_inv s : inv s -> inv (submitAddresses config s).1.
Proof.
  intros (H1 & H3 & H4). unfold submitAddresses, fetch. page_run.
  destruct (el_disabled (dom s "btn-continue")) eqn:Ed; page_run; [split_and!; try done; by rewrite Ed|].
  specialize (H3 eq_refl). by split_and!; page_run.
Qed.

Lemma wallet_on_inv e s : inv s -> inv (exec (on config phantom plug has_clipboard e) s).
Proof.
  intros Hs. destruct (is_continue e) as [->|He].
  - cbn [on]. unfold exec, click. erewrite bind_run by reflexivity. destruct (el_disabled _); [exact Hs|]. by apply submit_click_inv.
  - apply event_keeps; [apply _|done|]. by apply fair_after.
Qed.

Lemma wallet_continue_inv i k a s : fair s (Answer i a) -> inv s -> pending s !! i = Some k ->
  inv (exec (continue ethereum k a) (put_pending (delete i (pending s)) s)).
Proof.
  intros Ha (H1 & H3 & H4) Hi. pose proof H4 as H4'. rewrite (waiting_delete is_submit _ _ _ Hi) in H4.
  assert (Hd : inv (put_pending (delete i (pending s)) s)).
  { split_and!; [done..|]. page_run. intros Hw. apply H4. destruct (is_submit k); lia. }
  destruct (is_submit k) eqn:Ek.
  - destruct k; try done. assert (Hall : allProvided (vars s) = true) by (apply H4; lia). unfold exec. cbn [continue]. apply submit_answer_keeps; [apply _|done| |].
    + intros d. destruct Hd as (D1 & D3 & D4). by split_and!.
    + intros t s' (D1 & D3 & D4). by split_and!.
  - apply answer_keeps; [apply _|done..|]. by apply fair_after.
Qed.

Lemma wallet_start_inv : (trusted = true -> forall k e, initial config (name_of k) = Some e -> exists t, address e = JStr t /\ valid_for k t = true) ->
  inv (start_page config).
Proof.
  intros Hi. apply (script_keeps config inv). split_and!; [|done|by unfold waiting]. intros k e He.
  assert (He' : initial config (name_of k) = Some e) by (by destruct k). split; [|intros Ht; by apply Hi].
  clear -He'. unfold initial in He'. destruct (truthy _) eqn:Et in He'; [|done]. injection He' as <-. cbn [address].
  by destruct (match get "initialAddresses" config with Some v => get (name_of k) v | None => None end).
Qed.

Lemma run_inv l :
  (trusted = true -> forall k e, initial config (name_of k) = Some e -> exists t, address e = JStr t /\ valid_for k t = true) ->
  (forall l1 x l2, l = l1 ++ x :: l2 -> fair (run l1) x) -> inv (run l).
Proof.
  intros Hi Ha. unfold run in *. apply (run_invariant_at (on config phantom plug has_clipboard) (continue ethereum) fair).
  - intros e s. apply wallet_on_inv.
  - intros i k a s. apply wallet_continue_inv.
  - done.
  - by apply wallet_start_inv.
Qed.
End Lemmas.

Section Submissions.
Context (config : json) (ethereum : option Ethereum) (phantom plug has_clipboard : bool).
Notation run := (run config ethereum phantom plug has_clipboard).
Notation latest := (latest config ethereum phantom plug has_clipboard).

Lemma submit_click s : inv false s -> exists d, exists l, 
  (submitAddresses config s).1 = put_dom d (put_pending l (match submission config (fun k => addressFor k (vars s)) with
    | Some q => if el_disabled (dom s "btn-continue") then s else put_sent q s | None => s end)).
Proof.
  intros (H1 & H3 & _). unfold submitAddresses, fetch. page_run. destruct (el_disabled (dom s "btn-continue")) eqn:Ed; page_run.
  - exists (dom s), (pending s). by destruct s, (submission _ _).
  - specialize (H3 eq_refl). unfold allProvided in H3. rewrite !andb_true_iff, !bool_decide_eq_true in H3. destruct H3 as [[[e He] [f Hf]] [g Hg]].
    assert (Ha : forall k x, entry_of k (vars s) = Some x -> address_or_empty (addressFor k (vars s)) = address x /\ addressFor k (vars s) = Some (address x)).
    { intros k x Hx. specialize (H1 k x Hx). unfold addressFor, address_or_empty. rewrite Hx. cbn [fmap option_fmap option_map]. by rewrite (proj1 H1). }
    unfold id, submission. destruct (Ha Evm e He) as [-> ->], (Ha Sol f Hf) as [-> ->], (Ha Icp g Hg) as [-> ->]. by eexists _, _.
Qed.

(** The page holds the latest addresses. *)
Lemma run_latest l : (forall k, addressFor k (vars (run l)) = latest l k) /\
  forall q, q ∈ sent (run l) -> exists l1 l2, l = l1 ++ Event ContinueClick :: l2 /\ submission config (latest l1) = Some q.
Proof.
  induction l as [|x l [IH1 IH2]] using rev_ind.
  - assert (Hs : stands (fun k => address <$> initial config (name_of k)) [] (start_page config)).
    { apply (script_keeps config (stands (fun k => address <$> initial config (name_of k)) [])). by split; [intros []|]. }
    destruct Hs as [H1 H2]. split; [exact H1|]. intros q Hq. change (run []) with (start_page config) in Hq. rewrite H2 in Hq. by apply elem_of_nil in Hq.
  - assert (Hinv : inv false (run l)) by (apply run_inv; [done|]; intros ? [?|? ?] ? ?; [done|by intros ? ? ? ?]).
    rewrite run_snoc. assert (Hold : forall q, q ∈ sent (run l) -> exists l1 l2, l ++ [x] = l1 ++ Event ContinueClick :: l2 /\ submission config (latest l1) = Some q).
    { intros q Hq. destruct (IH2 q Hq) as (l1 & l2 & -> & Hsub). exists l1, (l2 ++ [x]). by rewrite <- app_assoc. }
    assert (Hst : stands (latest l) (sent (run l)) (run l)) by done.
    assert (Hdone : forall s, stands (noted (gives (run l) x) (latest l)) (sent (run l)) s -> (forall k, addressFor k (vars s) = latest (l ++ [x]) k) /\
      forall q, q ∈ sent s -> exists l1 l2, l ++ [x] = l1 ++ Event ContinueClick :: l2 /\ submission config (latest l1) = Some q).
    { intros s [S1 S2]. split; [intros k; by rewrite latest_app|]. by rewrite S2. }
    destruct x as [e|i a]; cbn [turn].
    + destruct (is_continue e) as [->|He]; [|apply Hdone, event_keeps; [apply _|done|by apply stands_after]].
      cbn [on]. unfold exec, click. erewrite bind_run by reflexivity. destruct (el_disabled (dom (run l) "btn-continue")) eqn:Ed; [by apply Hdone|].
      destruct (submit_click (run l) Hinv) as (d & p & ->). rewrite Ed. assert (Heq : forall k, addressFor k (vars (run l)) = latest (l ++ [Event ContinueClick]) k) by (intros k; by rewrite latest_app).
      assert (Hsub : submission config (fun k => addressFor k (vars (run l))) = submission config (latest l)) by (unfold submission; by rewrite !IH1).
      rewrite Hsub. destruct (submission config (latest l)) as [q0|] eqn:E; [|by split]. split; [exact Heq|]. cbn [sent put_dom put_pending put_sent].
      intros q [Hq|Hq]%elem_of_app; [by apply Hold|]. apply list_elem_of_singleton in Hq as ->. by exists l, [].
    + destruct (pending (run l) !! i) as [c|] eqn:Ei; [|apply Hdone; cbn [gives]; destruct a as [?|? [?|?]]; try done; by rewrite Ei].
      set (s' := put_pending _ _). assert (Hs' : stands (latest l) (sent (run l)) s') by done.
      destruct (is_submit c) eqn:Ec; [|apply Hdone; by apply answer_keeps; [apply _|..|apply stands_after]].
      destruct c; try done. apply Hdone. assert (gives (run l) (Answer i a) = None) as -> by (cbn [gives]; destruct a as [?|? [?|?]]; try done; by rewrite Ei).
      unfold exec. cbn [continue]. apply submit_answer_keeps; [apply _|done|done|]. by intros t s.
Qed.
End Submissions.

(** ** What the server makes of a submission *)

Lemma valid_text k t : valid_for k t = true -> normalizedText (Some (JStr t)) = Some t.
Proof.
  intros Hv. unfold normalizedText. cbn [as_string]. assert (Hn : SetupEnv.no_space t).
  { destruct k; [by apply SetupEnv.evm_no_space|by apply SetupEnv.solana_no_space|by apply SetupEnv.icp_no_space]. }
  rewrite SetupEnv.trim_no_space by done. rewrite bool_decide_false; [done|]. intros ->. by destruct k.
Qed.

Lemma submission_taken `{UrlApi} (token : string) url e s i : pathname url = "/capture" -> assoc "token" (parse_query (search url)) = Some token ->
  valid_for Evm e = true -> valid_for Sol s = true -> valid_for Icp i = true ->
  handleWalletRequest token "POST" url (JObj [("evmAddress", JStr e); ("solanaAddress", JStr s); ("icpAddress", JStr i)]) None =
    (Json 200 (JObj [("success", JBool true)]),
     Some (Submitted {| evmAddress := Some e; solanaAddress := Some s; icpAddress := Some i |})).
Proof.
  intros Hp Ht He Hs Hi. unfold handleWalletRequest. rewrite Hp, Ht. rewrite (bool_decide_true (Some token = Some token)) by done.
  assert (Hn : normalizeWalletAddresses (JObj [("evmAddress", JStr e); ("solanaAddress", JStr s); ("icpAddress", JStr i)]) =
    {| evmAddress := Some e; solanaAddress := Some s; icpAddress := Some i |}).
  { unfold normalizeWalletAddresses. f_equal; [exact (valid_text Evm e He)|exact (valid_text Sol s Hs)|exact (valid_text Icp i Hi)]. }
  rewrite Hn. unfold validateWalletAddresses, bad. cbn [WalletCapture.evmAddress WalletCapture.solanaAddress WalletCapture.icpAddress].
  cbn [valid_for] in *. rewrite He, Hs, Hi, !andb_false_r. unfold no_address. cbn [WalletCapture.evmAddress fmap option_fmap option_map truthy].
  assert (Hne : e <> "") by (by intros ->). by rewrite (bool_decide_false _ Hne).
Qed.

(** ** Properties *)

(** C38: the wallet page sends the three addresses it was given last, and if they are
    well-formed the server takes exactly these: whatever the operator does and whatever
    the extensions and the server answer in whatever order, each submission is made by
    a click on the button, and its body holds for each of the three wallets the address
    that was given last before that click - by an extension, by saving a text that is
    well-formed for that wallet, or else the one the server had saved - so that none is
    sent before each wallet has one.  If what the extensions give and what was saved is
    well-formed too, the server answers the submission with success and resolves the
    capture with exactly these addresses. *)
Theorem wallet_page_sound `{UrlApi} (config : json) (ethereum : option Ethereum) (phantom plug has_clipboard : bool) (l : list (input Ev)) :
  let run := run config ethereum phantom plug has_clipboard in
  let latest := latest config ethereum phantom plug has_clipboard in
  let body a b c := JObj [("evmAddress", a); ("solanaAddress", b); ("icpAddress", c)] in
  let well_formed (k : key) (a : json) := exists t, a = JStr t /\ valid_for k t = true in
  (forall q, q ∈ sent (run l) -> exists l1 l2 a b c, l = l1 ++ Event ContinueClick :: l2 /\
     latest l1 Evm = Some a /\ latest l1 Sol = Some b /\ latest l1 Icp = Some c /\ q = POST (as_text (get "submitUrl" config)) (body a b c)) /\
  ((forall k e, initial config (name_of k) = Some e -> well_formed k (address e)) ->
   (forall l1 i answer l2 k a, l = l1 ++ Answer i answer :: l2 -> gives (run l1) (Answer i answer) = Some (k, a) -> well_formed k a) ->
   forall q, q ∈ sent (run l) -> exists l1 l2 e so i, l = l1 ++ Event ContinueClick :: l2 /\
     latest l1 Evm = Some (JStr e) /\ latest l1 Sol = Some (JStr so) /\ latest l1 Icp = Some (JStr i) /\
     q = POST (as_text (get "submitUrl" config)) (body (JStr e) (JStr so) (JStr i)) /\
     forall token url, pathname url = "/capture" -> assoc "token" (parse_query (search url)) = Some token ->
       handleWalletRequest token "POST" url (body (JStr e) (JStr so) (JStr i)) None =
         (Json 200 (JObj [("success", JBool true)]), Some (Submitted {| evmAddress := Some e; solanaAddress := Some so; icpAddress := Some i |}))).
Proof.
  cbn zeta. assert (Hsent : forall q, q ∈ sent (run config ethereum phantom plug has_clipboard l) -> exists l1 l2 a b c, l = l1 ++ Event ContinueClick :: l2 /\
    latest config ethereum phantom plug has_clipboard l1 Evm = Some a /\ latest config ethereum phantom plug has_clipboard l1 Sol = Some b /\
    latest config ethereum phantom plug has_clipboard l1 Icp = Some c /\
    q = POST (as_text (get "submitUrl" config)) (JObj [("evmAddress", a); ("solanaAddress", b); ("icpAddress", c)])).
  { intros q Hq. destruct (proj2 (run_latest config ethereum phantom plug has_clipboard l) q Hq) as (l1 & l2 & Hl & Hs). unfold submission in Hs.
    destruct (latest _ _ _ _ _ l1 Evm) as [a|] eqn:Ea; [|done]. destruct (latest _ _ _ _ _ l1 Sol) as [b|] eqn:Eb; [|done].
    destruct (latest _ _ _ _ _ l1 Icp) as [c|] eqn:Ec; [|done]. injection Hs as <-. by exists l1, l2, a, b, c. }
  split; [exact Hsent|]. intros Hi Hf q Hq. destruct (Hsent q Hq) as (l1 & l2 & a & b & c & Hl & Ha & Hb & Hc & ->).
  assert (Hinv : inv true (run config ethereum phantom plug has_clipboard l1)).
  { apply run_inv; [by intros _|]. intros l3 [e|j an] l4 Hl1; [done|]. intros k x Hg _.
    apply (Hf l3 j an (l4 ++ Event ContinueClick :: l2) k x); [|done]. by rewrite Hl, Hl1, <- app_assoc. }
  assert (Hw : forall k x, latest config ethereum phantom plug has_clipboard l1 k = Some x -> exists t, x = JStr t /\ valid_for k t = true).
  { intros k x Hx. rewrite <- (proj1 (run_latest config ethereum phantom plug has_clipboard l1)) in Hx. unfold addressFor in Hx.
    apply fmap_Some in Hx as (e & He & ->). destruct Hinv as [He' _]. by apply (He' k e He). }
  destruct (Hw Evm a Ha) as (e & -> & He), (Hw Sol b Hb) as (so & -> & Hso), (Hw Icp c Hc) as (i & -> & Hicp).
  exists l1, l2, e, so, i. split_and!; [done..|]. intros token url Hp Ht. by apply submission_taken.
Qed.

Module Demo.
Definition config : json :=
  JObj [("submitUrl", JStr "/capture?token=tok"); ("startPage", JStr "overview");
        ("initialAddresses", JObj [("solanaAddress", JStr "11111111111111111111111111111111")])].
Definition evm_text : string := "0x52908400098527886E0F7030069857D2E4169EE7".
Definition metamask : Provider :=
  {| isMetaMask := true; isPhantom := false; isCoinbaseWallet := false; isBraveWallet := false; isRabby := false; isFrame := false; isTrust := false;
     isPlug := false; can_request := true |}.
Definition phantom_too : Provider :=
  {| isMetaMask := true; isPhantom := true; isCoinbaseWallet := false; isBraveWallet := false; isRabby := false; isFrame := false; isTrust := false;
     isPlug := false; can_request := true |}.
Definition browser : option Ethereum := Some {| eth_self := phantom_too; eth_providers := [phantom_too; metamask] |}.
Definition go : list (input Ev) -> page := run config browser true false true.
Definition tick : answer := Answered 0 (Ok JNull).
Definition clicks : list (input Ev) :=
  [Event ContinueClick; Event (ConnectClick Evm); Answer 0 tick; Answer 0 (Answered 0 (Ok (JArr [JStr evm_text])));
   Event (TypeAddress Icp "not a principal"); Event (SaveClick Icp); Event (TypeAddress Icp " aaaaa-aa "); Event (SaveClick Icp);
   Event ContinueClick; Event ContinueClick].
Definition body : json :=
  JObj [("evmAddress", JStr evm_text); ("solanaAddress", JStr "11111111111111111111111111111111"); ("icpAddress", JStr "aaaaa-aa")].
End Demo.

(** MetaMask is told from another extension that claims to be it. *)
Example metamask_found : getMetaMaskProvider [] Demo.browser = Some Demo.metamask.
Proof. reflexivity. Qed.

Example wallet_clicks : sent (Demo.go Demo.clicks) = [POST "/capture?token=tok" Demo.body].
Proof. vm_compute. done. Qed.

(** An address that is pasted while the addresses are being saved turns the button on
    again, and they are sent a second time. *)
Example sent_twice :
  let l := Demo.clicks ++ [Event (SaveClick Icp); Event ContinueClick] in
  sent (Demo.go l) = [POST "/capture?token=tok" Demo.body; POST "/capture?token=tok" Demo.body].
Proof. vm_compute. done. Qed.

Module Pasted.
Definition clicks : list (input Ev) :=
  [Event (TypeAddress Evm Demo.evm_text); Event (SaveClick Evm); Event (TypeAddress Icp "aaaaa-aa"); Event (SaveClick Icp); Event ContinueClick].
End Pasted.

Lemma wallet_page_sound_witness : exists l1 e so i, Pasted.clicks = l1 ++ [Event ContinueClick] /\
  latest Demo.config Demo.browser true false true l1 Evm = Some (JStr e) /\
  Demo.body = JObj [("evmAddress", JStr e); ("solanaAddress", JStr so); ("icpAddress", JStr i)] /\ forall token url,
  @pathname url = "/capture" -> assoc "token" (@parse_query ToyUrl.api (@search url)) = Some token ->
  @handleWalletRequest ToyUrl.api token "POST" url Demo.body None =
    (Json 200 (JObj [("success", JBool true)]), Some (Submitted {| evmAddress := Some e; solanaAddress := Some so; icpAddress := Some i |})).
Proof.
  destruct (@wallet_page_sound ToyUrl.api Demo.config Demo.browser true false true Pasted.clicks) as [_ Hp].
  destruct Hp with (q := POST "/capture?token=tok" Demo.body) as (l1 & l2 & e & so & i & Hl & He & _ & _ & Hb & Hs).
  - intros k e He. destruct k; cbn in He; [discriminate He| |discriminate He]. injection He as <-. eexists. split; [reflexivity|vm_compute; reflexivity].
  - intros l1 i a l2 k v Hl. exfalso. destruct l1 as [|? [|? [|? [|? [|? [|? l1]]]]]]; discriminate Hl.
  - vm_compute. left.
  - exists l1, e, so, i. assert (l2 = []) as -> by (destruct l1 as [|? [|? [|? [|? [|? [|? l1]]]]]]; first [discriminate Hl | by inversion Hl]).
    assert (Hd : Demo.body = JObj [("evmAddress", JStr e); ("solanaAddress", JStr so); ("icpAddress", JStr i)]) by (injection Hb; intros <- <- <-; reflexivity).
    rewrite Hd. split; [exact Hl|]. split; [exact He|]. split; [reflexivity|]. exact Hs.
Defined.
